(* ===== verification/_CoqProject ===== *)
-Q . S2P
Prelude.v
BitOps.v
Mmio.v
Regs.v
Globals.v
BoardTables.v
FpgaStatus.v
ResetManager.v
FpgaManager.v
Watchdog.v
Uart.v
Timer.v
FreezeController.v
ScanManager.v
ClockManager.v
SystemManager.v
SdramTest.v
Interrupts.v
RamSize.v
SdramProt.v
SdramMmr.v
Spl.v
Crc32.v
Sectors.v
ImageBoot.v
DwMmc.v
Mmc.v
MmcInit.v
SdCard.v
SdInit.v
SdSim.v
CardStack.v
SeqRegs.v
SeqIo.v
SeqScc.v
SeqTests.v
SeqVfifo.v
SeqCenter.v
Sequencer.v
SeqBus.v
SeqSafe.v
SeqRange.v
SeqSim.v
SeqBoard.v
SeqLevel.v
SeqEye.v
SeqRead.v
Pl330.v
DmaEngine.v
DmaTransfer.v
EccInit.v
Blinker.v
BlinkerMisc.v
BlinkerPd.v
DevmemTools.v
