(* ===== verification/Prelude.v ===== *)
(** The software of a DE1-SoC system, from the first instruction of the
    preloader to the Linux drivers of a peripheral in the FPGA.

    ** The program

    The repository builds an embedded Linux system for the Terasic DE1-SoC.
    Its own code logic is in three places, named below with these prefixes:

    - U = src/DE1-SoC/software/spl_bsp/uboot-socfpga: the preloader (U-Boot SPL)
      with the board data generated for this design (U/board/altera/socfpga).
      S = U/arch/arm/cpu/armv7/socfpga holds the drivers of the chip.
    - src/DE1-SoC/ip/blinker/blinker.vhd: a peripheral in the FPGA fabric.
    - src/driver: Linux drivers and command line tools for that peripheral.

    The preloader runs save_boot_params, s_init and then spl_board_init, which
    calls every component once, in an order the hardware depends on: freeze the
    I/O banks, hold everything in reset, reprogram the PLLs, shift the I/O
    configuration into the frozen banks, release resets, thaw, open the console,
    configure and calibrate the memory, open the interconnect to non-secure
    masters, enable interrupts.  The components share the bus, the C globals
    and, through the hardware, each other's preconditions.

    ** The model

    - Prelude: C's integers (a word is a [Z] reduced by [u32]), bit masks, lists.
    - BitOps: bit counting and 64-bit division (include/linux/bitops.h,
      arch/arm/include/asm/bitops.h, include/div64.h, lib/div64.c).
    - Mmio: programs that talk to memory mapped hardware.  A program is a state
      passing function that returns how it ended, the final state and the trace
      of bus accesses and console messages.  The hardware is any instance of the
      class [Device]; a theorem that needs a register to behave as memory says so
      with the class [Reg].  [wp], [only], [total], [keeps] and [preserves] are
      the judgements, with one rule per program former.
    - Regs: the constants of the header files (generated from them, by name).
    - Globals: the C globals of the preloader as one record.
    - BoardTables: the pin multiplexing and I/O scan chain tables of the board.
    - FpgaStatus, FpgaManager: S/fpga_manager.c and fpgamgr_axi_write of
      S/lowlevel_init.S.  ResetManager: S/reset_manager.c.  Watchdog:
      U/drivers/watchdog/designware_wdt.c.  Uart: U/drivers/serial/ns16550.c and
      serial_ns16550.c.  Timer: S/timer.c, U/lib/time.c.  FreezeController,
      ScanManager, ClockManager: the files of those names under S.
      SystemManager: S/system_manager.c and S/nic301.c.  SdramTest:
      S/sdram_test.c.  Interrupts: S/gic.c, S/interrupts.c, S/ecc_ram.c.
      RamSize: U/common/memsize.c.  SdramProt, SdramMmr: S/sdram.c.
    - Spl: S/spl.c, S/s_init.c, S/misc.c: the composition.  The class [Stable]
      is the interface between its stages and the globals.
    - Crc32: U/lib/crc32.c.  ImageBoot: board_init_r and the checked jump of
      U/common/spl/spl.c, the image header of U/include/image.h and
      U/drivers/mmc/spl_mmc.c.  The card driver is a record of operations; the
      class [Card] says what a working one does.
    - Sectors: blocks of 512 bytes in memory and on a card.  DwMmc: the
      controller driver, U/drivers/mmc/dw_mmc.c and altera_dw_mmc.c.  Mmc, MmcInit:
      U/drivers/mmc/mmc.c, the block layer, and identification and start-up; the
      host controller is a record of functions.  SdCard: an SD card as a step
      relation, the class [SdHost] of hosts that carry its commands, and the block
      layer on such a host.  SdInit: identification on it.  SdSim: the relation as
      a function, and a host around it.  CardStack: the card driver implements
      [Card], and the loader with both drivers ([preloader]).
    - The calibration sequencer, Q = U/board/altera/socfpga/sdram/sequencer.c, as
      the preprocessor leaves it for this board: SeqRegs, the constants of its
      headers; SeqIo, its variables, the access to the hardware (sdram_io.h) and
      the commands to the memory; SeqScc, the registers of phases and delays;
      SeqTests, the tests that write and read patterns; SeqVfifo, the search for
      the enable of a read strobe; SeqCenter, the centring of the pins when
      reading and writing; Sequencer, the stages and sdram_calibration; SeqLevel,
      the functions that no path of this board calls.
    - About the sequencer: SeqBus, which events a run can have; SeqSafe, a
      judgement on the values written to the delay registers, under the class
      [DelayRegs]; SeqRange, the judgement for every stage; SeqSim, a memory with
      eyes to calibrate; SeqBoard, the board initialisation with the sequencer;
      SeqEye, the windows that sweeps find for pins with eyes; SeqRead, the
      centring of the reads on a memory with eyes (the class [ReadEyes]).
    - Pl330: the DMA driver, U/drivers/dma/pl330.c with U/include/pl330.h, and
      sdram_ecc_init of S/sdram.c.  DmaEngine: the instructions of the engine as a
      step function, and that the assembled loops move the bytes they should.
      DmaTransfer: clearing and copying a range.  EccInit: running the engine.
    - Blinker: blinker.vhd as a synchronous circuit, and blinker_module.h.
    - BlinkerMisc: the file operations and interrupt handler of
      src/driver/blinker_misc_module as trees of kernel services, with a lone run
      ([exec]) and the interleaving of any number of processes, the handler and
      the circuit ([step]).
    - BlinkerPd: src/driver/blinker_pd_module.  DevmemTools: the three tools of
      src/driver that map /dev/mem.

    Definitions keep the names of the C functions.  A function that is long or
    repeats itself is cut where the code has a comment or a [case] label, and the
    pieces are composed in its order.

    ** What is shown

    - Programming the FPGA (FpgaManager): the result on every path, the order of
      the protocol, and that the bridges are shut all the while.
    - I/O configuration (FreezeController, ScanManager, SystemManager, Spl): the
      register words of a freeze and a thaw, that the scan engine receives exactly
      the bits of the table and only while the banks are frozen, and the routing
      of peripherals to the fabric.
    - Clocks and time (ClockManager, Timer, Watchdog, Uart): the order of the PLL
      sequence, the frequencies it leads to, the accuracy of delays that do not wrap, the
      watchdog's range, the baud rate and the order of console output.
    - Memory (SdramMmr, SdramProt, RamSize, SdramTest, BitOps): all registers
      verified before the configuration is applied, the protection rules refine an
      access policy, the size computed, the size probed, what the diagnostic
      tests.
    - Interrupts: quiet after initialisation, dispatch to the right handler.
    - The calibration (SeqBus, SeqRange, SeqRead): it ends whatever the memory answers, its
      result, status register, configuration and messages agree, it stays in the
      block of the controller, and every delay it sets exists.  Reads are centred in
      the pins' eyes, or the eye is out of sight (SeqRead).
    - The composition (Spl with any calibration, SeqBoard with the sequencer):
      globals stay well formed, no scan outside the frozen window, no non-secure
      access before the memory is configured and calibrated.
    - Starting the next image (Crc32, ImageBoot): the checksum in chunks is the
      shift register over the whole and detects every burst of four bytes; the
      image on the card is what runs, after its check; the ways around the check.
    - The SD card (DwMmc, SdCard, SdInit, CardStack): the DMA descriptors tile the
      buffer, a command that succeeds went through the whole protocol, the card's
      clock is off while it changes; every card of version 2 or later is brought
      into the transfer state; reads and writes of sectors are copies; the loader
      on this driver.
    - DMA (DmaEngine, DmaTransfer, EccInit): a transfer that the driver accepts
      runs on the engine to its end and clears or copies exactly its range, or, for
      the misaligned addresses that the driver accepts, stops at the first access
      that they do not suit; which sizes are accepted; what a return of
      sdram_ecc_init means, and does not.
    - The blinker: its rate and light pattern; mutual exclusion, progress and the
      exception to it in the misc driver; what its ioctls do to the circuit; error
      paths of probe; one access per command line of the tools, and the command
      lines that are undefined.

    Several theorems describe behaviour that the code surely does not intend,
    such as the exchange of two configuration bits by every ioctl.

    ** Fuel and bounds

    Loops with a bound in the code run on the bound, in binary where it is large
    ([for_upto]).  Busy waits without a bound run on a [fuel] argument and stop
    with [NoFuel]; theorems about them are stated for every fuel and say what the
    run saw until then, or, where a result is promised, which readings let it
    return.  [log2_loop] has 32 rounds for a 32-bit operand, the division 64
    rounds, the memory size 33, each with a theorem that they suffice.  A transfer
    of sectors takes one unit of fuel for each part of b_max sectors; the polls
    of a card run on the code's counters, and a card may be busy for fewer polls
    than these (c_power, c_prog).  The sequencer has no fuel argument: its loops
    run on their bounds ([for_each], [for_st], [for_acc]), or on a number of rounds
    that covers every value of the unsigned counter, so that calibration_in_range
    includes that the calibration ends.  The loop of a DMA transfer has one turn
    more than the buffer has bytes; every turn stores at least five.
    [Halt] is an endless loop of the code, [Undef] undefined behaviour.

    ** Conventions

    Console output is an event that carries the message, without its line end
    and, in the preloader, without the formatted numbers.  debug() and
    DEBUG_MEMORY are off in this configuration and leave no trace.  Byte accesses
    of the UART and of the blinker are bus accesses with the byte in the low
    bits.  Barriers and cache maintenance have no effect on the model.

    ** Not modelled

    - The branches of Q for other memories and devices and its reports, which are
      compiled out, as is ALTERA_ASSERT.
    - The call of sdram_ecc_init in S/spl.c, which is compiled out: ECC is off on
      this board.  The engine has no peripheral requests: the driver's code for
      them is modelled, the theorems are for transfers between memories.  The
      instructions of the engine are not code of the repository; DmaEngine states
      them from the documentation of the part.
    - Compiled out here: FPGA and FAT loading in S/spl.c, S/debug_memory.c.
    - The allocator: mem_malloc_init in board_init_r, which clears the heap and
      sets the allocator's variables.
    - Stacks, the CPU's interrupt mask and the exception entry (assembly).
    - The identification strings and the trace code of mmc.c, and calloc failing
      in add_dwmci and altera_dwmmc_init.  The theorems about cards are for SD
      cards; the code for MMC cards is modelled, without a card to run it on.
    - The loaders for other boot devices, which are compiled out, and the full
      U-Boot.
    - probe, remove and the attributes of blinker_misc_module: the source has
      placeholders for their bodies.
    - src/buildroot_18 (another checkout of U-Boot), generated HDL and hand-off
      data, scripts and images. *)

From Stdlib Require Export ZArith Lia ZifyNat Bool List String.
From stdpp Require Export base list gmap strings.

(** ** Notation for the bit operations of C *)

Declare Scope c_scope.
Delimit Scope c_scope with c.
Infix ".&" := Z.land (at level 42, left associativity) : c_scope.
Infix ".|" := Z.lor (at level 44, left associativity) : c_scope.
Infix ".^" := Z.lxor (at level 43, left associativity) : c_scope.
Infix ".<<" := Z.shiftl (at level 41, left associativity) : c_scope.
Infix ".>>" := Z.shiftr (at level 41, left associativity) : c_scope.
Notation ".~ x" := (Z.lnot x) (at level 35, right associativity) : c_scope.
Global Open Scope Z_scope.
Global Open Scope c_scope.

Create HintDb hw discriminated.
Create Rewrite HintDb hw.
#[export] Hint Constants Opaque : hw.

(** ** Machine words

    [unsigned long], [u32] and [ulong] are 32 bits wide on the ARMv7 target;
    an unsigned expression is reduced with [u32], a conversion to [long] or
    [int] reads the same bits as two's complement with [s32]. *)

Definition u32 (x : Z) : Z := x mod 2 ^ 32.
Definition u8 (x : Z) : Z := x mod 2 ^ 8.
Definition s32 (x : Z) : Z := (x + 2 ^ 31) mod 2 ^ 32 - 2 ^ 31.
Definition word (x : Z) : Prop := 0 <= x < 2 ^ 32.
Definition truthy (x : Z) : bool := negb (x =? 0).
Definition b2z (b : bool) : Z := if b then 1 else 0.

(** Solves bit equalities pointwise, by cases on which operand has the bit. *)
Ltac bitwise :=
  apply Z.bits_inj'; intros ?bit ?Hbit;
  repeat first
    [ rewrite Z.land_spec | rewrite Z.lor_spec | rewrite Z.lxor_spec
    | rewrite Z.lnot_spec by lia | rewrite Z.bits_0 ];
  repeat match goal with
         | |- context [Z.testbit ?x ?i] => destruct (Z.testbit x i) eqn:?
         end; cbn; try congruence; try reflexivity.

Lemma word_u32 x : word (u32 x).
Proof. unfold word, u32. apply Z.mod_pos_bound. lia. Qed.

Lemma u32_word x : word x -> u32 x = x.
Proof. unfold word, u32. intros. apply Z.mod_small. lia. Qed.

Lemma s32_small x : - 2 ^ 31 <= x < 2 ^ 31 -> s32 x = x.
Proof. intros. unfold s32. rewrite Z.mod_small; lia. Qed.

Lemma u32_idem x : u32 (u32 x) = u32 x.
Proof. apply u32_word, word_u32. Qed.

Lemma word_0 : word 0.
Proof. unfold word; lia. Qed.

Lemma word_bits x : word x <-> 0 <= x /\ forall i, 32 <= i -> Z.testbit x i = false.
Proof.
  unfold word. split.
  - intros [H0 H1]. split; [done|]. intros i Hi.
    destruct (Z.eq_dec x 0) as [->|]; [apply Z.bits_0|].
    apply Z.bits_above_log2; [done|].
    apply Z.log2_lt_pow2 in H1; lia.
  - intros [H0 Hb]. split; [done|].
    destruct (Z.eq_dec x 0) as [->|]; [lia|].
    apply Z.log2_lt_pow2; [lia|].
    destruct (Z.lt_ge_cases (Z.log2 x) 32) as [|Hge]; [done|].
    specialize (Hb _ Hge). rewrite Z.bit_log2 in Hb by lia. done.
Qed.

Lemma word_land_l a b : word a -> word (a .& b).
Proof.
  rewrite !word_bits. intros [? Hb]. split; [apply Z.land_nonneg; auto|].
  intros i Hi. rewrite Z.land_spec, Hb by done. done.
Qed.

Lemma word_land_r a b : word b -> word (a .& b).
Proof. rewrite Z.land_comm. apply word_land_l. Qed.

Lemma word_lor a b : word a -> word b -> word (a .| b).
Proof.
  rewrite !word_bits. intros [? Ha] [? Hb]. split; [by apply Z.lor_nonneg|].
  intros i Hi. by rewrite Z.lor_spec, Ha, Hb.
Qed.

Lemma word_shiftr a n : word a -> 0 <= n -> word (a .>> n).
Proof.
  unfold word. intros [H0 H1] Hn. split; [by apply Z.shiftr_nonneg|].
  rewrite Z.shiftr_div_pow2 by done.
  apply Z.le_lt_trans with (2 := H1). apply Z.div_le_upper_bound; [lia|].
  pose proof (Z.pow_pos_nonneg 2 n). nia.
Qed.

#[export] Hint Resolve word_u32 word_0 word_land_l word_land_r word_lor : hw.
#[export] Hint Rewrite u32_idem : hw.

(** Does a term mention a variable of the proof? *)
Ltac has_var v := match v with context [?x] => is_var x end.

Ltac word_solve :=
  match goal with
  | H : word ?x |- word ?x => exact H
  | |- word (u32 _) => apply word_u32
  | |- word (_ .| _) => apply word_lor; word_solve
  | |- word (_ .& _) => first [ apply word_land_l; word_solve | apply word_land_r; word_solve ]
  | |- word (_ .>> _) => apply word_shiftr; [ word_solve | lia ]
  | |- word ?x => tryif has_var x then solve [unfold word in *; lia]
                  else solve [unfold word; vm_compute; split; congruence]
  end.

(** [lia] with division and modulo by constants, on [nat] and [Z]. *)
Ltac div_lia := zify; Z.to_euclidean_division_equations; lia.

(** Evaluates a C condition on a constant. *)
Ltac eval_truthy :=
  match goal with
  | |- context [truthy ?x] => let v := eval vm_compute in (truthy x) in change (truthy x) with v
  end; cbv iota.

(** ** Single bits and fields *)

Definition bit (i : Z) : Z := 1 .<< i.

Lemma bit_pow2 i : 0 <= i -> bit i = 2 ^ i.
Proof. intros. unfold bit. rewrite Z.shiftl_mul_pow2; lia. Qed.

Lemma testbit_bit i j : 0 <= i -> 0 <= j -> Z.testbit (bit i) j = (i =? j).
Proof. intros. rewrite bit_pow2 by done. apply Z.pow2_bits_eqb. lia. Qed.

Lemma land_pow2_testbit x i :
  0 <= i -> truthy (x .& bit i) = Z.testbit x i.
Proof.
  intros Hi. unfold truthy. destruct (Z.testbit x i) eqn:E.
  - apply negb_true_iff, Z.eqb_neq. intros H.
    assert (H2 : Z.testbit (x .& bit i) i = false) by (rewrite H; apply Z.bits_0).
    rewrite Z.land_spec, E, testbit_bit, Z.eqb_refl in H2 by done. done.
  - apply negb_false_iff, Z.eqb_eq. apply Z.bits_inj'. intros j Hj.
    rewrite Z.land_spec, testbit_bit, Z.bits_0 by done.
    destruct (Z.eqb_spec i j); subst; [by rewrite E|]. apply andb_false_r.
Qed.

(** Clearing a mask and then or-ing a value inside the mask replaces exactly
    the bits of the mask. *)
Lemma field_update_bits x m v i :
  0 <= i -> v .& m = v ->
  Z.testbit ((x .& .~ m) .| v) i = if Z.testbit m i then Z.testbit v i else Z.testbit x i.
Proof.
  intros Hi Hv. rewrite Z.lor_spec, Z.land_spec, Z.lnot_spec by done.
  assert (E : Z.testbit (v .& m) i = Z.testbit v i) by (by rewrite Hv).
  rewrite Z.land_spec in E.
  destruct (Z.testbit m i), (Z.testbit v i), (Z.testbit x i); done.
Qed.

Lemma field_update_read x m v : v .& m = v -> ((x .& .~ m) .| v) .& m = v.
Proof.
  intros Hv. apply Z.bits_inj'. intros i Hi.
  rewrite Z.land_spec, field_update_bits by done.
  assert (E : Z.testbit (v .& m) i = Z.testbit v i) by (by rewrite Hv).
  rewrite Z.land_spec in E.
  destruct (Z.testbit m i), (Z.testbit v i), (Z.testbit x i); done.
Qed.

Lemma field_update_frame x m v n :
  v .& m = v -> n .& m = 0 -> ((x .& .~ m) .| v) .& n = x .& n.
Proof.
  intros Hv Hn. apply Z.bits_inj'. intros i Hi.
  assert (E : Z.testbit (n .& m) i = false) by (rewrite Hn; apply Z.bits_0).
  rewrite Z.land_spec in *. rewrite field_update_bits, Z.land_spec by done.
  destruct (Z.testbit m i), (Z.testbit n i); rewrite ?andb_false_r; done.
Qed.

Lemma lor_field_frame x m n : n .& m = 0 -> (x .| m) .& n = x .& n.
Proof.
  intros Hn. apply Z.bits_inj'. intros i Hi.
  assert (E : Z.testbit (n .& m) i = false) by (rewrite Hn; apply Z.bits_0).
  rewrite !Z.land_spec, Z.lor_spec in *.
  destruct (Z.testbit m i), (Z.testbit n i), (Z.testbit x i); done.
Qed.

Lemma bic_field_frame x m n : n .& m = 0 -> (x .& .~ m) .& n = x .& n.
Proof.
  intros Hn. apply Z.bits_inj'. intros i Hi.
  assert (E : Z.testbit (n .& m) i = false) by (rewrite Hn; apply Z.bits_0).
  rewrite !Z.land_spec, Z.lnot_spec in * by done.
  destruct (Z.testbit m i), (Z.testbit n i), (Z.testbit x i); done.
Qed.

Lemma bic_self x m : (x .& .~ m) .& m = 0.
Proof. bitwise. Qed.

Lemma lor_self x m : (x .| m) .& m = m.
Proof. bitwise. Qed.

(** Any chain of masking operations on a word is one [and] and one [or]. *)
Definition masked (v a b : Z) : Z := (v .& a) .| b.

Lemma masked_leaf v : v = masked v (-1) 0.
Proof. unfold masked. by rewrite Z.land_m1_r, Z.lor_0_r. Qed.
Lemma masked_and v a b c : masked v a b .& c = masked v (a .& c) (b .& c).
Proof. unfold masked. by rewrite Z.land_lor_distr_l, Z.land_assoc. Qed.
Lemma masked_or v a b c : masked v a b .| c = masked v a (b .| c).
Proof. unfold masked. by rewrite Z.lor_assoc. Qed.
Lemma masked_eq v a b a' b' : a .& .~ b = a' .& .~ b' -> b = b' -> masked v a b = masked v a' b'.
Proof.
  intros Ha <-. assert (E : forall x, masked v x b = masked v (x .& .~ b) b).
  { intros x. unfold masked. bitwise. }
  by rewrite (E a), Ha, <- E.
Qed.

(** Decides an equation between two chains of masks on the same word [v]. *)
Ltac mask_solve v :=
  generalize v; let w := fresh "w" in intros w;
  rewrite (masked_leaf w); generalize w; intros w';
  repeat first [ rewrite masked_and | rewrite masked_or ];
  apply masked_eq; vm_compute; reflexivity.

Lemma masked_const v a b : a .& .~ b = 0 -> masked v a b = b.
Proof.
  intros Ha. rewrite (masked_eq v a b 0 b); [|by rewrite Ha, Z.land_0_l|done].
  unfold masked. by rewrite Z.land_0_r.
Qed.

(** Evaluates a chain of masks on [v] that decides every bit. *)
Ltac mask_eval v :=
  generalize v; let w := fresh "w" in intros w;
  rewrite (masked_leaf w); generalize w; intros ?;
  repeat first [ rewrite masked_and | rewrite masked_or ];
  rewrite masked_const by (vm_compute; reflexivity); vm_compute; reflexivity.

(** ** Lists *)

Lemma Forall_concat_iff {A} (P : A -> Prop) ls :
  Forall P (List.concat ls) <-> Forall (Forall P) ls.
Proof.
  induction ls as [|l ls IH]; cbn; [done|].
  rewrite Forall_app, Forall_cons, IH. done.
Qed.

(** Decides that a concrete table holds 32-bit words. *)
Lemma words_dec l : forallb (fun x => (0 <=? x) && (x <? 2 ^ 32)) l = true -> Forall word l.
Proof.
  induction l as [|x l IH]; cbn [forallb]; [constructor|].
  rewrite !andb_true_iff. intros [[H0 H1] Hl]. constructor; [unfold word; lia|auto].
Qed.

Lemma filter_nil_Forall {A} (f : A -> bool) l :
  List.filter f l = [] <-> Forall (fun x => f x = false) l.
Proof.
  induction l as [|x l IH]; cbn; [done|].
  rewrite Forall_cons, <- IH. destruct (f x) eqn:E; split.
  - done.
  - intros [? _]. done.
  - done.
  - by intros [_ ?].
Qed.

Lemma last_shift {A} (x : A) l d : List.last (x :: l) d = List.last l x.
Proof.
  revert x d. induction l as [|y l IH]; intros x d; [done|].
  transitivity (List.last (y :: l) d); [done|]. rewrite IH. symmetry. apply IH.
Qed.
