(* ===== verification/BitOps.v ===== *)
(** Bit counting and 64-bit division: generic_fls and the Hamming
    weights of include/linux/bitops.h, __ilog2 of asm/bitops.h, and the
    division of include/div64.h and lib/div64.c.  Each is proved equal to its
    mathematical definition. *)

From S2P Require Import Prelude.

Definition u64 (x : Z) : Z := x mod 2 ^ 64.

(** ** Last set bit *)

(** [x] is the 32-bit pattern of the C [int]. *)
Definition generic_fls (x : Z) : Z :=
  let r := 32 in
  if x =? 0 then 0 else
  let '(x, r) := if x .& 0xffff0000 =? 0 then (u32 (x .<< 16), r - 16) else (x, r) in
  let '(x, r) := if x .& 0xff000000 =? 0 then (u32 (x .<< 8), r - 8) else (x, r) in
  let '(x, r) := if x .& 0xf0000000 =? 0 then (u32 (x .<< 4), r - 4) else (x, r) in
  let '(x, r) := if x .& 0xc0000000 =? 0 then (u32 (x .<< 2), r - 2) else (x, r) in
  let '(x, r) := if x .& 0x80000000 =? 0 then (u32 (x .<< 1), r - 1) else (x, r) in
  r.

Definition __ilog2 (x : Z) : Z := generic_fls x - 1.

(** ** Hamming weight *)

Definition generic_hweight32 (w : Z) : Z :=
  let res := u32 ((w .& 0x55555555) + ((w .>> 1) .& 0x55555555)) in
  let res := u32 ((res .& 0x33333333) + ((res .>> 2) .& 0x33333333)) in
  let res := u32 ((res .& 0x0F0F0F0F) + ((res .>> 4) .& 0x0F0F0F0F)) in
  let res := u32 ((res .& 0x00FF00FF) + ((res .>> 8) .& 0x00FF00FF)) in
  u32 ((res .& 0x0000FFFF) + ((res .>> 16) .& 0x0000FFFF)).

Definition generic_hweight16 (w : Z) : Z :=
  let res := u32 ((w .& 0x5555) + ((w .>> 1) .& 0x5555)) in
  let res := u32 ((res .& 0x3333) + ((res .>> 2) .& 0x3333)) in
  let res := u32 ((res .& 0x0F0F) + ((res .>> 4) .& 0x0F0F)) in
  u32 ((res .& 0x00FF) + ((res .>> 8) .& 0x00FF)).

Definition generic_hweight8 (w : Z) : Z :=
  let res := u32 ((w .& 0x55) + ((w .>> 1) .& 0x55)) in
  let res := u32 ((res .& 0x33) + ((res .>> 2) .& 0x33)) in
  u32 ((res .& 0x0F) + ((res .>> 4) .& 0x0F)).

(** ** Division *)

(** [while ((int64_t)b > 0 && b < rem) { b = b+b; d = d+d; }] *)
Fixpoint div_scale (fuel : nat) (rem b d : Z) : option (Z * Z) :=
  match fuel with
  | O => None
  | S fuel =>
      if (0 <? b) && (b <? 2 ^ 63) && (b <? rem)
      then div_scale fuel rem (u64 (b + b)) (u64 (d + d)) else Some (b, d)
  end.

(** [do { if (rem >= b) { rem -= b; res += d; } b >>= 1; d >>= 1; } while (d)] *)
Fixpoint div_reduce (fuel : nat) (rem b d res : Z) : option (Z * Z) :=
  match fuel with
  | O => None
  | S fuel =>
      let '(rem, res) := if b <=? rem then (u64 (rem - b), u64 (res + d)) else (rem, res) in
      let b := b .>> 1 in
      let d := d .>> 1 in
      if d =? 0 then Some (res, rem) else div_reduce fuel rem b d res
  end.

(** The quotient stored through the pointer and the remainder returned; both
    loops run at most 64 times. *)
Definition __div64_32 (n base : Z) : option (Z * Z) :=
  let rem := n in
  let high := u32 (rem .>> 32) in
  if base =? 0 then None else
  let '(res, rem) :=
    if base <=? high then
      let high := high / base in
      (u64 (high .<< 32), u64 (rem - u64 (u32 (high * base) .<< 32)))
    else (0, rem) in
  match div_scale 65 rem base 1 with
  | None => None
  | Some (b, d) => div_reduce 65 rem b d res
  end.

Definition do_div (n base : Z) : option (Z * Z) :=
  if n .>> 32 =? 0
  then if base =? 0 then None else Some (u32 n / base, u32 n mod base)
  else __div64_32 n base.

Definition lldiv (dividend divisor : Z) : option Z :=
  match do_div dividend divisor with
  | None => None
  | Some (q, _) => Some q
  end.

(** ** Correctness of the last set bit *)

(** One step: when the top [k] bits are clear, shifting them out keeps the
    word and moves the last set bit up by [k]. *)
Lemma fls_step x m k : 0 <= k < 32 -> 0 < x < 2 ^ 32 -> m = Z.ones k .<< (32 - k) ->
  x .& m = 0 -> 0 < u32 (x .<< k) < 2 ^ 32 /\ Z.log2 (u32 (x .<< k)) = Z.log2 x + k.
Proof.
  intros Hk Hx -> Hm.
  assert (Hlt : x < 2 ^ (32 - k)).
  { apply Z.log2_lt_pow2; [lia|]. destruct (Z.lt_ge_cases (Z.log2 x) (32 - k)) as [|Hge]; [done|].
    assert (Hl : Z.log2 x < 32) by (apply Z.log2_lt_pow2; lia).
    assert (Hb : Z.testbit (x .& (Z.ones k .<< (32 - k))) (Z.log2 x) = true).
    { rewrite Z.land_spec, Z.bit_log2, Z.shiftl_spec, Z.testbit_ones_nonneg by lia. cbn.
      apply Z.ltb_lt. lia. }
    rewrite Hm, Z.bits_0 in Hb. done. }
  rewrite Z.shiftl_mul_pow2 by lia.
  assert (Hp : 0 < 2 ^ k) by (apply Z.pow_pos_nonneg; lia).
  assert (He : x * 2 ^ k < 2 ^ 32).
  { replace (2 ^ 32) with (2 ^ (32 - k) * 2 ^ k) by (rewrite <- Z.pow_add_r by lia; f_equal; lia). nia. }
  rewrite u32_word by (unfold word; nia). split; [nia|]. rewrite Z.log2_mul_pow2 by lia. lia.
Qed.

Lemma land_top_zero x k : 0 <= k < 32 -> 0 <= x < 2 ^ (32 - k) -> x .& (Z.ones k .<< (32 - k)) = 0.
Proof.
  intros Hk Hx. apply Z.bits_inj'. intros i Hi. rewrite Z.land_spec, Z.bits_0, Z.shiftl_spec by lia.
  destruct (Z.lt_ge_cases i (32 - k)) as [Hl|Hl].
  - rewrite (Z.testbit_neg_r _ (i - (32 - k))) by lia. apply andb_false_r.
  - destruct (Z.eq_dec x 0) as [->|]; [by rewrite Z.bits_0|].
    rewrite Z.bits_above_log2; [done|lia|]. apply Z.lt_le_trans with (32 - k); [|done].
    apply Z.log2_lt_pow2; lia.
Qed.

(** One conditional step of fls halves the range in which the last set bit
    can be. *)
Lemma fls_cond x m k r x0 : 1 <= k <= 16 -> m = Z.ones k .<< (32 - k) -> x < 2 ^ 32 ->
  Z.log2 x = Z.log2 x0 + (32 - r) -> 2 ^ (32 - 2 * k) <= x ->
  exists x' r', (if x .& m =? 0 then (u32 (x .<< k), r - k) else (x, r)) = (x', r') /\
    x' < 2 ^ 32 /\ Z.log2 x' = Z.log2 x0 + (32 - r') /\ 2 ^ (32 - k) <= x'.
Proof.
  intros Hk Hm Hx Hl Hp. assert (0 < 2 ^ (32 - 2 * k)) by (apply Z.pow_pos_nonneg; lia).
  destruct (Z.eqb_spec (x .& m) 0) as [E|E].
  - destruct (fls_step x m k ltac:(lia) ltac:(lia) Hm E) as [Hr Hlog].
    exists (u32 (x .<< k)), (r - k). split; [done|]. split; [lia|]. split; [lia|].
    assert (Hge : 32 - 2 * k <= Z.log2 x) by (apply Z.log2_le_pow2; lia).
    apply Z.log2_le_pow2; lia.
  - exists x, r. split; [done|]. split; [done|]. split; [done|].
    destruct (Z.lt_ge_cases x (2 ^ (32 - k))) as [Hlt|]; [|done].
    destruct E. subst m. apply land_top_zero; lia.
Qed.

(** The bit index of the last set bit, counted from 1. *)
Lemma generic_fls_spec x : 0 < x < 2 ^ 32 -> generic_fls x = Z.log2 x + 1.
Proof.
  intros Hx. unfold generic_fls. rewrite (proj2 (Z.eqb_neq _ _)) by lia.
  destruct (fls_cond x 0xffff0000 16 32 x) as (x1 & r1 & -> & H1 & L1 & G1); [lia|done|lia|lia|cbn; lia|].
  destruct (fls_cond x1 0xff000000 8 r1 x) as (x2 & r2 & -> & H2 & L2 & G2); [lia|done|lia|lia|done|].
  destruct (fls_cond x2 0xf0000000 4 r2 x) as (x3 & r3 & -> & H3 & L3 & G3); [lia|done|lia|lia|done|].
  destruct (fls_cond x3 0xc0000000 2 r3 x) as (x4 & r4 & -> & H4 & L4 & G4); [lia|done|lia|lia|done|].
  destruct (fls_cond x4 0x80000000 1 r4 x) as (x5 & r5 & -> & H5 & L5 & G5); [lia|done|lia|lia|done|].
  assert (Z.log2 x5 = 31); [|lia].
  apply Z.log2_unique; [lia|]. split; [exact G5|exact H5].
Qed.

(** ** Correctness of the Hamming weight *)

(** The number of set bits below bit [n]. *)
Definition popcount (n : nat) (w : Z) : Z :=
  foldr Z.add 0 (map (fun i => b2z (Z.testbit w (Z.of_nat i))) (seq 0 n)).

(** One round: add the fields selected by [m] to their neighbours [k] above. *)
Definition fold_fields (m k x : Z) : Z := (x .& m) + ((x .>> k) .& m).

Lemma land_le x m : 0 <= m -> 0 <= x .& m <= m.
Proof. intros Hm. pose proof (Z.land_nonneg x m). split; [apply Z.land_nonneg; by right|].
  apply Z.ldiff_le; [done|]. apply Z.bits_inj'. intros i Hi.
  rewrite Z.ldiff_spec, Z.land_spec, Z.bits_0. destruct (Z.testbit x i), (Z.testbit m i); done.
Qed.

Lemma fold_fields_u32 m k x : 0 <= m -> 2 * m < 2 ^ 32 -> u32 (fold_fields m k x) = fold_fields m k x.
Proof.
  intros Hm Hb. apply u32_word. unfold word, fold_fields.
  pose proof (land_le x m Hm). pose proof (land_le (x .>> k) m Hm). lia.
Qed.

Lemma testbit_concat n lo hi i : 0 <= n -> 0 <= lo < 2 ^ n -> 0 <= i ->
  Z.testbit (lo + 2 ^ n * hi) i = if i <? n then Z.testbit lo i else Z.testbit hi (i - n).
Proof.
  intros Hn Hlo Hi. rewrite Z.mul_comm, <- Z.shiftl_mul_pow2 by done.
  assert (Hd : lo .& (hi .<< n) = 0).
  { apply Z.bits_inj'. intros j Hj. rewrite Z.land_spec, Z.bits_0, Z.shiftl_spec by done.
    destruct (Z.lt_ge_cases j n) as [Hl|Hl]; [rewrite (Z.testbit_neg_r _ (j - n)) by lia; apply andb_false_r|].
    destruct (Z.eq_dec lo 0) as [->|]; [by rewrite Z.bits_0|]. rewrite Z.bits_above_log2; [done|lia|].
    apply Z.lt_le_trans with n; [|done]. apply Z.log2_lt_pow2; lia. }
  rewrite Z.add_nocarry_lxor, Z.lxor_spec, Z.shiftl_spec by done.
  destruct (Z.ltb_spec i n) as [Hl|Hl].
  - rewrite (Z.testbit_neg_r _ (i - n)) by lia. apply xorb_false_r.
  - destruct (Z.eq_dec lo 0) as [->|]; [by rewrite Z.bits_0|].
    rewrite (Z.bits_above_log2 lo); [apply xorb_false_l|lia|].
    apply Z.lt_le_trans with n; [|done]. apply Z.log2_lt_pow2; lia.
Qed.

Lemma land_concat n lo hi m0 m1 : 0 <= n -> 0 <= lo < 2 ^ n -> 0 <= m0 < 2 ^ n ->
  (lo + 2 ^ n * hi) .& (m0 + 2 ^ n * m1) = (lo .& m0) + 2 ^ n * (hi .& m1).
Proof.
  intros Hn Hlo Hm. pose proof (land_le lo m0 ltac:(lia)). apply Z.bits_inj'. intros i Hi.
  rewrite Z.land_spec, !testbit_concat by lia. destruct (i <? n); by rewrite Z.land_spec.
Qed.

Lemma shiftr_land_concat n k lo hi m0 m1 : 0 <= k <= n -> 0 <= lo < 2 ^ n -> 0 <= m0 < 2 ^ (n - k) ->
  ((lo + 2 ^ n * hi) .>> k) .& (m0 + 2 ^ n * m1) = ((lo .>> k) .& m0) + 2 ^ n * ((hi .>> k) .& m1).
Proof.
  intros Hk Hlo Hm.
  assert (Hm' : m0 < 2 ^ n) by (eapply Z.lt_le_trans; [apply Hm|]; apply Z.pow_le_mono_r; lia).
  pose proof (land_le (lo .>> k) m0 ltac:(lia)). apply Z.bits_inj'. intros i Hi.
  rewrite Z.land_spec, Z.shiftr_spec, !testbit_concat by lia.
  destruct (Z.ltb_spec i n) as [Hi1|Hi1].
  - rewrite Z.land_spec, Z.shiftr_spec by done. destruct (Z.ltb_spec (i + k) n) as [|Hi2]; [done|].
    assert (E : Z.testbit m0 i = false).
    { destruct (Z.eq_dec m0 0) as [->|]; [apply Z.bits_0|]. apply Z.bits_above_log2; [lia|].
      apply Z.lt_le_trans with (n - k); [|lia]. apply Z.log2_lt_pow2; lia. }
    by rewrite E, !andb_false_r.
  - rewrite Z.land_spec, Z.shiftr_spec by lia. destruct (Z.ltb_spec (i + k) n); [lia|].
    do 2 f_equal. lia.
Qed.

Lemma fold_fields_concat n k lo hi m0 m1 : 0 <= k <= n -> 0 <= lo < 2 ^ n -> 0 <= m0 < 2 ^ (n - k) ->
  fold_fields (m0 + 2 ^ n * m1) k (lo + 2 ^ n * hi) = fold_fields m0 k lo + 2 ^ n * fold_fields m1 k hi.
Proof.
  intros. assert (m0 < 2 ^ n) by (eapply Z.lt_le_trans; [apply H1|]; apply Z.pow_le_mono_r; lia).
  unfold fold_fields. rewrite land_concat, shiftr_land_concat by lia. lia.
Qed.

Lemma fold_fields_le m k x : 0 <= m -> 0 <= fold_fields m k x <= 2 * m.
Proof. intros Hm. unfold fold_fields. pose proof (land_le x m Hm). pose proof (land_le (x .>> k) m Hm). lia. Qed.

(** The last round adds the two halves. *)
Lemma fold_halves n a b : 0 <= n -> 0 <= a < 2 ^ n -> 0 <= b < 2 ^ n ->
  fold_fields (Z.ones n) n (a + 2 ^ n * b) = a + b.
Proof.
  intros Hn Ha Hb. unfold fold_fields. rewrite Z.shiftr_div_pow2, !Z.land_ones by done.
  rewrite (Z.mul_comm (2 ^ n) b), Z.div_add, Z.div_small, Z.mod_add, !Z.mod_small by lia. lia.
Qed.

Lemma popcount_concat n lo hi : 0 <= lo < 2 ^ Z.of_nat n ->
  popcount (n + n) (lo + 2 ^ Z.of_nat n * hi) = popcount n lo + popcount n hi.
Proof.
  intros Hlo. unfold popcount. rewrite seq_app, map_app, foldr_app. cbn [Nat.add].
  replace (foldr Z.add 0 (map _ (seq n n))) with
    (foldr Z.add 0 (map (fun i => b2z (Z.testbit hi (Z.of_nat i))) (seq 0 n))).
  - generalize (foldr Z.add 0 (map (fun i => b2z (Z.testbit hi (Z.of_nat i))) (seq 0 n))). intros c.
    replace (map (fun i => b2z (Z.testbit (lo + 2 ^ Z.of_nat n * hi) (Z.of_nat i))) (seq 0 n))
      with (map (fun i => b2z (Z.testbit lo (Z.of_nat i))) (seq 0 n)).
    + generalize (map (fun i => b2z (Z.testbit lo (Z.of_nat i))) (seq 0 n)). intros l.
      induction l as [|x l IH]; cbn; lia.
    + apply map_ext_in. intros i Hi. apply in_seq in Hi. rewrite testbit_concat by lia.
      by rewrite (proj2 (Z.ltb_lt _ _)) by lia.
  - f_equal. replace (seq n n) with (map (Nat.add n) (seq 0 n))
      by (rewrite <- (Nat.add_0_r n) at 3; exact (fmap_add_seq n 0 n)).
    rewrite map_map. apply map_ext_in. intros i Hi. rewrite testbit_concat by lia.
    rewrite (proj2 (Z.ltb_ge _ _)) by lia. do 2 f_equal. lia.
Qed.

Lemma generic_hweight8_spec w : 0 <= w < 2 ^ 8 -> generic_hweight8 w = popcount 8 w.
Proof.
  intros Hw.
  assert (E : forallb (fun n => generic_hweight8 (Z.of_nat n) =? popcount 8 (Z.of_nat n)) (seq 0 256) = true)
    by (vm_compute; reflexivity).
  rewrite forallb_forall in E. specialize (E (Z.to_nat w)). rewrite Z2Nat.id in E by lia.
  apply Z.eqb_eq, E, in_seq. lia.
Qed.

(** The code as rounds, none of which overflows. *)
Lemma hweight8_rounds w :
  generic_hweight8 w = fold_fields 0x0F 4 (fold_fields 0x33 2 (fold_fields 0x55 1 w)).
Proof.
  change (u32 (fold_fields 0x0F 4 (u32 (fold_fields 0x33 2 (u32 (fold_fields 0x55 1 w))))) =
          fold_fields 0x0F 4 (fold_fields 0x33 2 (fold_fields 0x55 1 w))).
  by rewrite !fold_fields_u32 by lia.
Qed.

Lemma hweight16_rounds w :
  generic_hweight16 w =
  fold_fields (Z.ones 8) 8 (fold_fields 0x0F0F 4 (fold_fields 0x3333 2 (fold_fields 0x5555 1 w))).
Proof.
  change (u32 (fold_fields (Z.ones 8) 8 (u32 (fold_fields 0x0F0F 4 (u32 (fold_fields 0x3333 2
           (u32 (fold_fields 0x5555 1 w))))))) =
          fold_fields (Z.ones 8) 8 (fold_fields 0x0F0F 4 (fold_fields 0x3333 2 (fold_fields 0x5555 1 w)))).
  by rewrite !fold_fields_u32 by (vm_compute; congruence).
Qed.

Lemma hweight32_rounds w :
  generic_hweight32 w =
  fold_fields (Z.ones 16) 16 (fold_fields 0x00FF00FF 8 (fold_fields 0x0F0F0F0F 4
    (fold_fields 0x33333333 2 (fold_fields 0x55555555 1 w)))).
Proof.
  change (u32 (fold_fields (Z.ones 16) 16 (u32 (fold_fields 0x00FF00FF 8 (u32 (fold_fields 0x0F0F0F0F 4
           (u32 (fold_fields 0x33333333 2 (u32 (fold_fields 0x55555555 1 w))))))))) =
          fold_fields (Z.ones 16) 16 (fold_fields 0x00FF00FF 8 (fold_fields 0x0F0F0F0F 4
            (fold_fields 0x33333333 2 (fold_fields 0x55555555 1 w))))).
  by rewrite !fold_fields_u32 by (vm_compute; congruence).
Qed.

(** Splits a round on a concatenation of two words of [n] bits. *)
Ltac split_round m m0 n :=
  change m with (m0 + 2 ^ n * m0); rewrite (fold_fields_concat n) by
    (first [lia | split; [lia|vm_compute; reflexivity] | done]).

Lemma hweight16_halves lo hi : 0 <= lo < 2 ^ 8 -> 0 <= hi < 2 ^ 8 ->
  generic_hweight16 (lo + 2 ^ 8 * hi) = generic_hweight8 lo + generic_hweight8 hi.
Proof.
  intros Hlo Hhi. rewrite hweight16_rounds, !hweight8_rounds.
  pose proof (fold_fields_le 0x55 1 lo ltac:(lia)). split_round 0x5555 0x55 8.
  pose proof (fold_fields_le 0x33 2 (fold_fields 0x55 1 lo) ltac:(lia)). split_round 0x3333 0x33 8.
  pose proof (fold_fields_le 0x0F 4 (fold_fields 0x33 2 (fold_fields 0x55 1 lo)) ltac:(lia)).
  pose proof (fold_fields_le 0x0F 4 (fold_fields 0x33 2 (fold_fields 0x55 1 hi)) ltac:(lia)).
  split_round 0x0F0F 0x0F 8. apply fold_halves; lia.
Qed.

Lemma hweight32_halves lo hi : 0 <= lo < 2 ^ 16 -> 0 <= hi < 2 ^ 16 ->
  generic_hweight32 (lo + 2 ^ 16 * hi) = generic_hweight16 lo + generic_hweight16 hi.
Proof.
  intros Hlo Hhi. rewrite hweight32_rounds, !hweight16_rounds. change (Z.ones 8) with 0xFF.
  pose proof (fold_fields_le 0x5555 1 lo ltac:(lia)). split_round 0x55555555 0x5555 16.
  pose proof (fold_fields_le 0x3333 2 (fold_fields 0x5555 1 lo) ltac:(lia)). split_round 0x33333333 0x3333 16.
  pose proof (fold_fields_le 0x0F0F 4 (fold_fields 0x3333 2 (fold_fields 0x5555 1 lo)) ltac:(lia)).
  split_round 0x0F0F0F0F 0x0F0F 16.
  pose proof (fold_fields_le 0xFF 8 (fold_fields 0x0F0F 4 (fold_fields 0x3333 2 (fold_fields 0x5555 1 lo))) ltac:(lia)).
  pose proof (fold_fields_le 0xFF 8 (fold_fields 0x0F0F 4 (fold_fields 0x3333 2 (fold_fields 0x5555 1 hi))) ltac:(lia)).
  split_round 0x00FF00FF 0xFF 16. apply fold_halves; lia.
Qed.

Lemma split_word n w : 0 <= n -> w = w mod 2 ^ n + 2 ^ n * (w / 2 ^ n).
Proof. intros. pose proof (Z.div_mod w (2 ^ n)). pose proof (Z.pow_pos_nonneg 2 n). lia. Qed.

Lemma generic_hweight16_spec w : 0 <= w < 2 ^ 16 -> generic_hweight16 w = popcount 16 w.
Proof.
  intros Hw. rewrite (split_word 8 w) by lia. rewrite hweight16_halves by div_lia.
  rewrite !generic_hweight8_spec by div_lia. symmetry. apply (popcount_concat 8). div_lia.
Qed.

Lemma generic_hweight32_spec w : 0 <= w < 2 ^ 32 -> generic_hweight32 w = popcount 32 w.
Proof.
  intros Hw. rewrite (split_word 16 w) by lia. rewrite hweight32_halves by div_lia.
  rewrite !generic_hweight16_spec by div_lia. symmetry. apply (popcount_concat 16). div_lia.
Qed.

(** The branch-free Hamming weight and the five-step search for the last
    set bit agree with their definitions on every 32-bit word. *)
Theorem bit_counts_correct w : 0 <= w < 2 ^ 32 ->
  generic_hweight32 w = popcount 32 w /\
  generic_fls w = (if w =? 0 then 0 else Z.log2 w + 1) /\
  (w <> 0 -> 2 ^ __ilog2 w <= w < 2 ^ (__ilog2 w + 1)).
Proof.
  intros Hw. split; [by apply generic_hweight32_spec|]. unfold __ilog2.
  destruct (Z.eqb_spec w 0) as [->|Hne]; [done|]. rewrite generic_fls_spec by lia. split; [done|].
  intros _. replace (Z.log2 w + 1 - 1) with (Z.log2 w) by lia. apply Z.log2_spec. lia.
Qed.

Lemma bit_counts_correct_witness :
  generic_hweight32 0xF0F01234 = popcount 32 0xF0F01234 /\ generic_fls 0x80000 = 20.
Proof.
  exact (conj (proj1 (bit_counts_correct 0xF0F01234 ltac:(lia)))
              (proj1 (proj2 (bit_counts_correct 0x80000 ltac:(lia))))).
Defined.

(** ** Correctness of the division *)

Lemma u64_small x : 0 <= x < 2 ^ 64 -> u64 x = x.
Proof. apply Z.mod_small. Qed.

(** Doubling stops with a multiple of the divisor that is more than half of
    what is left. *)
Lemma div_scale_spec fuel rem base b d : 0 < base -> 0 <= rem < 2 ^ 64 -> 0 < d -> 0 < b < 2 ^ 64 ->
  b = base * d -> (exists i : nat, d = 2 ^ Z.of_nat i /\ (64 < fuel + i)%nat) ->
  exists b' d' (i : nat), div_scale fuel rem b d = Some (b', d') /\ b' = base * d' /\
    d' = 2 ^ Z.of_nat i /\ 0 < b' < 2 ^ 64 /\ rem < 2 * b'.
Proof.
  revert b d. induction fuel as [|fuel IH]; intros b d Hbase Hrem Hd Hb E (i & Hi & Hf).
  - assert (2 ^ 65 <= d) by (subst d; apply Z.pow_le_mono_r; lia). nia.
  - cbn [div_scale]. rewrite (proj2 (Z.ltb_lt 0 b)) by lia. cbn [andb].
    destruct (Z.ltb_spec b (2 ^ 63)) as [H1|H1]; cbn [andb].
    + destruct (Z.ltb_spec b rem) as [H2|H2].
      * assert (Hd2 : d + d < 2 ^ 64) by nia. rewrite !u64_small by lia.
        apply IH; [done|done|lia|lia|lia|]. exists (S i). split; [|lia].
        rewrite Nat2Z.inj_succ, Z.pow_succ_r by lia. lia.
      * exists b, d, i. split; [done|]. split; [done|]. split; [done|]. lia.
    + exists b, d, i. split; [done|]. split; [done|]. split; [done|]. lia.
Qed.

(** Subtracting the multiples on the way down. *)
Lemma div_reduce_spec fuel n base res rem b d (i : nat) : 0 < base -> 0 <= n < 2 ^ 64 ->
  b = base * d -> d = 2 ^ Z.of_nat i -> (i < fuel)%nat -> 0 < b < 2 ^ 64 ->
  0 <= rem < 2 * b -> 0 <= res -> n = res * base + rem ->
  div_reduce fuel rem b d res = Some (n / base, n mod base).
Proof.
  revert res rem b d i. induction fuel as [|fuel IH]; intros res rem b d i Hbase Hn Eb Ed Hf Hb Hrem Hres En; [lia|].
  cbn [div_reduce]. assert (Hd : 0 < d) by nia.
  assert (Hstep : (if b <=? rem then (u64 (rem - b), u64 (res + d)) else (rem, res)) =
                  (if b <=? rem then rem - b else rem, if b <=? rem then res + d else res)).
  { destruct (Z.leb_spec b rem); [|done]. rewrite !u64_small; [done|nia|nia]. }
  rewrite Hstep. cbv zeta beta iota.
  set (rem' := if b <=? rem then rem - b else rem). set (res' := if b <=? rem then res + d else res).
  assert (Hr : 0 <= rem' < b) by (unfold rem'; destruct (Z.leb_spec b rem); lia).
  assert (Hr' : 0 <= res') by (unfold res'; destruct (Z.leb_spec b rem); lia).
  assert (Hn' : n = res' * base + rem') by (unfold res', rem'; destruct (Z.leb_spec b rem); nia).
  clearbody rem' res'. clear Hstep. rewrite !Z.shiftr_div_pow2 by lia. change (2 ^ 1) with 2.
  destruct i as [|i].
  - subst d. change (2 ^ Z.of_nat 0) with 1 in *. change (1 / 2 =? 0) with true. cbv iota.
    assert (Eq : res' = n / base) by (apply (Z.div_unique_pos n base res' rem'); lia).
    assert (Em : rem' = n mod base) by (apply (Z.mod_unique_pos n base res' rem'); lia). by rewrite Eq, Em.
  - assert (E2 : d = 2 * 2 ^ Z.of_nat i) by (rewrite Ed, Nat2Z.inj_succ, Z.pow_succ_r by lia; lia).
    assert (Hp : 0 < 2 ^ Z.of_nat i) by (apply Z.pow_pos_nonneg; lia).
    assert (E3 : d / 2 = 2 ^ Z.of_nat i) by (rewrite E2, Z.mul_comm; by apply Z.div_mul).
    assert (E4 : b / 2 = base * 2 ^ Z.of_nat i).
    { rewrite Eb, E2. replace (base * (2 * 2 ^ Z.of_nat i)) with (base * 2 ^ Z.of_nat i * 2) by lia. by apply Z.div_mul. }
    rewrite E3, E4, (proj2 (Z.eqb_neq _ _)) by lia.
    apply (IH _ _ _ _ i); [done|done|done|done|lia|nia|nia|done|done].
Qed.

Lemma div64_32_spec n base : 0 <= n < 2 ^ 64 -> 0 < base < 2 ^ 32 ->
  __div64_32 n base = Some (n / base, n mod base).
Proof.
  intros Hn Hb. unfold __div64_32. rewrite (proj2 (Z.eqb_neq base 0)) by lia.
  rewrite Z.shiftr_div_pow2 by lia.
  assert (Hh : 0 <= n / 2 ^ 32 < 2 ^ 32) by div_lia. rewrite u32_word by exact Hh.
  set (high := n / 2 ^ 32) in *.
  assert (Hpre : exists res rem, (if base <=? high then
      (u64 ((high / base) .<< 32), u64 (n - u64 (u32 (high / base * base) .<< 32))) else (0, n)) = (res, rem) /\
      0 <= res /\ 0 <= rem < 2 ^ 64 /\ n = res * base + rem).
  { destruct (Z.leb_spec base high) as [Hle|]; [|by exists 0, n; repeat split; lia].
    assert (Hq : 0 <= high / base) by (apply Z.div_pos; lia).
    assert (Hqb : high / base * base <= high) by (pose proof (Z.mul_div_le high base); lia).
    assert (Hhn : high * 2 ^ 32 <= n) by (unfold high; div_lia).
    rewrite !Z.shiftl_mul_pow2 by lia. rewrite u32_word by (unfold word; lia).
    generalize dependent (high / base). intros q Hq Hqb. change (2 ^ 32) with 4294967296 in *.
    change (2 ^ 64) with 18446744073709551616 in *. clearbody high.
    assert (q <= high) by nia.
    assert (0 <= q * base) by nia. eexists _, _. split; [reflexivity|].
    rewrite (u64_small (q * 4294967296)) by (change (2 ^ 64) with 18446744073709551616; lia).
    replace (q * 4294967296 * base) with (q * base * 4294967296) by ring.
    generalize dependent (q * base). intros x ? ?. change u64 with (fun y => y mod 18446744073709551616).
    cbv beta. rewrite (Z.mod_small (x * _)), Z.mod_small by lia. lia. }
  destruct Hpre as (res & rem & -> & Hres & Hrem & En).
  destruct (div_scale_spec 65 rem base base 1) as (b & d & i & -> & Eb & Ed & Hb' & Hr'); [lia|done|lia|lia|lia|by exists 0%nat; split; [|lia]|].
  apply (div_reduce_spec _ _ _ _ _ _ _ i); try done; [lia| |lia].
  assert (Z.of_nat i < 64); [|lia]. apply (Z.pow_lt_mono_r_iff 2); [lia|lia|]. rewrite <- Ed. nia.
Qed.

Lemma do_div_spec n base : 0 <= n < 2 ^ 64 -> 0 < base < 2 ^ 32 -> do_div n base = Some (n / base, n mod base).
Proof.
  intros Hn Hb. unfold do_div. rewrite Z.shiftr_div_pow2 by lia. destruct (Z.eqb_spec (n / 2 ^ 32) 0) as [E|E].
  - rewrite (proj2 (Z.eqb_neq base 0)) by lia. rewrite u32_word; [done|]. unfold word. div_lia.
  - by apply div64_32_spec.
Qed.

(** C34: do_div divides every 64-bit number by every nonzero 32-bit number:
    the shift-and-subtract loops of __div64_32 return (64 rounds suffice), no
    intermediate value overflows 64 bits, and quotient and remainder are those
    of the integers. *)
Theorem do_div_correct n base : 0 <= n < 2 ^ 64 -> 0 < base < 2 ^ 32 ->
  do_div n base = Some (n / base, n mod base) /\ lldiv n base = Some (n / base).
Proof. intros Hn Hb. unfold lldiv. by rewrite do_div_spec. Qed.

Lemma do_div_correct_witness : do_div (2 ^ 40 + 12345) 1000 = Some (1099511640, 121).
Proof. exact (proj1 (do_div_correct (2 ^ 40 + 12345) 1000 ltac:(lia) ltac:(lia))). Defined.
