(* ===== verification/Mmio.v ===== *)
(** Programs that talk to memory mapped hardware.

    A program is a state passing function over a [st]: the hardware, of any
    type with a [Device] instance, and the C globals of the preloader.  Its
    result records the value or how the run ended, the final state and the
    trace of bus accesses and console messages.  [wp] is the weakest
    precondition of a program; [only] and [total] are the two effect
    judgements that most components need (every event of every run satisfies a
    predicate; every run returns), with one lemma per program former so that
    [hw_auto] proves them by following the code. *)

From S2P Require Import Prelude.

Inductive event :=
| Rd (a v : Z)
| Wr (a v : Z)
| Msg (s : string).

Definition trace := list event.

(** What the hardware does on the bus.  Nothing is assumed of it. *)
Class Device (D : Type) := {
  dev_read : Z -> D -> Z * D;
  dev_write : Z -> Z -> D -> D
}.

(** How a run can end without a value. *)
Inductive stop :=
| Halt          (* the code never returns: hang(), or an endless loop *)
| Undef         (* undefined in C: an access outside an array, a division by zero *)
| NoFuel.       (* the model's fuel for an unbounded loop ran out *)

Inductive outcome (A : Type) :=
| Val (a : A)
| Stop (w : stop).
Arguments Val {A} a.
Arguments Stop {A} w.

Definition is_val {A} (o : outcome A) : Prop := exists a, o = Val a.

Record st (D G : Type) := mk_st { dev : D; glob : G }.
Arguments mk_st {D G} dev glob.
Arguments dev {D G} s.
Arguments glob {D G} s.

Record res (D G A : Type) := mk_res { out : outcome A; fin : st D G; tr : trace }.
Arguments mk_res {D G A} out fin tr.
Arguments out {D G A} r.
Arguments fin {D G A} r.
Arguments tr {D G A} r.

Definition M (D G A : Type) := st D G -> res D G A.

Section program.
Context {D G : Type} `{Device D}.

Definition ret {A} (a : A) : M D G A := fun s => mk_res (Val a) s [].

Definition bind {A B} (m : M D G A) (k : A -> M D G B) : M D G B := fun s =>
  let r := m s in
  match out r with
  | Val a => let r' := k a (fin r) in mk_res (out r') (fin r') (tr r ++ tr r')
  | Stop w => mk_res (Stop w) (fin r) (tr r)
  end.

Definition stopped {A} (w : stop) : M D G A := fun s => mk_res (Stop w) s [].
Definition halt {A} : M D G A := stopped Halt.
Definition undef {A} : M D G A := stopped Undef.
Definition nofuel {A} : M D G A := stopped NoFuel.
Definition msg (m : string) : M D G unit := fun s => mk_res (Val tt) s [Msg m].
Definition get : M D G G := fun s => mk_res (Val (glob s)) s [].
Definition modify (f : G -> G) : M D G unit := fun s =>
  mk_res (Val tt) (mk_st (dev s) (f (glob s))) [].

(** readl and writel of asm/io.h: one 32-bit bus access. *)
Definition readl (a : Z) : M D G Z := fun s =>
  let '(v, d) := dev_read a (dev s) in
  mk_res (Val (u32 v)) (mk_st d (glob s)) [Rd a (u32 v)].

Definition writel (v a : Z) : M D G unit := fun s =>
  mk_res (Val tt) (mk_st (dev_write a (u32 v) (dev s)) (glob s)) [Wr a (u32 v)].

End program.

Declare Scope mmio_scope.
Notation "'let*' x ':=' m 'in' k" := (bind m (fun x => k))
  (at level 10, x name, m at level 100, k at level 200) : mmio_scope.
Notation "m ;;; k" := (bind m (fun _ => k))
  (at level 100, right associativity) : mmio_scope.
Global Open Scope mmio_scope.

Section combinators.
Context {D G : Type} `{Device D}.

(** setbits_le32 and clrbits_le32 of asm/io.h: a read-modify-write. *)
Definition setbits_le32 (a m : Z) : M D G unit :=
  let* v := readl a in writel (v .| m) a.

Definition clrbits_le32 (a m : Z) : M D G unit :=
  let* v := readl a in writel (v .& .~ m) a.

(** C's [a / b] on unsigned operands. *)
Definition udiv (a b : Z) : M D G Z := if b =? 0 then undef else ret (a / b).

(** Reading [l[i]] from a C array. *)
Definition array_get (l : list Z) (i : Z) : M D G Z :=
  if i <? 0 then undef else
  match l !! Z.to_nat i with
  | Some v => ret v
  | None => undef
  end.

Definition when (b : bool) (m : M D G unit) : M D G unit := if b then m else ret tt.

(** hang of common/spl/spl.c. *)
Definition hang {A} : M D G A := msg "### ERROR ### Please RESET the board ###" ;;; halt.

(** [for (i = i0; i < i0 + n; i++) body]: [body] gives [Some] to leave the
    loop with a value.  The recursion is on the binary representation of [n],
    so that bounds such as 0x1000000 stay executable. *)
Fixpoint ploop {A} (n : positive) (i : Z) (body : Z -> M D G (option A)) : M D G (option A) :=
  match n with
  | xH => body i
  | xO q => let* r := ploop q i body in
            match r with
            | Some a => ret (Some a)
            | None => ploop q (i + Zpos q) body
            end
  | xI q => let* r := body i in
            match r with
            | Some a => ret (Some a)
            | None => let* r := ploop q (i + 1) body in
                      match r with
                      | Some a => ret (Some a)
                      | None => ploop q (i + 1 + Zpos q) body
                      end
            end
  end.

Definition for_upto {A} (n : Z) (body : Z -> M D G (option A)) : M D G (option A) :=
  match n with
  | Zpos p => ploop p 0 body
  | _ => ret None
  end.

(** The same loop by counting, the form used in proofs. *)
Fixpoint nloop {A} (n : nat) (i : Z) (body : Z -> M D G (option A)) : M D G (option A) :=
  match n with
  | O => ret None
  | S n => let* r := body i in
           match r with
           | Some a => ret (Some a)
           | None => nloop n (i + 1) body
           end
  end.

(** [while] loops without a bound in the code run on fuel. *)
Fixpoint while_fuel {X A} (fuel : nat) (body : X -> M D G (X + A)) (x : X) : M D G A :=
  match fuel with
  | O => nofuel
  | S f => let* r := body x in
           match r with
           | inl x => while_fuel f body x
           | inr a => ret a
           end
  end.

Fixpoint mapM_ {X} (f : X -> M D G unit) (l : list X) : M D G unit :=
  match l with
  | [] => ret tt
  | x :: l => f x ;;; mapM_ f l
  end.

End combinators.

(** ** Equations of the monad, pointwise *)

Section laws.
Context {D G : Type} `{Device D}.

Lemma bind_ret_l {A B} (a : A) (k : A -> M D G B) s : bind (ret a) k s = k a s.
Proof. unfold bind, ret; cbn. by destruct (k a s). Qed.

Lemma bind_returns {A B} (m : M D G A) (k : A -> M D G B) a s : m s = ret a s -> bind m k s = k a s.
Proof. intros E. unfold bind. rewrite E. cbn. by destruct (k a s). Qed.

Lemma bind_ret_r {A} (m : M D G A) s : bind m ret s = m s.
Proof. unfold bind, ret. destruct (m s) as [[]]; cbn; by rewrite ?app_nil_r. Qed.

Lemma bind_assoc {A B C} (m : M D G A) (k : A -> M D G B) (h : B -> M D G C) s :
  bind (bind m k) h s = bind m (fun a => bind (k a) h) s.
Proof.
  unfold bind. destruct (m s) as [[a|] s' t]; cbn; try done.
  destruct (k a s') as [[]]; cbn; try done. by rewrite app_assoc.
Qed.

Lemma bind_ext {A B} (m m' : M D G A) (k k' : A -> M D G B) s :
  m s = m' s -> (forall a s, k a s = k' a s) -> bind m k s = bind m' k' s.
Proof. intros E Ek. unfold bind. rewrite E. destruct (out (m' s)); by rewrite ?Ek. Qed.

Lemma nloop_app {A} n m i (body : Z -> M D G (option A)) s :
  nloop (n + m) i body s =
  bind (nloop n i body) (fun r => match r with
                                  | Some a => ret (Some a)
                                  | None => nloop m (i + Z.of_nat n) body
                                  end) s.
Proof.
  revert i s. induction n as [|n IH]; intros i s; cbn [nloop Nat.add].
  - rewrite bind_ret_l. by replace (i + Z.of_nat 0) with i by lia.
  - rewrite bind_assoc. apply bind_ext; [done|]. intros [a|] s'.
    + by rewrite bind_ret_l.
    + rewrite IH. apply bind_ext; [done|]. intros [a|] s''; [done|].
      by replace (i + Z.of_nat (S n)) with (i + 1 + Z.of_nat n) by lia.
Qed.

Lemma ploop_nloop {A} p i (body : Z -> M D G (option A)) s :
  ploop p i body s = nloop (Pos.to_nat p) i body s.
Proof.
  revert i s. induction p as [p IH|p IH|]; intros i s; cbn [ploop].
  - replace (Pos.to_nat (xI p)) with (S (Pos.to_nat p + Pos.to_nat p)) by lia.
    cbn [nloop]. apply bind_ext; [done|]. intros [a|] s'; [done|].
    rewrite nloop_app. apply bind_ext; [apply IH|]. intros [a|] s''; [done|].
    rewrite IH. by rewrite positive_nat_Z.
  - replace (Pos.to_nat (xO p)) with (Pos.to_nat p + Pos.to_nat p)%nat by lia.
    rewrite nloop_app. apply bind_ext; [apply IH|]. intros [a|] s'; [done|].
    rewrite IH. by rewrite positive_nat_Z.
  - change (Pos.to_nat 1) with 1%nat. cbn [nloop].
    rewrite <- (bind_ret_r (body i)) at 1. apply bind_ext; [done|].
    intros [a|] s'; done.
Qed.

Lemma for_upto_nloop {A} n (body : Z -> M D G (option A)) s :
  for_upto n body s = nloop (Z.to_nat n) 0 body s.
Proof. destruct n; [done|apply ploop_nloop|done]. Qed.

End laws.

(** ** Weakest preconditions *)

Section wp.
Context {D G : Type} `{Device D}.
Abbreviation post A := (outcome A -> st D G -> trace -> Prop).

Definition wp {A} (m : M D G A) (s : st D G) (Q : post A) : Prop :=
  Q (out (m s)) (fin (m s)) (tr (m s)).

Lemma wp_mono {A} (m : M D G A) s (Q Q' : post A) :
  wp m s Q -> (forall o s' t, Q o s' t -> Q' o s' t) -> wp m s Q'.
Proof. unfold wp; auto. Qed.

Lemma wp_and {A} (m : M D G A) s (Q Q' : post A) :
  wp m s Q -> wp m s Q' -> wp m s (fun o s' t => Q o s' t /\ Q' o s' t).
Proof. done. Qed.

(** A run whose result is known, or whose outcome is. *)
Lemma wp_result {A} (m : M D G A) s o s' t (Q : post A) : m s = mk_res o s' t -> Q o s' t -> wp m s Q.
Proof. unfold wp. by intros ->. Qed.

Lemma wp_out {A} (m : M D G A) s o (Q : post A) :
  out (m s) = o -> Q o (fin (m s)) (tr (m s)) -> wp m s Q.
Proof. unfold wp. by intros ->. Qed.

Lemma wp_ret {A} (a : A) s (Q : post A) : Q (Val a) s [] -> wp (ret a) s Q.
Proof. done. Qed.

Lemma wp_bind {A B} (m : M D G A) (k : A -> M D G B) s (Q : post B) :
  wp m s (fun o s' t =>
    match o with
    | Val a => wp (k a) s' (fun o s'' t' => Q o s'' (t ++ t'))
    | Stop w => Q (Stop w) s' t
    end) ->
  wp (bind m k) s Q.
Proof. unfold wp, bind. destruct (out (m s)); done. Qed.

Lemma wp_readl a s v d (Q : post Z) :
  dev_read a (dev s) = (v, d) ->
  Q (Val (u32 v)) (mk_st d (glob s)) [Rd a (u32 v)] ->
  wp (readl a) s Q.
Proof. unfold wp, readl. by intros ->. Qed.

(** The read value is not known: any word, any device state after it. *)
Lemma wp_readl_any a s (Q : post Z) :
  (forall v d, word v -> Q (Val v) (mk_st d (glob s)) [Rd a v]) -> wp (readl a) s Q.
Proof.
  intros HQ. destruct (dev_read a (dev s)) as [v d] eqn:E.
  eapply wp_readl; [done|]. apply HQ, word_u32.
Qed.

Lemma wp_writel v a s (Q : post unit) :
  Q (Val tt) (mk_st (dev_write a (u32 v) (dev s)) (glob s)) [Wr a (u32 v)] ->
  wp (writel v a) s Q.
Proof. done. Qed.

Lemma wp_msg m s (Q : post unit) : Q (Val tt) s [Msg m] -> wp (msg m) s Q.
Proof. done. Qed.

Lemma wp_get s (Q : post G) : Q (Val (glob s)) s [] -> wp get s Q.
Proof. done. Qed.

Lemma wp_modify f s (Q : post unit) :
  Q (Val tt) (mk_st (dev s) (f (glob s))) [] -> wp (modify f) s Q.
Proof. done. Qed.

Lemma wp_stopped {A} w s (Q : post A) : Q (Stop w) s [] -> wp (stopped w) s Q.
Proof. done. Qed.

Lemma wp_when b m s (Q : post unit) :
  (b = true -> wp m s Q) -> (b = false -> Q (Val tt) s []) -> wp (when b m) s Q.
Proof. destruct b; unfold when; intros; [auto|apply wp_ret; auto]. Qed.

(** An array read inside the bounds. *)
Lemma wp_array_get l i n w s (Q : post Z) :
  i = Z.of_nat n -> l !! n = Some w -> Q (Val w) s [] -> wp (array_get l i) s Q.
Proof.
  intros -> Hn HQ. unfold wp, array_get. rewrite (proj2 (Z.ltb_ge _ _)) by lia.
  by rewrite Nat2Z.id, Hn.
Qed.

(** Loop rule: [I i s t] holds before iteration [i] after trace [t]. *)
Lemma wp_for {A} (I : Z -> st D G -> trace -> Prop) n body s (Q : post (option A)) :
  0 <= n -> I 0 s [] ->
  (forall i s t, 0 <= i < n -> I i s t ->
     wp (body i) s (fun o s' t' =>
       match o with
       | Val None => I (i + 1) s' (t ++ t')
       | Val (Some a) => Q (Val (Some a)) s' (t ++ t')
       | Stop w => Q (Stop w) s' (t ++ t')
       end)) ->
  (forall s t, I n s t -> Q (Val None) s t) ->
  wp (for_upto n body) s Q.
Proof.
  intros Hn HI Hbody Hend. unfold wp. rewrite for_upto_nloop. fold (wp (nloop (Z.to_nat n) 0 body) s Q).
  assert (Hgen : forall k i s t, (Z.of_nat k = n - i) -> 0 <= i -> I i s t ->
            wp (nloop k i body) s (fun o s' t' => Q o s' (t ++ t'))).
  { induction k as [|k IH]; intros i s0 t Hk Hi HI0; cbn [nloop].
    - apply wp_ret. rewrite app_nil_r. apply Hend. by replace n with i by lia.
    - apply wp_bind. eapply wp_mono; [apply Hbody; [lia|done]|].
      intros [[a|]|] s1 t1; cbn; try done.
      + intros. apply wp_ret. by rewrite app_nil_r.
      + intros HI1. eapply wp_mono; [apply IH; [lia|lia|done]|].
        intros o s2 t2. by rewrite app_assoc. }
  apply (Hgen (Z.to_nat n) 0 s []); [lia|lia|done].
Qed.

End wp.

Arguments wp {D G A} m s Q : simpl never.

(** One step of symbolic execution over an arbitrary device. *)
Ltac wp_step :=
  cbv beta;
  match goal with
  | |- wp (bind _ _) _ _ => apply wp_bind
  | |- wp (ret _) _ _ => apply wp_ret
  | |- wp (readl _) _ _ => apply wp_readl_any; intros ? ? ?
  | |- wp (writel _ _) _ _ => apply wp_writel
  | |- wp (msg _) _ _ => apply wp_msg
  | |- wp get _ _ => apply wp_get
  | |- wp (modify _) _ _ => apply wp_modify
  | |- wp (stopped _) _ _ => apply wp_stopped
  | |- wp halt _ _ => apply wp_stopped
  | |- wp undef _ _ => apply wp_stopped
  | |- wp nofuel _ _ => apply wp_stopped
  | |- wp hang _ _ => unfold hang
  | |- wp (when _ _) _ _ => apply wp_when; intros ?
  | |- wp (setbits_le32 _ _) _ _ => unfold setbits_le32
  | |- wp (clrbits_le32 _ _) _ _ => unfold clrbits_le32
  | |- wp (if ?b then _ else _) _ _ => destruct b eqn:?
  | |- wp (match ?x with _ => _ end) _ _ => destruct x eqn:?
  end; cbv beta iota; cbn [dev glob].
Ltac wp_run := repeat wp_step.
(** The same up to the next branch. *)
Ltac wp_line :=
  repeat match goal with
         | |- wp (if _ then _ else _) _ _ => fail 1
         | |- wp (match _ with _ => _ end) _ _ => fail 1
         | _ => wp_step
         end.

(** Turns a goal about the result of a run into a [wp]. *)
Ltac wp_enter_run m s :=
  pattern (out (m s)), (fin (m s)), (tr (m s));
  match goal with |- ?P _ _ _ => change (wp m s P) end; cbv beta.
Ltac wp_enter :=
  cbv zeta;
  match goal with
  | |- context [tr (?m ?s)] => wp_enter_run m s
  | |- context [out (?m ?s)] => wp_enter_run m s
  | |- context [fin (?m ?s)] => wp_enter_run m s
  end.

(** ** Effect judgements *)

Section effects.
Context {D G : Type} `{Device D}.

(** Every event of every run of [m] satisfies [P]. *)
Definition only (P : event -> Prop) {A} (m : M D G A) : Prop := forall s, Forall P (tr (m s)).

(** Every run of [m] returns a value. *)
Definition total {A} (m : M D G A) : Prop := forall s, is_val (out (m s)).

(** No run of [m] changes the globals. *)
Definition pure_glob {A} (m : M D G A) : Prop := forall s, glob (fin (m s)) = glob s.

Lemma only_bind P {A B} (m : M D G A) (k : A -> M D G B) :
  only P m -> (forall a, only P (k a)) -> only P (bind m k).
Proof.
  intros Hm Hk s. unfold bind. specialize (Hm s). destruct (out (m s)); cbn; [|done].
  apply Forall_app. split; [done|apply Hk].
Qed.

Lemma only_ret P {A} (a : A) : only P (ret a).
Proof. intros s. constructor. Qed.

Lemma only_stopped P {A} w : only P (stopped (A:=A) w).
Proof. intros s. constructor. Qed.

Lemma only_halt P {A} : only P (halt (A:=A)).
Proof. apply only_stopped. Qed.

Lemma only_undef P {A} : only P (undef (A:=A)).
Proof. apply only_stopped. Qed.

Lemma only_nofuel P {A} : only P (nofuel (A:=A)).
Proof. apply only_stopped. Qed.

Lemma only_get P : only P get.
Proof. intros s. constructor. Qed.

Lemma only_modify P f : only P (modify f).
Proof. intros s. constructor. Qed.

Lemma only_readl (P : event -> Prop) a : (forall v, P (Rd a v)) -> only P (readl a).
Proof. intros HP s. unfold readl. destruct (dev_read a (dev s)). cbn. auto. Qed.

Lemma only_writel (P : event -> Prop) v a : P (Wr a (u32 v)) -> only P (writel v a).
Proof. intros HP s. cbn. auto. Qed.

Lemma only_msg (P : event -> Prop) m : P (Msg m) -> only P (msg m).
Proof. intros HP s. cbn. auto. Qed.

Lemma only_setbits (P : event -> Prop) a m :
  (forall v, P (Rd a v)) -> (forall v, P (Wr a v)) -> only P (setbits_le32 a m).
Proof. intros. apply only_bind; [by apply only_readl|]. intros. by apply only_writel. Qed.

Lemma only_clrbits (P : event -> Prop) a m :
  (forall v, P (Rd a v)) -> (forall v, P (Wr a v)) -> only P (clrbits_le32 a m).
Proof. intros. apply only_bind; [by apply only_readl|]. intros. by apply only_writel. Qed.

Lemma only_when P b m : (b = true -> only P m) -> only P (when b m).
Proof. destruct b; cbn; [auto|]. intros. apply only_ret. Qed.

Lemma only_nloop P {A} n i (body : Z -> M D G (option A)) :
  (forall i, only P (body i)) -> only P (nloop n i body).
Proof.
  intros Hb. revert i. induction n as [|n IH]; intros i; cbn [nloop]; [apply only_ret|].
  apply only_bind; [apply Hb|]. intros [a|]; [apply only_ret|apply IH].
Qed.

Lemma only_for P {A} n (body : Z -> M D G (option A)) :
  (forall i, only P (body i)) -> only P (for_upto n body).
Proof. intros Hb s. rewrite for_upto_nloop. by apply only_nloop. Qed.

Lemma only_while P {X A} fuel (body : X -> M D G (X + A)) x :
  (forall x, only P (body x)) -> only P (while_fuel fuel body x).
Proof.
  intros Hb. revert x. induction fuel as [|n IH]; intros x; cbn [while_fuel]; [apply only_nofuel|].
  apply only_bind; [apply Hb|]. intros [y|a]; [apply IH|apply only_ret].
Qed.

Lemma only_mapM P {X} (f : X -> M D G unit) l :
  (forall x, In x l -> only P (f x)) -> only P (mapM_ f l).
Proof.
  induction l as [|x l IH]; cbn; intros Hf; [apply only_ret|].
  apply only_bind; [apply Hf; auto|]. intros _. apply IH. auto.
Qed.

Lemma only_weaken (P P' : event -> Prop) {A} (m : M D G A) :
  (forall e, P e -> P' e) -> only P m -> only P' m.
Proof. intros HP Hm s. eapply Forall_impl; [apply Hm|auto]. Qed.

Lemma total_bind {A B} (m : M D G A) (k : A -> M D G B) :
  total m -> (forall a, total (k a)) -> total (bind m k).
Proof.
  intros Hm Hk s. unfold bind. destruct (Hm s) as [a E]. rewrite E. cbn. apply Hk.
Qed.

Lemma total_ret {A} (a : A) : total (ret a).
Proof. intros s. by eexists. Qed.
Lemma total_get : total get.
Proof. intros s. by eexists. Qed.
Lemma total_modify f : total (modify f).
Proof. intros s. by eexists. Qed.
Lemma total_msg m : total (msg m).
Proof. intros s. by eexists. Qed.
Lemma total_writel v a : total (writel v a).
Proof. intros s. by eexists. Qed.
Lemma total_readl a : total (readl a).
Proof. intros s. unfold readl. destruct (dev_read a (dev s)). by eexists. Qed.
Lemma total_setbits a m : total (setbits_le32 a m).
Proof. apply total_bind; [apply total_readl|intros; apply total_writel]. Qed.
Lemma total_clrbits a m : total (clrbits_le32 a m).
Proof. apply total_bind; [apply total_readl|intros; apply total_writel]. Qed.
Lemma total_when b m : (b = true -> total m) -> total (when b m).
Proof. destruct b; cbn; [auto|]. intros. apply total_ret. Qed.

Lemma total_for {A} n (body : Z -> M D G (option A)) :
  (forall i, total (body i)) -> total (for_upto n body).
Proof.
  intros Hb.
  assert (Hk : forall k i, total (nloop k i body)).
  { induction k as [|k IH]; intros i; cbn [nloop]; [apply total_ret|].
    apply total_bind; [apply Hb|]. intros [a|]; [apply total_ret|apply IH]. }
  intros s. rewrite for_upto_nloop. apply Hk.
Qed.

Lemma total_mapM {X} (f : X -> M D G unit) l :
  (forall x, total (f x)) -> total (mapM_ f l).
Proof.
  intros Hf. induction l as [|x l IH]; cbn; [apply total_ret|].
  apply total_bind; [apply Hf|]. auto.
Qed.

(** Every run of [m] returns a value in [R]. *)
Definition yields {A} (R : A -> Prop) (m : M D G A) : Prop :=
  forall s, exists a, out (m s) = Val a /\ R a.

Lemma yields_total {A} (R : A -> Prop) (m : M D G A) : yields R m -> total m.
Proof. intros Hm s. destruct (Hm s) as (a & E & _). by exists a. Qed.

Lemma total_yields {A} (m : M D G A) : total m -> yields (fun _ => True) m.
Proof. intros Hm s. destruct (Hm s) as [a E]. eauto. Qed.

Lemma yields_mono {A} (R R' : A -> Prop) (m : M D G A) :
  yields R m -> (forall a, R a -> R' a) -> yields R' m.
Proof. intros Hm HR s. destruct (Hm s) as (a & E & ?). eauto. Qed.

Lemma yields_bind {A B} (R : A -> Prop) (R' : B -> Prop) (m : M D G A) (k : A -> M D G B) :
  yields R m -> (forall a, R a -> yields R' (k a)) -> yields R' (bind m k).
Proof.
  intros Hm Hk s. unfold bind. destruct (Hm s) as (a & E & Ha). rewrite E. cbn. by apply Hk.
Qed.

Lemma yields_skip {A B} (R' : B -> Prop) (m : M D G A) (k : A -> M D G B) :
  total m -> (forall a, yields R' (k a)) -> yields R' (bind m k).
Proof. intros Hm Hk. eapply yields_bind; [by apply total_yields|auto]. Qed.

Lemma yields_ret {A} (R : A -> Prop) a : R a -> yields R (ret a).
Proof. intros Ha s. by exists a. Qed.

(** A run of a program known by its effects. *)
Lemma wp_effects {A} P R (m : M D G A) s (Q : outcome A -> st D G -> trace -> Prop) :
  only P m -> yields R m ->
  (forall a s' t, R a -> Forall P t -> Q (Val a) s' t) -> wp m s Q.
Proof.
  intros Ho Hy HQ. unfold wp. destruct (Hy s) as (a & -> & Ha). apply HQ; [done|apply Ho].
Qed.

Lemma wp_only {A} P (m : M D G A) s (Q : outcome A -> st D G -> trace -> Prop) :
  only P m -> (forall o s' t, Forall P t -> Q o s' t) -> wp m s Q.
Proof. intros Ho HQ. apply HQ, Ho. Qed.

Lemma wp_events {A} P (m : M D G A) s : only P m -> wp m s (fun _ _ t => Forall P t).
Proof. intros Ho. apply Ho. Qed.

(** A run of [m] followed by a program known by its events. *)
Lemma wp_then_only {A B} P (m : M D G A) (k : A -> M D G B) s (Q : trace -> Prop) :
  (forall a, only P (k a)) -> (forall t, Forall P t -> Q (tr (m s) ++ t)) ->
  wp (bind m k) s (fun _ _ t => Q t).
Proof.
  intros Hk HQ. unfold wp, bind. destruct (out (m s)); cbn; [apply HQ, Hk|].
  rewrite <- (app_nil_r (tr (m s))). apply HQ. constructor.
Qed.

(** What a run that returned [a] did. *)
Lemma wp_returned {A} (m : M D G A) s a (R : trace -> Prop) :
  wp m s (fun o _ t => o = Val a -> R t) -> out (m s) = Val a -> R (tr (m s)).
Proof. done. Qed.

Lemma wp_total {A} (m : M D G A) s (Q : outcome A -> st D G -> trace -> Prop) :
  total m -> (forall a, out (m s) = Val a -> Q (Val a) (fin (m s)) (tr (m s))) -> wp m s Q.
Proof. intros Ht HQ. unfold wp. destruct (Ht s) as [a E]. rewrite E. by apply HQ. Qed.

End effects.

#[export] Hint Resolve only_ret only_stopped only_halt only_undef only_nofuel only_get only_modify : hw.
#[export] Hint Resolve total_ret total_get total_modify total_msg total_writel
  total_readl total_setbits total_clrbits : hw.

(** An event predicate on a register address that is a constant.  A written
    value that is not a constant is generalised before evaluation. *)
Ltac event_ok :=
  intros;
  try match goal with
      | |- ?P (Wr _ ?v) => has_var v; generalize v; intros
      end;
  solve [ exact I | vm_compute; repeat split; first [ exact I | reflexivity | discriminate ] ].

(** Follows the code of a program to prove [only] or [total]. *)
Ltac hw_step :=
  match goal with
  | |- only _ (ret _) => apply only_ret
  | |- only _ hang => unfold hang
  | |- only _ (readl _) => apply only_readl; event_ok
  | |- only _ (writel _ _) => apply only_writel; event_ok
  | |- only _ (setbits_le32 _ _) => apply only_setbits; event_ok
  | |- only _ (clrbits_le32 _ _) => apply only_clrbits; event_ok
  | |- only _ (msg _) => apply only_msg; event_ok
  | |- only _ (if ?b then _ else _) => destruct b eqn:?
  | |- only _ (match ?x with _ => _ end) => destruct x eqn:?
  | |- total (if ?b then _ else _) => destruct b eqn:?
  | |- total (match ?x with _ => _ end) => destruct x eqn:?
  | |- only _ (bind _ _) => apply only_bind
  | |- total (bind _ _) => apply total_bind
  | |- only _ (for_upto _ _) => apply only_for
  | |- total (for_upto _ _) => apply total_for
  | |- only _ (mapM_ _ _) => apply only_mapM
  | |- total (mapM_ _ _) => apply total_mapM
  | |- only _ (when _ _) => apply only_when
  | |- total (when _ _) => apply total_when
  | |- forall _, _ => intros ?
  | |- only _ _ => solve [eauto 2 with hw]
  | |- total _ => solve [eauto 2 with hw]
  end; cbv beta iota.
Ltac hw_auto := repeat hw_step.

(** Follows the code to its return statements; what runs before them is left
    as [total] goals for [hw_auto]. *)
Ltac yields_step :=
  match goal with
  | |- yields _ (if ?b then _ else _) => destruct b eqn:?
  | |- yields _ (match ?x with _ => _ end) => destruct x eqn:?
  | |- yields _ (bind _ _) => apply yields_skip; [|intros ?]
  | |- yields _ (ret _) => apply yields_ret
  end; cbv beta iota.
Ltac yields_auto := repeat yields_step.

(** ** Invariants of the globals

    Every run of [m], also one that stops, keeps [I]. *)
Section preserves.
Context {D G : Type} `{Device D} (I : G -> Prop).

Definition preserves {A} (m : M D G A) : Prop := forall s, I (glob s) -> I (glob (fin (m s))).

Lemma preserves_bind {A B} (m : M D G A) (k : A -> M D G B) :
  preserves m -> (forall a, preserves (k a)) -> preserves (bind m k).
Proof.
  intros Hm Hk s Hs. unfold bind. specialize (Hm s Hs). destruct (out (m s)); cbn; [by apply Hk|done].
Qed.

(** A reading of the globals satisfies the invariant. *)
Lemma preserves_get {B} (k : G -> M D G B) :
  (forall g, I g -> preserves (k g)) -> preserves (bind get k).
Proof. intros Hk s Hs. by apply (Hk (glob s)). Qed.

Lemma preserves_read {B} a (k : Z -> M D G B) :
  (forall v, word v -> preserves (k v)) -> preserves (bind (readl a) k).
Proof.
  intros Hk s Hs. unfold bind, readl. destruct (dev_read a (dev s)) as [v d]. cbn. apply Hk; [apply word_u32|done].
Qed.

Lemma preserves_modify (f : G -> G) : (forall g, I g -> I (f g)) -> preserves (modify f).
Proof. intros Hf s Hs. by apply Hf. Qed.

Lemma preserves_ret {A} (a : A) : preserves (ret a).
Proof. by intros s Hs. Qed.
Lemma preserves_stopped {A} w : preserves (stopped (A:=A) w).
Proof. by intros s Hs. Qed.
Lemma preserves_msg m : preserves (msg m).
Proof. by intros s Hs. Qed.
Lemma preserves_readl a : preserves (readl a).
Proof. intros s Hs. unfold readl. by destruct (dev_read a (dev s)). Qed.
Lemma preserves_writel v a : preserves (writel v a).
Proof. by intros s Hs. Qed.

Lemma preserves_for {A} n (body : Z -> M D G (option A)) :
  (forall i, preserves (body i)) -> preserves (for_upto n body).
Proof.
  intros Hb.
  assert (Hk : forall k i, preserves (nloop k i body)).
  { induction k as [|k IH]; intros i; cbn [nloop]; [apply preserves_ret|].
    apply preserves_bind; [apply Hb|]. intros [a|]; [apply preserves_ret|apply IH]. }
  intros s Hs. rewrite for_upto_nloop. by apply Hk.
Qed.

Lemma preserves_while {X A} fuel (body : X -> M D G (X + A)) x :
  (forall x, preserves (body x)) -> preserves (while_fuel fuel body x).
Proof.
  intros Hb. revert x. induction fuel as [|n IH]; intros x; cbn [while_fuel]; [apply preserves_stopped|].
  apply preserves_bind; [apply Hb|]. intros [y|a]; [apply IH|apply preserves_ret].
Qed.

Lemma preserves_mapM {X} (f : X -> M D G unit) l :
  (forall x, preserves (f x)) -> preserves (mapM_ f l).
Proof.
  intros Hf. induction l as [|x l IH]; cbn; [apply preserves_ret|].
  apply preserves_bind; [apply Hf|]. auto.
Qed.

(** The run as a whole. *)
Lemma wp_preserves {A} (m : M D G A) s : preserves m -> I (glob s) -> wp m s (fun _ s' _ => I (glob s')).
Proof. intros Hm Hs. by apply Hm. Qed.

End preserves.

(** Follows the code; updates of the globals are left as goals. *)
Ltac inv_step :=
  match goal with
  | |- preserves _ (ret _) => apply preserves_ret
  | |- preserves _ (stopped _) => apply preserves_stopped
  | |- preserves _ halt => apply preserves_stopped
  | |- preserves _ undef => apply preserves_stopped
  | |- preserves _ nofuel => apply preserves_stopped
  | |- preserves _ hang => unfold hang
  | |- preserves _ (msg _) => apply preserves_msg
  | |- preserves _ (readl _) => apply preserves_readl
  | |- preserves _ (writel _ _) => apply preserves_writel
  | |- preserves _ (setbits_le32 _ _) => unfold setbits_le32
  | |- preserves _ (clrbits_le32 _ _) => unfold clrbits_le32
  | |- preserves _ (udiv _ _) => unfold udiv
  | |- preserves _ (array_get _ _) => unfold array_get
  | |- preserves _ (when _ _) => unfold when
  | |- preserves _ (modify _) => apply preserves_modify
  | |- preserves _ (bind get _) => apply preserves_get
  | |- preserves _ (bind (readl _) _) => apply preserves_read
  | |- preserves _ (bind _ _) => apply preserves_bind
  | |- preserves _ (for_upto _ _) => apply preserves_for
  | |- preserves _ (while_fuel _ _ _) => apply preserves_while
  | |- preserves _ (mapM_ _ _) => apply preserves_mapM
  | |- preserves _ (if ?b then _ else _) => destruct b eqn:?
  | |- preserves _ (match ?x with _ => _ end) => destruct x eqn:?
  | |- forall _, _ => intros ?
  | |- preserves _ _ => solve [eauto 2 with hw]
  end; cbv beta iota zeta.
Ltac inv_auto := repeat inv_step.

(** ** A program on a part of the globals

    [look] reads the part, [put] stores it. *)
Section zoom.
Context {D G G' : Type} (look : G -> G') (put : G' -> G -> G).

Definition zoom {A} (m : M D G' A) : M D G A := fun s =>
  let r := m (mk_st (dev s) (look (glob s))) in
  mk_res (out r) (mk_st (dev (fin r)) (put (glob (fin r)) (glob s))) (tr r).

Lemma wp_zoom {A} (m : M D G' A) (s : st D G) (Q : outcome A -> st D G -> trace -> Prop) :
  wp m (mk_st (dev s) (look (glob s))) (fun o s' t => Q o (mk_st (dev s') (put (glob s') (glob s))) t) ->
  wp (zoom m) s Q.
Proof. done. Qed.

Lemma preserves_zoom (I : G -> Prop) {A} (m : M D G' A) : (forall g g', I g -> I (put g' g)) -> preserves I (zoom m).
Proof. intros Hp s Hs. by apply Hp. Qed.

End zoom.

(** ** Writes of a trace *)

Definition writes (t : trace) : list (Z * Z) :=
  omap (fun e => match e with Wr a v => Some (a, v) | _ => None end) t.

Lemma writes_app t t' : writes (t ++ t') = writes t ++ writes t'.
Proof. apply omap_app. Qed.

Definition writes_at (a : Z) (t : trace) : list Z :=
  omap (fun e => match e with Wr a' v => if a' =? a then Some v else None | _ => None end) t.

Lemma writes_at_app a t t' : writes_at a (t ++ t') = writes_at a t ++ writes_at a t'.
Proof. apply omap_app. Qed.

Lemma writes_at_nil a t :
  Forall (fun e => match e with Wr a' _ => a' <> a | _ => True end) t -> writes_at a t = [].
Proof.
  induction 1 as [|e t He Ht IH]; [done|]. destruct e as [| a' v |]; cbn; [done| |done].
  destruct (Z.eqb_spec a' a); [done|]. done.
Qed.

(** [seen ps t]: events that satisfy the predicates [ps] occur in [t] in that
    order, other events between them. *)
Inductive seen : list (event -> Prop) -> trace -> Prop :=
| seen_nil t : seen [] t
| seen_hit (p : event -> Prop) ps e t : p e -> seen ps t -> seen (p :: ps) (e :: t)
| seen_skip ps e t : seen ps t -> seen ps (e :: t).
#[export] Hint Constructors seen : hw.

Lemma seen_prefix ps t t' : seen ps t' -> seen ps (t ++ t').
Proof. induction t; cbn; auto with hw. Qed.

Lemma seen_app ps ps' t t' : seen ps t -> seen ps' t' -> seen (ps ++ ps') (t ++ t').
Proof.
  induction 1 as [t|p ps e t Hp Hs IH|ps e t Hs IH]; cbn; intros; auto with hw.
  by apply seen_prefix.
Qed.

Lemma seen_suffix ps t t' : seen ps t -> seen ps (t ++ t').
Proof. intros Hs. rewrite <- (app_nil_r ps). apply seen_app; auto with hw. Qed.

Lemma seen_one (p q : event -> Prop) t : (forall e, p e -> q e) -> seen [p] t -> seen [q] t.
Proof.
  intros Hpq. remember [p] as l eqn:El. intros Hs. induction Hs as [|p' ps e t Hp Hs IH|ps e t Hs IH]; simplify_eq.
  - apply seen_hit; [auto|constructor].
  - apply seen_skip. auto.
Qed.

(** A polling loop that leaves with a value saw what its body looks for. *)
Lemma seen_for {D G : Type} `{Device D} {A} n (body : Z -> M D G (option A)) (R : A -> list (event -> Prop)) s :
  0 <= n ->
  (forall i s, wp (body i) s (fun o _ t =>
     exists r, o = Val r /\ match r with Some a => seen (R a) t | None => True end)) ->
  wp (for_upto n body) s (fun o _ t =>
     exists r, o = Val r /\ match r with Some a => seen (R a) t | None => True end).
Proof.
  intros Hn Hb. apply wp_for with (I := fun _ _ _ => True); [done|done| |eauto].
  intros i s' t _ _. eapply wp_mono; [apply Hb|]. intros o s2 t2 (r & -> & Hr).
  destruct r; [|done]. eexists. split; [done|]. by apply seen_prefix.
Qed.

(** Runs the first program of a sequence by a lemma about it. *)
Ltac wp_call lem :=
  wp_step; eapply wp_mono; [apply lem|]; cbv beta.

(** A device that is plain memory: a read gives the last value written. *)
Abbreviation ram := (gmap Z Z).
#[export] Instance ram_device : Device ram := {
  dev_read a m := (default 0 (m !! a), m);
  dev_write a v m := <[a := v]> m
}.

(** ** Registers that behave as memory

    [Reg D a] promises that address [a] of the device is a plain register: it
    reads back what was last written, and accesses to other addresses leave it
    alone.  Nothing is said about the rest of the device. *)
Class Reg (D : Type) `{Device D} (a : Z) := {
  reg_val : D -> Z;
  reg_read : forall d, dev_read a d = (reg_val d, snd (dev_read a d)) /\
                       reg_val (snd (dev_read a d)) = reg_val d;
  reg_write : forall v d, reg_val (dev_write a v d) = v;
  reg_read_frame : forall b d, b <> a -> reg_val (snd (dev_read b d)) = reg_val d;
  reg_write_frame : forall b v d, b <> a -> reg_val (dev_write b v d) = reg_val d
}.
Arguments reg_val {D _} a {_} d.

#[export] Instance ram_reg a : Reg ram a.
Proof.
  refine {| reg_val (m : ram) := default 0 (m !! a) |}; intros;
    cbn [dev_read dev_write ram_device snd]; [done| |done|].
  - by rewrite lookup_insert_eq.
  - by rewrite lookup_insert_ne.
Defined.

Section registers.
Context {D G : Type} `{Device D} (a : Z) `{!Reg D a}.
Abbreviation post A := (outcome A -> st D G -> trace -> Prop).

(** The register's value as a 32-bit word. *)
Definition reg (s : st D G) : Z := u32 (reg_val a (dev s)).

Lemma word_reg s : word (reg s).
Proof. apply word_u32. Qed.

Lemma wp_readl_reg s (Q : post Z) :
  (forall d, reg (mk_st d (glob s)) = reg s -> Q (Val (reg s)) (mk_st d (glob s)) [Rd a (reg s)]) ->
  wp (readl a) s Q.
Proof.
  intros HQ. destruct (reg_read (dev s)) as [E Ek].
  eapply wp_readl; [exact E|]. apply HQ. unfold reg. cbn. by rewrite Ek.
Qed.

Lemma wp_writel_reg v s (Q : post unit) :
  (forall d, reg (mk_st d (glob s)) = u32 v -> Q (Val tt) (mk_st d (glob s)) [Wr a (u32 v)]) ->
  wp (writel v a) s Q.
Proof. intros HQ. apply wp_writel, HQ. unfold reg. cbn. by rewrite reg_write, u32_idem. Qed.

Lemma wp_readl_other b s (Q : post Z) : b <> a ->
  (forall v d, word v -> reg (mk_st d (glob s)) = reg s -> Q (Val v) (mk_st d (glob s)) [Rd b v]) ->
  wp (readl b) s Q.
Proof.
  intros Hb HQ. destruct (dev_read b (dev s)) as [v d] eqn:E.
  eapply wp_readl; [exact E|]. apply HQ; [apply word_u32|]. unfold reg. cbn.
  rewrite <- (reg_read_frame b (dev s) Hb), E. done.
Qed.

Lemma wp_writel_other v b s (Q : post unit) : b <> a ->
  (forall d, reg (mk_st d (glob s)) = reg s -> Q (Val tt) (mk_st d (glob s)) [Wr b (u32 v)]) ->
  wp (writel v b) s Q.
Proof. intros Hb HQ. apply wp_writel, HQ. unfold reg. cbn. by rewrite reg_write_frame. Qed.

Lemma wp_setbits_reg m s (Q : post unit) : word m ->
  (forall d, reg (mk_st d (glob s)) = reg s .| m ->
     Q (Val tt) (mk_st d (glob s)) [Rd a (reg s); Wr a (reg s .| m)]) ->
  wp (setbits_le32 a m) s Q.
Proof.
  intros Hm HQ. apply wp_bind, wp_readl_reg. intros d Hd. apply wp_writel_reg. intros d' Hd'.
  pose proof (word_reg s). rewrite u32_word in * by word_solve. by apply HQ.
Qed.

Lemma wp_clrbits_reg m s (Q : post unit) :
  (forall d, reg (mk_st d (glob s)) = reg s .& .~ m ->
     Q (Val tt) (mk_st d (glob s)) [Rd a (reg s); Wr a (reg s .& .~ m)]) ->
  wp (clrbits_le32 a m) s Q.
Proof.
  intros HQ. apply wp_bind, wp_readl_reg. intros d Hd. apply wp_writel_reg. intros d' Hd'.
  pose proof (word_reg s). rewrite u32_word in * by word_solve. by apply HQ.
Qed.

(** Programs that leave the register alone. *)
Definition keeps {A} (m : M D G A) : Prop := forall s, reg (fin (m s)) = reg s.

Lemma keeps_bind {A B} (m : M D G A) (k : A -> M D G B) :
  keeps m -> (forall x, keeps (k x)) -> keeps (bind m k).
Proof.
  intros Hm Hk s. unfold bind. destruct (out (m s)) eqn:E; cbn; [|apply Hm].
  by rewrite Hk, Hm.
Qed.

Lemma keeps_ret {A} (x : A) : keeps (ret x).
Proof. done. Qed.
Lemma keeps_stopped {A} w : keeps (stopped (A:=A) w).
Proof. done. Qed.
Lemma keeps_msg x : keeps (msg x).
Proof. done. Qed.
Lemma keeps_get : keeps get.
Proof. done. Qed.
Lemma keeps_modify f : keeps (modify f).
Proof. done. Qed.

Lemma keeps_readl b : keeps (readl b).
Proof.
  intros s. change (wp (readl b) s (fun _ s' _ => reg s' = reg s)).
  destruct (Z.eq_dec b a) as [->|]; [by apply wp_readl_reg|by apply wp_readl_other].
Qed.

Lemma keeps_writel v b : b <> a -> keeps (writel v b).
Proof.
  intros Hb s. change (wp (writel v b) s (fun _ s' _ => reg s' = reg s)).
  by apply wp_writel_other.
Qed.

Lemma keeps_setbits b m : b <> a -> keeps (setbits_le32 b m).
Proof. intros. apply keeps_bind; [apply keeps_readl|]. intros. by apply keeps_writel. Qed.
Lemma keeps_clrbits b m : b <> a -> keeps (clrbits_le32 b m).
Proof. intros. apply keeps_bind; [apply keeps_readl|]. intros. by apply keeps_writel. Qed.

Lemma keeps_while {X A} fuel (body : X -> M D G (X + A)) x :
  (forall x, keeps (body x)) -> keeps (while_fuel fuel body x).
Proof.
  intros Hb. revert x. induction fuel as [|n IH]; intros x; cbn [while_fuel]; [done|].
  apply keeps_bind; [apply Hb|]. intros [y|r]; [apply IH|done].
Qed.

Lemma keeps_for {A} n (body : Z -> M D G (option A)) :
  (forall i, keeps (body i)) -> keeps (for_upto n body).
Proof.
  intros Hb. assert (Hk : forall k i, keeps (nloop k i body)).
  { induction k as [|k IH]; intros i; cbn [nloop]; [done|].
    apply keeps_bind; [apply Hb|]. intros [x|]; [done|apply IH]. }
  intros s. rewrite for_upto_nloop. apply Hk.
Qed.

Lemma keeps_mapM {X} (f : X -> M D G unit) l :
  (forall x, keeps (f x)) -> keeps (mapM_ f l).
Proof.
  intros Hf. induction l as [|x l IH]; cbn; [done|]. apply keeps_bind; [apply Hf|auto].
Qed.

Lemma wp_keeps {A} (m : M D G A) s (Q : post A) :
  keeps m -> (forall o s' t, reg s' = reg s -> Q o s' t) -> wp m s Q.
Proof. intros Hk HQ. apply HQ, Hk. Qed.

Lemma wp_kept {A} (m : M D G A) s : keeps m -> wp m s (fun _ s' _ => reg s' = reg s).
Proof. intros Hk. apply Hk. Qed.

End registers.

(** Reading [a] changes no plain register. *)
Lemma reg_after_read {D G : Type} `{Device D} a b `{!Reg D b} (s : st D G) :
  reg b (mk_st (snd (dev_read a (dev s))) (glob s)) = reg b s.
Proof.
  unfold reg. cbn. destruct (Z.eq_dec a b) as [->|Hab]; f_equal.
  - apply (reg_read (dev s)).
  - by apply reg_read_frame.
Qed.

Lemma wp_readl_known {D G : Type} `{Device D} a `{!Reg D a} (s : st D G)
    (Q : outcome Z -> st D G -> trace -> Prop) :
  Q (Val (reg a s)) (mk_st (snd (dev_read a (dev s))) (glob s)) [Rd a (reg a s)] -> wp (readl a) s Q.
Proof. intros HQ. eapply wp_readl; [apply (reg_read (dev s))|]. exact HQ. Qed.

(** Reads and writes that keep track of all the plain registers at once. *)
Lemma wp_readl_all {D G : Type} `{Device D} a `{!Reg D a} (s : st D G)
    (Q : outcome Z -> st D G -> trace -> Prop) :
  (forall s', (forall b (R : Reg D b), reg b s' = reg b s) -> glob s' = glob s ->
     Q (Val (reg a s)) s' [Rd a (reg a s)]) -> wp (readl a) s Q.
Proof. intros HQ. apply (wp_readl_known a), HQ; [intros b R; apply reg_after_read|done]. Qed.

Lemma wp_writel_all {D G : Type} `{Device D} a `{!Reg D a} v (s : st D G)
    (Q : outcome unit -> st D G -> trace -> Prop) :
  (forall s', reg a s' = u32 v -> (forall b (R : Reg D b), a <> b -> reg b s' = reg b s) -> glob s' = glob s ->
     Q (Val tt) s' [Wr a (u32 v)]) -> wp (writel v a) s Q.
Proof.
  intros HQ. apply wp_writel, HQ; [|intros b R Hab|done]; unfold reg; cbn.
  - by rewrite reg_write, u32_idem.
  - by rewrite reg_write_frame.
Qed.

Ltac addr_ne := solve [ assumption | discriminate | vm_compute; discriminate | lia ].

(** Follows the code to prove that a register is left alone. *)
Ltac keeps_step :=
  match goal with
  | |- keeps _ (ret _) => apply keeps_ret
  | |- keeps _ (stopped _) => apply keeps_stopped
  | |- keeps _ halt => apply keeps_stopped
  | |- keeps _ undef => apply keeps_stopped
  | |- keeps _ nofuel => apply keeps_stopped
  | |- keeps _ hang => unfold hang
  | |- keeps _ (msg _) => apply keeps_msg
  | |- keeps _ get => apply keeps_get
  | |- keeps _ (modify _) => apply keeps_modify
  | |- keeps _ (readl _) => apply keeps_readl
  | |- keeps _ (writel _ _) => apply keeps_writel; addr_ne
  | |- keeps _ (setbits_le32 _ _) => apply keeps_setbits; addr_ne
  | |- keeps _ (clrbits_le32 _ _) => apply keeps_clrbits; addr_ne
  | |- keeps _ (if ?b then _ else _) => destruct b eqn:?
  | |- keeps _ (match ?x with _ => _ end) => destruct x eqn:?
  | |- keeps _ (bind _ _) => apply keeps_bind
  | |- keeps _ (for_upto _ _) => apply keeps_for
  | |- keeps _ (while_fuel _ _ _) => apply keeps_while
  | |- keeps _ (mapM_ _ _) => apply keeps_mapM
  | |- keeps _ (when _ _) => unfold when
  | |- keeps _ (array_get _ _) => unfold array_get
  | |- keeps _ (udiv _ _) => unfold udiv
  | |- forall _, _ => intros ?
  | |- keeps _ _ => solve [eauto 2 with hw]
  end; cbv beta iota.
Ltac keeps_auto := repeat keeps_step.

(** Symbolic execution that follows the value of the register [a]; the
    equations on it accumulate as hypotheses. *)
Ltac reg_intro := let H := fresh "Hreg" in intros ? H; cbn [dev glob] in H.
Ltac reg_step a :=
  match goal with
  | |- wp (bind _ _) _ _ => apply wp_bind
  | |- wp (ret _) _ _ => apply wp_ret
  | |- wp (setbits_le32 a _) _ _ => apply (wp_setbits_reg a); [ word_solve | reg_intro ]
  | |- wp (clrbits_le32 a _) _ _ => apply (wp_clrbits_reg a); reg_intro
  | |- wp (setbits_le32 _ _) _ _ => unfold setbits_le32
  | |- wp (clrbits_le32 _ _) _ _ => unfold clrbits_le32
  | |- wp (readl a) _ _ => apply (wp_readl_reg a); reg_intro
  | |- wp (writel _ a) _ _ => apply (wp_writel_reg a); reg_intro
  | |- wp (readl _) _ _ =>
      apply (wp_readl_other a); [ addr_ne |
        let H := fresh "Hreg" in intros ? ? ? H; cbn [dev glob] in H ]
  | |- wp (writel _ _) _ _ => apply (wp_writel_other a); [ addr_ne | reg_intro ]
  | |- wp (msg _) _ _ => apply wp_msg
  | |- wp get _ _ => apply wp_get
  | |- wp (modify _) _ _ => apply wp_modify
  | |- wp (if ?b then _ else _) _ _ => destruct b eqn:?
  end; cbv beta iota; cbn [dev glob].
Ltac reg_run a := repeat reg_step a.

(** Writes the register's value in the goal in terms of the oldest state. *)
Ltac reg_subst a :=
  repeat match goal with H : reg a ?x = _ |- context [reg a ?x] => rewrite H end.
