(* ===== verification/Regs.v ===== *)
(** Register addresses, masks and board settings.

    Each constant has the name and the value of a #define of the platform
    headers (arch-socfpga/*.h), of the board's configuration headers
    (board/altera/socfpga/*.h, include/configs/socfpga_common.h) or of a source
    file.  A constant [x_base_f] is the address of field [f] of the register
    structure that the source reaches through the pointer [x_base]. *)

From S2P Require Import Prelude.

Definition BOOT_DEVICE_MMC1 : Z := 3.
Definition BOOT_DEVICE_NAND : Z := 6.
Definition BOOT_DEVICE_RAM : Z := 1.
Definition BOOT_DEVICE_SPI : Z := 2.
Definition CC_DSTBRSTLEN_SHFT : Z := 18.
Definition CC_DSTBRSTSIZE_SHFT : Z := 15.
Definition CC_DSTCCTRL_SHFT : Z := 25.
Definition CC_DSTIA : Z := (1 .<< 24).
Definition CC_DSTINC : Z := (1 .<< 14).
Definition CC_DSTNS : Z := (1 .<< 23).
Definition CC_DSTPRI : Z := (1 .<< 22).
Definition CC_SRCBRSTLEN_SHFT : Z := 4.
Definition CC_SRCBRSTSIZE_SHFT : Z := 1.
Definition CC_SRCCCTRL_SHFT : Z := 11.
Definition CC_SRCIA : Z := (1 .<< 10).
Definition CC_SRCINC : Z := (1 .<< 0).
Definition CC_SRCNS : Z := (1 .<< 9).
Definition CC_SRCPRI : Z := (1 .<< 8).
Definition CC_SWAP_SHFT : Z := 28.
Definition CDRATIO_x1 : Z := 0x0.
Definition CDRATIO_x2 : Z := 0x1.
Definition CDRATIO_x4 : Z := 0x2.
Definition CDRATIO_x8 : Z := 0x3.
Definition CHUNKSZ_CRC32 : Z := (1 * 1024).
Definition CLKMGR_MAINPLLGRP_VCO_PWRDN_SET (x : Z) : Z := (((x) .<< 2) .& 0x00000004).
Definition CLKMGR_MAINPLLGRP_VCO_EN_SET (x : Z) : Z := (((x) .<< 1) .& 0x00000002).
Definition CLKMGR_MAINPLLGRP_VCO_BGPWRDN_SET (x : Z) : Z := (((x) .<< 0) .& 0x00000001).
Definition CLEAR_BGP_EN_PWRDN : Z := (CLKMGR_MAINPLLGRP_VCO_PWRDN_SET(0).| CLKMGR_MAINPLLGRP_VCO_EN_SET(0).| CLKMGR_MAINPLLGRP_VCO_BGPWRDN_SET(0)).
Definition CLKMGR_ALTERAGRP_MAINCLK : Z := 0xe4.
Definition CLKMGR_ALTERAGRP_MPUCLK : Z := 0xe0.
Definition CLKMGR_BYPASS_ADDRESS : Z := 0x4.
Definition CLKMGR_BYPASS_ENUM_DISABLE : Z := 0.
Definition CLKMGR_BYPASS_ENUM_ENABLE : Z := 1.
Definition CLKMGR_BYPASS_MAINPLL_SET (x : Z) : Z := (((x) .<< 0) .& 0x00000001).
Definition CLKMGR_BYPASS_PERPLLSRC_ENUM_SELECT_EOSC1 : Z := 0x0.
Definition CLKMGR_BYPASS_PERPLLSRC_SET (x : Z) : Z := (((x) .<< 4) .& 0x00000010).
Definition CLKMGR_BYPASS_PERPLL_SET (x : Z) : Z := (((x) .<< 3) .& 0x00000008).
Definition CLKMGR_BYPASS_SDRPLLSRC_ENUM_SELECT_EOSC1 : Z := 0x0.
Definition CLKMGR_BYPASS_SDRPLLSRC_SET (x : Z) : Z := (((x) .<< 2) .& 0x00000004).
Definition CLKMGR_BYPASS_SDRPLL_SET (x : Z) : Z := (((x) .<< 1) .& 0x00000002).
Definition CLKMGR_CTRL_ADDRESS : Z := 0x0.
Definition CLKMGR_CTRL_SAFEMODE_MASK : Z := 0x00000001.
Definition CLKMGR_CTRL_SAFEMODE_SET (x : Z) : Z := (((x) .<< 0) .& 0x00000001).
Definition CLKMGR_DBCTRL_ADDRESS : Z := 0x10.
Definition CLKMGR_DBCTRL_STAYOSC1_MASK : Z := 0x00000001.
Definition CLKMGR_INTER_ADDRESS : Z := 0x8.
Definition CLKMGR_INTER_MAINPLLLOST_MASK : Z := 0x00000008.
Definition CLKMGR_INTER_PERPLLLOST_MASK : Z := 0x00000010.
Definition CLKMGR_INTER_SDRPLLLOST_MASK : Z := 0x00000020.
Definition CLKMGR_L4_SP_CLK_SRC_MAINPLL : Z := 0x0.
Definition CLKMGR_L4_SP_CLK_SRC_PERPLL : Z := 0x1.
Definition CLKMGR_MAINPLLGRP_CFGS2FUSER0CLK_ADDRESS : Z := 0x5c.
Definition CLKMGR_MAINPLLGRP_CFGS2FUSER0CLK_CNT_SET (x : Z) : Z := (((x) .<< 0) .& 0x000001ff).
Definition CLKMGR_MAINPLLGRP_DBGATCLK_ADDRESS : Z := 0x50.
Definition CLKMGR_MAINPLLGRP_DBGATCLK_CNT_SET (x : Z) : Z := (((x) .<< 0) .& 0x000001ff).
Definition CLKMGR_MAINPLLGRP_DBGDIV_ADDRESS : Z := 0x68.
Definition CLKMGR_MAINPLLGRP_DBGDIV_DBGATCLK_SET (x : Z) : Z := (((x) .<< 0) .& 0x00000003).
Definition CLKMGR_MAINPLLGRP_DBGDIV_DBGCLK_SET (x : Z) : Z := (((x) .<< 2) .& 0x0000000c).
Definition CLKMGR_MAINPLLGRP_EN_ADDRESS : Z := 0x60.
Definition CLKMGR_MAINPLLGRP_EN_DBGATCLK_MASK : Z := 0x00000010.
Definition CLKMGR_MAINPLLGRP_EN_DBGCLK_MASK : Z := 0x00000020.
Definition CLKMGR_MAINPLLGRP_EN_DBGTIMERCLK_MASK : Z := 0x00000080.
Definition CLKMGR_MAINPLLGRP_EN_DBGTRACECLK_MASK : Z := 0x00000040.
Definition CLKMGR_MAINPLLGRP_EN_L4MPCLK_MASK : Z := 0x00000004.
Definition CLKMGR_MAINPLLGRP_EN_S2FUSER0CLK_MASK : Z := 0x00000200.
Definition CLKMGR_MAINPLLGRP_L4SRC_ADDRESS : Z := 0x70.
Definition CLKMGR_MAINPLLGRP_L4SRC_L4MP_SET (x : Z) : Z := (((x) .<< 0) .& 0x00000001).
Definition CLKMGR_MAINPLLGRP_L4SRC_L4SP_GET (x : Z) : Z := (((x) .& 0x00000002) .>> 1).
Definition CLKMGR_MAINPLLGRP_L4SRC_L4SP_SET (x : Z) : Z := (((x) .<< 1) .& 0x00000002).
Definition CLKMGR_MAINPLLGRP_L4SRC_RESET_VALUE : Z := 0x00000000.
Definition CLKMGR_MAINPLLGRP_MAINCLK_ADDRESS : Z := 0x4c.
Definition CLKMGR_MAINPLLGRP_MAINCLK_CNT_SET (x : Z) : Z := (((x) .<< 0) .& 0x000001ff).
Definition CLKMGR_MAINPLLGRP_MAINDIV_ADDRESS : Z := 0x64.
Definition CLKMGR_MAINPLLGRP_MAINDIV_L3MPCLK_SET (x : Z) : Z := (((x) .<< 0) .& 0x00000003).
Definition CLKMGR_MAINPLLGRP_MAINDIV_L3SPCLK_SET (x : Z) : Z := (((x) .<< 2) .& 0x0000000c).
Definition CLKMGR_MAINPLLGRP_MAINDIV_L4MPCLK_SET (x : Z) : Z := (((x) .<< 4) .& 0x00000070).
Definition CLKMGR_MAINPLLGRP_MAINDIV_L4SPCLK_GET (x : Z) : Z := (((x) .& 0x00000380) .>> 7).
Definition CLKMGR_MAINPLLGRP_MAINDIV_L4SPCLK_SET (x : Z) : Z := (((x) .<< 7) .& 0x00000380).
Definition CLKMGR_MAINPLLGRP_MAINNANDSDMMCCLK_ADDRESS : Z := 0x58.
Definition CLKMGR_MAINPLLGRP_MAINQSPICLK_ADDRESS : Z := 0x54.
Definition CLKMGR_MAINPLLGRP_MAINQSPICLK_CNT_SET (x : Z) : Z := (((x) .<< 0) .& 0x000001ff).
Definition CLKMGR_MAINPLLGRP_MPUCLK_ADDRESS : Z := 0x48.
Definition CLKMGR_MAINPLLGRP_MPUCLK_CNT_SET (x : Z) : Z := (((x) .<< 0) .& 0x000001ff).
Definition CLKMGR_MAINPLLGRP_PERNANDSDMMCCLK_CNT_SET (x : Z) : Z := (((x) .<< 0) .& 0x000001ff).
Definition CLKMGR_MAINPLLGRP_TRACEDIV_ADDRESS : Z := 0x6c.
Definition CLKMGR_MAINPLLGRP_TRACEDIV_TRACECLK_SET (x : Z) : Z := (((x) .<< 0) .& 0x00000007).
Definition CLKMGR_MAINPLLGRP_VCO_ADDRESS : Z := 0x40.
Definition CLKMGR_MAINPLLGRP_VCO_DENOM_GET (x : Z) : Z := (((x) .& 0x003f0000) .>> 16).
Definition CLKMGR_MAINPLLGRP_VCO_NUMER_GET (x : Z) : Z := (((x) .& 0x0000fff8) .>> 3).
Definition CLKMGR_MAINPLLGRP_VCO_OUTRESETALL_MASK : Z := 0x01000000.
Definition CLKMGR_MAINPLLGRP_VCO_REGEXTSEL_MASK : Z := 0x80000000.
Definition CLKMGR_MAINPLLGRP_VCO_RESET_VALUE : Z := 0x8001000d.
Definition CLKMGR_PERPLLGRP_DIV_ADDRESS : Z := 0xa4.
Definition CLKMGR_PERPLLGRP_DIV_CAN0CLK_SET (x : Z) : Z := (((x) .<< 6) .& 0x000001c0).
Definition CLKMGR_PERPLLGRP_DIV_CAN1CLK_SET (x : Z) : Z := (((x) .<< 9) .& 0x00000e00).
Definition CLKMGR_PERPLLGRP_DIV_SPIMCLK_SET (x : Z) : Z := (((x) .<< 3) .& 0x00000038).
Definition CLKMGR_PERPLLGRP_DIV_USBCLK_SET (x : Z) : Z := (((x) .<< 0) .& 0x00000007).
Definition CLKMGR_PERPLLGRP_EMAC0CLK_ADDRESS : Z := 0x88.
Definition CLKMGR_PERPLLGRP_EMAC0CLK_CNT_SET (x : Z) : Z := (((x) .<< 0) .& 0x000001ff).
Definition CLKMGR_PERPLLGRP_EMAC1CLK_ADDRESS : Z := 0x8c.
Definition CLKMGR_PERPLLGRP_EMAC1CLK_CNT_SET (x : Z) : Z := (((x) .<< 0) .& 0x000001ff).
Definition CLKMGR_PERPLLGRP_EN_ADDRESS : Z := 0xa0.
Definition CLKMGR_PERPLLGRP_EN_NANDCLK_MASK : Z := 0x00000400.
Definition SOCFPGA_CLKMGR_ADDRESS : Z := 0xffd04000.
Definition CLKMGR_PERPLLGRP_EN_REG : Z := (SOCFPGA_CLKMGR_ADDRESS + 0xa0).
Definition CLKMGR_PERPLLGRP_GPIODIV_ADDRESS : Z := 0xa8.
Definition CLKMGR_PERPLLGRP_GPIODIV_GPIODBCLK_SET (x : Z) : Z := (((x) .<< 0) .& 0x00ffffff).
Definition CLKMGR_PERPLLGRP_PERBASECLK_ADDRESS : Z := 0x98.
Definition CLKMGR_PERPLLGRP_PERBASECLK_CNT_SET (x : Z) : Z := (((x) .<< 0) .& 0x000001ff).
Definition CLKMGR_PERPLLGRP_PERNANDSDMMCCLK_ADDRESS : Z := 0x94.
Definition CLKMGR_PERPLLGRP_PERNANDSDMMCCLK_CNT_SET (x : Z) : Z := (((x) .<< 0) .& 0x000001ff).
Definition CLKMGR_PERPLLGRP_PERQSPICLK_ADDRESS : Z := 0x90.
Definition CLKMGR_PERPLLGRP_PERQSPICLK_CNT_SET (x : Z) : Z := (((x) .<< 0) .& 0x000001ff).
Definition CLKMGR_PERPLLGRP_S2FUSER1CLK_ADDRESS : Z := 0x9c.
Definition CLKMGR_PERPLLGRP_S2FUSER1CLK_CNT_SET (x : Z) : Z := (((x) .<< 0) .& 0x000001ff).
Definition CLKMGR_PERPLLGRP_SRC_ADDRESS : Z := 0xac.
Definition CLKMGR_PERPLLGRP_SRC_NAND_SET (x : Z) : Z := (((x) .<< 2) .& 0x0000000c).
Definition CLKMGR_PERPLLGRP_SRC_QSPI_GET (x : Z) : Z := (((x) .& 0x00000030) .>> 4).
Definition CLKMGR_PERPLLGRP_SRC_QSPI_SET (x : Z) : Z := (((x) .<< 4) .& 0x00000030).
Definition CLKMGR_PERPLLGRP_SRC_RESET_VALUE : Z := 0x00000015.
Definition CLKMGR_PERPLLGRP_SRC_SDMMC_GET (x : Z) : Z := (((x) .& 0x00000003) .>> 0).
Definition CLKMGR_PERPLLGRP_SRC_SDMMC_SET (x : Z) : Z := (((x) .<< 0) .& 0x00000003).
Definition CLKMGR_PERPLLGRP_VCO_ADDRESS : Z := 0x80.
Definition CLKMGR_PERPLLGRP_VCO_DENOM_GET (x : Z) : Z := (((x) .& 0x003f0000) .>> 16).
Definition CLKMGR_PERPLLGRP_VCO_NUMER_GET (x : Z) : Z := (((x) .& 0x0000fff8) .>> 3).
Definition CLKMGR_PERPLLGRP_VCO_OUTRESETALL_MASK : Z := 0x01000000.
Definition CLKMGR_PERPLLGRP_VCO_REGEXTSEL_MASK : Z := 0x80000000.
Definition CLKMGR_PERPLLGRP_VCO_RESET_VALUE : Z := 0x8001000d.
Definition CLKMGR_PERPLLGRP_VCO_SSRC_GET (x : Z) : Z := (((x) .& 0x00c00000) .>> 22).
Definition CLKMGR_QSPI_CLK_SRC_F2S : Z := 0x0.
Definition CLKMGR_QSPI_CLK_SRC_MAIN : Z := 0x1.
Definition CLKMGR_QSPI_CLK_SRC_PER : Z := 0x2.
Definition CLKMGR_SDMMC_CLK_ENABLE : Z := (1 .<< 8).
Definition CLKMGR_SDMMC_CLK_SRC_F2S : Z := 0x0.
Definition CLKMGR_SDMMC_CLK_SRC_MAIN : Z := 0x1.
Definition CLKMGR_SDMMC_CLK_SRC_PER : Z := 0x2.
Definition CLKMGR_SDRPLLGRP_DDR2XDQSCLK_ADDRESS : Z := 0xcc.
Definition CLKMGR_SDRPLLGRP_DDR2XDQSCLK_CNT_MASK : Z := 0x000001ff.
Definition CLKMGR_SDRPLLGRP_DDR2XDQSCLK_CNT_SET (x : Z) : Z := (((x) .<< 0) .& 0x000001ff).
Definition CLKMGR_SDRPLLGRP_DDR2XDQSCLK_PHASE_MASK : Z := 0x001ffe00.
Definition CLKMGR_SDRPLLGRP_DDR2XDQSCLK_PHASE_SET (x : Z) : Z := (((x) .<< 9) .& 0x00000e00).
Definition CLKMGR_SDRPLLGRP_DDRDQCLK_ADDRESS : Z := 0xd0.
Definition CLKMGR_SDRPLLGRP_DDRDQCLK_CNT_MASK : Z := 0x000001ff.
Definition CLKMGR_SDRPLLGRP_DDRDQCLK_CNT_SET (x : Z) : Z := (((x) .<< 0) .& 0x000001ff).
Definition CLKMGR_SDRPLLGRP_DDRDQCLK_PHASE_MASK : Z := 0x001ffe00.
Definition CLKMGR_SDRPLLGRP_DDRDQCLK_PHASE_SET (x : Z) : Z := (((x) .<< 9) .& 0x00000e00).
Definition CLKMGR_SDRPLLGRP_DDRDQSCLK_ADDRESS : Z := 0xc8.
Definition CLKMGR_SDRPLLGRP_DDRDQSCLK_CNT_GET (x : Z) : Z := (((x) .& 0x000001ff) .>> 0).
Definition CLKMGR_SDRPLLGRP_DDRDQSCLK_CNT_MASK : Z := 0x000001ff.
Definition CLKMGR_SDRPLLGRP_DDRDQSCLK_CNT_SET (x : Z) : Z := (((x) .<< 0) .& 0x000001ff).
Definition CLKMGR_SDRPLLGRP_DDRDQSCLK_PHASE_MASK : Z := 0x001ffe00.
Definition CLKMGR_SDRPLLGRP_DDRDQSCLK_PHASE_SET (x : Z) : Z := (((x) .<< 9) .& 0x00000e00).
Definition CLKMGR_SDRPLLGRP_EN_ADDRESS : Z := 0xd8.
Definition CLKMGR_SDRPLLGRP_S2FUSER2CLK_ADDRESS : Z := 0xd4.
Definition CLKMGR_SDRPLLGRP_S2FUSER2CLK_CNT_MASK : Z := 0x000001ff.
Definition CLKMGR_SDRPLLGRP_S2FUSER2CLK_CNT_SET (x : Z) : Z := (((x) .<< 0) .& 0x000001ff).
Definition CLKMGR_SDRPLLGRP_S2FUSER2CLK_PHASE_MASK : Z := 0x001ffe00.
Definition CLKMGR_SDRPLLGRP_S2FUSER2CLK_PHASE_SET (x : Z) : Z := (((x) .<< 9) .& 0x00000e00).
Definition CLKMGR_SDRPLLGRP_VCO_ADDRESS : Z := 0xc0.
Definition CLKMGR_SDRPLLGRP_VCO_DENOM_GET (x : Z) : Z := (((x) .& 0x003f0000) .>> 16).
Definition CLKMGR_SDRPLLGRP_VCO_NUMER_GET (x : Z) : Z := (((x) .& 0x0000fff8) .>> 3).
Definition CLKMGR_SDRPLLGRP_VCO_OUTRESETALL_SET (x : Z) : Z := (((x) .<< 24) .& 0x01000000).
Definition CLKMGR_SDRPLLGRP_VCO_OUTRESET_SET (x : Z) : Z := (((x) .<< 25) .& 0x7e000000).
Definition CLKMGR_SDRPLLGRP_VCO_REGEXTSEL_MASK : Z := 0x80000000.
Definition CLKMGR_SDRPLLGRP_VCO_RESET_VALUE : Z := 0x8001000d.
Definition CLKMGR_SDRPLLGRP_VCO_SSRC_GET (x : Z) : Z := (((x) .& 0x00c00000) .>> 22).
Definition CLKMGR_STAT_ADDRESS : Z := 0x14.
Definition CLKMGR_STAT_BUSY_ENUM_BUSY : Z := 0x1.
Definition CLKMGR_VCO_SSRC_EOSC1 : Z := 0x0.
Definition CLKMGR_VCO_SSRC_EOSC2 : Z := 0x1.
Definition CLKMGR_VCO_SSRC_F2S : Z := 0x2.
Definition CMD_DMAEND : Z := 0x00.
Definition CMD_DMAFLUSHP : Z := 0x35.
Definition CMD_DMAGO : Z := 0xa0.
Definition CMD_DMAKILL : Z := 0x01.
Definition CMD_DMALD : Z := 0x04.
Definition CMD_DMALP : Z := 0x20.
Definition CMD_DMALPEND : Z := 0x28.
Definition CMD_DMAMOV : Z := 0xbc.
Definition CMD_DMANOP : Z := 0x18.
Definition CMD_DMARMB : Z := 0x12.
Definition CMD_DMASEV : Z := 0x34.
Definition CMD_DMAST : Z := 0x08.
Definition CMD_DMASTP : Z := 0x29.
Definition CMD_DMASTZ : Z := 0x0c.
Definition CMD_DMAWFP : Z := 0x30.
Definition CMD_DMAWMB : Z := 0x13.
Definition COMM_ERR : Z := -18.
Definition CONFIG_BAUDRATE : Z := 115200.
Definition CONFIG_HPS_SDMMC_BUSWIDTH : Z := (4).
Definition CONFIG_DWMMC_BUS_WIDTH : Z := CONFIG_HPS_SDMMC_BUSWIDTH.
Definition CONFIG_DWMMC_FIFO_DEPTH : Z := 1024.
Definition SOCFPGA_L4WD0_ADDRESS : Z := 0xffd02000.
Definition CONFIG_DW_WDT_BASE : Z := SOCFPGA_L4WD0_ADDRESS.
Definition CONFIG_HPS_CLK_OSC1_HZ : Z := (25000000).
Definition CONFIG_DW_WDT_CLOCK_KHZ : Z := (CONFIG_HPS_CLK_OSC1_HZ / 1000).
Definition SOCFPGA_MPUSCU_ADDRESS : Z := 0xfffec000.
Definition SOCFPGA_GIC_DIC : Z := (SOCFPGA_MPUSCU_ADDRESS + 0x1000).
Definition CONFIG_GIC_DIC_CLR_ENABLE : Z := (SOCFPGA_GIC_DIC + 0x180).
Definition CONFIG_GIC_DIC_CLR_PENDING : Z := (SOCFPGA_GIC_DIC + 0x280).
Definition CONFIG_GIC_DIC_CONFIG : Z := (SOCFPGA_GIC_DIC + 0xc00).
Definition CONFIG_GIC_DIC_CONTROL : Z := (SOCFPGA_GIC_DIC + 0).
Definition CONFIG_GIC_DIC_SET_ENABLE : Z := (SOCFPGA_GIC_DIC + 0x100).
Definition CONFIG_GIC_DIC_SET_PENDING : Z := (SOCFPGA_GIC_DIC + 0x200).
Definition CONFIG_GIC_DIC_TARGET : Z := (SOCFPGA_GIC_DIC + 0x800).
Definition CONFIG_HPS_ALTERAGRP_MAINCLK : Z := (3).
Definition CONFIG_HPS_ALTERAGRP_MPUCLK : Z := (1).
Definition CONFIG_HPS_CLK_F2S_PER_REF_HZ : Z := (0).
Definition CONFIG_HPS_CLK_F2S_SDR_REF_HZ : Z := (0).
Definition CONFIG_HPS_CLK_L4_SP_HZ : Z := (100000000).
Definition CONFIG_HPS_CLK_OSC2_HZ : Z := (25000000).
Definition CONFIG_HPS_CLK_QSPI_HZ : Z := (400000000).
Definition CONFIG_HPS_CLK_SDMMC_HZ : Z := (200000000).
Definition CONFIG_HPS_DBCTRL_STAYOSC1 : Z := (1).
Definition CONFIG_HPS_IOCSR_SCANCHAIN0_LENGTH : Z := (764).
Definition CONFIG_HPS_IOCSR_SCANCHAIN1_LENGTH : Z := (1719).
Definition CONFIG_HPS_IOCSR_SCANCHAIN2_LENGTH : Z := (955).
Definition CONFIG_HPS_IOCSR_SCANCHAIN3_LENGTH : Z := (16766).
Definition CONFIG_HPS_MAINPLLGRP_CFGS2FUSER0CLK_CNT : Z := (15).
Definition CONFIG_HPS_MAINPLLGRP_DBGATCLK_CNT : Z := (0).
Definition CONFIG_HPS_MAINPLLGRP_DBGDIV_DBGATCLK : Z := (0).
Definition CONFIG_HPS_MAINPLLGRP_DBGDIV_DBGCLK : Z := (1).
Definition CONFIG_HPS_MAINPLLGRP_L4SRC_L4MP : Z := (1).
Definition CONFIG_HPS_MAINPLLGRP_L4SRC_L4SP : Z := (1).
Definition CONFIG_HPS_MAINPLLGRP_MAINCLK_CNT : Z := (0).
Definition CONFIG_HPS_MAINPLLGRP_MAINDIV_L3MPCLK : Z := (1).
Definition CONFIG_HPS_MAINPLLGRP_MAINDIV_L3SPCLK : Z := (1).
Definition CONFIG_HPS_MAINPLLGRP_MAINDIV_L4MPCLK : Z := (1).
Definition CONFIG_HPS_MAINPLLGRP_MAINDIV_L4SPCLK : Z := (1).
Definition CONFIG_HPS_MAINPLLGRP_MAINNANDSDMMCCLK_CNT : Z := (511).
Definition CONFIG_HPS_MAINPLLGRP_MAINQSPICLK_CNT : Z := (3).
Definition CONFIG_HPS_MAINPLLGRP_MPUCLK_CNT : Z := (0).
Definition CONFIG_HPS_MAINPLLGRP_TRACEDIV_TRACECLK : Z := (0).
Definition CONFIG_HPS_PERPLLGRP_DIV_CAN0CLK : Z := (4).
Definition CONFIG_HPS_PERPLLGRP_DIV_CAN1CLK : Z := (4).
Definition CONFIG_HPS_PERPLLGRP_DIV_SPIMCLK : Z := (0).
Definition CONFIG_HPS_PERPLLGRP_DIV_USBCLK : Z := (0).
Definition CONFIG_HPS_PERPLLGRP_EMAC0CLK_CNT : Z := (511).
Definition CONFIG_HPS_PERPLLGRP_EMAC1CLK_CNT : Z := (3).
Definition CONFIG_HPS_PERPLLGRP_GPIODIV_GPIODBCLK : Z := (6249).
Definition CONFIG_HPS_PERPLLGRP_PERBASECLK_CNT : Z := (4).
Definition CONFIG_HPS_PERPLLGRP_PERNANDSDMMCCLK_CNT : Z := (4).
Definition CONFIG_HPS_PERPLLGRP_PERQSPICLK_CNT : Z := (511).
Definition CONFIG_HPS_PERPLLGRP_S2FUSER1CLK_CNT : Z := (511).
Definition CONFIG_HPS_PERPLLGRP_SRC_NAND : Z := (2).
Definition CONFIG_HPS_PERPLLGRP_SRC_QSPI : Z := (1).
Definition CONFIG_HPS_PERPLLGRP_SRC_SDMMC : Z := (2).
Definition CONFIG_HPS_RESET_ASSERT_CAN0 : Z := (1).
Definition CONFIG_HPS_RESET_ASSERT_CAN1 : Z := (1).
Definition CONFIG_HPS_RESET_ASSERT_DMA : Z := (0).
Definition CONFIG_HPS_RESET_ASSERT_EMAC0 : Z := (1).
Definition CONFIG_HPS_RESET_ASSERT_EMAC1 : Z := (0).
Definition CONFIG_HPS_RESET_ASSERT_FPGA2HPS : Z := (1).
Definition CONFIG_HPS_RESET_ASSERT_FPGA_DMA0 : Z := (1).
Definition CONFIG_HPS_RESET_ASSERT_FPGA_DMA1 : Z := (1).
Definition CONFIG_HPS_RESET_ASSERT_FPGA_DMA2 : Z := (1).
Definition CONFIG_HPS_RESET_ASSERT_FPGA_DMA3 : Z := (1).
Definition CONFIG_HPS_RESET_ASSERT_FPGA_DMA4 : Z := (1).
Definition CONFIG_HPS_RESET_ASSERT_FPGA_DMA5 : Z := (1).
Definition CONFIG_HPS_RESET_ASSERT_FPGA_DMA6 : Z := (1).
Definition CONFIG_HPS_RESET_ASSERT_FPGA_DMA7 : Z := (1).
Definition CONFIG_HPS_RESET_ASSERT_GPIO0 : Z := (0).
Definition CONFIG_HPS_RESET_ASSERT_GPIO1 : Z := (0).
Definition CONFIG_HPS_RESET_ASSERT_GPIO2 : Z := (0).
Definition CONFIG_HPS_RESET_ASSERT_HPS2FPGA : Z := (1).
Definition CONFIG_HPS_RESET_ASSERT_I2C0 : Z := (0).
Definition CONFIG_HPS_RESET_ASSERT_I2C1 : Z := (0).
Definition CONFIG_HPS_RESET_ASSERT_I2C2 : Z := (1).
Definition CONFIG_HPS_RESET_ASSERT_I2C3 : Z := (1).
Definition CONFIG_HPS_RESET_ASSERT_L4WD1 : Z := (0).
Definition CONFIG_HPS_RESET_ASSERT_LWHPS2FPGA : Z := (0).
Definition CONFIG_HPS_RESET_ASSERT_NAND : Z := (1).
Definition CONFIG_HPS_RESET_ASSERT_OSC1TIMER1 : Z := (0).
Definition CONFIG_HPS_RESET_ASSERT_QSPI : Z := (0).
Definition CONFIG_HPS_RESET_ASSERT_SDMMC : Z := (0).
Definition CONFIG_HPS_RESET_ASSERT_SDR : Z := (0).
Definition CONFIG_HPS_RESET_ASSERT_SPIM0 : Z := (1).
Definition CONFIG_HPS_RESET_ASSERT_SPIM1 : Z := (0).
Definition CONFIG_HPS_RESET_ASSERT_SPIS0 : Z := (1).
Definition CONFIG_HPS_RESET_ASSERT_SPIS1 : Z := (1).
Definition CONFIG_HPS_RESET_ASSERT_SPTIMER0 : Z := (0).
Definition CONFIG_HPS_RESET_ASSERT_SPTIMER1 : Z := (0).
Definition CONFIG_HPS_RESET_ASSERT_UART0 : Z := (0).
Definition CONFIG_HPS_RESET_ASSERT_UART1 : Z := (1).
Definition CONFIG_HPS_RESET_ASSERT_USB0 : Z := (1).
Definition CONFIG_HPS_RESET_ASSERT_USB1 : Z := (0).
Definition CONFIG_HPS_RESET_WARMRST_HANDSHAKE_ETR : Z := (1).
Definition CONFIG_HPS_RESET_WARMRST_HANDSHAKE_FPGA : Z := (1).
Definition CONFIG_HPS_RESET_WARMRST_HANDSHAKE_SDRAM : Z := (0).
Definition CONFIG_HPS_SDRPLLGRP_DDR2XDQSCLK_CNT : Z := (0).
Definition CONFIG_HPS_SDRPLLGRP_DDR2XDQSCLK_PHASE : Z := (0).
Definition CONFIG_HPS_SDRPLLGRP_DDRDQCLK_CNT : Z := (1).
Definition CONFIG_HPS_SDRPLLGRP_DDRDQCLK_PHASE : Z := (4).
Definition CONFIG_HPS_SDRPLLGRP_DDRDQSCLK_CNT : Z := (1).
Definition CONFIG_HPS_SDRPLLGRP_DDRDQSCLK_PHASE : Z := (0).
Definition CONFIG_HPS_SDRPLLGRP_S2FUSER2CLK_CNT : Z := (5).
Definition CONFIG_HPS_SDRPLLGRP_S2FUSER2CLK_PHASE : Z := (0).
Definition CONFIG_HPS_SDR_CTRLCFG_CPORTRDWR_CPORTRDWR : Z := (0x5a56a).
Definition CONFIG_HPS_SDR_CTRLCFG_CPORTRMAP_CPORTRMAP : Z := (0xb00088).
Definition CONFIG_HPS_SDR_CTRLCFG_CPORTWIDTH_CPORTWIDTH : Z := (0x44555).
Definition CONFIG_HPS_SDR_CTRLCFG_CPORTWMAP_CPORTWMAP : Z := (0x2c011000).
Definition CONFIG_HPS_SDR_CTRLCFG_CTRLCFG_ADDRORDER : Z := (0).
Definition CONFIG_HPS_SDR_CTRLCFG_CTRLCFG_DQSTRKEN : Z := (0).
Definition CONFIG_HPS_SDR_CTRLCFG_CTRLCFG_ECCEN : Z := (0).
Definition CONFIG_HPS_SDR_CTRLCFG_CTRLCFG_MEMBL : Z := (8).
Definition CONFIG_HPS_SDR_CTRLCFG_CTRLCFG_MEMTYPE : Z := (2).
Definition CONFIG_HPS_SDR_CTRLCFG_CTRLCFG_NODMPINS : Z := (0).
Definition CONFIG_HPS_SDR_CTRLCFG_CTRLCFG_REORDEREN : Z := (1).
Definition CONFIG_HPS_SDR_CTRLCFG_CTRLCFG_STARVELIMIT : Z := (10).
Definition CONFIG_HPS_SDR_CTRLCFG_CTRLWIDTH_CTRLWIDTH : Z := (2).
Definition CONFIG_HPS_SDR_CTRLCFG_DRAMADDRW_BANKBITS : Z := (3).
Definition CONFIG_HPS_SDR_CTRLCFG_DRAMADDRW_COLBITS : Z := (10).
Definition CONFIG_HPS_SDR_CTRLCFG_DRAMADDRW_CSBITS : Z := (1).
Definition CONFIG_HPS_SDR_CTRLCFG_DRAMADDRW_ROWBITS : Z := (15).
Definition CONFIG_HPS_SDR_CTRLCFG_DRAMDEVWIDTH_DEVWIDTH : Z := (8).
Definition CONFIG_HPS_SDR_CTRLCFG_DRAMIFWIDTH_IFWIDTH : Z := (32).
Definition CONFIG_HPS_SDR_CTRLCFG_DRAMINTR_INTREN : Z := (0).
Definition CONFIG_HPS_SDR_CTRLCFG_DRAMODT_READ : Z := (0).
Definition CONFIG_HPS_SDR_CTRLCFG_DRAMODT_WRITE : Z := (1).
Definition CONFIG_HPS_SDR_CTRLCFG_DRAMTIMING1_AL : Z := (0).
Definition CONFIG_HPS_SDR_CTRLCFG_DRAMTIMING1_TCL : Z := (7).
Definition CONFIG_HPS_SDR_CTRLCFG_DRAMTIMING1_TCWL : Z := (7).
Definition CONFIG_HPS_SDR_CTRLCFG_DRAMTIMING1_TFAW : Z := (18).
Definition CONFIG_HPS_SDR_CTRLCFG_DRAMTIMING1_TRFC : Z := (120).
Definition CONFIG_HPS_SDR_CTRLCFG_DRAMTIMING1_TRRD : Z := (3).
Definition CONFIG_HPS_SDR_CTRLCFG_DRAMTIMING2_IF_TRCD : Z := (6).
Definition CONFIG_HPS_SDR_CTRLCFG_DRAMTIMING2_IF_TREFI : Z := (3120).
Definition CONFIG_HPS_SDR_CTRLCFG_DRAMTIMING2_IF_TRP : Z := (6).
Definition CONFIG_HPS_SDR_CTRLCFG_DRAMTIMING2_IF_TWR : Z := (6).
Definition CONFIG_HPS_SDR_CTRLCFG_DRAMTIMING2_IF_TWTR : Z := (4).
Definition CONFIG_HPS_SDR_CTRLCFG_DRAMTIMING3_TCCD : Z := (4).
Definition CONFIG_HPS_SDR_CTRLCFG_DRAMTIMING3_TMRD : Z := (4).
Definition CONFIG_HPS_SDR_CTRLCFG_DRAMTIMING3_TRAS : Z := (15).
Definition CONFIG_HPS_SDR_CTRLCFG_DRAMTIMING3_TRC : Z := (20).
Definition CONFIG_HPS_SDR_CTRLCFG_DRAMTIMING3_TRTP : Z := (3).
Definition CONFIG_HPS_SDR_CTRLCFG_DRAMTIMING4_PWRDOWNEXIT : Z := (3).
Definition CONFIG_HPS_SDR_CTRLCFG_DRAMTIMING4_SELFRFSHEXIT : Z := (512).
Definition CONFIG_HPS_SDR_CTRLCFG_EXTRATIME1_CFG_EXTRA_CTL_CLK_RD_TO_WR : Z := (2).
Definition CONFIG_HPS_SDR_CTRLCFG_EXTRATIME1_CFG_EXTRA_CTL_CLK_RD_TO_WR_BC : Z := (2).
Definition CONFIG_HPS_SDR_CTRLCFG_EXTRATIME1_CFG_EXTRA_CTL_CLK_RD_TO_WR_DIFF_CHIP : Z := (2).
Definition CONFIG_HPS_SDR_CTRLCFG_FIFOCFG_INCSYNC : Z := (0).
Definition CONFIG_HPS_SDR_CTRLCFG_FIFOCFG_SYNCMODE : Z := (0).
Definition CONFIG_HPS_SDR_CTRLCFG_FPGAPORTRST : Z := (0x0).
Definition CONFIG_HPS_SDR_CTRLCFG_LOWPWREQ_SELFRFSHMASK : Z := (3).
Definition CONFIG_HPS_SDR_CTRLCFG_LOWPWRTIMING_AUTOPDCYCLES : Z := (0).
Definition CONFIG_HPS_SDR_CTRLCFG_LOWPWRTIMING_CLKDISABLECYCLES : Z := (8).
Definition CONFIG_HPS_SDR_CTRLCFG_MPPACING_0_THRESHOLD1_31_0 : Z := (0x20820820).
Definition CONFIG_HPS_SDR_CTRLCFG_MPPACING_1_THRESHOLD1_59_32 : Z := (0x8208208).
Definition CONFIG_HPS_SDR_CTRLCFG_MPPACING_1_THRESHOLD2_3_0 : Z := (0).
Definition CONFIG_HPS_SDR_CTRLCFG_MPPACING_2_THRESHOLD2_35_4 : Z := (0x41041041).
Definition CONFIG_HPS_SDR_CTRLCFG_MPPACING_3_THRESHOLD2_59_36 : Z := (0x410410).
Definition CONFIG_HPS_SDR_CTRLCFG_MPPRIORITY_USERPRIORITY : Z := (0x0).
Definition CONFIG_HPS_SDR_CTRLCFG_MPTHRESHOLDRST_0_THRESHOLDRSTCYCLES_31_0 : Z := (0x01010101).
Definition CONFIG_HPS_SDR_CTRLCFG_MPTHRESHOLDRST_1_THRESHOLDRSTCYCLES_63_32 : Z := (0x01010101).
Definition CONFIG_HPS_SDR_CTRLCFG_MPTHRESHOLDRST_2_THRESHOLDRSTCYCLES_79_64 : Z := (0x0101).
Definition CONFIG_HPS_SDR_CTRLCFG_MPWIEIGHT_0_STATICWEIGHT_31_0 : Z := (0x21084210).
Definition CONFIG_HPS_SDR_CTRLCFG_MPWIEIGHT_1_STATICWEIGHT_49_32 : Z := (0x10441).
Definition CONFIG_HPS_SDR_CTRLCFG_MPWIEIGHT_1_SUMOFWEIGHT_13_0 : Z := (0x78).
Definition CONFIG_HPS_SDR_CTRLCFG_MPWIEIGHT_2_SUMOFWEIGHT_45_14 : Z := (0x0).
Definition CONFIG_HPS_SDR_CTRLCFG_MPWIEIGHT_3_SUMOFWEIGHT_63_46 : Z := (0x0).
Definition CONFIG_HPS_SDR_CTRLCFG_PHYCTRL_PHYCTRL_0 : Z := (0x200).
Definition CONFIG_HPS_SDR_CTRLCFG_PORTCFG_AUTOPCHEN : Z := (0).
Definition CONFIG_HPS_SDR_CTRLCFG_RFIFOCMAP_RFIFOCMAP : Z := (0x760210).
Definition CONFIG_HPS_SDR_CTRLCFG_STATICCFG_MEMBL : Z := (2).
Definition CONFIG_HPS_SDR_CTRLCFG_WFIFOCMAP_WFIFOCMAP : Z := (0x980543).
Definition CONFIG_HW_WATCHDOG_TIMEOUT_MS : Z := (2000).
Definition CONFIG_PRELOADER_BOOT_FROM_NAND : Z := (0).
Definition CONFIG_PRELOADER_BOOT_FROM_QSPI : Z := (0).
Definition CONFIG_PRELOADER_BOOT_FROM_RAM : Z := (0).
Definition CONFIG_PRELOADER_EXE_ON_FPGA : Z := (0).
Definition CONFIG_PRELOADER_STATE_REG : Z := (0xffd080c8).
Definition CONFIG_PRELOADER_STATE_VALID : Z := (0x49535756).
Definition SOCFPGA_SDMMC_ADDRESS : Z := 0xff704000.
Definition CONFIG_SDMMC_BASE : Z := (SOCFPGA_SDMMC_ADDRESS).
Definition SOCFPGA_SYSMGR_ADDRESS : Z := 0xffd08000.
Definition CONFIG_SYSMGR_ECCGRP : Z := (SOCFPGA_SYSMGR_ADDRESS + 0x140).
Definition CONFIG_SYSMGR_ECC_OCRAM : Z := (CONFIG_SYSMGR_ECCGRP + 0x4).
Definition CONFIG_SYSMGR_PINMUXGRP_OFFSET : Z := (0x400).
Definition CONFIG_SYSMGR_ROMCODEGRP_CTRL : Z := (SOCFPGA_SYSMGR_ADDRESS + 0xc0).
Definition CONFIG_SYSMGR_WARMRAMGRP_ENABLE : Z := (SOCFPGA_SYSMGR_ADDRESS + 0xe0).
Definition CONFIG_SYSMGR_WARMRAMGRP_ENABLE_MAGIC : Z := 0xae9efebc.
Definition CONFIG_SYSMGR_WARMRAMGRP_EXECUTION : Z := (SOCFPGA_SYSMGR_ADDRESS + 0xec).
Definition CONFIG_SYSMGR_WARMRAMGRP_EXECUTION_OFFSET_MASK : Z := 0xffff.
Definition CONFIG_SYS_HZ : Z := 1000.
Definition CONFIG_SYS_INIT_RAM_ADDR : Z := 0xffff0000.
Definition CONFIG_SYS_MMCSD_MBR_MODE_U_BOOT_PARTITION_ID : Z := (0xa2).
Definition CONFIG_PRELOADER_SDMMC_NEXT_BOOT_IMAGE : Z := (0x40000).
Definition CONFIG_SYS_MMCSD_RAW_MODE_U_BOOT_SECTOR : Z := (CONFIG_PRELOADER_SDMMC_NEXT_BOOT_IMAGE / 512).
Definition CONFIG_SYS_MMC_MAX_BLK_COUNT : Z := 256.
Definition CONFIG_SYS_MONITOR_LEN : Z := (200 * 1024).
Definition SOCFPGA_UART0_ADDRESS : Z := 0xffc02000.
Definition UART0_BASE : Z := SOCFPGA_UART0_ADDRESS.
Definition CONFIG_SYS_NS16550_COM1 : Z := UART0_BASE.
Definition CONFIG_SYS_NS16550_IER : Z := 0x00.
Definition CONFIG_SYS_SDRAM_BASE : Z := 0x00000000.
Definition CONFIG_SYS_TEXT_BASE : Z := 0x01000040.
Definition CONFIG_SYS_UBOOT_START : Z := CONFIG_SYS_TEXT_BASE.
Definition CONFIG_TIMER_CLOCK_KHZ : Z := (CONFIG_HPS_CLK_OSC1_HZ / 1000).
Definition CONFIG_WD_PERIOD : Z := (10 * 1000 * 1000).
Definition _CPC : Z := 0x104.
Definition CPC (n : Z) : Z := (_CPC + (n)*0x8).
Definition _CS : Z := 0x100.
Definition CS (n : Z) : Z := (_CS + (n)*0x8).
Definition DBGCMD : Z := 0xd04.
Definition DBGINST0 : Z := 0xd08.
Definition DBGINST1 : Z := 0xd0c.
Definition DBGSTATUS : Z := 0xd00.
Definition DBG_BUSY : Z := (1 .<< 0).
Definition DS : Z := 0x0.
Definition DS_ST_ATBRR : Z := 0x5.
Definition DS_ST_CMISS : Z := 0x2.
Definition DS_ST_CMPLT : Z := 0x9.
Definition DS_ST_EXEC : Z := 0x1.
Definition DS_ST_FAULT : Z := 0xf.
Definition DS_ST_FLTCMP : Z := 0xe.
Definition DS_ST_KILL : Z := 0x8.
Definition DS_ST_QBUSY : Z := 0x6.
Definition DS_ST_STOP : Z := 0x0.
Definition DS_ST_UPDTPC : Z := 0x3.
Definition DS_ST_WFE : Z := 0x4.
Definition DS_ST_WFP : Z := 0x7.
Definition DWMCI_BLKSIZ : Z := 0x01c.
Definition DWMCI_BMOD : Z := 0x080.
Definition DWMCI_BMOD_IDMAC_EN : Z := (1 .<< 7).
Definition DWMCI_BMOD_IDMAC_FB : Z := (1 .<< 1).
Definition DWMCI_BUSY : Z := (1 .<< 9).
Definition DWMCI_BYTCNT : Z := 0x020.
Definition DWMCI_CLKDIV : Z := 0x008.
Definition DWMCI_CLKENA : Z := 0x010.
Definition DWMCI_CLKEN_ENABLE : Z := (1 .<< 0).
Definition DWMCI_CLKEN_LOW_PWR : Z := (1 .<< 16).
Definition DWMCI_CLKSRC : Z := 0x00c.
Definition DWMCI_CMD : Z := 0x02c.
Definition DWMCI_CMDARG : Z := 0x028.
Definition DWMCI_CMD_ABORT_STOP : Z := (1 .<< 14).
Definition DWMCI_CMD_CHECK_CRC : Z := (1 .<< 8).
Definition DWMCI_CMD_DATA_EXP : Z := (1 .<< 9).
Definition DWMCI_CMD_PRV_DAT_WAIT : Z := (1 .<< 13).
Definition DWMCI_CMD_RESP_EXP : Z := (1 .<< 6).
Definition DWMCI_CMD_RESP_LENGTH : Z := (1 .<< 7).
Definition DWMCI_CMD_RW : Z := (1 .<< 10).
Definition DWMCI_CMD_START : Z := (1 .<< 31).
Definition DWMCI_CMD_UPD_CLK : Z := (1 .<< 21).
Definition DWMCI_CMD_USE_HOLD_REG : Z := (1 .<< 29).
Definition DWMCI_CTRL : Z := 0x000.
Definition DWMCI_CTRL_FIFO_RESET : Z := (1 .<< 1).
Definition DWMCI_CTYPE : Z := 0x018.
Definition DWMCI_CTYPE_1BIT : Z := 0.
Definition DWMCI_CTYPE_4BIT : Z := (1 .<< 0).
Definition DWMCI_CTYPE_8BIT : Z := (1 .<< 16).
Definition DWMCI_INTMSK_EBE : Z := (1 .<< 15).
Definition DWMCI_INTMSK_SBE : Z := (1 .<< 13).
Definition DWMCI_INTMSK_HLE : Z := (1 .<< 12).
Definition DWMCI_INTMSK_FRUN : Z := (1 .<< 11).
Definition DWMCI_INTMSK_DCRC : Z := (1 .<< 7).
Definition DWMCI_DATA_ERR : Z := (DWMCI_INTMSK_EBE .| DWMCI_INTMSK_SBE .| DWMCI_INTMSK_HLE .| DWMCI_INTMSK_FRUN .| DWMCI_INTMSK_EBE .| DWMCI_INTMSK_DCRC).
Definition DWMCI_INTMSK_HTO : Z := (1 .<< 10).
Definition DWMCI_INTMSK_DRTO : Z := (1 .<< 9).
Definition DWMCI_DATA_TOUT : Z := (DWMCI_INTMSK_HTO .| DWMCI_INTMSK_DRTO).
Definition DWMCI_DBADDR : Z := 0x088.
Definition DWMCI_DMA_EN : Z := (1 .<< 5).
Definition DWMCI_FIFOTH : Z := 0x04c.
Definition DWMCI_IDINTEN : Z := 0x090.
Definition DWMCI_IDMAC_CH : Z := (1 .<< 4).
Definition DWMCI_IDMAC_EN : Z := (1 .<< 25).
Definition DWMCI_IDMAC_FS : Z := (1 .<< 3).
Definition DWMCI_IDMAC_LD : Z := (1 .<< 2).
Definition DWMCI_IDMAC_OWN : Z := (1 .<< 31).
Definition DWMCI_INTMASK : Z := 0x024.
Definition DWMCI_INTMSK_ALL : Z := 0xffffffff.
Definition DWMCI_INTMSK_CDONE : Z := (1 .<< 2).
Definition DWMCI_INTMSK_DTO : Z := (1 .<< 3).
Definition DWMCI_INTMSK_RE : Z := (1 .<< 1).
Definition DWMCI_INTMSK_RTO : Z := (1 .<< 8).
Definition DWMCI_PWREN : Z := 0x004.
Definition DWMCI_CTRL_RESET : Z := (1 .<< 0).
Definition DWMCI_CTRL_DMA_RESET : Z := (1 .<< 2).
Definition DWMCI_RESET_ALL : Z := (DWMCI_CTRL_RESET .| DWMCI_CTRL_FIFO_RESET .| DWMCI_CTRL_DMA_RESET).
Definition DWMCI_RESP0 : Z := 0x030.
Definition DWMCI_RESP1 : Z := 0x034.
Definition DWMCI_RESP2 : Z := 0x038.
Definition DWMCI_RESP3 : Z := 0x03c.
Definition DWMCI_RINTSTS : Z := 0x044.
Definition DWMCI_STATUS : Z := 0x048.
Definition DWMCI_TMOUT : Z := 0x014.
Definition DW_WDT_CR : Z := 0x00.
Definition DW_WDT_CRR : Z := 0x0c.
Definition DW_WDT_CRR_RESTART_VAL : Z := 0x76.
Definition DW_WDT_CR_EN_OFFSET : Z := 0x00.
Definition DW_WDT_CR_RMOD_OFFSET : Z := 0x01.
Definition DW_WDT_CR_RMOD_VAL : Z := 0x00.
Definition DW_WDT_TORR : Z := 0x04.
Definition ETIMEDOUT : Z := 110.
Definition EXT_CSD_BOOT_MULT : Z := 226.
Definition EXT_CSD_BUS_WIDTH : Z := 183.
Definition EXT_CSD_BUS_WIDTH_1 : Z := 0.
Definition EXT_CSD_BUS_WIDTH_4 : Z := 1.
Definition EXT_CSD_BUS_WIDTH_8 : Z := 2.
Definition EXT_CSD_CARD_TYPE : Z := 196.
Definition EXT_CSD_CMD_SET_NORMAL : Z := (1 .<< 0).
Definition EXT_CSD_ERASE_GROUP_DEF : Z := 175.
Definition EXT_CSD_HC_ERASE_GRP_SIZE : Z := 224.
Definition EXT_CSD_HS_TIMING : Z := 185.
Definition EXT_CSD_PARTITIONING_SUPPORT : Z := 160.
Definition EXT_CSD_PART_CONF : Z := 179.
Definition EXT_CSD_REV : Z := 192.
Definition EXT_CSD_SEC_CNT : Z := 212.
Definition FIFO_DEPTH (x : Z) : Z := ((((x) .>> 16) .& 0x3ff) + 1).
Definition FPGAMGRREGS_CTRL_AXICFGEN_MASK : Z := 0x100.
Definition FPGAMGRREGS_CTRL_CDRATIO_LSB : Z := 6.
Definition FPGAMGRREGS_CTRL_CFGWDTH_MASK : Z := 0x200.
Definition FPGAMGRREGS_CTRL_EN_MASK : Z := 0x1.
Definition FPGAMGRREGS_CTRL_NCE_MASK : Z := 0x2.
Definition FPGAMGRREGS_CTRL_NCONFIGPULL_MASK : Z := 0x4.
Definition FPGAMGRREGS_MODE_CFGPHASE : Z := 0x2.
Definition FPGAMGRREGS_MODE_FPGAOFF : Z := 0x0.
Definition FPGAMGRREGS_MODE_INITPHASE : Z := 0x3.
Definition FPGAMGRREGS_MODE_RESETPHASE : Z := 0x1.
Definition FPGAMGRREGS_MODE_USERMODE : Z := 0x4.
Definition FPGAMGRREGS_MON_GPIO_EXT_PORTA_ADDRESS : Z := 0x850.
Definition FPGAMGRREGS_MON_GPIO_EXT_PORTA_CD_MASK : Z := 0x2.
Definition FPGAMGRREGS_MON_GPIO_EXT_PORTA_ID_MASK : Z := 0x4.
Definition FPGAMGRREGS_MON_GPIO_EXT_PORTA_NS_MASK : Z := 0x1.
Definition FPGAMGRREGS_MON_GPIO_PORTA_EOI_ADDRESS : Z := 0x84c.
Definition FPGAMGRREGS_STAT_MODE_MASK : Z := 0x7.
Definition FPGAMGRREGS_STAT_MSEL_LSB : Z := 3.
Definition FPGAMGRREGS_STAT_MSEL_MASK : Z := 0xf8.
Definition FPGA_TIMEOUT_CNT : Z := 0x1000000.
Definition _FTC : Z := 0x40.
Definition FTC (n : Z) : Z := (_FTC + (n)*0x4).
Definition IF_TYPE_MMC : Z := 6.
Definition IH_MAGIC : Z := 0x27051956.
Definition IH_OS_U_BOOT : Z := 17.
Definition IO_SCAN_CHAIN_128BIT_MASK : Z := (0x7f).
Definition IO_SCAN_CHAIN_128BIT_SHIFT : Z := (7).
Definition MASK_COUNT_32BIT : Z := (0x1f).
Definition IO_SCAN_CHAIN_32BIT_MASK : Z := MASK_COUNT_32BIT.
Definition SHIFT_COUNT_32BIT : Z := (5).
Definition IO_SCAN_CHAIN_32BIT_SHIFT : Z := SHIFT_COUNT_32BIT.
Definition IO_SCAN_CHAIN_BYTE_MASK : Z := (0xff).
Definition IO_SCAN_CHAIN_PAYLOAD_24BIT : Z := (24).
Definition IRQ_ECC_OCRAM_CORRECTED : Z := 210.
Definition IRQ_ECC_OCRAM_UNCORRECTED : Z := 211.
Definition SYSMGR_ISWGRP_HANDOFF0 : Z := (SOCFPGA_SYSMGR_ADDRESS + 0x80).
Definition ISWGRP_HANDOFF_AXIBRIDGE : Z := SYSMGR_ISWGRP_HANDOFF0.
Definition SYSMGR_ISWGRP_HANDOFF3 : Z := (SOCFPGA_SYSMGR_ADDRESS + 0x8c).
Definition ISWGRP_HANDOFF_FPGA2SDR : Z := SYSMGR_ISWGRP_HANDOFF3.
Definition SYSMGR_ISWGRP_HANDOFF2 : Z := (SOCFPGA_SYSMGR_ADDRESS + 0x88).
Definition ISWGRP_HANDOFF_FPGAINTF : Z := SYSMGR_ISWGRP_HANDOFF2.
Definition SYSMGR_ISWGRP_HANDOFF1 : Z := (SOCFPGA_SYSMGR_ADDRESS + 0x84).
Definition ISWGRP_HANDOFF_L3REMAP : Z := SYSMGR_ISWGRP_HANDOFF1.
Definition SYSMGR_ISWGRP_HANDOFF4 : Z := (SOCFPGA_SYSMGR_ADDRESS + 0x90).
Definition ISWGRP_HANDOFF_ROWBITS : Z := SYSMGR_ISWGRP_HANDOFF4.
Definition L3REGS_REMAP_HPS2FPGA_MASK : Z := 0x00000008.
Definition L3REGS_REMAP_LWHPS2FPGA_MASK : Z := 0x00000010.
Definition L3REGS_REMAP_OCRAM_MASK : Z := 0x00000001.
Definition L3REGS_SECGRP_ACP_ADDRESS : Z := 0x94.
Definition L3REGS_SECGRP_HPS2FPGAREGS_ADDRESS : Z := 0x90.
Definition L3REGS_SECGRP_LWHPS2FPGAREGS_ADDRESS : Z := 0x20.
Definition L3REGS_SECGRP_OCRAM_ADDRESS : Z := 0x9c.
Definition L3REGS_SECGRP_ROM_ADDRESS : Z := 0x98.
Definition L3REGS_SECGRP_SDRDATA_ADDRESS : Z := 0xa0.
Definition CLKMGR_INTER_SDRPLLLOCKED_MASK : Z := 0x00000100.
Definition CLKMGR_INTER_PERPLLLOCKED_MASK : Z := 0x00000080.
Definition CLKMGR_INTER_MAINPLLLOCKED_MASK : Z := 0x00000040.
Definition LOCKED_MASK : Z := (CLKMGR_INTER_SDRPLLLOCKED_MASK .| CLKMGR_INTER_PERPLLLOCKED_MASK .| CLKMGR_INTER_MAINPLLLOCKED_MASK).
Definition CLKMGR_MAINPLLGRP_VCO_DENOM_SET (x : Z) : Z := (((x) .<< 16) .& 0x003f0000).
Definition CONFIG_HPS_MAINPLLGRP_VCO_DENOM : Z := (0).
Definition CLKMGR_MAINPLLGRP_VCO_NUMER_SET (x : Z) : Z := (((x) .<< 3) .& 0x0000fff8).
Definition CONFIG_HPS_MAINPLLGRP_VCO_NUMER : Z := (63).
Definition MAIN_VCO_BASE : Z := (CLKMGR_MAINPLLGRP_VCO_DENOM_SET( CONFIG_HPS_MAINPLLGRP_VCO_DENOM) .| CLKMGR_MAINPLLGRP_VCO_NUMER_SET( CONFIG_HPS_MAINPLLGRP_VCO_NUMER)).
Definition MAX_INT_VECTORS : Z := 212.
Definition MAX_POLLS : Z := 10.
Definition MAX_WAITING_DELAY_IO_SCAN_ENGINE : Z := (100).
Definition MBR_NUM_OF_PARTITIONS : Z := (4).
Definition MBR_PARTITION_ENTRY_SIZE : Z := (16).
Definition MBR_PARTITION_OFFSET : Z := (0x1be).
Definition MBR_PARTITION_START_SECTOR_OFFSET : Z := (8).
Definition MBR_PARTITION_TYPE_OFFSET : Z := (4).
Definition MBR_SIGNATURE : Z := (0xaa55).
Definition MBR_SIGNATURE_OFFSET : Z := (0x1fe).
Definition MEMSIZE_4G : Z := (4 * 1024 * 1024 * 1024).
Definition MMCPART_NOAVAILABLE : Z := (0xff).
Definition MMCSD_MODE_MBR : Z := 3.
Definition MMCSD_MODE_RAW : Z := 1.
Definition MMC_CMD_ALL_SEND_CID : Z := 2.
Definition MMC_CMD_APP_CMD : Z := 55.
Definition MMC_CMD_ERASE : Z := 38.
Definition MMC_CMD_ERASE_GROUP_END : Z := 36.
Definition MMC_CMD_ERASE_GROUP_START : Z := 35.
Definition MMC_CMD_GO_IDLE_STATE : Z := 0.
Definition MMC_CMD_READ_MULTIPLE_BLOCK : Z := 18.
Definition MMC_CMD_READ_SINGLE_BLOCK : Z := 17.
Definition MMC_CMD_SELECT_CARD : Z := 7.
Definition MMC_CMD_SEND_CID : Z := 10.
Definition MMC_CMD_SEND_CSD : Z := 9.
Definition MMC_CMD_SEND_EXT_CSD : Z := 8.
Definition MMC_CMD_SEND_OP_COND : Z := 1.
Definition MMC_CMD_SEND_STATUS : Z := 13.
Definition MMC_CMD_SET_BLOCKLEN : Z := 16.
Definition MMC_CMD_SPI_READ_OCR : Z := 58.
Definition MMC_CMD_STOP_TRANSMISSION : Z := 12.
Definition MMC_CMD_SWITCH : Z := 6.
Definition MMC_CMD_WRITE_MULTIPLE_BLOCK : Z := 25.
Definition MMC_CMD_WRITE_SINGLE_BLOCK : Z := 24.
Definition MMC_DATA_READ : Z := 1.
Definition MMC_DATA_WRITE : Z := 2.
Definition MMC_HS_52MHZ : Z := 0x2.
Definition MMC_MODE_4BIT : Z := 0x100.
Definition MMC_MODE_8BIT : Z := 0x200.
Definition MMC_MODE_HC : Z := 0x800.
Definition MMC_MODE_HS : Z := 0x001.
Definition MMC_MODE_HS_52MHz : Z := 0x010.
Definition MMC_MODE_SPI : Z := 0x400.
Definition MMC_RSP_136 : Z := (1 .<< 1).
Definition MMC_RSP_BUSY : Z := (1 .<< 3).
Definition MMC_RSP_CRC : Z := (1 .<< 2).
Definition MMC_RSP_NONE : Z := (0).
Definition MMC_RSP_PRESENT : Z := (1 .<< 0).
Definition MMC_RSP_OPCODE : Z := (1 .<< 4).
Definition MMC_RSP_R1 : Z := (MMC_RSP_PRESENT.|MMC_RSP_CRC.|MMC_RSP_OPCODE).
Definition MMC_RSP_R1b : Z := (MMC_RSP_PRESENT.|MMC_RSP_CRC.|MMC_RSP_OPCODE.| MMC_RSP_BUSY).
Definition MMC_RSP_R2 : Z := (MMC_RSP_PRESENT.|MMC_RSP_136.|MMC_RSP_CRC).
Definition MMC_RSP_R3 : Z := (MMC_RSP_PRESENT).
Definition MMC_RSP_R6 : Z := (MMC_RSP_PRESENT.|MMC_RSP_CRC.|MMC_RSP_OPCODE).
Definition MMC_RSP_R7 : Z := (MMC_RSP_PRESENT.|MMC_RSP_CRC.|MMC_RSP_OPCODE).
Definition MMC_STATE_PRG : Z := (7 .<< 9).
Definition MMC_STATUS_CURR_STATE : Z := (0xf .<< 9).
Definition MMC_STATUS_MASK : Z := (.~ 0x0206bf7f).
Definition MMC_STATUS_RDY_FOR_DATA : Z := (1 .<< 8).
Definition MMC_SWITCH_MODE_WRITE_BYTE : Z := 0x03.
Definition MMC_VDD_165_195 : Z := 0x00000080.
Definition MMC_VDD_32_33 : Z := 0x00100000.
Definition MMC_VDD_33_34 : Z := 0x00200000.
Definition MMC_VERSION_MMC : Z := 0x10000.
Definition MMC_VERSION_1_2 : Z := (MMC_VERSION_MMC .| 0x12).
Definition MMC_VERSION_1_4 : Z := (MMC_VERSION_MMC .| 0x14).
Definition MMC_VERSION_2_2 : Z := (MMC_VERSION_MMC .| 0x22).
Definition MMC_VERSION_3 : Z := (MMC_VERSION_MMC .| 0x30).
Definition MMC_VERSION_4 : Z := (MMC_VERSION_MMC .| 0x40).
Definition MMC_VERSION_UNKNOWN : Z := (MMC_VERSION_MMC).
Definition MODE_X_DIV : Z := 16.
Definition MSIZE (x : Z) : Z := ((x) .<< 28).
Definition NO_CARD_ERR : Z := -16.
Definition OCR_ACCESS_MODE : Z := 0x60000000.
Definition OCR_BUSY : Z := 0x80000000.
Definition OCR_HCS : Z := 0x40000000.
Definition OCR_VOLTAGE_MASK : Z := 0x007fff80.
Definition PART_ACCESS_MASK : Z := (0x7).
Definition PART_SUPPORT : Z := (0x1).
Definition CLKMGR_PERPLLGRP_VCO_PSRC_SET (x : Z) : Z := (((x) .<< 22) .& 0x00c00000).
Definition CONFIG_HPS_PERPLLGRP_VCO_PSRC : Z := (0).
Definition CLKMGR_PERPLLGRP_VCO_DENOM_SET (x : Z) : Z := (((x) .<< 16) .& 0x003f0000).
Definition CONFIG_HPS_PERPLLGRP_VCO_DENOM : Z := (0).
Definition CLKMGR_PERPLLGRP_VCO_NUMER_SET (x : Z) : Z := (((x) .<< 3) .& 0x0000fff8).
Definition CONFIG_HPS_PERPLLGRP_VCO_NUMER : Z := (39).
Definition PERI_VCO_BASE : Z := (CLKMGR_PERPLLGRP_VCO_PSRC_SET( CONFIG_HPS_PERPLLGRP_VCO_PSRC) .| CLKMGR_PERPLLGRP_VCO_DENOM_SET( CONFIG_HPS_PERPLLGRP_VCO_DENOM) .| CLKMGR_PERPLLGRP_VCO_NUMER_SET( CONFIG_HPS_PERPLLGRP_VCO_NUMER)).
Definition SOCFPGA_DMA_SECURE_ADDRESS : Z := 0xffe01000.
Definition PL330_DMA_BASE_SECURE : Z := SOCFPGA_DMA_SECURE_ADDRESS.
Definition PL330_DMA_BASE : Z := PL330_DMA_BASE_SECURE.
Definition SOCFPGA_DMA_NON_SECURE_ADDRESS : Z := 0xffe00000.
Definition PL330_DMA_BASE_NON_SECURE : Z := SOCFPGA_DMA_NON_SECURE_ADDRESS.
Definition PL330_DMA_MAX_BURST_SIZE : Z := 3.
Definition PL330_STATE_ATBARRIER : Z := (1 .<< 10).
Definition PL330_STATE_CACHEMISS : Z := (1 .<< 8).
Definition PL330_STATE_COMPLETING : Z := (1 .<< 4).
Definition PL330_STATE_EXECUTING : Z := (1 .<< 1).
Definition PL330_STATE_FAULTING : Z := (1 .<< 3).
Definition PL330_STATE_FAULT_COMPLETING : Z := (1 .<< 7).
Definition PL330_STATE_INVALID : Z := (1 .<< 15).
Definition PL330_STATE_KILLING : Z := (1 .<< 6).
Definition PL330_STATE_QUEUEBUSY : Z := (1 .<< 11).
Definition PL330_STATE_STOPPED : Z := (1 .<< 0).
Definition PL330_STATE_UPDTPC : Z := (1 .<< 9).
Definition PL330_STATE_WFE : Z := (1 .<< 2).
Definition PL330_STATE_WFP : Z := (1 .<< 5).
Definition RSTMGR_BRGMODRST_FPGA2HPS_MASK : Z := 0x00000004.
Definition RSTMGR_BRGMODRST_HPS2FPGA_MASK : Z := 0x00000001.
Definition RSTMGR_BRGMODRST_LWHPS2FPGA_MASK : Z := 0x00000002.
Definition RSTMGR_STAT_SWCOLDRST_MASK : Z := 0x00000010.
Definition RSTMGR_STAT_CONFIGIOCOLDRST_MASK : Z := 0x00000008.
Definition RSTMGR_STAT_FPGACOLDRST_MASK : Z := 0x00000004.
Definition RSTMGR_STAT_NPORPINRST_MASK : Z := 0x00000002.
Definition RSTMGR_STAT_PORVOLTRST_MASK : Z := 0x00000001.
Definition RSTMGR_COLDRST_MASK : Z := ( RSTMGR_STAT_SWCOLDRST_MASK .| RSTMGR_STAT_CONFIGIOCOLDRST_MASK .| RSTMGR_STAT_FPGACOLDRST_MASK .| RSTMGR_STAT_NPORPINRST_MASK .| RSTMGR_STAT_PORVOLTRST_MASK).
Definition RSTMGR_CTRL_ETRSTALLEN_MASK : Z := 0x00100000.
Definition RSTMGR_CTRL_FPGAHSEN_MASK : Z := 0x00010000.
Definition RSTMGR_CTRL_SDRSELFREFEN_MASK : Z := 0x00000010.
Definition RSTMGR_CTRL_SWWARMRSTREQ_LSB : Z := 1.
Definition RSTMGR_PER2MODRST_DMAIF0_SET (x : Z) : Z := (((x) .<< 0) .& 0x00000001).
Definition RSTMGR_PER2MODRST_DMAIF1_SET (x : Z) : Z := (((x) .<< 1) .& 0x00000002).
Definition RSTMGR_PER2MODRST_DMAIF2_SET (x : Z) : Z := (((x) .<< 2) .& 0x00000004).
Definition RSTMGR_PER2MODRST_DMAIF3_SET (x : Z) : Z := (((x) .<< 3) .& 0x00000008).
Definition RSTMGR_PER2MODRST_DMAIF4_SET (x : Z) : Z := (((x) .<< 4) .& 0x00000010).
Definition RSTMGR_PER2MODRST_DMAIF5_SET (x : Z) : Z := (((x) .<< 5) .& 0x00000020).
Definition RSTMGR_PER2MODRST_DMAIF6_SET (x : Z) : Z := (((x) .<< 6) .& 0x00000040).
Definition RSTMGR_PER2MODRST_DMAIF7_SET (x : Z) : Z := (((x) .<< 7) .& 0x00000080).
Definition RSTMGR_PERMODRST_CAN0_SET (x : Z) : Z := (((x) .<< 23) .& 0x00800000).
Definition RSTMGR_PERMODRST_CAN1_SET (x : Z) : Z := (((x) .<< 24) .& 0x01000000).
Definition RSTMGR_PERMODRST_DMA_SET (x : Z) : Z := (((x) .<< 28) .& 0x10000000).
Definition RSTMGR_PERMODRST_EMAC0_LSB : Z := 0.
Definition RSTMGR_PERMODRST_EMAC0_SET (x : Z) : Z := (((x) .<< 0) .& 0x00000001).
Definition RSTMGR_PERMODRST_EMAC1_LSB : Z := 1.
Definition RSTMGR_PERMODRST_EMAC1_SET (x : Z) : Z := (((x) .<< 1) .& 0x00000002).
Definition RSTMGR_PERMODRST_GPIO0_SET (x : Z) : Z := (((x) .<< 25) .& 0x02000000).
Definition RSTMGR_PERMODRST_GPIO1_SET (x : Z) : Z := (((x) .<< 26) .& 0x04000000).
Definition RSTMGR_PERMODRST_GPIO2_SET (x : Z) : Z := (((x) .<< 27) .& 0x08000000).
Definition RSTMGR_PERMODRST_I2C0_SET (x : Z) : Z := (((x) .<< 12) .& 0x00001000).
Definition RSTMGR_PERMODRST_I2C1_SET (x : Z) : Z := (((x) .<< 13) .& 0x00002000).
Definition RSTMGR_PERMODRST_I2C2_SET (x : Z) : Z := (((x) .<< 14) .& 0x00004000).
Definition RSTMGR_PERMODRST_I2C3_SET (x : Z) : Z := (((x) .<< 15) .& 0x00008000).
Definition RSTMGR_PERMODRST_L4WD0_LSB : Z := 6.
Definition RSTMGR_PERMODRST_L4WD1_SET (x : Z) : Z := (((x) .<< 7) .& 0x00000080).
Definition RSTMGR_PERMODRST_NAND_SET (x : Z) : Z := (((x) .<< 4) .& 0x00000010).
Definition RSTMGR_PERMODRST_OSC1TIMER0_LSB : Z := 8.
Definition RSTMGR_PERMODRST_OSC1TIMER1_SET (x : Z) : Z := (((x) .<< 9) .& 0x00000200).
Definition RSTMGR_PERMODRST_QSPI_SET (x : Z) : Z := (((x) .<< 5) .& 0x00000020).
Definition RSTMGR_PERMODRST_SDMMC_SET (x : Z) : Z := (((x) .<< 22) .& 0x00400000).
Definition RSTMGR_PERMODRST_SDR_LSB : Z := 29.
Definition RSTMGR_PERMODRST_SDR_SET (x : Z) : Z := (((x) .<< 29) .& 0x20000000).
Definition RSTMGR_PERMODRST_SPIM0_SET (x : Z) : Z := (((x) .<< 18) .& 0x00040000).
Definition RSTMGR_PERMODRST_SPIM1_SET (x : Z) : Z := (((x) .<< 19) .& 0x00080000).
Definition RSTMGR_PERMODRST_SPIS0_SET (x : Z) : Z := (((x) .<< 20) .& 0x00100000).
Definition RSTMGR_PERMODRST_SPIS1_SET (x : Z) : Z := (((x) .<< 21) .& 0x00200000).
Definition RSTMGR_PERMODRST_SPTIMER0_SET (x : Z) : Z := (((x) .<< 10) .& 0x00000400).
Definition RSTMGR_PERMODRST_SPTIMER1_SET (x : Z) : Z := (((x) .<< 11) .& 0x00000800).
Definition RSTMGR_PERMODRST_UART0_SET (x : Z) : Z := (((x) .<< 16) .& 0x00010000).
Definition RSTMGR_PERMODRST_UART1_SET (x : Z) : Z := (((x) .<< 17) .& 0x00020000).
Definition RSTMGR_PERMODRST_USB0_SET (x : Z) : Z := (((x) .<< 2) .& 0x00000004).
Definition RSTMGR_PERMODRST_USB1_SET (x : Z) : Z := (((x) .<< 3) .& 0x00000008).
Definition RX_WMARK (x : Z) : Z := ((x) .<< 16).
Definition SCANMGR_EN_ADDRESS : Z := 0x4.
Definition SCANMGR_FIFODOUBLEBYTE_ADDRESS : Z := 0x14.
Definition SCANMGR_FIFOQUADBYTE_ADDRESS : Z := 0x1c.
Definition SCANMGR_FIFOSINGLEBYTE_ADDRESS : Z := 0x10.
Definition SCANMGR_STAT_ACTIVE_GET (x : Z) : Z := (((x) .& 0x80000000) .>> 31).
Definition SCANMGR_STAT_ADDRESS : Z := 0x0.
Definition SCANMGR_STAT_WFIFOCNT_GET (x : Z) : Z := (((x) .& 0x70000000) .>> 28).
Definition SCAN_MGR_IO_SCAN_ENGINE_STATUS_ACTIVE : Z := (1).
Definition SCAN_MGR_IO_SCAN_ENGINE_STATUS_IDLE : Z := (0).
Definition SDRAM_TEST_LONG : Z := 2.
Definition SDRAM_TEST_NORMAL : Z := 1.
Definition SDRAM_WIDTH_16BIT_WITH_ECC : Z := 24.
Definition SDRAM_WIDTH_32BIT_WITH_ECC : Z := 40.
Definition SDR_CTRLGRP_CPORTRDWR_ADDRESS : Z := 0x5078.
Definition SDR_CTRLGRP_CPORTRDWR_CPORTRDWR_LSB : Z := 0.
Definition SDR_CTRLGRP_CPORTRDWR_CPORTRDWR_MASK : Z := 0x000fffff.
Definition SDR_CTRLGRP_CPORTRMAP_ADDRESS : Z := 0x506c.
Definition SDR_CTRLGRP_CPORTRMAP_CPORTRFIFOMAP_LSB : Z := 0.
Definition SDR_CTRLGRP_CPORTRMAP_CPORTRFIFOMAP_MASK : Z := 0x3fffffff.
Definition SDR_CTRLGRP_CPORTWIDTH_ADDRESS : Z := 0x5064.
Definition SDR_CTRLGRP_CPORTWIDTH_CMDPORTWIDTH_LSB : Z := 0.
Definition SDR_CTRLGRP_CPORTWIDTH_CMDPORTWIDTH_MASK : Z := 0x000fffff.
Definition SDR_CTRLGRP_CPORTWMAP_ADDRESS : Z := 0x5068.
Definition SDR_CTRLGRP_CPORTWMAP_CPORTWFIFOMAP_LSB : Z := 0.
Definition SDR_CTRLGRP_CPORTWMAP_CPORTWFIFOMAP_MASK : Z := 0x3fffffff.
Definition SDR_CTRLGRP_CTRLCFG_ADDRESS : Z := 0x5000.
Definition SDR_CTRLGRP_CTRLCFG_ADDRORDER_LSB : Z := 8.
Definition SDR_CTRLGRP_CTRLCFG_ADDRORDER_MASK : Z := 0x00000300.
Definition SDR_CTRLGRP_CTRLCFG_DQSTRKEN_LSB : Z := 22.
Definition SDR_CTRLGRP_CTRLCFG_DQSTRKEN_MASK : Z := 0x00400000.
Definition SDR_CTRLGRP_CTRLCFG_ECCCORREN_LSB : Z := 11.
Definition SDR_CTRLGRP_CTRLCFG_ECCCORREN_MASK : Z := 0x00000800.
Definition SDR_CTRLGRP_CTRLCFG_ECCEN_LSB : Z := 10.
Definition SDR_CTRLGRP_CTRLCFG_ECCEN_MASK : Z := 0x00000400.
Definition SDR_CTRLGRP_CTRLCFG_MEMBL_LSB : Z := 3.
Definition SDR_CTRLGRP_CTRLCFG_MEMBL_MASK : Z := 0x000000f8.
Definition SDR_CTRLGRP_CTRLCFG_MEMTYPE_LSB : Z := 0.
Definition SDR_CTRLGRP_CTRLCFG_MEMTYPE_MASK : Z := 0x00000007.
Definition SDR_CTRLGRP_CTRLCFG_NODMPINS_LSB : Z := 23.
Definition SDR_CTRLGRP_CTRLCFG_NODMPINS_MASK : Z := 0x00800000.
Definition SDR_CTRLGRP_CTRLCFG_REORDEREN_LSB : Z := 15.
Definition SDR_CTRLGRP_CTRLCFG_REORDEREN_MASK : Z := 0x00008000.
Definition SDR_CTRLGRP_CTRLCFG_STARVELIMIT_LSB : Z := 16.
Definition SDR_CTRLGRP_CTRLCFG_STARVELIMIT_MASK : Z := 0x003f0000.
Definition SDR_CTRLGRP_CTRLWIDTH_ADDRESS : Z := 0x5060.
Definition SDR_CTRLGRP_CTRLWIDTH_CTRLWIDTH_LSB : Z := 0.
Definition SDR_CTRLGRP_CTRLWIDTH_CTRLWIDTH_MASK : Z := 0x00000003.
Definition SDR_CTRLGRP_DRAMADDRW_ADDRESS : Z := 0x502c.
Definition SDR_CTRLGRP_DRAMADDRW_BANKBITS_LSB : Z := 10.
Definition SDR_CTRLGRP_DRAMADDRW_BANKBITS_MASK : Z := 0x00001c00.
Definition SDR_CTRLGRP_DRAMADDRW_COLBITS_LSB : Z := 0.
Definition SDR_CTRLGRP_DRAMADDRW_COLBITS_MASK : Z := 0x0000001f.
Definition SDR_CTRLGRP_DRAMADDRW_CSBITS_LSB : Z := 13.
Definition SDR_CTRLGRP_DRAMADDRW_CSBITS_MASK : Z := 0x0000e000.
Definition SDR_CTRLGRP_DRAMADDRW_ROWBITS_LSB : Z := 5.
Definition SDR_CTRLGRP_DRAMADDRW_ROWBITS_MASK : Z := 0x000003e0.
Definition SDR_CTRLGRP_DRAMDEVWIDTH_ADDRESS : Z := 0x5034.
Definition SDR_CTRLGRP_DRAMDEVWIDTH_DEVWIDTH_LSB : Z := 0.
Definition SDR_CTRLGRP_DRAMDEVWIDTH_DEVWIDTH_MASK : Z := 0x0000000f.
Definition SDR_CTRLGRP_DRAMIFWIDTH_ADDRESS : Z := 0x5030.
Definition SDR_CTRLGRP_DRAMIFWIDTH_IFWIDTH_LSB : Z := 0.
Definition SDR_CTRLGRP_DRAMIFWIDTH_IFWIDTH_MASK : Z := 0x000000ff.
Definition SDR_CTRLGRP_DRAMINTR_ADDRESS : Z := 0x503c.
Definition SDR_CTRLGRP_DRAMINTR_INTRCLR_MASK : Z := 0x00000010.
Definition SDR_CTRLGRP_DRAMINTR_INTREN_LSB : Z := 0.
Definition SDR_CTRLGRP_DRAMINTR_INTREN_MASK : Z := 0x00000001.
Definition SDR_CTRLGRP_DRAMODT_ADDRESS : Z := 0x5018.
Definition SDR_CTRLGRP_DRAMODT_READ_LSB : Z := 4.
Definition SDR_CTRLGRP_DRAMODT_READ_MASK : Z := 0x000000f0.
Definition SDR_CTRLGRP_DRAMODT_WRITE_LSB : Z := 0.
Definition SDR_CTRLGRP_DRAMODT_WRITE_MASK : Z := 0x0000000f.
Definition SDR_CTRLGRP_DRAMSTS_ADDRESS : Z := 0x5038.
Definition SDR_CTRLGRP_DRAMSTS_DBEERR_MASK : Z := 0x00000008.
Definition SDR_CTRLGRP_DRAMSTS_SBEERR_MASK : Z := 0x00000004.
Definition SDR_CTRLGRP_DRAMTIMING1_ADDRESS : Z := 0x5004.
Definition SDR_CTRLGRP_DRAMTIMING1_TAL_LSB : Z := 4.
Definition SDR_CTRLGRP_DRAMTIMING1_TAL_MASK : Z := 0x000001f0.
Definition SDR_CTRLGRP_DRAMTIMING1_TCL_LSB : Z := 9.
Definition SDR_CTRLGRP_DRAMTIMING1_TCL_MASK : Z := 0x00003e00.
Definition SDR_CTRLGRP_DRAMTIMING1_TCWL_LSB : Z := 0.
Definition SDR_CTRLGRP_DRAMTIMING1_TCWL_MASK : Z := 0x0000000f.
Definition SDR_CTRLGRP_DRAMTIMING1_TFAW_LSB : Z := 18.
Definition SDR_CTRLGRP_DRAMTIMING1_TFAW_MASK : Z := 0x00fc0000.
Definition SDR_CTRLGRP_DRAMTIMING1_TRFC_LSB : Z := 24.
Definition SDR_CTRLGRP_DRAMTIMING1_TRFC_MASK : Z := 0xff000000.
Definition SDR_CTRLGRP_DRAMTIMING1_TRRD_LSB : Z := 14.
Definition SDR_CTRLGRP_DRAMTIMING1_TRRD_MASK : Z := 0x0003c000.
Definition SDR_CTRLGRP_DRAMTIMING2_ADDRESS : Z := 0x5008.
Definition SDR_CTRLGRP_DRAMTIMING2_TRCD_LSB : Z := 13.
Definition SDR_CTRLGRP_DRAMTIMING2_TRCD_MASK : Z := 0x0001e000.
Definition SDR_CTRLGRP_DRAMTIMING2_TREFI_LSB : Z := 0.
Definition SDR_CTRLGRP_DRAMTIMING2_TREFI_MASK : Z := 0x00001fff.
Definition SDR_CTRLGRP_DRAMTIMING2_TRP_LSB : Z := 17.
Definition SDR_CTRLGRP_DRAMTIMING2_TRP_MASK : Z := 0x001e0000.
Definition SDR_CTRLGRP_DRAMTIMING2_TWR_LSB : Z := 21.
Definition SDR_CTRLGRP_DRAMTIMING2_TWR_MASK : Z := 0x01e00000.
Definition SDR_CTRLGRP_DRAMTIMING2_TWTR_LSB : Z := 25.
Definition SDR_CTRLGRP_DRAMTIMING2_TWTR_MASK : Z := 0x1e000000.
Definition SDR_CTRLGRP_DRAMTIMING3_ADDRESS : Z := 0x500c.
Definition SDR_CTRLGRP_DRAMTIMING3_TCCD_LSB : Z := 19.
Definition SDR_CTRLGRP_DRAMTIMING3_TCCD_MASK : Z := 0x00780000.
Definition SDR_CTRLGRP_DRAMTIMING3_TMRD_LSB : Z := 15.
Definition SDR_CTRLGRP_DRAMTIMING3_TMRD_MASK : Z := 0x00078000.
Definition SDR_CTRLGRP_DRAMTIMING3_TRAS_LSB : Z := 4.
Definition SDR_CTRLGRP_DRAMTIMING3_TRAS_MASK : Z := 0x000001f0.
Definition SDR_CTRLGRP_DRAMTIMING3_TRC_LSB : Z := 9.
Definition SDR_CTRLGRP_DRAMTIMING3_TRC_MASK : Z := 0x00007e00.
Definition SDR_CTRLGRP_DRAMTIMING3_TRTP_LSB : Z := 0.
Definition SDR_CTRLGRP_DRAMTIMING3_TRTP_MASK : Z := 0x0000000f.
Definition SDR_CTRLGRP_DRAMTIMING4_ADDRESS : Z := 0x5010.
Definition SDR_CTRLGRP_DRAMTIMING4_PWRDOWNEXIT_LSB : Z := 10.
Definition SDR_CTRLGRP_DRAMTIMING4_PWRDOWNEXIT_MASK : Z := 0x000ffc00.
Definition SDR_CTRLGRP_DRAMTIMING4_SELFRFSHEXIT_LSB : Z := 0.
Definition SDR_CTRLGRP_DRAMTIMING4_SELFRFSHEXIT_MASK : Z := 0x000003ff.
Definition SDR_CTRLGRP_DROPADDR_ADDRESS : Z := 0x5050.
Definition SDR_CTRLGRP_DROPCOUNT_ADDRESS : Z := 0x504c.
Definition SDR_CTRLGRP_ERRADDR_ADDRESS : Z := 0x5048.
Definition SDR_CTRLGRP_EXTRATIME1_ADDRESS : Z := 0x501c.
Definition SDR_CTRLGRP_EXTRATIME1_RD_TO_WR_BC_LSB : Z := 24.
Definition SDR_CTRLGRP_EXTRATIME1_RD_TO_WR_BC_MASK : Z := 0x0f000000.
Definition SDR_CTRLGRP_EXTRATIME1_RD_TO_WR_DIFF_LSB : Z := 28.
Definition SDR_CTRLGRP_EXTRATIME1_RD_TO_WR_DIFF_MASK : Z := 0xf0000000.
Definition SDR_CTRLGRP_EXTRATIME1_RD_TO_WR_LSB : Z := 20.
Definition SDR_CTRLGRP_EXTRATIME1_RD_TO_WR_MASK : Z := 0x00f00000.
Definition SDR_CTRLGRP_FIFOCFG_ADDRESS : Z := 0x5088.
Definition SDR_CTRLGRP_FIFOCFG_INCSYNC_LSB : Z := 10.
Definition SDR_CTRLGRP_FIFOCFG_INCSYNC_MASK : Z := 0x00000400.
Definition SDR_CTRLGRP_FIFOCFG_SYNCMODE_LSB : Z := 0.
Definition SDR_CTRLGRP_FIFOCFG_SYNCMODE_MASK : Z := 0x000003ff.
Definition SDR_CTRLGRP_FPGAPORTRST_ADDRESS : Z := 0x5080.
Definition SDR_CTRLGRP_LOWPWRACK_ADDRESS : Z := 0x5058.
Definition SDR_CTRLGRP_LOWPWRACK_SELFRFSHACK_MASK : Z := 0x00000002.
Definition SDR_CTRLGRP_LOWPWREQ_ADDRESS : Z := 0x5054.
Definition SDR_CTRLGRP_LOWPWREQ_SELFRFSHMASK_BOTH_CHIPS : Z := 0x3.
Definition SDR_CTRLGRP_LOWPWREQ_SELFRFSHMASK_LSB : Z := 4.
Definition SDR_CTRLGRP_LOWPWREQ_SELFRFSHMASK_MASK : Z := 0x00000030.
Definition SDR_CTRLGRP_LOWPWREQ_SELFRSHREQ_DISABLED : Z := 0x0.
Definition SDR_CTRLGRP_LOWPWREQ_SELFRSHREQ_ENABLED : Z := 0x1.
Definition SDR_CTRLGRP_LOWPWREQ_SELFRSHREQ_LSB : Z := 3.
Definition SDR_CTRLGRP_LOWPWREQ_SELFRSHREQ_MASK : Z := 0x00000008.
Definition SDR_CTRLGRP_LOWPWRTIMING_ADDRESS : Z := 0x5014.
Definition SDR_CTRLGRP_LOWPWRTIMING_AUTOPDCYCLES_LSB : Z := 0.
Definition SDR_CTRLGRP_LOWPWRTIMING_AUTOPDCYCLES_MASK : Z := 0x0000ffff.
Definition SDR_CTRLGRP_LOWPWRTIMING_CLKDISABLECYCLES_LSB : Z := 16.
Definition SDR_CTRLGRP_LOWPWRTIMING_CLKDISABLECYCLES_MASK : Z := 0x000f0000.
Definition SDR_CTRLGRP_MPPACING_MPPACING_0_ADDRESS : Z := 0x50c0.
Definition SDR_CTRLGRP_MPPACING_MPPACING_0_THRESHOLD1_31_0_LSB : Z := 0.
Definition SDR_CTRLGRP_MPPACING_MPPACING_0_THRESHOLD1_31_0_MASK : Z := 0xffffffff.
Definition SDR_CTRLGRP_MPPACING_MPPACING_1_ADDRESS : Z := 0x50c4.
Definition SDR_CTRLGRP_MPPACING_MPPACING_1_THRESHOLD1_59_32_LSB : Z := 0.
Definition SDR_CTRLGRP_MPPACING_MPPACING_1_THRESHOLD1_59_32_MASK : Z := 0x0fffffff.
Definition SDR_CTRLGRP_MPPACING_MPPACING_1_THRESHOLD2_3_0_LSB : Z := 28.
Definition SDR_CTRLGRP_MPPACING_MPPACING_1_THRESHOLD2_3_0_MASK : Z := 0xf0000000.
Definition SDR_CTRLGRP_MPPACING_MPPACING_2_ADDRESS : Z := 0x50c8.
Definition SDR_CTRLGRP_MPPACING_MPPACING_2_THRESHOLD2_35_4_LSB : Z := 0.
Definition SDR_CTRLGRP_MPPACING_MPPACING_2_THRESHOLD2_35_4_MASK : Z := 0xffffffff.
Definition SDR_CTRLGRP_MPPACING_MPPACING_3_ADDRESS : Z := 0x50cc.
Definition SDR_CTRLGRP_MPPACING_MPPACING_3_THRESHOLD2_59_36_LSB : Z := 0.
Definition SDR_CTRLGRP_MPPACING_MPPACING_3_THRESHOLD2_59_36_MASK : Z := 0x00ffffff.
Definition SDR_CTRLGRP_MPPRIORITY_ADDRESS : Z := 0x50ac.
Definition SDR_CTRLGRP_MPPRIORITY_USERPRIORITY_LSB : Z := 0.
Definition SDR_CTRLGRP_MPPRIORITY_USERPRIORITY_MASK : Z := 0x3fffffff.
Definition SDR_CTRLGRP_MPTHRESHOLDRST_MPTHRESHOLDRST_0_ADDRESS : Z := 0x50d0.
Definition SDR_CTRLGRP_MPTHRESHOLDRST_MPTHRESHOLDRST_0_THRESHOLDRSTCYCLES_31_0_LSB : Z := 0.
Definition SDR_CTRLGRP_MPTHRESHOLDRST_MPTHRESHOLDRST_0_THRESHOLDRSTCYCLES_31_0_MASK : Z := 0xffffffff.
Definition SDR_CTRLGRP_MPTHRESHOLDRST_MPTHRESHOLDRST_1_ADDRESS : Z := 0x50d4.
Definition SDR_CTRLGRP_MPTHRESHOLDRST_MPTHRESHOLDRST_1_THRESHOLDRSTCYCLES_63_32_LSB : Z := 0.
Definition SDR_CTRLGRP_MPTHRESHOLDRST_MPTHRESHOLDRST_1_THRESHOLDRSTCYCLES_63_32_MASK : Z := 0xffffffff.
Definition SDR_CTRLGRP_MPTHRESHOLDRST_MPTHRESHOLDRST_2_ADDRESS : Z := 0x50d8.
Definition SDR_CTRLGRP_MPTHRESHOLDRST_MPTHRESHOLDRST_2_THRESHOLDRSTCYCLES_79_64_LSB : Z := 0.
Definition SDR_CTRLGRP_MPTHRESHOLDRST_MPTHRESHOLDRST_2_THRESHOLDRSTCYCLES_79_64_MASK : Z := 0x0000ffff.
Definition SDR_CTRLGRP_MPWEIGHT_MPWEIGHT_0_ADDRESS : Z := 0x50b0.
Definition SDR_CTRLGRP_MPWEIGHT_MPWEIGHT_0_STATICWEIGHT_31_0_LSB : Z := 0.
Definition SDR_CTRLGRP_MPWEIGHT_MPWEIGHT_0_STATICWEIGHT_31_0_MASK : Z := 0xffffffff.
Definition SDR_CTRLGRP_MPWEIGHT_MPWEIGHT_1_ADDRESS : Z := 0x50b4.
Definition SDR_CTRLGRP_MPWEIGHT_MPWEIGHT_1_STATICWEIGHT_49_32_LSB : Z := 0.
Definition SDR_CTRLGRP_MPWEIGHT_MPWEIGHT_1_STATICWEIGHT_49_32_MASK : Z := 0x0003ffff.
Definition SDR_CTRLGRP_MPWEIGHT_MPWEIGHT_1_SUMOFWEIGHTS_13_0_LSB : Z := 18.
Definition SDR_CTRLGRP_MPWEIGHT_MPWEIGHT_1_SUMOFWEIGHTS_13_0_MASK : Z := 0xfffc0000.
Definition SDR_CTRLGRP_MPWEIGHT_MPWEIGHT_2_ADDRESS : Z := 0x50b8.
Definition SDR_CTRLGRP_MPWEIGHT_MPWEIGHT_2_SUMOFWEIGHTS_45_14_LSB : Z := 0.
Definition SDR_CTRLGRP_MPWEIGHT_MPWEIGHT_2_SUMOFWEIGHTS_45_14_MASK : Z := 0xffffffff.
Definition SDR_CTRLGRP_MPWEIGHT_MPWEIGHT_3_ADDRESS : Z := 0x50bc.
Definition SDR_CTRLGRP_MPWEIGHT_MPWEIGHT_3_SUMOFWEIGHTS_63_46_LSB : Z := 0.
Definition SDR_CTRLGRP_MPWEIGHT_MPWEIGHT_3_SUMOFWEIGHTS_63_46_MASK : Z := 0x0003ffff.
Definition SDR_CTRLGRP_PHYCTRL_PHYCTRL_0_ADDRESS : Z := 0x5150.
Definition SDR_CTRLGRP_PORTCFG_ADDRESS : Z := 0x507c.
Definition SDR_CTRLGRP_PORTCFG_AUTOPCHEN_LSB : Z := 10.
Definition SDR_CTRLGRP_PORTCFG_AUTOPCHEN_MASK : Z := 0x000ffc00.
Definition SDR_CTRLGRP_PROTPORTDEFAULT_ADDRESS : Z := 0x508c.
Definition SDR_CTRLGRP_PROTRULEADDR_ADDRESS : Z := 0x5090.
Definition SDR_CTRLGRP_PROTRULEDATA_ADDRESS : Z := 0x5098.
Definition SDR_CTRLGRP_PROTRULEID_ADDRESS : Z := 0x5094.
Definition SDR_CTRLGRP_PROTRULERDWR_ADDRESS : Z := 0x509c.
Definition SDR_CTRLGRP_RFIFOCMAP_ADDRESS : Z := 0x5070.
Definition SDR_CTRLGRP_RFIFOCMAP_RFIFOCPORTMAP_LSB : Z := 0.
Definition SDR_CTRLGRP_RFIFOCMAP_RFIFOCPORTMAP_MASK : Z := 0x00ffffff.
Definition SDR_CTRLGRP_SBECOUNT_ADDRESS : Z := 0x5040.
Definition SDR_CTRLGRP_STATICCFG_ADDRESS : Z := 0x505c.
Definition SDR_CTRLGRP_STATICCFG_APPLYCFG_LSB : Z := 3.
Definition SDR_CTRLGRP_STATICCFG_APPLYCFG_MASK : Z := 0x00000008.
Definition SDR_CTRLGRP_STATICCFG_MEMBL_LSB : Z := 0.
Definition SDR_CTRLGRP_STATICCFG_MEMBL_MASK : Z := 0x00000003.
Definition SDR_CTRLGRP_STATICCFG_USEECCASDATA_LSB : Z := 2.
Definition SDR_CTRLGRP_STATICCFG_USEECCASDATA_MASK : Z := 0x00000004.
Definition SDR_CTRLGRP_WFIFOCMAP_ADDRESS : Z := 0x5074.
Definition SDR_CTRLGRP_WFIFOCMAP_WFIFOCPORTMAP_LSB : Z := 0.
Definition SDR_CTRLGRP_WFIFOCMAP_WFIFOCPORTMAP_MASK : Z := 0x00ffffff.
Definition CLKMGR_SDRPLLGRP_VCO_SSRC_SET (x : Z) : Z := (((x) .<< 22) .& 0x00c00000).
Definition CONFIG_HPS_SDRPLLGRP_VCO_SSRC : Z := (0).
Definition CLKMGR_SDRPLLGRP_VCO_DENOM_SET (x : Z) : Z := (((x) .<< 16) .& 0x003f0000).
Definition CONFIG_HPS_SDRPLLGRP_VCO_DENOM : Z := (0).
Definition CLKMGR_SDRPLLGRP_VCO_NUMER_SET (x : Z) : Z := (((x) .<< 3) .& 0x0000fff8).
Definition CONFIG_HPS_SDRPLLGRP_VCO_NUMER : Z := (31).
Definition SDR_VCO_BASE : Z := (CLKMGR_SDRPLLGRP_VCO_SSRC_SET( CONFIG_HPS_SDRPLLGRP_VCO_SSRC) .| CLKMGR_SDRPLLGRP_VCO_DENOM_SET( CONFIG_HPS_SDRPLLGRP_VCO_DENOM) .| CLKMGR_SDRPLLGRP_VCO_NUMER_SET( CONFIG_HPS_SDRPLLGRP_VCO_NUMER)).
Definition SD_CMD_APP_SEND_OP_COND : Z := 41.
Definition SD_CMD_APP_SEND_SCR : Z := 51.
Definition SD_CMD_APP_SET_BUS_WIDTH : Z := 6.
Definition SD_CMD_ERASE_WR_BLK_END : Z := 33.
Definition SD_CMD_ERASE_WR_BLK_START : Z := 32.
Definition SD_CMD_SEND_IF_COND : Z := 8.
Definition SD_CMD_SEND_RELATIVE_ADDR : Z := 3.
Definition SD_CMD_SWITCH_FUNC : Z := 6.
Definition SD_DATA_4BIT : Z := 0x00040000.
Definition SD_HIGHSPEED_BUSY : Z := 0x00020000.
Definition SD_HIGHSPEED_SUPPORTED : Z := 0x00020000.
Definition SD_SWITCH_CHECK : Z := 0.
Definition SD_SWITCH_SWITCH : Z := 1.
Definition SD_VERSION_SD : Z := 0x20000.
Definition SD_VERSION_1_0 : Z := (SD_VERSION_SD .| 0x10).
Definition SD_VERSION_1_10 : Z := (SD_VERSION_SD .| 0x1a).
Definition SD_VERSION_2 : Z := (SD_VERSION_SD .| 0x20).
Definition SECURE_ERASE : Z := 0x80000000.
Definition SOCFPGA_FPGAMGRDATA_ADDRESS : Z := 0xffb90000.
Definition SOCFPGA_FPGAMGRREGS_ADDRESS : Z := 0xff706000.
Definition SOCFPGA_L3REGS_ADDRESS : Z := 0xff800000.
Definition SOCFPGA_MPUL2_ADDRESS : Z := 0xfffef000.
Definition SOCFPGA_MPUL2_ADRFLTR_START : Z := (0xc00).
Definition SOCFPGA_SCANMGR_ADDRESS : Z := 0xfff02000.
Definition SOCFPGA_SDR_ADDRESS : Z := 0xffc20000.
Definition SPL_COPY_PAYLOAD_ONLY : Z := 1.
Definition SYSMGR_BOOTINFO : Z := (SOCFPGA_SYSMGR_ADDRESS + 0x14).
Definition SYSMGR_BOOTINFO_BSEL_MASK : Z := 0x7.
Definition SYSMGR_BOOTINFO_CSEL_LSB : Z := 3.
Definition SYSMGR_BOOTINFO_CSEL_MASK : Z := 0x18.
Definition SYSMGR_ECC_OCRAM_DERR : Z := (1.<<4).
Definition SYSMGR_ECC_OCRAM_EN : Z := (1.<<0).
Definition SYSMGR_ECC_OCRAM_SERR : Z := (1.<<3).
Definition SYSMGR_FPGAINTF_EMAC0 : Z := (1.<<2).
Definition SYSMGR_FPGAINTF_EMAC1 : Z := (1.<<3).
Definition SYSMGR_FPGAINTF_MODULE : Z := (SOCFPGA_SYSMGR_ADDRESS + 0x28).
Definition SYSMGR_FPGAINTF_NAND : Z := (1.<<4).
Definition SYSMGR_FPGAINTF_SDMMC : Z := (1.<<5).
Definition SYSMGR_FPGAINTF_SPIM0 : Z := (1.<<0).
Definition SYSMGR_FPGAINTF_SPIM1 : Z := (1.<<1).
Definition SYSMGR_FPGAINTF_USEFPGA : Z := 0x1.
Definition SYSMGR_FRZCTRL_HIOCTRL_ADDRESS : Z := 0x50.
Definition SYSMGR_FRZCTRL_HIOCTRL_BUSHOLD_MASK : Z := 0x00000002.
Definition SYSMGR_FRZCTRL_HIOCTRL_CFG_MASK : Z := 0x00000001.
Definition SYSMGR_FRZCTRL_HIOCTRL_DLLRST_MASK : Z := 0x00000020.
Definition SYSMGR_FRZCTRL_HIOCTRL_OCTRST_MASK : Z := 0x00000040.
Definition SYSMGR_FRZCTRL_HIOCTRL_OCT_CFGEN_CALSTART_MASK : Z := 0x00000100.
Definition SYSMGR_FRZCTRL_HIOCTRL_REGRST_MASK : Z := 0x00000080.
Definition SYSMGR_FRZCTRL_HIOCTRL_SLEW_MASK : Z := 0x00000010.
Definition SYSMGR_FRZCTRL_HIOCTRL_TRISTATE_MASK : Z := 0x00000004.
Definition SYSMGR_FRZCTRL_HIOCTRL_WKPULLUP_MASK : Z := 0x00000008.
Definition SYSMGR_FRZCTRL_HWCTRL_ADDRESS : Z := 0x58.
Definition SYSMGR_FRZCTRL_HWCTRL_VIO1REQ_MASK : Z := 0x00000001.
Definition SYSMGR_FRZCTRL_HWCTRL_VIO1STATE_ENUM_FROZEN : Z := 0x2.
Definition SYSMGR_FRZCTRL_HWCTRL_VIO1STATE_ENUM_THAWED : Z := 0x1.
Definition SYSMGR_FRZCTRL_HWCTRL_VIO1STATE_GET (x : Z) : Z := (((x) .& 0x00000006) .>> 1).
Definition SYSMGR_FRZCTRL_INTOSC_1000 : Z := (1000).
Definition SYSMGR_FRZCTRL_INTOSC_33 : Z := (33).
Definition SYSMGR_FRZCTRL_LOOP_PARAM : Z := (1000).
Definition SYSMGR_FRZCTRL_SRC_ADDRESS : Z := 0x54.
Definition SYSMGR_FRZCTRL_SRC_VIO1_ENUM_HW : Z := 0x1.
Definition SYSMGR_FRZCTRL_SRC_VIO1_ENUM_SW : Z := 0x0.
Definition SYSMGR_FRZCTRL_VIOCTRL_ADDRESS : Z := 0x40.
Definition SYSMGR_FRZCTRL_VIOCTRL_BUSHOLD_MASK : Z := 0x00000002.
Definition SYSMGR_FRZCTRL_VIOCTRL_CFG_MASK : Z := 0x00000001.
Definition SYSMGR_FRZCTRL_VIOCTRL_SHIFT : Z := (2).
Definition SYSMGR_FRZCTRL_VIOCTRL_SLEW_MASK : Z := 0x00000010.
Definition SYSMGR_FRZCTRL_VIOCTRL_TRISTATE_MASK : Z := 0x00000004.
Definition SYSMGR_FRZCTRL_VIOCTRL_WKPULLUP_MASK : Z := 0x00000008.
Definition SYSMGR_PINMUXGRP : Z := (SOCFPGA_SYSMGR_ADDRESS + 0x400).
Definition SYSMGR_PINMUXGRP_EMAC0USEFPGA : Z := (SYSMGR_PINMUXGRP + 0x314).
Definition SYSMGR_PINMUXGRP_EMAC1USEFPGA : Z := (SYSMGR_PINMUXGRP + 0x2f8).
Definition SYSMGR_PINMUXGRP_FLASHIO1 : Z := (SYSMGR_PINMUXGRP + 0x54).
Definition SYSMGR_PINMUXGRP_NANDUSEFPGA : Z := (SYSMGR_PINMUXGRP + 0x2f0).
Definition SYSMGR_PINMUXGRP_SDMMCUSEFPGA : Z := (SYSMGR_PINMUXGRP + 0x308).
Definition SYSMGR_PINMUXGRP_SPIM0USEFPGA : Z := (SYSMGR_PINMUXGRP + 0x338).
Definition SYSMGR_PINMUXGRP_SPIM1USEFPGA : Z := (SYSMGR_PINMUXGRP + 0x330).
Definition SYSMGR_ROMCODEGRP_CTRL_WARMRSTCFGIO : Z := (1.<<1).
Definition SYSMGR_ROMCODEGRP_CTRL_WARMRSTCFGPINMUX : Z := (1.<<0).
Definition SYSMGR_SDMMCGRP_CTRL_REG : Z := (SOCFPGA_SYSMGR_ADDRESS + 0x108).
Definition SYSMGR_SDMMC_CTRL_SET (smplsel drvsel : Z) : Z := ((((drvsel) .<< 0) .& 0x7) .| (((smplsel) .<< 3) .& 0x38)).
Definition SZ_DMAEND : Z := 1.
Definition SZ_DMALD : Z := 1.
Definition SZ_DMALP : Z := 2.
Definition SZ_DMALPEND : Z := 2.
Definition SZ_DMAMOV : Z := 6.
Definition SZ_DMANOP : Z := 1.
Definition SZ_DMARMB : Z := 1.
Definition SZ_DMAST : Z := 1.
Definition SZ_DMASTZ : Z := 1.
Definition TDI_TDO_HEADER_FIRST_BYTE : Z := (0x80).
Definition TDI_TDO_HEADER_SECOND_BYTE_SHIFT : Z := (8).
Definition TDI_TDO_MAX_PAYLOAD : Z := (127).
Definition TIMEOUT : Z := -19.
Definition TIMER_LOAD_VAL : Z := 0xffffffff.
Definition TX_WMARK (x : Z) : Z := (x).
Definition UART_FCR_FIFO_EN : Z := 0x01.
Definition UART_FCR_RXSR : Z := 0x02.
Definition UART_FCR_TXSR : Z := 0x04.
Definition UART_FCRVAL : Z := (UART_FCR_FIFO_EN .| UART_FCR_RXSR .| UART_FCR_TXSR).
Definition UART_LCR_8N1 : Z := 0x03.
Definition UART_LCRVAL : Z := UART_LCR_8N1.
Definition UART_LCR_BKSE : Z := 0x80.
Definition UART_LSR_DR : Z := 0x01.
Definition UART_LSR_TEMT : Z := 0x40.
Definition UART_LSR_THRE : Z := 0x20.
Definition UART_MCR_DTR : Z := 0x01.
Definition UART_MCR_RTS : Z := 0x02.
Definition UART_MCRVAL : Z := (UART_MCR_DTR .| UART_MCR_RTS).
Definition UNUSABLE_ERR : Z := -17.
Definition VCO_EN_BASE : Z := (CLKMGR_MAINPLLGRP_VCO_PWRDN_SET(0).| CLKMGR_MAINPLLGRP_VCO_EN_SET(1).| CLKMGR_MAINPLLGRP_VCO_BGPWRDN_SET(0)).
Definition fpga_manager_base_ctrl : Z := SOCFPGA_FPGAMGRREGS_ADDRESS + 0x4.
Definition fpga_manager_base_dclkcnt : Z := SOCFPGA_FPGAMGRREGS_ADDRESS + 0x8.
Definition fpga_manager_base_dclkstat : Z := SOCFPGA_FPGAMGRREGS_ADDRESS + 0xc.
Definition fpga_manager_base_stat : Z := SOCFPGA_FPGAMGRREGS_ADDRESS + 0x0.
Definition SOCFPGA_GIC_CPU_IF : Z := (SOCFPGA_MPUSCU_ADDRESS + 0x100).
Definition gic_cpu_if_base_ICCEOIR : Z := SOCFPGA_GIC_CPU_IF + 0x10.
Definition gic_cpu_if_base_ICCHPIR : Z := SOCFPGA_GIC_CPU_IF + 0x18.
Definition gic_cpu_if_base_ICCICR : Z := SOCFPGA_GIC_CPU_IF + 0x0.
Definition gic_cpu_if_base_ICCPMR : Z := SOCFPGA_GIC_CPU_IF + 0x4.
Definition SOCFPGA_RSTMGR_ADDRESS : Z := 0xffd05000.
Definition reset_manager_base_brg_mod_reset : Z := SOCFPGA_RSTMGR_ADDRESS + 0x1c.
Definition reset_manager_base_ctrl : Z := SOCFPGA_RSTMGR_ADDRESS + 0x4.
Definition reset_manager_base_mpu_mod_reset : Z := SOCFPGA_RSTMGR_ADDRESS + 0x10.
Definition reset_manager_base_per2_mod_reset : Z := SOCFPGA_RSTMGR_ADDRESS + 0x18.
Definition reset_manager_base_per_mod_reset : Z := SOCFPGA_RSTMGR_ADDRESS + 0x14.
Definition SOCFPGA_OSC1TIMER0_ADDRESS : Z := 0xffd00000.
Definition CONFIG_SYS_TIMERBASE : Z := SOCFPGA_OSC1TIMER0_ADDRESS.
Definition timer_base_ctrl : Z := CONFIG_SYS_TIMERBASE + 0x8.
Definition timer_base_curr_val : Z := CONFIG_SYS_TIMERBASE + 0x4.
Definition timer_base_load_val : Z := CONFIG_SYS_TIMERBASE + 0x0.
