(* ===== verification/Globals.v ===== *)
(** The C globals that the preloader's components share. *)

From S2P Require Import Prelude Mmio.

(** INTR_FXN_PTR of interrupts.h: a null pointer, the marker INVERSE_NULL, or
    the address of a handler, which is named by a number. *)
Inductive intr_fxn :=
| fxn_null
| fxn_inverse_null
| fxn (handler : nat).

Record gdata := mk_gdata {
  tbl : Z;                                (* gd->tbl: timestamp *)
  lastinc : Z;                            (* gd->lastinc: last timer reading *)
  frzctrl_channel_freeze : list Z;        (* freeze_controller.c *)
  cm_l4_sp_clock : Z;                     (* clock_manager.c *)
  cm_sdmmc_clock : Z;
  cm_qspi_clock : Z;
  rst_mgr_status : Z;                     (* spl.c *)
  irq_cnt_ecc_sdram : Z;                  (* sdram.c *)
  irq_cnt_ecc_ocram_corrected : Z;        (* ecc_ram.c *)
  irq_cnt_ecc_ocram_uncorrected : Z;
  interrupt_vectors : list (intr_fxn * Z); (* interrupts.c: fxn and arg *)
  ram_size : Z;                           (* gd->ram_size *)
  baudrate : Z;                           (* gd->baudrate *)
  have_console : Z                        (* gd->have_console *)
}.

Definition set_time (t l : Z) (g : gdata) : gdata :=
  mk_gdata t l (frzctrl_channel_freeze g) (cm_l4_sp_clock g) (cm_sdmmc_clock g) (cm_qspi_clock
    g) (rst_mgr_status g) (irq_cnt_ecc_sdram g) (irq_cnt_ecc_ocram_corrected g)
    (irq_cnt_ecc_ocram_uncorrected g) (interrupt_vectors g) (ram_size g) (baudrate g) (have_console g).

Definition set_freeze (f : list Z) (g : gdata) : gdata :=
  mk_gdata (tbl g) (lastinc g) f (cm_l4_sp_clock g) (cm_sdmmc_clock g) (cm_qspi_clock g)
    (rst_mgr_status g) (irq_cnt_ecc_sdram g) (irq_cnt_ecc_ocram_corrected g)
    (irq_cnt_ecc_ocram_uncorrected g) (interrupt_vectors g) (ram_size g) (baudrate g) (have_console g).

Definition set_clocks (l4 mmc qspi : Z) (g : gdata) : gdata :=
  mk_gdata (tbl g) (lastinc g) (frzctrl_channel_freeze g) l4 mmc qspi (rst_mgr_status g)
    (irq_cnt_ecc_sdram g) (irq_cnt_ecc_ocram_corrected g) (irq_cnt_ecc_ocram_uncorrected g)
    (interrupt_vectors g) (ram_size g) (baudrate g) (have_console g).

Definition set_rst_mgr_status (v : Z) (g : gdata) : gdata :=
  mk_gdata (tbl g) (lastinc g) (frzctrl_channel_freeze g) (cm_l4_sp_clock g) (cm_sdmmc_clock g)
    (cm_qspi_clock g) v (irq_cnt_ecc_sdram g) (irq_cnt_ecc_ocram_corrected g)
    (irq_cnt_ecc_ocram_uncorrected g) (interrupt_vectors g) (ram_size g) (baudrate g) (have_console g).

Definition set_irq_cnt (sdr cor unc : Z) (g : gdata) : gdata :=
  mk_gdata (tbl g) (lastinc g) (frzctrl_channel_freeze g) (cm_l4_sp_clock g) (cm_sdmmc_clock g)
    (cm_qspi_clock g) (rst_mgr_status g) sdr cor unc (interrupt_vectors g) (ram_size g) (baudrate g) (have_console g).

Definition set_vectors (v : list (intr_fxn * Z)) (g : gdata) : gdata :=
  mk_gdata (tbl g) (lastinc g) (frzctrl_channel_freeze g) (cm_l4_sp_clock g) (cm_sdmmc_clock g)
    (cm_qspi_clock g) (rst_mgr_status g) (irq_cnt_ecc_sdram g) (irq_cnt_ecc_ocram_corrected g)
    (irq_cnt_ecc_ocram_uncorrected g) v (ram_size g) (baudrate g) (have_console g).

Definition set_ram_size (n : Z) (g : gdata) : gdata :=
  mk_gdata (tbl g) (lastinc g) (frzctrl_channel_freeze g) (cm_l4_sp_clock g) (cm_sdmmc_clock g)
    (cm_qspi_clock g) (rst_mgr_status g) (irq_cnt_ecc_sdram g) (irq_cnt_ecc_ocram_corrected g)
    (irq_cnt_ecc_ocram_uncorrected g) (interrupt_vectors g) n (baudrate g) (have_console g).

Definition set_console (b c : Z) (g : gdata) : gdata :=
  mk_gdata (tbl g) (lastinc g) (frzctrl_channel_freeze g) (cm_l4_sp_clock g) (cm_sdmmc_clock g)
    (cm_qspi_clock g) (rst_mgr_status g) (irq_cnt_ecc_sdram g) (irq_cnt_ecc_ocram_corrected g)
    (irq_cnt_ecc_ocram_uncorrected g) (interrupt_vectors g) (ram_size g) b c.

(** Values after load: all channels frozen, the first of the 212 interrupt
    vectors INVERSE_NULL as its initialiser says, the rest zero. *)
Definition gdata0 : gdata :=
  mk_gdata 0 0 [0; 0; 0; 0] 0 0 0 0 0 0 0 ((fxn_inverse_null, 0) :: replicate 211 (fxn_null, 0)) 0 0 0.
