(* ===== verification/BoardTables.v ===== *)
(** The tables of the board handoff: the pin multiplexing of
    pinmux_config_cyclone5.c and the four I/O scan chains of
    iocsr_config_cyclone5.c. *)

From S2P Require Import Prelude.

Definition sys_mgr_init_table : list Z := [
  0; 2; 2; 2; 2; 2; 2; 2; 2; 0; 2; 2; 2; 2; 0; 0; 0; 0; 0; 0; 3; 0; 3; 3;
  0; 0; 0; 0; 0; 3; 3; 3; 0; 1; 1; 1; 1; 0; 0; 1; 1; 0; 0; 0; 0; 0; 0; 1;
  1; 1; 1; 0; 0; 0; 0; 0; 0; 0; 0; 0; 0; 0; 0; 0; 2; 2; 2; 2; 2; 2; 2; 2;
  2; 2; 2; 2; 2; 2; 0; 3; 3; 3; 3; 3; 3; 0; 0; 0; 0; 0; 0; 0; 0; 0; 0; 0;
  0; 0; 0; 0; 0; 0; 0; 0; 0; 0; 0; 0; 0; 0; 0; 0; 0; 0; 0; 0; 0; 1; 1; 1;
  1; 1; 1; 1; 1; 1; 1; 1; 1; 1; 1; 1; 1; 1; 1; 1; 1; 1; 1; 1; 1; 1; 1; 1;
  1; 1; 1; 1; 1; 1; 1; 1; 1; 1; 1; 1; 1; 1; 1; 1; 1; 1; 1; 1; 1; 1; 1; 1;
  1; 1; 1; 1; 1; 1; 1; 1; 1; 1; 1; 1; 1; 1; 1; 1; 1; 1; 1; 1; 0; 0; 0; 0;
  0; 0; 0; 0; 0; 0; 0; 0; 0; 0; 0; 0; 0; 0; 0].

Definition iocsr_scan_chain0_table : list Z := [
  0x00000000; 0x00000000; 0x0ff00000; 0xc0000000; 0x0000003f; 0x00008000; 0x00060180;
  0x18060000; 0x18000000; 0x00018060; 0x00000000; 0x00004000; 0x000300c0; 0x0c030000;
  0x0c000000; 0x00000030; 0x0000c030; 0x00002000; 0x00020000; 0x06018000; 0x06000000;
  0x00000018; 0x00006018; 0x00001000].

Definition iocsr_scan_chain1_table : list Z := [
  0x00100000; 0x300c0000; 0x300000c0; 0x000000c0; 0x000300c0; 0x00008000; 0x00060180;
  0x20000000; 0x00000000; 0x00000080; 0x00020000; 0x00004000; 0x000300c0; 0x10000000;
  0x0c000000; 0x00000030; 0x0000c030; 0x00002000; 0x06018060; 0x06018000; 0x01fe0000;
  0xf8000000; 0x00000007; 0x00001000; 0x0000c030; 0x0300c000; 0x03000000; 0x0000300c;
  0x0000300c; 0x00000800; 0x00000000; 0x00000000; 0x01800000; 0x00000006; 0x00002000;
  0x00000400; 0x00000000; 0x00c03000; 0x00000003; 0x00000000; 0x00000000; 0x00000200;
  0x00601806; 0x00000000; 0x80600000; 0x80000601; 0x00000601; 0x00000100; 0x00300c03;
  0xc0300c00; 0xc0300000; 0xc0000300; 0x000c0300; 0x00000080].

Definition iocsr_scan_chain2_table : list Z := [
  0x300c0300; 0x00000000; 0x0ff00000; 0x00000000; 0x000300c0; 0x00008000; 0x00080000;
  0x18060000; 0x18000000; 0x00018060; 0x00020000; 0x00004000; 0x200300c0; 0x10000000;
  0x00000000; 0x00000040; 0x00010000; 0x00002000; 0x10018060; 0x06018000; 0x06000000;
  0x00010018; 0x00006018; 0x00001000; 0x0000c030; 0x00000000; 0x03000000; 0x0000800c;
  0x00c0300c; 0x00000800].

Definition iocsr_scan_chain3_table : list Z := [
  0x0c420d80; 0x082000ff; 0x0a804001; 0x07900000; 0x08020000; 0x00100000; 0x0a800000;
  0x07900000; 0x08020000; 0x00100000; 0xc8800000; 0x00003001; 0x00c00722; 0x00000000;
  0x00000021; 0x82000004; 0x05400000; 0x03c80000; 0x04010000; 0x00080000; 0x05400000;
  0x03c80000; 0x05400000; 0x03c80000; 0xe4400000; 0x00001800; 0x00600391; 0x800e4400;
  0x00000001; 0x40000002; 0x02a00000; 0x01e40000; 0x02a00000; 0x01e40000; 0x02a00000;
  0x01e40000; 0x02a00000; 0x01e40000; 0x72200000; 0x80000c00; 0x003001c8; 0xc0072200;
  0x1c880000; 0x20000300; 0x00040000; 0x50670000; 0x00000010; 0x24590000; 0x00001000;
  0xa0000034; 0x0d000001; 0x40680208; 0x41034051; 0x02081a00; 0x802080d0; 0x34010406;
  0x01a02490; 0x080d0000; 0x51406802; 0x00410340; 0xd000001a; 0x06802080; 0x10040000;
  0x00200000; 0x10040000; 0x00200000; 0x15000000; 0x0f200000; 0x15000000; 0x0f200000;
  0x01fe0000; 0x00000000; 0x01800e44; 0x00391000; 0x007f8006; 0x00000000; 0x0a800001;
  0x07900000; 0x0a800000; 0x07900000; 0x0a800000; 0x07900000; 0x08020000; 0x00100000;
  0xc8800000; 0x00003001; 0x00c00722; 0x00000ff0; 0x72200000; 0x80000c00; 0x05400000;
  0x02480000; 0x04000000; 0x00080000; 0x05400000; 0x03c80000; 0x05400000; 0x03c80000;
  0x6a1c0000; 0x00001800; 0x00600391; 0x800e4400; 0x1a870001; 0x40000600; 0x02a00040;
  0x01e40000; 0x02a00000; 0x01e40000; 0x02a00000; 0x01e40000; 0x02a00000; 0x01e40000;
  0x72200000; 0x80000c00; 0x003001c8; 0xc0072200; 0x1c880000; 0x20000300; 0x00040000;
  0x50670000; 0x00000010; 0x24590000; 0x00001000; 0xa0000034; 0x0d000001; 0x40680c30;
  0x49034010; 0x12481a02; 0x802080d0; 0x34051406; 0x01a00040; 0x080d0002; 0x51406802;
  0x02490340; 0xd012481a; 0x06802080; 0x10040000; 0x00200000; 0x10040000; 0x00200000;
  0x15000000; 0x0f200000; 0x15000000; 0x0f200000; 0x01fe0000; 0x00000000; 0x01800e44;
  0x00391000; 0x007f8006; 0x00000000; 0x99300001; 0x34343400; 0xaa0d4000; 0x01c3a800;
  0xaa0d4000; 0x01c3a800; 0xaa0d4000; 0x01c3a800; 0x00040100; 0x00000800; 0x00000000;
  0x00001208; 0x00482000; 0x01000000; 0x00000000; 0x00410482; 0x0006a000; 0x0001b400;
  0x00020000; 0x00000400; 0x0002a000; 0x0001e400; 0x5506a000; 0x00e1d400; 0x00000000;
  0xc880090c; 0x00003001; 0x90400000; 0x00000000; 0x2020c243; 0x2a835000; 0x0070ea00;
  0x2a835000; 0x0070ea00; 0x2a835000; 0x0070ea00; 0x00010040; 0x00000200; 0x00000000;
  0x00000482; 0x00120800; 0x00002000; 0x80000000; 0x00104120; 0x00000200; 0xac0d5f80;
  0xffffffff; 0x14f3690d; 0x1a041414; 0x00d00000; 0x18864000; 0x49247a06; 0xe3cf23da;
  0xf456591e; 0x0344e388; 0x821a0000; 0x0000d000; 0x01040680; 0xd271c47a; 0x1ee3cf23;
  0x88f45659; 0x000344e3; 0x00080200; 0x00001000; 0x00080200; 0x00001000; 0x000a8000;
  0x00075000; 0x541a8000; 0x03875001; 0x10000000; 0x00000000; 0x0080c000; 0x41000000;
  0x00003fc2; 0x00820000; 0xaa0d4000; 0x01c3a800; 0xaa0d4000; 0x01c3a800; 0xaa0d4000;
  0x01c3a800; 0x00040100; 0x00000800; 0x00000000; 0x00001208; 0x00482000; 0x00008000;
  0x00000000; 0x00410482; 0x0006a000; 0x0001b400; 0x00020000; 0x00000400; 0x00020080;
  0x00000400; 0x5506a000; 0x00e1d400; 0x00000000; 0x0000090c; 0x00000010; 0x90400000;
  0x00000000; 0x2020c243; 0x2a835000; 0x0070ea00; 0x2a835000; 0x0070ea00; 0x2a835000;
  0x0070ea00; 0x00015000; 0x0000f200; 0x00000000; 0x00000482; 0x00120800; 0x00600391;
  0x80000000; 0x00104120; 0x00000200; 0xac0d5f80; 0xffffffff; 0x14f3690d; 0x1a041414;
  0x00d00000; 0x18864000; 0x49247a06; 0xa3cf23da; 0xf796591e; 0x0344e388; 0x821a028a;
  0x0000d000; 0x00000680; 0xd271c47a; 0x1ea2cb23; 0x88f79a69; 0x000344e3; 0x00080200;
  0x00001000; 0x00080200; 0x00001000; 0x000a8000; 0x00075000; 0x541a8000; 0x03875001;
  0x10000000; 0x00000000; 0x0080c000; 0x41000000; 0x04000002; 0x00820000; 0xaa0d4000;
  0x01c3a800; 0xaa0d4000; 0x01c3a800; 0xaa0d4000; 0x01c3a800; 0x00040100; 0x00000800;
  0x00000000; 0x00001208; 0x00482000; 0x00008000; 0x00000000; 0x00410482; 0x0006a000;
  0x0001b400; 0x00020000; 0x00000400; 0x0002a000; 0x0001e400; 0x5506a000; 0x00e1d400;
  0x00000000; 0xc880090c; 0x00003001; 0x90400000; 0x00000000; 0x2020c243; 0x2a835000;
  0x0070ea00; 0x2a835000; 0x0070ea00; 0x2a835000; 0x0070ea00; 0x00010040; 0x00000200;
  0x00000000; 0x00000482; 0x00120800; 0x00002000; 0x80000000; 0x00104120; 0x00000200;
  0xac0d5f80; 0xffffffff; 0x14f3690d; 0x1a041414; 0x00d00000; 0x04864000; 0x69a47a01;
  0x9228a3d6; 0xf456591e; 0x03549248; 0x821a0000; 0x0000d000; 0x00000680; 0xd669a47a;
  0x1ee3cf23; 0x48f45659; 0x00035492; 0x00080200; 0x00001000; 0x00080200; 0x00001000;
  0x000a8000; 0x00075000; 0x541a8000; 0x03875001; 0x10000000; 0x00000000; 0x0080c000;
  0x41000000; 0x04000002; 0x00820000; 0xaa0d4000; 0x01c3a800; 0xaa0d4000; 0x01c3a800;
  0xaa0d4000; 0x01c3a800; 0x00040100; 0x00000800; 0x00000000; 0x00001208; 0x00482000;
  0x00008000; 0x00000000; 0x00410482; 0x0006a000; 0x0001b400; 0x00020000; 0x00000400;
  0x00020080; 0x00000400; 0x5506a000; 0x00e1d400; 0x00000000; 0x0000090c; 0x00000010;
  0x90400000; 0x00000000; 0x2020c243; 0x2a835000; 0x0070ea00; 0x2a835000; 0x0070ea00;
  0x2a835000; 0x0070ea00; 0x00010040; 0x00000200; 0x00000000; 0x00000482; 0x00120800;
  0x00400000; 0x80000000; 0x00104120; 0x00000200; 0xac0d5f80; 0xffffffff; 0x14f1690d;
  0x1a041414; 0x00d00000; 0x08864000; 0x71c47a02; 0xa2cb23d2; 0xf796591e; 0x0344a288;
  0x821a0000; 0x0000d000; 0x00000680; 0xda49247a; 0x1ee3cf23; 0x88f45659; 0x000344e3;
  0x00080200; 0x00001000; 0x00080200; 0x00001000; 0x000a8000; 0x00075000; 0x541a8000;
  0x03875001; 0x10000000; 0x00000000; 0x0080c000; 0x41000000; 0x04000002; 0x00820000;
  0x00489800; 0x801a1a1a; 0x00000200; 0x80000004; 0x00000200; 0x80000004; 0x00000200;
  0x80000004; 0x00000200; 0x00000004; 0x00040000; 0x10000000; 0x00000000; 0x00000040;
  0x00010000; 0x40002000; 0x00000100; 0x40000002; 0x00000100; 0x40000002; 0x00000100;
  0x40000002; 0x00000100; 0x00000002; 0x00020000; 0x08000000; 0x00000000; 0x00000020;
  0x00008000; 0x20001000; 0x00000080; 0x20000001; 0x00000080; 0x20000001; 0x00000080;
  0x20000001; 0x00000080; 0x00000001; 0x00010000; 0x04000000; 0x00ff0000; 0x00000000;
  0x00004000; 0x00000800; 0xc0000001; 0x00041419; 0x40000000; 0x04000816; 0x000d0000;
  0x00006800; 0x00000340; 0xd000001a; 0x06800000; 0x00340000; 0x0001a000; 0x00000d00;
  0x40000068; 0x1a000003; 0x00d00000; 0x00068000; 0x00003400; 0x000001a0; 0x00000401;
  0x00000008; 0x00000401; 0x00000008; 0x00000401; 0x00000008; 0x00000401; 0x80000008;
  0x0000007f; 0x20000000; 0x00000000; 0xe0000080; 0x0000001f; 0x00004000].
