(* ===== verification/FpgaStatus.v ===== *)
(** The FPGA manager's status queries (fpga_manager.c, first half): whether
    the fabric is configured and may be accessed.  The reset manager depends on
    them; the programming sequence of FpgaManager.v depends on both. *)

From S2P Require Import Prelude Mmio Regs.

Section fpga_status.
Context {D G : Type} `{Device D}.
Abbreviation M := (M D G).

Definition is_fpgamgr_initdone_high : M Z :=
  let* val := readl (SOCFPGA_FPGAMGRREGS_ADDRESS + FPGAMGRREGS_MON_GPIO_EXT_PORTA_ADDRESS) in
  if truthy (val .& FPGAMGRREGS_MON_GPIO_EXT_PORTA_ID_MASK) then ret 1 else ret 0.

Definition fpgamgr_get_mode : M Z :=
  let* val := readl fpga_manager_base_stat in
  ret (val .& FPGAMGRREGS_STAT_MODE_MASK).

Definition is_fpgamgr_fpga_ready : M Z :=
  let* i := is_fpgamgr_initdone_high in
  if i =? 0 then ret 0 else
  let* i := is_fpgamgr_initdone_high in
  if i =? 0 then ret 0 else
  let* mode := fpgamgr_get_mode in
  if negb (mode =? FPGAMGRREGS_MODE_USERMODE) then ret 0 else ret 1.

Definition poll_fpgamgr_fpga_ready : M Z :=
  let* r := for_upto FPGA_TIMEOUT_CNT (fun _ =>
    let* i := is_fpgamgr_initdone_high in
    if i =? 0 then ret None else
    let* i := is_fpgamgr_initdone_high in
    if i =? 0 then ret None else
    ret (Some 1)) in
  match r with
  | Some v => ret v
  | None => ret 0
  end.

End fpga_status.
