(* ===== verification/ResetManager.v ===== *)
(** The reset manager (reset_manager.c): which modules, bridges and cores are
    held in reset, the warm reset handshakes, and the software reset request.
    The handoff flags of reset_config.h are a record, so that the value written
    is specified for every board configuration; [board] is this board's. *)

From S2P Require Import Prelude Mmio Regs FpgaStatus.

(** The CONFIG_HPS_RESET_* flags of reset_config.h: 1 keeps the module in
    reset, or enables the warm reset handshake. *)
Record reset_handoff := {
  ASSERT_EMAC0 : Z;
  ASSERT_EMAC1 : Z;
  ASSERT_USB0 : Z;
  ASSERT_USB1 : Z;
  ASSERT_NAND : Z;
  ASSERT_QSPI : Z;
  ASSERT_L4WD1 : Z;
  ASSERT_OSC1TIMER1 : Z;
  ASSERT_SPTIMER0 : Z;
  ASSERT_SPTIMER1 : Z;
  ASSERT_I2C0 : Z;
  ASSERT_I2C1 : Z;
  ASSERT_I2C2 : Z;
  ASSERT_I2C3 : Z;
  ASSERT_UART0 : Z;
  ASSERT_UART1 : Z;
  ASSERT_SPIM0 : Z;
  ASSERT_SPIM1 : Z;
  ASSERT_SPIS0 : Z;
  ASSERT_SPIS1 : Z;
  ASSERT_SDMMC : Z;
  ASSERT_CAN0 : Z;
  ASSERT_CAN1 : Z;
  ASSERT_GPIO0 : Z;
  ASSERT_GPIO1 : Z;
  ASSERT_GPIO2 : Z;
  ASSERT_DMA : Z;
  ASSERT_SDR : Z;
  ASSERT_FPGA_DMA0 : Z;
  ASSERT_FPGA_DMA1 : Z;
  ASSERT_FPGA_DMA2 : Z;
  ASSERT_FPGA_DMA3 : Z;
  ASSERT_FPGA_DMA4 : Z;
  ASSERT_FPGA_DMA5 : Z;
  ASSERT_FPGA_DMA6 : Z;
  ASSERT_FPGA_DMA7 : Z;
  ASSERT_HPS2FPGA : Z;
  ASSERT_LWHPS2FPGA : Z;
  ASSERT_FPGA2HPS : Z;
  WARMRST_HANDSHAKE_FPGA : Z;
  WARMRST_HANDSHAKE_ETR : Z;
  WARMRST_HANDSHAKE_SDRAM : Z;
  EXE_ON_FPGA : Z
}.

Definition board : reset_handoff := {|
  ASSERT_EMAC0 := CONFIG_HPS_RESET_ASSERT_EMAC0;
  ASSERT_EMAC1 := CONFIG_HPS_RESET_ASSERT_EMAC1;
  ASSERT_USB0 := CONFIG_HPS_RESET_ASSERT_USB0;
  ASSERT_USB1 := CONFIG_HPS_RESET_ASSERT_USB1;
  ASSERT_NAND := CONFIG_HPS_RESET_ASSERT_NAND;
  ASSERT_QSPI := CONFIG_HPS_RESET_ASSERT_QSPI;
  ASSERT_L4WD1 := CONFIG_HPS_RESET_ASSERT_L4WD1;
  ASSERT_OSC1TIMER1 := CONFIG_HPS_RESET_ASSERT_OSC1TIMER1;
  ASSERT_SPTIMER0 := CONFIG_HPS_RESET_ASSERT_SPTIMER0;
  ASSERT_SPTIMER1 := CONFIG_HPS_RESET_ASSERT_SPTIMER1;
  ASSERT_I2C0 := CONFIG_HPS_RESET_ASSERT_I2C0;
  ASSERT_I2C1 := CONFIG_HPS_RESET_ASSERT_I2C1;
  ASSERT_I2C2 := CONFIG_HPS_RESET_ASSERT_I2C2;
  ASSERT_I2C3 := CONFIG_HPS_RESET_ASSERT_I2C3;
  ASSERT_UART0 := CONFIG_HPS_RESET_ASSERT_UART0;
  ASSERT_UART1 := CONFIG_HPS_RESET_ASSERT_UART1;
  ASSERT_SPIM0 := CONFIG_HPS_RESET_ASSERT_SPIM0;
  ASSERT_SPIM1 := CONFIG_HPS_RESET_ASSERT_SPIM1;
  ASSERT_SPIS0 := CONFIG_HPS_RESET_ASSERT_SPIS0;
  ASSERT_SPIS1 := CONFIG_HPS_RESET_ASSERT_SPIS1;
  ASSERT_SDMMC := CONFIG_HPS_RESET_ASSERT_SDMMC;
  ASSERT_CAN0 := CONFIG_HPS_RESET_ASSERT_CAN0;
  ASSERT_CAN1 := CONFIG_HPS_RESET_ASSERT_CAN1;
  ASSERT_GPIO0 := CONFIG_HPS_RESET_ASSERT_GPIO0;
  ASSERT_GPIO1 := CONFIG_HPS_RESET_ASSERT_GPIO1;
  ASSERT_GPIO2 := CONFIG_HPS_RESET_ASSERT_GPIO2;
  ASSERT_DMA := CONFIG_HPS_RESET_ASSERT_DMA;
  ASSERT_SDR := CONFIG_HPS_RESET_ASSERT_SDR;
  ASSERT_FPGA_DMA0 := CONFIG_HPS_RESET_ASSERT_FPGA_DMA0;
  ASSERT_FPGA_DMA1 := CONFIG_HPS_RESET_ASSERT_FPGA_DMA1;
  ASSERT_FPGA_DMA2 := CONFIG_HPS_RESET_ASSERT_FPGA_DMA2;
  ASSERT_FPGA_DMA3 := CONFIG_HPS_RESET_ASSERT_FPGA_DMA3;
  ASSERT_FPGA_DMA4 := CONFIG_HPS_RESET_ASSERT_FPGA_DMA4;
  ASSERT_FPGA_DMA5 := CONFIG_HPS_RESET_ASSERT_FPGA_DMA5;
  ASSERT_FPGA_DMA6 := CONFIG_HPS_RESET_ASSERT_FPGA_DMA6;
  ASSERT_FPGA_DMA7 := CONFIG_HPS_RESET_ASSERT_FPGA_DMA7;
  ASSERT_HPS2FPGA := CONFIG_HPS_RESET_ASSERT_HPS2FPGA;
  ASSERT_LWHPS2FPGA := CONFIG_HPS_RESET_ASSERT_LWHPS2FPGA;
  ASSERT_FPGA2HPS := CONFIG_HPS_RESET_ASSERT_FPGA2HPS;
  WARMRST_HANDSHAKE_FPGA := CONFIG_HPS_RESET_WARMRST_HANDSHAKE_FPGA;
  WARMRST_HANDSHAKE_ETR := CONFIG_HPS_RESET_WARMRST_HANDSHAKE_ETR;
  WARMRST_HANDSHAKE_SDRAM := CONFIG_HPS_RESET_WARMRST_HANDSHAKE_SDRAM;
  EXE_ON_FPGA := CONFIG_PRELOADER_EXE_ON_FPGA
|}.

(** The value of permodrst that reset_deassert_peripherals_handoff builds. *)
Definition permodrst_handoff (h : reset_handoff) : Z :=
  let val := 0 in
  let val := val .| RSTMGR_PERMODRST_EMAC0_SET (ASSERT_EMAC0 h) in
  let val := val .| RSTMGR_PERMODRST_EMAC1_SET (ASSERT_EMAC1 h) in
  let val := val .| RSTMGR_PERMODRST_USB0_SET (ASSERT_USB0 h) in
  let val := val .| RSTMGR_PERMODRST_USB1_SET (ASSERT_USB1 h) in
  let val := val .| RSTMGR_PERMODRST_NAND_SET (ASSERT_NAND h) in
  let val := val .| RSTMGR_PERMODRST_QSPI_SET (ASSERT_QSPI h) in
  let val := val .| RSTMGR_PERMODRST_L4WD1_SET (ASSERT_L4WD1 h) in
  let val := val .| RSTMGR_PERMODRST_OSC1TIMER1_SET (ASSERT_OSC1TIMER1 h) in
  let val := val .| RSTMGR_PERMODRST_SPTIMER0_SET (ASSERT_SPTIMER0 h) in
  let val := val .| RSTMGR_PERMODRST_SPTIMER1_SET (ASSERT_SPTIMER1 h) in
  let val := val .| RSTMGR_PERMODRST_I2C0_SET (ASSERT_I2C0 h) in
  let val := val .| RSTMGR_PERMODRST_I2C1_SET (ASSERT_I2C1 h) in
  let val := val .| RSTMGR_PERMODRST_I2C2_SET (ASSERT_I2C2 h) in
  let val := val .| RSTMGR_PERMODRST_I2C3_SET (ASSERT_I2C3 h) in
  let val := val .| RSTMGR_PERMODRST_UART0_SET (ASSERT_UART0 h) in
  let val := val .| RSTMGR_PERMODRST_UART1_SET (ASSERT_UART1 h) in
  let val := val .| RSTMGR_PERMODRST_SPIM0_SET (ASSERT_SPIM0 h) in
  let val := val .| RSTMGR_PERMODRST_SPIM1_SET (ASSERT_SPIM1 h) in
  let val := val .| RSTMGR_PERMODRST_SPIS0_SET (ASSERT_SPIS0 h) in
  let val := val .| RSTMGR_PERMODRST_SPIS1_SET (ASSERT_SPIS1 h) in
  let val := val .| RSTMGR_PERMODRST_SDMMC_SET (ASSERT_SDMMC h) in
  let val := val .| RSTMGR_PERMODRST_CAN0_SET (ASSERT_CAN0 h) in
  let val := val .| RSTMGR_PERMODRST_CAN1_SET (ASSERT_CAN1 h) in
  let val := val .| RSTMGR_PERMODRST_GPIO0_SET (ASSERT_GPIO0 h) in
  let val := val .| RSTMGR_PERMODRST_GPIO1_SET (ASSERT_GPIO1 h) in
  let val := val .| RSTMGR_PERMODRST_GPIO2_SET (ASSERT_GPIO2 h) in
  let val := val .| RSTMGR_PERMODRST_DMA_SET (ASSERT_DMA h) in
  let val := val .| RSTMGR_PERMODRST_SDR_SET (ASSERT_SDR h) in
  val.

(** The value of per2modrst. *)
Definition per2modrst_handoff (h : reset_handoff) : Z :=
  let val := 0 in
  let val := val .| RSTMGR_PER2MODRST_DMAIF0_SET (ASSERT_FPGA_DMA0 h) in
  let val := val .| RSTMGR_PER2MODRST_DMAIF1_SET (ASSERT_FPGA_DMA1 h) in
  let val := val .| RSTMGR_PER2MODRST_DMAIF2_SET (ASSERT_FPGA_DMA2 h) in
  let val := val .| RSTMGR_PER2MODRST_DMAIF3_SET (ASSERT_FPGA_DMA3 h) in
  let val := val .| RSTMGR_PER2MODRST_DMAIF4_SET (ASSERT_FPGA_DMA4 h) in
  let val := val .| RSTMGR_PER2MODRST_DMAIF5_SET (ASSERT_FPGA_DMA5 h) in
  let val := val .| RSTMGR_PER2MODRST_DMAIF6_SET (ASSERT_FPGA_DMA6 h) in
  let val := val .| RSTMGR_PER2MODRST_DMAIF7_SET (ASSERT_FPGA_DMA7 h) in
  val.

(** The values of brgmodrst and remap_val in reset_deassert_bridges_handoff. *)
Definition brgmodrst_handoff (h : reset_handoff) : Z :=
  let v := 0 in
  let v := if (ASSERT_HPS2FPGA h =? 1) && (EXE_ON_FPGA h =? 0)
           then v .| RSTMGR_BRGMODRST_HPS2FPGA_MASK else v in
  let v := if ASSERT_LWHPS2FPGA h =? 1 then v .| RSTMGR_BRGMODRST_LWHPS2FPGA_MASK else v in
  let v := if ASSERT_FPGA2HPS h =? 1 then v .| RSTMGR_BRGMODRST_FPGA2HPS_MASK else v in
  v.

Definition remap_handoff (h : reset_handoff) : Z :=
  let v := L3REGS_REMAP_OCRAM_MASK in
  let v := if (ASSERT_HPS2FPGA h =? 1) && (EXE_ON_FPGA h =? 0)
           then v else v .| L3REGS_REMAP_HPS2FPGA_MASK in
  let v := if ASSERT_LWHPS2FPGA h =? 1 then v else v .| L3REGS_REMAP_LWHPS2FPGA_MASK in
  v.

Section reset_manager.
Context {D G : Type} `{Device D}.
Abbreviation M := (M D G).

Definition watchdog_disable : M unit :=
  setbits_le32 reset_manager_base_per_mod_reset (1 .<< RSTMGR_PERMODRST_L4WD0_LSB) ;;;
  clrbits_le32 reset_manager_base_per_mod_reset (1 .<< RSTMGR_PERMODRST_L4WD0_LSB).

Definition is_wdt_in_reset : M Z :=
  let* val := readl reset_manager_base_per_mod_reset in
  ret ((val .>> RSTMGR_PERMODRST_L4WD0_LSB) .& 0x1).

Definition reset_cpu (addr : Z) : M unit :=
  setbits_le32 reset_manager_base_ctrl (1 .<< RSTMGR_CTRL_SWWARMRSTREQ_LSB) ;;;
  halt.

Definition reset_deassert_all_peripherals : M unit :=
  writel 0x0 reset_manager_base_per_mod_reset.

Definition reset_deassert_all_bridges : M unit :=
  let* ready := poll_fpgamgr_fpga_ready in
  if ready =? 0 then halt else
  writel 0 reset_manager_base_brg_mod_reset ;;;
  writel (L3REGS_REMAP_LWHPS2FPGA_MASK .| L3REGS_REMAP_HPS2FPGA_MASK .|
          L3REGS_REMAP_OCRAM_MASK) SOCFPGA_L3REGS_ADDRESS.

Definition reset_deassert_cpu1 : M unit :=
  writel 0 reset_manager_base_mpu_mod_reset.

Definition reset_deassert_osc1timer0 : M unit :=
  clrbits_le32 reset_manager_base_per_mod_reset (1 .<< RSTMGR_PERMODRST_OSC1TIMER0_LSB).

Definition reset_deassert_osc1wd0 : M unit :=
  clrbits_le32 reset_manager_base_per_mod_reset (1 .<< RSTMGR_PERMODRST_L4WD0_LSB).

Definition reset_assert_all_peripherals : M unit :=
  writel (.~ 0) reset_manager_base_per_mod_reset.

Definition reset_assert_all_bridges : M unit :=
  writel (.~ 0) reset_manager_base_brg_mod_reset.

Definition reset_assert_all_peripherals_except_l4wd0 : M unit :=
  writel (.~ (1 .<< RSTMGR_PERMODRST_L4WD0_LSB)) reset_manager_base_per_mod_reset.

Definition reset_assert_all_peripherals_except_l4wd0_and_sdr : M unit :=
  writel (.~ ((1 .<< RSTMGR_PERMODRST_L4WD0_LSB) .| (1 .<< RSTMGR_PERMODRST_SDR_LSB)))
    reset_manager_base_per_mod_reset.

Definition reset_deassert_peripherals_handoff (h : reset_handoff) : M unit :=
  writel (permodrst_handoff h) reset_manager_base_per_mod_reset ;;;
  writel (per2modrst_handoff h) reset_manager_base_per2_mod_reset ;;;
  (if WARMRST_HANDSHAKE_FPGA h =? 1
   then setbits_le32 reset_manager_base_ctrl RSTMGR_CTRL_FPGAHSEN_MASK
   else clrbits_le32 reset_manager_base_ctrl RSTMGR_CTRL_FPGAHSEN_MASK) ;;;
  (if WARMRST_HANDSHAKE_ETR h =? 1
   then setbits_le32 reset_manager_base_ctrl RSTMGR_CTRL_ETRSTALLEN_MASK
   else clrbits_le32 reset_manager_base_ctrl RSTMGR_CTRL_ETRSTALLEN_MASK) ;;;
  (if WARMRST_HANDSHAKE_SDRAM h =? 1
   then setbits_le32 reset_manager_base_ctrl RSTMGR_CTRL_SDRSELFREFEN_MASK
   else clrbits_le32 reset_manager_base_ctrl RSTMGR_CTRL_SDRSELFREFEN_MASK).

Definition reset_deassert_bridges_handoff (h : reset_handoff) : M unit :=
  let brgmodrst := brgmodrst_handoff h in
  let remap_val := remap_handoff h in
  writel brgmodrst ISWGRP_HANDOFF_AXIBRIDGE ;;;
  writel remap_val ISWGRP_HANDOFF_L3REMAP ;;;
  let* ready := is_fpgamgr_fpga_ready in
  when (truthy ready) (
    writel brgmodrst reset_manager_base_brg_mod_reset ;;;
    writel remap_val SOCFPGA_L3REGS_ADDRESS).

Definition emac0_reset_enable (state : Z) : M unit :=
  if truthy state
  then setbits_le32 reset_manager_base_per_mod_reset (1 .<< RSTMGR_PERMODRST_EMAC0_LSB)
  else clrbits_le32 reset_manager_base_per_mod_reset (1 .<< RSTMGR_PERMODRST_EMAC0_LSB).

Definition emac1_reset_enable (state : Z) : M unit :=
  if truthy state
  then setbits_le32 reset_manager_base_per_mod_reset (1 .<< RSTMGR_PERMODRST_EMAC1_LSB)
  else clrbits_le32 reset_manager_base_per_mod_reset (1 .<< RSTMGR_PERMODRST_EMAC1_LSB).

End reset_manager.

(** ** The handoff values *)

(** Bit of each module in permodrst and in per2modrst. *)
Definition permodrst_bits : list (Z * (reset_handoff -> Z)) :=
  [(0, ASSERT_EMAC0); (1, ASSERT_EMAC1); (2, ASSERT_USB0); (3, ASSERT_USB1); (4,
   ASSERT_NAND); (5, ASSERT_QSPI); (7, ASSERT_L4WD1); (9, ASSERT_OSC1TIMER1); (10,
   ASSERT_SPTIMER0); (11, ASSERT_SPTIMER1); (12, ASSERT_I2C0); (13, ASSERT_I2C1); (14,
   ASSERT_I2C2); (15, ASSERT_I2C3); (16, ASSERT_UART0); (17, ASSERT_UART1); (18,
   ASSERT_SPIM0); (19, ASSERT_SPIM1); (20, ASSERT_SPIS0); (21, ASSERT_SPIS1); (22,
   ASSERT_SDMMC); (23, ASSERT_CAN0); (24, ASSERT_CAN1); (25, ASSERT_GPIO0); (26,
   ASSERT_GPIO1); (27, ASSERT_GPIO2); (28, ASSERT_DMA); (29, ASSERT_SDR)].
Definition per2modrst_bits : list (Z * (reset_handoff -> Z)) :=
  [(0, ASSERT_FPGA_DMA0); (1, ASSERT_FPGA_DMA1); (2, ASSERT_FPGA_DMA2); (3,
   ASSERT_FPGA_DMA3); (4, ASSERT_FPGA_DMA4); (5, ASSERT_FPGA_DMA5); (6, ASSERT_FPGA_DMA6);
   (7, ASSERT_FPGA_DMA7)].

(** A module is held in reset iff the low bit of its flag is set. *)
Definition held (h : reset_handoff) (i : Z) (m : Z * (reset_handoff -> Z)) : bool :=
  (i =? fst m) && Z.testbit (snd m h) 0.

Lemma testbit_field x n i : 0 <= n -> 0 <= i ->
  Z.testbit ((x .<< n) .& bit n) i = (i =? n) && Z.testbit x 0.
Proof.
  intros Hn Hi. rewrite Z.land_spec, testbit_bit, Z.shiftl_spec by done.
  rewrite (Z.eqb_sym n i). destruct (Z.eqb_spec i n) as [->|]; [|by rewrite andb_false_r].
  rewrite Z.sub_diag. apply andb_true_r.
Qed.

(** Bits of an or of fields. *)
Lemma testbit_or_field v x n m i : 0 <= n -> 0 <= i -> m = bit n ->
  Z.testbit (v .| ((x .<< n) .& m)) i = Z.testbit v i || ((i =? n) && Z.testbit x 0).
Proof. intros. subst m. by rewrite Z.lor_spec, testbit_field. Qed.

Ltac handoff_bits :=
  repeat (match goal with
          | |- context [Z.testbit (_ .| ?y) _] => let y' := eval red in y in change y with y'
          end; rewrite testbit_or_field by (done || lia || reflexivity)).

Lemma permodrst_testbit h i : 0 <= i ->
  Z.testbit (permodrst_handoff h) i = existsb (held h i) permodrst_bits.
Proof.
  intros Hi. unfold permodrst_handoff. cbv zeta. handoff_bits.
  rewrite Z.bits_0, <- !orb_assoc. unfold permodrst_bits, held. cbn [existsb fst snd].
  by rewrite orb_false_r.
Qed.

Lemma per2modrst_testbit h i : 0 <= i ->
  Z.testbit (per2modrst_handoff h) i = existsb (held h i) per2modrst_bits.
Proof.
  intros Hi. unfold per2modrst_handoff. cbv zeta. handoff_bits.
  rewrite Z.bits_0, <- !orb_assoc. unfold per2modrst_bits, held. cbn [existsb fst snd].
  by rewrite orb_false_r.
Qed.

Ltac word_fields :=
  repeat match goal with
         | |- word (_ .| _) => apply word_lor
         | |- word 0 => apply word_0
         | |- word ?y => let y' := eval red in y in change (word y'); apply word_land_r; word_solve
         end.

Lemma word_permodrst h : word (permodrst_handoff h).
Proof. unfold permodrst_handoff. cbv zeta. word_fields. Qed.

Lemma word_per2modrst h : word (per2modrst_handoff h).
Proof. unfold per2modrst_handoff. cbv zeta. word_fields. Qed.

Section proofs.
Context {D G : Type} `{Device D}.
Abbreviation M := (M D G).

(** Releasing the peripherals from the handoff writes, for every board
    configuration, the word whose bit [i] is the flag of the module wired to
    bit [i] and 0 where no module is; in particular the boot watchdog and the
    OSC1 timer that the delays use are always out of reset.  The second group
    follows, and then the three handshake bits of the control register. *)
Theorem deassert_peripherals_handoff_bits h (s : st D G) :
  exists v1 v2 t,
    tr (reset_deassert_peripherals_handoff h s) =
      [Wr reset_manager_base_per_mod_reset v1; Wr reset_manager_base_per2_mod_reset v2] ++ t /\
    (forall i, 0 <= i -> Z.testbit v1 i = existsb (held h i) permodrst_bits) /\
    (forall i, 0 <= i -> Z.testbit v2 i = existsb (held h i) per2modrst_bits) /\
    Z.testbit v1 RSTMGR_PERMODRST_L4WD0_LSB = false /\
    Z.testbit v1 RSTMGR_PERMODRST_OSC1TIMER0_LSB = false /\
    Forall (fun e => match e with Wr a _ => a = reset_manager_base_ctrl | _ => True end) t.
Proof.
  exists (permodrst_handoff h), (per2modrst_handoff h). wp_enter.
  unfold reset_deassert_peripherals_handoff. do 4 wp_step.
  apply (wp_only (fun e => match e with Wr a _ => a = reset_manager_base_ctrl | _ => True end)).
  { hw_auto. }
  intros o s' t Ht. exists t. rewrite !u32_word by (apply word_permodrst || apply word_per2modrst).
  split; [done|]. split; [intros; by apply permodrst_testbit|].
  split; [intros; by apply per2modrst_testbit|].
  split; [by rewrite permodrst_testbit|]. split; [by rewrite permodrst_testbit|]. done.
Qed.

(** On a plain control register, each warm reset handshake (FPGA, ETR stall,
    SDRAM self refresh) ends up enabled exactly when the handoff asks for it,
    whatever the register held, and the other control bits are kept. *)
Theorem handoff_handshakes h (s : st D G) `{!Reg D reset_manager_base_ctrl} :
  let c := reg reset_manager_base_ctrl (fin (reset_deassert_peripherals_handoff h s)) in
  truthy (c .& RSTMGR_CTRL_FPGAHSEN_MASK) = (WARMRST_HANDSHAKE_FPGA h =? 1) /\
  truthy (c .& RSTMGR_CTRL_ETRSTALLEN_MASK) = (WARMRST_HANDSHAKE_ETR h =? 1) /\
  truthy (c .& RSTMGR_CTRL_SDRSELFREFEN_MASK) = (WARMRST_HANDSHAKE_SDRAM h =? 1) /\
  let other := .~ (RSTMGR_CTRL_FPGAHSEN_MASK .| RSTMGR_CTRL_ETRSTALLEN_MASK .|
                   RSTMGR_CTRL_SDRSELFREFEN_MASK) in
  c .& other = reg reset_manager_base_ctrl s .& other.
Proof.
  wp_enter. unfold reset_deassert_peripherals_handoff. reg_run reset_manager_base_ctrl;
    reg_subst reset_manager_base_ctrl; repeat split;
    solve [ mask_eval (reg reset_manager_base_ctrl s) | mask_solve (reg reset_manager_base_ctrl s) ].
Qed.

(** ** Bridges *)

(** The bit of a bridge in the reset register is the complement of its bit in
    the remap register. *)
Lemma handoff_bridge_values h :
  truthy (brgmodrst_handoff h .& RSTMGR_BRGMODRST_HPS2FPGA_MASK) =
    negb (truthy (remap_handoff h .& L3REGS_REMAP_HPS2FPGA_MASK)) /\
  truthy (brgmodrst_handoff h .& RSTMGR_BRGMODRST_LWHPS2FPGA_MASK) =
    negb (truthy (remap_handoff h .& L3REGS_REMAP_LWHPS2FPGA_MASK)) /\
  truthy (brgmodrst_handoff h .& RSTMGR_BRGMODRST_FPGA2HPS_MASK) = (ASSERT_FPGA2HPS h =? 1) /\
  word (brgmodrst_handoff h) /\ word (remap_handoff h).
Proof.
  unfold brgmodrst_handoff, remap_handoff.
  destruct (ASSERT_HPS2FPGA h =? 1), (EXE_ON_FPGA h =? 0), (ASSERT_LWHPS2FPGA h =? 1),
    (ASSERT_FPGA2HPS h =? 1); cbv beta iota zeta delta [andb]; repeat split;
    vm_compute; congruence.
Qed.

Definition initdone_port : Z :=
  SOCFPGA_FPGAMGRREGS_ADDRESS + FPGAMGRREGS_MON_GPIO_EXT_PORTA_ADDRESS.

(** A reading of the INIT_DONE pin, high. *)
Definition initdone_read (e : event) : Prop :=
  exists v, e = Rd initdone_port v /\ truthy (v .& FPGAMGRREGS_MON_GPIO_EXT_PORTA_ID_MASK) = true.
Definition usermode_read (e : event) : Prop :=
  exists v, e = Rd fpga_manager_base_stat v /\ v .& FPGAMGRREGS_STAT_MODE_MASK = FPGAMGRREGS_MODE_USERMODE.
Definition no_write (e : event) : Prop := match e with Wr _ _ => False | _ => True end.

Lemma wp_initdone (s : st D G) :
  wp (is_fpgamgr_initdone_high : M Z) s (fun o _ t =>
    exists e, t = [e] /\ no_write e /\ (o = Val 0 \/ o = Val 1 /\ initdone_read e)).
Proof.
  unfold is_fpgamgr_initdone_high. wp_run; cbn; eexists; (split; [done|]); (split; [done|]).
  - right. split; [done|]. by eexists.
  - by left.
Qed.

(** The status queries only read; 1 means INIT_DONE was high twice in a row and
    the fabric in user mode. *)
Lemma wp_fpga_ready (s : st D G) :
  wp (is_fpgamgr_fpga_ready : M Z) s (fun o _ t =>
    Forall no_write t /\
    (o = Val 0 \/ o = Val 1 /\ seen [initdone_read; initdone_read; usermode_read] t)).
Proof.
  unfold is_fpgamgr_fpga_ready.
  wp_step. eapply wp_mono; [apply wp_initdone|]. intros o1 s1 t1 (e1 & -> & Hw1 & [->|[-> H1]]);
    cbv beta iota; wp_line; cbn [Z.eqb].
  { apply wp_ret. split; [by repeat constructor|]. by left. }
  wp_step. eapply wp_mono; [apply wp_initdone|]. intros o2 s2 t2 (e2 & -> & Hw2 & [->|[-> H2]]);
    cbv beta iota; cbn [Z.eqb].
  { apply wp_ret. split; [by repeat constructor|]. by left. }
  unfold fpgamgr_get_mode. wp_line. destruct (_ =? _) eqn:E; cbn [negb]; wp_line; cbn [app].
  - split; [by repeat constructor|]. right. split; [done|]. apply Z.eqb_eq in E.
    repeat (apply seen_hit; [done|]). apply seen_hit; [by eexists|]. constructor.
  - split; [by repeat constructor|]. by left.
Qed.

(** C37: The bridge handoff always returns.  It first records both words in the
    handoff registers for Linux; the bridges themselves are touched only after
    INIT_DONE was read high twice and the fabric was in user mode, and then the
    reset word is written before the remap word.  For every configuration a
    bridge is mapped exactly when it is out of reset, and the FPGA-to-HPS
    bridge is held exactly when the handoff says so. *)
Theorem bridges_handoff_guarded h (s : st D G) :
  let b := brgmodrst_handoff h in
  let m := remap_handoff h in
  let r := reset_deassert_bridges_handoff h s in
  out r = Val tt /\
  (exists q t, tr r = [Wr ISWGRP_HANDOFF_AXIBRIDGE b; Wr ISWGRP_HANDOFF_L3REMAP m] ++ q ++ t /\
     Forall no_write q /\
     (t = [] \/
      t = [Wr reset_manager_base_brg_mod_reset b; Wr SOCFPGA_L3REGS_ADDRESS m] /\
      seen [initdone_read; initdone_read; usermode_read] q)) /\
  truthy (b .& RSTMGR_BRGMODRST_HPS2FPGA_MASK) = negb (truthy (m .& L3REGS_REMAP_HPS2FPGA_MASK)) /\
  truthy (b .& RSTMGR_BRGMODRST_LWHPS2FPGA_MASK) = negb (truthy (m .& L3REGS_REMAP_LWHPS2FPGA_MASK)) /\
  truthy (b .& RSTMGR_BRGMODRST_FPGA2HPS_MASK) = (ASSERT_FPGA2HPS h =? 1).
Proof.
  destruct (handoff_bridge_values h) as (H1 & H2 & H3 & Hb & Hm). cbv zeta.
  wp_enter. unfold reset_deassert_bridges_handoff.
  do 4 wp_step. wp_step. eapply wp_mono; [apply wp_fpga_ready|].
  intros o s' q (Hq & [->|[-> Hs]]); cbv beta iota; unfold when; eval_truthy; wp_line;
    (split; [done|]); (split; [|done]); exists q; eexists; rewrite !u32_word by done;
    (split; [reflexivity|]); (split; [done|]); [by left|by right].
Qed.

(** reset_deassert_all_bridges, unlike the handoff variant, does not return
    when INIT_DONE stays low: it returns if and only if some pair of successive
    readings was high, and no register is written otherwise; it never returns
    with the bridges still in reset. *)
Theorem all_bridges_hang_or_open (s : st D G) :
  let r := reset_deassert_all_bridges s in
  (out r = Stop Halt /\ Forall no_write (tr r)) \/
  (out r = Val tt /\ exists q,
     tr r = q ++ [Wr reset_manager_base_brg_mod_reset 0; Wr SOCFPGA_L3REGS_ADDRESS 0x19] /\
     Forall no_write q /\ seen [initdone_read; initdone_read] q).
Proof.
  wp_enter. unfold reset_deassert_all_bridges, poll_fpgamgr_fpga_ready. wp_step. wp_step.
  apply (wp_for (fun _ _ t => Forall no_write t)); [done|constructor| |].
  - intros i s1 t1 _ Ht1. wp_step. eapply wp_mono; [apply wp_initdone|].
    intros o2 s2 t2 (e2 & -> & Hw2 & [->|[-> H2]]); cbv beta iota; cbn [Z.eqb].
    { apply wp_ret. rewrite !Forall_app. by repeat constructor. }
    wp_step. eapply wp_mono; [apply wp_initdone|].
    intros o3 s3 t3 (e3 & -> & Hw3 & [->|[-> H3]]); cbv beta iota; cbn [Z.eqb].
    { apply wp_ret. rewrite !Forall_app. by repeat constructor. }
    wp_line. cbn [Z.eqb]. wp_line. right. split; [done|]. exists (t1 ++ [e2; e3]).
    rewrite <- !app_assoc. cbn [app]. split; [reflexivity|].
    split; [rewrite Forall_app; by repeat constructor|].
    apply seen_prefix. repeat (apply seen_hit; [done|]). constructor.
  - intros s1 t1 Ht. wp_line. cbn [Z.eqb]. wp_line. left. by rewrite !app_nil_r.
Qed.

(** ** Watchdog *)

(** Bit [i] of a word that had it cleared reads 0. *)
Lemma cleared_bit r i : 0 <= i -> ((r .& .~ bit i) .>> i) .& 1 = 0.
Proof.
  intros Hi. apply Z.bits_inj'. intros j Hj.
  rewrite Z.land_spec, Z.shiftr_spec, Z.land_spec, Z.lnot_spec, testbit_bit, Z.bits_0 by lia.
  destruct (Z.eqb_spec i (j + i)) as [E|]; [cbn; by rewrite andb_false_r|].
  replace (Z.testbit 1 j) with false; [by rewrite andb_false_r|].
  symmetry. apply (Z.pow2_bits_false 0). lia.
Qed.

(** On a plain reset register, watchdog_disable pulses the reset of the L4
    watchdog: it is asserted, then released, every other module keeps its
    state, and is_wdt_in_reset then reads 0. *)
Theorem watchdog_disable_pulse (s : st D G) `{!Reg D reset_manager_base_per_mod_reset} :
  let a := reset_manager_base_per_mod_reset in
  let r := reg a s in
  let s' := fin (watchdog_disable s) in
  tr (watchdog_disable s) = [Rd a r; Wr a (r .| 0x40); Rd a (r .| 0x40); Wr a (r .& .~ 0x40)] /\
  reg a s' = r .& .~ 0x40 /\ out (is_wdt_in_reset s') = Val 0.
Proof.
  cbv zeta. pose proof (word_reg reset_manager_base_per_mod_reset s) as Hw.
  assert (Hm : (reg reset_manager_base_per_mod_reset s .| (1 .<< 6)) .& .~ (1 .<< 6)
               = reg reset_manager_base_per_mod_reset s .& .~ 0x40)
    by mask_solve (reg reset_manager_base_per_mod_reset s).
  assert (H1 : wp (watchdog_disable : M unit) s (fun _ s' t =>
    t = [Rd reset_manager_base_per_mod_reset (reg reset_manager_base_per_mod_reset s);
         Wr reset_manager_base_per_mod_reset (reg reset_manager_base_per_mod_reset s .| 0x40);
         Rd reset_manager_base_per_mod_reset (reg reset_manager_base_per_mod_reset s .| 0x40);
         Wr reset_manager_base_per_mod_reset (reg reset_manager_base_per_mod_reset s .& .~ 0x40)] /\
    reg reset_manager_base_per_mod_reset s' = reg reset_manager_base_per_mod_reset s .& .~ 0x40)).
  { unfold watchdog_disable. change RSTMGR_PERMODRST_L4WD0_LSB with 6.
    reg_run reset_manager_base_per_mod_reset. rewrite Hreg0, Hreg, Hm. split; [done|]. done. }
  destruct H1 as [Ht Hr]. split; [exact Ht|]. split; [exact Hr|].
  set (s' := fin (watchdog_disable s)) in *.
  wp_enter. unfold is_wdt_in_reset. reg_run reset_manager_base_per_mod_reset. rewrite Hr.
  f_equal. apply (cleared_bit _ 6). lia.
Qed.

End proofs.

Lemma handoff_handshakes_witness :
  let s : st ram unit := mk_st {[reset_manager_base_ctrl := 0xffffffff]} tt in
  truthy (reg reset_manager_base_ctrl (fin (reset_deassert_peripherals_handoff board s))
          .& RSTMGR_CTRL_SDRSELFREFEN_MASK) = false.
Proof. intros s. exact (proj1 (proj2 (proj2 (handoff_handshakes board s)))). Defined.

Lemma watchdog_disable_pulse_witness :
  let s : st ram unit := mk_st {[reset_manager_base_per_mod_reset := 0xff]} tt in
  reg reset_manager_base_per_mod_reset (fin (watchdog_disable s)) = 0xbf /\
  out (is_wdt_in_reset (fin (watchdog_disable s))) = Val 0.
Proof. intros s. exact (proj2 (watchdog_disable_pulse s)). Defined.
