(* ===== verification/FpgaManager.v ===== *)
(** Programming the FPGA (fpga_manager.c, second half, and fpgamgr_axi_write
    of lowlevel_init.S): the sequence reset phase, configuration phase, data,
    configuration done, initialisation phase, user mode, with its error codes. *)

From S2P Require Import Prelude Mmio Regs FpgaStatus ResetManager.

Section fpga_manager.
Context {D G : Type} `{Device D}.
Abbreviation M := (M D G).

Definition fpgamgr_set_cd_ratio (ratio : Z) : M unit :=
  let* reg := readl fpga_manager_base_ctrl in
  let reg := (reg .& .~ (0x3 .<< FPGAMGRREGS_CTRL_CDRATIO_LSB)) .|
             ((ratio .& 0x3) .<< FPGAMGRREGS_CTRL_CDRATIO_LSB) in
  writel reg fpga_manager_base_ctrl.

Definition fpgamgr_dclkcnt_set (cnt : Z) : M Z :=
  (* clear any existing done status *)
  let* st := readl fpga_manager_base_dclkstat in
  when (truthy st) (writel 0x1 fpga_manager_base_dclkstat) ;;;
  writel cnt fpga_manager_base_dclkcnt ;;;
  let* r := for_upto FPGA_TIMEOUT_CNT (fun _ =>
    let* st := readl fpga_manager_base_dclkstat in
    if truthy st then
      writel 0x1 fpga_manager_base_dclkstat ;;; ret (Some 0)
    else ret None) in
  match r with
  | Some v => ret v
  | None => ret (-1)
  end.

(** The loop [for (...) if (fpgamgr_get_mode() == mode) break;]. *)
Definition wait_mode (mode : Z) : M (option unit) :=
  for_upto FPGA_TIMEOUT_CNT (fun _ =>
    let* m := fpgamgr_get_mode in
    if m =? mode then ret (Some tt) else ret None).

(** The CD ratio chosen for MSEL, if the code sets one. *)
Definition cd_ratio_of_msel (reg : Z) : option Z :=
  if (reg .& 0xb) =? 0x8 then Some CDRATIO_x1
  else if (reg .& 0xb) =? 0x9 then Some CDRATIO_x4
  else if (reg .& 0xb) =? 0xa then Some CDRATIO_x8
  else if (reg .& 0xb) =? 0x0 then Some CDRATIO_x1
  else if (reg .& 0xb) =? 0x1 then Some CDRATIO_x2
  else if (reg .& 0xb) =? 0x2 then Some CDRATIO_x4
  else None.

Definition fpgamgr_program_init : M Z :=
  let* reg := readl fpga_manager_base_stat in
  let reg := (reg .& FPGAMGRREGS_STAT_MSEL_MASK) .>> FPGAMGRREGS_STAT_MSEL_LSB in
  (* If MSEL[3] = 1, cfg width = 32 bit *)
  (if truthy (reg .& 0x8)
   then setbits_le32 fpga_manager_base_ctrl FPGAMGRREGS_CTRL_CFGWDTH_MASK
   else clrbits_le32 fpga_manager_base_ctrl FPGAMGRREGS_CTRL_CFGWDTH_MASK) ;;;
  match cd_ratio_of_msel reg with
  | Some ratio => fpgamgr_set_cd_ratio ratio
  | None => ret tt
  end ;;;
  (* to enable FPGA Manager configuration *)
  clrbits_le32 fpga_manager_base_ctrl FPGAMGRREGS_CTRL_NCE_MASK ;;;
  (* to enable FPGA Manager drive over configuration line *)
  setbits_le32 fpga_manager_base_ctrl FPGAMGRREGS_CTRL_EN_MASK ;;;
  (* put FPGA into reset phase *)
  setbits_le32 fpga_manager_base_ctrl FPGAMGRREGS_CTRL_NCONFIGPULL_MASK ;;;
  (* (1) wait until FPGA enter reset phase *)
  wait_mode FPGAMGRREGS_MODE_RESETPHASE ;;;
  let* mode := fpgamgr_get_mode in
  if negb (mode =? FPGAMGRREGS_MODE_RESETPHASE) then ret (-1) else
  (* release FPGA from reset phase *)
  clrbits_le32 fpga_manager_base_ctrl FPGAMGRREGS_CTRL_NCONFIGPULL_MASK ;;;
  (* (2) wait until FPGA enter configuration phase *)
  wait_mode FPGAMGRREGS_MODE_CFGPHASE ;;;
  let* mode := fpgamgr_get_mode in
  if negb (mode =? FPGAMGRREGS_MODE_CFGPHASE) then ret (-2) else
  (* clear all interrupt in CB Monitor *)
  writel 0xFFF (SOCFPGA_FPGAMGRREGS_ADDRESS + FPGAMGRREGS_MON_GPIO_PORTA_EOI_ADDRESS) ;;;
  (* enable AXI configuration *)
  setbits_le32 fpga_manager_base_ctrl FPGAMGRREGS_CTRL_AXICFGEN_MASK ;;;
  ret 0.

(** fpgamgr_axi_write: [r0] indexes the words of [rbf_data], [r1] is the
    data window, [r2] the bytes left.  A burst stores eight words to
    consecutive addresses without moving [r1]; a tail of one to three bytes is
    sent as one whole word. *)
Fixpoint write_burst (fuel : nat) (rbf_data : nat -> Z) (r0 : nat) (r1 r2 : Z) : M (nat * Z) :=
  match fuel with
  | O => nofuel
  | S fuel =>
      if 32 <=? r2 then
        mapM_ (fun i => writel (rbf_data (r0 + i)%nat) (r1 + 4 * Z.of_nat i)) (seq 0 8) ;;;
        write_burst fuel rbf_data (r0 + 8) r1 (r2 - 32)
      else ret (r0, r2)
  end.

Fixpoint write_word (fuel : nat) (rbf_data : nat -> Z) (r0 : nat) (r1 r2 : Z) : M (nat * Z) :=
  match fuel with
  | O => nofuel
  | S fuel =>
      if 4 <=? r2 then
        writel (rbf_data r0) r1 ;;;
        write_word fuel rbf_data (r0 + 1) r1 (r2 - 4)
      else ret (r0, r2)
  end.

Definition fpgamgr_axi_write (fuel : nat) (rbf_data : nat -> Z) (addr rbf_size : Z) : M unit :=
  let* p := write_burst fuel rbf_data 0 addr rbf_size in
  let* p := write_word fuel rbf_data (fst p) addr (snd p) in
  when (negb (snd p =? 0)) (writel (rbf_data (fst p)) addr).

Definition fpgamgr_program_write (fuel : nat) (rbf_data : nat -> Z) (rbf_size : Z) : M unit :=
  fpgamgr_axi_write fuel rbf_data SOCFPGA_FPGAMGRDATA_ADDRESS rbf_size.

Definition fpgamgr_program_poll_cd : M Z :=
  (* (3) wait until full config done: Some true is the error return,
     Some false the break *)
  let* r := for_upto FPGA_TIMEOUT_CNT (fun _ =>
    let* reg := readl (SOCFPGA_FPGAMGRREGS_ADDRESS + FPGAMGRREGS_MON_GPIO_EXT_PORTA_ADDRESS) in
    if negb (truthy (reg .& FPGAMGRREGS_MON_GPIO_EXT_PORTA_NS_MASK)) &&
       negb (truthy (reg .& FPGAMGRREGS_MON_GPIO_EXT_PORTA_CD_MASK)) then ret (Some true) else
    if truthy (reg .& FPGAMGRREGS_MON_GPIO_EXT_PORTA_NS_MASK) &&
       truthy (reg .& FPGAMGRREGS_MON_GPIO_EXT_PORTA_CD_MASK) then ret (Some false) else
    ret None) in
  match r with
  | Some true => ret (-3)
  | None => ret (-4)
  | Some false =>
      (* disable AXI configuration *)
      clrbits_le32 fpga_manager_base_ctrl FPGAMGRREGS_CTRL_AXICFGEN_MASK ;;;
      ret 0
  end.

Definition fpgamgr_program_poll_initphase : M Z :=
  let* r := fpgamgr_dclkcnt_set 0x4 in
  if negb (r =? 0) then ret (-5) else
  (* (4) wait until FPGA enter init phase or user mode *)
  let* r := for_upto FPGA_TIMEOUT_CNT (fun _ =>
    let* m := fpgamgr_get_mode in
    if m =? FPGAMGRREGS_MODE_INITPHASE then ret (Some tt) else
    let* m := fpgamgr_get_mode in
    if m =? FPGAMGRREGS_MODE_USERMODE then ret (Some tt) else
    ret None) in
  match r with
  | None => ret (-6)
  | Some _ => ret 0
  end.

Definition fpgamgr_program_poll_usermode : M Z :=
  let* r := fpgamgr_dclkcnt_set 0x5000 in
  if negb (r =? 0) then ret (-7) else
  (* (5) wait until FPGA enter user mode *)
  let* r := wait_mode FPGAMGRREGS_MODE_USERMODE in
  match r with
  | None => ret (-8)
  | Some _ =>
      (* to release FPGA Manager drive over configuration line *)
      clrbits_le32 fpga_manager_base_ctrl FPGAMGRREGS_CTRL_EN_MASK ;;;
      ret 0
  end.

Definition fpgamgr_program_fpga (fuel : nat) (rbf_data : nat -> Z) (rbf_size : Z) : M Z :=
  (* disable all signals from hps peripheral controller to fpga *)
  writel 0 SYSMGR_FPGAINTF_MODULE ;;;
  (* disable all signals from fpga to hps sdram *)
  writel 0 (SOCFPGA_SDR_ADDRESS + SDR_CTRLGRP_FPGAPORTRST_ADDRESS) ;;;
  (* disable all axi bridge (hps2fpga, lwhps2fpga & fpga2hps) *)
  reset_assert_all_bridges ;;;
  (* unmap the bridges from NIC-301 *)
  writel 0x1 SOCFPGA_L3REGS_ADDRESS ;;;
  let* status := fpgamgr_program_init in
  if truthy status then ret status else
  fpgamgr_program_write fuel rbf_data rbf_size ;;;
  let* status := fpgamgr_program_poll_cd in
  if truthy status then ret status else
  let* status := fpgamgr_program_poll_initphase in
  if truthy status then ret status else
  fpgamgr_program_poll_usermode.

End fpga_manager.

(** ** The data stream *)

(** The words a trace sends to the configuration data window. *)
Definition data_window (a : Z) : bool :=
  (SOCFPGA_FPGAMGRDATA_ADDRESS <=? a) && (a <? SOCFPGA_FPGAMGRDATA_ADDRESS + 32).

Definition data_words (t : trace) : list Z :=
  omap (fun e => match e with Wr a v => if data_window a then Some v else None | _ => None end) t.

Definition no_data (e : event) : Prop :=
  match e with Wr a _ => data_window a = false | _ => True end.

Definition rbf_words (rbf_data : nat -> Z) (i n : nat) : list Z :=
  map (fun k => u32 (rbf_data k)) (seq i n).

Lemma data_words_app t t' : data_words (t ++ t') = data_words t ++ data_words t'.
Proof. apply omap_app. Qed.

Lemma data_words_none t : Forall no_data t -> data_words t = [].
Proof.
  induction 1 as [|[| a v |] t He Ht IH]; cbn in *; try done. by rewrite He.
Qed.

Lemma rbf_words_shift rbf_data i n :
  rbf_words rbf_data i n = map (fun k => u32 (rbf_data (i + k)%nat)) (seq 0 n).
Proof.
  unfold rbf_words. revert i. induction n as [|n IH]; intros i; [done|].
  cbn [seq map]. rewrite Nat.add_0_r, IH, <- seq_shift, map_map. f_equal.
  apply map_ext. intros k. f_equal. f_equal. lia.
Qed.

Section proofs.
Context {D G : Type} `{Device D}.
Abbreviation M := (M D G).

(** Proves [only] or [total] of a program of this file by unfolding it. *)
Ltac fpga_auto :=
  unfold fpgamgr_program_init, fpgamgr_program_poll_cd, fpgamgr_program_poll_initphase,
    fpgamgr_program_poll_usermode, fpgamgr_dclkcnt_set, wait_mode, fpgamgr_set_cd_ratio,
    fpgamgr_get_mode, is_fpgamgr_initdone_high, reset_assert_all_bridges;
  hw_auto; try done.

Lemma burst_words (rbf_data : nat -> Z) r0 s :
  wp (mapM_ (fun i => writel (rbf_data (r0 + i)%nat)
        (SOCFPGA_FPGAMGRDATA_ADDRESS + 4 * Z.of_nat i)) (seq 0 8) : M unit) s
    (fun o _ t => o = Val tt /\ data_words t = rbf_words rbf_data r0 8).
Proof.
  rewrite rbf_words_shift. cbn [seq mapM_ map]. wp_run. split; reflexivity.
Qed.

Lemma rbf_words_app rbf_data i n m :
  rbf_words rbf_data i (n + m) = rbf_words rbf_data i n ++ rbf_words rbf_data (i + n) m.
Proof. unfold rbf_words. by rewrite seq_app, map_app. Qed.

(** A burst loop with fuel for its iterations sends whole blocks of eight
    words and leaves fewer than 32 bytes. *)
Lemma write_burst_spec rbf_data fuel r0 r2 s :
  0 <= r2 -> (Z.to_nat (r2 / 32) < fuel)%nat ->
  wp (write_burst fuel rbf_data r0 SOCFPGA_FPGAMGRDATA_ADDRESS r2 : M _) s (fun o _ t =>
    o = Val ((r0 + 8 * Z.to_nat (r2 / 32))%nat, r2 mod 32) /\
    data_words t = rbf_words rbf_data r0 (8 * Z.to_nat (r2 / 32))).
Proof.
  revert r0 r2 s. induction fuel as [|fuel IH]; intros r0 r2 s Hr Hf; [lia|].
  cbn [write_burst]. destruct (Z.leb_spec 32 r2) as [Hge|Hlt].
  - wp_step. eapply wp_mono; [apply burst_words|]. intros o s' t [-> Ht]. cbv beta iota.
    assert (E : r2 / 32 = (r2 - 32) / 32 + 1) by (rewrite <- Z.div_add by lia; f_equal; lia).
    assert (0 <= (r2 - 32) / 32) by (apply Z.div_pos; lia).
    eapply wp_mono; [apply IH; lia|]. cbv beta. intros o2 s2 t2 [-> Ht2]. split.
    + f_equal. f_equal; [lia|]. rewrite <- (Z_mod_plus_full (r2 - 32) 1 32). f_equal; lia.
    + rewrite data_words_app, Ht, Ht2, <- rbf_words_app. f_equal. lia.
  - wp_step. rewrite Z.div_small, Z.mod_small by lia. cbn. by rewrite Nat.add_0_r.
Qed.

Lemma write_word_spec rbf_data fuel r0 r2 s :
  0 <= r2 -> (Z.to_nat (r2 / 4) < fuel)%nat ->
  wp (write_word fuel rbf_data r0 SOCFPGA_FPGAMGRDATA_ADDRESS r2 : M _) s (fun o _ t =>
    o = Val ((r0 + Z.to_nat (r2 / 4))%nat, r2 mod 4) /\
    data_words t = rbf_words rbf_data r0 (Z.to_nat (r2 / 4))).
Proof.
  revert r0 r2 s. induction fuel as [|fuel IH]; intros r0 r2 s Hr Hf; [lia|].
  cbn [write_word]. destruct (Z.leb_spec 4 r2) as [Hge|Hlt].
  - wp_step. wp_step.
    assert (E : r2 / 4 = (r2 - 4) / 4 + 1) by (rewrite <- Z.div_add by lia; f_equal; lia).
    assert (0 <= (r2 - 4) / 4) by (apply Z.div_pos; lia).
    eapply wp_mono; [apply IH; lia|]. cbv beta. intros o2 s2 t2 [-> Ht2]. split.
    + f_equal. f_equal; [lia|]. rewrite <- (Z_mod_plus_full (r2 - 4) 1 4). f_equal; lia.
    + rewrite data_words_app, Ht2.
      replace (Z.to_nat (r2 / 4)) with (1 + Z.to_nat ((r2 - 4) / 4))%nat by lia.
      by rewrite rbf_words_app.
  - wp_step. rewrite Z.div_small, Z.mod_small by lia. cbn. by rewrite Nat.add_0_r.
Qed.

(** Number of 32-bit words that carry [size] bytes. *)
Definition words_of (size : Z) : nat := Z.to_nat ((size + 3) / 4).

Lemma words_split size : 0 <= size ->
  words_of size = (8 * Z.to_nat (size / 32) + (Z.to_nat (size mod 32 / 4)
                   + (if ((size mod 32) mod 4 =? 0)%Z then 0 else 1)))%nat.
Proof.
  intros. unfold words_of. destruct (Z.eqb_spec ((size mod 32) mod 4) 0);
  Z.to_euclidean_division_equations; lia.
Qed.

Lemma fpgamgr_axi_write_spec rbf_data fuel size s :
  0 <= size -> (Z.to_nat (size / 32) < fuel)%nat -> (8 <= fuel)%nat ->
  wp (fpgamgr_axi_write fuel rbf_data SOCFPGA_FPGAMGRDATA_ADDRESS size : M _) s (fun o _ t =>
    o = Val tt /\ data_words t = rbf_words rbf_data 0 (words_of size)).
Proof.
  intros Hs Hf H8. rewrite words_split by done. unfold fpgamgr_axi_write.
  pose proof (Z.mod_pos_bound size 32). wp_step.
  eapply wp_mono; [by apply write_burst_spec|]. intros o s1 t1 [-> Ht1]. cbv beta iota. wp_step.
  eapply wp_mono; [apply write_word_spec; cbn [snd]; [lia|Z.to_euclidean_division_equations; lia]|].
  intros o s2 t2 [-> Ht2]. cbn [fst snd Nat.add] in *.
  rewrite !rbf_words_app. cbn [Nat.add].
  destruct ((size mod 32) mod 4 =? 0) eqn:E; cbn [negb when]; wp_run; (split; [done|]);
    rewrite !data_words_app, Ht1, Ht2; done.
Qed.

(** ** Effects of the stages *)

(** The registers that close the paths between the HPS and the fabric. *)
Definition shutdown_regs : list Z :=
  [SYSMGR_FPGAINTF_MODULE; SOCFPGA_SDR_ADDRESS + SDR_CTRLGRP_FPGAPORTRST_ADDRESS;
   reset_manager_base_brg_mod_reset; SOCFPGA_L3REGS_ADDRESS].

Definition keeps_shut (e : event) : Prop :=
  match e with Wr a _ => existsb (Z.eqb a) shutdown_regs = false | _ => True end.

Definition stage_event (e : event) : Prop := no_data e /\ keeps_shut e.

Lemma init_effects : only stage_event (fpgamgr_program_init : M Z).
Proof. fpga_auto. Qed.
Lemma poll_cd_effects : only stage_event (fpgamgr_program_poll_cd : M Z).
Proof. fpga_auto. Qed.
Lemma poll_initphase_effects : only stage_event (fpgamgr_program_poll_initphase : M Z).
Proof. fpga_auto. Qed.
Lemma poll_usermode_effects : only stage_event (fpgamgr_program_poll_usermode : M Z).
Proof. fpga_auto. Qed.

Lemma axi_write_effects fuel rbf_data size :
  only keeps_shut (fpgamgr_program_write fuel rbf_data size : M unit).
Proof.
  unfold fpgamgr_program_write, fpgamgr_axi_write.
  assert (Hb : forall fuel r0 r2,
    only keeps_shut (write_burst fuel rbf_data r0 SOCFPGA_FPGAMGRDATA_ADDRESS r2 : M _)).
  { clear. induction fuel; intros; cbn [write_burst seq mapM_]; hw_auto. }
  assert (Hw : forall fuel r0 r2,
    only keeps_shut (write_word fuel rbf_data r0 SOCFPGA_FPGAMGRDATA_ADDRESS r2 : M _)).
  { clear. induction fuel; intros; cbn [write_word]; hw_auto. }
  hw_auto; auto.
Qed.

#[local] Hint Resolve init_effects poll_cd_effects poll_initphase_effects
  poll_usermode_effects axi_write_effects : hw.

(** ** Status codes *)

Lemma init_status : yields (fun r => r = 0 \/ r = -1 \/ r = -2) (fpgamgr_program_init : M Z).
Proof. unfold fpgamgr_program_init. yields_auto; fpga_auto; auto. Qed.

Lemma poll_cd_status : yields (fun r => r = 0 \/ r = -3 \/ r = -4) (fpgamgr_program_poll_cd : M Z).
Proof. unfold fpgamgr_program_poll_cd. yields_auto; fpga_auto; auto. Qed.

Lemma poll_initphase_status :
  yields (fun r => r = 0 \/ r = -5 \/ r = -6) (fpgamgr_program_poll_initphase : M Z).
Proof. unfold fpgamgr_program_poll_initphase. yields_auto; fpga_auto; auto. Qed.

Lemma poll_usermode_status :
  yields (fun r => r = 0 \/ r = -7 \/ r = -8) (fpgamgr_program_poll_usermode : M Z).
Proof. unfold fpgamgr_program_poll_usermode. yields_auto; fpga_auto; auto. Qed.

(** ** Stages observed before a successful return *)

Definition mode_is (mode : Z) (e : event) : Prop :=
  exists v, e = Rd fpga_manager_base_stat v /\ v .& FPGAMGRREGS_STAT_MODE_MASK = mode.

Definition conf_done (e : event) : Prop :=
  exists v, e = Rd (SOCFPGA_FPGAMGRREGS_ADDRESS + FPGAMGRREGS_MON_GPIO_EXT_PORTA_ADDRESS) v /\
    truthy (v .& FPGAMGRREGS_MON_GPIO_EXT_PORTA_NS_MASK) = true /\
    truthy (v .& FPGAMGRREGS_MON_GPIO_EXT_PORTA_CD_MASK) = true.

Definition ctrl_set (mask : Z) (e : event) : Prop :=
  exists v, e = Wr fpga_manager_base_ctrl v /\ v .& mask = mask.

Definition ctrl_clear (mask : Z) (e : event) : Prop :=
  exists v, e = Wr fpga_manager_base_ctrl v /\ v .& mask = 0.

Definition dclk_pulse (cnt : Z) (e : event) : Prop := e = Wr fpga_manager_base_dclkcnt cnt.
Definition dclk_done (e : event) : Prop := e = Wr fpga_manager_base_dclkstat 1.

Lemma seen_setbits m s : word m ->
  wp (setbits_le32 fpga_manager_base_ctrl m : M unit) s
    (fun o _ t => o = Val tt /\ seen [ctrl_set m] t).
Proof.
  intros Hm. wp_run. split; [done|]. cbn. apply seen_skip, seen_hit; [|constructor].
  eexists. split; [done|]. rewrite u32_word by word_solve. apply lor_self.
Qed.

Lemma seen_clrbits m s :
  wp (clrbits_le32 fpga_manager_base_ctrl m : M unit) s
    (fun o _ t => o = Val tt /\ seen [ctrl_clear m] t).
Proof.
  wp_run. split; [done|]. cbn. apply seen_skip, seen_hit; [|constructor].
  eexists. split; [done|]. rewrite u32_word by word_solve. apply bic_self.
Qed.

(** A returned mode was read. *)
Lemma seen_get_mode s :
  wp (fpgamgr_get_mode : M Z) s (fun o _ t => exists m, o = Val m /\ seen [mode_is m] t).
Proof. unfold fpgamgr_get_mode. wp_run. eexists. split; [done|]. cbn. unfold mode_is. eauto 6 with hw. Qed.

Lemma seen_wait_mode mode s :
  wp (wait_mode mode : M _) s (fun o _ t =>
    exists r, o = Val r /\ match r with Some _ => seen [mode_is mode] t | None => True end).
Proof.
  apply (seen_for _ _ (fun _ => [mode_is mode])); [done|]. intros i s'. wp_step. eapply wp_mono; [apply seen_get_mode|].
  intros o s2 t (m & -> & Hm). cbv beta iota. destruct (Z.eqb_spec m mode); subst.
  - wp_step. eexists. split; [done|]. by apply seen_suffix.
  - wp_step. by exists None.
Qed.

Lemma seen_dclkcnt_set cnt s : word cnt ->
  wp (fpgamgr_dclkcnt_set cnt : M Z) s (fun o _ t =>
    exists r, o = Val r /\ (r = 0 -> seen [dclk_pulse cnt; dclk_done] t)).
Proof.
  intros Hc. unfold fpgamgr_dclkcnt_set. wp_step. wp_step. wp_step.
  apply (wp_effects (fun _ => True) (fun _ => True)); [hw_auto|by apply total_yields; hw_auto|].
  intros [] s' t1 _ _. cbv beta iota. do 3 wp_step.
  eapply wp_mono; [apply (seen_for _ _ (fun _ => [dclk_done])); [done|]|].
  { intros i s2. wp_run; eexists; (split; [done|]); cbn; [|done].
    apply seen_skip, seen_hit; [reflexivity|constructor]. }
  intros o s3 t3 (r & -> & Hr). destruct r; wp_step; eexists; (split; [done|]); [|done].
  intros _. rewrite app_nil_r. apply seen_prefix, seen_prefix.
  apply (seen_app [_] [_]); [|done]. apply seen_hit; [|constructor].
  unfold dclk_pulse. by rewrite u32_word.
Qed.

Lemma seen_program_init s :
  wp (fpgamgr_program_init : M Z) s (fun o _ t => exists r, o = Val r /\
    (r = 0 -> seen [ctrl_set FPGAMGRREGS_CTRL_NCONFIGPULL_MASK; mode_is FPGAMGRREGS_MODE_RESETPHASE;
                    ctrl_clear FPGAMGRREGS_CTRL_NCONFIGPULL_MASK; mode_is FPGAMGRREGS_MODE_CFGPHASE;
                    ctrl_set FPGAMGRREGS_CTRL_AXICFGEN_MASK] t)).
Proof.
  unfold fpgamgr_program_init. wp_step. wp_step. wp_step.
  apply wp_total; [by hw_auto|]. intros [] _. cbv beta iota. wp_step.
  apply wp_total; [by fpga_auto|]. intros [] _. cbv beta iota. wp_step.
  apply wp_total; [by hw_auto|]. intros [] _. cbv beta iota. wp_step.
  apply wp_total; [by hw_auto|]. intros [] _. cbv beta iota.
  wp_call seen_setbits; [word_solve|]. intros o1 s1 t1 [-> H1]. cbv beta iota. wp_step.
  apply wp_total; [by fpga_auto|]. intros r2 _. cbv beta iota.
  wp_call seen_get_mode. intros o3 s3 t3 (m3 & -> & H3). cbv beta iota.
  destruct (Z.eqb_spec m3 FPGAMGRREGS_MODE_RESETPHASE); subst; cbn [negb];
    [|wp_step; eexists; split; [done|discriminate]].
  wp_call seen_clrbits. intros o4 s4 t4 [-> H4]. cbv beta iota. wp_step.
  apply wp_total; [by fpga_auto|]. intros r5 _. cbv beta iota.
  wp_call seen_get_mode. intros o6 s6 t6 (m6 & -> & H6). cbv beta iota.
  destruct (Z.eqb_spec m6 FPGAMGRREGS_MODE_CFGPHASE); subst; cbn [negb];
    [|wp_step; eexists; split; [done|discriminate]].
  wp_step. wp_step. wp_call seen_setbits; [word_solve|]. intros o7 s7 t7 [-> H7]. cbv beta iota.
  wp_step. eexists. split; [done|]. intros _. do 5 apply seen_prefix.
  apply (seen_app [_]); [done|]. apply seen_prefix. apply (seen_app [_]); [done|].
  apply (seen_app [_]); [done|]. apply seen_prefix. apply (seen_app [_]); [done|].
  apply seen_prefix. by apply seen_suffix.
Qed.

Lemma seen_program_poll_cd s :
  wp (fpgamgr_program_poll_cd : M Z) s (fun o _ t => exists r, o = Val r /\
    (r = 0 -> seen [conf_done; ctrl_clear FPGAMGRREGS_CTRL_AXICFGEN_MASK] t)).
Proof.
  unfold fpgamgr_program_poll_cd. wp_step.
  eapply wp_mono; [apply (seen_for _ _ (fun b : bool => if b then [] else [conf_done])); [done|]|].
  { intros i s2. wp_run; eexists; (split; [done|]); cbn; [constructor| |done].
    apply seen_hit; [|constructor]. eexists. split; [done|]. by apply andb_true_iff. }
  intros o s1 t1 (r & -> & Hr). destruct r as [[]|]; cbv beta iota.
  - wp_step. eexists. split; [done|discriminate].
  - wp_call seen_clrbits. intros o2 s2 t2 [-> H2]. cbv beta iota. wp_step.
    eexists. split; [done|]. intros _. apply (seen_app [_]); [done|]. by apply seen_suffix.
  - wp_step. eexists. split; [done|discriminate].
Qed.

Definition init_or_user (e : event) : Prop :=
  mode_is FPGAMGRREGS_MODE_INITPHASE e \/ mode_is FPGAMGRREGS_MODE_USERMODE e.

Lemma seen_init_or_user m t :
  m = FPGAMGRREGS_MODE_INITPHASE \/ m = FPGAMGRREGS_MODE_USERMODE ->
  seen [mode_is m] t -> seen [init_or_user] t.
Proof.
  intros Hm Hs. remember [mode_is m] as l eqn:El. revert El.
  induction Hs as [| |]; intros El; simplify_eq/=; [|by apply seen_skip; auto].
  apply seen_hit; [|constructor]. unfold init_or_user. destruct Hm; subst; auto.
Qed.

Lemma seen_program_poll_initphase s :
  wp (fpgamgr_program_poll_initphase : M Z) s (fun o _ t => exists r, o = Val r /\
    (r = 0 -> seen [dclk_pulse 4; dclk_done; init_or_user] t)).
Proof.
  unfold fpgamgr_program_poll_initphase. wp_call seen_dclkcnt_set; [word_solve|].
  intros o1 s1 t1 (r1 & -> & H1). cbv beta iota.
  destruct (Z.eqb_spec r1 0); subst; cbn [negb]; [|wp_step; eexists; split; [done|discriminate]].
  wp_step. eapply wp_mono; [apply (seen_for _ _ (fun _ => [init_or_user])); [done|]|].
  { intros i s2. wp_call seen_get_mode. intros o s3 t (m & -> & Hm). cbv beta iota.
    destruct (Z.eqb_spec m FPGAMGRREGS_MODE_INITPHASE).
    - wp_step. eexists. split; [done|]. apply seen_suffix. eapply seen_init_or_user; [|eassumption]; auto.
    - wp_call seen_get_mode. intros o s4 t4 (m4 & -> & Hm4). cbv beta iota.
      destruct (Z.eqb_spec m4 FPGAMGRREGS_MODE_USERMODE); wp_step; eexists; (split; [done|]); [|done].
      apply seen_prefix, seen_suffix. eapply seen_init_or_user; [|eassumption]; auto. }
  intros o5 s5 t5 (r5 & -> & H5). destruct r5; wp_step; eexists; (split; [done|]); [|discriminate].
  intros _. apply (seen_app [_;_]); [auto|]. by apply seen_suffix.
Qed.

Lemma seen_program_poll_usermode s :
  wp (fpgamgr_program_poll_usermode : M Z) s (fun o _ t => exists r, o = Val r /\
    (r = 0 -> seen [dclk_pulse 0x5000; dclk_done; mode_is FPGAMGRREGS_MODE_USERMODE;
                    ctrl_clear FPGAMGRREGS_CTRL_EN_MASK] t)).
Proof.
  unfold fpgamgr_program_poll_usermode. wp_call seen_dclkcnt_set; [word_solve|].
  intros o1 s1 t1 (r1 & -> & H1). cbv beta iota.
  destruct (Z.eqb_spec r1 0); subst; cbn [negb]; [|wp_step; eexists; split; [done|discriminate]].
  wp_call seen_wait_mode. intros o2 s2 t2 (r2 & -> & H2). destruct r2 as [u|]; cbv beta iota;
    [|wp_step; eexists; split; [done|discriminate]].
  wp_call seen_clrbits. intros o3 s3 t3 [-> H3]. cbv beta iota. wp_step.
  eexists. split; [done|]. intros _. apply (seen_app [_;_]); [auto|].
  apply (seen_app [_]); [auto|]. by apply seen_suffix.
Qed.

(** C2: Whatever the hardware answers and however the run ends, programming
    starts by closing every path between the HPS and the fabric (peripheral
    signals, SDRAM ports, the three AXI bridges, the NIC-301 mapping), and none
    of these registers is written again before the function returns. *)
Theorem fpgamgr_program_fpga_bridges_shut fuel rbf_data rbf_size (s : st D G) :
  exists t, tr (fpgamgr_program_fpga fuel rbf_data rbf_size s) =
    [Wr SYSMGR_FPGAINTF_MODULE 0;
     Wr (SOCFPGA_SDR_ADDRESS + SDR_CTRLGRP_FPGAPORTRST_ADDRESS) 0;
     Wr reset_manager_base_brg_mod_reset 0xFFFFFFFF;
     Wr SOCFPGA_L3REGS_ADDRESS 1] ++ t /\ Forall keeps_shut t.
Proof.
  assert (Hk : forall A (m : M A), only stage_event m -> only keeps_shut m).
  { intros A m. apply only_weaken. by intros e []. }
  change (wp (fpgamgr_program_fpga fuel rbf_data rbf_size) s (fun _ _ t' =>
    exists t, t' = [Wr SYSMGR_FPGAINTF_MODULE 0;
     Wr (SOCFPGA_SDR_ADDRESS + SDR_CTRLGRP_FPGAPORTRST_ADDRESS) 0;
     Wr reset_manager_base_brg_mod_reset 0xFFFFFFFF;
     Wr SOCFPGA_L3REGS_ADDRESS 1] ++ t /\ Forall keeps_shut t)).
  unfold fpgamgr_program_fpga, reset_assert_all_bridges. do 8 wp_step.
  apply (wp_only keeps_shut); [|intros; by eexists].
  hw_auto.
Qed.

(** C1: Programming always returns one of the nine status codes, and the words
    it sends to the configuration data window are: none when initialisation
    failed (-1, -2), and otherwise exactly the ceil(size/4) words of the
    bitstream in order, whatever happens afterwards. *)
Theorem fpgamgr_program_fpga_data fuel rbf_data rbf_size (s : st D G) :
  0 <= rbf_size -> (Z.to_nat (rbf_size / 32) < fuel)%nat -> (8 <= fuel)%nat ->
  let r := fpgamgr_program_fpga fuel rbf_data rbf_size s in
  exists status, out r = Val status /\ In status [0; -1; -2; -3; -4; -5; -6; -7; -8] /\
    data_words (tr r) = if (status =? -1) || (status =? -2) then []
                        else rbf_words rbf_data 0 (words_of rbf_size).
Proof.
  intros Hs Hf H8 r.
  change (wp (fpgamgr_program_fpga fuel rbf_data rbf_size) s (fun o _ t =>
    exists status, o = Val status /\ In status [0; -1; -2; -3; -4; -5; -6; -7; -8] /\
    data_words t = if (status =? -1) || (status =? -2) then []
                   else rbf_words rbf_data 0 (words_of rbf_size))). clear r.
  assert (Hd : forall t, Forall stage_event t -> data_words t = []).
  { intros t Ht. apply data_words_none. eapply Forall_impl; [exact Ht|]. by intros e []. }
  unfold fpgamgr_program_fpga, reset_assert_all_bridges. do 9 wp_step.
  eapply (wp_effects stage_event); [apply init_effects|apply init_status|].
  intros st1 s1 t1 Hst1 Ht1. cbv beta iota.
  destruct Hst1 as [->|[->| ->]]; eval_truthy;
    [|wp_step; eexists; (split; [done|]); (split; [cbn; tauto|]);
      rewrite !data_words_app, (Hd t1) by done; reflexivity ..].
  wp_step. eapply wp_mono; [by apply fpgamgr_axi_write_spec|]. intros o2 s2 t2 [-> Ht2].
  cbv beta iota. wp_step.
  eapply (wp_effects stage_event); [apply poll_cd_effects|apply poll_cd_status|].
  intros st3 s3 t3 Hst3 Ht3. cbv beta iota.
  destruct Hst3 as [->|[->| ->]]; eval_truthy;
    [|wp_step; eexists; (split; [done|]); (split; [cbn; tauto|]);
      rewrite !data_words_app, (Hd t1), (Hd t3), Ht2 by done; by rewrite !app_nil_r ..].
  wp_step. eapply (wp_effects stage_event); [apply poll_initphase_effects|apply poll_initphase_status|].
  intros st4 s4 t4 Hst4 Ht4. cbv beta iota.
  destruct Hst4 as [->|[->| ->]]; eval_truthy;
    [|wp_step; eexists; (split; [done|]); (split; [cbn; tauto|]);
      rewrite !data_words_app, (Hd t1), (Hd t3), (Hd t4), Ht2 by done; by rewrite !app_nil_r ..].
  eapply (wp_effects stage_event); [apply poll_usermode_effects|apply poll_usermode_status|].
  intros st5 s5 t5 Hst5 Ht5. cbv beta iota. eexists. split; [done|].
  destruct Hst5 as [->|[->| ->]]; (split; [cbn; tauto|]);
    rewrite !data_words_app, (Hd t1), (Hd t3), (Hd t4), (Hd t5), Ht2 by done; by rewrite !app_nil_r.
Qed.

(** C3: A return of 0 is only possible after the whole configuration protocol
    was observed in order: nCONFIG asserted and reset phase read back, nCONFIG
    released and configuration phase read back, AXI configuration enabled,
    nSTATUS and CONF_DONE both high, AXI configuration disabled, 4 DCLK pulses
    acknowledged, init phase or user mode, 0x5000 DCLK pulses acknowledged,
    user mode, and the manager's drive of the configuration pins released. *)
Theorem fpgamgr_program_fpga_success fuel rbf_data rbf_size (s : st D G) :
  out (fpgamgr_program_fpga fuel rbf_data rbf_size s) = Val 0 ->
  seen [ctrl_set FPGAMGRREGS_CTRL_NCONFIGPULL_MASK; mode_is FPGAMGRREGS_MODE_RESETPHASE;
        ctrl_clear FPGAMGRREGS_CTRL_NCONFIGPULL_MASK; mode_is FPGAMGRREGS_MODE_CFGPHASE;
        ctrl_set FPGAMGRREGS_CTRL_AXICFGEN_MASK;
        conf_done; ctrl_clear FPGAMGRREGS_CTRL_AXICFGEN_MASK;
        dclk_pulse 4; dclk_done; init_or_user;
        dclk_pulse 0x5000; dclk_done; mode_is FPGAMGRREGS_MODE_USERMODE;
        ctrl_clear FPGAMGRREGS_CTRL_EN_MASK]
    (tr (fpgamgr_program_fpga fuel rbf_data rbf_size s)).
Proof.
  match goal with |- _ -> ?P (tr ?r) => apply (wp_returned _ _ _ P) end.
  unfold fpgamgr_program_fpga, reset_assert_all_bridges. do 8 wp_step.
  wp_call seen_program_init. intros o1 s1 t1 (st1 & -> & H1). cbv beta iota.
  destruct (truthy st1) eqn:E1; [wp_step; by intros [= ->]|].
  apply negb_false_iff, Z.eqb_eq in E1. specialize (H1 E1). wp_step. unfold wp at 1.
  match goal with |- match out ?r with _ => _ end => destruct (out r); [|done] end.
  wp_call seen_program_poll_cd. intros o3 s3 t3 (st3 & -> & H3). cbv beta iota.
  destruct (truthy st3) eqn:E3; [wp_step; by intros [= ->]|].
  apply negb_false_iff, Z.eqb_eq in E3. specialize (H3 E3).
  wp_call seen_program_poll_initphase. intros o4 s4 t4 (st4 & -> & H4). cbv beta iota.
  destruct (truthy st4) eqn:E4; [wp_step; by intros [= ->]|].
  apply negb_false_iff, Z.eqb_eq in E4. specialize (H4 E4).
  eapply wp_mono; [apply seen_program_poll_usermode|]. intros o5 s5 t5 (st5 & -> & H5) [= ->].
  do 4 apply seen_prefix. apply (seen_app [_;_;_;_;_]); [done|]. apply seen_prefix.
  apply (seen_app [_;_]); [done|]. apply (seen_app [_;_;_]); auto.
Qed.

End proofs.

(** ** An FPGA that follows the protocol, for concrete runs

    The mode follows nCONFIG and the DCLK pulses, CONF_DONE is high once data
    has arrived. *)
Record fpga_sim := mk_fpga { f_mode : Z; f_ctrl : Z; f_dclk : Z; f_data : list Z }.

#[export] Instance fpga_sim_device : Device fpga_sim := {
  dev_read a d :=
    (if a =? fpga_manager_base_stat then (0x8 .<< FPGAMGRREGS_STAT_MSEL_LSB) .| f_mode d
     else if a =? fpga_manager_base_ctrl then f_ctrl d
     else if a =? fpga_manager_base_dclkstat then f_dclk d
     else if a =? SOCFPGA_FPGAMGRREGS_ADDRESS + FPGAMGRREGS_MON_GPIO_EXT_PORTA_ADDRESS then
       FPGAMGRREGS_MON_GPIO_EXT_PORTA_NS_MASK .|
       match f_data d with [] => 0 | _ => FPGAMGRREGS_MON_GPIO_EXT_PORTA_CD_MASK end .|
       (if f_mode d =? FPGAMGRREGS_MODE_USERMODE then FPGAMGRREGS_MON_GPIO_EXT_PORTA_ID_MASK else 0)
     else 0, d);
  dev_write a v d :=
    if a =? fpga_manager_base_ctrl then
      mk_fpga (if truthy (v .& FPGAMGRREGS_CTRL_NCONFIGPULL_MASK) then FPGAMGRREGS_MODE_RESETPHASE
               else if f_mode d =? FPGAMGRREGS_MODE_RESETPHASE then FPGAMGRREGS_MODE_CFGPHASE
               else f_mode d) v (f_dclk d) (f_data d)
    else if a =? fpga_manager_base_dclkcnt then
      mk_fpga (if v =? 4 then FPGAMGRREGS_MODE_INITPHASE else FPGAMGRREGS_MODE_USERMODE)
        (f_ctrl d) 1 (f_data d)
    else if a =? fpga_manager_base_dclkstat then mk_fpga (f_mode d) (f_ctrl d) 0 (f_data d)
    else if data_window a then mk_fpga (f_mode d) (f_ctrl d) (f_dclk d) (f_data d ++ [v])
    else d
}.

Definition blank_fpga : st fpga_sim unit := mk_st (mk_fpga FPGAMGRREGS_MODE_FPGAOFF 0 0 []) tt.

Lemma fpgamgr_program_fpga_data_witness :
  exists status, out (fpgamgr_program_fpga 8 Z.of_nat 43 blank_fpga) = Val status /\
    In status [0; -1; -2; -3; -4; -5; -6; -7; -8] /\
    data_words (tr (fpgamgr_program_fpga 8 Z.of_nat 43 blank_fpga)) =
      if (status =? -1) || (status =? -2) then [] else rbf_words Z.of_nat 0 (words_of 43).
Proof. apply fpgamgr_program_fpga_data; vm_compute; lia || (repeat constructor) || congruence. Defined.

Lemma fpgamgr_program_fpga_success_witness :
  seen [ctrl_set FPGAMGRREGS_CTRL_NCONFIGPULL_MASK; mode_is FPGAMGRREGS_MODE_RESETPHASE;
        ctrl_clear FPGAMGRREGS_CTRL_NCONFIGPULL_MASK; mode_is FPGAMGRREGS_MODE_CFGPHASE;
        ctrl_set FPGAMGRREGS_CTRL_AXICFGEN_MASK;
        conf_done; ctrl_clear FPGAMGRREGS_CTRL_AXICFGEN_MASK;
        dclk_pulse 4; dclk_done; init_or_user;
        dclk_pulse 0x5000; dclk_done; mode_is FPGAMGRREGS_MODE_USERMODE;
        ctrl_clear FPGAMGRREGS_CTRL_EN_MASK]
    (tr (fpgamgr_program_fpga 8 Z.of_nat 43 blank_fpga)).
Proof. apply fpgamgr_program_fpga_success. vm_compute. reflexivity. Defined.

(** The words received are the bitstream and the FPGA ends in user mode. *)
Example program_blank_fpga :
  let r := fpgamgr_program_fpga 8 Z.of_nat 43 blank_fpga in
  out r = Val 0 /\ f_mode (dev (fin r)) = FPGAMGRREGS_MODE_USERMODE /\
  f_data (dev (fin r)) = [0; 1; 2; 3; 4; 5; 6; 7; 8; 9; 10].
Proof. vm_compute. auto. Qed.
