(* ===== verification/Watchdog.v ===== *)
(** The DesignWare watchdog driver (drivers/watchdog/designware_wdt.c) and the
    logarithm helper it uses (asm/utils.h). *)

From S2P Require Import Prelude Mmio Regs.

(** The [while (temp)] loop of log_2_n_round_up; a 32-bit operand is zero
    after at most 32 shifts. *)
Fixpoint log2_loop (fuel : nat) (temp log2n : Z) : Z :=
  match fuel with
  | O => log2n
  | S fuel => if truthy temp then log2_loop fuel (temp .>> 1) (log2n + 1) else log2n
  end.

Definition log_2_n_round_up (n : Z) : Z :=
  let log2n := log2_loop 32 n (-1) in
  if truthy (n .& u32 (n - 1)) then log2n + 1 else log2n.

Definition log_2_n_round_down (n : Z) : Z := log2_loop 32 n (-1).

Section watchdog.
Context {D G : Type} `{Device D}.
Abbreviation M := (M D G).

Definition designware_wdt_settimeout (timeout : Z) : M Z :=
  let i := log_2_n_round_up (u32 (timeout * CONFIG_DW_WDT_CLOCK_KHZ)) - 16 in
  let i := if 15 <? i then 15 else i in
  let i := if i <? 0 then 0 else i in
  writel (i .| (i .<< 4)) (CONFIG_DW_WDT_BASE + DW_WDT_TORR) ;;;
  ret 0.

Definition designware_wdt_enable : M unit :=
  writel ((DW_WDT_CR_RMOD_VAL .<< DW_WDT_CR_RMOD_OFFSET) .| (0x1 .<< DW_WDT_CR_EN_OFFSET))
    (CONFIG_DW_WDT_BASE + DW_WDT_CR).

Definition designware_wdt_is_enabled : M Z :=
  let* val := readl (CONFIG_DW_WDT_BASE + DW_WDT_CR) in
  ret (val .& 0x1).

Definition hw_watchdog_reset : M unit :=
  let* e := designware_wdt_is_enabled in
  when (truthy e) (writel DW_WDT_CRR_RESTART_VAL (CONFIG_DW_WDT_BASE + DW_WDT_CRR)).

Definition hw_watchdog_init : M unit :=
  hw_watchdog_reset ;;;
  designware_wdt_settimeout CONFIG_HW_WATCHDOG_TIMEOUT_MS ;;;
  designware_wdt_enable ;;;
  hw_watchdog_reset.

(** A restart always returns and touches the watchdog only. *)
Lemma watchdog_total : total hw_watchdog_reset.
Proof. unfold hw_watchdog_reset, designware_wdt_is_enabled. hw_auto. Qed.

Lemma preserves_watchdog (I : G -> Prop) : preserves I hw_watchdog_reset.
Proof. unfold hw_watchdog_reset, designware_wdt_is_enabled. inv_auto. Qed.

Lemma keeps_watchdog a `{!Reg D a} : CONFIG_DW_WDT_BASE + DW_WDT_CRR <> a -> keeps a hw_watchdog_reset.
Proof. intros. unfold hw_watchdog_reset, designware_wdt_is_enabled. keeps_auto. Qed.

End watchdog.

(** ** The logarithm *)

Lemma log2_loop_spec fuel temp k :
  0 < temp -> temp < 2 ^ Z.of_nat fuel -> log2_loop fuel temp k = k + 1 + Z.log2 temp.
Proof.
  revert temp k. induction fuel as [|fuel IH]; intros temp k Hp Hb; [cbn in Hb; lia|].
  cbn [log2_loop]. unfold truthy. rewrite (proj2 (Z.eqb_neq temp 0)) by lia. cbn [negb].
  destruct (Z.eq_dec temp 1) as [->|].
  { change (1 .>> 1) with 0. destruct fuel; cbn; lia. }
  rewrite IH.
  - rewrite Z.log2_shiftr by lia. pose proof (Z.log2_pos temp). lia.
  - rewrite Z.shiftr_div_pow2 by lia. apply Z.div_str_pos. lia.
  - rewrite Z.shiftr_div_pow2 by lia. apply Z.div_lt_upper_bound; [lia|].
    rewrite Nat2Z.inj_succ, Z.pow_succ_r in Hb by lia. lia.
Qed.

Lemma land_pred_pow2 k : 0 <= k -> 2 ^ k .& (2 ^ k - 1) = 0.
Proof.
  intros. apply Z.bits_inj'. intros i Hi.
  rewrite Z.land_spec, Z.pow2_bits_eqb, Z.bits_0 by lia.
  replace (2 ^ k - 1) with (Z.ones k) by (rewrite Z.ones_equiv; lia).
  rewrite Z.testbit_ones_nonneg by lia.
  destruct (Z.eqb_spec k i), (Z.ltb_spec i k); cbn; lia || done.
Qed.

Lemma land_pred_nonzero n : 0 < n -> n <> 2 ^ Z.log2 n -> n .& (n - 1) <> 0.
Proof.
  intros Hn Hp He. pose proof (Z.log2_spec n Hn) as [Hl Hu].
  assert (Hb : Z.testbit (n .& (n - 1)) (Z.log2 n) = true).
  { rewrite Z.land_spec, Z.bit_log2 by lia. cbn.
    replace (Z.log2 n) with (Z.log2 (n - 1)); [apply Z.bit_log2; pose proof (Z.log2_nonneg n);
      pose proof (Z.pow_pos_nonneg 2 (Z.log2 n)); lia|].
    apply Z.log2_unique; [apply Z.log2_nonneg|lia]. }
  rewrite He, Z.bits_0 in Hb. done.
Qed.

(** The rounded logarithm of the driver is the mathematical one. *)
Lemma log_2_n_round_up_spec n : 0 < n < 2 ^ 32 -> log_2_n_round_up n = Z.log2_up n.
Proof.
  intros [Hn Hb]. unfold log_2_n_round_up. rewrite log2_loop_spec by (done || lia).
  rewrite u32_word by (unfold word; lia). unfold truthy.
  pose proof (Z.log2_spec n Hn). pose proof (Z.log2_nonneg n).
  destruct (Z.eq_dec n (2 ^ Z.log2 n)) as [E|E].
  - rewrite E at 1 2. rewrite land_pred_pow2 by done. cbn [Z.eqb negb].
    rewrite E at 2. rewrite Z.log2_up_pow2 by done. lia.
  - rewrite (proj2 (Z.eqb_neq _ _)) by (by apply land_pred_nonzero). cbn [negb].
    symmetry. apply Z.log2_up_unique; [lia|]. rewrite Z.pow_succ_r in * by lia.
    replace (-1 + 1 + Z.log2 n + 1) with (Z.succ (Z.log2 n)) by lia. cbn.
    rewrite Z.pred_succ, Z.pow_succ_r by lia. lia.
Qed.

(** ** The programmed period *)

Lemma torr_value i : 0 <= i <= 15 -> i .| (i .<< 4) = i + 16 * i.
Proof.
  intros Hi. assert (H : In i (map Z.of_nat (seq 0 16))).
  { replace i with (Z.of_nat (Z.to_nat i)) by lia. apply in_map, in_seq. lia. }
  cbn in H. repeat destruct H as [<-|H]; try done.
Qed.

Section proofs.
Context {D G : Type} `{Device D}.

(** For a timeout whose cycle count fits the counter, the range written to
    both fields of WDT_TORR is the smallest one whose period, 2^(16+i) clocks,
    covers the request. *)
Theorem designware_wdt_settimeout_range timeout (s : st D G) :
  0 < timeout -> timeout * CONFIG_DW_WDT_CLOCK_KHZ <= 2 ^ 31 ->
  exists i, 0 <= i <= 15 /\
    tr (designware_wdt_settimeout timeout s) =
      [Wr (CONFIG_DW_WDT_BASE + DW_WDT_TORR) (i + 16 * i)] /\
    timeout * CONFIG_DW_WDT_CLOCK_KHZ <= 2 ^ (16 + i) /\
    (0 < i -> 2 ^ (16 + i - 1) < timeout * CONFIG_DW_WDT_CLOCK_KHZ).
Proof.
  intros Ht Hm. set (c := timeout * CONFIG_DW_WDT_CLOCK_KHZ) in *.
  assert (Hc : 0 < c) by (unfold c; change CONFIG_DW_WDT_CLOCK_KHZ with 25000; lia).
  unfold designware_wdt_settimeout. fold c. rewrite u32_word by (unfold word; lia).
  rewrite log_2_n_round_up_spec by lia.
  assert (Hup : Z.log2_up c <= 31) by (apply Z.log2_up_le_pow2; lia).
  rewrite (proj2 (Z.ltb_ge 15 _)) by lia.
  exists (Z.max 0 (Z.log2_up c - 16)). split; [lia|].
  assert (E : (if Z.log2_up c - 16 <? 0 then 0 else Z.log2_up c - 16)
              = Z.max 0 (Z.log2_up c - 16)) by (destruct (Z.ltb_spec (Z.log2_up c - 16) 0); lia).
  rewrite E. set (i := Z.max 0 (Z.log2_up c - 16)). assert (Hi : 0 <= i <= 15) by lia.
  split; [|split].
  - cbn. do 2 f_equal. rewrite torr_value by done. apply u32_word. unfold word; lia.
  - apply Z.log2_up_le_pow2; lia.
  - intros Hpos. assert (1 < c).
    { destruct (Z.lt_ge_cases 1 c); [done|]. assert (Z.log2_up c = 0) by (apply Z.log2_up_eqn0; lia). lia. }
    replace (16 + i - 1) with (Z.pred (Z.log2_up c)) by lia. by apply Z.log2_up_spec.
Qed.

End proofs.

Lemma designware_wdt_settimeout_range_witness :
  exists i, 0 <= i <= 15 /\
    tr (designware_wdt_settimeout CONFIG_HW_WATCHDOG_TIMEOUT_MS (mk_st (∅ : ram) tt)) =
      [Wr (CONFIG_DW_WDT_BASE + DW_WDT_TORR) (i + 16 * i)] /\
    CONFIG_HW_WATCHDOG_TIMEOUT_MS * CONFIG_DW_WDT_CLOCK_KHZ <= 2 ^ (16 + i) /\
    (0 < i -> 2 ^ (16 + i - 1) < CONFIG_HW_WATCHDOG_TIMEOUT_MS * CONFIG_DW_WDT_CLOCK_KHZ).
Proof. apply designware_wdt_settimeout_range; vm_compute; congruence. Defined.
