(* ===== verification/Uart.v ===== *)
(** The console UART: the NS16550 driver (drivers/serial/ns16550.c), the port
    functions above it (drivers/serial/serial_ns16550.c) and the set-up of the
    console by the preloader (preloader_console_init of common/spl/spl.c). *)

From S2P Require Import Prelude Mmio Regs Globals Watchdog.

(** ** The driver *)

(** struct NS16550: byte registers, four bytes apart. *)
Definition ns16550_rbr (com_port : Z) : Z := com_port.
Definition ns16550_ier (com_port : Z) : Z := com_port + 0x4.
Definition ns16550_fcr (com_port : Z) : Z := com_port + 0x8.
Definition ns16550_lcr (com_port : Z) : Z := com_port + 0xc.
Definition ns16550_mcr (com_port : Z) : Z := com_port + 0x10.
Definition ns16550_lsr (com_port : Z) : Z := com_port + 0x14.
Definition ns16550_msr (com_port : Z) : Z := com_port + 0x18.

Section uart.
Context {D : Type} `{Device D}.
Abbreviation M := (M D gdata).

(** writeb and readb: the low byte of the bus word. *)
Definition serial_out (x y : Z) : M unit := writel (u8 x) y.
Definition serial_in (y : Z) : M Z := let* v := readl y in ret (u8 v).

(** [while (!(serial_in(&com_port->lsr) & mask)) ;] *)
Definition wait_lsr (fuel : nat) (com_port mask : Z) : M unit :=
  while_fuel fuel (fun _ : unit =>
    let* v := serial_in (ns16550_lsr com_port) in
    ret (if truthy (v .& mask) then inr tt else inl tt)) tt.

Definition NS16550_init (fuel : nat) (com_port baud_divisor : Z) : M unit :=
  wait_lsr fuel com_port UART_LSR_TEMT ;;;
  serial_out CONFIG_SYS_NS16550_IER (ns16550_ier com_port) ;;;
  serial_out (UART_LCR_BKSE .| UART_LCRVAL) (ns16550_lcr com_port) ;;;
  serial_out 0 (ns16550_rbr com_port) ;;;
  serial_out 0 (ns16550_ier com_port) ;;;
  serial_out UART_LCRVAL (ns16550_lcr com_port) ;;;
  serial_out UART_MCRVAL (ns16550_mcr com_port) ;;;
  serial_out UART_FCRVAL (ns16550_fcr com_port) ;;;
  serial_out (UART_LCR_BKSE .| UART_LCRVAL) (ns16550_lcr com_port) ;;;
  serial_out (baud_divisor .& 0xff) (ns16550_rbr com_port) ;;;
  serial_out ((baud_divisor .>> 8) .& 0xff) (ns16550_ier com_port) ;;;
  serial_out UART_LCRVAL (ns16550_lcr com_port).

Definition NS16550_reinit (com_port baud_divisor : Z) : M unit :=
  for_upto 2 (fun _ =>
    let* dummy := serial_in (ns16550_msr com_port) in
    ret (if truthy dummy then Some tt else None)) ;;;
  serial_out CONFIG_SYS_NS16550_IER (ns16550_ier com_port) ;;;
  serial_out (UART_LCR_BKSE .| UART_LCRVAL) (ns16550_lcr com_port) ;;;
  serial_out 0 (ns16550_rbr com_port) ;;;
  serial_out 0 (ns16550_ier com_port) ;;;
  serial_out UART_LCRVAL (ns16550_lcr com_port) ;;;
  serial_out UART_MCRVAL (ns16550_mcr com_port) ;;;
  serial_out UART_FCRVAL (ns16550_fcr com_port) ;;;
  serial_out UART_LCR_BKSE (ns16550_lcr com_port) ;;;
  serial_out (baud_divisor .& 0xff) (ns16550_rbr com_port) ;;;
  serial_out ((baud_divisor .>> 8) .& 0xff) (ns16550_ier com_port) ;;;
  serial_out UART_LCRVAL (ns16550_lcr com_port).

(** Characters are their codes. *)
Definition newline : Z := 10.
Definition carriage_return : Z := 13.

Definition NS16550_putc (fuel : nat) (com_port c : Z) : M unit :=
  wait_lsr fuel com_port UART_LSR_THRE ;;;
  serial_out c (ns16550_rbr com_port) ;;;
  when (c =? newline) hw_watchdog_reset.

Definition NS16550_getc (fuel : nat) (com_port : Z) : M Z :=
  while_fuel fuel (fun _ : unit =>
    let* v := serial_in (ns16550_lsr com_port) in
    if v .& UART_LSR_DR =? 0 then hw_watchdog_reset ;;; ret (inl tt) else ret (inr tt)) tt ;;;
  serial_in (ns16550_rbr com_port).

Definition NS16550_tstc (com_port : Z) : M Z :=
  let* v := serial_in (ns16550_lsr com_port) in
  ret (b2z (negb (v .& UART_LSR_DR =? 0))).

(** ** The port: the only one configured is COM1 *)

Definition calc_divisor : M Z :=
  let* g := get in
  udiv (u32 (cm_l4_sp_clock g + u32 (baudrate g * (MODE_X_DIV / 2)))) (u32 (MODE_X_DIV * baudrate g)).

Definition _serial_putc (fuel : nat) (c : Z) : M unit :=
  when (c =? newline) (NS16550_putc fuel CONFIG_SYS_NS16550_COM1 carriage_return) ;;;
  NS16550_putc fuel CONFIG_SYS_NS16550_COM1 c.

(** [while ( *s) _serial_putc( *s++)]: [s] is the characters before the
    terminating zero. *)
Definition _serial_puts (fuel : nat) (s : list Z) : M unit := mapM_ (_serial_putc fuel) s.

Definition _serial_setbrg : M unit :=
  let* clock_divisor := calc_divisor in
  NS16550_reinit CONFIG_SYS_NS16550_COM1 clock_divisor.

(** eserial1_init, which serial_init calls. *)
Definition serial_init (fuel : nat) : M Z :=
  let* clock_divisor := calc_divisor in
  NS16550_init fuel CONFIG_SYS_NS16550_COM1 clock_divisor ;;;
  ret 0.

Definition preloader_console_init (fuel : nat) : M unit :=
  modify (fun g => set_console CONFIG_BAUDRATE (have_console g) g) ;;;
  serial_init fuel ;;;
  modify (fun g => set_console (baudrate g) 1 g) ;;;
  msg "U-Boot SPL".

End uart.

(** ** Waiting for the line status *)

Section uart_proofs.
Context {D : Type} `{Device D}.
Abbreviation M := (M D gdata).

Definition lsr_reading (com_port v : Z) : event := Rd (ns16550_lsr com_port) v.
Definition lsr_ready (mask v : Z) : bool := truthy (u8 v .& mask).

(** The polls of a wait that gives up: [fuel] readings, none of them ready. *)
Definition stuck (com_port mask : Z) (fuel : nat) (t : trace) : Prop :=
  exists vs, t = map (lsr_reading com_port) vs /\ length vs = fuel /\
    Forall (fun v => lsr_ready mask v = false) vs.

(** The polls of a wait that ends: the last reading, and only it, is ready. *)
Definition became_ready (com_port mask : Z) (t : trace) : Prop :=
  exists vs v, t = map (lsr_reading com_port) vs ++ [lsr_reading com_port v] /\
    Forall (fun v => lsr_ready mask v = false) vs /\ lsr_ready mask v = true.

(** [I] is what reading the status keeps. *)
Lemma wait_lsr_spec (I : st D gdata -> Prop) fuel com_port mask s :
  (forall s, I s -> I (mk_st (snd (dev_read (ns16550_lsr com_port) (dev s))) (glob s))) -> I s ->
  wp (wait_lsr fuel com_port mask : M unit) s (fun o s' t => I s' /\ glob s' = glob s /\
    ((o = Val tt /\ became_ready com_port mask t) \/ (o = Stop NoFuel /\ stuck com_port mask fuel t))).
Proof.
  intros HI. revert s. unfold wait_lsr. induction fuel as [|fuel IH]; intros s Hs; cbn [while_fuel].
  { wp_step. split; [done|]. split; [done|]. right. split; [done|]. by exists []. }
  wp_step. unfold serial_in. wp_step. wp_step. destruct (dev_read (ns16550_lsr com_port) (dev s)) as [v d] eqn:E.
  eapply wp_readl; [exact E|]. cbv beta iota. wp_step. wp_step. cbn [app].
  assert (Hd : I (mk_st d (glob s))). { specialize (HI s Hs). by rewrite E in HI. }
  destruct (truthy (u8 (u32 v) .& mask)) eqn:Ev; cbv beta iota.
  - wp_step. split; [done|]. split; [done|]. left. split; [done|]. by exists [], (u32 v).
  - eapply wp_mono; [by apply IH|]. cbv beta. intros o s' t (HI' & Hg & Hor). split; [done|]. split; [done|].
    destruct Hor as [[-> (vs & w & -> & Hvs & Hw)]|[-> (vs & -> & Hl & Hvs)]]; [left|right]; (split; [done|]).
    + exists (u32 v :: vs), w. split; [done|]. split; [by constructor|done].
    + exists (u32 v :: vs). split; [done|]. split; [cbn; lia|by constructor].
Qed.

(** ** Sending *)

(** The bytes handed to the transmitter. *)
Definition sent (com_port : Z) (t : trace) : list Z :=
  omap (fun e => match e with
                 | Wr a v => if a =? ns16550_rbr com_port then Some v else None
                 | _ => None
                 end) t.

(** Every byte is written after a reading that showed the transmitter empty,
    later than the byte before it. *)
Fixpoint paced (com_port : Z) (ready : bool) (t : trace) : bool :=
  match t with
  | [] => true
  | Rd a v :: t =>
      paced com_port (if a =? ns16550_lsr com_port then lsr_ready UART_LSR_THRE v else ready) t
  | Wr a v :: t =>
      if a =? ns16550_rbr com_port then ready && paced com_port false t else paced com_port ready t
  | Msg _ :: t => paced com_port ready t
  end.

Lemma sent_app p t t' : sent p (t ++ t') = sent p t ++ sent p t'.
Proof. apply omap_app. Qed.

Lemma paced_mono p t : paced p false t = true -> paced p true t = true.
Proof.
  induction t as [|[a v|a v|m] t IH]; cbn [paced]; [done| | |done].
  - by destruct (a =? ns16550_lsr p).
  - destruct (a =? ns16550_rbr p); [done|]. apply IH.
Qed.

Lemma paced_app p b t t' : paced p b t = true -> paced p false t' = true -> paced p b (t ++ t') = true.
Proof.
  intros Ht Ht'. revert b Ht. induction t as [|[a v|a v|m] t IH]; intros b; cbn [paced app].
  - intros _. destruct b; [by apply paced_mono|done].
  - apply IH.
  - destruct (a =? ns16550_rbr p); [|apply IH]. rewrite !andb_true_iff. intros [-> Ht]. split; [done|by apply IH].
  - apply IH.
Qed.

Lemma polls_quiet p vs b : sent p (map (lsr_reading p) vs) = [] /\ paced p b (map (lsr_reading p) vs) = true.
Proof.
  revert b. induction vs as [|v vs IH]; intros b; [done|]. cbn [map lsr_reading sent omap paced].
  split; [apply (IH b)|]. apply IH.
Qed.

(** The polls of a wait that ends, then one byte. *)
Lemma ready_then_byte p t c : became_ready p UART_LSR_THRE t ->
  sent p (t ++ [Wr (ns16550_rbr p) c]) = [c] /\ paced p false (t ++ [Wr (ns16550_rbr p) c]) = true.
Proof.
  intros (vs & v & -> & _ & Hv). split.
  - rewrite !sent_app. rewrite (proj1 (polls_quiet p vs false)). cbn. by rewrite Z.eqb_refl.
  - rewrite <- app_assoc. apply paced_app; [apply polls_quiet|]. cbn. by rewrite !Z.eqb_refl, Hv.
Qed.

(** Accesses that are not to the data and status registers. *)
Definition elsewhere (p : Z) (e : event) : Prop :=
  match e with
  | Rd a _ | Wr a _ => a <> ns16550_rbr p /\ a <> ns16550_lsr p
  | Msg _ => True
  end.

Lemma elsewhere_quiet p t b : Forall (elsewhere p) t -> sent p t = [] /\ paced p b t = true.
Proof.
  intros Ht. revert b. induction Ht as [|[a v|a v|m] t He Ht IH]; intros b; [done| | |apply IH].
  - cbn [sent omap paced]. cbn in He. rewrite (proj2 (Z.eqb_neq a (ns16550_lsr p))) by apply He. apply IH.
  - cbn [sent omap paced list_omap]. cbn in He. rewrite (proj2 (Z.eqb_neq a (ns16550_rbr p))) by apply He. apply IH.
Qed.

Abbreviation COM1 := CONFIG_SYS_NS16550_COM1.

Lemma watchdog_elsewhere : only (elsewhere COM1) (hw_watchdog_reset : M unit).
Proof. unfold hw_watchdog_reset, designware_wdt_is_enabled. hw_auto; split; vm_compute; discriminate. Qed.

(** What a transmission of [bs] leaves behind: all of them sent, or the wait
    gave up with a prefix sent. *)
Definition transmission (fuel : nat) (bs : list Z) (o : outcome unit) (t : trace) : Prop :=
  paced COM1 false t = true /\
  ((o = Val tt /\ sent COM1 t = bs) \/
   (o = Stop NoFuel /\ sent COM1 t `prefix_of` bs /\ sent COM1 t <> bs /\
    exists t' t'', t = t' ++ t'' /\ stuck COM1 UART_LSR_THRE fuel t'')).

Lemma transmission_bind fuel bs bs' (m : M unit) (k : M unit) s :
  wp m s (fun o _ t => transmission fuel bs o t) ->
  (forall s', wp k s' (fun o _ t => transmission fuel bs' o t)) ->
  wp (m ;;; k) s (fun o _ t => transmission fuel (bs ++ bs') o t).
Proof.
  intros Hm Hk. wp_step. eapply wp_mono; [exact Hm|].
  intros o s1 t1 [Hp [[-> Hs]|(-> & Hpre & Hne & Hst)]]; cbv beta iota.
  - eapply wp_mono; [apply Hk|]. intros o s2 t2 [Hp2 Hor]. split; [by apply paced_app|]. rewrite sent_app, Hs.
    destruct Hor as [[-> ->]|(-> & Hpre & Hne & t' & t'' & -> & Hst)]; [by left|right].
    split; [done|]. split; [by apply prefix_app|]. split; [intros E; by apply app_inv_head in E|].
    exists (t1 ++ t'), t''. by rewrite app_assoc.
  - split; [done|]. right. split; [done|]. split; [by apply prefix_app_r|]. split; [|done].
    intros E. apply Hne. destruct Hpre as [x Hx]. rewrite Hx in E. rewrite <- app_assoc in E.
    rewrite <- (app_nil_r (sent COM1 t1)) in E at 1. apply app_inv_head in E.
    rewrite Hx. destruct x; [by rewrite app_nil_r|done].
Qed.

Lemma putc_spec fuel c s : 0 <= c < 256 ->
  wp (NS16550_putc fuel COM1 c : M unit) s (fun o _ t => transmission fuel [c] o t).
Proof.
  intros Hc. unfold NS16550_putc. wp_step.
  eapply wp_mono; [by apply (wait_lsr_spec (fun _ => True))|].
  intros o s1 t1 (_ & _ & [[-> Hr]|[-> Hst]]); cbv beta iota.
  - unfold serial_out. wp_step. wp_step. eapply (wp_effects (elsewhere COM1) (fun _ => True)).
    + unfold when. destruct (c =? newline); [apply watchdog_elsewhere|apply only_ret].
    + unfold when. destruct (c =? newline); apply total_yields; [apply watchdog_total|apply total_ret].
    + intros [] s2 t2 _ He. cbv beta. rewrite (app_assoc t1).
      replace (u32 (u8 c)) with c by (unfold u32, u8; rewrite !Z.mod_small; lia).
      destruct (ready_then_byte COM1 t1 c Hr) as [Hs Hp]. destruct (elsewhere_quiet COM1 t2 false He) as [Hs2 Hp2].
      split; [by apply paced_app|]. left. split; [done|]. by rewrite sent_app, Hs, Hs2.
  - destruct Hst as (vs & -> & Hst). destruct (polls_quiet COM1 vs false) as [Hs Hp].
    split; [done|]. right. split; [done|]. rewrite Hs. split; [apply prefix_nil|]. split; [done|].
    exists [], (map (lsr_reading COM1) vs). split; [done|]. by exists vs.
Qed.

(** A newline goes out as carriage return and newline. *)
Definition crlf (s : list Z) : list Z :=
  List.concat (map (fun c => if c =? newline then [carriage_return; c] else [c]) s).

(** Printing a string: the bytes that reach the transmitter are the
    characters in order, a carriage return before each newline, every one
    written after the transmitter was read as empty; the function returns when
    all are sent, and stays in it only while the transmitter stays busy, with a
    proper prefix sent. *)
Theorem serial_puts_sends fuel str (s : st D gdata) :
  Forall (fun c => 0 <= c < 256) str ->
  let r := _serial_puts fuel str s in transmission fuel (crlf str) (out r) (tr r).
Proof.
  intros Hc. wp_enter. unfold _serial_puts. revert s. induction Hc as [|c str Hc Hstr IH]; intros s; cbn [mapM_].
  { wp_step. split; [done|]. left. by split. }
  change (crlf (c :: str)) with ((if c =? newline then [carriage_return; c] else [c]) ++ crlf str).
  apply transmission_bind; [|apply IH]. unfold _serial_putc. destruct (c =? newline); cbn [when].
  - apply (transmission_bind _ [carriage_return] [c]); [by apply putc_spec|]. intros s'. by apply putc_spec.
  - wp_step. wp_step. by apply putc_spec.
Qed.

End uart_proofs.

(** ** The divisor latch

    [Ns16550 D p]: a 16550 at [p].  While the bank select bit of the line
    control register is set, the data and interrupt enable registers are the low
    and high bytes of the divisor latch. *)
Class Ns16550 (D : Type) `{Device D} (p : Z) := {
  line : D -> Z;
  divisor : D -> Z;
  ns_read : forall a d, line (snd (dev_read a d)) = line d /\ divisor (snd (dev_read a d)) = divisor d;
  ns_write_lcr : forall v d, 0 <= v < 256 ->
    line (dev_write (ns16550_lcr p) v d) = v /\ divisor (dev_write (ns16550_lcr p) v d) = divisor d;
  ns_write_low : forall v d, 0 <= v < 256 -> line (dev_write (ns16550_rbr p) v d) = line d /\
    divisor (dev_write (ns16550_rbr p) v d) =
      if Z.testbit (line d) 7 then divisor d / 256 * 256 + v else divisor d;
  ns_write_high : forall v d, 0 <= v < 256 -> line (dev_write (ns16550_ier p) v d) = line d /\
    divisor (dev_write (ns16550_ier p) v d) =
      if Z.testbit (line d) 7 then 256 * v + divisor d mod 256 else divisor d;
  ns_write_other : forall a v d, a <> ns16550_lcr p -> a <> ns16550_rbr p -> a <> ns16550_ier p ->
    line (dev_write a v d) = line d /\ divisor (dev_write a v d) = divisor d
}.
Arguments line {D _} p {_} d.
Arguments divisor {D _} p {_} d.

Section divisor.
Context {D : Type} `{Device D} (p : Z) `{!Ns16550 D p}.
Abbreviation M := (M D gdata).

(** The contents of the two registers in a state. *)
Definition latch (s : st D gdata) : Z * Z := (line p (dev s), divisor p (dev s)).

Lemma latch_out a x s (f : Z * Z -> Z * Z) :
  (forall d, (line p (dev_write a (u8 x) d), divisor p (dev_write a (u8 x) d)) = f (line p d, divisor p d)) ->
  forall Q, (forall s' t, glob s' = glob s -> latch s' = f (latch s) -> Q (Val tt) s' t) ->
  wp (serial_out x a : M unit) s Q.
Proof.
  intros Hf Q HQ. apply wp_writel, HQ; [done|]. unfold latch. cbn [dev].
  replace (u32 (u8 x)) with (u8 x); [apply Hf|]. unfold u32, u8. symmetry. apply Z.mod_small.
  pose proof (Z.mod_pos_bound x (2 ^ 8)). lia.
Qed.

Lemma u8_byte x : 0 <= u8 x < 256.
Proof. apply Z.mod_pos_bound. lia. Qed.

Lemma latch_lcr x s Q :
  (forall s' t, glob s' = glob s -> latch s' = (u8 x, snd (latch s)) -> Q (Val tt) s' t) ->
  wp (serial_out x (ns16550_lcr p) : M unit) s Q.
Proof.
  apply (latch_out _ _ _ (fun l => (u8 x, snd l))). intros d. destruct (ns_write_lcr (u8 x) d (u8_byte x)) as [-> ->]. done.
Qed.

Lemma latch_low x s Q :
  (forall s' t, glob s' = glob s -> latch s' = (fst (latch s),
     if Z.testbit (fst (latch s)) 7 then snd (latch s) / 256 * 256 + u8 x else snd (latch s)) -> Q (Val tt) s' t) ->
  wp (serial_out x (ns16550_rbr p) : M unit) s Q.
Proof.
  apply (latch_out _ _ _ (fun l => (fst l, if Z.testbit (fst l) 7 then snd l / 256 * 256 + u8 x else snd l))).
  intros d. by destruct (ns_write_low (u8 x) d (u8_byte x)) as [-> ->].
Qed.

Lemma latch_high x s Q :
  (forall s' t, glob s' = glob s -> latch s' = (fst (latch s),
     if Z.testbit (fst (latch s)) 7 then 256 * u8 x + snd (latch s) mod 256 else snd (latch s)) -> Q (Val tt) s' t) ->
  wp (serial_out x (ns16550_ier p) : M unit) s Q.
Proof.
  apply (latch_out _ _ _ (fun l => (fst l, if Z.testbit (fst l) 7 then 256 * u8 x + snd l mod 256 else snd l))).
  intros d. by destruct (ns_write_high (u8 x) d (u8_byte x)) as [-> ->].
Qed.

Lemma latch_other a x s Q : a <> ns16550_lcr p -> a <> ns16550_rbr p -> a <> ns16550_ier p ->
  (forall s' t, glob s' = glob s -> latch s' = latch s -> Q (Val tt) s' t) ->
  wp (serial_out x a : M unit) s Q.
Proof.
  intros H1 H2 H3. apply (latch_out _ _ _ (fun l => l)).
  intros d. by destruct (ns_write_other a (u8 x) d H1 H2 H3) as [-> ->].
Qed.

(** The initialisation leaves the divisor in the latch and the bank select
    off. *)
Lemma init_latch fuel div s : 0 <= div < 2 ^ 16 ->
  wp (NS16550_init fuel p div : M unit) s (fun o s' t =>
    (o = Val tt /\ latch s' = (UART_LCRVAL, div)) \/ (o = Stop NoFuel /\ stuck p UART_LSR_TEMT fuel t)).
Proof.
  intros Hd. unfold NS16550_init. wp_step.
  eapply wp_mono; [apply (wait_lsr_spec (fun s' => latch s' = latch s)); [|done]|].
  { intros s' <-. unfold latch. cbn [dev]. by destruct (ns_read (ns16550_lsr p) (dev s')) as [-> ->]. }
  intros o s0 t0 (_ & _ & [[-> _]|[-> Hst]]); cbv beta iota; [|by right].
  wp_step. apply latch_high. intros s1 t1 _ _. cbv beta iota.
  wp_step. apply latch_lcr. intros s2 t2 _ _. cbv beta iota.
  wp_step. apply latch_low. intros s3 t3 _ _. cbv beta iota.
  wp_step. apply latch_high. intros s4 t4 _ _. cbv beta iota.
  wp_step. apply latch_lcr. intros s5 t5 _ _. cbv beta iota.
  wp_step. apply latch_other; [unfold ns16550_mcr, ns16550_lcr, ns16550_rbr, ns16550_ier; lia..|]. intros s6 t6 _ _. cbv beta iota.
  wp_step. apply latch_other; [unfold ns16550_fcr, ns16550_lcr, ns16550_rbr, ns16550_ier; lia..|]. intros s7 t7 _ _. cbv beta iota.
  wp_step. apply latch_lcr. intros s8 t8 _ H8. cbv beta iota.
  wp_step. apply latch_low. intros s9 t9 _ H9. cbv beta iota.
  wp_step. apply latch_high. intros s10 t10 _ H10. cbv beta iota.
  apply latch_lcr. intros s11 t11 _ H11. left. split; [done|]. rewrite H11, H10, H9, H8. cbn [fst snd].
  change (Z.testbit (u8 (UART_LCR_BKSE .| UART_LCRVAL)) 7) with true. cbv iota. f_equal.
  change 0xff with (Z.ones 8). rewrite !Z.land_ones, Z.shiftr_div_pow2 by lia. unfold u8. div_lia.
Qed.

End divisor.

(** Setting up the console programs the divisor that is nearest to the
    UART clock over 16 times the baud rate, for every clock and rate whose
    divisor fits the latch, and leaves the line at eight data bits with the
    latch banked out; it waits only for a transmitter that stays busy. *)
Theorem serial_init_baud {D : Type} `{Device D} `{!Ns16550 D CONFIG_SYS_NS16550_COM1} fuel (s : st D gdata) :
  let b := baudrate (glob s) in
  let clk := cm_l4_sp_clock (glob s) in
  0 < b -> 16 * b < 2 ^ 32 -> 0 <= clk -> clk + 8 * b < 2 ^ 32 -> clk < 16 * b * 65535 ->
  let r := serial_init fuel s in
  (out r = Val 0 /\ line CONFIG_SYS_NS16550_COM1 (dev (fin r)) = UART_LCRVAL /\
   2 * Z.abs (16 * b * divisor CONFIG_SYS_NS16550_COM1 (dev (fin r)) - clk) <= 16 * b) \/
  (out r = Stop NoFuel /\ stuck CONFIG_SYS_NS16550_COM1 UART_LSR_TEMT fuel (tr r)).
Proof.
  intros b clk Hb Hb' Hc Hcb Hfit. wp_enter. unfold serial_init, calc_divisor. do 3 wp_step.
  change (MODE_X_DIV / 2) with 8. change MODE_X_DIV with 16. fold b clk.
  rewrite (u32_word (b * 8)), (u32_word (clk + b * 8)), (u32_word (16 * b)) by (unfold word; lia).
  unfold udiv. rewrite (proj2 (Z.eqb_neq (16 * b) 0)) by lia. cbv iota. wp_step. wp_step.
  eapply wp_mono; [apply init_latch|].
  - split; [apply Z.div_pos; lia|]. apply Z.div_lt_upper_bound; lia.
  - intros o s1 t1 [[-> Hl]|[-> Hst]]; cbv beta iota; [|by right]. wp_step. left. split; [done|].
    unfold latch in Hl. injection Hl as -> ->. split; [done|]. div_lia.
Qed.

(** ** Witnesses: a UART that is always ready *)

Definition uart_sim := (Z * Z)%type.
#[local] Instance uart_sim_device : Device uart_sim := {
  dev_read a d := (if a =? ns16550_lsr CONFIG_SYS_NS16550_COM1 then 0x60 else 0, d);
  dev_write a v d :=
    if a =? ns16550_lcr CONFIG_SYS_NS16550_COM1 then (v, snd d)
    else if a =? ns16550_rbr CONFIG_SYS_NS16550_COM1 then
      (fst d, if Z.testbit (fst d) 7 then snd d / 256 * 256 + v else snd d)
    else if a =? ns16550_ier CONFIG_SYS_NS16550_COM1 then
      (fst d, if Z.testbit (fst d) 7 then 256 * v + snd d mod 256 else snd d)
    else d
}.
#[local] Instance uart_sim_ns16550 : Ns16550 uart_sim CONFIG_SYS_NS16550_COM1.
Proof.
  refine {| line := fst; divisor := snd |}.
  - done.
  - done.
  - done.
  - done.
  - intros a v d H1 H2 H3. cbn [dev_write uart_sim_device].
    by rewrite (proj2 (Z.eqb_neq _ _) H1), (proj2 (Z.eqb_neq _ _) H2), (proj2 (Z.eqb_neq _ _) H3).
Defined.

Definition uart_sim0 : st uart_sim gdata :=
  mk_st (0, 0) (set_console 115200 0 (set_clocks 100000000 0 0 gdata0)).

(** 100 MHz and 115200 baud: the divisor is 54. *)
Lemma serial_init_baud_witness :
  out (serial_init 1 uart_sim0) = Val 0 /\
  2 * Z.abs (16 * 115200 * divisor CONFIG_SYS_NS16550_COM1 (dev (fin (serial_init 1 uart_sim0))) - 100000000)
    <= 16 * 115200 /\
  divisor CONFIG_SYS_NS16550_COM1 (dev (fin (serial_init 1 uart_sim0))) = 54.
Proof.
  destruct (serial_init_baud 1 uart_sim0) as [(Ho & _ & Hd)|[Ho _]]; [cbn; lia..| |].
  - split; [exact Ho|]. split; [exact Hd|]. vm_compute. reflexivity.
  - vm_compute in Ho. discriminate.
Defined.

(** "A" and a newline. *)
Lemma serial_puts_sends_witness :
  transmission 1 [65; 13; 10] (out (_serial_puts 1 [65; 10] uart_sim0)) (tr (_serial_puts 1 [65; 10] uart_sim0)).
Proof. exact (serial_puts_sends 1 [65; 10] uart_sim0 ltac:(repeat constructor; lia)). Defined.
