(* ===== verification/Timer.v ===== *)
(** The OSC1 timer (timer.c) and the delay functions above it (lib/time.c).

    The timer counts down from 0xFFFFFFFF and wraps; its readings are whatever
    the device returns. *)

From S2P Require Import Prelude Mmio Regs Globals Watchdog.

(** [long tmo = usec * CONFIG_TIMER_CLOCK_KHZ / 1000], at 32 bits. *)
Definition udelay_ticks (usec : Z) : Z := s32 (u32 (usec * CONFIG_TIMER_CLOCK_KHZ) / 1000).

Section timer.
Context {D : Type} `{Device D}.
Abbreviation M := (M D gdata).

Definition timer_init : M Z :=
  writel TIMER_LOAD_VAL timer_base_load_val ;;;
  writel TIMER_LOAD_VAL timer_base_curr_val ;;;
  let* c := readl timer_base_ctrl in
  writel (c .| 0x3) timer_base_ctrl ;;;
  ret 0.

Definition read_timer : M Z := readl timer_base_curr_val.

(** One turn of the loop of __udelay, on the ticks left and the last reading. *)
Definition udelay_tick (tmo last now : Z) : Z :=
  if now <=? last then s32 (tmo - (last - now))
  else s32 (tmo - (TIMER_LOAD_VAL - last + now)).

Definition udelay_body (x : Z * Z) : M ((Z * Z) + unit) :=
  let '(tmo, last) := x in
  if 0 <? tmo then
    let* now := read_timer in
    ret (inl (udelay_tick tmo last now, now))
  else ret (inr tt).

Definition __udelay (fuel : nat) (usec : Z) : M unit :=
  let tmo := udelay_ticks usec in
  let* last := read_timer in
  while_fuel fuel udelay_body (tmo, last).

Definition get_timer_masked : M Z :=
  let* r := read_timer in
  let now := r / (CONFIG_TIMER_CLOCK_KHZ * 1000 / CONFIG_SYS_HZ) in
  let* g := get in
  let t := if now <=? lastinc g then u32 (tbl g + (lastinc g - now))
           else u32 (tbl g + (TIMER_LOAD_VAL / (CONFIG_TIMER_CLOCK_KHZ * 1000 / CONFIG_SYS_HZ)
                              - now + lastinc g)) in
  modify (set_time t now) ;;;
  ret t.

Definition get_timer (base : Z) : M Z :=
  let* t := get_timer_masked in ret (u32 (t - base)).

Definition reset_timer : M unit :=
  let* r := read_timer in
  modify (set_time 0 (r / (CONFIG_TIMER_CLOCK_KHZ * 1000 / CONFIG_SYS_HZ))).

Definition get_timer_count_masked : M Z :=
  let* now := read_timer in
  let* g := get in
  let t := if now <=? lastinc g then u32 (tbl g + (lastinc g - now))
           else u32 (tbl g + (TIMER_LOAD_VAL - now + lastinc g)) in
  modify (set_time t now) ;;;
  ret t.

Definition get_timer_count (base : Z) : M Z :=
  let* t := get_timer_count_masked in ret (u32 (t - base)).

Definition reset_timer_count : M unit :=
  let* r := read_timer in
  modify (set_time 0 r).

Definition get_ticks : M Z := get_timer 0.
Definition get_tbclk : M Z := ret CONFIG_SYS_HZ.

(** lib/time.c *)
Definition udelay_chunk (fuel : nat) (usec : Z) : M (Z + unit) :=
  hw_watchdog_reset ;;;
  let kv := if CONFIG_WD_PERIOD <? usec then CONFIG_WD_PERIOD else usec in
  __udelay fuel kv ;;;
  ret (if truthy (usec - kv) then inl (usec - kv) else inr tt).

Definition udelay (fuel : nat) (usec : Z) : M unit :=
  while_fuel fuel (udelay_chunk fuel) usec.

Definition mdelay_body (fuel : nat) (msec : Z) : M (Z + unit) :=
  if truthy msec then udelay fuel 1000 ;;; ret (inl (msec - 1)) else ret (inr tt).

Definition mdelay (fuel : nat) (msec : Z) : M unit := while_fuel fuel (mdelay_body fuel) msec.

End timer.

(** ** Time stamps *)

(** Ticks of a 32-bit down counter between two readings less than one period
    apart, over a series of readings, and the number of wraps in it. *)
Definition ticks (last now : Z) : Z := (last - now) mod 2 ^ 32.

Fixpoint elapsed (last : Z) (rs : list Z) : Z :=
  match rs with [] => 0 | now :: rs => ticks last now + elapsed now rs end.

Fixpoint rollovers (last : Z) (rs : list Z) : Z :=
  match rs with [] => 0 | now :: rs => b2z (last <? now) + rollovers now rs end.

Lemma u32_add_u32 a b : u32 (u32 a + b) = u32 (a + b).
Proof. unfold u32. apply Zplus_mod_idemp_l. Qed.

Lemma ticks_normal last now : word last -> word now -> now <= last -> ticks last now = last - now.
Proof. unfold word, ticks. intros. apply Z.mod_small. lia. Qed.

Lemma ticks_wrap last now : word last -> word now -> last < now ->
  ticks last now = last + (TIMER_LOAD_VAL - now) + 1.
Proof.
  unfold word, ticks. intros. change TIMER_LOAD_VAL with (2 ^ 32 - 1).
  rewrite <- (Z_mod_plus_full _ 1). rewrite Z.mod_small; lia.
Qed.

Section proofs.
Context {D : Type} `{Device D}.
Abbreviation M := (M D gdata).

Fixpoint repeatM (n : nat) (m : M Z) : M unit :=
  match n with O => ret tt | S n => m ;;; repeatM n m end.

Lemma get_timer_count_masked_step (s : st D gdata) :
  word (lastinc (glob s)) ->
  wp (get_timer_count_masked : M Z) s (fun o s' t => exists now, word now /\
    t = [Rd timer_base_curr_val now] /\ glob s' = set_time (tbl (glob s')) now (glob s) /\
    o = Val (tbl (glob s')) /\ tbl (glob s') = u32 (tbl (glob s) + ticks (lastinc (glob s)) now
                         - b2z (lastinc (glob s) <? now))).
Proof.
  intros Hl. unfold get_timer_count_masked, read_timer. wp_run. exists v.
  do 4 (split; [done|]). cbn. destruct (Z.leb_spec v (lastinc (glob s))).
  - rewrite (proj2 (Z.ltb_ge _ _)), ticks_normal by done. cbn. f_equal. lia.
  - rewrite (proj2 (Z.ltb_lt _ _)), ticks_wrap by done. cbn [b2z]. f_equal. lia.
Qed.

Lemma get_timer_count_run n (s : st D gdata) : word (lastinc (glob s)) ->
  wp (repeatM n (get_timer_count 0)) s (fun o s' t => exists rs, length rs = n /\
    t = map (Rd timer_base_curr_val) rs /\ o = Val tt /\
    u32 (tbl (glob s')) = u32 (tbl (glob s) + elapsed (lastinc (glob s)) rs
                                 - rollovers (lastinc (glob s)) rs)).
Proof.
  revert s. induction n as [|n IH]; intros s Hl; cbn [repeatM].
  - wp_step. exists []. cbn. do 3 (split; [done|]). f_equal. lia.
  - wp_step. unfold get_timer_count. wp_step.
    eapply wp_mono; [by apply get_timer_count_masked_step|].
    intros o s1 t1 (now & Hn & -> & Hg1 & -> & Ht). cbv beta iota. wp_step.
    assert (Hl1 : lastinc (glob s1) = now) by (by rewrite Hg1).
    eapply wp_mono; [apply IH; by rewrite Hl1|]. intros o2 s2 t2 (rs & Hlen & -> & -> & Ht2).
    exists (now :: rs). cbn [length map elapsed rollovers]. split; [by f_equal|].
    do 2 (split; [done|]). rewrite Ht2, Ht, Hl1.
    replace (u32 (tbl (glob s) + ticks (lastinc (glob s)) now - b2z (lastinc (glob s) <? now))
             + elapsed now rs - rollovers now rs)
      with (u32 (tbl (glob s) + ticks (lastinc (glob s)) now - b2z (lastinc (glob s) <? now))
             + (elapsed now rs - rollovers now rs)) by lia.
    rewrite u32_add_u32. f_equal. lia.
Qed.

(** After reset_timer_count, any number of get_timer_count calls keeps the
    time stamp equal to the ticks elapsed over the timer readings, less one
    tick for every wrap of the counter. *)
Theorem get_timer_count_elapsed n (s : st D gdata) :
  let r := (reset_timer_count ;;; repeatM n (get_timer_count 0)) s in
  exists r0 rs, length rs = n /\ tr r = map (Rd timer_base_curr_val) (r0 :: rs) /\
    out r = Val tt /\ u32 (tbl (glob (fin r))) = u32 (elapsed r0 rs - rollovers r0 rs).
Proof.
  change (wp (reset_timer_count ;;; repeatM n (get_timer_count 0)) s (fun o s' t =>
    exists r0 rs, length rs = n /\ t = map (Rd timer_base_curr_val) (r0 :: rs) /\
    o = Val tt /\ u32 (tbl (glob s')) = u32 (elapsed r0 rs - rollovers r0 rs))).
  unfold reset_timer_count, read_timer. do 3 wp_step. wp_step.
  eapply wp_mono; [by apply get_timer_count_run|].
  intros o s' t (rs & Hlen & -> & -> & Ht). exists v, rs. by rewrite Ht.
Qed.

End proofs.

(** *** Time stamps in units of 1/CONFIG_SYS_HZ *)

(** A reading in those units, the units between two readings as
    get_timer_masked adds them up, and their sum over a series of readings. *)
Definition timer_units (r : Z) : Z := r / (CONFIG_TIMER_CLOCK_KHZ * 1000 / CONFIG_SYS_HZ).
Definition unit_ticks (last now : Z) : Z :=
  if now <=? last then last - now else timer_units TIMER_LOAD_VAL - now + last.

Fixpoint units_elapsed (last : Z) (rs : list Z) : Z :=
  match rs with
  | [] => 0
  | r :: rs => unit_ticks last (timer_units r) + units_elapsed (timer_units r) rs
  end.

Lemma timer_units_bounds r : word r -> 0 <= timer_units r <= timer_units TIMER_LOAD_VAL.
Proof.
  intros Hr. unfold word in Hr. unfold timer_units.
  change (CONFIG_TIMER_CLOCK_KHZ * 1000 / CONFIG_SYS_HZ) with 25000. change TIMER_LOAD_VAL with (2 ^ 32 - 1).
  split; [apply Z.div_pos; lia|apply Z.div_le_mono; lia].
Qed.

Lemma units_elapsed_nonneg last rs : 0 <= last -> Forall word rs -> 0 <= units_elapsed last rs.
Proof.
  intros Hl Hrs. revert last Hl. induction Hrs as [|r rs Hr _ IH]; intros last Hl; cbn; [lia|].
  pose proof (timer_units_bounds _ Hr). specialize (IH (timer_units r) ltac:(lia)).
  unfold unit_ticks. destruct (Z.leb_spec (timer_units r) last); lia.
Qed.

Section time_stamps.
Context {D : Type} `{Device D}.
Abbreviation M := (M D gdata).

Lemma reset_timer_step (s : st D gdata) :
  wp (reset_timer : M unit) s (fun o s' t => exists r, word r /\ t = [Rd timer_base_curr_val r] /\
    o = Val tt /\ tbl (glob s') = 0 /\ lastinc (glob s') = timer_units r).
Proof. unfold reset_timer, read_timer. wp_run. by exists v. Qed.

Lemma get_timer_step base (s : st D gdata) :
  wp (get_timer base : M Z) s (fun o s' t => exists r, word r /\ t = [Rd timer_base_curr_val r] /\
    o = Val (u32 (tbl (glob s') - base)) /\ lastinc (glob s') = timer_units r /\
    tbl (glob s') = u32 (tbl (glob s) + unit_ticks (lastinc (glob s)) (timer_units r))).
Proof.
  unfold get_timer, get_timer_masked, read_timer. wp_run. exists v.
  do 4 (split; [done|]). cbn. unfold unit_ticks, timer_units.
  destruct (_ <=? _); f_equal; lia.
Qed.

End time_stamps.

(** ** Delays *)

(** The tick count of __udelay is exact up to 171798 microseconds: the
    multiplication does not wrap there; [udelay_ticks_chunk] shows that it
    does for the 10 second chunks that udelay asks for. *)
Theorem udelay_ticks_exact usec : 0 <= usec <= 171798 ->
  udelay_ticks usec = usec * 25.
Proof.
  intros Hu. unfold udelay_ticks. change CONFIG_TIMER_CLOCK_KHZ with 25000.
  rewrite u32_word by (unfold word; lia).
  replace (usec * 25000) with (usec * 25 * 1000) by lia. rewrite Z.div_mul by lia.
  apply s32_small. lia.
Qed.

Section down_counter.
Context {D : Type} `{Device D}.

(** A free running down counter: [count] is its value, at most [K] ticks pass
    between two reads and at least one. *)
Variable count : D -> Z.
Variable K : Z.
Hypothesis count_read : forall d, exists d',
  dev_read timer_base_curr_val d = (count d, d') /\ count d - K <= count d' < count d.

Lemma udelay_loop fuel T r0 tmo last (s : st D gdata) :
  T < 2 ^ 31 -> 0 <= T -> tmo = T - (r0 - last) -> last <= r0 -> count (dev s) < last -> last - K <= count (dev s) ->
  r0 < 2 ^ 32 -> K + T <= r0 -> tmo < Z.of_nat fuel -> r0 - last < T + K -> (0 < fuel)%nat -> K <= 2 ^ 31 ->
  wp (while_fuel fuel udelay_body (tmo, last)) s (fun o _ t => exists rs, o = Val tt /\
    t = map (Rd timer_base_curr_val) rs /\ T <= r0 - List.last rs last < T + K).
Proof.
  intros HT HT0. revert tmo last s. induction fuel as [|fuel IH];
    intros tmo last s Ht Hl Hc HcK Hr HK Hf Hu Hp HK31; [lia|].
  cbn [while_fuel udelay_body]. destruct (Z.ltb_spec 0 tmo) as [Hpos|Hneg].
  - do 2 wp_step. unfold read_timer.
    destruct (count_read (dev s)) as (d' & Hd & Hlo).
    eapply wp_readl; [exact Hd|]. cbv beta iota. rewrite u32_word by (unfold word; lia).
    unfold udelay_tick. rewrite (proj2 (Z.leb_le _ _)) by lia.
    rewrite s32_small by lia. wp_step.
    destruct (Nat.eq_dec fuel 0%nat) as [->|]; [lia|].
    eapply wp_mono; [apply IH; cbn [dev]; lia|].
    cbv beta. intros o s' t (rs & -> & -> & Hrs). exists (count (dev s) :: rs).
    split; [done|]. split; [done|]. by rewrite last_shift.
  - do 3 wp_step. exists []. cbn. repeat split; lia.
Qed.

(** C30: For a request of at most 171798 microseconds, on a down counter that
    moves at least one and at most K ticks between two readings and that does
    not wrap during the delay (its value at the start is at least the request
    plus K), __udelay returns, and the time between its first and last reading
    is at least the request and exceeds it by less than K. Outside these
    bounds the code is wrong: [udelay_tick_wrap] and [udelay_ticks_chunk]. *)
Theorem udelay_accuracy fuel usec (s : st D gdata) :
  0 <= usec <= 171798 -> 1 <= K <= 2 ^ 31 -> K + usec * 25 <= count (dev s) < 2 ^ 32 ->
  usec * 25 < Z.of_nat fuel ->
  exists r0 rs, out (__udelay fuel usec s) = Val tt /\
    tr (__udelay fuel usec s) = map (Rd timer_base_curr_val) (r0 :: rs) /\
    usec * 25 <= r0 - List.last rs r0 < usec * 25 + K.
Proof.
  intros Hu HK Hc Hf. change (wp (__udelay fuel usec) s (fun o _ t => exists r0 rs, o = Val tt /\
    t = map (Rd timer_base_curr_val) (r0 :: rs) /\
    usec * 25 <= r0 - List.last rs r0 < usec * 25 + K)).
  unfold __udelay. rewrite udelay_ticks_exact by done. wp_step. unfold read_timer.
  destruct (count_read (dev s)) as (d' & Hd & Hlo).
  eapply wp_readl; [exact Hd|]. cbv beta iota. rewrite u32_word by (unfold word; lia).
  eapply wp_mono; [apply (udelay_loop _ (usec * 25) (count (dev s))); cbn [dev]; lia|].
  cbv beta. intros o s' t (rs & -> & -> & Hrs). by exists (count (dev s)), rs.
Qed.

End down_counter.

(** When the counter wraps between two readings, __udelay adds the ticks
    that passed to the time left (plus one) instead of subtracting them. *)
Theorem udelay_tick_wrap tmo last now :
  word last -> word now -> last < now ->
  udelay_tick tmo last now = s32 (tmo + ticks last now + 1).
Proof.
  intros Hl Hn Hlt. unfold udelay_tick. rewrite (proj2 (Z.leb_gt _ _)) by lia.
  rewrite ticks_wrap by done. unfold s32. f_equal. change TIMER_LOAD_VAL with (2 ^ 32 - 1).
  rewrite <- (Z_mod_plus_full _ 2). f_equal. lia.
Qed.

(** ** Concrete runs *)

(** A counter that a read advances by three ticks. *)
#[export] Instance counter_device : Device Z := {
  dev_read _ d := (d, d - 3);
  dev_write _ v d := d
}.

Lemma udelay_accuracy_witness :
  exists r0 rs, out (__udelay 200 5 (mk_st 1000 gdata0)) = Val tt /\
    tr (__udelay 200 5 (mk_st 1000 gdata0)) = map (Rd timer_base_curr_val) (r0 :: rs) /\
    5 * 25 <= r0 - List.last rs r0 < 5 * 25 + 3.
Proof.
  apply (udelay_accuracy (fun d => d)); [|lia|lia|cbn; lia|lia].
  intros d. exists (d - 3). cbn. split; [done|lia].
Defined.

Lemma udelay_ticks_exact_witness : udelay_ticks 171798 = 171798 * 25.
Proof. apply udelay_ticks_exact. lia. Defined.

Lemma udelay_tick_wrap_witness :
  udelay_tick 100 5 0xFFFFFFF0 = s32 (100 + ticks 5 0xFFFFFFF0 + 1).
Proof. apply udelay_tick_wrap; [word_solve|word_solve|lia]. Defined.

(** The longest chunk that udelay asks for waits for 36 ms. *)
Example udelay_ticks_chunk : udelay_ticks CONFIG_WD_PERIOD = 891896.
Proof. reflexivity. Qed.
