(* ===== verification/FreezeController.v ===== *)
(** The freeze controller (freeze_controller.c): freezing and thawing the four
    HPS I/O channels, by software or by the hardware state machine of channel 1,
    and the flags that record which channels are frozen. *)

From S2P Require Import Prelude Mmio Regs Globals Timer.

Inductive FreezeChannelSelect :=
| FREEZE_CHANNEL_0 | FREEZE_CHANNEL_1 | FREEZE_CHANNEL_2 | FREEZE_CHANNEL_3
| FREEZE_CHANNEL_UNDEFINED.

Inductive FreezeControllerFSMSelect :=
| FREEZE_CONTROLLER_FSM_SW | FREEZE_CONTROLLER_FSM_HW | FREEZE_CONTROLLER_FSM_UNDEFINED.

#[export] Instance FreezeChannelSelect_eq_dec : EqDecision FreezeChannelSelect.
Proof. solve_decision. Defined.

Definition channel_num (c : FreezeChannelSelect) : Z :=
  match c with
  | FREEZE_CHANNEL_0 => 0 | FREEZE_CHANNEL_1 => 1 | FREEZE_CHANNEL_2 => 2
  | FREEZE_CHANNEL_3 => 3 | FREEZE_CHANNEL_UNDEFINED => 4
  end.

(** FREEZE_CTRL_CHAN_STATE *)
Definition FREEZE_CTRL_FROZEN : Z := 0.
Definition FREEZE_CTRL_THAWED : Z := 1.

Definition SRC_REG : Z := SOCFPGA_SYSMGR_ADDRESS + SYSMGR_FRZCTRL_SRC_ADDRESS.
Definition HWCTRL_REG : Z := SOCFPGA_SYSMGR_ADDRESS + SYSMGR_FRZCTRL_HWCTRL_ADDRESS.
Definition HIOCTRL_REG : Z := SOCFPGA_SYSMGR_ADDRESS + SYSMGR_FRZCTRL_HIOCTRL_ADDRESS.
Definition VIOCTRL_REG (channel_id : Z) : Z :=
  SOCFPGA_SYSMGR_ADDRESS +
  (SYSMGR_FRZCTRL_VIOCTRL_ADDRESS + (channel_id .<< SYSMGR_FRZCTRL_VIOCTRL_SHIFT)).

Section freeze_controller.
Context {D : Type} `{Device D}.
Abbreviation M := (M D gdata).

(** [frzctrl_channel_freeze[channel_id] = v] *)
Definition set_channel_flag (channel_id : FreezeChannelSelect) (v : Z) : M unit :=
  let* g := get in
  let i := Z.to_nat (channel_num channel_id) in
  if decide (i < length (frzctrl_channel_freeze g))%nat
  then modify (set_freeze (<[i := v]> (frzctrl_channel_freeze g)))
  else undef.

Definition sys_mgr_frzctrl_frzchn1_state_get : M Z :=
  let* frzchn1_state := readl HWCTRL_REG in
  ret (SYSMGR_FRZCTRL_HWCTRL_VIO1STATE_GET frzchn1_state).

(** The loop [i = 0; while (state != sys_mgr_frzctrl_frzchn1_state_get())
    { i++; if (SYSMGR_FRZCTRL_LOOP_PARAM < i) return 1; }]: it reads at most
    SYSMGR_FRZCTRL_LOOP_PARAM + 1 times. *)
Definition hw_wait_state (state : Z) : M (option Z) :=
  for_upto (SYSMGR_FRZCTRL_LOOP_PARAM + 1) (fun i =>
    let* st := sys_mgr_frzctrl_frzchn1_state_get in
    if st =? state then ret (Some 0) else
    if SYSMGR_FRZCTRL_LOOP_PARAM <? i + 1 then ret (Some 1) else ret None).

Definition freeze_vio (channel_id : FreezeChannelSelect) : M unit :=
  let reg := VIOCTRL_REG (channel_num channel_id) in
  (* Assert active low enrnsl, plniotri and niotri signals *)
  clrbits_le32 reg (SYSMGR_FRZCTRL_VIOCTRL_SLEW_MASK .|
                    SYSMGR_FRZCTRL_VIOCTRL_WKPULLUP_MASK .|
                    SYSMGR_FRZCTRL_VIOCTRL_TRISTATE_MASK) ;;;
  (* Assert active low bhniotri signal and de-assert active high csrdone *)
  clrbits_le32 reg (SYSMGR_FRZCTRL_VIOCTRL_BUSHOLD_MASK .|
                    SYSMGR_FRZCTRL_VIOCTRL_CFG_MASK) ;;;
  set_channel_flag channel_id FREEZE_CTRL_FROZEN.

Definition freeze_hio (channel_id : FreezeChannelSelect) : M unit :=
  clrbits_le32 HIOCTRL_REG (SYSMGR_FRZCTRL_HIOCTRL_SLEW_MASK .|
                            SYSMGR_FRZCTRL_HIOCTRL_WKPULLUP_MASK .|
                            SYSMGR_FRZCTRL_HIOCTRL_TRISTATE_MASK) ;;;
  let* v := readl HIOCTRL_REG in
  writel ((v .& .~ (SYSMGR_FRZCTRL_HIOCTRL_BUSHOLD_MASK .| SYSMGR_FRZCTRL_HIOCTRL_CFG_MASK))
          .| SYSMGR_FRZCTRL_HIOCTRL_REGRST_MASK
          .| SYSMGR_FRZCTRL_HIOCTRL_OCTRST_MASK) HIOCTRL_REG ;;;
  let* v := readl HIOCTRL_REG in
  writel ((v .& .~ SYSMGR_FRZCTRL_HIOCTRL_OCT_CFGEN_CALSTART_MASK)
          .| SYSMGR_FRZCTRL_HIOCTRL_DLLRST_MASK) HIOCTRL_REG ;;;
  set_channel_flag channel_id FREEZE_CTRL_FROZEN.

Definition sys_mgr_frzctrl_freeze_req (channel_id : FreezeChannelSelect)
    (fsm_select : FreezeControllerFSMSelect) : M Z :=
  match fsm_select with
  | FREEZE_CONTROLLER_FSM_SW =>
      writel SYSMGR_FRZCTRL_SRC_VIO1_ENUM_SW SRC_REG ;;;
      match channel_id with
      | FREEZE_CHANNEL_0 | FREEZE_CHANNEL_1 | FREEZE_CHANNEL_2 =>
          freeze_vio channel_id ;;; ret 0
      | FREEZE_CHANNEL_3 => freeze_hio channel_id ;;; ret 0
      | FREEZE_CHANNEL_UNDEFINED => ret 1
      end
  | FREEZE_CONTROLLER_FSM_HW =>
      writel SYSMGR_FRZCTRL_SRC_VIO1_ENUM_HW SRC_REG ;;;
      setbits_le32 HWCTRL_REG SYSMGR_FRZCTRL_HWCTRL_VIO1REQ_MASK ;;;
      let* r := hw_wait_state SYSMGR_FRZCTRL_HWCTRL_VIO1STATE_ENUM_FROZEN in
      match r with
      | Some 0 => set_channel_flag channel_id FREEZE_CTRL_FROZEN ;;; ret 0
      | _ => ret 1
      end
  | FREEZE_CONTROLLER_FSM_UNDEFINED => ret 1
  end.

(** [do { c = get_timer_count(start); } while (c < n);] *)
Definition wait_count_body (n start : Z) (_ : unit) : M (unit + unit) :=
  let* clk_cycles_count := get_timer_count start in
  ret (if clk_cycles_count <? n then inl tt else inr tt).

(** reset_timer_count(); start_count = get_timer_count(0); then the loop. *)
Definition delay_intosc (fuel : nat) (n : Z) : M unit :=
  reset_timer_count ;;;
  let* start_count := get_timer_count 0 in
  while_fuel fuel (wait_count_body n start_count) tt.

Definition thaw_vio (channel_id : FreezeChannelSelect) : M unit :=
  let reg := VIOCTRL_REG (channel_num channel_id) in
  setbits_le32 reg (SYSMGR_FRZCTRL_VIOCTRL_BUSHOLD_MASK .| SYSMGR_FRZCTRL_VIOCTRL_CFG_MASK) ;;;
  setbits_le32 reg (SYSMGR_FRZCTRL_VIOCTRL_WKPULLUP_MASK .|
                    SYSMGR_FRZCTRL_VIOCTRL_TRISTATE_MASK) ;;;
  setbits_le32 reg SYSMGR_FRZCTRL_VIOCTRL_SLEW_MASK ;;;
  set_channel_flag channel_id FREEZE_CTRL_THAWED.

Definition thaw_hio (fuel : nat) (channel_id : FreezeChannelSelect) : M unit :=
  (* de-assert active high reinit signal *)
  clrbits_le32 HIOCTRL_REG SYSMGR_FRZCTRL_HIOCTRL_DLLRST_MASK ;;;
  (* assert active high pllbiasen signals *)
  setbits_le32 HIOCTRL_REG SYSMGR_FRZCTRL_HIOCTRL_OCT_CFGEN_CALSTART_MASK ;;;
  delay_intosc fuel SYSMGR_FRZCTRL_INTOSC_1000 ;;;
  (* de-assert active low bhniotri signals, assert active high csrdone and nfrzdrv *)
  let* v := readl HIOCTRL_REG in
  writel ((v .| SYSMGR_FRZCTRL_HIOCTRL_BUSHOLD_MASK .| SYSMGR_FRZCTRL_HIOCTRL_CFG_MASK)
          .& .~ SYSMGR_FRZCTRL_HIOCTRL_OCTRST_MASK) HIOCTRL_REG ;;;
  delay_intosc fuel SYSMGR_FRZCTRL_INTOSC_33 ;;;
  (* de-assert active low plniotri and niotri signals *)
  setbits_le32 HIOCTRL_REG (SYSMGR_FRZCTRL_HIOCTRL_WKPULLUP_MASK .|
                            SYSMGR_FRZCTRL_HIOCTRL_TRISTATE_MASK) ;;;
  (* de-assert active high frzreg signal *)
  clrbits_le32 HIOCTRL_REG SYSMGR_FRZCTRL_HIOCTRL_REGRST_MASK ;;;
  (* de-assert active low enrnsl signal *)
  setbits_le32 HIOCTRL_REG SYSMGR_FRZCTRL_HIOCTRL_SLEW_MASK ;;;
  set_channel_flag channel_id FREEZE_CTRL_THAWED.

Definition sys_mgr_frzctrl_thaw_req (fuel : nat) (channel_id : FreezeChannelSelect)
    (fsm_select : FreezeControllerFSMSelect) : M Z :=
  match fsm_select with
  | FREEZE_CONTROLLER_FSM_SW =>
      writel SYSMGR_FRZCTRL_SRC_VIO1_ENUM_SW SRC_REG ;;;
      match channel_id with
      | FREEZE_CHANNEL_0 | FREEZE_CHANNEL_1 | FREEZE_CHANNEL_2 =>
          thaw_vio channel_id ;;; ret 0
      | FREEZE_CHANNEL_3 => thaw_hio fuel channel_id ;;; ret 0
      | FREEZE_CHANNEL_UNDEFINED => ret 1
      end
  | FREEZE_CONTROLLER_FSM_HW =>
      writel SYSMGR_FRZCTRL_SRC_VIO1_ENUM_HW SRC_REG ;;;
      clrbits_le32 HWCTRL_REG SYSMGR_FRZCTRL_HWCTRL_VIO1REQ_MASK ;;;
      let* r := hw_wait_state SYSMGR_FRZCTRL_HWCTRL_VIO1STATE_ENUM_THAWED in
      match r with
      | Some 0 => set_channel_flag channel_id FREEZE_CTRL_THAWED ;;; ret 0
      | _ => ret 1
      end
  | FREEZE_CONTROLLER_FSM_UNDEFINED => ret 1
  end.

Definition sys_mgr_frzctrl_frzchn_is_frozen (channel_id : FreezeChannelSelect) : M Z :=
  let* g := get in
  let* f := array_get (frzctrl_channel_freeze g) (channel_num channel_id) in
  if FREEZE_CTRL_FROZEN =? f then ret 1 else ret 0.

End freeze_controller.

(** ** The flags follow the requests *)

(** Flags after a request for [c] to enter [state] that returned [r]. *)
Definition flags_after (c : FreezeChannelSelect) (state r : Z) (flags : list Z) : list Z :=
  if r =? 0 then <[Z.to_nat (channel_num c) := state]> flags else flags.

Section proofs.
Context {D : Type} `{Device D}.
Abbreviation M := (M D gdata).

Lemma channel_num_lt c : c <> FREEZE_CHANNEL_UNDEFINED -> (Z.to_nat (channel_num c) < 4)%nat.
Proof. destruct c; cbn; lia || done. Qed.

Lemma wp_set_channel_flag c v (s : st D gdata) (Q : outcome unit -> st D gdata -> trace -> Prop) :
  c <> FREEZE_CHANNEL_UNDEFINED -> length (frzctrl_channel_freeze (glob s)) = 4%nat ->
  Q (Val tt) (mk_st (dev s) (set_freeze
      (<[Z.to_nat (channel_num c) := v]> (frzctrl_channel_freeze (glob s))) (glob s))) [] ->
  wp (set_channel_flag c v : M unit) s Q.
Proof.
  intros Hc Hl HQ. unfold set_channel_flag. do 2 wp_step.
  rewrite decide_True by (rewrite Hl; by apply channel_num_lt). by apply wp_modify.
Qed.

(** The channel 1 state machine is polled at most 1001 times; the loop
    succeeds with the first reading of the wanted state and fails only after
    1001 readings of other states. *)
Definition state_reading (v : Z) : event := Rd HWCTRL_REG v.
Definition vio1state (v : Z) : Z := SYSMGR_FRZCTRL_HWCTRL_VIO1STATE_GET v.

Lemma hw_wait_state_spec state (s : st D gdata) :
  wp (hw_wait_state state : M _) s (fun o s' t => exists vs, t = map state_reading vs /\
    glob s' = glob s /\
    ((o = Val (Some 0) /\ (length vs <= 1001)%nat /\
      exists vs' v, vs = vs' ++ [v] /\ vio1state v = state /\
        Forall (fun v => vio1state v <> state) vs') \/
     (o = Val (Some 1) /\ length vs = 1001%nat /\ Forall (fun v => vio1state v <> state) vs))).
Proof.
  unfold hw_wait_state. eapply wp_for with (I := fun i s' t => exists vs, t = map state_reading vs /\
    Z.of_nat (length vs) = i /\ i <= 1000 /\ glob s' = glob s /\ Forall (fun v => vio1state v <> state) vs).
  - done.
  - by exists [].
  - intros i s1 t Hi (vs & -> & Hlen & Hle & Hg & Hvs). unfold sys_mgr_frzctrl_frzchn1_state_get.
    change (SYSMGR_FRZCTRL_LOOP_PARAM + 1) with 1001 in Hi.
    change SYSMGR_FRZCTRL_LOOP_PARAM with 1000.
    do 4 wp_step. fold (vio1state v). cbn [app]. destruct (Z.eqb_spec (vio1state v) state).
    + wp_step. exists (vs ++ [v]). rewrite map_app. repeat (split; [done|]). left.
      split; [done|]. split; [rewrite length_app; cbn; lia|]. by exists vs, v.
    + destruct (Z.ltb_spec 1000 (i + 1)); wp_step; exists (vs ++ [v]); rewrite map_app, length_app;
        cbn [length]; repeat (split; [done || lia|]).
      * right. rewrite Forall_app, Forall_singleton. repeat split; [lia|done..].
      * by rewrite Forall_app, Forall_singleton.
  - intros s' t (vs & _ & _ & Hle & _).
    change (SYSMGR_FRZCTRL_LOOP_PARAM + 1) with 1001 in Hle. lia.
Qed.

(** A freeze request for a defined channel always returns.  By software it
    returns 0; by the hardware state machine it returns 0 exactly when one of at
    most 1001 readings of the state is "frozen"; with an undefined state
    machine it returns 1.  The flags change only on success, and then only the
    requested channel's. *)
Theorem sys_mgr_frzctrl_freeze_req_spec c fsm (s : st D gdata) :
  c <> FREEZE_CHANNEL_UNDEFINED -> length (frzctrl_channel_freeze (glob s)) = 4%nat ->
  let r := sys_mgr_frzctrl_freeze_req c fsm s in
  exists status, out r = Val status /\ (status = 0 \/ status = 1) /\
    frzctrl_channel_freeze (glob (fin r)) =
      flags_after c FREEZE_CTRL_FROZEN status (frzctrl_channel_freeze (glob s)) /\
    (fsm = FREEZE_CONTROLLER_FSM_SW -> status = 0) /\
    (fsm = FREEZE_CONTROLLER_FSM_UNDEFINED -> status = 1 /\ tr r = []) /\
    (fsm = FREEZE_CONTROLLER_FSM_HW -> exists v vs,
       tr r = [Wr SRC_REG 1; Rd HWCTRL_REG v; Wr HWCTRL_REG (v .| 1)] ++ map state_reading vs /\
       (length vs <= 1001)%nat /\
       (status = 0 <-> Exists (fun v => vio1state v = SYSMGR_FRZCTRL_HWCTRL_VIO1STATE_ENUM_FROZEN) vs)).
Proof.
  intros Hc Hl. wp_enter. destruct fsm; cbn [sys_mgr_frzctrl_freeze_req].
  - unfold freeze_vio, freeze_hio.
    destruct c; wp_run; try (apply wp_set_channel_flag; [done|done|]); wp_run;
      try done; exists 0; repeat split; auto; done.
  - wp_run. eapply wp_mono; [apply hw_wait_state_spec|]. cbn [glob].
    intros o s1 t1 (vs & -> & Hg & Ho).
    destruct Ho as [(-> & Hlen & vs' & v' & -> & Hv' & _)|(-> & Hlen & Hvs)]; wp_run.
    + apply wp_set_channel_flag; [done|by rewrite Hg|]. wp_run.
      exists 0. cbn. rewrite Hg. do 2 (split; [auto|]). split; [done|].
      do 2 (split; [done|]). intros _. exists v, (vs' ++ [v']). rewrite app_nil_r.
      rewrite (u32_word (v .| _)) by word_solve. split; [done|]. split; [done|].
      rewrite Exists_app, Exists_cons. tauto.
    + exists 1. cbn. rewrite Hg, app_nil_r. do 2 (split; [auto|]). split; [done|].
      do 2 (split; [done|]). intros _. exists v, vs. rewrite (u32_word (v .| _)) by word_solve.
      split; [done|]. split; [lia|]. split; [done|]. intros He.
      apply Exists_exists in He as (x & Hx & E). rewrite Forall_forall in Hvs.
      by destruct (Hvs x Hx).
  - wp_run. exists 1. repeat split; auto; done.
Qed.

(** ** Register contents *)

(** The control register of a channel, and its value after freezing and after
    thawing. *)
Definition io_reg (c : FreezeChannelSelect) : Z :=
  match c with FREEZE_CHANNEL_3 => HIOCTRL_REG | _ => VIOCTRL_REG (channel_num c) end.

Definition frozen_word (c : FreezeChannelSelect) (v : Z) : Z :=
  match c with FREEZE_CHANNEL_3 => (v .& .~ 0x1FF) .| 0xE0 | _ => v .& .~ 0x1F end.

Definition thawed_word (c : FreezeChannelSelect) (v : Z) : Z :=
  match c with FREEZE_CHANNEL_3 => (v .& .~ 0x1FF) .| 0x11F | _ => v .| 0x1F end.

Lemma io_reg_src c : SRC_REG <> io_reg c.
Proof. destruct c; vm_compute; discriminate. Qed.

(** The flag update ends the sequences below; it does not touch the device. *)
Lemma wp_flag_reg c v a `{!Reg D a} (s : st D gdata) Q :
  c <> FREEZE_CHANNEL_UNDEFINED -> length (frzctrl_channel_freeze (glob s)) = 4%nat ->
  (forall s', reg a s' = reg a s -> Q (Val tt) s' []) ->
  wp (set_channel_flag c v : M unit) s Q.
Proof. intros Hc Hl HQ. apply wp_set_channel_flag; [done|done|]. by apply HQ. Qed.

Lemma freeze_vio_reg c (s : st D gdata) `{!Reg D (VIOCTRL_REG (channel_num c))} :
  c <> FREEZE_CHANNEL_UNDEFINED -> length (frzctrl_channel_freeze (glob s)) = 4%nat ->
  wp (freeze_vio c : M unit) s (fun o s' _ => o = Val tt /\
    reg (VIOCTRL_REG (channel_num c)) s' = reg (VIOCTRL_REG (channel_num c)) s .& .~ 0x1F).
Proof.
  intros Hc Hl. unfold freeze_vio. cbv zeta.
  reg_run (VIOCTRL_REG (channel_num c)).
  eapply wp_flag_reg; [done|done|]. intros s' ->. split; [done|].
  reg_subst (VIOCTRL_REG (channel_num c)).
  mask_solve (reg (VIOCTRL_REG (channel_num c)) s).
Qed.

Lemma thaw_vio_reg c (s : st D gdata) `{!Reg D (VIOCTRL_REG (channel_num c))} :
  c <> FREEZE_CHANNEL_UNDEFINED -> length (frzctrl_channel_freeze (glob s)) = 4%nat ->
  wp (thaw_vio c : M unit) s (fun o s' _ => o = Val tt /\
    reg (VIOCTRL_REG (channel_num c)) s' = reg (VIOCTRL_REG (channel_num c)) s .| 0x1F).
Proof.
  intros Hc Hl. unfold thaw_vio. cbv zeta.
  reg_run (VIOCTRL_REG (channel_num c)).
  eapply wp_flag_reg; [done|done|]. intros s' ->. split; [done|].
  reg_subst (VIOCTRL_REG (channel_num c)).
  mask_solve (reg (VIOCTRL_REG (channel_num c)) s).
Qed.

Lemma freeze_hio_reg (s : st D gdata) `{!Reg D HIOCTRL_REG} :
  length (frzctrl_channel_freeze (glob s)) = 4%nat ->
  wp (freeze_hio FREEZE_CHANNEL_3 : M unit) s (fun o s' _ => o = Val tt /\
    reg HIOCTRL_REG s' = frozen_word FREEZE_CHANNEL_3 (reg HIOCTRL_REG s)).
Proof.
  intros Hl. unfold freeze_hio. reg_run HIOCTRL_REG.
  eapply wp_flag_reg; [done|done|]. intros s' ->. split; [done|]. pose proof (word_reg HIOCTRL_REG s).
  reg_subst HIOCTRL_REG. rewrite !u32_word by word_solve. cbn [frozen_word].
  mask_solve (reg HIOCTRL_REG s).
Qed.

(** ** The delays *)

(** Timer readings that show at least [n] ticks after the second of them. *)
Definition waited (n : Z) (t : trace) : Prop :=
  exists r0 r1 rs, t = map (Rd timer_base_curr_val) (r0 :: r1 :: rs) /\
    n <= u32 (elapsed r1 rs - rollovers r1 rs).

Lemma wait_count_loop fuel n start acc (s : st D gdata) :
  word (lastinc (glob s)) -> tbl (glob s) = u32 (start + acc) ->
  wp (while_fuel fuel (wait_count_body n start) tt : M unit) s (fun o s' t =>
    frzctrl_channel_freeze (glob s') = frzctrl_channel_freeze (glob s) /\
    (o = Val tt -> exists rs, t = map (Rd timer_base_curr_val) rs /\
      n <= u32 (acc + elapsed (lastinc (glob s)) rs - rollovers (lastinc (glob s)) rs))).
Proof.
  revert acc s. induction fuel as [|fuel IH]; intros acc s Hl Ht; cbn [while_fuel]; [by wp_step|].
  wp_step. unfold wait_count_body, get_timer_count. do 2 wp_step.
  eapply wp_mono; [by apply get_timer_count_masked_step|].
  intros o s1 t1 (now & Hn & -> & Hg & -> & Ht1). wp_line.
  rewrite Ht in Ht1. set (last := lastinc (glob s)) in *.
  set (acc' := acc + ticks last now - b2z (last <? now)).
  assert (Hacc : tbl (glob s1) = u32 (start + acc')).
  { rewrite Ht1. unfold acc'. rewrite <- Z.add_sub_assoc, u32_add_u32. f_equal. lia. }
  assert (Hflag : frzctrl_channel_freeze (glob s1) = frzctrl_channel_freeze (glob s)) by (by rewrite Hg).
  assert (Hlast : lastinc (glob s1) = now) by (by rewrite Hg).
  assert (Hcnt : u32 (tbl (glob s1) - start) = u32 acc').
  { rewrite Hacc. unfold Z.sub. rewrite u32_add_u32. f_equal. lia. }
  rewrite Hcnt. destruct (Z.ltb_spec (u32 acc') n).
  - eapply wp_mono; [apply (IH acc'); [by rewrite Hlast|done]|]. cbv beta.
    rewrite Hflag, Hlast. intros o s2 t2 [Hf Hr]. split; [done|]. intros Ho.
    destruct (Hr Ho) as (rs & -> & Hn2). exists (now :: rs). split; [done|].
    cbn [elapsed rollovers]. unfold acc' in Hn2.
    replace (acc + (ticks last now + elapsed now rs) - (b2z (last <? now) + rollovers now rs))
      with (acc + ticks last now - b2z (last <? now) + elapsed now rs - rollovers now rs) by lia. done.
  - wp_step. split; [done|]. intros _. exists [now]. split; [done|]. cbn [elapsed rollovers].
    unfold acc' in *. replace (acc + (ticks last now + 0) - (b2z (last <? now) + 0))
      with (acc + ticks last now - b2z (last <? now)) by lia. done.
Qed.

Lemma delay_intosc_spec fuel n (s : st D gdata) :
  wp (delay_intosc fuel n : M unit) s (fun o s' t =>
    frzctrl_channel_freeze (glob s') = frzctrl_channel_freeze (glob s) /\
    (o = Val tt -> waited n t)).
Proof.
  unfold delay_intosc, reset_timer_count, read_timer, get_timer_count. wp_run.
  eapply wp_mono; [by apply get_timer_count_masked_step|].
  intros o s1 t1 (now & Hn & -> & Hg & -> & Ht1). wp_run.
  set (start := u32 (tbl (glob s1) - 0)).
  assert (Hst : tbl (glob s1) = u32 (start + 0)).
  { unfold start. rewrite u32_add_u32. rewrite Ht1. cbn [glob set_time tbl lastinc].
    replace (u32 (0 + ticks v now - b2z (v <? now)) - 0 + 0)
      with (u32 (0 + ticks v now - b2z (v <? now))) by lia. by rewrite u32_idem. }
  eapply wp_mono; [apply (wait_count_loop _ _ _ 0); [by rewrite Hg|done]|]. cbv beta.
  rewrite Hg. intros o2 s2 t2 [Hf Hr]. split; [done|]. intros Ho.
  destruct (Hr Ho) as (rs & -> & Hn2). exists v, now, rs. done.
Qed.

Lemma delay_intosc_keeps fuel n `{!Reg D HIOCTRL_REG} : keeps HIOCTRL_REG (delay_intosc fuel n : M unit).
Proof.
  unfold delay_intosc, reset_timer_count, get_timer_count, wait_count_body, get_timer_count,
    get_timer_count_masked, read_timer. keeps_auto.
Qed.

(** A thaw of the DDR channel that returns performed exactly this sequence
    of accesses, whatever the device answers: the bias enable is held for at
    least 1000 timer ticks before bus hold and configuration are released, and
    those for at least 33 ticks before the pads are driven. *)
Theorem thaw_ddr_sequence fuel (s : st D gdata) status :
  out (sys_mgr_frzctrl_thaw_req fuel FREEZE_CHANNEL_3 FREEZE_CONTROLLER_FSM_SW s) = Val status ->
  exists v1 v2 v3 v4 v5 v6 d1 d2,
    tr (sys_mgr_frzctrl_thaw_req fuel FREEZE_CHANNEL_3 FREEZE_CONTROLLER_FSM_SW s) =
      [Wr SRC_REG 0; Rd HIOCTRL_REG v1; Wr HIOCTRL_REG (v1 .& .~ 0x20);
       Rd HIOCTRL_REG v2; Wr HIOCTRL_REG (v2 .| 0x100)] ++ d1 ++
      [Rd HIOCTRL_REG v3; Wr HIOCTRL_REG ((v3 .| 0x2 .| 0x1) .& .~ 0x40)] ++ d2 ++
      [Rd HIOCTRL_REG v4; Wr HIOCTRL_REG (v4 .| 0xC);
       Rd HIOCTRL_REG v5; Wr HIOCTRL_REG (v5 .& .~ 0x80);
       Rd HIOCTRL_REG v6; Wr HIOCTRL_REG (v6 .| 0x10)] /\
    waited 1000 d1 /\ waited 33 d2.
Proof.
  wp_enter. cbn [sys_mgr_frzctrl_thaw_req]. unfold thaw_hio. wp_run.
  eapply wp_mono; [apply delay_intosc_spec|]. intros [[]|] s1 t1 [_ Hw1]; [|done]. wp_run.
  eapply wp_mono; [apply delay_intosc_spec|]. intros [[]|] s2 t2 [_ Hw2]; [|done]. wp_run.
  unfold set_channel_flag. wp_run; [|done]. intros _. exists v, v0, v1, v2, v3, v4, t1, t2.
  rewrite !u32_word by word_solve. split; [|auto]. rewrite !app_nil_r, <- !app_assoc. reflexivity.
Qed.

Lemma thaw_hio_reg fuel (s : st D gdata) `{!Reg D HIOCTRL_REG} :
  length (frzctrl_channel_freeze (glob s)) = 4%nat ->
  wp (thaw_hio fuel FREEZE_CHANNEL_3 : M unit) s (fun o s' _ => o = Val tt ->
    reg HIOCTRL_REG s' = thawed_word FREEZE_CHANNEL_3 (reg HIOCTRL_REG s)).
Proof.
  intros Hl. unfold thaw_hio. reg_run HIOCTRL_REG.
  eapply wp_mono; [apply wp_and; [apply delay_intosc_spec|apply (wp_keeps HIOCTRL_REG);
    [apply delay_intosc_keeps|intros ? ? ? E; exact E]]|].
  cbv beta. cbn [glob]. intros [[]|] s1 t1 [[Hf1 _] Hr1]; [|done].
  reg_run HIOCTRL_REG.
  eapply wp_mono; [apply wp_and; [apply delay_intosc_spec|apply (wp_keeps HIOCTRL_REG);
    [apply delay_intosc_keeps|intros ? ? ? E; exact E]]|].
  cbv beta. cbn [glob]. intros [[]|] s2 t2 [[Hf2 _] Hr2]; [|done].
  reg_run HIOCTRL_REG.
  eapply wp_flag_reg; [done|cbn [glob]; by rewrite Hf2, Hf1|]. intros s' -> _.
  pose proof (word_reg HIOCTRL_REG s). reg_subst HIOCTRL_REG.
  rewrite !u32_word by word_solve. cbn [thawed_word]. mask_solve (reg HIOCTRL_REG s).
Qed.

Lemma freeze_req_reg c (s : st D gdata) `{!Reg D (io_reg c)} :
  c <> FREEZE_CHANNEL_UNDEFINED -> length (frzctrl_channel_freeze (glob s)) = 4%nat ->
  wp (sys_mgr_frzctrl_freeze_req c FREEZE_CONTROLLER_FSM_SW : M Z) s (fun _ s' _ =>
    reg (io_reg c) s' = frozen_word c (reg (io_reg c) s)).
Proof.
  intros Hc Hl. cbn [sys_mgr_frzctrl_freeze_req].
  apply wp_bind, (wp_writel_other (io_reg c)); [apply io_reg_src|].
  intros d Hd; cbv beta iota; rewrite <- Hd. destruct c; [..|done]; cbn [io_reg] in *; apply wp_bind;
    (eapply wp_mono; [first [by apply freeze_vio_reg | by apply freeze_hio_reg]|]);
    cbv beta; intros [[]|] s1 t1 [? Hr]; try done; wp_step; auto.
Qed.

Lemma thaw_req_reg fuel c (s : st D gdata) `{!Reg D (io_reg c)} :
  c <> FREEZE_CHANNEL_UNDEFINED -> length (frzctrl_channel_freeze (glob s)) = 4%nat ->
  wp (sys_mgr_frzctrl_thaw_req fuel c FREEZE_CONTROLLER_FSM_SW : M Z) s (fun o s' _ =>
    is_val o -> reg (io_reg c) s' = thawed_word c (reg (io_reg c) s)).
Proof.
  intros Hc Hl. cbn [sys_mgr_frzctrl_thaw_req].
  apply wp_bind, (wp_writel_other (io_reg c)); [apply io_reg_src|].
  intros d Hd; cbv beta iota; rewrite <- Hd. destruct c; [..|done]; cbn [io_reg] in *; apply wp_bind;
    (eapply wp_mono; [first [by apply thaw_vio_reg | by apply thaw_hio_reg]|]);
    cbv beta; intros [[]|] s1 t1; first [intros [? Hr] | intros Hr]; try (by intros []); wp_step; auto.
Qed.

(** C29: With a plain control register, a software freeze leaves the channel's
    register at its frozen word and a software thaw that returns at its thawed
    word: the five enable bits of a VIO channel, the nine control bits of the
    DDR channel, and no other bit. *)
Theorem freeze_thaw_registers fuel c (s : st D gdata) `{!Reg D (io_reg c)} :
  c <> FREEZE_CHANNEL_UNDEFINED -> length (frzctrl_channel_freeze (glob s)) = 4%nat ->
  reg (io_reg c) (fin (sys_mgr_frzctrl_freeze_req c FREEZE_CONTROLLER_FSM_SW s))
    = frozen_word c (reg (io_reg c) s) /\
  (forall status, out (sys_mgr_frzctrl_thaw_req fuel c FREEZE_CONTROLLER_FSM_SW s) = Val status ->
   reg (io_reg c) (fin (sys_mgr_frzctrl_thaw_req fuel c FREEZE_CONTROLLER_FSM_SW s))
    = thawed_word c (reg (io_reg c) s)).
Proof.
  intros Hc Hl. split; [by apply freeze_req_reg|]. intros status E.
  apply (thaw_req_reg fuel c s Hc Hl). by exists status.
Qed.

End proofs.

(** ** Concrete runs *)

Lemma sys_mgr_frzctrl_freeze_req_spec_witness :
  let s := mk_st (∅ : ram) gdata0 in
  let r := sys_mgr_frzctrl_freeze_req FREEZE_CHANNEL_1 FREEZE_CONTROLLER_FSM_SW s in
  frzctrl_channel_freeze (glob (fin r)) = [0; 0; 0; 0].
Proof.
  intros s r.
  destruct (sys_mgr_frzctrl_freeze_req_spec FREEZE_CHANNEL_1 FREEZE_CONTROLLER_FSM_SW s)
    as (status & _ & _ & E & Hsw & _); [discriminate|reflexivity|].
  unfold r. rewrite E, (Hsw eq_refl). reflexivity.
Defined.

Lemma freeze_thaw_registers_witness :
  let s := mk_st (<[VIOCTRL_REG 2 := 0xFF]> ∅ : ram) gdata0 in
  reg (VIOCTRL_REG 2) (fin (sys_mgr_frzctrl_freeze_req FREEZE_CHANNEL_2 FREEZE_CONTROLLER_FSM_SW s))
    = 0xE0 /\
  reg (VIOCTRL_REG 2) (fin (sys_mgr_frzctrl_thaw_req 1 FREEZE_CHANNEL_2 FREEZE_CONTROLLER_FSM_SW s))
    = 0xFF.
Proof.
  intros s. destruct (freeze_thaw_registers 1 FREEZE_CHANNEL_2 s) as [Hf Ht];
    [discriminate|reflexivity|].
  split; [exact Hf|]. exact (Ht 0 eq_refl).
Defined.

(** A device with a running timer and memory elsewhere. *)
Definition timed_ram := (Z * ram)%type.
#[export] Instance timed_ram_device : Device timed_ram := {
  dev_read a d := if a =? timer_base_curr_val then (fst d, (fst d - 10, snd d))
                  else (default 0 (snd d !! a), d);
  dev_write a v d := (fst d, <[a := v]> (snd d))
}.

Lemma thaw_ddr_sequence_witness :
  let s := mk_st ((0xF0000000, ∅) : timed_ram) gdata0 in
  exists v1 v2 v3 v4 v5 v6 d1 d2,
    tr (sys_mgr_frzctrl_thaw_req 200 FREEZE_CHANNEL_3 FREEZE_CONTROLLER_FSM_SW s) =
      [Wr SRC_REG 0; Rd HIOCTRL_REG v1; Wr HIOCTRL_REG (v1 .& .~ 0x20);
       Rd HIOCTRL_REG v2; Wr HIOCTRL_REG (v2 .| 0x100)] ++ d1 ++
      [Rd HIOCTRL_REG v3; Wr HIOCTRL_REG ((v3 .| 0x2 .| 0x1) .& .~ 0x40)] ++ d2 ++
      [Rd HIOCTRL_REG v4; Wr HIOCTRL_REG (v4 .| 0xC);
       Rd HIOCTRL_REG v5; Wr HIOCTRL_REG (v5 .& .~ 0x80);
       Rd HIOCTRL_REG v6; Wr HIOCTRL_REG (v6 .| 0x10)] /\
    waited 1000 d1 /\ waited 33 d2.
Proof. intros s. apply (thaw_ddr_sequence 200 s 0). vm_compute. reflexivity. Defined.

(** A hardware freeze with an undefined channel, which the header says is
    ignored, writes outside the array of flags once channel 1 is frozen. *)
Example freeze_hw_undefined_channel :
  out (sys_mgr_frzctrl_freeze_req FREEZE_CHANNEL_UNDEFINED FREEZE_CONTROLLER_FSM_HW
         (mk_st (<[HWCTRL_REG := 4]> ∅ : ram) gdata0)) = Stop Undef.
Proof. vm_compute. reflexivity. Qed.
