(* ===== verification/ScanManager.v ===== *)
(** The scan manager (scan_manager.c): shifting the I/O configuration of a bank
    into its scan chain, in packets of at most 128 bits. *)

From S2P Require Import Prelude Mmio Regs Globals Timer FreezeController.

Inductive IOScanChainSelect :=
| IO_SCAN_CHAIN_0 | IO_SCAN_CHAIN_1 | IO_SCAN_CHAIN_2 | IO_SCAN_CHAIN_3
| IO_SCAN_CHAIN_UNDEFINED.

(** IO scan chain ID is 1:1 mapping to freeze channel ID. *)
Definition channel_of_chain (id : IOScanChainSelect) : FreezeChannelSelect :=
  match id with
  | IO_SCAN_CHAIN_0 => FREEZE_CHANNEL_0 | IO_SCAN_CHAIN_1 => FREEZE_CHANNEL_1
  | IO_SCAN_CHAIN_2 => FREEZE_CHANNEL_2 | IO_SCAN_CHAIN_3 => FREEZE_CHANNEL_3
  | IO_SCAN_CHAIN_UNDEFINED => FREEZE_CHANNEL_UNDEFINED
  end.

Definition chain_num (id : IOScanChainSelect) : Z := channel_num (channel_of_chain id).

Definition SCAN_STAT_REG : Z := SOCFPGA_SCANMGR_ADDRESS + SCANMGR_STAT_ADDRESS.
Definition SCAN_EN_REG : Z := SOCFPGA_SCANMGR_ADDRESS + SCANMGR_EN_ADDRESS.
Definition FIFO1_REG : Z := SOCFPGA_SCANMGR_ADDRESS + SCANMGR_FIFOSINGLEBYTE_ADDRESS.
Definition FIFO2_REG : Z := SOCFPGA_SCANMGR_ADDRESS + SCANMGR_FIFODOUBLEBYTE_ADDRESS.
Definition FIFO4_REG : Z := SOCFPGA_SCANMGR_ADDRESS + SCANMGR_FIFOQUADBYTE_ADDRESS.

Section scan_manager.
Context {D : Type} `{Device D}.
Abbreviation M := (M D gdata).

(** Reading [i] of the loop is followed by [max_iter--]; the loop goes on
    while the result is above zero (for [max_iter >= 1]). *)
Definition scan_mgr_io_scan_chain_engine_is_idle (max_iter : Z) : M Z :=
  let* r := for_upto max_iter (fun i =>
    let* scanmgr_status := readl SCAN_STAT_REG in
    if truthy (SCANMGR_STAT_ACTIVE_GET scanmgr_status) ||
       (0 <? SCANMGR_STAT_WFIFOCNT_GET scanmgr_status)
    then if 0 <? max_iter - (i + 1) then ret None
         else ret (Some SCAN_MGR_IO_SCAN_ENGINE_STATUS_ACTIVE)
    else ret (Some SCAN_MGR_IO_SCAN_ENGINE_STATUS_IDLE)) in
  match r with
  | Some v => ret v
  | None => ret SCAN_MGR_IO_SCAN_ENGINE_STATUS_ACTIVE
  end.

(** Waits for the engine; on a time out the chain is disabled and the
    function returns 1. *)
Definition scan_check_done (id : IOScanChainSelect) : M (option Z) :=
  let* idle := scan_mgr_io_scan_chain_engine_is_idle MAX_WAITING_DELAY_IO_SCAN_ENGINE in
  if negb (SCAN_MGR_IO_SCAN_ENGINE_STATUS_IDLE =? idle) then
    clrbits_le32 SCAN_EN_REG (1 .<< chain_num id) ;;;
    ret (Some 1)
  else ret None.

(** One full 128-bit TDI_TDO packet. *)
Definition scan_packet128 (id : IOScanChainSelect) (iocsr_scan_chain : list Z) (i : Z)
    : M (option Z) :=
  let tdi_tdo_header := TDI_TDO_HEADER_FIRST_BYTE .|
    (TDI_TDO_MAX_PAYLOAD .<< TDI_TDO_HEADER_SECOND_BYTE_SHIFT) in
  writel tdi_tdo_header FIFO2_REG ;;;
  let index := i * 4 in
  let* w := array_get iocsr_scan_chain index in writel w FIFO4_REG ;;;
  let* w := array_get iocsr_scan_chain (index + 1) in writel w FIFO4_REG ;;;
  let* w := array_get iocsr_scan_chain (index + 2) in writel w FIFO4_REG ;;;
  let* w := array_get iocsr_scan_chain (index + 3) in writel w FIFO4_REG ;;;
  scan_check_done id.

(** The final packet of 1 to 127 bits, from word [index] on. *)
Definition scan_packet_tail (id : IOScanChainSelect) (iocsr_scan_chain : list Z)
    (index data_residual : Z) : M (option Z) :=
  let io_program_iter := data_residual .>> IO_SCAN_CHAIN_32BIT_SHIFT in
  let tdi_tdo_header := TDI_TDO_HEADER_FIRST_BYTE .|
    ((data_residual - 1) .<< TDI_TDO_HEADER_SECOND_BYTE_SHIFT) in
  writel tdi_tdo_header FIFO2_REG ;;;
  for_upto io_program_iter (fun i =>
    let* w := array_get iocsr_scan_chain (index + i) in
    writel w FIFO4_REG ;;; ret (None : option unit)) ;;;
  let index := index + io_program_iter in
  let residual := data_residual .& IO_SCAN_CHAIN_32BIT_MASK in
  (if IO_SCAN_CHAIN_PAYLOAD_24BIT <? residual then
     let* w := array_get iocsr_scan_chain index in writel w FIFO4_REG
   else
     (* for (i = 0; i < residual; i += 8) *)
     for_upto ((residual + 7) / 8) (fun k =>
       let* w := array_get iocsr_scan_chain index in
       writel ((w .>> (8 * k)) .& IO_SCAN_CHAIN_BYTE_MASK) FIFO1_REG ;;;
       ret (None : option unit)) ;;; ret tt) ;;;
  scan_check_done id.

Definition scan_mgr_io_scan_chain_prg (id : IOScanChainSelect)
    (io_scan_chain_len_in_bits : Z) (iocsr_scan_chain : list Z) : M Z :=
  let* frozen := sys_mgr_frzctrl_frzchn_is_frozen (channel_of_chain id) in
  if negb (truthy frozen) then ret 1 else
  (match id with
   | IO_SCAN_CHAIN_3 => clrbits_le32 HIOCTRL_REG SYSMGR_FRZCTRL_HIOCTRL_DLLRST_MASK
   | _ => ret tt
   end) ;;;
  let* idle := scan_mgr_io_scan_chain_engine_is_idle MAX_WAITING_DELAY_IO_SCAN_ENGINE in
  if negb (SCAN_MGR_IO_SCAN_ENGINE_STATUS_IDLE =? idle) then ret 1 else
  setbits_le32 SCAN_EN_REG (1 .<< chain_num id) ;;;
  let io_program_iter := io_scan_chain_len_in_bits .>> IO_SCAN_CHAIN_128BIT_SHIFT in
  let data_residual := io_scan_chain_len_in_bits .& IO_SCAN_CHAIN_128BIT_MASK in
  let* r := for_upto io_program_iter (scan_packet128 id iocsr_scan_chain) in
  match r with
  | Some v => ret v
  | None =>
      let index := io_program_iter * 4 in
      let* r := (if negb (0 =? data_residual)
                 then scan_packet_tail id iocsr_scan_chain index data_residual
                 else ret None) in
      match r with
      | Some v => ret v
      | None =>
          clrbits_le32 SCAN_EN_REG (1 .<< chain_num id) ;;;
          ret 0
      end
  end.

End scan_manager.

(** ** What the scan engine receives *)

Definition le_bytes (n : nat) (v : Z) : list Z :=
  map (fun k => (v .>> (8 * Z.of_nat k)) .& 0xFF) (seq 0 n).

(** The bytes a trace pushes into the write FIFO. *)
Definition fifo_event (e : event) : list Z :=
  match e with
  | Wr a v => if a =? FIFO1_REG then le_bytes 1 v
              else if a =? FIFO2_REG then le_bytes 2 v
              else if a =? FIFO4_REG then le_bytes 4 v else []
  | _ => []
  end.
Definition fifo_bytes (t : trace) : list Z := concat (map fifo_event t).

Definition no_fifo (e : event) : Prop :=
  match e with Wr a _ => a <> FIFO1_REG /\ a <> FIFO2_REG /\ a <> FIFO4_REG | _ => True end.

(** The scan engine: a TDI_TDO packet is 0x80, the number of bits less one,
    and that many bits, least significant first, padded to whole bytes. *)
Definition byte_bits (b : Z) : list bool := map (fun i => Z.testbit b (Z.of_nat i)) (seq 0 8).
Definition bits_of (bs : list Z) : list bool := concat (map byte_bits bs).
Definition bytes_for (bits : nat) : nat := ((bits + 7) / 8)%nat.

Fixpoint engine_bits (fuel : nat) (bs : list Z) : option (list bool) :=
  match fuel with
  | O => None
  | S fuel =>
      match bs with
      | [] => Some []
      | h :: n :: rest =>
          let k := S (Z.to_nat n) in
          if (h =? 0x80) && (bytes_for k <=? length rest)%nat then
            match engine_bits fuel (drop (bytes_for k) rest) with
            | Some out => Some (take k (bits_of rest) ++ out)
            | None => None
            end
          else None
      | _ => None
      end
  end.

(** The configuration table as bytes and as bits. *)
Definition table_bytes (tbl : list Z) : list Z := concat (map (le_bytes 4) tbl).
Definition table_bits (tbl : list Z) : list bool := bits_of (table_bytes tbl).

(** The byte stream for the first [len] bits of a table. *)
Definition full_packet (tbl : list Z) (i : nat) : list Z :=
  [0x80; 127] ++ take 16 (drop (16 * i) (table_bytes tbl)).
Definition tail_packet (tbl : list Z) (len : nat) : list Z :=
  if (len mod 128 =? 0)%nat then []
  else [0x80; Z.of_nat (len mod 128) - 1] ++
       take (bytes_for (len mod 128)) (drop (16 * (len / 128)) (table_bytes tbl)).
Definition scan_stream (len : nat) (tbl : list Z) : list Z :=
  concat (map (full_packet tbl) (seq 0 (len / 128))) ++ tail_packet tbl len.

Lemma fifo_bytes_app t t' : fifo_bytes (t ++ t') = fifo_bytes t ++ fifo_bytes t'.
Proof. unfold fifo_bytes. by rewrite map_app, concat_app. Qed.

Lemma fifo_bytes_none t : Forall no_fifo t -> fifo_bytes t = [].
Proof.
  induction 1 as [|[| a v |] t He Ht IH]; unfold fifo_bytes in *; cbn [map concat fifo_event];
    [done|by rewrite IH| |by rewrite IH].
  destruct He as (H1 & H2 & H4). rewrite !(proj2 (Z.eqb_neq _ _)) by done. by rewrite IH.
Qed.

Lemma length_le_bytes n v : length (le_bytes n v) = n.
Proof. unfold le_bytes. by rewrite length_map, length_seq. Qed.

Lemma length_table_bytes tbl : length (table_bytes tbl) = (4 * length tbl)%nat.
Proof.
  unfold table_bytes. induction tbl as [|w tbl IH]; [done|].
  cbn [map concat length]. rewrite length_app, length_le_bytes, IH. lia.
Qed.

Lemma table_bytes_app l l' : table_bytes (l ++ l') = table_bytes l ++ table_bytes l'.
Proof. unfold table_bytes. by rewrite map_app, concat_app. Qed.

Lemma table_bytes_drop n tbl : drop (4 * n) (table_bytes tbl) = table_bytes (drop n tbl).
Proof.
  revert tbl. induction n as [|n IH]; intros tbl; [done|]. destruct tbl as [|w tbl]; [by rewrite drop_nil|].
  cbn [drop]. rewrite <- IH. replace (4 * S n)%nat with (4 + 4 * n)%nat by lia.
  unfold table_bytes at 1. cbn [map concat]. rewrite <- drop_drop. reflexivity.
Qed.

(** ** The stream decodes to the table *)

Lemma bits_of_app l l' : bits_of (l ++ l') = bits_of l ++ bits_of l'.
Proof. unfold bits_of. by rewrite map_app, concat_app. Qed.

Lemma length_bits_of l : length (bits_of l) = (8 * length l)%nat.
Proof.
  unfold bits_of. induction l as [|b l IH]; [done|]. cbn [map concat]. rewrite length_app, IH.
  unfold byte_bits. rewrite length_map, length_seq. cbn [length]. lia.
Qed.

Lemma bits_of_drop n l : bits_of (drop n l) = drop (8 * n) (bits_of l).
Proof.
  destruct (decide (n <= length l)%nat) as [Hn|Hn].
  - rewrite <- (take_drop n l) at 2. rewrite bits_of_app, drop_app_ge by
      (rewrite length_bits_of, length_take; lia).
    rewrite length_bits_of, length_take.
    replace (8 * n - 8 * (n `min` length l))%nat with 0%nat by lia. done.
  - rewrite !drop_ge by (rewrite ?length_bits_of; lia). done.
Qed.

Lemma bits_of_take n l : bits_of (take n l) = take (8 * n) (bits_of l).
Proof.
  destruct (decide (n <= length l)%nat) as [Hn|Hn].
  - rewrite <- (take_drop n l) at 2. rewrite bits_of_app, take_app_le by
      (rewrite length_bits_of, length_take; lia).
    rewrite (take_ge (bits_of _)); [done|]. rewrite length_bits_of, length_take. lia.
  - rewrite !take_ge by (rewrite ?length_bits_of; lia). done.
Qed.

(** One packet of [k] bits whose payload is [k] bits of [l], padded. *)
Lemma engine_packet fuel k l rest out :
  (1 <= k <= 128)%nat -> (bytes_for k <= length l)%nat -> engine_bits fuel rest = Some out ->
  engine_bits (S fuel) ([0x80; Z.of_nat k - 1] ++ take (bytes_for k) l ++ rest)
    = Some (take k (bits_of l) ++ out).
Proof.
  intros Hk Hl Hr. cbn [engine_bits app]. change (0x80 =? 0x80) with true. cbn [andb].
  replace (S (Z.to_nat (Z.of_nat k - 1))) with k by lia.
  assert (Hlen : length (take (bytes_for k) l) = bytes_for k) by (rewrite length_take; lia).
  rewrite (proj2 (Nat.leb_le _ _)) by (rewrite length_app, Hlen; lia).
  rewrite drop_app_length' by done. rewrite Hr. do 2 f_equal.
  assert (Hb : (k <= 8 * bytes_for k)%nat) by (unfold bytes_for; div_lia).
  rewrite bits_of_app, take_app_le by (rewrite length_bits_of, Hlen; done).
  by rewrite bits_of_take, take_take, Nat.min_l.
Qed.

Lemma engine_full_packets fuel tbl i n rest out :
  (16 * (i + n) <= 4 * length tbl)%nat -> engine_bits fuel rest = Some out ->
  engine_bits (n + fuel) (concat (map (full_packet tbl) (seq i n)) ++ rest)
    = Some (take (128 * n) (drop (128 * i) (table_bits tbl)) ++ out).
Proof.
  revert i. induction n as [|n IH]; intros i Hi Hr; [by rewrite take_0|].
  cbn [seq map concat Nat.add]. unfold full_packet at 1. rewrite <- !app_assoc.
  change 127 with (Z.of_nat 128 - 1). change 16%nat with (bytes_for 128).
  erewrite engine_packet; [|lia| |apply IH; [lia|done]].
  - rewrite app_assoc. f_equal. f_equal. unfold table_bits. rewrite bits_of_drop.
    change (bytes_for 128) with 16%nat. replace (8 * (16 * i))%nat with (128 * i)%nat by lia.
    replace (128 * S i)%nat with (128 * i + 128)%nat by lia. rewrite <- drop_drop.
    rewrite take_take_drop. f_equal. lia.
  - rewrite length_drop, length_table_bytes. change (bytes_for 128) with 16%nat. lia.
Qed.

(** The engine reads back from the stream the first [len] bits of the table. *)
Lemma scan_stream_decodes len tbl fuel :
  (len / 32 < length tbl)%nat -> (len / 128 + 2 <= fuel)%nat ->
  engine_bits fuel (scan_stream len tbl) = Some (take len (table_bits tbl)).
Proof.
  intros Hlen Hf. set (n := (len / 128)%nat). set (r := (len mod 128)%nat).
  assert (Hn : len = (128 * n + r)%nat) by (apply Nat.div_mod; done).
  assert (Hr : (r < 128)%nat) by (by apply Nat.mod_upper_bound).
  assert (Hb : (16 * n + bytes_for r <= 4 * length tbl)%nat) by
    (unfold bytes_for; clear - Hlen Hn Hr; clearbody n r; subst len; div_lia).
  replace fuel with (n + S (fuel - n - 1))%nat by (unfold n in *; lia).
  unfold scan_stream. fold n.
  assert (Htail : engine_bits (S (fuel - n - 1)) (tail_packet tbl len)
                  = Some (take r (drop (128 * n) (table_bits tbl)))).
  { unfold tail_packet. fold r n. destruct (Nat.eqb_spec r 0) as [->|]; [by rewrite take_0|].
    destruct (fuel - n - 1)%nat as [|f] eqn:Ef; [unfold n in *; lia|].
    rewrite <- (app_nil_r (take _ _)). erewrite engine_packet; [|lia| |reflexivity].
    - rewrite app_nil_r. unfold table_bits. rewrite bits_of_drop. do 3 f_equal. lia.
    - rewrite length_drop, length_table_bytes. lia. }
  erewrite engine_full_packets; [|clear - Hb; cbn [Nat.add]; lia|exact Htail].
  rewrite Nat.mul_0_r, drop_0, take_take_drop. by rewrite <- Hn.
Qed.

(** ** The packets written *)

Lemma word_le_byte1 w k : word w -> le_bytes 1 ((w .>> (8 * k)) .& 0xFF) = [(w .>> (8 * k)) .& 0xFF].
Proof.
  intros. unfold le_bytes. cbn [seq map]. rewrite Z.shiftr_0_r, <- Z.land_assoc. done.
Qed.

Lemma tail_header r : 1 <= r <= 127 ->
  le_bytes 2 (u32 (TDI_TDO_HEADER_FIRST_BYTE .| ((r - 1) .<< TDI_TDO_HEADER_SECOND_BYTE_SHIFT)))
    = [0x80; r - 1].
Proof.
  intros Hr.
  assert (Hall : forallb (fun k => let r := Z.of_nat k in
    bool_decide (le_bytes 2 (u32 (TDI_TDO_HEADER_FIRST_BYTE .|
       ((r - 1) .<< TDI_TDO_HEADER_SECOND_BYTE_SHIFT))) = [0x80; r - 1])) (seq 1 127) = true)
    by (vm_compute; reflexivity).
  rewrite forallb_forall in Hall. specialize (Hall (Z.to_nat r)).
  rewrite Z2Nat.id in Hall by lia. apply (bool_decide_eq_true_1 _), Hall, in_seq. lia.
Qed.

Section proofs.
Context {D : Type} `{Device D}.
Abbreviation M := (M D gdata).

Lemma engine_idle_effects n : only no_fifo (scan_mgr_io_scan_chain_engine_is_idle n : M Z).
Proof. unfold scan_mgr_io_scan_chain_engine_is_idle. hw_auto. Qed.

Lemma engine_idle_total n : total (scan_mgr_io_scan_chain_engine_is_idle n : M Z).
Proof. unfold scan_mgr_io_scan_chain_engine_is_idle. hw_auto. Qed.

Lemma only_clr_en id : only no_fifo (clrbits_le32 SCAN_EN_REG (1 .<< chain_num id) : M unit).
Proof. apply only_clrbits; event_ok. Qed.
#[local] Hint Resolve engine_idle_effects engine_idle_total only_clr_en : hw.

Lemma check_done_effects id : only no_fifo (scan_check_done id : M _).
Proof. unfold scan_check_done. hw_auto. Qed.

Lemma check_done_yields id : yields (fun r => r = None \/ r = Some 1) (scan_check_done id : M _).
Proof. unfold scan_check_done. yields_auto; hw_auto; auto. Qed.

(** A call of [scan_check_done] after bytes were pushed adds none. *)
Lemma wp_check_done id (s : st D gdata) (Q : outcome (option Z) -> st D gdata -> trace -> Prop) :
  (forall r s' t, r = None \/ r = Some 1 -> fifo_bytes t = [] -> Q (Val r) s' t) ->
  wp (scan_check_done id : M _) s Q.
Proof.
  intros HQ. eapply wp_effects; [apply check_done_effects|apply check_done_yields|].
  intros r s' t Hr Ht. apply HQ; [done|]. by apply fifo_bytes_none.
Qed.

Lemma packet128_spec id tbl i (s : st D gdata) :
  Forall word tbl -> (4 * i + 3 < length tbl)%nat ->
  wp (scan_packet128 id tbl (Z.of_nat i) : M _) s (fun o s' t =>
    exists r, o = Val r /\ (r = None \/ r = Some 1) /\ fifo_bytes t = full_packet tbl i).
Proof.
  intros Hw Hi.
  destruct (drop (4 * i) tbl) as [|w0 [|w1 [|w2 [|w3 rest]]]] eqn:E;
    try (apply (f_equal length) in E; rewrite length_drop in E; cbn in E; lia).
  assert (Hk : forall k w, [w0; w1; w2; w3] !! k = Some w ->
    tbl !! (4 * i + k)%nat = Some w /\ word w).
  { intros k w Hk. assert (Hl : tbl !! (4 * i + k)%nat = Some w).
    { rewrite <- lookup_drop, E. by apply (lookup_app_l_Some [w0; w1; w2; w3] rest). }
    split; [done|]. rewrite Forall_lookup in Hw. eauto. }
  destruct (Hk 0%nat w0 eq_refl) as [L0 W0], (Hk 1%nat w1 eq_refl) as [L1 W1],
    (Hk 2%nat w2 eq_refl) as [L2 W2], (Hk 3%nat w3 eq_refl) as [L3 W3].
  unfold scan_packet128. cbv zeta. do 2 wp_step.
  wp_step. eapply wp_array_get; [|exact L0|]; [lia|]. do 2 wp_step.
  wp_step. eapply wp_array_get; [|exact L1|]; [lia|]. do 2 wp_step.
  wp_step. eapply wp_array_get; [|exact L2|]; [lia|]. do 2 wp_step.
  wp_step. eapply wp_array_get; [|exact L3|]; [lia|]. do 2 wp_step.
  apply wp_check_done. intros r s' t Hr Ht. exists r. do 2 (split; [done|]).
  rewrite !fifo_bytes_app, Ht. unfold full_packet.
  replace (16 * i)%nat with (4 * (4 * i))%nat by lia. rewrite table_bytes_drop, E.
  rewrite !u32_word by word_solve. unfold table_bytes. cbn [map concat].
  reflexivity.
Qed.

(** A counting loop that always goes on and pushes [f i] in turn [i]. *)
Lemma wp_push_loop {A} n (body : Z -> M (option A)) (f : nat -> list Z) (s : st D gdata)
    (Q : outcome (option A) -> st D gdata -> trace -> Prop) :
  (forall i s, (i < n)%nat -> wp (body (Z.of_nat i)) s (fun o _ t => o = Val None /\ fifo_bytes t = f i)) ->
  (forall s' t, fifo_bytes t = concat (map f (seq 0 n)) -> Q (Val None) s' t) ->
  wp (for_upto (Z.of_nat n) body) s Q.
Proof.
  intros Hb HQ. apply wp_for with (I := fun i _ t => 0 <= i /\
    fifo_bytes t = concat (map f (seq 0 (Z.to_nat i)))); [lia|done| |].
  - intros i s1 t Hi [_ Ht]. replace i with (Z.of_nat (Z.to_nat i)) at 1 by lia.
    eapply wp_mono; [apply Hb; lia|]. intros o s2 t2 [-> Ht2]. split; [lia|].
    rewrite fifo_bytes_app, Ht, Ht2. replace (Z.to_nat (i + 1)) with (S (Z.to_nat i)) by lia.
    rewrite seq_S, map_app, concat_app. cbn [map concat Nat.add]. by rewrite app_nil_r.
  - intros s1 t [_ Ht]. apply HQ. by rewrite Nat2Z.id in Ht.
Qed.

Lemma table_bytes_words (l : list Z) n : (n <= length l)%nat ->
  concat (map (fun i => le_bytes 4 (default 0 (l !! i))) (seq 0 n)) = table_bytes (take n l).
Proof.
  revert n. induction l as [|w l IH]; intros n Hn; [by destruct n; cbn in *; [|lia]|].
  destruct n as [|n]; [done|]. cbn [take]. unfold table_bytes in *. cbn [seq map concat].
  rewrite <- IH by (cbn in Hn; lia). rewrite <- seq_shift, map_map. done.
Qed.

Lemma le_bytes_take k w :
  (k <= 4)%nat -> map (fun i => (w .>> (8 * Z.of_nat i)) .& 0xFF) (seq 0 k) = take k (le_bytes 4 w).
Proof. intros. do 5 (destruct k as [|k]; [reflexivity|]). lia. Qed.

Lemma concat_singletons {A} (f : nat -> A) l : concat (map (fun i => [f i]) l) = map f l.
Proof. induction l; cbn; congruence. Qed.

Lemma tail_spec id tbl len (s : st D gdata) :
  Forall word tbl -> (len / 32 < length tbl)%nat -> (len mod 128 <> 0)%nat ->
  wp (scan_packet_tail id tbl (Z.of_nat (4 * (len / 128))) (Z.of_nat (len mod 128)) : M _) s
    (fun o s' t => exists r, o = Val r /\ (r = None \/ r = Some 1) /\
       fifo_bytes t = tail_packet tbl len).
Proof.
  intros Hw Hlen Hr0. set (r := (len mod 128)%nat) in *. set (base := (4 * (len / 128))%nat).
  assert (Hr : (r < 128)%nat) by (by apply Nat.mod_upper_bound).
  assert (Hbase : (len / 32 = base + r / 32)%nat).
  { unfold base, r. div_lia. }
  assert (Hq : (r / 32 <= length tbl - base)%nat) by (clear - Hlen Hbase; lia).
  destruct (lookup_lt_is_Some_2 tbl (base + r / 32)) as [w Hlw]; [lia|].
  assert (Hww : word w) by (rewrite Forall_lookup in Hw; eauto).
  unfold scan_packet_tail.
  replace (Z.of_nat r .>> IO_SCAN_CHAIN_32BIT_SHIFT) with (Z.of_nat (r / 32))
    by (change IO_SCAN_CHAIN_32BIT_SHIFT with 5; rewrite Z.shiftr_div_pow2 by lia; by rewrite Nat2Z.inj_div).
  replace (Z.of_nat r .& IO_SCAN_CHAIN_32BIT_MASK) with (Z.of_nat (r mod 32))
    by (change IO_SCAN_CHAIN_32BIT_MASK with (Z.ones 5); rewrite Z.land_ones by lia; by rewrite Nat2Z.inj_mod).
  cbv zeta. do 2 wp_step. wp_step.
  apply (wp_push_loop _ _ (fun i => le_bytes 4 (default 0 (drop base tbl !! i)))).
  { intros i s1 Hi. destruct (lookup_lt_is_Some_2 tbl (base + i)) as [wi Hwi]; [lia|].
    assert (word wi) by (rewrite Forall_lookup in Hw; eauto).
    wp_step. eapply wp_array_get; [|exact Hwi|]; [lia|]. wp_line. split; [done|].
    rewrite u32_word by done. rewrite lookup_drop, Hwi. cbn [default]. unfold fifo_bytes.
    cbn [app map concat fifo_event]. by rewrite !app_nil_r. }
  intros s2 t2 Ht2. cbv beta iota. rewrite table_bytes_words in Ht2 by (rewrite length_drop; lia).
  change IO_SCAN_CHAIN_PAYLOAD_24BIT with 24.
  assert (Htail : take (bytes_for r) (drop (16 * (len / 128)) (table_bytes tbl)) =
    table_bytes (take (r / 32) (drop base tbl)) ++ take (bytes_for (r mod 32)) (le_bytes 4 w)).
  { replace (16 * (len / 128))%nat with (4 * base)%nat by (unfold base; lia).
    rewrite table_bytes_drop. rewrite <- (take_drop (r / 32) (drop base tbl)) at 1.
    rewrite table_bytes_app, take_app_ge by (rewrite length_table_bytes, length_take, length_drop;
      unfold bytes_for; div_lia).
    f_equal. rewrite length_table_bytes, length_take, length_drop.
    replace (bytes_for r - 4 * ((r / 32) `min` (length tbl - base)))%nat with (bytes_for (r mod 32))
      by (rewrite Nat.min_l by exact Hq; clear - Hr; clearbody r; unfold bytes_for; div_lia).
    rewrite drop_drop, (drop_S tbl w) by done.
    unfold table_bytes. cbn [map concat]. apply take_app_le. rewrite length_le_bytes.
    unfold bytes_for. pose proof (Nat.mod_upper_bound r 32).
    div_lia. }
  assert (Hmid : forall s, wp ((if 24 <? Z.of_nat (r mod 32)
     then let* w0 := array_get tbl (Z.of_nat base + Z.of_nat (r / 32)) in writel w0 FIFO4_REG
     else for_upto ((Z.of_nat (r mod 32) + 7) / 8) (fun k =>
       let* w0 := array_get tbl (Z.of_nat base + Z.of_nat (r / 32)) in
       writel ((w0 .>> (8 * k)) .& IO_SCAN_CHAIN_BYTE_MASK) FIFO1_REG ;;;
       ret (None : option unit)) ;;; ret tt) : M unit) s (fun o _ t =>
     o = Val tt /\ fifo_bytes t = take (bytes_for (r mod 32)) (le_bytes 4 w))).
  { intros s3. destruct (Z.ltb_spec 24 (Z.of_nat (r mod 32))).
    - wp_step. eapply wp_array_get; [|exact Hlw|]; [lia|]. wp_line. split; [done|].
      rewrite u32_word by done. rewrite take_ge by (rewrite length_le_bytes; unfold bytes_for; div_lia).
      unfold fifo_bytes. cbn [app map concat fifo_event]. by rewrite !app_nil_r.
    - replace ((Z.of_nat (r mod 32) + 7) / 8) with (Z.of_nat (bytes_for (r mod 32)))
        by (unfold bytes_for; div_lia).
      wp_step. apply (wp_push_loop _ _ (fun i => [(w .>> (8 * Z.of_nat i)) .& 0xFF])).
      + intros i s4 Hi. wp_step. eapply wp_array_get; [|exact Hlw|]; [lia|]. wp_line.
        split; [done|]. change IO_SCAN_CHAIN_BYTE_MASK with 255. rewrite u32_word by word_solve.
        unfold fifo_bytes. cbn [app map concat].
        change (fifo_event (Wr FIFO1_REG ?v)) with (le_bytes 1 v).
        rewrite word_le_byte1 by done. done.
      + intros s4 t4 Ht4. cbv beta iota. wp_step. split; [done|]. rewrite app_nil_r, Ht4.
        rewrite concat_singletons, le_bytes_take; [done|]. unfold bytes_for. div_lia. }
  wp_step. eapply wp_mono; [apply Hmid|]. intros o3 s3 t3 [-> Ht3]. cbv beta iota.
  apply wp_check_done. intros res s4 t4 Hres Ht4. exists res. do 2 (split; [done|]).
  rewrite !fifo_bytes_app, Ht2, Ht3, Ht4, app_nil_r. unfold tail_packet. fold r.
  rewrite (proj2 (Nat.eqb_neq r 0)) by done. rewrite Htail. f_equal.
  unfold fifo_bytes. cbn [map concat]. rewrite app_nil_r. apply tail_header. lia.
Qed.

Lemma packets_prefix tbl len i :
  (i <= len / 128)%nat ->
  concat (map (full_packet tbl) (seq 0 i)) `prefix_of` scan_stream len tbl.
Proof.
  intros Hi. unfold scan_stream. replace (len / 128)%nat with (i + (len / 128 - i))%nat at 1 by lia.
  rewrite seq_app, map_app, concat_app, <- app_assoc. by eexists.
Qed.

Lemma wp_quiet {A} (m : M A) (s : st D gdata) (Q : outcome A -> st D gdata -> trace -> Prop) :
  only no_fifo m -> total m -> (forall a s' t, fifo_bytes t = [] -> Q (Val a) s' t) -> wp m s Q.
Proof.
  intros Ho Ht HQ. eapply wp_effects; [exact Ho|by apply total_yields|].
  intros a s' t _ Hf. apply HQ. by apply fifo_bytes_none.
Qed.

Lemma full_packets_spec id len tbl (s : st D gdata) :
  Forall word tbl -> (len / 32 < length tbl)%nat ->
  wp (for_upto (Z.of_nat (len / 128)) (scan_packet128 id tbl) : M _) s (fun o _ t =>
    (o = Val None /\ fifo_bytes t = concat (map (full_packet tbl) (seq 0 (len / 128)))) \/
    (o = Val (Some 1) /\ fifo_bytes t `prefix_of` scan_stream len tbl)).
Proof.
  intros Hw Hlen. apply wp_for with (I := fun i _ t => 0 <= i /\
    fifo_bytes t = concat (map (full_packet tbl) (seq 0 (Z.to_nat i)))); [lia|done| |].
  - intros i s1 t Hi [_ Ht]. replace i with (Z.of_nat (Z.to_nat i)) at 1 by lia.
    assert (Hn : (Z.to_nat i < len / 128)%nat) by lia.
    eapply wp_mono; [apply packet128_spec; [done|]|].
    { clear - Hlen Hn. div_lia. }
    intros o s2 t2 (r & -> & Hr & Ht2).
    assert (E : fifo_bytes (t ++ t2) = concat (map (full_packet tbl) (seq 0 (S (Z.to_nat i))))).
    { rewrite fifo_bytes_app, Ht, Ht2, seq_S, map_app, concat_app. cbn [map concat Nat.add].
      by rewrite app_nil_r. }
    destruct Hr as [->| ->].
    + split; [lia|]. by replace (Z.to_nat (i + 1)) with (S (Z.to_nat i)) by lia.
    + right. split; [done|]. rewrite E. apply packets_prefix. lia.
  - intros s1 t [_ Ht]. left. by rewrite Nat2Z.id in Ht.
Qed.

Lemma tail_step id len tbl (s : st D gdata) :
  Forall word tbl -> (len / 32 < length tbl)%nat ->
  wp ((if negb (0 =? Z.of_nat (len mod 128))
       then scan_packet_tail id tbl (Z.of_nat (len / 128) * 4) (Z.of_nat (len mod 128))
       else ret None) : M _) s
    (fun o _ t => exists r, o = Val r /\ (r = None \/ r = Some 1) /\ fifo_bytes t = tail_packet tbl len).
Proof.
  intros Hw Hlen. destruct (Z.eqb_spec 0 (Z.of_nat (len mod 128))) as [E|E]; cbn [negb].
  - wp_step. exists None. do 2 (split; [auto|]). unfold tail_packet.
    by rewrite (proj2 (Nat.eqb_eq (len mod 128) 0)) by lia.
  - replace (Z.of_nat (len / 128) * 4) with (Z.of_nat (4 * (len / 128))) by lia.
    apply tail_spec; [done|done|lia].
Qed.

(** The run up to the return, given that the bank's flag is [f]. *)
Lemma scan_chain_prg_spec id len tbl f (s : st D gdata) :
  frzctrl_channel_freeze (glob s) !! Z.to_nat (chain_num id) = Some f ->
  Forall word tbl -> (len / 32 < length tbl)%nat ->
  wp (scan_mgr_io_scan_chain_prg id (Z.of_nat len) tbl) s (fun o _ t => exists status,
    o = Val status /\ (status = 0 \/ status = 1) /\
    (f <> FREEZE_CTRL_FROZEN -> status = 1 /\ t = []) /\
    fifo_bytes t `prefix_of` scan_stream len tbl /\
    (status = 0 -> fifo_bytes t = scan_stream len tbl)).
Proof.
  intros Hf Hw Hlen. unfold scan_mgr_io_scan_chain_prg, sys_mgr_frzctrl_frzchn_is_frozen.
  do 4 wp_step. eapply wp_array_get; [|exact Hf|]; [by destruct id|]. cbv beta iota.
  destruct (Z.eqb_spec FREEZE_CTRL_FROZEN f) as [<-|Hne]; wp_step; cbv beta iota; cbn [truthy negb].
  2:{ eval_truthy. cbn [negb]. wp_step. exists 1. do 2 (split; [auto|]). split; [done|].
      split; [|done]. apply prefix_nil. }
  eval_truthy. cbn [negb].
  replace (Z.of_nat len .>> IO_SCAN_CHAIN_128BIT_SHIFT) with (Z.of_nat (len / 128))
    by (change IO_SCAN_CHAIN_128BIT_SHIFT with 7; rewrite Z.shiftr_div_pow2 by lia; by rewrite Nat2Z.inj_div).
  replace (Z.of_nat len .& IO_SCAN_CHAIN_128BIT_MASK) with (Z.of_nat (len mod 128))
    by (change IO_SCAN_CHAIN_128BIT_MASK with (Z.ones 7); rewrite Z.land_ones by lia; by rewrite Nat2Z.inj_mod).
  cbv zeta. wp_step. apply wp_quiet; [hw_auto|hw_auto|]. intros [] s1 t1 Ht1. cbv beta iota. wp_step.
  apply wp_quiet; [auto with hw|auto with hw|]. intros idle s2 t2 Ht2. cbv beta iota.
  destruct (negb _).
  { wp_step. exists 1. do 2 (split; [auto|]). split; [done|].
    rewrite !fifo_bytes_app, Ht1, Ht2. split; [apply prefix_nil|done]. }
  wp_step. apply wp_quiet; [apply only_setbits; event_ok|hw_auto|]. intros [] s3 t3 Ht3. cbv beta iota.
  wp_step. eapply wp_mono; [by apply full_packets_spec|].
  intros o4 s4 t4 [[-> Ht4]|[-> Ht4]]; cbv beta iota.
  2:{ wp_step. exists 1. do 2 (split; [auto|]). split; [done|].
      rewrite !fifo_bytes_app, Ht1, Ht2, Ht3. cbn [app fifo_bytes map concat]. rewrite ?app_nil_r. split; [exact Ht4|done]. }
  wp_step. eapply wp_mono; [by apply tail_step|]. intros o5 s5 t5 (r & -> & Hr & Ht5). cbv beta iota.
  destruct Hr as [->| ->].
  - wp_step. apply wp_quiet; [apply only_clr_en|hw_auto|]. intros [] s6 t6 Ht6. wp_step.
    exists 0. do 2 (split; [auto|]). split; [done|].
    rewrite !fifo_bytes_app, Ht1, Ht2, Ht3, Ht4, Ht5, Ht6. cbn [app fifo_bytes map concat].
    rewrite ?app_nil_r. by split.
  - wp_step. exists 1. do 2 (split; [auto|]). split; [done|].
    rewrite !fifo_bytes_app, Ht1, Ht2, Ht3, Ht4, Ht5. cbn [app fifo_bytes map concat].
    rewrite ?app_nil_r. by split.
Qed.

(** C4: Programming a scan chain from a table of at least len/32 + 1 words
    stays inside the table and always returns 0 or 1.  It returns 1 without any
    bus access when the bank is not frozen.  When it returns 0, the scan engine
    has received packets whose payload is exactly the first [len] bits of the
    table in order; when it gives up, what was sent is a prefix of that. *)
Theorem scan_chain_prg_shifts id len tbl f (s : st D gdata) fuel :
  frzctrl_channel_freeze (glob s) !! Z.to_nat (chain_num id) = Some f ->
  Forall word tbl -> (len / 32 < length tbl)%nat -> (len / 128 + 2 <= fuel)%nat ->
  let r := scan_mgr_io_scan_chain_prg id (Z.of_nat len) tbl s in
  exists status, out r = Val status /\ (status = 0 \/ status = 1) /\
    (f <> FREEZE_CTRL_FROZEN -> status = 1 /\ tr r = []) /\
    fifo_bytes (tr r) `prefix_of` scan_stream len tbl /\
    (status = 0 -> engine_bits fuel (fifo_bytes (tr r)) = Some (take len (table_bits tbl))).
Proof.
  intros Hf Hw Hlen Hfuel. wp_enter. eapply wp_mono; [by apply scan_chain_prg_spec|].
  intros o s' t (status & Ho & Hs & Hn & Hp & H0). exists status. do 4 (split; [done|]).
  intros E. rewrite (H0 E). by apply scan_stream_decodes.
Qed.

(** ** The chain enable *)

Section enable.
Context `{!Reg D SCAN_EN_REG}.
Abbreviation en := (reg SCAN_EN_REG).

(** What a step may do to the enable register: leave it and go on, give up
    with the chain disabled, or stop. *)
Definition en_step (id : IOScanChainSelect) (s : st D gdata) (o : outcome (option Z))
    (s' : st D gdata) (_ : trace) : Prop :=
  match o with
  | Val None => en s' = en s
  | Val (Some v) => v = 1 /\ en s' = en s .& .~ (1 .<< chain_num id)
  | Stop _ => True
  end.

Lemma engine_idle_keeps n : keeps SCAN_EN_REG (scan_mgr_io_scan_chain_engine_is_idle n : M Z).
Proof. unfold scan_mgr_io_scan_chain_engine_is_idle. keeps_auto. Qed.

Lemma array_get_keeps l i : keeps SCAN_EN_REG (array_get l i : M Z).
Proof. unfold array_get. keeps_auto. Qed.
#[local] Hint Resolve engine_idle_keeps array_get_keeps : hw.

Lemma check_done_en id (s s0 : st D gdata) : en s = en s0 ->
  wp (scan_check_done id : M _) s (en_step id s0).
Proof.
  intros E. unfold scan_check_done. wp_step.
  apply (wp_keeps SCAN_EN_REG); [apply engine_idle_keeps|]. intros [v|] s1 t1 E1; [|done].
  cbv beta iota. destruct (negb _).
  - reg_run SCAN_EN_REG. cbn. split; [done|]. by rewrite Hreg, E1, E.
  - wp_step. cbn. by rewrite E1.
Qed.

(** A prefix that keeps the enable register. *)
Lemma wp_bind_keeps {A B} (m : M A) (k : A -> M B) (s s0 : st D gdata) Q :
  keeps SCAN_EN_REG m -> en s = en s0 -> (forall w s' t, Q (Stop w) s' t) ->
  (forall a s', en s' = en s0 -> forall t, wp (k a) s' (fun o s'' t' => Q o s'' (t ++ t'))) ->
  wp (bind m k) s Q.
Proof.
  intros Hk E Hs HQ. apply wp_bind, (wp_keeps SCAN_EN_REG); [done|].
  intros [a|] s1 t1 E1; [|apply Hs]. apply HQ. by rewrite E1.
Qed.

Lemma packet128_en id tbl i (s : st D gdata) :
  wp (scan_packet128 id tbl i : M _) s (en_step id s).
Proof.
  unfold scan_packet128. cbv zeta.
  do 9 (eapply (wp_bind_keeps _ _ _ s); [by keeps_auto|done || assumption|done|];
        intros ? ? ? ?; cbv beta).
  by apply check_done_en.
Qed.

Lemma tail_en id tbl index r (s : st D gdata) :
  wp (scan_packet_tail id tbl index r : M _) s (en_step id s).
Proof.
  unfold scan_packet_tail. cbv zeta.
  do 3 (eapply (wp_bind_keeps _ _ _ s); [by keeps_auto|done || assumption|done|];
        intros ? ? ? ?; cbv beta).
  by apply check_done_en.
Qed.

Lemma full_packets_en id tbl n (s : st D gdata) :
  wp (for_upto n (scan_packet128 id tbl) : M _) s (en_step id s).
Proof.
  destruct n as [|p|p]; [by apply wp_ret| |by apply wp_ret].
  apply wp_for with (I := fun _ s' _ => en s' = en s); [lia|done| |done].
  intros i s1 t1 _ E1. eapply wp_mono; [apply packet128_en|].
  intros [[v|]|] s2 t2; cbn; rewrite ?E1; auto.
Qed.

(** Whenever the programming of a chain returns, its enable bit is as it
    was if programming was refused, and otherwise cleared; the enable bits of
    the other chains are unchanged. *)
Theorem scan_chain_prg_enable id len tbl (s : st D gdata) status :
  out (scan_mgr_io_scan_chain_prg id len tbl s) = Val status ->
  let s' := fin (scan_mgr_io_scan_chain_prg id len tbl s) in
  en s' = en s \/ en s' = en s .& .~ (1 .<< chain_num id).
Proof.
  assert (Hb : word (1 .<< chain_num id)) by (by destruct id).
  assert (Hset : (en s .| 1 .<< chain_num id) .& .~ (1 .<< chain_num id) = en s .& .~ (1 .<< chain_num id))
    by bitwise.
  wp_enter. unfold scan_mgr_io_scan_chain_prg. cbv zeta.
  eapply (wp_bind_keeps _ _ _ s);
    [unfold sys_mgr_frzctrl_frzchn_is_frozen; by keeps_auto|done|done|].
  intros frozen s1 E1 t1. destruct (negb _); [wp_step; by left|].
  eapply (wp_bind_keeps _ _ _ s); [by keeps_auto|done|done|]. intros [] s2 E2 t2.
  eapply (wp_bind_keeps _ _ _ s); [by keeps_auto|done|done|]. intros idle s3 E3 t3. cbv beta.
  destruct (negb _); [wp_step; by left|].
  wp_step. apply (wp_setbits_reg SCAN_EN_REG); [done|]. intros d4 E4. cbn [glob] in *. cbv beta iota.
  set (s4 := mk_st d4 (glob s3)) in *. rewrite E3 in E4. wp_step.
  eapply wp_mono; [apply full_packets_en|].
  intros [[v|]|] s5 t5 E5; cbn [en_step] in E5; cbv beta iota; [..|done].
  { wp_step. right. by rewrite (proj2 E5), E4, Hset. }
  wp_step. apply wp_mono with (Q := en_step id s5).
  { destruct (negb _); [apply tail_en|by wp_step]. }
  intros [[v|]|] s6 t6 E6; cbn [en_step] in E6; cbv beta iota; [..|done].
  { wp_step. right. by rewrite (proj2 E6), E5, E4, Hset. }
  wp_step. apply (wp_clrbits_reg SCAN_EN_REG). intros d7 E7. cbv beta iota. wp_step.
  right. by rewrite E7, E6, E5, E4, Hset.
Qed.

End enable.

End proofs.

(** ** Concrete runs *)

(** The declared size of a chain's table is enough for its length. *)
Lemma table_size_enough len : 0 <= len -> (Z.to_nat len / 32 < Z.to_nat (len / 32 + 1))%nat.
Proof. intros. div_lia. Qed.

Lemma scan_chain_prg_shifts_witness :
  let s := mk_st (∅ : ram) gdata0 in
  let tbl := [0x11223344; 0x55667788; 0x99AABBCC; 0xDDEEFF00; 0x13579BDF; 0x2468ACE0] in
  exists status, out (scan_mgr_io_scan_chain_prg IO_SCAN_CHAIN_3 178 tbl s) = Val status /\
    engine_bits 3 (fifo_bytes (tr (scan_mgr_io_scan_chain_prg IO_SCAN_CHAIN_3 178 tbl s)))
      = Some (take 178 (table_bits tbl)).
Proof.
  intros s tbl.
  destruct (scan_chain_prg_shifts IO_SCAN_CHAIN_3 178 tbl FREEZE_CTRL_FROZEN s 3)
    as (status & Ho & _ & _ & _ & H0); [reflexivity|do 6 (constructor; [word_solve|]); constructor|cbn; lia|cbn; lia|].
  exists status. split; [exact Ho|]. apply H0.
  assert (E : out (scan_mgr_io_scan_chain_prg IO_SCAN_CHAIN_3 178 tbl s) = Val 0)
    by (vm_compute; reflexivity).
  cbn [Z.of_nat] in Ho. change (Z.of_nat 178) with 178 in Ho. rewrite E in Ho. by injection Ho.
Defined.

Lemma scan_chain_prg_enable_witness :
  let s := mk_st (<[SCAN_EN_REG := 9]> ∅ : ram) gdata0 in
  let s' := fin (scan_mgr_io_scan_chain_prg IO_SCAN_CHAIN_2 40 [1; 2] s) in
  reg SCAN_EN_REG s' = reg SCAN_EN_REG s \/ reg SCAN_EN_REG s' = reg SCAN_EN_REG s .& .~ 4.
Proof. intros s. apply (scan_chain_prg_enable IO_SCAN_CHAIN_2 40 [1; 2] s 0). vm_compute. reflexivity. Defined.
