(* ===== verification/ClockManager.v ===== *)
(** The clock manager (clock_manager.c): the PLL bring-up sequence, the clock
    frequencies computed back from the registers, and the configuration that
    the board's PLL settings describe. *)

From S2P Require Import Prelude Mmio Regs Globals Timer.

Record cm_config_t := {
  (* main group *)
  main_vco_base : Z; mpuclk : Z; mainclk : Z; dbgatclk : Z; mainqspiclk : Z;
  mainnandsdmmcclk : Z; cfg2fuser0clk : Z; maindiv : Z; dbgdiv : Z; tracediv : Z; l4src : Z;
  (* peripheral group *)
  peri_vco_base : Z; emac0clk : Z; emac1clk : Z; perqspiclk : Z; pernandsdmmcclk : Z;
  perbaseclk : Z; s2fuser1clk : Z; perdiv : Z; gpiodiv : Z; persrc : Z;
  (* sdram pll group *)
  sdram_vco_base : Z; ddrdqsclk : Z; ddr2xdqsclk : Z; ddrdqclk : Z; s2fuser2clk : Z
}.

(** Address of a clock manager register. *)
Definition CM (offset : Z) : Z := SOCFPGA_CLKMGR_ADDRESS + offset.

Section clock_manager.
Context {D : Type} `{Device D}.
Abbreviation M := (M D gdata).

Definition wait_for_lock_body (mask retry : Z) : M (Z + unit) :=
  let* v := readl (CM CLKMGR_INTER_ADDRESS) in
  let inter_val := v .& mask in
  let retry := if inter_val =? mask then retry + 1 else 0 in
  ret (if 10 <=? retry then inr tt else inl retry).

Definition cm_wait_for_lock (fuel : nat) (mask : Z) : M unit :=
  while_fuel fuel (wait_for_lock_body mask) 0.

(** [do { v = readl(a) & mask } while (v);] *)
Definition wait_clear (fuel : nat) (a mask : Z) : M unit :=
  while_fuel fuel (fun _ : unit =>
    let* v := readl a in
    ret (if truthy (v .& mask) then inl tt else inr tt)) tt.

Definition cm_wait4fsm (fuel : nat) : M unit :=
  wait_clear fuel (CM CLKMGR_STAT_ADDRESS) CLKMGR_STAT_BUSY_ENUM_BUSY.

Definition cm_write_bypass (fuel : nat) (val : Z) : M unit :=
  writel val (CM CLKMGR_BYPASS_ADDRESS) ;;; cm_wait4fsm fuel.

Definition cm_write_ctrl (fuel : nat) (val : Z) : M unit :=
  writel val (CM CLKMGR_CTRL_ADDRESS) ;;; cm_wait4fsm fuel.

Definition cm_write_with_phase (fuel : nat) (value reg_address mask : Z) : M unit :=
  wait_clear fuel reg_address mask ;;;
  writel value reg_address ;;;
  wait_clear fuel reg_address mask.

(** The parts of cm_basic_init, in order. *)

Definition bypass_value (skip_sdram_pll : bool) (en : Z) : Z :=
  CLKMGR_BYPASS_PERPLLSRC_SET CLKMGR_BYPASS_PERPLLSRC_ENUM_SELECT_EOSC1 .|
  (if skip_sdram_pll then 0 else
     CLKMGR_BYPASS_SDRPLLSRC_SET CLKMGR_BYPASS_SDRPLLSRC_ENUM_SELECT_EOSC1) .|
  CLKMGR_BYPASS_PERPLL_SET en .|
  (if skip_sdram_pll then 0 else CLKMGR_BYPASS_SDRPLL_SET en) .|
  CLKMGR_BYPASS_MAINPLL_SET en.

(** Gates every software managed clock except debug and bridges, and puts the
    PLLs in bypass. *)
Definition cm_gate_and_bypass (fuel : nat) (skip_sdram_pll : bool) : M unit :=
  let* v := readl (CM CLKMGR_PERPLLGRP_EN_ADDRESS) in
  writel (.~ CLKMGR_PERPLLGRP_EN_NANDCLK_MASK .& v) (CM CLKMGR_PERPLLGRP_EN_ADDRESS) ;;;
  writel (CLKMGR_MAINPLLGRP_EN_DBGTIMERCLK_MASK .| CLKMGR_MAINPLLGRP_EN_DBGTRACECLK_MASK .|
          CLKMGR_MAINPLLGRP_EN_DBGCLK_MASK .| CLKMGR_MAINPLLGRP_EN_DBGATCLK_MASK .|
          CLKMGR_MAINPLLGRP_EN_S2FUSER0CLK_MASK .| CLKMGR_MAINPLLGRP_EN_L4MPCLK_MASK)
    (CM CLKMGR_MAINPLLGRP_EN_ADDRESS) ;;;
  when (negb skip_sdram_pll) (writel 0 (CM CLKMGR_SDRPLLGRP_EN_ADDRESS)) ;;;
  writel 0 (CM CLKMGR_PERPLLGRP_EN_ADDRESS) ;;;
  cm_write_bypass fuel (bypass_value skip_sdram_pll CLKMGR_BYPASS_ENUM_ENABLE).

(** VCO registers and the glitch-prone sources back to reset values. *)
Definition cm_reset_vco (skip_sdram_pll : bool) : M unit :=
  writel (CLKMGR_MAINPLLGRP_VCO_RESET_VALUE .& .~ CLKMGR_MAINPLLGRP_VCO_REGEXTSEL_MASK)
    (CM CLKMGR_MAINPLLGRP_VCO_ADDRESS) ;;;
  writel (CLKMGR_PERPLLGRP_VCO_RESET_VALUE .& .~ CLKMGR_PERPLLGRP_VCO_REGEXTSEL_MASK)
    (CM CLKMGR_PERPLLGRP_VCO_ADDRESS) ;;;
  when (negb skip_sdram_pll)
    (writel (CLKMGR_SDRPLLGRP_VCO_RESET_VALUE .& .~ CLKMGR_SDRPLLGRP_VCO_REGEXTSEL_MASK)
       (CM CLKMGR_SDRPLLGRP_VCO_ADDRESS)) ;;;
  writel CLKMGR_PERPLLGRP_SRC_RESET_VALUE (CM CLKMGR_PERPLLGRP_SRC_ADDRESS) ;;;
  writel CLKMGR_MAINPLLGRP_L4SRC_RESET_VALUE (CM CLKMGR_MAINPLLGRP_L4SRC_ADDRESS) ;;;
  readl (CM CLKMGR_MAINPLLGRP_VCO_ADDRESS) ;;;
  readl (CM CLKMGR_PERPLLGRP_VCO_ADDRESS) ;;;
  readl (CM CLKMGR_SDRPLLGRP_VCO_ADDRESS) ;;;
  ret tt.

(** Band gap power down released, with numerator and denominator. *)
Definition cm_power_up_vco (cfg : cm_config_t) (skip_sdram_pll : bool) : M unit :=
  writel (main_vco_base cfg .| CLEAR_BGP_EN_PWRDN) (CM CLKMGR_MAINPLLGRP_VCO_ADDRESS) ;;;
  writel (peri_vco_base cfg .| CLEAR_BGP_EN_PWRDN) (CM CLKMGR_PERPLLGRP_VCO_ADDRESS) ;;;
  when (negb skip_sdram_pll)
    (writel (CLKMGR_SDRPLLGRP_VCO_OUTRESET_SET 0 .| CLKMGR_SDRPLLGRP_VCO_OUTRESETALL_SET 0 .|
             sdram_vco_base cfg .| CLEAR_BGP_EN_PWRDN)
       (CM CLKMGR_SDRPLLGRP_VCO_ADDRESS)).

(** Internal dividers, while the 7 unit timer runs. *)
Definition cm_internal_dividers (cfg : cm_config_t) : M unit :=
  writel (mpuclk cfg) (CM CLKMGR_MAINPLLGRP_MPUCLK_ADDRESS) ;;;
  writel (mainclk cfg) (CM CLKMGR_MAINPLLGRP_MAINCLK_ADDRESS) ;;;
  writel CONFIG_HPS_ALTERAGRP_MPUCLK (CM CLKMGR_ALTERAGRP_MPUCLK) ;;;
  writel (dbgatclk cfg) (CM CLKMGR_MAINPLLGRP_DBGATCLK_ADDRESS) ;;;
  writel CONFIG_HPS_ALTERAGRP_MAINCLK (CM CLKMGR_ALTERAGRP_MAINCLK) ;;;
  writel (cfg2fuser0clk cfg) (CM CLKMGR_MAINPLLGRP_CFGS2FUSER0CLK_ADDRESS) ;;;
  writel (emac0clk cfg) (CM CLKMGR_PERPLLGRP_EMAC0CLK_ADDRESS) ;;;
  writel (emac1clk cfg) (CM CLKMGR_PERPLLGRP_EMAC1CLK_ADDRESS) ;;;
  writel (mainqspiclk cfg) (CM CLKMGR_MAINPLLGRP_MAINQSPICLK_ADDRESS) ;;;
  writel (perqspiclk cfg) (CM CLKMGR_PERPLLGRP_PERQSPICLK_ADDRESS) ;;;
  writel (mainnandsdmmcclk cfg) (CM CLKMGR_MAINPLLGRP_MAINNANDSDMMCCLK_ADDRESS) ;;;
  writel (pernandsdmmcclk cfg) (CM CLKMGR_PERPLLGRP_PERNANDSDMMCCLK_ADDRESS) ;;;
  writel (perbaseclk cfg) (CM CLKMGR_PERPLLGRP_PERBASECLK_ADDRESS) ;;;
  writel (s2fuser1clk cfg) (CM CLKMGR_PERPLLGRP_S2FUSER1CLK_ADDRESS).

(** [for ( ; get_timer(start) < timeout ; ) ;] *)
Definition cm_wait_timer (fuel : nat) (start timeout : Z) : M unit :=
  while_fuel fuel (fun _ : unit =>
    let* t := get_timer start in
    ret (if t <? timeout then inl tt else inr tt)) tt.

Definition cm_enable_vco (cfg : cm_config_t) (skip_sdram_pll : bool) : M unit :=
  writel (main_vco_base cfg .| VCO_EN_BASE) (CM CLKMGR_MAINPLLGRP_VCO_ADDRESS) ;;;
  writel (peri_vco_base cfg .| VCO_EN_BASE) (CM CLKMGR_PERPLLGRP_VCO_ADDRESS) ;;;
  when (negb skip_sdram_pll)
    (writel (CLKMGR_SDRPLLGRP_VCO_OUTRESET_SET 0 .| CLKMGR_SDRPLLGRP_VCO_OUTRESETALL_SET 0 .|
             sdram_vco_base cfg .| VCO_EN_BASE)
       (CM CLKMGR_SDRPLLGRP_VCO_ADDRESS)).

(** External dividers while the PLLs lock. *)
Definition cm_external_dividers (cfg : cm_config_t) : M unit :=
  writel (maindiv cfg) (CM CLKMGR_MAINPLLGRP_MAINDIV_ADDRESS) ;;;
  writel (dbgdiv cfg) (CM CLKMGR_MAINPLLGRP_DBGDIV_ADDRESS) ;;;
  writel (tracediv cfg) (CM CLKMGR_MAINPLLGRP_TRACEDIV_ADDRESS) ;;;
  writel (perdiv cfg) (CM CLKMGR_PERPLLGRP_DIV_ADDRESS) ;;;
  writel (gpiodiv cfg) (CM CLKMGR_PERPLLGRP_GPIODIV_ADDRESS).

(** SDRAM counters, before the outputs are reset. *)
Definition cm_sdram_counters (cfg : cm_config_t) : M unit :=
  writel (ddrdqsclk cfg .& CLKMGR_SDRPLLGRP_DDRDQSCLK_CNT_MASK)
    (CM CLKMGR_SDRPLLGRP_DDRDQSCLK_ADDRESS) ;;;
  writel (ddr2xdqsclk cfg .& CLKMGR_SDRPLLGRP_DDR2XDQSCLK_CNT_MASK)
    (CM CLKMGR_SDRPLLGRP_DDR2XDQSCLK_ADDRESS) ;;;
  writel (ddrdqclk cfg .& CLKMGR_SDRPLLGRP_DDRDQCLK_CNT_MASK)
    (CM CLKMGR_SDRPLLGRP_DDRDQCLK_ADDRESS) ;;;
  writel (s2fuser2clk cfg .& CLKMGR_SDRPLLGRP_S2FUSER2CLK_CNT_MASK)
    (CM CLKMGR_SDRPLLGRP_S2FUSER2CLK_ADDRESS).

(** Asserts and releases the output reset of the PLLs, then sets the SDRAM
    phases. *)
Definition cm_toggle_outreset (fuel : nat) (cfg : cm_config_t) (skip_sdram_pll : bool) : M unit :=
  let* mainvco := readl (CM CLKMGR_MAINPLLGRP_VCO_ADDRESS) in
  writel (mainvco .| CLKMGR_MAINPLLGRP_VCO_OUTRESETALL_MASK) (CM CLKMGR_MAINPLLGRP_VCO_ADDRESS) ;;;
  let* periphvco := readl (CM CLKMGR_PERPLLGRP_VCO_ADDRESS) in
  writel (periphvco .| CLKMGR_PERPLLGRP_VCO_OUTRESETALL_MASK) (CM CLKMGR_PERPLLGRP_VCO_ADDRESS) ;;;
  when (negb skip_sdram_pll)
    (writel (sdram_vco_base cfg .| VCO_EN_BASE .| CLKMGR_SDRPLLGRP_VCO_OUTRESETALL_SET 1)
       (CM CLKMGR_SDRPLLGRP_VCO_ADDRESS)) ;;;
  writel (mainvco .& .~ CLKMGR_MAINPLLGRP_VCO_OUTRESETALL_MASK) (CM CLKMGR_MAINPLLGRP_VCO_ADDRESS) ;;;
  writel (periphvco .& .~ CLKMGR_PERPLLGRP_VCO_OUTRESETALL_MASK) (CM CLKMGR_PERPLLGRP_VCO_ADDRESS) ;;;
  when (negb skip_sdram_pll) (
    writel (CLKMGR_SDRPLLGRP_VCO_OUTRESETALL_SET 0 .| sdram_vco_base cfg .| VCO_EN_BASE)
      (CM CLKMGR_SDRPLLGRP_VCO_ADDRESS) ;;;
    cm_write_with_phase fuel (ddrdqsclk cfg) (CM CLKMGR_SDRPLLGRP_DDRDQSCLK_ADDRESS)
      CLKMGR_SDRPLLGRP_DDRDQSCLK_PHASE_MASK ;;;
    cm_write_with_phase fuel (ddr2xdqsclk cfg) (CM CLKMGR_SDRPLLGRP_DDR2XDQSCLK_ADDRESS)
      CLKMGR_SDRPLLGRP_DDR2XDQSCLK_PHASE_MASK ;;;
    cm_write_with_phase fuel (ddrdqclk cfg) (CM CLKMGR_SDRPLLGRP_DDRDQCLK_ADDRESS)
      CLKMGR_SDRPLLGRP_DDRDQCLK_PHASE_MASK ;;;
    cm_write_with_phase fuel (s2fuser2clk cfg) (CM CLKMGR_SDRPLLGRP_S2FUSER2CLK_ADDRESS)
      CLKMGR_SDRPLLGRP_S2FUSER2CLK_PHASE_MASK).

(** Out of bypass and safe mode, sources selected, clocks ungated. *)
Definition cm_leave_bypass (fuel : nat) (cfg : cm_config_t) : M unit :=
  cm_write_bypass fuel (bypass_value false CLKMGR_BYPASS_ENUM_DISABLE) ;;;
  let* c := readl (CM CLKMGR_CTRL_ADDRESS) in
  cm_write_ctrl fuel (c .| CLKMGR_CTRL_SAFEMODE_SET CLKMGR_CTRL_SAFEMODE_MASK) ;;;
  writel (persrc cfg) (CM CLKMGR_PERPLLGRP_SRC_ADDRESS) ;;;
  writel (l4src cfg) (CM CLKMGR_MAINPLLGRP_L4SRC_ADDRESS) ;;;
  writel (.~ 0) (CM CLKMGR_MAINPLLGRP_EN_ADDRESS) ;;;
  writel (.~ 0) (CM CLKMGR_PERPLLGRP_EN_ADDRESS) ;;;
  writel (.~ 0) (CM CLKMGR_SDRPLLGRP_EN_ADDRESS) ;;;
  writel (CLKMGR_INTER_SDRPLLLOST_MASK .| CLKMGR_INTER_PERPLLLOST_MASK .|
          CLKMGR_INTER_MAINPLLLOST_MASK) (CM CLKMGR_INTER_ADDRESS) ;;;
  let* v := readl (CM CLKMGR_DBCTRL_ADDRESS) in
  writel ((v .& .~ CLKMGR_DBCTRL_STAYOSC1_MASK) .| CONFIG_HPS_DBCTRL_STAYOSC1)
    (CM CLKMGR_DBCTRL_ADDRESS).

Definition cm_basic_init (fuel : nat) (cfg : cm_config_t) (skip_sdram_pll : Z) : M Z :=
  let skip := truthy skip_sdram_pll in
  cm_gate_and_bypass fuel skip ;;;
  cm_reset_vco skip ;;;
  cm_power_up_vco cfg skip ;;;
  reset_timer ;;;
  let* start := get_timer 0 in
  cm_internal_dividers cfg ;;;
  cm_wait_timer fuel start 7 ;;;
  cm_enable_vco cfg skip ;;;
  cm_external_dividers cfg ;;;
  cm_wait_for_lock fuel LOCKED_MASK ;;;
  when (negb skip) (cm_sdram_counters cfg) ;;;
  cm_toggle_outreset fuel cfg skip ;;;
  cm_leave_bypass fuel cfg ;;;
  ret 0.

(** ** Frequencies computed from the registers *)

(** [clock /= (d)] and [clock *= (n)] on uint32_t; the divisor [reg + 1] is
    computed in 32 bits too. *)
Definition div_by (clock d : Z) : M Z := udiv clock (u32 d).
Definition mul_by (clock n : Z) : Z := u32 (clock * n).

(** The main VCO clock, as every function below reads it. *)
Definition main_vco_clk_hz : M Z :=
  let* reg := readl (CM CLKMGR_MAINPLLGRP_VCO_ADDRESS) in
  let* clock := div_by CONFIG_HPS_CLK_OSC1_HZ (CLKMGR_MAINPLLGRP_VCO_DENOM_GET reg + 1) in
  ret (mul_by clock (CLKMGR_MAINPLLGRP_VCO_NUMER_GET reg + 1)).

(** The reference selected by an SSRC field; 0 when none matches. *)
Definition pll_source_hz (ssrc f2s_hz : Z) : Z :=
  if ssrc =? CLKMGR_VCO_SSRC_EOSC1 then CONFIG_HPS_CLK_OSC1_HZ
  else if ssrc =? CLKMGR_VCO_SSRC_EOSC2 then CONFIG_HPS_CLK_OSC2_HZ
  else if ssrc =? CLKMGR_VCO_SSRC_F2S then f2s_hz
  else 0.

Definition per_vco_clk_hz : M Z :=
  let* reg := readl (CM CLKMGR_PERPLLGRP_VCO_ADDRESS) in
  let clock := pll_source_hz (CLKMGR_PERPLLGRP_VCO_SSRC_GET reg) CONFIG_HPS_CLK_F2S_PER_REF_HZ in
  let* reg := readl (CM CLKMGR_PERPLLGRP_VCO_ADDRESS) in
  let* clock := div_by clock (CLKMGR_PERPLLGRP_VCO_DENOM_GET reg + 1) in
  ret (mul_by clock (CLKMGR_PERPLLGRP_VCO_NUMER_GET reg + 1)).

(** [reg = readl(a); clock /= (reg + 1);] *)
Definition div_by_reg (clock a : Z) : M Z :=
  let* reg := readl a in div_by clock (reg + 1).

Definition cm_get_mpu_clk_hz : M Z :=
  let* clock := main_vco_clk_hz in
  let* clock := div_by_reg clock (CM CLKMGR_ALTERAGRP_MPUCLK) in
  div_by_reg clock (CM CLKMGR_MAINPLLGRP_MPUCLK_ADDRESS).

Definition cm_get_sdram_clk_hz : M Z :=
  let* reg := readl (CM CLKMGR_SDRPLLGRP_VCO_ADDRESS) in
  let clock := pll_source_hz (CLKMGR_SDRPLLGRP_VCO_SSRC_GET reg) CONFIG_HPS_CLK_F2S_SDR_REF_HZ in
  let* reg := readl (CM CLKMGR_SDRPLLGRP_VCO_ADDRESS) in
  let* clock := div_by clock (CLKMGR_SDRPLLGRP_VCO_DENOM_GET reg + 1) in
  let clock := mul_by clock (CLKMGR_SDRPLLGRP_VCO_NUMER_GET reg + 1) in
  let* reg := readl (CM CLKMGR_SDRPLLGRP_DDRDQSCLK_ADDRESS) in
  div_by clock (CLKMGR_SDRPLLGRP_DDRDQSCLK_CNT_GET reg + 1).

Definition cm_get_l4_sp_clk_hz : M Z :=
  let* reg := readl (CM CLKMGR_MAINPLLGRP_L4SRC_ADDRESS) in
  let reg := CLKMGR_MAINPLLGRP_L4SRC_L4SP_GET reg in
  let* clock :=
    (if reg =? CLKMGR_L4_SP_CLK_SRC_MAINPLL then
       let* clock := main_vco_clk_hz in
       let* clock := div_by_reg clock (CM CLKMGR_ALTERAGRP_MAINCLK) in
       div_by_reg clock (CM CLKMGR_MAINPLLGRP_MAINCLK_ADDRESS)
     else if reg =? CLKMGR_L4_SP_CLK_SRC_PERPLL then
       let* clock := per_vco_clk_hz in
       div_by_reg clock (CM CLKMGR_PERPLLGRP_PERBASECLK_ADDRESS)
     else ret 0) in
  let* reg := readl (CM CLKMGR_MAINPLLGRP_MAINDIV_ADDRESS) in
  let reg := CLKMGR_MAINPLLGRP_MAINDIV_L4SPCLK_GET reg in
  udiv clock (1 .<< reg).

Definition cm_get_mmc_controller_clk_hz : M Z :=
  let* reg := readl (CM CLKMGR_PERPLLGRP_SRC_ADDRESS) in
  let reg := CLKMGR_PERPLLGRP_SRC_SDMMC_GET reg in
  let* clock :=
    (if reg =? CLKMGR_SDMMC_CLK_SRC_F2S then ret CONFIG_HPS_CLK_F2S_PER_REF_HZ
     else if reg =? CLKMGR_SDMMC_CLK_SRC_MAIN then
       let* clock := main_vco_clk_hz in
       div_by_reg clock (CM CLKMGR_MAINPLLGRP_MAINNANDSDMMCCLK_ADDRESS)
     else if reg =? CLKMGR_SDMMC_CLK_SRC_PER then
       let* clock := per_vco_clk_hz in
       div_by_reg clock (CM CLKMGR_PERPLLGRP_PERNANDSDMMCCLK_ADDRESS)
     else ret 0) in
  udiv clock 4.

Definition cm_get_qspi_controller_clk_hz : M Z :=
  let* reg := readl (CM CLKMGR_PERPLLGRP_SRC_ADDRESS) in
  let reg := CLKMGR_PERPLLGRP_SRC_QSPI_GET reg in
  if reg =? CLKMGR_QSPI_CLK_SRC_F2S then ret CONFIG_HPS_CLK_F2S_PER_REF_HZ
  else if reg =? CLKMGR_QSPI_CLK_SRC_MAIN then
    let* clock := main_vco_clk_hz in
    div_by_reg clock (CM CLKMGR_MAINPLLGRP_MAINQSPICLK_ADDRESS)
  else if reg =? CLKMGR_QSPI_CLK_SRC_PER then
    let* clock := per_vco_clk_hz in
    div_by_reg clock (CM CLKMGR_PERPLLGRP_PERQSPICLK_ADDRESS)
  else ret 0.

(** The values printed are part of the message; the model keeps the label. *)
Definition cm_print_clock_quick_summary : M unit :=
  msg "CLOCK: EOSC1 clock" ;;;
  msg "CLOCK: EOSC2 clock" ;;;
  msg "CLOCK: F2S_SDR_REF clock" ;;;
  msg "CLOCK: F2S_PER_REF clock" ;;;
  cm_get_mpu_clk_hz ;;; msg "CLOCK: MPU clock" ;;;
  cm_get_sdram_clk_hz ;;; msg "CLOCK: DDR clock" ;;;
  cm_get_l4_sp_clk_hz ;;; msg "CLOCK: UART clock" ;;;
  cm_get_mmc_controller_clk_hz ;;; msg "CLOCK: MMC clock" ;;;
  cm_get_qspi_controller_clk_hz ;;; msg "CLOCK: QSPI clock".

Definition cm_derive_clocks_for_drivers : M unit :=
  let* l4 := cm_get_l4_sp_clk_hz in
  let* g := get in
  modify (set_clocks l4 (cm_sdmmc_clock g) (cm_qspi_clock g)) ;;;
  let* mmc := cm_get_mmc_controller_clk_hz in
  let* g := get in
  modify (set_clocks (cm_l4_sp_clock g) mmc (cm_qspi_clock g)) ;;;
  let* qspi := cm_get_qspi_controller_clk_hz in
  let* g := get in
  modify (set_clocks (cm_l4_sp_clock g) (cm_sdmmc_clock g) qspi).

End clock_manager.

(** cm_default_cfg of spl_board_init: the board's PLL settings. *)
Definition cm_default_cfg : cm_config_t := {|
  main_vco_base := MAIN_VCO_BASE;
  mpuclk := CLKMGR_MAINPLLGRP_MPUCLK_CNT_SET CONFIG_HPS_MAINPLLGRP_MPUCLK_CNT;
  mainclk := CLKMGR_MAINPLLGRP_MAINCLK_CNT_SET CONFIG_HPS_MAINPLLGRP_MAINCLK_CNT;
  dbgatclk := CLKMGR_MAINPLLGRP_DBGATCLK_CNT_SET CONFIG_HPS_MAINPLLGRP_DBGATCLK_CNT;
  mainqspiclk := CLKMGR_MAINPLLGRP_MAINQSPICLK_CNT_SET CONFIG_HPS_MAINPLLGRP_MAINQSPICLK_CNT;
  mainnandsdmmcclk :=
    CLKMGR_MAINPLLGRP_PERNANDSDMMCCLK_CNT_SET CONFIG_HPS_MAINPLLGRP_MAINNANDSDMMCCLK_CNT;
  cfg2fuser0clk := CLKMGR_MAINPLLGRP_CFGS2FUSER0CLK_CNT_SET CONFIG_HPS_MAINPLLGRP_CFGS2FUSER0CLK_CNT;
  maindiv := CLKMGR_MAINPLLGRP_MAINDIV_L3MPCLK_SET CONFIG_HPS_MAINPLLGRP_MAINDIV_L3MPCLK .|
             CLKMGR_MAINPLLGRP_MAINDIV_L3SPCLK_SET CONFIG_HPS_MAINPLLGRP_MAINDIV_L3SPCLK .|
             CLKMGR_MAINPLLGRP_MAINDIV_L4MPCLK_SET CONFIG_HPS_MAINPLLGRP_MAINDIV_L4MPCLK .|
             CLKMGR_MAINPLLGRP_MAINDIV_L4SPCLK_SET CONFIG_HPS_MAINPLLGRP_MAINDIV_L4SPCLK;
  dbgdiv := CLKMGR_MAINPLLGRP_DBGDIV_DBGATCLK_SET CONFIG_HPS_MAINPLLGRP_DBGDIV_DBGATCLK .|
            CLKMGR_MAINPLLGRP_DBGDIV_DBGCLK_SET CONFIG_HPS_MAINPLLGRP_DBGDIV_DBGCLK;
  tracediv := CLKMGR_MAINPLLGRP_TRACEDIV_TRACECLK_SET CONFIG_HPS_MAINPLLGRP_TRACEDIV_TRACECLK;
  l4src := CLKMGR_MAINPLLGRP_L4SRC_L4MP_SET CONFIG_HPS_MAINPLLGRP_L4SRC_L4MP .|
           CLKMGR_MAINPLLGRP_L4SRC_L4SP_SET CONFIG_HPS_MAINPLLGRP_L4SRC_L4SP;
  peri_vco_base := PERI_VCO_BASE;
  emac0clk := CLKMGR_PERPLLGRP_EMAC0CLK_CNT_SET CONFIG_HPS_PERPLLGRP_EMAC0CLK_CNT;
  emac1clk := CLKMGR_PERPLLGRP_EMAC1CLK_CNT_SET CONFIG_HPS_PERPLLGRP_EMAC1CLK_CNT;
  perqspiclk := CLKMGR_PERPLLGRP_PERQSPICLK_CNT_SET CONFIG_HPS_PERPLLGRP_PERQSPICLK_CNT;
  pernandsdmmcclk := CLKMGR_PERPLLGRP_PERNANDSDMMCCLK_CNT_SET CONFIG_HPS_PERPLLGRP_PERNANDSDMMCCLK_CNT;
  perbaseclk := CLKMGR_PERPLLGRP_PERBASECLK_CNT_SET CONFIG_HPS_PERPLLGRP_PERBASECLK_CNT;
  s2fuser1clk := CLKMGR_PERPLLGRP_S2FUSER1CLK_CNT_SET CONFIG_HPS_PERPLLGRP_S2FUSER1CLK_CNT;
  perdiv := CLKMGR_PERPLLGRP_DIV_USBCLK_SET CONFIG_HPS_PERPLLGRP_DIV_USBCLK .|
            CLKMGR_PERPLLGRP_DIV_SPIMCLK_SET CONFIG_HPS_PERPLLGRP_DIV_SPIMCLK .|
            CLKMGR_PERPLLGRP_DIV_CAN0CLK_SET CONFIG_HPS_PERPLLGRP_DIV_CAN0CLK .|
            CLKMGR_PERPLLGRP_DIV_CAN1CLK_SET CONFIG_HPS_PERPLLGRP_DIV_CAN1CLK;
  gpiodiv := CLKMGR_PERPLLGRP_GPIODIV_GPIODBCLK_SET CONFIG_HPS_PERPLLGRP_GPIODIV_GPIODBCLK;
  persrc := CLKMGR_PERPLLGRP_SRC_QSPI_SET CONFIG_HPS_PERPLLGRP_SRC_QSPI .|
            CLKMGR_PERPLLGRP_SRC_NAND_SET CONFIG_HPS_PERPLLGRP_SRC_NAND .|
            CLKMGR_PERPLLGRP_SRC_SDMMC_SET CONFIG_HPS_PERPLLGRP_SRC_SDMMC;
  sdram_vco_base := SDR_VCO_BASE;
  ddrdqsclk := CLKMGR_SDRPLLGRP_DDRDQSCLK_PHASE_SET CONFIG_HPS_SDRPLLGRP_DDRDQSCLK_PHASE .|
               CLKMGR_SDRPLLGRP_DDRDQSCLK_CNT_SET CONFIG_HPS_SDRPLLGRP_DDRDQSCLK_CNT;
  ddr2xdqsclk := CLKMGR_SDRPLLGRP_DDR2XDQSCLK_PHASE_SET CONFIG_HPS_SDRPLLGRP_DDR2XDQSCLK_PHASE .|
                 CLKMGR_SDRPLLGRP_DDR2XDQSCLK_CNT_SET CONFIG_HPS_SDRPLLGRP_DDR2XDQSCLK_CNT;
  ddrdqclk := CLKMGR_SDRPLLGRP_DDRDQCLK_PHASE_SET CONFIG_HPS_SDRPLLGRP_DDRDQCLK_PHASE .|
              CLKMGR_SDRPLLGRP_DDRDQCLK_CNT_SET CONFIG_HPS_SDRPLLGRP_DDRDQCLK_CNT;
  s2fuser2clk := CLKMGR_SDRPLLGRP_S2FUSER2CLK_PHASE_SET CONFIG_HPS_SDRPLLGRP_S2FUSER2CLK_PHASE .|
                 CLKMGR_SDRPLLGRP_S2FUSER2CLK_CNT_SET CONFIG_HPS_SDRPLLGRP_S2FUSER2CLK_CNT
|}.

(** ** Facts about the sequence *)

Section proofs.
Context {D : Type} `{Device D}.
Abbreviation M := (M D gdata).

(** *** Waiting for lock *)

Definition inter_reading (v : Z) : event := Rd (CM CLKMGR_INTER_ADDRESS) v.

(** The last ten of a series of readings all show the mask. *)
Definition ten_locked (mask : Z) (vs : list Z) : Prop :=
  exists vs' ws, vs = vs' ++ ws /\ length ws = 10%nat /\ Forall (fun v => v .& mask = mask) ws.

(** [k] readings at the end of [vs] show the mask. *)
Definition tail_locked (mask : Z) (k : nat) (vs : list Z) : Prop :=
  exists vs' ws, vs = vs' ++ ws /\ length ws = k /\ Forall (fun v => v .& mask = mask) ws.

Lemma wait_for_lock_loop fuel mask retry vs0 (s : st D gdata) :
  0 <= retry < 10 -> tail_locked mask (Z.to_nat retry) vs0 ->
  wp (while_fuel fuel (wait_for_lock_body mask) retry : M unit) s (fun o s' t =>
    exists vs, t = map inter_reading vs /\ (o = Val tt -> ten_locked mask (vs0 ++ vs)) /\
      (o = Val tt \/ o = Stop NoFuel)).
Proof.
  revert retry vs0 s. induction fuel as [|fuel IH]; intros retry vs0 s Hr Ht; cbn [while_fuel].
  - wp_step. exists []. by repeat split; [|right].
  - wp_step. unfold wait_for_lock_body at 1. wp_line.
    assert (Hnew : let retry' := if v .& mask =? mask then retry + 1 else 0 in
                   tail_locked mask (Z.to_nat retry') (vs0 ++ [v])).
    { destruct (Z.eqb_spec (v .& mask) mask); cbn.
      - destruct Ht as (vs' & ws & -> & Hlen & Hws). exists vs', (ws ++ [v]).
        rewrite app_assoc, length_app, Forall_app, Forall_singleton. repeat split; [cbn; lia|done..].
      - exists (vs0 ++ [v]), []. by rewrite app_nil_r. }
    set (retry' := if v .& mask =? mask then retry + 1 else 0) in *. cbn zeta in Hnew.
    assert (Hr' : 0 <= retry' <= 10) by (unfold retry'; destruct (_ =? _); lia).
    destruct (Z.leb_spec 10 retry') as [Hge|Hlt]; cbv iota.
    + wp_step. exists [v]. split; [done|]. split; [|by left]. intros _.
      replace (Z.to_nat retry') with 10%nat in Hnew by lia. exact Hnew.
    + eapply wp_mono; [apply (IH retry' (vs0 ++ [v])); [lia|done]|].
      intros o s' t (vs & -> & H10 & Ho). exists (v :: vs). split; [done|]. split; [|done].
      intros Hv. specialize (H10 Hv). by rewrite <- app_assoc in H10.
Qed.

(** cm_wait_for_lock only returns after ten consecutive readings of the
    interrupt status with every PLL of the mask locked; a single reading
    without lock starts the count again. *)
Theorem cm_wait_for_lock_ten fuel mask (s : st D gdata) :
  out (cm_wait_for_lock fuel mask s) = Val tt ->
  exists vs, tr (cm_wait_for_lock fuel mask s) = map inter_reading vs /\ ten_locked mask vs.
Proof.
  wp_enter. unfold cm_wait_for_lock.
  eapply wp_mono; [apply (wait_for_lock_loop _ _ _ []); [lia|by exists [], []]|].
  intros o s' t (vs & -> & H10 & _) Ho. exists vs. split; [done|]. exact (H10 Ho).
Qed.

(** *** Order of the sequence *)

(** The registers that gate, ungate, bypass and hold in safe mode, and those
    that control the PLLs; the writes to them in a trace, with their values. *)
Definition gate_reg (a : Z) : bool :=
  (a =? CM CLKMGR_MAINPLLGRP_EN_ADDRESS) || (a =? CM CLKMGR_PERPLLGRP_EN_ADDRESS) ||
  (a =? CM CLKMGR_SDRPLLGRP_EN_ADDRESS) || (a =? CM CLKMGR_BYPASS_ADDRESS) ||
  (a =? CM CLKMGR_CTRL_ADDRESS).
Definition vco_reg (a : Z) : bool :=
  (a =? CM CLKMGR_MAINPLLGRP_VCO_ADDRESS) || (a =? CM CLKMGR_PERPLLGRP_VCO_ADDRESS) ||
  (a =? CM CLKMGR_SDRPLLGRP_VCO_ADDRESS).

Definition write_to (sel : Z -> bool) (e : event) : option (Z * Z) :=
  match e with Wr a v => if sel a then Some (a, v) else None | _ => None end.

Definition gates (t : trace) : list (Z * Z) := omap (write_to gate_reg) t.
Definition vcos (t : trace) : list (Z * Z) := omap (write_to vco_reg) t.

(** What the sequence writes there: [v0] and [c] are the readings it starts
    from. *)
Definition gating_writes (skip : bool) (v0 : Z) : list (Z * Z) :=
  [(CM CLKMGR_PERPLLGRP_EN_ADDRESS, u32 (.~ CLKMGR_PERPLLGRP_EN_NANDCLK_MASK .& v0));
   (CM CLKMGR_MAINPLLGRP_EN_ADDRESS,
     u32 (CLKMGR_MAINPLLGRP_EN_DBGTIMERCLK_MASK .| CLKMGR_MAINPLLGRP_EN_DBGTRACECLK_MASK .|
          CLKMGR_MAINPLLGRP_EN_DBGCLK_MASK .| CLKMGR_MAINPLLGRP_EN_DBGATCLK_MASK .|
          CLKMGR_MAINPLLGRP_EN_S2FUSER0CLK_MASK .| CLKMGR_MAINPLLGRP_EN_L4MPCLK_MASK))] ++
  (if skip then [] else [(CM CLKMGR_SDRPLLGRP_EN_ADDRESS, 0)]) ++
  [(CM CLKMGR_PERPLLGRP_EN_ADDRESS, 0);
   (CM CLKMGR_BYPASS_ADDRESS, u32 (bypass_value skip CLKMGR_BYPASS_ENUM_ENABLE))].

Definition ungating_writes (c : Z) : list (Z * Z) :=
  [(CM CLKMGR_BYPASS_ADDRESS, u32 (bypass_value false CLKMGR_BYPASS_ENUM_DISABLE));
   (CM CLKMGR_CTRL_ADDRESS, u32 (c .| CLKMGR_CTRL_SAFEMODE_SET CLKMGR_CTRL_SAFEMODE_MASK));
   (CM CLKMGR_MAINPLLGRP_EN_ADDRESS, 0xFFFFFFFF);
   (CM CLKMGR_PERPLLGRP_EN_ADDRESS, 0xFFFFFFFF);
   (CM CLKMGR_SDRPLLGRP_EN_ADDRESS, 0xFFFFFFFF)].

(** The enable bit has the same position in the three registers. *)
Definition vco_off (w : Z * Z) : Prop := truthy (snd w .& CLKMGR_MAINPLLGRP_VCO_EN_SET 1) = false.

Definition enabling_writes (cfg : cm_config_t) (skip : bool) : list (Z * Z) :=
  [(CM CLKMGR_MAINPLLGRP_VCO_ADDRESS, u32 (main_vco_base cfg .| VCO_EN_BASE));
   (CM CLKMGR_PERPLLGRP_VCO_ADDRESS, u32 (peri_vco_base cfg .| VCO_EN_BASE))] ++
  (if skip then [] else
     [(CM CLKMGR_SDRPLLGRP_VCO_ADDRESS,
       u32 (CLKMGR_SDRPLLGRP_VCO_OUTRESET_SET 0 .| CLKMGR_SDRPLLGRP_VCO_OUTRESETALL_SET 0 .|
            sdram_vco_base cfg .| VCO_EN_BASE))]).

(** A configuration whose VCO words do not carry the enable bit. *)
Definition vco_bases_disabled (cfg : cm_config_t) : Prop :=
  truthy (u32 (main_vco_base cfg .| CLEAR_BGP_EN_PWRDN) .& CLKMGR_MAINPLLGRP_VCO_EN_SET 1) = false /\
  truthy (u32 (peri_vco_base cfg .| CLEAR_BGP_EN_PWRDN) .& CLKMGR_MAINPLLGRP_VCO_EN_SET 1) = false /\
  truthy (u32 (CLKMGR_SDRPLLGRP_VCO_OUTRESET_SET 0 .| CLKMGR_SDRPLLGRP_VCO_OUTRESETALL_SET 0 .|
             sdram_vco_base cfg .| CLEAR_BGP_EN_PWRDN) .& CLKMGR_MAINPLLGRP_VCO_EN_SET 1) = false.

(** Events that are neither; whatever a stage of such events does, it adds
    nothing to the two lists. *)
Definition no_gate (e : event) : Prop := write_to gate_reg e = None.
Definition no_vco (e : event) : Prop := write_to vco_reg e = None.
Definition quiet (e : event) : Prop := no_gate e /\ no_vco e.

Lemma no_gate_gates t : Forall no_gate t -> gates t = [].
Proof. unfold gates. induction 1 as [|e t He _ IH]; [done|]. cbn. by rewrite He. Qed.
Lemma no_vco_vcos t : Forall no_vco t -> vcos t = [].
Proof. unfold vcos. induction 1 as [|e t He _ IH]; [done|]. cbn. by rewrite He. Qed.
Lemma quiet_lists t : Forall quiet t -> gates t = [] /\ vcos t = [].
Proof.
  intros Ht. split; [apply no_gate_gates|apply no_vco_vcos]; eapply Forall_impl; [exact Ht|by intros ? []|exact Ht|by intros ? []].
Qed.

Lemma gates_app t1 t2 : gates (t1 ++ t2) = gates t1 ++ gates t2.
Proof. apply omap_app. Qed.
Lemma vcos_app t1 t2 : vcos (t1 ++ t2) = vcos t1 ++ vcos t2.
Proof. apply omap_app. Qed.

(** What a stage emits when it returns. *)
Definition emitted {A} (g : list (Z * Z)) (V : list (Z * Z) -> Prop)
    (o : outcome A) (s : st D gdata) (t : trace) : Prop :=
  forall x, o = Val x -> gates t = g /\ V (vcos t).

Lemma emitted_quiet {A} (m : M A) s : only quiet m -> wp m s (emitted [] (eq [])).
Proof.
  intros Hm. eapply wp_mono; [by apply (wp_events quiet)|]. intros o s' t Ht x _.
  by destruct (quiet_lists _ Ht) as [-> ->].
Qed.

(** Polling loops only read. *)
Lemma wait_clear_only (P : event -> Prop) fuel a mask :
  (forall v, P (Rd a v)) -> only P (wait_clear fuel a mask : M unit).
Proof. intros HP. unfold wait_clear. apply only_while. intros []. hw_auto. by apply only_readl. Qed.

Lemma wait_clear_quiet fuel a mask : only quiet (wait_clear fuel a mask : M unit).
Proof. by apply wait_clear_only. Qed.
#[local] Hint Resolve wait_clear_quiet : hw.

(** Evaluates the two lists of a trace of known writes and quiet parts. *)
Ltac list_writes :=
  repeat match goal with
         | H : Forall quiet ?t |- _ => destruct (quiet_lists _ H) as [? ?]; clear H
         end;
  rewrite ?gates_app, ?vcos_app;
  repeat match goal with
         | E : gates ?t = _ |- context [gates ?t] => rewrite E
         | E : vcos ?t = _ |- context [vcos ?t] => rewrite E
         end;
  unfold gates, vcos; cbn [omap list_omap app write_to];
  repeat match goal with
         | |- context [gate_reg ?a] => let b := eval vm_compute in (gate_reg a) in change (gate_reg a) with b
         | |- context [vco_reg ?a] => let b := eval vm_compute in (vco_reg a) in change (vco_reg a) with b
         end; cbv iota; cbn [app].
Ltac cm_wait := apply (wp_only quiet); [apply wait_clear_quiet|];
  intros [?|?] ? ? ?; [|done]; cbv beta iota.
Ltac cm_writes := repeat first [wp_step; try discriminate | cm_wait].

Lemma gate_emits fuel skip (s : st D gdata) :
  wp (cm_gate_and_bypass fuel skip : M unit) s (fun o _ t => forall x, o = Val x -> exists v0,
    gates t = gating_writes skip v0 /\ vcos t = []).
Proof.
  unfold cm_gate_and_bypass, cm_write_bypass, cm_wait4fsm.
  destruct skip; cbn [negb]; cm_writes; intros x _; exists v; by list_writes.
Qed.

Lemma reset_vco_emits skip (s : st D gdata) :
  wp (cm_reset_vco skip : M unit) s (emitted [] (Forall vco_off)).
Proof.
  unfold cm_reset_vco. destruct skip; cbn [negb]; cm_writes; intros x _; list_writes; split; try done;
    repeat constructor.
Qed.

Lemma power_up_emits cfg skip (s : st D gdata) : vco_bases_disabled cfg ->
  wp (cm_power_up_vco cfg skip : M unit) s (emitted [] (Forall vco_off)).
Proof.
  intros (Hm & Hp & Hs). unfold cm_power_up_vco.
  destruct skip; cbn [negb]; cm_writes; intros x _; list_writes; split; try done; by repeat constructor.
Qed.

Lemma internal_dividers_quiet cfg (s : st D gdata) :
  wp (cm_internal_dividers cfg : M unit) s (fun o s' t =>
    o = Val tt /\ glob s' = glob s /\ Forall quiet t).
Proof. unfold cm_internal_dividers. wp_run. repeat constructor. Qed.

Lemma enable_vco_emits cfg skip (s : st D gdata) :
  wp (cm_enable_vco cfg skip : M unit) s (emitted [] (eq (enabling_writes cfg skip))).
Proof.
  unfold cm_enable_vco. destruct skip; cbn [negb]; cm_writes; intros x _; by list_writes.
Qed.

Lemma external_dividers_quiet cfg : only quiet (cm_external_dividers cfg : M unit).
Proof. unfold cm_external_dividers. hw_auto. Qed.

(** The SDRAM counters and the output reset leave the gates alone. *)
Lemma sdram_counters_no_gate cfg skip : only no_gate (when (negb skip) (cm_sdram_counters cfg) : M unit).
Proof. unfold cm_sdram_counters. hw_auto. Qed.

Lemma toggle_outreset_no_gate fuel cfg skip : only no_gate (cm_toggle_outreset fuel cfg skip : M unit).
Proof.
  assert (Hw : forall a mask, only no_gate (wait_clear fuel a mask : M unit))
    by (intros; by apply wait_clear_only).
  unfold cm_toggle_outreset, cm_write_with_phase. hw_auto.
Qed.

Lemma leave_bypass_emits fuel cfg (s : st D gdata) :
  wp (cm_leave_bypass fuel cfg : M unit) s (fun o _ t => forall x, o = Val x -> exists c,
    gates t = ungating_writes c).
Proof.
  unfold cm_leave_bypass, cm_write_bypass, cm_write_ctrl, cm_wait4fsm.
  cm_writes. intros x _. exists v. by list_writes.
Qed.

(** The wait: its readings of the timer add up to the time asked for. *)
Lemma wait_timer_elapsed fuel start n (s : st D gdata) :
  wp (cm_wait_timer fuel start n : M unit) s (fun o _ t => exists rs,
    t = map (Rd timer_base_curr_val) rs /\ Forall word rs /\
    (o = Val tt ->
     n <= u32 (tbl (glob s) + units_elapsed (lastinc (glob s)) rs - start))).
Proof.
  unfold cm_wait_timer. revert s. induction fuel as [|fuel IH]; intros s; cbn [while_fuel].
  - wp_step. by exists [].
  - do 2 wp_step. eapply wp_mono; [apply get_timer_step|]. cbv beta.
    intros o s1 t (r & Hr & -> & -> & Hl & Ht). cbv iota. destruct (Z.ltb_spec (u32 (tbl (glob s1) - start)) n).
    + wp_step. eapply wp_mono; [apply IH|]. cbv beta. intros o s2 t (rs & -> & Hrs & Ho).
      exists (r :: rs). split; [done|]. split; [by constructor|]. intros E. specialize (Ho E).
      rewrite Hl, Ht in Ho. unfold Z.sub in Ho. rewrite <- !Z.add_assoc, u32_add_u32 in Ho.
      cbn [units_elapsed]. etrans; [exact Ho|]. apply Z.eq_le_incl. f_equal. lia.
    + wp_step. exists [r]. split; [done|]. split; [by apply Forall_singleton|]. intros _.
      cbn [units_elapsed]. rewrite Ht in *. etrans; [eassumption|]. apply Z.eq_le_incl.
      unfold Z.sub. rewrite u32_add_u32. f_equal. lia.
Qed.

(** The start value of the wait cancels. *)
Lemma wait_units n t0 l rs : 0 <= l -> Forall word rs ->
  n <= u32 (u32 t0 + units_elapsed l rs - u32 (u32 t0 - 0)) -> n <= units_elapsed l rs.
Proof.
  intros Hl Hrs. pose proof (units_elapsed_nonneg l rs Hl Hrs) as H0. unfold u32.
  rewrite Z.sub_0_r, Zmod_mod. replace (_ + _ - _) with (units_elapsed l rs) by lia.
  pose proof (Z.mod_le (units_elapsed l rs) (2 ^ 32) H0 ltac:(lia)). lia.
Qed.

Lemma wp_emitted {A B} g V (m : M A) (k : A -> M B) s (Q : outcome B -> st D gdata -> trace -> Prop) :
  wp m s (emitted g V) ->
  (forall x s' t, gates t = g -> V (vcos t) -> wp (k x) s' (fun o s'' t' => Q o s'' (t ++ t'))) ->
  (forall w s' t, Q (Stop w) s' t) ->
  wp (bind m k) s Q.
Proof.
  intros Hm Hk Hs. apply wp_bind. eapply wp_mono; [exact Hm|].
  intros [x|w] s' t Ht; cbv beta iota; [|done].
  destruct (Ht x eq_refl). by apply Hk.
Qed.

(** Runs a stage whose events all satisfy [P]. *)
Ltac cm_stage P lem :=
  apply wp_bind; apply (wp_only P); [apply lem|];
  intros [?|?] ? ? ?; [|done]; cbv beta iota.

(** C28: Whenever cm_basic_init returns, its trace is, in this order: a part
    whose writes to the gate, bypass and control registers are exactly those
    that gate the clock groups and put the PLLs in bypass, with every VCO
    disabled; the timer readings that start the wait; a part that touches none
    of these registers; readings of the timer over which at least 7 units
    passed; a part whose writes to them are exactly the VCO enables; readings of
    the lock status of which the last ten show all three PLLs locked; and a
    part whose writes to the gate, bypass and control registers are exactly
    leaving bypass, leaving safe mode and ungating the clock groups. *)
Theorem cm_basic_init_order fuel cfg skip_sdram_pll (s : st D gdata) r :
  vco_bases_disabled cfg ->
  out (cm_basic_init fuel cfg skip_sdram_pll s) = Val r ->
  let skip := truthy skip_sdram_pll in
  exists t1 v0 r0 r1 t2 rs t3 vs t4 c,
    tr (cm_basic_init fuel cfg skip_sdram_pll s) =
      t1 ++ map (Rd timer_base_curr_val) [r0; r1] ++ t2 ++ map (Rd timer_base_curr_val) rs ++
      t3 ++ map inter_reading vs ++ t4 /\
    gates t1 = gating_writes skip v0 /\ Forall vco_off (vcos t1) /\
    gates t2 = [] /\ vcos t2 = [] /\ 7 <= units_elapsed (timer_units r1) rs /\
    gates t3 = [] /\ vcos t3 = enabling_writes cfg skip /\
    ten_locked LOCKED_MASK vs /\ gates t4 = ungating_writes c.
Proof.
  intros Hcfg. wp_enter. unfold cm_basic_init. cbv zeta. set (skip := truthy skip_sdram_pll).
  apply wp_bind. eapply wp_mono; [apply gate_emits|]. intros [?|?] s1 ta Ha; [|done].
  destruct (Ha _ eq_refl) as (v0 & Ga & Va). cbv iota.
  apply (wp_emitted _ _ _ _ _ _ (reset_vco_emits _ _)); [|done]. intros ? s2 tb Gb Vb.
  apply (wp_emitted _ _ _ _ _ _ (power_up_emits _ _ _ Hcfg)); [|done]. intros ? s3 tc Gc Vc.
  apply wp_bind. eapply wp_mono; [apply reset_timer_step|].
  intros o s4 td (r0 & _ & -> & -> & T4 & L4). cbv iota.
  apply wp_bind. eapply wp_mono; [apply get_timer_step|].
  intros o s5 te (r1 & Hr1 & -> & -> & L5 & T5). cbv iota beta.
  apply wp_bind. eapply wp_mono; [apply internal_dividers_quiet|].
  intros o s6 t2 (-> & G6 & Q2). cbv iota beta. destruct (quiet_lists _ Q2) as [G2 V2].
  apply wp_bind. eapply wp_mono; [apply wait_timer_elapsed|].
  intros [[]|?] s7 tf (rs & -> & Hrs & Hw); [|done]. cbv iota beta. specialize (Hw eq_refl).
  apply (wp_emitted _ _ _ _ _ _ (enable_vco_emits _ _ _)); [|done]. intros ? s8 tg Gg Vg.
  cm_stage quiet external_dividers_quiet. apply wp_bind. unfold cm_wait_for_lock.
  eapply wp_mono; [apply (wait_for_lock_loop _ _ _ []); [lia|by exists [], []]|].
  intros [[]|?] s10 ti (vs & -> & H10 & _); [|done]. cbv beta iota. specialize (H10 eq_refl).
  cm_stage no_gate sdram_counters_no_gate. cm_stage no_gate toggle_outreset_no_gate.
  apply wp_bind. eapply wp_mono; [apply leave_bypass_emits|]. intros [?|?] s13 tl Hl; [|done].
  destruct (Hl _ eq_refl) as (c & Gl). cbv iota. wp_step. intros _.
  exists (ta ++ tb ++ tc), v0, r0, r1, t2, rs, (tg ++ t), vs, (t0 ++ t1 ++ tl), c.
  split; [by rewrite app_nil_r, <- !app_assoc|].
  destruct (quiet_lists _ H0) as [G3 V3].
  rewrite !gates_app, !vcos_app, Ga, Va, Gb, Gc, Gg, G3, V3, <- Vg, Gl, app_nil_r.
  rewrite (no_gate_gates _ H1), (no_gate_gates _ H2). cbn [app].
  rewrite G6, L5, T5 in Hw. apply wait_units in Hw; [|by apply timer_units_bounds|done].
  rewrite Forall_app, app_nil_r. tauto.
Qed.


(** *** Keeping the SDRAM PLL *)

(** A write to a configuration register of the SDRAM PLL group, the gate
    register SDRPLLGRP_EN excepted. *)
Definition sdr_pll_write (e : event) : bool :=
  match e with
  | Wr a _ => (CM CLKMGR_SDRPLLGRP_VCO_ADDRESS <=? a) && (a <? CM CLKMGR_SDRPLLGRP_EN_ADDRESS)
  | _ => false
  end.
Definition keeps_sdr_pll (e : event) : Prop := sdr_pll_write e = false.

(** With skip_sdram_pll set, whatever the hardware answers and however the
    run ends, cm_basic_init never writes a configuration register of the SDRAM
    PLL, so that SDRAM contents survive a warm reset. *)
Theorem cm_basic_init_skip fuel cfg skip_sdram_pll (s : st D gdata) :
  truthy skip_sdram_pll = true ->
  Forall keeps_sdr_pll (tr (cm_basic_init fuel cfg skip_sdram_pll s)).
Proof.
  intros Hs. revert s. change (only keeps_sdr_pll (cm_basic_init fuel cfg skip_sdram_pll : M Z)).
  assert (Hw : forall fuel a mask, only keeps_sdr_pll (wait_clear fuel a mask : M unit))
    by (intros; by apply wait_clear_only).
  unfold cm_basic_init. cbv zeta. rewrite Hs.
  unfold cm_gate_and_bypass, cm_reset_vco, cm_power_up_vco, reset_timer, get_timer,
    get_timer_masked, read_timer, cm_internal_dividers, cm_wait_timer, cm_enable_vco,
    cm_external_dividers, cm_wait_for_lock, wait_for_lock_body, cm_toggle_outreset,
    cm_leave_bypass, cm_write_bypass, cm_write_ctrl, cm_wait4fsm, get_timer, get_timer_masked, read_timer.
  cbn [negb when].
  repeat match goal with
         | |- only _ (while_fuel _ _ _) => apply only_while
         | _ => hw_step
         end.
Qed.

(** *** Register contents after the sequence *)

Lemma wait_clear_keeps a `{!Reg D a} fuel b mask : keeps a (wait_clear fuel b mask : M unit).
Proof. unfold wait_clear. keeps_auto. Qed.
Lemma wait_timer_keeps a `{!Reg D a} fuel start n : keeps a (cm_wait_timer fuel start n : M unit).
Proof. unfold cm_wait_timer, get_timer, get_timer_masked, read_timer. keeps_auto. Qed.
Lemma wait_for_lock_keeps a `{!Reg D a} fuel mask : keeps a (cm_wait_for_lock fuel mask : M unit).
Proof. unfold cm_wait_for_lock, wait_for_lock_body. keeps_auto. Qed.
Lemma reset_timer_keeps a `{!Reg D a} : keeps a (reset_timer : M unit).
Proof. unfold reset_timer, read_timer. keeps_auto. Qed.
Lemma get_timer_keeps a `{!Reg D a} n : keeps a (get_timer n : M Z).
Proof. unfold get_timer, get_timer_masked, read_timer. keeps_auto. Qed.

(** Runs the whole sequence, following the register [a]. *)
Ltac cm_loop a lem :=
  apply (wp_keeps a); [apply lem|]; let H := fresh "Hreg" in intros [?|?] ? ? H; [|done]; cbn [dev glob] in H.
Ltac cm_run a :=
  repeat first
    [ reg_step a
    | match goal with
      | |- wp (wait_clear _ _ _) _ _ => cm_loop a wait_clear_keeps
      | |- wp (cm_wait_timer _ _ _) _ _ => cm_loop a wait_timer_keeps
      | |- wp (cm_wait_for_lock _ _) _ _ => cm_loop a wait_for_lock_keeps
      | |- wp reset_timer _ _ => cm_loop a reset_timer_keeps
      | |- wp (get_timer _) _ _ => cm_loop a get_timer_keeps
      | |- wp (when true _) _ _ => unfold when
      end ].

(** The value that the register [a] has when the board's sequence returns. *)
Definition ends_with (fuel : nat) (a v : Z) `{!Reg D a} : Prop := forall s r,
  out (cm_basic_init fuel cm_default_cfg 0 s) = Val r ->
  reg a (fin (cm_basic_init fuel cm_default_cfg 0 s)) = v.

Ltac cm_unfold :=
  unfold cm_basic_init, cm_gate_and_bypass, cm_reset_vco, cm_power_up_vco,
    cm_internal_dividers, cm_enable_vco, cm_external_dividers, cm_sdram_counters,
    cm_toggle_outreset, cm_leave_bypass, cm_write_bypass, cm_write_ctrl, cm_wait4fsm,
    cm_write_with_phase; change (truthy 0) with false; cbv zeta; cbn [negb].

Ltac cm_final a :=
  intros s r; wp_enter; cm_unfold; cm_run a; intros _;
  reg_subst a; rewrite ?u32_word by word_solve; vm_compute; reflexivity.

Lemma ends_mpuclk fuel `{!Reg D (CM CLKMGR_MAINPLLGRP_MPUCLK_ADDRESS)} :
  ends_with fuel (CM CLKMGR_MAINPLLGRP_MPUCLK_ADDRESS) (mpuclk cm_default_cfg).
Proof. cm_final (CM CLKMGR_MAINPLLGRP_MPUCLK_ADDRESS). Qed.

Lemma ends_alt_mpuclk fuel `{!Reg D (CM CLKMGR_ALTERAGRP_MPUCLK)} :
  ends_with fuel (CM CLKMGR_ALTERAGRP_MPUCLK) (CONFIG_HPS_ALTERAGRP_MPUCLK).
Proof. cm_final (CM CLKMGR_ALTERAGRP_MPUCLK). Qed.

Lemma ends_main_vco fuel `{!Reg D (CM CLKMGR_MAINPLLGRP_VCO_ADDRESS)} :
  ends_with fuel (CM CLKMGR_MAINPLLGRP_VCO_ADDRESS) (main_vco_base cm_default_cfg .| VCO_EN_BASE).
Proof. cm_final (CM CLKMGR_MAINPLLGRP_VCO_ADDRESS). Qed.

Lemma ends_per_vco fuel `{!Reg D (CM CLKMGR_PERPLLGRP_VCO_ADDRESS)} :
  ends_with fuel (CM CLKMGR_PERPLLGRP_VCO_ADDRESS) (peri_vco_base cm_default_cfg .| VCO_EN_BASE).
Proof. cm_final (CM CLKMGR_PERPLLGRP_VCO_ADDRESS). Qed.

Lemma ends_sdr_vco fuel `{!Reg D (CM CLKMGR_SDRPLLGRP_VCO_ADDRESS)} :
  ends_with fuel (CM CLKMGR_SDRPLLGRP_VCO_ADDRESS) (sdram_vco_base cm_default_cfg .| VCO_EN_BASE).
Proof. cm_final (CM CLKMGR_SDRPLLGRP_VCO_ADDRESS). Qed.

Lemma ends_ddrdqs fuel `{!Reg D (CM CLKMGR_SDRPLLGRP_DDRDQSCLK_ADDRESS)} :
  ends_with fuel (CM CLKMGR_SDRPLLGRP_DDRDQSCLK_ADDRESS) (ddrdqsclk cm_default_cfg).
Proof. cm_final (CM CLKMGR_SDRPLLGRP_DDRDQSCLK_ADDRESS). Qed.

Lemma ends_l4src fuel `{!Reg D (CM CLKMGR_MAINPLLGRP_L4SRC_ADDRESS)} :
  ends_with fuel (CM CLKMGR_MAINPLLGRP_L4SRC_ADDRESS) (l4src cm_default_cfg).
Proof. cm_final (CM CLKMGR_MAINPLLGRP_L4SRC_ADDRESS). Qed.

Lemma ends_perbase fuel `{!Reg D (CM CLKMGR_PERPLLGRP_PERBASECLK_ADDRESS)} :
  ends_with fuel (CM CLKMGR_PERPLLGRP_PERBASECLK_ADDRESS) (perbaseclk cm_default_cfg).
Proof. cm_final (CM CLKMGR_PERPLLGRP_PERBASECLK_ADDRESS). Qed.

Lemma ends_maindiv fuel `{!Reg D (CM CLKMGR_MAINPLLGRP_MAINDIV_ADDRESS)} :
  ends_with fuel (CM CLKMGR_MAINPLLGRP_MAINDIV_ADDRESS) (maindiv cm_default_cfg).
Proof. cm_final (CM CLKMGR_MAINPLLGRP_MAINDIV_ADDRESS). Qed.

Lemma ends_persrc fuel `{!Reg D (CM CLKMGR_PERPLLGRP_SRC_ADDRESS)} :
  ends_with fuel (CM CLKMGR_PERPLLGRP_SRC_ADDRESS) (persrc cm_default_cfg).
Proof. cm_final (CM CLKMGR_PERPLLGRP_SRC_ADDRESS). Qed.

Lemma ends_persdmmc fuel `{!Reg D (CM CLKMGR_PERPLLGRP_PERNANDSDMMCCLK_ADDRESS)} :
  ends_with fuel (CM CLKMGR_PERPLLGRP_PERNANDSDMMCCLK_ADDRESS) (pernandsdmmcclk cm_default_cfg).
Proof. cm_final (CM CLKMGR_PERPLLGRP_PERNANDSDMMCCLK_ADDRESS). Qed.

Lemma ends_mainqspi fuel `{!Reg D (CM CLKMGR_MAINPLLGRP_MAINQSPICLK_ADDRESS)} :
  ends_with fuel (CM CLKMGR_MAINPLLGRP_MAINQSPICLK_ADDRESS) (mainqspiclk cm_default_cfg).
Proof. cm_final (CM CLKMGR_MAINPLLGRP_MAINQSPICLK_ADDRESS). Qed.

Section board_clocks.
Context `{!Reg D (CM CLKMGR_MAINPLLGRP_MPUCLK_ADDRESS)}
  `{!Reg D (CM CLKMGR_ALTERAGRP_MPUCLK)}
  `{!Reg D (CM CLKMGR_MAINPLLGRP_VCO_ADDRESS)}
  `{!Reg D (CM CLKMGR_PERPLLGRP_VCO_ADDRESS)}
  `{!Reg D (CM CLKMGR_SDRPLLGRP_VCO_ADDRESS)}
  `{!Reg D (CM CLKMGR_SDRPLLGRP_DDRDQSCLK_ADDRESS)}
  `{!Reg D (CM CLKMGR_MAINPLLGRP_L4SRC_ADDRESS)}
  `{!Reg D (CM CLKMGR_PERPLLGRP_PERBASECLK_ADDRESS)}
  `{!Reg D (CM CLKMGR_MAINPLLGRP_MAINDIV_ADDRESS)}
  `{!Reg D (CM CLKMGR_PERPLLGRP_SRC_ADDRESS)}
  `{!Reg D (CM CLKMGR_PERPLLGRP_PERNANDSDMMCCLK_ADDRESS)}
  `{!Reg D (CM CLKMGR_MAINPLLGRP_MAINQSPICLK_ADDRESS)}.

(** The registers that the frequency functions read, as the board's sequence
    leaves them. *)
Definition board_regs (s : st D gdata) : Prop :=
  reg (CM CLKMGR_MAINPLLGRP_MPUCLK_ADDRESS) s = mpuclk cm_default_cfg /\
  reg (CM CLKMGR_ALTERAGRP_MPUCLK) s = CONFIG_HPS_ALTERAGRP_MPUCLK /\
  reg (CM CLKMGR_MAINPLLGRP_VCO_ADDRESS) s = (main_vco_base cm_default_cfg .| VCO_EN_BASE) /\
  reg (CM CLKMGR_PERPLLGRP_VCO_ADDRESS) s = (peri_vco_base cm_default_cfg .| VCO_EN_BASE) /\
  reg (CM CLKMGR_SDRPLLGRP_VCO_ADDRESS) s = (sdram_vco_base cm_default_cfg .| VCO_EN_BASE) /\
  reg (CM CLKMGR_SDRPLLGRP_DDRDQSCLK_ADDRESS) s = ddrdqsclk cm_default_cfg /\
  reg (CM CLKMGR_MAINPLLGRP_L4SRC_ADDRESS) s = l4src cm_default_cfg /\
  reg (CM CLKMGR_PERPLLGRP_PERBASECLK_ADDRESS) s = perbaseclk cm_default_cfg /\
  reg (CM CLKMGR_MAINPLLGRP_MAINDIV_ADDRESS) s = maindiv cm_default_cfg /\
  reg (CM CLKMGR_PERPLLGRP_SRC_ADDRESS) s = persrc cm_default_cfg /\
  reg (CM CLKMGR_PERPLLGRP_PERNANDSDMMCCLK_ADDRESS) s = pernandsdmmcclk cm_default_cfg /\
  reg (CM CLKMGR_MAINPLLGRP_MAINQSPICLK_ADDRESS) s = mainqspiclk cm_default_cfg.

Lemma board_regs_read a s :
  board_regs s -> board_regs (mk_st (snd (dev_read a (dev s))) (glob s)).
Proof. unfold board_regs. by rewrite !reg_after_read. Qed.

Lemma board_regs_init fuel s r :
  out (cm_basic_init fuel cm_default_cfg 0 s) = Val r ->
  board_regs (fin (cm_basic_init fuel cm_default_cfg 0 s)).
Proof.
  intros Hr. unfold board_regs. repeat split.
  - by eapply ends_mpuclk.
  - by eapply ends_alt_mpuclk.
  - by eapply ends_main_vco.
  - by eapply ends_per_vco.
  - by eapply ends_sdr_vco.
  - by eapply ends_ddrdqs.
  - by eapply ends_l4src.
  - by eapply ends_perbase.
  - by eapply ends_maindiv.
  - by eapply ends_persrc.
  - by eapply ends_persdmmc.
  - by eapply ends_mainqspi.
Qed.

(** One read of a known register; the others stay known. *)
Lemma wp_readl_board a v `{!Reg D a} s (Q : outcome Z -> st D gdata -> trace -> Prop) :
  board_regs s -> (board_regs s -> reg a s = v) ->
  (forall s', board_regs s' -> glob s' = glob s -> Q (Val v) s' [Rd a v]) -> wp (readl a) s Q.
Proof.
  intros Hb Hv HQ. apply (wp_readl_known a). rewrite (Hv Hb).
  apply HQ; [by apply board_regs_read|done].
Qed.

Lemma wp_udiv_known c d v (s : st D gdata) (Q : outcome Z -> st D gdata -> trace -> Prop) :
  (d =? 0) = false -> c / d = v -> Q (Val v) s [] -> wp (udiv c d) s Q.
Proof. intros Hd <- HQ. unfold udiv. rewrite Hd. by apply wp_ret. Qed.

(** Evaluates a frequency function on the board's registers. *)
Ltac board_step :=
  match goal with
  | |- wp (bind _ _) _ _ => apply wp_bind
  | |- wp (ret _) _ _ => apply wp_ret
  | Hb : board_regs ?s |- wp (readl ?a) ?s _ =>
      eapply (wp_readl_board a); [exact Hb | | ];
        [ let H := fresh in intros H; unfold board_regs in H;
          repeat match type of H with _ /\ _ => destruct H as [? H] end;
          match goal with E : reg ?b _ = _ |- reg ?b _ = _ => exact E end
        | let H := fresh "Hb" in intros ? H _; clear Hb ]
  | |- wp (udiv _ _) _ _ =>
      eapply wp_udiv_known; [vm_compute; reflexivity | vm_compute; reflexivity |]
  | |- wp (div_by _ _) _ _ => unfold div_by
  | |- wp (div_by_reg _ _) _ _ => unfold div_by_reg
  | |- wp (if ?b then _ else _) _ _ =>
      let v := eval vm_compute in b in change b with v; cbv iota
  | |- wp main_vco_clk_hz _ _ => unfold main_vco_clk_hz
  | |- wp per_vco_clk_hz _ _ => unfold per_vco_clk_hz
  end; cbv beta iota.
Ltac board_run := repeat board_step; try (vm_compute; reflexivity).

Lemma board_mpu s : board_regs s ->
  wp (cm_get_mpu_clk_hz : M Z) s (fun o s' _ => o = Val 800000000).
Proof. intros Hb. unfold cm_get_mpu_clk_hz. board_run. Qed.

Lemma board_sdram s : board_regs s ->
  wp (cm_get_sdram_clk_hz : M Z) s (fun o s' _ => o = Val 400000000).
Proof. intros Hb. unfold cm_get_sdram_clk_hz. cbv zeta. board_run. Qed.

Lemma board_l4_sp s : board_regs s ->
  wp (cm_get_l4_sp_clk_hz : M Z) s (fun o s' _ => o = Val CONFIG_HPS_CLK_L4_SP_HZ).
Proof. intros Hb. unfold cm_get_l4_sp_clk_hz. cbv zeta. board_run. Qed.

Lemma board_mmc s : board_regs s ->
  wp (cm_get_mmc_controller_clk_hz : M Z) s (fun o s' _ => o = Val (CONFIG_HPS_CLK_SDMMC_HZ / 4)).
Proof. intros Hb. unfold cm_get_mmc_controller_clk_hz. cbv zeta. board_run. Qed.

Lemma board_qspi s : board_regs s ->
  wp (cm_get_qspi_controller_clk_hz : M Z) s (fun o s' _ => o = Val CONFIG_HPS_CLK_QSPI_HZ).
Proof. intros Hb. unfold cm_get_qspi_controller_clk_hz. cbv zeta. board_run. Qed.

(** C5: Whenever cm_basic_init returns with this board's settings, on any
    device whose clock registers read back what was written, the frequencies
    computed from the registers are the ones the board's configuration states:
    800 MHz for the processor, 400 MHz for the SDRAM, and the declared L4 SP,
    SD/MMC (behind its fixed divider) and QSPI clocks; no division is undefined
    and no product overflows. *)
Theorem board_clock_frequencies fuel s r :
  out (cm_basic_init fuel cm_default_cfg 0 s) = Val r ->
  let s' := fin (cm_basic_init fuel cm_default_cfg 0 s) in
  out (cm_get_mpu_clk_hz s') = Val 800000000 /\
  out (cm_get_sdram_clk_hz s') = Val 400000000 /\
  out (cm_get_l4_sp_clk_hz s') = Val CONFIG_HPS_CLK_L4_SP_HZ /\
  out (cm_get_mmc_controller_clk_hz s') = Val (CONFIG_HPS_CLK_SDMMC_HZ / 4) /\
  out (cm_get_qspi_controller_clk_hz s') = Val CONFIG_HPS_CLK_QSPI_HZ.
Proof.
  intros Hr s'. pose proof (board_regs_init _ _ _ Hr) as Hb. fold s' in Hb.
  repeat split; [by apply board_mpu|by apply board_sdram|by apply board_l4_sp
    |by apply board_mmc|by apply board_qspi].
Qed.

End board_clocks.

End proofs.

(** ** Concrete runs *)

(** A clock manager whose PLLs are always locked, whose phase shift of the DQ
    clock completes at once, with a running timer; everything else is memory. *)
Definition clk_sim := (Z * ram)%type.
#[export] Instance clk_sim_device : Device clk_sim := {
  dev_read a d :=
    if a =? timer_base_curr_val then (fst d, (fst d - 50000, snd d))
    else if a =? CM CLKMGR_INTER_ADDRESS then (0xFFFFFFFF, d)
    else (default 0 (snd d !! a), d);
  dev_write a v d :=
    (fst d, <[a := if a =? CM CLKMGR_SDRPLLGRP_DDRDQCLK_ADDRESS
                   then v .& CLKMGR_SDRPLLGRP_DDRDQCLK_CNT_MASK else v]> (snd d))
}.

Definition clk_plain (a : Z) : bool :=
  negb (a =? timer_base_curr_val) && negb (a =? CM CLKMGR_INTER_ADDRESS) &&
  negb (a =? CM CLKMGR_SDRPLLGRP_DDRDQCLK_ADDRESS).

Definition clk_sim_reg a (Ha : clk_plain a = true) : Reg clk_sim a.
Proof.
  apply andb_true_iff in Ha as [Ha Hq]. apply andb_true_iff in Ha as [Ht Hi].
  apply negb_true_iff in Ht, Hi, Hq.
  refine {| reg_val (d : clk_sim) := default 0 (snd d !! a) |};
    cbn [dev_read dev_write clk_sim_device snd fst].
  - intros d. by rewrite Ht, Hi.
  - intros v d. by rewrite Hq, lookup_insert_eq.
  - intros b d Hb. destruct (b =? timer_base_curr_val); [done|].
    by destruct (b =? CM CLKMGR_INTER_ADDRESS).
  - intros b v d Hb. by rewrite lookup_insert_ne.
Defined.
#[export] Hint Extern 0 (Reg clk_sim _) => (apply clk_sim_reg; reflexivity) : typeclass_instances.

Definition clk_sim0 : st clk_sim gdata := mk_st (0xF0000000, ∅) gdata0.

Lemma board_clock_frequencies_witness :
  let s' := fin (cm_basic_init 20 cm_default_cfg 0 clk_sim0) in
  out (cm_get_mpu_clk_hz s') = Val 800000000 /\
  out (cm_get_sdram_clk_hz s') = Val 400000000 /\
  out (cm_get_l4_sp_clk_hz s') = Val CONFIG_HPS_CLK_L4_SP_HZ /\
  out (cm_get_mmc_controller_clk_hz s') = Val (CONFIG_HPS_CLK_SDMMC_HZ / 4) /\
  out (cm_get_qspi_controller_clk_hz s') = Val CONFIG_HPS_CLK_QSPI_HZ.
Proof. apply (board_clock_frequencies 20 clk_sim0 0). vm_compute. reflexivity. Defined.

Lemma cm_basic_init_order_witness :
  exists t1 v0 r0 r1 t2 rs t3 vs t4 c,
    tr (cm_basic_init 20 cm_default_cfg 0 clk_sim0) =
      t1 ++ map (Rd timer_base_curr_val) [r0; r1] ++ t2 ++ map (Rd timer_base_curr_val) rs ++
      t3 ++ map inter_reading vs ++ t4 /\
    gates t1 = gating_writes false v0 /\ Forall vco_off (vcos t1) /\
    gates t2 = [] /\ vcos t2 = [] /\ 7 <= units_elapsed (timer_units r1) rs /\
    gates t3 = [] /\ vcos t3 = enabling_writes cm_default_cfg false /\
    ten_locked LOCKED_MASK vs /\ gates t4 = ungating_writes c.
Proof.
  apply (cm_basic_init_order 20 cm_default_cfg 0 clk_sim0 0); vm_compute; repeat split; reflexivity.
Defined.

Lemma cm_basic_init_skip_witness :
  Forall keeps_sdr_pll (tr (cm_basic_init 20 cm_default_cfg 1 clk_sim0)).
Proof. apply cm_basic_init_skip. reflexivity. Defined.

Lemma cm_wait_for_lock_ten_witness :
  exists vs, tr (cm_wait_for_lock 20 LOCKED_MASK clk_sim0) = map inter_reading vs /\
    ten_locked LOCKED_MASK vs.
Proof. apply cm_wait_for_lock_ten. vm_compute. reflexivity. Defined.
