(* ===== verification/SystemManager.v ===== *)
(** The system manager (system_manager.c): pin multiplexing from the handoff
    table, the FPGA interface signals that follow from it, and the boot ROM
    handshake for boards that switch the SD card's power.  Also the security
    setting of the interconnect's slaves (nic301.c). *)

From S2P Require Import Prelude Mmio Regs FpgaStatus ResetManager BoardTables.

Section system_manager.
Context {D G : Type} `{Device D}.
Abbreviation M := (M D G).

(** [if (readl(use) == SYSMGR_FPGAINTF_USEFPGA) setbits_le32(handoff, bit)]. *)
Definition populate_signal (use mask : Z) : M unit :=
  let* v := readl use in
  if v =? SYSMGR_FPGAINTF_USEFPGA then setbits_le32 ISWGRP_HANDOFF_FPGAINTF mask else ret tt.

Definition populate_sysmgr_fpgaintf_module : M Z :=
  writel 0 ISWGRP_HANDOFF_FPGAINTF ;;;
  populate_signal SYSMGR_PINMUXGRP_NANDUSEFPGA SYSMGR_FPGAINTF_NAND ;;;
  populate_signal SYSMGR_PINMUXGRP_EMAC1USEFPGA SYSMGR_FPGAINTF_EMAC1 ;;;
  populate_signal SYSMGR_PINMUXGRP_SDMMCUSEFPGA SYSMGR_FPGAINTF_SDMMC ;;;
  populate_signal SYSMGR_PINMUXGRP_EMAC0USEFPGA SYSMGR_FPGAINTF_EMAC0 ;;;
  populate_signal SYSMGR_PINMUXGRP_SPIM1USEFPGA SYSMGR_FPGAINTF_SPIM1 ;;;
  populate_signal SYSMGR_PINMUXGRP_SPIM0USEFPGA SYSMGR_FPGAINTF_SPIM0 ;;;
  readl ISWGRP_HANDOFF_FPGAINTF.

(** The loop over the table; [offset] advances by the size of an entry. *)
Definition pinmux_entry (table : list Z) (i : Z) : M (option unit) :=
  let offset := CONFIG_SYSMGR_PINMUXGRP_OFFSET + 4 * i in
  let* v := array_get table i in
  writel v (SOCFPGA_SYSMGR_ADDRESS + offset) ;;;
  ret None.

Definition sysmgr_pinmux_init (table : list Z) : M unit :=
  let* _ := for_upto (Z.of_nat (length table)) (pinmux_entry table) in
  let* reg_value := populate_sysmgr_fpgaintf_module in
  let* ready := is_fpgamgr_fpga_ready in
  when (truthy ready) (writel reg_value SYSMGR_FPGAINTF_MODULE).

Definition sysmgr_sdmmc_pweren_mux_check : M unit :=
  let* v := readl SYSMGR_PINMUXGRP_FLASHIO1 in
  when (v =? 3)
    (writel (SYSMGR_ROMCODEGRP_CTRL_WARMRSTCFGPINMUX .| SYSMGR_ROMCODEGRP_CTRL_WARMRSTCFGIO)
       CONFIG_SYSMGR_ROMCODEGRP_CTRL).

(** nic301.c *)
Definition nic301_slave_ns : M unit :=
  writel 0x1 (SOCFPGA_L3REGS_ADDRESS + L3REGS_SECGRP_LWHPS2FPGAREGS_ADDRESS) ;;;
  writel 0x1 (SOCFPGA_L3REGS_ADDRESS + L3REGS_SECGRP_HPS2FPGAREGS_ADDRESS) ;;;
  writel 0x1 (SOCFPGA_L3REGS_ADDRESS + L3REGS_SECGRP_ACP_ADDRESS) ;;;
  writel 0x1 (SOCFPGA_L3REGS_ADDRESS + L3REGS_SECGRP_ROM_ADDRESS) ;;;
  writel 0x1 (SOCFPGA_L3REGS_ADDRESS + L3REGS_SECGRP_OCRAM_ADDRESS) ;;;
  writel 0x1 (SOCFPGA_L3REGS_ADDRESS + L3REGS_SECGRP_SDRDATA_ADDRESS).

End system_manager.

(** ** Pin multiplexing *)

Section proofs.
Context {D G : Type} `{Device D}.
Abbreviation M := (M D G).
Abbreviation HANDOFF := ISWGRP_HANDOFF_FPGAINTF.

Lemma populate_signal_keeps a `{!Reg D a} use mask :
  HANDOFF <> a -> keeps a (populate_signal use mask : M unit).
Proof. intros. unfold populate_signal. keeps_auto. Qed.

Lemma populate_signal_total use mask : total (populate_signal use mask : M unit).
Proof. unfold populate_signal. hw_auto. Qed.

Lemma populate_signal_reg `{!Reg D HANDOFF} use `{!Reg D use} mask (s : st D G) : word mask ->
  reg HANDOFF (fin (populate_signal use mask s)) =
  if reg use s =? SYSMGR_FPGAINTF_USEFPGA then reg HANDOFF s .| mask else reg HANDOFF s.
Proof.
  intros Hm. wp_enter. unfold populate_signal. wp_step. apply (wp_readl_known use). cbv beta iota.
  destruct (_ =? _); [apply (wp_setbits_reg HANDOFF); [done|]; intros d ->|apply wp_ret];
    by rewrite reg_after_read.
Qed.

(** The register of table entry [i]. *)
Definition pinmux_reg (i : nat) : Z :=
  SOCFPGA_SYSMGR_ADDRESS + (CONFIG_SYSMGR_PINMUXGRP_OFFSET + 4 * Z.of_nat i).

Lemma handoff_not_pinmux i : HANDOFF <> pinmux_reg i.
Proof. unfold pinmux_reg, HANDOFF, SYSMGR_ISWGRP_HANDOFF2, CONFIG_SYSMGR_PINMUXGRP_OFFSET. lia. Qed.

Lemma module_not_pinmux i : SYSMGR_FPGAINTF_MODULE <> pinmux_reg i.
Proof. unfold pinmux_reg, SYSMGR_FPGAINTF_MODULE, CONFIG_SYSMGR_PINMUXGRP_OFFSET. lia. Qed.

(** The whole table loop, as seen at one entry's register. *)
Lemma pinmux_loop_reg table (i : nat) x (s : st D G)
    `{!Reg D (pinmux_reg i)} :
  table !! i = Some x -> word x ->
  wp (for_upto (Z.of_nat (length table)) (pinmux_entry table) : M _) s (fun o s' _ =>
    o = Val None /\
    reg (pinmux_reg i) s' = x).
Proof.
  intros Hi Hx. pose proof (lookup_lt_Some _ _ _ Hi) as Hlt.
  apply (wp_for (fun k s _ => Z.of_nat i < k -> reg (pinmux_reg i) s = x)); [lia|lia| |].
  - intros k s1 t1 Hk HI. destruct (lookup_lt_is_Some_2 table (Z.to_nat k)) as [y Hy]; [lia|].
    unfold pinmux_entry. wp_step. eapply wp_array_get; [|exact Hy|]; [lia|]. cbv beta iota. wp_step.
    destruct (Z.eq_dec k (Z.of_nat i)) as [->|Hne].
    + rewrite Nat2Z.id, Hi in Hy. injection Hy as <-. apply (wp_writel_reg (pinmux_reg i)). intros d Hd.
      wp_step. intros _. by rewrite Hd, u32_word.
    + apply (wp_writel_other (pinmux_reg i)); [unfold pinmux_reg; lia|]. intros d Hd. wp_step. intros ?.
      rewrite Hd. apply HI. lia.
  - intros s1 t1 HI. split; [done|]. apply HI. lia.
Qed.

(** Everything after the table loop leaves the pin multiplexing alone. *)
Lemma populate_keeps a `{!Reg D a} :
  HANDOFF <> a -> keeps a (populate_sysmgr_fpgaintf_module : M Z).
Proof.
  intros. unfold populate_sysmgr_fpgaintf_module. keeps_auto; by apply populate_signal_keeps.
Qed.

Lemma populate_total : total (populate_sysmgr_fpgaintf_module : M Z).
Proof. unfold populate_sysmgr_fpgaintf_module. hw_auto; apply populate_signal_total. Qed.

Lemma fpga_ready_total : total (is_fpgamgr_fpga_ready : M Z).
Proof. unfold is_fpgamgr_fpga_ready, is_fpgamgr_initdone_high, fpgamgr_get_mode. hw_auto. Qed.

Lemma fpga_ready_keeps a `{!Reg D a} : keeps a (is_fpgamgr_fpga_ready : M Z).
Proof.
  unfold is_fpgamgr_fpga_ready, is_fpgamgr_initdone_high, fpgamgr_get_mode. keeps_auto.
Qed.

(** Every entry of the pin multiplexing table ends up in its register, and
    the rest of the function leaves it there; no entry is read outside the table
    and the function always returns. *)
Theorem pinmux_table_loaded table (i : nat) x (s : st D G) `{!Reg D (pinmux_reg i)} :
  table !! i = Some x -> word x ->
  out (sysmgr_pinmux_init table s) = Val tt /\ reg (pinmux_reg i) (fin (sysmgr_pinmux_init table s)) = x.
Proof.
  intros Hi Hx. wp_enter. unfold sysmgr_pinmux_init. wp_step.
  eapply wp_mono; [by apply pinmux_loop_reg|]. intros o1 s1 t1 [-> H1]. cbv beta iota. wp_step.
  apply wp_total; [apply populate_total|]. intros v _.
  assert (H2 : reg (pinmux_reg i) (fin (populate_sysmgr_fpgaintf_module s1)) = x).
  { rewrite populate_keeps; [done|]. apply handoff_not_pinmux. }
  revert H2. generalize (fin (populate_sysmgr_fpgaintf_module s1)). intros s2 H2. wp_step.
  apply wp_total; [apply fpga_ready_total|]. intros r _. wp_step.
  - apply (wp_writel_other (pinmux_reg i)); [apply module_not_pinmux|]. intros d Hd. split; [done|].
    by rewrite Hd, fpga_ready_keeps.
  - split; [done|]. by rewrite fpga_ready_keeps.
Qed.

(** ** FPGA interface signals *)

(** Each peripheral that can be routed to the fabric: the table entry that
    says so and its bit of the FPGA interface module register. *)
Definition fpgaintf_bits : list (nat * Z) :=
  [(188%nat, 4); (190%nat, 3); (194%nat, 5); (197%nat, 2); (204%nat, 1); (206%nat, 0)].

Definition routed (table : list Z) (i : Z) (m : nat * Z) : bool :=
  (i =? snd m) && bool_decide (table !! fst m = Some SYSMGR_FPGAINTF_USEFPGA).

(** The six table entries are the pinmux registers that the code tests. *)
Lemma fpgaintf_bits_registers :
  map (fun m => pinmux_reg (fst m)) fpgaintf_bits =
  [SYSMGR_PINMUXGRP_NANDUSEFPGA; SYSMGR_PINMUXGRP_EMAC1USEFPGA; SYSMGR_PINMUXGRP_SDMMCUSEFPGA;
   SYSMGR_PINMUXGRP_EMAC0USEFPGA; SYSMGR_PINMUXGRP_SPIM1USEFPGA; SYSMGR_PINMUXGRP_SPIM0USEFPGA].
Proof. reflexivity. Qed.

Lemma wp_populate `{!Reg D HANDOFF} use `{!Reg D use} n (s : st D G)
    (Q : outcome unit -> st D G -> trace -> Prop) : 0 <= n < 32 ->
  (forall s' t, (forall b (Rb : Reg D b), HANDOFF <> b -> reg b s' = reg b s) ->
     reg HANDOFF s' = reg HANDOFF s .|
       (if reg use s =? SYSMGR_FPGAINTF_USEFPGA then bit n else 0) ->
     Q (Val tt) s' t) ->
  wp (populate_signal use (bit n) : M unit) s Q.
Proof.
  intros Hn HQ. apply wp_total; [apply populate_signal_total|]. intros [] _. apply HQ.
  - intros b Rb Hb. by apply populate_signal_keeps.
  - rewrite (populate_signal_reg use (bit n) s).
    + destruct (_ =? _); by rewrite ?Z.lor_0_r.
    + unfold word. rewrite bit_pow2 by lia. split; [lia|]. apply Z.pow_lt_mono_r; lia.
Qed.

Lemma testbit_opt (b : bool) n i : 0 <= n -> 0 <= i ->
  Z.testbit (if b then bit n else 0) i = (i =? n) && b.
Proof.
  intros. destruct b; [by rewrite testbit_bit, Z.eqb_sym, andb_true_r|].
  by rewrite Z.bits_0, andb_false_r.
Qed.

Section signals.
Context `{!Reg D HANDOFF}.
Context `{!Reg D SYSMGR_PINMUXGRP_NANDUSEFPGA} `{!Reg D SYSMGR_PINMUXGRP_EMAC1USEFPGA}
        `{!Reg D SYSMGR_PINMUXGRP_SDMMCUSEFPGA} `{!Reg D SYSMGR_PINMUXGRP_EMAC0USEFPGA}
        `{!Reg D SYSMGR_PINMUXGRP_SPIM1USEFPGA} `{!Reg D SYSMGR_PINMUXGRP_SPIM0USEFPGA}.

Ltac signal_step use n :=
  wp_step; apply (wp_populate use n); [lia|];
  let s := fresh "s" in let F := fresh "F" in let E := fresh "E" in
  intros s ? F E; cbv beta iota.

(** The value left in the handoff register and returned. *)
Lemma populate_value (s : st D G) :
  wp (populate_sysmgr_fpgaintf_module : M Z) s (fun o s' _ => exists v,
    o = Val v /\ reg HANDOFF s' = v /\ word v /\ forall i, 0 <= i -> Z.testbit v i =
      existsb (fun m => (i =? snd m) && (fst m =? SYSMGR_FPGAINTF_USEFPGA))
        [(reg SYSMGR_PINMUXGRP_NANDUSEFPGA s, 4); (reg SYSMGR_PINMUXGRP_EMAC1USEFPGA s, 3);
         (reg SYSMGR_PINMUXGRP_SDMMCUSEFPGA s, 5); (reg SYSMGR_PINMUXGRP_EMAC0USEFPGA s, 2);
         (reg SYSMGR_PINMUXGRP_SPIM1USEFPGA s, 1); (reg SYSMGR_PINMUXGRP_SPIM0USEFPGA s, 0)]).
Proof.
  unfold populate_sysmgr_fpgaintf_module. wp_step.
  apply wp_total; [apply total_writel|]. intros [] _.
  assert (E0 : reg HANDOFF (fin (writel 0 HANDOFF s)) = 0)
    by (unfold reg; cbn; by rewrite reg_write).
  assert (F0 : forall b (Rb : Reg D b), HANDOFF <> b -> reg b (fin (writel 0 HANDOFF s)) = reg b s)
    by (intros; by apply keeps_writel).
  revert E0 F0. generalize (fin (writel 0 HANDOFF s)). intros s0 E0 F0.
  signal_step SYSMGR_PINMUXGRP_NANDUSEFPGA 4. signal_step SYSMGR_PINMUXGRP_EMAC1USEFPGA 3.
  signal_step SYSMGR_PINMUXGRP_SDMMCUSEFPGA 5. signal_step SYSMGR_PINMUXGRP_EMAC0USEFPGA 2.
  signal_step SYSMGR_PINMUXGRP_SPIM1USEFPGA 1. signal_step SYSMGR_PINMUXGRP_SPIM0USEFPGA 0.
  apply (wp_readl_reg HANDOFF). intros d Ed. eexists. split; [reflexivity|]. split; [exact Ed|].
  split; [apply word_reg|]. intros i Hi.
  rewrite E5, E4, E3, E2, E1, E, E0.
  repeat match goal with
         | F : forall b _, _ -> reg b ?x = _ |- context [reg ?u ?x] => rewrite (F u _) by addr_ne
         end.
  rewrite !Z.lor_spec, !testbit_opt, Z.bits_0 by lia. cbn [existsb fst snd].
  by rewrite <- !orb_assoc, orb_false_r.
Qed.

(** The six entries after the table loop. *)
Lemma pinmux_loop_signals table (s : st D G) :
  (206 < length table)%nat -> Forall word table ->
  wp (for_upto (Z.of_nat (length table)) (pinmux_entry table) : M _) s (fun o s' _ =>
    o = Val None /\
    table !! 188%nat = Some (reg SYSMGR_PINMUXGRP_NANDUSEFPGA s') /\
    table !! 190%nat = Some (reg SYSMGR_PINMUXGRP_EMAC1USEFPGA s') /\
    table !! 194%nat = Some (reg SYSMGR_PINMUXGRP_SDMMCUSEFPGA s') /\
    table !! 197%nat = Some (reg SYSMGR_PINMUXGRP_EMAC0USEFPGA s') /\
    table !! 204%nat = Some (reg SYSMGR_PINMUXGRP_SPIM1USEFPGA s') /\
    table !! 206%nat = Some (reg SYSMGR_PINMUXGRP_SPIM0USEFPGA s')).
Proof.
  intros Hlen Hw.
  assert (Hx : forall i a (Ra : Reg D a), a = pinmux_reg i -> (i < length table)%nat ->
    wp (for_upto (Z.of_nat (length table)) (pinmux_entry table) : M _) s (fun o s' _ =>
      o = Val None /\ table !! i = Some (reg a s'))).
  { intros i a Ra -> Hi. destruct (lookup_lt_is_Some_2 table i Hi) as [x Hx].
    eapply wp_mono; [apply (pinmux_loop_reg table i x)|]; [done| |].
    - rewrite Forall_lookup in Hw. eauto.
    - by intros o s' _ [-> <-]. }
  split; [apply (Hx 188%nat _ _ (eq_refl : SYSMGR_PINMUXGRP_NANDUSEFPGA = _)); lia|].
  repeat split; apply Hx; (reflexivity || lia).
Qed.

(** Nothing but the last statement writes the module register. *)
Definition not_module (e : event) : Prop :=
  match e with Wr a _ => a <> SYSMGR_FPGAINTF_MODULE | _ => True end.

Lemma pinmux_loop_events table (s : st D G) :
  wp (for_upto (Z.of_nat (length table)) (pinmux_entry table) : M _) s
    (fun o _ t => Forall not_module t).
Proof.
  apply (wp_for (fun _ _ t => Forall not_module t)); [lia|constructor| |done].
  intros k s1 t1 Hk Ht. destruct (lookup_lt_is_Some_2 table (Z.to_nat k)) as [y Hy]; [lia|].
  unfold pinmux_entry. wp_step. eapply wp_array_get; [|exact Hy|]; [lia|]. wp_run.
  rewrite Forall_app. split; [done|]. constructor; [|constructor]. cbn.
  unfold SYSMGR_FPGAINTF_MODULE, CONFIG_SYSMGR_PINMUXGRP_OFFSET. lia.
Qed.

Lemma populate_events : only not_module (populate_sysmgr_fpgaintf_module : M Z).
Proof. unfold populate_sysmgr_fpgaintf_module, populate_signal. hw_auto. Qed.

Lemma not_module_writes t : Forall not_module t -> writes_at SYSMGR_FPGAINTF_MODULE t = [].
Proof. apply writes_at_nil. Qed.

Lemma no_write_module t : Forall no_write t -> Forall not_module t.
Proof. intros Ht. eapply Forall_impl; [exact Ht|]. by intros []. Qed.

(** For every table that covers the pins, the handoff word for Linux has the
    bit of a peripheral exactly when the table routes that peripheral to the
    fabric, whatever the word held before.  The module register that turns the
    signals on is written at most once, with that word, and only after the
    fabric was seen configured. *)
Theorem pinmux_fpgaintf_handoff table (s : st D G) :
  (206 < length table)%nat -> Forall word table ->
  let r := sysmgr_pinmux_init table s in
  exists v, out r = Val tt /\ reg HANDOFF (fin r) = v /\
    (forall i, 0 <= i -> Z.testbit v i = existsb (routed table i) fpgaintf_bits) /\
    (writes_at SYSMGR_FPGAINTF_MODULE (tr r) = [] \/
     writes_at SYSMGR_FPGAINTF_MODULE (tr r) = [v] /\
     seen [initdone_read; initdone_read; usermode_read] (tr r)).
Proof.
  intros Hlen Hw. wp_enter. unfold sysmgr_pinmux_init. wp_step.
  eapply wp_mono; [apply wp_and; [by apply pinmux_loop_signals|apply pinmux_loop_events]|].
  intros o1 s1 t1 [(-> & T1 & T2 & T3 & T4 & T5 & T6) Ht1]. cbv beta iota. wp_step.
  eapply wp_mono; [apply wp_and; [apply populate_value|apply wp_events, populate_events]|].
  intros o2 s2 t2 [(v & -> & Hv & Hwv & Hb) Ht2]. cbv beta iota. wp_step.
  eapply wp_mono; [apply wp_and; [apply wp_fpga_ready|apply (wp_kept HANDOFF), fpga_ready_keeps]|].
  assert (Hbits : forall i, 0 <= i -> Z.testbit v i = existsb (routed table i) fpgaintf_bits).
  { intros i Hi. rewrite Hb by done. unfold routed, fpgaintf_bits. cbn [existsb fst snd].
    rewrite T1, T2, T3, T4, T5, T6.
    assert (Eb : forall x y, bool_decide (Some x = Some y) = (x =? y)).
    { intros. destruct (Z.eqb_spec x y); [by rewrite bool_decide_true; subst|].
      rewrite bool_decide_false; congruence. }
    by rewrite !Eb. }
  intros o3 s3 t3 [[Ht3 Ho3] H3].
  assert (Hq : writes_at SYSMGR_FPGAINTF_MODULE (t1 ++ t2 ++ t3) = []).
  { apply not_module_writes. rewrite !Forall_app. auto using no_write_module. }
  destruct Ho3 as [->|[-> Hs]]; cbv beta iota; unfold when; eval_truthy.
  - wp_step. exists v. split; [done|]. split; [by rewrite H3|]. split; [done|]. left. by rewrite app_nil_r.
  - apply (wp_writel_other HANDOFF); [addr_ne|]. intros d Hd. exists v. split; [done|].
    split; [by rewrite Hd, H3|]. split; [done|]. right. rewrite u32_word by done.
    split; [|do 2 apply seen_prefix; by apply seen_suffix].
    by rewrite !app_assoc, writes_at_app, <- !app_assoc, Hq.
Qed.

End signals.

End proofs.

(** The boot ROM is told to redo the I/O and pin
    configuration after a warm reset exactly when the SD card's power enable
    pin is in use; otherwise nothing is written. *)
Theorem sdmmc_pweren_check {D G : Type} `{Device D} (s : st D G) :
  let r := sysmgr_sdmmc_pweren_mux_check s in
  out r = Val tt /\ exists v, word v /\
  tr r = Rd SYSMGR_PINMUXGRP_FLASHIO1 v ::
    (if v =? 3 then [Wr CONFIG_SYSMGR_ROMCODEGRP_CTRL 3] else []).
Proof.
  wp_enter. unfold sysmgr_sdmmc_pweren_mux_check. wp_step. wp_step. wp_step.
  - wp_step. split; [done|]. eexists. split; [done|]. by match goal with E : _ = true |- _ => rewrite E end.
  - split; [done|]. eexists. split; [done|]. by match goal with E : _ = false |- _ => rewrite E end.
Qed.

(** ** Witnesses on the board's table *)

Lemma pinmux_table_loaded_witness :
  reg (pinmux_reg 20) (fin (sysmgr_pinmux_init sys_mgr_init_table (mk_st (∅ : ram) tt))) = 3.
Proof.
  apply (pinmux_table_loaded sys_mgr_init_table 20 3 (mk_st (∅ : ram) tt)); [reflexivity|].
  unfold word. lia.
Defined.

Lemma pinmux_fpgaintf_handoff_witness :
  exists v, reg ISWGRP_HANDOFF_FPGAINTF
    (fin (sysmgr_pinmux_init sys_mgr_init_table (mk_st (∅ : ram) tt))) = v /\ Z.testbit v 4 = false.
Proof.
  destruct (pinmux_fpgaintf_handoff sys_mgr_init_table (mk_st (∅ : ram) tt)) as (v & _ & Hv & Hb & _).
  - vm_compute. lia.
  - apply words_dec. reflexivity.
  - exists v. split; [exact Hv|]. rewrite Hb by lia. vm_compute. reflexivity.
Defined.
