(* ===== verification/SdramTest.v ===== *)
(** The memory diagnostic (sdram_test.c): pseudo-random words are written to
    pseudo-random addresses and read back.  The preloader runs it when
    CONFIG_PRELOADER_HARDWARE_DIAGNOSTIC is set. *)

From S2P Require Import Prelude Mmio Regs Watchdog.

(** One round of the loop of get_next_prbs31. *)
Definition prbs_round (next_data : Z) : Z :=
  let tmp := ((next_data .>> 31) .^ (next_data .>> 28)) .& 0x1 in
  u32 (next_data .<< 1) .| (tmp .<< 1).

Definition get_next_prbs31 (prev_value : Z) : Z :=
  let next_data := Nat.iter 31 prbs_round (u32 (prev_value .<< 1)) in
  next_data .| (((next_data .>> 31) .^ (next_data .>> 28)) .& 0x1).

(** The seed after one iteration: as an [int], but compared and reduced as
    unsigned, because [addr_end] is. *)
Definition reduced_seed (addr_end seed : Z) : Z :=
  let seed := get_next_prbs31 seed in
  if seed >? addr_end then seed mod addr_end else seed.

(** [(seed - (seed % 4)) + addr_bgn], the remainder of a signed [seed]. *)
Definition seed_address (addr_bgn seed : Z) : Z := u32 (s32 seed - Z.rem (s32 seed) 4 + addr_bgn).

Section test.
Context {D G : Type} `{Device D}.
Abbreviation M := (M D G).

(** The division by an [addr_end] of 0 is undefined. *)
Definition next_seed (addr_end seed : Z) : M Z :=
  if (addr_end =? 0) && (get_next_prbs31 seed >? addr_end) then undef else ret (reduced_seed addr_end seed).

Fixpoint write_pass (loop_cnt : nat) (addr_bgn addr_end seed : Z) : M unit :=
  match loop_cnt with
  | O => ret tt
  | S n =>
      let* seed := next_seed addr_end seed in
      writel seed (seed_address addr_bgn seed) ;;;
      hw_watchdog_reset ;;;
      write_pass n addr_bgn addr_end seed
  end.

Fixpoint check_pass (loop_cnt : nat) (addr_bgn addr_end seed : Z) : M Z :=
  match loop_cnt with
  | O => ret 1
  | S n =>
      let* seed := next_seed addr_end seed in
      let* data := readl (seed_address addr_bgn seed) in
      if negb (data =? seed) then msg "Iteration: expected other data" ;;; ret 0 else
      hw_watchdog_reset ;;;
      check_pass n addr_bgn addr_end seed
  end.

Definition test_rand_address (loop_cnt addr_bgn addr_end seed : Z) : M Z :=
  write_pass (Z.to_nat loop_cnt) addr_bgn addr_end seed ;;;
  check_pass (Z.to_nat loop_cnt) addr_bgn addr_end seed.

Definition diag_count (coverage : Z) : Z :=
  if coverage =? SDRAM_TEST_NORMAL then 1000000 * 10
  else if coverage =? SDRAM_TEST_LONG then 1000000 * 1000
  else 1000000.

Definition hps_emif_diag_test (coverage addr_bgn addr_end : Z) : M Z :=
  msg "SDRAM: Running EMIF Diagnostic Test ..." ;;;
  let* status := test_rand_address (diag_count coverage) addr_bgn addr_end 0xdeadbeef in
  (if truthy status then msg "Passed" else msg "Failed") ;;;
  ret status.

End test.

(** ** The seeds for the memory of the board *)

(** PHYS_SDRAM_1_SIZE: 1 GiB from address 0. *)
Definition board_end : Z := 0x40000000.

Fixpoint seeds (n : nat) (addr_end seed : Z) : list Z :=
  match n with
  | O => []
  | S n => let s := reduced_seed addr_end seed in s :: seeds n addr_end s
  end.

Definition board_seeds : list Z := Eval vm_compute in seeds 30 board_end 0xdeadbeef.
Definition tested_words : list Z := Eval vm_compute in map (seed_address 0) board_seeds.

(** From the first seed on, the sequence never leaves this list. *)
Lemma board_seeds_closed s : s = 0xdeadbeef \/ In s board_seeds -> In (reduced_seed board_end s) board_seeds.
Proof.
  assert (Hc : forallb (fun s => existsb (Z.eqb (reduced_seed board_end s)) board_seeds) (0xdeadbeef :: board_seeds) = true)
    by (vm_compute; reflexivity).
  intros Hs. rewrite forallb_forall in Hc. specialize (Hc s ltac:(destruct Hs as [->|?]; [by left|by right])).
  apply existsb_exists in Hc as (x & Hin & E). apply Z.eqb_eq in E. by rewrite E.
Qed.

Lemma board_seed_word s : In s board_seeds -> word s /\ In (seed_address 0 s) tested_words.
Proof.
  assert (Hc : forallb (fun s => (0 <=? s) && (s <? 2 ^ 32) && existsb (Z.eqb (seed_address 0 s)) tested_words) board_seeds = true)
    by (vm_compute; reflexivity).
  intros Hs. rewrite forallb_forall in Hc. specialize (Hc s Hs). rewrite !andb_true_iff in Hc. destruct Hc as [[H0 H1] H2].
  split; [unfold word; lia|]. apply existsb_exists in H2 as (x & Hin & E). apply Z.eqb_eq in E. by rewrite E.
Qed.

(** No two of them fall into the same word. *)
Lemma board_seeds_inj s s' : In s board_seeds -> In s' board_seeds -> seed_address 0 s = seed_address 0 s' -> s = s'.
Proof.
  assert (Hc : forallb (fun s => forallb (fun s' => negb (seed_address 0 s =? seed_address 0 s') || (s =? s')) board_seeds)
    board_seeds = true) by (vm_compute; reflexivity).
  intros Hs Hs' E. rewrite forallb_forall in Hc. specialize (Hc s Hs). rewrite forallb_forall in Hc. specialize (Hc s' Hs').
  apply orb_true_iff in Hc as [Hc|Hc]; [|by apply Z.eqb_eq].
  apply negb_true_iff, Z.eqb_neq in Hc. done.
Qed.

Lemma tested_word_low a : In a tested_words -> 0 <= a < board_end /\ CONFIG_DW_WDT_BASE + DW_WDT_CRR <> a.
Proof.
  assert (Hc : Forall (fun a => 0 <= a < board_end) tested_words) by (repeat constructor; vm_compute; congruence).
  intros Ha. rewrite List.Forall_forall in Hc. specialize (Hc a Ha). split; [done|].
  change (CONFIG_DW_WDT_BASE + DW_WDT_CRR) with 0xffd0200c. unfold board_end in Hc. lia.
Qed.

Section proofs.
Context {D G : Type} `{Device D}.
Abbreviation M := (M D G).

Definition start (s : Z) : Prop := s = 0xdeadbeef \/ In s board_seeds.

Lemma next_board_seed s : next_seed board_end s = (ret (reduced_seed board_end s) : M Z).
Proof. done. Qed.

(** Inside the thirty words, or the watchdog's registers. *)
Definition diag_event (e : event) : Prop :=
  match e with
  | Rd a _ | Wr a _ => In a tested_words \/ a = CONFIG_DW_WDT_BASE + DW_WDT_CR \/ a = CONFIG_DW_WDT_BASE + DW_WDT_CRR
  | Msg _ => True
  end.

Lemma only_bind_ret P {A B} (a : A) (k : A -> M B) : only P (k a) -> only P (bind (ret a) k).
Proof. intros Hk s. rewrite bind_ret_l. apply Hk. Qed.

Lemma diag_watchdog : only diag_event (hw_watchdog_reset : M unit).
Proof.
  unfold hw_watchdog_reset, designware_wdt_is_enabled. apply only_bind.
  - apply only_bind; [|intros v; apply only_ret]. apply only_readl. intros v. right. by left.
  - intros v. apply only_when. intros _. apply only_writel. right. by right.
Qed.

Lemma diag_write n s : start s -> only diag_event (write_pass n 0 board_end s : M unit).
Proof.
  revert s. induction n as [|n IH]; intros s Hs; cbn [write_pass]; [apply only_ret|].
  rewrite next_board_seed. apply only_bind_ret. apply board_seeds_closed in Hs.
  apply only_bind; [apply only_writel; left; by apply board_seed_word|intros _].
  apply only_bind; [apply diag_watchdog|intros _]. apply IH. by right.
Qed.

Lemma diag_check n s : start s -> only diag_event (check_pass n 0 board_end s : M Z).
Proof.
  revert s. induction n as [|n IH]; intros s Hs; cbn [check_pass]; [apply only_ret|].
  rewrite next_board_seed. apply only_bind_ret. apply board_seeds_closed in Hs.
  apply only_bind; [apply only_readl; intros v; left; by apply board_seed_word|intros v].
  destruct (negb _); [apply only_bind; [by apply only_msg|intros _; apply only_ret]|].
  apply only_bind; [apply diag_watchdog|intros _]. apply IH. by right.
Qed.

(** C39: On the board's memory the diagnostic tests thirty words.  Whatever the
    coverage asked for, with a million or a thousand million iterations, and
    whatever the memory answers, every access outside the watchdog is to one of
    thirty addresses of the 2^28 words of the GiB: reducing the seed modulo the
    memory size feeds back into the generator and closes a short cycle. *)
Theorem diag_thirty_words (coverage : Z) :
  only diag_event (hps_emif_diag_test coverage 0 board_end : M Z) /\
  length tested_words = 30%nat /\ NoDup tested_words.
Proof.
  split; [|split; [done|by apply (bool_decide_unpack _)]].
  unfold hps_emif_diag_test, test_rand_address. apply only_bind; [by apply only_msg|intros _].
  apply only_bind.
  - apply only_bind; [apply diag_write; by left|intros _]. apply diag_check. by left.
  - intros status. apply only_bind; [|intros _; apply only_ret]. destruct (truthy status); by apply only_msg.
Qed.

(** *** On a memory that works *)

Context (R : forall a, Reg D a).

(** The words of the seeds in [l] hold them. *)
Definition stored (l : list Z) (s : st D G) : Prop := Forall (fun x => reg (seed_address 0 x) s = x) l.

Lemma stored_watchdog l (s : st D G) : incl l board_seeds -> stored l s ->
  wp hw_watchdog_reset s (fun o s' _ => o = Val tt /\ stored l s').
Proof.
  intros Hl Hs. apply wp_total; [apply watchdog_total|]. intros [] _. split; [done|].
  unfold stored in *. rewrite List.Forall_forall in *. intros x Hx. etrans; [|exact (Hs x Hx)].
  apply keeps_watchdog. apply tested_word_low, board_seed_word, Hl, Hx.
Qed.

Lemma write_stores n seed l (s : st D G) : start seed -> incl l board_seeds -> stored l s ->
  wp (write_pass n 0 board_end seed) s (fun o s' _ => o = Val tt /\ stored (rev (seeds n board_end seed) ++ l) s').
Proof.
  revert seed l s. induction n as [|n IH]; intros seed l s Hseed Hl Hs; cbn [write_pass seeds rev]; [by wp_step|].
  rewrite next_board_seed. do 2 wp_step. pose proof (board_seeds_closed seed Hseed) as Hin.
  destruct (board_seed_word _ Hin) as [Hw Ha]. set (x := reduced_seed board_end seed) in *.
  assert (Hxl : incl (x :: l) board_seeds) by (by apply incl_cons).
  wp_step. apply (wp_writel_all (seed_address 0 x)). intros s1 E1 K1 _. rewrite u32_word in E1 by done. cbv iota.
  assert (Hs1 : stored (x :: l) s1).
  { constructor; [done|]. unfold stored in *. rewrite List.Forall_forall in *. intros y Hy.
    destruct (Z.eq_dec (seed_address 0 x) (seed_address 0 y)) as [E|E].
    - assert (x = y) as <- by (apply board_seeds_inj; auto). done.
    - rewrite (K1 _ _ E). by apply Hs. }
  wp_step. eapply wp_mono; [by apply stored_watchdog|]. intros o2 s2 t2 [-> Hs2]. cbv iota.
  eapply wp_mono; [apply IH; [by right|exact Hxl|exact Hs2]|]. intros o3 s3 t3 [-> Hs3]. split; [done|].
  by rewrite <- app_assoc.
Qed.

Lemma check_passes n seed l (s : st D G) : start seed -> incl l board_seeds -> incl (seeds n board_end seed) l ->
  stored l s -> wp (check_pass n 0 board_end seed) s (fun o _ _ => o = Val 1).
Proof.
  revert seed s. induction n as [|n IH]; intros seed s Hseed Hl Hn Hs; cbn [check_pass seeds] in *; [by wp_step|].
  rewrite next_board_seed. do 2 wp_step. set (x := reduced_seed board_end seed) in *.
  apply incl_cons_inv in Hn as [Hx Hn]. wp_step. apply (wp_readl_all (seed_address 0 x)). intros s1 K1 _.
  assert (Hs1 : stored l s1).
  { unfold stored in *. rewrite List.Forall_forall in *. intros y Hy. rewrite K1. by apply Hs. }
  replace (reg (seed_address 0 x) s) with x by (symmetry; unfold stored in Hs; rewrite List.Forall_forall in Hs; by apply Hs).
  rewrite Z.eqb_refl. cbn [negb]. cbv iota. wp_step. eapply wp_mono; [by apply (stored_watchdog l)|].
  intros o2 s2 t2 [-> Hs2]. cbv iota. apply IH; [right; by apply Hl|done..].
Qed.

Lemma seeds_incl n seed : start seed -> incl (seeds n board_end seed) board_seeds.
Proof.
  revert seed. induction n as [|n IH]; intros seed Hs; cbn [seeds]; [apply incl_nil_l|].
  apply incl_cons; [by apply board_seeds_closed|]. apply IH. right. by apply board_seeds_closed.
Qed.

(** A working memory passes the board's diagnostic.  If every address reads
    back what was last written to it, the diagnostic of the GiB returns 1 for
    every coverage: none of the pseudo-random words overwrites another. *)
Theorem diag_passes_good_memory (coverage : Z) (s : st D G) :
  out (hps_emif_diag_test coverage 0 board_end s) = Val 1.
Proof.
  wp_enter. unfold hps_emif_diag_test, test_rand_address. set (n := Z.to_nat (diag_count coverage)).
  assert (H0 : start 0xdeadbeef) by (by left). do 3 wp_step. wp_step.
  eapply wp_mono; [apply (write_stores n 0xdeadbeef []); [done|apply incl_nil_l|constructor]|].
  intros o1 s1 t1 [-> Hs1]. cbv iota. rewrite app_nil_r in Hs1.
  eapply wp_mono; [eapply (check_passes n); [done| | |exact Hs1]|].
  - intros x Hx. apply in_rev in Hx. by eapply seeds_incl.
  - intros x Hx. by apply -> in_rev.
  - intros o2 s2 t2 ->. cbv iota. wp_run; done.
Qed.

End proofs.

(** Plain memory. *)
Lemma diag_passes_good_memory_witness :
  out (hps_emif_diag_test SDRAM_TEST_LONG 0 board_end (mk_st (∅ : ram) tt)) = Val 1.
Proof. exact (diag_passes_good_memory ram_reg SDRAM_TEST_LONG (mk_st (∅ : ram) tt)). Defined.
