(* ===== verification/Interrupts.v ===== *)
(** Interrupts: the distributor and CPU interface of the GIC (gic.c, gic.h),
    the vector table and its dispatcher (interrupts.c) and the on-chip RAM ECC
    handlers (ecc_ram.c). *)

From S2P Require Import Prelude Mmio Regs Globals.

(** ** The interrupt controller *)

Section gic.
Context {D G : Type} `{Device D}.
Abbreviation M := (M D G).

Definition gic_dic_clear_enable_all_intr : M unit :=
  writel 0xFFFFFFFF (CONFIG_GIC_DIC_CLR_ENABLE + 0x00) ;;;
  writel 0xFFFFFFFF (CONFIG_GIC_DIC_CLR_ENABLE + 0x04) ;;;
  writel 0xFFFFFFFF (CONFIG_GIC_DIC_CLR_ENABLE + 0x08) ;;;
  writel 0xFFFFFFFF (CONFIG_GIC_DIC_CLR_ENABLE + 0x0C) ;;;
  writel 0xFFFFFFFF (CONFIG_GIC_DIC_CLR_ENABLE + 0x10) ;;;
  writel 0xFFFFFFFF (CONFIG_GIC_DIC_CLR_ENABLE + 0x14) ;;;
  writel 0xFFFFFFFF (CONFIG_GIC_DIC_CLR_ENABLE + 0x18) ;;;
  writel 0xFFFFFFFF (CONFIG_GIC_DIC_CLR_ENABLE + 0x1C).

Definition gic_dic_clear_pending_all_intr : M unit :=
  writel 0xFFFFFFFF (CONFIG_GIC_DIC_CLR_PENDING + 0x00) ;;;
  writel 0xFFFFFFFF (CONFIG_GIC_DIC_CLR_PENDING + 0x04) ;;;
  writel 0xFFFFFFFF (CONFIG_GIC_DIC_CLR_PENDING + 0x08) ;;;
  writel 0xFFFFFFFF (CONFIG_GIC_DIC_CLR_PENDING + 0x0C) ;;;
  writel 0xFFFFFFFF (CONFIG_GIC_DIC_CLR_PENDING + 0x10) ;;;
  writel 0xFFFFFFFF (CONFIG_GIC_DIC_CLR_PENDING + 0x14) ;;;
  writel 0xFFFFFFFF (CONFIG_GIC_DIC_CLR_PENDING + 0x18) ;;;
  writel 0xFFFFFFFF (CONFIG_GIC_DIC_CLR_PENDING + 0x1C).

(** Interrupt numbers are [unsigned char]: callers truncate with [u8]. *)
Definition gic_dic_set_enable (intrID : Z) : M unit :=
  let div := intrID / 32 in
  let mod_ := intrID mod 32 in
  setbits_le32 (CONFIG_GIC_DIC_SET_ENABLE + (div .<< 2)) (1 .<< mod_).

Definition gic_dic_set_target_processor (intrID target : Z) : M unit :=
  if intrID <? 32 then ret tt else
  let div := intrID / 4 in
  let mod_ := intrID mod 4 in
  clrbits_le32 (CONFIG_GIC_DIC_TARGET + (div .<< 2)) (0xFF .<< (8 * mod_)) ;;;
  setbits_le32 (CONFIG_GIC_DIC_TARGET + (div .<< 2)) (target .<< (8 * mod_)).

Definition gic_dic_set_config (intrID level0edge1 : Z) : M unit :=
  let div := intrID / 16 in
  let mod_ := intrID mod 16 in
  clrbits_le32 (CONFIG_GIC_DIC_CONFIG + (div .<< 2)) (0x3 .<< (2 * mod_)) ;;;
  if level0edge1 =? 1
  then setbits_le32 (CONFIG_GIC_DIC_CONFIG + (div .<< 2)) (0x2 .<< (2 * mod_))
  else ret tt.

Definition gic_dic_set_pending (intrID : Z) : M unit :=
  let div := intrID / 32 in
  let mod_ := intrID mod 32 in
  setbits_le32 (CONFIG_GIC_DIC_SET_PENDING + (div .<< 2)) (1 .<< mod_).

Definition gic_dic_clear_pending (intrID : Z) : M unit :=
  let div := intrID / 32 in
  let mod_ := intrID mod 32 in
  setbits_le32 (CONFIG_GIC_DIC_CLR_PENDING + (div .<< 2)) (1 .<< mod_).

(** gic.h *)
Definition gic_cpu_disable : M unit := writel 0x0 gic_cpu_if_base_ICCICR.
Definition gic_cpu_enable : M unit := writel 0x1 gic_cpu_if_base_ICCICR.
Definition gic_cpu_set_priority_mask (priority_mask : Z) : M unit :=
  writel priority_mask gic_cpu_if_base_ICCPMR.
Definition gic_cpu_get_pending_intr : M Z := readl gic_cpu_if_base_ICCHPIR.
Definition gic_cpu_end_of_intr (intrID : Z) : M unit := writel intrID gic_cpu_if_base_ICCEOIR.
Definition gic_dic_disable_secure : M unit := clrbits_le32 CONFIG_GIC_DIC_CONTROL 0x1.
Definition gic_dic_disable_nonsecure : M unit := clrbits_le32 CONFIG_GIC_DIC_CONTROL 0x2.
Definition gic_dic_enable_secure : M unit := setbits_le32 CONFIG_GIC_DIC_CONTROL 0x1.
Definition gic_dic_enable_nonsecure : M unit := setbits_le32 CONFIG_GIC_DIC_CONTROL 0x2.

Definition arch_interrupt_init : M Z :=
  gic_dic_disable_secure ;;;
  gic_dic_clear_enable_all_intr ;;;
  gic_dic_clear_pending_all_intr ;;;
  gic_cpu_set_priority_mask (1 .<< 3) ;;;
  gic_dic_enable_secure ;;;
  gic_cpu_enable ;;;
  ret 0.

End gic.

(** ** Handlers and dispatch *)

Section interrupts.
Context {D : Type} `{Device D}.
Abbreviation M := (M D gdata).

(** ecc_ram.c *)
Definition irq_handler_ecc_ocram_corrected (arg : Z) : M unit :=
  msg "IRQ triggered: Corrected OCRAM ECC" ;;;
  modify (fun g => set_irq_cnt (irq_cnt_ecc_sdram g) (u32 (irq_cnt_ecc_ocram_corrected g + 1))
                     (irq_cnt_ecc_ocram_uncorrected g) g) ;;;
  writel (SYSMGR_ECC_OCRAM_SERR .| SYSMGR_ECC_OCRAM_EN) CONFIG_SYSMGR_ECC_OCRAM.

Definition irq_handler_ecc_ocram_uncorrected (arg : Z) : M unit :=
  modify (fun g => set_irq_cnt (irq_cnt_ecc_sdram g) (irq_cnt_ecc_ocram_corrected g)
                     (u32 (irq_cnt_ecc_ocram_uncorrected g + 1)) g) ;;;
  msg "IRQ triggered: Un-corrected OCRAM ECC" ;;;
  writel (SYSMGR_ECC_OCRAM_DERR .| SYSMGR_ECC_OCRAM_EN) CONFIG_SYSMGR_ECC_OCRAM ;;;
  hang.

(** interrupts.c.  [call] gives the code of the handlers; [vectors_base] is the
    address at which the linker placed the table of 8-byte entries. *)
Context (call : nat -> Z -> M unit) (vectors_base : Z).

(** A call through a function pointer that is not a function's address. *)
Definition call_fxn (f : intr_fxn) (arg : Z) : M unit :=
  match f with
  | fxn h => call h arg
  | _ => undef
  end.

Definition do_irq : M unit :=
  let* intrID := gic_cpu_get_pending_intr in
  if intrID >=? MAX_INT_VECTORS then ret tt else
  let* g := get in
  let intr_ptr := vectors_base + 8 * intrID in
  (if negb (0xFFFFFFFF =? intr_ptr) then
     match interrupt_vectors g !! Z.to_nat intrID with
     | Some (f, arg) => call_fxn f arg
     | None => undef
     end
   else ret tt) ;;;
  gic_dic_clear_pending (u8 intrID) ;;;
  gic_cpu_end_of_intr (u8 intrID).

Definition irq_register (intrID : Z) (f : intr_fxn) (arg level0edge1 : Z) : M Z :=
  let* g := get in
  (if intrID <? Z.of_nat (length (interrupt_vectors g))
   then modify (set_vectors (<[Z.to_nat intrID := (f, arg)]> (interrupt_vectors g)))
   else undef) ;;;
  gic_dic_set_config intrID level0edge1 ;;;
  gic_dic_set_target_processor intrID 0x1 ;;;
  gic_dic_set_enable intrID ;;;
  ret 0.

Definition irq_trigger (intrID : Z) : M unit := gic_dic_set_pending intrID.

End interrupts.

(** ** Write-one-to-clear registers

    [W1C D a b]: the register at [a] reads as a set of flags and clears the
    flags written as ones; [b] is the address of the companion register that
    sets them, and no other access changes them. *)
Class W1C (D : Type) `{Device D} (a b : Z) := {
  w1c_val : D -> Z;
  w1c_read : forall d, dev_read a d = (w1c_val d, snd (dev_read a d)) /\
                       w1c_val (snd (dev_read a d)) = w1c_val d;
  w1c_write : forall v d, w1c_val (dev_write a v d) = w1c_val d .& .~ v;
  w1c_read_frame : forall c d, c <> a -> w1c_val (snd (dev_read c d)) = w1c_val d;
  w1c_write_frame : forall c v d, c <> a -> c <> b -> w1c_val (dev_write c v d) = w1c_val d
}.
Arguments w1c_val {D _} a b {_} d.

Section w1c.
Context {D G : Type} `{Device D} (a b : Z) `{!W1C D a b}.

Definition flags (s : st D G) : Z := u32 (w1c_val a b (dev s)).

(** Read-modify-write on such a register clears every flag that was set. *)
Lemma setbits_w1c m s : flags (fin (setbits_le32 a m s)) = 0.
Proof.
  wp_enter. unfold setbits_le32. apply wp_bind. destruct (w1c_read (dev s)) as [E Ek].
  eapply wp_readl; [exact E|]. cbv beta iota. apply wp_writel. unfold flags. cbn [dev].
  rewrite w1c_write, Ek. unfold u32. rewrite <- !Z.land_ones by lia. bitwise.
Qed.

Lemma writel_w1c v s : flags (fin (writel v a s)) = flags s .& .~ (u32 v).
Proof.
  unfold flags. cbn [writel fin dev]. rewrite w1c_write. unfold u32. rewrite <- !Z.land_ones by lia.
  bitwise.
Qed.

(** Programs that leave the flags alone. *)
Definition flags_kept {A} (m : M D G A) : Prop := forall s, flags (fin (m s)) = flags s.

Lemma kept_bind {A B} (m : M D G A) (k : A -> M D G B) :
  flags_kept m -> (forall x, flags_kept (k x)) -> flags_kept (bind m k).
Proof.
  intros Hm Hk s. unfold bind. destruct (out (m s)); cbn; [|apply Hm]. by rewrite Hk, Hm.
Qed.

Lemma kept_readl c : flags_kept (readl c).
Proof.
  intros s. unfold readl, flags. destruct (dev_read c (dev s)) as [v d] eqn:E. cbn. f_equal.
  destruct (Z.eq_dec c a) as [->|Hc].
  - destruct (w1c_read (dev s)) as [_ Ek]. by rewrite E in Ek.
  - pose proof (w1c_read_frame c (dev s) Hc) as Ek. by rewrite E in Ek.
Qed.

Lemma kept_writel v c : c <> a -> c <> b -> flags_kept (writel v c).
Proof. intros Ha Hb s. unfold flags. cbn. by rewrite w1c_write_frame. Qed.

End w1c.

(** ** Initialisation and acknowledgement *)

Section gic_proofs.
Context {D G : Type} `{Device D}.
Abbreviation M := (M D G).

Ltac kept_step :=
  match goal with
  | |- flags_kept _ _ (bind _ _) => apply kept_bind
  | |- flags_kept _ _ (readl _) => apply kept_readl
  | |- flags_kept _ _ (writel _ _) => apply kept_writel; addr_ne
  | |- flags_kept _ _ (setbits_le32 _ _) => unfold setbits_le32
  | |- flags_kept _ _ (clrbits_le32 _ _) => unfold clrbits_le32
  | |- flags_kept _ _ (ret _) => intros ?; reflexivity
  | |- forall _, _ => intros ?
  end.

Ltac gic_unfold :=
  unfold arch_interrupt_init, gic_dic_disable_secure, gic_dic_clear_enable_all_intr,
    gic_dic_clear_pending_all_intr, gic_cpu_set_priority_mask, gic_dic_enable_secure, gic_cpu_enable.

(** After [m] the flags are clear. *)
Definition clears a b `{!W1C D a b} {A} (m : M A) : Prop := forall s, flags a b (fin (m s)) = 0.

Lemma clears_now a b `{!W1C D a b} {A B} (m : M A) (k : A -> M B) :
  clears a b m -> (forall x, flags_kept a b (k x)) -> clears a b (bind m k).
Proof.
  intros Hm Hk s. unfold bind. destruct (out (m s)); cbn; [by rewrite Hk, Hm|apply Hm].
Qed.

Lemma clears_later a b `{!W1C D a b} {A B} (m : M A) (k : A -> M B) :
  total m -> (forall x, clears a b (k x)) -> clears a b (bind m k).
Proof.
  intros Hm Hk s. unfold bind. destruct (Hm s) as [x ->]. apply Hk.
Qed.

Lemma clears_writel a b `{!W1C D a b} : clears a b (writel 0xFFFFFFFF a : M unit).
Proof.
  intros s. rewrite writel_w1c. change (u32 0xFFFFFFFF) with (Z.ones 32).
  unfold flags, u32. rewrite <- !Z.land_ones by lia. bitwise.
Qed.

Ltac clears_auto :=
  repeat first
    [ apply clears_writel
    | apply clears_now; [solve [clears_auto]|solve [repeat kept_step]]
    | apply clears_later; [solve [hw_auto]|intros ?] ].

(** C36: After arch_interrupt_init no interrupt is pending and none is enabled:
    in each of the eight words of write-one-to-clear flags every flag is clear,
    whatever the distributor held before.  The last three writes set the
    priority mask, enable the distributor and enable the CPU interface, in that
    order. *)
Theorem arch_interrupt_init_quiet (k : nat) (s : st D G)
    `{!W1C D (CONFIG_GIC_DIC_CLR_PENDING + 4 * Z.of_nat k) (CONFIG_GIC_DIC_SET_PENDING + 4 * Z.of_nat k)}
    `{!W1C D (CONFIG_GIC_DIC_CLR_ENABLE + 4 * Z.of_nat k) (CONFIG_GIC_DIC_SET_ENABLE + 4 * Z.of_nat k)} :
  (k < 8)%nat ->
  out (arch_interrupt_init s) = Val 0 /\
  flags (CONFIG_GIC_DIC_CLR_PENDING + 4 * Z.of_nat k) (CONFIG_GIC_DIC_SET_PENDING + 4 * Z.of_nat k)
    (fin (arch_interrupt_init s)) = 0 /\
  flags (CONFIG_GIC_DIC_CLR_ENABLE + 4 * Z.of_nat k) (CONFIG_GIC_DIC_SET_ENABLE + 4 * Z.of_nat k)
    (fin (arch_interrupt_init s)) = 0 /\
  exists t c, word c /\ tr (arch_interrupt_init s) =
    t ++ [Wr gic_cpu_if_base_ICCPMR 8; Rd CONFIG_GIC_DIC_CONTROL c;
          Wr CONFIG_GIC_DIC_CONTROL (u32 (c .| 1)); Wr gic_cpu_if_base_ICCICR 1].
Proof.
  intros Hk. split; [|split; [|split]].
  - wp_enter. gic_unfold. by wp_run.
  - revert s. change (clears (CONFIG_GIC_DIC_CLR_PENDING + 4 * Z.of_nat k)
      (CONFIG_GIC_DIC_SET_PENDING + 4 * Z.of_nat k) (arch_interrupt_init : M Z)).
    gic_unfold. do 8 (destruct k as [|k]; [clears_auto|]). lia.
  - revert s. change (clears (CONFIG_GIC_DIC_CLR_ENABLE + 4 * Z.of_nat k)
      (CONFIG_GIC_DIC_SET_ENABLE + 4 * Z.of_nat k) (arch_interrupt_init : M Z)).
    gic_unfold. do 8 (destruct k as [|k]; [clears_auto|]). lia.
  - wp_enter. gic_unfold. wp_run. cbn [app]. eexists (_ :: _ :: _ :: _ :: _ :: _ :: _ :: _ :: _ :: _ ::
      _ :: _ :: _ :: _ :: _ :: _ :: _ :: [_]), _. split; [|reflexivity]. done.
Qed.

(** Acknowledging one interrupt loses the others of its word: the pending
    flags are write-one-to-clear and gic_dic_clear_pending writes back every
    flag it read, so all 32 of them are clear afterwards. *)
Theorem clear_pending_clears_word intrID (s : st D G)
    `{!W1C D (CONFIG_GIC_DIC_CLR_PENDING + ((intrID / 32) .<< 2))
             (CONFIG_GIC_DIC_SET_PENDING + ((intrID / 32) .<< 2))} :
  flags (CONFIG_GIC_DIC_CLR_PENDING + ((intrID / 32) .<< 2))
    (CONFIG_GIC_DIC_SET_PENDING + ((intrID / 32) .<< 2)) (fin (gic_dic_clear_pending intrID s)) = 0.
Proof. apply setbits_w1c. Qed.

(** *** Fields of the configuration and target words *)

Lemma testbit_ones_shift w n i : 0 <= w -> 0 <= n -> 0 <= i ->
  Z.testbit (Z.ones w .<< n) i = (n <=? i) && (i <? n + w).
Proof.
  intros. rewrite Z.shiftl_spec by done. destruct (Z.leb_spec n i); cbn.
  - rewrite Z.testbit_ones_nonneg by lia. destruct (Z.ltb_spec (i - n) w), (Z.ltb_spec i (n + w)); lia.
  - rewrite Z.testbit_neg_r by lia. done.
Qed.

(** Clearing a field of width [w] at [n] and setting one bit of it. *)
Lemma field_set_bit x w n k i : 0 <= w -> 0 <= n -> 0 <= k < w -> 0 <= i ->
  Z.testbit ((x .& .~ (Z.ones w .<< n)) .| bit (n + k)) i =
  if (n <=? i) && (i <? n + w) then i =? n + k else Z.testbit x i.
Proof.
  intros. rewrite Z.lor_spec, Z.land_spec, Z.lnot_spec, testbit_ones_shift, testbit_bit by lia.
  rewrite (Z.eqb_sym (n + k)).
  destruct (Z.leb_spec n i), (Z.ltb_spec i (n + w)), (Z.eqb_spec i (n + k)); cbn;
    rewrite ?andb_true_r, ?andb_false_r, ?orb_false_r; (done || lia).
Qed.

Lemma field_clear x w n i : 0 <= w -> 0 <= n -> 0 <= i ->
  Z.testbit (x .& .~ (Z.ones w .<< n)) i =
  if (n <=? i) && (i <? n + w) then false else Z.testbit x i.
Proof.
  intros. rewrite Z.land_spec, Z.lnot_spec, testbit_ones_shift by lia.
  destruct ((n <=? i) && (i <? n + w)); cbn; by rewrite ?andb_true_r, ?andb_false_r.
Qed.

Lemma word_shiftl_small c n w : 0 <= n -> 0 <= c < 2 ^ w -> n + w <= 32 -> 0 <= w -> word (c .<< n).
Proof.
  intros. unfold word. rewrite Z.shiftl_mul_pow2 by lia.
  assert (E : 2 ^ w * 2 ^ n <= 2 ^ 32) by (rewrite <- Z.pow_add_r by lia; apply Z.pow_le_mono_r; lia).
  pose proof (Z.pow_pos_nonneg 2 n). nia.
Qed.

(** The sense of interrupt [intrID] in its word of the configuration. *)
Lemma set_config_reg intrID level (s : st D G)
    `{!Reg D (CONFIG_GIC_DIC_CONFIG + ((intrID / 16) .<< 2))} : 0 <= intrID ->
  let a := CONFIG_GIC_DIC_CONFIG + ((intrID / 16) .<< 2) in
  let n := 2 * (intrID mod 16) in
  forall i, 0 <= i ->
  Z.testbit (reg a (fin (gic_dic_set_config intrID level s))) i =
  if (n <=? i) && (i <? n + 2) then (level =? 1) && (i =? n + 1) else Z.testbit (reg a s) i.
Proof.
  intros Hid a n i Hi. wp_enter. unfold gic_dic_set_config. fold a. 
  assert (Hn : 0 <= n /\ n + 2 <= 32) by (unfold n; pose proof (Z.mod_pos_bound intrID 16); lia).
  change (2 * (intrID mod 16)) with n. reg_step a. reg_step a. 
  destruct (level =? 1); cbn [andb].
  - apply (wp_setbits_reg a); [apply (word_shiftl_small 2 n 2); lia|]. intros d' ->. rewrite Hreg.
    change 3 with (Z.ones 2).
    replace (2 .<< n) with (bit (n + 1)); [apply field_set_bit; lia|].
    rewrite bit_pow2, Z.shiftl_mul_pow2, Z.pow_add_r by lia. lia.
  - wp_step. rewrite Hreg. change 3 with (Z.ones 2). apply field_clear; lia.
Qed.

(** Interrupts from 32 on go to the processors of the target mask. *)
Lemma set_target_reg intrID (s : st D G)
    `{!Reg D (CONFIG_GIC_DIC_TARGET + ((intrID / 4) .<< 2))} : 0 <= intrID ->
  let a := CONFIG_GIC_DIC_TARGET + ((intrID / 4) .<< 2) in
  let n := 8 * (intrID mod 4) in
  forall i, 0 <= i ->
  Z.testbit (reg a (fin (gic_dic_set_target_processor intrID 1 s))) i =
  if (32 <=? intrID) && ((n <=? i) && (i <? n + 8)) then i =? n else Z.testbit (reg a s) i.
Proof.
  intros Hid a n i Hi. wp_enter. unfold gic_dic_set_target_processor. fold a.
  assert (Hn : 0 <= n /\ n + 8 <= 32) by (unfold n; pose proof (Z.mod_pos_bound intrID 4); lia).
  change (8 * (intrID mod 4)) with n. rewrite Z.ltb_antisym. destruct (32 <=? intrID); cbn [negb andb]; [|by wp_step].
  reg_step a. reg_step a. apply (wp_setbits_reg a); [apply (word_shiftl_small 1 n 1); lia|].
  intros d' ->. rewrite Hreg. change 255 with (Z.ones 8). change (1 .<< n) with (bit n).
  replace n with (n + 0) at 2 by lia. rewrite field_set_bit by lia. by rewrite Z.add_0_r.
Qed.

End gic_proofs.

(** ** Registration and dispatch *)

Section irq_proofs.
Context {D : Type} `{Device D}.
Abbreviation M := (M D gdata).

Lemma set_config_total intrID level : total (gic_dic_set_config intrID level : M unit).
Proof. unfold gic_dic_set_config. hw_auto. Qed.
Lemma set_target_total intrID target : total (gic_dic_set_target_processor intrID target : M unit).
Proof. unfold gic_dic_set_target_processor. hw_auto. Qed.

Lemma pure_set_config intrID level : pure_glob (gic_dic_set_config intrID level : M unit).
Proof. intros s. wp_enter. unfold gic_dic_set_config. by wp_run. Qed.
Lemma pure_set_target intrID target : pure_glob (gic_dic_set_target_processor intrID target : M unit).
Proof. intros s. wp_enter. unfold gic_dic_set_target_processor. by wp_run. Qed.
Lemma keeps_set_config a `{!Reg D a} intrID level :
  CONFIG_GIC_DIC_CONFIG + ((intrID / 16) .<< 2) <> a -> keeps a (gic_dic_set_config intrID level : M unit).
Proof. intros. unfold gic_dic_set_config. keeps_auto. Qed.
Lemma keeps_set_target a `{!Reg D a} intrID target :
  CONFIG_GIC_DIC_TARGET + ((intrID / 4) .<< 2) <> a ->
  keeps a (gic_dic_set_target_processor intrID target : M unit).
Proof. intros. unfold gic_dic_set_target_processor. keeps_auto. Qed.
Lemma keeps_set_enable a `{!Reg D a} intrID :
  CONFIG_GIC_DIC_SET_ENABLE + ((intrID / 32) .<< 2) <> a -> keeps a (gic_dic_set_enable intrID : M unit).
Proof. intros. unfold gic_dic_set_enable. keeps_auto. Qed.

Lemma set_enable_spec intrID (s : st D gdata) : 0 <= intrID ->
  wp (gic_dic_set_enable intrID : M unit) s (fun o s' t =>
    o = Val tt /\ glob s' = glob s /\
    exists t' e, t = t' ++ [Wr (CONFIG_GIC_DIC_SET_ENABLE + ((intrID / 32) .<< 2)) e] /\
      Z.testbit e (intrID mod 32) = true).
Proof.
  intros Hid. pose proof (Z.mod_pos_bound intrID 32). unfold gic_dic_set_enable. wp_run.
  split; [done|]. split; [done|]. eexists [_], _. split; [reflexivity|].
  unfold u32. rewrite Z.mod_pow2_bits_low by lia. rewrite Z.lor_spec.
  change (1 .<< intrID mod 32) with (bit (intrID mod 32)).
  rewrite (testbit_bit (intrID mod 32)), Z.eqb_refl by lia. apply orb_true_r.
Qed.

Lemma gic_word_ne intrID c1 c2 k1 k2 : 0 <= intrID < 256 -> 4 <= k1 -> 4 <= k2 ->
  c1 + 256 <= c2 \/ c2 + 256 <= c1 -> c1 + ((intrID / k1) .<< 2) <> c2 + ((intrID / k2) .<< 2).
Proof.
  intros Hid H1 H2 Hc. rewrite !Z.shiftl_mul_pow2 by lia. change (2 ^ 2) with 4.
  assert (forall k, 4 <= k -> 0 <= intrID / k < 64).
  { intros k Hk. split; [apply Z.div_pos; lia|]. apply Z.div_lt_upper_bound; lia. }
  pose proof (H0 k1 H1). pose proof (H0 k2 H2). lia.
Qed.

(** The three calls that program the distributor. *)
Lemma program_distributor_spec intrID level (s : st D gdata)
    `{!Reg D (CONFIG_GIC_DIC_CONFIG + ((intrID / 16) .<< 2))}
    `{!Reg D (CONFIG_GIC_DIC_TARGET + ((intrID / 4) .<< 2))} :
  0 <= intrID < 256 ->
  let cfg := reg (CONFIG_GIC_DIC_CONFIG + ((intrID / 16) .<< 2)) in
  let tgt := reg (CONFIG_GIC_DIC_TARGET + ((intrID / 4) .<< 2)) in
  wp (gic_dic_set_config intrID level ;;; gic_dic_set_target_processor intrID 1 ;;;
      gic_dic_set_enable intrID ;;; ret 0) s (fun o s' t =>
    o = Val 0 /\ glob s' = glob s /\
    cfg s' = cfg (fin (gic_dic_set_config intrID level s)) /\
    (exists s1, tgt s1 = tgt s /\ tgt s' = tgt (fin (gic_dic_set_target_processor intrID 1 s1))) /\
    exists t' e, t = t' ++ [Wr (CONFIG_GIC_DIC_SET_ENABLE + ((intrID / 32) .<< 2)) e] /\
      Z.testbit e (intrID mod 32) = true).
Proof.
  intros Hid cfg tgt.
  set (ca := CONFIG_GIC_DIC_CONFIG + ((intrID / 16) .<< 2)) in *.
  set (ta := CONFIG_GIC_DIC_TARGET + ((intrID / 4) .<< 2)) in *.
  set (ea := CONFIG_GIC_DIC_SET_ENABLE + ((intrID / 32) .<< 2)) in *.
  assert (Hne : ca <> ta /\ ta <> ca /\ ea <> ca /\ ea <> ta).
  { repeat split; apply gic_word_ne; first [lia | left; vm_compute; discriminate | right; vm_compute; discriminate]. }
  destruct Hne as (Hct & Htc & Hec & Het).
  wp_step. apply wp_total; [apply set_config_total|]. intros [] _.
  assert (T1 : tgt (fin (gic_dic_set_config intrID level s)) = tgt s).
  { apply (keeps_set_config ta). done. }
  assert (G1 : glob (fin (gic_dic_set_config intrID level s)) = glob s) by apply pure_set_config.
  generalize dependent (fin (gic_dic_set_config intrID level s)). intros s1 T1 G1.
  wp_step. apply wp_total; [apply set_target_total|]. intros [] _.
  assert (C2 : cfg (fin (gic_dic_set_target_processor intrID 1 s1)) = cfg s1).
  { apply (keeps_set_target ca). done. }
  assert (G2 : glob (fin (gic_dic_set_target_processor intrID 1 s1)) = glob s1) by apply pure_set_target.
  assert (T2 : exists s', tgt s' = tgt s /\ tgt (fin (gic_dic_set_target_processor intrID 1 s1)) =
     tgt (fin (gic_dic_set_target_processor intrID 1 s'))) by (exists s1; by split).
  generalize dependent (fin (gic_dic_set_target_processor intrID 1 s1)). intros s2 C2 G2 T2.
  wp_step. eapply wp_mono; [apply wp_and; [apply set_enable_spec; lia|apply wp_and;
    [apply (wp_kept ca), keeps_set_enable|apply (wp_kept ta), keeps_set_enable]]|]; [done|done|].
  intros o s3 t3 [(-> & G3 & t' & e & -> & He) [C3 T3]]. cbv beta iota. wp_step.
  split; [done|]. split; [congruence|]. split; [unfold cfg in *; congruence|].
  split; [unfold tgt in *; by rewrite T3|]. rewrite app_nil_r, !app_assoc. eauto.
Qed.

(** Registering a handler for an interrupt below 212 always returns 0; it
    replaces that entry of the vector table and no other, programs the sense of
    that interrupt and, for shared interrupts, routes it to CPU 0 only, leaves
    the fields of every other interrupt in those words unchanged, and its last
    access sets the interrupt's enable flag. *)
Theorem irq_register_spec intrID f arg level (s : st D gdata)
    `{!Reg D (CONFIG_GIC_DIC_CONFIG + ((intrID / 16) .<< 2))}
    `{!Reg D (CONFIG_GIC_DIC_TARGET + ((intrID / 4) .<< 2))} :
  0 <= intrID < MAX_INT_VECTORS ->
  length (interrupt_vectors (glob s)) = Z.to_nat MAX_INT_VECTORS ->
  let r := irq_register intrID f arg level s in
  let cfg := reg (CONFIG_GIC_DIC_CONFIG + ((intrID / 16) .<< 2)) in
  let tgt := reg (CONFIG_GIC_DIC_TARGET + ((intrID / 4) .<< 2)) in
  let cn := 2 * (intrID mod 16) in
  let tn := 8 * (intrID mod 4) in
  out r = Val 0 /\
  interrupt_vectors (glob (fin r)) = <[Z.to_nat intrID := (f, arg)]> (interrupt_vectors (glob s)) /\
  (forall i, 0 <= i -> Z.testbit (cfg (fin r)) i =
     if (cn <=? i) && (i <? cn + 2) then (level =? 1) && (i =? cn + 1) else Z.testbit (cfg s) i) /\
  (forall i, 0 <= i -> Z.testbit (tgt (fin r)) i =
     if (32 <=? intrID) && ((tn <=? i) && (i <? tn + 8)) then i =? tn else Z.testbit (tgt s) i) /\
  exists t e, tr r = t ++ [Wr (CONFIG_GIC_DIC_SET_ENABLE + ((intrID / 32) .<< 2)) e] /\
    Z.testbit e (intrID mod 32) = true.
Proof.
  intros Hid Hlen. change MAX_INT_VECTORS with 212 in *. wp_enter. unfold irq_register.
  do 2 wp_step. wp_step. destruct (Z.ltb_spec intrID (Z.of_nat (length (interrupt_vectors (glob s))))); [|lia].
  wp_step. cbv beta iota. eapply wp_mono; [apply program_distributor_spec; lia|].
  intros o s' t (-> & Hg & Hc & (s1 & Ht1 & Ht) & t' & e & -> & He).
  split; [done|]. split; [by rewrite Hg|].
  split; [intros i Hi; rewrite Hc, set_config_reg by lia; done|].
  split; [intros i Hi; rewrite Ht, set_target_reg, Ht1 by lia; done|].
  cbn [app]. eauto.
Qed.

(** *** Dispatch *)

Context (call : nat -> Z -> M unit) (vectors_base : Z).

Lemma vector_not_inverse_null intrID : vectors_base mod 4 = 0 ->
  (0xFFFFFFFF =? vectors_base + 8 * intrID) = false.
Proof. intros Hb. apply Z.eqb_neq. div_lia. Qed.

(** For a pending interrupt with a registered handler, do_irq calls exactly
    that handler with its argument; when the handler returns, the interrupt's
    pending flag is written and the same number is handed to the
    end-of-interrupt register, last.  A number from 212 on is ignored without
    any access. *)
Theorem do_irq_dispatch (s s1 : st D gdata) intrID t0 :
  vectors_base mod 4 = 0 ->
  gic_cpu_get_pending_intr s = mk_res (Val intrID) s1 t0 -> 0 <= intrID ->
  (MAX_INT_VECTORS <= intrID -> do_irq call vectors_base s = mk_res (Val tt) s1 t0) /\
  (forall h arg, intrID < MAX_INT_VECTORS ->
     interrupt_vectors (glob s1) !! Z.to_nat intrID = Some (fxn h, arg) ->
     out (call h arg s1) = Val tt ->
     exists p, word p /\ out (do_irq call vectors_base s) = Val tt /\
       tr (do_irq call vectors_base s) = t0 ++ tr (call h arg s1) ++
         let a := CONFIG_GIC_DIC_CLR_PENDING + ((intrID / 32) .<< 2) in
         [Rd a p; Wr a (u32 (p .| bit (intrID mod 32))); Wr gic_cpu_if_base_ICCEOIR intrID]).
Proof.
  intros Hb Hr Hid. change MAX_INT_VECTORS with 212 in *. split.
  - intros Hge. unfold do_irq, bind. rewrite Hr. cbn [out fin tr].
    change MAX_INT_VECTORS with 212. rewrite (proj2 (Z.geb_le _ _)) by lia. cbn. by rewrite app_nil_r.
  - intros h arg Hlt Hv Hc. wp_enter. unfold do_irq. wp_step. eapply wp_result; [exact Hr|].
    cbv beta iota. change MAX_INT_VECTORS with 212. rewrite Z.geb_leb, (proj2 (Z.leb_gt _ _)) by lia.
    do 2 wp_step. wp_step. rewrite vector_not_inverse_null by done. cbn [negb]. rewrite Hv.
    eapply (wp_out (call h arg)); [exact Hc|]. cbv beta iota.
    unfold gic_dic_clear_pending, gic_cpu_end_of_intr.
    replace (u8 intrID) with intrID by (symmetry; apply Z.mod_small; lia).
    wp_run. eexists. split; [eassumption|]. split; [done|]. cbn [app].
    rewrite (u32_word intrID) by (unfold word; lia). rewrite <- ?app_assoc. reflexivity.
Qed.

(** The test for a missing handler compares the address of the table entry
    with INVERSE_NULL, not the entry: for a pending interrupt without a handler
    do_irq jumps through the null pointer instead of skipping the call. *)
Theorem do_irq_unregistered (s s1 : st D gdata) intrID t0 f arg :
  vectors_base mod 4 = 0 ->
  gic_cpu_get_pending_intr s = mk_res (Val intrID) s1 t0 -> 0 <= intrID < MAX_INT_VECTORS ->
  interrupt_vectors (glob s1) !! Z.to_nat intrID = Some (f, arg) ->
  f = fxn_null \/ f = fxn_inverse_null ->
  out (do_irq call vectors_base s) = Stop Undef.
Proof.
  intros Hb Hr Hid Hv Hf. unfold do_irq, bind. rewrite Hr. cbn [out fin tr].
  change MAX_INT_VECTORS with 212 in *. rewrite Z.geb_leb, (proj2 (Z.leb_gt _ _)) by lia. cbn [get out fin tr].
  rewrite vector_not_inverse_null by done. cbn [negb]. rewrite Hv. by destruct Hf as [-> | ->].
Qed.

End irq_proofs.

(** ** Witnesses *)

(** A distributor with one word of pending flags and one of enable flags. *)
Record gic_sim := { sim_pending : Z; sim_enable : Z; sim_ram : ram }.

#[export] Instance gic_sim_device : Device gic_sim := {
  dev_read a d :=
    (if a =? CONFIG_GIC_DIC_CLR_PENDING then sim_pending d
     else if a =? CONFIG_GIC_DIC_CLR_ENABLE then sim_enable d
     else default 0 (sim_ram d !! a), d);
  dev_write a v d :=
    if a =? CONFIG_GIC_DIC_CLR_PENDING
    then {| sim_pending := sim_pending d .& .~ v; sim_enable := sim_enable d; sim_ram := sim_ram d |}
    else if a =? CONFIG_GIC_DIC_SET_PENDING
    then {| sim_pending := sim_pending d .| v; sim_enable := sim_enable d; sim_ram := sim_ram d |}
    else if a =? CONFIG_GIC_DIC_CLR_ENABLE
    then {| sim_pending := sim_pending d; sim_enable := sim_enable d .& .~ v; sim_ram := sim_ram d |}
    else if a =? CONFIG_GIC_DIC_SET_ENABLE
    then {| sim_pending := sim_pending d; sim_enable := sim_enable d .| v; sim_ram := sim_ram d |}
    else {| sim_pending := sim_pending d; sim_enable := sim_enable d; sim_ram := <[a := v]> (sim_ram d) |}
}.

Ltac gic_cases :=
  cbn [dev_read dev_write gic_sim_device fst snd];
  repeat match goal with |- context [?x =? ?y] => destruct (Z.eqb_spec x y); subst; cbn [sim_pending sim_enable] end;
  try done; try discriminate.

#[export] Instance gic_sim_pending : W1C gic_sim CONFIG_GIC_DIC_CLR_PENDING CONFIG_GIC_DIC_SET_PENDING.
Proof. refine {| w1c_val := sim_pending |}; intros; gic_cases. Defined.
#[export] Instance gic_sim_enable : W1C gic_sim CONFIG_GIC_DIC_CLR_ENABLE CONFIG_GIC_DIC_SET_ENABLE.
Proof. refine {| w1c_val := sim_enable |}; intros; gic_cases. Defined.

(** Interrupts 3, 5 and 31 pending, the first word of interrupts enabled. *)
Definition gic_sim0 : st gic_sim gdata :=
  mk_st {| sim_pending := 0x80000028; sim_enable := 0xFFFFFFFF; sim_ram := ∅ |} gdata0.

Lemma arch_interrupt_init_quiet_witness :
  sim_pending (dev (fin (arch_interrupt_init gic_sim0))) mod 2 ^ 32 = 0 /\
  sim_enable (dev (fin (arch_interrupt_init gic_sim0))) mod 2 ^ 32 = 0.
Proof.
  destruct (@arch_interrupt_init_quiet gic_sim gdata _ 0 gic_sim0 gic_sim_pending gic_sim_enable)
    as (_ & Hp & He & _); [lia|]. exact (conj Hp He).
Defined.

Lemma clear_pending_clears_word_witness :
  sim_pending (dev (fin (gic_dic_clear_pending 5 gic_sim0))) mod 2 ^ 32 = 0.
Proof. exact (@clear_pending_clears_word gic_sim gdata _ 5 gic_sim0 gic_sim_pending). Defined.

(** The two handlers of this board, by number. *)
Definition ecc_handlers {D} `{Device D} (h : nat) : Z -> M D gdata unit :=
  match h with
  | O => irq_handler_ecc_ocram_corrected
  | S O => irq_handler_ecc_ocram_uncorrected
  | _ => fun _ => undef
  end.

Lemma irq_register_spec_witness :
  let s : st ram gdata := mk_st ∅ gdata0 in
  interrupt_vectors (glob (fin (irq_register IRQ_ECC_OCRAM_CORRECTED (fxn 0) 7 0 s))) !! 210%nat =
  Some (fxn 0, 7).
Proof.
  intros s. destruct (irq_register_spec IRQ_ECC_OCRAM_CORRECTED (fxn 0) 7 0 s) as (_ & Hv & _).
  - vm_compute. split; congruence.
  - reflexivity.
  - rewrite Hv. reflexivity.
Defined.

Lemma do_irq_dispatch_witness :
  let s : st ram gdata := mk_st {[gic_cpu_if_base_ICCHPIR := 210]}
     (glob (fin (irq_register IRQ_ECC_OCRAM_CORRECTED (fxn 0) 7 0 (mk_st (∅ : ram) gdata0)))) in
  out (do_irq ecc_handlers 0x10000 s) = Val tt.
Proof.
  intros s. destruct (do_irq_dispatch ecc_handlers 0x10000 s s 210 [Rd gic_cpu_if_base_ICCHPIR 210])
    as [_ Hd]; [reflexivity|vm_compute; reflexivity|lia|].
  destruct (Hd 0%nat 7) as (p & _ & Ho & _); [reflexivity|vm_compute; reflexivity|vm_compute; reflexivity|].
  exact Ho.
Defined.

Lemma do_irq_unregistered_witness :
  let s : st ram gdata := mk_st {[gic_cpu_if_base_ICCHPIR := 42]} gdata0 in
  out (do_irq ecc_handlers 0x10000 s) = Stop Undef.
Proof.
  intros s. eapply (do_irq_unregistered ecc_handlers 0x10000 s s 42 [Rd gic_cpu_if_base_ICCHPIR 42] fxn_null 0).
  - reflexivity.
  - vm_compute. reflexivity.
  - vm_compute. split; congruence.
  - vm_compute. reflexivity.
  - by left.
Defined.
