(* ===== verification/RamSize.v ===== *)
(** Detection of the memory size (common/memsize.c): get_ram_size writes a
    pattern at every power-of-two offset, sees at which of them the memory
    wraps around, and puts back what was there. *)

From S2P Require Import Prelude Mmio.

Section get_ram_size.
Context {D G : Type} `{Device D}.
Abbreviation M := (M D G).

(** [for (cnt = ...; cnt > 0; cnt >>= 1)]: the array [save] up to its index [i]
    is the list [save], last entry first. *)
Fixpoint save_loop (fuel : nat) (base cnt : Z) (save : list Z) : M (list Z) :=
  match fuel with
  | O => nofuel
  | S fuel =>
      if cnt >? 0 then
        let addr := base + 4 * cnt in
        let* v := readl addr in
        (if 31 <? Z.of_nat (length save) then undef else ret tt) ;;;
        writel (.~ cnt) addr ;;;
        save_loop fuel base (cnt .>> 1) (v :: save)
      else ret save
  end.

(** [*addr = save[--i]] over the remaining offsets. *)
Fixpoint restore_loop (fuel : nat) (base maxsize cnt : Z) (save : list Z) : M unit :=
  match fuel with
  | O => nofuel
  | S fuel =>
      if cnt <? maxsize / 4 then
        match save with
        | [] => undef
        | v :: save =>
            writel v (base + 4 * cnt) ;;;
            restore_loop fuel base maxsize (cnt .<< 1) save
        end
      else ret tt
  end.

(** The last loop: read the pattern back, restore, and stop at the first
    offset whose pattern did not survive. *)
Fixpoint check_loop (fuel : nat) (base maxsize cnt : Z) (save : list Z) : M Z :=
  match fuel with
  | O => nofuel
  | S fuel =>
      if cnt <? maxsize / 4 then
        let addr := base + 4 * cnt in
        let* val := readl addr in
        match save with
        | [] => undef
        | v :: save =>
            writel v addr ;;;
            if negb (val =? u32 (.~ cnt)) then
              let size := cnt * 4 in
              restore_loop fuel base maxsize (cnt .<< 1) save ;;;
              ret size
            else check_loop fuel base maxsize (cnt .<< 1) save
        end
      else ret maxsize
  end.

(** Counters double or halve inside 32 bits, so 33 rounds end every loop. *)
Definition loop_fuel : nat := 33.

Definition get_ram_size (base maxsize : Z) : M Z :=
  let* save := save_loop loop_fuel base ((maxsize / 4) .>> 1) [] in
  let* saved_base := readl base in
  (if 31 <? Z.of_nat (length save) then undef else ret tt) ;;;
  writel 0 base ;;;
  let* val := readl base in
  if negb (val =? 0) then
    writel saved_base base ;;;
    restore_loop loop_fuel base maxsize 1 save ;;;
    ret 0
  else check_loop loop_fuel base maxsize 1 save.

End get_ram_size.

(** ** Memory that wraps around

    2^[k] words at [base]; further addresses alias them. *)

Definition upd (c : Z -> Z) (i v : Z) : Z -> Z := fun j => if j =? i then v else c j.

Definition wrap_cell (base : Z) (k : nat) (a : Z) : Z := ((a - base) / 4) mod 2 ^ Z.of_nat k.

Definition wrap_device (base : Z) (k : nat) : Device (Z -> Z) := {|
  dev_read a c := (c (wrap_cell base k a), c);
  dev_write a v c := upd c (wrap_cell base k a) v
|}.

Section wrap.
Context {G : Type} (base : Z) (k m : nat).
#[local] Instance wrap_dev : Device (Z -> Z) := wrap_device base k.
Abbreviation M := (M (Z -> Z) G).
Abbreviation p j := (2 ^ Z.of_nat j).

Lemma p_pos j : 0 < p j.
Proof. apply Z.pow_pos_nonneg; lia. Qed.

Lemma p_S j : p (S j) = 2 * p j.
Proof. rewrite Nat2Z.inj_succ. apply Z.pow_succ_r. lia. Qed.

Lemma p_lt i j : (i < j)%nat -> p i < p j.
Proof. intros. apply Z.pow_lt_mono_r; lia. Qed.

Lemma p_inj i j : p i = p j -> i = j.
Proof. intros E. destruct (Nat.lt_total i j) as [Hl|[|Hl]]; [|done|]; apply p_lt in Hl; lia. Qed.

(** The cell of the offset 2^j: itself below the size, cell 0 from there on. *)
Lemma cell_low j : (j < k)%nat -> wrap_cell base k (base + 4 * p j) = p j.
Proof.
  intros Hj. unfold wrap_cell. replace (base + 4 * p j - base) with (p j * 4) by lia.
  rewrite Z.div_mul by lia. apply Z.mod_small. pose proof (p_pos j). pose proof (p_lt j k Hj). lia.
Qed.

Lemma cell_high j : (k <= j)%nat -> wrap_cell base k (base + 4 * p j) = 0.
Proof.
  intros Hj. unfold wrap_cell. replace (base + 4 * p j - base) with (p j * 4) by lia.
  rewrite Z.div_mul by lia. replace j with (j - k + k)%nat by lia.
  rewrite Nat2Z.inj_add, Z.pow_add_r by lia. apply Z.mod_mul. pose proof (p_pos k). lia.
Qed.

Lemma cell_base : wrap_cell base k base = 0.
Proof.
  unfold wrap_cell. rewrite Z.sub_diag. cbn. apply Z.mod_0_l. pose proof (p_pos k). lia.
Qed.

(** *** What the memory holds during the test *)

Context (c0 : Z -> Z) (c0_words : forall i, word (c0 i)).
Abbreviation q := (Nat.min k m).

(** Offsets from 2^lo on hold their pattern, cell 0 holds [z], the other cells
    what they held at the start. *)
Definition pattern (lo : nat) (z : Z) (c : Z -> Z) : Prop :=
  (forall j, (lo <= j < q)%nat -> c (p j) = u32 (.~ p j)) /\ c 0 = z /\
  (forall i, 0 < i < p k -> (forall j, (lo <= j < q)%nat -> i <> p j) -> c i = c0 i).

(** The value saved for offset 2^j: above the size these are the patterns of
    the aliases visited before, and the original word for the first of them. *)
Definition saved (j : nat) : Z :=
  if decide (j < k)%nat then c0 (p j)
  else if decide (S j = m) then c0 0 else u32 (.~ p (S j)).

(** Cell 0 once the offsets from 2^lo on are written. *)
Definition zero_cell (lo : nat) : Z :=
  if decide (k < m /\ lo < m)%nat then u32 (.~ p (Nat.max lo k)) else c0 0.

Lemma word_saved j : word (saved j).
Proof. unfold saved. repeat case_decide; auto using word_u32. Qed.

Lemma word_zero_cell lo : word (zero_cell lo).
Proof. unfold zero_cell. case_decide; auto using word_u32. Qed.

Lemma wp_read_cell a s (Q : outcome Z -> st (Z -> Z) G -> trace -> Prop) :
  (forall t, Q (Val (u32 (dev s (wrap_cell base k a)))) s t) -> wp (readl a) s Q.
Proof. intros HQ. eapply wp_readl; [reflexivity|]. destruct s. apply HQ. Qed.

Lemma wp_write_cell a v s (Q : outcome unit -> st (Z -> Z) G -> trace -> Prop) :
  (forall s' t, dev s' = upd (dev s) (wrap_cell base k a) (u32 v) -> Q (Val tt) s' t) ->
  wp (writel v a) s Q.
Proof. intros HQ. apply wp_writel, HQ. done. Qed.

Lemma upd_eq c i v : upd c i v i = v.
Proof. unfold upd. by rewrite Z.eqb_refl. Qed.
Lemma upd_ne c i v j : j <> i -> upd c i v j = c j.
Proof. unfold upd. intros. by rewrite (proj2 (Z.eqb_neq _ _)). Qed.

(** Writing the pattern of the next offset down. *)
Lemma pattern_save l c : (l < m)%nat -> pattern (S l) (zero_cell (S l)) c ->
  pattern l (zero_cell l) (upd c (wrap_cell base k (base + 4 * p l)) (u32 (.~ p l))).
Proof.
  intros Hl (H1 & H2 & H3). pose proof (p_pos l). destruct (Nat.lt_ge_cases l k) as [Hk|Hk].
  - rewrite cell_low by done. split; [|split].
    + intros j Hj. destruct (Nat.eq_dec j l) as [->|]; [by rewrite upd_eq|].
      rewrite upd_ne; [apply H1; lia|]. intros E. apply p_inj in E. lia.
    + rewrite upd_ne by lia. rewrite H2. unfold zero_cell. repeat case_decide; try lia; try done.
      do 3 f_equal. lia.
    + intros i Hi Hne. rewrite upd_ne; [|apply Hne; lia]. apply H3; [done|]. intros j Hj. apply Hne. lia.
  - rewrite cell_high by done. split; [|split].
    + intros. lia.
    + rewrite upd_eq. unfold zero_cell. rewrite decide_True by lia. by rewrite Nat.max_l by lia.
    + intros i Hi Hne. rewrite upd_ne by lia. apply H3; [done|]. intros j Hj. lia.
Qed.

(** What the save loop reads at the next offset. *)
Lemma pattern_read l c : (l < m)%nat -> pattern (S l) (zero_cell (S l)) c ->
  u32 (c (wrap_cell base k (base + 4 * p l))) = saved l.
Proof.
  intros Hl (H1 & H2 & H3). destruct (Nat.lt_ge_cases l k) as [Hk|Hk].
  - rewrite cell_low by done. rewrite H3; [unfold saved; rewrite decide_True by done; by apply u32_word| |].
    + pose proof (p_pos l). pose proof (p_lt l k Hk). lia.
    + intros j Hj E. apply p_inj in E. lia.
  - rewrite cell_high, H2 by done. rewrite u32_word by apply word_zero_cell. unfold zero_cell, saved.
    rewrite (decide_False (P := (l < k)%nat)) by lia. repeat case_decide; try lia; try done.
    do 3 f_equal. lia.
Qed.

Lemma half_p l : p (S l) / 2 = p l.
Proof. rewrite p_S, Z.mul_comm. by apply Z.div_mul. Qed.

Lemma save_loop_spec fuel lo (s : st (Z -> Z) G) :
  (m <= 29)%nat -> (lo <= m)%nat -> (lo < fuel)%nat -> pattern lo (zero_cell lo) (dev s) ->
  wp (save_loop fuel base (p lo / 2) (map saved (seq lo (m - lo)))) s (fun o s' _ =>
    o = Val (map saved (seq 0 m)) /\ pattern 0 (zero_cell 0) (dev s')).
Proof.
  intros Hm. revert fuel s. induction lo as [|l IH]; intros fuel s Hlo Hf Hp.
  - destruct fuel as [|fuel]; [lia|]. cbn [save_loop]. change (p 0 / 2 >? 0) with false. cbv iota.
    wp_step. by rewrite Nat.sub_0_r.
  - destruct fuel as [|fuel]; [lia|]. cbn [save_loop]. rewrite half_p.
    pose proof (p_pos l). rewrite Z.gtb_ltb, (proj2 (Z.ltb_lt _ _)) by done. cbv zeta. wp_step.
    apply wp_read_cell. intros t. rewrite pattern_read by (lia || done).
    rewrite length_map, length_seq, (proj2 (Z.ltb_ge _ _)) by lia. do 2 wp_step. wp_step.
    apply wp_write_cell. intros s' t' Hs'. rewrite Z.shiftr_div_pow2 by lia. change (2 ^ 1) with 2.
    replace (saved l :: map saved (seq (S l) (m - S l))) with (map saved (seq l (m - l)))
      by (by replace (m - l)%nat with (S (m - S l)) by lia).
    apply IH; [lia|lia|]. rewrite Hs'. apply pattern_save; [lia|done].
Qed.

Lemma double_p j : p j .<< 1 = p (S j).
Proof. rewrite Z.shiftl_mul_pow2, p_S by lia. lia. Qed.

Lemma max_words : 4 * p m / 4 = p m.
Proof. rewrite Z.mul_comm. by apply Z.div_mul. Qed.

Lemma p_ltb j : (p j <? p m) = (j <? m)%nat.
Proof.
  destruct (Nat.ltb_spec j m) as [Hl|Hl]; [apply Z.ltb_lt; by apply p_lt|].
  apply Z.ltb_ge, Z.pow_le_mono_r; lia.
Qed.

(** Beyond the size every restore goes to cell 0; the last one puts back the
    word that was there first. *)
Lemma restore_loop_spec fuel j (s : st (Z -> Z) G) :
  (k <= j)%nat -> (S j <= m)%nat -> (m - S j < fuel)%nat ->
  pattern k (saved j) (dev s) ->
  wp (restore_loop fuel base (4 * p m) (p (S j)) (map saved (seq (S j) (m - S j)))) s (fun o s' _ =>
    o = Val tt /\ pattern k (c0 0) (dev s')).
Proof.
  revert j s. induction fuel as [|fuel IH]; intros j s Hk Hj Hf Hp; [lia|].
  cbn [restore_loop]. rewrite max_words, p_ltb. destruct (Nat.ltb_spec (S j) m) as [Hl|Hl].
  - replace (m - S j)%nat with (S (m - S (S j))) by lia. cbn [seq map]. wp_step.
    apply wp_write_cell. intros s' t Hs'. rewrite double_p. apply IH; [lia|lia|lia|].
    destruct Hp as (H1 & H2 & H3). rewrite Hs', cell_high by lia.
    rewrite u32_word by apply word_saved. split; [|split].
    + intros. lia.
    + apply upd_eq.
    + intros i Hi Hne. rewrite upd_ne by lia. apply H3; [done|]. intros. lia.
  - assert (E : saved j = c0 0).
    { unfold saved. rewrite decide_False, decide_True by lia. done. }
    wp_step. split; [done|]. by rewrite <- E.
Qed.

Lemma pattern_nonzero j : (j <= 29)%nat -> (0 =? u32 (.~ p j)) = false.
Proof.
  intros Hj. apply Z.eqb_neq. unfold u32. pose proof (p_pos j).
  assert (p j <= 2 ^ 29) by (apply Z.pow_le_mono_r; lia).
  replace (.~ p j) with (2 ^ 32 - 1 - p j + (-1) * 2 ^ 32) by (unfold Z.lnot; lia).
  rewrite Z.mod_add, Z.mod_small by lia. lia.
Qed.

Lemma check_loop_spec fuel j (s : st (Z -> Z) G) :
  (m <= 29)%nat -> (j <= q)%nat -> (m - j < fuel)%nat -> pattern j 0 (dev s) ->
  wp (check_loop fuel base (4 * p m) (p j) (map saved (seq j (m - j)))) s (fun o s' _ =>
    o = Val (4 * p q) /\ pattern q (if decide (k < m)%nat then c0 0 else 0) (dev s')).
Proof.
  intros Hm. revert j s. induction fuel as [|fuel IH]; intros j s Hj Hf Hp; [lia|].
  cbn [check_loop]. rewrite max_words, p_ltb. destruct (Nat.ltb_spec j m) as [Hl|Hl].
  2:{ wp_step. replace j with q in Hp by lia. rewrite decide_False by lia.
      split; [f_equal; do 3 f_equal; lia|done]. }
  replace (m - j)%nat with (S (m - S j)) by lia. cbn [seq map]. cbv zeta. wp_step.
  apply wp_read_cell. intros t. wp_step. apply wp_write_cell. intros s' t' Hs'.
  rewrite double_p. rewrite u32_word in Hs' by apply word_saved.
  destruct Hp as (H1 & H2 & H3). destruct (Nat.lt_ge_cases j k) as [Hk|Hk].
  - rewrite cell_low in * by done. rewrite H1, u32_idem, Z.eqb_refl by lia. cbn [negb].
    apply IH; [lia|lia|]. rewrite Hs'. pose proof (p_pos j). split; [|split].
    + intros i Hi. rewrite upd_ne; [apply H1; lia|]. intros E. apply p_inj in E. lia.
    + by rewrite upd_ne by lia.
    + intros i Hi Hne. destruct (Z.eq_dec i (p j)) as [->|Hij].
      * rewrite upd_eq. unfold saved. by rewrite decide_True.
      * rewrite upd_ne by done. apply H3; [done|]. intros j' Hj'.
        destruct (Nat.eq_dec j' j) as [->|]; [done|]. apply Hne. lia.
  - assert (j = k) as -> by lia. rewrite cell_high, H2 in * by lia. change (u32 0) with 0.
    rewrite pattern_nonzero by lia. cbn [negb]. rewrite decide_True by lia.
    replace (q) with k by lia. wp_step. eapply wp_mono; [apply (restore_loop_spec fuel k s'); [lia|lia|lia|]|].
    + rewrite Hs'. split; [intros; lia|]. split; [apply upd_eq|].
      intros i Hi Hne. rewrite upd_ne by lia. apply H3; [done|]. intros. lia.
    + intros o s2 t2 [-> Hp2]. cbv beta iota. wp_step. split; [f_equal; lia|done].
Qed.

End wrap.

(** C33: On a memory of 2^k words that wraps around, asked for up to 2^m words,
    get_ram_size always returns and gives the smaller of the two sizes.  When
    the memory is smaller than the limit every word is put back; otherwise every
    word is put back except the one at [base], which is left at 0. *)
Theorem get_ram_size_correct {G} base (k m : nat) (c0 : Z -> Z) (g : G) :
  (forall i, word (c0 i)) -> (m <= 29)%nat ->
  let r := @get_ram_size (Z -> Z) G (wrap_device base k) base (4 * 2 ^ Z.of_nat m) (mk_st c0 g) in
  out r = Val (4 * 2 ^ Z.of_nat (Nat.min k m)) /\
  forall i, 0 <= i < 2 ^ Z.of_nat k ->
    dev (fin r) i = if decide (i = 0 /\ (m <= k)%nat) then 0 else c0 i.
Proof.
  intros Hw Hm. wp_enter. unfold get_ram_size. rewrite max_words, Z.shiftr_div_pow2 by lia.
  apply wp_bind. eapply wp_mono.
  { pose proof (save_loop_spec (G := G) base k m c0 Hw loop_fuel m (mk_st c0 g)) as Hs.
    rewrite Nat.sub_diag in Hs. apply Hs; [done|done|unfold loop_fuel; lia|].
    split; [intros; lia|]. split; [|done]. unfold zero_cell. by rewrite decide_False by lia. }
  intros o s1 t1 [-> Hp]. cbv beta iota. apply wp_bind. apply wp_read_cell. intros t2. cbv beta iota.
  rewrite length_map, length_seq, (proj2 (Z.ltb_ge _ _)) by lia. do 2 wp_step. wp_step.
  apply wp_write_cell. intros s2 t3 H2. cbv beta iota. apply wp_bind, wp_read_cell. intros t4.
  rewrite H2, cell_base, upd_eq. cbn [u32 Z.modulo]. change (negb (u32 (u32 0) =? 0)) with false. cbv iota.
  eapply wp_mono.
  { pose proof (check_loop_spec (G := G) base k m c0 Hw loop_fuel 0 s2) as Hc.
    rewrite Nat.sub_0_r in Hc. apply Hc; [done|lia|unfold loop_fuel; lia|].
    destruct Hp as (P1 & P2 & P3). rewrite H2, cell_base. split; [|split].
    - intros j Hj. rewrite upd_ne; [by apply P1|]. pose proof (p_pos j). lia.
    - apply upd_eq.
    - intros i Hi Hne. rewrite upd_ne by lia. by apply P3. }
  intros o s3 t5 [-> (P1 & P2 & P3)]. split; [done|]. intros i Hi.
  destruct (Z.eq_dec i 0) as [->|].
  - rewrite P2. repeat case_decide; try lia; done.
  - rewrite decide_False by (intros [? _]; done). apply P3; [lia|]. intros. lia.
Qed.

(** 16 words where 64 are asked for, and where 8 are. *)
Lemma get_ram_size_correct_witness :
  let c0 := fun i => i * 17 mod 2 ^ 32 in
  out (@get_ram_size (Z -> Z) unit (wrap_device 0x1000 4) 0x1000 256 (mk_st c0 tt)) = Val 64 /\
  dev (fin (@get_ram_size (Z -> Z) unit (wrap_device 0x1000 4) 0x1000 32 (mk_st c0 tt))) 5 = 85.
Proof.
  intros c0. assert (Hw : forall i, word (c0 i)).
  { intros i. unfold word, c0. apply Z.mod_pos_bound. lia. }
  split.
  - exact (proj1 (get_ram_size_correct 0x1000 4 6 c0 tt Hw ltac:(lia))).
  - exact (proj2 (get_ram_size_correct 0x1000 4 3 c0 tt Hw ltac:(lia)) 5 ltac:(lia)).
Defined.
