(* ===== verification/SdramProt.v ===== *)
(** SDRAM protection rules (sdram.c): the twenty rules of the multi-port front
    end, how they are written and read back, and the configuration that admits
    exactly the installed memory. *)

From S2P Require Import Prelude BitOps Mmio Regs.

Record sdram_prot_rule := mk_rule {
  rule : Z;
  sdram_start : Z;      (* uint64_t *)
  sdram_end : Z;        (* uint64_t *)
  valid : Z;
  security : Z;
  portmask : Z;
  result : Z;
  lo_prot_id : Z;
  hi_prot_id : Z
}.

(** The three words that describe a rule. *)
Definition rule_addr (r : sdram_prot_rule) : Z :=
  let lo_addr_bits := (sdram_start r .>> 20) .& 0xFFF in
  let hi_addr_bits := (u64 (sdram_end r - 1) .>> 20) .& 0xFFF in
  lo_addr_bits .| (hi_addr_bits .<< 12).

Definition rule_id (r : sdram_prot_rule) : Z := u32 (lo_prot_id r .| (hi_prot_id r .<< 12)).

Definition rule_data (r : sdram_prot_rule) : Z :=
  u32 (security r .| (valid r .<< 2) .| (portmask r .<< 3) .| (result r .<< 13)).

Section prot.
Context {D G : Type} `{Device D}.
Abbreviation M := (M D G).
Abbreviation SDR := SOCFPGA_SDR_ADDRESS.

Definition sdram_set_rule (prule : sdram_prot_rule) : M unit :=
  let ruleno := rule prule in
  writel ruleno (SDR + SDR_CTRLGRP_PROTRULERDWR_ADDRESS) ;;;
  writel (rule_addr prule) (SDR + SDR_CTRLGRP_PROTRULEADDR_ADDRESS) ;;;
  writel (rule_id prule) (SDR + SDR_CTRLGRP_PROTRULEID_ADDRESS) ;;;
  writel (rule_data prule) (SDR + SDR_CTRLGRP_PROTRULEDATA_ADDRESS) ;;;
  writel (ruleno .| (1 .<< 5)) (SDR + SDR_CTRLGRP_PROTRULERDWR_ADDRESS) ;;;
  writel 0 (SDR + SDR_CTRLGRP_PROTRULERDWR_ADDRESS).

Definition sdram_get_rule (prule : sdram_prot_rule) : M sdram_prot_rule :=
  let ruleno := rule prule in
  writel ruleno (SDR + SDR_CTRLGRP_PROTRULERDWR_ADDRESS) ;;;
  writel (ruleno .| (1 .<< 6)) (SDR + SDR_CTRLGRP_PROTRULERDWR_ADDRESS) ;;;
  let* protruleaddr := readl (SDR + SDR_CTRLGRP_PROTRULEADDR_ADDRESS) in
  let* protruleid := readl (SDR + SDR_CTRLGRP_PROTRULEID_ADDRESS) in
  let* protruledata := readl (SDR + SDR_CTRLGRP_PROTRULEDATA_ADDRESS) in
  ret {| rule := ruleno;
         sdram_start := u32 ((protruleaddr .& 0xFFF) .<< 20);
         sdram_end := u32 (((protruleaddr .>> 12) .& 0xFFF) .<< 20);
         valid := (protruledata .>> 2) .& 0x1;
         security := protruledata .& 0x3;
         portmask := (protruledata .>> 3) .& 0x3FF;
         result := (protruledata .>> 13) .& 0x1;
         lo_prot_id := protruleid .& 0xFFF;
         hi_prot_id := (protruleid .>> 12) .& 0xFFF |}.

(** The rule that sdram_set_protection_config clears the others with. *)
Definition cleared_rule (n : Z) : sdram_prot_rule := {|
  rule := n; sdram_start := 0; sdram_end := 0; valid := 0; security := 0; portmask := 0;
  result := 0; lo_prot_id := 0; hi_prot_id := 0 |}.

Definition accept_rule (sdram_start sdram_end : Z) : sdram_prot_rule := {|
  rule := 0; sdram_start := sdram_start; sdram_end := sdram_end; valid := 1; security := 0x3;
  portmask := 0x3FF; result := 0; lo_prot_id := 0x0; hi_prot_id := 0xFFF |}.

Definition sdram_set_protection_config (sdram_start sdram_end : Z) : M unit :=
  writel 0x0 (SDR + SDR_CTRLGRP_PROTPORTDEFAULT_ADDRESS) ;;;
  let* _ := for_upto 20 (fun rules => sdram_set_rule (cleared_rule rules) ;;; ret (@None unit)) in
  sdram_set_rule (accept_rule sdram_start sdram_end) ;;;
  writel 0x3ff (SDR + SDR_CTRLGRP_PROTPORTDEFAULT_ADDRESS).

(** sdram_dump_protection_config never sets [rule.rule]: [junk] is the value
    that the stack happened to hold.  debug() expands to nothing. *)
Definition sdram_dump_protection_config (junk : sdram_prot_rule) : M unit :=
  let* _ := for_upto 20 (fun _ => let* _ := sdram_get_rule junk in ret (@None unit)) in
  ret tt.

End prot.

(** ** The rule store of the controller

    Writing protrulerdwr with bit 5 stores the three rule words as the rule in
    bits 4-0, with bit 6 it loads them from that rule; without either bit it
    only selects.  [RuleStore] states this of a device. *)
Abbreviation rule_words := (Z * Z * Z)%type.

Class RuleStore (D : Type) `{Device D} := {
  stored : D -> Z -> rule_words;
  latched : D -> rule_words;
  rule_write_addr : forall v d,
    latched (dev_write (SOCFPGA_SDR_ADDRESS + SDR_CTRLGRP_PROTRULEADDR_ADDRESS) v d) =
      (v, snd (fst (latched d)), snd (latched d)) /\
    stored (dev_write (SOCFPGA_SDR_ADDRESS + SDR_CTRLGRP_PROTRULEADDR_ADDRESS) v d) = stored d;
  rule_write_id : forall v d,
    latched (dev_write (SOCFPGA_SDR_ADDRESS + SDR_CTRLGRP_PROTRULEID_ADDRESS) v d) =
      (fst (fst (latched d)), v, snd (latched d)) /\
    stored (dev_write (SOCFPGA_SDR_ADDRESS + SDR_CTRLGRP_PROTRULEID_ADDRESS) v d) = stored d;
  rule_write_data : forall v d,
    latched (dev_write (SOCFPGA_SDR_ADDRESS + SDR_CTRLGRP_PROTRULEDATA_ADDRESS) v d) =
      (fst (fst (latched d)), snd (fst (latched d)), v) /\
    stored (dev_write (SOCFPGA_SDR_ADDRESS + SDR_CTRLGRP_PROTRULEDATA_ADDRESS) v d) = stored d;
  rule_select : forall v d, 0 <= v < 32 ->
    latched (dev_write (SOCFPGA_SDR_ADDRESS + SDR_CTRLGRP_PROTRULERDWR_ADDRESS) v d) = latched d /\
    stored (dev_write (SOCFPGA_SDR_ADDRESS + SDR_CTRLGRP_PROTRULERDWR_ADDRESS) v d) = stored d;
  rule_store : forall v d, 0 <= v < 32 ->
    latched (dev_write (SOCFPGA_SDR_ADDRESS + SDR_CTRLGRP_PROTRULERDWR_ADDRESS) (v + 32) d) = latched d /\
    forall n, stored (dev_write (SOCFPGA_SDR_ADDRESS + SDR_CTRLGRP_PROTRULERDWR_ADDRESS) (v + 32) d) n =
      if n =? v then latched d else stored d n;
  rule_load : forall v d, 0 <= v < 32 ->
    latched (dev_write (SOCFPGA_SDR_ADDRESS + SDR_CTRLGRP_PROTRULERDWR_ADDRESS) (v + 64) d) = stored d v /\
    stored (dev_write (SOCFPGA_SDR_ADDRESS + SDR_CTRLGRP_PROTRULERDWR_ADDRESS) (v + 64) d) = stored d;
  rule_read : forall d,
    fst (dev_read (SOCFPGA_SDR_ADDRESS + SDR_CTRLGRP_PROTRULEADDR_ADDRESS) d) = fst (fst (latched d)) /\
    fst (dev_read (SOCFPGA_SDR_ADDRESS + SDR_CTRLGRP_PROTRULEID_ADDRESS) d) = snd (fst (latched d)) /\
    fst (dev_read (SOCFPGA_SDR_ADDRESS + SDR_CTRLGRP_PROTRULEDATA_ADDRESS) d) = snd (latched d);
  rule_read_frame : forall a d,
    latched (snd (dev_read a d)) = latched d /\ stored (snd (dev_read a d)) = stored d;
  rule_default_frame : forall v d,
    latched (dev_write (SOCFPGA_SDR_ADDRESS + SDR_CTRLGRP_PROTPORTDEFAULT_ADDRESS) v d) = latched d /\
    stored (dev_write (SOCFPGA_SDR_ADDRESS + SDR_CTRLGRP_PROTPORTDEFAULT_ADDRESS) v d) = stored d
}.

(** A controller with this behaviour. *)
Record rule_sim := { sim_latched : rule_words; sim_stored : Z -> rule_words; sim_default : Z }.

#[export] Instance rule_sim_device : Device rule_sim := {
  dev_read a d :=
    let '(x, y, z) := sim_latched d in
    (if a =? SOCFPGA_SDR_ADDRESS + SDR_CTRLGRP_PROTRULEADDR_ADDRESS then x
     else if a =? SOCFPGA_SDR_ADDRESS + SDR_CTRLGRP_PROTRULEID_ADDRESS then y
     else if a =? SOCFPGA_SDR_ADDRESS + SDR_CTRLGRP_PROTRULEDATA_ADDRESS then z
     else if a =? SOCFPGA_SDR_ADDRESS + SDR_CTRLGRP_PROTPORTDEFAULT_ADDRESS then sim_default d
     else 0, d);
  dev_write a v d :=
    let '(x, y, z) := sim_latched d in
    if a =? SOCFPGA_SDR_ADDRESS + SDR_CTRLGRP_PROTRULEADDR_ADDRESS
    then {| sim_latched := (v, y, z); sim_stored := sim_stored d; sim_default := sim_default d |}
    else if a =? SOCFPGA_SDR_ADDRESS + SDR_CTRLGRP_PROTRULEID_ADDRESS
    then {| sim_latched := (x, v, z); sim_stored := sim_stored d; sim_default := sim_default d |}
    else if a =? SOCFPGA_SDR_ADDRESS + SDR_CTRLGRP_PROTRULEDATA_ADDRESS
    then {| sim_latched := (x, y, v); sim_stored := sim_stored d; sim_default := sim_default d |}
    else if a =? SOCFPGA_SDR_ADDRESS + SDR_CTRLGRP_PROTRULERDWR_ADDRESS
    then if v / 32 mod 2 =? 1
         then {| sim_latched := (x, y, z);
                 sim_stored := fun n => if n =? v mod 32 then (x, y, z) else sim_stored d n;
                 sim_default := sim_default d |}
         else if v / 64 mod 2 =? 1
         then {| sim_latched := sim_stored d (v mod 32); sim_stored := sim_stored d;
                 sim_default := sim_default d |}
         else d
    else if a =? SOCFPGA_SDR_ADDRESS + SDR_CTRLGRP_PROTPORTDEFAULT_ADDRESS
    then {| sim_latched := sim_latched d; sim_stored := sim_stored d; sim_default := v |}
    else d
}.

#[export] Instance rule_sim_store : RuleStore rule_sim.
Proof.
  refine {| stored := sim_stored; latched := sim_latched |};
    try (intros; destruct d as [[[x y] z] f dd]; done).
  - intros v d Hv. destruct d as [[[x y] z] f dd]. cbn -[Z.div Z.modulo].
    replace (v / 32 mod 2) with 0 by div_lia. replace (v / 64 mod 2) with 0 by div_lia. done.
  - intros v d Hv. destruct d as [[[x y] z] f dd]. cbn -[Z.div Z.modulo].
    replace ((v + 32) / 32 mod 2) with 1 by div_lia. cbn -[Z.div Z.modulo]. split; [done|]. intros n.
    by replace ((v + 32) mod 32) with v by div_lia.
  - intros v d Hv. destruct d as [[[x y] z] f dd]. cbn -[Z.div Z.modulo].
    replace ((v + 64) / 32 mod 2) with 0 by div_lia. replace ((v + 64) / 64 mod 2) with 1 by div_lia.
    cbn -[Z.div Z.modulo]. by replace ((v + 64) mod 32) with v by div_lia.
Defined.

(** The default register reads back what was written. *)
Abbreviation PROTPORTDEFAULT := (SOCFPGA_SDR_ADDRESS + SDR_CTRLGRP_PROTPORTDEFAULT_ADDRESS).

#[export] Instance rule_sim_default : Reg rule_sim PROTPORTDEFAULT.
Proof.
  refine {| reg_val := sim_default |}.
  - intros [[[x y] z] f dd]. by split.
  - intros v [[[x y] z] f dd]. done.
  - intros b [[[x y] z] f dd] _. reflexivity.
  - intros b v [[[x y] z] f dd] Hb. cbn [dev_write rule_sim_device sim_latched].
    apply Z.eqb_neq in Hb. rewrite Hb. clear Hb.
    repeat case_match; reflexivity.
Defined.

(** ** Writing, reading and admitting *)

Definition words_of (r : sdram_prot_rule) : rule_words := (rule_addr r, rule_id r, rule_data r).

Lemma word_rule_addr r : word (rule_addr r).
Proof.
  unfold rule_addr. apply word_lor; [apply word_land_r; word_solve|].
  pose proof (land_le (u64 (sdram_end r - 1) .>> 20) 0xFFF ltac:(lia)).
  unfold word. rewrite Z.shiftl_mul_pow2 by lia. lia.
Qed.

(** Fields that do not overlap add up. *)
Lemma lor_concat n lo hi : 0 <= n -> 0 <= lo < 2 ^ n -> lo .| (hi .<< n) = lo + 2 ^ n * hi.
Proof.
  intros Hn Hlo. apply Z.bits_inj'. intros i Hi. rewrite Z.lor_spec, testbit_concat, Z.shiftl_spec by done.
  destruct (Z.ltb_spec i n); [rewrite (Z.testbit_neg_r hi) by lia; apply orb_false_r|].
  destruct (Z.eq_dec lo 0) as [->|]; [by rewrite Z.bits_0|].
  rewrite (Z.bits_above_log2 lo); [done|lia|]. apply Z.lt_le_trans with n; [|done]. apply Z.log2_lt_pow2; lia.
Qed.

Lemma or_bit v k : 0 <= v < 2 ^ k -> 0 <= k -> v .| (1 .<< k) = v + 2 ^ k.
Proof. intros. rewrite lor_concat by done. lia. Qed.

(** The two block numbers of the address word. *)
Lemma rule_addr_fields r :
  rule_addr r .& 0xFFF = (sdram_start r .>> 20) .& 0xFFF /\
  (rule_addr r .>> 12) .& 0xFFF = (u64 (sdram_end r - 1) .>> 20) .& 0xFFF.
Proof.
  unfold rule_addr. change 0xFFF with (Z.ones 12). rewrite !Z.land_ones, !Z.shiftr_div_pow2 by lia.
  rewrite lor_concat by div_lia. split; div_lia.
Qed.

Section prot_proofs.
Context {D G : Type} `{RuleStore D}.
Abbreviation M := (M D G).

Lemma set_rule_spec r (s : st D G) : 0 <= rule r < 32 ->
  wp (sdram_set_rule r : M unit) s (fun o s' _ => o = Val tt /\ glob s' = glob s /\
    forall n, stored (dev s') n = if n =? rule r then words_of r else stored (dev s) n).
Proof.
  intros Hr. unfold sdram_set_rule. wp_run. split; [done|]. split; [done|]. intros n. cbn [dev].
  rewrite (or_bit (rule r) 5) by lia. change (2 ^ 5) with 32.
  rewrite (u32_word (rule r)), (u32_word (rule r + 32)) by (unfold word; lia).
  rewrite (u32_word (rule_addr r)) by apply word_rule_addr. unfold rule_id, rule_data. rewrite !u32_idem.
  change (u32 0) with 0. set (d0 := dev s).
  set (d1 := dev_write _ (rule r) d0). destruct (rule_select (rule r) d0 Hr) as [L1 S1]. fold d1 in L1, S1.
  set (d2 := dev_write _ (rule_addr r) d1). destruct (rule_write_addr (rule_addr r) d1) as [L2 S2]. fold d2 in L2, S2.
  set (x := u32 (lo_prot_id r .| _)). set (d3 := dev_write _ x d2). destruct (rule_write_id x d2) as [L3 S3].
  fold d3 in L3, S3. set (y := u32 (security r .| _ .| _ .| _)). set (d4 := dev_write _ y d3).
  destruct (rule_write_data y d3) as [L4 S4]. fold d4 in L4, S4. set (d5 := dev_write _ (rule r + 32) d4).
  destruct (rule_store (rule r) d4 Hr) as [L5 S5]. fold d5 in L5, S5.
  destruct (rule_select 0 d5 ltac:(lia)) as [L6 S6]. rewrite S6, S5.
  rewrite S4, S3, S2, S1, L4, L3, L2. done.
Qed.

(** Events that leave the default register alone. *)
Definition not_default (e : event) : Prop :=
  match e with
  | Wr a _ => a <> SOCFPGA_SDR_ADDRESS + SDR_CTRLGRP_PROTPORTDEFAULT_ADDRESS
  | _ => True
  end.

Lemma set_rule_events r : only not_default (sdram_set_rule r : M unit).
Proof. unfold sdram_set_rule. hw_auto. Qed.

Lemma clear_rules_spec (s : st D G) :
  wp (for_upto 20 (fun rules => sdram_set_rule (cleared_rule rules) ;;; ret (@None unit)) : M _) s
    (fun o s' t => o = Val None /\ Forall not_default t /\
       forall n, 0 <= n < 20 -> stored (dev s') n = words_of (cleared_rule n)).
Proof.
  apply (wp_for (fun k s' t => Forall not_default t /\
    forall n, 0 <= n < k -> stored (dev s') n = words_of (cleared_rule n))); [lia|split; [constructor|lia]| |].
  - intros k s1 t1 Hk [Ht Hs]. wp_step.
    eapply wp_mono; [apply wp_and; [apply set_rule_spec; cbn; lia|apply wp_events, set_rule_events]|].
    intros o s2 t2 [(-> & _ & H2) Ht2]. cbv beta iota. wp_step. rewrite app_nil_r, Forall_app.
    split; [done|]. intros n Hn. rewrite H2. cbn [rule cleared_rule].
    destruct (Z.eqb_spec n k) as [->|]; [done|]. apply Hs. lia.
  - intros s1 t1 [Ht Hs]. done.
Qed.

Lemma set_protection_config_spec start end_ (s : st D G) :
  wp (sdram_set_protection_config start end_ : M unit) s (fun o s' t => o = Val tt /\
    (forall n, 0 <= n < 20 -> stored (dev s') n =
       words_of (if n =? 0 then accept_rule start end_ else cleared_rule n)) /\
    exists t', t = Wr (SOCFPGA_SDR_ADDRESS + SDR_CTRLGRP_PROTPORTDEFAULT_ADDRESS) 0 :: t' ++
      [Wr (SOCFPGA_SDR_ADDRESS + SDR_CTRLGRP_PROTPORTDEFAULT_ADDRESS) 0x3ff] /\ Forall not_default t').
Proof.
  unfold sdram_set_protection_config. do 2 wp_step. wp_step.
  eapply wp_mono; [apply clear_rules_spec|]. intros o1 s1 t1 (-> & Ht1 & H1). cbv beta iota. wp_step.
  eapply wp_mono; [apply wp_and; [apply set_rule_spec; cbn; lia|apply wp_events, set_rule_events]|].
  intros o2 s2 t2 [(-> & _ & H2) Ht2]. cbv beta iota. wp_step. split; [done|]. split.
  - intros n Hn. cbn [dev]. rewrite (proj2 (rule_default_frame _ _)), H2. cbn [rule accept_rule].
    destruct (n =? 0); [done|]. by apply H1.
  - exists (t1 ++ t2). rewrite <- app_assoc. split; [done|]. by rewrite Forall_app.
Qed.

(** After the protection configuration the first rule covers the given
    range, the other nineteen rules are invalid, whatever rules a previous boot
    left behind, and nothing matches by default: the default register is opened
    first and closed last. *)
Theorem set_protection_config_rules start end_ (s : st D G) :
  let r := sdram_set_protection_config start end_ s in
  out r = Val tt /\
  stored (dev (fin r)) 0 = words_of (accept_rule start end_) /\
  (forall n, 1 <= n < 20 -> stored (dev (fin r)) n = words_of (cleared_rule n) /\
     Z.testbit (rule_data (cleared_rule n)) 2 = false) /\
  (exists t, tr r = Wr (SOCFPGA_SDR_ADDRESS + SDR_CTRLGRP_PROTPORTDEFAULT_ADDRESS) 0 :: t ++
     [Wr (SOCFPGA_SDR_ADDRESS + SDR_CTRLGRP_PROTPORTDEFAULT_ADDRESS) 0x3ff] /\
     Forall (fun e => match e with
                      | Wr a _ => a <> SOCFPGA_SDR_ADDRESS + SDR_CTRLGRP_PROTPORTDEFAULT_ADDRESS
                      | _ => True end) t).
Proof.
  cbv zeta. destruct (set_protection_config_spec start end_ s) as (Ho & Hs & Ht).
  split; [exact Ho|]. split; [by rewrite Hs|]. split; [|exact Ht].
  intros n Hn. rewrite Hs by lia. rewrite (proj2 (Z.eqb_neq n 0)) by lia. done.
Qed.

(** *** Admission

    A rule matches a transaction of a port when it is valid, names the port and
    the security state, and its ranges of 1 MiB blocks and of master ids hold
    the transaction's; its result bit says whether to reject it.  Without a
    matching rule the port's bit of the default register decides.  This is the
    specification of the controller: the encoding of the security field is the
    one of its register description, 0 for secure transactions, 1 for others, 2
    and 3 for both. *)
Definition security_matches (sec : Z) (secure : bool) : bool :=
  if secure then negb (sec =? 1) else negb (sec =? 0).

Definition rule_matches (port : Z) (secure : bool) (id addr : Z) (w : rule_words) : bool :=
  let '(a, i, d) := w in
  Z.testbit d 2 && Z.testbit (d .>> 3) port && security_matches (d .& 0x3) secure &&
  ((a .& 0xFFF) <=? (addr .>> 20)) && ((addr .>> 20) <=? ((a .>> 12) .& 0xFFF)) &&
  ((i .& 0xFFF) <=? id) && (id <=? ((i .>> 12) .& 0xFFF)).

Definition admitted (store : Z -> rule_words) (default_ port : Z) (secure : bool) (id addr : Z) : bool :=
  match List.filter (rule_matches port secure id addr) (map (fun n => store (Z.of_nat n)) (seq 0 20)) with
  | [] => negb (Z.testbit default_ port)
  | ws => forallb (fun w => negb (Z.testbit (snd w) 13)) ws
  end.

Lemma accept_rule_matches start end_ port secure id addr :
  start mod 2 ^ 20 = 0 -> end_ mod 2 ^ 20 = 0 -> 0 <= start -> start < end_ <= 2 ^ 32 ->
  0 <= port < 10 -> 0 <= id < 4096 -> 0 <= addr < 2 ^ 32 ->
  rule_matches port secure id addr (words_of (accept_rule start end_)) = (start <=? addr) && (addr <? end_).
Proof.
  intros Hs He Hs0 Hse Hport Hid Haddr. unfold words_of, rule_matches.
  destruct (rule_addr_fields (accept_rule start end_)) as [-> ->]. cbn [sdram_start sdram_end accept_rule].
  change (rule_data (accept_rule start end_)) with 0x1fff.
  change (rule_id (accept_rule start end_)) with 0xfff000.
  change (Z.testbit 0x1fff 2) with true. change (0x1fff .>> 3) with (Z.ones 10). change (0x1fff .& 0x3) with 3.
  replace (security_matches 3 secure) with true by (by destruct secure).
  change (0xfff000 .& 0xFFF) with 0. change ((0xfff000 .>> 12) .& 0xFFF) with 4095.
  rewrite Z.testbit_ones_nonneg by lia. rewrite (proj2 (Z.ltb_lt port 10)) by lia.
  rewrite (proj2 (Z.leb_le 0 id)), (proj2 (Z.leb_le id 4095)) by lia. cbn [andb]. rewrite !andb_true_r.
  change 0xFFF with (Z.ones 12). rewrite !Z.land_ones, !Z.shiftr_div_pow2 by lia.
  unfold u64. rewrite (Z.mod_small (end_ - 1)) by lia.
  f_equal; apply eq_true_iff_eq; rewrite ?Z.leb_le, ?Z.ltb_lt; div_lia.
Qed.

Lemma cleared_rule_matches n port secure id addr :
  rule_matches port secure id addr (words_of (cleared_rule n)) = false.
Proof. done. Qed.

Lemma default_rejects port : 0 <= port < 10 -> Z.testbit 0x3ff port = true.
Proof. intros. change 0x3ff with (Z.ones 10). rewrite Z.testbit_ones_nonneg by lia. apply Z.ltb_lt. lia. Qed.

Lemma accept_result start end_ : negb (Z.testbit (snd (words_of (accept_rule start end_))) 13) = true.
Proof. reflexivity. Qed.

Lemma filter_first {A} (f : A -> bool) (store : Z -> A) k :
  (forall n, 1 <= n <= Z.of_nat k -> f (store n) = false) ->
  List.filter f (map (fun n => store (Z.of_nat n)) (seq 0 (S k))) = List.filter f [store 0].
Proof.
  intros Hf. cbn [seq map List.filter Z.of_nat].
  assert (E : List.filter f (map (fun n => store (Z.of_nat n)) (seq 1 k)) = []); [|by rewrite E].
  apply filter_nil_Forall, Forall_forall. intros w Hw.
  apply list_elem_of_In, in_map_iff in Hw as (n & <- & Hn). apply in_seq in Hn. apply Hf. lia.
Qed.

Lemma admitted_accept store start end_ port secure id addr :
  (forall n, 0 <= n < 20 -> store n = words_of (if n =? 0 then accept_rule start end_ else cleared_rule n)) ->
  0 <= port < 10 ->
  admitted store 0x3ff port secure id addr = rule_matches port secure id addr (words_of (accept_rule start end_)).
Proof.
  intros Hs Hp. unfold admitted.
  rewrite (filter_first _ store 19).
  2:{ intros n Hn. rewrite Hs, (proj2 (Z.eqb_neq n 0)) by lia. apply cleared_rule_matches. }
  rewrite (Hs 0) by lia. change (0 =? 0) with true. cbv iota. cbn [List.filter].
  destruct (rule_matches port secure id addr _); [cbn [forallb]; by rewrite accept_result|].
  by rewrite default_rejects.
Qed.

Section admission.
Context `{!Reg D PROTPORTDEFAULT}.

(** The default register at the end is what the last write left there. *)
Lemma default_closed start end_ (s : st D G) :
  wp (sdram_set_protection_config start end_ : M unit) s (fun _ s' _ => reg PROTPORTDEFAULT s' = 0x3ff).
Proof.
  unfold sdram_set_protection_config. do 2 wp_step. wp_step.
  eapply wp_mono; [apply clear_rules_spec|]. intros o1 s1 t1 (-> & _). cbv beta iota. wp_step.
  eapply wp_mono; [apply set_rule_spec; cbn; lia|]. intros o2 s2 t2 (-> & _). cbv beta iota.
  apply (wp_writel_reg PROTPORTDEFAULT). intros s' Hs. by rewrite Hs.
Qed.

(** C32: On a controller whose rule store and default register hold what was
    written, with the range of installed memory given in whole MiB, the rules
    and the default that the configuration leaves behind admit a transaction of
    any of the ten ports, secure or not, and any master id exactly when its
    address lies inside the range. *)
Theorem protection_admits_range start end_ port secure id addr (s : st D G) :
  start mod 2 ^ 20 = 0 -> end_ mod 2 ^ 20 = 0 -> 0 <= start -> start < end_ <= 2 ^ 32 ->
  0 <= port < 10 -> 0 <= id < 4096 -> 0 <= addr < 2 ^ 32 ->
  let s' := fin (sdram_set_protection_config start end_ s) in
  admitted (stored (dev s')) (reg PROTPORTDEFAULT s') port secure id addr = (start <=? addr) && (addr <? end_).
Proof.
  intros. unfold s'. destruct (set_protection_config_spec start end_ s) as (_ & Hs & _).
  pose proof (default_closed start end_ s) as Hd. unfold wp in Hd. rewrite Hd.
  rewrite (admitted_accept _ start end_) by done. by apply accept_rule_matches.
Qed.
End admission.

(** *** Reading a rule back *)

Lemma get_rule_spec r (s : st D G) : 0 <= rule r < 32 ->
  (forall a b c, stored (dev s) (rule r) = (a, b, c) -> word a /\ word b /\ word c) ->
  let '(a, b, c) := stored (dev s) (rule r) in
  wp (sdram_get_rule r : M _) s (fun o s' _ =>
    o = Val {| rule := rule r;
               sdram_start := u32 ((a .& 0xFFF) .<< 20); sdram_end := u32 (((a .>> 12) .& 0xFFF) .<< 20);
               valid := (c .>> 2) .& 0x1; security := c .& 0x3; portmask := (c .>> 3) .& 0x3FF;
               result := (c .>> 13) .& 0x1;
               lo_prot_id := b .& 0xFFF; hi_prot_id := (b .>> 12) .& 0xFFF |} /\
    stored (dev s') = stored (dev s)).
Proof.
  intros Hr Hw. destruct (stored (dev s) (rule r)) as [[a b] c] eqn:Es.
  destruct (Hw a b c eq_refl) as (Wa & Wb & Wc). unfold sdram_get_rule. do 2 wp_step. do 2 wp_step.
  rewrite (or_bit (rule r) 6) by lia. change (2 ^ 6) with 64.
  rewrite (u32_word (rule r)), (u32_word (rule r + 64)) by (unfold word; lia).
  set (d0 := dev s) in *. set (d1 := dev_write _ (rule r) d0).
  destruct (rule_select (rule r) d0 Hr) as [L1 S1]. fold d1 in L1, S1.
  set (d2 := dev_write _ (rule r + 64) d1). destruct (rule_load (rule r) d1 Hr) as [L2 S2]. fold d2 in L2, S2.
  assert (L : latched d2 = (a, b, c)) by (by rewrite L2, S1).
  assert (S : stored d2 = stored d0) by (by rewrite S2, S1). clearbody d2. clear L1 S1 L2 S2.
  assert (Hread : forall x d v, fst (dev_read x d) = v -> word v -> forall Q : outcome Z -> st D G -> trace -> Prop,
    (forall d', latched d' = latched d -> stored d' = stored d -> Q (Val v) (mk_st d' (glob s)) [Rd x v]) ->
    wp (readl x) (mk_st d (glob s)) Q).
  { intros x d v Ev Wv Q HQ. destruct (rule_read_frame x d) as [Lf Sf].
    destruct (dev_read x d) as [v' d'] eqn:E. cbn in Ev, Lf, Sf. subst v'.
    eapply wp_readl; [exact E|]. rewrite u32_word by done. by apply HQ. }
  wp_step. apply (Hread _ d2 a); [by rewrite (proj1 (rule_read d2)), L|done|]. intros d3 L3 S3. cbv beta iota.
  wp_step. apply (Hread _ d3 b); [by rewrite (proj1 (proj2 (rule_read d3))), L3, L|done|]. intros d4 L4 S4.
  cbv beta iota. wp_step. apply (Hread _ d4 c); [by rewrite (proj2 (proj2 (rule_read d4))), L4, L3, L|done|].
  intros d5 L5 S5. cbv beta iota. wp_step. split; [done|]. cbn [dev]. by rewrite S5, S4, S3.
Qed.

(** The fields of the id and data words. *)
Lemma rule_id_fields r : 0 <= lo_prot_id r < 2 ^ 12 -> 0 <= hi_prot_id r < 2 ^ 12 ->
  rule_id r .& 0xFFF = lo_prot_id r /\ (rule_id r .>> 12) .& 0xFFF = hi_prot_id r.
Proof.
  intros. unfold rule_id. rewrite lor_concat by lia. rewrite u32_word by (unfold word; lia).
  change 0xFFF with (Z.ones 12). rewrite !Z.land_ones, Z.shiftr_div_pow2 by lia. split; div_lia.
Qed.

Lemma rule_data_fields r : 0 <= security r < 4 -> 0 <= valid r < 2 -> 0 <= portmask r < 1024 ->
  0 <= result r < 2 ->
  rule_data r .& 0x3 = security r /\ (rule_data r .>> 2) .& 0x1 = valid r /\
  (rule_data r .>> 3) .& 0x3FF = portmask r /\ (rule_data r .>> 13) .& 0x1 = result r.
Proof.
  intros. unfold rule_data. rewrite (lor_concat 2), (lor_concat 3), (lor_concat 13) by lia. rewrite u32_word by (unfold word; lia).
  assert (E2 : forall x, x .& 0x3 = x mod 4) by (intros; by apply (Z.land_ones x 2)).
  assert (E1 : forall x, x .& 0x1 = x mod 2) by (intros; by apply (Z.land_ones x 1)).
  assert (E10 : forall x, x .& 0x3FF = x mod 1024) by (intros; by apply (Z.land_ones x 10)).
  rewrite E2, !E1, E10, !Z.shiftr_div_pow2 by lia. repeat split; div_lia.
Qed.

(** C35: Reading back a rule that was just written gives every field of it
    unchanged, with one exception: the end address comes back as the start of
    the last block of the range, one MiB below the end that was set. *)
Theorem set_get_rule r (s : st D G) :
  0 <= rule r < 32 ->
  sdram_start r mod 2 ^ 20 = 0 -> sdram_end r mod 2 ^ 20 = 0 ->
  0 <= sdram_start r < 2 ^ 32 -> 0 < sdram_end r <= 2 ^ 32 ->
  0 <= lo_prot_id r < 2 ^ 12 -> 0 <= hi_prot_id r < 2 ^ 12 ->
  0 <= security r < 4 -> 0 <= valid r < 2 -> 0 <= portmask r < 1024 -> 0 <= result r < 2 ->
  out ((sdram_set_rule r ;;; sdram_get_rule r) s) = Val
    {| rule := rule r; sdram_start := sdram_start r; sdram_end := sdram_end r - 2 ^ 20;
       valid := valid r; security := security r; portmask := portmask r; result := result r;
       lo_prot_id := lo_prot_id r; hi_prot_id := hi_prot_id r |}.
Proof.
  intros Hr Hs He Hs1 He1 Hlo Hhi Hsec Hv Hp Hres.
  enough (Hwp : wp (sdram_set_rule r ;;; sdram_get_rule r : M _) s (fun o _ _ => o = Val
    {| rule := rule r; sdram_start := sdram_start r; sdram_end := sdram_end r - 2 ^ 20;
       valid := valid r; security := security r; portmask := portmask r; result := result r;
       lo_prot_id := lo_prot_id r; hi_prot_id := hi_prot_id r |})) by exact Hwp.
  wp_step. eapply wp_mono; [by apply set_rule_spec|]. intros o s1 t1 (-> & _ & H1). cbv beta iota.
  assert (Es : stored (dev s1) (rule r) = words_of r) by (by rewrite H1, Z.eqb_refl).
  pose proof (get_rule_spec r s1 Hr) as Hg. rewrite Es in Hg. cbn [words_of] in Hg.
  eapply wp_mono; [apply Hg|].
  { intros a b c [= <- <- <-]. split; [apply word_rule_addr|]. unfold rule_id, rule_data. auto using word_u32. }
  intros o s2 t2 [-> _]. f_equal.
  destruct (rule_addr_fields r) as [-> ->], (rule_id_fields r Hlo Hhi) as [-> ->].
  destruct (rule_data_fields r Hsec Hv Hp Hres) as (-> & -> & -> & ->).
  change 0xFFF with (Z.ones 12). rewrite !Z.land_ones, !Z.shiftr_div_pow2, !Z.shiftl_mul_pow2 by lia.
  unfold u64. rewrite (Z.mod_small (sdram_end r - 1)) by lia. rewrite !u32_word by (unfold word; div_lia).
  f_equal; div_lia.
Qed.

End prot_proofs.

(** The dump of the twenty rules never selects a rule: whatever rule number
    the uninitialised structure holds is used for all twenty readings, so every
    bus write carries that number. *)
Theorem dump_selects_junk {D G : Type} `{Device D} (junk : sdram_prot_rule) (s : st D G) :
  let r := sdram_dump_protection_config junk s in
  out r = Val tt /\
  writes (tr r) = List.concat (repeat
    [(SOCFPGA_SDR_ADDRESS + SDR_CTRLGRP_PROTRULERDWR_ADDRESS, u32 (rule junk));
     (SOCFPGA_SDR_ADDRESS + SDR_CTRLGRP_PROTRULERDWR_ADDRESS, u32 (rule junk .| 64))] 20).
Proof.
  wp_enter. unfold sdram_dump_protection_config. wp_step.
  apply (wp_for (fun k _ t => writes t = List.concat (repeat
    [(SOCFPGA_SDR_ADDRESS + SDR_CTRLGRP_PROTRULERDWR_ADDRESS, u32 (rule junk));
     (SOCFPGA_SDR_ADDRESS + SDR_CTRLGRP_PROTRULERDWR_ADDRESS, u32 (rule junk .| 64))] (Z.to_nat k)))); [lia|done| |].
  - intros k s1 t1 Hk Ht. unfold sdram_get_rule. wp_run. rewrite writes_app, Ht.
    replace (Z.to_nat (k + 1)) with (Z.to_nat k + 1)%nat by lia. by rewrite repeat_app, concat_app.
  - intros s1 t1 Ht. wp_step. rewrite app_nil_r. done.
Qed.

(** ** Witnesses: a controller that kept garbage rules over a warm reset *)

Definition rule_sim0 : st rule_sim unit :=
  mk_st {| sim_latched := (1, 2, 3); sim_stored := fun n => (n * 7, n, 0x1fff); sim_default := 0x155 |} tt.

Lemma protection_admits_range_witness :
  let s' := fin (sdram_set_protection_config 0 0x40000000 rule_sim0) in
  admitted (stored (dev s')) (reg PROTPORTDEFAULT s') 7 false 100 0x3fffffff = true /\
  admitted (stored (dev s')) (reg PROTPORTDEFAULT s') 7 true 100 0x40000000 = false.
Proof.
  split.
  - exact (protection_admits_range 0 0x40000000 7 false 100 0x3fffffff rule_sim0 ltac:(reflexivity)
      ltac:(reflexivity) ltac:(lia) ltac:(lia) ltac:(lia) ltac:(lia) ltac:(lia)).
  - exact (protection_admits_range 0 0x40000000 7 true 100 0x40000000 rule_sim0 ltac:(reflexivity)
      ltac:(reflexivity) ltac:(lia) ltac:(lia) ltac:(lia) ltac:(lia) ltac:(lia)).
Defined.

Lemma set_protection_config_rules_witness :
  stored (dev (fin (sdram_set_protection_config 0 0x40000000 rule_sim0))) 0 = (0x3ff000, 0xfff000, 0x1fff).
Proof. exact (proj1 (proj2 (set_protection_config_rules 0 0x40000000 rule_sim0))). Defined.

Lemma set_get_rule_witness :
  exists r', out ((sdram_set_rule (accept_rule 0 0x40000000) ;;;
    sdram_get_rule (accept_rule 0 0x40000000)) rule_sim0) = Val r' /\ sdram_end r' = 0x3ff00000.
Proof.
  eexists. split.
  - apply (set_get_rule (accept_rule 0 0x40000000) rule_sim0); cbn; lia.
  - reflexivity.
Defined.
