(* ===== verification/SdramMmr.v ===== *)
(** The SDRAM controller (sdram.c): its registers from the board handoff, each
    written, read back and compared; the size that follows from them; the
    self-refresh check and the ECC interrupt. *)

From S2P Require Import Prelude BitOps Mmio Regs Globals FpgaStatus ResetManager RamSize SdramProt.

(** ** Fields of the handoff

    One call [sdram_write_register_field(reg_value, data, lsb, mask)]. *)
Record field := Fld { f_data : Z; f_lsb : Z; f_mask : Z }.

Definition sdram_write_register_field (masked_value data shift mask : Z) : Z :=
  let masked_value := masked_value .& .~ mask in
  masked_value .| (u32 (data .<< shift) .& mask).

Definition update_fields (fs : list field) (v : Z) : Z :=
  fold_left (fun v f => sdram_write_register_field v (f_data f) (f_lsb f) (f_mask f)) fs v.

(** The fields of each register, in the order of the source. *)
Definition ctrlcfg_fields (addrorder : Z) : list field :=
  [Fld CONFIG_HPS_SDR_CTRLCFG_CTRLCFG_MEMTYPE
     SDR_CTRLGRP_CTRLCFG_MEMTYPE_LSB
     SDR_CTRLGRP_CTRLCFG_MEMTYPE_MASK;
   Fld CONFIG_HPS_SDR_CTRLCFG_CTRLCFG_MEMBL
     SDR_CTRLGRP_CTRLCFG_MEMBL_LSB
     SDR_CTRLGRP_CTRLCFG_MEMBL_MASK;
   Fld addrorder
     SDR_CTRLGRP_CTRLCFG_ADDRORDER_LSB
     SDR_CTRLGRP_CTRLCFG_ADDRORDER_MASK;
   Fld CONFIG_HPS_SDR_CTRLCFG_CTRLCFG_ECCEN
     SDR_CTRLGRP_CTRLCFG_ECCEN_LSB
     SDR_CTRLGRP_CTRLCFG_ECCEN_MASK;
   Fld 0
     SDR_CTRLGRP_CTRLCFG_ECCCORREN_LSB
     SDR_CTRLGRP_CTRLCFG_ECCCORREN_MASK;
   Fld CONFIG_HPS_SDR_CTRLCFG_CTRLCFG_REORDEREN
     SDR_CTRLGRP_CTRLCFG_REORDEREN_LSB
     SDR_CTRLGRP_CTRLCFG_REORDEREN_MASK;
   Fld CONFIG_HPS_SDR_CTRLCFG_CTRLCFG_STARVELIMIT
     SDR_CTRLGRP_CTRLCFG_STARVELIMIT_LSB
     SDR_CTRLGRP_CTRLCFG_STARVELIMIT_MASK;
   Fld CONFIG_HPS_SDR_CTRLCFG_CTRLCFG_DQSTRKEN
     SDR_CTRLGRP_CTRLCFG_DQSTRKEN_LSB
     SDR_CTRLGRP_CTRLCFG_DQSTRKEN_MASK;
   Fld CONFIG_HPS_SDR_CTRLCFG_CTRLCFG_NODMPINS
     SDR_CTRLGRP_CTRLCFG_NODMPINS_LSB
     SDR_CTRLGRP_CTRLCFG_NODMPINS_MASK].

Definition dramtiming1_fields : list field :=
  [Fld CONFIG_HPS_SDR_CTRLCFG_DRAMTIMING1_TCWL
     SDR_CTRLGRP_DRAMTIMING1_TCWL_LSB
     SDR_CTRLGRP_DRAMTIMING1_TCWL_MASK;
   Fld CONFIG_HPS_SDR_CTRLCFG_DRAMTIMING1_AL
     SDR_CTRLGRP_DRAMTIMING1_TAL_LSB
     SDR_CTRLGRP_DRAMTIMING1_TAL_MASK;
   Fld CONFIG_HPS_SDR_CTRLCFG_DRAMTIMING1_TCL
     SDR_CTRLGRP_DRAMTIMING1_TCL_LSB
     SDR_CTRLGRP_DRAMTIMING1_TCL_MASK;
   Fld CONFIG_HPS_SDR_CTRLCFG_DRAMTIMING1_TRRD
     SDR_CTRLGRP_DRAMTIMING1_TRRD_LSB
     SDR_CTRLGRP_DRAMTIMING1_TRRD_MASK;
   Fld CONFIG_HPS_SDR_CTRLCFG_DRAMTIMING1_TFAW
     SDR_CTRLGRP_DRAMTIMING1_TFAW_LSB
     SDR_CTRLGRP_DRAMTIMING1_TFAW_MASK;
   Fld CONFIG_HPS_SDR_CTRLCFG_DRAMTIMING1_TRFC
     SDR_CTRLGRP_DRAMTIMING1_TRFC_LSB
     SDR_CTRLGRP_DRAMTIMING1_TRFC_MASK].

Definition dramtiming2_fields : list field :=
  [Fld CONFIG_HPS_SDR_CTRLCFG_DRAMTIMING2_IF_TREFI
     SDR_CTRLGRP_DRAMTIMING2_TREFI_LSB
     SDR_CTRLGRP_DRAMTIMING2_TREFI_MASK;
   Fld CONFIG_HPS_SDR_CTRLCFG_DRAMTIMING2_IF_TRCD
     SDR_CTRLGRP_DRAMTIMING2_TRCD_LSB
     SDR_CTRLGRP_DRAMTIMING2_TRCD_MASK;
   Fld CONFIG_HPS_SDR_CTRLCFG_DRAMTIMING2_IF_TRP
     SDR_CTRLGRP_DRAMTIMING2_TRP_LSB
     SDR_CTRLGRP_DRAMTIMING2_TRP_MASK;
   Fld CONFIG_HPS_SDR_CTRLCFG_DRAMTIMING2_IF_TWR
     SDR_CTRLGRP_DRAMTIMING2_TWR_LSB
     SDR_CTRLGRP_DRAMTIMING2_TWR_MASK;
   Fld CONFIG_HPS_SDR_CTRLCFG_DRAMTIMING2_IF_TWTR
     SDR_CTRLGRP_DRAMTIMING2_TWTR_LSB
     SDR_CTRLGRP_DRAMTIMING2_TWTR_MASK].

Definition dramtiming3_fields : list field :=
  [Fld CONFIG_HPS_SDR_CTRLCFG_DRAMTIMING3_TRTP
     SDR_CTRLGRP_DRAMTIMING3_TRTP_LSB
     SDR_CTRLGRP_DRAMTIMING3_TRTP_MASK;
   Fld CONFIG_HPS_SDR_CTRLCFG_DRAMTIMING3_TRAS
     SDR_CTRLGRP_DRAMTIMING3_TRAS_LSB
     SDR_CTRLGRP_DRAMTIMING3_TRAS_MASK;
   Fld CONFIG_HPS_SDR_CTRLCFG_DRAMTIMING3_TRC
     SDR_CTRLGRP_DRAMTIMING3_TRC_LSB
     SDR_CTRLGRP_DRAMTIMING3_TRC_MASK;
   Fld CONFIG_HPS_SDR_CTRLCFG_DRAMTIMING3_TMRD
     SDR_CTRLGRP_DRAMTIMING3_TMRD_LSB
     SDR_CTRLGRP_DRAMTIMING3_TMRD_MASK;
   Fld CONFIG_HPS_SDR_CTRLCFG_DRAMTIMING3_TCCD
     SDR_CTRLGRP_DRAMTIMING3_TCCD_LSB
     SDR_CTRLGRP_DRAMTIMING3_TCCD_MASK].

Definition dramtiming4_fields : list field :=
  [Fld CONFIG_HPS_SDR_CTRLCFG_DRAMTIMING4_SELFRFSHEXIT
     SDR_CTRLGRP_DRAMTIMING4_SELFRFSHEXIT_LSB
     SDR_CTRLGRP_DRAMTIMING4_SELFRFSHEXIT_MASK;
   Fld CONFIG_HPS_SDR_CTRLCFG_DRAMTIMING4_PWRDOWNEXIT
     SDR_CTRLGRP_DRAMTIMING4_PWRDOWNEXIT_LSB
     SDR_CTRLGRP_DRAMTIMING4_PWRDOWNEXIT_MASK].

Definition lowpwrtiming_fields : list field :=
  [Fld CONFIG_HPS_SDR_CTRLCFG_LOWPWRTIMING_AUTOPDCYCLES
     SDR_CTRLGRP_LOWPWRTIMING_AUTOPDCYCLES_LSB
     SDR_CTRLGRP_LOWPWRTIMING_AUTOPDCYCLES_MASK;
   Fld CONFIG_HPS_SDR_CTRLCFG_LOWPWRTIMING_CLKDISABLECYCLES
     SDR_CTRLGRP_LOWPWRTIMING_CLKDISABLECYCLES_LSB
     SDR_CTRLGRP_LOWPWRTIMING_CLKDISABLECYCLES_MASK].

Definition dramifwidth_fields : list field :=
  [Fld CONFIG_HPS_SDR_CTRLCFG_DRAMIFWIDTH_IFWIDTH
     SDR_CTRLGRP_DRAMIFWIDTH_IFWIDTH_LSB
     SDR_CTRLGRP_DRAMIFWIDTH_IFWIDTH_MASK].

Definition dramdevwidth_fields : list field :=
  [Fld CONFIG_HPS_SDR_CTRLCFG_DRAMDEVWIDTH_DEVWIDTH
     SDR_CTRLGRP_DRAMDEVWIDTH_DEVWIDTH_LSB
     SDR_CTRLGRP_DRAMDEVWIDTH_DEVWIDTH_MASK].

Definition lowpwreq_fields : list field :=
  [Fld CONFIG_HPS_SDR_CTRLCFG_LOWPWREQ_SELFRFSHMASK
     SDR_CTRLGRP_LOWPWREQ_SELFRFSHMASK_LSB
     SDR_CTRLGRP_LOWPWREQ_SELFRFSHMASK_MASK].

Definition dramintr_fields : list field :=
  [Fld CONFIG_HPS_SDR_CTRLCFG_DRAMINTR_INTREN
     SDR_CTRLGRP_DRAMINTR_INTREN_LSB
     SDR_CTRLGRP_DRAMINTR_INTREN_MASK].

Definition staticcfg_fields : list field :=
  [Fld CONFIG_HPS_SDR_CTRLCFG_STATICCFG_MEMBL
     SDR_CTRLGRP_STATICCFG_MEMBL_LSB
     SDR_CTRLGRP_STATICCFG_MEMBL_MASK;
   Fld 0
     SDR_CTRLGRP_STATICCFG_USEECCASDATA_LSB
     SDR_CTRLGRP_STATICCFG_USEECCASDATA_MASK].

Definition ctrlwidth_fields : list field :=
  [Fld CONFIG_HPS_SDR_CTRLCFG_CTRLWIDTH_CTRLWIDTH
     SDR_CTRLGRP_CTRLWIDTH_CTRLWIDTH_LSB
     SDR_CTRLGRP_CTRLWIDTH_CTRLWIDTH_MASK].

Definition portcfg_fields : list field :=
  [Fld CONFIG_HPS_SDR_CTRLCFG_PORTCFG_AUTOPCHEN
     SDR_CTRLGRP_PORTCFG_AUTOPCHEN_LSB
     SDR_CTRLGRP_PORTCFG_AUTOPCHEN_MASK].

Definition fifocfg_fields : list field :=
  [Fld CONFIG_HPS_SDR_CTRLCFG_FIFOCFG_SYNCMODE
     SDR_CTRLGRP_FIFOCFG_SYNCMODE_LSB
     SDR_CTRLGRP_FIFOCFG_SYNCMODE_MASK;
   Fld CONFIG_HPS_SDR_CTRLCFG_FIFOCFG_INCSYNC
     SDR_CTRLGRP_FIFOCFG_INCSYNC_LSB
     SDR_CTRLGRP_FIFOCFG_INCSYNC_MASK].

Definition mppriority_fields : list field :=
  [Fld CONFIG_HPS_SDR_CTRLCFG_MPPRIORITY_USERPRIORITY
     SDR_CTRLGRP_MPPRIORITY_USERPRIORITY_LSB
     SDR_CTRLGRP_MPPRIORITY_USERPRIORITY_MASK].

Definition mpweight_0_fields : list field :=
  [Fld CONFIG_HPS_SDR_CTRLCFG_MPWIEIGHT_0_STATICWEIGHT_31_0
     SDR_CTRLGRP_MPWEIGHT_MPWEIGHT_0_STATICWEIGHT_31_0_LSB
     SDR_CTRLGRP_MPWEIGHT_MPWEIGHT_0_STATICWEIGHT_31_0_MASK].

Definition mpweight_1_fields : list field :=
  [Fld CONFIG_HPS_SDR_CTRLCFG_MPWIEIGHT_1_STATICWEIGHT_49_32
     SDR_CTRLGRP_MPWEIGHT_MPWEIGHT_1_STATICWEIGHT_49_32_LSB
     SDR_CTRLGRP_MPWEIGHT_MPWEIGHT_1_STATICWEIGHT_49_32_MASK;
   Fld CONFIG_HPS_SDR_CTRLCFG_MPWIEIGHT_1_SUMOFWEIGHT_13_0
     SDR_CTRLGRP_MPWEIGHT_MPWEIGHT_1_SUMOFWEIGHTS_13_0_LSB
     SDR_CTRLGRP_MPWEIGHT_MPWEIGHT_1_SUMOFWEIGHTS_13_0_MASK].

Definition mpweight_2_fields : list field :=
  [Fld CONFIG_HPS_SDR_CTRLCFG_MPWIEIGHT_2_SUMOFWEIGHT_45_14
     SDR_CTRLGRP_MPWEIGHT_MPWEIGHT_2_SUMOFWEIGHTS_45_14_LSB
     SDR_CTRLGRP_MPWEIGHT_MPWEIGHT_2_SUMOFWEIGHTS_45_14_MASK].

Definition mpweight_3_fields : list field :=
  [Fld CONFIG_HPS_SDR_CTRLCFG_MPWIEIGHT_3_SUMOFWEIGHT_63_46
     SDR_CTRLGRP_MPWEIGHT_MPWEIGHT_3_SUMOFWEIGHTS_63_46_LSB
     SDR_CTRLGRP_MPWEIGHT_MPWEIGHT_3_SUMOFWEIGHTS_63_46_MASK].

Definition mppacing_0_fields : list field :=
  [Fld CONFIG_HPS_SDR_CTRLCFG_MPPACING_0_THRESHOLD1_31_0
     SDR_CTRLGRP_MPPACING_MPPACING_0_THRESHOLD1_31_0_LSB
     SDR_CTRLGRP_MPPACING_MPPACING_0_THRESHOLD1_31_0_MASK].

Definition mppacing_1_fields : list field :=
  [Fld CONFIG_HPS_SDR_CTRLCFG_MPPACING_1_THRESHOLD1_59_32
     SDR_CTRLGRP_MPPACING_MPPACING_1_THRESHOLD1_59_32_LSB
     SDR_CTRLGRP_MPPACING_MPPACING_1_THRESHOLD1_59_32_MASK;
   Fld CONFIG_HPS_SDR_CTRLCFG_MPPACING_1_THRESHOLD2_3_0
     SDR_CTRLGRP_MPPACING_MPPACING_1_THRESHOLD2_3_0_LSB
     SDR_CTRLGRP_MPPACING_MPPACING_1_THRESHOLD2_3_0_MASK].

Definition mppacing_2_fields : list field :=
  [Fld CONFIG_HPS_SDR_CTRLCFG_MPPACING_2_THRESHOLD2_35_4
     SDR_CTRLGRP_MPPACING_MPPACING_2_THRESHOLD2_35_4_LSB
     SDR_CTRLGRP_MPPACING_MPPACING_2_THRESHOLD2_35_4_MASK].

Definition mppacing_3_fields : list field :=
  [Fld CONFIG_HPS_SDR_CTRLCFG_MPPACING_3_THRESHOLD2_59_36
     SDR_CTRLGRP_MPPACING_MPPACING_3_THRESHOLD2_59_36_LSB
     SDR_CTRLGRP_MPPACING_MPPACING_3_THRESHOLD2_59_36_MASK].

Definition mpthresholdrst_0_fields : list field :=
  [Fld CONFIG_HPS_SDR_CTRLCFG_MPTHRESHOLDRST_0_THRESHOLDRSTCYCLES_31_0
     SDR_CTRLGRP_MPTHRESHOLDRST_MPTHRESHOLDRST_0_THRESHOLDRSTCYCLES_31_0_LSB
     SDR_CTRLGRP_MPTHRESHOLDRST_MPTHRESHOLDRST_0_THRESHOLDRSTCYCLES_31_0_MASK].

Definition mpthresholdrst_1_fields : list field :=
  [Fld CONFIG_HPS_SDR_CTRLCFG_MPTHRESHOLDRST_1_THRESHOLDRSTCYCLES_63_32
     SDR_CTRLGRP_MPTHRESHOLDRST_MPTHRESHOLDRST_1_THRESHOLDRSTCYCLES_63_32_LSB
     SDR_CTRLGRP_MPTHRESHOLDRST_MPTHRESHOLDRST_1_THRESHOLDRSTCYCLES_63_32_MASK].

Definition mpthresholdrst_2_fields : list field :=
  [Fld CONFIG_HPS_SDR_CTRLCFG_MPTHRESHOLDRST_2_THRESHOLDRSTCYCLES_79_64
     SDR_CTRLGRP_MPTHRESHOLDRST_MPTHRESHOLDRST_2_THRESHOLDRSTCYCLES_79_64_LSB
     SDR_CTRLGRP_MPTHRESHOLDRST_MPTHRESHOLDRST_2_THRESHOLDRSTCYCLES_79_64_MASK].

Definition cportwidth_fields : list field :=
  [Fld CONFIG_HPS_SDR_CTRLCFG_CPORTWIDTH_CPORTWIDTH
     SDR_CTRLGRP_CPORTWIDTH_CMDPORTWIDTH_LSB
     SDR_CTRLGRP_CPORTWIDTH_CMDPORTWIDTH_MASK].

Definition cportwmap_fields : list field :=
  [Fld CONFIG_HPS_SDR_CTRLCFG_CPORTWMAP_CPORTWMAP
     SDR_CTRLGRP_CPORTWMAP_CPORTWFIFOMAP_LSB
     SDR_CTRLGRP_CPORTWMAP_CPORTWFIFOMAP_MASK].

Definition cportrmap_fields : list field :=
  [Fld CONFIG_HPS_SDR_CTRLCFG_CPORTRMAP_CPORTRMAP
     SDR_CTRLGRP_CPORTRMAP_CPORTRFIFOMAP_LSB
     SDR_CTRLGRP_CPORTRMAP_CPORTRFIFOMAP_MASK].

Definition rfifocmap_fields : list field :=
  [Fld CONFIG_HPS_SDR_CTRLCFG_RFIFOCMAP_RFIFOCMAP
     SDR_CTRLGRP_RFIFOCMAP_RFIFOCPORTMAP_LSB
     SDR_CTRLGRP_RFIFOCMAP_RFIFOCPORTMAP_MASK].

Definition wfifocmap_fields : list field :=
  [Fld CONFIG_HPS_SDR_CTRLCFG_WFIFOCMAP_WFIFOCMAP
     SDR_CTRLGRP_WFIFOCMAP_WFIFOCPORTMAP_LSB
     SDR_CTRLGRP_WFIFOCMAP_WFIFOCPORTMAP_MASK].

Definition cportrdwr_fields : list field :=
  [Fld CONFIG_HPS_SDR_CTRLCFG_CPORTRDWR_CPORTRDWR
     SDR_CTRLGRP_CPORTRDWR_CPORTRDWR_LSB
     SDR_CTRLGRP_CPORTRDWR_CPORTRDWR_MASK].

Definition dramodt_fields : list field :=
  [Fld CONFIG_HPS_SDR_CTRLCFG_DRAMODT_READ
     SDR_CTRLGRP_DRAMODT_READ_LSB
     SDR_CTRLGRP_DRAMODT_READ_MASK;
   Fld CONFIG_HPS_SDR_CTRLCFG_DRAMODT_WRITE
     SDR_CTRLGRP_DRAMODT_WRITE_LSB
     SDR_CTRLGRP_DRAMODT_WRITE_MASK].

Definition extratime1_fields : list field :=
  [Fld CONFIG_HPS_SDR_CTRLCFG_EXTRATIME1_CFG_EXTRA_CTL_CLK_RD_TO_WR
     SDR_CTRLGRP_EXTRATIME1_RD_TO_WR_LSB
     SDR_CTRLGRP_EXTRATIME1_RD_TO_WR_MASK;
   Fld CONFIG_HPS_SDR_CTRLCFG_EXTRATIME1_CFG_EXTRA_CTL_CLK_RD_TO_WR_BC
     SDR_CTRLGRP_EXTRATIME1_RD_TO_WR_BC_LSB
     SDR_CTRLGRP_EXTRATIME1_RD_TO_WR_BC_MASK;
   Fld CONFIG_HPS_SDR_CTRLCFG_EXTRATIME1_CFG_EXTRA_CTL_CLK_RD_TO_WR_DIFF_CHIP
     SDR_CTRLGRP_EXTRATIME1_RD_TO_WR_DIFF_LSB
     SDR_CTRLGRP_EXTRATIME1_RD_TO_WR_DIFF_MASK].

Definition dramaddrw_fields (rows : Z) : list field :=
  [Fld CONFIG_HPS_SDR_CTRLCFG_DRAMADDRW_COLBITS
     SDR_CTRLGRP_DRAMADDRW_COLBITS_LSB
     SDR_CTRLGRP_DRAMADDRW_COLBITS_MASK;
   Fld rows
     SDR_CTRLGRP_DRAMADDRW_ROWBITS_LSB
     SDR_CTRLGRP_DRAMADDRW_ROWBITS_MASK;
   Fld CONFIG_HPS_SDR_CTRLCFG_DRAMADDRW_BANKBITS
     SDR_CTRLGRP_DRAMADDRW_BANKBITS_LSB
     SDR_CTRLGRP_DRAMADDRW_BANKBITS_MASK;
   Fld (CONFIG_HPS_SDR_CTRLCFG_DRAMADDRW_CSBITS - 1)
     SDR_CTRLGRP_DRAMADDRW_CSBITS_LSB
     SDR_CTRLGRP_DRAMADDRW_CSBITS_MASK].

Section sdram.
Context {D : Type} `{Device D}.
Abbreviation M := (M D gdata).
Abbreviation SDR := SOCFPGA_SDR_ADDRESS.

Definition sdram_write_verify (register_offset reg_value : Z) : M Z :=
  writel reg_value (SDR + register_offset) ;;;
  let* reg_value1 := readl (SDR + register_offset) in
  if negb (reg_value1 =? u32 reg_value) then ret 1 else ret 0.

(** A register configured with read-back, and one without. *)
Definition mmr_block (register_offset : Z) (fs : list field) : M Z :=
  let* reg_value := readl (SDR + register_offset) in
  sdram_write_verify register_offset (update_fields fs reg_value).

Definition mmr_block_noverify (register_offset : Z) (fs : list field) : M Z :=
  let* reg_value := readl (SDR + register_offset) in
  writel (update_fields fs reg_value) (SDR + register_offset) ;;;
  let* _ := readl (SDR + register_offset) in
  ret 0.

(** The address order errata: the order follows from the chip selects. *)
Definition addrorder_of (csbits : Z) : M Z :=
  if csbits =? 1 then
    when (negb (CONFIG_HPS_SDR_CTRLCFG_CTRLCFG_ADDRORDER =? 0))
      (msg "INFO: Changing address order to 0 (chip, row, bank, column)") ;;;
    ret 0
  else if csbits =? 2 then
    when (negb (CONFIG_HPS_SDR_CTRLCFG_CTRLCFG_ADDRORDER =? 2))
      (msg "INFO: Changing address order to 2 (row, chip, bank, column)") ;;;
    ret 2
  else ret CONFIG_HPS_SDR_CTRLCFG_CTRLCFG_ADDRORDER.

Definition mmr_ctrlcfg : M Z :=
  let* reg_value := readl (SDR + SDR_CTRLGRP_CTRLCFG_ADDRESS) in
  let* addrorder := addrorder_of CONFIG_HPS_SDR_CTRLCFG_DRAMADDRW_CSBITS in
  sdram_write_verify SDR_CTRLGRP_CTRLCFG_ADDRESS (update_fields (ctrlcfg_fields addrorder) reg_value).

(** [lldiv] as the code uses it; a zero divisor is undefined. *)
Definition lldiv_m (n d : Z) : M Z :=
  match lldiv n d with
  | Some q => ret q
  | None => undef
  end.

Definition compute_errata_rows (memsize cs width rows banks cols : Z) : M Z :=
  let* newrows := lldiv_m memsize (u32 (cs * (width / 8))) in
  let* newrows := lldiv_m newrows (u32 ((1 .<< banks) * (1 .<< cols))) in
  let bits := generic_hweight32 (u32 newrows) in
  if negb (bits =? 1) then msg "SDRAM workaround failed, bits set" ;;; ret rows else
  if newrows >? 0xFFFFFFFF then msg "SDRAM workaround rangecheck failed" ;;; ret rows else
  let inewrowslog2 := __ilog2 (u32 newrows) in
  if inewrowslog2 =? -1 then msg "SDRAM workaround failed, newrows" ;;; ret rows else
  ret inewrowslog2.

Definition mmr_dramaddrw : M Z :=
  let cs := CONFIG_HPS_SDR_CTRLCFG_DRAMADDRW_CSBITS in
  let width := 8 in
  let rows := CONFIG_HPS_SDR_CTRLCFG_DRAMADDRW_ROWBITS in
  let banks := CONFIG_HPS_SDR_CTRLCFG_DRAMADDRW_BANKBITS in
  let cols := CONFIG_HPS_SDR_CTRLCFG_DRAMADDRW_COLBITS in
  let* reg_value := readl (SDR + SDR_CTRLGRP_DRAMADDRW_ADDRESS) in
  let* rows := compute_errata_rows MEMSIZE_4G cs width rows banks cols in
  sdram_write_verify SDR_CTRLGRP_DRAMADDRW_ADDRESS (update_fields (dramaddrw_fields rows) reg_value).

Definition mmr_phyctrl_0 : M Z :=
  sdram_write_verify SDR_CTRLGRP_PHYCTRL_PHYCTRL_0_ADDRESS CONFIG_HPS_SDR_CTRLCFG_PHYCTRL_PHYCTRL_0.

Definition mmr_fpgaportrst : M Z :=
  let reg_value := CONFIG_HPS_SDR_CTRLCFG_FPGAPORTRST in
  writel reg_value ISWGRP_HANDOFF_FPGA2SDR ;;;
  let* ready := is_fpgamgr_fpga_ready in
  if truthy ready then sdram_write_verify SDR_CTRLGRP_FPGAPORTRST_ADDRESS reg_value else ret 0.

(** COMPARE_FAIL_ACTION: the first register that does not verify ends the
    function with 1. *)
Fixpoint stages (ms : list (M Z)) (k : M Z) : M Z :=
  match ms with
  | [] => k
  | m :: ms => let* r := m in if r =? 1 then ret 1 else stages ms k
  end.

Definition mmr_stages : list (M Z) := [
  mmr_ctrlcfg;
  mmr_block SDR_CTRLGRP_DRAMTIMING1_ADDRESS dramtiming1_fields;
  mmr_block SDR_CTRLGRP_DRAMTIMING2_ADDRESS dramtiming2_fields;
  mmr_block SDR_CTRLGRP_DRAMTIMING3_ADDRESS dramtiming3_fields;
  mmr_block SDR_CTRLGRP_DRAMTIMING4_ADDRESS dramtiming4_fields;
  mmr_block SDR_CTRLGRP_LOWPWRTIMING_ADDRESS lowpwrtiming_fields;
  mmr_dramaddrw;
  mmr_block SDR_CTRLGRP_DRAMIFWIDTH_ADDRESS dramifwidth_fields;
  mmr_block SDR_CTRLGRP_DRAMDEVWIDTH_ADDRESS dramdevwidth_fields;
  mmr_block SDR_CTRLGRP_LOWPWREQ_ADDRESS lowpwreq_fields;
  mmr_block SDR_CTRLGRP_DRAMINTR_ADDRESS dramintr_fields;
  mmr_block SDR_CTRLGRP_STATICCFG_ADDRESS staticcfg_fields;
  mmr_block SDR_CTRLGRP_CTRLWIDTH_ADDRESS ctrlwidth_fields;
  mmr_block SDR_CTRLGRP_PORTCFG_ADDRESS portcfg_fields;
  mmr_block SDR_CTRLGRP_FIFOCFG_ADDRESS fifocfg_fields;
  mmr_block SDR_CTRLGRP_MPPRIORITY_ADDRESS mppriority_fields;
  mmr_block SDR_CTRLGRP_MPWEIGHT_MPWEIGHT_0_ADDRESS mpweight_0_fields;
  mmr_block SDR_CTRLGRP_MPWEIGHT_MPWEIGHT_1_ADDRESS mpweight_1_fields;
  mmr_block SDR_CTRLGRP_MPWEIGHT_MPWEIGHT_2_ADDRESS mpweight_2_fields;
  mmr_block SDR_CTRLGRP_MPWEIGHT_MPWEIGHT_3_ADDRESS mpweight_3_fields;
  mmr_block SDR_CTRLGRP_MPPACING_MPPACING_0_ADDRESS mppacing_0_fields;
  mmr_block SDR_CTRLGRP_MPPACING_MPPACING_1_ADDRESS mppacing_1_fields;
  mmr_block SDR_CTRLGRP_MPPACING_MPPACING_2_ADDRESS mppacing_2_fields;
  mmr_block SDR_CTRLGRP_MPPACING_MPPACING_3_ADDRESS mppacing_3_fields;
  mmr_block SDR_CTRLGRP_MPTHRESHOLDRST_MPTHRESHOLDRST_0_ADDRESS mpthresholdrst_0_fields;
  mmr_block SDR_CTRLGRP_MPTHRESHOLDRST_MPTHRESHOLDRST_1_ADDRESS mpthresholdrst_1_fields;
  mmr_block SDR_CTRLGRP_MPTHRESHOLDRST_MPTHRESHOLDRST_2_ADDRESS mpthresholdrst_2_fields;
  mmr_phyctrl_0;
  mmr_block_noverify SDR_CTRLGRP_CPORTWIDTH_ADDRESS cportwidth_fields;
  mmr_block_noverify SDR_CTRLGRP_CPORTWMAP_ADDRESS cportwmap_fields;
  mmr_block_noverify SDR_CTRLGRP_CPORTRMAP_ADDRESS cportrmap_fields;
  mmr_block_noverify SDR_CTRLGRP_RFIFOCMAP_ADDRESS rfifocmap_fields;
  mmr_block_noverify SDR_CTRLGRP_WFIFOCMAP_ADDRESS wfifocmap_fields;
  mmr_block_noverify SDR_CTRLGRP_CPORTRDWR_ADDRESS cportrdwr_fields;
  mmr_block SDR_CTRLGRP_DRAMODT_ADDRESS dramodt_fields;
  mmr_block SDR_CTRLGRP_EXTRATIME1_ADDRESS extratime1_fields;
  mmr_fpgaportrst].

Definition sdram_calculate_size : M Z :=
  let* temp := readl (SDR + SDR_CTRLGRP_DRAMADDRW_ADDRESS) in
  let col := (temp .& SDR_CTRLGRP_DRAMADDRW_COLBITS_MASK) .>> SDR_CTRLGRP_DRAMADDRW_COLBITS_LSB in
  let* row := readl ISWGRP_HANDOFF_ROWBITS in
  let row := if row =? 0 then CONFIG_HPS_SDR_CTRLCFG_DRAMADDRW_ROWBITS else row in
  let row := if row >? 31 then CONFIG_HPS_SDR_CTRLCFG_DRAMADDRW_ROWBITS else row in
  let bank := (temp .& SDR_CTRLGRP_DRAMADDRW_BANKBITS_MASK) .>> SDR_CTRLGRP_DRAMADDRW_BANKBITS_LSB in
  let cs := CONFIG_HPS_SDR_CTRLCFG_DRAMADDRW_CSBITS in
  let* width := readl (SDR + SDR_CTRLGRP_DRAMIFWIDTH_ADDRESS) in
  let width := if width =? SDRAM_WIDTH_32BIT_WITH_ECC then 32 else width in
  let width := if width =? SDRAM_WIDTH_16BIT_WITH_ECC then 16 else width in
  (* a shift by 32 or more is undefined *)
  if row + bank + col >? 31 then undef else
  let temp := u32 (1 .<< (row + bank + col)) in
  let temp := u32 (u32 (temp * cs) * (width / 8)) in
  ret temp.

Definition dram_init : M Z :=
  let* sdram_size := sdram_calculate_size in
  let* size := get_ram_size 0 sdram_size in
  modify (set_ram_size size) ;;;
  ret 0.

(** The configuration is applied and the memory opened only after all the
    registers verified. *)
Definition mmr_apply (sdr_phy_reg : Z) (junk : sdram_prot_rule) : M Z :=
  when (negb (sdr_phy_reg =? 0xffffffff))
    (writel sdr_phy_reg (SDR + SDR_CTRLGRP_PHYCTRL_PHYCTRL_0_ADDRESS)) ;;;
  let* reg_value := readl (SDR + SDR_CTRLGRP_STATICCFG_ADDRESS) in
  let reg_value := sdram_write_register_field reg_value 1
    SDR_CTRLGRP_STATICCFG_APPLYCFG_LSB SDR_CTRLGRP_STATICCFG_APPLYCFG_MASK in
  writel reg_value (SDR + SDR_CTRLGRP_STATICCFG_ADDRESS) ;;;
  let* _ := readl (SDR + SDR_CTRLGRP_STATICCFG_ADDRESS) in
  let* size := sdram_calculate_size in
  sdram_set_protection_config 0 size ;;;
  sdram_dump_protection_config junk ;;;
  ret 0.

Definition sdram_mmr_init_full (sdr_phy_reg : Z) (junk : sdram_prot_rule) : M Z :=
  writel CONFIG_HPS_SDR_CTRLCFG_DRAMADDRW_ROWBITS ISWGRP_HANDOFF_ROWBITS ;;;
  stages mmr_stages (mmr_apply sdr_phy_reg junk).

(** *** Self refresh *)

(** [reg_value = readl(lowpwreq); field update; write and verify]. *)
Definition lowpwreq_set (data lsb mask : Z) : M Z :=
  mmr_block SDR_CTRLGRP_LOWPWREQ_ADDRESS [Fld data lsb mask].

Definition selfrfshack : M bool :=
  let* v := readl (SDR + SDR_CTRLGRP_LOWPWRACK_ADDRESS) in
  ret (truthy (v .& SDR_CTRLGRP_LOWPWRACK_SELFRFSHACK_MASK)).

(** [for (counter = 0; counter < MAX_POLLS; counter++) if (...) break;] *)
Definition poll_selfrfshack (want : bool) : M (option unit) :=
  for_upto MAX_POLLS (fun _ =>
    let* ack := selfrfshack in
    ret (if Bool.eqb ack want then Some tt else None)).

Definition sdram_check_self_refresh_seq : M Z :=
  let* r := lowpwreq_set SDR_CTRLGRP_LOWPWREQ_SELFRFSHMASK_BOTH_CHIPS
              SDR_CTRLGRP_LOWPWREQ_SELFRFSHMASK_LSB SDR_CTRLGRP_LOWPWREQ_SELFRFSHMASK_MASK in
  if r =? 1 then ret 1 else
  let* r := lowpwreq_set SDR_CTRLGRP_LOWPWREQ_SELFRSHREQ_ENABLED
              SDR_CTRLGRP_LOWPWREQ_SELFRSHREQ_LSB SDR_CTRLGRP_LOWPWREQ_SELFRSHREQ_MASK in
  if r =? 1 then ret 1 else
  let* _ := poll_selfrfshack true in
  let* ack := selfrfshack in
  if negb ack then
    let* r := lowpwreq_set SDR_CTRLGRP_LOWPWREQ_SELFRSHREQ_DISABLED
                SDR_CTRLGRP_LOWPWREQ_SELFRSHREQ_LSB SDR_CTRLGRP_LOWPWREQ_SELFRSHREQ_MASK in
    if r =? 1 then ret 1 else
    ret 1
  else
  let* r := lowpwreq_set SDR_CTRLGRP_LOWPWREQ_SELFRSHREQ_DISABLED
              SDR_CTRLGRP_LOWPWREQ_SELFRSHREQ_LSB SDR_CTRLGRP_LOWPWREQ_SELFRSHREQ_MASK in
  if r =? 1 then ret 1 else
  let* _ := poll_selfrfshack false in
  let* ack := selfrfshack in
  if ack then ret 1 else ret 0.

(** *** Interrupt *)

Definition sdram_enable_interrupt (enable : Z) : M unit :=
  setbits_le32 (SDR + SDR_CTRLGRP_DRAMINTR_ADDRESS) SDR_CTRLGRP_DRAMINTR_INTRCLR_MASK ;;;
  if truthy enable
  then setbits_le32 (SDR + SDR_CTRLGRP_DRAMINTR_ADDRESS) SDR_CTRLGRP_DRAMINTR_INTREN_MASK
  else clrbits_le32 (SDR + SDR_CTRLGRP_DRAMINTR_ADDRESS) SDR_CTRLGRP_DRAMINTR_INTREN_MASK.

Definition irq_handler_ecc_sdram (arg : Z) : M unit :=
  let* reg_value := readl (SDR + SDR_CTRLGRP_DRAMSTS_ADDRESS) in
  (if truthy (reg_value .& SDR_CTRLGRP_DRAMSTS_SBEERR_MASK) then
     let* _ := readl (SDR + SDR_CTRLGRP_ERRADDR_ADDRESS) in
     msg "Info: SDRAM ECC SBE" ;;;
     let* n := readl (SDR + SDR_CTRLGRP_SBECOUNT_ADDRESS) in
     modify (fun g => set_irq_cnt (u32 (irq_cnt_ecc_sdram g + n)) (irq_cnt_ecc_ocram_corrected g)
                        (irq_cnt_ecc_ocram_uncorrected g) g)
   else ret tt) ;;;
  (if truthy (reg_value .& SDR_CTRLGRP_DRAMSTS_DBEERR_MASK) then
     msg "Error: SDRAM ECC DBE occurred" ;;;
     msg "sbecount" ;;;
     let* _ := readl (SDR + SDR_CTRLGRP_ERRADDR_ADDRESS) in
     msg "erraddr" ;;;
     let* _ := readl (SDR + SDR_CTRLGRP_DROPCOUNT_ADDRESS) in
     msg "dropcount" ;;;
     let* _ := readl (SDR + SDR_CTRLGRP_DROPADDR_ADDRESS) in
     msg "dropaddr"
   else ret tt) ;;;
  setbits_le32 (SDR + SDR_CTRLGRP_DRAMINTR_ADDRESS) SDR_CTRLGRP_DRAMINTR_INTRCLR_MASK ;;;
  if truthy (reg_value .& SDR_CTRLGRP_DRAMSTS_DBEERR_MASK) then
    sdram_enable_interrupt 0 ;;;
    hang
  else ret tt.

End sdram.

(** ** Fields *)

Definition fields_ok (fs : list field) : bool :=
  (fix go fs := match fs with
                | [] => true
                | f :: fs => (0 <=? f_mask f) && (f_mask f <? 2 ^ 32) &&
                             forallb (fun g => f_mask f .& f_mask g =? 0) fs && go fs
                end) fs.

(** [v] holds the handoff value in every field. *)
Definition has_fields (fs : list field) (v : Z) : Prop :=
  Forall (fun f => v .& f_mask f = u32 (f_data f .<< f_lsb f) .& f_mask f) fs.

Lemma write_field_read v d l m : sdram_write_register_field v d l m .& m = u32 (d .<< l) .& m.
Proof. unfold sdram_write_register_field. bitwise. Qed.

Lemma write_field_frame v d l m n : n .& m = 0 -> sdram_write_register_field v d l m .& n = v .& n.
Proof.
  intros Hn. unfold sdram_write_register_field. apply Z.bits_inj'. intros i Hi.
  assert (E : Z.testbit (n .& m) i = false) by (rewrite Hn; apply Z.bits_0).
  rewrite !Z.land_spec, Z.lor_spec, !Z.land_spec, Z.lnot_spec in * by done.
  destruct (Z.testbit m i), (Z.testbit n i), (Z.testbit v i); rewrite ?andb_false_r, ?andb_true_r in *; done.
Qed.

Lemma update_fields_frame fs v n :
  forallb (fun g => n .& f_mask g =? 0) fs = true -> update_fields fs v .& n = v .& n.
Proof.
  revert v. induction fs as [|f fs IH]; intros v; cbn [forallb update_fields fold_left]; [done|].
  rewrite andb_true_iff, Z.eqb_eq. intros [Hn Hfs]. unfold update_fields in IH.
  rewrite IH by done. by apply write_field_frame.
Qed.

Lemma update_fields_has fs v : fields_ok fs = true -> has_fields fs (update_fields fs v).
Proof.
  revert v. induction fs as [|f fs IH]; intros v; [constructor|]. cbn [fields_ok].
  rewrite !andb_true_iff. intros [[_ Hf] Hfs]. constructor; [|by apply IH].
  cbn [update_fields fold_left]. rewrite (update_fields_frame fs _ (f_mask f)) by done. apply write_field_read.
Qed.

Lemma has_fields_u32 fs v : fields_ok fs = true -> has_fields fs v -> has_fields fs (u32 v).
Proof.
  intros Hok Hv. induction Hv as [|f fs Hf Hv IH]; [constructor|]. cbn [fields_ok] in Hok.
  rewrite !andb_true_iff in Hok. destruct Hok as [[[H0 H1] _] Hfs]. constructor; [|by apply IH].
  rewrite <- Hf. unfold u32. rewrite <- Z.land_ones by lia. rewrite <- Z.land_assoc. f_equal.
  rewrite Z.land_comm, Z.land_ones by lia. apply Z.mod_small. lia.
Qed.

(** ** Power of two errata *)

Lemma popcount_S n w : popcount (S n) w = popcount n w + b2z (Z.testbit w (Z.of_nat n)).
Proof.
  unfold popcount. rewrite seq_S, map_app, foldr_app. cbn [map foldr Nat.add].
  generalize (map (fun i => b2z (Z.testbit w (Z.of_nat i))) (seq 0 n)). intros l.
  induction l as [|x l IH]; cbn [foldr]; lia.
Qed.

Lemma popcount_mod n w : popcount n (w mod 2 ^ Z.of_nat n) = popcount n w.
Proof.
  unfold popcount. f_equal. apply map_ext_in. intros i Hi. apply in_seq in Hi.
  by rewrite Z.mod_pow2_bits_low by lia.
Qed.

Lemma popcount_nonneg n w : 0 <= popcount n w.
Proof. induction n as [|n IH]; [done|]. rewrite popcount_S. destruct (Z.testbit w _); cbn; lia. Qed.

Lemma popcount_zero n w : 0 <= w < 2 ^ Z.of_nat n -> popcount n w = 0 -> w = 0.
Proof.
  revert w. induction n as [|n IH]; intros w Hw H0; [cbn in Hw; lia|].
  rewrite popcount_S in H0. pose proof (popcount_nonneg n w). destruct (Z.testbit w (Z.of_nat n)) eqn:E; cbn in H0; [lia|].
  apply IH; [|lia]. split; [lia|]. destruct (Z.lt_ge_cases w (2 ^ Z.of_nat n)) as [|Hge]; [done|].
  rewrite Nat2Z.inj_succ, Z.pow_succ_r in Hw by lia.
  rewrite Z.testbit_eqb in E by lia. apply Z.eqb_neq in E. replace (w / 2 ^ Z.of_nat n) with 1 in E; [done|].
  apply (Z.div_unique w _ 1 (w - 2 ^ Z.of_nat n)); lia.
Qed.

(** One set bit: a power of two. *)
Lemma popcount_one n w : 0 <= w < 2 ^ Z.of_nat n -> popcount n w = 1 ->
  exists k, 0 <= k < Z.of_nat n /\ w = 2 ^ k.
Proof.
  revert w. induction n as [|n IH]; intros w Hw H1; [cbn in Hw; assert (w = 0) as -> by lia; done|].
  rewrite popcount_S in H1. rewrite Nat2Z.inj_succ, Z.pow_succ_r in Hw by lia.
  assert (Hp : 0 < 2 ^ Z.of_nat n) by (apply Z.pow_pos_nonneg; lia).
  destruct (Z.testbit w (Z.of_nat n)) eqn:E; cbn in H1.
  - assert (Hm : w mod 2 ^ Z.of_nat n = 0).
    { apply (popcount_zero n); [by apply Z.mod_pos_bound|]. rewrite popcount_mod. lia. }
    exists (Z.of_nat n). split; [lia|]. rewrite Z.testbit_eqb in E by lia. apply Z.eqb_eq in E.
    pose proof (Z.div_mod w (2 ^ Z.of_nat n)).
    assert (0 <= w / 2 ^ Z.of_nat n < 2); [|assert (w / 2 ^ Z.of_nat n = 1) by div_lia; nia].
    split; [apply Z.div_pos; lia|]. apply Z.div_lt_upper_bound; lia.
  - destruct (IH w) as (k & Hk & ->); [|lia|exists k; split; [lia|done]].
    split; [lia|]. destruct (Z.lt_ge_cases w (2 ^ Z.of_nat n)) as [|Hge]; [done|].
    rewrite Z.testbit_eqb in E by lia. apply Z.eqb_neq in E. replace (w / 2 ^ Z.of_nat n) with 1 in E; [done|].
    apply (Z.div_unique w _ 1 (w - 2 ^ Z.of_nat n)); lia.
Qed.

Lemma popcount_pow2 n k : 0 <= k < Z.of_nat n -> popcount n (2 ^ k) = 1.
Proof.
  induction n as [|n IH]; intros Hk; [lia|]. rewrite popcount_S.
  destruct (Z.eq_dec k (Z.of_nat n)) as [->|Hne].
  - rewrite Z.pow2_bits_true by lia. rewrite <- popcount_mod, Z.mod_same by (pose proof (Z.pow_pos_nonneg 2 (Z.of_nat n)); lia).
    assert (E : popcount n 0 = 0); [|by rewrite E].
    clear. induction n as [|n IH]; [done|]. rewrite popcount_S, IH, Z.bits_0. done.
  - rewrite IH by lia. rewrite Z.pow2_bits_false by lia. done.
Qed.

Section sdram_proofs.
Context {D : Type} `{Device D}.
Abbreviation M := (M D gdata).
Abbreviation SDR := SOCFPGA_SDR_ADDRESS.

Lemma lldiv_m_spec n d (s : st D gdata) : 0 <= n < 2 ^ 64 -> 0 < d < 2 ^ 32 ->
  lldiv_m n d s = ret (n / d) s.
Proof.
  intros Hn Hd. unfold lldiv_m, lldiv, do_div. rewrite Z.shiftr_div_pow2 by lia.
  destruct (Z.eqb_spec (n / 2 ^ 32) 0) as [E|E].
  - rewrite (proj2 (Z.eqb_neq d 0)) by lia. rewrite u32_word; [done|]. unfold word. div_lia.
  - by rewrite div64_32_spec.
Qed.

(** The errata workaround returns the number of row bits that makes the
    memory [memsize] when that number of rows is a power of two below 2^32, and
    the configured number of row bits in every other case; it always returns
    and makes no bus access. *)
Theorem compute_errata_rows_spec memsize cs width rows banks cols (s : st D gdata) :
  0 <= memsize < 2 ^ 64 -> 0 < cs * (width / 8) < 2 ^ 32 -> 0 <= banks -> 0 <= cols -> banks + cols < 32 ->
  let q := memsize / (cs * (width / 8)) / 2 ^ (banks + cols) in
  let r := compute_errata_rows memsize cs width rows banks cols s in
  fin r = s /\ (forall a v, ~ In (Rd a v) (tr r) /\ ~ In (Wr a v) (tr r)) /\
  ((exists k, 0 <= k < 32 /\ q = 2 ^ k /\ out r = Val k) \/
   ((forall k, 0 <= k < 32 -> q <> 2 ^ k) /\ out r = Val rows)).
Proof.
  intros Hm Hc Hb Hcol Hbc q r.
  assert (Hq1 : 0 <= memsize / (cs * (width / 8)) < 2 ^ 64).
  { split; [apply Z.div_pos; lia|]. apply Z.div_lt_upper_bound; nia. }
  assert (Hp : 0 < 2 ^ (banks + cols) < 2 ^ 32).
  { split; [apply Z.pow_pos_nonneg; lia|apply Z.pow_lt_mono_r; lia]. }
  assert (Hq : 0 <= q < 2 ^ 64).
  { unfold q. split; [apply Z.div_pos; lia|]. apply Z.div_lt_upper_bound; nia. }
  assert (E : r = (let bits := generic_hweight32 (u32 q) in
    if negb (bits =? 1) then msg "SDRAM workaround failed, bits set" ;;; ret rows else
    if q >? 0xFFFFFFFF then msg "SDRAM workaround rangecheck failed" ;;; ret rows else
    let inewrowslog2 := __ilog2 (u32 q) in
    if inewrowslog2 =? -1 then msg "SDRAM workaround failed, newrows" ;;; ret rows else
    ret inewrowslog2) s).
  { unfold r, compute_errata_rows. rewrite (u32_word (cs * (width / 8))) by (unfold word; lia).
    rewrite (bind_returns _ _ _ _ (lldiv_m_spec _ _ s Hm Hc)).
    replace (u32 ((1 .<< banks) * (1 .<< cols))) with (2 ^ (banks + cols)).
    2:{ rewrite !Z.shiftl_mul_pow2, !Z.mul_1_l, <- Z.pow_add_r by lia. symmetry. apply u32_word. unfold word. lia. }
    by rewrite (bind_returns _ _ _ _ (lldiv_m_spec _ _ s Hq1 Hp)). }
  assert (Hw : 0 <= u32 q < 2 ^ 32) by apply word_u32.
  rewrite E. cbv zeta. rewrite generic_hweight32_spec by done.
  destruct (Z.eqb_spec (popcount 32 (u32 q)) 1) as [E1|E1]; cbn [negb].
  2:{ split; [done|]. split; [intros; split; cbn; intuition discriminate|]. right. split; [|done]. intros k Hk Eq.
      apply E1. rewrite Eq, u32_word; [by apply popcount_pow2|]. unfold word. split; [apply Z.pow_nonneg; lia|].
      apply Z.pow_lt_mono_r; lia. }
  destruct (popcount_one 32 (u32 q) Hw E1) as (k & Hk & Ek). rewrite Z.gtb_ltb.
  destruct (Z.ltb_spec 0xFFFFFFFF q) as [Hgt|Hle].
  { split; [done|]. split; [intros; split; cbn; intuition discriminate|]. right. split; [|done]. intros j Hj Eq.
    assert (2 ^ j < 2 ^ 32) by (apply Z.pow_lt_mono_r; lia). lia. }
  rewrite u32_word in Ek by (unfold word; lia). rewrite (u32_word q) by (unfold word; lia).
  assert (Hkp : 0 < 2 ^ k) by (apply Z.pow_pos_nonneg; lia).
  unfold __ilog2. rewrite generic_fls_spec by lia. rewrite Ek, Z.log2_pow2 by lia.
  replace (k + 1 - 1) with k by lia. rewrite (proj2 (Z.eqb_neq k (-1))) by lia.
  split; [done|]. split; [intros; split; cbn; tauto|]. left. exists k. split; [lia|]. by split.
Qed.

(** On this board: 19 row bits. *)
Lemma board_errata_rows (s : st D gdata) :
  compute_errata_rows MEMSIZE_4G CONFIG_HPS_SDR_CTRLCFG_DRAMADDRW_CSBITS 8
    CONFIG_HPS_SDR_CTRLCFG_DRAMADDRW_ROWBITS CONFIG_HPS_SDR_CTRLCFG_DRAMADDRW_BANKBITS
    CONFIG_HPS_SDR_CTRLCFG_DRAMADDRW_COLBITS s = ret 19 s.
Proof. reflexivity. Qed.

(** *** Verified registers *)

(** The register is written with its fields and read back with them. *)
Definition verify_steps (x : Z * list field) : list (event -> Prop) :=
  [fun e => exists v, e = Wr (SDR + fst x) v /\ has_fields (snd x) v;
   fun e => exists v, e = Rd (SDR + fst x) v /\ has_fields (snd x) v].

(** The trace ends with a write that did not read back. *)
Definition mismatch (t : trace) : Prop :=
  exists t' a v v', t = t' ++ [Wr a v; Rd a v'] /\ v <> v'.

(** Nothing is written to the protection registers. *)
Definition unopened (e : event) : Prop :=
  match e with
  | Wr a _ => a <> SDR + SDR_CTRLGRP_PROTPORTDEFAULT_ADDRESS /\
              a <> SDR + SDR_CTRLGRP_PROTRULERDWR_ADDRESS
  | _ => True
  end.

Definition stage_spec (ps : list (event -> Prop)) (m : M Z) : Prop :=
  forall s, wp m s (fun o _ t => Forall unopened t /\
    ((o = Val 0 /\ seen ps t) \/ (o = Val 1 /\ mismatch t))).

Definition plain_offset (off : Z) : bool :=
  negb (off =? SDR_CTRLGRP_PROTPORTDEFAULT_ADDRESS) && negb (off =? SDR_CTRLGRP_PROTRULERDWR_ADDRESS).

Lemma plain_unopened off v : plain_offset off = true -> unopened (Wr (SDR + off) v).
Proof. unfold plain_offset, unopened. rewrite andb_true_iff, !negb_true_iff, !Z.eqb_neq. lia. Qed.

Lemma write_verify_spec off fs v s : plain_offset off = true -> fields_ok fs = true -> has_fields fs v ->
  wp (sdram_write_verify off v : M Z) s (fun o _ t => Forall unopened t /\
    ((o = Val 0 /\ seen (verify_steps (off, fs)) t) \/ (o = Val 1 /\ mismatch t))).
Proof.
  intros Ho Hok Hv. unfold sdram_write_verify. do 2 wp_step. do 2 wp_step.
  match goal with |- context [?x =? u32 v] => destruct (Z.eqb_spec x (u32 v)) as [E|E] end; cbn [negb]; wp_step;
    (split; [repeat constructor; by apply plain_unopened|]); cbn [app].
  - left. split; [done|]. rewrite E.
    apply seen_hit; [|apply seen_hit; [|constructor]]; exists (u32 v); split; [done| |done|];
      by apply has_fields_u32.
  - right. split; [done|]. exists []. eexists _, _, _. split; [reflexivity|]. done.
Qed.

Lemma stage_quiet {A} ps (m : M A) (k : A -> M Z) :
  only unopened m -> total m -> (forall a, stage_spec ps (k a)) -> stage_spec ps (bind m k).
Proof.
  intros Ho Ht Hk s. wp_step. apply wp_total; [done|]. intros a _. cbv beta iota.
  eapply wp_mono; [apply Hk|]. intros o s' t [Hu Hor]. rewrite Forall_app. split; [split; [apply Ho|done]|].
  destruct Hor as [[-> Hs]|[-> (t' & a' & v & v' & -> & Hne)]]; [left|right]; (split; [done|]).
  - by apply seen_prefix.
  - exists (tr (m s) ++ t'), a', v, v'. by rewrite app_assoc.
Qed.

Lemma block_spec off fs : plain_offset off = true -> fields_ok fs = true ->
  stage_spec (verify_steps (off, fs)) (mmr_block off fs : M Z).
Proof.
  intros Ho Hok. apply stage_quiet; [apply only_readl; done|apply total_readl|]. intros v s.
  apply write_verify_spec; [done|done|by apply update_fields_has].
Qed.

Lemma block_noverify_spec off fs : plain_offset off = true ->
  stage_spec [] (mmr_block_noverify off fs : M Z).
Proof.
  intros Ho s. unfold mmr_block_noverify. wp_run. split; [|left; split; [done|constructor]].
  cbn [app]. repeat constructor; by apply plain_unopened.
Qed.

Lemma ctrlcfg_spec :
  stage_spec (verify_steps (SDR_CTRLGRP_CTRLCFG_ADDRESS, ctrlcfg_fields 0)) (mmr_ctrlcfg : M Z).
Proof.
  apply stage_quiet; [apply only_readl; done|apply total_readl|]. intros v s. wp_step.
  apply (wp_result _ _ (Val 0) s []); [reflexivity|]. cbv beta iota.
  apply write_verify_spec; [done|done|by apply update_fields_has].
Qed.

Lemma dramaddrw_spec :
  stage_spec (verify_steps (SDR_CTRLGRP_DRAMADDRW_ADDRESS, dramaddrw_fields 19)) (mmr_dramaddrw : M Z).
Proof.
  apply stage_quiet; [apply only_readl; done|apply total_readl|]. intros v s. wp_step.
  eapply wp_result; [exact (board_errata_rows s)|]. cbv beta iota.
  apply write_verify_spec; [done|done|by apply update_fields_has].
Qed.

(** The one register that is written as a whole. *)
Definition phyctrl_0_word : list field := [Fld CONFIG_HPS_SDR_CTRLCFG_PHYCTRL_PHYCTRL_0 0 0xFFFFFFFF].

Lemma phyctrl_spec :
  stage_spec (verify_steps (SDR_CTRLGRP_PHYCTRL_PHYCTRL_0_ADDRESS, phyctrl_0_word)) (mmr_phyctrl_0 : M Z).
Proof. intros s. apply write_verify_spec; [done|reflexivity|repeat constructor; vm_compute; reflexivity]. Qed.

Lemma fpgaportrst_spec : stage_spec [] (mmr_fpgaportrst : M Z).
Proof.
  apply stage_quiet; [apply only_writel; split; vm_compute; discriminate|apply total_writel|]. intros _.
  apply stage_quiet.
  { unfold is_fpgamgr_fpga_ready, is_fpgamgr_initdone_high, fpgamgr_get_mode. hw_auto. }
  { unfold is_fpgamgr_fpga_ready, is_fpgamgr_initdone_high, fpgamgr_get_mode. hw_auto. }
  intros ready s. destruct (truthy ready).
  - eapply wp_mono; [apply (write_verify_spec _ []); [done|done|constructor]|].
    intros o s' t [Hu [[-> _]|[-> Hm]]]; split; auto. left. split; [done|constructor].
  - wp_step. split; [constructor|]. left. split; [done|constructor].
Qed.

(** The steps of the whole sequence: registers with read-back in order. *)
Definition verified_registers : list (Z * list field) := [
  (SDR_CTRLGRP_CTRLCFG_ADDRESS, ctrlcfg_fields 0);
  (SDR_CTRLGRP_DRAMTIMING1_ADDRESS, dramtiming1_fields);
  (SDR_CTRLGRP_DRAMTIMING2_ADDRESS, dramtiming2_fields);
  (SDR_CTRLGRP_DRAMTIMING3_ADDRESS, dramtiming3_fields);
  (SDR_CTRLGRP_DRAMTIMING4_ADDRESS, dramtiming4_fields);
  (SDR_CTRLGRP_LOWPWRTIMING_ADDRESS, lowpwrtiming_fields);
  (SDR_CTRLGRP_DRAMADDRW_ADDRESS, dramaddrw_fields 19);
  (SDR_CTRLGRP_DRAMIFWIDTH_ADDRESS, dramifwidth_fields);
  (SDR_CTRLGRP_DRAMDEVWIDTH_ADDRESS, dramdevwidth_fields);
  (SDR_CTRLGRP_LOWPWREQ_ADDRESS, lowpwreq_fields);
  (SDR_CTRLGRP_DRAMINTR_ADDRESS, dramintr_fields);
  (SDR_CTRLGRP_STATICCFG_ADDRESS, staticcfg_fields);
  (SDR_CTRLGRP_CTRLWIDTH_ADDRESS, ctrlwidth_fields);
  (SDR_CTRLGRP_PORTCFG_ADDRESS, portcfg_fields);
  (SDR_CTRLGRP_FIFOCFG_ADDRESS, fifocfg_fields);
  (SDR_CTRLGRP_MPPRIORITY_ADDRESS, mppriority_fields);
  (SDR_CTRLGRP_MPWEIGHT_MPWEIGHT_0_ADDRESS, mpweight_0_fields);
  (SDR_CTRLGRP_MPWEIGHT_MPWEIGHT_1_ADDRESS, mpweight_1_fields);
  (SDR_CTRLGRP_MPWEIGHT_MPWEIGHT_2_ADDRESS, mpweight_2_fields);
  (SDR_CTRLGRP_MPWEIGHT_MPWEIGHT_3_ADDRESS, mpweight_3_fields);
  (SDR_CTRLGRP_MPPACING_MPPACING_0_ADDRESS, mppacing_0_fields);
  (SDR_CTRLGRP_MPPACING_MPPACING_1_ADDRESS, mppacing_1_fields);
  (SDR_CTRLGRP_MPPACING_MPPACING_2_ADDRESS, mppacing_2_fields);
  (SDR_CTRLGRP_MPPACING_MPPACING_3_ADDRESS, mppacing_3_fields);
  (SDR_CTRLGRP_MPTHRESHOLDRST_MPTHRESHOLDRST_0_ADDRESS, mpthresholdrst_0_fields);
  (SDR_CTRLGRP_MPTHRESHOLDRST_MPTHRESHOLDRST_1_ADDRESS, mpthresholdrst_1_fields);
  (SDR_CTRLGRP_MPTHRESHOLDRST_MPTHRESHOLDRST_2_ADDRESS, mpthresholdrst_2_fields);
  (SDR_CTRLGRP_PHYCTRL_PHYCTRL_0_ADDRESS, phyctrl_0_word);
  (SDR_CTRLGRP_DRAMODT_ADDRESS, dramodt_fields);
  (SDR_CTRLGRP_EXTRATIME1_ADDRESS, extratime1_fields)].

Lemma stages_spec ms pss k s (Q : outcome Z -> st D gdata -> trace -> Prop) :
  Forall2 stage_spec pss ms ->
  (forall s' t, Forall unopened t -> seen (List.concat pss) t ->
     wp k s' (fun o s'' t' => Q o s'' (t ++ t'))) ->
  (forall s' t, Forall unopened t -> mismatch t -> Q (Val 1) s' t) ->
  wp (stages ms k) s Q.
Proof.
  intros Hms. revert s Q. induction Hms as [|ps m pss ms Hm Hms IH]; intros s Q Hk Hf;
    cbn [stages List.concat] in *.
  - eapply wp_mono; [apply (Hk s []); constructor|]. done.
  - wp_step. eapply wp_mono; [apply Hm|]. intros o s1 t1 [Hu [[-> Hs]|[-> Hmm]]]; cbv beta iota.
    + change (0 =? 1) with false. cbv iota. apply IH.
      * intros s' t Ht Hst. eapply wp_mono; [apply (Hk s' (t1 ++ t)); [apply Forall_app; by split|by apply seen_app]|].
        intros o s'' t'. by rewrite app_assoc.
      * intros s' t Ht (t' & a & v & v' & -> & Hne). apply Hf; [apply Forall_app; by split|].
        exists (t1 ++ t'), a, v, v'. by rewrite app_assoc.
    + change (1 =? 1) with true. cbv iota. wp_step. rewrite app_nil_r. by apply Hf.
Qed.

Lemma mmr_stages_spec : exists pss, Forall2 stage_spec pss (mmr_stages : list (M Z)) /\
  List.concat pss = List.concat (map verify_steps verified_registers).
Proof.
  eexists. split.
  - unfold mmr_stages.
    repeat (apply Forall2_cons; split;
      [first [ apply ctrlcfg_spec | apply dramaddrw_spec | apply phyctrl_spec | apply fpgaportrst_spec
             | apply block_spec; reflexivity | apply block_noverify_spec; reflexivity ]|]).
    apply Forall2_nil_2.
  - reflexivity.
Qed.

(** The write that applies the configuration. *)
Definition apply_write (e : event) : Prop :=
  exists v, e = Wr (SDR + SDR_CTRLGRP_STATICCFG_ADDRESS) v /\
    v .& SDR_CTRLGRP_STATICCFG_APPLYCFG_MASK = SDR_CTRLGRP_STATICCFG_APPLYCFG_MASK.

Lemma u32_land_word v m : word m -> u32 v .& m = v .& m.
Proof.
  intros Hm. unfold u32. rewrite <- Z.land_ones by lia. rewrite <- Z.land_assoc. f_equal.
  rewrite Z.land_comm, Z.land_ones by lia. by apply Z.mod_small.
Qed.

Lemma set_protection_total a b : total (sdram_set_protection_config a b : M unit).
Proof. unfold sdram_set_protection_config, sdram_set_rule. hw_auto. Qed.
Lemma dump_protection_total j : total (sdram_dump_protection_config j : M unit).
Proof. unfold sdram_dump_protection_config, sdram_get_rule. hw_auto. Qed.

Lemma calculate_size_outcome (s : st D gdata) :
  wp (sdram_calculate_size : M Z) s (fun o _ _ => is_val o \/ o = Stop Undef).
Proof. unfold sdram_calculate_size. wp_run; [by right|left; by eexists]. Qed.

Lemma mmr_apply_spec phy junk (s : st D gdata) :
  wp (mmr_apply phy junk : M Z) s (fun o _ t => (o = Val 0 \/ o = Stop Undef) /\ seen [apply_write] t).
Proof.
  unfold mmr_apply. wp_step. apply (wp_total (when _ _)); [hw_auto|]. intros [] _.
  generalize (fin (when (negb (phy =? 0xffffffff)) (writel phy (SDR + SDR_CTRLGRP_PHYCTRL_PHYCTRL_0_ADDRESS)) s)).
  intros s0. cbv beta iota. do 2 wp_step. do 2 wp_step. do 2 wp_step. wp_step.
  assert (Ha : forall x, apply_write (Wr (SDR + SDR_CTRLGRP_STATICCFG_ADDRESS)
    (u32 (sdram_write_register_field x 1 SDR_CTRLGRP_STATICCFG_APPLYCFG_LSB SDR_CTRLGRP_STATICCFG_APPLYCFG_MASK)))).
  { intros x. eexists. split; [reflexivity|]. rewrite u32_land_word by word_solve. by rewrite write_field_read. }
  eapply wp_mono; [apply calculate_size_outcome|]. intros o1 s1 t1 [[size ->]| ->]; cbv beta iota.
  - wp_step. apply wp_total; [apply set_protection_total|]. intros [] _. cbv beta iota. wp_step.
    apply wp_total; [apply dump_protection_total|]. intros [] _. cbv beta iota. wp_step. split; [by left|].
    apply seen_prefix. apply seen_skip. apply seen_hit; [apply Ha|]. constructor.
  - split; [by right|]. apply seen_prefix. apply seen_skip. apply seen_hit; [apply Ha|]. constructor.
Qed.

(** C31: The controller configuration is all or nothing.  Either some register
    does not read back what was written to it, and the function returns 1 right
    after that reading, with the protection rules and the default rule
    untouched; or all thirty registers that are verified were written with every
    handoff field and read back with every handoff field, in order, and only
    then the configuration is applied. *)
Theorem mmr_init_all_or_nothing phy junk (s : st D gdata) :
  let r := sdram_mmr_init_full phy junk s in
  (out r = Val 1 /\ Forall unopened (tr r) /\ mismatch (tr r)) \/
  ((out r = Val 0 \/ out r = Stop Undef) /\
   seen (List.concat (map verify_steps verified_registers) ++ [apply_write]) (tr r)).
Proof.
  wp_enter. unfold sdram_mmr_init_full. do 2 wp_step. destruct mmr_stages_spec as (pss & Hpss & E).
  apply (stages_spec _ pss); [done| |].
  - intros s1 t1 Hu Hs. eapply wp_mono; [apply mmr_apply_spec|]. intros o s2 t2 [Ho Ha].
    right. split; [done|]. cbn [app]. apply seen_skip. rewrite <- E. by apply seen_app.
  - intros s1 t1 Hu (t' & a & v & v' & -> & Hne). left. split; [done|]. cbn [app]. split.
    + constructor; [|done]. split; vm_compute; discriminate.
    + eexists (_ :: t'), a, v, v'. by split.
Qed.

(** *** Size *)

Lemma stages_app ms1 ms2 k (s : st D gdata) :
  stages (ms1 ++ ms2) k s = stages ms1 (stages ms2 k) s.
Proof.
  revert s. induction ms1 as [|m ms1 IH]; intros s; [done|]. cbn [app stages].
  apply bind_ext; [done|]. intros r s'. destruct (r =? 1); [done|apply IH].
Qed.

(** If the sequence goes through, what one stage established and the later
    stages keep holds at the end; [I] is what the earlier stages keep. *)
Lemma stages_establish (I P : st D gdata -> Prop) ms1 m ms2 k s :
  I s -> Forall (fun m' : M Z => total m' /\ forall s, I s -> I (fin (m' s))) ms1 ->
  (forall s, I s -> wp m s (fun o s' _ => o = Val 1 \/ P s')) ->
  Forall (fun m' => forall s, P s -> P (fin (m' s))) ms2 -> (forall s, P s -> P (fin (k s))) ->
  wp (stages (ms1 ++ m :: ms2) k) s (fun o s' _ => o = Val 1 \/ P s').
Proof.
  intros HI H1 Hm H2 Hk. unfold wp. rewrite stages_app.
  fold (wp (stages ms1 (stages (m :: ms2) k)) s (fun o s' _ => o = Val 1 \/ P s')).
  assert (Htail : forall s, P s -> P (fin (stages ms2 k s))).
  { clear -H2 Hk. induction H2 as [|m' ms2 Hm' H2 IH]; intros s Hs; cbn [stages]; [by apply Hk|].
    unfold bind. specialize (Hm' s Hs). destruct (out (m' s)) as [r|]; [|done].
    destruct (r =? 1); [done|by apply IH]. }
  revert s HI. induction H1 as [|m1 ms1 [Ht1 Hm1] H1 IH]; intros s HI; cbn [stages]; wp_step.
  - eapply wp_mono; [by apply Hm|]. intros o s1 t1 [->|HP]; cbv beta iota.
    + change (1 =? 1) with true. cbv iota. wp_step. by left.
    + destruct o as [r|]; [|by right]. destruct (r =? 1); [wp_step; by right|].
      right. by apply Htail.
  - apply wp_total; [done|]. intros r _. cbv beta iota. destruct (r =? 1) eqn:Er; [|apply IH; auto].
    apply Z.eqb_eq in Er as ->. wp_step. by left.
Qed.

Section size.
Abbreviation ADDRW := (SDR + SDR_CTRLGRP_DRAMADDRW_ADDRESS).
Abbreviation IFWIDTH := (SDR + SDR_CTRLGRP_DRAMIFWIDTH_ADDRESS).
Context `{!Reg D ADDRW} `{!Reg D IFWIDTH} `{!Reg D ISWGRP_HANDOFF_ROWBITS}.

Lemma keeps_prot a `{!Reg D a} x y :
  SDR + SDR_CTRLGRP_PROTPORTDEFAULT_ADDRESS <> a -> SDR + SDR_CTRLGRP_PROTRULERDWR_ADDRESS <> a ->
  SDR + SDR_CTRLGRP_PROTRULEADDR_ADDRESS <> a -> SDR + SDR_CTRLGRP_PROTRULEID_ADDRESS <> a ->
  SDR + SDR_CTRLGRP_PROTRULEDATA_ADDRESS <> a ->
  keeps a (sdram_set_protection_config x y : M unit).
Proof. intros. unfold sdram_set_protection_config, sdram_set_rule. keeps_auto. Qed.

Lemma keeps_dump a `{!Reg D a} junk : SDR + SDR_CTRLGRP_PROTRULERDWR_ADDRESS <> a ->
  keeps a (sdram_dump_protection_config junk : M unit).
Proof. intros. unfold sdram_dump_protection_config, sdram_get_rule. keeps_auto. Qed.

Lemma keeps_size a `{!Reg D a} : keeps a (sdram_calculate_size : M Z).
Proof. unfold sdram_calculate_size. keeps_auto. Qed.

Lemma keeps_apply a `{!Reg D a} phy junk :
  SDR + SDR_CTRLGRP_PROTPORTDEFAULT_ADDRESS <> a -> SDR + SDR_CTRLGRP_PROTRULERDWR_ADDRESS <> a ->
  SDR + SDR_CTRLGRP_PROTRULEADDR_ADDRESS <> a -> SDR + SDR_CTRLGRP_PROTRULEID_ADDRESS <> a ->
  SDR + SDR_CTRLGRP_PROTRULEDATA_ADDRESS <> a -> SDR + SDR_CTRLGRP_STATICCFG_ADDRESS <> a ->
  SDR + SDR_CTRLGRP_PHYCTRL_PHYCTRL_0_ADDRESS <> a ->
  keeps a (mmr_apply phy junk : M Z).
Proof.
  intros. unfold mmr_apply. keeps_auto; first [by apply keeps_prot | by apply keeps_dump | by apply keeps_size].
Qed.

Lemma keeps_block a `{!Reg D a} off fs : SDR + off <> a -> keeps a (mmr_block off fs : M Z).
Proof. intros. unfold mmr_block, sdram_write_verify. keeps_auto. Qed.

(** A block on plain registers. *)
Lemma block_reg off fs `{!Reg D (SDR + off)} (s : st D gdata) :
  reg (SDR + off) (fin (mmr_block off fs s)) = u32 (update_fields fs (reg (SDR + off) s)).
Proof.
  wp_enter. unfold mmr_block, sdram_write_verify. reg_run (SDR + off); reg_subst (SDR + off); done.
Qed.

Lemma stages_total : Forall (fun m : M Z => total m) mmr_stages.
Proof.
  destruct mmr_stages_spec as (pss & Hpss & _). clear -Hpss.
  induction Hpss as [|ps m pss ms Hm Hms IH]; constructor; [|done].
  intros s. destruct (Hm s) as [_ [[-> _]|[-> _]]]; by eexists.
Qed.

Lemma keeps_block_noverify a `{!Reg D a} off fs : SDR + off <> a -> keeps a (mmr_block_noverify off fs : M Z).
Proof. intros. unfold mmr_block_noverify. keeps_auto. Qed.

Lemma keeps_write_verify a `{!Reg D a} off v : SDR + off <> a -> keeps a (sdram_write_verify off v : M Z).
Proof. intros. unfold sdram_write_verify. keeps_auto. Qed.

Lemma keeps_lldiv a `{!Reg D a} n d : keeps a (lldiv_m n d : M Z).
Proof. unfold lldiv_m. destruct (lldiv n d); keeps_auto. Qed.

Lemma keeps_errata a `{!Reg D a} memsize cs width rows banks cols :
  keeps a (compute_errata_rows memsize cs width rows banks cols : M Z).
Proof.
  unfold compute_errata_rows. apply keeps_bind; [apply keeps_lldiv|intros n1].
  apply keeps_bind; [apply keeps_lldiv|intros n2]. keeps_auto.
Qed.

Lemma keeps_addrorder a `{!Reg D a} csbits : keeps a (addrorder_of csbits : M Z).
Proof. unfold addrorder_of. keeps_auto. Qed.

Lemma keeps_ctrlcfg a `{!Reg D a} : SDR + SDR_CTRLGRP_CTRLCFG_ADDRESS <> a -> keeps a (mmr_ctrlcfg : M Z).
Proof.
  intros. unfold mmr_ctrlcfg. apply keeps_bind; [apply keeps_readl|intros v].
  apply keeps_bind; [apply keeps_addrorder|intros o]. by apply keeps_write_verify.
Qed.

Lemma keeps_dramaddrw a `{!Reg D a} : SDR + SDR_CTRLGRP_DRAMADDRW_ADDRESS <> a -> keeps a (mmr_dramaddrw : M Z).
Proof.
  intros. unfold mmr_dramaddrw. apply keeps_bind; [apply keeps_readl|intros v].
  apply keeps_bind; [apply keeps_errata|intros o]. by apply keeps_write_verify.
Qed.

Lemma keeps_phyctrl a `{!Reg D a} :
  SDR + SDR_CTRLGRP_PHYCTRL_PHYCTRL_0_ADDRESS <> a -> keeps a (mmr_phyctrl_0 : M Z).
Proof. intros. by apply keeps_write_verify. Qed.

Lemma keeps_fpgaportrst a `{!Reg D a} :
  SDR + SDR_CTRLGRP_FPGAPORTRST_ADDRESS <> a -> ISWGRP_HANDOFF_FPGA2SDR <> a ->
  keeps a (mmr_fpgaportrst : M Z).
Proof.
  intros. unfold mmr_fpgaportrst, is_fpgamgr_fpga_ready, is_fpgamgr_initdone_high, fpgamgr_get_mode, sdram_write_verify.
  keeps_auto.
Qed.

Ltac keeps_stage :=
  match goal with
  | |- keeps _ (mmr_block _ _) => apply keeps_block
  | |- keeps _ (mmr_block_noverify _ _) => apply keeps_block_noverify
  | |- keeps _ mmr_ctrlcfg => apply keeps_ctrlcfg
  | |- keeps _ mmr_dramaddrw => apply keeps_dramaddrw
  | |- keeps _ mmr_phyctrl_0 => apply keeps_phyctrl
  | |- keeps _ mmr_fpgaportrst => apply keeps_fpgaportrst
  end; addr_ne.

Ltac keeps_stages := repeat (apply Forall_cons; split; [keeps_stage|]); apply Forall_nil; exact I.

Lemma keeps_rowbits : Forall (fun m => keeps ISWGRP_HANDOFF_ROWBITS m) (mmr_stages : list (M Z)).
Proof. unfold mmr_stages. keeps_stages. Qed.

Lemma keeps_addrw : Forall (fun m => keeps ADDRW m) (drop 7 mmr_stages : list (M Z)).
Proof. unfold mmr_stages. cbn [drop]. keeps_stages. Qed.

Lemma keeps_ifwidth_before : Forall (fun m => keeps IFWIDTH m) (take 7 mmr_stages : list (M Z)).
Proof. unfold mmr_stages. cbn [take]. keeps_stages. Qed.

Lemma keeps_ifwidth_after : Forall (fun m => keeps IFWIDTH m) (drop 8 mmr_stages : list (M Z)).
Proof. unfold mmr_stages. cbn [drop]. keeps_stages. Qed.

Lemma keeps_sequence a `{!Reg D a} ms k :
  Forall (fun m => keeps a m) ms -> keeps a k -> keeps a (stages ms k : M Z).
Proof.
  intros Hms Hk. induction Hms as [|m ms Hm _ IH]; cbn [stages]; [done|].
  apply keeps_bind; [done|]. intros r. destruct (r =? 1); [apply keeps_ret|done].
Qed.

(** A stage that verifies leaves its register as it was written. *)
Lemma dramaddrw_reg (s : st D gdata) :
  has_fields (dramaddrw_fields 19) (reg ADDRW (fin (mmr_dramaddrw s))).
Proof.
  wp_enter. unfold mmr_dramaddrw. wp_step. apply (wp_readl_known ADDRW). cbv beta iota. wp_step.
  eapply wp_result; [exact (board_errata_rows _)|]. cbv beta iota.
  unfold sdram_write_verify. reg_run (SDR + SDR_CTRLGRP_DRAMADDRW_ADDRESS);
    reg_subst (SDR + SDR_CTRLGRP_DRAMADDRW_ADDRESS);
    (apply has_fields_u32; [reflexivity|]; by apply update_fields_has).
Qed.

Lemma addrw_established phy junk (s : st D gdata) :
  wp (stages mmr_stages (mmr_apply phy junk)) s (fun o s' _ =>
    o = Val 1 \/ has_fields (dramaddrw_fields 19) (reg ADDRW s')).
Proof.
  rewrite <- (take_drop 6 mmr_stages). unfold mmr_stages at 2. cbn [drop].
  apply (stages_establish (fun _ => True)); [done| | | |].
  - eapply Forall_impl; [apply Forall_take, stages_total|]. by intros m Hm.
  - intros s0 _. right. apply dramaddrw_reg.
  - eapply Forall_impl; [apply keeps_addrw|]. intros m Hm s0 Hs. cbv beta. by rewrite (Hm s0).
  - intros s0 Hs. cbv beta. rewrite (keeps_apply ADDRW) by addr_ne. done.
Qed.

Lemma ifwidth_established phy junk (s : st D gdata) :
  reg IFWIDTH s .& .~ SDR_CTRLGRP_DRAMIFWIDTH_IFWIDTH_MASK = 0 ->
  wp (stages mmr_stages (mmr_apply phy junk)) s (fun o s' _ =>
    o = Val 1 \/ reg IFWIDTH s' = CONFIG_HPS_SDR_CTRLCFG_DRAMIFWIDTH_IFWIDTH).
Proof.
  intros HI. rewrite <- (take_drop 7 mmr_stages). unfold mmr_stages at 2. cbn [drop].
  apply (stages_establish (fun s => reg IFWIDTH s .& .~ SDR_CTRLGRP_DRAMIFWIDTH_IFWIDTH_MASK = 0)); [done| | | |].
  - apply Forall_and. split; [apply Forall_take, stages_total|].
    eapply Forall_impl; [apply keeps_ifwidth_before|]. intros m Hm s0 Hs. cbv beta. by rewrite (Hm s0).
  - intros s0 Hs. right. rewrite block_reg. unfold dramifwidth_fields, update_fields, sdram_write_register_field.
    cbn [fold_left f_data f_lsb f_mask]. rewrite Hs. reflexivity.
  - eapply Forall_impl; [apply keeps_ifwidth_after|]. intros m Hm s0 Hs. cbv beta. by rewrite (Hm s0).
  - intros s0 Hs. cbv beta. rewrite (keeps_apply IFWIDTH) by addr_ne. done.
Qed.

Lemma calculate_size_known (s : st D gdata) :
  has_fields (dramaddrw_fields 19) (reg ADDRW s) ->
  reg ISWGRP_HANDOFF_ROWBITS s = CONFIG_HPS_SDR_CTRLCFG_DRAMADDRW_ROWBITS ->
  reg IFWIDTH s = CONFIG_HPS_SDR_CTRLCFG_DRAMIFWIDTH_IFWIDTH ->
  out (sdram_calculate_size s) = Val 0x40000000.
Proof.
  intros Hf Hr Hi. inversion_clear Hf as [|? ? Hcol Hf1]. inversion_clear Hf1 as [|? ? _ Hf2].
  inversion_clear Hf2 as [|? ? Hbank _]. cbn [f_data f_lsb f_mask] in Hcol, Hbank.
  wp_enter. unfold sdram_calculate_size. wp_step. apply (wp_readl_all ADDRW). intros s1 H1 _. cbv beta iota.
  rewrite Hcol, Hbank. wp_step. apply (wp_readl_all ISWGRP_HANDOFF_ROWBITS). intros s2 H2 _. cbv beta iota.
  rewrite H1, Hr. wp_step. apply (wp_readl_all IFWIDTH). intros s3 _ _. cbv beta iota.
  rewrite H2, H1, Hi. reflexivity.
Qed.

(** When the configuration of the controller goes through on this board, the
    size that is computed back from the registers is the 1 GiB of the board,
    whatever the registers held before (the reserved bits of the width register
    being clear), although the row count in the controller is the 19 of the
    errata workaround and not the 15 of the board. *)
Theorem board_sdram_size phy junk (s : st D gdata) :
  reg IFWIDTH s .& .~ SDR_CTRLGRP_DRAMIFWIDTH_IFWIDTH_MASK = 0 ->
  let r := sdram_mmr_init_full phy junk s in
  out r = Val 0 ->
  out (sdram_calculate_size (fin r)) = Val 0x40000000 /\
  (reg ADDRW (fin r) .& SDR_CTRLGRP_DRAMADDRW_ROWBITS_MASK) .>> SDR_CTRLGRP_DRAMADDRW_ROWBITS_LSB = 19.
Proof.
  intros HI. wp_enter. unfold sdram_mmr_init_full. wp_step.
  apply (wp_writel_all ISWGRP_HANDOFF_ROWBITS). intros s0 Hd Hs0 _. cbv beta iota.
  rewrite <- (Hs0 IFWIDTH) in HI by addr_ne.
  eapply wp_mono.
  { apply wp_and; [apply (addrw_established phy junk)|]. apply wp_and; [by apply (ifwidth_established phy junk)|].
    apply (wp_kept ISWGRP_HANDOFF_ROWBITS), keeps_sequence; [apply keeps_rowbits|apply keeps_apply; addr_ne]. }
  intros o s' t (Ha & Hi & Hr) Ho. destruct Ha as [->|Ha]; [done|]. destruct Hi as [->|Hi]; [done|].
  rewrite Hd in Hr. split; [by apply calculate_size_known|].
  inversion_clear Ha as [|? ? _ Ha1]. inversion_clear Ha1 as [|? ? Hrow _]. cbn [f_data f_lsb f_mask] in Hrow.
  rewrite Hrow. reflexivity.
Qed.

End size.
(** *** Self refresh *)

Definition ack_read (b : bool) (e : event) : Prop :=
  exists v, e = Rd (SDR + SDR_CTRLGRP_LOWPWRACK_ADDRESS) v /\
    truthy (v .& SDR_CTRLGRP_LOWPWRACK_SELFRFSHACK_MASK) = b.

Lemma selfrfshack_spec (s : st D gdata) :
  wp selfrfshack s (fun o _ t => exists b, o = Val b /\ seen [ack_read b] t).
Proof.
  unfold selfrfshack. do 3 wp_step. eexists. split; [reflexivity|].
  apply seen_hit; [|constructor]. eexists. by split.
Qed.

Lemma poll_selfrfshack_total want : total (poll_selfrfshack want : M (option unit)).
Proof. unfold poll_selfrfshack, selfrfshack. hw_auto. Qed.

Abbreviation lowpwreq_steps d l m := (verify_steps (SDR_CTRLGRP_LOWPWREQ_ADDRESS, [Fld d l m])).
Abbreviation mask_steps := (lowpwreq_steps SDR_CTRLGRP_LOWPWREQ_SELFRFSHMASK_BOTH_CHIPS
  SDR_CTRLGRP_LOWPWREQ_SELFRFSHMASK_LSB SDR_CTRLGRP_LOWPWREQ_SELFRFSHMASK_MASK).
Abbreviation request_steps v := (lowpwreq_steps v
  SDR_CTRLGRP_LOWPWREQ_SELFRSHREQ_LSB SDR_CTRLGRP_LOWPWREQ_SELFRSHREQ_MASK).

(** A verified step of the sequence: on a mismatch the sequence returns 1. *)
Lemma wp_verified (K : Prop) d l m (k : M Z) (ps : list (event -> Prop)) s :
  fields_ok [Fld d l m] = true ->
  (forall s', wp k s' (fun o _ t => (o = Val 0 /\ K /\ seen ps t) \/ o = Val 1)) ->
  wp (let* r := lowpwreq_set d l m in if r =? 1 then ret 1 else k) s
    (fun o _ t => (o = Val 0 /\ K /\ seen (lowpwreq_steps d l m ++ ps) t) \/ o = Val 1).
Proof.
  intros Hok Hk. wp_step. eapply wp_mono; [apply block_spec; [reflexivity|done]|].
  intros o s1 t1 [_ [[-> Hs]|[-> _]]]; cbv beta iota.
  - change (0 =? 1) with false. cbv iota. eapply wp_mono; [apply Hk|].
    intros o s2 t2 [(-> & HK & Hs2)| ->]; [left|by right]. split; [done|]. split; [done|]. by apply seen_app.
  - change (1 =? 1) with true. cbv iota. wp_step. by right.
Qed.

Lemma wp_acked (K : Prop) want (k : bool -> M Z) (ps : list (event -> Prop)) s :
  (forall b s', wp (k b) s' (fun o _ t => (o = Val 0 /\ (b = want /\ K) /\ seen ps t) \/ o = Val 1)) ->
  wp (let* _ := poll_selfrfshack want in let* ack := selfrfshack in k ack) s
    (fun o _ t => (o = Val 0 /\ K /\ seen (ack_read want :: ps) t) \/ o = Val 1).
Proof.
  intros Hk. wp_step. apply wp_total; [apply poll_selfrfshack_total|]. intros x _. cbv beta iota.
  wp_step. eapply wp_mono; [apply selfrfshack_spec|]. intros o s1 t1 (b & -> & Hs). cbv beta iota.
  eapply wp_mono; [apply Hk|]. intros o s2 t2 [(-> & [-> HK] & Hs2)| ->]; [left|by right].
  split; [done|]. split; [done|]. apply seen_prefix.
  change (ack_read want :: ps) with ([ack_read want] ++ ps). by apply seen_app.
Qed.

(** The self-refresh check always returns 0 or 1 within its polling budget,
    and 0 means the whole handshake took place in order: both chips selected and
    the selection read back, self refresh requested, its acknowledge read as
    set, the request withdrawn, and the acknowledge read as clear again. *)
Theorem self_refresh_handshake (s : st D gdata) :
  let r := sdram_check_self_refresh_seq s in
  (out r = Val 0 /\
   seen (mask_steps ++ request_steps SDR_CTRLGRP_LOWPWREQ_SELFRSHREQ_ENABLED ++ ack_read true ::
         request_steps SDR_CTRLGRP_LOWPWREQ_SELFRSHREQ_DISABLED ++ [ack_read false]) (tr r)) \/
  out r = Val 1.
Proof.
  wp_enter. unfold sdram_check_self_refresh_seq. eapply wp_mono.
  { apply (wp_verified True); [reflexivity|]. intros s1. apply wp_verified; [reflexivity|]. intros s2.
    apply wp_acked. intros [] s3; cbn [negb].
    - eapply wp_mono; [apply (wp_verified True _ _ _ _ [ack_read false]); [reflexivity|]|].
      + intros s4. apply (wp_acked True false _ []). intros [] s5; wp_step; [by right|].
        left. repeat split. constructor.
      + intros o s' t [(-> & _ & Hs)| ->]; [left|by right]. by repeat split.
    - eapply wp_mono; [apply (wp_verified False _ _ _ _ []); [reflexivity|]|].
      + intros s4. wp_step. by right.
      + by intros o s' t [(_ & [] & _)| ->]; right. }
  intros o s' t [(-> & _ & Hs)| ->]; [by left|by right].
Qed.

(** *** ECC interrupt *)

(** The handler of the SDRAM ECC interrupt.  The status register decides: a
    double-bit error stops the system, the last value written to the
    interrupt register leaving the interrupt disabled, and without one the handler returns.  A
    single-bit error adds the hardware's count to the counter, modulo 2^32, and
    otherwise the counter is unchanged.  The interrupt is cleared in every
    case. *)
Theorem irq_handler_ecc_sdram_spec arg (s : st D gdata) :
  let r := irq_handler_ecc_sdram arg s in
  exists v rest, tr r = Rd (SDR + SDR_CTRLGRP_DRAMSTS_ADDRESS) v :: rest /\
    (if truthy (v .& SDR_CTRLGRP_DRAMSTS_DBEERR_MASK)
     then out r = Stop Halt /\ exists w, last (writes_at (SDR + SDR_CTRLGRP_DRAMINTR_ADDRESS) (tr r)) = Some w /\
            w .& SDR_CTRLGRP_DRAMINTR_INTREN_MASK = 0
     else out r = Val tt) /\
    (if truthy (v .& SDR_CTRLGRP_DRAMSTS_SBEERR_MASK)
     then exists n, In (Rd (SDR + SDR_CTRLGRP_SBECOUNT_ADDRESS) n) (tr r) /\
            irq_cnt_ecc_sdram (glob (fin r)) = u32 (irq_cnt_ecc_sdram (glob s) + n)
     else glob (fin r) = glob s) /\
    seen [fun e => exists w, e = Wr (SDR + SDR_CTRLGRP_DRAMINTR_ADDRESS) w /\
            w .& SDR_CTRLGRP_DRAMINTR_INTRCLR_MASK = SDR_CTRLGRP_DRAMINTR_INTRCLR_MASK] rest.
Proof.
  assert (Hclr : forall x, u32 (x .| SDR_CTRLGRP_DRAMINTR_INTRCLR_MASK) .& SDR_CTRLGRP_DRAMINTR_INTRCLR_MASK =
    SDR_CTRLGRP_DRAMINTR_INTRCLR_MASK).
  { intros x. rewrite u32_land_word by word_solve. bitwise. }
  assert (Hen : forall x, u32 (x .& .~ SDR_CTRLGRP_DRAMINTR_INTREN_MASK) .& SDR_CTRLGRP_DRAMINTR_INTREN_MASK = 0).
  { intros x. rewrite u32_land_word by word_solve. bitwise. }
  wp_enter. unfold irq_handler_ecc_sdram, sdram_enable_interrupt, setbits_le32, clrbits_le32.
  wp_run; try discriminate; cbn [app];
    (eexists _, _; split; [reflexivity|]; repeat match goal with E : truthy _ = _ |- _ => rewrite E end;
     split; [first [reflexivity|split; [reflexivity|eexists; split; [reflexivity|apply Hen]]]|];
     split; [first [reflexivity|eexists; split; [cbn [In]; eauto 6|reflexivity]]|]);
    repeat match goal with
    | |- seen _ (Wr _ _ :: _) => apply seen_hit; [eexists; split; [reflexivity|apply Hclr]|constructor]
    | |- seen _ _ => apply seen_skip
    end.
Qed.

End sdram_proofs.

(** ** Witnesses: a controller whose registers hold what is written *)

Lemma compute_errata_rows_spec_witness :
  let r := compute_errata_rows MEMSIZE_4G 1 8 15 3 10 (mk_st (∅ : ram) gdata0) in
  fin r = mk_st (∅ : ram) gdata0 /\
  ((exists k, 0 <= k < 32 /\ MEMSIZE_4G / (1 * (8 / 8)) / 2 ^ (3 + 10) = 2 ^ k /\ out r = Val k) \/ out r = Val 15).
Proof.
  destruct (compute_errata_rows_spec MEMSIZE_4G 1 8 15 3 10 (mk_st (∅ : ram) gdata0)) as (Hf & _ & Hk).
  - vm_compute. split; [discriminate|reflexivity].
  - vm_compute. split; reflexivity.
  - lia.
  - lia.
  - lia.
  - split; [exact Hf|]. destruct Hk as [Hk|[_ Hk]]; [left; exact Hk|right; exact Hk].
Defined.

Lemma board_sdram_size_witness :
  out (sdram_calculate_size (fin (sdram_mmr_init_full 0xffffffff (accept_rule 0 0) (mk_st (∅ : ram) gdata0)))) =
  Val 0x40000000.
Proof.
  apply (board_sdram_size 0xffffffff (accept_rule 0 0) (mk_st (∅ : ram) gdata0)).
  - vm_compute. reflexivity.
  - vm_compute. reflexivity.
Defined.
