(* ===== verification/Spl.v ===== *)
(** The preloader: what runs before main memory exists (lowlevel_init.S, s_init.c),
    the board initialisation that puts all the components together (spl.c) and
    the RAM boot set-up (misc.c).

    The compile-time settings are those of build.h: I/O configuration with the
    boot ROM handshake, skipped on a warm reset that asks for it; watchdog and
    interrupts on; no FPGA load, no diagnostics, no SDRAM ECC. *)

From S2P Require Import Prelude BitOps Mmio Regs Globals BoardTables FpgaStatus ResetManager Watchdog Uart.
From S2P Require Import Timer FreezeController ScanManager ClockManager SystemManager Interrupts.
From S2P Require Import RamSize SdramProt SdramMmr.

(** Which image spl.c asks for. *)
Definition spl_boot_device : Z :=
  if CONFIG_PRELOADER_BOOT_FROM_QSPI =? 1 then BOOT_DEVICE_SPI
  else if CONFIG_PRELOADER_BOOT_FROM_RAM =? 1 then BOOT_DEVICE_RAM
  else if CONFIG_PRELOADER_BOOT_FROM_NAND =? 1 then BOOT_DEVICE_NAND
  else BOOT_DEVICE_MMC1.

Definition spl_boot_mode : Z := MMCSD_MODE_MBR.

Section spl.
Context {D : Type} `{Device D}.
Abbreviation M := (M D gdata).

(** ** Before board_init_f *)

(** save_boot_params of lowlevel_init.S; [r0] is the address of the boot ROM's
    shared memory.  Without a boot source the reset counts as cold. *)
Definition save_boot_params (r0 : Z) : M unit :=
  let* r9 := readl SYSMGR_BOOTINFO in
  if r9 .& SYSMGR_BOOTINFO_BSEL_MASK =? 0
  then modify (set_rst_mgr_status RSTMGR_COLDRST_MASK)
  else let* r5 := readl (r0 + 0x38) in modify (set_rst_mgr_status r5).

(** s_init; [padding] is the size in words of the region between
    __ecc_padding_start and __ecc_padding_end. *)
Definition s_init (ecc_padding_start : Z) (padding : nat) : M unit :=
  let* reg := readl CONFIG_SYSMGR_ECC_OCRAM in
  when (truthy (reg .& SYSMGR_ECC_OCRAM_SERR))
    (writel (SYSMGR_ECC_OCRAM_SERR .| SYSMGR_ECC_OCRAM_EN) CONFIG_SYSMGR_ECC_OCRAM) ;;;
  when (truthy (reg .& SYSMGR_ECC_OCRAM_DERR))
    (writel (SYSMGR_ECC_OCRAM_DERR .| SYSMGR_ECC_OCRAM_EN) CONFIG_SYSMGR_ECC_OCRAM) ;;;
  let* r := is_wdt_in_reset in
  when (negb (truthy r)) watchdog_disable ;;;
  reset_deassert_osc1wd0 ;;;
  hw_watchdog_init ;;;
  hw_watchdog_reset ;;;
  for_upto (Z.of_nat padding) (fun i =>
    writel 0 (ecc_padding_start + 4 * i) ;;; ret (None : option unit)) ;;;
  writel 0x1 (SOCFPGA_MPUL2_ADDRESS + SOCFPGA_MPUL2_ADRFLTR_START).

(** ram_boot_setup of misc.c: [ecc_padding_end] is the linker's symbol and
    [code] the words of reset_clock_manager. *)
Definition ram_boot_setup (ecc_padding_end : Z) (code : list Z) : M unit :=
  let* v := readl SYSMGR_BOOTINFO in
  let csel := (v .& SYSMGR_BOOTINFO_CSEL_MASK) .>> SYSMGR_BOOTINFO_CSEL_LSB in
  when (negb (truthy csel)) (
    let ramboot_addr := CONFIG_SYS_INIT_RAM_ADDR + 0xf000 in
    let ramboot_addr := if ecc_padding_end >? ramboot_addr then ecc_padding_end else ramboot_addr in
    for_upto (Z.of_nat (length code)) (fun i =>
      let* w := array_get code i in
      writel w (ramboot_addr + 4 * i) ;;; ret (None : option unit)) ;;;
    writel (ramboot_addr .& CONFIG_SYSMGR_WARMRAMGRP_EXECUTION_OFFSET_MASK)
      CONFIG_SYSMGR_WARMRAMGRP_EXECUTION ;;;
    writel CONFIG_SYSMGR_WARMRAMGRP_ENABLE_MAGIC CONFIG_SYSMGR_WARMRAMGRP_ENABLE).

(** ** spl_board_init

    [fuel] bounds every busy wait; [h] is the reset handoff of the board,
    [sdram_calibration] the calibration sequencer, which nothing is assumed of,
    and [junk] the uninitialised rule of sdram_dump_protection_config. *)
Context (fuel : nat) (h : reset_handoff) (sdram_calibration : M Z) (junk : sdram_prot_rule).
Context (ecc_padding_end : Z) (ramboot_code : list Z).

Definition warmrst_preserve_sdram : Z := if WARMRST_HANDSHAKE_SDRAM h =? 1 then 1 else 0.

Definition cold_reset (g : gdata) : bool := negb (rst_mgr_status g .& RSTMGR_COLDRST_MASK =? 0).

(** [(warmrst_preserve_sdram == 0) || (rst_mgr_status & RSTMGR_COLDRST_MASK) != 0] *)
Definition sdram_not_preserved (g : gdata) : bool := (warmrst_preserve_sdram =? 0) || cold_reset g.

Definition spl_freeze : M unit :=
  hw_watchdog_reset ;;;
  sys_mgr_frzctrl_freeze_req FREEZE_CHANNEL_0 FREEZE_CONTROLLER_FSM_SW ;;;
  sys_mgr_frzctrl_freeze_req FREEZE_CHANNEL_1 FREEZE_CONTROLLER_FSM_SW ;;;
  sys_mgr_frzctrl_freeze_req FREEZE_CHANNEL_2 FREEZE_CONTROLLER_FSM_SW ;;;
  let* g := get in
  when (sdram_not_preserved g)
    (sys_mgr_frzctrl_freeze_req FREEZE_CHANNEL_3 FREEZE_CONTROLLER_FSM_SW ;;; ret tt).

Definition spl_hold_reset : M unit :=
  hw_watchdog_reset ;;;
  let* g := get in
  (if sdram_not_preserved g
   then reset_assert_all_peripherals_except_l4wd0
   else reset_assert_all_peripherals_except_l4wd0_and_sdr) ;;;
  reset_assert_all_bridges.

Definition spl_clocks : M unit :=
  reset_deassert_osc1timer0 ;;;
  timer_init ;;;
  hw_watchdog_reset ;;;
  ram_boot_setup ecc_padding_end ramboot_code ;;;
  let* g := get in
  (if sdram_not_preserved g then cm_basic_init fuel cm_default_cfg 0 else cm_basic_init fuel cm_default_cfg 1) ;;;
  cm_derive_clocks_for_drivers.

(** Runs [m] between setting and clearing a handshake bit of the boot ROM,
    unless the bit was set and the reset is warm. *)
Definition with_handshake (bit : Z) (m : M unit) : M unit :=
  let* v := readl CONFIG_SYSMGR_ROMCODEGRP_CTRL in
  let* g := get in
  when ((v .& bit =? 0) || cold_reset g) (
    setbits_le32 CONFIG_SYSMGR_ROMCODEGRP_CTRL bit ;;;
    m ;;;
    clrbits_le32 CONFIG_SYSMGR_ROMCODEGRP_CTRL bit).

Definition spl_scan_chains : M unit :=
  scan_mgr_io_scan_chain_prg IO_SCAN_CHAIN_0 CONFIG_HPS_IOCSR_SCANCHAIN0_LENGTH iocsr_scan_chain0_table ;;;
  scan_mgr_io_scan_chain_prg IO_SCAN_CHAIN_1 CONFIG_HPS_IOCSR_SCANCHAIN1_LENGTH iocsr_scan_chain1_table ;;;
  scan_mgr_io_scan_chain_prg IO_SCAN_CHAIN_2 CONFIG_HPS_IOCSR_SCANCHAIN2_LENGTH iocsr_scan_chain2_table ;;;
  let* g := get in
  when (sdram_not_preserved g)
    (scan_mgr_io_scan_chain_prg IO_SCAN_CHAIN_3 CONFIG_HPS_IOCSR_SCANCHAIN3_LENGTH iocsr_scan_chain3_table ;;; ret tt).

Definition spl_configure_io : M unit :=
  hw_watchdog_reset ;;;
  with_handshake SYSMGR_ROMCODEGRP_CTRL_WARMRSTCFGIO spl_scan_chains ;;;
  hw_watchdog_reset ;;;
  with_handshake SYSMGR_ROMCODEGRP_CTRL_WARMRSTCFGPINMUX (sysmgr_pinmux_init sys_mgr_init_table) ;;;
  sysmgr_sdmmc_pweren_mux_check.

Definition spl_release : M unit :=
  hw_watchdog_reset ;;;
  reset_deassert_peripherals_handoff h ;;;
  reset_deassert_bridges_handoff h.

Definition spl_thaw : M unit :=
  hw_watchdog_reset ;;;
  sys_mgr_frzctrl_thaw_req fuel FREEZE_CHANNEL_0 FREEZE_CONTROLLER_FSM_SW ;;;
  sys_mgr_frzctrl_thaw_req fuel FREEZE_CHANNEL_1 FREEZE_CONTROLLER_FSM_SW ;;;
  sys_mgr_frzctrl_thaw_req fuel FREEZE_CHANNEL_2 FREEZE_CONTROLLER_FSM_SW ;;;
  let* g := get in
  when (sdram_not_preserved g)
    (sys_mgr_frzctrl_thaw_req fuel FREEZE_CHANNEL_3 FREEZE_CONTROLLER_FSM_SW ;;; ret tt).

(** socfpga_cyclone5.c *)
Definition checkboard : M Z := msg "BOARD : Altera SOCFPGA Cyclone V Board" ;;; ret 0.

Definition spl_console : M unit :=
  hw_watchdog_reset ;;;
  preloader_console_init fuel ;;;
  checkboard ;;;
  cm_print_clock_quick_summary ;;;
  let* g := get in
  (if cold_reset g then msg "RESET: COLD" else msg "RESET: WARM") ;;;
  msg "INFO : Watchdog enabled".

(** On a warm reset that preserves the memory, the calibration is skipped and
    the saved PHY setting put back; without self refresh the system is reset. *)
Definition spl_sdram : M unit :=
  hw_watchdog_reset ;;;
  let* g := get in
  (if sdram_not_preserved g then
     msg "SDRAM: Initializing MMR registers" ;;;
     let* r := sdram_mmr_init_full 0xffffffff junk in
     when (negb (r =? 0)) hang ;;;
     hw_watchdog_reset ;;;
     msg "SDRAM: Calibrating PHY" ;;;
     let* c := sdram_calibration in
     when (c =? 0) hang
   else
     let* sdr_phy_reg := readl (SOCFPGA_SDR_ADDRESS + SDR_CTRLGRP_PHYCTRL_PHYCTRL_0_ADDRESS) in
     msg "SDRAM: Initializing MMR registers" ;;;
     let* r := sdram_mmr_init_full sdr_phy_reg junk in
     when (negb (r =? 0)) hang ;;;
     msg "SDRAM: Skipping calibrating PHY" ;;;
     let* r := sdram_check_self_refresh_seq in
     when (negb (r =? 0)) (
       msg "SDRAM: Self refresh issue detected. Performing Warm reset ..." ;;;
       reset_cpu 0) ;;;
     let* _ := readl 0x100010 in ret tt) ;;;
  let* sdram_size := sdram_calculate_size in
  msg "SDRAM: MiB".

Definition spl_secure : M unit := hw_watchdog_reset ;;; nic301_slave_ns.

(** interrupt_init and enable_interrupts of arch/arm/lib/interrupts.c set up
    the stacks and the CPU's mask, which are not part of the state. *)
Definition interrupt_init : M Z := arch_interrupt_init.

(** The handlers are numbered; their arguments are the addresses of the
    counters, [&irq_cnt_ecc_ocram_corrected] and the other. *)
Definition spl_interrupts (corrected uncorrected : Z) : M unit :=
  interrupt_init ;;;
  irq_register IRQ_ECC_OCRAM_CORRECTED (fxn 0) corrected 0 ;;;
  irq_register IRQ_ECC_OCRAM_UNCORRECTED (fxn 1) uncorrected 0 ;;;
  hw_watchdog_reset.

Definition spl_board_init (corrected uncorrected : Z) : M unit :=
  spl_freeze ;;;
  spl_hold_reset ;;;
  spl_clocks ;;;
  spl_configure_io ;;;
  spl_release ;;;
  spl_thaw ;;;
  spl_console ;;;
  spl_sdram ;;;
  spl_secure ;;;
  spl_interrupts corrected uncorrected.

End spl.

(** ** What the stages may change

    The interface between the preloader's stages and the globals: an invariant
    that survives the updates of the clock, the timer, the console and the
    vector table survives every stage that does not freeze or thaw a bank. *)
Class Stable (I : gdata -> Prop) := {
  stable_time : forall g t l, word t -> word l -> I g -> I (set_time t l g);
  stable_clocks : forall g a b c, I g -> I (set_clocks a b c g);
  stable_console : forall g b c, I g -> I (set_console b c g);
  stable_vectors : forall g g' v, length v = length (interrupt_vectors g) -> I g -> I g' -> I (set_vectors v g')
}.

Section stable.
Context {D : Type} `{Device D} (I : gdata -> Prop) `{!Stable I}.
Abbreviation M := (M D gdata).

Lemma pres_watchdog : preserves I (hw_watchdog_reset : M unit).
Proof. unfold hw_watchdog_reset, designware_wdt_is_enabled. inv_auto. Qed.

(** The timer's stamps are words. *)
Ltac time_ok :=
  apply stable_time; [| |assumption];
  repeat match goal with |- context [if ?b then _ else _] => destruct b end;
  first [ apply word_u32 | assumption | unfold word in *; lia
        | match goal with |- word (_ / ?d) => let x := eval vm_compute in d in change d with x end;
          unfold word in *; div_lia ].

Lemma pres_get_timer base : preserves I (get_timer base : M Z).
Proof. unfold get_timer, get_timer_masked, read_timer. inv_auto; time_ok. Qed.
Lemma pres_reset_timer : preserves I (reset_timer : M unit).
Proof. unfold reset_timer, read_timer. inv_auto; time_ok. Qed.
Lemma pres_delay_intosc fuel n : preserves I (delay_intosc fuel n : M unit).
Proof.
  unfold delay_intosc, reset_timer_count, wait_count_body, get_timer_count, get_timer_count_masked, read_timer.
  inv_auto; time_ok.
Qed.
Hint Resolve pres_watchdog pres_get_timer pres_reset_timer pres_delay_intosc : hw.

Lemma pres_cm_basic_init fuel cfg skip : preserves I (cm_basic_init fuel cfg skip : M Z).
Proof.
  unfold cm_basic_init, cm_gate_and_bypass, cm_reset_vco, cm_power_up_vco, cm_internal_dividers, cm_wait_timer,
    cm_enable_vco, cm_external_dividers, cm_wait_for_lock, wait_for_lock_body, cm_sdram_counters, cm_toggle_outreset,
    cm_leave_bypass, cm_write_with_phase, cm_write_bypass, cm_write_ctrl, cm_wait4fsm, wait_clear. inv_auto.
Qed.

Lemma pres_l4 : preserves I (cm_get_l4_sp_clk_hz : M Z).
Proof. unfold cm_get_l4_sp_clk_hz, main_vco_clk_hz, per_vco_clk_hz, div_by_reg, div_by. inv_auto. Qed.
Lemma pres_mmc : preserves I (cm_get_mmc_controller_clk_hz : M Z).
Proof. unfold cm_get_mmc_controller_clk_hz, main_vco_clk_hz, per_vco_clk_hz, div_by_reg, div_by. inv_auto. Qed.
Lemma pres_qspi : preserves I (cm_get_qspi_controller_clk_hz : M Z).
Proof. unfold cm_get_qspi_controller_clk_hz, main_vco_clk_hz, per_vco_clk_hz, div_by_reg, div_by. inv_auto. Qed.
Lemma pres_mpu : preserves I (cm_get_mpu_clk_hz : M Z).
Proof. unfold cm_get_mpu_clk_hz, main_vco_clk_hz, div_by_reg, div_by. inv_auto. Qed.
Lemma pres_ddr : preserves I (cm_get_sdram_clk_hz : M Z).
Proof. unfold cm_get_sdram_clk_hz, div_by_reg, div_by. inv_auto. Qed.
Hint Resolve pres_cm_basic_init pres_l4 pres_mmc pres_qspi pres_mpu pres_ddr : hw.

Lemma pres_derive : preserves I (cm_derive_clocks_for_drivers : M unit).
Proof. unfold cm_derive_clocks_for_drivers. inv_auto; by apply stable_clocks. Qed.
Lemma pres_summary : preserves I (cm_print_clock_quick_summary : M unit).
Proof. unfold cm_print_clock_quick_summary. inv_auto. Qed.
Hint Resolve pres_derive pres_summary : hw.

Lemma pres_scan id len tbl : preserves I (scan_mgr_io_scan_chain_prg id len tbl : M Z).
Proof.
  unfold scan_mgr_io_scan_chain_prg, sys_mgr_frzctrl_frzchn_is_frozen, scan_packet128, scan_packet_tail, scan_check_done,
    scan_mgr_io_scan_chain_engine_is_idle. inv_auto.
Qed.

Lemma pres_ready : preserves I (is_fpgamgr_fpga_ready : M Z).
Proof. unfold is_fpgamgr_fpga_ready, is_fpgamgr_initdone_high, fpgamgr_get_mode. inv_auto. Qed.
Hint Resolve pres_scan pres_ready : hw.

Lemma pres_pinmux table : preserves I (sysmgr_pinmux_init table : M unit).
Proof. unfold sysmgr_pinmux_init, pinmux_entry, populate_sysmgr_fpgaintf_module, populate_signal. inv_auto. Qed.

Lemma pres_write_verify off v : preserves I (sdram_write_verify off v : M Z).
Proof. unfold sdram_write_verify. inv_auto. Qed.

Lemma pres_block off fs : preserves I (mmr_block off fs : M Z).
Proof. unfold mmr_block, sdram_write_verify. inv_auto. Qed.

Lemma pres_block_noverify off fs : preserves I (mmr_block_noverify off fs : M Z).
Proof. unfold mmr_block_noverify. inv_auto. Qed.

Lemma pres_errata memsize cs width rows banks cols :
  preserves I (compute_errata_rows memsize cs width rows banks cols : M Z).
Proof.
  assert (Hd : forall n d, preserves I (lldiv_m n d : M Z)).
  { intros n d. unfold lldiv_m. destruct (lldiv n d); inv_auto. }
  unfold compute_errata_rows. apply preserves_bind; [apply Hd|intros n1].
  apply preserves_bind; [apply Hd|intros n2]. inv_auto.
Qed.

Lemma pres_stages ms k : Forall (fun m => preserves I m) ms -> preserves I k -> preserves I (stages ms k : M Z).
Proof.
  intros Hms Hk. induction Hms as [|m ms Hm _ IH]; cbn [stages]; [done|].
  apply preserves_bind; [done|]. intros r. destruct (r =? 1); [apply preserves_ret|done].
Qed.

Ltac pres_stage :=
  match goal with
  | |- preserves _ (mmr_block _ _) => apply pres_block
  | |- preserves _ (mmr_block_noverify _ _) => apply pres_block_noverify
  | |- preserves _ mmr_ctrlcfg => unfold mmr_ctrlcfg, addrorder_of, sdram_write_verify; inv_auto
  | |- preserves _ mmr_dramaddrw => unfold mmr_dramaddrw; apply preserves_bind;
      [apply preserves_readl|intros ?; apply preserves_bind; [apply pres_errata|intros ?; apply pres_write_verify]]
  | |- preserves _ mmr_phyctrl_0 => apply pres_write_verify
  | |- preserves _ mmr_fpgaportrst => unfold mmr_fpgaportrst, sdram_write_verify; inv_auto
  end.

Lemma pres_mmr_stages : Forall (fun m => preserves I m) (mmr_stages : list (M Z)).
Proof. unfold mmr_stages. repeat (apply Forall_cons; split; [pres_stage|]). apply Forall_nil. exact Logic.I. Qed.

Lemma pres_mmr phy junk : preserves I (sdram_mmr_init_full phy junk : M Z).
Proof.
  unfold sdram_mmr_init_full. apply preserves_bind; [apply preserves_writel|intros _].
  apply pres_stages; [apply pres_mmr_stages|].
  unfold mmr_apply, sdram_calculate_size, sdram_set_protection_config, sdram_set_rule, sdram_dump_protection_config,
    sdram_get_rule. inv_auto.
Qed.

Lemma pres_self_refresh : preserves I (sdram_check_self_refresh_seq : M Z).
Proof.
  unfold sdram_check_self_refresh_seq, poll_selfrfshack, selfrfshack, lowpwreq_set, mmr_block, sdram_write_verify. inv_auto.
Qed.

Lemma pres_register intrID f arg level : preserves I (irq_register intrID f arg level : M Z).
Proof.
  unfold irq_register, gic_dic_set_config, gic_dic_set_target_processor, gic_dic_set_enable.
  inv_auto. match goal with |- I (set_vectors (<[_ := _]> (interrupt_vectors ?g)) _) => apply (stable_vectors g) end;
    [by rewrite length_insert|done|done].
Qed.
Hint Resolve pres_pinmux pres_mmr pres_self_refresh pres_register : hw.

(** *** The stages *)

Context (fuel : nat) (h : reset_handoff) (sdram_calibration : M Z) (junk : sdram_prot_rule).
Context (ecc_padding_end : Z) (ramboot_code : list Z).

Lemma pres_hold_reset : preserves I (spl_hold_reset h : M unit).
Proof.
  unfold spl_hold_reset, reset_assert_all_peripherals_except_l4wd0, reset_assert_all_peripherals_except_l4wd0_and_sdr,
    reset_assert_all_bridges. inv_auto.
Qed.

Lemma pres_clocks : preserves I (spl_clocks fuel h ecc_padding_end ramboot_code : M unit).
Proof. unfold spl_clocks, reset_deassert_osc1timer0, timer_init, ram_boot_setup. inv_auto. Qed.

Lemma pres_configure_io : preserves I (spl_configure_io h : M unit).
Proof. unfold spl_configure_io, with_handshake, spl_scan_chains, sysmgr_sdmmc_pweren_mux_check. inv_auto. Qed.

Lemma pres_release : preserves I (spl_release h : M unit).
Proof. unfold spl_release, reset_deassert_peripherals_handoff, reset_deassert_bridges_handoff. inv_auto. Qed.

Lemma pres_console : preserves I (spl_console fuel : M unit).
Proof.
  unfold spl_console, preloader_console_init, serial_init, calc_divisor, NS16550_init, wait_lsr, serial_in, serial_out, checkboard.
  inv_auto; by apply stable_console.
Qed.

Lemma pres_sdram : preserves I sdram_calibration -> preserves I (spl_sdram h sdram_calibration junk : M unit).
Proof. intros Hc. unfold spl_sdram, reset_cpu, sdram_calculate_size. inv_auto. Qed.

Lemma pres_secure : preserves I (spl_secure : M unit).
Proof. unfold spl_secure, nic301_slave_ns. inv_auto. Qed.

Lemma pres_interrupts c u : preserves I (spl_interrupts c u : M unit).
Proof.
  unfold spl_interrupts, interrupt_init, arch_interrupt_init, gic_dic_disable_secure, gic_dic_clear_enable_all_intr,
    gic_dic_clear_pending_all_intr, gic_cpu_set_priority_mask, gic_dic_enable_secure, gic_cpu_enable. inv_auto.
Qed.

End stable.

(** ** Well-formed globals *)

Definition gdata_wf (g : gdata) : Prop :=
  length (frzctrl_channel_freeze g) = 4%nat /\
  Forall (fun f => f = FREEZE_CTRL_FROZEN \/ f = FREEZE_CTRL_THAWED) (frzctrl_channel_freeze g) /\
  length (interrupt_vectors g) = Z.to_nat MAX_INT_VECTORS /\
  word (tbl g) /\ word (lastinc g) /\
  word (irq_cnt_ecc_sdram g) /\ word (irq_cnt_ecc_ocram_corrected g) /\ word (irq_cnt_ecc_ocram_uncorrected g).

#[export] Instance gdata_wf_stable : Stable gdata_wf.
Proof.
  split; unfold gdata_wf; cbn; try tauto.
  intros g g' v -> (_ & _ & ? & _) (? & ? & _ & ?). tauto.
Qed.

(** The flags of the banks and the cause of the reset. *)
Definition boot_globals (flags : list Z) (status : Z) (g : gdata) : Prop :=
  frzctrl_channel_freeze g = flags /\ rst_mgr_status g = status.

#[export] Instance boot_globals_stable flags status : Stable (boot_globals flags status).
Proof. split; unfold boot_globals; cbn; tauto. Qed.

Section spl_globals.
Context {D : Type} `{Device D}.
Abbreviation M := (M D gdata).

Lemma wf_channel_flag c v : v = FREEZE_CTRL_FROZEN \/ v = FREEZE_CTRL_THAWED ->
  preserves gdata_wf (set_channel_flag c v : M unit).
Proof.
  intros Hv. unfold set_channel_flag. apply preserves_get. intros g Hg. cbv zeta. inv_auto.
  destruct Hg as (Hl & Hf & _). unfold gdata_wf in *. cbn. split; [by rewrite length_insert|].
  split; [by apply Forall_insert|]. tauto.
Qed.

Lemma wf_freeze c : preserves gdata_wf (sys_mgr_frzctrl_freeze_req c FREEZE_CONTROLLER_FSM_SW : M Z).
Proof.
  assert (Hf : forall c, preserves gdata_wf (set_channel_flag c FREEZE_CTRL_FROZEN : M unit)).
  { intros ?. apply wf_channel_flag. by left. }
  unfold sys_mgr_frzctrl_freeze_req, freeze_vio, freeze_hio. inv_auto.
Qed.

Lemma wf_thaw fuel c : preserves gdata_wf (sys_mgr_frzctrl_thaw_req fuel c FREEZE_CONTROLLER_FSM_SW : M Z).
Proof.
  assert (Hf : forall c, preserves gdata_wf (set_channel_flag c FREEZE_CTRL_THAWED : M unit)).
  { intros ?. apply wf_channel_flag. by right. }
  pose proof (pres_delay_intosc (D:=D) gdata_wf) as Hd.
  unfold sys_mgr_frzctrl_thaw_req, thaw_vio, thaw_hio. inv_auto.
Qed.

Lemma wf_set_irq_cnt g a b c : gdata_wf g -> word a -> word b -> word c -> gdata_wf (set_irq_cnt a b c g).
Proof. unfold gdata_wf. cbn. tauto. Qed.

Ltac irq_count := apply wf_set_irq_cnt; auto using word_u32; unfold gdata_wf in *; tauto.

Lemma wf_ecc_handlers n arg : preserves gdata_wf (ecc_handlers n arg : M unit).
Proof.
  destruct n as [|[|n]]; cbn [ecc_handlers];
    unfold irq_handler_ecc_ocram_corrected, irq_handler_ecc_ocram_uncorrected; inv_auto; irq_count.
Qed.

(** The shared globals stay well formed: four bank flags that are frozen or
    thawed, a vector table of 212 entries, time stamps and error counters of 32
    bits.  Everything that runs in the preloader keeps this, also when it stops
    half way: the start-up code, the whole board initialisation (with any
    calibration that keeps it), and the three ECC interrupt handlers, alone and
    through the dispatcher. *)
Theorem preloader_globals_wf fuel h (sdram_calibration : M Z) junk pad code c u base :
  preserves gdata_wf sdram_calibration ->
  (forall r0, preserves gdata_wf (save_boot_params r0 : M unit)) /\
  (forall start n, preserves gdata_wf (s_init start n : M unit)) /\
  preserves gdata_wf (spl_board_init fuel h sdram_calibration junk pad code c u) /\
  preserves gdata_wf (do_irq ecc_handlers base : M unit) /\
  (forall arg, preserves gdata_wf (irq_handler_ecc_sdram arg : M unit)).
Proof.
  intros Hcal. split_and!.
  - intros r0. unfold save_boot_params. inv_auto; done.
  - intros start n. pose proof (pres_watchdog (D:=D) gdata_wf) as Hw.
    unfold s_init, is_wdt_in_reset, watchdog_disable, reset_deassert_osc1wd0, hw_watchdog_init,
      designware_wdt_settimeout, designware_wdt_enable. inv_auto.
  - pose proof (pres_watchdog (D:=D) gdata_wf) as Hw. pose proof wf_freeze as Hf. pose proof (wf_thaw fuel) as Ht.
    unfold spl_board_init.
    apply preserves_bind; [unfold spl_freeze; inv_auto|intros _].
    apply preserves_bind; [apply (pres_hold_reset gdata_wf)|intros _].
    apply preserves_bind; [apply (pres_clocks gdata_wf)|intros _].
    apply preserves_bind; [apply (pres_configure_io gdata_wf)|intros _].
    apply preserves_bind; [apply (pres_release gdata_wf)|intros _].
    apply preserves_bind; [unfold spl_thaw; inv_auto|intros _].
    apply preserves_bind; [apply (pres_console gdata_wf)|intros _].
    apply preserves_bind; [by apply (pres_sdram gdata_wf)|intros _].
    apply preserves_bind; [apply (pres_secure gdata_wf)|intros _]. apply (pres_interrupts gdata_wf).
  - pose proof wf_ecc_handlers as Hh.
    unfold do_irq, call_fxn, gic_cpu_get_pending_intr, gic_dic_clear_pending, gic_cpu_end_of_intr. inv_auto.
  - intros arg. unfold irq_handler_ecc_sdram, sdram_enable_interrupt.
    inv_auto; irq_count.
Qed.

End spl_globals.

(** ** Freezing and thawing the banks *)

Section spl_order.
Context {D : Type} `{Device D}.
Abbreviation M := (M D gdata).
Context (fuel : nat) (h : reset_handoff) (sdram_calibration : M Z) (junk : sdram_prot_rule).
Context (ecc_padding_end : Z) (ramboot_code : list Z) (corrected uncorrected : Z).

Lemma freeze_sw c (s : st D gdata) :
  c <> FREEZE_CHANNEL_UNDEFINED -> length (frzctrl_channel_freeze (glob s)) = 4%nat ->
  wp (sys_mgr_frzctrl_freeze_req c FREEZE_CONTROLLER_FSM_SW : M Z) s (fun o s' _ => o = Val 0 /\
    glob s' = set_freeze (<[Z.to_nat (channel_num c) := FREEZE_CTRL_FROZEN]> (frzctrl_channel_freeze (glob s))) (glob s)).
Proof.
  intros Hc Hl. unfold sys_mgr_frzctrl_freeze_req, freeze_vio, freeze_hio.
  destruct c; [..|done]; cbv iota; wp_line; apply wp_set_channel_flag; try done; cbv beta iota; wp_line; done.
Qed.

(** The watchdog does not touch the globals. *)
Lemma watchdog_glob (s : st D gdata) (Q : outcome unit -> st D gdata -> trace -> Prop) :
  (forall s' t, glob s' = glob s -> Q (Val tt) s' t) -> wp hw_watchdog_reset s Q.
Proof.
  intros HQ. apply wp_total; [apply watchdog_total|]. intros [] _. apply HQ.
  by apply (pres_watchdog (fun g => g = glob s)).
Qed.

(** The flags after the first stage. *)
Lemma spl_freeze_flags (s : st D gdata) :
  length (frzctrl_channel_freeze (glob s)) = 4%nat -> sdram_not_preserved h (glob s) = true ->
  wp (spl_freeze h : M unit) s (fun o s' _ => o = Val tt /\ glob s' = set_freeze [0; 0; 0; 0] (glob s)).
Proof.
  intros Hl Hp. unfold spl_freeze. wp_step. apply watchdog_glob. intros s0 t0 E0. cbv beta iota.
  rewrite <- E0 in *. clear E0 s t0. destruct (frzctrl_channel_freeze (glob s0)) as [|f0 [|f1 [|f2 [|f3 [|]]]]] eqn:Ef; try done.
  wp_step. eapply wp_mono; [apply freeze_sw; [done|by rewrite Ef]|]. intros o1 s1 t1 [-> E1]. cbv beta iota.
  wp_step. eapply wp_mono; [apply freeze_sw; [done|by rewrite E1, Ef]|]. intros o2 s2 t2 [-> E2]. cbv beta iota.
  wp_step. eapply wp_mono; [apply freeze_sw; [done|by rewrite E2, E1, Ef]|]. intros o3 s3 t3 [-> E3]. cbv beta iota.
  rewrite E1, Ef in E2. rewrite E2 in E3. cbn in E3. do 2 wp_step.
  replace (sdram_not_preserved h (glob s3)) with true by (by rewrite E3). cbn [when]. wp_step.
  eapply wp_mono; [apply freeze_sw; [done|by rewrite E3]|]. intros o4 s4 t4 [-> E4]. cbv beta iota. wp_step.
  split; [done|]. rewrite E4, E3. reflexivity.
Qed.

(** *** Registers of the banks *)

Lemma keeps_freeze a `{!Reg D a} c : io_reg c <> a -> SRC_REG <> a ->
  keeps a (sys_mgr_frzctrl_freeze_req c FREEZE_CONTROLLER_FSM_SW : M Z).
Proof.
  intros Hc Hs. unfold sys_mgr_frzctrl_freeze_req, freeze_vio, freeze_hio, set_channel_flag.
  destruct c; cbn [io_reg] in Hc; cbv beta iota zeta; keeps_auto.
Qed.

Definition bank (c : FreezeChannelSelect) : Prop := c <> FREEZE_CHANNEL_UNDEFINED.

(** One freeze: the globals, and the register of every bank. *)
Lemma freeze_step c c' `{!Reg D (io_reg c)} (s : st D gdata) : bank c -> bank c' ->
  length (frzctrl_channel_freeze (glob s)) = 4%nat ->
  wp (sys_mgr_frzctrl_freeze_req c' FREEZE_CONTROLLER_FSM_SW : M Z) s (fun o s' _ => o = Val 0 /\
    glob s' = set_freeze (<[Z.to_nat (channel_num c') := FREEZE_CTRL_FROZEN]> (frzctrl_channel_freeze (glob s))) (glob s) /\
    reg (io_reg c) s' = if channel_num c' =? channel_num c then frozen_word c (reg (io_reg c) s) else reg (io_reg c) s).
Proof.
  intros Hc Hc' Hl. eapply wp_mono.
  - apply wp_and; [by apply freeze_sw|].
    instantiate (1 := fun _ s' _ => reg (io_reg c) s' =
      if channel_num c' =? channel_num c then frozen_word c (reg (io_reg c) s) else reg (io_reg c) s).
    destruct (Z.eqb_spec (channel_num c') (channel_num c)) as [E|E].
    + assert (c' = c) as -> by (by destruct c, c'). by apply freeze_req_reg.
    + apply (wp_kept (io_reg c)), keeps_freeze; [|apply io_reg_src]. by destruct c, c'; vm_compute.
  - intros o s' t [[-> Hg] Hr]. by repeat split.
Qed.

Lemma spl_freeze_bank c `{!Reg D (io_reg c)} (s : st D gdata) : bank c ->
  length (frzctrl_channel_freeze (glob s)) = 4%nat -> sdram_not_preserved h (glob s) = true ->
  wp (spl_freeze h : M unit) s (fun _ s' _ => reg (io_reg c) s' = frozen_word c (reg (io_reg c) s)).
Proof.
  intros Hc Hl Hp. unfold spl_freeze. wp_step.
  assert (Hw : CONFIG_DW_WDT_BASE + DW_WDT_CRR <> io_reg c) by (by destruct c; vm_compute).
  eapply wp_mono; [apply wp_and; [apply (wp_kept (io_reg c)), keeps_watchdog; exact Hw|]|].
  { apply watchdog_glob with (Q := fun o s' _ => o = Val tt /\ glob s' = glob s). intros s0 t0 E0. by split. }
  intros o0 s0 t0 [R0 [-> E0]]. cbv beta iota. rewrite <- E0, <- R0 in *. clear R0 E0.
  assert (Hb : forall c, c <> FREEZE_CHANNEL_UNDEFINED -> bank c) by done.
  wp_step. eapply wp_mono; [by apply (freeze_step c)|]. intros o1 s1 t1 (-> & E1 & R1). cbv beta iota.
  assert (L1 : length (frzctrl_channel_freeze (glob s1)) = 4%nat) by (rewrite E1; cbn; by rewrite length_insert).
  wp_step. eapply wp_mono; [by apply (freeze_step c)|]. intros o2 s2 t2 (-> & E2 & R2). cbv beta iota.
  assert (L2 : length (frzctrl_channel_freeze (glob s2)) = 4%nat) by (rewrite E2; cbn; by rewrite length_insert).
  wp_step. eapply wp_mono; [by apply (freeze_step c)|]. intros o3 s3 t3 (-> & E3 & R3). cbv beta iota.
  assert (L3 : length (frzctrl_channel_freeze (glob s3)) = 4%nat) by (rewrite E3; cbn; by rewrite length_insert).
  do 2 wp_step. replace (sdram_not_preserved h (glob s3)) with true by (by rewrite E3, E2, E1). cbn [when].
  wp_step. eapply wp_mono; [by apply (freeze_step c)|]. intros o4 s4 t4 (-> & E4 & R4). cbv beta iota. wp_step.
  rewrite R4, R3, R2, R1. by destruct c.
Qed.

(** *** The stages up to the I/O configuration keep the banks frozen *)

Lemma ramboot_addr_high : forall e, CONFIG_SYS_INIT_RAM_ADDR + 0xf000 <=
  (if e >? CONFIG_SYS_INIT_RAM_ADDR + 0xf000 then e else CONFIG_SYS_INIT_RAM_ADDR + 0xf000).
Proof. intros e. rewrite Z.gtb_ltb. destruct (Z.ltb_spec (CONFIG_SYS_INIT_RAM_ADDR + 0xf000) e); lia. Qed.

Lemma keeps_ramboot a `{!Reg D a} e code : a < CONFIG_SYS_INIT_RAM_ADDR ->
  CONFIG_SYSMGR_WARMRAMGRP_EXECUTION <> a -> CONFIG_SYSMGR_WARMRAMGRP_ENABLE <> a ->
  keeps a (ram_boot_setup e code : M unit).
Proof.
  intros Ha H1 H2. unfold ram_boot_setup. pose proof (ramboot_addr_high e) as Hr. revert Hr.
  generalize (if e >? CONFIG_SYS_INIT_RAM_ADDR + 0xf000 then e else CONFIG_SYS_INIT_RAM_ADDR + 0xf000). intros base Hb.
  keeps_step; [apply keeps_readl|intros v]. cbv zeta. unfold when. destruct (negb _); [|apply keeps_ret].
  keeps_step; [|intros _; keeps_auto]. apply keeps_for. intros i. unfold array_get.
  destruct (Z.ltb_spec i 0); [by intros s|]. change CONFIG_SYS_INIT_RAM_ADDR with 0xFFFF0000 in *. keeps_auto.
Qed.

Lemma keeps_hold_reset c `{!Reg D (io_reg c)} : keeps (io_reg c) (spl_hold_reset h : M unit).
Proof.
  unfold spl_hold_reset, reset_assert_all_peripherals_except_l4wd0, reset_assert_all_peripherals_except_l4wd0_and_sdr,
    reset_assert_all_bridges, hw_watchdog_reset, designware_wdt_is_enabled.
  destruct c; keeps_auto.
Qed.

Lemma keeps_cm a `{!Reg D a} cfg skip :
  (forall off, 0 <= off < 0x200 -> CM off <> a) -> keeps a (cm_basic_init fuel cfg skip : M Z).
Proof.
  intros Ha.
  assert (Hne : forall off, (0 <=? off) && (off <? 0x200) = true -> CM off <> a).
  { intros off Ho. apply Ha. rewrite andb_true_iff, Z.leb_le, Z.ltb_lt in Ho. lia. }
  unfold cm_basic_init, cm_gate_and_bypass, cm_reset_vco, cm_power_up_vco, cm_internal_dividers, cm_wait_timer,
    cm_enable_vco, cm_external_dividers, cm_wait_for_lock, wait_for_lock_body, cm_sdram_counters, cm_toggle_outreset,
    cm_leave_bypass, cm_write_with_phase, cm_write_bypass, cm_write_ctrl, cm_wait4fsm, wait_clear,
    get_timer, get_timer_masked, reset_timer, read_timer.
  repeat match goal with
  | |- keeps _ (writel _ (CM _)) => apply keeps_writel, Hne; reflexivity
  | |- keeps _ (setbits_le32 (CM _) _) => apply keeps_setbits, Hne; reflexivity
  | |- keeps _ (clrbits_le32 (CM _) _) => apply keeps_clrbits, Hne; reflexivity
  | _ => keeps_step
  end.
Qed.

Lemma keeps_derive a `{!Reg D a} : keeps a (cm_derive_clocks_for_drivers : M unit).
Proof.
  unfold cm_derive_clocks_for_drivers, cm_get_l4_sp_clk_hz, cm_get_mmc_controller_clk_hz, cm_get_qspi_controller_clk_hz,
    main_vco_clk_hz, per_vco_clk_hz, div_by_reg, div_by, udiv. keeps_auto.
Qed.

Lemma keeps_clocks c `{!Reg D (io_reg c)} : bank c -> keeps (io_reg c) (spl_clocks fuel h ecc_padding_end ramboot_code : M unit).
Proof.
  intros Hc. assert (Hcm : forall off, 0 <= off < 0x200 -> CM off <> io_reg c).
  { intros off Ho. unfold CM. change SOCFPGA_CLKMGR_ADDRESS with 0xffd04000.
    assert (0xffd08040 <= io_reg c) by (destruct c; vm_compute; congruence). lia. }
  assert (Hlow : io_reg c < CONFIG_SYS_INIT_RAM_ADDR) by (by destruct c; vm_compute).
  unfold spl_clocks, reset_deassert_osc1timer0, timer_init.
  keeps_step; [destruct c; keeps_auto|intros _]. keeps_step; [destruct c; keeps_auto|intros _].
  keeps_step; [apply keeps_watchdog; by destruct c; vm_compute|intros _].
  keeps_step; [apply keeps_ramboot; [done|by destruct c; vm_compute..]|intros _].
  keeps_step; [apply keeps_get|intros g]. keeps_step; [|intros _; apply keeps_derive].
  destruct (sdram_not_preserved h g); by apply keeps_cm.
Qed.

(** *** Scan data is shifted by the I/O configuration only

    The other stages are calm: they do not write the scan FIFOs, and only the
    last but one opens the security groups of the interconnect. *)

Definition secgrp : list Z := map (Z.add SOCFPGA_L3REGS_ADDRESS)
  [L3REGS_SECGRP_LWHPS2FPGAREGS_ADDRESS; L3REGS_SECGRP_HPS2FPGAREGS_ADDRESS; L3REGS_SECGRP_ACP_ADDRESS;
   L3REGS_SECGRP_ROM_ADDRESS; L3REGS_SECGRP_OCRAM_ADDRESS; L3REGS_SECGRP_SDRDATA_ADDRESS].

Definition closed (e : event) : Prop :=
  match e with Wr a _ => forallb (fun b => negb (a =? b)) secgrp = true | _ => True end.
Definition calm (e : event) : Prop := no_fifo e /\ closed e.

Lemma calm_watchdog : only calm (hw_watchdog_reset : M unit).
Proof. unfold hw_watchdog_reset, designware_wdt_is_enabled. hw_auto. Qed.
Hint Resolve calm_watchdog : hw.

Lemma calm_freeze c : only calm (sys_mgr_frzctrl_freeze_req c FREEZE_CONTROLLER_FSM_SW : M Z).
Proof. unfold sys_mgr_frzctrl_freeze_req, freeze_vio, freeze_hio, set_channel_flag. destruct c; hw_auto. Qed.
Lemma calm_delay n : only calm (delay_intosc fuel n : M unit).
Proof.
  unfold delay_intosc, reset_timer_count, wait_count_body, get_timer_count, get_timer_count_masked, read_timer.
  hw_auto; apply only_while; hw_auto.
Qed.
Hint Resolve calm_freeze calm_delay : hw.
Lemma calm_thaw c : only calm (sys_mgr_frzctrl_thaw_req fuel c FREEZE_CONTROLLER_FSM_SW : M Z).
Proof. unfold sys_mgr_frzctrl_thaw_req, thaw_vio, thaw_hio, set_channel_flag. destruct c; hw_auto. Qed.
Hint Resolve calm_thaw : hw.

Lemma calm_hold_reset : only calm (spl_hold_reset h : M unit).
Proof.
  unfold spl_hold_reset, reset_assert_all_peripherals_except_l4wd0, reset_assert_all_peripherals_except_l4wd0_and_sdr,
    reset_assert_all_bridges. hw_auto.
Qed.

Lemma calm_ramboot e code : only calm (ram_boot_setup e code : M unit).
Proof.
  unfold ram_boot_setup. pose proof (ramboot_addr_high e) as Hr. revert Hr.
  generalize (if e >? CONFIG_SYS_INIT_RAM_ADDR + 0xf000 then e else CONFIG_SYS_INIT_RAM_ADDR + 0xf000). intros base Hb.
  apply only_bind; [hw_auto|intros v]. cbv zeta. apply only_when. intros _.
  apply only_bind; [|intros _; hw_auto]. apply only_for. intros i. unfold array_get.
  destruct (Z.ltb_spec i 0); [intros s; constructor|].
  destruct (code !! Z.to_nat i); [|intros s; constructor]. apply only_bind; [hw_auto|intros w].
  apply only_bind; [|intros _; hw_auto]. apply only_writel. change CONFIG_SYS_INIT_RAM_ADDR with 0xFFFF0000 in *.
  assert (Hf : FIFO1_REG < 0xFFFF0000 /\ FIFO2_REG < 0xFFFF0000 /\ FIFO4_REG < 0xFFFF0000) by (by vm_compute).
  split; [unfold no_fifo; lia|]. apply forallb_forall. intros b Hin.
  assert (Hs : Forall (fun b => b < 0xFFFF0000) secgrp) by (repeat constructor).
  rewrite negb_true_iff, Z.eqb_neq. rewrite List.Forall_forall in Hs. apply Hs in Hin. lia.
Qed.

Lemma calm_cm cfg skip : only calm (cm_basic_init fuel cfg skip : M Z).
Proof.
  unfold cm_basic_init, cm_gate_and_bypass, cm_reset_vco, cm_power_up_vco, cm_internal_dividers, cm_wait_timer,
    cm_enable_vco, cm_external_dividers, cm_wait_for_lock, wait_for_lock_body, cm_sdram_counters, cm_toggle_outreset,
    cm_leave_bypass, cm_write_with_phase, cm_write_bypass, cm_write_ctrl, cm_wait4fsm, wait_clear,
    get_timer, get_timer_masked, reset_timer, read_timer.
  repeat first [apply only_while | hw_step].
Qed.

Lemma calm_derive : only calm (cm_derive_clocks_for_drivers : M unit).
Proof.
  unfold cm_derive_clocks_for_drivers, cm_get_l4_sp_clk_hz, cm_get_mmc_controller_clk_hz, cm_get_qspi_controller_clk_hz,
    main_vco_clk_hz, per_vco_clk_hz, div_by_reg, div_by, udiv. hw_auto.
Qed.
Hint Resolve calm_ramboot calm_cm calm_derive : hw.

Lemma calm_clocks : only calm (spl_clocks fuel h ecc_padding_end ramboot_code : M unit).
Proof. unfold spl_clocks, reset_deassert_osc1timer0, timer_init. hw_auto. Qed.

Lemma calm_release : only calm (spl_release h : M unit).
Proof.
  unfold spl_release, reset_deassert_peripherals_handoff, reset_deassert_bridges_handoff, is_fpgamgr_fpga_ready,
    is_fpgamgr_initdone_high, fpgamgr_get_mode. hw_auto.
Qed.

Lemma calm_console : only calm (spl_console fuel : M unit).
Proof.
  unfold spl_console, preloader_console_init, serial_init, calc_divisor, NS16550_init, wait_lsr, serial_in, serial_out,
    checkboard, cm_print_clock_quick_summary, cm_get_mpu_clk_hz, cm_get_sdram_clk_hz, cm_get_l4_sp_clk_hz,
    cm_get_mmc_controller_clk_hz, cm_get_qspi_controller_clk_hz, main_vco_clk_hz, per_vco_clk_hz, div_by_reg, div_by, udiv.
  repeat first [apply only_while | hw_step].
Qed.

Lemma only_stages P ms k : Forall (fun m => only P m) ms -> only P k -> only P (stages ms k : M Z).
Proof.
  intros Hms Hk. induction Hms as [|m ms Hm _ IH]; cbn [stages]; [done|].
  apply only_bind; [done|]. intros r. destruct (r =? 1); [apply only_ret|done].
Qed.

Lemma calm_errata memsize cs width rows banks cols :
  only calm (compute_errata_rows memsize cs width rows banks cols : M Z).
Proof.
  assert (Hd : forall n d, only calm (lldiv_m n d : M Z)).
  { intros n d. unfold lldiv_m. destruct (lldiv n d); hw_auto. }
  unfold compute_errata_rows. apply only_bind; [apply Hd|intros n1]. apply only_bind; [apply Hd|intros n2]. hw_auto.
Qed.

Ltac calm_stage :=
  match goal with
  | |- only _ (mmr_block _ _) => unfold mmr_block, sdram_write_verify; hw_auto
  | |- only _ (mmr_block_noverify _ _) => unfold mmr_block_noverify; hw_auto
  | |- only _ mmr_ctrlcfg => unfold mmr_ctrlcfg, addrorder_of, sdram_write_verify; hw_auto
  | |- only _ mmr_dramaddrw => unfold mmr_dramaddrw; apply only_bind; [hw_auto|intros ?];
      apply only_bind; [apply calm_errata|intros ?]; unfold sdram_write_verify; hw_auto
  | |- only _ mmr_phyctrl_0 => unfold mmr_phyctrl_0, sdram_write_verify; hw_auto
  | |- only _ mmr_fpgaportrst => unfold mmr_fpgaportrst, sdram_write_verify, is_fpgamgr_fpga_ready,
      is_fpgamgr_initdone_high, fpgamgr_get_mode; hw_auto
  end.

Lemma calm_mmr_stages : Forall (fun m => only calm m) (mmr_stages : list (M Z)).
Proof. unfold mmr_stages. repeat (apply Forall_cons; split; [calm_stage|]). apply Forall_nil. exact Logic.I. Qed.

Lemma calm_mmr phy : only calm (sdram_mmr_init_full phy junk : M Z).
Proof.
  unfold sdram_mmr_init_full. apply only_bind; [hw_auto|intros _]. apply only_stages; [apply calm_mmr_stages|].
  unfold mmr_apply, sdram_calculate_size, sdram_set_protection_config, sdram_set_rule, sdram_dump_protection_config,
    sdram_get_rule. hw_auto.
Qed.

Lemma calm_self_refresh : only calm (sdram_check_self_refresh_seq : M Z).
Proof.
  unfold sdram_check_self_refresh_seq, poll_selfrfshack, selfrfshack, lowpwreq_set, mmr_block, sdram_write_verify. hw_auto.
Qed.
Hint Resolve calm_mmr calm_self_refresh : hw.

Lemma calm_sdram : only calm sdram_calibration -> only calm (spl_sdram h sdram_calibration junk : M unit).
Proof. intros Hc. unfold spl_sdram, reset_cpu, sdram_calculate_size. hw_auto. Qed.

Lemma nofifo_secure : only no_fifo (spl_secure : M unit).
Proof.
  unfold spl_secure, nic301_slave_ns. apply only_bind; [eapply only_weaken; [|apply calm_watchdog]; by intros e []|intros _].
  hw_auto.
Qed.

Lemma calm_interrupts : only calm (spl_interrupts corrected uncorrected : M unit).
Proof.
  unfold spl_interrupts, interrupt_init, arch_interrupt_init, gic_dic_disable_secure, gic_dic_clear_enable_all_intr,
    gic_dic_clear_pending_all_intr, gic_cpu_set_priority_mask, gic_dic_enable_secure, gic_cpu_enable, irq_register,
    gic_dic_set_config, gic_dic_set_target_processor, gic_dic_set_enable. hw_auto.
Qed.

(** What runs after the I/O configuration. *)
Definition spl_after_io : M unit :=
  spl_release h ;;; spl_thaw fuel h ;;; spl_console fuel ;;; spl_sdram h sdram_calibration junk ;;;
  spl_secure ;;; spl_interrupts corrected uncorrected.

Lemma calm_nofifo {A} (m : M A) : only calm m -> only no_fifo m.
Proof. apply only_weaken. by intros e []. Qed.

Lemma calm_closed {A} (m : M A) : only calm m -> only closed m.
Proof. apply only_weaken. by intros e []. Qed.

Lemma calm_thaw_stage : only calm (spl_thaw fuel h : M unit).
Proof. unfold spl_thaw. hw_auto. Qed.

Lemma nofifo_after_io : only calm sdram_calibration -> only no_fifo spl_after_io.
Proof.
  intros Hc. unfold spl_after_io. apply only_bind; [apply calm_nofifo, calm_release|intros _].
  apply only_bind; [apply calm_nofifo, calm_thaw_stage|intros _].
  apply only_bind; [apply calm_nofifo, calm_console|intros _].
  apply only_bind; [by apply calm_nofifo, calm_sdram|intros _]. apply only_bind; [apply nofifo_secure|intros _].
  apply calm_nofifo, calm_interrupts.
Qed.

(** A scan leaves the control register of every bank alone, but for the DLL
    reset that the scan of the DDR bank releases. *)
Lemma scan_bank c id len tbl `{!Reg D (io_reg c)} (s : st D gdata) : bank c ->
  let keep := .~ SYSMGR_FRZCTRL_HIOCTRL_DLLRST_MASK in
  wp (scan_mgr_io_scan_chain_prg id len tbl : M Z) s (fun _ s' _ =>
    reg (io_reg c) s' .& keep = reg (io_reg c) s .& keep).
Proof.
  intros Hc keep. unfold scan_mgr_io_scan_chain_prg. wp_step.
  eapply wp_mono; [apply (wp_kept (io_reg c)); unfold sys_mgr_frzctrl_frzchn_is_frozen; keeps_auto|].
  intros [fz|] s1 t1 E1; cbv beta iota; rewrite <- E1; [|done]. destruct (negb (truthy fz)); [by wp_step|]. wp_step.
  eapply wp_mono with (Q := fun o s' _ => reg (io_reg c) s' .& keep = reg (io_reg c) s1 .& keep).
  - destruct id; cbv iota; try (by apply wp_ret). destruct (decide (io_reg c = HIOCTRL_REG)) as [Ec|Ec].
    + assert (c = FREEZE_CHANNEL_3) as -> by (by destruct c; vm_compute in Ec).
      cbn [io_reg] in *. apply (wp_clrbits_reg HIOCTRL_REG). intros d ->. unfold keep. bitwise.
    + apply wp_mono with (Q := fun _ s' _ => reg (io_reg c) s' = reg (io_reg c) s1);
        [|by intros ? ? ? ->]. apply (wp_kept (io_reg c)), keeps_clrbits. congruence.
  - intros [[]|] s2 t2 E2; cbv beta iota; rewrite <- E2; [|done].
    eapply wp_mono; [apply (wp_kept (io_reg c))|by intros ? ? ? ->].
    unfold scan_mgr_io_scan_chain_engine_is_idle, scan_packet128, scan_packet_tail, scan_check_done,
      scan_mgr_io_scan_chain_engine_is_idle, array_get.
    destruct c; [..|done]; keeps_auto.
Qed.

Lemma scan_chains_bank c `{!Reg D (io_reg c)} (s : st D gdata) : bank c ->
  let keep := .~ SYSMGR_FRZCTRL_HIOCTRL_DLLRST_MASK in
  reg (io_reg c) (fin (spl_scan_chains h s)) .& keep = reg (io_reg c) s .& keep.
Proof.
  intros Hc keep. wp_enter. unfold spl_scan_chains.
  assert (Hstep : forall id len tbl (k : M unit) s1, reg (io_reg c) s1 .& keep = reg (io_reg c) s .& keep ->
    (forall s2, reg (io_reg c) s2 .& keep = reg (io_reg c) s .& keep ->
       wp k s2 (fun _ s' _ => reg (io_reg c) s' .& keep = reg (io_reg c) s .& keep)) ->
    wp (scan_mgr_io_scan_chain_prg id len tbl ;;; k) s1 (fun _ s' _ =>
      reg (io_reg c) s' .& keep = reg (io_reg c) s .& keep)).
  { intros id len tbl k s1 E1 Hk. wp_step. eapply wp_mono; [by apply (scan_bank c)|].
    intros [v|] s2 t2 E2; cbv beta iota; [apply Hk|]; etrans; [exact E2|done|exact E2|done]. }
  apply Hstep; [done|]. intros s1 E1. apply Hstep; [done|]. intros s2 E2. apply Hstep; [done|]. intros s3 E3.
  do 2 wp_step. unfold when. destruct (sdram_not_preserved h _); [|by wp_step]. apply Hstep; [done|].
  intros s4 E4. by wp_step.
Qed.

(** The three stages before the I/O configuration. *)
Lemma before_io c `{!Reg D (io_reg c)} (s : st D gdata) : bank c ->
  length (frzctrl_channel_freeze (glob s)) = 4%nat -> sdram_not_preserved h (glob s) = true ->
  wp ((spl_freeze h ;;; spl_hold_reset h ;;; spl_clocks fuel h ecc_padding_end ramboot_code) : M unit) s
    (fun o s' t => Forall no_fifo t /\ (is_val o ->
       boot_globals [0; 0; 0; 0] (rst_mgr_status (glob s)) (glob s') /\
       reg (io_reg c) s' = frozen_word c (reg (io_reg c) s))).
Proof.
  intros Hc Hl Hp. wp_step. eapply wp_mono; [apply wp_and; [by apply spl_freeze_flags|apply wp_and;
    [by apply (spl_freeze_bank c)|apply wp_events, calm_nofifo; unfold spl_freeze; hw_auto]]|].
  intros o1 s1 t1 ((-> & E1) & R1 & F1). cbv beta iota.
  assert (G1 : boot_globals [0; 0; 0; 0] (rst_mgr_status (glob s)) (glob s1)) by (by rewrite E1).
  wp_step. eapply wp_mono; [apply wp_and; [apply (wp_preserves _ _ _ (pres_hold_reset _ h) G1)|apply wp_and;
    [apply (wp_kept (io_reg c)), keeps_hold_reset|apply wp_events, calm_nofifo, calm_hold_reset]]|].
  intros [[]|w] s2 t2 (G2 & R2 & F2); cbv beta iota; [|split; [by rewrite Forall_app|by intros []]].
  eapply wp_mono; [apply wp_and; [apply (wp_preserves _ _ _ (pres_clocks _ fuel h ecc_padding_end ramboot_code) G2)|apply wp_and;
    [by apply (wp_kept (io_reg c)), keeps_clocks|apply wp_events, calm_nofifo, calm_clocks]]|].
  intros o3 s3 t3 (G3 & R3 & F3). split; [by rewrite !Forall_app|]. intros _. split; [done|]. by rewrite R3, R2.
Qed.

Lemma spl_board_init_split (s : st D gdata) :
  spl_board_init fuel h sdram_calibration junk ecc_padding_end ramboot_code corrected uncorrected s =
  ((spl_freeze h ;;; spl_hold_reset h ;;; spl_clocks fuel h ecc_padding_end ramboot_code) ;;;
   spl_configure_io h ;;; spl_after_io) s.
Proof.
  rewrite bind_assoc. apply bind_ext; [done|]. intros [] s1. rewrite bind_assoc. by apply bind_ext.
Qed.

(** I/O configuration data is shifted only while the banks are frozen.
    When the memory is not preserved, every write to the scan FIFOs during the
    board initialisation belongs to its I/O configuration stage; that stage is
    reached only with all four banks recorded as frozen, so no chain is refused,
    and with each bank's control register at its frozen word, which the scans
    leave as it is but for the reset of the DDR bank's DLL. *)
Theorem spl_scan_frozen c `{!Reg D (io_reg c)} (s : st D gdata) :
  c <> FREEZE_CHANNEL_UNDEFINED -> length (frzctrl_channel_freeze (glob s)) = 4%nat ->
  sdram_not_preserved h (glob s) = true -> only calm sdram_calibration ->
  let r := spl_board_init fuel h sdram_calibration junk ecc_padding_end ramboot_code corrected uncorrected s in
  let keep := .~ SYSMGR_FRZCTRL_HIOCTRL_DLLRST_MASK in
  (forall s', reg (io_reg c) (fin (spl_scan_chains h s')) .& keep = reg (io_reg c) s' .& keep) /\
  (Forall no_fifo (tr r) \/
   exists s1 t1 t3, tr r = t1 ++ tr (spl_configure_io h s1) ++ t3 /\ Forall no_fifo t1 /\ Forall no_fifo t3 /\
     frzctrl_channel_freeze (glob s1) = [0; 0; 0; 0] /\
     reg (io_reg c) s1 = frozen_word c (reg (io_reg c) s)).
Proof.
  intros Hc Hl Hp Hcal r keep. split; [intros s'; by apply scan_chains_bank|]. subst r keep.
  rewrite spl_board_init_split. wp_enter. wp_step. eapply wp_mono; [by apply (before_io c)|].
  intros [[]|w] s1 t1 [F1 H1]; cbv beta iota; [|by left].
  destruct H1 as [[G1 _] R1]; [by eexists|].
  apply (wp_then_only no_fifo _ _ _ (fun t => Forall no_fifo (t1 ++ t) \/ exists s1 t0 t3,
    t1 ++ t = t0 ++ tr (spl_configure_io h s1) ++ t3 /\ _)); [intros _; by apply nofifo_after_io|].
  intros t3 F3. right. exists s1, t1, t3. auto.
Qed.

(** *** The interconnect opens after the memory is up *)

Lemma closed_configure_io : only closed (spl_configure_io h : M unit).
Proof.
  assert (Hs : forall id len tbl, only closed (scan_mgr_io_scan_chain_prg id len tbl : M Z)).
  { intros id len tbl. unfold scan_mgr_io_scan_chain_prg, sys_mgr_frzctrl_frzchn_is_frozen, scan_packet128,
      scan_packet_tail, scan_check_done, scan_mgr_io_scan_chain_engine_is_idle, array_get. hw_auto. }
  pose proof (calm_closed _ calm_watchdog) as Hw.
  assert (Hp : only closed (sysmgr_pinmux_init sys_mgr_init_table : M unit)).
  { unfold sysmgr_pinmux_init, populate_sysmgr_fpgaintf_module, populate_signal, is_fpgamgr_fpga_ready,
      is_fpgamgr_initdone_high, fpgamgr_get_mode. apply only_bind; [|intros _; hw_auto].
    apply only_for. intros i. unfold pinmux_entry, array_get. destruct (Z.ltb_spec i 0); [intros s; constructor|].
    destruct (sys_mgr_init_table !! Z.to_nat i); [|intros s; constructor].
    apply only_bind; [apply only_ret|intros w]. apply only_bind; [|intros _; apply only_ret].
    apply only_writel. apply forallb_forall. intros b Hin. rewrite negb_true_iff, Z.eqb_neq.
    assert (Hb : Forall (fun b => b < SOCFPGA_SYSMGR_ADDRESS) secgrp) by (repeat constructor).
    rewrite List.Forall_forall in Hb. apply Hb in Hin. change CONFIG_SYSMGR_PINMUXGRP_OFFSET with 0x400. lia. }
  unfold spl_configure_io, with_handshake, spl_scan_chains, sysmgr_sdmmc_pweren_mux_check. hw_auto.
Qed.

(** The cause of the reset is kept by every stage. *)
Definition status_is (v : Z) (g : gdata) : Prop := rst_mgr_status g = v.
#[local] Instance status_is_stable v : Stable (status_is v).
Proof. split; unfold status_is; cbn; tauto. Qed.

Lemma status_freeze v c : preserves (status_is v) (sys_mgr_frzctrl_freeze_req c FREEZE_CONTROLLER_FSM_SW : M Z).
Proof. unfold sys_mgr_frzctrl_freeze_req, freeze_vio, freeze_hio, set_channel_flag. inv_auto; done. Qed.

Lemma status_thaw v c : preserves (status_is v) (sys_mgr_frzctrl_thaw_req fuel c FREEZE_CONTROLLER_FSM_SW : M Z).
Proof.
  pose proof (pres_delay_intosc (D:=D) (status_is v)) as Hd.
  unfold sys_mgr_frzctrl_thaw_req, thaw_vio, thaw_hio, set_channel_flag. inv_auto; done.
Qed.

Definition spl_before_sdram : M unit :=
  spl_freeze h ;;; spl_hold_reset h ;;; spl_clocks fuel h ecc_padding_end ramboot_code ;;;
  spl_configure_io h ;;; spl_release h ;;; spl_thaw fuel h ;;; spl_console fuel.

Lemma status_before_sdram v : preserves (status_is v) spl_before_sdram.
Proof.
  pose proof (status_freeze v) as Hf. pose proof (status_thaw v) as Ht.
  pose proof (pres_watchdog (D:=D) (status_is v)) as Hw. unfold spl_before_sdram.
  apply preserves_bind; [unfold spl_freeze; inv_auto|intros _].
  apply preserves_bind; [apply (pres_hold_reset (status_is v))|intros _].
  apply preserves_bind; [apply (pres_clocks (status_is v))|intros _].
  apply preserves_bind; [apply (pres_configure_io (status_is v))|intros _].
  apply preserves_bind; [apply (pres_release (status_is v))|intros _].
  apply preserves_bind; [unfold spl_thaw; inv_auto|intros _]. apply (pres_console (status_is v)).
Qed.

Lemma closed_before_sdram : only closed spl_before_sdram.
Proof.
  unfold spl_before_sdram. apply only_bind; [apply calm_closed; unfold spl_freeze; hw_auto|intros _].
  apply only_bind; [apply calm_closed, calm_hold_reset|intros _].
  apply only_bind; [apply calm_closed, calm_clocks|intros _]. apply only_bind; [apply closed_configure_io|intros _].
  apply only_bind; [apply calm_closed, calm_release|intros _].
  apply only_bind; [apply calm_closed, calm_thaw_stage|intros _]. apply calm_closed, calm_console.
Qed.

(** The trace of a memory that came up: the verified configuration, then the
    calibration that succeeded, nothing opened before. *)
Definition memory_up (t : trace) : Prop :=
  exists s1 s2 c ta tb tc, t = ta ++ tr (sdram_mmr_init_full 0xffffffff junk s1) ++ tb ++ tr (sdram_calibration s2) ++ tc /\
    out (sdram_mmr_init_full 0xffffffff junk s1) = Val 0 /\ out (sdram_calibration s2) = Val c /\ c <> 0 /\
    Forall closed (ta ++ tr (sdram_mmr_init_full 0xffffffff junk s1) ++ tb ++ tr (sdram_calibration s2)).

Lemma memory_up_prefix t t' : Forall closed t -> memory_up t' -> memory_up (t ++ t').
Proof.
  intros Ht (s1 & s2 & c & ta & tb & tc & -> & H1 & H2 & Hc & Hall). exists s1, s2, c, (t ++ ta), tb, tc.
  split; [by rewrite <- app_assoc|]. split_and!; [done..|]. rewrite <- app_assoc. apply Forall_app. by split.
Qed.

Lemma memory_up_suffix t t' : memory_up t -> memory_up (t ++ t').
Proof.
  intros (s1 & s2 & c & ta & tb & tc & -> & Hup). exists s1, s2, c, ta, tb, (tc ++ t'). split; [|done].
  by rewrite <- !app_assoc.
Qed.

Lemma watchdog_closed (s : st D gdata) :
  wp (hw_watchdog_reset : M unit) s (fun o s' t => o = Val tt /\ glob s' = glob s /\ Forall closed t).
Proof.
  eapply wp_mono; [apply wp_and; [apply watchdog_glob with (Q := fun o s' _ => o = Val tt /\ glob s' = glob s);
    by intros s' t E|apply wp_events, calm_closed, calm_watchdog]|]. by intros o s' t [[-> E] F].
Qed.

(** The run itself. *)
Lemma wp_self {A} (m : M A) s (Q : outcome A -> st D gdata -> trace -> Prop) :
  Q (out (m s)) (fin (m s)) (tr (m s)) -> wp m s Q.
Proof. done. Qed.

(** The memory stage stops, or the memory is up; nothing is opened. *)
Lemma spl_sdram_up (s : st D gdata) : sdram_not_preserved h (glob s) = true -> only calm sdram_calibration ->
  wp (spl_sdram h sdram_calibration junk : M unit) s (fun o _ t => Forall closed t /\ (is_val o -> memory_up t)).
Proof.
  intros Hp Hcal. apply wp_and; [by apply wp_events, calm_closed, calm_sdram|].
  unfold spl_sdram. wp_step. eapply wp_mono; [apply watchdog_closed|]. intros o0 s0 t0 (-> & E0 & F0). cbv beta iota.
  do 2 wp_step. rewrite E0, Hp. cbv iota. wp_step.
  do 2 wp_step. wp_step. apply wp_self. destruct (out (sdram_mmr_init_full 0xffffffff junk s0)) as [r|w] eqn:E1; [|by intros []].
  cbv beta iota. wp_step. apply wp_when; [intros _; wp_run; by intros []|]. rewrite negb_false_iff, Z.eqb_eq. intros ->.
  cbv beta iota. wp_step. eapply wp_mono; [apply watchdog_closed|]. intros o2 s2 t2 (-> & E2 & F2). cbv beta iota.
  do 2 wp_step. wp_step. apply wp_self. destruct (out (sdram_calibration s2)) as [c|w] eqn:E3; [|by intros []].
  cbv beta iota. apply wp_when; [intros _; wp_run; by intros []|]. rewrite Z.eqb_neq. intros Hc. cbv beta iota.
  apply wp_self. intros _.
  exists s0, s2, c, (t0 ++ [Msg "SDRAM: Initializing MMR registers"]), (t2 ++ [Msg "SDRAM: Calibrating PHY"]), (tr ((sdram_calculate_size ;;; msg "SDRAM: MiB") (fin (sdram_calibration s2)))).
  split; [cbn [app]; rewrite ?app_nil_r; by rewrite <- !app_assoc|]. split_and!; [done..|].
  pose proof (calm_closed _ (calm_mmr 0xffffffff)) as Hm. pose proof (calm_closed _ Hcal) as Hk.
  rewrite !Forall_app. repeat split; auto; repeat constructor.
Qed.

(** What opens the interconnect and the interrupts. *)
Lemma spl_board_init_sdram (s : st D gdata) :
  spl_board_init fuel h sdram_calibration junk ecc_padding_end ramboot_code corrected uncorrected s =
  (spl_before_sdram ;;; spl_sdram h sdram_calibration junk ;;; spl_secure ;;; spl_interrupts corrected uncorrected) s.
Proof.
  unfold spl_before_sdram. do 6 (rewrite bind_assoc; apply bind_ext; [done|]; intros [] ?). done.
Qed.

(** Non-secure masters get at the memory only after it works.  When the
    memory is not preserved, the six security groups of the interconnect are
    written only after the controller configuration returned 0 and, after it,
    the calibration returned nonzero; a run in which either fails stops with
    none of them written, and a run that returns has brought the memory up. *)
Theorem spl_opens_after_memory (s : st D gdata) :
  sdram_not_preserved h (glob s) = true -> only calm sdram_calibration ->
  let r := spl_board_init fuel h sdram_calibration junk ecc_padding_end ramboot_code corrected uncorrected s in
  (out r <> Val tt /\ Forall closed (tr r)) \/ memory_up (tr r).
Proof.
  intros Hp Hcal. cbv zeta. rewrite spl_board_init_sdram. wp_enter. wp_step.
  eapply wp_mono; [apply wp_and; [apply (wp_preserves _ _ _ (status_before_sdram (rst_mgr_status (glob s)))); done|
    apply wp_events, closed_before_sdram]|].
  intros [[]|w] s1 t1 [G1 F1]; cbv beta iota; [|left; by split].
  wp_step. eapply wp_mono; [apply spl_sdram_up; [|done]|].
  { unfold sdram_not_preserved, cold_reset in *. by rewrite G1. }
  intros [[]|w] s2 t2 [F2 H2]; cbv beta iota; [|left; split; [done|by apply Forall_app]].
  apply wp_self. right. apply memory_up_prefix; [done|]. apply memory_up_suffix, H2. by eexists.
Qed.

End spl_order.

(** ** Witnesses: a cold boot

    The whole board initialisation runs on a board whose PLLs lock, whose timer
    counts and whose UART is ready, with a calibration that succeeds. *)
Definition spl_sim0 : st clk_sim gdata :=
  mk_st (0xF0000000, <[ns16550_lsr CONFIG_SYS_NS16550_COM1 := 0x60]> ∅)
    (set_rst_mgr_status RSTMGR_COLDRST_MASK gdata0).

Definition spl_sim_run : res clk_sim gdata unit :=
  spl_board_init 200 board (ret 1) (cleared_rule 0) CONFIG_SYS_INIT_RAM_ADDR [0xE3A00000; 0xE12FFF1E] 0 4 spl_sim0.

(** It ends with every bank thawed and both handlers registered. *)
Example spl_sim_boots :
  out spl_sim_run = Val tt /\ frzctrl_channel_freeze (glob (fin spl_sim_run)) = [1; 1; 1; 1] /\
  interrupt_vectors (glob (fin spl_sim_run)) !! Z.to_nat IRQ_ECC_OCRAM_CORRECTED = Some (fxn 0, 0) /\
  interrupt_vectors (glob (fin spl_sim_run)) !! Z.to_nat IRQ_ECC_OCRAM_UNCORRECTED = Some (fxn 1, 4).
Proof. vm_compute. repeat split. Qed.

Lemma preloader_globals_wf_witness : gdata_wf (glob (fin spl_sim_run)).
Proof.
  destruct (preloader_globals_wf (D:=clk_sim) 200 board (ret 1) (cleared_rule 0) CONFIG_SYS_INIT_RAM_ADDR
    [0xE3A00000; 0xE12FFF1E] 0 4 0) as (_ & _ & Hrun & _); [apply preserves_ret|].
  apply (Hrun spl_sim0). vm_compute. repeat split; try discriminate. repeat constructor.
Defined.

(** The DDR bank; the run does write the scan FIFOs. *)
Lemma spl_scan_frozen_witness :
  exists s1 t1 t3, tr spl_sim_run = t1 ++ tr (spl_configure_io board s1) ++ t3 /\
    Forall no_fifo t1 /\ Forall no_fifo t3 /\ frzctrl_channel_freeze (glob s1) = [0; 0; 0; 0] /\
    reg HIOCTRL_REG s1 = frozen_word FREEZE_CHANNEL_3 (reg HIOCTRL_REG spl_sim0).
Proof.
  destruct (spl_scan_frozen 200 board (ret 1) (cleared_rule 0) CONFIG_SYS_INIT_RAM_ADDR
    [0xE3A00000; 0xE12FFF1E] 0 4 FREEZE_CHANNEL_3 spl_sim0) as [_ [Hno|Hrun]];
    [discriminate|reflexivity|reflexivity|apply only_ret| |exact Hrun].
  exfalso. assert (Hb : existsb (fun e => match e with Wr a _ => a =? FIFO4_REG | _ => false end) (tr spl_sim_run) = true)
    by (vm_compute; reflexivity).
  apply existsb_exists in Hb as (e & Hin & He). apply (proj1 (List.Forall_forall _ _) Hno) in Hin.
  destruct e; try discriminate. apply Z.eqb_eq in He. subst. by destruct Hin as (_ & _ & []). 
Defined.

Lemma spl_opens_after_memory_witness : memory_up (D:=clk_sim) (ret 1) (cleared_rule 0) (tr spl_sim_run).
Proof.
  destruct (spl_opens_after_memory 200 board (ret 1) (cleared_rule 0) CONFIG_SYS_INIT_RAM_ADDR
    [0xE3A00000; 0xE12FFF1E] 0 4 spl_sim0) as [[Ho _]|Hup];
    [reflexivity|apply only_ret| |exact Hup].
  exfalso. apply Ho. vm_compute. reflexivity.
Defined.
