(* ===== verification/Crc32.v ===== *)
(** The CRC-32 of images (lib/crc32.c): a table driven routine that works on
    aligned words, its one's complement wrapper and the variant that restarts
    the watchdog.

    Memory is a function from byte addresses to bytes.  The reference is the
    shift register of the polynomial, one bit at a time. *)

From S2P Require Import Prelude Mmio Regs Watchdog.

(** ** Byte memory *)

Definition bytes_of (mem : Z -> Z) : Prop := forall a, 0 <= mem a < 2 ^ 8.

(** A little-endian load of a 32-bit word. *)
Definition load32 (mem : Z -> Z) (a : Z) : Z :=
  mem a .| (mem (a + 1) .<< 8) .| (mem (a + 2) .<< 16) .| (mem (a + 3) .<< 24).

(** The [n] bytes from address [a]. *)
Fixpoint bytes (mem : Z -> Z) (a : Z) (n : nat) : list Z :=
  match n with
  | O => []
  | S n => mem a :: bytes mem (a + 1) n
  end.

(** ** The code *)

Definition crc_table : list Z := [
  0x00000000; 0x77073096; 0xee0e612c; 0x990951ba; 0x076dc419; 0x706af48f;
  0xe963a535; 0x9e6495a3; 0x0edb8832; 0x79dcb8a4; 0xe0d5e91e; 0x97d2d988;
  0x09b64c2b; 0x7eb17cbd; 0xe7b82d07; 0x90bf1d91; 0x1db71064; 0x6ab020f2;
  0xf3b97148; 0x84be41de; 0x1adad47d; 0x6ddde4eb; 0xf4d4b551; 0x83d385c7;
  0x136c9856; 0x646ba8c0; 0xfd62f97a; 0x8a65c9ec; 0x14015c4f; 0x63066cd9;
  0xfa0f3d63; 0x8d080df5; 0x3b6e20c8; 0x4c69105e; 0xd56041e4; 0xa2677172;
  0x3c03e4d1; 0x4b04d447; 0xd20d85fd; 0xa50ab56b; 0x35b5a8fa; 0x42b2986c;
  0xdbbbc9d6; 0xacbcf940; 0x32d86ce3; 0x45df5c75; 0xdcd60dcf; 0xabd13d59;
  0x26d930ac; 0x51de003a; 0xc8d75180; 0xbfd06116; 0x21b4f4b5; 0x56b3c423;
  0xcfba9599; 0xb8bda50f; 0x2802b89e; 0x5f058808; 0xc60cd9b2; 0xb10be924;
  0x2f6f7c87; 0x58684c11; 0xc1611dab; 0xb6662d3d; 0x76dc4190; 0x01db7106;
  0x98d220bc; 0xefd5102a; 0x71b18589; 0x06b6b51f; 0x9fbfe4a5; 0xe8b8d433;
  0x7807c9a2; 0x0f00f934; 0x9609a88e; 0xe10e9818; 0x7f6a0dbb; 0x086d3d2d;
  0x91646c97; 0xe6635c01; 0x6b6b51f4; 0x1c6c6162; 0x856530d8; 0xf262004e;
  0x6c0695ed; 0x1b01a57b; 0x8208f4c1; 0xf50fc457; 0x65b0d9c6; 0x12b7e950;
  0x8bbeb8ea; 0xfcb9887c; 0x62dd1ddf; 0x15da2d49; 0x8cd37cf3; 0xfbd44c65;
  0x4db26158; 0x3ab551ce; 0xa3bc0074; 0xd4bb30e2; 0x4adfa541; 0x3dd895d7;
  0xa4d1c46d; 0xd3d6f4fb; 0x4369e96a; 0x346ed9fc; 0xad678846; 0xda60b8d0;
  0x44042d73; 0x33031de5; 0xaa0a4c5f; 0xdd0d7cc9; 0x5005713c; 0x270241aa;
  0xbe0b1010; 0xc90c2086; 0x5768b525; 0x206f85b3; 0xb966d409; 0xce61e49f;
  0x5edef90e; 0x29d9c998; 0xb0d09822; 0xc7d7a8b4; 0x59b33d17; 0x2eb40d81;
  0xb7bd5c3b; 0xc0ba6cad; 0xedb88320; 0x9abfb3b6; 0x03b6e20c; 0x74b1d29a;
  0xead54739; 0x9dd277af; 0x04db2615; 0x73dc1683; 0xe3630b12; 0x94643b84;
  0x0d6d6a3e; 0x7a6a5aa8; 0xe40ecf0b; 0x9309ff9d; 0x0a00ae27; 0x7d079eb1;
  0xf00f9344; 0x8708a3d2; 0x1e01f268; 0x6906c2fe; 0xf762575d; 0x806567cb;
  0x196c3671; 0x6e6b06e7; 0xfed41b76; 0x89d32be0; 0x10da7a5a; 0x67dd4acc;
  0xf9b9df6f; 0x8ebeeff9; 0x17b7be43; 0x60b08ed5; 0xd6d6a3e8; 0xa1d1937e;
  0x38d8c2c4; 0x4fdff252; 0xd1bb67f1; 0xa6bc5767; 0x3fb506dd; 0x48b2364b;
  0xd80d2bda; 0xaf0a1b4c; 0x36034af6; 0x41047a60; 0xdf60efc3; 0xa867df55;
  0x316e8eef; 0x4669be79; 0xcb61b38c; 0xbc66831a; 0x256fd2a0; 0x5268e236;
  0xcc0c7795; 0xbb0b4703; 0x220216b9; 0x5505262f; 0xc5ba3bbe; 0xb2bd0b28;
  0x2bb45a92; 0x5cb36a04; 0xc2d7ffa7; 0xb5d0cf31; 0x2cd99e8b; 0x5bdeae1d;
  0x9b64c2b0; 0xec63f226; 0x756aa39c; 0x026d930a; 0x9c0906a9; 0xeb0e363f;
  0x72076785; 0x05005713; 0x95bf4a82; 0xe2b87a14; 0x7bb12bae; 0x0cb61b38;
  0x92d28e9b; 0xe5d5be0d; 0x7cdcefb7; 0x0bdbdf21; 0x86d3d2d4; 0xf1d4e242;
  0x68ddb3f8; 0x1fda836e; 0x81be16cd; 0xf6b9265b; 0x6fb077e1; 0x18b74777;
  0x88085ae6; 0xff0f6a70; 0x66063bca; 0x11010b5c; 0x8f659eff; 0xf862ae69;
  0x616bffd3; 0x166ccf45; 0xa00ae278; 0xd70dd2ee; 0x4e048354; 0x3903b3c2;
  0xa7672661; 0xd06016f7; 0x4969474d; 0x3e6e77db; 0xaed16a4a; 0xd9d65adc;
  0x40df0b66; 0x37d83bf0; 0xa9bcae53; 0xdebb9ec5; 0x47b2cf7f; 0x30b5ffe9;
  0xbdbdf21c; 0xcabac28a; 0x53b39330; 0x24b4a3a6; 0xbad03605; 0xcdd70693;
  0x54de5729; 0x23d967bf; 0xb3667a2e; 0xc4614ab8; 0x5d681b02; 0x2a6f2b94;
  0xb40bbe37; 0xc30c8ea1; 0x5a05df1b; 0x2d02ef8d].

(** DO_CRC for a little-endian CPU. *)
Definition DO_CRC (crc x : Z) : Z :=
  nth (Z.to_nat ((crc .^ x) .& 255)) crc_table 0 .^ (crc .>> 8).

Section crc.
Context (mem : Z -> Z).

(** The [do]-[while] loop up to a word boundary; at most three bytes. *)
Fixpoint align_loop (fuel : nat) (crc p len : Z) : Z * Z * Z :=
  match fuel with
  | O => (crc, p, len)
  | S fuel =>
      let crc := DO_CRC crc (mem p) in
      let p := p + 1 in
      let len := len - 1 in
      if truthy len && truthy (p .& 3) then align_loop fuel crc p len else (crc, p, len)
  end.

(** The loop over the aligned words from [b]. *)
Fixpoint word_loop (n : nat) (crc b : Z) : Z :=
  match n with
  | O => crc
  | S n =>
      let crc := crc .^ load32 mem b in
      let crc := DO_CRC crc 0 in
      let crc := DO_CRC crc 0 in
      let crc := DO_CRC crc 0 in
      let crc := DO_CRC crc 0 in
      word_loop n crc (b + 4)
  end.

(** The last few bytes. *)
Fixpoint byte_loop (n : nat) (crc p : Z) : Z :=
  match n with
  | O => crc
  | S n => byte_loop n (DO_CRC crc (mem p)) (p + 1)
  end.

Definition crc32_no_comp (crc buf len : Z) : Z :=
  let '(crc, b, len) :=
    if truthy (buf .& 3) && truthy len then align_loop 3 crc buf len else (crc, buf, len) in
  let rem_len := len .& 3 in
  let len := len .>> 2 in
  let crc := word_loop (Z.to_nat len) crc b in
  byte_loop (Z.to_nat rem_len) crc (b + 4 * len).

Definition crc32 (crc p len : Z) : Z := crc32_no_comp (crc .^ 0xffffffff) p len .^ 0xffffffff.

End crc.

(** crc32_wd restarts the watchdog after every [chunk_sz] bytes; a zero
    [chunk_sz] never ends.  The end of the buffer is an address of 32 bits. *)
Section watchdog.
Context {D G : Type} `{Device D}.

Definition crc32_wd_body (mem : Z -> Z) (end_ chunk_sz : Z) (x : Z * Z) : M D G (Z * Z + Z) :=
  let '(crc, curr) := x in
  if curr <? end_ then
    let chunk := end_ - curr in
    let chunk := if chunk >? chunk_sz then chunk_sz else chunk in
    let crc := crc32 mem crc curr chunk in
    hw_watchdog_reset ;;;
    ret (inl (crc, curr + chunk))
  else ret (inr crc).

Definition crc32_wd (fuel : nat) (mem : Z -> Z) (crc buf len chunk_sz : Z) : M D G Z :=
  while_fuel fuel (crc32_wd_body mem (u32 (buf + len)) chunk_sz) (crc, buf).

End watchdog.

(** ** The shift register *)

Definition crc_bit (c : Z) : Z := if Z.odd c then 0xedb88320 .^ (c .>> 1) else c .>> 1.
Fixpoint crc_bits (n : nat) (c : Z) : Z := match n with O => c | S n => crc_bit (crc_bits n c) end.
Definition crc_bytes (c : Z) (l : list Z) : Z := fold_left (fun c b => crc_bits 8 (c .^ b)) l c.

(** The checksum of a byte string, continued from [crc]. *)
Definition crc32_ref (crc : Z) (l : list Z) : Z := crc_bytes (crc .^ 0xffffffff) l .^ 0xffffffff.

(** The number whose little-endian bytes are [l]. *)
Fixpoint le (l : list Z) : Z :=
  match l with
  | [] => 0
  | b :: l => b .^ (le l .<< 8)
  end.

Definition is_byte (b : Z) : Prop := 0 <= b < 2 ^ 8.

Lemma bytes_app mem a n m : bytes mem a (n + m) = bytes mem a n ++ bytes mem (a + Z.of_nat n) m.
Proof.
  revert a. induction n as [|n IH]; intros a; cbn [bytes Nat.add app]; [f_equal; lia|].
  rewrite IH. do 3 f_equal. lia.
Qed.

Lemma length_bytes mem a n : length (bytes mem a n) = n.
Proof. revert a. induction n; intros a; cbn; auto. Qed.

Lemma bytes_shift mem mem' a b n : (forall i, 0 <= i < Z.of_nat n -> mem (a + i) = mem' (b + i)) -> bytes mem a n = bytes mem' b n.
Proof.
  revert a b. induction n as [|n IH]; intros a b Hm; cbn [bytes]; [done|]. f_equal.
  - specialize (Hm 0). rewrite !Z.add_0_r in Hm. apply Hm. lia.
  - apply IH. intros i Hi. rewrite <- !Z.add_assoc. apply Hm. lia.
Qed.

Lemma bytes_ext mem mem' a n : (forall i, a <= i < a + Z.of_nat n -> mem i = mem' i) -> bytes mem a n = bytes mem' a n.
Proof. intros Hm. apply bytes_shift. intros i Hi. apply Hm. lia. Qed.

Lemma bytes_lookup mem a n (i : nat) : (i < n)%nat -> bytes mem a n !! i = Some (mem (a + Z.of_nat i)).
Proof.
  revert a i. induction n as [|n IH]; intros a i Hi; [lia|]. destruct i as [|i]; cbn [bytes lookup list_lookup].
  - by replace (a + Z.of_nat 0) with a by lia.
  - change ((mem a :: bytes mem (a + 1) n) !! S i) with (bytes mem (a + 1) n !! i).
    rewrite IH by lia. do 2 f_equal. lia.
Qed.

Lemma bytes_bytes mem a n : bytes_of mem -> Forall is_byte (bytes mem a n).
Proof. intros Hm. revert a. induction n; intros a; cbn; constructor; [apply Hm|auto]. Qed.

(** The register is linear, and shifts a multiple of two. *)
Lemma crc_bit_lxor x y : crc_bit (x .^ y) = crc_bit x .^ crc_bit y.
Proof.
  unfold crc_bit. rewrite <- !Z.bit0_odd, Z.lxor_spec, Z.shiftr_lxor.
  destruct (Z.testbit x 0), (Z.testbit y 0); cbn [xorb]; apply Z.bits_inj'; intros i Hi;
    rewrite !Z.lxor_spec; destruct (Z.testbit (x .>> 1) i), (Z.testbit (y .>> 1) i), (Z.testbit 0xedb88320 i); done.
Qed.

Lemma crc_bits_lxor n x y : crc_bits n (x .^ y) = crc_bits n x .^ crc_bits n y.
Proof. induction n as [|n IH]; [done|]. cbn [crc_bits]. by rewrite IH, crc_bit_lxor. Qed.

Lemma crc_bits_add n m x : crc_bits (n + m) x = crc_bits m (crc_bits n x).
Proof.
  rewrite Nat.add_comm. induction m as [|m IH]; [done|]. cbn [crc_bits Nat.add]. by rewrite IH.
Qed.

Lemma crc_bit_double x : crc_bit (x .<< 1) = x.
Proof.
  unfold crc_bit. rewrite Z.shiftl_mul_pow2 by lia. change (2 ^ 1) with 2. rewrite Z.mul_comm, Z.odd_mul. cbn [Z.odd andb].
  rewrite Z.shiftr_div_pow2 by lia. change (2 ^ 1) with 2. rewrite Z.mul_comm. apply Z.div_mul. lia.
Qed.

Lemma crc_bits_shiftl n x : crc_bits n (x .<< Z.of_nat n) = x.
Proof.
  induction n as [|n IH]; [apply Z.shiftl_0_r|].
  change (S n) with (1 + n)%nat. rewrite crc_bits_add. cbn [crc_bits].
  rewrite Nat2Z.inj_add, Z.add_comm, <- Z.shiftl_shiftl by lia.
  change (Z.of_nat 1) with 1. by rewrite crc_bit_double.
Qed.

Lemma word_lxor a b : word a -> word b -> word (a .^ b).
Proof.
  rewrite !word_bits. intros [? Ha] [? Hb]. split; [by apply Z.lxor_nonneg|].
  intros i Hi. by rewrite Z.lxor_spec, Ha, Hb.
Qed.

Lemma word_crc_bit c : word c -> word (crc_bit c).
Proof.
  intros Hc. unfold crc_bit. assert (word (c .>> 1)) by (by apply word_shiftr).
  destruct (Z.odd c); [apply word_lxor; [by unfold word|done]|done].
Qed.

Lemma word_crc_bits n c : word c -> word (crc_bits n c).
Proof. intros Hc. induction n as [|n IH]; [done|]. by apply word_crc_bit. Qed.

(** No two words step to the same word: the top bit tells which case was taken. *)
Lemma crc_bit_inj x y : word x -> word y -> crc_bit x = crc_bit y -> x = y.
Proof.
  assert (Htop : forall x, word x -> Z.testbit (crc_bit x) 31 = Z.odd x).
  { intros z Hz. apply word_bits in Hz as [_ Hb]. unfold crc_bit.
    destruct (Z.odd z); rewrite ?Z.lxor_spec, Z.shiftr_spec, Hb by lia; done. }
  assert (Hodd : forall x, x = 2 * (x .>> 1) + Z.b2z (Z.odd x)).
  { intros z. rewrite <- Z.div2_spec. apply Z.div2_odd. }
  intros Hx Hy E. pose proof (Htop x Hx) as Ex. pose proof (Htop y Hy) as Ey. rewrite E in Ex. rewrite Ex in Ey.
  rewrite (Hodd x), (Hodd y), Ey. unfold crc_bit in E. rewrite Ey in E.
  destruct (Z.odd y); [|by rewrite E].
  apply (f_equal (Z.lxor 0xedb88320)) in E. rewrite <- !Z.lxor_assoc, Z.lxor_nilpotent, !Z.lxor_0_l in E. by rewrite E.
Qed.

Lemma crc_bits_inj n x y : word x -> word y -> crc_bits n x = crc_bits n y -> x = y.
Proof.
  intros Hx Hy. induction n as [|n IH]; [done|]. intros E. apply IH.
  apply crc_bit_inj in E; [done|by apply word_crc_bits..].
Qed.

(** A string of bytes at once. *)
Lemma crc_bytes_le c l : crc_bytes c l = crc_bits (8 * length l) (c .^ le l).
Proof.
  revert c. induction l as [|b l IH]; intros c.
  - cbn. by rewrite Z.lxor_0_r.
  - cbn [crc_bytes fold_left le length]. fold (crc_bytes (crc_bits 8 (c .^ b)) l). rewrite IH.
    replace (8 * S (length l))%nat with (8 + 8 * length l)%nat by lia. rewrite crc_bits_add. f_equal.
    rewrite <- Z.lxor_assoc, (crc_bits_lxor 8 (c .^ b)). by rewrite (crc_bits_shiftl 8 : forall x, crc_bits 8 (x .<< 8) = x).
Qed.

Lemma crc_bytes_app c l l' : crc_bytes c (l ++ l') = crc_bytes (crc_bytes c l) l'.
Proof. apply fold_left_app. Qed.

Lemma byte_word b : is_byte b -> word b.
Proof. unfold is_byte, word. lia. Qed.

Lemma word_crc_bytes c l : word c -> Forall is_byte l -> word (crc_bytes c l).
Proof.
  intros Hc Hl. revert c Hc. induction Hl as [|b l Hb Hl IH]; intros c Hc; [done|].
  apply IH, word_crc_bits, word_lxor; [done|by apply byte_word].
Qed.

(** Continuing a checksum is the checksum of the whole. *)
Lemma crc32_ref_app crc l l' : crc32_ref (crc32_ref crc l) l' = crc32_ref crc (l ++ l').
Proof. unfold crc32_ref. by rewrite Z.lxor_assoc, Z.lxor_nilpotent, Z.lxor_0_r, crc_bytes_app. Qed.

Lemma crc32_ref_nil crc : crc32_ref crc [] = crc.
Proof. unfold crc32_ref. cbn [crc_bytes fold_left]. by rewrite Z.lxor_assoc, Z.lxor_nilpotent, Z.lxor_0_r. Qed.

(** ** The code is the shift register *)

(** The table holds the register's steps. *)
Lemma crc_table_steps i : is_byte i -> nth (Z.to_nat i) crc_table 0 = crc_bits 8 i.
Proof.
  intros Hi. assert (E : crc_table = map (fun n => crc_bits 8 (Z.of_nat n)) (seq 0 256)) by (vm_compute; reflexivity).
  unfold is_byte in Hi. rewrite E, (nth_indep _ 0 (crc_bits 8 (Z.of_nat 0))) by (rewrite length_map, length_seq; lia).
  rewrite (map_nth (fun n => crc_bits 8 (Z.of_nat n))), seq_nth by lia. f_equal. lia.
Qed.

Lemma DO_CRC_steps c x : word c -> is_byte x -> DO_CRC c x = crc_bits 8 (c .^ x).
Proof.
  intros Hc Hx. unfold DO_CRC.
  assert (Hw : word (c .^ x)) by (apply word_lxor; [done|by apply byte_word]).
  assert (E : c .^ x = ((c .^ x) .& 255) .^ ((c .>> 8) .<< 8)).
  { apply Z.bits_inj'. intros i Hi. change 255 with (Z.ones 8).
    rewrite (Z.lxor_spec (_ .& _)), Z.land_spec, Z.testbit_ones_nonneg by lia.
    destruct (Z.ltb_spec i 8).
    - rewrite (Z.shiftl_spec_low _ 8 i) by lia. by rewrite andb_true_r, xorb_false_r.
    - rewrite Z.shiftl_spec, Z.shiftr_spec, Z.lxor_spec by lia. replace (i - 8 + 8) with i by lia.
      rewrite andb_false_r, xorb_false_l. replace (Z.testbit x i) with false; [apply xorb_false_r|].
      symmetry. unfold is_byte in Hx. rewrite <- (Z.mod_small x (2 ^ 8)) by done. by apply Z.mod_pow2_bits_high. }
  rewrite crc_table_steps.
  - rewrite E at 2. by rewrite crc_bits_lxor, (crc_bits_shiftl 8 : forall x, crc_bits 8 (x .<< 8) = x).
  - unfold is_byte. change 255 with (Z.ones 8). rewrite Z.land_ones by lia. apply Z.mod_pos_bound. lia.
Qed.

Lemma word_DO_CRC c x : word c -> is_byte x -> word (DO_CRC c x).
Proof. intros Hc Hx. rewrite DO_CRC_steps by done. apply word_crc_bits, word_lxor; [done|by apply byte_word]. Qed.

(** A byte below a shifted number. *)
Lemma land_byte b x : is_byte b -> b .& (x .<< 8) = 0.
Proof.
  intros Hb. apply Z.bits_inj'. intros i Hi. rewrite Z.land_spec, Z.bits_0.
  destruct (Z.ltb_spec i 8); [rewrite Z.shiftl_spec_low by lia; apply andb_false_r|].
  rewrite <- (Z.mod_small b (2 ^ 8)) by done. by rewrite Z.mod_pow2_bits_high by lia.
Qed.

Lemma lxor_byte b x : is_byte b -> b .^ (x .<< 8) = b + 256 * x.
Proof.
  intros Hb. rewrite <- Z.add_nocarry_lxor by (by apply land_byte). rewrite Z.shiftl_mul_pow2 by lia.
  change (2 ^ 8) with 256. lia.
Qed.

Lemma lor_byte b x : is_byte b -> b .| (x .<< 8) = b .^ (x .<< 8).
Proof. intros Hb. rewrite <- Z.add_nocarry_lxor, Z.add_nocarry_lor; [done|by apply land_byte..]. Qed.

Lemma le_bound l : Forall is_byte l -> 0 <= le l < 2 ^ (8 * Z.of_nat (length l)).
Proof.
  induction 1 as [|b l Hb Hl IH]; cbn [le length]; [cbn; lia|]. rewrite lxor_byte by done.
  rewrite Nat2Z.inj_succ. replace (8 * Z.succ (Z.of_nat (length l))) with (8 * Z.of_nat (length l) + 8) by lia.
  rewrite Z.pow_add_r by lia. change (2 ^ 8) with 256. unfold is_byte in Hb. lia.
Qed.

(** Little-endian numerals of one length are unique. *)
Lemma le_inj l l' : Forall is_byte l -> Forall is_byte l' -> length l = length l' -> le l = le l' -> l = l'.
Proof.
  intros Hl. revert l'. induction Hl as [|b l Hb Hl IH]; intros l' Hl' E.
  - destruct l'; done.
  - destruct Hl' as [|b' l' Hb' Hl']; [done|]. cbn [le]. rewrite !lxor_byte by done. unfold is_byte in Hb, Hb'.
    intros Ee. assert (b = b') by (change (2 ^ 8) with 256 in *; lia). subst. f_equal. apply IH; [done| |lia]. by injection E.
Qed.

Section equivalence.
Context (mem : Z -> Z) (Hmem : bytes_of mem).

Lemma byte_loop_spec n crc p : word crc -> byte_loop mem n crc p = crc_bytes crc (bytes mem p n).
Proof.
  revert crc p. induction n as [|n IH]; intros crc p Hc; [done|].
  cbn [byte_loop bytes]. pose proof (Hmem p : is_byte (mem p)) as Hb. rewrite IH by (by apply word_DO_CRC).
  cbn [crc_bytes fold_left]. by rewrite DO_CRC_steps.
Qed.

Lemma load32_le a : load32 mem a = le (bytes mem a 4).
Proof.
  unfold load32. cbn [bytes le]. replace (a + 1 + 1) with (a + 2) by lia. replace (a + 2 + 1) with (a + 3) by lia.
  rewrite Z.shiftl_0_l, Z.lxor_0_r, <- !lor_byte by apply Hmem.
  rewrite !Z.shiftl_lor, !Z.shiftl_shiftl, !Z.lor_assoc by lia. done.
Qed.

Lemma word_crc32_bytes crc p n : word crc -> word (crc_bytes crc (bytes mem p n)).
Proof. intros Hc. apply word_crc_bytes; [done|by apply bytes_bytes]. Qed.

Lemma word_loop_spec n crc b : word crc -> word_loop mem n crc b = crc_bytes crc (bytes mem b (4 * n)).
Proof.
  revert crc b. induction n as [|n IH]; intros crc b Hc; [done|].
  assert (Hw : word (load32 mem b)).
  { rewrite load32_le. apply (le_bound (bytes mem b 4)), bytes_bytes, Hmem. }
  assert (E : DO_CRC (DO_CRC (DO_CRC (DO_CRC (crc .^ load32 mem b) 0) 0) 0) 0 = crc_bytes crc (bytes mem b 4)).
  { assert (H0 : is_byte 0) by (unfold is_byte; lia).
    assert (Hstep : forall c, word c -> DO_CRC c 0 = crc_bits 8 c) by (intros c Hc0; by rewrite DO_CRC_steps, Z.lxor_0_r).
    assert (Hcw : word (crc .^ load32 mem b)) by (by apply word_lxor).
    rewrite !Hstep by (repeat first [exact Hcw | apply word_crc_bits | apply word_DO_CRC; [|done]]).
    rewrite <- !crc_bits_add, crc_bytes_le, load32_le, length_bytes. reflexivity. }
  cbn [word_loop]. rewrite E, IH by (by apply word_crc32_bytes).
  replace (4 * S n)%nat with (4 + 4 * n)%nat by lia. rewrite bytes_app, crc_bytes_app.
  by change (Z.of_nat 4) with 4.
Qed.

(** The alignment loop eats bytes until a word boundary or the end. *)
Lemma align_loop_spec fuel crc p len : word crc -> 0 < len ->
  exists k : nat, align_loop mem fuel crc p len = (crc_bytes crc (bytes mem p k), p + Z.of_nat k, len - Z.of_nat k) /\
    Z.of_nat k <= len /\ (4 - p mod 4 <= Z.of_nat fuel -> len = Z.of_nat k \/ (p + Z.of_nat k) mod 4 = 0).
Proof.
  revert crc p len. induction fuel as [|fuel IH]; intros crc p len Hc Hl; cbn [align_loop].
  { exists 0%nat. cbn [bytes crc_bytes fold_left]. rewrite Z.add_0_r, Z.sub_0_r. split; [done|]. split; [lia|div_lia]. }
  pose proof (Hmem p : is_byte (mem p)) as Hb.
  assert (E1 : DO_CRC crc (mem p) = crc_bytes crc (bytes mem p 1)) by (by rewrite DO_CRC_steps).
  assert (E3 : forall x, truthy (x .& 3) = negb (x mod 4 =? 0)).
  { intros x. unfold truthy. change 3 with (Z.ones 2). by rewrite Z.land_ones by lia. }
  rewrite E3. destruct (truthy (len - 1) && negb ((p + 1) mod 4 =? 0)) eqn:Ego.
  - apply andb_true_iff in Ego as [Hlen Hal]. unfold truthy in Hlen. rewrite negb_true_iff, Z.eqb_neq in Hlen, Hal.
    destruct (IH (DO_CRC crc (mem p)) (p + 1) (len - 1)) as (k & Hk & Hle & Hend); [by apply word_DO_CRC|lia|].
    exists (S k). rewrite Hk. split; [|split; [lia|]].
    + rewrite E1, <- crc_bytes_app. replace (len - 1 - Z.of_nat k) with (len - Z.of_nat (S k)) by lia.
      by replace (p + 1 + Z.of_nat k) with (p + Z.of_nat (S k)) by lia.
    + intros Hf. destruct Hend as [Hend|Hend]; [div_lia|lia|]. right. rewrite <- Hend. f_equal. lia.
  - exists 1%nat. rewrite E1. split; [done|]. split; [lia|]. intros _.
    apply andb_false_iff in Ego as [Hlen|Hal].
    + unfold truthy in Hlen. rewrite negb_false_iff, Z.eqb_eq in Hlen. lia.
    + rewrite negb_false_iff, Z.eqb_eq in Hal. by right.
Qed.

Lemma crc32_no_comp_spec crc buf len : word crc -> 0 <= len ->
  crc32_no_comp mem crc buf len = crc_bytes crc (bytes mem buf (Z.to_nat len)).
Proof.
  intros Hc Hl. unfold crc32_no_comp.
  assert (Hpre : exists k : nat, (if truthy (buf .& 3) && truthy len then align_loop mem 3 crc buf len else (crc, buf, len)) =
    (crc_bytes crc (bytes mem buf k), buf + Z.of_nat k, len - Z.of_nat k) /\ Z.of_nat k <= len).
  { destruct (_ && _) eqn:Ego.
    - apply andb_true_iff in Ego as [_ Hlen]. unfold truthy in Hlen. rewrite negb_true_iff, Z.eqb_neq in Hlen.
      destruct (align_loop_spec 3 crc buf len Hc) as (k & ? & ? & _); [lia|]. by exists k.
    - exists 0%nat. cbn [bytes crc_bytes fold_left]. rewrite Z.add_0_r, Z.sub_0_r. split; [done|lia]. }
  destruct Hpre as (k & -> & Hk). set (n := len - Z.of_nat k).
  assert (E3 : n .& 3 = n mod 4) by (change 3 with (Z.ones 2); by rewrite Z.land_ones by lia).
  assert (E2 : n .>> 2 = n / 4) by (by rewrite Z.shiftr_div_pow2 by lia). rewrite E3, E2.
  rewrite word_loop_spec by (by apply word_crc32_bytes).
  rewrite byte_loop_spec by (apply word_crc_bytes; [by apply word_crc32_bytes|by apply bytes_bytes]).
  rewrite <- !crc_bytes_app. f_equal.
  replace (Z.to_nat len) with (k + (4 * Z.to_nat (n / 4) + Z.to_nat (n mod 4)))%nat by (unfold n in *; div_lia).
  rewrite !bytes_app. do 3 f_equal. div_lia.
Qed.

Lemma crc32_spec crc buf len : word crc -> 0 <= len -> crc32 mem crc buf len = crc32_ref crc (bytes mem buf (Z.to_nat len)).
Proof. intros Hc Hl. unfold crc32. rewrite crc32_no_comp_spec; [done| |done]. apply word_lxor; [done|by unfold word]. Qed.

Lemma word_crc32 crc buf len : word crc -> 0 <= len -> word (crc32 mem crc buf len).
Proof.
  intros Hc Hl. rewrite crc32_spec by done. unfold crc32_ref.
  apply word_lxor; [|by unfold word]. apply word_crc32_bytes, word_lxor; [done|by unfold word].
Qed.

End equivalence.

Section wd_proofs.
Context {D G : Type} `{Device D} (mem : Z -> Z) (Hmem : bytes_of mem).

(** What one watchdog restart does on the bus. *)
Definition restart_trace (t : trace) : Prop := exists s : st D G, t = tr ((hw_watchdog_reset : M D G unit) s).

(** A run whose fuel is enough returns; one that returns was right. *)
Lemma wd_loop end_ chunk_sz fuel crc curr (s : st D G) :
  word crc -> 0 < chunk_sz -> curr <= end_ ->
  wp (while_fuel fuel (crc32_wd_body mem end_ chunk_sz) (crc, curr)) s (fun o s' t => glob s' = glob s /\
    (o = Stop NoFuel /\ chunk_sz * (Z.of_nat fuel - 1) < end_ - curr \/
     o = Val (crc32_ref crc (bytes mem curr (Z.to_nat (end_ - curr)))) /\
     exists ts, t = List.concat ts /\ Forall restart_trace ts /\ Z.of_nat (length ts) = (end_ - curr + chunk_sz - 1) / chunk_sz)).
Proof.
  intros Hc Hs. revert crc curr s Hc. induction fuel as [|fuel IH]; intros crc curr s Hc Hle.
  { apply wp_stopped. split; [done|]. left. split; [done|]. nia. }
  cbn [while_fuel crc32_wd_body]. wp_step. destruct (Z.ltb_spec curr end_).
  - set (chunk := if end_ - curr >? chunk_sz then chunk_sz else end_ - curr).
    assert (Hk : 0 < chunk <= chunk_sz /\ (chunk = chunk_sz /\ chunk_sz <= end_ - curr \/ chunk = end_ - curr))
      by (unfold chunk; rewrite Z.gtb_ltb; destruct (Z.ltb_spec chunk_sz (end_ - curr)); lia).
    wp_step. apply wp_total; [apply watchdog_total|]. intros [] _. cbv beta iota. wp_step.
    eapply wp_mono; [apply IH; [apply word_crc32; [done|done|lia]|lia]|].
    intros o s' t (Eg & Ho). rewrite Nat2Z.inj_succ.
    split; [rewrite Eg; by apply (preserves_watchdog (fun g => g = glob s))|].
    destruct Ho as [[-> Hf]|(-> & ts & -> & Hts & Hn)]; [left; split; [done|destruct Hk as [_ [[-> _]| Hk]]; [nia|rewrite Hk in Hf; assert (Z.of_nat fuel = 0) by nia; lia]]|right]. split.
    + rewrite crc32_spec by (done || lia). rewrite crc32_ref_app. do 2 f_equal.
      replace (Z.to_nat (end_ - curr)) with (Z.to_nat chunk + Z.to_nat (end_ - (curr + chunk)))%nat by lia.
      rewrite bytes_app. by rewrite Z2Nat.id by lia.
    + exists (tr ((hw_watchdog_reset : M D G unit) s) :: ts). cbn [List.concat length]. split; [by rewrite app_nil_r|].
      split; [constructor; [by eexists|done]|]. rewrite Nat2Z.inj_succ, Hn. destruct Hk as [Hk [[-> Hge]| ->]].
      * replace (end_ - curr + chunk_sz - 1) with (end_ - (curr + chunk_sz) + chunk_sz - 1 + 1 * chunk_sz) by lia.
        rewrite Z.div_add by lia. lia.
      * replace (end_ - (curr + (end_ - curr))) with 0 by lia.
        rewrite (Z.div_small (0 + chunk_sz - 1)) by lia.
        apply (Z.div_unique _ _ _ (end_ - curr - 1)); lia.
  - wp_step. split; [done|right]. replace (end_ - curr) with 0 by lia. split; [by rewrite crc32_ref_nil|].
    exists []. split; [done|]. split; [constructor|]. cbn. symmetry. apply Z.div_small. lia.
Qed.

(** A buffer whose end is past the last address is not read at all. *)
Lemma crc32_wd_wraps fuel crc buf len chunk_sz (s : st D G) : u32 (buf + len) <= buf ->
  crc32_wd (S fuel) mem crc buf len chunk_sz s = ret crc s.
Proof.
  intros Hw. unfold crc32_wd. cbn [while_fuel crc32_wd_body]. rewrite (proj2 (Z.ltb_ge _ _)) by done.
  by rewrite bind_ret_l.
Qed.

(** C19: The checksum in chunks is the checksum of the buffer as a whole, and of
    the polynomial's shift register, whatever the chunk size, the alignment and
    the length; the run returns, and restarts the watchdog once per chunk begun. *)
Theorem crc32_wd_correct fuel crc buf len chunk_sz (s : st D G) :
  word crc -> 0 <= buf -> 0 <= len -> buf + len < 2 ^ 32 -> 0 < chunk_sz -> len <= chunk_sz * (Z.of_nat fuel - 1) ->
  let r := crc32_wd fuel mem crc buf len chunk_sz s in
  out r = Val (crc32 mem crc buf len) /\ crc32 mem crc buf len = crc32_ref crc (bytes mem buf (Z.to_nat len)) /\
  glob (fin r) = glob s /\
  exists ts, tr r = List.concat ts /\ Forall restart_trace ts /\ Z.of_nat (length ts) = (len + chunk_sz - 1) / chunk_sz.
Proof.
  intros Hc Hb Hl Hend Hs Hf. cbv zeta. rewrite crc32_spec by done. unfold crc32_wd. rewrite u32_word by (unfold word; lia).
  wp_enter. eapply wp_mono; [apply wd_loop; [done|done|lia]|].
  intros o s' t (Eg & [[_ Hno]|(-> & ts & Hts)]); [lia|]. replace (buf + len - buf) with len in * by lia.
  split_and!; [done..|]. by exists ts.
Qed.

End wd_proofs.

(** ** What the checksum detects *)

Lemma crc_bytes_inj c c' l : word c -> word c' -> Forall is_byte l -> crc_bytes c l = crc_bytes c' l -> c = c'.
Proof.
  intros Hc Hc' Hl. revert c c' Hc Hc'. induction Hl as [|b l Hb Hl IH]; intros c c' Hc Hc' E; [done|].
  apply byte_word in Hb. apply IH in E; [|by apply word_crc_bits, word_lxor..].
  apply crc_bits_inj in E; [|by apply word_lxor..].
  apply (f_equal (fun x => x .^ b)) in E. by rewrite !Z.lxor_assoc, Z.lxor_nilpotent, !Z.lxor_0_r in E.
Qed.

(** Up to four bytes, the checksum tells every two strings apart. *)
Lemma crc_bytes_short c l l' : word c -> Forall is_byte l -> Forall is_byte l' -> length l = length l' ->
  (length l <= 4)%nat -> crc_bytes c l = crc_bytes c l' -> l = l'.
Proof.
  intros Hc Hl Hl' El Hn. rewrite !crc_bytes_le, <- El. intros E. apply le_inj; [done..|].
  assert (Hw : forall k, Forall is_byte k -> length k = length l -> word (le k)).
  { intros k Hk Ek. pose proof (le_bound k Hk) as B. unfold word. split; [lia|].
    apply Z.lt_le_trans with (1 := proj2 B). apply Z.pow_le_mono_r; lia. }
  apply crc_bits_inj in E; [|apply word_lxor; auto..].
  apply (f_equal (Z.lxor c)) in E. by rewrite <- !Z.lxor_assoc, Z.lxor_nilpotent, !Z.lxor_0_l in E.
Qed.

(** A burst of errors is always detected.  Two buffers of the same length
    that differ, but only within four consecutive bytes, have different
    checksums, whatever their length, alignment and the bytes around. *)
Theorem crc32_detects_burst mem mem' crc buf len w :
  bytes_of mem -> bytes_of mem' -> word crc -> 0 <= len ->
  (forall a, buf <= a < buf + len -> ~ (w <= a < w + 4) -> mem a = mem' a) ->
  (exists a, buf <= a < buf + len /\ mem a <> mem' a) ->
  crc32 mem crc buf len <> crc32 mem' crc buf len.
Proof.
  intros Hm Hm' Hc Hl Hout (a & Ha & Hne). rewrite !crc32_spec by done. unfold crc32_ref. intros E.
  assert (Hw : w <= a < w + 4).
  { destruct (decide (w <= a < w + 4)) as [|Hno]; [done|]. by destruct Hne; apply Hout. }
  set (lo := Z.max buf w). set (hi := Z.min (w + 4) (buf + len)).
  assert (En : Z.to_nat len = (Z.to_nat (lo - buf) + (Z.to_nat (hi - lo) + Z.to_nat (buf + len - hi)))%nat) by lia.
  rewrite En, !bytes_app, !crc_bytes_app in E. rewrite !Z2Nat.id in E by lia.
  rewrite (bytes_ext mem mem' buf) in E by (intros; apply Hout; lia).
  rewrite (bytes_ext mem mem' (buf + (lo - buf) + (hi - lo))) in E by (intros; apply Hout; lia).
  apply (f_equal (fun x => x .^ 0xffffffff)) in E. rewrite !Z.lxor_assoc, Z.lxor_nilpotent, !Z.lxor_0_r in E.
  assert (Hc0 : word (crc .^ 0xffffffff)) by (apply word_lxor; [done|by unfold word]).
  pose proof (fun m p n (H : bytes_of m) => bytes_bytes m p n H) as Hbb.
  apply crc_bytes_inj in E; [|repeat apply word_crc_bytes; auto..|auto].
  apply crc_bytes_short in E; [|apply word_crc_bytes; auto|auto|auto|by rewrite !length_bytes|rewrite length_bytes; lia].
  apply (f_equal (fun l => l !! Z.to_nat (a - lo))) in E. rewrite !bytes_lookup in E by lia.
  replace (buf + (lo - buf) + Z.of_nat (Z.to_nat (a - lo))) with a in E by lia. by injection E.
Qed.

(** ** Witnesses: the check value of the CRC-32 *)

(** Memory that holds [l] at [base] and zero elsewhere. *)
Definition mem_of (base : Z) (l : list Z) (a : Z) : Z := if a <? base then 0 else nth (Z.to_nat (a - base)) l 0.

Lemma mem_of_bytes base l : Forall is_byte l -> bytes_of (mem_of base l).
Proof.
  intros Hl a. unfold mem_of. destruct (a <? base); [lia|].
  destruct (nth_in_or_default (Z.to_nat (a - base)) l 0) as [Hin|E]; [|rewrite E; lia].
  rewrite List.Forall_forall in Hl. by apply Hl.
Qed.

Definition check_string : list Z := [49; 50; 51; 52; 53; 54; 55; 56; 57].

Lemma check_string_bytes : bytes_of (mem_of 0x01000041 check_string).
Proof. apply mem_of_bytes. repeat constructor; unfold is_byte; lia. Qed.

Lemma crc32_wd_correct_witness :
  out (crc32_wd 4 (mem_of 0x01000041 check_string) 0 0x01000041 9 4 (mk_st (∅ : ram) tt)) = Val 0xCBF43926.
Proof.
  destruct (crc32_wd_correct (mem_of 0x01000041 check_string) check_string_bytes 4 0 0x01000041 9 4 (mk_st (∅ : ram) tt))
    as (-> & -> & _); [unfold word; lia|lia..|]. vm_compute. reflexivity.
Defined.

Lemma crc32_detects_burst_witness :
  crc32 (mem_of 0x01000041 check_string) 0 0x01000041 9 <>
  crc32 (mem_of 0x01000041 [49; 50; 51; 0; 0; 0; 0; 56; 57]) 0 0x01000041 9.
Proof.
  apply (crc32_detects_burst _ _ 0 0x01000041 9 0x01000044); [apply check_string_bytes| |unfold word; lia|lia| |].
  - apply mem_of_bytes. repeat constructor; unfold is_byte; lia.
  - intros a Ha Hw.
    assert (Hc : a = 0x01000041 \/ a = 0x01000042 \/ a = 0x01000043 \/ a = 0x01000048 \/ a = 0x01000049) by lia.
    destruct Hc as [->|[->|[->|[->| ->]]]]; reflexivity.
  - exists 0x01000044. split; [lia|]. vm_compute. discriminate.
Defined.
