(* ===== verification/Sectors.v ===== *)
(** Bytes copied between a disk and main memory, both functions from addresses
    to bytes. *)

From S2P Require Import Prelude.

(** [mem] after [n] bytes of [src] from [soff] were copied to [dst]. *)
Definition blit (src : Z -> Z) (soff n dst : Z) (mem : Z -> Z) (a : Z) : Z :=
  if (dst <=? a) && (a <? dst + n) then src (soff + (a - dst)) else mem a.

Lemma blit_in src soff n dst mem a : dst <= a < dst + n -> blit src soff n dst mem a = src (soff + (a - dst)).
Proof. intros Ha. unfold blit. by rewrite (proj2 (Z.leb_le _ _)), (proj2 (Z.ltb_lt _ _)) by lia. Qed.

Lemma blit_out src soff n dst mem a : ~ (dst <= a < dst + n) -> blit src soff n dst mem a = mem a.
Proof.
  intros Ha. unfold blit. destruct (Z.leb_spec dst a); [|done]. destruct (Z.ltb_spec a (dst + n)); [lia|done].
Qed.

Lemma blit_ext src src' soff n dst mem mem' a :
  (forall a, src a = src' a) -> (forall a, mem a = mem' a) -> blit src soff n dst mem a = blit src' soff n dst mem' a.
Proof. intros Hs Hm. unfold blit. by rewrite Hs, Hm. Qed.

Lemma blit_nil src soff dst mem a : blit src soff 0 dst mem a = mem a.
Proof. apply blit_out. lia. Qed.

(** Two copies that continue each other. *)
Lemma blit_split src soff n k dst mem a : 0 <= n -> 0 <= k ->
  blit src (soff + n) k (dst + n) (blit src soff n dst mem) a = blit src soff (n + k) dst mem a.
Proof.
  intros Hn Hk. unfold blit.
  destruct (Z.leb_spec (dst + n) a), (Z.ltb_spec a (dst + n + k)), (Z.leb_spec dst a), (Z.ltb_spec a (dst + n)),
    (Z.ltb_spec a (dst + (n + k))); cbn [andb]; try lia; try done. f_equal. lia.
Qed.

(** ** Sectors of 512 bytes *)

(** What the bytes at [dst] are when sector [start] was read to there. *)
Definition sector_at (disk : Z -> Z) (start dst : Z) (a : Z) : Z := disk (512 * start + (a - dst)).

Definition copied (disk : Z -> Z) (start cnt dst : Z) (mem : Z -> Z) : Z -> Z :=
  blit disk (512 * start) (512 * cnt) dst mem.

Lemma copied_in disk start cnt dst mem a : dst <= a < dst + 512 * cnt ->
  copied disk start cnt dst mem a = sector_at disk start dst a.
Proof. apply blit_in. Qed.

Lemma copied_app disk start n k dst mem a : 0 <= n -> 0 <= k ->
  copied disk (start + n) k (dst + 512 * n) (copied disk start n dst mem) a = copied disk start (n + k) dst mem a.
Proof.
  intros Hn Hk. unfold copied. replace (512 * (start + n)) with (512 * start + 512 * n) by lia.
  rewrite blit_split by lia. f_equal. lia.
Qed.
