(* ===== verification/ImageBoot.v ===== *)
(** Loading the next image from the SD card and starting it: board_init_r, the
    image header and the checksum of common/spl/spl.c and include/image.h, and
    the partition table and the two reads of drivers/mmc/spl_mmc.c.

    The card driver (drivers/mmc/mmc.c, dw_mmc.c) is a record of operations of
    which nothing is assumed; theorems about a working card ask for the class
    [Card].  Main memory, as loading sees it, is a function from addresses to
    bytes. *)

From S2P Require Import Prelude Mmio Regs Globals ResetManager Watchdog Timer ClockManager SdramProt Spl Crc32 Sectors.

(** ** State *)

(** Where the name of the image is. *)
Inductive image_name :=
| name_none
| name_at (a : Z)
| name_literal (s : string).

Record spl_image_info := mk_spl_image_info {
  name : image_name;
  os : Z;
  load_addr : Z;
  entry_point : Z;
  size : Z;
  flags : Z;
  crc : Z;
  crc_size : Z
}.

(** The globals of the preloader, spl_image and main memory. *)
Record boot := mk_boot { bgd : gdata; spl_image : spl_image_info; boot_mem : Z -> Z }.

Definition set_bgd (g : gdata) (b : boot) : boot := mk_boot g (spl_image b) (boot_mem b).
Definition set_image (i : spl_image_info) (b : boot) : boot := mk_boot (bgd b) i (boot_mem b).
Definition set_mem (m : Z -> Z) (b : boot) : boot := mk_boot (bgd b) (spl_image b) m.

(** ** The image header, include/image.h

    All numbers are big-endian. *)

Definition uimage_to_cpu (mem : Z -> Z) (a : Z) : Z :=
  (mem a .<< 24) .| (mem (a + 1) .<< 16) .| (mem (a + 2) .<< 8) .| mem (a + 3).

Definition image_get_header_size : Z := 64.
Definition image_get_magic (mem : Z -> Z) (hdr : Z) : Z := uimage_to_cpu mem hdr.
Definition image_get_size (mem : Z -> Z) (hdr : Z) : Z := uimage_to_cpu mem (hdr + 12).
Definition image_get_load (mem : Z -> Z) (hdr : Z) : Z := uimage_to_cpu mem (hdr + 16).
Definition image_get_ep (mem : Z -> Z) (hdr : Z) : Z := uimage_to_cpu mem (hdr + 20).
Definition image_get_dcrc (mem : Z -> Z) (hdr : Z) : Z := uimage_to_cpu mem (hdr + 24).
Definition image_get_os (mem : Z -> Z) (hdr : Z) : Z := mem (hdr + 28).
Definition image_get_name (hdr : Z) : image_name := name_at (hdr + 32).
Definition image_get_data_size (mem : Z -> Z) (hdr : Z) : Z := image_get_size mem hdr.

(** spl_parse_image_header on the header at [header]; without the magic number
    the image is taken for u-boot.bin, which has no checksum. *)
Definition parse_image_header (mem : Z -> Z) (header : Z) (i : spl_image_info) : spl_image_info :=
  let header_size := image_get_header_size in
  if image_get_magic mem header =? IH_MAGIC then
    let '(load, entry, sz) :=
      if truthy (flags i .& SPL_COPY_PAYLOAD_ONLY) then
        (image_get_load mem header, image_get_ep mem header, image_get_data_size mem header)
      else
        let entry := image_get_load mem header in
        (u32 (entry - header_size), entry, u32 (image_get_data_size mem header + header_size)) in
    mk_spl_image_info (image_get_name header) (image_get_os mem header) load entry sz (flags i)
      (image_get_dcrc mem header) (image_get_data_size mem header)
  else
    mk_spl_image_info (name_literal "U-Boot") IH_OS_U_BOOT CONFIG_SYS_TEXT_BASE CONFIG_SYS_UBOOT_START
      CONFIG_SYS_MONITOR_LEN (flags i) (crc i) 0.

(** ** The card *)

Record mmc_driver (D : Type) := mk_mmc_driver {
  mmc_initialize : M D boot unit;
  find_mmc_device : Z -> M D boot (option Z);   (* a pointer to struct mmc *)
  mmc_init : Z -> M D boot Z;
  read_bl_len : Z -> M D boot Z;                (* the field of struct mmc *)
  block_read : Z -> Z -> Z -> Z -> Z -> M D boot Z  (* struct mmc, dev, start, count, destination *)
}.
Arguments mmc_initialize {D} m.
Arguments find_mmc_device {D} m.
Arguments mmc_init {D} m.
Arguments read_bl_len {D} m.
Arguments block_read {D} m.

Definition image_header : Z := CONFIG_SYS_TEXT_BASE - image_get_header_size.

(** The 16-bit signature and the search for the partition of type 0xA2 of
    mmc_load_image_mbr; without one the offset stays 0. *)
Definition mbr_sign (mem : Z -> Z) (header : Z) : Z :=
  mem (header + MBR_SIGNATURE_OFFSET) .| (mem (header + MBR_SIGNATURE_OFFSET + 1) .<< 8).

Fixpoint find_partition (n : nat) (mem : Z -> Z) (p_entry : Z) : Z :=
  match n with
  | O => 0
  | S n =>
      if mem (p_entry + MBR_PARTITION_TYPE_OFFSET) =? CONFIG_SYS_MMCSD_MBR_MODE_U_BOOT_PARTITION_ID
      then load32 mem (p_entry + MBR_PARTITION_START_SECTOR_OFFSET)
      else find_partition n mem (p_entry + MBR_PARTITION_ENTRY_SIZE)
  end.

Definition mbr_offset (mem : Z -> Z) (header : Z) : Z :=
  find_partition (Z.to_nat MBR_NUM_OF_PARTITIONS) mem (header + MBR_PARTITION_OFFSET).

Section boot.
Context {D : Type} `{Device D}.
Abbreviation M := (M D boot).

(** A program of the preloader's other components. *)
Definition lift {A} (m : Mmio.M D gdata A) : M A := zoom bgd set_bgd m.

Definition spl_parse_image_header (header : Z) : M unit :=
  modify (fun g => set_image (parse_image_header (boot_mem g) header (spl_image g)) g).

Context (drv : mmc_driver D).

(** The label [end]; [err] is unsigned, so [err <= 0] is [err == 0]. *)
Definition mmc_read_end (err : Z) : M unit :=
  if err <=? 0 then msg "spl: mmc blk read err -" ;;; hang else ret tt.

(** Header and image from sector [start]. *)
Definition mmc_load_image_at (mmc start : Z) : M unit :=
  let* r := block_read drv mmc 0 start 1 image_header in
  let err := u32 r in
  if err <=? 0 then mmc_read_end err else
  spl_parse_image_header image_header ;;;
  let* g := get in
  let* bl := read_bl_len drv mmc in
  let* image_size_sectors := udiv (u32 (size (spl_image g) + bl - 1)) bl in
  let* r := block_read drv mmc 0 start image_size_sectors (load_addr (spl_image g)) in
  mmc_read_end (u32 r).

Definition mmc_load_image_raw (mmc : Z) : M unit :=
  mmc_load_image_at mmc CONFIG_SYS_MMCSD_RAW_MODE_U_BOOT_SECTOR.

Definition mmc_load_image_mbr (mmc : Z) : M unit :=
  let* r := block_read drv mmc 0 0 1 image_header in
  let err := u32 r in
  if err <=? 0 then mmc_read_end err else
  let* g := get in
  when (negb (mbr_sign (boot_mem g) image_header =? MBR_SIGNATURE))
    (msg "spl: No MBR signature is found" ;;; hang) ;;;
  let offset := mbr_offset (boot_mem g) image_header in
  mmc_load_image_at mmc (u32 (offset + CONFIG_SYS_MMCSD_RAW_MODE_U_BOOT_SECTOR)).

Definition spl_mmc_load_image : M unit :=
  mmc_initialize drv ;;;
  let* mmc := find_mmc_device drv 0 in
  match mmc with
  | None => msg "spl: mmc device not found!!" ;;; hang
  | Some mmc =>
      let* err := mmc_init drv mmc in
      when (truthy err) (msg "spl: mmc init failed: err -" ;;; hang) ;;;
      let boot_mode := spl_boot_mode in
      if boot_mode =? MMCSD_MODE_RAW then mmc_load_image_raw mmc
      else if boot_mode =? MMCSD_MODE_MBR then mmc_load_image_mbr mmc
      else msg "spl: wrong MMC boot mode" ;;; hang
  end.

(** jump_to_image_no_args; the result is the address control goes to.  The
    padding of the memory is compiled for ECC only. *)
Definition jump_to_image_no_args (fuel : nat) : M Z :=
  let* g := get in
  let i := spl_image g in
  let image_entry := entry_point i in
  hw_watchdog_reset ;;;
  when (negb (crc_size i =? 0)) (
    let* calculated_crc := crc32_wd fuel (boot_mem g) 0 (entry_point i) (crc_size i) CHUNKSZ_CRC32 in
    when (negb (calculated_crc =? crc i)) (msg "Bad image with mismatched CRC" ;;; hang)) ;;;
  writel CONFIG_PRELOADER_STATE_VALID CONFIG_PRELOADER_STATE_REG ;;;
  hw_watchdog_reset ;;;
  ret image_entry.

(** board_init_r; [board] is spl_board_init.  Every [os] jumps alike.  The call of
    mem_malloc_init before the timer is left out: it clears the heap, a region of
    the linker script, and sets three variables of the allocator, and the model
    has neither. *)
Definition board_init_r (fuel : nat) (board : Mmio.M D gdata unit) : M Z :=
  lift timer_init ;;;
  lift board ;;;
  let boot_device := spl_boot_device in
  (if boot_device =? BOOT_DEVICE_MMC1 then spl_mmc_load_image else hang) ;;;
  jump_to_image_no_args fuel.

End boot.

(** ** The jump *)

(** What the preloader may have in its image record and in memory. *)
Definition boot_wf (b : boot) : Prop :=
  bytes_of (boot_mem b) /\ word (entry_point (spl_image b)) /\ word (crc (spl_image b)) /\ word (crc_size (spl_image b)).

(** The bytes that are about to run have the checksum of the header. *)
Definition checksum_ok (i : spl_image_info) (mem : Z -> Z) : Prop :=
  crc32_ref 0 (bytes mem (entry_point i) (Z.to_nat (crc_size i))) = crc i.

(** Programs that do not announce a successful run to the boot ROM. *)
Definition unannounced (e : event) : Prop :=
  match e with Wr a _ => a <> CONFIG_PRELOADER_STATE_REG | _ => True end.

Section boot_proofs.
Context {D : Type} `{Device D}.
Abbreviation M := (M D boot).

Lemma wp_lift {A} (m : Mmio.M D gdata A) (s : st D boot) (Q : outcome A -> st D boot -> trace -> Prop) :
  wp m (mk_st (dev s) (bgd (glob s))) (fun o s' t => Q o (mk_st (dev s') (set_bgd (glob s') (glob s))) t) ->
  wp (lift m) s Q.
Proof. done. Qed.

Lemma unannounced_watchdog : only unannounced (hw_watchdog_reset : M unit).
Proof. unfold hw_watchdog_reset, designware_wdt_is_enabled. hw_auto. Qed.

Lemma unannounced_crc fuel mem crc buf len sz : only unannounced (crc32_wd fuel mem crc buf len sz : M Z).
Proof.
  pose proof unannounced_watchdog as Hw. apply only_while. intros [c p]. unfold crc32_wd_body. hw_auto.
Qed.

Lemma writes_at_unannounced t : Forall unannounced t -> writes_at CONFIG_PRELOADER_STATE_REG t = [].
Proof. apply writes_at_nil. Qed.

(** A restart of the watchdog: returns, leaves the globals, announces nothing. *)
Lemma boot_watchdog (s : st D boot) :
  wp (hw_watchdog_reset : M unit) s (fun o s' t => o = Val tt /\ glob s' = glob s /\ Forall unannounced t).
Proof.
  apply wp_and; [|apply wp_and; [by apply (preserves_watchdog (fun g => g = glob s))|apply wp_events, unannounced_watchdog]].
  apply wp_total; [apply watchdog_total|]. by intros [] _.
Qed.

(** After the check: the announcement and the jump. *)
Lemma boot_go (entry : Z) (s : st D boot) :
  wp (writel CONFIG_PRELOADER_STATE_VALID CONFIG_PRELOADER_STATE_REG ;;; hw_watchdog_reset ;;; ret entry : M Z) s
    (fun o s' t => o = Val entry /\ glob s' = glob s /\
       writes_at CONFIG_PRELOADER_STATE_REG t = [CONFIG_PRELOADER_STATE_VALID]).
Proof.
  do 2 wp_step. wp_step. eapply wp_mono; [apply boot_watchdog|]. intros o s' t (-> & Eg & Ht). cbv beta iota. wp_step.
  split; [done|]. split; [done|]. rewrite app_nil_r. rewrite writes_at_app, (writes_at_unannounced t) by done. done.
Qed.

(** The jump on every path: out of fuel, past the check, or stopped by it. *)
Lemma jump_spec fuel (s : st D boot) :
  let i := spl_image (glob s) in
  boot_wf (glob s) -> crc_size i <> 0 -> entry_point i + crc_size i < 2 ^ 32 ->
  wp (jump_to_image_no_args fuel : M Z) s (fun o s' t => glob s' = glob s /\
    (o = Stop NoFuel /\ CHUNKSZ_CRC32 * (Z.of_nat fuel - 1) < crc_size i \/
     o = Val (entry_point i) /\ checksum_ok i (boot_mem (glob s)) /\
       writes_at CONFIG_PRELOADER_STATE_REG t = [CONFIG_PRELOADER_STATE_VALID] \/
     o = Stop Halt /\ ~ checksum_ok i (boot_mem (glob s)) /\ writes_at CONFIG_PRELOADER_STATE_REG t = [])).
Proof.
  cbv zeta. destruct s as [d g]. cbn [glob]. intros (Hm & He & Hc & Hz) Hnz Hend. unfold jump_to_image_no_args.
  wp_step. wp_step. wp_step. eapply wp_mono; [apply boot_watchdog|]. intros o1 s1 t1 (-> & E1 & F1). cbv beta iota.
  cbn [glob] in E1. wp_step. rewrite (proj2 (Z.eqb_neq _ _)) by done. cbn [negb when]. wp_step. unfold crc32_wd.
  rewrite u32_word by (unfold word in *; lia).
  eapply wp_mono; [apply wp_and; [apply wd_loop; [done|apply word_0|by vm_compute|unfold word in *; lia]|
    apply wp_events; rewrite <- (u32_word (entry_point (spl_image g) + crc_size (spl_image g))) by (unfold word in *; lia);
    apply unannounced_crc]|].
  intros o2 s2 t2 [[E2 Ho] F2]. replace (entry_point (spl_image g) + crc_size (spl_image g) - entry_point (spl_image g))
    with (crc_size (spl_image g)) in Ho by lia.
  destruct Ho as [[-> Hf]|(-> & _)]; cbv beta iota.
  { split; [by rewrite E2|]. by left. }
  fold (checksum_ok (spl_image g) (boot_mem g)). unfold checksum_ok. destruct (Z.eqb_spec
    (crc32_ref 0 (bytes (boot_mem g) (entry_point (spl_image g)) (Z.to_nat (crc_size (spl_image g))))) (crc (spl_image g)))
    as [Eq|Ne]; cbn [negb when].
  - wp_step. eapply wp_mono; [apply boot_go|]. intros o3 s3 t3 (-> & E3 & W3). split; [by rewrite E3, E2, E1|].
    right; left. split; [done|]. split; [done|]. rewrite !app_nil_l, app_nil_r, !writes_at_app.
    by rewrite (writes_at_unannounced t1), (writes_at_unannounced t2), W3.
  - wp_run. split; [by rewrite E2|]. right; right. split; [done|]. split; [done|]. rewrite !writes_at_app.
    by rewrite (writes_at_unannounced t1), (writes_at_unannounced t2).
Qed.

(** Without a checksum, or with one over an empty range, the jump is not checked. *)
Lemma jump_unchecked fuel (s : st D boot) :
  let i := spl_image (glob s) in
  crc_size i = 0 \/ (u32 (entry_point i + crc_size i) <= entry_point i /\ crc i = 0) ->
  wp (jump_to_image_no_args (S fuel) : M Z) s (fun o s' t => o = Val (entry_point i) /\ glob s' = glob s).
Proof.
  cbv zeta. destruct s as [d g]. cbn [glob]. intros Hi. unfold jump_to_image_no_args.
  wp_step. wp_step. wp_step. eapply wp_mono; [apply boot_watchdog|]. intros o1 s1 t1 (-> & E1 & F1). cbv beta iota.
  cbn [glob] in E1. wp_step. destruct (Z.eqb_spec (crc_size (spl_image g)) 0) as [|Hnz]; cbn [negb when].
  - wp_step. eapply wp_mono; [apply boot_go|]. intros o3 s3 t3 (-> & E3 & _). by rewrite E3, E1.
  - destruct Hi as [|[Hw Hc]]; [done|]. wp_step. eapply wp_result; [by apply crc32_wd_wraps|].
    rewrite Hc. cbn [Z.eqb negb when]. wp_step. eapply wp_mono; [apply boot_go|]. intros o3 s3 t3 (-> & E3 & _). by rewrite E3, E1.
Qed.

(** Whatever happens, the globals stay and control goes to the entry point. *)
Lemma jump_entry fuel (s : st D boot) :
  wp (jump_to_image_no_args fuel : M Z) s (fun o s' _ => glob s' = glob s /\ (is_val o -> o = Val (entry_point (spl_image (glob s))))).
Proof.
  apply wp_and.
  - apply (wp_preserves (fun g => g = glob s)); [|done]. pose proof (preserves_watchdog (D:=D) (fun g => g = glob s)) as Hw.
    unfold jump_to_image_no_args, crc32_wd, crc32_wd_body. inv_auto.
  - destruct s as [d g]. unfold jump_to_image_no_args. wp_step. wp_step. wp_step.
    eapply wp_mono; [apply boot_watchdog|]. intros o1 s1 t1 _. destruct o1; cbv beta iota; [|by intros []].
    wp_step. match goal with |- wp ?m _ _ => eapply (wp_mono m _ (fun _ _ _ => True)); [done|] end.
    intros [[]|w] s2 t2 _; cbv beta iota; [|by intros []]. eapply wp_mono; [apply boot_go|]. by intros o s' t (-> & _).
Qed.

(** *** A driver of which nothing is known *)

Lemma word_shl_byte b k : is_byte b -> 0 <= k <= 24 -> word (b .<< k).
Proof.
  unfold is_byte, word. intros Hb Hk. rewrite Z.shiftl_mul_pow2 by lia.
  assert (2 ^ k <= 2 ^ 24) by (apply Z.pow_le_mono_r; lia). pose proof (Z.pow_pos_nonneg 2 k). nia.
Qed.

Lemma word_uimage mem a : bytes_of mem -> word (uimage_to_cpu mem a).
Proof.
  intros Hm. unfold uimage_to_cpu. repeat apply word_lor; try (apply word_shl_byte; [apply Hm|lia]). apply byte_word, Hm.
Qed.

Lemma parse_wf g header : boot_wf g -> boot_wf (set_image (parse_image_header (boot_mem g) header (spl_image g)) g).
Proof.
  intros (Hm & He & Hc & Hz). split; [done|]. unfold set_image, parse_image_header, image_get_load, image_get_ep,
    image_get_dcrc, image_get_data_size, image_get_size. cbn [spl_image].
  destruct (_ =? _); [|cbn; repeat split; try done; unfold word in *; lia].
  destruct (truthy _); cbn [entry_point crc crc_size]; auto using word_uimage.
Qed.

(** The driver changes the image record and memory only within [boot_wf]. *)
Record driver_wf (drv : mmc_driver D) : Prop := {
  wf_initialize : preserves boot_wf (mmc_initialize drv);
  wf_find : forall n, preserves boot_wf (find_mmc_device drv n);
  wf_init : forall m, preserves boot_wf (mmc_init drv m);
  wf_bl_len : forall m, preserves boot_wf (read_bl_len drv m);
  wf_read : forall m n start cnt dst, preserves boot_wf (block_read drv m n start cnt dst)
}.

Lemma pres_lift {A} (m : Mmio.M D gdata A) : preserves boot_wf (lift m).
Proof. by intros s Hs. Qed.

Lemma pres_load drv : driver_wf drv -> preserves boot_wf (spl_mmc_load_image drv : M unit).
Proof.
  intros [H1 H2 H3 H4 H5]. assert (Hp : forall h, preserves boot_wf (spl_parse_image_header h : M unit)).
  { intros h. apply preserves_modify. intros g. apply parse_wf. }
  unfold spl_mmc_load_image, mmc_load_image_raw, mmc_load_image_mbr, mmc_load_image_at, mmc_read_end. inv_auto; auto.
Qed.

(** Verified boot.  Whatever the card and its driver do, when board_init_r
    jumps, it jumps to the entry point of the image record, and the bytes there
    have the checksum of the record, unless the record has no checksum or its
    range runs past the last address. *)
Theorem board_init_r_verified drv fuel board e (s : st D boot) :
  driver_wf drv -> boot_wf (glob s) -> out (board_init_r drv fuel board s) = Val e ->
  let b := glob (fin (board_init_r drv fuel board s)) in
  e = entry_point (spl_image b) /\
  (crc_size (spl_image b) = 0 \/ 2 ^ 32 <= entry_point (spl_image b) + crc_size (spl_image b) \/
   checksum_ok (spl_image b) (boot_mem b)).
Proof.
  intros Hd Hs. cbv zeta. revert e.
  pattern (out (board_init_r drv fuel board s)), (fin (board_init_r drv fuel board s)), (tr (board_init_r drv fuel board s)).
  match goal with |- ?P _ _ _ => change (wp (board_init_r drv fuel board) s P) end. cbv beta. unfold board_init_r.
  wp_step. eapply wp_mono; [apply (wp_preserves boot_wf); [apply pres_lift|done]|].
  intros [?|w] s1 t1 W1; cbv beta iota; [|done].
  wp_step. eapply wp_mono; [apply (wp_preserves boot_wf); [apply pres_lift|done]|].
  intros [?|w] s2 t2 W2; cbv beta iota; [|done].
  wp_step. eapply wp_mono; [apply (wp_preserves boot_wf); [|done]|].
  { destruct (_ =? _); [by apply pres_load|inv_auto]. }
  intros [[]|w] s3 t3 W3; cbv beta iota; [|done].
  set (i := spl_image (glob s3)).
  destruct (Z.eq_dec (crc_size i) 0) as [Hz|Hz]; [|destruct (Z.lt_ge_cases (entry_point i + crc_size i) (2 ^ 32)) as [Hlt|Hge]].
  - eapply wp_mono; [apply jump_entry|]. intros o s4 t4 [E Ho] e ->. rewrite E. specialize (Ho (ex_intro _ e eq_refl)). injection Ho as ->.
    split; [done|]. by left.
  - eapply wp_mono; [by apply jump_spec|]. intros o s4 t4 [E [[-> _]|[(-> & Hok & _)|(-> & _)]]] e Ee; try done.
    injection Ee as <-. rewrite E. split; [done|]. right; by right.
  - eapply wp_mono; [apply jump_entry|]. intros o s4 t4 [E Ho] e ->. rewrite E. specialize (Ho (ex_intro _ e eq_refl)). injection Ho as ->.
    split; [done|]. right; by left.
Qed.

(** *** A card that works

    The loader relies on the driver to find the card and to copy sectors of 512
    bytes, whose contents are [disk], to memory. *)

Class Card (drv : mmc_driver D) (disk : Z -> Z) (sectors mmc : Z) := {
  card_present : D -> Prop;   (* a card is in the slot *)
  card_found : D -> Prop;     (* its device is registered *)
  card_ready : D -> Prop;     (* it takes commands for sectors *)
  card_initialize : forall s, card_present (dev s) ->
    wp (mmc_initialize drv) s (fun o s' _ => o = Val tt /\ glob s' = glob s /\ card_found (dev s'));
  card_find : forall s, card_found (dev s) ->
    wp (find_mmc_device drv 0) s (fun o s' _ => o = Val (Some mmc) /\ glob s' = glob s /\ card_found (dev s'));
  card_init : forall s, card_found (dev s) ->
    wp (mmc_init drv mmc) s (fun o s' _ => o = Val 0 /\ glob s' = glob s /\ card_ready (dev s'));
  card_bl_len : forall s, card_ready (dev s) ->
    wp (read_bl_len drv mmc) s (fun o s' _ => o = Val 512 /\ glob s' = glob s /\ card_ready (dev s'));
  card_read : forall start cnt dst s, card_ready (dev s) ->
    0 <= start -> 0 < cnt -> start + cnt <= sectors -> 0 <= dst -> dst + 512 * cnt <= 2 ^ 32 ->
    wp (block_read drv mmc 0 start cnt dst) s (fun o s' _ => o = Val cnt /\ card_ready (dev s') /\
      exists mem, glob s' = set_mem mem (glob s) /\ forall a, mem a = copied disk start cnt dst (boot_mem (glob s)) a)
}.

Lemma blit_bytes src soff n dst mem : bytes_of src -> bytes_of mem -> bytes_of (blit src soff n dst mem).
Proof. intros Hd Hm a. unfold blit. destruct (_ && _); auto. Qed.

Lemma copied_bytes disk start cnt dst mem : bytes_of disk -> bytes_of mem -> bytes_of (copied disk start cnt dst mem).
Proof. apply blit_bytes. Qed.

(** The fields of the first sector at [header] depend on its 512 bytes. *)
Definition agree (header : Z) (m m' : Z -> Z) : Prop := forall a, header <= a < header + 512 -> m a = m' a.

Ltac agree_rewrite Hag := rewrite ?Hag by (unfold MBR_SIGNATURE_OFFSET, MBR_PARTITION_OFFSET, MBR_PARTITION_TYPE_OFFSET,
  MBR_PARTITION_START_SECTOR_OFFSET, MBR_PARTITION_ENTRY_SIZE in *; lia).

Lemma mbr_sign_agree m m' header : agree header m m' -> mbr_sign m header = mbr_sign m' header.
Proof. intros Hag. unfold mbr_sign. rewrite !Hag by (change MBR_SIGNATURE_OFFSET with 0x1FE; lia). done. Qed.

Lemma mbr_offset_agree m m' header : agree header m m' -> mbr_offset m header = mbr_offset m' header.
Proof.
  intros Hag. unfold mbr_offset. change (Z.to_nat MBR_NUM_OF_PARTITIONS) with 4%nat.
  assert (Hg : forall n p, header <= p -> p + 16 * Z.of_nat n <= header + 512 -> find_partition n m p = find_partition n m' p).
  { induction n as [|n IH]; intros p Hp Hn; cbn [find_partition]; [done|].
    change MBR_PARTITION_ENTRY_SIZE with 16. change MBR_PARTITION_TYPE_OFFSET with 4. change MBR_PARTITION_START_SECTOR_OFFSET with 8.
    unfold load32. rewrite IH, !Hag by lia. done. }
  apply Hg; change MBR_PARTITION_OFFSET with 0x1BE; lia.
Qed.

Lemma parse_agree m m' header i : agree header m m' -> parse_image_header m header i = parse_image_header m' header i.
Proof.
  intros Hag. unfold parse_image_header, image_get_magic, image_get_load, image_get_ep, image_get_dcrc,
    image_get_data_size, image_get_size, image_get_os, uimage_to_cpu. rewrite !Hag by lia. done.
Qed.

Lemma copied_agree disk start dst mem mem' : (forall a, mem' a = copied disk start 1 dst mem a) ->
  agree dst mem' (sector_at disk start dst).
Proof. intros Hm a Ha. rewrite Hm. apply copied_in. lia. Qed.

Section card.
Context (drv : mmc_driver D) (disk : Z -> Z) (sectors mmc : Z) `{!Card drv disk sectors mmc}.

(** Header and image. *)
Lemma load_at_spec start (s : st D boot) :
  let i := parse_image_header (sector_at disk start image_header) image_header (spl_image (glob s)) in
  let cnt := u32 (size i + 511) / 512 in
  card_ready (dev s) ->
  0 <= start -> start < sectors -> 0 < cnt -> start + cnt <= sectors -> 0 <= load_addr i -> load_addr i + 512 * cnt <= 2 ^ 32 ->
  wp (mmc_load_image_at drv mmc start : M unit) s (fun o s' _ => o = Val tt /\
    spl_image (glob s') = i /\ forall a, boot_mem (glob s') a =
      copied disk start cnt (load_addr i) (copied disk start 1 image_header (boot_mem (glob s))) a).
Proof.
  cbv zeta. intros Hr H0 H1 Hc Hs Hl0 Hl. unfold mmc_load_image_at. wp_step.
  eapply wp_mono; [apply card_read; [done|done|lia|lia|by vm_compute|by vm_compute]|].
  intros o1 s1 t1 (-> & R1 & mem1 & E1 & M1). cbv beta iota.
  change (u32 1 <=? 0) with false. cbv iota. unfold spl_parse_image_header. do 4 wp_step.
  rewrite E1. cbn [spl_image boot_mem set_mem]. rewrite (parse_agree _ _ _ _ (copied_agree _ _ _ _ _ M1)).
  set (i := parse_image_header _ _ _) in *.
  wp_step. eapply wp_mono; [by apply card_bl_len|]. intros o2 s2 t2 (-> & E2 & R2). cbv beta iota. cbn [glob] in E2. wp_step.
  change (udiv ?x 512) with (ret (x / 512) : M Z). wp_step. wp_step. cbn [set_image spl_image].
  replace (size i + 512 - 1) with (size i + 511) by lia.
  eapply wp_mono; [apply card_read; [done|done|lia|lia|done|done]|].
  intros o3 s3 t3 (-> & _ & mem3 & E3 & M3). cbv beta iota. unfold mmc_read_end.
  assert (Hn : u32 (size i + 511) / 512 < 2 ^ 32) by (pose proof (word_u32 (size i + 511)); unfold word in *; div_lia).
  rewrite u32_word by (unfold word; lia). rewrite (proj2 (Z.leb_gt _ _)) by lia. wp_step.
  split; [done|]. rewrite E3, E2. split; [done|]. intros a. cbn [boot_mem set_mem]. rewrite M3, E2. by apply blit_ext.
Qed.

(** Where the image starts: after the partition of type 0xA2, or from the
    first sector when there is none. *)
Definition image_sector : Z :=
  u32 (mbr_offset (sector_at disk 0 image_header) image_header + CONFIG_SYS_MMCSD_RAW_MODE_U_BOOT_SECTOR).

Definition disk_image (s : st D boot) : spl_image_info :=
  parse_image_header (sector_at disk image_sector image_header) image_header (spl_image (glob s)).

Lemma load_spec (s : st D boot) :
  let i := disk_image s in
  let cnt := u32 (size i + 511) / 512 in
  card_present (dev s) -> mbr_sign (sector_at disk 0 image_header) image_header = MBR_SIGNATURE ->
  image_sector < sectors -> 0 < cnt -> image_sector + cnt <= sectors -> 0 <= load_addr i -> load_addr i + 512 * cnt <= 2 ^ 32 ->
  wp (spl_mmc_load_image drv : M unit) s (fun o s' _ => o = Val tt /\
    spl_image (glob s') = i /\ forall a, boot_mem (glob s') a = copied disk image_sector cnt (load_addr i)
      (copied disk image_sector 1 image_header (copied disk 0 1 image_header (boot_mem (glob s)))) a).
Proof.
  cbv zeta. intros Hp Hsig H1 Hc Hs Hl0 Hl. unfold spl_mmc_load_image. pose proof (word_u32 (mbr_offset (sector_at disk 0 image_header)
    image_header + CONFIG_SYS_MMCSD_RAW_MODE_U_BOOT_SECTOR)) as Hw. fold image_sector in Hw. unfold word in Hw.
  wp_step. eapply wp_mono; [by apply card_initialize|]. intros o1 s1 t1 (-> & E1 & R1). cbv beta iota.
  wp_step. eapply wp_mono; [by apply card_find|]. intros o2 s2 t2 (-> & E2 & R2). cbv beta iota.
  wp_step. eapply wp_mono; [by apply card_init|]. intros o3 s3 t3 (-> & E3 & R3). cbv beta iota.
  change (truthy 0) with false. cbn [when]. wp_step. wp_step. change (spl_boot_mode =? MMCSD_MODE_RAW) with false.
  change (spl_boot_mode =? MMCSD_MODE_MBR) with true. cbv iota. unfold mmc_load_image_mbr. wp_step.
  eapply wp_mono; [apply card_read; [done|done|lia|lia|by vm_compute|by vm_compute]|].
  intros o4 s4 t4 (-> & R4 & mem4 & E4 & M4). cbv beta iota.
  change (u32 1 <=? 0) with false. cbv iota. do 2 wp_step. rewrite E4. cbn [boot_mem set_mem].
  pose proof (copied_agree _ _ _ _ _ M4) as Hag.
  rewrite (mbr_sign_agree _ _ _ Hag), (mbr_offset_agree _ _ _ Hag), Hsig.
  change (negb (MBR_SIGNATURE =? MBR_SIGNATURE)) with false. cbn [when]. wp_step. wp_step. fold image_sector.
  assert (Ei : spl_image (glob s4) = spl_image (glob s)) by (by rewrite E4, E3, E2, E1).
  pose proof (load_at_spec image_sector s4) as Hat. cbv zeta in Hat. rewrite Ei in Hat. fold (disk_image s) in Hat.
  eapply wp_mono; [apply Hat; [done|lia|done..]|]. intros o5 s5 t5 (-> & Esi & Em). split; [done|].
  split; [done|]. intros a. rewrite Em. apply blit_ext; [done|]. intros b. apply blit_ext; [done|]. intros c.
  rewrite E4. cbn [boot_mem set_mem]. by rewrite M4, E3, E2, E1.
Qed.

(** The board came up and a card is in its slot. *)
Definition came_up (board : Mmio.M D gdata unit) (s : st D boot) : Prop :=
  let r := (lift timer_init ;;; lift board) s in out r = Val tt /\ card_present (dev (fin r)).

(** The preloader up to the jump, when the board came up and the image fits. *)
Lemma boot_loaded fuel board (s : st D boot) (Q : outcome Z -> st D boot -> trace -> Prop) :
  let i := disk_image s in
  let cnt := u32 (size i + 511) / 512 in
  came_up board s -> mbr_sign (sector_at disk 0 image_header) image_header = MBR_SIGNATURE ->
  image_sector < sectors -> 0 < cnt -> image_sector + cnt <= sectors -> 0 <= load_addr i -> load_addr i + 512 * cnt <= 2 ^ 32 ->
  (forall s' t, spl_image (glob s') = i ->
     (forall a, boot_mem (glob s') a = copied disk image_sector cnt (load_addr i)
       (copied disk image_sector 1 image_header (copied disk 0 1 image_header (boot_mem (glob s)))) a) ->
     wp (jump_to_image_no_args fuel : M Z) s' (fun o s'' t' => Q o s'' (t ++ t'))) ->
  wp (board_init_r drv fuel board) s Q.
Proof.
  cbv zeta. intros [Hb Hp] Hsig H1 Hc Hs Hl0 Hl Hjump.
  assert (E : board_init_r drv fuel board s =
    ((lift timer_init ;;; lift board) ;;; spl_mmc_load_image drv ;;; jump_to_image_no_args fuel) s).
  { rewrite bind_assoc. apply bind_ext; [done|]. intros a s'. by apply bind_ext. }
  unfold wp. rewrite E. wp_enter. wp_step. set (m := (lift timer_init ;;; lift board)) in *.
  assert (Ek : spl_image (glob (fin (m s))) = spl_image (glob s) /\ boot_mem (glob (fin (m s))) = boot_mem (glob s)).
  { assert (Hpr : preserves (fun g => spl_image g = spl_image (glob s) /\ boot_mem g = boot_mem (glob s)) m).
    { apply preserves_bind; [by intros s' Hs'|]. intros _. by intros s' Hs'. }
    by apply (Hpr s). }
  destruct Ek as [Ei Em]. eapply wp_out; [exact Hb|]. cbv beta iota. wp_step.
  pose proof (load_spec (fin (m s))) as Hload. cbv zeta in Hload. unfold disk_image in Hload. rewrite Ei, Em in Hload.
  fold (disk_image s) in Hload. eapply wp_mono; [by apply Hload|]. intros o1 s1 t1 (-> & E1 & E2). cbv beta iota.
  eapply wp_mono; [by apply Hjump|]. intros o2 s2 t2. by rewrite app_assoc.
Qed.

(** What the header on the card says. *)
Definition disk_header : Z -> Z := sector_at disk image_sector image_header.

Lemma disk_image_magic (s : st D boot) : flags (spl_image (glob s)) = 0 -> image_get_magic disk_header image_header = IH_MAGIC ->
  disk_image s = mk_spl_image_info (image_get_name image_header) (image_get_os disk_header image_header)
    (u32 (image_get_load disk_header image_header - 64)) (image_get_load disk_header image_header)
    (u32 (image_get_data_size disk_header image_header + 64)) 0
    (image_get_dcrc disk_header image_header) (image_get_data_size disk_header image_header).
Proof. intros Hf Hm. unfold disk_image, parse_image_header. fold disk_header. by rewrite Hm, Z.eqb_refl, Hf. Qed.

(** The image on the card is what runs.  On a working card with a boot
    signature and an image header, and a board that came up, the preloader puts
    the payload that follows the header at its load address, and jumps there
    exactly when the payload has the checksum of the header (or no bytes);
    otherwise it stops. *)
Theorem boot_disk_image fuel board (s : st D boot) :
  let load := image_get_load disk_header image_header in
  let dsize := image_get_data_size disk_header image_header in
  let payload := bytes disk (512 * image_sector + 64) (Z.to_nat dsize) in
  bytes_of disk -> bytes_of (boot_mem (glob s)) -> flags (spl_image (glob s)) = 0 ->
  came_up board s ->
  mbr_sign (sector_at disk 0 image_header) image_header = MBR_SIGNATURE ->
  image_get_magic disk_header image_header = IH_MAGIC ->
  64 <= load -> load + dsize + 512 <= 2 ^ 32 -> image_sector + (dsize + 575) / 512 <= sectors ->
  2 ^ 22 < Z.of_nat fuel ->
  let r := board_init_r drv fuel board s in
  bytes (boot_mem (glob (fin r))) load (Z.to_nat dsize) = payload /\
  (dsize = 0 \/ crc32_ref 0 payload = image_get_dcrc disk_header image_header -> out r = Val load) /\
  (dsize <> 0 -> crc32_ref 0 payload <> image_get_dcrc disk_header image_header -> out r = Stop Halt).
Proof.
  cbv zeta. intros Hd Hm Hf Hb Hsig Hmag Hlo Hhi Hfit Hfuel. pose proof (disk_image_magic s Hf Hmag) as Ei.
  assert (Hdh : bytes_of disk_header) by (intros a; apply Hd).
  pose proof (word_uimage disk_header (image_header + 16) Hdh) as Wl. fold (image_get_load disk_header image_header) in Wl.
  pose proof (word_uimage disk_header (image_header + 12) Hdh) as Ws.
  fold (image_get_size disk_header image_header) in Ws. fold (image_get_data_size disk_header image_header) in Ws.
  set (load := image_get_load disk_header image_header) in *. set (dsize := image_get_data_size disk_header image_header) in *.
  rewrite !u32_word in Ei by (unfold word in *; lia). unfold word in Wl, Ws.
  assert (Ecnt : u32 (size (disk_image s) + 511) / 512 = (dsize + 575) / 512).
  { rewrite Ei. cbn [size]. rewrite u32_word by (unfold word; lia). f_equal. lia. }
  wp_enter. apply boot_loaded; [done|done|div_lia|rewrite Ecnt; div_lia|by rewrite Ecnt|rewrite Ei; cbn [load_addr]; lia|rewrite Ecnt, Ei; cbn [load_addr]; div_lia|].
  rewrite Ecnt, Ei. cbn [load_addr]. intros s' t Es Emem.
  assert (Epay : bytes (boot_mem (glob s')) load (Z.to_nat dsize) = bytes disk (512 * image_sector + 64) (Z.to_nat dsize)).
  { apply bytes_shift. intros k Hk. rewrite Emem, copied_in by div_lia. unfold sector_at. f_equal. lia. }
  assert (Hwf : boot_wf (glob s')).
  { unfold boot_wf. rewrite Es. cbn [entry_point crc crc_size].
    split; [intros a; rewrite Emem; by repeat apply copied_bytes|]. split; [by unfold word|]. split; [by apply word_uimage|by unfold word]. }
  destruct (Z.eq_dec dsize 0) as [Hz|Hz].
  - destruct fuel as [|fuel]; [lia|]. eapply wp_mono; [apply jump_unchecked; rewrite Es; by left|].
    intros o s2 t2 [-> ->]. rewrite Es. split; [done|]. split; [done|lia].
  - eapply wp_mono; [apply jump_spec; [done|by rewrite Es|rewrite Es; cbn [entry_point crc_size]; lia]|].
    unfold checksum_ok. rewrite Es. cbn [entry_point crc_size crc]. rewrite Epay.
    intros o s2 t2 [-> [[_ Hno]|[(-> & Hok & _)|(-> & Hbad & _)]]].
    + change CHUNKSZ_CRC32 with 1024 in Hno. lia.
    + split; [done|]. by split.
    + split; [done|]. split; [|done]. by intros [|].
Qed.

(** The check can be void.  A header whose data size runs past the last
    address and whose checksum field is 0 makes the preloader jump, whatever the
    payload: the end of the checked range wraps around, so that no byte is
    summed and the checksum of nothing is 0. *)
Theorem checksum_bypassed fuel board (s : st D boot) :
  let i := disk_image s in
  let cnt := u32 (size i + 511) / 512 in
  came_up board s ->
  mbr_sign (sector_at disk 0 image_header) image_header = MBR_SIGNATURE ->
  image_sector < sectors -> 0 < cnt -> image_sector + cnt <= sectors -> 0 <= load_addr i -> load_addr i + 512 * cnt <= 2 ^ 32 ->
  word (entry_point i) -> word (crc_size i) -> 2 ^ 32 <= entry_point i + crc_size i -> crc i = 0 ->
  out (board_init_r drv (S fuel) board s) = Val (entry_point i).
Proof.
  cbv zeta. intros Hb Hsig H1 Hc Hs Hl0 Hl We Wz Hwrap Hcrc. wp_enter. apply boot_loaded; [done..|].
  intros s' t Es _. eapply wp_mono; [apply jump_unchecked; rewrite Es; right|].
  - split; [|done]. unfold word in We, Wz. unfold u32.
    rewrite <- (Z.mod_add _ (-1)), Z.mod_small by lia. lia.
  - intros o s2 t2 [-> _]. by rewrite Es.
Qed.

End card.
End boot_proofs.

(** ** Witnesses: a card with one partition and an image of nine bytes *)

Definition sim_driver {D} (disk : Z -> Z) : mmc_driver D :=
  mk_mmc_driver D (ret tt) (fun _ => ret (Some 0)) (fun _ => ret 0) (fun _ => ret 512)
    (fun _ _ start cnt dst => modify (fun g => set_mem (copied disk start cnt dst (boot_mem g)) g) ;;; ret cnt).

#[export] Instance sim_card {D} `{Device D} disk sectors : Card (sim_driver disk : mmc_driver D) disk sectors 0.
Proof.
  apply (Build_Card _ _ _ _ (fun _ => True) (fun _ => True) (fun _ => True)); try (by intros).
  intros start cnt dst s _ _ _ _ _ _. split; [done|]. split; [done|]. by eexists.
Defined.

(** Boot sector with the entry of a partition of type 0xA2 at sector 3, and the
    image at sector 3 + 512: a header with data size [n] and checksum [c] for
    address 0x01000040, then the payload. *)
Definition sim_mbr : list Z := [0; 0; 0; 0; 0xA2; 0; 0; 0; 3; 0; 0; 0; 0; 4; 0; 0] ++ replicate 48 0 ++ [0x55; 0xAA].
Definition sim_header (n c : list Z) : list Z :=
  [0x27; 0x05; 0x19; 0x56] ++ [0; 0; 0; 0] ++ [0; 0; 0; 0] ++ n ++ [1; 0; 0; 0x40] ++ [1; 0; 0; 0x40] ++ c ++
  [17; 2; 5; 0] ++ replicate 32 0.
Definition sim_disk (n c : list Z) (a : Z) : Z :=
  if a <? 512 then mem_of 0x1BE sim_mbr a else mem_of (512 * 515) (sim_header n c ++ check_string) a.

(** The right checksum; a size that runs past the last address. *)
Definition good_disk : Z -> Z := sim_disk [0; 0; 0; 9] [0xCB; 0xF4; 0x39; 0x26].
Definition wrap_disk : Z -> Z := sim_disk [0xFF; 0xFF; 0xFF; 0xC1] [0; 0; 0; 0].

Definition boot_sim0 : st clk_sim boot :=
  mk_st (dev spl_sim0) (mk_boot (glob spl_sim0) (mk_spl_image_info name_none 0 0 0 0 0 0 0) (fun _ => 0)).
Definition sim_board : Mmio.M clk_sim gdata unit :=
  spl_board_init 200 board (ret 1) (cleared_rule 0) CONFIG_SYS_INIT_RAM_ADDR [0xE3A00000; 0xE12FFF1E] 0 4.

Lemma sim_board_up : out ((lift timer_init ;;; lift sim_board) boot_sim0) = Val tt.
Proof. vm_compute. reflexivity. Qed.

Lemma sim_came_up disk sectors : came_up (sim_driver disk) disk sectors 0 sim_board boot_sim0.
Proof. split; [apply sim_board_up|exact Logic.I]. Qed.

Lemma good_disk_bytes : bytes_of good_disk.
Proof.
  intros a. unfold good_disk, sim_disk. destruct (a <? 512); apply mem_of_bytes; apply List.Forall_forall; intros b Hb.
  all: assert (Hall : forallb (fun b => (0 <=? b) && (b <? 2 ^ 8)) (sim_mbr ++ sim_header [0; 0; 0; 9] [0xCB; 0xF4; 0x39; 0x26] ++ check_string) = true)
    by (vm_compute; reflexivity).
  all: rewrite forallb_forall in Hall; specialize (Hall b ltac:(apply in_or_app; auto)); unfold is_byte; lia.
Qed.

Lemma boot_disk_image_witness :
  out (board_init_r (sim_driver good_disk) (Z.to_nat (2 ^ 22 + 1)) sim_board boot_sim0) = Val 0x01000040.
Proof.
  apply (boot_disk_image (sim_driver good_disk) good_disk 1000 0 (Z.to_nat (2 ^ 22 + 1)) sim_board boot_sim0).
  - apply good_disk_bytes.
  - intros a. cbn. lia.
  - reflexivity.
  - apply sim_came_up.
  - vm_compute. reflexivity.
  - vm_compute. reflexivity.
  - vm_compute. discriminate.
  - vm_compute. discriminate.
  - vm_compute. discriminate.
  - rewrite Z2Nat.id by lia. lia.
  - right. vm_compute. reflexivity.
Defined.

Lemma board_init_r_verified_witness :
  let b := glob (fin (board_init_r (sim_driver good_disk) 3 sim_board boot_sim0)) in
  0x01000040 = entry_point (spl_image b) /\
  (crc_size (spl_image b) = 0 \/ 2 ^ 32 <= entry_point (spl_image b) + crc_size (spl_image b) \/
   checksum_ok (spl_image b) (boot_mem b)).
Proof.
  apply (board_init_r_verified (sim_driver good_disk) 3 sim_board 0x01000040 boot_sim0).
  - split; intros; cbn; inv_auto.
    match goal with Hg : boot_wf _ |- _ => destruct Hg as [Hm Hg] end.
    split; [|done]. apply copied_bytes; [apply good_disk_bytes|done].
  - split; [intros a; cbn; lia|]. cbn. repeat split; vm_compute; congruence.
  - vm_compute. reflexivity.
Defined.

Lemma checksum_bypassed_witness :
  out (board_init_r (sim_driver wrap_disk) 1 sim_board boot_sim0) = Val 0x01000040.
Proof.
  apply (checksum_bypassed (sim_driver wrap_disk) wrap_disk 1000 0 0 sim_board boot_sim0);
    [apply sim_came_up|vm_compute; reflexivity|vm_compute; first [reflexivity | discriminate | split; first [reflexivity | discriminate]]..].
Defined.
