(* ===== verification/DwMmc.v ===== *)
(** The SD/MMC host controller of the chip (drivers/mmc/dw_mmc.c) and the glue of
    this platform (drivers/mmc/altera_dw_mmc.c): commands, the descriptors of the
    internal DMA engine, the card clock.

    The descriptors live in memory that the engine reads; storing them is a bus
    access here like every other, so that their order with the accesses that
    start the engine is visible. *)

From S2P Require Import Prelude Mmio Regs Globals Watchdog Timer.

(** The page of the descriptors, of dw_mmc.c, and the error code of
    asm-generic/errno.h. *)
Definition PAGE_SIZE : Z := 4096.
Definition EINVAL : Z := 22.

(** ** Commands and data, include/mmc.h *)

Record mmc_cmd := mk_mmc_cmd { cmdidx : Z; resp_type : Z; cmdarg : Z; response : list Z }.

(** [dest] and [src] are one field, a union. *)
Record mmc_data := mk_mmc_data { dest : Z; data_flags : Z; blocks : Z; blocksize : Z }.

(** struct dwmci_host; the optional functions are clksel and mmc_clk. *)
Record dwmci_host (D : Type) := mk_dwmci_host {
  ioaddr : Z;
  caps : Z;
  clock : Z;
  bus_hz : Z;
  dev_index : Z;
  buswidth : Z;
  fifoth_val : Z;
  clksel : option (M D gdata unit);
  mmc_clk : option (Z -> Z)
}.
Arguments mk_dwmci_host {D}.
Arguments ioaddr {D} d.
Arguments caps {D} d.
Arguments clock {D} d.
Arguments bus_hz {D} d.
Arguments dev_index {D} d.
Arguments buswidth {D} d.
Arguments fifoth_val {D} d.
Arguments clksel {D} d.
Arguments mmc_clk {D} d.

Definition set_clock {D} (c : Z) (h : dwmci_host D) : dwmci_host D :=
  mk_dwmci_host (ioaddr h) (caps h) c (bus_hz h) (dev_index h) (buswidth h) (fifoth_val h) (clksel h) (mmc_clk h).

(** The word that starts a command. *)
Definition dwmci_set_transfer_mode (data : mmc_data) : Z :=
  if truthy (data_flags data .& MMC_DATA_WRITE) then DWMCI_CMD_DATA_EXP .| DWMCI_CMD_RW else DWMCI_CMD_DATA_EXP.

Definition cmd_flags (cmd : mmc_cmd) (data : option mmc_data) : Z :=
  let flags := match data with Some data => dwmci_set_transfer_mode data | None => 0 end in
  let flags := flags .| (if cmdidx cmd =? MMC_CMD_STOP_TRANSMISSION then DWMCI_CMD_ABORT_STOP else DWMCI_CMD_PRV_DAT_WAIT) in
  let flags :=
    if truthy (resp_type cmd .& MMC_RSP_PRESENT) then
      let flags := flags .| DWMCI_CMD_RESP_EXP in
      if truthy (resp_type cmd .& MMC_RSP_136) then flags .| DWMCI_CMD_RESP_LENGTH else flags
    else flags in
  let flags := if truthy (resp_type cmd .& MMC_RSP_CRC) then flags .| DWMCI_CMD_CHECK_CRC else flags in
  flags .| (cmdidx cmd .| DWMCI_CMD_START .| DWMCI_CMD_USE_HOLD_REG).

Section dwmci.
Context {D : Type} `{Device D}.
Abbreviation M := (M D gdata).
Abbreviation dwmci_host := (dwmci_host D).

Definition dwmci_writel (host : dwmci_host) (reg val : Z) : M unit := writel val (ioaddr host + reg).
Definition dwmci_readl (host : dwmci_host) (reg : Z) : M Z := readl (ioaddr host + reg).

Definition dwmci_wait_reset (host : dwmci_host) (value : Z) : M Z :=
  dwmci_writel host DWMCI_CTRL value ;;;
  let* r := for_upto 1000 (fun _ =>
    let* ctrl := dwmci_readl host DWMCI_CTRL in
    ret (if truthy (ctrl .& DWMCI_RESET_ALL) then None else Some tt)) in
  ret (match r with Some _ => 1 | None => 0 end).

(** A descriptor at address [desc]; each is chained to the next one in memory. *)
Definition dwmci_set_idma_desc (desc desc0 desc1 desc2 : Z) : M unit :=
  writel desc0 desc ;;;
  writel desc1 (desc + 4) ;;;
  writel desc2 (desc + 8) ;;;
  writel (desc + 16) (desc + 12).

(** One turn of the loop of dwmci_prepare_data on the blocks left, the
    descriptor and its number. *)
Definition idma_body (data : mmc_data) (x : Z * Z * Z) : M (Z * Z * Z + Z) :=
  let '(blk_cnt, cur_idmac, i) := x in
  let flags := DWMCI_IDMAC_OWN .| DWMCI_IDMAC_CH in
  let flags := flags .| (if i =? 0 then DWMCI_IDMAC_FS else 0) in
  let '(flags, cnt) :=
    if blk_cnt <=? 8 then (flags .| DWMCI_IDMAC_LD, blocksize data * blk_cnt) else (flags, blocksize data * 8) in
  dwmci_set_idma_desc cur_idmac flags cnt (dest data + i * PAGE_SIZE) ;;;
  ret (if blk_cnt <? 8 then inr cur_idmac else inl (blk_cnt - 8, cur_idmac + 16, i + 1)).

(** [cur_idmac] is the address of the array of descriptors on the stack.  The
    result of the FIFO reset is not looked at. *)
Definition dwmci_prepare_data (host : dwmci_host) (data : mmc_data) (cur_idmac : Z) : M unit :=
  dwmci_wait_reset host DWMCI_CTRL_FIFO_RESET ;;;
  dwmci_writel host DWMCI_DBADDR cur_idmac ;;;
  while_fuel (S (Z.to_nat (blocks data / 8))) (idma_body data) (blocks data, cur_idmac, 0) ;;;
  let* ctrl := dwmci_readl host DWMCI_CTRL in
  dwmci_writel host DWMCI_CTRL (ctrl .| (DWMCI_IDMAC_EN .| DWMCI_DMA_EN)) ;;;
  let* ctrl := dwmci_readl host DWMCI_BMOD in
  dwmci_writel host DWMCI_BMOD (ctrl .| (DWMCI_BMOD_IDMAC_FB .| DWMCI_BMOD_IDMAC_EN)) ;;;
  dwmci_writel host DWMCI_BLKSIZ (blocksize data) ;;;
  dwmci_writel host DWMCI_BYTCNT (blocksize data * blocks data).

(** The two polling loops of dwmci_send_cmd: [true] when the data lines are
    free, and the interrupt word of the completed command. *)
Definition wait_idle (host : dwmci_host) : M bool :=
  let timeout := 100000 in
  let* r := for_upto (timeout + 1) (fun i =>
    let* status := dwmci_readl host DWMCI_STATUS in
    if truthy (status .& DWMCI_BUSY)
    then if timeout - i =? 0 then msg "Timeout on data busy" ;;; ret (Some false) else ret None
    else ret (Some true)) in
  ret (match r with Some b => b | None => false end).

Definition wait_cdone (host : dwmci_host) (data : option mmc_data) : M (option Z) :=
  let retry := 10000 in
  for_upto retry (fun _ =>
    let* mask := dwmci_readl host DWMCI_RINTSTS in
    if truthy (mask .& DWMCI_INTMSK_CDONE)
    then match data with None => dwmci_writel host DWMCI_RINTSTS mask | Some _ => ret tt end ;;; ret (Some mask)
    else ret None).

(** [inr] the word with the end of the transfer, [inl] nothing: an error. *)
Definition wait_data (fuel : nat) (host : dwmci_host) : M (option Z) :=
  while_fuel fuel (fun _ : unit =>
    let* mask := dwmci_readl host DWMCI_RINTSTS in
    ret (if truthy (mask .& (DWMCI_DATA_ERR .| DWMCI_DATA_TOUT)) then inr None
         else if truthy (mask .& DWMCI_INTMSK_DTO) then inr (Some mask) else inl tt)) tt.

Definition read_response (host : dwmci_host) (cmd : mmc_cmd) : M mmc_cmd :=
  if truthy (resp_type cmd .& MMC_RSP_PRESENT) then
    if truthy (resp_type cmd .& MMC_RSP_136) then
      let* r0 := dwmci_readl host DWMCI_RESP3 in
      let* r1 := dwmci_readl host DWMCI_RESP2 in
      let* r2 := dwmci_readl host DWMCI_RESP1 in
      let* r3 := dwmci_readl host DWMCI_RESP0 in
      ret (mk_mmc_cmd (cmdidx cmd) (resp_type cmd) (cmdarg cmd) [r0; r1; r2; r3])
    else
      let* r0 := dwmci_readl host DWMCI_RESP0 in
      ret (mk_mmc_cmd (cmdidx cmd) (resp_type cmd) (cmdarg cmd) (r0 :: tl (response cmd)))
  else ret cmd.

(** dwmci_send_cmd: the result and the command with its response. *)
Definition dwmci_send_cmd (fuel : nat) (host : dwmci_host) (cmd : mmc_cmd) (data : option mmc_data) (idmac : Z) : M (Z * mmc_cmd) :=
  let* idle := wait_idle host in
  if negb idle then ret (TIMEOUT, cmd) else
  dwmci_writel host DWMCI_RINTSTS DWMCI_INTMSK_ALL ;;;
  match data with Some data => dwmci_prepare_data host data idmac | None => ret tt end ;;;
  dwmci_writel host DWMCI_CMDARG (cmdarg cmd) ;;;
  if truthy (resp_type cmd .& MMC_RSP_136) && truthy (resp_type cmd .& MMC_RSP_BUSY) then ret (-1, cmd) else
  dwmci_writel host DWMCI_CMD (cmd_flags cmd data) ;;;
  let* mask := wait_cdone host data in
  match mask with
  | None => ret (TIMEOUT, cmd)
  | Some mask =>
      if truthy (mask .& DWMCI_INTMSK_RTO) then ret (TIMEOUT, cmd)
      else if truthy (mask .& DWMCI_INTMSK_RE) then ret (-1, cmd)
      else
        let* cmd := read_response host cmd in
        match data with
        | Some _ =>
            let* mask := wait_data fuel host in
            match mask with
            | None => ret (-1, cmd)
            | Some mask =>
                dwmci_writel host DWMCI_RINTSTS mask ;;;
                let* ctrl := dwmci_readl host DWMCI_CTRL in
                dwmci_writel host DWMCI_CTRL (ctrl .& .~ DWMCI_DMA_EN) ;;;
                udelay fuel 100 ;;;
                ret (0, cmd)
            end
        | None => udelay fuel 100 ;;; ret (0, cmd)
        end
  end.

(** The loop on the START bit of dwmci_setup_bus; [timeout] turns may fail
    after the first. *)
Definition wait_start (host : dwmci_host) : M bool :=
  let timeout := 10000 in
  let* r := for_upto (timeout + 2) (fun i =>
    let* status := dwmci_readl host DWMCI_CMD in
    if timeout - i <? 0 then msg "TIMEOUT error!!" ;;; ret (Some false)
    else ret (if truthy (status .& DWMCI_CMD_START) then None else Some true)) in
  ret (match r with Some b => b | None => false end).

Definition DIV_ROUND_UP (n d : Z) : Z := u32 (u32 (n + d) - 1) / d.

(** The divider, 0 for the clock as it is. *)
Definition clk_div (sclk freq : Z) : Z := if sclk =? freq then 0 else DIV_ROUND_UP sclk (u32 (2 * freq)).

Definition source_clock (host : dwmci_host) : option Z :=
  match mmc_clk host with
  | Some f => Some (f (dev_index host))
  | None => if truthy (bus_hz host) then Some (bus_hz host) else None
  end.

Definition dwmci_setup_bus (host : dwmci_host) (freq : Z) : M (Z * dwmci_host) :=
  if freq =? clock host then ret (0, host) else
  match source_clock host with
  | None => msg "Didn't get source clock value.." ;;; ret (- EINVAL, host)
  | Some sclk =>
      (if (sclk =? freq) || negb (u32 (2 * freq) =? 0) then ret tt else undef) ;;;
      let div := clk_div sclk freq in
      dwmci_writel host DWMCI_CLKENA 0 ;;;
      dwmci_writel host DWMCI_CLKSRC 0 ;;;
      dwmci_writel host DWMCI_CLKDIV div ;;;
      dwmci_writel host DWMCI_CMD (DWMCI_CMD_PRV_DAT_WAIT .| DWMCI_CMD_UPD_CLK .| DWMCI_CMD_START) ;;;
      match clksel host with Some f => f | None => ret tt end ;;;
      let* ok := wait_start host in
      if negb ok then ret (- ETIMEDOUT, host) else
      dwmci_writel host DWMCI_CLKENA (DWMCI_CLKEN_ENABLE .| DWMCI_CLKEN_LOW_PWR) ;;;
      dwmci_writel host DWMCI_CMD (DWMCI_CMD_PRV_DAT_WAIT .| DWMCI_CMD_UPD_CLK .| DWMCI_CMD_START) ;;;
      let* ok := wait_start host in
      if negb ok then ret (- ETIMEDOUT, host) else
      ret (0, set_clock freq host)
  end.

(** dwmci_set_ios, on the bus width and the clock of struct mmc; the result of
    the clock set-up is not looked at. *)
Definition dwmci_set_ios (host : dwmci_host) (bus_width mmc_clock : Z) : M dwmci_host :=
  let* r := dwmci_setup_bus host mmc_clock in
  let ctype :=
    if bus_width =? 8 then DWMCI_CTYPE_8BIT else if bus_width =? 4 then DWMCI_CTYPE_4BIT else DWMCI_CTYPE_1BIT in
  dwmci_writel host DWMCI_CTYPE ctype ;;;
  ret (snd r).

Definition dwmci_init (host : dwmci_host) : M Z :=
  dwmci_writel host DWMCI_PWREN 1 ;;;
  let* r := dwmci_wait_reset host DWMCI_RESET_ALL in
  if negb (truthy r) then ret (-1) else
  dwmci_writel host DWMCI_RINTSTS 0xFFFFFFFF ;;;
  dwmci_writel host DWMCI_INTMASK 0 ;;;
  dwmci_writel host DWMCI_TMOUT 0xFFFFFFFF ;;;
  dwmci_writel host DWMCI_IDINTEN 0 ;;;
  dwmci_writel host DWMCI_BMOD 1 ;;;
  let* fifo_size := dwmci_readl host DWMCI_FIFOTH in
  let fifo_size := FIFO_DEPTH fifo_size in
  let fifoth := if truthy (fifoth_val host) then fifoth_val host
    else MSIZE 0x2 .| RX_WMARK (fifo_size / 2 - 1) .| TX_WMARK (fifo_size / 2) in
  dwmci_writel host DWMCI_FIFOTH fifoth ;;;
  dwmci_writel host DWMCI_CLKENA 0 ;;;
  dwmci_writel host DWMCI_CLKSRC 0 ;;;
  ret 0.

(** altera_dw_mmc.c *)
Definition altera_dwmci_clksel : M unit :=
  let* en := readl CLKMGR_PERPLLGRP_EN_REG in
  writel (en .& .~ CLKMGR_SDMMC_CLK_ENABLE) CLKMGR_PERPLLGRP_EN_REG ;;;
  let drvsel := 3 in
  let smplsel := 0 in
  writel (SYSMGR_SDMMC_CTRL_SET smplsel drvsel) SYSMGR_SDMMCGRP_CTRL_REG ;;;
  let* en := readl CLKMGR_PERPLLGRP_EN_REG in
  writel (en .| CLKMGR_SDMMC_CLK_ENABLE) CLKMGR_PERPLLGRP_EN_REG.

(** The host that altera_dwmmc_init registers; CONFIG_DWMMC_BUS_HZ is the
    global cm_sdmmc_clock. *)
Definition altera_host (regbase bus_width index sdmmc_clock : Z) : dwmci_host :=
  mk_dwmci_host regbase 0 0 sdmmc_clock index bus_width
    (MSIZE 0x2 .| RX_WMARK (CONFIG_DWMMC_FIFO_DEPTH / 2 - 1) .| TX_WMARK (CONFIG_DWMMC_FIFO_DEPTH / 2))
    (Some altera_dwmci_clksel) None.

End dwmci.

(** ** The descriptors

    What the writes of a trace leave in memory, and how the DMA engine reads it:
    from the first descriptor along the chain to the one marked as the last. *)
Definition store (m : Z -> Z) (e : event) : Z -> Z :=
  match e with Wr a v => fun b => if b =? a then v else m b | _ => m end.
Definition stored (m : Z -> Z) (t : trace) : Z -> Z := fold_left store t m.

(** The buffers, with address and length, that the engine fills; none when it
    meets a descriptor that it does not own, or reads on past [n]. *)
Fixpoint idma_walk (n : nat) (m : Z -> Z) (desc : Z) : option (list (Z * Z)) :=
  match n with
  | O => None
  | S n =>
      let flags := m desc in
      if negb (truthy (flags .& DWMCI_IDMAC_OWN)) then None
      else if truthy (flags .& DWMCI_IDMAC_LD) then Some [(m (desc + 8), m (desc + 4))]
      else if negb (truthy (flags .& DWMCI_IDMAC_CH)) then None
      else l ← idma_walk n m (m (desc + 12)); Some ((m (desc + 8), m (desc + 4)) :: l)
  end.

(** The buffers tile the [n] bytes from [a], none longer than a page. *)
Fixpoint tiles (a n : Z) (l : list (Z * Z)) : Prop :=
  match l with
  | [] => n = 0
  | (b, c) :: l => b = a /\ 0 < c <= PAGE_SIZE /\ tiles (a + c) (n - c) l
  end.

Lemma stored_app m t t' : stored m (t ++ t') = stored (stored m t) t'.
Proof. apply fold_left_app. Qed.

Definition stores_in (lo hi : Z) (e : event) : Prop := match e with Wr a _ => lo <= a < hi | _ => True end.

Lemma stored_frame m t lo hi a : Forall (stores_in lo hi) t -> ~ (lo <= a < hi) -> stored m t a = m a.
Proof.
  intros Ht Ha. revert m. induction Ht as [|e t He Ht IH]; intros m; [done|]. cbn [stored fold_left].
  fold (stored (store m e) t). rewrite IH. destruct e as [|b v|]; cbn in *; [done| |done].
  destruct (Z.eqb_spec a b); [lia|done].
Qed.

Lemma idma_walk_ext n m m' desc :
  (forall a, desc <= a < desc + 16 * Z.of_nat n -> m a = m' a) ->
  (forall k, 0 <= k < Z.of_nat n -> m (desc + 16 * k + 12) = desc + 16 * k + 16) ->
  idma_walk n m desc = idma_walk n m' desc.
Proof.
  revert desc. induction n as [|n IH]; intros desc Hm Hn; [done|]. cbn [idma_walk].
  pose proof (Hn 0 ltac:(lia)) as H0. replace (desc + 16 * 0 + 12) with (desc + 12) in H0 by lia.
  rewrite <- !Hm, H0 by lia. replace (desc + 16 * 0 + 16) with (desc + 16) by lia. rewrite IH; [done| |].
  - intros a Ha. apply Hm. lia.
  - intros k Hk. specialize (Hn (k + 1) ltac:(lia)).
    replace (desc + 16 + 16 * k + 12) with (desc + 16 * (k + 1) + 12) by lia. rewrite Hn. lia.
Qed.

Section chain.
Context {D : Type} `{Device D}.
Abbreviation M := (M D gdata).
Context (data : mmc_data) (Hbs : blocksize data = 512) (Hd : 0 <= dest data).

(** One descriptor: four stores, which nothing before them matters to. *)
Lemma set_desc_spec desc f c a (s : st D gdata) : word f -> word c -> word a -> 0 <= desc -> desc + 16 < 2 ^ 32 ->
  wp (dwmci_set_idma_desc desc f c a : M unit) s (fun o _ t => o = Val tt /\ Forall (stores_in desc (desc + 16)) t /\
    forall m, stored m t desc = f /\ stored m t (desc + 4) = c /\ stored m t (desc + 8) = a /\
      stored m t (desc + 12) = desc + 16).
Proof.
  intros Hf Hc Ha H0 H1. unfold dwmci_set_idma_desc. wp_run.
  rewrite (u32_word f), (u32_word c), (u32_word a), (u32_word (desc + 16)) by (done || (unfold word; lia)).
  split; [done|]. split; [repeat constructor; cbn; lia|]. intros m. cbn [app stored fold_left store].
  assert (E : forall x y, x <> y -> (x =? y) = false) by (intros; by apply Z.eqb_neq).
  rewrite !Z.eqb_refl, !E by lia. done.
Qed.

Definition desc_flags (last : bool) (i : Z) : Z :=
  let f := (DWMCI_IDMAC_OWN .| DWMCI_IDMAC_CH) .| (if i =? 0 then DWMCI_IDMAC_FS else 0) in
  if last then f .| DWMCI_IDMAC_LD else f.

Lemma desc_flags_spec last i : word (desc_flags last i) /\ truthy (desc_flags last i .& DWMCI_IDMAC_OWN) = true /\
  truthy (desc_flags last i .& DWMCI_IDMAC_CH) = true /\ truthy (desc_flags last i .& DWMCI_IDMAC_LD) = last.
Proof. unfold desc_flags, word. destruct last, (i =? 0); vm_compute; repeat split; congruence. Qed.

(** The loop, from [blk] blocks left: it ends, stays inside its part of the
    array, and leaves a chain that tiles what is left. *)
Lemma idma_loop_spec fuel blk cur i (s : st D gdata) :
  0 <= blk -> blk / 8 < Z.of_nat fuel -> 0 <= i -> 0 <= cur -> cur + 16 * (blk / 8 + 1) < 2 ^ 32 ->
  dest data + 4096 * i + 512 * blk < 2 ^ 32 ->
  wp (while_fuel fuel (idma_body data) (blk, cur, i) : M Z) s (fun o _ t =>
    is_val o /\ Forall (stores_in cur (cur + 16 * (blk / 8 + 1))) t /\
    (0 < blk -> exists (n : nat) l, Z.of_nat n <= blk / 8 + 1 /\ (1 <= n)%nat /\
       tiles (dest data + 4096 * i) (512 * blk) l /\
       forall m, idma_walk n (stored m t) cur = Some l /\
         (forall k, 0 <= k < Z.of_nat n -> stored m t (cur + 16 * k + 12) = cur + 16 * k + 16))).
Proof.
  revert blk cur i s. induction fuel as [|fuel IH]; intros blk cur i s Hb Hf Hi Hc Hc1 Hda; [div_lia|].
  cbn [while_fuel idma_body]. wp_step.
  assert (Ef : (if blk <=? 8 then ((DWMCI_IDMAC_OWN .| DWMCI_IDMAC_CH) .| (if i =? 0 then DWMCI_IDMAC_FS else 0) .| DWMCI_IDMAC_LD, blocksize data * blk)
      else ((DWMCI_IDMAC_OWN .| DWMCI_IDMAC_CH) .| (if i =? 0 then DWMCI_IDMAC_FS else 0), blocksize data * 8)) =
    (desc_flags (blk <=? 8) i, if blk <=? 8 then 512 * blk else 4096))
    by (unfold desc_flags; rewrite Hbs; by destruct (blk <=? 8)). rewrite Ef. clear Ef.
  destruct (desc_flags_spec (blk <=? 8) i) as (Hw & Hown & Hch & Hld).
  wp_step. eapply wp_mono; [apply set_desc_spec; [done|destruct (Z.leb_spec blk 8); unfold word; lia| |done|div_lia]|].
  { change PAGE_SIZE with 4096. unfold word. lia. }
  change PAGE_SIZE with 4096. intros o1 s1 t1 (-> & F1 & M1). cbv beta iota. wp_step.
  assert (F1' : Forall (stores_in cur (cur + 16 * (blk / 8 + 1))) t1).
  { eapply Forall_impl; [exact F1|]. intros [] He; cbn in *; div_lia. }
  destruct (Z.ltb_spec blk 8) as [Hlt|Hge].
  - wp_step. split; [by eexists|]. rewrite !app_nil_r. split; [done|]. intros Hpos.
    exists 1%nat, [(dest data + i * 4096, 512 * blk)]. rewrite (proj2 (Z.leb_le blk 8)) in * by lia.
    split; [div_lia|]. split; [lia|]. split; [cbn; change PAGE_SIZE with 4096; lia|].
    intros m. destruct (M1 m) as (E0 & E4 & E8 & E12). cbn [idma_walk]. rewrite E0, E4, E8, Hown, Hld. split; [done|].
    intros k Hk. replace k with 0 by lia. replace (cur + 16 * 0 + 12) with (cur + 12) by lia. rewrite E12. lia.
  - assert (Eq : (blk - 8) / 8 = blk / 8 - 1) by div_lia.
    eapply wp_mono; [apply IH; [lia|lia|lia|lia|rewrite Eq; lia|lia]|].
    intros o2 s2 t2 (Hv & F2 & H2). rewrite app_nil_r. rewrite Eq in F2.
    split; [done|]. split.
    { apply Forall_app. split; [done|]. eapply Forall_impl; [exact F2|]. intros [] He; cbn in *; lia. }
    intros _. destruct (Z.leb_spec blk 8) as [H8|H8].
    + exists 1%nat, [(dest data + i * 4096, 512 * blk)].
      split; [div_lia|]. split; [lia|]. split; [cbn; change PAGE_SIZE with 4096; lia|].
      intros m. destruct (M1 m) as (E0 & E4 & E8 & E12). rewrite stored_app.
      assert (Hfr : forall a, a < cur + 16 -> stored (stored m t1) t2 a = stored m t1 a)
        by (intros a Ha; eapply stored_frame; [exact F2|lia]).
      cbn [idma_walk]. rewrite !Hfr, E0, E4, E8, Hown, Hld by lia. split; [done|].
      intros k Hk. replace k with 0 by lia. rewrite Hfr by lia. replace (cur + 16 * 0 + 12) with (cur + 12) by lia. lia.
    + destruct H2 as (n & l & Hn & Hn1 & Hl & Hwalk); [lia|]. rewrite Eq in Hn.
      exists (S n), ((dest data + i * 4096, 4096) :: l). split; [lia|]. split; [lia|]. split.
      { cbn [tiles]. change PAGE_SIZE with 4096. split; [lia|]. split; [lia|].
        replace (512 * blk - 4096) with (512 * (blk - 8)) by lia.
        by replace (dest data + 4096 * i + 4096) with (dest data + 4096 * (i + 1)) by lia. }
      intros m. destruct (M1 m) as (E0 & E4 & E8 & E12). rewrite stored_app.
      assert (Hfr : forall a, a < cur + 16 -> stored (stored m t1) t2 a = stored m t1 a)
        by (intros a Ha; eapply stored_frame; [exact F2|lia]).
      destruct (Hwalk (stored m t1)) as [Hw2 Hnext]. split.
      * cbn [idma_walk]. rewrite !Hfr, E0, E4, E8, E12, Hown, Hch, Hld by lia. cbn [negb]. by rewrite Hw2.
      * intros k Hk. destruct (Z.eq_dec k 0) as [->|].
        { rewrite Hfr by lia. replace (cur + 16 * 0 + 12) with (cur + 12) by lia. lia. }
        specialize (Hnext (k - 1) ltac:(lia)). replace (cur + 16 + 16 * (k - 1)) with (cur + 16 * k) in Hnext by lia. lia.
Qed.

End chain.

(** ** Preparing a transfer *)

Section transfer.
Context {D : Type} `{Device D}.
Abbreviation M := (M D gdata).

Definition is_read (e : event) : Prop := match e with Rd _ _ => True | _ => False end.

Lemma wait_reset_spec (host : dwmci_host D) value (s : st D gdata) :
  wp (dwmci_wait_reset host value : M Z) s (fun o _ t => (o = Val 0 \/ o = Val 1) /\
    exists t', t = Wr (ioaddr host + DWMCI_CTRL) (u32 value) :: t' /\ Forall is_read t').
Proof.
  unfold dwmci_wait_reset, dwmci_writel, dwmci_readl. do 2 wp_step. wp_step.
  assert (Ho : only is_read (for_upto 1000 (fun _ => let* ctrl := readl (ioaddr host + DWMCI_CTRL) in
      ret (if truthy (ctrl .& DWMCI_RESET_ALL) then None else Some tt)) : M (option unit))).
  { apply only_for. intros _. apply only_bind; [by apply only_readl|]. intros v. apply only_ret. }
  eapply wp_mono; [apply wp_and; [apply wp_events, Ho|]|].
  { apply wp_total with (Q := fun o _ _ => is_val o); [|by eexists]. apply total_for. intros _. hw_auto. }
  intros o s1 t1 [F1 [r ->]]. cbv beta iota. wp_step. split; [destruct r; auto|].
  eexists. split; [reflexivity|]. by rewrite app_nil_r.
Qed.

Lemma stored_reads m t : Forall is_read t -> forall a, stored m t a = m a.
Proof.
  intros Ht a. apply (stored_frame m t 0 0); [|lia]. eapply Forall_impl; [exact Ht|]. by intros [].
Qed.

(** The registers of the controller. *)
Definition in_controller (host : dwmci_host D) (e : event) : Prop :=
  match e with Wr a _ => ioaddr host <= a < ioaddr host + 0x100 | _ => True end.

Ltac ctl_event :=
  cbv [in_controller DWMCI_CTRL DWMCI_DBADDR DWMCI_BMOD DWMCI_BLKSIZ DWMCI_BYTCNT];
  first [ exact Logic.I | lia ].

(** A store that leaves the DMA engine off. *)
Definition dma_off (host : dwmci_host D) (e : event) : Prop :=
  match e with Wr a v => a = ioaddr host + DWMCI_CTRL -> v .& DWMCI_DMA_EN = 0 | _ => True end.

(** C16: The DMA engine fills the buffer, the whole buffer and nothing but the
    buffer.  Whatever the device answers, the descriptors that
    dwmci_prepare_data leaves in memory form a chain that ends and tiles the
    [blocks] sectors from [dest]; they stay inside the array of [blocks]
    descriptors, the engine's base register points to the first, and the engine
    is enabled only after all of them are stored. *)
Theorem prepare_data_chain (host : dwmci_host D) data idmac m (s : st D gdata) :
  blocksize data = 512 -> 0 < blocks data -> 0 <= dest data -> dest data + 512 * blocks data < 2 ^ 32 ->
  0 <= idmac -> idmac + 16 * blocks data < 2 ^ 32 ->
  idmac + 16 * blocks data <= ioaddr host \/ ioaddr host + 0x100 <= idmac ->
  let r := dwmci_prepare_data host data idmac s in
  out r = Val tt /\ exists n l ta tb, tr r = ta ++ tb /\
    tiles (dest data) (512 * blocks data) l /\ idma_walk n (stored m (tr r)) idmac = Some l /\
    Forall (fun e => in_controller host e \/ stores_in idmac (idmac + 16 * blocks data) e) ta /\ Forall (dma_off host) ta /\
    Forall (in_controller host) tb /\ stored m ta (ioaddr host + DWMCI_DBADDR) = idmac.
Proof.
  intros Hbs Hb Hd Hd2 Hi Hi2 Hdis. cbv zeta.
  change (wp (dwmci_prepare_data host data idmac) s (fun o _ t => o = Val tt /\ exists n l ta tb, t = ta ++ tb /\
    tiles (dest data) (512 * blocks data) l /\ idma_walk n (stored m t) idmac = Some l /\
    Forall (fun e => in_controller host e \/ stores_in idmac (idmac + 16 * blocks data) e) ta /\ Forall (dma_off host) ta /\
    Forall (in_controller host) tb /\ stored m ta (ioaddr host + DWMCI_DBADDR) = idmac)).
  assert (Hn : blocks data / 8 + 1 <= blocks data) by div_lia.
  unfold dwmci_prepare_data. wp_step. eapply wp_mono; [apply wait_reset_spec|].
  intros o1 s1 t1 (Ho1 & t1' & -> & F1). assert (exists z, o1 = Val z) as [z ->] by (destruct Ho1; eauto). clear Ho1. cbv beta iota.
  unfold dwmci_writel, dwmci_readl. do 2 wp_step. wp_step.
  eapply wp_mono; [apply idma_loop_spec; [done|lia|lia|div_lia|lia|done|lia|lia]|].
  intros o2 s2 t2 ([z2 ->] & F2 & H2). cbv beta iota. destruct (H2 Hb) as (n & l & Hn1 & _ & Hl & Hw). clear H2.
  wp_run. split; [done|]. rewrite (u32_word idmac) by (unfold word; lia).
  match goal with |- context [?a ++ [Wr _ idmac] ++ t2 ++ ?b] => set (tb := b); set (t1w := a) end.
  exists n, l, (t1w ++ [Wr (ioaddr host + DWMCI_DBADDR) idmac] ++ t2), tb.
  assert (Ftb : Forall (in_controller host) tb).
  { unfold tb. cbn [app]. repeat (apply Forall_cons; split; [ctl_event|]). constructor. }
  assert (F2' : Forall (stores_in idmac (idmac + 16 * blocks data)) t2).
  { eapply Forall_impl; [exact F2|]. intros [] He; cbn in *; lia. }
  assert (Fr : forall P : event -> Prop, (forall e, is_read e -> P e) -> Forall P t1').
  { intros P HP. eapply Forall_impl; [exact F1|done]. }
  split; [by rewrite <- !app_assoc|]. split; [by replace (dest data + 4096 * 0) with (dest data) in Hl by lia|]. split.
  - rewrite !stored_app. set (m1 := stored (stored m t1w) _). destruct (Hw m1) as [Hwalk Hnext].
    rewrite <- (idma_walk_ext n (stored m1 t2)); [done| |done].
    intros a Ha. symmetry. apply (stored_frame _ _ (ioaddr host) (ioaddr host + 0x100)); [exact Ftb|lia].
  - split; [|split; [|split; [done|]]].
    + apply Forall_app. split; [constructor; [left; ctl_event|by apply Fr; intros []; left]|].
      constructor; [left; ctl_event|]. eapply Forall_impl; [exact F2'|auto].
    + apply Forall_app. split; [constructor; [cbn; done|by apply Fr; intros []]|].
      constructor; [cbv [dma_off DWMCI_CTRL DWMCI_DBADDR]; intros; exfalso; lia|]. eapply Forall_impl; [exact F2'|].
      intros [] He; cbv [dma_off stores_in DWMCI_CTRL] in *; try done. intros Ea; exfalso; lia.
    + rewrite !stored_app. rewrite (stored_frame _ t2 _ _ _ F2') by (change DWMCI_DBADDR with 0x88; lia).
      cbn [stored fold_left store]. by rewrite Z.eqb_refl.
Qed.

End transfer.

(** ** Sending a command *)

Section protocol.
Context {D : Type} `{Device D} (host : dwmci_host D).
Abbreviation M := (M D gdata).

(** The events of the protocol. *)
Definition lines_idle (e : event) : Prop :=
  exists v, e = Rd (ioaddr host + DWMCI_STATUS) v /\ truthy (v .& DWMCI_BUSY) = false.
Definition written (reg val : Z) (e : event) : Prop := e = Wr (ioaddr host + reg) (u32 val).
Definition answered (reg v : Z) (e : event) : Prop := e = Rd (ioaddr host + reg) v.
Definition command_done (e : event) : Prop :=
  exists v, e = Rd (ioaddr host + DWMCI_RINTSTS) v /\ truthy (v .& DWMCI_INTMSK_CDONE) = true /\
    truthy (v .& DWMCI_INTMSK_RTO) = false /\ truthy (v .& DWMCI_INTMSK_RE) = false.
Definition data_over (e : event) : Prop :=
  exists v, e = Rd (ioaddr host + DWMCI_RINTSTS) v /\ truthy (v .& (DWMCI_DATA_ERR .| DWMCI_DATA_TOUT)) = false /\
    truthy (v .& DWMCI_INTMSK_DTO) = true.
Definition dma_stopped (e : event) : Prop :=
  exists v, e = Wr (ioaddr host + DWMCI_CTRL) v /\ v .& DWMCI_DMA_EN = 0.

(** The reads that give the response its words. *)
Definition response_read (resp : Z) (words : list Z) : list (event -> Prop) :=
  if truthy (resp .& MMC_RSP_PRESENT) then
    if truthy (resp .& MMC_RSP_136) then
      match words with
      | [r0; r1; r2; r3] => [answered DWMCI_RESP3 r0; answered DWMCI_RESP2 r1; answered DWMCI_RESP1 r2; answered DWMCI_RESP0 r3]
      | _ => [fun _ => False]
      end
    else match words with r0 :: _ => [answered DWMCI_RESP0 r0] | [] => [fun _ => False] end
  else [].

Lemma wait_idle_seen (s : st D gdata) :
  wp (wait_idle host : M bool) s (fun o _ t => exists b, o = Val b /\ (b = true -> seen [lines_idle] t)).
Proof.
  unfold wait_idle. wp_step.
  eapply wp_mono; [apply seen_for with (R := fun b : bool => if b then [lines_idle] else []); [done|]|].
  - intros i s'. unfold dwmci_readl. wp_run; eexists; (split; [done|]); [constructor|done|].
    apply seen_hit; [|constructor]. by eexists.
  - intros o s1 t1 (r & -> & Hr). cbv beta iota. wp_step. eexists. split; [done|]. rewrite app_nil_r.
    destruct r as [[]|]; done.
Qed.

Lemma wait_cdone_seen data (s : st D gdata) :
  wp (wait_cdone host data : M (option Z)) s (fun o _ t => exists r, o = Val r /\
    match r with Some v => seen [answered DWMCI_RINTSTS v] t /\ truthy (v .& DWMCI_INTMSK_CDONE) = true | None => True end).
Proof.
  unfold wait_cdone. apply wp_for with (I := fun _ _ _ => True); [done|done| |eauto].
  intros i s' t _ _. unfold dwmci_readl, dwmci_writel. wp_step. wp_step. wp_step.
  - wp_step. eapply wp_mono with (Q := fun o _ _ => o = Val tt); [destruct data; wp_run; done|].
    intros o s1 t1 ->. cbv beta iota. wp_step. eexists. split; [done|]. split; [|done].
    apply seen_prefix. apply seen_hit; [done|constructor].
  - by wp_step.
Qed.

Lemma wait_data_seen fuel (s : st D gdata) :
  wp (wait_data fuel host : M (option Z)) s (fun o _ t => o = Stop NoFuel \/ exists r, o = Val r /\
    match r with Some v => seen [data_over] t | None => True end).
Proof.
  unfold wait_data. generalize tt as u. revert s. induction fuel as [|fuel IH]; intros s u; cbn [while_fuel]; [by left|].
  unfold dwmci_readl. wp_step. wp_step. wp_step. wp_step.
  destruct (truthy (v .& (DWMCI_DATA_ERR .| DWMCI_DATA_TOUT))) eqn:E1; [wp_step; right; by eexists|].
  destruct (truthy (v .& DWMCI_INTMSK_DTO)) eqn:E2.
  - wp_step. right. eexists. split; [done|]. cbn [app]. apply seen_hit; [by eexists|constructor].
  - eapply wp_mono; [apply IH|]. intros o s' t' [->|(r & -> & Hr)]; [by left|]. right. eexists. split; [done|].
    destruct r; [|done]. by apply seen_prefix.
Qed.

Lemma read_response_seen cmd (s : st D gdata) :
  wp (read_response host cmd : M mmc_cmd) s (fun o _ t => exists cmd', o = Val cmd' /\
    seen (response_read (resp_type cmd) (response cmd')) t).
Proof.
  unfold read_response, response_read, dwmci_readl. destruct (truthy (resp_type cmd .& MMC_RSP_PRESENT)).
  - destruct (truthy (resp_type cmd .& MMC_RSP_136)); wp_run; eexists; (split; [done|]); cbn [response app];
      repeat (apply seen_hit; [done|]); constructor.
  - wp_step. eexists. split; [done|]. constructor.
Qed.

Lemma prepare_data_outcome data idmac (s : st D gdata) :
  wp (dwmci_prepare_data host data idmac : M unit) s (fun o _ _ => o = Stop NoFuel \/ o = Val tt).
Proof.
  assert (Hl : forall fuel x s, wp (while_fuel fuel (idma_body data) x : M Z) s (fun o _ _ => o = Stop NoFuel \/ is_val o)).
  { induction fuel as [|fuel IH]; intros [[blk cur] i] s'; cbn [while_fuel idma_body]; [by left|].
    wp_step. destruct (blk <=? 8); unfold dwmci_set_idma_desc; wp_line; destruct (blk <? 8);
      try (wp_step; right; by eexists); (eapply wp_mono; [apply IH|]; done). }
  unfold dwmci_prepare_data. wp_call wait_reset_spec. intros o1 s1 t1 (Ho & _).
  assert (exists z, o1 = Val z) as [z ->] by (destruct Ho; eauto). cbv beta iota. unfold dwmci_writel, dwmci_readl.
  do 2 wp_step. wp_call Hl. intros o2 s2 t2 [->|[v ->]]; cbv beta iota; [by left|]. wp_run. by right.
Qed.

(** A loop whose body returns stops only for lack of fuel; so does a delay. *)
Definition returns_or_nofuel {A} (m : M A) : Prop := forall s, out (m s) = Stop NoFuel \/ is_val (out (m s)).

Lemma nofuel_bind {A B} (m : M A) (k : A -> M B) :
  returns_or_nofuel m -> (forall a, returns_or_nofuel (k a)) -> returns_or_nofuel (bind m k).
Proof. intros Hm Hk s. unfold bind. destruct (Hm s) as [-> |[a ->]]; [by left|apply Hk]. Qed.

Lemma nofuel_total {A} (m : M A) : total m -> returns_or_nofuel m.
Proof. intros Hm s. right. apply Hm. Qed.

Lemma nofuel_while {X A} fuel (body : X -> M (X + A)) x :
  (forall x, returns_or_nofuel (body x)) -> returns_or_nofuel (while_fuel fuel body x).
Proof.
  intros Hb. revert x. induction fuel as [|fuel IH]; intros x; cbn [while_fuel]; [by left|].
  apply nofuel_bind; [done|]. intros [y|a]; [apply IH|apply nofuel_total, total_ret].
Qed.

Lemma udelay_outcome fuel usec (s : st D gdata) :
  wp (udelay fuel usec : M unit) s (fun o _ _ => o = Stop NoFuel \/ o = Val tt).
Proof.
  assert (Hu : returns_or_nofuel (udelay fuel usec : M unit)).
  { apply nofuel_while. intros u. unfold udelay_chunk. apply nofuel_bind; [apply nofuel_total, watchdog_total|intros _].
    apply nofuel_bind; [|intros _; apply nofuel_total, total_ret].
    unfold __udelay. apply nofuel_bind; [apply nofuel_total, total_readl|intros last].
    apply nofuel_while. intros [tmo l]. apply nofuel_total. unfold udelay_body, read_timer. hw_auto. }
  unfold wp. destruct (Hu s) as [-> |[[] ->]]; auto.
Qed.

Lemma dma_en_cleared v : u32 (v .& .~ DWMCI_DMA_EN) .& DWMCI_DMA_EN = 0.
Proof.
  apply Z.bits_inj'. intros i Hi. unfold u32. rewrite Z.bits_0, Z.land_spec, Z.testbit_mod_pow2 by lia.
  rewrite Z.land_spec, Z.lnot_spec by done. destruct (Z.testbit v i), (Z.testbit DWMCI_DMA_EN i), (i <? 32); done.
Qed.

(** What the result of a command says about its trace. *)
Definition command_result (cmd : mmc_cmd) (data : option mmc_data) (o : outcome (Z * mmc_cmd)) (t : trace) : Prop :=
  o = Stop NoFuel \/ exists err cmd', o = Val (err, cmd') /\ In err [0; TIMEOUT; -1] /\
    (err = 0 -> seen ([lines_idle; written DWMCI_RINTSTS DWMCI_INTMSK_ALL; written DWMCI_CMDARG (cmdarg cmd);
       written DWMCI_CMD (cmd_flags cmd data); command_done] ++ response_read (resp_type cmd) (response cmd') ++
       match data with Some _ => [data_over; dma_stopped] | None => [] end) t).

Lemma command_failed cmd data e cmd' t : In e [TIMEOUT; -1] -> command_result cmd data (Val (e, cmd')) t.
Proof.
  intros He. right. eexists _, _. split; [done|]. split; [by right|].
  intros ->. cbn in He. destruct He as [He|[He|He]]; done.
Qed.

(** C17: A command that succeeds went through the whole protocol.  The result 0
    means that, in this order, the data lines were seen idle, the old interrupts
    were cleared, argument and command were written, the command was seen done
    without a time-out or an error, the response words are what the response
    registers gave and, with data, the transfer was seen over without an error
    and the DMA engine was stopped.  Every other run ends with the code of a
    time-out or of an error, or polls for ever. *)
Theorem send_cmd_protocol fuel cmd data idmac (s : st D gdata) :
  let r := dwmci_send_cmd fuel host cmd data idmac s in command_result cmd data (out r) (tr r).
Proof.
  cbv zeta. wp_enter. unfold dwmci_send_cmd, dwmci_writel, dwmci_readl.
  wp_call wait_idle_seen. intros o1 s1 t1 (b & -> & H1). cbv beta iota.
  destruct b; cbn [negb]; [|wp_step; apply command_failed; by left]. specialize (H1 eq_refl). do 2 wp_step. wp_step.
  match goal with |- wp ?m _ _ => apply (wp_mono m _ (fun o _ _ => o = Stop NoFuel \/ o = Val tt)) end.
  { destruct data; [apply prepare_data_outcome|wp_step; by right]. }
  intros o2 s2 t2 [-> | ->]; cbv beta iota; [by left|]. do 2 wp_step.
  destruct (truthy (resp_type cmd .& MMC_RSP_136) && truthy (resp_type cmd .& MMC_RSP_BUSY)).
  { wp_step. apply command_failed. right; by left. }
  do 2 wp_step. wp_call wait_cdone_seen. intros o3 s3 t3 (r3 & -> & H3). cbv beta iota.
  destruct r3 as [v|]; [|wp_step; apply command_failed; by left]. destruct H3 as [H3 Hd].
  destruct (truthy (v .& DWMCI_INTMSK_RTO)) eqn:Erto; [wp_step; apply command_failed; by left|].
  destruct (truthy (v .& DWMCI_INTMSK_RE)) eqn:Ere; [wp_step; apply command_failed; right; by left|].
  apply (seen_one _ command_done) in H3; [|intros e ->; by eexists].
  wp_call read_response_seen. intros o4 s4 t4 (cmd' & -> & H4). cbv beta iota.
  assert (Hpre : forall t5, seen (match data with Some _ => [data_over; dma_stopped] | None => [] end) t5 ->
    command_result cmd data (Val (0, cmd')) (t1 ++ [Wr (ioaddr host + DWMCI_RINTSTS) (u32 DWMCI_INTMSK_ALL)] ++
      t2 ++ [Wr (ioaddr host + DWMCI_CMDARG) (u32 (cmdarg cmd))] ++ [Wr (ioaddr host + DWMCI_CMD) (u32 (cmd_flags cmd data))] ++
      t3 ++ t4 ++ t5)).
  { intros t5 H5. right. eexists _, _. split; [done|]. split; [by left|]. intros _.
    apply (seen_app [_]); [done|]. apply seen_hit; [done|]. apply seen_prefix. apply seen_hit; [done|].
    apply seen_hit; [done|]. apply (seen_app [_]); [done|]. by apply seen_app. }
  destruct data as [dt|].
  - wp_call wait_data_seen. intros o5 s5 t5 [-> |(r5 & -> & H5)]; cbv beta iota; [by left|].
    destruct r5 as [w|]; [|wp_step; apply command_failed; right; by left].
    do 2 wp_step. wp_step. wp_step. do 2 wp_step. wp_call udelay_outcome. intros o6 s6 t6 [-> | ->]; cbv beta iota; [by left|].
    wp_step. apply Hpre. apply (seen_app [_]); [done|]. cbn [app]. do 2 apply seen_skip. apply seen_hit; [|constructor].
    eexists. split; [done|]. apply dma_en_cleared.
  - wp_call udelay_outcome. intros o6 s6 t6 [-> | ->]; cbv beta iota; [by left|]. wp_step. apply Hpre. constructor.
Qed.

End protocol.

(** ** The card clock *)

(** The divider is the fastest that does not exceed the request: 0, the
    clock as it is, only when the clock is the request; otherwise the card runs
    at sclk / (2 div), not above [freq], and would exceed it with any smaller
    divider. *)
Theorem clk_div_fastest sclk freq :
  0 < sclk -> 0 < freq -> sclk + 2 * freq < 2 ^ 32 ->
  let div := clk_div sclk freq in
  (div = 0 /\ sclk = freq) \/
  (0 < div /\ sclk <= freq * (2 * div) /\ forall d, 0 < d < div -> freq * (2 * d) < sclk).
Proof.
  intros Hs Hf Hb. cbv zeta. unfold clk_div. destruct (Z.eqb_spec sclk freq); [by left|right].
  unfold DIV_ROUND_UP. rewrite (u32_word (2 * freq)), (u32_word (sclk + 2 * freq)), u32_word by (unfold word; lia).
  set (q := (sclk + 2 * freq - 1) / (2 * freq)).
  assert (Hq : 2 * freq * q <= sclk + 2 * freq - 1 < 2 * freq * q + 2 * freq).
  { pose proof (Z.div_mod (sclk + 2 * freq - 1) (2 * freq) ltac:(lia)) as E. fold q in E.
    pose proof (Z.mod_pos_bound (sclk + 2 * freq - 1) (2 * freq) ltac:(lia)). lia. }
  split; [nia|]. split; [nia|]. intros d Hd. nia.
Qed.

Lemma clk_div_fastest_witness :
  let div := clk_div 50000000 400000 in
  (div = 0 /\ 50000000 = 400000) \/
  (0 < div /\ 50000000 <= 400000 * (2 * div) /\ forall d, 0 < d < div -> 400000 * (2 * d) < 50000000).
Proof. apply clk_div_fastest; lia. Defined.

Section clock.
Context {D : Type} `{Device D} (host : dwmci_host D).
Abbreviation M := (M D gdata).

Definition start_clear (e : event) : Prop :=
  exists v, e = Rd (ioaddr host + DWMCI_CMD) v /\ truthy (v .& DWMCI_CMD_START) = false.

(** The command that makes the controller take over the clock registers. *)
Definition update_clock : Z := DWMCI_CMD_PRV_DAT_WAIT .| DWMCI_CMD_UPD_CLK .| DWMCI_CMD_START.
Definition enable_clock : Z := DWMCI_CLKEN_ENABLE .| DWMCI_CLKEN_LOW_PWR.

Lemma wait_start_seen (s : st D gdata) :
  wp (wait_start host : M bool) s (fun o _ t => exists b, o = Val b /\ (b = true -> seen [start_clear] t) /\
    Forall (fun e => match e with Wr _ _ => False | _ => True end) t).
Proof.
  unfold wait_start. wp_step.
  eapply wp_mono; [apply wp_and; [apply seen_for with (R := fun b : bool => if b then [start_clear] else []); [done|]|
    apply (wp_events (fun e => match e with Wr _ _ => False | _ => True end)); apply only_for; intros i]|].
  - intros i s'. unfold dwmci_readl. wp_step. wp_step. wp_step; [wp_run; eexists; split; [done|constructor]|].
    wp_step. eexists. split; [done|]. destruct (truthy (v .& DWMCI_CMD_START)) eqn:E; [done|].
    apply seen_hit; [by eexists|constructor].
  - unfold dwmci_readl. apply only_bind; [by apply only_readl|intros v]. destruct (_ <? 0); [|apply only_ret].
    apply only_bind; [by apply only_msg|intros _; apply only_ret].
  - intros o s1 t1 [(r & -> & Hr) F]. cbv beta iota. wp_step. eexists. split; [done|]. rewrite app_nil_r.
    split; [|done]. by destruct r as [[]|].
Qed.

(** The pin delays are changed while the clock of the controller is gated. *)
Lemma clksel_seen (s : st D gdata) :
  wp (altera_dwmci_clksel : M unit) s (fun o _ t => o = Val tt /\ exists en en',
    t = [Rd CLKMGR_PERPLLGRP_EN_REG en; Wr CLKMGR_PERPLLGRP_EN_REG (u32 (en .& .~ CLKMGR_SDMMC_CLK_ENABLE));
         Wr SYSMGR_SDMMCGRP_CTRL_REG 3; Rd CLKMGR_PERPLLGRP_EN_REG en';
         Wr CLKMGR_PERPLLGRP_EN_REG (u32 (en' .| CLKMGR_SDMMC_CLK_ENABLE))]).
Proof. unfold altera_dwmci_clksel. wp_run. split; [done|]. by eexists _, _. Qed.

(** The enabling of the card's clock. *)
Definition enables (e : event) : Prop := e = Wr (ioaddr host + DWMCI_CLKENA) enable_clock.

(** C18: The card's clock never runs while it is changed.  On this platform the
    set-up of a new frequency first switches the card's clock off, then loads
    the divider; the clock is switched on again only after the controller took
    the divider over, and the frequency is recorded only after it took that
    over, too.  When the controller does not answer, the result is -ETIMEDOUT,
    the old frequency stays recorded, and after a failure of the first step
    the clock is left off. *)
Theorem setup_bus_gated freq (s : st D gdata) :
  clksel host = Some altera_dwmci_clksel -> mmc_clk host = None -> 0 < bus_hz host -> 0 < freq < 2 ^ 31 ->
  freq <> clock host -> ioaddr host = SOCFPGA_SDMMC_ADDRESS ->
  let r := dwmci_setup_bus host freq s in
  let off := [written host DWMCI_CLKENA 0; written host DWMCI_CLKDIV (clk_div (bus_hz host) freq);
              written host DWMCI_CMD update_clock; start_clear] in
  exists ta tb, tr r = ta ++ tb /\ Forall (fun e => ~ enables e) ta /\
    ((out r = Val (0, set_clock freq host) /\ seen off ta /\
      seen [enables; written host DWMCI_CMD update_clock; start_clear] tb) \/
     (out r = Val (- ETIMEDOUT, host) /\ (tb = [] \/ seen off ta))).
Proof.
  intros Hsel Hclk Hhz Hfreq Hnew Hio. cbv zeta.
  set (off := [written host DWMCI_CLKENA 0; written host DWMCI_CLKDIV (clk_div (bus_hz host) freq);
              written host DWMCI_CMD update_clock; start_clear]).
  wp_enter. unfold dwmci_setup_bus. rewrite (proj2 (Z.eqb_neq freq (clock host))) by done.
  unfold source_clock. rewrite Hclk. unfold truthy at 1. rewrite (proj2 (Z.eqb_neq (bus_hz host) 0)) by lia. cbn [negb].
  rewrite Hsel. unfold dwmci_writel. rewrite (u32_word (2 * freq)) by (unfold word; lia).
  rewrite (proj2 (Z.eqb_neq (2 * freq) 0)) by lia. rewrite orb_true_r. do 10 wp_step.
  wp_call clksel_seen. intros o1 s1 t1 (-> & en & en' & ->). cbv beta iota.
  wp_call wait_start_seen. intros o2 s2 t2 (b & -> & H2 & F2). cbv beta iota.
  match goal with |- context [[] ++ ?h ++ ?a ++ ?b ++ ?c ++ ?d ++ t2 ++ _] => set (ta := (h ++ a ++ b ++ c ++ d) ++ t2) end.
  assert (Fa : Forall (fun e => ~ enables e) ta).
  { apply Forall_app. split; [|eapply Forall_impl; [exact F2|]; intros [] He; try done; intros Ha; by inversion Ha].
    cbn [app]. unfold enables. rewrite Hio. repeat (apply Forall_cons; split; [intros Ha; inversion Ha|]). constructor. }
  assert (Hoff : b = true -> seen off ta).
  { intros Hb. unfold off, ta. apply (seen_app [_; _; _] [_]); [|by apply H2].
    cbn [app]. apply seen_hit; [done|]. apply seen_skip. apply seen_hit; [done|]. apply seen_hit; [done|constructor]. }
  assert (Eta : forall t', ta ++ t' = [] ++ [Wr (ioaddr host + DWMCI_CLKENA) (u32 0)] ++
      [Wr (ioaddr host + DWMCI_CLKSRC) (u32 0)] ++ [Wr (ioaddr host + DWMCI_CLKDIV) (u32 (clk_div (bus_hz host) freq))] ++
      [Wr (ioaddr host + DWMCI_CMD) (u32 (DWMCI_CMD_PRV_DAT_WAIT .| DWMCI_CMD_UPD_CLK .| DWMCI_CMD_START))] ++
      [Rd CLKMGR_PERPLLGRP_EN_REG en; Wr CLKMGR_PERPLLGRP_EN_REG (u32 (en .& .~ CLKMGR_SDMMC_CLK_ENABLE));
       Wr SYSMGR_SDMMCGRP_CTRL_REG 3; Rd CLKMGR_PERPLLGRP_EN_REG en';
       Wr CLKMGR_PERPLLGRP_EN_REG (u32 (en' .| CLKMGR_SDMMC_CLK_ENABLE))] ++ t2 ++ t')
    by (intros t'; unfold ta; by rewrite <- !app_assoc).
  destruct b; cbn [negb].
  - do 2 wp_step. do 2 wp_step. wp_call wait_start_seen. intros o3 s3 t3 (b & -> & H3 & F3). cbv beta iota.
    destruct b; cbn [negb]; wp_step; eexists ta, _; (split; [symmetry; apply Eta|]); (split; [done|]); [left|right; auto].
    split; [done|]. split; [auto|]. cbn [app]. apply seen_hit; [done|]. apply seen_hit; [done|]. apply seen_suffix. auto.
  - wp_step. exists ta, []. split; [symmetry; apply Eta|]. split; [done|]. right. auto.
Qed.

End clock.

(** ** Witnesses *)

(** A controller that is always idle and done: STATUS 0, RINTSTS with the
    command and the transfer over, every other read 0; the state is the timer,
    which counts down. *)
Record mmc_sim := mk_mmc_sim { sim_timer : Z }.
#[export] Instance mmc_sim_device : Device mmc_sim := {
  dev_read a d :=
    if a =? SOCFPGA_SDMMC_ADDRESS + DWMCI_RINTSTS then (DWMCI_INTMSK_CDONE .| DWMCI_INTMSK_DTO, d)
    else if a =? timer_base_curr_val then (sim_timer d, mk_mmc_sim (sim_timer d - 2000))
    else (0, d);
  dev_write _ _ d := d
}.
Definition mmc_sim0 : st mmc_sim gdata := mk_st (mk_mmc_sim 0xF0000000) gdata0.

Definition sim_host : dwmci_host mmc_sim := altera_host SOCFPGA_SDMMC_ADDRESS 4 0 50000000.

(** Twenty sectors take three descriptors. *)
Lemma prepare_data_chain_witness :
  let r := dwmci_prepare_data sim_host (mk_mmc_data 0x01000000 MMC_DATA_READ 20 512) 0xFFFF0000 mmc_sim0 in
  out r = Val tt /\ exists n l, tiles 0x01000000 10240 l /\ idma_walk n (stored (fun _ => 0) (tr r)) 0xFFFF0000 = Some l.
Proof.
  destruct (prepare_data_chain sim_host (mk_mmc_data 0x01000000 MMC_DATA_READ 20 512) 0xFFFF0000 (fun _ => 0) mmc_sim0)
    as (Ho & n & l & ta & tb & _ & Hl & Hw & _); cbn; try lia.
  { right. change SOCFPGA_SDMMC_ADDRESS with 0xff704000. lia. }
  split; [exact Ho|]. exists n, l. split; [exact Hl|exact Hw].
Defined.

Lemma setup_bus_gated_witness :
  let r := dwmci_setup_bus sim_host 400000 mmc_sim0 in
  out r = Val (0, set_clock 400000 sim_host) /\ exists ta tb, tr r = ta ++ tb /\
    seen [written sim_host DWMCI_CLKENA 0; written sim_host DWMCI_CLKDIV 63;
          written sim_host DWMCI_CMD update_clock; start_clear sim_host] ta /\
    seen [enables sim_host; written sim_host DWMCI_CMD update_clock; start_clear sim_host] tb.
Proof.
  destruct (setup_bus_gated sim_host 400000 mmc_sim0) as (ta & tb & Et & _ & [(Ho & Ha & Hb)|(Ho & _)]);
    [reflexivity|reflexivity|cbn; lia|lia|discriminate|reflexivity| |].
  - split; [exact Ho|]. exists ta, tb. split; [exact Et|]. split; [exact Ha|exact Hb].
  - exfalso. vm_compute in Ho. discriminate Ho.
Defined.

(** A read of one sector succeeds. *)
Example sim_read_succeeds :
  exists cmd', out (dwmci_send_cmd 5 sim_host (mk_mmc_cmd MMC_CMD_READ_SINGLE_BLOCK MMC_RSP_R1 512 [0; 0; 0; 0])
    (Some (mk_mmc_data 0x01000000 MMC_DATA_READ 1 512)) 0xFFFF0000 mmc_sim0) = Val (0, cmd').
Proof. eexists. vm_compute. reflexivity. Qed.
