(* ===== verification/Mmc.v ===== *)
(** The block device layer of drivers/mmc/mmc.c: struct mmc, the commands that
    read, write and erase blocks, and the list of devices.

    The functions that a host controller registers in struct mmc are a record;
    nothing is assumed of them here.  Main memory is what the hardware shows the
    processor at an address, because the controller writes there by DMA. *)

From S2P Require Import Prelude Mmio Regs Globals Timer DwMmc.
From coqutil Require Export Datatypes.RecordSetters.
Export TriangleBracketNotations.

(** ** State *)

(** block_dev_desc_t, without the identification strings and the functions,
    which are those of this file for every device. *)
Record block_dev_desc := mk_block_dev_desc {
  if_type : Z;
  dev_num : Z;
  lun : Z;
  dev_type : Z;
  removable : Z;
  lba : Z;
  blksz : Z
}.

(** struct mmc; [priv] is the structure of the host controller. *)
Record mmc (P : Type) := mk_mmc {
  priv : P;
  voltages : Z;
  version : Z;
  has_init : Z;
  f_min : Z;
  f_max : Z;
  high_capacity : bool;
  bus_width : Z;
  mmc_clock : Z;
  card_caps : Z;
  host_caps : Z;
  ocr : Z;
  scr : list Z;
  csd : list Z;
  cid : list Z;
  rca : Z;
  part_config : Z;
  part_num : Z;
  tran_speed : Z;
  read_bl_len : Z;
  write_bl_len : Z;
  erase_grp_size : Z;
  capacity : Z;
  block_dev : block_dev_desc;
  b_max : Z
}.
Arguments mk_mmc {P}.
Arguments priv {P} m.
Arguments voltages {P} m.
Arguments version {P} m.
Arguments has_init {P} m.
Arguments f_min {P} m.
Arguments f_max {P} m.
Arguments high_capacity {P} m.
Arguments bus_width {P} m.
Arguments mmc_clock {P} m.
Arguments card_caps {P} m.
Arguments host_caps {P} m.
Arguments ocr {P} m.
Arguments scr {P} m.
Arguments csd {P} m.
Arguments cid {P} m.
Arguments rca {P} m.
Arguments part_config {P} m.
Arguments part_num {P} m.
Arguments tran_speed {P} m.
Arguments read_bl_len {P} m.
Arguments write_bl_len {P} m.
Arguments erase_grp_size {P} m.
Arguments capacity {P} m.
Arguments block_dev {P} m.
Arguments b_max {P} m.

(** The globals of mmc.c beside those of the preloader.  A pointer to a struct
    mmc is its place in the list of devices. *)
Record mmc_globals (P : Type) := mk_mmc_globals {
  mgd : gdata;
  mmc_devices : list (mmc P);
  cur_dev_num : Z
}.
Arguments mk_mmc_globals {P}.
Arguments mgd {P} m.
Arguments mmc_devices {P} m.
Arguments cur_dev_num {P} m.

(** The memory that the processor sees. *)
Class Memory (D : Type) := ram : D -> Z -> Z.

(** The functions of struct mmc: send_cmd, which answers with the command and
    its response, set_ios, which may change the structure of the host, and init. *)
Record mmc_host (D P : Type) := mk_mmc_host {
  send_cmd : mmc P -> mmc_cmd -> option mmc_data -> M D (mmc_globals P) (Z * mmc_cmd);
  set_ios : mmc P -> M D (mmc_globals P) P;
  init : mmc P -> M D (mmc_globals P) Z
}.
Arguments mk_mmc_host {D P}.
Arguments send_cmd {D P} m.
Arguments set_ios {D P} m.
Arguments init {D P} m.

Definition IS_SD {P} (m : mmc P) : bool := truthy (version m .& SD_VERSION_SD).
Definition mmc_host_is_spi {P} (m : mmc P) : bool := truthy (host_caps m .& MMC_MODE_SPI).

(** A local struct mmc_cmd before its first use. *)
Definition new_cmd : mmc_cmd := mk_mmc_cmd 0 0 0 [0; 0; 0; 0].

(** The three assignments before each command. *)
Definition set_cmd (idx rsp arg : Z) (c : mmc_cmd) : mmc_cmd := mk_mmc_cmd idx rsp (u32 arg) (response c).
Definition resp (c : mmc_cmd) (i : nat) : Z := nth i (response c) 0.

Section mmc.
Context {D P : Type} `{Device D} `{Memory D} (host : mmc_host D P).
Abbreviation M := (M D (mmc_globals P)).
Abbreviation mmc := (mmc P).

Definition with_gd {A} (m : Mmio.M D gdata A) : M A :=
  zoom mgd (fun g G => mk_mmc_globals g (mmc_devices G) (cur_dev_num G)) m.

Definition the_mmc (p : nat) : M mmc :=
  let* g := get in match mmc_devices g !! p with Some m => ret m | None => undef end.

Definition upd_mmc (p : nat) (f : mmc -> mmc) : M unit :=
  modify (fun g => mk_mmc_globals (mgd g) (alter f p (mmc_devices g)) (cur_dev_num g)).

(** [if (err) return err;] after a function or a command. *)
Definition check (m : M Z) (k : M Z) : M Z := let* err := m in if truthy err then ret err else k.
Definition checked (m : M (Z * mmc_cmd)) (k : mmc_cmd -> M Z) : M Z :=
  let* r := m in if truthy (fst r) then ret (fst r) else k (snd r).

(** A byte of main memory. *)
Definition load (a : Z) : M Z := fun s => mk_res (Val (ram (dev s) a)) s [].

Definition mmc_send_cmd (p : nat) (cmd : mmc_cmd) (data : option mmc_data) : M (Z * mmc_cmd) :=
  let* m := the_mmc p in send_cmd host m cmd data.

(** ** Waiting until the card is ready *)

(** One turn: the command, the retries and the timeout; [inr (inl _)] returns,
    [inr (inr _)] leaves the loop with the timeout. *)
Definition send_status_body (fuel : nat) (p : nat) (x : mmc_cmd * Z * Z) : M ((mmc_cmd * Z * Z) + (Z + Z)) :=
  let '(cmd, retries, timeout) := x in
  let* r := mmc_send_cmd p cmd None in
  let '(err, cmd) := r in
  let next retries :=
    with_gd (udelay fuel 1000) ;;;
    ret (if truthy timeout then inl (cmd, retries, timeout - 1) else inr (inr (timeout - 1))) in
  if negb (truthy err) then
    if truthy (resp cmd 0 .& MMC_STATUS_RDY_FOR_DATA) && negb (resp cmd 0 .& MMC_STATUS_CURR_STATE =? MMC_STATE_PRG)
    then ret (inr (inr timeout))
    else if truthy (resp cmd 0 .& MMC_STATUS_MASK) then msg "Status Error: " ;;; ret (inr (inl COMM_ERR))
    else next retries
  else
    let retries := retries - 1 in
    if retries <? 0 then ret (inr (inl err)) else next retries.

Definition mmc_send_status (fuel : nat) (p : nat) (timeout : Z) : M Z :=
  let* m := the_mmc p in
  let cmd := set_cmd MMC_CMD_SEND_STATUS MMC_RSP_R1
               (if negb (mmc_host_is_spi m) then rca m .<< 16 else cmdarg new_cmd) new_cmd in
  let* r := while_fuel (Z.to_nat (timeout + 1)) (send_status_body fuel p) (cmd, 5, timeout) in
  match r with
  | inl err => ret err
  | inr timeout => if timeout <=? 0 then msg "Timeout waiting card ready" ;;; ret TIMEOUT else ret 0
  end.

Definition mmc_set_blocklen (p : nat) (len : Z) : M Z :=
  let* r := mmc_send_cmd p (set_cmd MMC_CMD_SET_BLOCKLEN MMC_RSP_R1 len new_cmd) None in ret (fst r).

(** ** The list of devices *)

Fixpoint find_dev (n : Z) (l : list mmc) (p : nat) : option nat :=
  match l with
  | [] => None
  | m :: l => if dev_num (block_dev m) =? n then Some p else find_dev n l (S p)
  end.

Definition find_mmc_device (n : Z) : M (option nat) :=
  let* g := get in
  match find_dev n (mmc_devices g) 0 with
  | Some p => ret (Some p)
  | None => msg "MMC Device not found" ;;; ret None
  end.

(** ** Erasing *)

Definition mmc_erase_t (p : nat) (start blkcnt : Z) : M Z :=
  let* m := the_mmc p in
  let '(start, end_) :=
    if high_capacity m then (start, u32 (start + blkcnt - 1))
    else (u32 (start * write_bl_len m), u32 ((start + blkcnt - 1) * write_bl_len m)) in
  let '(start_cmd, end_cmd) :=
    if IS_SD m then (SD_CMD_ERASE_WR_BLK_START, SD_CMD_ERASE_WR_BLK_END)
    else (MMC_CMD_ERASE_GROUP_START, MMC_CMD_ERASE_GROUP_END) in
  let err_out err := msg "mmc erase failed" ;;; ret err in
  let* r := mmc_send_cmd p (set_cmd start_cmd MMC_RSP_R1 start new_cmd) None in
  if truthy (fst r) then err_out (fst r) else
  let* r := mmc_send_cmd p (set_cmd end_cmd MMC_RSP_R1 end_ (snd r)) None in
  if truthy (fst r) then err_out (fst r) else
  let* r := mmc_send_cmd p (set_cmd MMC_CMD_ERASE MMC_RSP_R1b SECURE_ERASE (snd r)) None in
  if truthy (fst r) then err_out (fst r) else
  ret 0.

(** One turn of the loop of mmc_berase on the blocks erased; [inr] the result. *)
Definition berase_body (fuel : nat) (p : nat) (start blkcnt blk : Z) : M (Z + Z) :=
  if blk <? blkcnt then
    let* m := the_mmc p in
    let blk_r := if erase_grp_size m <? blkcnt - blk then erase_grp_size m else blkcnt - blk in
    let* err := mmc_erase_t p (u32 (start + blk)) blk_r in
    if truthy err then ret (inr blk) else
    let* e := mmc_send_status fuel p 1000 in
    ret (if truthy e then inr 0 else inl (u32 (blk + blk_r)))
  else ret (inr blk).

Definition mmc_berase (fuel : nat) (dev_num start blkcnt : Z) : M Z :=
  let* p := find_mmc_device dev_num in
  match p with
  | None => ret (u32 (-1))
  | Some p =>
      let* m := the_mmc p in
      (if erase_grp_size m =? 0 then undef else ret tt) ;;;
      when (truthy (start mod erase_grp_size m) || truthy (blkcnt mod erase_grp_size m))
        (msg "Caution! Your devices Erase group is") ;;;
      while_fuel fuel (berase_body fuel p start blkcnt) 0
  end.

(** ** Writing *)

Definition mmc_write_blocks (fuel : nat) (p : nat) (start blkcnt src : Z) : M Z :=
  let* m := the_mmc p in
  if lba (block_dev m) <? u32 (start + blkcnt) then msg "MMC: block number exceeds max" ;;; ret 0 else
  let idx := if 1 <? blkcnt then MMC_CMD_WRITE_MULTIPLE_BLOCK else MMC_CMD_WRITE_SINGLE_BLOCK in
  let arg := if high_capacity m then start else start * write_bl_len m in
  let* r := mmc_send_cmd p (set_cmd idx MMC_RSP_R1 arg new_cmd) (Some (mk_mmc_data src MMC_DATA_WRITE blkcnt (write_bl_len m))) in
  if truthy (fst r) then msg "mmc write failed" ;;; ret 0 else
  let status :=
    let* e := mmc_send_status fuel p 1000 in ret (if truthy e then 0 else blkcnt) in
  if negb (mmc_host_is_spi m) && (1 <? blkcnt) then
    let* r := mmc_send_cmd p (set_cmd MMC_CMD_STOP_TRANSMISSION MMC_RSP_R1b 0 (snd r)) None in
    if truthy (fst r) then msg "mmc fail to send stop cmd" ;;; ret 0 else status
  else status.

(** One turn of the loop of mmc_bwrite on the blocks left, the block and the
    source; [inr] the result. *)
Definition bwrite_body (fuel : nat) (p : nat) (blkcnt : Z) (x : Z * Z * Z) : M (Z * Z * Z + Z) :=
  let '(blocks_todo, start, src) := x in
  let* m := the_mmc p in
  let cur := if b_max m <? blocks_todo then b_max m else blocks_todo in
  let* n := mmc_write_blocks fuel p start cur src in
  if negb (n =? cur) then ret (inr 0) else
  let blocks_todo := blocks_todo - cur in
  ret (if 0 <? blocks_todo then inl (blocks_todo, u32 (start + cur), u32 (src + cur * write_bl_len m)) else inr blkcnt).

Definition mmc_bwrite (fuel : nat) (dev_num start blkcnt src : Z) : M Z :=
  let* p := find_mmc_device dev_num in
  match p with
  | None => ret 0
  | Some p =>
      let* m := the_mmc p in
      let* e := mmc_set_blocklen p (write_bl_len m) in
      if truthy e then ret 0 else while_fuel fuel (bwrite_body fuel p blkcnt) (blkcnt, start, src)
  end.

(** ** Reading *)

Definition mmc_read_blocks (p : nat) (dst start blkcnt : Z) : M Z :=
  let* m := the_mmc p in
  let idx := if 1 <? blkcnt then MMC_CMD_READ_MULTIPLE_BLOCK else MMC_CMD_READ_SINGLE_BLOCK in
  let arg := if high_capacity m then start else start * read_bl_len m in
  let* r := mmc_send_cmd p (set_cmd idx MMC_RSP_R1 arg new_cmd) (Some (mk_mmc_data dst MMC_DATA_READ blkcnt (read_bl_len m))) in
  if truthy (fst r) then ret 0 else
  if 1 <? blkcnt then
    let* r := mmc_send_cmd p (set_cmd MMC_CMD_STOP_TRANSMISSION MMC_RSP_R1b 0 (snd r)) None in
    if truthy (fst r) then msg "mmc fail to send stop cmd" ;;; ret 0 else ret blkcnt
  else ret blkcnt.

(** One turn of the loop of mmc_bread on the blocks left, the block and the
    destination; [inr] the result. *)
Definition bread_body (p : nat) (blkcnt : Z) (x : Z * Z * Z) : M (Z * Z * Z + Z) :=
  let '(blocks_todo, start, dst) := x in
  let* m := the_mmc p in
  let cur := if b_max m <? blocks_todo then b_max m else blocks_todo in
  let* n := mmc_read_blocks p dst start cur in
  if negb (n =? cur) then ret (inr 0) else
  let blocks_todo := blocks_todo - cur in
  ret (if 0 <? blocks_todo then inl (blocks_todo, u32 (start + cur), u32 (dst + cur * read_bl_len m)) else inr blkcnt).

Definition mmc_bread (fuel : nat) (dev_num start blkcnt dst : Z) : M Z :=
  if blkcnt =? 0 then ret 0 else
  let* p := find_mmc_device dev_num in
  match p with
  | None => ret 0
  | Some p =>
      let* m := the_mmc p in
      if lba (block_dev m) <? u32 (start + blkcnt) then msg "MMC: block number exceeds max" ;;; ret 0 else
      let* e := mmc_set_blocklen p (read_bl_len m) in
      if truthy e then ret 0 else while_fuel fuel (bread_body p blkcnt) (blkcnt, start, dst)
  end.

End mmc.

Notation "m '?;;' k" := (check m k) (at level 100, right associativity) : mmio_scope.
Notation "'let?' x ':=' m 'in' k" := (checked m (fun x => k))
  (at level 10, x name, m at level 100, k at level 200) : mmio_scope.
