(* ===== verification/MmcInit.v ===== *)
(** Identification and set-up of a card, from drivers/mmc/mmc.c: mmc_init and
    all below it, for SD and MMC cards, and the registration of a device.

    The buffers that the controller fills by DMA lie on the stack; their
    addresses are a parameter. *)

From S2P Require Import Prelude BitOps Mmio Regs Globals Timer DwMmc Mmc.

(** The aligned buffers of mmc_startup, mmc_change_freq and sd_change_freq. *)
Record mmc_stack := mk_mmc_stack {
  ext_csd : Z;
  test_csd : Z;
  freq_ext_csd : Z;
  scr_buf : Z;
  switch_status : Z
}.

(** ** The card specific data *)

(** Frequency bases and multipliers, divided and multiplied by ten. *)
Definition fbase : list Z := [10000; 100000; 1000000; 10000000].
Definition multipliers : list Z := [0; 10; 12; 13; 15; 20; 25; 30; 35; 40; 45; 50; 55; 60; 70; 80].

(** The size of the card in bytes, from the second and the third word. *)
Definition csd_capacity (hc : bool) (c1 c2 bl : Z) : Z :=
  let '(csize, cmult) :=
    if hc then (((c1 .& 0x3f) .<< 16) .| ((c2 .& 0xffff0000) .>> 16), 8)
    else (((c1 .& 0x3ff) .<< 2) .| ((c2 .& 0xc0000000) .>> 30), (c2 .& 0x00038000) .>> 15) in
  u64 (u64 ((csize + 1) .<< (cmult + 2)) * bl).

Definition mmc_version (r0 : Z) : Z :=
  let version := (r0 .>> 26) .& 0xf in
  if version =? 0 then MMC_VERSION_1_2
  else if version =? 1 then MMC_VERSION_1_4
  else if version =? 2 then MMC_VERSION_2_2
  else if version =? 3 then MMC_VERSION_3
  else if version =? 4 then MMC_VERSION_4
  else MMC_VERSION_1_2.

Definition scr_version (scr0 : Z) : Z :=
  let v := (scr0 .>> 24) .& 0xf in
  if v =? 0 then SD_VERSION_1_0
  else if v =? 1 then SD_VERSION_1_10
  else if v =? 2 then SD_VERSION_2
  else SD_VERSION_1_0.

(** Four bytes of EXT_CSD as one int that is widened to 64 bits with its sign. *)
Definition ext_csd_capacity (b0 b1 b2 b3 : Z) : Z :=
  u64 (u64 (s32 (u32 (b0 .| (b1 .<< 8) .| (b2 .<< 16) .| (b3 .<< 24)))) * 512).

(** A device after calloc and the assignments of add_dwmci. *)
Definition zero_block_dev : block_dev_desc := mk_block_dev_desc 0 0 0 0 0 0 0.
Definition zero_mmc {P} (p : P) : mmc P :=
  mk_mmc p 0 0 0 0 0 false 0 0 0 0 0 [0; 0] [0; 0; 0; 0] [0; 0; 0; 0] 0 0 0 0 0 0 0 0 zero_block_dev 0.

Section init.
Context {D P : Type} `{Device D} `{Memory D} (host : mmc_host D P) (stack : mmc_stack).
Abbreviation M := (M D (mmc_globals P)).
Abbreviation mmc := (mmc P).
Abbreviation mmc_send_cmd := (mmc_send_cmd host).

(** A big-endian word of main memory. *)
Definition load_be32 (a : Z) : M Z :=
  let* b0 := load a in let* b1 := load (a + 1) in let* b2 := load (a + 2) in let* b3 := load (a + 3) in
  ret ((b0 .<< 24) .| (b1 .<< 16) .| (b2 .<< 8) .| b3).

(** ** Bus width and clock *)

Definition mmc_set_ios (p : nat) : M unit :=
  let* m := the_mmc p in
  let* pr := set_ios host m in
  upd_mmc p (fun m => m <| priv := pr |>).

Definition mmc_set_clock (p : nat) (clock : Z) : M unit :=
  let* m := the_mmc p in
  let clock := if f_max m <? clock then f_max m else clock in
  let clock := if clock <? f_min m then f_min m else clock in
  upd_mmc p (fun m => m <| mmc_clock := clock |>) ;;;
  mmc_set_ios p.

Definition mmc_set_bus_width (p : nat) (width : Z) : M unit :=
  upd_mmc p (fun m => m <| bus_width := width |>) ;;;
  mmc_set_ios p.

(** ** Identification *)

Definition mmc_go_idle (fuel : nat) (p : nat) : M Z :=
  with_gd (udelay fuel 1000) ;;;
  let? cmd := mmc_send_cmd p (set_cmd MMC_CMD_GO_IDLE_STATE MMC_RSP_NONE 0 new_cmd) None in
  with_gd (udelay fuel 2000) ;;;
  ret 0.

Definition mmc_send_if_cond (p : nat) : M Z :=
  let* m := the_mmc p in
  let arg := (b2z (negb (voltages m .& 0xff8000 =? 0)) .<< 8) .| 0xaa in
  let? cmd := mmc_send_cmd p (set_cmd SD_CMD_SEND_IF_COND MMC_RSP_R7 arg new_cmd) None in
  if negb (resp cmd 0 .& 0xff =? 0xaa) then ret UNUSABLE_ERR
  else upd_mmc p (fun m => m <| version := SD_VERSION_2 |>) ;;; ret 0.

(** The end of a turn of a loop [while (!(response & OCR_BUSY) && timeout--)]. *)
Definition ocr_next (cmd : mmc_cmd) (timeout : Z) : (mmc_cmd * Z) + (Z + mmc_cmd * Z) :=
  if truthy (resp cmd 0 .& OCR_BUSY) then inr (inr (cmd, timeout))
  else if truthy timeout then inl (cmd, timeout - 1) else inr (inr (cmd, timeout - 1)).

(** One turn; [inr (inl _)] returns. *)
Definition sd_op_cond_body (fuel : nat) (p : nat) (x : mmc_cmd * Z) : M ((mmc_cmd * Z) + (Z + mmc_cmd * Z)) :=
  let '(cmd, timeout) := x in
  let* r := mmc_send_cmd p (set_cmd MMC_CMD_APP_CMD MMC_RSP_R1 0 cmd) None in
  if truthy (fst r) then ret (inr (inl (fst r))) else
  let* m := the_mmc p in
  let arg := if mmc_host_is_spi m then 0 else voltages m .& 0xff8000 in
  let arg := if version m =? SD_VERSION_2 then arg .| OCR_HCS else arg in
  let* r := mmc_send_cmd p (set_cmd SD_CMD_APP_SEND_OP_COND MMC_RSP_R3 arg (snd r)) None in
  if truthy (fst r) then ret (inr (inl (fst r))) else
  with_gd (udelay fuel 1000) ;;;
  ret (ocr_next (snd r) timeout).

(** SPI hosts read the OCR register with a command of its own. *)
Definition spi_read_ocr (p : nat) (cmd : mmc_cmd) : M (Z * mmc_cmd) :=
  let* m := the_mmc p in
  if mmc_host_is_spi m then mmc_send_cmd p (set_cmd MMC_CMD_SPI_READ_OCR MMC_RSP_R3 0 cmd) None else ret (0, cmd).

Definition sd_send_op_cond (fuel : nat) (p : nat) : M Z :=
  let* r := while_fuel (Z.to_nat 1001) (sd_op_cond_body fuel p) (new_cmd, 1000) in
  match r with
  | inl err => ret err
  | inr (cmd, timeout) =>
      if timeout <=? 0 then ret UNUSABLE_ERR else
      upd_mmc p (fun m => if version m =? SD_VERSION_2 then m else m <| version := SD_VERSION_1_0 |>) ;;;
      let? cmd := spi_read_ocr p cmd in
      upd_mmc p (fun m => m <| ocr := resp cmd 0 |> <| high_capacity := resp cmd 0 .& OCR_HCS =? OCR_HCS |> <| rca := 0 |>) ;;;
      ret 0
  end.

Definition mmc_op_cond_body (fuel : nat) (p : nat) (x : mmc_cmd * Z) : M ((mmc_cmd * Z) + (Z + mmc_cmd * Z)) :=
  let '(cmd, timeout) := x in
  let* m := the_mmc p in
  let arg := if mmc_host_is_spi m then 0
             else (voltages m .& (resp cmd 0 .& OCR_VOLTAGE_MASK)) .| (resp cmd 0 .& OCR_ACCESS_MODE) in
  let arg := if truthy (host_caps m .& MMC_MODE_HC) then arg .| OCR_HCS else arg in
  let* r := mmc_send_cmd p (set_cmd MMC_CMD_SEND_OP_COND MMC_RSP_R3 arg cmd) None in
  if truthy (fst r) then ret (inr (inl (fst r))) else
  with_gd (udelay fuel 1000) ;;;
  ret (ocr_next (snd r) timeout).

(** The result of the reset is not looked at. *)
Definition mmc_send_op_cond (fuel : nat) (p : nat) : M Z :=
  mmc_go_idle fuel p ;;;
  let? cmd := mmc_send_cmd p (set_cmd MMC_CMD_SEND_OP_COND MMC_RSP_R3 0 new_cmd) None in
  with_gd (udelay fuel 1000) ;;;
  let* r := while_fuel (Z.to_nat 10001) (mmc_op_cond_body fuel p) (cmd, 10000) in
  match r with
  | inl err => ret err
  | inr (cmd, timeout) =>
      if timeout <=? 0 then ret UNUSABLE_ERR else
      let? cmd := spi_read_ocr p cmd in
      upd_mmc p (fun m => m <| version := MMC_VERSION_UNKNOWN |> <| ocr := resp cmd 0 |>
        <| high_capacity := resp cmd 0 .& OCR_HCS =? OCR_HCS |> <| rca := 1 |>) ;;;
      ret 0
  end.

(** ** Switching functions *)

Definition mmc_send_ext_csd (p : nat) (buf : Z) : M Z :=
  let* r := mmc_send_cmd p (set_cmd MMC_CMD_SEND_EXT_CSD MMC_RSP_R1 0 new_cmd) (Some (mk_mmc_data buf MMC_DATA_READ 1 512)) in
  ret (fst r).

(** The argument [set] is not used. *)
Definition mmc_switch (fuel : nat) (p : nat) (set index value : Z) : M Z :=
  let arg := (MMC_SWITCH_MODE_WRITE_BYTE .<< 24) .| (index .<< 16) .| (value .<< 8) in
  let? cmd := mmc_send_cmd p (set_cmd MMC_CMD_SWITCH MMC_RSP_R1b arg new_cmd) None in
  mmc_send_status host fuel p 1000.

Definition mmc_switch_part (fuel : nat) (dev_num part_num : Z) : M Z :=
  let* p := find_mmc_device dev_num in
  match p with
  | None => ret (-1)
  | Some p =>
      let* m := the_mmc p in
      mmc_switch fuel p EXT_CSD_CMD_SET_NORMAL EXT_CSD_PART_CONF
        (u8 ((part_config m .& .~ PART_ACCESS_MASK) .| (part_num .& PART_ACCESS_MASK)))
  end.

Definition mmc_change_freq (fuel : nat) (p : nat) : M Z :=
  upd_mmc p (fun m => m <| card_caps := 0 |>) ;;;
  let* m := the_mmc p in
  if mmc_host_is_spi m then ret 0 else
  if version m <? MMC_VERSION_4 then ret 0 else
  mmc_send_ext_csd p (freq_ext_csd stack) ?;;
  let* b := load (freq_ext_csd stack + EXT_CSD_CARD_TYPE) in
  let cardtype := b .& 0xf in
  mmc_switch fuel p EXT_CSD_CMD_SET_NORMAL EXT_CSD_HS_TIMING 1 ?;;
  mmc_send_ext_csd p (freq_ext_csd stack) ?;;
  let* hs := load (freq_ext_csd stack + EXT_CSD_HS_TIMING) in
  if negb (truthy hs) then ret 0 else
  upd_mmc p (fun m => m <| card_caps ::= Z.lor
    (if truthy (cardtype .& MMC_HS_52MHZ) then MMC_MODE_HS_52MHz .| MMC_MODE_HS else MMC_MODE_HS) |>) ;;;
  ret 0.

Definition sd_switch_arg (mode group value : Z) : Z :=
  let arg := u32 (mode .<< 31) .| 0xffffff in
  let arg := arg .& .~ (0xf .<< (group * 4)) in
  arg .| (value .<< (group * 4)).

Definition sd_switch (p : nat) (mode group value buf : Z) : M Z :=
  let* r := mmc_send_cmd p (set_cmd SD_CMD_SWITCH_FUNC MMC_RSP_R1 (sd_switch_arg mode group value) new_cmd)
              (Some (mk_mmc_data buf MMC_DATA_READ 1 64)) in
  ret (fst r).

(** The command repeated at most [timeout] times more after an error. *)
Fixpoint retry_scr (timeout : nat) (p : nat) (cmd : mmc_cmd) : M Z :=
  let* r := mmc_send_cmd p cmd (Some (mk_mmc_data (scr_buf stack) MMC_DATA_READ 1 8)) in
  if truthy (fst r) then match timeout with O => ret (fst r) | S n => retry_scr n p (snd r) end
  else ret 0.

(** [while (timeout--)] on the high-speed function being busy. *)
Fixpoint wait_switch (timeout : nat) (p : nat) : M Z :=
  match timeout with
  | O => ret 0
  | S n =>
      sd_switch p SD_SWITCH_CHECK 0 1 (switch_status stack) ?;;
      let* w := load_be32 (switch_status stack + 28) in
      if negb (truthy (w .& SD_HIGHSPEED_BUSY)) then ret 0 else wait_switch n p
  end.

(** The part of sd_change_freq after the version is known. *)
Definition sd_high_speed (p : nat) : M Z :=
  wait_switch 4 p ?;;
  let* w := load_be32 (switch_status stack + 12) in
  if negb (truthy (w .& SD_HIGHSPEED_SUPPORTED)) then ret 0 else
  let* m := the_mmc p in
  if negb (truthy (host_caps m .& MMC_MODE_HS_52MHz) && truthy (host_caps m .& MMC_MODE_HS)) then ret 0 else
  sd_switch p SD_SWITCH_SWITCH 0 1 (switch_status stack) ?;;
  let* w := load_be32 (switch_status stack + 16) in
  when (w .& 0x0f000000 =? 0x01000000) (upd_mmc p (fun m => m <| card_caps ::= Z.lor MMC_MODE_HS |>)) ;;;
  ret 0.

Definition sd_change_freq (p : nat) : M Z :=
  upd_mmc p (fun m => m <| card_caps := 0 |>) ;;;
  let* m := the_mmc p in
  if mmc_host_is_spi m then ret 0 else
  let? cmd := mmc_send_cmd p (set_cmd MMC_CMD_APP_CMD MMC_RSP_R1 (rca m .<< 16) new_cmd) None in
  retry_scr 3 p (set_cmd SD_CMD_APP_SEND_SCR MMC_RSP_R1 0 cmd) ?;;
  let* scr0 := load_be32 (scr_buf stack) in
  let* scr1 := load_be32 (scr_buf stack + 4) in
  upd_mmc p (fun m => m <| scr := [scr0; scr1] |> <| version := scr_version scr0 |>) ;;;
  when (truthy (scr0 .& SD_DATA_4BIT)) (upd_mmc p (fun m => m <| card_caps ::= Z.lor MMC_MODE_4BIT |>)) ;;;
  if scr_version scr0 =? SD_VERSION_1_0 then ret 0 else sd_high_speed p.

(** ** Start-up *)

(** The relative address: an SD card publishes one, an MMC card is given it. *)
Definition startup_rca (p : nat) (cmd : mmc_cmd) : M (Z * mmc_cmd) :=
  let* m := the_mmc p in
  if mmc_host_is_spi m then ret (0, cmd) else
  let* r := mmc_send_cmd p (set_cmd SD_CMD_SEND_RELATIVE_ADDR MMC_RSP_R6 (rca m .<< 16) cmd) None in
  if truthy (fst r) then ret r else
  upd_mmc p (fun m => if IS_SD m then m <| rca := (resp (snd r) 0 .>> 16) .& 0xffff |> else m) ;;;
  ret r.

(** The card specific data of the response. *)
Definition with_csd (freq mult : Z) (cmd : mmc_cmd) (m : mmc) : mmc :=
  let m := m <| csd := response cmd |> in
  let m := if version m =? MMC_VERSION_UNKNOWN then m <| version := mmc_version (resp cmd 0) |> else m in
  let m := m <| tran_speed := u32 (freq * mult) |> <| read_bl_len := 1 .<< ((resp cmd 1 .>> 16) .& 0xf) |> in
  let m := m <| write_bl_len := if IS_SD m then read_bl_len m else 1 .<< ((resp cmd 3 .>> 22) .& 0xf) |> in
  let m := m <| capacity := csd_capacity (high_capacity m) (resp cmd 1) (resp cmd 2) (read_bl_len m) |> in
  let m := if 512 <? read_bl_len m then m <| read_bl_len := 512 |> else m in
  if 512 <? write_bl_len m then m <| write_bl_len := 512 |> else m.

Definition startup_csd (p : nat) (cmd : mmc_cmd) : M unit :=
  let* freq := array_get fbase (resp cmd 0 .& 0x7) in
  let* mult := array_get multipliers ((resp cmd 0 .>> 3) .& 0xf) in
  upd_mmc p (with_csd freq mult cmd).

Definition startup_select (p : nat) (cmd : mmc_cmd) : M Z :=
  let* m := the_mmc p in
  if mmc_host_is_spi m then ret 0 else
  let* r := mmc_send_cmd p (set_cmd MMC_CMD_SELECT_CARD MMC_RSP_R1 (rca m .<< 16) cmd) None in ret (fst r).

(** Capacity, erase group and partitions of an MMC card of version 4; the
    buffer is read even when the command failed. *)
Definition startup_ext_csd (p : nat) : M unit :=
  upd_mmc p (fun m => m <| erase_grp_size := 1 |> <| part_config := MMCPART_NOAVAILABLE |>) ;;;
  let* m := the_mmc p in
  if negb (IS_SD m) && (MMC_VERSION_4 <=? version m) then
    let e i := load (ext_csd stack + i) in
    let* err := mmc_send_ext_csd p (ext_csd stack) in
    let* rev := e EXT_CSD_REV in
    when (negb (truthy err) && (2 <=? rev)) (
      let* b0 := e EXT_CSD_SEC_CNT in let* b1 := e (EXT_CSD_SEC_CNT + 1) in
      let* b2 := e (EXT_CSD_SEC_CNT + 2) in let* b3 := e (EXT_CSD_SEC_CNT + 3) in
      let cap := ext_csd_capacity b0 b1 b2 b3 in
      when (2 * 1024 <? cap .>> 20) (upd_mmc p (fun m => m <| capacity := cap |>))) ;;;
    let* def := e EXT_CSD_ERASE_GROUP_DEF in
    let* grp := e EXT_CSD_HC_ERASE_GRP_SIZE in
    upd_mmc p (fun m => m <| erase_grp_size :=
      if truthy def then grp * 512 * 1024
      else (((nth 2 (csd m) 0 .& 0x00007c00) .>> 10) + 1) * (((nth 2 (csd m) 0 .& 0x000003e0) .>> 5) + 1) |>) ;;;
    let* sup := e EXT_CSD_PARTITIONING_SUPPORT in
    let* boot := e EXT_CSD_BOOT_MULT in
    let* conf := e EXT_CSD_PART_CONF in
    when (truthy (sup .& PART_SUPPORT) || truthy boot) (upd_mmc p (fun m => m <| part_config := conf |>))
  else ret tt.

(** Four data lines for an SD card that has them. *)
Definition startup_bus_sd (p : nat) : M Z :=
  let* m := the_mmc p in
  (if truthy (card_caps m .& MMC_MODE_4BIT) then
     let? cmd := mmc_send_cmd p (set_cmd MMC_CMD_APP_CMD MMC_RSP_R1 (rca m .<< 16) new_cmd) None in
     let? cmd := mmc_send_cmd p (set_cmd SD_CMD_APP_SET_BUS_WIDTH MMC_RSP_R1 2 cmd) None in
     mmc_set_bus_width p 4 ;;; ret 0
   else ret 0) ?;;
  upd_mmc p (fun m => m <| tran_speed := if truthy (card_caps m .& MMC_MODE_HS) then 50000000 else 25000000 |>) ;;;
  ret 0.

(** The bus widths in order of preference: the EXT_CSD value, the capability of
    the host and the number of lines. *)
Definition ext_csd_widths : list (Z * Z * Z) :=
  [(EXT_CSD_BUS_WIDTH_8, MMC_MODE_8BIT, 8); (EXT_CSD_BUS_WIDTH_4, MMC_MODE_4BIT, 4); (EXT_CSD_BUS_WIDTH_1, 0, 1)].

(** The fields that show whether the bus works. *)
Definition ext_csd_fields : list Z :=
  [EXT_CSD_PARTITIONING_SUPPORT; EXT_CSD_ERASE_GROUP_DEF; EXT_CSD_REV; EXT_CSD_HC_ERASE_GRP_SIZE;
   EXT_CSD_SEC_CNT; EXT_CSD_SEC_CNT + 1; EXT_CSD_SEC_CNT + 2; EXT_CSD_SEC_CNT + 3].

Fixpoint same_ext_csd (l : list Z) : M bool :=
  match l with
  | [] => ret true
  | i :: l =>
      let* a := load (ext_csd stack + i) in
      let* b := load (test_csd stack + i) in
      if a =? b then same_ext_csd l else ret false
  end.

Fixpoint try_bus_widths (fuel : nat) (p : nat) (l : list (Z * Z * Z)) : M unit :=
  match l with
  | [] => ret tt
  | (extw, cap, width) :: l =>
      let* m := the_mmc p in
      if negb (extw =? EXT_CSD_BUS_WIDTH_1) && negb (truthy (host_caps m .& cap)) then try_bus_widths fuel p l else
      let* err := mmc_switch fuel p EXT_CSD_CMD_SET_NORMAL EXT_CSD_BUS_WIDTH extw in
      if truthy err then try_bus_widths fuel p l else
      mmc_set_bus_width p width ;;;
      let* err := mmc_send_ext_csd p (test_csd stack) in
      let* same := same_ext_csd ext_csd_fields in
      if negb (truthy err) && same then upd_mmc p (fun m => m <| card_caps ::= Z.lor cap |>)
      else try_bus_widths fuel p l
  end.

Definition startup_bus_mmc (fuel : nat) (p : nat) : M Z :=
  try_bus_widths fuel p ext_csd_widths ;;;
  upd_mmc p (fun m =>
    if truthy (card_caps m .& MMC_MODE_HS) then
      m <| tran_speed := if truthy (card_caps m .& MMC_MODE_HS_52MHz) then 52000000 else 26000000 |>
    else m) ;;;
  ret 0.

(** The device description, without the identification strings. *)
Definition startup_block_dev (p : nat) : M unit :=
  let* m := the_mmc p in
  match lldiv (capacity m) (read_bl_len m) with
  | None => undef
  | Some blocks =>
      upd_mmc p (fun m => m <| block_dev ::= fun b => b <| lun := 0 |> <| dev_type := 0 |> <| blksz := read_bl_len m |> <| lba := u32 blocks |> |>)
  end.

(** Up to stand-by: identification and relative address. *)
Definition startup_identify (p : nat) : M (Z * mmc_cmd) :=
  let* m := the_mmc p in
  let idx := if mmc_host_is_spi m then MMC_CMD_SEND_CID else MMC_CMD_ALL_SEND_CID in
  let* r := mmc_send_cmd p (set_cmd idx MMC_RSP_R2 0 new_cmd) None in
  if truthy (fst r) then ret r else
  upd_mmc p (fun m => m <| cid := response (snd r) |>) ;;;
  startup_rca p (snd r).

(** The card specific data, and into the transfer state.  The result of the wait
    is not looked at. *)
Definition startup_transfer (fuel : nat) (p : nat) (cmd : mmc_cmd) : M Z :=
  let* m := the_mmc p in
  let* r := mmc_send_cmd p (set_cmd MMC_CMD_SEND_CSD MMC_RSP_R2 (rca m .<< 16) cmd) None in
  mmc_send_status host fuel p 1000 ;;;
  if truthy (fst r) then ret (fst r) else
  startup_csd p (snd r) ;;;
  startup_select p (snd r).

(** The functions that card and host share. *)
Definition startup_functions (fuel : nat) (p : nat) : M Z :=
  let* m := the_mmc p in
  (if IS_SD m then sd_change_freq p else mmc_change_freq fuel p) ?;;
  upd_mmc p (fun m => m <| card_caps ::= fun c => c .& host_caps m |>) ;;;
  let* m := the_mmc p in
  if IS_SD m then startup_bus_sd p else startup_bus_mmc fuel p.

Definition mmc_startup (fuel : nat) (p : nat) : M Z :=
  let? cmd := startup_identify p in
  startup_transfer fuel p cmd ?;;
  startup_ext_csd p ;;;
  startup_functions fuel p ?;;
  let* m := the_mmc p in
  mmc_set_clock p (tran_speed m) ;;;
  startup_block_dev p ;;;
  ret 0.

(** ** mmc_init *)

(** The board does not say whether a card is in the slot; a host may. *)
Definition board_mmc_getcd : Z := -1.
Definition mmc_getcd (getcd : option (M Z)) : M Z :=
  let cd := board_mmc_getcd in
  if cd <? 0 then match getcd with Some f => f | None => ret cd end else ret cd.

(** The result of mmc_send_if_cond is not looked at. *)
Definition mmc_init (fuel : nat) (getcd : option (M Z)) (p : nat) : M Z :=
  let* cd := mmc_getcd getcd in
  if cd =? 0 then upd_mmc p (fun m => m <| has_init := 0 |>) ;;; msg "MMC: no card present" ;;; ret NO_CARD_ERR else
  let* m := the_mmc p in
  if truthy (has_init m) then ret 0 else
  init host m ?;;
  mmc_set_bus_width p 1 ;;;
  mmc_set_clock p 1 ;;;
  mmc_go_idle fuel p ?;;
  upd_mmc p (fun m => m <| part_num := 0 |>) ;;;
  mmc_send_if_cond p ;;;
  let* err := sd_send_op_cond fuel p in
  let startup :=
    let* err := mmc_startup fuel p in
    upd_mmc p (fun m => m <| has_init := if truthy err then 0 else 1 |>) ;;;
    ret err in
  if err =? TIMEOUT then
    let* err := mmc_send_op_cond fuel p in
    if truthy err then msg "Card did not respond to voltage select!" ;;; ret UNUSABLE_ERR else startup
  else startup.

(** ** Registration *)

Definition mmc_register (m : mmc) : M Z :=
  let* g := get in
  let m := m <| block_dev ::= fun b => b <| if_type := IF_TYPE_MMC |> <| dev_num := cur_dev_num g |> <| removable := 1 |> |> in
  let m := if b_max m =? 0 then m <| b_max := CONFIG_SYS_MMC_MAX_BLK_COUNT |> else m in
  modify (fun g => mk_mmc_globals (mgd g) (mmc_devices g ++ [m]) (cur_dev_num g + 1)) ;;;
  ret 0.

(** add_dwmci of dw_mmc.c for a host with these capabilities and bus width. *)
Definition add_dwmci (pr : P) (caps buswidth max_clk min_clk : Z) : M Z :=
  let m := zero_mmc pr in
  let m := m <| f_min := min_clk |> <| f_max := max_clk |>
             <| voltages := MMC_VDD_32_33 .| MMC_VDD_33_34 .| MMC_VDD_165_195 |> in
  let host_caps :=
    if buswidth =? 8 then (caps .| MMC_MODE_8BIT) .& .~ MMC_MODE_4BIT else (caps .| MMC_MODE_4BIT) .& .~ MMC_MODE_8BIT in
  mmc_register (m <| Mmc.host_caps := host_caps .| (MMC_MODE_HS .| MMC_MODE_HS_52MHz .| MMC_MODE_HC) |>).

(** mmc_initialize; [cpu_mmc_init] registers the devices of the platform. *)
Definition mmc_initialize (cpu_mmc_init : M Z) : M Z :=
  modify (fun g => mk_mmc_globals (mgd g) [] 0) ;;;
  let board_mmc_init := -1 in
  (if board_mmc_init <? 0 then cpu_mmc_init ;;; ret tt else ret tt) ;;;
  msg "print_mmc_devices" ;;;
  ret 0.

Definition get_mmc_num : M Z := let* g := get in ret (cur_dev_num g).

End init.
