(* ===== verification/SdCard.v ===== *)
(** An SD card as its specification describes it, and what a host controller
    must do for the driver of drivers/mmc/mmc.c: an abstract state machine, and
    the class of hosts that carry its commands. *)

From S2P Require Import Prelude Mmio Regs Globals Timer Crc32 Sectors DwMmc Mmc MmcInit.

(** ** The card

    The states of the SD physical layer. *)
Inductive phase := Idle | Ready | Ident | Stby | Tran | Data | Rcv | Prg.

(** What does not change: the registers, the size in sectors, and how often the
    card may say that it is busy after a reset and after a write. *)
Record sd_card := mk_sd_card {
  c_ocr : Z;
  c_cid : list Z;
  c_csd : list Z;
  c_rca : Z;
  c_scr : Z -> Z;
  c_sectors : Z;
  c_power : nat;
  c_prog : nat
}.

(** The state: phase, whether the last command announced one of the
    application, data lines in use, high speed, polls left until ready; the
    contents of the card and of main memory. *)
Record sd_state := mk_sd_state {
  ph : phase;
  app : bool;
  lines : Z;
  fast : bool;
  busy : nat;
  disk : Z -> Z;
  memory : Z -> Z
}.

Definition c_hc (c : sd_card) : bool := c_ocr c .& OCR_HCS =? OCR_HCS.

(** Large cards count sectors, the others bytes. *)
Definition sd_address (c : sd_card) (start : Z) : Z := if c_hc c then start else 512 * start.

(** The frequency the card bears. *)
Definition max_clock (st : sd_state) : Z :=
  match ph st with
  | Idle | Ready | Ident => 400000
  | _ => if fast st then 50000000 else 25000000
  end.

Definition reading (len n dst : Z) : mmc_data := mk_mmc_data dst MMC_DATA_READ n len.
Definition writing (n src : Z) : mmc_data := mk_mmc_data src MMC_DATA_WRITE n 512.

(** Reads and writes of sectors that exist, one or more than one. *)
Definition in_card (c : sd_card) (start n : Z) : Prop := 0 <= start /\ 0 < n /\ start + n <= c_sectors c.

(** [sd_step c st idx rsp arg data r st']: in [st] the card takes command [idx]
    with response type [rsp] and argument [arg], answers [r], and is then in
    [st']. *)
Inductive sd_step (c : sd_card) (st : sd_state) : Z -> Z -> Z -> option mmc_data -> list Z -> sd_state -> Prop :=
| step_idle r :
    sd_step c st MMC_CMD_GO_IDLE_STATE MMC_RSP_NONE 0 None r
      (st <| ph := Idle |> <| app := false |> <| lines := 1 |> <| fast := false |> <| busy := c_power c |>)
| step_if_cond arg r :
    ph st = Idle -> app st = false -> (arg .>> 8) .& 0xf = 1 -> nth 0 r 0 .& 0xff = arg .& 0xff ->
    sd_step c st SD_CMD_SEND_IF_COND MMC_RSP_R7 arg None r st
| step_app arg r :
    app st = false -> (ph st = Idle /\ arg = 0) \/ (ph st = Tran /\ arg = c_rca c .<< 16) ->
    sd_step c st MMC_CMD_APP_CMD MMC_RSP_R1 arg None r (st <| app := true |>)
| step_op_cond_busy arg r n :
    ph st = Idle -> app st = true -> busy st = S n -> truthy (nth 0 r 0 .& OCR_BUSY) = false ->
    sd_step c st SD_CMD_APP_SEND_OP_COND MMC_RSP_R3 arg None r (st <| app := false |> <| busy := n |>)
| step_op_cond arg r :
    ph st = Idle -> app st = true -> busy st = O -> truthy (arg .& OCR_HCS) = true -> truthy (arg .& c_ocr c .& 0xff8000) = true ->
    nth 0 r 0 = c_ocr c ->
    sd_step c st SD_CMD_APP_SEND_OP_COND MMC_RSP_R3 arg None r (st <| app := false |> <| ph := Ready |>)
| step_cid r :
    ph st = Ready -> r = c_cid c ->
    sd_step c st MMC_CMD_ALL_SEND_CID MMC_RSP_R2 0 None r (st <| ph := Ident |>)
| step_rca arg r :
    ph st = Ident -> (nth 0 r 0 .>> 16) .& 0xffff = c_rca c ->
    sd_step c st SD_CMD_SEND_RELATIVE_ADDR MMC_RSP_R6 arg None r (st <| ph := Stby |>)
| step_csd r :
    ph st = Stby -> r = c_csd c ->
    sd_step c st MMC_CMD_SEND_CSD MMC_RSP_R2 (c_rca c .<< 16) None r st
| step_select r :
    ph st = Stby -> app st = false ->
    sd_step c st MMC_CMD_SELECT_CARD MMC_RSP_R1 (c_rca c .<< 16) None r (st <| ph := Tran |>)
| step_status r :
    ph st = Stby \/ ph st = Tran -> app st = false ->
    sd_step c st MMC_CMD_SEND_STATUS MMC_RSP_R1 (c_rca c .<< 16) None r st
| step_status_busy r n :
    ph st = Prg -> busy st = S n -> nth 0 r 0 .& MMC_STATUS_CURR_STATE = MMC_STATE_PRG -> truthy (nth 0 r 0 .& MMC_STATUS_MASK) = false ->
    sd_step c st MMC_CMD_SEND_STATUS MMC_RSP_R1 (c_rca c .<< 16) None r (st <| busy := n |>)
| step_status_done r :
    ph st = Prg -> busy st = O -> nth 0 r 0 .& MMC_STATUS_CURR_STATE <> MMC_STATE_PRG ->
    truthy (nth 0 r 0 .& MMC_STATUS_RDY_FOR_DATA) = true ->
    sd_step c st MMC_CMD_SEND_STATUS MMC_RSP_R1 (c_rca c .<< 16) None r (st <| ph := Tran |>)
| step_scr dst r :
    ph st = Tran -> app st = true ->
    sd_step c st SD_CMD_APP_SEND_SCR MMC_RSP_R1 0 (Some (reading 8 1 dst)) r
      (st <| app := false |> <| memory ::= blit (c_scr c) 0 8 dst |>)
| step_lines r :
    ph st = Tran -> app st = true -> truthy (c_scr c 1 .& 4) = true ->
    sd_step c st SD_CMD_APP_SET_BUS_WIDTH MMC_RSP_R1 2 None r (st <| app := false |> <| lines := 4 |>)
| step_switch arg dst b r :
    ph st = Tran -> app st = false -> bytes_of b ->
    sd_step c st SD_CMD_SWITCH_FUNC MMC_RSP_R1 arg (Some (reading 64 1 dst)) r
      (st <| memory ::= blit b 0 64 dst |> <| fast ::= orb (Z.testbit arg 31 && (b 16 .& 0xf =? 1)) |>)
| step_blocklen r :
    ph st = Tran -> app st = false ->
    sd_step c st MMC_CMD_SET_BLOCKLEN MMC_RSP_R1 512 None r st
| step_read_one start dst r :
    ph st = Tran -> app st = false -> in_card c start 1 ->
    sd_step c st MMC_CMD_READ_SINGLE_BLOCK MMC_RSP_R1 (sd_address c start) (Some (reading 512 1 dst)) r
      (st <| memory ::= copied (disk st) start 1 dst |>)
| step_read start n dst r :
    ph st = Tran -> app st = false -> in_card c start n ->
    sd_step c st MMC_CMD_READ_MULTIPLE_BLOCK MMC_RSP_R1 (sd_address c start) (Some (reading 512 n dst)) r
      (st <| ph := Data |> <| memory ::= copied (disk st) start n dst |>)
| step_stop_read r :
    ph st = Data ->
    sd_step c st MMC_CMD_STOP_TRANSMISSION MMC_RSP_R1b 0 None r (st <| ph := Tran |>)
| step_write_one start src w r :
    ph st = Tran -> app st = false -> in_card c start 1 -> (w <= c_prog c)%nat ->
    sd_step c st MMC_CMD_WRITE_SINGLE_BLOCK MMC_RSP_R1 (sd_address c start) (Some (writing 1 src)) r
      (st <| ph := Prg |> <| busy := w |> <| disk ::= blit (memory st) src 512 (512 * start) |>)
| step_write start n src r :
    ph st = Tran -> app st = false -> in_card c start n ->
    sd_step c st MMC_CMD_WRITE_MULTIPLE_BLOCK MMC_RSP_R1 (sd_address c start) (Some (writing n src)) r
      (st <| ph := Rcv |> <| disk ::= blit (memory st) src (512 * n) (512 * start) |>)
| step_stop_write w r :
    ph st = Rcv -> (w <= c_prog c)%nat ->
    sd_step c st MMC_CMD_STOP_TRANSMISSION MMC_RSP_R1b 0 None r (st <| ph := Prg |> <| busy := w |>).

(** ** The host controller *)

(** The controller runs at a frequency the card bears and, for data, with the
    lines the card uses. *)
Definition compatible {P} (m : mmc P) (st : sd_state) (data : option mmc_data) : Prop :=
  mmc_clock m <= max_clock st /\ (data <> None -> bus_width m = lines st).

(** The command as the host gives it back. *)
Definition answer (cmd : mmc_cmd) (r : list Z) : mmc_cmd := mk_mmc_cmd (cmdidx cmd) (resp_type cmd) (cmdarg cmd) r.

(** A host that has the card [c] behind it and carries every command the card
    takes.  [faulty] says whether commands may fail; a failed command without
    data, or its response, was lost. *)
Class SdHost {D P} `{Device D} `{Memory D} (host : mmc_host D P) (fuel : nat) (c : sd_card) (faulty : Prop) := {
  sd_inv : sd_state -> D -> Prop;
  sd_ram : forall st d a, sd_inv st d -> ram d a = memory st a;
  sd_send : forall m cmd data s st r st',
    sd_inv st (dev s) -> compatible m st data -> sd_step c st (cmdidx cmd) (resp_type cmd) (cmdarg cmd) data r st' ->
    wp (send_cmd host m cmd data) s (fun o s' _ => glob s' = glob s /\ exists err r', o = Val (err, answer cmd r') /\
      ((err = 0 /\ exists st', sd_step c st (cmdidx cmd) (resp_type cmd) (cmdarg cmd) data r' st' /\ sd_inv st' (dev s')) \/
       (err <> 0 /\ faulty /\ (data = None -> exists r' st',
          (st' = st \/ sd_step c st (cmdidx cmd) (resp_type cmd) (cmdarg cmd) data r' st') /\ sd_inv st' (dev s')))));
  sd_delay : forall usec s st, 0 <= usec <= 2000 -> sd_inv st (dev s) ->
    wp (with_gd (P:=P) (udelay fuel usec)) s (fun o s' _ => o = Val tt /\ glob s' = glob s /\ sd_inv st (dev s'));
  sd_set_ios : forall m s st, sd_inv st (dev s) ->
    wp (set_ios host m) s (fun o s' _ => is_val o /\ glob s' = glob s /\ sd_inv st (dev s'));
  sd_init : forall m s st, sd_inv st (dev s) ->
    wp (init host m) s (fun o s' _ => glob s' = glob s /\ exists err, o = Val err /\
      ((err = 0 /\ sd_inv st (dev s')) \/ (err <> 0 /\ faulty)))
}.

(** ** The block device layer on such a card *)

Section blocks.
Context {D P : Type} `{Device D} `{Memory D} (host : mmc_host D P) (fuel : nat) (c : sd_card) (faulty : Prop)
  `{!SdHost host fuel c faulty}.
Abbreviation M := (M D (mmc_globals P)).

(** A card whose addresses fit into the argument of a command. *)
Definition card_wf : Prop :=
  0 <= c_rca c < 2 ^ 16 /\ word (c_sectors c) /\ (c_hc c = false -> 512 * c_sectors c <= 2 ^ 32).

(** What struct mmc says about the card in the transfer state. *)
Record attached (m : mmc P) (st : sd_state) : Prop := {
  at_hc : high_capacity m = c_hc c;
  at_rca : rca m = c_rca c;
  at_rd : read_bl_len m = 512;
  at_wr : write_bl_len m = 512;
  at_spi : mmc_host_is_spi m = false;
  at_max : 0 < b_max m;
  at_lba : lba (block_dev m) <= c_sectors c;
  at_clock : mmc_clock m <= if fast st then 50000000 else 25000000;
  at_width : bus_width m = lines st
}.

Lemma truthy_nonzero x : x <> 0 -> truthy x = true.
Proof. intros. unfold truthy. by rewrite (proj2 (Z.eqb_neq _ _)). Qed.

Lemma wp_the_mmc p m (s : st D (mmc_globals P)) Q :
  mmc_devices (glob s) !! p = Some m -> Q (Val m) s [] -> wp (the_mmc p : M (mmc P)) s Q.
Proof. intros Hp HQ. unfold the_mmc. wp_step. wp_step. by rewrite Hp. Qed.

(** A command that the card takes. *)
Lemma send_spec p m cst idx rsp arg arg' data cmd r cst' (s : st D (mmc_globals P)) :
  mmc_devices (glob s) !! p = Some m -> sd_inv cst (dev s) -> compatible m cst data ->
  u32 arg = arg' -> sd_step c cst idx rsp arg' data r cst' ->
  wp (mmc_send_cmd host p (set_cmd idx rsp arg cmd) data) s (fun o s' _ => glob s' = glob s /\
    exists err r', o = Val (err, answer (set_cmd idx rsp arg cmd) r') /\
    ((err = 0 /\ exists cst', sd_step c cst idx rsp arg' data r' cst' /\ sd_inv cst' (dev s')) \/ (err <> 0 /\ faulty))).
Proof.
  intros Hp Hi Hc <- Hs. unfold mmc_send_cmd. wp_step. eapply wp_the_mmc; [done|]. cbv beta iota.
  eapply wp_mono; [by eapply (sd_send m)|]. intros o s' t (E & err & r' & -> & Ho).
  split; [exact E|]. exists err, r'. split; [done|]. destruct Ho as [Ho|(He & Hf & _)]; [by left|by right].
Qed.

Lemma max_clock_tran cst : In (ph cst) [Stby; Tran; Data; Rcv; Prg] -> max_clock cst = if fast cst then 50000000 else 25000000.
Proof. unfold max_clock. cbn. intros [E|[E|[E|[E|[E|[]]]]]]; by rewrite <- E. Qed.

Lemma attached_compatible m cst data : attached m cst -> In (ph cst) [Stby; Tran; Data; Rcv; Prg] -> compatible m cst data.
Proof. intros [] Hph. split; [by rewrite max_clock_tran|done]. Qed.

Lemma sd_address_word start m cst n : card_wf -> attached m cst -> in_card c start n ->
  u32 (if high_capacity m then start else start * 512) = sd_address c start.
Proof.
  intros (_ & Hs & Ha) [] [H1 [H2 H3]]. unfold sd_address. rewrite at_hc0. unfold word in Hs.
  destruct (c_hc c); [apply u32_word; unfold word; lia|]. specialize (Ha eq_refl).
  rewrite Z.mul_comm. apply u32_word. unfold word. lia.
Qed.

Lemma sd_address_inj start start' : sd_address c start = sd_address c start' -> start = start'.
Proof. unfold sd_address. destruct (c_hc c); lia. Qed.

Lemma read_blocks_spec p m cst dst start n (s : st D (mmc_globals P)) :
  card_wf -> mmc_devices (glob s) !! p = Some m -> attached m cst -> ph cst = Tran -> app cst = false ->
  sd_inv cst (dev s) -> in_card c start n ->
  wp (mmc_read_blocks host p dst start n) s (fun o s' _ => glob s' = glob s /\
    ((o = Val n /\ sd_inv (cst <| memory ::= copied (disk cst) start n dst |>) (dev s')) \/ (o = Val 0 /\ faulty))).
Proof.
  intros Hwf Hp Hat Hph Happ Hi Hin. unfold mmc_read_blocks. wp_step. eapply wp_the_mmc; [done|]. cbv beta iota.
  rewrite (at_rd m cst Hat). pose proof (sd_address_word start m cst n Hwf Hat Hin) as Ea.
  assert (Hcomp : forall data cst', ph cst' = Data \/ ph cst' = Tran -> fast cst' = fast cst -> lines cst' = lines cst -> compatible m cst' data).
  { intros data cst' Hph' Ef El. split; [|by rewrite El; intros; apply Hat].
    rewrite max_clock_tran, Ef; [apply Hat|]. cbn. destruct Hph' as [->| ->]; auto. }
  fold (reading 512 n dst). destruct (Z.ltb_spec 1 n) as [Hn|Hn].
  - wp_step. eapply wp_mono; [eapply send_spec; [done|exact Hi|by apply Hcomp; auto|exact Ea|by apply (step_read c cst start n dst [])]|].
    intros o1 s1 t1 (E1 & err & cmd & -> & [(-> & cst1 & Hs1 & Hi1)|(He & Hf)]); cbv beta iota; cbn [fst].
    2: { rewrite truthy_nonzero by done. wp_step. auto. }
    change (truthy 0) with false. cbv iota. inversion Hs1; subst. apply sd_address_inj in H1 as ->.
    wp_step. eapply wp_mono; [eapply send_spec; [by rewrite E1|exact Hi1|by apply Hcomp; auto|reflexivity|by apply (step_stop_read c _ [])]|].
    intros o2 s2 t2 (E2 & err2 & cmd2 & -> & [(-> & cst2 & Hs2 & Hi2)|(He & Hf)]); cbv beta iota; cbn [fst].
    2: { rewrite truthy_nonzero by done. wp_run. rewrite E2, E1. auto. }
    change (truthy 0) with false. cbv iota. wp_step. rewrite E2, E1. split; [done|]. left. split; [done|].
    inversion Hs2; subst; [|done]. destruct cst; cbn in *; subst. exact Hi2.
  - assert (n = 1) as -> by (destruct Hin; lia).
    wp_step. eapply wp_mono; [eapply send_spec; [done|exact Hi|by apply Hcomp; auto|exact Ea|by apply (step_read_one c cst start dst [])]|].
    intros o1 s1 t1 (E1 & err & cmd & -> & [(-> & cst1 & Hs1 & Hi1)|(He & Hf)]); cbv beta iota; cbn [fst].
    2: { rewrite truthy_nonzero by done. wp_step. auto. }
    change (truthy 0) with false. cbv iota. inversion Hs1; subst. apply sd_address_inj in H1 as ->.
    wp_step. auto.
Qed.

(** The registered device. *)
Definition registered (n : Z) (p : nat) (m : mmc P) (g : mmc_globals P) : Prop :=
  find_dev n (mmc_devices g) 0 = Some p /\ mmc_devices g !! p = Some m.

Lemma find_device_spec n p m (s : st D (mmc_globals P)) : registered n p m (glob s) ->
  wp (find_mmc_device n : M (option nat)) s (fun o s' _ => o = Val (Some p) /\ s' = s).
Proof. intros [Hf _]. unfold find_mmc_device. wp_step. wp_step. rewrite Hf. by wp_step. Qed.

Lemma set_memory_id cst : cst <| memory := memory cst |> = cst.
Proof. by destruct cst. Qed.

(** The loop of mmc_bread, with [todo] blocks left. *)
Lemma bread_loop n p m cst todo start dst blkcnt (s : st D (mmc_globals P)) :
  card_wf -> mmc_devices (glob s) !! p = Some m -> attached m cst -> ph cst = Tran -> app cst = false ->
  sd_inv cst (dev s) -> in_card c start todo -> 0 <= dst -> dst + 512 * todo <= 2 ^ 32 -> todo <= b_max m * Z.of_nat n ->
  wp (while_fuel n (bread_body host p blkcnt) (todo, start, dst)) s (fun o s' _ => glob s' = glob s /\
    ((o = Val blkcnt /\ exists mem, sd_inv (cst <| memory := mem |>) (dev s') /\
        forall a, mem a = copied (disk cst) start todo dst (memory cst) a) \/ (o = Val 0 /\ faulty))).
Proof.
  intros Hwf. revert cst todo start dst s. induction n as [|n IH];
    intros cst todo start dst s Hp Hat Hph Happ Hi Hin Hd Hd2 Hn; [destruct Hin; lia|].
  cbn [while_fuel bread_body]. wp_step. wp_step. eapply wp_the_mmc; [done|]. cbv beta iota.
  set (cur := if b_max m <? todo then b_max m else todo).
  pose proof (at_max m cst Hat) as Hmax. destruct Hin as (Hs0 & Ht0 & Hs1).
  assert (Hcur : 0 < cur <= todo /\ (todo - cur <= b_max m * Z.of_nat n)).
  { unfold cur. destruct (Z.ltb_spec (b_max m) todo); nia. }
  wp_step. eapply wp_mono; [eapply (read_blocks_spec p m cst); try done; by repeat split; lia|].
  intros o1 s1 t1 (E1 & [(-> & Hi1)|(-> & Hf)]); cbv beta iota.
  2: { rewrite (proj2 (Z.eqb_neq 0 cur)) by lia. cbn [negb]. wp_run. auto. }
  rewrite Z.eqb_refl. cbn [negb]. rewrite (at_rd m cst Hat).
  destruct (Z.ltb_spec 0 (todo - cur)) as [Hmore|Hdone]; wp_step.
  - destruct Hwf as (Hrca & Hw & Haddr). unfold word in Hw.
    rewrite !u32_word by (unfold word; lia). replace (cur * 512) with (512 * cur) by lia.
    eapply wp_mono; [apply (IH (cst <| memory ::= copied (disk cst) start cur dst |>)); try done; [by rewrite E1|destruct cst, Hat; by split|by repeat split; lia|lia..]|].
    intros o2 s2 t2 (E2 & [(-> & mem & Hi2 & Hm2)|(-> & Hf)]); (split; [by rewrite E2|]); [left|by right].
    split; [done|]. exists mem. split; [by destruct cst|]. intros a. rewrite Hm2.
    destruct cst; cbn. rewrite copied_app by lia. f_equal. lia.
  - wp_step. split; [done|]. left. split; [done|]. assert (cur = todo) as Ec by lia. rewrite Ec in Hi1.
    eexists. split; [exact Hi1|done].
Qed.

(** *** Waiting for the end of a write *)

(** The command that asks for the status. *)
Definition status_cmd (m : mmc P) (r : list Z) : mmc_cmd :=
  mk_mmc_cmd MMC_CMD_SEND_STATUS MMC_RSP_R1 (u32 (rca m .<< 16)) r.

(** The condition that ends the wait. *)
Definition ready (r : list Z) : bool :=
  truthy (nth 0 r 0 .& MMC_STATUS_RDY_FOR_DATA) && negb (nth 0 r 0 .& MMC_STATUS_CURR_STATE =? MMC_STATE_PRG).

(** Programming, or done with it; without faults the polls are bounded. *)
Definition writes_back (cst cst' : sd_state) (bound : Z) : Prop :=
  (exists w, cst' = cst <| ph := Tran |> <| busy := w |> \/ cst' = cst <| ph := Prg |> <| busy := w |>) /\
  (faulty \/ (ph cst' = Prg /\ Z.of_nat (busy cst') < bound)).

Lemma writes_back_weaken cst cst' b : writes_back cst cst' b -> faulty -> forall b', writes_back cst cst' b'.
Proof. intros [Hw _] Hf b'. split; [done|by left]. Qed.

(** What the card answers and does next. *)
Lemma status_step cst cst' b r cst'' :
  app cst = false -> writes_back cst cst' b ->
  sd_step c cst' MMC_CMD_SEND_STATUS MMC_RSP_R1 (c_rca c .<< 16) None r cst'' ->
  (exists w, cst'' = cst <| ph := Tran |> <| busy := w |> /\ (ready r = true \/ faulty)) \/
  (ready r = false /\ writes_back cst cst'' (b - 1) /\ (faulty \/ truthy (nth 0 r 0 .& MMC_STATUS_MASK) = false)).
Proof.
  intros Happ [[w Hw] Hb] Hs. unfold ready. inversion Hs; subst.
  - match goal with Hp : _ \/ _, Ha : app _ = false |- _ => clear Ha; destruct Hp as [Hp|Hp] end;
      [destruct Hw as [-> | ->]; by destruct cst|].
    left. exists w. destruct Hw as [-> | ->]; [|by destruct cst]. split; [done|]. right. destruct Hb as [|[Hb _]]; [done|by destruct cst].
  - right. rewrite (proj2 (Z.eqb_eq _ _)) by done. rewrite andb_false_r. split; [done|]. split; [|by right].
    destruct Hw as [-> | ->]; destruct cst; cbn in *; [done|]. split; [eexists; by right|].
    destruct Hb as [|[_ Hb]]; [by left|]. right. split; [done|]. unfold constant in *. cbn. lia.
  - left. destruct Hw as [-> | ->]; destruct cst; cbn in *; [done|]. eexists. split; [done|]. left.
    rewrite (proj2 (Z.eqb_neq _ _)) by done. by rewrite andb_true_r.
Qed.

Lemma writes_back_compatible m cst cst' b data : attached m cst -> writes_back cst cst' b -> compatible m cst' data.
Proof.
  intros Hat [[w [-> | ->]] _]; apply attached_compatible; cbn; try tauto; destruct Hat, cst; by constructor.
Qed.

Lemma status_possible cst cst' b : app cst = false -> writes_back cst cst' b ->
  exists r cst'', sd_step c cst' MMC_CMD_SEND_STATUS MMC_RSP_R1 (c_rca c .<< 16) None r cst''.
Proof.
  intros Happ [[w [-> | ->]] _]; [eexists [], _; apply step_status; destruct cst; auto|].
  destruct w as [|w]; [eexists [0x900], _; apply step_status_done|eexists [0xE00], _; eapply (step_status_busy c _ _ w)]; by destruct cst.
Qed.

(** How the loop is left: with the timeout, or by returning. *)
Definition status_left (cst : sd_state) (g : mmc_globals P) (o : outcome (Z + Z)) (s' : st D (mmc_globals P)) : Prop :=
  glob s' = g /\
  ((exists t w, o = Val (inr t) /\ (0 < t \/ faulty) /\ sd_inv (cst <| ph := Tran |> <| busy := w |>) (dev s')) \/
   (exists t, o = Val (inr t) /\ t <= 0 /\ faulty) \/ (exists err, o = Val (inl err) /\ err <> 0 /\ faulty)).

Lemma status_loop k p m cst cst' r retries timeout (s : st D (mmc_globals P)) :
  card_wf -> mmc_devices (glob s) !! p = Some m -> attached m cst -> app cst = false ->
  Z.of_nat k = timeout + 1 -> 0 <= timeout -> writes_back cst cst' timeout -> sd_inv cst' (dev s) ->
  wp (while_fuel k (send_status_body host fuel p) (status_cmd m r, retries, timeout)) s
    (fun o s' _ => status_left cst (glob s) o s').
Proof.
  intros Hwf Hp Hat Happ. revert cst' r retries timeout s Hp. induction k as [|k IH];
    intros cst' r retries timeout s Hp Hk Ht Hw Hi; [lia|].
  assert (Earg : u32 (rca m .<< 16) = c_rca c .<< 16).
  { rewrite (at_rca m cst Hat). destruct Hwf as [Hr _]. apply u32_word. unfold word. rewrite Z.shiftl_mul_pow2; lia. }
  assert (Hnext : forall r' n s1 cst1, glob s1 = glob s -> sd_inv cst1 (dev s1) -> writes_back cst cst1 (timeout - 1) ->
    wp (with_gd (udelay fuel 1000) ;;;
        ret (if truthy timeout then inl (status_cmd m r', n, timeout - 1) else inr (inr (timeout - 1)))) s1
      (fun o s2 _ => exists a, o = Val a /\
        wp (match a with inl x => while_fuel k (send_status_body host fuel p) x | inr a => ret a end) s2
          (fun o s' _ => status_left cst (glob s) o s'))).
  { intros r' n s1 cst1 E1 Hi1 Hw1. wp_step. eapply wp_mono; [by apply (sd_delay 1000 s1 cst1)|].
    intros o2 s2 t2 (-> & E2 & Hi2). cbv beta iota. wp_step. eexists. split; [done|].
    unfold truthy. destruct (Z.eqb_spec timeout 0) as [->|Hne]; cbn [negb].
    - wp_step. split; [by rewrite E2|]. right; left. exists (0 - 1). split; [done|]. split; [lia|].
      destruct Hw1 as [_ [|[_ Hb]]]; [done|lia].
    - rewrite <- E1, <- E2. apply (IH cst1); [by rewrite E2, E1|lia|lia|done|done]. }
  cbn [while_fuel]. destruct (status_possible cst cst' timeout Happ Hw) as (r0 & cst0 & Hs0).
  unfold send_status_body at 1. wp_step. wp_step. unfold mmc_send_cmd. wp_step. eapply wp_the_mmc; [done|]. cbv beta iota.
  eapply wp_mono; [apply (sd_send m (status_cmd m r) None s cst' r0 cst0 Hi); [by eapply writes_back_compatible|by cbn; rewrite Earg]|].
  cbn [status_cmd cmdidx resp_type cmdarg]. rewrite Earg. intros o1 s1 t1 (E1 & err & r' & -> & Ho). cbv beta iota.
  change (answer (status_cmd m r) r') with (status_cmd m r'). destruct Ho as [(-> & cst1 & Hs1 & Hi1)|(He & Hf & Hn)].
  - change (negb (truthy 0)) with true. cbv iota. change (resp (status_cmd m r') 0) with (nth 0 r' 0).
    destruct (status_step cst cst' timeout r' cst1 Happ Hw Hs1) as [(w & -> & Hr)|(Hr & Hw1 & Hm)]; unfold ready in Hr.
    + destruct (_ && _); [do 2 wp_step; rewrite <- E1; split; [done|]; left; exists timeout, w|].
      * split; [done|]. split; [|done]. destruct Hw as [_ [|[_ Hb]]]; [by right|left; lia].
      * assert (Hf : faulty) by (by destruct Hr).
        destruct (truthy (nth 0 r' 0 .& MMC_STATUS_MASK)); [wp_run; split; [by rewrite E1|]; right; right; by exists COMM_ERR|].
        eapply wp_mono; [eapply (Hnext r' retries s1); [done|exact Hi1|]|].
        { split; [eexists; by left|by left]. }
        intros o2 s2 t2 (a & -> & Ha). exact Ha.
    + rewrite Hr. destruct (truthy (nth 0 r' 0 .& MMC_STATUS_MASK)).
      * destruct Hm as [Hf|]; [|done]. wp_run. split; [by rewrite E1|]. right; right. by exists COMM_ERR.
      * eapply wp_mono; [eapply (Hnext r' retries s1); done|]. intros o2 s2 t2 (a & -> & Ha). exact Ha.
  - rewrite truthy_nonzero by done. cbn [negb]. destruct (retries - 1 <? 0); [wp_run; split; [by rewrite E1|]; right; right; by exists err|].
    destruct (Hn eq_refl) as (r2 & cst2 & Hst & Hi2).
    assert (Hw2 : writes_back cst cst2 (timeout - 1)).
    { destruct Hst as [->|Hst]; [by apply (writes_back_weaken _ _ timeout)|].
      destruct (status_step cst cst' timeout r2 cst2 Happ Hw Hst) as [(w & -> & _)|(_ & Hw1 & _)]; [|done].
      split; [eexists; by left|by left]. }
    eapply wp_mono; [eapply (Hnext r' (retries - 1) s1); done|]. intros o2 s2 t2 (a & -> & Ha). exact Ha.
Qed.

Lemma send_status_spec p m cst w (s : st D (mmc_globals P)) :
  card_wf -> mmc_devices (glob s) !! p = Some m -> attached m cst -> app cst = false -> Z.of_nat w < 1000 ->
  sd_inv (cst <| ph := Prg |> <| busy := w |>) (dev s) ->
  wp (mmc_send_status host fuel p 1000) s (fun o s' _ => glob s' = glob s /\
    ((o = Val 0 /\ exists w, sd_inv (cst <| ph := Tran |> <| busy := w |>) (dev s')) \/ (exists err, o = Val err /\ err <> 0 /\ faulty))).
Proof.
  intros Hwf Hp Hat Happ Hb Hi. unfold mmc_send_status. wp_step. eapply wp_the_mmc; [done|]. cbv beta iota.
  rewrite (at_spi m cst Hat). cbn [negb]. wp_step.
  eapply wp_mono; [eapply (status_loop _ p m cst _ [0; 0; 0; 0]); try done|].
  { split; [eexists; by right|]. right. split; [done|exact Hb]. }
  intros o s1 t1 (E & [(t & w' & -> & Ht & Hi')|[(t & -> & Ht & Hf)|(err & -> & He & Hf)]]); cbv beta iota.
  - destruct (Z.leb_spec t 0); wp_run; (split; [by rewrite E|]).
    + right. exists TIMEOUT. split; [done|]. split; [done|]. destruct Ht; [lia|done].
    + left. split; [done|]. by exists w'.
  - rewrite (proj2 (Z.leb_le t 0)) by done. wp_run. split; [by rewrite E|]. right. by exists TIMEOUT.
  - wp_step. split; [by rewrite E|]. right. by exists err.
Qed.

Lemma bread_spec n dn p m cst start blkcnt dst (s : st D (mmc_globals P)) :
  card_wf -> registered dn p m (glob s) -> attached m cst -> ph cst = Tran -> app cst = false -> sd_inv cst (dev s) ->
  0 <= start -> 0 < blkcnt -> start + blkcnt <= lba (block_dev m) -> 0 <= dst -> dst + 512 * blkcnt <= 2 ^ 32 ->
  blkcnt <= b_max m * Z.of_nat n ->
  wp (mmc_bread host n dn start blkcnt dst) s (fun o s' _ => glob s' = glob s /\
    ((o = Val blkcnt /\ exists mem, sd_inv (cst <| memory := mem |>) (dev s') /\
        forall a, mem a = copied (disk cst) start blkcnt dst (memory cst) a) \/ (o = Val 0 /\ faulty))).
Proof.
  intros Hwf Hreg Hat Hph Happ Hi Hs Hb Hl Hd Hd2 Hn. unfold mmc_bread.
  rewrite (proj2 (Z.eqb_neq blkcnt 0)) by lia. wp_step. eapply wp_mono; [by eapply find_device_spec|].
  intros o1 s1 t1 (-> & ->). cbv beta iota. destruct Hreg as [_ Hp]. wp_step. eapply wp_the_mmc; [done|]. cbv beta iota.
  pose proof (at_lba m cst Hat) as Hlba. pose proof Hwf as (_ & Hw & _). unfold word in Hw.
  rewrite u32_word by (unfold word; lia). rewrite (proj2 (Z.ltb_ge _ _)) by lia.
  wp_step. unfold mmc_set_blocklen. wp_step. rewrite (at_rd m cst Hat).
  eapply wp_mono; [eapply send_spec; [done|exact Hi|apply (attached_compatible m); [done|rewrite Hph; cbn; tauto]|reflexivity|by apply (step_blocklen c cst [])]|].
  intros o2 s2 t2 (E2 & err & cmd & -> & [(-> & cst2 & Hs2 & Hi2)|(He & Hf)]); cbv beta iota; cbn [fst]; wp_step.
  2: { rewrite truthy_nonzero by done. wp_step. auto. }
  change (truthy 0) with false. cbv iota. inversion Hs2; subst.
  eapply wp_mono; [eapply (bread_loop n p m); try done; [by rewrite E2|by repeat split; lia]|].
  intros o3 s3 t3 (E3 & Ho). split; [by rewrite E3|exact Ho].
Qed.

(** *** Writing *)

Lemma attached_ext m cst cst' : attached m cst -> fast cst' = fast cst -> lines cst' = lines cst -> attached m cst'.
Proof. intros [] Ef El. constructor; rewrite ?Ef, ?El; done. Qed.

(** What a write of [n] sectors leaves. *)
Definition wrote (cst : sd_state) (start n src : Z) (w : nat) : sd_state :=
  cst <| ph := Tran |> <| busy := w |> <| disk ::= blit (memory cst) src (512 * n) (512 * start) |>.

Lemma write_blocks_spec p m cst start n src (s : st D (mmc_globals P)) :
  card_wf -> Z.of_nat (c_prog c) < 1000 -> mmc_devices (glob s) !! p = Some m -> attached m cst -> ph cst = Tran -> app cst = false ->
  sd_inv cst (dev s) -> in_card c start n -> start + n <= lba (block_dev m) ->
  wp (mmc_write_blocks host fuel p start n src) s (fun o s' _ => glob s' = glob s /\
    ((o = Val n /\ exists w, sd_inv (wrote cst start n src w) (dev s')) \/ (o = Val 0 /\ faulty))).
Proof.
  intros Hwf Hprog Hp Hat Hph Happ Hi Hin Hlba. unfold mmc_write_blocks. wp_step. eapply wp_the_mmc; [done|]. cbv beta iota.
  pose proof Hwf as (_ & Hw & _). pose proof (at_lba m cst Hat) as Hl. pose proof Hin as (Hs0 & Hn0 & Hs1). unfold word in Hw.
  rewrite u32_word by (unfold word; lia). rewrite (proj2 (Z.ltb_ge _ _)) by lia.
  rewrite (at_wr m cst Hat), (at_spi m cst Hat). pose proof (sd_address_word start m cst n Hwf Hat Hin) as Ea.
  set (cst' := cst <| disk ::= blit (memory cst) src (512 * n) (512 * start) |>).
  assert (Hat' : attached m cst') by (by apply (attached_ext m cst); destruct cst).
  assert (Hstatus : forall s1 w, glob s1 = glob s -> (w <= c_prog c)%nat -> sd_inv (cst' <| ph := Prg |> <| busy := w |>) (dev s1) ->
    wp (let* e := mmc_send_status host fuel p 1000 in ret (if truthy e then 0 else n)) s1 (fun o s' _ => glob s' = glob s /\
    ((o = Val n /\ exists w, sd_inv (wrote cst start n src w) (dev s')) \/ (o = Val 0 /\ faulty)))).
  { intros s1 w E1 Hle Hi1. wp_step. eapply wp_mono; [apply (send_status_spec p m cst' w); try done; [by rewrite E1|lia]|].
    intros o2 s2 t2 (E2 & [(-> & w' & Hi2)|(err & -> & He & Hf)]); cbv beta iota; wp_step; (split; [by rewrite E2|]).
    - left. split; [done|]. exists w'. by destruct cst.
    - right. by rewrite truthy_nonzero. }
  assert (Hcomp : forall data, compatible m cst data) by (intros; apply attached_compatible; [done|rewrite Hph; cbn; tauto]).
  fold (writing n src). cbn [negb andb]. destruct (Z.ltb_spec 1 n) as [Hn|Hn].
  - wp_step. eapply wp_mono; [eapply send_spec; [done|exact Hi|by apply Hcomp|exact Ea|by apply (step_write c cst start n src [])]|].
    intros o1 s1 t1 (E1 & err & r & -> & [(-> & cst1 & Hst1 & Hi1)|(He & Hf)]); cbv beta iota; cbn [fst].
    2: { rewrite truthy_nonzero by done. wp_run. auto. }
    change (truthy 0) with false. cbv iota. inversion Hst1; subst. match goal with E : sd_address _ _ = _ |- _ => apply sd_address_inj in E as -> end.
    wp_step. eapply wp_mono; [eapply send_spec; [by rewrite E1|exact Hi1| |reflexivity|by apply (step_stop_write c _ 0 []); [|lia]]|].
    { apply attached_compatible; [by apply (attached_ext m cst); destruct cst|cbn; tauto]. }
    intros o2 s2 t2 (E2 & err2 & r2 & -> & [(-> & cst2 & Hst2 & Hi2)|(He & Hf)]); cbv beta iota; cbn [fst].
    2: { rewrite truthy_nonzero by done. wp_run. rewrite E2, E1. auto. }
    change (truthy 0) with false. cbv iota. inversion Hst2; subst; [done|].
    eapply Hstatus; [by rewrite E2|done|]. by destruct cst.
  - assert (n = 1) as -> by lia.
    wp_step. eapply wp_mono; [eapply send_spec; [done|exact Hi|by apply Hcomp|exact Ea|by apply (step_write_one c cst start src 0 []); [| |  |lia]]|].
    intros o1 s1 t1 (E1 & err & r & -> & [(-> & cst1 & Hst1 & Hi1)|(He & Hf)]); cbv beta iota; cbn [fst].
    2: { rewrite truthy_nonzero by done. wp_run. auto. }
    change (truthy 0) with false. cbv iota. inversion Hst1; subst. match goal with E : sd_address _ _ = _ |- _ => apply sd_address_inj in E as -> end.
    eapply Hstatus; [done|done|]. by destruct cst.
Qed.

(** The loop of mmc_bwrite, with [todo] blocks left. *)
Lemma bwrite_loop n p m cst todo start src blkcnt (s : st D (mmc_globals P)) :
  card_wf -> Z.of_nat (c_prog c) < 1000 -> mmc_devices (glob s) !! p = Some m -> attached m cst -> ph cst = Tran -> app cst = false ->
  sd_inv cst (dev s) -> in_card c start todo -> start + todo <= lba (block_dev m) -> 0 <= src -> src + 512 * todo <= 2 ^ 32 ->
  todo <= b_max m * Z.of_nat n ->
  wp (while_fuel n (bwrite_body host fuel p blkcnt) (todo, start, src)) s (fun o s' _ => glob s' = glob s /\
    ((o = Val blkcnt /\ exists dsk w, sd_inv (cst <| disk := dsk |> <| busy := w |>) (dev s') /\
        forall a, dsk a = blit (memory cst) src (512 * todo) (512 * start) (disk cst) a) \/ (o = Val 0 /\ faulty))).
Proof.
  intros Hwf Hprog. revert cst todo start src s. induction n as [|n IH];
    intros cst todo start src s Hp Hat Hph Happ Hi Hin Hlba Hd Hd2 Hn; [destruct Hin; lia|].
  cbn [while_fuel bwrite_body]. wp_step. wp_step. eapply wp_the_mmc; [done|]. cbv beta iota.
  set (cur := if b_max m <? todo then b_max m else todo).
  pose proof (at_max m cst Hat) as Hmax. destruct Hin as (Hs0 & Ht0 & Hs1).
  assert (Hcur : 0 < cur <= todo /\ (todo - cur <= b_max m * Z.of_nat n)).
  { unfold cur. destruct (Z.ltb_spec (b_max m) todo); nia. }
  wp_step. eapply wp_mono; [eapply (write_blocks_spec p m cst); try done; [by repeat split; lia|lia]|].
  intros o1 s1 t1 (E1 & [(-> & w & Hi1)|(-> & Hf)]); cbv beta iota.
  2: { rewrite (proj2 (Z.eqb_neq 0 cur)) by lia. cbn [negb]. wp_run. auto. }
  rewrite Z.eqb_refl. cbn [negb]. rewrite (at_wr m cst Hat).
  destruct (Z.ltb_spec 0 (todo - cur)) as [Hmore|Hdone]; wp_step.
  - destruct Hwf as (Hrca & Hw & Haddr). unfold word in Hw.
    rewrite !u32_word by (unfold word; lia). replace (cur * 512) with (512 * cur) by lia.
    eapply wp_mono; [apply (IH (wrote cst start cur src w)); try done; [by rewrite E1|by apply (attached_ext m cst)|by repeat split; lia|lia..]|].
    intros o2 s2 t2 (E2 & [(-> & dsk & w2 & Hi2 & Hm2)|(-> & Hf)]); (split; [by rewrite E2|]); [left|by right].
    split; [done|]. exists dsk, w2. split; [destruct cst; cbn in *; by subst|]. intros a. rewrite Hm2.
    destruct cst; cbn. replace (512 * (start + cur)) with (512 * start + 512 * cur) by lia. rewrite blit_split by lia. f_equal. lia.
  - wp_step. split; [done|]. left. split; [done|]. assert (cur = todo) as Ec by lia. rewrite Ec in Hi1.
    eexists _, w. split; [|done]. unfold wrote in Hi1. destruct cst; cbn in Hph, Hi1 |- *. rewrite Hph. exact Hi1.
Qed.

Lemma bwrite_spec dn p m cst start blkcnt src (s : st D (mmc_globals P)) :
  card_wf -> Z.of_nat (c_prog c) < 1000 -> registered dn p m (glob s) -> attached m cst -> ph cst = Tran -> app cst = false ->
  sd_inv cst (dev s) -> 0 <= start -> 0 < blkcnt -> start + blkcnt <= lba (block_dev m) -> 0 <= src -> src + 512 * blkcnt <= 2 ^ 32 ->
  blkcnt <= b_max m * Z.of_nat fuel ->
  wp (mmc_bwrite host fuel dn start blkcnt src) s (fun o s' _ => glob s' = glob s /\
    ((o = Val blkcnt /\ exists dsk w, sd_inv (cst <| disk := dsk |> <| busy := w |>) (dev s') /\
        forall a, dsk a = blit (memory cst) src (512 * blkcnt) (512 * start) (disk cst) a) \/ (o = Val 0 /\ faulty))).
Proof.
  intros Hwf Hprog Hreg Hat Hph Happ Hi Hs Hb Hl Hd Hd2 Hn. unfold mmc_bwrite.
  wp_step. eapply wp_mono; [by eapply find_device_spec|].
  intros o1 s1 t1 (-> & ->). cbv beta iota. destruct Hreg as [_ Hp]. wp_step. eapply wp_the_mmc; [done|]. cbv beta iota.
  pose proof (at_lba m cst Hat) as Hlba. wp_step. unfold mmc_set_blocklen. wp_step. rewrite (at_wr m cst Hat).
  eapply wp_mono; [eapply send_spec; [done|exact Hi|apply (attached_compatible m); [done|rewrite Hph; cbn; tauto]|reflexivity|by apply (step_blocklen c cst [])]|].
  intros o2 s2 t2 (E2 & err & cmd & -> & [(-> & cst2 & Hs2 & Hi2)|(He & Hf)]); cbv beta iota; cbn [fst]; wp_step.
  2: { rewrite truthy_nonzero by done. wp_step. auto. }
  change (truthy 0) with false. cbv iota. inversion Hs2; subst.
  eapply wp_mono; [eapply (bwrite_loop fuel p m); try done; [by rewrite E2|by repeat split; lia]|].
  intros o3 s3 t3 (E3 & Ho). split; [by rewrite E3|exact Ho].
Qed.


(** C14: Reading sectors puts them into memory.  On a card in the transfer
    state, mmc_bread splits the request at the controller's limit and the result
    is the whole request: the memory at [dst] holds the sectors from [start],
    in order, nothing else in memory changed, and the card takes the next
    command.  When a command can fail, the other result is 0, never a part. *)
Theorem mmc_bread_sectors n dn p m cst start blkcnt dst (s : st D (mmc_globals P)) :
  card_wf -> registered dn p m (glob s) -> attached m cst -> ph cst = Tran -> app cst = false -> sd_inv cst (dev s) ->
  0 <= start -> 0 < blkcnt -> start + blkcnt <= lba (block_dev m) -> 0 <= dst -> dst + 512 * blkcnt <= 2 ^ 32 ->
  blkcnt <= b_max m * Z.of_nat n ->
  let r := mmc_bread host n dn start blkcnt dst s in
  glob (fin r) = glob s /\
  ((out r = Val blkcnt /\ exists mem, sd_inv (cst <| memory := mem |>) (dev (fin r)) /\
      forall a, mem a = copied (disk cst) start blkcnt dst (memory cst) a) \/
   (out r = Val 0 /\ faulty)).
Proof. intros. by apply bread_spec with (p := p) (m := m) (cst := cst). Qed.

(** C15: What was written is read back.  On a card whose commands do not fail,
    a write of sectors from [src] followed by a read of the same sectors to
    [dst] copies the bytes from [src] to [dst], and no other sector of the card
    changes. *)
Theorem mmc_write_read_back dn p m cst start cnt src dst (s : st D (mmc_globals P)) :
  ~ faulty -> card_wf -> Z.of_nat (c_prog c) < 1000 -> registered dn p m (glob s) -> attached m cst -> ph cst = Tran ->
  app cst = false -> sd_inv cst (dev s) -> 0 <= start -> 0 < cnt -> start + cnt <= lba (block_dev m) ->
  0 <= src -> src + 512 * cnt <= 2 ^ 32 -> 0 <= dst -> dst + 512 * cnt <= 2 ^ 32 -> cnt <= b_max m * Z.of_nat fuel ->
  let r := (mmc_bwrite host fuel dn start cnt src ;;; mmc_bread host fuel dn start cnt dst) s in
  out r = Val cnt /\ exists cst', sd_inv cst' (dev (fin r)) /\
    (forall a, memory cst' a = blit (memory cst) src (512 * cnt) dst (memory cst) a) /\
    (forall a, ~ (512 * start <= a < 512 * (start + cnt)) -> disk cst' a = disk cst a).
Proof.
  intros Hf Hwf Hprog Hreg Hat Hph Happ Hi Hs Hc Hl Hsr Hsr2 Hd Hd2 Hn. wp_enter. wp_step.
  eapply wp_mono; [by apply (bwrite_spec dn p m cst start cnt src)|].
  intros o1 s1 t1 (E1 & [(-> & dsk & w & Hi1 & Hdsk)|(_ & Hno)]); cbv beta iota; [|done].
  eapply wp_mono; [apply (bread_spec fuel dn p m (cst <| disk := dsk |> <| busy := w |>)); try done; [by rewrite E1|by apply (attached_ext m cst)]|].
  intros o2 s2 t2 (E2 & [(-> & mem & Hi2 & Hm)|(_ & Hno)]); [|done]. split; [done|].
  eexists. split; [exact Hi2|]. split; intros a.
  - change (memory (cst <| disk := dsk |> <| busy := w |> <| memory := mem |>) a) with (mem a). rewrite Hm.
    change (disk (cst <| disk := dsk |> <| busy := w |>)) with dsk. change (memory (cst <| disk := dsk |> <| busy := w |>)) with (memory cst).
    unfold copied, blit. destruct ((dst <=? a) && (a <? dst + 512 * cnt)) eqn:E; [|done]. rewrite Hdsk, blit_in by lia. f_equal. lia.
  - intros Ha. change (disk (cst <| disk := dsk |> <| busy := w |> <| memory := mem |>) a) with (dsk a). rewrite Hdsk. apply blit_out. lia.
Qed.

End blocks.
