(* ===== verification/SdInit.v ===== *)
(** Identification of an SD card: mmc_init takes a card of the specification in
    SdCard.v from any state to the transfer state, and struct mmc describes it
    afterwards. *)

From S2P Require Import Prelude BitOps Mmio Regs Globals Timer Crc32 Sectors DwMmc Mmc MmcInit SdCard.

Lemma alter_insert {A} (f : A -> A) (l : list A) i x : alter f i (<[i := x]> l) = <[i := f x]> l.
Proof. revert i. induction l as [|y l IH]; intros [|i]; [done|done|done|]. cbn. f_equal. apply IH. Qed.

(** ** Big-endian words *)

Definition be32 (f : Z -> Z) (a : Z) : Z := (f a .<< 24) .| (f (a + 1) .<< 16) .| (f (a + 2) .<< 8) .| f (a + 3).

Lemma land_shifted x n k : 0 <= k -> x .& (n .<< k) = ((x .>> k) .& n) .<< k.
Proof.
  intros Hk. apply Z.bits_inj'. intros i Hi. rewrite Z.land_spec, !Z.shiftl_spec, Z.land_spec by done.
  destruct (Z.lt_ge_cases i k); [rewrite !(Z.testbit_neg_r _ (i - k)) by lia; by rewrite andb_false_r|].
  rewrite Z.shiftr_spec by lia. by replace (i - k + k) with i by lia.
Qed.

Lemma byte_shiftr b k : is_byte b -> 8 <= k -> b .>> k = 0.
Proof.
  unfold is_byte. intros Hb Hk. rewrite Z.shiftr_div_pow2 by lia. apply Z.div_small.
  pose proof (Z.pow_le_mono_r 2 8 k ltac:(lia) Hk). lia.
Qed.

Lemma be32_high f a : bytes_of f -> be32 f a .>> 24 = f a.
Proof.
  intros Hf. unfold be32. rewrite !Z.shiftr_lor, !Z.shiftr_shiftl_l by lia.
  change (f (a + 1) .<< (16 - 24)) with (f (a + 1) .>> 8). change (f (a + 2) .<< (8 - 24)) with (f (a + 2) .>> 16).
  rewrite !byte_shiftr by (done || apply Hf). change (24 - 24) with 0. by rewrite Z.shiftl_0_r, !Z.lor_0_r.
Qed.

(** The function group 1 of the switch status is high speed. *)
Lemma be32_function f a : bytes_of f -> (be32 f a .& 0x0f000000 =? 0x01000000) = true -> (f a .& 0xf =? 1) = true.
Proof.
  intros Hf E. apply Z.eqb_eq in E. change 0x0f000000 with (0xf .<< 24) in E. rewrite land_shifted, be32_high in E by done.
  apply Z.eqb_eq. apply (f_equal (fun x => x .>> 24)) in E. rewrite Z.shiftr_shiftl_l in E by lia. cbn in E. by rewrite Z.shiftl_0_r in E.
Qed.

(** The card says that it has four data lines. *)
Lemma be32_lines f a : bytes_of f -> truthy (be32 f a .& SD_DATA_4BIT) = true -> truthy (f (a + 1) .& 4) = true.
Proof.
  intros Hf E. apply truthy_nonzero. intros E0. change SD_DATA_4BIT with (4 .<< 16) in E. rewrite land_shifted in E by lia.
  assert (E1 : (be32 f a .>> 16) .& 4 = 0); [|by rewrite E1 in E].
  unfold be32. rewrite !Z.shiftr_lor, !Z.shiftr_shiftl_l by lia.
  change (f (a + 2) .<< (8 - 16)) with (f (a + 2) .>> 8). change (24 - 16) with 8. change (16 - 16) with 0.
  rewrite !byte_shiftr by (done || apply Hf). rewrite Z.shiftl_0_r, !Z.lor_0_r, Z.land_lor_distr_l, E0, Z.lor_0_r. change 4 with (bit 2).
  apply Z.bits_inj'. intros j Hj. rewrite Z.land_spec, Z.shiftl_spec, testbit_bit, Z.bits_0 by lia.
  destruct (Z.eqb_spec 2 j); [|apply andb_false_r]. subst. by rewrite Z.testbit_neg_r.
Qed.

(** ** A card of version 2 or later *)

Record card_ok {P} (m : mmc P) (c : sd_card) : Prop := {
  ok_wf : card_wf c;
  ok_up : truthy (c_ocr c .& OCR_BUSY) = true;
  ok_volt : truthy (voltages m .& 0xff8000 .& c_ocr c) = true;
  ok_csd : length (c_csd c) = 4%nat;
  ok_unit : nth 0 (c_csd c) 0 .& 0x7 < 4;
  ok_bl : 9 <= (nth 1 (c_csd c) 0 .>> 16) .& 0xf;
  ok_size : csd_capacity (c_hc c) (nth 1 (c_csd c) 0) (nth 2 (c_csd c) 0) (1 .<< ((nth 1 (c_csd c) 0 .>> 16) .& 0xf)) = 512 * c_sectors c;
  ok_scr : bytes_of (c_scr c);
  ok_power : Z.of_nat (c_power c) < 1000
}.

(** The device as a host registers it, before its first use. *)
Record fresh {P} (m : mmc P) : Prop := {
  fr_init : has_init m = 0;
  fr_spi : mmc_host_is_spi m = false;
  fr_min : f_min m <= 400000;
  fr_max : 0 < b_max m
}.

Section init.
Context {D P : Type} `{Device D} `{Memory D} (host : mmc_host D P) (stack : mmc_stack) (fuel : nat) (c : sd_card)
  `{!SdHost host fuel c False} (g0 : mmc_globals P) (p : nat) (Hp : (p < length (mmc_devices g0))%nat).
Abbreviation M := (M D (mmc_globals P)).

(** The globals with device [p] replaced. *)
Definition put (m : mmc P) : mmc_globals P := mk_mmc_globals (mgd g0) (<[p := m]> (mmc_devices g0)) (cur_dev_num g0).

Lemma put_lookup m : mmc_devices (put m) !! p = Some m.
Proof. cbn. by apply list_lookup_insert_eq. Qed.

Lemma wp_put_the m s Q : glob s = put m -> Q (Val m) s [] -> wp (the_mmc p : M (mmc P)) s Q.
Proof. intros E. apply wp_the_mmc. rewrite E. apply put_lookup. Qed.

Lemma wp_put_upd m f s Q : glob s = put m -> Q (Val tt) (mk_st (dev s) (put (f m))) [] -> wp (upd_mmc p f : M unit) s Q.
Proof.
  intros E HQ. unfold upd_mmc. wp_step. rewrite E. unfold put. cbn [mgd mmc_devices cur_dev_num].
  rewrite alter_insert. exact HQ.
Qed.

(** A command that the card takes succeeds. *)
Lemma send_ok m cst idx rsp arg arg' data cmd r cst' (s : st D (mmc_globals P)) :
  glob s = put m -> sd_inv cst (dev s) -> compatible m cst data ->
  u32 arg = arg' -> sd_step c cst idx rsp arg' data r cst' ->
  wp (mmc_send_cmd host p (set_cmd idx rsp arg cmd) data) s (fun o s' _ => exists r cst',
    o = Val (0, answer (set_cmd idx rsp arg cmd) r) /\ glob s' = put m /\ sd_step c cst idx rsp arg' data r cst' /\ sd_inv cst' (dev s')).
Proof.
  intros E Hi Hc Ea Hs. eapply wp_mono; [eapply send_spec; try done; rewrite E; apply put_lookup|].
  intros o s' t (E' & err & r' & -> & [(-> & cst2 & Hs2 & Hi2)|[_ []]]). eexists r', cst2. by rewrite E', E.
Qed.

Lemma delay_ok usec cst (s : st D (mmc_globals P)) : 0 <= usec <= 2000 -> sd_inv cst (dev s) ->
  wp (with_gd (P:=P) (udelay fuel usec)) s (fun o s' _ => o = Val tt /\ glob s' = glob s /\ sd_inv cst (dev s')).
Proof. apply (sd_delay (host:=host) (c:=c) (faulty:=False)). Qed.

(** ** Bus width and clock *)

Lemma set_ios_ok m cst (s : st D (mmc_globals P)) : glob s = put m -> sd_inv cst (dev s) ->
  wp (mmc_set_ios host p) s (fun o s' _ => o = Val tt /\ (exists pr, glob s' = put (m <| priv := pr |>)) /\ sd_inv cst (dev s')).
Proof.
  intros E Hi. unfold mmc_set_ios. wp_step. eapply wp_put_the; [done|]. cbv beta iota. wp_step.
  eapply wp_mono; [by apply (sd_set_ios m s cst)|]. intros o s1 t1 ([pr ->] & E1 & Hi1). cbv beta iota.
  eapply wp_put_upd; [by rewrite E1|]. split; [done|]. split; [by exists pr|exact Hi1].
Qed.

Lemma set_width_ok m w cst (s : st D (mmc_globals P)) : glob s = put m -> sd_inv cst (dev s) ->
  wp (mmc_set_bus_width host p w) s (fun o s' _ => o = Val tt /\
    (exists pr, glob s' = put (m <| bus_width := w |> <| priv := pr |>)) /\ sd_inv cst (dev s')).
Proof.
  intros E Hi. unfold mmc_set_bus_width. wp_step. eapply wp_put_upd; [done|]. cbv beta iota.
  eapply wp_mono; [by eapply set_ios_ok|]. intros o s1 t1 (-> & [pr E1] & Hi1). split; [done|]. split; [by exists pr|done].
Qed.

(** The frequency that is set. *)
Definition clamped (m : mmc P) (f : Z) : Z := Z.max (Z.min f (f_max m)) (f_min m).

Lemma set_clock_ok m f cst (s : st D (mmc_globals P)) : glob s = put m -> sd_inv cst (dev s) ->
  wp (mmc_set_clock host p f) s (fun o s' _ => o = Val tt /\
    (exists pr, glob s' = put (m <| mmc_clock := clamped m f |> <| priv := pr |>)) /\ sd_inv cst (dev s')).
Proof.
  intros E Hi. unfold mmc_set_clock. wp_step. eapply wp_put_the; [done|]. cbv beta iota.
  assert (Ef : (if (if f_max m <? f then f_max m else f) <? f_min m then f_min m else if f_max m <? f then f_max m else f) = clamped m f).
  { unfold clamped. destruct (Z.ltb_spec (f_max m) f); [destruct (Z.ltb_spec (f_max m) (f_min m))|destruct (Z.ltb_spec f (f_min m))]; lia. }
  rewrite Ef. wp_step. eapply wp_put_upd; [done|]. cbv beta iota.
  eapply wp_mono; [by eapply set_ios_ok|]. intros o s1 t1 (-> & [pr E1] & Hi1). split; [done|]. split; [by exists pr|done].
Qed.

(** ** Reset and power-up *)

Lemma slow_compatible (m : mmc P) cst : mmc_clock m <= 400000 -> compatible m cst None.
Proof. intros Hc. split; [|done]. unfold max_clock. destruct (ph cst), (fast cst); lia. Qed.

(** The state after a reset. *)
Definition reset (cst : sd_state) : sd_state :=
  cst <| ph := Idle |> <| app := false |> <| lines := 1 |> <| fast := false |> <| busy := c_power c |>.

Lemma go_idle_ok m cst (s : st D (mmc_globals P)) : glob s = put m -> mmc_clock m <= 400000 -> sd_inv cst (dev s) ->
  wp (mmc_go_idle host fuel p) s (fun o s' _ => o = Val 0 /\ glob s' = put m /\ sd_inv (reset cst) (dev s')).
Proof.
  intros E Hc Hi. unfold mmc_go_idle, checked. wp_step. eapply wp_mono; [by apply (delay_ok 1000 cst)|].
  intros o s1 t1 (-> & E1 & Hi1). cbv beta iota. wp_step.
  eapply wp_mono; [eapply send_ok; [by rewrite E1|exact Hi1|by apply slow_compatible|reflexivity|by apply (step_idle c cst [])]|].
  intros o s2 t2 (r & cst2 & -> & E2 & Hs & Hi2). cbv beta iota. cbn [fst snd]. change (truthy 0) with false. cbv iota.
  inversion Hs; subst. wp_step. eapply wp_mono; [by apply (delay_ok 2000 (reset cst))|].
  intros o s3 t3 (-> & E3 & Hi3). cbv beta iota. wp_step. by rewrite E3.
Qed.

Lemma if_cond_ok m cst (s : st D (mmc_globals P)) :
  card_ok m c -> glob s = put m -> mmc_clock m <= 400000 -> ph cst = Idle -> app cst = false -> sd_inv cst (dev s) ->
  wp (mmc_send_if_cond host p) s (fun o s' _ => o = Val 0 /\ glob s' = put (m <| version := SD_VERSION_2 |>) /\ sd_inv cst (dev s')).
Proof.
  intros Hok E Hc Hph Happ Hi. unfold mmc_send_if_cond, checked. wp_step. eapply wp_put_the; [done|]. cbv beta iota.
  assert (Hv : (voltages m .& 0xff8000 =? 0) = false).
  { apply Z.eqb_neq. intros E0. pose proof (ok_volt m c Hok) as Hv. rewrite E0, Z.land_0_l in Hv. done. }
  rewrite Hv. change ((b2z (negb false) .<< 8) .| 0xaa) with 0x1aa. wp_step.
  eapply wp_mono; [eapply send_ok; [done|exact Hi|by apply slow_compatible|reflexivity|by apply (step_if_cond c cst 0x1aa [0xaa])]|].
  intros o s1 t1 (r & cst1 & -> & E1 & Hs & Hi1). cbv beta iota. cbn [fst snd]. change (truthy 0) with false. cbv iota.
  inversion Hs; subst. unfold resp. cbn [response answer].
  match goal with Hr : nth 0 r 0 .& _ = _ |- _ => rewrite Hr end. change (negb (u32 426 .& 255 =? 170)) with false. cbv iota.
  wp_step. eapply wp_put_upd; [done|]. cbv beta iota. by wp_step.
Qed.

(** The voltages and the flag for large cards in the argument. *)
Lemma op_cond_arg (m : mmc P) : card_ok m c -> let arg := (voltages m .& 0xff8000) .| OCR_HCS in
  u32 arg = arg /\ truthy (arg .& OCR_HCS) = true /\ truthy (arg .& c_ocr c .& 0xff8000) = true.
Proof.
  intros Hok. cbv zeta. split; [apply u32_word; word_solve|]. split.
  - rewrite lor_self. reflexivity.
  - apply truthy_nonzero. intros E0. pose proof (ok_volt m c Hok) as Hv. apply negb_true_iff, Z.eqb_neq in Hv. apply Hv.
    assert (E1 : voltages m .& 0xff8000 .& c_ocr c = (voltages m .& 0xff8000 .& c_ocr c) .& (((voltages m .& 0xff8000) .| OCR_HCS) .& c_ocr c .& 0xff8000)).
    { generalize (voltages m), (c_ocr c), OCR_HCS. intros v o h. bitwise. }
    by rewrite E1, E0, Z.land_0_r.
Qed.

Lemma op_cond_loop k m cst cmd timeout (s : st D (mmc_globals P)) :
  card_ok m c -> glob s = put m -> version m = SD_VERSION_2 -> mmc_host_is_spi m = false -> mmc_clock m <= 400000 ->
  ph cst = Idle -> app cst = false -> Z.of_nat (busy cst) < timeout -> Z.of_nat k = timeout + 1 -> sd_inv cst (dev s) ->
  wp (while_fuel k (sd_op_cond_body host fuel p) (cmd, timeout)) s (fun o s' _ => exists cmd' t,
    o = Val (inr (cmd', t)) /\ 0 < t /\ resp cmd' 0 = c_ocr c /\ glob s' = put m /\
    sd_inv (cst <| busy := O |> <| ph := Ready |>) (dev s')).
Proof.
  intros Hok E Hver Hspi Hc. destruct (op_cond_arg m Hok) as (Hu & Hh & Hv). revert cst cmd timeout s E.
  induction k as [|k IH]; intros cst cmd timeout s E Hph Happ Hb Hk Hi; [lia|]. cbn [while_fuel]. unfold sd_op_cond_body at 1.
  wp_step. wp_step. eapply wp_mono; [eapply send_ok; [done|exact Hi|by apply slow_compatible|reflexivity|apply (step_app c cst 0 []); auto]|].
  intros o s1 t1 (r & cst1 & -> & E1 & Hs & Hi1). cbv beta iota. cbn [fst snd]. change (truthy 0) with false. cbv iota.
  inversion Hs; subst. wp_step. eapply wp_put_the; [done|]. cbv beta iota. rewrite Hspi, Hver, Z.eqb_refl. wp_step.
  destruct (busy cst) as [|w] eqn:Eb.
  - eapply wp_mono; [eapply send_ok; [done|exact Hi1|by apply slow_compatible|exact Hu|by apply (step_op_cond c _ _ [c_ocr c])]|].
    intros o s2 t2 (r2 & cst2 & -> & E2 & Hs2 & Hi2). cbv beta iota. cbn [fst snd]. change (truthy 0) with false. cbv iota.
    inversion Hs2; subst; [match goal with Hn : busy _ = S _ |- _ => exfalso; destruct cst; cbn in *; congruence end|].
    wp_step. eapply wp_mono; [apply (delay_ok 1000 _ s2 ltac:(lia) Hi2)|].
    intros o s3 t3 (-> & E3 & Hi3). cbv beta iota. wp_step. unfold ocr_next, resp. cbn [response answer].
    match goal with Hr : nth 0 r2 0 = _ |- _ => rewrite Hr end. rewrite (ok_up m c Hok). wp_step. eexists _, timeout. split; [done|]. split; [lia|].
    split; [done|]. split; [by rewrite E3|]. destruct cst; cbn in *; subst. exact Hi3.
  - eapply wp_mono; [eapply send_ok; [done|exact Hi1|by apply slow_compatible|exact Hu|by apply (step_op_cond_busy c _ _ [0] w)]|].
    intros o s2 t2 (r2 & cst2 & -> & E2 & Hs2 & Hi2). cbv beta iota. cbn [fst snd]. change (truthy 0) with false. cbv iota.
    inversion Hs2; subst; [|match goal with Hn : busy _ = O |- _ => exfalso; destruct cst; cbn in *; congruence end].
    wp_step. eapply wp_mono; [apply (delay_ok 1000 _ s2 ltac:(lia) Hi2)|].
    intros o s3 t3 (-> & E3 & Hi3). cbv beta iota. wp_step. unfold ocr_next, resp. cbn [response answer].
    match goal with Hr : truthy (nth 0 r2 0 .& OCR_BUSY) = _ |- _ => rewrite Hr end. rewrite (truthy_nonzero timeout) by lia.
    match goal with Hn : busy _ = S ?w' |- _ => assert (w' = w) as -> by (destruct cst; cbn in *; congruence) end.
    eapply wp_mono; [apply (IH (cst <| busy := w |>)); [by rewrite E3|done|done|unfold constant; cbn; lia|lia|]|].
    { destruct cst; cbn in *; subst. exact Hi3. }
    intros o s4 t4 (cmd' & t & -> & Ht & Hr & E4 & Hi4). eexists cmd', t. split; [done|]. split; [done|]. split; [done|]. split; [done|].
    destruct cst; exact Hi4.
Qed.

Lemma op_cond_ok m cst (s : st D (mmc_globals P)) :
  card_ok m c -> glob s = put m -> version m = SD_VERSION_2 -> mmc_host_is_spi m = false -> mmc_clock m <= 400000 ->
  ph cst = Idle -> app cst = false -> Z.of_nat (busy cst) < 1000 -> sd_inv cst (dev s) ->
  wp (sd_send_op_cond host fuel p) s (fun o s' _ => o = Val 0 /\
    glob s' = put (m <| ocr := c_ocr c |> <| high_capacity := c_hc c |> <| rca := 0 |>) /\
    sd_inv (cst <| busy := O |> <| ph := Ready |>) (dev s')).
Proof.
  intros Hok E Hver Hspi Hc Hph Happ Hb Hi. unfold sd_send_op_cond, checked, spi_read_ocr. wp_step.
  eapply wp_mono; [by eapply (op_cond_loop _ m cst)|]. intros o s1 t1 (cmd & t & -> & Ht & Hr & E1 & Hi1). cbv beta iota.
  rewrite (proj2 (Z.leb_gt t 0)) by done. wp_step. eapply wp_put_upd; [done|]. cbv beta iota. rewrite Hver, Z.eqb_refl.
  wp_step. wp_step. eapply wp_put_the; [done|]. cbv beta iota. rewrite Hspi. wp_step. cbn [fst snd]. change (truthy 0) with false. cbv iota.
  wp_step. eapply wp_put_upd; [done|]. cbv beta iota. wp_step. rewrite Hr. done.
Qed.

(** ** Stand-by *)

(** The wait for the status does no harm in stand-by; its result is not used. *)
Lemma status_stby_loop k m cst cmd n timeout (s : st D (mmc_globals P)) :
  glob s = put m -> compatible m cst None -> ph cst = Stby -> app cst = false -> Z.of_nat k = timeout + 1 -> 0 <= timeout ->
  sd_inv cst (dev s) -> cmdidx cmd = MMC_CMD_SEND_STATUS -> resp_type cmd = MMC_RSP_R1 -> cmdarg cmd = c_rca c .<< 16 ->
  wp (while_fuel k (send_status_body host fuel p) (cmd, n, timeout)) s (fun o s' _ => is_val o /\ glob s' = put m /\ sd_inv cst (dev s')).
Proof.
  intros E Hc Hph Happ. revert cmd n timeout s E. induction k as [|k IH]; intros cmd n timeout s E Hk Ht Hi Ci Cr Ca; [lia|].
  cbn [while_fuel]. unfold send_status_body at 1. wp_step. wp_step. unfold mmc_send_cmd. wp_step. eapply wp_put_the; [done|]. cbv beta iota.
  eapply wp_mono; [apply (sd_send m cmd None s cst [] cst Hi Hc); rewrite Ci, Cr, Ca; apply step_status; auto|].
  rewrite Ci, Cr, Ca. intros o s1 t1 (E1 & err & r & -> & [(-> & cst1 & Hs & Hi1)|(_ & [] & _)]). cbv beta iota.
  assert (cst1 = cst) as -> by (by inversion Hs; subst; [|congruence|congruence]).
  change (negb (truthy 0)) with true. cbv iota.
  destruct (_ && _); [do 2 wp_step; split; [by eexists|]; by rewrite E1|].
  destruct (truthy _); [wp_run; split; [by eexists|]; by rewrite E1|].
  wp_step. eapply wp_mono; [apply (delay_ok 1000 cst s1 ltac:(lia) Hi1)|]. intros o s2 t2 (-> & E2 & Hi2). cbv beta iota. wp_step.
  unfold truthy. destruct (Z.eqb_spec timeout 0); cbn [negb]; [wp_step; split; [by eexists|]; by rewrite E2, E1|].
  apply IH; [by rewrite E2, E1|lia|lia|done|by destruct cmd..].
Qed.

Lemma rca_arg (m : mmc P) : card_ok m c -> u32 (c_rca c .<< 16) = c_rca c .<< 16.
Proof. intros [[Hr _]]. apply u32_word. unfold word. rewrite Z.shiftl_mul_pow2; lia. Qed.

Lemma status_stby m cst (s : st D (mmc_globals P)) :
  card_ok m c -> glob s = put m -> compatible m cst None -> rca m = c_rca c -> mmc_host_is_spi m = false ->
  ph cst = Stby -> app cst = false -> sd_inv cst (dev s) ->
  wp (mmc_send_status host fuel p 1000) s (fun o s' _ => is_val o /\ glob s' = put m /\ sd_inv cst (dev s')).
Proof.
  intros Hok E Hc Hr Hspi Hph Happ Hi. unfold mmc_send_status. wp_step. eapply wp_put_the; [done|]. cbv beta iota.
  rewrite Hspi. cbn [negb]. wp_step.
  eapply wp_mono; [apply (status_stby_loop _ m cst); try done; cbn; by rewrite Hr, (rca_arg m Hok)|].
  intros o s1 t1 ([r ->] & E1 & Hi1). cbv beta iota. destruct r; wp_run; (split; [by eexists|]); by rewrite E1.
Qed.

(** *** The card specific data *)

Definition sd_csd (m : mmc P) (freq mult : Z) : mmc P :=
  m <| csd := c_csd c |> <| tran_speed := u32 (freq * mult) |> <| read_bl_len := 512 |> <| write_bl_len := 512 |>
    <| capacity := 512 * c_sectors c |>.

Lemma with_csd_sd (m : mmc P) freq mult cmd : card_ok m c -> version m = SD_VERSION_2 -> high_capacity m = c_hc c ->
  response cmd = c_csd c -> with_csd freq mult cmd m = sd_csd m freq mult.
Proof.
  intros Hok Hv Hh Hr. pose proof (ok_bl m c Hok) as Hbl. pose proof (ok_size m c Hok) as Hsz.
  unfold with_csd, resp. rewrite Hr. cbv zeta.
  change (version (m <| csd := c_csd c |>)) with (version m). rewrite Hv. change (SD_VERSION_2 =? MMC_VERSION_UNKNOWN) with false. cbv iota.
  set (bl := 1 .<< ((nth 1 (c_csd c) 0 .>> 16) .& 0xf)) in *.
  assert (Hge : 512 <= bl).
  { unfold bl. rewrite Z.shiftl_mul_pow2 by lia. change 512 with (2 ^ 9). pose proof (Z.pow_le_mono_r 2 9 _ ltac:(lia) Hbl). lia. }
  unfold IS_SD, sd_csd. destruct m; cbn in *. unfold constant. rewrite Hv. change (truthy (SD_VERSION_2 .& SD_VERSION_SD)) with true. cbv iota.
  rewrite Hh, Hsz. destruct (Z.ltb_spec 512 bl) as [H1|H1]; cbn; [destruct (Z.ltb_spec 512 bl); [done|lia]|].
  destruct (Z.ltb_spec 512 bl); [lia|]. by replace bl with 512 by lia.
Qed.

(** ** Transfer state *)

Lemma load_be32_ok cst a (s : st D (mmc_globals P)) (Q : outcome Z -> st D (mmc_globals P) -> trace -> Prop) :
  sd_inv cst (dev s) -> Q (Val (be32 (memory cst) a)) s [] -> wp (load_be32 a : M Z) s Q.
Proof. intros Hi HQ. unfold wp, load_be32, bind, load. cbn. rewrite !(sd_ram cst _ _ Hi). exact HQ. Qed.

(** The driver's buffers are all that changes in memory, and the card itself
    does not change. *)
Definition framed (cst cst' : sd_state) : Prop :=
  ph cst' = Tran /\ app cst' = false /\ disk cst' = disk cst /\ lines cst' = lines cst /\
  (fast cst = true -> fast cst' = true) /\
  forall a, ~ (scr_buf stack <= a < scr_buf stack + 8) -> ~ (switch_status stack <= a < switch_status stack + 64) ->
    memory cst' a = memory cst a.

Lemma framed_refl cst : ph cst = Tran -> app cst = false -> framed cst cst.
Proof. repeat split; auto. Qed.

Lemma framed_trans cst1 cst2 cst3 : framed cst1 cst2 -> framed cst2 cst3 -> framed cst1 cst3.
Proof.
  intros (P1 & A1 & D1 & L1 & F1 & M1) (P2 & A2 & D2 & L2 & F2 & M2). repeat split; try congruence; [auto|].
  intros a Ha Hb. rewrite M2 by done. by apply M1.
Qed.

(** The host as it is during identification. *)
Record slow (m : mmc P) (cst : sd_state) : Prop := {
  sl_clock : mmc_clock m <= 400000;
  sl_width : bus_width m = lines cst
}.

Lemma slow_any m cst data : slow m cst -> compatible m cst data.
Proof. intros [Hc Hw]. split; [|done]. unfold max_clock. destruct (ph cst), (fast cst); lia. Qed.

Lemma switch_ok m cst mode (s : st D (mmc_globals P)) :
  glob s = put m -> slow m cst -> ph cst = Tran -> app cst = false -> sd_inv cst (dev s) -> mode = 0 \/ mode = 1 ->
  wp (sd_switch host p mode 0 1 (switch_status stack)) s (fun o s' _ => o = Val 0 /\ glob s' = put m /\
    exists cst' b, framed cst cst' /\ sd_inv cst' (dev s') /\ bytes_of b /\
      (forall a, 0 <= a < 64 -> memory cst' (switch_status stack + a) = b a) /\
      (mode = 1 -> (b 16 .& 0xf =? 1) = true -> fast cst' = true)).
Proof.
  intros E Hc Hph Happ Hi Hm. unfold sd_switch. wp_step. fold (reading 64 1 (switch_status stack)).
  eapply wp_mono; [eapply send_ok; [done|exact Hi|by apply slow_any|reflexivity|
    apply (step_switch c cst (u32 (sd_switch_arg mode 0 1)) (switch_status stack) (fun _ => 0) []); try done; intros a; unfold is_byte; lia]|].
  intros o s1 t1 (r & cst1 & -> & E1 & Hs & Hi1). cbv beta iota. wp_step. split; [done|]. split; [done|].
  inversion Hs; subst. exists (cst <| memory ::= blit b 0 64 (switch_status stack) |>
    <| fast ::= orb (Z.testbit (u32 (sd_switch_arg mode 0 1)) 31 && (b 16 .& 0xf =? 1)) |>), b. split; [|split; [done|split; [done|split]]].
  - split; [done|]. split; [done|]. split; [done|]. split; [done|]. split.
    + intros Hf. change (fast (cst <| memory ::= blit b 0 64 (switch_status stack) |> <| fast ::= orb (Z.testbit (u32 (sd_switch_arg mode 0 1)) 31 && (b 16 .& 0xf =? 1)) |>))
        with (orb (Z.testbit (u32 (sd_switch_arg mode 0 1)) 31 && (b 16 .& 0xf =? 1)) (fast cst)). rewrite Hf. apply orb_true_r.
    + intros a _ Ha. by apply blit_out.
  - intros a Ha. change (blit b 0 64 (switch_status stack) (memory cst) (switch_status stack + a) = b a).
    rewrite blit_in by lia. f_equal. lia.
  - intros -> Hb. change (orb (Z.testbit (u32 (sd_switch_arg 1 0 1)) 31 && (b 16 .& 0xf =? 1)) (fast cst) = true). by rewrite Hb.
Qed.

Lemma slow_framed m cst cst' : slow m cst -> framed cst cst' -> slow m cst'.
Proof. intros [] (_ & _ & _ & L & _). constructor; congruence. Qed.

Lemma wait_switch_ok n m cst (s : st D (mmc_globals P)) :
  glob s = put m -> slow m cst -> ph cst = Tran -> app cst = false -> sd_inv cst (dev s) ->
  wp (wait_switch host stack n p) s (fun o s' _ => o = Val 0 /\ glob s' = put m /\ exists cst', framed cst cst' /\ sd_inv cst' (dev s')).
Proof.
  revert cst s. induction n as [|n IH]; intros cst s E Hc Hph Happ Hi; cbn [wait_switch].
  - wp_step. split; [done|]. split; [done|]. exists cst. split; [by apply framed_refl|done].
  - unfold check. wp_step. eapply wp_mono; [by eapply (switch_ok m cst 0); auto|].
    intros o s1 t1 (-> & E1 & cst1 & b & F1 & Hi1 & _). cbv beta iota. change (truthy 0) with false. cbv iota.
    wp_step. eapply load_be32_ok; [exact Hi1|]. cbv beta iota. destruct (negb _).
    + wp_step. split; [done|]. split; [done|]. by exists cst1.
    + pose proof F1 as (P1 & A1 & _). eapply wp_mono; [eapply IH; [done|by eapply slow_framed|done|done|exact Hi1]|].
      intros o s2 t2 (-> & E2 & cst2 & F2 & Hi2). split; [done|]. split; [done|]. exists cst2. split; [by eapply framed_trans|done].
Qed.

(** High speed is a capability only of a card that was switched to it. *)
Lemma high_speed_ok m cst (s : st D (mmc_globals P)) :
  glob s = put m -> slow m cst -> ph cst = Tran -> app cst = false -> sd_inv cst (dev s) ->
  wp (sd_high_speed host stack p) s (fun o s' _ => o = Val 0 /\ exists caps cst', glob s' = put (m <| card_caps := caps |>) /\
    framed cst cst' /\ sd_inv cst' (dev s') /\ (caps = card_caps m \/ (caps = MMC_MODE_HS .| card_caps m /\ fast cst' = true))).
Proof.
  intros E Hc Hph Happ Hi. assert (Em : m <| card_caps := card_caps m |> = m) by (by destruct m).
  assert (Hdone : forall s1 cst1, glob s1 = put m -> framed cst cst1 -> sd_inv cst1 (dev s1) ->
    exists caps cst', glob s1 = put (m <| card_caps := caps |>) /\
    framed cst cst' /\ sd_inv cst' (dev s1) /\ (caps = card_caps m \/ (caps = MMC_MODE_HS .| card_caps m /\ fast cst' = true))).
  { intros s1 cst1 E1 F1 Hi1. exists (card_caps m), cst1. rewrite Em. auto. }
  unfold sd_high_speed, check. wp_step. eapply wp_mono; [by eapply wait_switch_ok|].
  intros o s1 t1 (-> & E1 & cst1 & F1 & Hi1). cbv beta iota. change (truthy 0) with false. cbv iota.
  wp_step. eapply load_be32_ok; [exact Hi1|]. cbv beta iota. destruct (negb _); [wp_step; split; [done|by eapply Hdone]|].
  wp_step. eapply wp_put_the; [done|]. cbv beta iota. destruct (negb _); [wp_step; split; [done|by eapply Hdone]|].
  pose proof F1 as (P1 & A1 & _). wp_step. eapply wp_mono; [eapply (switch_ok m cst1 1); [done|by eapply slow_framed|done|done|exact Hi1|auto]|].
  intros o s2 t2 (-> & E2 & cst2 & b & F2 & Hi2 & Hb & Hm & Hfast). cbv beta iota. change (truthy 0) with false. cbv iota.
  assert (F : framed cst cst2) by (by eapply framed_trans).
  wp_step. eapply load_be32_ok; [exact Hi2|]. cbv beta iota. wp_step. unfold when.
  destruct (be32 (memory cst2) (switch_status stack + 16) .& 0x0f000000 =? 0x01000000) eqn:Ef.
  - eapply wp_put_upd; [done|]. cbv beta iota. wp_step. split; [done|]. exists (MMC_MODE_HS .| card_caps m), cst2.
    split; [by destruct m|]. split; [done|]. split; [done|]. right. split; [done|]. apply Hfast; [done|].
    apply (be32_function b 16 Hb). rewrite <- Ef. f_equal. f_equal. unfold be32.
    rewrite <- !Z.add_assoc, !Hm by lia. done.
  - wp_step. wp_step. split; [done|by eapply Hdone].
Qed.

Lemma sd_step_scr m cst (s : st D (mmc_globals P)) :
  glob s = put m -> slow m cst -> ph cst = Tran -> app cst = true -> sd_inv cst (dev s) -> forall cmd n,
  wp (retry_scr host stack n p (set_cmd SD_CMD_APP_SEND_SCR MMC_RSP_R1 0 cmd)) s (fun o s' _ => o = Val 0 /\ glob s' = put m /\
    sd_inv (cst <| app := false |> <| memory ::= blit (c_scr c) 0 8 (scr_buf stack) |>) (dev s')).
Proof.
  intros E Hc Hph Happ Hi cmd n. destruct n as [|n]; cbn [retry_scr]; wp_step; fold (reading 8 1 (scr_buf stack)).
  all: eapply wp_mono; [eapply send_ok; [done|exact Hi|by apply slow_any|reflexivity|by apply (step_scr c cst (scr_buf stack) [])]|].
  all: intros o s1 t1 (r & cst1 & -> & E1 & Hs & Hi1); cbv beta iota; cbn [fst snd]; change (truthy 0) with false; cbv iota.
  all: inversion Hs; subst; by wp_step.
Qed.

(** What the driver knows of the card's functions. *)
Definition caps_ok (caps : Z) (cst : sd_state) : Prop :=
  (truthy (caps .& MMC_MODE_4BIT) = true -> truthy (c_scr c 1 .& 4) = true) /\
  (truthy (caps .& MMC_MODE_HS) = true -> fast cst = true).

Lemma change_freq_ok m cst (s : st D (mmc_globals P)) :
  card_ok m c -> glob s = put m -> slow m cst -> mmc_host_is_spi m = false -> rca m = c_rca c ->
  ph cst = Tran -> app cst = false -> sd_inv cst (dev s) ->
  wp (sd_change_freq host stack p) s (fun o s' _ => o = Val 0 /\ exists caps sc v cst',
    glob s' = put (m <| card_caps := caps |> <| scr := sc |> <| version := v |>) /\ truthy (v .& SD_VERSION_SD) = true /\
    framed cst cst' /\ sd_inv cst' (dev s') /\ caps_ok caps cst').
Proof.
  intros Hok E Hc Hspi Hr Hph Happ Hi. unfold sd_change_freq, checked, check. wp_step. eapply wp_put_upd; [done|]. cbv beta iota.
  set (m1 := m <| card_caps := 0 |>). wp_step. eapply (wp_put_the m1); [done|]. cbv beta iota.
  change (mmc_host_is_spi m1) with (mmc_host_is_spi m). rewrite Hspi. change (rca m1) with (rca m). rewrite Hr. wp_step.
  assert (Hc1 : slow m1 cst) by (destruct Hc; by constructor).
  eapply wp_mono; [eapply (send_ok m1 cst); [done|exact Hi|by apply slow_any|by apply (rca_arg m)|apply (step_app c cst _ []); auto]|].
  intros o s1 t1 (r & cst1 & -> & E1 & Hs & Hi1). cbv beta iota. cbn [fst snd]. change (truthy 0) with false. cbv iota. inversion Hs; subst.
  wp_step. eapply wp_mono; [apply (sd_step_scr m1 (cst <| app := true |>)); [done| |done|done|exact Hi1]|].
  { destruct Hc1; by constructor. }
  intros o s2 t2 (-> & E2 & Hi2). cbv beta iota. change (truthy 0) with false. cbv iota.
  set (cst2 := cst <| app := true |> <| app := false |> <| memory ::= blit (c_scr c) 0 8 (scr_buf stack) |>) in *.
  assert (F2 : framed cst cst2) by (repeat split; auto; intros a Ha _; by apply blit_out).
  do 2 (wp_step; eapply load_be32_ok; [exact Hi2|]; cbv beta iota).
  assert (Escr : be32 (memory cst2) (scr_buf stack) = be32 (c_scr c) 0).
  { change (memory cst2) with (blit (c_scr c) 0 8 (scr_buf stack) (memory cst)). unfold be32. rewrite !blit_in by lia.
    repeat f_equal; lia. }
  rewrite Escr. set (scr0 := be32 (c_scr c) 0). wp_step. eapply (wp_put_upd m1); [done|]. cbv beta iota.
  set (m2 := m1 <| scr := _ |> <| version := scr_version scr0 |>).
  assert (Hv : truthy (scr_version scr0 .& SD_VERSION_SD) = true) by (unfold scr_version; repeat destruct (_ =? _); done).
  set (caps := if truthy (scr0 .& SD_DATA_4BIT) then MMC_MODE_4BIT else 0).
  wp_step. eapply wp_mono with (Q := fun o s' _ => o = Val tt /\ glob s' = put (m2 <| card_caps := caps |>) /\ dev s' = dev s2).
  { unfold when, caps. destruct (truthy (scr0 .& SD_DATA_4BIT)); [eapply (wp_put_upd m2); [done|]|wp_step]; done. }
  intros o s3 t3 (-> & E3 & D3). cbv beta iota.
  assert (Hcaps : caps_ok caps cst2).
  { unfold caps_ok, caps. destruct (truthy (scr0 .& SD_DATA_4BIT)) eqn:Eb; [|by split].
    split; [|by intros H']. intros _. by apply (be32_lines (c_scr c) 0), Eb; apply (ok_scr m c Hok). }
  destruct (scr_version scr0 =? SD_VERSION_1_0).
  - wp_step. split; [done|]. exists caps, (scr m2), (scr_version scr0), cst2. rewrite D3. split; [by rewrite E3|]. done.
  - eapply wp_mono; [eapply (high_speed_ok (m2 <| card_caps := caps |>) cst2); [done|by destruct Hc; constructor|done|done|by rewrite D3]|].
    intros o s4 t4 (-> & caps' & cst' & E4 & F4 & Hi4 & Hcaps'). split; [done|].
    exists caps', (scr m2), (scr_version scr0), cst'. split; [by rewrite E4|]. split; [done|]. split; [by eapply framed_trans|]. split; [done|].
    change (card_caps (m2 <| card_caps := caps |>)) with caps in Hcaps'. destruct Hcaps as [H4 H5], Hcaps' as [->|[-> Hf]].
    + split; [done|]. intros Hh. destruct F4 as (_ & _ & _ & _ & Hk & _). auto.
    + split; [|done]. intros Hh. apply H4. revert Hh. unfold caps. destruct (truthy (scr0 .& SD_DATA_4BIT)); done.
Qed.

Lemma truthy_land_sub a h k : truthy (a .& h .& k) = true -> truthy (a .& k) = true.
Proof.
  intros Hs. apply truthy_nonzero. intros E. assert (E1 : a .& h .& k = (a .& k) .& h) by bitwise.
  by rewrite E1, E, Z.land_0_l in Hs.
Qed.

(** Four lines when both sides have them, and the frequency of the card's mode. *)
Lemma bus_sd_ok m cst (s : st D (mmc_globals P)) :
  card_ok m c -> glob s = put m -> slow m cst -> rca m = c_rca c -> ph cst = Tran -> app cst = false -> caps_ok (card_caps m) cst ->
  sd_inv cst (dev s) ->
  wp (startup_bus_sd host p) s (fun o s' _ => o = Val 0 /\ exists w pr f cst',
    glob s' = put (m <| bus_width := w |> <| priv := pr |> <| tran_speed := f |>) /\ w = lines cst' /\
    f <= (if fast cst' then 50000000 else 25000000) /\ sd_inv cst' (dev s') /\ cst' = cst <| lines := w |>).
Proof.
  intros Hok E Hc Hr Hph Happ [H4 Hh] Hi. unfold startup_bus_sd, check, checked. wp_step. eapply wp_put_the; [done|]. cbv beta iota.
  assert (Hend : forall w pr s1, glob s1 = put (m <| bus_width := w |> <| priv := pr |>) -> sd_inv (cst <| lines := w |>) (dev s1) ->
    wp (upd_mmc p (fun m => m <| tran_speed := if truthy (card_caps m .& MMC_MODE_HS) then 50000000 else 25000000 |>) ;;; ret 0) s1
      (fun o s' _ => o = Val 0 /\ exists w pr f cst', glob s' = put (m <| bus_width := w |> <| priv := pr |> <| tran_speed := f |>) /\ w = lines cst' /\
    f <= (if fast cst' then 50000000 else 25000000) /\ sd_inv cst' (dev s') /\ cst' = cst <| lines := w |>)).
  { intros w pr s1 E1 Hi1. wp_step. eapply wp_put_upd; [done|]. cbv beta iota. wp_step. split; [done|].
    eexists w, pr, _, (cst <| lines := w |>). split; [done|]. split; [done|]. split; [|done].
    change (card_caps (m <| bus_width := w |> <| priv := pr |>)) with (card_caps m). change (fast (cst <| lines := w |>)) with (fast cst).
    destruct (truthy (card_caps m .& MMC_MODE_HS)); [rewrite Hh by done; lia|destruct (fast cst); lia]. }
  wp_step. destruct (truthy (card_caps m .& MMC_MODE_4BIT)).
  - wp_step. rewrite Hr. eapply wp_mono; [eapply (send_ok m cst); [done|exact Hi|by apply slow_any|by apply (rca_arg m)|apply (step_app c cst _ []); auto]|].
    intros o s1 t1 (r & cst1 & -> & E1 & Hs & Hi1). cbv beta iota. cbn [fst snd]. change (truthy 0) with false. cbv iota. inversion Hs; subst.
    wp_step. eapply wp_mono; [eapply (send_ok m); [done|exact Hi1|apply slow_any; destruct Hc; by constructor|reflexivity|apply (step_lines c _ []); auto]|].
    intros o s2 t2 (r2 & cst2 & -> & E2 & Hs2 & Hi2). cbv beta iota. cbn [fst snd]. change (truthy 0) with false. cbv iota. inversion Hs2; subst.
    wp_step. eapply wp_mono; [by eapply set_width_ok|]. intros o s3 t3 (-> & [pr E3] & Hi3). cbv beta iota. wp_step.
    change (truthy 0) with false. cbv iota. eapply Hend; [done|]. destruct cst; cbn in Happ; subst; exact Hi3.
  - wp_step. change (truthy 0) with false. cbv iota. eapply (Hend (bus_width m) (priv m)).
    + rewrite E. f_equal. by destruct m.
    + rewrite (sl_width m cst Hc). by destruct cst.
Qed.

(** From power-up to stand-by. *)
Lemma identify_ok m cst (s : st D (mmc_globals P)) :
  card_ok m c -> glob s = put m -> slow m cst -> mmc_host_is_spi m = false -> IS_SD m = true ->
  ph cst = Ready -> app cst = false -> sd_inv cst (dev s) ->
  wp (startup_identify host p) s (fun o s' _ => (exists cmd, o = Val (0, cmd)) /\
    glob s' = put (m <| cid := c_cid c |> <| rca := c_rca c |>) /\ sd_inv (cst <| ph := Stby |>) (dev s')).
Proof.
  intros Hok E Hc Hspi Hsd Hph Happ Hi. unfold startup_identify. wp_step. eapply wp_put_the; [done|]. cbv beta iota. rewrite Hspi.
  wp_step. eapply wp_mono; [eapply (send_ok m cst); [done|exact Hi|by apply slow_any|reflexivity|by apply (step_cid c cst (c_cid c))]|].
  intros o s1 t1 (r & cst1 & -> & E1 & Hs & Hi1). cbv beta iota. cbn [fst snd]. change (truthy 0) with false. cbv iota. inversion Hs; subst.
  wp_step. eapply wp_put_upd; [done|]. cbv beta iota. cbn [response answer].
  set (m1 := m <| cid := c_cid c |>). unfold startup_rca. wp_step. eapply (wp_put_the m1); [done|]. cbv beta iota.
  change (mmc_host_is_spi m1) with (mmc_host_is_spi m). rewrite Hspi. wp_step.
  eapply wp_mono; [eapply (send_ok m1); [done|exact Hi1|apply slow_any; destruct Hc; by constructor|reflexivity|
    apply (step_rca c _ _ [c_rca c .<< 16]); [done|]]|].
  { cbn [nth]. rewrite Z.shiftr_shiftl_l by lia. change (16 - 16) with 0. rewrite Z.shiftl_0_r. change 0xffff with (Z.ones 16).
    rewrite Z.land_ones by lia. apply Z.mod_small. destruct Hok as [[Hr _]]. lia. }
  intros o s2 t2 (r2 & cst2 & -> & E2 & Hs2 & Hi2). cbv beta iota. cbn [fst snd]. change (truthy 0) with false. cbv iota.
  inversion Hs2; subst; try congruence.
  wp_step. eapply (wp_put_upd m1); [done|]. cbv beta iota. wp_step. split; [by eexists|].
  change (IS_SD m1) with (IS_SD m). rewrite Hsd. unfold resp. cbn [response answer].
  match goal with Hr : (nth 0 r2 0 .>> 16) .& 0xffff = _ |- _ => rewrite Hr end. split; [done|]. by destruct cst.
Qed.

(** From stand-by to the transfer state. *)
Lemma transfer_ok m cst cmd (s : st D (mmc_globals P)) :
  card_ok m c -> glob s = put m -> slow m cst -> mmc_host_is_spi m = false -> version m = SD_VERSION_2 -> rca m = c_rca c ->
  high_capacity m = c_hc c -> ph cst = Stby -> app cst = false -> sd_inv cst (dev s) ->
  wp (startup_transfer host fuel p cmd) s (fun o s' _ => o = Val 0 /\
    (exists freq mult, glob s' = put (sd_csd m freq mult)) /\ sd_inv (cst <| ph := Tran |>) (dev s')).
Proof.
  intros Hok E Hc Hspi Hv Hr Hh Hph Happ Hi. unfold startup_transfer. wp_step. eapply wp_put_the; [done|]. cbv beta iota. rewrite Hr.
  wp_step. eapply wp_mono; [eapply (send_ok m cst); [done|exact Hi|by apply slow_any|by apply (rca_arg m)|by apply (step_csd c cst (c_csd c))]|].
  intros o s1 t1 (r & cst1 & -> & E1 & Hs & Hi1). cbv beta iota. cbn [fst snd]. inversion Hs; subst.
  wp_step. eapply wp_mono; [eapply (status_stby m); [done|done|by apply slow_any|done|done|done|done|exact Hi1]|].
  intros o s2 t2 ([e ->] & E2 & Hi2). cbv beta iota. change (truthy 0) with false. cbv iota.
  wp_step. unfold startup_csd, resp. cbn [response answer].
  assert (Hf : exists f, array_get fbase (nth 0 (c_csd c) 0 .& 0x7) = (ret f : M Z)).
  { pose proof (ok_unit m c Hok). assert (0 <= nth 0 (c_csd c) 0 .& 0x7) by (apply Z.land_nonneg; right; lia).
    assert (E3 : In (nth 0 (c_csd c) 0 .& 0x7) [0; 1; 2; 3]) by (cbn; lia).
    cbn in E3. destruct E3 as [<-|[<-|[<-|[<-|[]]]]]; by eexists. }
  assert (Hm : exists f, array_get multipliers ((nth 0 (c_csd c) 0 .>> 3) .& 0xf) = (ret f : M Z)).
  { set (x := (nth 0 (c_csd c) 0 .>> 3) .& 0xf).
    assert (Hx : 0 <= x < 16). { unfold x. change 0xf with (Z.ones 4). rewrite Z.land_ones by lia. apply Z.mod_pos_bound. lia. }
    assert (E3 : In x [0; 1; 2; 3; 4; 5; 6; 7; 8; 9; 10; 11; 12; 13; 14; 15]) by (cbn; lia).
    cbn in E3. repeat (destruct E3 as [<-|E3]; [by eexists|]). done. }
  destruct Hf as [f ->], Hm as [g ->]. wp_step. wp_step. wp_step. wp_step. eapply wp_put_upd; [done|]. cbv beta iota.
  rewrite with_csd_sd by done. unfold startup_select. set (m1 := sd_csd m f g). wp_step. eapply (wp_put_the m1); [done|]. cbv beta iota.
  change (mmc_host_is_spi m1) with (mmc_host_is_spi m). rewrite Hspi. change (rca m1) with (rca m). rewrite Hr. wp_step.
  eapply wp_mono; [eapply (send_ok m1); [done|exact Hi2|apply slow_any; destruct Hc; by constructor|by apply (rca_arg m)|by apply (step_select c _ [])]|].
  intros o s3 t3 (r3 & cst3 & -> & E3 & Hs3 & Hi3). cbv beta iota. cbn [fst snd]. inversion Hs3; subst. wp_step.
  split; [done|]. split; [by exists f, g|done].
Qed.

(** The functions; [same] are the fields that identification does not touch
    from here on. *)
Lemma functions_ok m cst (s : st D (mmc_globals P)) :
  card_ok m c -> glob s = put m -> slow m cst -> mmc_host_is_spi m = false -> rca m = c_rca c -> IS_SD m = true ->
  ph cst = Tran -> app cst = false -> sd_inv cst (dev s) ->
  wp (startup_functions host stack fuel p) s (fun o s' _ => o = Val 0 /\ exists caps sc v w pr f cst',
    glob s' = put (m <| card_caps := caps |> <| scr := sc |> <| version := v |> <| bus_width := w |> <| priv := pr |> <| tran_speed := f |>) /\
    w = lines cst' /\ f <= (if fast cst' then 50000000 else 25000000) /\ sd_inv cst' (dev s') /\
    exists cst1, framed cst cst1 /\ cst' = cst1 <| lines := w |>).
Proof.
  intros Hok E Hc Hspi Hr Hsd Hph Happ Hi. unfold startup_functions, check. wp_step. eapply wp_put_the; [done|]. cbv beta iota. rewrite Hsd.
  wp_step. eapply wp_mono; [by eapply change_freq_ok|]. intros o s1 t1 (-> & caps & sc & v & cst1 & E1 & Hv & F1 & Hi1 & [H4 Hh]). cbv beta iota.
  change (truthy 0) with false. cbv iota. wp_step. eapply wp_put_upd; [done|]. cbv beta iota.
  set (m2 := m <| card_caps := caps .& host_caps m |> <| scr := sc |> <| version := v |>).
  wp_step. eapply (wp_put_the m2); [done|]. cbv beta iota. change (IS_SD m2) with (truthy (v .& SD_VERSION_SD)). rewrite Hv.
  pose proof F1 as (P1 & A1 & _ & L1 & _).
  eapply wp_mono; [apply (bus_sd_ok m2 cst1); [by destruct Hok; constructor|done|by destruct Hc; constructor; [|rewrite L1]|done|done|done| |exact Hi1]|].
  { split; intros Hs; [apply H4|apply Hh]; exact (truthy_land_sub _ (host_caps m) _ Hs). }
  intros o s2 t2 (-> & w & pr & f & cst2 & E2 & Ew & Hf & Hi2 & Hc2). split; [done|].
  exists (caps .& host_caps m), sc, v, w, pr, f, cst2. split; [done|]. split; [done|]. split; [done|]. split; [done|]. by exists cst1.
Qed.

(** ** mmc_init *)

Lemma block_dev_ok m (s : st D (mmc_globals P)) : card_ok m c -> glob s = put m -> read_bl_len m = 512 -> capacity m = 512 * c_sectors c ->
  wp (startup_block_dev p : M unit) s (fun o s' _ => o = Val tt /\ dev s' = dev s /\
    glob s' = put (m <| block_dev ::= fun b => b <| lun := 0 |> <| dev_type := 0 |> <| blksz := 512 |> <| lba := c_sectors c |> |>)).
Proof.
  intros Hok E Hr Hc. unfold startup_block_dev. wp_step. eapply wp_put_the; [done|]. cbv beta iota. rewrite Hr, Hc.
  destruct Hok as [(_ & Hw & _)]. unfold lldiv. rewrite do_div_spec by (unfold word in Hw; lia).
  rewrite Z.mul_comm, Z.div_mul by lia. eapply wp_put_upd; [done|]. by rewrite Hr, u32_word.
Qed.

(** What is known of the device and the card after identification. *)
Definition identified (m0 m : mmc P) (cst0 cst : sd_state) : Prop :=
  attached c m cst /\ ph cst = Tran /\ app cst = false /\ lba (block_dev m) = c_sectors c /\
  dev_num (block_dev m) = dev_num (block_dev m0) /\ b_max m = b_max m0 /\ disk cst = disk cst0 /\
  forall a, ~ (scr_buf stack <= a < scr_buf stack + 8) -> ~ (switch_status stack <= a < switch_status stack + 64) ->
    memory cst a = memory cst0 a.

Lemma startup_ok m cst (s : st D (mmc_globals P)) :
  card_ok m c -> glob s = put m -> slow m cst -> mmc_host_is_spi m = false -> version m = SD_VERSION_2 ->
  high_capacity m = c_hc c -> f_min m <= 400000 -> 0 < b_max m -> ph cst = Ready -> app cst = false -> sd_inv cst (dev s) ->
  wp (mmc_startup host stack fuel p) s (fun o s' _ => o = Val 0 /\ exists m' cst',
    glob s' = put m' /\ identified m m' cst cst' /\ sd_inv cst' (dev s')).
Proof.
  intros Hok E Hc Hspi Hv Hh Hmin Hmax Hph Happ Hi. unfold mmc_startup, checked, check.
  assert (Hsd : forall v, v = SD_VERSION_2 -> truthy (v .& SD_VERSION_SD) = true) by (by intros v ->).
  wp_step. eapply wp_mono; [eapply (identify_ok m cst); try done; by apply Hsd|].
  intros o s1 t1 ([cmd ->] & E1 & Hi1). cbv beta iota. cbn [fst snd]. change (truthy 0) with false. cbv iota.
  set (m1 := m <| cid := c_cid c |> <| rca := c_rca c |>) in *.
  wp_step. eapply wp_mono; [apply (transfer_ok m1 (cst <| ph := Stby |>)); try done; [by destruct Hok; constructor|by destruct Hc; constructor]|].
  intros o s2 t2 (-> & (fr & mu & E2) & Hi2). cbv beta iota. change (truthy 0) with false. cbv iota.
  set (m2 := sd_csd m1 fr mu) in *. wp_step. unfold startup_ext_csd. wp_step. eapply (wp_put_upd m2); [done|]. cbv beta iota.
  set (m3 := m2 <| erase_grp_size := 1 |> <| part_config := MMCPART_NOAVAILABLE |>). wp_step. eapply (wp_put_the m3); [done|]. cbv beta iota.
  change (IS_SD m3) with (truthy (version m .& SD_VERSION_SD)). rewrite Hsd by done. cbn [negb andb]. do 2 wp_step.
  set (cst3 := cst <| ph := Stby |> <| ph := Tran |>) in *.
  eapply wp_mono; [eapply (functions_ok m3 cst3); try done; [by destruct Hok; constructor|by destruct Hc; constructor|by apply Hsd]|].
  intros o s4 t4 (-> & caps & sc & v & w & pr & f & cst4 & E4 & Ew & Hf & Hi4 & cst5 & F5 & E5). cbv beta iota.
  change (truthy 0) with false. cbv iota.
  set (m4 := m3 <| card_caps := caps |> <| scr := sc |> <| version := v |> <| bus_width := w |> <| priv := pr |> <| tran_speed := f |>) in *.
  wp_step. eapply (wp_put_the m4); [done|]. cbv beta iota. wp_step. eapply wp_mono; [by apply (set_clock_ok m4 _ cst4)|].
  intros o s5 t5 (-> & [pr5 E6] & Hi5). cbv beta iota.
  set (m5 := m4 <| mmc_clock := clamped m4 (tran_speed m4) |> <| priv := pr5 |>) in *.
  wp_step. eapply wp_mono; [apply (block_dev_ok m5); [by destruct Hok; constructor|done|done|done]|].
  intros o s6 t6 (-> & D6 & E7). cbv beta iota. wp_step. split; [done|]. eexists _, cst4. split; [exact E7|]. rewrite D6. split; [|done].
  pose proof F5 as (P5 & A5 & D5 & L5 & _ & M5). split; [|subst cst4; repeat split; try done; congruence].
  constructor; try done.
  change (clamped m4 f <= (if fast cst4 then 50000000 else 25000000)). unfold clamped. change (f_min m4) with (f_min m).
  destruct (fast cst4); lia.
Qed.

Lemma mmc_init_ok m cst (s : st D (mmc_globals P)) :
  card_ok m c -> fresh m -> mmc_devices g0 !! p = Some m -> glob s = g0 -> sd_inv cst (dev s) ->
  wp (mmc_init host stack fuel None p) s (fun o s' _ => o = Val 0 /\ exists m' cst',
    glob s' = put m' /\ identified m m' cst cst' /\ sd_inv cst' (dev s') /\ has_init m' = 1).
Proof.
  intros Hok [Hini Hspi Hmin Hmax] Hm Eg Hi. assert (E : glob s = put m).
  { rewrite Eg. unfold put. rewrite list_insert_id by done. by destruct g0. }
  unfold mmc_init, mmc_getcd, check. change (board_mmc_getcd <? 0) with true. cbv iota. wp_step. wp_step.
  change (board_mmc_getcd =? 0) with false. cbv iota. wp_step. eapply wp_put_the; [done|]. cbv beta iota. rewrite Hini.
  change (truthy 0) with false. cbv iota. wp_step. eapply wp_mono; [by apply (sd_init m s cst)|].
  intros o s1 t1 (E1 & err & -> & [[-> Hi1]|[_ []]]). cbv beta iota. change (truthy 0) with false. cbv iota.
  wp_step. eapply wp_mono; [apply (set_width_ok m 1 cst); [by rewrite E1|done]|]. intros o s2 t2 (-> & [pr2 E2] & Hi2). cbv beta iota.
  set (m2 := m <| bus_width := 1 |> <| priv := pr2 |>) in *. wp_step. eapply wp_mono; [by apply (set_clock_ok m2 1 cst)|].
  intros o s3 t3 (-> & [pr3 E3] & Hi3). cbv beta iota. set (m3 := m2 <| mmc_clock := clamped m2 1 |> <| priv := pr3 |>) in *.
  assert (Hslow : clamped m2 1 <= 400000) by (unfold clamped; change (f_min m2) with (f_min m); lia).
  wp_step. eapply wp_mono; [by apply (go_idle_ok m3 cst)|]. intros o s4 t4 (-> & E4 & Hi4). cbv beta iota. change (truthy 0) with false. cbv iota.
  wp_step. eapply (wp_put_upd m3); [done|]. cbv beta iota. set (m4 := m3 <| part_num := 0 |>) in *.
  assert (Hok4 : card_ok m4 c) by (by destruct Hok; constructor).
  wp_step. eapply wp_mono; [by apply (if_cond_ok m4 (reset cst))|]. intros o s5 t5 (-> & E5 & Hi5). cbv beta iota.
  set (m5 := m4 <| version := SD_VERSION_2 |>) in *. assert (Hok5 : card_ok m5 c) by (by destruct Hok; constructor).
  wp_step. eapply wp_mono; [apply (op_cond_ok m5 (reset cst)); try done; apply (ok_power m c Hok)|].
  intros o s6 t6 (-> & E6 & Hi6). cbv beta iota. change (0 =? TIMEOUT) with false. cbv iota.
  set (m6 := m5 <| ocr := c_ocr c |> <| high_capacity := c_hc c |> <| rca := 0 |>) in *.
  set (cst6 := (reset cst) <| busy := 0%nat |> <| ph := Ready |>) in *.
  wp_step. eapply wp_mono; [apply (startup_ok m6 cst6); try done; by destruct Hok; constructor|].
  intros o s7 t7 (-> & m7 & cst7 & E7 & Hid & Hi7). cbv beta iota. wp_step. eapply (wp_put_upd m7); [done|]. cbv beta iota. wp_step.
  split; [done|]. change (truthy 0) with false. cbv iota. eexists _, cst7. split; [done|]. split; [|done].
  destruct Hid as (Hat & Hr). split; [|exact Hr]. by destruct Hat; constructor.
Qed.

(** C13: mmc_init brings an SD card up.  For every card of version 2 or later,
    in whatever state it was, and every host that carries its commands,
    mmc_init returns 0; the card is then in the transfer state with its contents
    unchanged, struct mmc has its address, its kind of addresses, 512-byte
    blocks and its size in sectors, and the host uses as many lines as the card
    and a frequency that the card bears in its mode.  Beside the buffers for the
    card's registers, memory is unchanged. *)
Theorem mmc_init_sd m cst (s : st D (mmc_globals P)) :
  card_ok m c -> fresh m -> mmc_devices g0 !! p = Some m -> glob s = g0 -> sd_inv cst (dev s) ->
  let r := mmc_init host stack fuel None p s in
  out r = Val 0 /\ exists m' cst', glob (fin r) = put m' /\ identified m m' cst cst' /\ sd_inv cst' (dev (fin r)) /\ has_init m' = 1.
Proof. intros. by apply mmc_init_ok with (m := m) (cst := cst). Qed.

End init.
