(* ===== verification/SdSim.v ===== *)
(** A simulated SD card: an executable function that takes every command the
    relation of SdCard.v allows, a host around it, and concrete cards. *)

From S2P Require Import Prelude Mmio Regs Globals Watchdog Timer Crc32 Sectors DwMmc Mmc MmcInit SdCard SdInit.

(** ** The card as a function *)

Definition guard {A} (b : bool) (x : A) : option A := if b then Some x else None.

Lemma guard_spec {A} b (x y : A) : guard b x = Some y -> b = true /\ x = y.
Proof. unfold guard. destruct b; [|done]. intros E. by injection E. Qed.

Definition phase_code (p : phase) : Z :=
  match p with Idle => 0 | Ready => 1 | Ident => 2 | Stby => 3 | Tran => 4 | Data => 5 | Rcv => 6 | Prg => 7 end.
Definition is_phase (p : phase) (st : sd_state) : bool := phase_code (ph st) =? phase_code p.

Lemma is_phase_spec p st : is_phase p st = true <-> ph st = p.
Proof. unfold is_phase. rewrite Z.eqb_eq. by destruct (ph st), p. Qed.

(** The sector that an argument names. *)
Definition sector_of (c : sd_card) (arg : Z) : Z := if c_hc c then arg else arg / 512.

Definition is_in_card (c : sd_card) (start n : Z) : bool := (0 <=? start) && (0 <? n) && (start + n <=? c_sectors c).

(** The card's answer to the switch command: it has high speed. *)
Definition switch_answer (a : Z) : Z := if a =? 13 then 2 else if a =? 16 then 1 else 0.

Definition run_plain (c : sd_card) (st : sd_state) (idx rsp arg : Z) : option (list Z * sd_state) :=
  if idx =? MMC_CMD_GO_IDLE_STATE then
    guard ((rsp =? MMC_RSP_NONE) && (arg =? 0))
      ([], st <| ph := Idle |> <| app := false |> <| lines := 1 |> <| fast := false |> <| busy := c_power c |>)
  else if idx =? SD_CMD_SEND_IF_COND then
    guard ((rsp =? MMC_RSP_R7) && is_phase Idle st && negb (app st) && ((arg .>> 8) .& 0xf =? 1)) ([arg], st)
  else if idx =? MMC_CMD_APP_CMD then
    guard ((rsp =? MMC_RSP_R1) && negb (app st) && ((is_phase Idle st && (arg =? 0)) || (is_phase Tran st && (arg =? c_rca c .<< 16))))
      ([], st <| app := true |>)
  else if idx =? SD_CMD_APP_SEND_OP_COND then
    if (rsp =? MMC_RSP_R3) && is_phase Idle st && app st then
      match busy st with
      | S n => Some ([0], st <| app := false |> <| busy := n |>)
      | O => guard (truthy (arg .& OCR_HCS) && truthy (arg .& c_ocr c .& 0xff8000))
               ([c_ocr c], st <| app := false |> <| ph := Ready |>)
      end
    else None
  else if idx =? MMC_CMD_ALL_SEND_CID then
    guard ((rsp =? MMC_RSP_R2) && is_phase Ready st && (arg =? 0)) (c_cid c, st <| ph := Ident |>)
  else if idx =? SD_CMD_SEND_RELATIVE_ADDR then
    guard ((rsp =? MMC_RSP_R6) && is_phase Ident st && (((c_rca c .<< 16) .>> 16) .& 0xffff =? c_rca c))
      ([c_rca c .<< 16], st <| ph := Stby |>)
  else if idx =? MMC_CMD_SEND_CSD then
    guard ((rsp =? MMC_RSP_R2) && is_phase Stby st && (arg =? c_rca c .<< 16)) (c_csd c, st)
  else if idx =? MMC_CMD_SELECT_CARD then
    guard ((rsp =? MMC_RSP_R1) && is_phase Stby st && negb (app st) && (arg =? c_rca c .<< 16)) ([], st <| ph := Tran |>)
  else if idx =? MMC_CMD_SEND_STATUS then
    if (rsp =? MMC_RSP_R1) && (arg =? c_rca c .<< 16) then
      if is_phase Prg st then
        match busy st with
        | S n => Some ([MMC_STATE_PRG], st <| busy := n |>)
        | O => Some ([MMC_STATUS_RDY_FOR_DATA], st <| ph := Tran |>)
        end
      else guard ((is_phase Stby st || is_phase Tran st) && negb (app st)) ([], st)
    else None
  else if idx =? SD_CMD_APP_SET_BUS_WIDTH then
    guard ((rsp =? MMC_RSP_R1) && is_phase Tran st && app st && (arg =? 2) && truthy (c_scr c 1 .& 4))
      ([], st <| app := false |> <| lines := 4 |>)
  else if idx =? MMC_CMD_SET_BLOCKLEN then
    guard ((rsp =? MMC_RSP_R1) && is_phase Tran st && negb (app st) && (arg =? 512)) ([], st)
  else if idx =? MMC_CMD_STOP_TRANSMISSION then
    if (rsp =? MMC_RSP_R1b) && (arg =? 0) then
      if is_phase Data st then Some ([], st <| ph := Tran |>)
      else guard (is_phase Rcv st) ([], st <| ph := Prg |> <| busy := c_prog c |>)
    else None
  else None.

Definition run_data (c : sd_card) (st : sd_state) (idx rsp arg : Z) (d : mmc_data) : option (list Z * sd_state) :=
  let a := dest d in let n := blocks d in let start := sector_of c arg in
  let rd len := (data_flags d =? MMC_DATA_READ) && (blocksize d =? len) in
  let wr := (data_flags d =? MMC_DATA_WRITE) && (blocksize d =? 512) in
  let addressed k := (sd_address c start =? arg) && is_in_card c start k in
  if negb ((rsp =? MMC_RSP_R1) && is_phase Tran st) then None
  else if idx =? SD_CMD_APP_SEND_SCR then
    guard (app st && (arg =? 0) && rd 8 && (n =? 1)) ([], st <| app := false |> <| memory ::= blit (c_scr c) 0 8 a |>)
  else if app st then None
  else if idx =? SD_CMD_SWITCH_FUNC then
    guard (rd 64 && (n =? 1))
      ([], st <| memory ::= blit switch_answer 0 64 a |> <| fast ::= orb (Z.testbit arg 31 && (switch_answer 16 .& 0xf =? 1)) |>)
  else if idx =? MMC_CMD_READ_SINGLE_BLOCK then
    guard (rd 512 && (n =? 1) && addressed 1) ([], st <| memory ::= copied (disk st) start 1 a |>)
  else if idx =? MMC_CMD_READ_MULTIPLE_BLOCK then
    guard (rd 512 && addressed n) ([], st <| ph := Data |> <| memory ::= copied (disk st) start n a |>)
  else if idx =? MMC_CMD_WRITE_SINGLE_BLOCK then
    guard (wr && (n =? 1) && addressed 1)
      ([], st <| ph := Prg |> <| busy := c_prog c |> <| disk ::= blit (memory st) a 512 (512 * start) |>)
  else if idx =? MMC_CMD_WRITE_MULTIPLE_BLOCK then
    guard (wr && addressed n) ([], st <| ph := Rcv |> <| disk ::= blit (memory st) a (512 * n) (512 * start) |>)
  else None.

Definition sd_run (c : sd_card) (st : sd_state) (idx rsp arg : Z) (data : option mmc_data) : option (list Z * sd_state) :=
  match data with None => run_plain c st idx rsp arg | Some d => run_data c st idx rsp arg d end.

(** The decisions of the function as propositions. *)
Ltac bool_facts :=
  repeat match goal with
  | Hg : guard _ _ = Some _ |- _ => apply guard_spec in Hg as [? [= ? ?]]
  | Hb : _ && _ = true |- _ => apply andb_true_iff in Hb as [? ?]
  | Hb : _ || _ = true |- _ => apply orb_true_iff in Hb as [? | ?]
  | Hb : negb _ = true |- _ => apply negb_true_iff in Hb
  | Hb : (_ =? _) = true |- _ => apply Z.eqb_eq in Hb
  | Hb : (_ <=? _) = true |- _ => apply Z.leb_le in Hb
  | Hb : (_ <? _) = true |- _ => apply Z.ltb_lt in Hb
  | Hb : is_phase _ _ = true |- _ => apply is_phase_spec in Hb
  | Hb : is_in_card _ _ _ = true |- _ => unfold is_in_card in Hb
  | Hb : Some _ = Some _ |- _ => injection Hb as ? ?
  | Hb : None = Some _ |- _ => discriminate Hb
  end.

Ltac next_command :=
  match goal with |- (if ?i =? ?n then _ else _) = Some _ -> _ =>
    let E := fresh "E" in destruct (i =? n) eqn:E; [apply Z.eqb_eq in E as -> | ] end.

Ltac commands tac := tryif next_command then ([> intros Hr; tac () | commands tac]) else (try done).

Lemma run_plain_sound c st idx rsp arg r st' :
  run_plain c st idx rsp arg = Some (r, st') -> sd_step c st idx rsp arg None r st'.
Proof.
  unfold run_plain. commands ltac:(fun _ => try once (bool_facts; subst; solve [constructor; done])).
  - bool_facts; subst; constructor; auto.
  - revert Hr. destruct (_ && _) eqn:Eg; [|done]. destruct (busy st) eqn:Eb; intros Hr; bool_facts; subst.
    + by constructor.
    + by apply step_op_cond_busy.
  - revert Hr. destruct (_ && _) eqn:Eg; [|done]. destruct (is_phase Prg st) eqn:Ep; [destruct (busy st) eqn:Eb|]; intros Hr; bool_facts; subst.
    + by apply step_status_done.
    + by apply step_status_busy.
    + apply step_status; auto.
    + apply step_status; auto.
  - revert Hr. destruct (_ && _) eqn:Eg; [|done]. destruct (is_phase Data st) eqn:Ep; intros Hr; bool_facts; subst.
    + by apply step_stop_read.
    + by apply step_stop_write.
Qed.

Lemma run_data_sound c st idx rsp arg d r st' :
  run_data c st idx rsp arg d = Some (r, st') -> sd_step c st idx rsp arg (Some d) r st'.
Proof.
  unfold run_data. destruct d as [a f n l]. cbn [dest data_flags blocks blocksize]. destruct (negb _) eqn:E0; [done|].
  apply negb_false_iff in E0. bool_facts. subst. next_command.
  { intros Hr. bool_facts. subst. by constructor. }
  destruct (app st) eqn:Ea; [done|].
  commands ltac:(fun _ => bool_facts; subst).
  - apply (step_switch c st arg a switch_answer []); try done. intros b. unfold switch_answer, is_byte. repeat destruct (_ =? _); lia.
  - match goal with E : sd_address _ _ = arg |- _ => rewrite <- E at 1 end. by apply step_read_one.
  - match goal with E : sd_address _ _ = arg |- _ => rewrite <- E at 1 end. by apply step_read.
  - match goal with E : sd_address _ _ = arg |- _ => rewrite <- E at 1 end. by apply step_write_one.
  - match goal with E : sd_address _ _ = arg |- _ => rewrite <- E at 1 end. by apply step_write.
Qed.

Lemma sd_run_sound c st idx rsp arg data r st' :
  sd_run c st idx rsp arg data = Some (r, st') -> sd_step c st idx rsp arg data r st'.
Proof. destruct data; [apply run_data_sound|apply run_plain_sound]. Qed.

Lemma sector_of_address c start : sector_of c (sd_address c start) = start.
Proof. unfold sector_of, sd_address. destruct (c_hc c); [done|]. rewrite Z.mul_comm. by apply Z.div_mul. Qed.

Lemma in_card_spec c start n : in_card c start n -> is_in_card c start n = true.
Proof. unfold in_card, is_in_card. lia. Qed.

(** Evaluates the decisions that the context settles. *)
Ltac decisions :=
  cbv [MMC_CMD_GO_IDLE_STATE SD_CMD_SEND_IF_COND MMC_CMD_APP_CMD SD_CMD_APP_SEND_OP_COND MMC_CMD_ALL_SEND_CID
    SD_CMD_SEND_RELATIVE_ADDR MMC_CMD_SEND_CSD MMC_CMD_SELECT_CARD MMC_CMD_SEND_STATUS SD_CMD_APP_SET_BUS_WIDTH
    MMC_CMD_SET_BLOCKLEN MMC_CMD_STOP_TRANSMISSION SD_CMD_APP_SEND_SCR SD_CMD_SWITCH_FUNC MMC_CMD_READ_SINGLE_BLOCK
    MMC_CMD_READ_MULTIPLE_BLOCK MMC_CMD_WRITE_SINGLE_BLOCK MMC_CMD_WRITE_MULTIPLE_BLOCK MMC_DATA_READ MMC_DATA_WRITE
    is_phase phase_code reading writing];
  cbn [Z.eqb Pos.eqb dest data_flags blocks blocksize];
  rewrite ?Z.eqb_refl; cbn [andb orb negb];
  repeat match goal with
  | Hx : ?l = _ |- context [?l] => rewrite Hx
  | Hx : in_card _ _ _ |- _ => apply in_card_spec in Hx
  end;
  rewrite ?sector_of_address, ?Z.eqb_refl, ?orb_true_r;
  repeat match goal with Hx : is_in_card _ _ _ = true |- _ => rewrite Hx; clear Hx end;
  cbn [Z.eqb Pos.eqb andb orb negb guard].

Lemma rca_back r : 0 <= r < 2 ^ 16 -> (((r .<< 16) .>> 16) .& 0xffff =? r) = true.
Proof.
  intros Hr. rewrite Z.shiftr_shiftl_l by lia. change (16 - 16) with 0. rewrite Z.shiftl_0_r. change 0xffff with (Z.ones 16).
  rewrite Z.land_ones, Z.mod_small by lia. by apply Z.eqb_eq.
Qed.

(** It takes every command that the relation has. *)
Lemma sd_run_complete c st idx rsp arg data r st' : 0 <= c_rca c < 2 ^ 16 ->
  sd_step c st idx rsp arg data r st' -> exists r' st'', sd_run c st idx rsp arg data = Some (r', st'').
Proof.
  intros Hr%rca_back Hs. inversion Hs; subst; unfold sd_run, run_plain, run_data;
    repeat match goal with Hx : _ \/ _ |- _ => destruct Hx end; repeat match goal with Hx : _ /\ _ |- _ => destruct Hx end; subst;
    decisions; try by eauto.
Qed.

(** ** The host

    The device is a timer whose readings alternate, so that every delay is over
    after two of them, and the card.  A command that the card does not take, or
    at a frequency or on lines it does not bear, times out. *)
Record sim := mk_sim { tick : bool; sim_card : sd_state }.

#[export] Instance sim_device : Device sim := {
  dev_read a d := if a =? timer_base_curr_val then (if tick d then 0x7FFFFFFF else 0, mk_sim (negb (tick d)) (sim_card d)) else (0, d);
  dev_write _ _ d := d
}.
#[export] Instance sim_memory : Memory sim := fun d => memory (sim_card d).

Definition fits (m : mmc unit) (st : sd_state) (data : option mmc_data) : bool :=
  (mmc_clock m <=? max_clock st) && (match data with None => true | Some _ => bus_width m =? lines st end).

Definition sim_send (c : sd_card) (m : mmc unit) (cmd : mmc_cmd) (data : option mmc_data) : M sim (mmc_globals unit) (Z * mmc_cmd) :=
  fun s => let st := sim_card (dev s) in
    match (if fits m st data then sd_run c st (cmdidx cmd) (resp_type cmd) (cmdarg cmd) data else None) with
    | Some (r, st') => mk_res (Val (0, answer cmd r)) (mk_st (mk_sim (tick (dev s)) st') (glob s)) []
    | None => mk_res (Val (TIMEOUT, answer cmd [])) s []
    end.

Definition sim_host (c : sd_card) : mmc_host sim unit := mk_mmc_host (sim_send c) (fun _ => ret tt) (fun _ => ret 0).

Lemma fits_compatible m st data : compatible m st data -> fits m st data = true.
Proof.
  intros [Hc Hl]. unfold fits. rewrite (proj2 (Z.leb_le _ _)) by done. destruct data; [|done]. by rewrite Hl, Z.eqb_refl.
Qed.

(** Every delay of the driver ends, and leaves the card alone. *)
Lemma sim_tick (s : st sim gdata) Q :
  Q (Val (if tick (dev s) then 0x7FFFFFFF else 0)) (mk_st (mk_sim (negb (tick (dev s))) (sim_card (dev s))) (glob s))
    [Rd timer_base_curr_val (if tick (dev s) then 0x7FFFFFFF else 0)] -> wp (read_timer : M sim gdata Z) s Q.
Proof. intros HQ. unfold read_timer. eapply wp_readl; [reflexivity|]. by destruct (tick (dev s)). Qed.

Lemma sim_reset (s : st sim gdata) Q : (forall t, Q (Val tt) s t) -> wp (hw_watchdog_reset : M sim gdata unit) s Q.
Proof. intros HQ. destruct s. apply HQ. Qed.

Lemma sim_delay n usec (s : st sim gdata) : 0 <= usec <= 2000 ->
  wp (__udelay (S (S n)) usec) s (fun o s' _ => o = Val tt /\ glob s' = glob s /\ sim_card (dev s') = sim_card (dev s)).
Proof.
  intros Hu. unfold __udelay. rewrite udelay_ticks_exact by lia. wp_step. apply sim_tick. cbv beta iota. cbn [while_fuel udelay_body].
  destruct (Z.ltb_spec 0 (usec * 25)) as [Hp|Hp]; [|by wp_run].
  wp_step. wp_step. apply sim_tick. cbv beta iota. wp_step. cbv beta iota. cbn [dev tick udelay_body].
  assert (Hs : forall x, s32 x = s32 (x + 2 ^ 32)).
  { intros x. unfold s32. replace (x + 2 ^ 32 + 2 ^ 31) with (x + 2 ^ 31 + 1 * 2 ^ 32) by lia. by rewrite Z.mod_add. }
  rewrite (proj2 (Z.ltb_ge _ _)); [by wp_run|]. unfold udelay_tick. change TIMER_LOAD_VAL with (2 ^ 32 - 1).
  destruct (tick (dev s)); cbn [negb].
  - change (0 <=? 0x7FFFFFFF) with true. cbv iota. rewrite s32_small; lia.
  - change (0x7FFFFFFF <=? 0) with false. cbv iota. rewrite Hs, s32_small; lia.
Qed.

Lemma sim_udelay n usec (s : st sim gdata) : 0 <= usec <= 2000 ->
  wp (udelay (S (S n)) usec) s (fun o s' _ => o = Val tt /\ glob s' = glob s /\ sim_card (dev s') = sim_card (dev s)).
Proof.
  intros Hu. unfold udelay. cbn [while_fuel]. wp_step. unfold udelay_chunk. wp_step. apply sim_reset. intros t. cbv beta iota zeta.
  replace (CONFIG_WD_PERIOD <? usec) with false by (symmetry; apply Z.ltb_ge; change CONFIG_WD_PERIOD with 10000000; lia).
  wp_step.
  eapply wp_mono; [by apply sim_delay|]. intros o s1 t1 (-> & E1 & E2). cbv beta iota. wp_step.
  rewrite Z.sub_diag. change (truthy 0) with false. cbv iota. by wp_step.
Qed.

Definition sim_sd_host c (Hc : 0 <= c_rca c < 2 ^ 16) n faulty : SdHost (sim_host c) (S (S n)) c faulty.
Proof.
  refine {| sd_inv := fun (st : sd_state) (d : sim) => sim_card d = st |}.
  - by intros st d a <-.
  - intros m cmd data s st r st' <- Hf Hs. unfold wp. cbn [sim_host send_cmd]. unfold sim_send. rewrite (fits_compatible _ _ _ Hf).
    destruct (sd_run_complete _ _ _ _ _ _ _ _ Hc Hs) as (r' & st'' & E). rewrite E. cbn [out fin tr glob dev sim_card].
    split; [done|]. exists 0, r'. split; [done|]. left. split; [done|]. exists st''. split; [by apply sd_run_sound|done].
  - intros usec s st Hu <-. unfold with_gd. apply wp_zoom. eapply wp_mono; [by apply sim_udelay|].
    intros o s' t (-> & E1 & E2). cbn [glob dev] in *. rewrite E1. split; [done|]. split; [by destruct (glob s)|done].
  - intros m s st <-. split; [by eexists|done].
  - intros m s st <-. split; [done|]. exists 0. split; [done|]. by left.
Defined.

(** ** A card of 512 KiB with large addresses, high speed and four lines *)

Definition card0 : sd_card :=
  mk_sd_card 0xC0FF8000 [0x03534453; 0x55303847; 0x80000000; 0x00010A00] [0x400E0032; 0x5B590000; 0x00007F80; 0x0A400000]
    0x1234 (mem_of 0 [2; 0x35; 0x80; 0; 0; 0; 0; 0]) 1024 2 3.

#[export] Instance sim_sd_host0 n faulty : SdHost (sim_host card0) (S (S n)) card0 faulty := sim_sd_host card0 ltac:(cbn; lia) n faulty.

(** The contents: each sector holds its number. *)
Definition numbered (a : Z) : Z := (a / 512) mod 256.
Definition card_state (p : phase) (l : Z) (f : bool) (disk : Z -> Z) : sd_state := mk_sd_state p false l f 0 disk (fun _ => 0).

Definition mmc0 : mmc unit :=
  mk_mmc tt MMC_VDD_32_33 SD_VERSION_2 1 400000 50000000 true 4 50000000 0 0 0xC0FF8000 [0; 0] (c_csd card0) (c_cid card0)
    0x1234 0 0 25000000 512 512 0 (512 * 1024) (mk_block_dev_desc IF_TYPE_MMC 0 0 0 1 1024 512) 256.
Definition ready_sim : st sim (mmc_globals unit) :=
  mk_st (mk_sim true (card_state Tran 4 true numbered)) (mk_mmc_globals gdata0 [mmc0] 1).

Lemma card0_wf : card_wf card0.
Proof. split; [cbn; lia|]. split; [by vm_compute|]. intros E. by vm_compute in E. Qed.

Lemma mmc0_attached : attached card0 mmc0 (card_state Tran 4 true numbered).
Proof. split; by vm_compute. Qed.

Lemma mmc_bread_sectors_witness :
  let r := mmc_bread (sim_host card0) 2 0 515 300 0x1000 ready_sim in
  glob (fin r) = glob ready_sim /\
  ((out r = Val 300 /\ exists mem, sim_card (dev (fin r)) = (card_state Tran 4 true numbered) <| memory := mem |> /\
      forall a, mem a = copied numbered 515 300 0x1000 (fun _ => 0) a) \/
   (out r = Val 0 /\ False)).
Proof.
  refine (mmc_bread_sectors (sim_host card0) 2 card0 False 2 0 0 mmc0 (card_state Tran 4 true numbered) 515 300 0x1000 ready_sim
    _ _ _ _ _ _ _ _ _ _ _ _);
    first [exact card0_wf | exact mmc0_attached | by vm_compute | done].
Defined.

Lemma mmc_write_read_back_witness :
  let r := (mmc_bwrite (sim_host card0) 2 0 20 300 0x1000 ;;; mmc_bread (sim_host card0) 2 0 20 300 0x80000) ready_sim in
  out r = Val 300 /\ exists cst', sim_card (dev (fin r)) = cst' /\
    (forall a, memory cst' a = blit (fun _ => 0) 0x1000 (512 * 300) 0x80000 (fun _ => 0) a) /\
    (forall a, ~ (512 * 20 <= a < 512 * (20 + 300)) -> disk cst' a = numbered a).
Proof.
  refine (mmc_write_read_back (sim_host card0) 2 card0 False 0 0 mmc0 (card_state Tran 4 true numbered) 20 300 0x1000 0x80000 ready_sim
    _ _ _ _ _ _ _ _ _ _ _ _ _ _ _ _);
    first [exact card0_wf | exact mmc0_attached | by vm_compute | done | tauto].
Defined.

(** The card as the boot ROM may leave it, and the device before its first use. *)
Definition stack0 : mmc_stack := mk_mmc_stack 0xFFFFF000 0xFFFFF200 0xFFFFF400 0xFFFFF600 0xFFFFF640.
Definition left_state (disk : Z -> Z) : sd_state := mk_sd_state Data true 4 true 7 disk (fun _ => 0).
Definition fresh_mmc : mmc unit :=
  (zero_mmc tt) <| f_min := 400000 |> <| f_max := 50000000 |> <| voltages := MMC_VDD_32_33 |>
    <| host_caps := MMC_MODE_4BIT .| MMC_MODE_HS |> <| b_max := 256 |>.
Definition cold_globals : mmc_globals unit := mk_mmc_globals gdata0 [fresh_mmc] 1.
Definition cold_sim : st sim (mmc_globals unit) := mk_st (mk_sim true (left_state numbered)) cold_globals.

Lemma card0_ok (m : mmc unit) : truthy (voltages m .& 0xff8000 .& 0xC0FF8000) = true -> card_ok m card0.
Proof.
  intros Hv. split; [exact card0_wf|by vm_compute|exact Hv|by vm_compute..| |by vm_compute].
  apply mem_of_bytes. repeat constructor; unfold is_byte; lia.
Qed.

Lemma mmc_init_sd_witness :
  let r := mmc_init (sim_host card0) stack0 2 None 0 cold_sim in
  out r = Val 0 /\ exists m' cst', glob (fin r) = put cold_globals 0 m' /\
    identified stack0 card0 fresh_mmc m' (left_state numbered) cst' /\ sim_card (dev (fin r)) = cst' /\ has_init m' = 1.
Proof.
  refine (mmc_init_sd (sim_host card0) stack0 2 card0 cold_globals 0 _ fresh_mmc (left_state numbered) cold_sim _ _ _ _ _);
    [cbn; lia|apply card0_ok; by vm_compute|split; by vm_compute|reflexivity..].
Defined.
