(* ===== verification/CardStack.v ===== *)
(** The preloader's image loader (ImageBoot.v) on the card driver (Mmc.v,
    MmcInit.v) on a host with an SD card (SdCard.v): the driver implements the
    interface that the loader's theorems ask for. *)

From S2P Require Import Prelude BitOps Mmio Regs Globals Timer Crc32 Sectors ImageBoot DwMmc Mmc MmcInit SdCard SdInit SdSim.

(** The globals of mmc.c ride beside the hardware. *)
#[export] Instance pair_device {D X} `{Device D} : Device (D * X) := {
  dev_read a d := let '(v, d1) := dev_read a (fst d) in (v, (d1, snd d));
  dev_write a v d := (dev_write a v (fst d), snd d)
}.

Section stack.
Context {D P : Type} `{Device D} `{Memory D} (host : mmc_host D P) (stack : mmc_stack) (fuel : nat).
Abbreviation X := (list (mmc P) * Z)%type.
Abbreviation M := (M (D * X) boot).

(** A program of the driver. *)
Definition driver {A} (m : Mmio.M D (mmc_globals P) A) : M A := fun s =>
  let r := m (mk_st (fst (dev s)) (mk_mmc_globals (bgd (glob s)) (fst (snd (dev s))) (snd (snd (dev s))))) in
  let g := glob (fin r) in
  mk_res (out r) (mk_st (dev (fin r), (mmc_devices g, cur_dev_num g)) (set_bgd (mgd g) (glob s))) (tr r).

(** [n] bytes at [dst] as the hardware left them. *)
Definition refresh (dst n : Z) : M unit := fun s =>
  mk_res (Val tt) (mk_st (dev s) (set_mem (blit (ram (fst (dev s))) dst n dst (boot_mem (glob s))) (glob s))) [].

(** The functions that spl_mmc.c calls, over [cpu_mmc_init]. *)
Definition sd_driver (cpu_mmc_init : Mmio.M D (mmc_globals P) Z) : mmc_driver (D * X) :=
  mk_mmc_driver (D * X)
    (driver (mmc_initialize cpu_mmc_init) ;;; ret tt)
    (fun n => let* p := driver (Mmc.find_mmc_device n) in ret (option_map Z.of_nat p))
    (fun p => driver (mmc_init host stack fuel None (Z.to_nat p)))
    (fun p => driver (let* m := the_mmc (Z.to_nat p) in ret (read_bl_len m)))
    (fun _ dev_num start cnt dst =>
       let* n := driver (mmc_bread host fuel dev_num start cnt dst) in
       refresh dst (512 * cnt) ;;; ret n).

(** The driver touches nothing of the loader but the globals of the preloader
    and memory, which stays one of bytes. *)
Lemma sd_driver_wf cpu_mmc_init : (forall d, bytes_of (ram d)) -> driver_wf (sd_driver cpu_mmc_init).
Proof.
  intros Hram. assert (Hd : forall A (m : Mmio.M D (mmc_globals P) A), preserves boot_wf (driver m)) by (by intros A m s Hs).
  assert (Hr : forall dst n, preserves boot_wf (refresh dst n)).
  { intros dst n s (Hm & Hw). split; [by apply blit_bytes|done]. }
  split; intros; cbn; inv_auto; auto.
Qed.

(** The device that registration leaves. *)
Definition registered_mmc (pr : P) (bus_hz : Z) : mmc P :=
  (zero_mmc pr) <| f_min := 400000 |> <| f_max := bus_hz |> <| voltages := MMC_VDD_32_33 .| MMC_VDD_33_34 .| MMC_VDD_165_195 |>
    <| host_caps := MMC_MODE_4BIT .| (MMC_MODE_HS .| MMC_MODE_HS_52MHz .| MMC_MODE_HC) |>
    <| block_dev := mk_block_dev_desc IF_TYPE_MMC 0 0 0 1 0 0 |> <| b_max := CONFIG_SYS_MMC_MAX_BLK_COUNT |>.

Context (c : sd_card) `{!SdHost host fuel c False} (dsk : Z -> Z) (pr : P) (bus_hz : Z)
  (Hok : card_ok (registered_mmc pr bus_hz) c) (Hfuel : c_sectors c <= CONFIG_SYS_MMC_MAX_BLK_COUNT * Z.of_nat fuel).

Lemma wp_driver {A} (m : Mmio.M D (mmc_globals P) A) (s : st (D * X) boot) Q :
  wp m (mk_st (fst (dev s)) (mk_mmc_globals (bgd (glob s)) (fst (snd (dev s))) (snd (snd (dev s)))))
    (fun o s' t => Q o (mk_st (dev s', (mmc_devices (glob s'), cur_dev_num (glob s'))) (set_bgd (mgd (glob s')) (glob s))) t) ->
  wp (driver m) s Q.
Proof. done. Qed.

(** *** The states of the interface *)

Definition present (d : D * X) : Prop := exists cst, sd_inv cst (fst d) /\ forall a, disk cst a = dsk a.

Definition found (d : D * X) : Prop := present d /\ snd d = ([registered_mmc pr bus_hz], 1).

Definition transfers (d : D * X) : Prop := exists m cst,
  snd d = ([m], 1) /\ attached c m cst /\ ph cst = Tran /\ app cst = false /\ sd_inv cst (fst d) /\
  (forall a, disk cst a = dsk a) /\ lba (block_dev m) = c_sectors c /\ dev_num (block_dev m) = 0 /\
  b_max m = CONFIG_SYS_MMC_MAX_BLK_COUNT.

Lemma set_bgd_id (b : boot) : set_bgd (bgd b) b = b.
Proof. by destruct b. Qed.

Lemma stack_initialize s : present (dev s) ->
  wp (ImageBoot.mmc_initialize (sd_driver (add_dwmci pr 0 CONFIG_DWMMC_BUS_WIDTH bus_hz 400000))) s (fun o s' _ => o = Val tt /\ glob s' = glob s /\ found (dev s')).
Proof.
  intros Hp. cbn [sd_driver ImageBoot.mmc_initialize]. wp_step. apply wp_driver.
  unfold mmc_initialize. wp_step. wp_step. change (-1 <? 0) with true. cbv iota. unfold add_dwmci, mmc_register.
  wp_line. cbn [dev glob mgd mmc_devices cur_dev_num app]. rewrite set_bgd_id. split; [done|]. split; [done|]. by split.
Qed.

Lemma stack_find s : found (dev s) ->
  wp (ImageBoot.find_mmc_device (sd_driver (add_dwmci pr 0 CONFIG_DWMMC_BUS_WIDTH bus_hz 400000)) 0) s (fun o s' _ => o = Val (Some 0) /\ glob s' = glob s /\ found (dev s')).
Proof.
  intros [Hp Hx]. cbn [sd_driver ImageBoot.find_mmc_device]. wp_step. apply wp_driver. rewrite Hx.
  unfold find_mmc_device. do 2 wp_step. cbn [mmc_devices fst find_dev]. change (dev_num (block_dev (registered_mmc pr bus_hz)) =? 0) with true.
  cbv iota. do 2 wp_step. cbn [dev glob mgd mmc_devices cur_dev_num fst snd]. rewrite set_bgd_id. split; [done|]. split; [done|]. by split.
Qed.

Lemma stack_init s : found (dev s) ->
  wp (ImageBoot.mmc_init (sd_driver (add_dwmci pr 0 CONFIG_DWMMC_BUS_WIDTH bus_hz 400000)) 0) s (fun o s' _ => o = Val 0 /\ glob s' = glob s /\ transfers (dev s')).
Proof.
  intros [(cst & Hi & Hd) Hx]. cbn [sd_driver ImageBoot.mmc_init]. apply wp_driver. rewrite Hx. cbn [fst snd].
  set (g0 := mk_mmc_globals (bgd (glob s)) [registered_mmc pr bus_hz] 1).
  eapply wp_mono; [apply (mmc_init_ok host stack fuel c g0 0 ltac:(cbn; lia) (registered_mmc pr bus_hz) cst); try done|].
  intros o s1 t1 (-> & m & cst1 & E & (Hat & Hph & Happ & Hlba & Hdev & Hmax & Hdk & _) & Hi1 & _).
  assert (Eg : mgd (glob s1) = bgd (glob s)) by (by rewrite E).
  assert (Ed : (mmc_devices (glob s1), cur_dev_num (glob s1)) = ([m], 1)) by (by rewrite E).
  rewrite Eg, set_bgd_id, Ed. split; [done|]. split; [done|].
  exists m, cst1. split; [done|]. split; [done|]. split; [done|]. split; [done|]. split; [done|]. split; [by rewrite Hdk|]. done.
Qed.

Lemma stack_bl_len s : transfers (dev s) ->
  wp (ImageBoot.read_bl_len (sd_driver (add_dwmci pr 0 CONFIG_DWMMC_BUS_WIDTH bus_hz 400000)) 0) s (fun o s' _ => o = Val 512 /\ glob s' = glob s /\ transfers (dev s')).
Proof.
  intros (m & cst & Hx & Hat & Hr). cbn [sd_driver ImageBoot.read_bl_len]. apply wp_driver. rewrite Hx. cbn [fst snd].
  wp_step. eapply wp_the_mmc; [done|]. cbv beta iota. wp_step. rewrite (at_rd c m cst Hat). cbn [mgd mmc_devices cur_dev_num]. rewrite set_bgd_id. split; [done|]. split; [done|].
  by exists m, cst.
Qed.

Lemma stack_read start cnt dst s : transfers (dev s) -> 0 <= start -> 0 < cnt -> start + cnt <= c_sectors c -> 0 <= dst ->
  dst + 512 * cnt <= 2 ^ 32 ->
  wp (ImageBoot.block_read (sd_driver (add_dwmci pr 0 CONFIG_DWMMC_BUS_WIDTH bus_hz 400000)) 0 0 start cnt dst) s (fun o s' _ => o = Val cnt /\ transfers (dev s') /\
    exists mem, glob s' = set_mem mem (glob s) /\ forall a, mem a = copied dsk start cnt dst (boot_mem (glob s)) a).
Proof.
  intros (m & cst & Hx & Hat & Hph & Happ & Hi & Hd & Hl & Hn & Hm) Hs Hc Hsz Hd0 Hd1. cbn [sd_driver ImageBoot.block_read].
  wp_step. apply wp_driver. rewrite Hx. cbn [fst snd].
  eapply wp_mono; [apply (bread_spec host fuel c False fuel 0 0%nat m cst); try done; [apply (ok_wf _ _ Hok)| |by rewrite Hl|]|].
  { split; [|done]. cbn. by rewrite Hn, Z.eqb_refl. }
  { rewrite Hm. lia. }
  intros o s1 t1 (E1 & [(-> & mem & Hi1 & Hmem)|[_ []]]). cbv beta iota. rewrite E1. cbn [dev glob mgd mmc_devices cur_dev_num].
  rewrite set_bgd_id. apply wp_bind. unfold wp at 1. cbn [refresh out fin tr dev glob fst]. wp_step. split; [done|]. split.
  - exists m, (cst <| memory := mem |>). split; [done|]. split; [by apply (attached_ext c m cst)|]. done.
  - eexists. split; [done|]. intros a. unfold copied, blit. destruct ((dst <=? a) && (a <? dst + 512 * cnt)) eqn:E; [|done].
    rewrite (sd_ram _ _ _ Hi1). change (memory (cst <| memory := mem |>)) with mem. replace (dst + (a - dst)) with a by lia.
    rewrite Hmem. unfold copied, blit. by rewrite E, Hd.
Qed.

(** The driver is the card of the loader's theorems. *)
#[export] Instance sd_stack : Card (sd_driver (add_dwmci pr 0 CONFIG_DWMMC_BUS_WIDTH bus_hz 400000)) dsk (c_sectors c) 0 := {|
  card_present := present; card_found := found; card_ready := transfers;
  card_initialize := stack_initialize; card_find := stack_find; card_init := stack_init;
  card_bl_len := stack_bl_len; card_read := stack_read
|}.

(** C11: The image on the SD card is what runs.  The preloader's loader on the
    card driver, on any host with a card of version 2 or later in any state: when
    the board came up and the card has a boot signature and an image header, the
    payload that follows the header is in memory at its load address, and the
    preloader jumps there exactly when the payload has the checksum of the
    header (or no bytes); otherwise it stops. *)
Theorem boot_from_sd_card n board (s : st (D * X) boot) :
  let load := image_get_load (disk_header dsk) image_header in
  let dsize := image_get_data_size (disk_header dsk) image_header in
  let payload := bytes dsk (512 * image_sector dsk + 64) (Z.to_nat dsize) in
  let up := (lift timer_init ;;; lift board) s in
  bytes_of dsk -> bytes_of (boot_mem (glob s)) -> flags (spl_image (glob s)) = 0 ->
  out up = Val tt -> present (dev (fin up)) ->
  mbr_sign (sector_at dsk 0 image_header) image_header = MBR_SIGNATURE ->
  image_get_magic (disk_header dsk) image_header = IH_MAGIC ->
  64 <= load -> load + dsize + 512 <= 2 ^ 32 -> image_sector dsk + (dsize + 575) / 512 <= c_sectors c ->
  2 ^ 22 < Z.of_nat n ->
  let r := board_init_r (sd_driver (add_dwmci pr 0 CONFIG_DWMMC_BUS_WIDTH bus_hz 400000)) n board s in
  bytes (boot_mem (glob (fin r))) load (Z.to_nat dsize) = payload /\
  (dsize = 0 \/ crc32_ref 0 payload = image_get_dcrc (disk_header dsk) image_header -> out r = Val load) /\
  (dsize <> 0 -> crc32_ref 0 payload <> image_get_dcrc (disk_header dsk) image_header -> out r = Stop Halt).
Proof.
  cbv zeta. intros Hd Hm Hf Hu Hp. by apply (boot_disk_image (sd_driver (add_dwmci pr 0 CONFIG_DWMMC_BUS_WIDTH bus_hz 400000)) dsk (c_sectors c) 0).
Qed.

End stack.

(** ** The preloader of this board

    The functions of dw_mmc.c behind struct mmc; [idmac] is the address of the
    descriptors on the stack. *)
Section board.
Context {D : Type} `{Device D} `{Memory D} (stack : mmc_stack) (fuel : nat) (idmac : Z).

Definition dwmci_functions : mmc_host D (dwmci_host D) := mk_mmc_host
  (fun m cmd data => with_gd (dwmci_send_cmd fuel (priv m) cmd data idmac))
  (fun m => with_gd (dwmci_set_ios (priv m) (bus_width m) (mmc_clock m)))
  (fun m => with_gd (dwmci_init (priv m))).

Definition altera_dwmmc_init (regbase width index : Z) : Mmio.M D (mmc_globals (dwmci_host D)) Z :=
  let* g := get in
  let hz := cm_sdmmc_clock (mgd g) in
  add_dwmci (altera_host regbase width index hz) 0 width hz 400000 ;;;
  ret 0.

Definition cpu_mmc_init : Mmio.M D (mmc_globals (dwmci_host D)) Z :=
  altera_dwmmc_init CONFIG_SDMMC_BASE CONFIG_DWMMC_BUS_WIDTH 0.

(** Loader, card driver and controller driver together. *)
Definition preloader (n : nat) (board : Mmio.M (D * (list (mmc (dwmci_host D)) * Z)) gdata unit) :=
  board_init_r (sd_driver dwmci_functions stack fuel cpu_mmc_init) n board.

(** C12: Verified boot of the whole loader.  Whatever the registers read, and
    whatever the card and the controller put into memory, when the preloader
    with the drivers of this board jumps, it jumps to the entry point of the image
    record, and the bytes there have the checksum of the record, unless the
    record has no checksum or its range runs past the last address. *)
Theorem preloader_verified n board e (s : st (D * (list (mmc (dwmci_host D)) * Z)) boot) :
  (forall d, bytes_of (ram d)) -> boot_wf (glob s) -> out (preloader n board s) = Val e ->
  let b := glob (fin (preloader n board s)) in
  e = entry_point (spl_image b) /\
  (crc_size (spl_image b) = 0 \/ 2 ^ 32 <= entry_point (spl_image b) + crc_size (spl_image b) \/
   checksum_ok (spl_image b) (boot_mem b)).
Proof. intros Hram. by apply board_init_r_verified, sd_driver_wf. Qed.

End board.

(** ** A run on the simulated card *)

Definition boot_card_sim : st (sim * (list (mmc unit) * Z)) boot :=
  mk_st (mk_sim true (left_state good_disk), ([], -1)) (mk_boot gdata0 (mk_spl_image_info name_none 0 0 0 0 0 0 0) (fun _ => 0)).

Lemma boot_from_sd_card_witness :
  out (board_init_r (sd_driver (sim_host card0) stack0 4 (add_dwmci tt 0 CONFIG_DWMMC_BUS_WIDTH 50000000 400000)) (Z.to_nat (2 ^ 22 + 1)) (ret tt) boot_card_sim) = Val 0x01000040.
Proof.
  refine (proj1 (proj2 (boot_from_sd_card (sim_host card0) stack0 4 card0 good_disk tt 50000000 _ _ (Z.to_nat (2 ^ 22 + 1)) (ret tt)
    boot_card_sim _ _ _ _ _ _ _ _ _ _ _)) _).
  - apply card0_ok. by vm_compute.
  - by vm_compute.
  - apply good_disk_bytes.
  - intros a. cbn. unfold is_byte. lia.
  - reflexivity.
  - reflexivity.
  - exists (left_state good_disk). split; [reflexivity|done].
  - by vm_compute.
  - by vm_compute.
  - by vm_compute.
  - by vm_compute.
  - by vm_compute.
  - rewrite Z2Nat.id by lia. lia.
  - right. by vm_compute.
Defined.

(** A controller whose card answers every command with the same word, and a
    memory that holds an image whose first sector is a boot sector, too. *)
Record board_sim := mk_board_sim { board_tick : bool }.
#[export] Instance board_sim_device : Device board_sim := {
  dev_read a d :=
    let reg := a - SOCFPGA_SDMMC_ADDRESS in
    if a =? timer_base_curr_val then (if board_tick d then 0x7FFFFFFF else 0, mk_board_sim (negb (board_tick d)))
    else if reg =? DWMCI_RINTSTS then (DWMCI_INTMSK_CDONE .| DWMCI_INTMSK_DTO, d)
    else if (DWMCI_RESP0 <=? reg) && (reg <=? DWMCI_RESP3) then (0xC0090100, d)
    else (0, d);
  dev_write _ _ d := d
}.
Definition boot_sector : list Z :=
  sim_header [0; 0; 0; 9] [0xCB; 0xF4; 0x39; 0x26] ++ check_string ++ replicate 437 0 ++ [0x55; 0xAA].
#[export] Instance board_sim_memory : Memory board_sim := fun _ => blit (mem_of 0 boot_sector) 0 512 image_header (fun _ => 0).

Definition board_sim0 : st (board_sim * (list (mmc (dwmci_host board_sim)) * Z)) boot :=
  mk_st (mk_board_sim true, ([], -1)) (mk_boot (set_clocks 100000000 50000000 0 gdata0) (mk_spl_image_info name_none 0 0 0 0 0 0 0) (fun _ => 0)).

Lemma preloader_verified_witness :
  let b := glob (fin (preloader stack0 3 0xFFFF0000 3 (ret tt) board_sim0)) in
  0x01000040 = entry_point (spl_image b) /\
  (crc_size (spl_image b) = 0 \/ 2 ^ 32 <= entry_point (spl_image b) + crc_size (spl_image b) \/
   checksum_ok (spl_image b) (boot_mem b)).
Proof.
  apply (preloader_verified stack0 3 0xFFFF0000 3 (ret tt) 0x01000040 board_sim0).
  - intros d. apply blit_bytes; [|intros a; unfold is_byte; lia]. apply mem_of_bytes. apply List.Forall_forall. intros b Hb.
    assert (Hall : forallb (fun b => (0 <=? b) && (b <? 2 ^ 8)) boot_sector = true) by (vm_compute; reflexivity).
    rewrite forallb_forall in Hall. specialize (Hall b Hb). unfold is_byte. lia.
  - split; [intros a; cbn; unfold is_byte; lia|]. cbn. repeat split; vm_compute; congruence.
  - vm_compute. reflexivity.
Defined.
