(* ===== verification/SeqIo.v ===== *)
(** The calibration sequencer: its variables, its access to the hardware
    (sdram_io.h) and the commands it gives to the memory (sequencer.c). *)

From S2P Require Import Prelude Mmio Regs SeqRegs.
From coqutil Require Export Datatypes.RecordSetters.
Export TriangleBracketNotations.

(** param_t and gbl_t of sequencer.h, and the two globals of sequencer.c that
    change.  The first two are locals of sdram_calibration, reached through
    pointers. *)
Record seqvars := mk_seqvars {
  dm_correct_mask : Z;                    (* param *)
  read_correct_mask : Z;
  read_correct_mask_vg : Z;
  write_correct_mask : Z;
  write_correct_mask_vg : Z;
  skip_ranks : list Z;
  skip_groups : Z;
  skip_shadow_regs : list Z;
  phy_debug_mode_flags : Z;               (* gbl *)
  curr_read_lat : Z;
  curr_write_lat : Z;
  error_substage : Z;
  error_stage : Z;
  error_group : Z;
  fom_in : Z;
  fom_out : Z;
  rw_wl_nop_cycles : Z;
  dyn_calib_steps : Z;                    (* sequencer.c *)
  skip_delay_mask : Z
}.

(** __AVL_TO_APB: the address inside the controller of an address of the
    sequencer's own map. *)
Definition __AVL_TO_APB (a : Z) : Z :=
  if a .& MGR_SELECT_MASK =? BASE_PHY_MGR then
    APB_BASE_PHY_MGR .| ((a .>> (14 - 6)) .& (0x1 .<< 6)) .| (a .& 0x3f)
  else if a .& MGR_SELECT_MASK =? BASE_RW_MGR then APB_BASE_RW_MGR .| (a .& 0x1fff)
  else if a .& MGR_SELECT_MASK =? BASE_DATA_MGR then APB_BASE_DATA_MGR .| (a .& 0x7ff)
  else if a .& MGR_SELECT_MASK =? BASE_SCC_MGR then APB_BASE_SCC_MGR .| (a .& 0xfff)
  else if a .& MGR_SELECT_MASK =? BASE_REG_FILE then APB_BASE_REG_FILE .| (a .& 0x7ff)
  else if a .& MGR_SELECT_MASK =? BASE_MMR then APB_BASE_MMR .| (a .& 0xfff)
  else -1.

(** The bus address that an access goes to. *)
Definition apb (base offset : Z) : Z := HPS_SDR_BASE + __AVL_TO_APB (u32 (base + offset)).

Section io.
Context {D G : Type} `{Device D}.

Definition IOWR_32DIRECT (base offset data : Z) : M D G unit := writel data (apb base offset).
Definition IORD_32DIRECT (base offset : Z) : M D G Z := readl (apb base offset).

(** [for (i = 0; i < n; i++) body], without a [break]. *)
Definition for_each (n : Z) (body : Z -> M D G unit) : M D G unit :=
  for_upto n (fun i => body i ;;; ret (None : option unit)) ;;; ret tt.

(** A [for] loop of at most [n] rounds over the local variables [x]:
    [inl] goes on, [inr] is a [break] or a [return]. *)
Fixpoint for_st {X A} (n : nat) (i : Z) (body : Z -> X -> M D G (X + A)) (x : X) : M D G (X + A) :=
  match n with
  | O => ret (inl x)
  | S n => let* r := body i x in
           match r with
           | inl y => for_st n (i + 1) body y
           | inr a => ret (inr a)
           end
  end.

(** The same without a [break]. *)
Fixpoint for_acc {X} (n : nat) (i : Z) (body : Z -> X -> M D G X) (x : X) : M D G X :=
  match n with
  | O => ret x
  | S n => let* y := body i x in for_acc n (i + 1) body y
  end.

End io.

(** [for (n = n0; n < n0 + fuel && t < limit; n++, t += step);]: [n] and [t]. *)
Fixpoint step_to (fuel : nat) (limit step n t : Z) : Z * Z :=
  match fuel with
  | O => (n, t)
  | S f => if t <? limit then step_to f limit step (n + 1) (u32 (t + step)) else (n, t)
  end.

(** [while (t < total) { n++; t += step; }] from 0, followed by [n--]: a unit
    of fuel per unit of [total] is enough for any positive [step]. *)
Definition taps_per (total step : Z) : Z := fst (step_to (Z.to_nat total) total step 0 0) - 1.

Section commands.
Context {D : Type} `{Device D}.
Abbreviation M := (M D seqvars).

(** [if (param->skip_ranks\[r\])] and the like. *)
Definition skip_rank (r : Z) : M bool := let* g := get in let* v := array_get (skip_ranks g) r in ret (truthy v).
Definition skip_shadow_reg (r : Z) : M bool := let* g := get in let* v := array_get (skip_shadow_regs g) r in ret (truthy v).

(** ** Progress and errors *)

Definition set_failing_group_stage (group stage substage : Z) : M unit :=
  let* g := get in
  when (error_stage g =? CAL_STAGE_NIL)
    (modify (fun g => g <| error_substage := substage |> <| error_stage := stage |> <| error_group := group |>)).

Definition reg_file_set_group (set_group : Z) : M unit :=
  let* cur_stage_group := IORD_32DIRECT REG_FILE_CUR_STAGE 0 in
  let cur_stage_group := cur_stage_group .& 0x0000FFFF in
  let cur_stage_group := cur_stage_group .| u32 (set_group .<< 16) in
  IOWR_32DIRECT REG_FILE_CUR_STAGE 0 cur_stage_group.

Definition reg_file_set_stage (set_stage : Z) : M unit :=
  let* cur_stage_group := IORD_32DIRECT REG_FILE_CUR_STAGE 0 in
  let cur_stage_group := cur_stage_group .& 0xFFFF0000 in
  let cur_stage_group := cur_stage_group .| (set_stage .& 0x000000FF) in
  IOWR_32DIRECT REG_FILE_CUR_STAGE 0 cur_stage_group.

Definition reg_file_set_sub_stage (set_sub_stage : Z) : M unit :=
  let* cur_stage_group := IORD_32DIRECT REG_FILE_CUR_STAGE 0 in
  let cur_stage_group := cur_stage_group .& 0xFFFF00FF in
  let cur_stage_group := cur_stage_group .| (u32 (set_sub_stage .<< 8) .& 0x0000FF00) in
  IOWR_32DIRECT REG_FILE_CUR_STAGE 0 cur_stage_group.

(** ** Set-up of the manager blocks *)

Definition correct_mask (bits : Z) : Z := u32 (u32 (1 .<< bits) - 1).

Definition initialize : M unit :=
  IOWR_32DIRECT PHY_MGR_MUX_SEL 0 0x3 ;;;
  IOWR_32DIRECT PHY_MGR_RESET_MEM_STBL 0 0 ;;;
  IOWR_32DIRECT PHY_MGR_CAL_STATUS 0 0 ;;;
  IOWR_32DIRECT PHY_MGR_CAL_DEBUG_INFO 0 0 ;;;
  let* g := get in
  when (negb (dyn_calib_steps g .& CALIB_SKIP_ALL =? CALIB_SKIP_ALL)) (modify (fun g => g
    <| read_correct_mask_vg := correct_mask (RW_MGR_MEM_DQ_PER_READ_DQS / RW_MGR_MEM_VIRTUAL_GROUPS_PER_READ_DQS) |>
    <| write_correct_mask_vg := correct_mask (RW_MGR_MEM_DQ_PER_READ_DQS / RW_MGR_MEM_VIRTUAL_GROUPS_PER_READ_DQS) |>
    <| read_correct_mask := correct_mask RW_MGR_MEM_DQ_PER_READ_DQS |>
    <| write_correct_mask := correct_mask RW_MGR_MEM_DQ_PER_WRITE_DQS |>
    <| dm_correct_mask := correct_mask (RW_MGR_MEM_DATA_WIDTH / RW_MGR_MEM_DATA_MASK_WIDTH) |>)).

(** The two ODT masks of a rank, for the geometry of sequencer_defines.h. *)
Definition odt_masks (rank odt_mode : Z) : Z * Z :=
  if odt_mode =? RW_MGR_ODT_MODE_READ_WRITE then
    if truthy LRDIMM then
      if RW_MGR_MEM_CHIP_SELECT_WIDTH / RW_MGR_MEM_NUMBER_OF_CS_PER_DIMM =? 1 then
        if RW_MGR_MEM_ODT_WIDTH =? 1 then (0x0, 0x1)
        else if RW_MGR_MEM_ODT_WIDTH =? 2 then (0x0, 0x3)
        else (0, 0)
      else if RW_MGR_MEM_CHIP_SELECT_WIDTH / RW_MGR_MEM_NUMBER_OF_CS_PER_DIMM =? 2 then
        if RW_MGR_MEM_ODT_WIDTH =? 2 then (if rank <? 2 then 0x2 else 0x1, 0x3)
        else if RW_MGR_MEM_ODT_WIDTH =? 4 then (if rank <? 2 then 0xC else 0x3, 0xF)
        else (0, 0)
      else (0, 0)
    else if RW_MGR_MEM_NUMBER_OF_RANKS =? 1 then (0x0, 0x1)
    else if RW_MGR_MEM_NUMBER_OF_RANKS =? 2 then
      if (RW_MGR_MEM_NUMBER_OF_CS_PER_DIMM =? 1) ||
         (truthy RDIMM && (RW_MGR_MEM_NUMBER_OF_CS_PER_DIMM =? 2) && (RW_MGR_MEM_CHIP_SELECT_WIDTH =? 4))
      then (0x3 .& .~ (1 .<< rank), 0x3)
      else (0x0, 0x3 .& (1 .<< rank))
    else if rank =? 0 then (0x4, 0x5)
    else if rank =? 1 then (0x8, 0xA)
    else if rank =? 2 then (0x1, 0x5)
    else if rank =? 3 then (0x2, 0xA)
    else (0, 0)
  else (0, 0).

Definition set_rank_and_odt_mask (rank odt_mode : Z) : M unit :=
  let '(odt_mask_0, odt_mask_1) := odt_masks rank odt_mode in
  let cs_and_odt_mask :=
    (0xFF .& .~ (1 .<< rank)) .| ((0xFF .& odt_mask_0) .<< 8) .| ((0xFF .& odt_mask_1) .<< 16) in
  IOWR_32DIRECT RW_MGR_SET_CS_AND_ODT_MASK 0 cs_and_odt_mask.

Definition set_jump_as_return : M unit :=
  IOWR_32DIRECT RW_MGR_LOAD_CNTR_0 0 0xFF ;;;
  IOWR_32DIRECT RW_MGR_LOAD_JUMP_ADD_0 0 __RW_MGR_RETURN.

(** ** Delays *)

Definition SKIP_DELAY_LOOP_VALUE_OR_ZERO (g : seqvars) (non_skip_value : Z) : Z := non_skip_value .& skip_delay_mask g.

(** The counters [inner], [outer] (8 bits) and [c_loop] (16 bits). *)
Definition delay_counters (afi_clocks : Z) : Z * Z * Z :=
  if afi_clocks =? 0 then (0, 0, 0)
  else if afi_clocks <=? 0x100 then (u8 (afi_clocks - 1), 0, 0)
  else if afi_clocks <=? 0x10000 then (0xff, u8 ((afi_clocks - 1) .>> 8), 0)
  else (0xff, 0xff, ((afi_clocks - 1) .>> 16) mod 2 ^ 16).

Definition delay_for_n_mem_clocks (clocks : Z) : M unit :=
  let afi_clocks := u32 (clocks + AFI_RATE_RATIO - 1) / AFI_RATE_RATIO in
  let '(inner, outer, c_loop) := delay_counters afi_clocks in
  let* g := get in
  if afi_clocks <=? 0x100 then
    IOWR_32DIRECT RW_MGR_LOAD_CNTR_1 0 (SKIP_DELAY_LOOP_VALUE_OR_ZERO g inner) ;;;
    IOWR_32DIRECT RW_MGR_LOAD_JUMP_ADD_1 0 __RW_MGR_IDLE_LOOP1 ;;;
    IOWR_32DIRECT RW_MGR_RUN_SINGLE_GROUP 0 __RW_MGR_IDLE_LOOP1
  else
    IOWR_32DIRECT RW_MGR_LOAD_CNTR_0 0 (SKIP_DELAY_LOOP_VALUE_OR_ZERO g inner) ;;;
    IOWR_32DIRECT RW_MGR_LOAD_CNTR_1 0 (SKIP_DELAY_LOOP_VALUE_OR_ZERO g outer) ;;;
    IOWR_32DIRECT RW_MGR_LOAD_JUMP_ADD_0 0 __RW_MGR_IDLE_LOOP2 ;;;
    IOWR_32DIRECT RW_MGR_LOAD_JUMP_ADD_1 0 __RW_MGR_IDLE_LOOP2 ;;;
    if afi_clocks <=? 0x10000 then IOWR_32DIRECT RW_MGR_RUN_SINGLE_GROUP 0 __RW_MGR_IDLE_LOOP2
    else for_each (c_loop + 1) (fun _ => IOWR_32DIRECT RW_MGR_RUN_SINGLE_GROUP 0 __RW_MGR_IDLE_LOOP2).

(** ** Start-up of the memory *)

(** The three counters and jump addresses of a reset, and the command. *)
Definition reset_command (cntr0 cntr1 cntr2 command : Z) : M unit :=
  let* g := get in
  IOWR_32DIRECT RW_MGR_LOAD_CNTR_0 0 (SKIP_DELAY_LOOP_VALUE_OR_ZERO g cntr0) ;;;
  IOWR_32DIRECT RW_MGR_LOAD_CNTR_1 0 (SKIP_DELAY_LOOP_VALUE_OR_ZERO g cntr1) ;;;
  IOWR_32DIRECT RW_MGR_LOAD_CNTR_2 0 (SKIP_DELAY_LOOP_VALUE_OR_ZERO g cntr2) ;;;
  IOWR_32DIRECT RW_MGR_LOAD_JUMP_ADD_0 0 command ;;;
  IOWR_32DIRECT RW_MGR_LOAD_JUMP_ADD_1 0 command ;;;
  IOWR_32DIRECT RW_MGR_LOAD_JUMP_ADD_2 0 command ;;;
  IOWR_32DIRECT RW_MGR_RUN_SINGLE_GROUP 0 command.

(** set_jump_as_return and a mode register command. *)
Definition mrs_command (command : Z) : M unit :=
  set_jump_as_return ;;; IOWR_32DIRECT RW_MGR_RUN_SINGLE_GROUP 0 command.

Definition mirrored (r : Z) : bool := truthy ((RW_MGR_MEM_ADDRESS_MIRRORING .>> r) .& 0x1).

Definition rw_mgr_rdimm_initialize : M unit := ret tt.

(** The body of the loop over the ranks of rw_mgr_mem_initialize. *)
Definition mem_initialize_rank (r : Z) : M unit :=
  set_rank_and_odt_mask r RW_MGR_ODT_MODE_OFF ;;;
  (if mirrored r then
     mrs_command __RW_MGR_MRS2_MIRR ;;; delay_for_n_mem_clocks 4 ;;;
     mrs_command __RW_MGR_MRS3_MIRR ;;; delay_for_n_mem_clocks 4 ;;;
     mrs_command __RW_MGR_MRS1_MIRR ;;; delay_for_n_mem_clocks 4 ;;;
     mrs_command __RW_MGR_MRS0_DLL_RESET_MIRR
   else
     mrs_command __RW_MGR_MRS2 ;;; delay_for_n_mem_clocks 4 ;;;
     mrs_command __RW_MGR_MRS3 ;;; delay_for_n_mem_clocks 4 ;;;
     mrs_command __RW_MGR_MRS1 ;;;
     mrs_command __RW_MGR_MRS0_DLL_RESET) ;;;
  mrs_command __RW_MGR_ZQCL ;;;
  delay_for_n_mem_clocks 512.

Definition rw_mgr_mem_initialize : M unit :=
  IOWR_32DIRECT RW_MGR_SET_CS_AND_ODT_MASK 0 RW_MGR_RANK_ALL ;;;
  reset_command TINIT_CNTR0_VAL TINIT_CNTR1_VAL TINIT_CNTR2_VAL __RW_MGR_INIT_RESET_0_CKE_0 ;;;
  IOWR_32DIRECT PHY_MGR_RESET_MEM_STBL 0 1 ;;;
  reset_command TRESET_CNTR0_VAL TRESET_CNTR1_VAL TRESET_CNTR2_VAL __RW_MGR_INIT_RESET_1_CKE_0 ;;;
  delay_for_n_mem_clocks 250 ;;;
  rw_mgr_rdimm_initialize ;;;
  for_each RW_MGR_MEM_NUMBER_OF_RANKS (fun r =>
    let* skip := skip_rank r in
    when (negb skip) (mem_initialize_rank r)).

Definition rw_mgr_mem_dll_lock_wait : M unit := ret tt.

(** The body of the loop over the ranks of rw_mgr_mem_handoff. *)
Definition mem_handoff_rank (r : Z) : M unit :=
  set_rank_and_odt_mask r RW_MGR_ODT_MODE_OFF ;;;
  IOWR_32DIRECT RW_MGR_RUN_SINGLE_GROUP 0 __RW_MGR_PRECHARGE_ALL ;;;
  (if mirrored r then
     mrs_command __RW_MGR_MRS2_MIRR ;;; delay_for_n_mem_clocks 4 ;;;
     mrs_command __RW_MGR_MRS3_MIRR ;;; delay_for_n_mem_clocks 4 ;;;
     mrs_command __RW_MGR_MRS1_MIRR ;;; delay_for_n_mem_clocks 4 ;;;
     mrs_command __RW_MGR_MRS0_USER_MIRR
   else
     mrs_command __RW_MGR_MRS2 ;;; delay_for_n_mem_clocks 4 ;;;
     mrs_command __RW_MGR_MRS3 ;;; delay_for_n_mem_clocks 4 ;;;
     mrs_command __RW_MGR_MRS1 ;;; delay_for_n_mem_clocks 4 ;;;
     mrs_command __RW_MGR_MRS0_USER).

Definition rw_mgr_mem_handoff : M unit :=
  for_each RW_MGR_MEM_NUMBER_OF_RANKS (fun r =>
    let* skip := skip_rank r in
    when (negb skip) (mem_handoff_rank r)).

Definition mem_precharge_and_activate : M unit :=
  for_each RW_MGR_MEM_NUMBER_OF_RANKS (fun r =>
    let* skip := skip_rank r in
    when (negb skip) (
      set_rank_and_odt_mask r RW_MGR_ODT_MODE_OFF ;;;
      IOWR_32DIRECT RW_MGR_RUN_SINGLE_GROUP 0 __RW_MGR_PRECHARGE_ALL ;;;
      IOWR_32DIRECT RW_MGR_LOAD_CNTR_0 0 0x0F ;;;
      IOWR_32DIRECT RW_MGR_LOAD_JUMP_ADD_0 0 __RW_MGR_ACTIVATE_0_AND_1_WAIT1 ;;;
      IOWR_32DIRECT RW_MGR_LOAD_CNTR_1 0 0x0F ;;;
      IOWR_32DIRECT RW_MGR_LOAD_JUMP_ADD_1 0 __RW_MGR_ACTIVATE_0_AND_1_WAIT2 ;;;
      IOWR_32DIRECT RW_MGR_RUN_SINGLE_GROUP 0 __RW_MGR_ACTIVATE_0_AND_1)).

End commands.
