(* ===== verification/SeqScc.v ===== *)
(** The calibration sequencer's scan chain manager (the scc_mgr_ functions of
    sequencer.c and the WRITE_SCC_ and READ_SCC_ macros of sequencer.h): the
    registers that hold the phases and delays of the pins.

    On this device the second output delay, the bypass and the read FIFO mode
    have no register: their macros write nothing and read 0. *)

From S2P Require Import Prelude Mmio Regs SeqRegs SeqIo.

Section scc.
Context {D : Type} `{Device D}.
Abbreviation M := (M D seqvars).

(** ** The macros of sequencer.h *)

Definition WRITE_SCC_DQS_IN_DELAY (group delay : Z) : M unit := IOWR_32DIRECT SCC_MGR_DQS_IN_DELAY (group .<< 2) delay.
Definition WRITE_SCC_DQS_EN_DELAY (group delay : Z) : M unit :=
  IOWR_32DIRECT SCC_MGR_DQS_EN_DELAY (group .<< 2) (delay + IO_DQS_EN_DELAY_OFFSET).
Definition WRITE_SCC_DQS_EN_PHASE (group phase : Z) : M unit := IOWR_32DIRECT SCC_MGR_DQS_EN_PHASE (group .<< 2) phase.
Definition WRITE_SCC_DQDQS_OUT_PHASE (group phase : Z) : M unit := IOWR_32DIRECT SCC_MGR_DQDQS_OUT_PHASE (group .<< 2) phase.
Definition WRITE_SCC_OCT_OUT1_DELAY (group delay : Z) : M unit := IOWR_32DIRECT SCC_MGR_OCT_OUT1_DELAY (group .<< 2) delay.
Definition WRITE_SCC_OCT_OUT2_DELAY (group delay : Z) : M unit := ret tt.
Definition WRITE_SCC_DQ_OUT1_DELAY (pin delay : Z) : M unit := IOWR_32DIRECT SCC_MGR_IO_OUT1_DELAY (pin .<< 2) delay.
Definition WRITE_SCC_DQ_OUT2_DELAY (pin delay : Z) : M unit := ret tt.
Definition WRITE_SCC_DQ_IN_DELAY (pin delay : Z) : M unit := IOWR_32DIRECT SCC_MGR_IO_IN_DELAY (pin .<< 2) delay.
Definition WRITE_SCC_HHP_EXTRAS (value : Z) : M unit := IOWR_32DIRECT SCC_MGR_HHP_GLOBALS SCC_MGR_HHP_EXTRAS_OFFSET value.
Definition WRITE_SCC_DQS_IO_OUT1_DELAY (delay : Z) : M unit :=
  IOWR_32DIRECT SCC_MGR_IO_OUT1_DELAY (RW_MGR_MEM_DQ_PER_WRITE_DQS .<< 2) delay.
Definition WRITE_SCC_DQS_IO_OUT2_DELAY (delay : Z) : M unit := ret tt.
Definition WRITE_SCC_DQS_IO_IN_DELAY (delay : Z) : M unit :=
  IOWR_32DIRECT SCC_MGR_IO_IN_DELAY (RW_MGR_MEM_DQ_PER_WRITE_DQS .<< 2) delay.
Definition WRITE_SCC_DM_IO_OUT1_DELAY (pin delay : Z) : M unit :=
  IOWR_32DIRECT SCC_MGR_IO_OUT1_DELAY ((RW_MGR_MEM_DQ_PER_WRITE_DQS + 1 + pin) .<< 2) delay.
Definition WRITE_SCC_DM_IO_OUT2_DELAY (pin delay : Z) : M unit := ret tt.
Definition WRITE_SCC_DM_IO_IN_DELAY (pin delay : Z) : M unit :=
  IOWR_32DIRECT SCC_MGR_IO_IN_DELAY ((RW_MGR_MEM_DQ_PER_WRITE_DQS + 1 + pin) .<< 2) delay.

Definition READ_SCC_DQS_IN_DELAY (group : Z) : M Z := IORD_32DIRECT SCC_MGR_DQS_IN_DELAY (group .<< 2).
Definition READ_SCC_DQ_OUT1_DELAY (pin : Z) : M Z := IORD_32DIRECT SCC_MGR_IO_OUT1_DELAY (pin .<< 2).
Definition READ_SCC_DQ_OUT2_DELAY (pin : Z) : M Z := ret 0.
Definition READ_SCC_DQ_IN_DELAY (pin : Z) : M Z := IORD_32DIRECT SCC_MGR_IO_IN_DELAY (pin .<< 2).
Definition READ_SCC_DQS_IO_OUT1_DELAY : M Z := IORD_32DIRECT SCC_MGR_IO_OUT1_DELAY (RW_MGR_MEM_DQ_PER_WRITE_DQS .<< 2).
Definition READ_SCC_DQS_IO_OUT2_DELAY : M Z := ret 0.
Definition READ_SCC_DM_IO_OUT2_DELAY (pin : Z) : M Z := ret 0.
Definition READ_SCC_OCT_OUT2_DELAY (group : Z) : M Z := ret 0.

(** ** Settings

    There is one shadow register, so that selecting one does nothing.  A loop
    over the read groups of a write group has [RW_MGR_NUM_DQS_PER_WRITE_GROUP]
    rounds. *)

Definition select_shadow_regs_for_update (rank group update_scan_chains : Z) : M unit := ret tt.

(** [for (r = 0; r < RW_MGR_MEM_NUMBER_OF_RANKS; r += NUM_RANKS_PER_SHADOW_REG)] *)
Definition for_shadow_regs (body : Z -> M unit) : M unit :=
  for_each (RW_MGR_MEM_NUMBER_OF_RANKS / NUM_RANKS_PER_SHADOW_REG) (fun sr => body (sr * NUM_RANKS_PER_SHADOW_REG)).

(** The read groups of a write group. *)
Definition for_read_groups (write_group : Z) (body : Z -> M unit) : M unit :=
  let first := write_group * RW_MGR_MEM_IF_READ_DQS_WIDTH / RW_MGR_MEM_IF_WRITE_DQS_WIDTH in
  let last := (write_group + 1) * RW_MGR_MEM_IF_READ_DQS_WIDTH / RW_MGR_MEM_IF_WRITE_DQS_WIDTH in
  for_each (last - first) (fun i => body (first + i)).

Definition upd : M unit := IOWR_32DIRECT SCC_MGR_UPD 0 0.

Definition scc_mgr_initialize : M unit :=
  for_each 16 (fun i => IOWR_32DIRECT SCC_MGR_HHP_RFILE (i .<< 2) 0).

Definition scc_mgr_set_dqs_bus_in_delay (read_group delay : Z) : M unit := WRITE_SCC_DQS_IN_DELAY read_group delay.
Definition scc_mgr_set_dqs_io_in_delay (write_group delay : Z) : M unit := WRITE_SCC_DQS_IO_IN_DELAY delay.
Definition scc_mgr_set_dqs_en_phase (read_group phase : Z) : M unit := WRITE_SCC_DQS_EN_PHASE read_group phase.

Definition scc_mgr_set_dqs_en_phase_all_ranks (read_group phase : Z) : M unit :=
  for_shadow_regs (fun r =>
    let update_scan_chains := if r =? 0 then 1 else 0 in
    select_shadow_regs_for_update r read_group update_scan_chains ;;;
    scc_mgr_set_dqs_en_phase read_group phase ;;;
    when (truthy update_scan_chains) (
      IOWR_32DIRECT SCC_MGR_DQS_ENA 0 read_group ;;;
      upd)).

Definition scc_mgr_set_dqdqs_output_phase (write_group phase : Z) : M unit := WRITE_SCC_DQDQS_OUT_PHASE write_group phase.

Definition scc_mgr_set_dqdqs_output_phase_all_ranks (write_group phase : Z) : M unit :=
  for_shadow_regs (fun r =>
    let update_scan_chains := if r =? 0 then 1 else 0 in
    select_shadow_regs_for_update r write_group update_scan_chains ;;;
    scc_mgr_set_dqdqs_output_phase write_group phase ;;;
    when (truthy update_scan_chains) (
      IOWR_32DIRECT SCC_MGR_DQS_ENA 0 write_group ;;;
      upd)).

Definition scc_mgr_set_dqs_en_delay (read_group delay : Z) : M unit := WRITE_SCC_DQS_EN_DELAY read_group delay.

Definition scc_mgr_set_dqs_en_delay_all_ranks (read_group delay : Z) : M unit :=
  for_shadow_regs (fun r =>
    select_shadow_regs_for_update r read_group 0 ;;;
    scc_mgr_set_dqs_en_delay read_group delay ;;;
    IOWR_32DIRECT SCC_MGR_DQS_ENA 0 read_group ;;;
    upd).

Definition scc_mgr_set_oct_out1_delay (write_group delay : Z) : M unit :=
  for_read_groups write_group (fun read_group => WRITE_SCC_OCT_OUT1_DELAY read_group delay).
Definition scc_mgr_set_oct_out2_delay (write_group delay : Z) : M unit :=
  for_read_groups write_group (fun read_group => WRITE_SCC_OCT_OUT2_DELAY read_group delay).

Definition scc_mgr_set_dq_out1_delay (write_group dq_in_group delay : Z) : M unit := WRITE_SCC_DQ_OUT1_DELAY dq_in_group delay.
Definition scc_mgr_set_dq_out2_delay (write_group dq_in_group delay : Z) : M unit := WRITE_SCC_DQ_OUT2_DELAY dq_in_group delay.
Definition scc_mgr_set_dq_in_delay (write_group dq_in_group delay : Z) : M unit := WRITE_SCC_DQ_IN_DELAY dq_in_group delay.

Definition scc_mgr_set_hhp_extras : M unit :=
  let value := (0 .<< 8) .| (0 .<< 7) .| (1 .<< 5) .| (1 .<< 2) .| (1 .<< 1) .| (1 .<< 0) in
  WRITE_SCC_HHP_EXTRAS value.

Definition scc_mgr_set_dqs_out1_delay (write_group delay : Z) : M unit := WRITE_SCC_DQS_IO_OUT1_DELAY delay.
Definition scc_mgr_set_dqs_out2_delay (write_group delay : Z) : M unit := WRITE_SCC_DQS_IO_OUT2_DELAY delay.
Definition scc_mgr_set_dm_out1_delay (write_group dm delay : Z) : M unit := WRITE_SCC_DM_IO_OUT1_DELAY dm delay.
Definition scc_mgr_set_dm_out2_delay (write_group dm delay : Z) : M unit := WRITE_SCC_DM_IO_OUT2_DELAY dm delay.
Definition scc_mgr_set_dm_in_delay (write_group dm delay : Z) : M unit := WRITE_SCC_DM_IO_IN_DELAY dm delay.

(** ** Loading the scan chains *)

Definition scc_mgr_load_dqs (dqs : Z) : M unit := IOWR_32DIRECT SCC_MGR_DQS_ENA 0 dqs.
Definition scc_mgr_load_dqs_io : M unit := IOWR_32DIRECT SCC_MGR_DQS_IO_ENA 0 0.
Definition scc_mgr_load_dq (dq_in_group : Z) : M unit := IOWR_32DIRECT SCC_MGR_DQ_ENA 0 dq_in_group.
Definition scc_mgr_load_dm (dm : Z) : M unit := IOWR_32DIRECT SCC_MGR_DM_ENA 0 dm.

Definition scc_mgr_load_dqs_for_write_group (write_group : Z) : M unit :=
  for_read_groups write_group (fun read_group => IOWR_32DIRECT SCC_MGR_DQS_ENA 0 read_group).

Definition scc_mgr_zero_all : M unit :=
  for_shadow_regs (fun r =>
    select_shadow_regs_for_update r 0 1 ;;;
    for_each RW_MGR_MEM_IF_READ_DQS_WIDTH (fun i =>
      scc_mgr_set_dqs_bus_in_delay i IO_DQS_IN_RESERVE ;;;
      scc_mgr_set_dqs_en_phase i 0 ;;;
      scc_mgr_set_dqs_en_delay i 0) ;;;
    for_each RW_MGR_MEM_IF_WRITE_DQS_WIDTH (fun i =>
      scc_mgr_set_dqdqs_output_phase i 0 ;;;
      scc_mgr_set_oct_out1_delay i IO_DQS_OUT_RESERVE) ;;;
    IOWR_32DIRECT SCC_MGR_DQS_ENA 0 0xff ;;;
    upd).

Definition scc_set_bypass_mode (write_group mode : Z) : M unit :=
  when (write_group =? 0) scc_mgr_set_hhp_extras ;;;
  IOWR_32DIRECT SCC_MGR_DQ_ENA 0 0xff ;;;
  IOWR_32DIRECT SCC_MGR_DM_ENA 0 0xff ;;;
  IOWR_32DIRECT SCC_MGR_DQS_IO_ENA 0 0 ;;;
  IOWR_32DIRECT SCC_MGR_DQS_ENA 0 write_group ;;;
  upd.

Definition scc_mgr_zero_group (write_group test_begin : Z) (out_only : bool) : M unit :=
  for_shadow_regs (fun r =>
    select_shadow_regs_for_update r write_group 1 ;;;
    for_each RW_MGR_MEM_DQ_PER_WRITE_DQS (fun i =>
      scc_mgr_set_dq_out1_delay write_group i 0 ;;;
      scc_mgr_set_dq_out2_delay write_group i IO_DQ_OUT_RESERVE ;;;
      when (negb out_only) (scc_mgr_set_dq_in_delay write_group i 0)) ;;;
    IOWR_32DIRECT SCC_MGR_DQ_ENA 0 0xff ;;;
    for_each RW_MGR_NUM_DM_PER_WRITE_GROUP (fun i =>
      when (negb out_only) (scc_mgr_set_dm_in_delay write_group i 0) ;;;
      scc_mgr_set_dm_out1_delay write_group i 0 ;;;
      scc_mgr_set_dm_out2_delay write_group i IO_DM_OUT_RESERVE) ;;;
    IOWR_32DIRECT SCC_MGR_DM_ENA 0 0xff ;;;
    when (negb out_only) (scc_mgr_set_dqs_io_in_delay write_group 0) ;;;
    scc_mgr_set_dqs_out1_delay write_group IO_DQS_OUT_RESERVE ;;;
    scc_mgr_set_oct_out1_delay write_group IO_DQS_OUT_RESERVE ;;;
    scc_mgr_load_dqs_for_write_group write_group ;;;
    IOWR_32DIRECT SCC_MGR_DQS_IO_ENA 0 0 ;;;
    upd).

(** ** A delay for a whole group *)

Definition scc_mgr_apply_group_dq_in_delay (write_group group_bgn delay : Z) : M unit :=
  for_each RW_MGR_MEM_DQ_PER_READ_DQS (fun i =>
    let p := group_bgn + i in
    scc_mgr_set_dq_in_delay write_group p delay ;;;
    scc_mgr_load_dq p).

Definition scc_mgr_apply_group_dq_out1_delay (write_group group_bgn delay1 : Z) : M unit :=
  for_each RW_MGR_MEM_DQ_PER_WRITE_DQS (fun i =>
    scc_mgr_set_dq_out1_delay write_group i delay1 ;;;
    scc_mgr_load_dq i).

Definition scc_mgr_apply_group_dm_out1_delay (write_group delay1 : Z) : M unit :=
  for_each RW_MGR_NUM_DM_PER_WRITE_GROUP (fun i =>
    scc_mgr_set_dm_out1_delay write_group i delay1 ;;;
    scc_mgr_load_dm i).

Definition scc_mgr_apply_group_dqs_io_and_oct_out1 (write_group delay : Z) : M unit :=
  scc_mgr_set_dqs_out1_delay write_group delay ;;;
  scc_mgr_load_dqs_io ;;;
  scc_mgr_set_oct_out1_delay write_group delay ;;;
  scc_mgr_load_dqs_for_write_group write_group.

(** [new_delay] clamped to IO_IO_OUT2_DELAY_MAX. *)
Definition clamp_out2 (new_delay : Z) : Z := if new_delay >? IO_IO_OUT2_DELAY_MAX then IO_IO_OUT2_DELAY_MAX else new_delay.

(** What does not fit into the second output delay of the strobe goes to the
    first one. *)
Definition scc_mgr_apply_group_all_out_delay_add (write_group group_bgn delay : Z) : M unit :=
  for_each RW_MGR_MEM_DQ_PER_WRITE_DQS (fun i =>
    let* new_delay := READ_SCC_DQ_OUT2_DELAY i in
    let new_delay := u32 (new_delay + delay) in
    scc_mgr_set_dq_out2_delay write_group i (clamp_out2 new_delay) ;;;
    scc_mgr_load_dq i) ;;;
  for_each RW_MGR_NUM_DM_PER_WRITE_GROUP (fun i =>
    let* new_delay := READ_SCC_DM_IO_OUT2_DELAY i in
    let new_delay := u32 (new_delay + delay) in
    scc_mgr_set_dm_out2_delay write_group i (clamp_out2 new_delay) ;;;
    scc_mgr_load_dm i) ;;;
  let* new_delay := READ_SCC_DQS_IO_OUT2_DELAY in
  let new_delay := u32 (new_delay + delay) in
  when (new_delay >? IO_IO_OUT2_DELAY_MAX)
    (scc_mgr_set_dqs_out1_delay write_group (new_delay - IO_IO_OUT2_DELAY_MAX)) ;;;
  scc_mgr_set_dqs_out2_delay write_group (clamp_out2 new_delay) ;;;
  scc_mgr_load_dqs_io ;;;
  let* new_delay := READ_SCC_OCT_OUT2_DELAY write_group in
  let new_delay := u32 (new_delay + delay) in
  when (new_delay >? IO_IO_OUT2_DELAY_MAX)
    (scc_mgr_set_oct_out1_delay write_group (new_delay - IO_IO_OUT2_DELAY_MAX)) ;;;
  scc_mgr_set_oct_out2_delay write_group (clamp_out2 new_delay) ;;;
  scc_mgr_load_dqs_for_write_group write_group.

Definition scc_mgr_apply_group_all_out_delay_add_all_ranks (write_group group_bgn delay : Z) : M unit :=
  for_shadow_regs (fun r =>
    select_shadow_regs_for_update r write_group 1 ;;;
    scc_mgr_apply_group_all_out_delay_add write_group group_bgn delay ;;;
    upd).

End scc.
