(* ===== verification/SeqTests.v ===== *)
(** The calibration sequencer's tests of the memory (sequencer.c): patterns are
    written and read back by the read-write manager, which reports the bits that
    were wrong.  A test returns whether it passed and [*bit_chk], the bits that
    were right in every rank. *)

From S2P Require Import Prelude Mmio Regs SeqRegs SeqIo SeqScc.

Section tests.
Context {D : Type} `{Device D}.
Abbreviation M := (M D seqvars).

(** [rank_end - rank_bgn] *)
Definition ranks_of (rank_bgn : Z) (all_ranks : bool) : nat :=
  let rank_end := if all_ranks then RW_MGR_MEM_NUMBER_OF_RANKS else rank_bgn + NUM_RANKS_PER_SHADOW_REG in
  Z.to_nat (rank_end - rank_bgn).

(** The loop over the ranks: the bits right in each, for those not skipped. *)
Definition for_ranks (rank_bgn : Z) (all_ranks : bool) (bit_chk : Z) (test : Z -> M Z) : M Z :=
  for_acc (ranks_of rank_bgn all_ranks) rank_bgn (fun r bit_chk =>
    let* skip := skip_rank r in
    if skip then ret bit_chk else let* tmp_bit_chk := test r in ret (bit_chk .& tmp_bit_chk)) bit_chk.

(** [for (vg = n - 1; ; vg--) { ...; if (vg == 0) break; }], with the bits of
    each virtual group shifted in: [width] bits that [correct_mask_vg] selects. *)
Definition for_virtual_groups (n width correct_mask_vg : Z) (issue : Z -> M unit) : M Z :=
  for_acc (Z.to_nat n) 0 (fun i tmp_bit_chk =>
    let vg := n - 1 - i in
    issue vg ;;;
    let* wrong := IORD_32DIRECT BASE_RW_MGR 0 in
    ret (u32 (tmp_bit_chk .<< width) .| (correct_mask_vg .& .~ wrong))) 0.

Definition pass_status (all_correct : bool) (bit_chk correct_mask : Z) : bool :=
  if all_correct then bit_chk =? correct_mask else negb (bit_chk =? 0).

(** ** Reading *)

Definition reset_read_path : M unit :=
  IOWR_32DIRECT PHY_MGR_CMD_FIFO_RESET 0 0 ;;;
  IOWR_32DIRECT RW_MGR_RESET_READ_DATAPATH 0 0.

Definition rw_mgr_mem_calibrate_read_test_patterns (rank_bgn group : Z) (all_ranks : bool) : M (bool * Z) :=
  let* g := get in
  let* bit_chk := for_ranks rank_bgn all_ranks (read_correct_mask g) (fun r =>
    set_rank_and_odt_mask r RW_MGR_ODT_MODE_READ_WRITE ;;;
    IOWR_32DIRECT RW_MGR_LOAD_CNTR_0 0 0x20 ;;;
    IOWR_32DIRECT RW_MGR_LOAD_JUMP_ADD_0 0 __RW_MGR_GUARANTEED_READ ;;;
    IOWR_32DIRECT RW_MGR_LOAD_CNTR_1 0 0x20 ;;;
    IOWR_32DIRECT RW_MGR_LOAD_JUMP_ADD_1 0 __RW_MGR_GUARANTEED_READ_CONT ;;;
    for_virtual_groups RW_MGR_MEM_VIRTUAL_GROUPS_PER_READ_DQS
      (RW_MGR_MEM_DQ_PER_READ_DQS / RW_MGR_MEM_VIRTUAL_GROUPS_PER_READ_DQS) (read_correct_mask_vg g) (fun vg =>
        reset_read_path ;;;
        IOWR_32DIRECT RW_MGR_RUN_SINGLE_GROUP ((group * RW_MGR_MEM_VIRTUAL_GROUPS_PER_READ_DQS + vg) .<< 2)
          __RW_MGR_GUARANTEED_READ)) in
  IOWR_32DIRECT RW_MGR_RUN_SINGLE_GROUP (group .<< 2) __RW_MGR_CLEAR_DQS_ENABLE ;;;
  set_rank_and_odt_mask 0 RW_MGR_ODT_MODE_OFF ;;;
  ret (bit_chk =? read_correct_mask g, bit_chk).

(** A failure is tried again with every phase of the strobe's enable. *)
Definition rw_mgr_mem_calibrate_read_test_patterns_all_ranks (group : Z) : M bool :=
  let* r := rw_mgr_mem_calibrate_read_test_patterns 0 group true in
  if fst r then ret true else
  let* found := for_upto (IO_DQS_EN_PHASE_MAX + 1) (fun p =>
    scc_mgr_set_dqs_en_phase_all_ranks group p ;;;
    let* r := rw_mgr_mem_calibrate_read_test_patterns 0 group true in
    ret (if fst r then Some tt else None)) in
  ret (match found with Some _ => true | None => false end).

Definition rw_mgr_mem_calibrate_read_load_patterns (rank_bgn : Z) (all_ranks : bool) : M unit :=
  for_acc (ranks_of rank_bgn all_ranks) rank_bgn (fun r _ =>
    let* skip := skip_rank r in
    when (negb skip) (
      set_rank_and_odt_mask r RW_MGR_ODT_MODE_READ_WRITE ;;;
      IOWR_32DIRECT RW_MGR_LOAD_CNTR_0 0 0x20 ;;;
      IOWR_32DIRECT RW_MGR_LOAD_JUMP_ADD_0 0 __RW_MGR_GUARANTEED_WRITE_WAIT0 ;;;
      IOWR_32DIRECT RW_MGR_LOAD_CNTR_1 0 0x20 ;;;
      IOWR_32DIRECT RW_MGR_LOAD_JUMP_ADD_1 0 __RW_MGR_GUARANTEED_WRITE_WAIT1 ;;;
      IOWR_32DIRECT RW_MGR_LOAD_CNTR_2 0 0x04 ;;;
      IOWR_32DIRECT RW_MGR_LOAD_JUMP_ADD_2 0 __RW_MGR_GUARANTEED_WRITE_WAIT2 ;;;
      IOWR_32DIRECT RW_MGR_LOAD_CNTR_3 0 0x04 ;;;
      IOWR_32DIRECT RW_MGR_LOAD_JUMP_ADD_3 0 __RW_MGR_GUARANTEED_WRITE_WAIT3 ;;;
      IOWR_32DIRECT RW_MGR_RUN_SINGLE_GROUP 0 __RW_MGR_GUARANTEED_WRITE)) tt ;;;
  set_rank_and_odt_mask 0 RW_MGR_ODT_MODE_OFF.

Definition rw_mgr_mem_calibrate_read_load_patterns_all_ranks : M unit :=
  rw_mgr_mem_calibrate_read_load_patterns 0 true.

Definition quick_read_mode : bool :=
  (truthy (STATIC_CALIB_STEPS .& CALIB_SKIP_DELAY_SWEEPS) && truthy ENABLE_SUPER_QUICK_CALIBRATION) || truthy BFM_MODE.

(** The body of the loop over the ranks of rw_mgr_mem_calibrate_read_test. *)
Definition read_test_rank (group : Z) (all_groups : bool) (correct_mask_vg r : Z) : M Z :=
  set_rank_and_odt_mask r RW_MGR_ODT_MODE_READ_WRITE ;;;
  IOWR_32DIRECT RW_MGR_LOAD_CNTR_1 0 0x10 ;;;
  IOWR_32DIRECT RW_MGR_LOAD_JUMP_ADD_1 0 __RW_MGR_READ_B2B_WAIT1 ;;;
  IOWR_32DIRECT RW_MGR_LOAD_CNTR_2 0 0x10 ;;;
  IOWR_32DIRECT RW_MGR_LOAD_JUMP_ADD_2 0 __RW_MGR_READ_B2B_WAIT2 ;;;
  IOWR_32DIRECT RW_MGR_LOAD_CNTR_0 0 (if quick_read_mode then 0x1 else if all_groups then 0x06 else 0x32) ;;;
  IOWR_32DIRECT RW_MGR_LOAD_JUMP_ADD_0 0 __RW_MGR_READ_B2B ;;;
  IOWR_32DIRECT RW_MGR_LOAD_CNTR_3 0
    (if all_groups then RW_MGR_MEM_IF_READ_DQS_WIDTH * RW_MGR_MEM_VIRTUAL_GROUPS_PER_READ_DQS - 1 else 0x0) ;;;
  IOWR_32DIRECT RW_MGR_LOAD_JUMP_ADD_3 0 __RW_MGR_READ_B2B ;;;
  for_virtual_groups RW_MGR_MEM_VIRTUAL_GROUPS_PER_READ_DQS
    (RW_MGR_MEM_DQ_PER_READ_DQS / RW_MGR_MEM_VIRTUAL_GROUPS_PER_READ_DQS) correct_mask_vg (fun vg =>
      reset_read_path ;;;
      IOWR_32DIRECT (if all_groups then RW_MGR_RUN_ALL_GROUPS else RW_MGR_RUN_SINGLE_GROUP)
        ((group * RW_MGR_MEM_VIRTUAL_GROUPS_PER_READ_DQS + vg) .<< 2) __RW_MGR_READ_B2B).

Definition rw_mgr_mem_calibrate_read_test (rank_bgn group : Z) (all_correct all_groups all_ranks : bool) : M (bool * Z) :=
  let* g := get in
  let* bit_chk := for_ranks rank_bgn all_ranks (read_correct_mask g)
    (read_test_rank group all_groups (read_correct_mask_vg g)) in
  IOWR_32DIRECT RW_MGR_RUN_SINGLE_GROUP (group .<< 2) __RW_MGR_CLEAR_DQS_ENABLE ;;;
  set_rank_and_odt_mask 0 RW_MGR_ODT_MODE_OFF ;;;
  ret (pass_status all_correct bit_chk (read_correct_mask g), bit_chk).

(** Stops at the first failure. *)
Definition rw_mgr_mem_calibrate_read_test_all_ranks (group num_tries : Z) (all_correct all_groups : bool) : M bool :=
  let num_tries := if num_tries <=? 0 then 1 else num_tries in
  let* failed := for_upto num_tries (fun _ =>
    let* r := rw_mgr_mem_calibrate_read_test 0 group all_correct all_groups true in
    ret (if fst r then None else Some tt)) in
  ret (match failed with Some _ => false | None => true end).

(** ** The FIFO of read valids *)

(** Increments the FIFO of a group and the local count [*v]. *)
Definition rw_mgr_incr_vfifo (grp v : Z) : M Z :=
  (if truthy HARD_PHY then IOWR_32DIRECT PHY_MGR_CMD_INC_VFIFO_HARD_PHY 0 grp
   else if truthy QUARTER_RATE_MODE && negb (truthy HARD_VFIFO) then
     if v .& 3 =? 3 then IOWR_32DIRECT PHY_MGR_CMD_INC_VFIFO_QR 0 grp
     else if v .& 2 =? 2 then IOWR_32DIRECT PHY_MGR_CMD_INC_VFIFO_FR_HR 0 grp
     else if v .& 1 =? 1 then IOWR_32DIRECT PHY_MGR_CMD_INC_VFIFO_HR 0 grp
     else IOWR_32DIRECT PHY_MGR_CMD_INC_VFIFO_FR 0 grp
   else if truthy HARD_VFIFO then IOWR_32DIRECT PHY_MGR_CMD_INC_VFIFO_FR 0 grp
   else if negb (truthy HALF_RATE_MODE) || (v .& 1 =? 1) then IOWR_32DIRECT PHY_MGR_CMD_INC_VFIFO_HR 0 grp
   else IOWR_32DIRECT PHY_MGR_CMD_INC_VFIFO_FR 0 grp) ;;;
  ret (u32 (v + 1)).

Definition rw_mgr_decr_vfifo (grp v : Z) : M Z :=
  for_acc (Z.to_nat (VFIFO_SIZE - 1)) 0 (fun _ v => rw_mgr_incr_vfifo grp v) v.

(** ** Writing *)

Definition quick_write_mode : bool :=
  (truthy (STATIC_CALIB_STEPS .& CALIB_SKIP_WRITES) && truthy ENABLE_SUPER_QUICK_CALIBRATION) || truthy BFM_MODE.

(** The program of the read-write manager for a write latency: returns
    [mcc_instruction]. *)
Definition write_test_program (rw_wl_nop_cycles : Z) (test_dm : bool) : M Z :=
  if rw_wl_nop_cycles =? u32 (-1) then
    IOWR_32DIRECT RW_MGR_LOAD_CNTR_2 0 0xFF ;;;
    if test_dm then
      IOWR_32DIRECT RW_MGR_LOAD_JUMP_ADD_2 0 __RW_MGR_LFSR_WR_RD_DM_BANK_0_DATA ;;;
      IOWR_32DIRECT RW_MGR_LOAD_JUMP_ADD_3 0 __RW_MGR_LFSR_WR_RD_DM_BANK_0_NOP ;;;
      ret __RW_MGR_LFSR_WR_RD_DM_BANK_0_WL_1
    else
      IOWR_32DIRECT RW_MGR_LOAD_JUMP_ADD_2 0 __RW_MGR_LFSR_WR_RD_BANK_0_DATA ;;;
      IOWR_32DIRECT RW_MGR_LOAD_JUMP_ADD_3 0 __RW_MGR_LFSR_WR_RD_BANK_0_NOP ;;;
      ret __RW_MGR_LFSR_WR_RD_BANK_0_WL_1
  else if rw_wl_nop_cycles =? 0 then
    IOWR_32DIRECT RW_MGR_LOAD_CNTR_2 0 0xFF ;;;
    if test_dm then
      IOWR_32DIRECT RW_MGR_LOAD_JUMP_ADD_2 0 __RW_MGR_LFSR_WR_RD_DM_BANK_0_DQS ;;;
      ret __RW_MGR_LFSR_WR_RD_DM_BANK_0
    else
      IOWR_32DIRECT RW_MGR_LOAD_JUMP_ADD_2 0 __RW_MGR_LFSR_WR_RD_BANK_0_DQS ;;;
      ret __RW_MGR_LFSR_WR_RD_BANK_0
  else
    IOWR_32DIRECT RW_MGR_LOAD_CNTR_2 0 0x0 ;;;
    IOWR_32DIRECT RW_MGR_LOAD_JUMP_ADD_2 0 0x0 ;;;
    IOWR_32DIRECT RW_MGR_LOAD_CNTR_3 0 (rw_wl_nop_cycles - 1) ;;;
    if test_dm then
      IOWR_32DIRECT RW_MGR_LOAD_JUMP_ADD_3 0 __RW_MGR_LFSR_WR_RD_DM_BANK_0_NOP ;;;
      ret __RW_MGR_LFSR_WR_RD_DM_BANK_0
    else
      IOWR_32DIRECT RW_MGR_LOAD_JUMP_ADD_3 0 __RW_MGR_LFSR_WR_RD_BANK_0_NOP ;;;
      ret __RW_MGR_LFSR_WR_RD_BANK_0.

Definition rw_mgr_mem_calibrate_write_test_issue (group : Z) (test_dm : bool) : M unit :=
  let* g := get in
  let* mcc_instruction := write_test_program (rw_wl_nop_cycles g) test_dm in
  IOWR_32DIRECT RW_MGR_RESET_READ_DATAPATH 0 0 ;;;
  IOWR_32DIRECT RW_MGR_LOAD_CNTR_0 0 (if quick_write_mode then 0x08 else 0x40) ;;;
  IOWR_32DIRECT RW_MGR_LOAD_JUMP_ADD_0 0 mcc_instruction ;;;
  IOWR_32DIRECT RW_MGR_LOAD_CNTR_1 0 0x30 ;;;
  IOWR_32DIRECT RW_MGR_LOAD_JUMP_ADD_1 0
    (if test_dm then __RW_MGR_LFSR_WR_RD_DM_BANK_0_WAIT else __RW_MGR_LFSR_WR_RD_BANK_0_WAIT) ;;;
  IOWR_32DIRECT RW_MGR_RUN_SINGLE_GROUP (group .<< 2) mcc_instruction.

Definition rw_mgr_mem_calibrate_write_test (rank_bgn write_group : Z) (use_dm all_correct all_ranks : bool) : M (bool * Z) :=
  let* g := get in
  let* bit_chk := for_ranks rank_bgn all_ranks (write_correct_mask g) (fun r =>
    set_rank_and_odt_mask r RW_MGR_ODT_MODE_READ_WRITE ;;;
    for_virtual_groups RW_MGR_MEM_VIRTUAL_GROUPS_PER_WRITE_DQS
      (RW_MGR_MEM_DQ_PER_WRITE_DQS / RW_MGR_MEM_VIRTUAL_GROUPS_PER_WRITE_DQS) (write_correct_mask_vg g) (fun vg =>
        IOWR_32DIRECT PHY_MGR_CMD_FIFO_RESET 0 0 ;;;
        rw_mgr_mem_calibrate_write_test_issue (write_group * RW_MGR_MEM_VIRTUAL_GROUPS_PER_WRITE_DQS + vg) use_dm)) in
  set_rank_and_odt_mask 0 RW_MGR_ODT_MODE_OFF ;;;
  ret (pass_status all_correct bit_chk (write_correct_mask g), bit_chk).

End tests.
