(* ===== verification/SeqVfifo.v ===== *)
(** The calibration sequencer's search for the phase and delay of a strobe's
    enable (rw_mgr_mem_calibrate_vfifo_find_dqs_en_phase of sequencer.c), cut at
    the numbered comments of the code.

    Times are in picoseconds: a phase tap is IO_DELAY_PER_OPA_TAP, a delay tap
    IO_DELAY_PER_DQS_EN_DCHAIN_TAP.  [v] counts the increments of the FIFO of
    read valids.  The counter max_working_cnt goes into a report that is off. *)

From S2P Require Import Prelude Mmio Regs SeqRegs SeqIo SeqScc SeqTests.

(** [while (work_mid > period) work_mid -= period;]; [work_mid / period] rounds
    are enough. *)
Fixpoint reduce_mid (fuel : nat) (period work_mid : Z) : Z :=
  match fuel with
  | O => work_mid
  | S f => if work_mid >? period then reduce_mid f period (work_mid - period) else work_mid
  end.

(** Step 6: the phase (plus one) and the delay of the middle of the window, in
    taps.  The middle is taken modulo the length of the eight phases. *)
Definition center_taps (work_bgn work_end : Z) : Z * Z :=
  let work_mid := u32 (work_bgn + work_end) / 2 in
  let tmp_delay := (IO_DQS_EN_PHASE_MAX + 1) * IO_DELAY_PER_OPA_TAP in
  let work_mid := reduce_mid (Z.to_nat (work_mid / tmp_delay)) tmp_delay work_mid in
  let '(p, tmp_delay) := step_to (Z.to_nat (IO_DQS_EN_PHASE_MAX + 1)) work_mid IO_DELAY_PER_OPA_TAP 0 0 in
  let tmp_delay := u32 (tmp_delay - IO_DELAY_PER_OPA_TAP) in
  let '(d, _) :=
    step_to (Z.to_nat (IO_DQS_EN_DELAY_MAX + 1)) work_mid IO_DELAY_PER_DQS_EN_DCHAIN_TAP 0 tmp_delay in
  if p =? 1 then (2, 0) else (p, d).

Section vfifo.
Context {D : Type} `{Device D}.
Abbreviation M := (M D seqvars).
Context (grp : Z).

Definition read_test (num_tries : Z) : M bool := rw_mgr_mem_calibrate_read_test_all_ranks grp num_tries false false.

Definition set_phase (p : Z) : M unit := scc_mgr_set_dqs_en_phase_all_ranks grp p.
Definition set_delay (d : Z) : M unit := scc_mgr_set_dqs_en_delay_all_ranks grp d.

(** Rounds of [for (x = x0; x <= max; x++)]. *)
Definition upto (max x0 : Z) : nat := Z.to_nat (max + 1 - x0).

(** Step 1: increment the FIFO until the second failing read.  [v] is the
    number of increments, so the loop has VFIFO_SIZE rounds. *)
Definition find_failing_read : M (option Z) :=
  let* r := for_st (Z.to_nat VFIFO_SIZE) 0 (fun _ '(v, fail_cnt) =>
    let* test_status := read_test 5 in
    let fail_cnt := if test_status then fail_cnt else fail_cnt + 1 in
    if negb test_status && (fail_cnt =? 2) then ret (inr v)
    else let* v := rw_mgr_incr_vfifo grp v in ret (inl (v, fail_cnt))) (0, 0) in
  ret (match r with inr v => Some v | inl _ => None end).

(** Where a search stopped: the FIFO count and its loop, phase, delay and time. *)
Record edge := mk_edge { e_v : Z; e_i : Z; e_p : Z; e_d : Z; e_work : Z }.

(** The phases of one round of step 2; phase 0 is not used. *)
Definition first_phase (work_bgn : Z) : M (Z + Z * Z) :=
  for_st (upto IO_DQS_EN_PHASE_MAX 0) 0 (fun p work_bgn =>
    if p =? 0 then ret (inl (u32 (work_bgn + IO_DELAY_PER_OPA_TAP))) else
    set_phase p ;;;
    let* test_status := read_test 5 in
    ret (if test_status then inr (p, work_bgn) else inl (u32 (work_bgn + IO_DELAY_PER_OPA_TAP)))) work_bgn.

(** Step 2: the first working phase, in phases, then FIFO counts, then delays. *)
Definition find_begin (dtaps_per_ptap v : Z) : M (option edge) :=
  let* r := for_st (upto dtaps_per_ptap 0) 0 (fun d '(v, tmp_delay) =>
    set_delay d ;;;
    let* r := for_st (Z.to_nat VFIFO_SIZE) 0 (fun i '(v, work_bgn) =>
      let* r := first_phase work_bgn in
      match r with
      | inr (p, work_bgn) => ret (inr (mk_edge v i p d work_bgn))
      | inl work_bgn => let* v := rw_mgr_incr_vfifo grp v in ret (inl (v, work_bgn))
      end) (v, tmp_delay) in
    match r with
    | inr e => ret (inr e)
    | inl (v, _) => ret (inl (v, u32 (tmp_delay + IO_DELAY_PER_DQS_EN_DCHAIN_TAP)))
    end) (v, 0) in
  ret (match r with inr e => Some e | inl _ => None end).

(** Step 3a: back up one phase and find the window's begin in delay taps. *)
Definition refine_begin (e : edge) : M edge :=
  let* pv := (if e_p e =? 0
              then let* v := rw_mgr_decr_vfifo grp (e_v e) in ret (IO_DQS_EN_PHASE_MAX, v)
              else ret (e_p e - 1, e_v e)) in
  let '(p, v) := pv in
  let tmp_delay := u32 (e_work e - IO_DELAY_PER_OPA_TAP) in
  let '(p, tmp_delay) := if p =? 0 then (1, e_work e) else (p, tmp_delay) in
  set_phase p ;;;
  let* r := for_st (upto IO_DQS_EN_DELAY_MAX 0) 0 (fun d tmp_delay =>
    if negb (tmp_delay <? e_work e) then ret (inr (e_work e)) else
    set_delay d ;;;
    let* test_status := read_test 5 in
    ret (if test_status then inr tmp_delay
         else inl (u32 (tmp_delay + IO_DELAY_PER_DQS_EN_DCHAIN_TAP)))) tmp_delay in
  ret (mk_edge v (e_i e) p 0 (match r with inr work_bgn => work_bgn | inl _ => e_work e end)).

(** [p = p + 1], into the next FIFO count after the last phase. *)
Definition next_phase (v p : Z) : M (Z * Z) :=
  let p := p + 1 in
  if p >? IO_DQS_EN_PHASE_MAX then let* v := rw_mgr_incr_vfifo grp v in ret (v, 0) else ret (v, p).

(** The phases of one round of step 4a. *)
Definition last_phase (p j work_bgn work_end : Z) : M (Z * Z * Z + Z * Z * Z) :=
  for_st (upto IO_DQS_EN_PHASE_MAX p) p (fun p '(j, work_bgn, work_end) =>
    let j := u32 (j + 1) in
    let next := u32 (work_end + IO_DELAY_PER_OPA_TAP) in
    if p =? 0 then ret (inl (j, work_bgn, next)) else
    set_phase p ;;;
    let* test_status := read_test 5 in
    if negb test_status && (j =? 1) then ret (inl (j, work_end, next))
    else if negb test_status then ret (inr (p, work_bgn, work_end))
    else ret (inl (j, work_bgn, next))) (j, work_bgn, work_end).

(** Step 4a: the first failing phase after the window, and the begin, which a
    failure at the first phase moves. *)
Definition find_end (v i p work_bgn work_end : Z) : M (option (edge * Z)) :=
  let* r := for_st (Z.to_nat (VFIFO_SIZE + 1 - i)) i (fun i '(v, p, j, work_bgn, work_end) =>
    let* r := last_phase p j work_bgn work_end in
    match r with
    | inr (p, work_bgn, work_end) => ret (inr (mk_edge v i p 0 work_end, work_bgn))
    | inl (j, work_bgn, work_end) =>
        let* v := rw_mgr_incr_vfifo grp v in ret (inl (v, 0, j, work_bgn, work_end))
    end) (v, p, 0, work_bgn, work_end) in
  ret (match r with inr e => Some e | inl _ => None end).

(** Back up to the last working phase. *)
Definition step_back (e : edge) : M edge :=
  let '(p, work_end) :=
    if e_p e =? 1 then (0, u32 (e_work e - IO_DELAY_PER_OPA_TAP)) else (e_p e, e_work e) in
  let* pv := (if p =? 0
              then let* v := rw_mgr_decr_vfifo grp (e_v e) in ret (IO_DQS_EN_PHASE_MAX, v)
              else ret (p - 1, e_v e)) in
  let '(p, v) := pv in
  let work_end := u32 (work_end - IO_DELAY_PER_OPA_TAP) in
  set_phase p ;;;
  ret (mk_edge v (e_i e) p 0 work_end).

(** Steps 3 and 4 when the begin was found at delay 0: the begin in time and
    the last working phase. *)
Definition phase_window (e : edge) : M (option (Z * edge)) :=
  let* b := refine_begin e in
  let* vp := next_phase (e_v b) (e_p b) in
  set_delay 0 ;;;
  let* vp := next_phase (fst vp) (snd vp) in
  let work_end := u32 (e_work e + IO_DELAY_PER_OPA_TAP) in
  let* r := find_end (fst vp) (e_i e) (snd vp) (e_work b) work_end in
  match r with
  | None => ret None
  | Some (f, work_bgn) => let* f := step_back f in ret (Some (work_bgn, f))
  end.

(** Step 5: the end in delay taps. *)
Definition refine_end (e : edge) : M (Z * Z) :=
  let* r := for_st (upto IO_DQS_EN_DELAY_MAX (e_d e)) (e_d e) (fun d work_end =>
    set_delay d ;;;
    let* test_status := read_test 5 in
    ret (if test_status then inl (u32 (work_end + IO_DELAY_PER_DQS_EN_DCHAIN_TAP)) else inr (d, work_end))) (e_work e) in
  let '(d, work_end) := match r with inr x => x | inl work_end => (IO_DQS_EN_DELAY_MAX + 1, work_end) end in
  ret (d, if d =? 0 then work_end else u32 (work_end - IO_DELAY_PER_DQS_EN_DCHAIN_TAP)).

(** Searches the delays from [d] for a read with the result [wanted]. *)
Definition find_read (wanted : bool) (d : Z) : M (option Z) :=
  let* r := for_st (upto IO_DQS_EN_DELAY_MAX d) d (fun d _ =>
    set_delay d ;;;
    let* test_status := read_test 1 in
    ret (if Bool.eqb test_status wanted then inr d else inl tt)) tt in
  ret (match r with inr d => Some d | inl _ => None end).

(** The delay taps per phase tap, measured for the tracking hardware one phase
    before the end of the window. *)
Definition measure_taps (v p d dtaps_per_ptap : Z) : M (Z * Z) :=
  let* pv := (if (p =? 0) || (p =? 1)
              then let* v := rw_mgr_decr_vfifo grp v in ret (IO_DQS_EN_PHASE_MAX, v)
              else ret (p - 1, v)) in
  let '(p, v) := pv in
  set_phase p ;;;
  let initial_failing_dtap := d in
  let* passing := find_read true d in
  match passing with
  | None => ret (v, dtaps_per_ptap)
  | Some d =>
      let* failing := find_read false (d + 1) in
      ret (v, match failing with Some d => u32 (d - initial_failing_dtap) | None => dtaps_per_ptap end)
  end.

(** Increments the FIFO until a read passes. *)
Definition push_vfifo (v : Z) : M bool :=
  let* r := for_st (Z.to_nat VFIFO_SIZE) 0 (fun _ v =>
    let* test_status := read_test 1 in
    if test_status then ret (inr tt) else let* v := rw_mgr_incr_vfifo grp v in ret (inl v)) v in
  ret (match r with inr _ => true | inl _ => false end).

(** What follows once the window [work_bgn, work_end] is known. *)
Definition center_window (v p d dtaps_per_ptap work_bgn work_end : Z) : M bool :=
  let* vt := measure_taps v p d dtaps_per_ptap in
  IOWR_32DIRECT REG_FILE_DTAPS_PER_PTAP 0 (snd vt) ;;;
  let '(p, d) := center_taps work_bgn work_end in
  set_phase (p - 1) ;;;
  set_delay d ;;;
  push_vfifo (fst vt).

Definition rw_mgr_mem_calibrate_vfifo_find_dqs_en_phase : M bool :=
  reg_file_set_sub_stage CAL_SUBSTAGE_VFIFO_CENTER ;;;
  set_delay 0 ;;;
  set_phase 1 ;;;
  let dtaps_per_ptap := taps_per IO_DELAY_PER_OPA_TAP IO_DELAY_PER_DQS_EN_DCHAIN_TAP in
  let* v := find_failing_read in
  match v with
  | None => ret false
  | Some v =>
      let* e := find_begin dtaps_per_ptap v in
      match e with
      | None => ret false
      | Some e =>
          let* w := (if e_d e =? 0 then phase_window e else ret (Some (e_work e, e))) in
          match w with
          | None => ret false
          | Some (work_bgn, f) =>
              let* de := refine_end f in
              let '(d, work_end) := de in
              if work_end >=? work_bgn then center_window (e_v f) (e_p f) d dtaps_per_ptap work_bgn work_end
              else ret false
          end
      end
  end.

End vfifo.
