(* ===== verification/SeqCenter.v ===== *)
(** The calibration sequencer's centring of the data pins around their strobe
    (rw_mgr_mem_calibrate_vfifo_center and rw_mgr_mem_calibrate_writes_center of
    sequencer.c).

    Both sweep the delay of the data pins, then that of the strobe, and record
    for each pin the last passing delay on either side; then each pin is moved so
    that its window lies around the strobe.  What they compute from the results
    of the tests are functions on the arrays left_edge and right_edge, kept here
    as one list of pairs.  IO_SHIFT_DQS_EN_WHEN_SHIFT_DQS is 0 on this board. *)

From S2P Require Import Prelude Mmio Regs SeqRegs SeqIo SeqScc SeqTests.

(** ** Edges of the windows

    [top] is the number one past the largest delay: an edge not found yet. *)

Record window := mk_window { left_edge : Z; right_edge : Z }.

(** [for (i = 0; i < n; i++) { ... bit_chk & 1 ...; bit_chk = bit_chk >> 1; }] *)
Fixpoint each_bit (f : bool -> window -> window) (bit_chk : Z) (ws : list window) : list window :=
  match ws with
  | [] => []
  | w :: ws => f (truthy (bit_chk .& 1)) w :: each_bit f (bit_chk .>> 1) ws
  end.

Definition no_edges (top n : Z) : list window := replicate (Z.to_nat n) (mk_window top top).

(** A pin's result at delay [d] of the data pins. *)
Definition left_step (top d : Z) (pass : bool) (w : window) : window :=
  if pass then mk_window d (right_edge w)
  else if left_edge w =? top then mk_window (left_edge w) (- (d + 1))
  else w.

(** After the sweep: a right edge without a left edge was no edge. *)
Definition reset_right (top : Z) (w : window) : window :=
  if (left_edge w =? top) && negb (right_edge w =? top) then mk_window (left_edge w) top else w.

(** A strobe that fails at once has its right edge behind it. *)
Definition right_behind (top : Z) (w : window) : window :=
  if (right_edge w =? top) && negb (left_edge w =? top) then mk_window (left_edge w) (-1) else w.

(** A pin's result at delay [d] of the strobe. *)
Definition right_step (top d : Z) (pass : bool) (w : window) : window :=
  if pass then mk_window (left_edge w) d
  else if negb (d =? 0) then
    if right_edge w =? top then mk_window (- (d + 1)) (right_edge w) else w
  else if (right_edge w =? top) && negb (left_edge w =? top) then mk_window (left_edge w) (-1)
  else if right_edge w =? top then mk_window (- (d + 1)) (right_edge w)
  else w.

(** [for (i = n - 1; ; i--)]: a bit per pin, the last pin first. *)
Definition sticky_of (found : window -> bool) (ws : list window) : Z :=
  fold_right (fun w sticky => u32 (sticky .<< 1) .| b2z (found w)) 0 ws.

Definition has_left (top : Z) (w : window) : bool := negb (left_edge w =? top).
Definition has_both (top : Z) (w : window) : bool := negb (left_edge w =? top) && negb (right_edge w =? top).

(** The first pin without one of its edges. *)
Fixpoint first_missing (top i : Z) (ws : list window) : option Z :=
  match ws with
  | [] => None
  | w :: ws => if (left_edge w =? top) || (right_edge w =? top) then Some i else first_missing top (i + 1) ws
  end.

Definition mid_of (w : window) : Z := left_edge w - right_edge w.

(** The smallest [left_edge - right_edge]; [left_edge\[min_index\] -
    right_edge\[min_index\]] is the same number. *)
Definition min_mid (ws : list window) : Z :=
  match ws with
  | [] => 0
  | w :: ws => fold_left (fun mid_min w => if mid_of w <? mid_min then mid_of w else mid_min) ws (mid_of w)
  end.

(** Half of it, rounded away from zero when positive. *)
Definition half_mid (mid_min : Z) : Z := Z.quot (if mid_min >? 0 then mid_min + 1 else mid_min) 2.

(** Where the strobe goes. *)
Definition new_strobe (start_dqs mid_min : Z) : Z :=
  let new_dqs := start_dqs - mid_min in
  if new_dqs >? IO_DQS_IN_DELAY_MAX then IO_DQS_IN_DELAY_MAX
  else if new_dqs <? 0 then 0
  else new_dqs.

(** How far a pin goes, before it is limited to the delays there are. *)
Definition shift_of (smallest orig_mid_min mid_min : Z) (w : window) : Z :=
  Z.quot (mid_of w - smallest) 2 + (orig_mid_min - mid_min).

(** The smallest margins so far, of the data pins and of the strobe. *)
Definition margins_step (shift_dq mid_min : Z) (w : window) (m : Z * Z) : Z * Z :=
  let '(dq_margin, dqs_margin) := m in
  (if left_edge w - shift_dq + - mid_min <? dq_margin then left_edge w - shift_dq + - mid_min else dq_margin,
   if right_edge w + shift_dq - - mid_min <? dqs_margin then right_edge w + shift_dq - - mid_min else dqs_margin).

(** ** The window of the data mask

    Positions are the negative of the mask's delay or the strobe's shift. *)

Record dm_window := mk_dm_window { bgn_curr : Z; end_curr : Z; bgn_best : Z; end_best : Z; win_best : Z }.

Definition dm_none (top : Z) : dm_window := mk_dm_window top top top top 0.

Definition dm_pass (top pos : Z) (w : dm_window) : dm_window :=
  let bgn := if bgn_curr w =? top then pos else bgn_curr w in
  if pos - bgn + 1 >? win_best w then mk_dm_window bgn pos bgn pos (pos - bgn + 1)
  else mk_dm_window bgn pos (bgn_best w) (end_best w) (win_best w).

Definition dm_fail (top : Z) (w : dm_window) : dm_window :=
  mk_dm_window top top (bgn_best w) (end_best w) (win_best w).

(** The delay of the mask, and its margin. *)
Definition dm_mid (w : dm_window) : Z :=
  let mid := Z.quot (-1 * bgn_best w - end_best w) 2 in
  if mid <? 0 then 0 else mid.

Definition dm_margin (w : dm_window) : Z := if win_best w =? 0 then -1 else -1 * bgn_best w - dm_mid w.

Section center.
Context {D : Type} `{Device D}.
Abbreviation M := (M D seqvars).

(** A sweep of [n] delays.  [test d] sets the delay and returns whether to stop
    and the bits that passed; [step] is applied to each pin, [stopped] to the
    windows when every bit of [mask] has passed before and the sweep stops. *)
Definition sweep (n : nat) (mask sticky : Z) (test : Z -> M (bool * Z)) (step : Z -> bool -> window -> window)
    (stopped : Z -> list window -> list window) (ws : list window) : M (list window + list window) :=
  let* r := for_st n 0 (fun d '(sticky_bit_chk, ws) =>
    let* r := test d in
    let '(stop, bit_chk) := r in
    let sticky_bit_chk := sticky_bit_chk .| bit_chk in
    if stop && (sticky_bit_chk =? mask) then ret (inr (stopped d ws))
    else ret (inl (sticky_bit_chk, each_bit (step d) bit_chk ws))) (sticky, ws) in
  ret (match r with inr ws => inr ws | inl (_, ws) => inl ws end).

Definition swept (r : list window + list window) : list window := match r with inl ws => ws | inr ws => ws end.

(** The shift of a pin, limited so that its delay stays within 0 and [max].
    The code reads the delay again for each use, and for the upper limit it
    reads that of pin [i], which is [p] less the first pin of the group. *)
Definition limit_shift (read : Z -> M Z) (max p i shift_dq : Z) : M Z :=
  let* delay := read p in
  if shift_dq + s32 delay >? max then let* delay := read i in ret (s32 (max - delay))
  else
    let* delay := read p in
    if shift_dq + s32 delay <? 0 then let* delay := read p in ret (- s32 delay)
    else ret shift_dq.

(** The loop that moves the pins and collects the margins. *)
Fixpoint move_pins (read : Z -> M Z) (write : Z -> Z -> M unit) (max bgn smallest orig_mid_min mid_min i : Z)
    (ws : list window) (margins : Z * Z) : M (Z * Z) :=
  match ws with
  | [] => ret margins
  | w :: ws =>
      let p := bgn + i in
      let* shift_dq := limit_shift read max p i (shift_of smallest orig_mid_min mid_min w) in
      let* delay := read p in
      write p (s32 (delay + shift_dq)) ;;;
      move_pins read write max bgn smallest orig_mid_min mid_min (i + 1) ws (margins_step shift_dq mid_min w margins)
  end.

(** ** Reading: rw_mgr_mem_calibrate_vfifo_center *)

(** The test of either sweep, by reading or by writing and reading back. *)
Definition vfifo_center_test (rank_bgn write_group read_group : Z) (use_read_test : bool) : M (bool * Z) :=
  if use_read_test then
    let* r := rw_mgr_mem_calibrate_read_test rank_bgn read_group false false false in
    ret (negb (fst r), snd r)
  else
    let* r := rw_mgr_mem_calibrate_write_test rank_bgn write_group false false false in
    let first := write_group * RW_MGR_MEM_IF_READ_DQS_WIDTH / RW_MGR_MEM_IF_WRITE_DQS_WIDTH in
    let bit_chk := snd r .>> (RW_MGR_MEM_DQ_PER_READ_DQS * (read_group - first)) in
    ret (bit_chk =? 0, bit_chk).

Definition in_top : Z := IO_IO_IN_DELAY_MAX + 1.

(** The sweep of the data pins. *)
Definition vfifo_left (rank_bgn write_group read_group test_bgn : Z) (use_read_test : bool) : M (list window) :=
  let* g := get in
  let* r := sweep (Z.to_nat in_top) (read_correct_mask g) 0 (fun d =>
      scc_mgr_apply_group_dq_in_delay write_group test_bgn d ;;;
      upd ;;;
      vfifo_center_test rank_bgn write_group read_group use_read_test)
    (left_step in_top) (fun _ ws => ws) (no_edges in_top RW_MGR_MEM_DQ_PER_READ_DQS) in
  scc_mgr_apply_group_dq_in_delay write_group test_bgn 0 ;;;
  ret (map (reset_right in_top) (swept r)).

(** The sweep of the strobe, from [start_dqs].  The bound of the loop is
    unsigned: past its largest number the loop has no end. *)
Definition vfifo_right (rank_bgn write_group read_group start_dqs : Z) (use_read_test : bool) (ws : list window) : M (list window) :=
  let* g := get in
  let last := u32 (IO_DQS_IN_DELAY_MAX - start_dqs) in
  let* r := sweep (Z.to_nat (last + 1)) (read_correct_mask g) (sticky_of (has_both in_top) ws) (fun d =>
      scc_mgr_set_dqs_bus_in_delay read_group (u32 (d + start_dqs)) ;;;
      scc_mgr_load_dqs read_group ;;;
      upd ;;;
      vfifo_center_test rank_bgn write_group read_group use_read_test)
    (right_step in_top) (fun _ ws => ws) ws in
  match r with
  | inl ws => if last =? 2 ^ 32 - 1 then nofuel else ret ws
  | inr ws => ret ws
  end.

(** A pin without an edge: the strobe goes back. *)
Definition vfifo_center_failed (read_group start_dqs i : Z) (use_read_test : bool) : M bool :=
  scc_mgr_set_dqs_bus_in_delay read_group (u32 start_dqs) ;;;
  scc_mgr_load_dqs read_group ;;;
  upd ;;;
  set_failing_group_stage (read_group * RW_MGR_MEM_DQ_PER_READ_DQS + i)
    (if use_read_test then CAL_STAGE_VFIFO else CAL_STAGE_VFIFO_AFTER_WRITES) CAL_SUBSTAGE_VFIFO_CENTER ;;;
  ret false.

(** The strobe and the pins go to the middle. *)
Definition vfifo_place (write_group read_group test_bgn start_dqs : Z) (update_fom : bool) (ws : list window) : M bool :=
  let orig_mid_min := half_mid (min_mid ws) in
  let mid_min := start_dqs - new_strobe start_dqs orig_mid_min in
  let new_dqs := start_dqs - mid_min in
  let* m := move_pins READ_SCC_DQ_IN_DELAY (fun p delay =>
      scc_mgr_set_dq_in_delay write_group p (u32 delay) ;;; scc_mgr_load_dq p)
    IO_IO_IN_DELAY_MAX test_bgn (min_mid ws) orig_mid_min mid_min 0 ws (in_top, in_top) in
  let '(dq_margin, dqs_margin) := m in
  scc_mgr_set_dqs_bus_in_delay read_group (u32 new_dqs) ;;;
  scc_mgr_load_dqs read_group ;;;
  when update_fom (modify (fun g => g <| fom_in := u32 (fom_in g +
    Z.quot (dq_margin + dqs_margin) (RW_MGR_MEM_IF_READ_DQS_WIDTH / RW_MGR_MEM_IF_WRITE_DQS_WIDTH)) |>)) ;;;
  upd ;;;
  ret ((dq_margin >=? 0) && (dqs_margin >=? 0)).

Definition rw_mgr_mem_calibrate_vfifo_center (rank_bgn write_group read_group test_bgn : Z)
    (use_read_test update_fom : bool) : M bool :=
  let* start_dqs := READ_SCC_DQS_IN_DELAY read_group in
  let start_dqs := s32 start_dqs in
  let* ws := vfifo_left rank_bgn write_group read_group test_bgn use_read_test in
  let* ws := vfifo_right rank_bgn write_group read_group start_dqs use_read_test ws in
  match first_missing in_top 0 ws with
  | Some i => vfifo_center_failed read_group start_dqs i use_read_test
  | None => vfifo_place write_group read_group test_bgn start_dqs update_fom ws
  end.

(** ** Writing: rw_mgr_mem_calibrate_writes_center *)

Definition out_top : Z := IO_IO_OUT1_DELAY_MAX + 1.

Definition writes_left (rank_bgn write_group test_bgn : Z) : M (list window) :=
  let* g := get in
  let* r := sweep (Z.to_nat out_top) (write_correct_mask g) 0 (fun d =>
      scc_mgr_apply_group_dq_out1_delay write_group test_bgn d ;;;
      upd ;;;
      let* r := rw_mgr_mem_calibrate_write_test rank_bgn write_group false false false in
      ret (negb (fst r), snd r))
    (left_step out_top) (fun _ ws => ws) (no_edges out_top RW_MGR_MEM_DQ_PER_WRITE_DQS) in
  scc_mgr_apply_group_dq_out1_delay write_group test_bgn 0 ;;;
  ret (map (reset_right out_top) (swept r)).

Definition writes_right (rank_bgn write_group start_dqs : Z) (ws : list window) : M (list window) :=
  let* g := get in
  let* r := sweep (Z.to_nat (IO_IO_OUT1_DELAY_MAX - start_dqs + 1)) (write_correct_mask g)
    (sticky_of (has_left out_top) ws) (fun d =>
      scc_mgr_apply_group_dqs_io_and_oct_out1 write_group (u32 (d + start_dqs)) ;;;
      upd ;;;
      let* r := rw_mgr_mem_calibrate_write_test rank_bgn write_group false false false in
      ret (negb (fst r), snd r))
    (right_step out_top) (fun d ws => if d =? 0 then map (right_behind out_top) ws else ws) ws in
  ret (swept r).

(** The sweeps of the data mask: its delay downwards, then the strobe's shift. *)
Definition dm_left (rank_bgn write_group : Z) : M dm_window :=
  for_acc (Z.to_nat (IO_IO_OUT1_DELAY_MAX / DELTA_D + 1)) 0 (fun k w =>
    let d := IO_IO_OUT1_DELAY_MAX - k * DELTA_D in
    scc_mgr_apply_group_dm_out1_delay write_group d ;;;
    upd ;;;
    let* r := rw_mgr_mem_calibrate_write_test rank_bgn write_group true true false in
    ret (if fst r then dm_pass out_top (- d) w else dm_fail out_top w)) (dm_none out_top).

Definition dm_right (rank_bgn write_group new_dqs : Z) (w : dm_window) : M dm_window :=
  let* r := for_st (Z.to_nat ((IO_IO_OUT1_DELAY_MAX - new_dqs) / DELTA_D + 1)) 0 (fun k w =>
    let d := k * DELTA_D in
    scc_mgr_apply_group_dqs_io_and_oct_out1 write_group (u32 (d + new_dqs)) ;;;
    upd ;;;
    let* r := rw_mgr_mem_calibrate_write_test rank_bgn write_group true true false in
    if fst r then ret (inl (dm_pass out_top d w)) else
    let w := dm_fail out_top w in
    ret (if win_best w - 1 >? IO_IO_OUT1_DELAY_MAX - new_dqs - d then inr w else inl w)) w in
  ret (match r with inl w => w | inr w => w end).

(** Centres the mask; the margin. *)
Definition dm_center (rank_bgn write_group new_dqs : Z) : M Z :=
  let* w := dm_left rank_bgn write_group in
  scc_mgr_apply_group_dm_out1_delay write_group 0 ;;;
  let w := if negb (end_curr w =? 0) then dm_fail out_top w else w in
  let* w := dm_right rank_bgn write_group new_dqs w in
  scc_mgr_apply_group_dqs_io_and_oct_out1 write_group (u32 new_dqs) ;;;
  scc_mgr_apply_group_dm_out1_delay write_group (dm_mid w) ;;;
  upd ;;;
  ret (dm_margin w).

(** The pins go to the middle; the strobe stays. *)
Definition writes_place (rank_bgn write_group start_dqs : Z) (ws : list window) : M bool :=
  let orig_mid_min := half_mid (min_mid ws) in
  let new_dqs := start_dqs in
  let mid_min := 0 in
  let* m := move_pins READ_SCC_DQ_OUT1_DELAY (fun i delay =>
      scc_mgr_set_dq_out1_delay write_group i (u32 delay) ;;; scc_mgr_load_dq i)
    IO_IO_OUT1_DELAY_MAX 0 (min_mid ws) orig_mid_min mid_min 0 ws (out_top, out_top) in
  let '(dq_margin, dqs_margin) := m in
  scc_mgr_apply_group_dqs_io_and_oct_out1 write_group (u32 new_dqs) ;;;
  upd ;;;
  let* dm_margin := dm_center rank_bgn write_group new_dqs in
  modify (fun g => g <| fom_out := u32 (fom_out g + (dq_margin + dqs_margin)) |>) ;;;
  upd ;;;
  ret ((dq_margin >=? 0) && (dqs_margin >=? 0) && (dm_margin >=? 0)).

Definition rw_mgr_mem_calibrate_writes_center (rank_bgn write_group test_bgn : Z) : M bool :=
  let* start_dqs := READ_SCC_DQS_IO_OUT1_DELAY in
  let start_dqs := s32 start_dqs in
  let* ws := writes_left rank_bgn write_group test_bgn in
  let* ws := writes_right rank_bgn write_group start_dqs ws in
  match first_missing out_top 0 ws with
  | Some i =>
      set_failing_group_stage (test_bgn + i) CAL_STAGE_WRITES CAL_SUBSTAGE_WRITES_CENTER ;;;
      ret false
  | None => writes_place rank_bgn write_group start_dqs ws
  end.

End center.
