(* ===== verification/Sequencer.v ===== *)
(** The calibration sequencer's stages and their order (sequencer.c): read
    calibration of a group, write calibration, read latency, and
    sdram_calibration, which the preloader calls.

    The levelling of writes is not done on this device; the reports of the TCL
    tools are off. *)

From S2P Require Import Prelude Mmio Regs Globals SeqRegs SeqIo SeqScc SeqTests SeqVfifo SeqCenter.

(** The programs of the read-write manager: inst_rom_init and ac_rom_init. *)
Definition inst_rom_init : list Z := [
  0x80000; 0x80680; 0x8180; 0x8200; 0x8280; 0x8300; 0x8380; 0x8100; 0x8480; 0x8500; 0x8580; 0x8600;
  0x8400; 0x800; 0x8680; 0x880; 0xa680; 0x80680; 0x900; 0x80680; 0x980; 0xa680; 0x8680; 0x80680;
  0xb68; 0xcce8; 0xae8; 0x8ce8; 0xb88; 0xec88; 0xa08; 0xac88; 0x80680; 0xce00; 0xcd80; 0xe700; 0xc00;
  0x20ce0; 0x20ce0; 0x20ce0; 0x20ce0; 0xd00; 0x680; 0x680; 0x680; 0x680; 0x60e80; 0x61080; 0x61080;
  0x61080; 0xa680; 0x8680; 0x80680; 0xce00; 0xcd80; 0xe700; 0xc00; 0x30ce0; 0x30ce0; 0x30ce0;
  0x30ce0; 0xd00; 0x680; 0x680; 0x680; 0x680; 0x70e80; 0x71080; 0x71080; 0x71080; 0xa680; 0x8680;
  0x80680; 0x1158; 0x6d8; 0x80680; 0x1168; 0x7e8; 0x7e8; 0x87e8; 0x40fe8; 0x410e8; 0x410e8; 0x410e8;
  0x1168; 0x7e8; 0x7e8; 0xa7e8; 0x80680; 0x40e88; 0x41088; 0x41088; 0x41088; 0x40f68; 0x410e8;
  0x410e8; 0x410e8; 0xa680; 0x40fe8; 0x410e8; 0x410e8; 0x410e8; 0x41008; 0x41088; 0x41088; 0x41088;
  0x1100; 0xc680; 0x8680; 0xe680; 0x80680; 0x0; 0x8000; 0xa000; 0xc000; 0x80000; 0x80; 0x8080;
  0xa080; 0xc080; 0x80080; 0x9180; 0x8680; 0xa680; 0x80680; 0x40f08; 0x80680].

Definition ac_rom_init : list Z := [
  0x20700000; 0x20780000; 0x10080431; 0x10080530; 0x10090044; 0x100a0010; 0x100b0000; 0x10380400;
  0x10080449; 0x100804c8; 0x100a0024; 0x10090008; 0x100b0000; 0x30780000; 0x38780000; 0x30780000;
  0x10680000; 0x106b0000; 0x10280400; 0x10480000; 0x1c980000; 0x1c9b0000; 0x1c980008; 0x1c9b0008;
  0x38f80000; 0x3cf80000; 0x38780000; 0x18180000; 0x18980000; 0x13580000; 0x135b0000; 0x13580008;
  0x135b0008; 0x33780000; 0x10580008; 0x10780000].

Section sequencer.
Context {D : Type} `{Device D}.
Abbreviation M := (M D seqvars).

(** ** Read calibration of a group *)

(** Spreads the delays of the data pins over the group while the strobe's
    enable is searched for. *)
Definition rw_mgr_mem_calibrate_vfifo_find_dqs_en_phase_sweep_dq_in_delay (write_group read_group test_bgn : Z) : M bool :=
  let delay_step := IO_IO_IN_DELAY_MAX / (RW_MGR_MEM_DQ_PER_READ_DQS - 1) in
  for_shadow_regs (fun r =>
    select_shadow_regs_for_update r write_group 1 ;;;
    for_each RW_MGR_MEM_DQ_PER_READ_DQS (fun i =>
      scc_mgr_set_dq_in_delay write_group (test_bgn + i) (i * delay_step) ;;;
      scc_mgr_load_dq (test_bgn + i)) ;;;
    upd) ;;;
  let* found := rw_mgr_mem_calibrate_vfifo_find_dqs_en_phase read_group in
  for_shadow_regs (fun r =>
    select_shadow_regs_for_update r write_group 1 ;;;
    for_each RW_MGR_MEM_DQ_PER_READ_DQS (fun i =>
      scc_mgr_set_dq_in_delay write_group (test_bgn + i) 0 ;;;
      scc_mgr_load_dq (test_bgn + i)) ;;;
    upd) ;;;
  ret found.

(** Number of shadow registers, the rounds of
    [for (rank_bgn = 0, sr = 0; ...; rank_bgn += NUM_RANKS_PER_SHADOW_REG, ++sr)]. *)
Definition shadow_regs : nat := Z.to_nat (RW_MGR_MEM_NUMBER_OF_RANKS / NUM_RANKS_PER_SHADOW_REG).

Definition set_dqs_in (read_group delay : Z) : M unit :=
  WRITE_SCC_DQS_IN_DELAY read_group delay ;;;
  scc_mgr_load_dqs read_group ;;;
  upd.

(** One value of the strobe's delay: the failed substage, if one fails. *)
Definition try_dqs_in (write_group read_group test_bgn orig_start_dqs dqs_in_dtaps : Z) : M (Z + unit) :=
  for_acc shadow_regs 0 (fun sr _ =>
    let* skip := skip_shadow_reg sr in
    when (negb skip) (
      select_shadow_regs_for_update (sr * NUM_RANKS_PER_SHADOW_REG) read_group 1 ;;;
      set_dqs_in read_group dqs_in_dtaps)) tt ;;;
  let* found := rw_mgr_mem_calibrate_vfifo_find_dqs_en_phase_sweep_dq_in_delay write_group read_group test_bgn in
  if found then
    let* failed := for_acc shadow_regs 0 (fun sr failed =>
      let* skip := skip_shadow_reg sr in
      if skip then ret failed else
      let rank_bgn := sr * NUM_RANKS_PER_SHADOW_REG in
      select_shadow_regs_for_update rank_bgn read_group 1 ;;;
      set_dqs_in read_group orig_start_dqs ;;;
      let* centered := rw_mgr_mem_calibrate_vfifo_center rank_bgn write_group read_group test_bgn true false in
      ret (failed || negb centered)) false in
    ret (if failed then inl CAL_SUBSTAGE_VFIFO_CENTER else inr tt)
  else ret (inl CAL_SUBSTAGE_DQS_EN_PHASE).

(** One output phase: [inl] of the failed substage. *)
Definition try_phase (write_group read_group test_bgn p failed_substage : Z) : M (Z + unit) :=
  scc_mgr_set_dqdqs_output_phase_all_ranks read_group p ;;;
  rw_mgr_mem_calibrate_read_load_patterns_all_ranks ;;;
  let* g := get in
  let* guaranteed := (if phy_debug_mode_flags g .& PHY_DEBUG_DISABLE_GUARANTEED_READ =? 0
                      then rw_mgr_mem_calibrate_read_test_patterns_all_ranks read_group else ret true) in
  if negb guaranteed then ret (inl failed_substage) else
  let* orig_start_dqs := READ_SCC_DQS_IN_DELAY read_group in
  for_st (upto IO_DQS_IN_DELAY_MAX orig_start_dqs) orig_start_dqs (fun dqs_in_dtaps _ =>
    try_dqs_in write_group read_group test_bgn orig_start_dqs dqs_in_dtaps) failed_substage.

(** Tries the output delays 0, 2, ... up to one phase, and for each the output
    phases; a failed guaranteed read ends the phases. *)
Definition rw_mgr_mem_calibrate_vfifo (read_group test_bgn : Z) : M bool :=
  reg_file_set_stage CAL_STAGE_VFIFO ;;;
  let write_group := read_group in
  let write_test_bgn := test_bgn in
  let dtaps_per_ptap := taps_per IO_DELAY_PER_OPA_TAP IO_DELAY_PER_DQS_EN_DCHAIN_TAP in
  reg_file_set_group read_group ;;;
  reg_file_set_sub_stage CAL_SUBSTAGE_GUARANTEED_READ ;;;
  let* r := for_st (Z.to_nat (dtaps_per_ptap / 2 + 1)) 0 (fun k failed_substage =>
    let d := 2 * k in
    when (d >? 0) (scc_mgr_apply_group_all_out_delay_add_all_ranks write_group write_test_bgn d) ;;;
    let* r := for_st (upto IO_DQDQS_OUT_PHASE_MAX 0) 0 (fun p failed_substage =>
      try_phase write_group read_group test_bgn p failed_substage) failed_substage in
    ret (match r with inr _ => inr (d + 2) | inl failed_substage => inl failed_substage end))
    CAL_SUBSTAGE_GUARANTEED_READ in
  match r with
  | inl failed_substage =>
      set_failing_group_stage write_group CAL_STAGE_VFIFO failed_substage ;;; ret false
  | inr d =>
      when (d >? 2) (scc_mgr_zero_group write_group write_test_bgn true) ;;; ret true
  end.

(** Centres the reads again once writes work. *)
Definition rw_mgr_mem_calibrate_vfifo_end (read_group test_bgn : Z) : M bool :=
  reg_file_set_stage CAL_STAGE_VFIFO_AFTER_WRITES ;;;
  reg_file_set_sub_stage CAL_SUBSTAGE_VFIFO_CENTER ;;;
  let write_group := read_group in
  reg_file_set_group read_group ;;;
  let* grp_calibrated := for_acc shadow_regs 0 (fun sr grp_calibrated =>
    let* skip := skip_shadow_reg sr in
    if skip then ret grp_calibrated else
    let rank_bgn := sr * NUM_RANKS_PER_SHADOW_REG in
    select_shadow_regs_for_update rank_bgn read_group 1 ;;;
    let* centered := rw_mgr_mem_calibrate_vfifo_center rank_bgn write_group read_group test_bgn false true in
    ret (grp_calibrated && centered)) true in
  if grp_calibrated then ret true
  else set_failing_group_stage write_group CAL_STAGE_VFIFO_AFTER_WRITES CAL_SUBSTAGE_VFIFO_CENTER ;;; ret false.

(** ** Read latency

    Lowers the latency until a read of all groups fails, then adds two.  The
    latency is unsigned: the loop ends when it reaches 0, after at most 2^32
    rounds.  [Some] carries found_one. *)
Definition rw_mgr_mem_calibrate_lfifo : M bool :=
  reg_file_set_stage CAL_STAGE_LFIFO ;;;
  reg_file_set_sub_stage CAL_SUBSTAGE_READ_LATENCY ;;;
  rw_mgr_mem_calibrate_read_load_patterns_all_ranks ;;;
  let* r := for_upto (2 ^ 32) (fun i =>
    let* g := get in
    IOWR_32DIRECT PHY_MGR_PHY_RLAT 0 (curr_read_lat g) ;;;
    let* pass := rw_mgr_mem_calibrate_read_test_all_ranks 0 NUM_READ_TESTS true true in
    if negb pass then ret (Some (negb (i =? 0))) else
    modify (fun g => g <| curr_read_lat := u32 (curr_read_lat g - 1) |>) ;;;
    let* g := get in
    ret (if curr_read_lat g >? 0 then None else Some true)) in
  IOWR_32DIRECT PHY_MGR_CMD_FIFO_RESET 0 0 ;;;
  match r with
  | None => nofuel
  | Some true =>
      modify (fun g => g <| curr_read_lat := u32 (curr_read_lat g + 2) |>) ;;;
      let* g := get in
      IOWR_32DIRECT PHY_MGR_PHY_RLAT 0 (curr_read_lat g) ;;;
      ret true
  | Some false =>
      set_failing_group_stage 0xff CAL_STAGE_LFIFO CAL_SUBSTAGE_READ_LATENCY ;;;
      ret false
  end.

(** ** Writes *)

Definition rw_mgr_mem_calibrate_writes (rank_bgn g test_bgn : Z) : M bool :=
  reg_file_set_stage CAL_STAGE_WRITES ;;;
  reg_file_set_sub_stage CAL_SUBSTAGE_WRITES_CENTER ;;;
  reg_file_set_group g ;;;
  let* centered := rw_mgr_mem_calibrate_writes_center rank_bgn g test_bgn in
  if centered then ret true
  else set_failing_group_stage g CAL_STAGE_WRITES CAL_SUBSTAGE_WRITES_CENTER ;;; ret false.

(** ** Latencies *)

Definition wl_to_nop_cycles (wlat : Z) : Z :=
  if truthy QUARTER_RATE_MODE then u32 (u32 (wlat + 6) / 4 - 1)
  else if truthy HALF_RATE_MODE then
    if truthy (wlat mod 2) then u32 (u32 (wlat - 1) / 2 - 1) else u32 (wlat / 2 - 1)
  else u32 (wlat - 2).

Definition max_latency : Z :=
  if truthy QUARTER_RATE_MODE then (1 .<< MAX_LATENCY_COUNT_WIDTH) / 4 - 1
  else if truthy HALF_RATE_MODE then (1 .<< MAX_LATENCY_COUNT_WIDTH) / 2 - 1
  else (1 .<< MAX_LATENCY_COUNT_WIDTH) / 1 - 1.

Definition mem_config : M unit :=
  let* wlat := IORD_32DIRECT MEM_T_WL_ADD 0 in
  let* add := IORD_32DIRECT DATA_MGR_MEM_T_ADD 0 in
  let wlat := u32 (wlat + add) in
  let wlat := u32 (wlat + 1) in
  let* rlat := IORD_32DIRECT MEM_T_RL_ADD 0 in
  modify (fun g => g <| rw_wl_nop_cycles := wl_to_nop_cycles wlat |>) ;;;
  let '(wlat, read_lat) :=
    if truthy QUARTER_RATE_MODE then (u32 (u32 (wlat + 5) / 4 + 1), u32 (u32 (rlat + 1) / 4 + 8))
    else if truthy HALF_RATE_MODE then (u32 (u32 (wlat - 1) / 2 + 1), u32 (u32 (rlat + 1) / 2 + 8))
    else (u32 (wlat + 1), u32 (rlat + 16)) in
  let read_lat := if read_lat >? max_latency then max_latency else read_lat in
  modify (fun g => g <| curr_read_lat := read_lat |>) ;;;
  IOWR_32DIRECT PHY_MGR_PHY_RLAT 0 read_lat ;;;
  modify (fun g => g <| curr_write_lat := wlat |>) ;;;
  IOWR_32DIRECT PHY_MGR_AFI_WLAT 0 (wlat - 2) ;;;
  mem_precharge_and_activate.

(** Settings without calibration, for simulations. *)
Definition mem_skip_calibrate : M unit :=
  for_shadow_regs (fun r =>
    select_shadow_regs_for_update r 0 1 ;;;
    for_each RW_MGR_MEM_IF_READ_DQS_WIDTH (fun i =>
      scc_mgr_set_dqs_en_phase i 0 ;;;
      scc_mgr_set_dqdqs_output_phase i (125 * IO_DLL_CHAIN_LENGTH / 100 - 2)) ;;;
    IOWR_32DIRECT SCC_MGR_DQS_ENA 0 0xff ;;;
    IOWR_32DIRECT SCC_MGR_DQS_IO_ENA 0 0xff ;;;
    for_each RW_MGR_MEM_IF_WRITE_DQS_WIDTH (fun i =>
      IOWR_32DIRECT SCC_MGR_GROUP_COUNTER 0 i ;;;
      IOWR_32DIRECT SCC_MGR_DQ_ENA 0 0xff ;;;
      IOWR_32DIRECT SCC_MGR_DM_ENA 0 0xff) ;;;
    upd) ;;;
  for_each RW_MGR_MEM_IF_READ_DQS_WIDTH (fun i =>
    scc_mgr_set_dqs_bus_in_delay i 10 ;;;
    scc_mgr_load_dqs i) ;;;
  upd ;;;
  for_each CALIB_VFIFO_OFFSET (fun _ =>
    IOWR_32DIRECT (if truthy HARD_PHY then PHY_MGR_CMD_INC_VFIFO_HARD_PHY else PHY_MGR_CMD_INC_VFIFO_FR) 0 0xff) ;;;
  IOWR_32DIRECT PHY_MGR_CMD_FIFO_RESET 0 0 ;;;
  modify (fun g => g <| curr_read_lat := CALIB_LFIFO_OFFSET |>) ;;;
  IOWR_32DIRECT PHY_MGR_PHY_RLAT 0 CALIB_LFIFO_OFFSET.

(** ** All groups *)

(** A failed stage: [return 0], or go on to the next group. *)
Definition stage (m : M bool) : M (bool + unit) :=
  let* ok := m in
  if ok then ret (inl false) else
  let* g := get in
  ret (if phy_debug_mode_flags g .& PHY_DEBUG_SWEEP_ALL_GROUPS =? 0 then inr tt else inl true).

(** A stage for each read group of a write group, until one fails. *)
Definition read_groups_stage (write_group : Z) (m : Z -> Z -> M bool) : M (bool + unit) :=
  let first := write_group * RW_MGR_MEM_IF_READ_DQS_WIDTH / RW_MGR_MEM_IF_WRITE_DQS_WIDTH in
  let last := (write_group + 1) * RW_MGR_MEM_IF_READ_DQS_WIDTH / RW_MGR_MEM_IF_WRITE_DQS_WIDTH in
  for_st (X := bool) (A := unit) (Z.to_nat (last - first)) 0 (fun i group_failed =>
    if group_failed then ret (inl true)
    else stage (m (first + i) (i * RW_MGR_MEM_DQ_PER_READ_DQS))) false.

Definition writes_stage (write_group write_test_bgn : Z) : M (bool + unit) :=
  for_st shadow_regs 0 (fun sr group_failed =>
    if truthy (STATIC_CALIB_STEPS .& CALIB_SKIP_WRITES) || truthy (STATIC_CALIB_STEPS .& CALIB_SKIP_DELAY_SWEEPS)
    then ret (inl group_failed) else
    let* skip := skip_shadow_reg sr in
    if skip then ret (inl group_failed) else
    let rank_bgn := sr * NUM_RANKS_PER_SHADOW_REG in
    select_shadow_regs_for_update rank_bgn write_group 1 ;;;
    let* r := stage (rw_mgr_mem_calibrate_writes rank_bgn write_group write_test_bgn) in
    ret (match r with inl failed => inl (group_failed || failed) | inr x => inr x end)) false.

(** [if (group_failed == 0)] the next stage. *)
Definition unless_failed (r : bool + unit) (m : M (bool + unit)) : M (bool + unit) :=
  match r with inl false => m | _ => ret r end.

(** One write group: [inl] of group_failed, or [return 0]. *)
Definition calibrate_group (write_group write_test_bgn : Z) : M (bool + unit) :=
  IOWR_32DIRECT SCC_MGR_GROUP_COUNTER 0 write_group ;;;
  scc_mgr_zero_group write_group write_test_bgn false ;;;
  let* r := (if truthy (STATIC_CALIB_STEPS .& CALIB_SKIP_VFIFO) then ret (inl false)
             else read_groups_stage write_group rw_mgr_mem_calibrate_vfifo) in
  let* r := unless_failed r (writes_stage write_group write_test_bgn) in
  unless_failed r (
    if truthy (STATIC_CALIB_STEPS .& CALIB_SKIP_WRITES) then ret (inl false)
    else read_groups_stage write_group rw_mgr_mem_calibrate_vfifo_end).

(** The loop over the write groups: the number of failing groups, or
    [return 0]. *)
Definition calibrate_groups : M (Z + unit) :=
  let* g := get in
  let* r := for_st (Z.to_nat RW_MGR_MEM_IF_WRITE_DQS_WIDTH) 0 (fun write_group '(run_groups, failing_groups) =>
    let write_test_bgn := write_group * RW_MGR_MEM_DQ_PER_WRITE_DQS in
    let current_run := run_groups .& ((1 .<< RW_MGR_NUM_DQS_PER_WRITE_GROUP) - 1) in
    let run_groups := run_groups .>> RW_MGR_NUM_DQS_PER_WRITE_GROUP in
    if current_run =? 0 then ret (inl (run_groups, failing_groups)) else
    let* r := calibrate_group write_group write_test_bgn in
    ret (match r with
         | inr x => inr x
         | inl group_failed => inl (run_groups, if group_failed then failing_groups + 1 else failing_groups)
         end)) (u32 (.~ skip_groups g), 0) in
  ret (match r with inl (_, failing_groups) => inl failing_groups | inr x => inr x end).

(** One round of the NUM_CALIB_REPEAT loop: [Some] is a [return 0]. *)
Definition calibrate_round : M (option unit) :=
  scc_mgr_zero_all ;;;
  let* r := calibrate_groups in
  match r with
  | inr _ => ret (Some tt)
  | inl failing_groups =>
      if negb (failing_groups =? 0) then ret (Some tt)
      else if truthy (STATIC_CALIB_STEPS .& CALIB_SKIP_LFIFO) then ret None
      else
        let* g := get in
        if negb (skip_groups g =? 0) then ret None else
        let* ok := rw_mgr_mem_calibrate_lfifo in ret (if ok then None else Some tt)
  end.

Definition mem_calibrate : M bool :=
  modify (fun g => g <| error_substage := CAL_SUBSTAGE_NIL |> <| error_stage := CAL_STAGE_NIL |>
    <| error_group := 0xff |> <| fom_in := 0 |> <| fom_out := 0 |>) ;;;
  mem_config ;;;
  let bypass_mode := if truthy HARD_PHY then 0x1 else 0x0 in
  for_each RW_MGR_MEM_IF_READ_DQS_WIDTH (fun i =>
    IOWR_32DIRECT SCC_MGR_GROUP_COUNTER 0 i ;;;
    scc_set_bypass_mode i bypass_mode) ;;;
  let* g := get in
  let* r := (if dyn_calib_steps g .& CALIB_SKIP_ALL =? CALIB_SKIP_ALL then mem_skip_calibrate ;;; ret None
             else for_upto NUM_CALIB_REPEAT (fun _ => calibrate_round)) in
  match r with
  | Some _ => ret false
  | None => upd ;;; ret true
  end.

(** ** The run *)

Definition IPRINT (m : string) : M unit := msg (String.append "SEQ.C: " m).

Definition fom_cap (fom : Z) : Z := if fom / 2 >? 0xff then 0xff else fom / 2.

(** The figures of merit of a calibration that passed. *)
Definition report_pass : M unit :=
  IPRINT "CALIBRATION PASSED" ;;;
  modify (fun g => g <| fom_in := fom_cap (fom_in g) |> <| fom_out := fom_cap (fom_out g) |>) ;;;
  let* g := get in
  let debug_info := fom_in g .| u32 (fom_out g .<< 8) in
  IOWR_32DIRECT REG_FILE_FOM 0 debug_info ;;;
  IOWR_32DIRECT PHY_MGR_CAL_DEBUG_INFO 0 debug_info ;;;
  IOWR_32DIRECT PHY_MGR_CAL_STATUS 0 PHY_MGR_CAL_SUCCESS.

(** The stage, substage and group of the first failure. *)
Definition report_fail : M unit :=
  IPRINT "CALIBRATION FAILED" ;;;
  let* g := get in
  let debug_info := error_stage g .| u32 (error_substage g .<< 8) .| u32 (error_group g .<< 16) in
  IOWR_32DIRECT REG_FILE_FAILING_STAGE 0 debug_info ;;;
  IOWR_32DIRECT PHY_MGR_CAL_DEBUG_INFO 0 debug_info ;;;
  IOWR_32DIRECT PHY_MGR_CAL_STATUS 0 PHY_MGR_CAL_FAIL ;;;
  IOWR_32DIRECT REG_FILE_FAILING_STAGE 0 debug_info.

(** Bit 22 of the controller's configuration is the tracking of the strobes,
    which is off during the run. *)
Definition run_mem_calibrate : M bool :=
  IOWR_32DIRECT PHY_MGR_CAL_STATUS 0 PHY_MGR_CAL_RESET ;;;
  let* ctrlcfg := IORD_32DIRECT CTRL_CONFIG_REG 0 in
  IOWR_32DIRECT CTRL_CONFIG_REG 0 (ctrlcfg .& 0xFFBFFFFF) ;;;
  initialize ;;;
  rw_mgr_mem_initialize ;;;
  let* pass := mem_calibrate in
  mem_precharge_and_activate ;;;
  IOWR_32DIRECT PHY_MGR_CMD_FIFO_RESET 0 0 ;;;
  let* g := get in
  when (phy_debug_mode_flags g .& PHY_DEBUG_IN_DEBUG_MODE =? 0) (
    rw_mgr_mem_handoff ;;;
    IOWR_32DIRECT PHY_MGR_MUX_SEL 0 0x2) ;;;
  IOWR_32DIRECT CTRL_CONFIG_REG 0 ctrlcfg ;;;
  (if pass then report_pass else report_fail) ;;;
  ret pass.

Definition hc_initialize_rom_data : M unit :=
  for_each (Z.of_nat (length inst_rom_init)) (fun i =>
    let* data := array_get inst_rom_init i in
    IOWR_32DIRECT RW_MGR_INST_ROM_WRITE (i .<< 2) data) ;;;
  for_each (Z.of_nat (length ac_rom_init)) (fun i =>
    let* data := array_get ac_rom_init i in
    IOWR_32DIRECT RW_MGR_AC_ROM_WRITE (i .<< 2) data).

Definition initialize_reg_file : M unit :=
  IOWR_32DIRECT REG_FILE_SIGNATURE 0 REG_FILE_INIT_SEQ_SIGNATURE ;;;
  IOWR_32DIRECT REG_FILE_DEBUG_DATA_ADDR 0 0 ;;;
  IOWR_32DIRECT REG_FILE_CUR_STAGE 0 0 ;;;
  IOWR_32DIRECT REG_FILE_FOM 0 0 ;;;
  IOWR_32DIRECT REG_FILE_FAILING_STAGE 0 0 ;;;
  IOWR_32DIRECT REG_FILE_DEBUG1 0 0 ;;;
  IOWR_32DIRECT REG_FILE_DEBUG2 0 0.

Definition trk_sample_count : Z := 7500.
Definition trk_long_idle_sample_count : Z := (10 .<< 16) .| 100.

(** The values of the three PHY control registers. *)
Definition phyctrl_0 : Z :=
  SDR_CTRLGRP_PHYCTRL_PHYCTRL_0_ACDELAYEN_SET 2 .| SDR_CTRLGRP_PHYCTRL_PHYCTRL_0_DQDELAYEN_SET 1
  .| SDR_CTRLGRP_PHYCTRL_PHYCTRL_0_DQSDELAYEN_SET 1 .| SDR_CTRLGRP_PHYCTRL_PHYCTRL_0_DQSLOGICDELAYEN_SET 1
  .| SDR_CTRLGRP_PHYCTRL_PHYCTRL_0_RESETDELAYEN_SET 0 .| SDR_CTRLGRP_PHYCTRL_PHYCTRL_0_LPDDRDIS_SET 1
  .| SDR_CTRLGRP_PHYCTRL_PHYCTRL_0_ADDLATSEL_SET 0
  .| SDR_CTRLGRP_PHYCTRL_PHYCTRL_0_SAMPLECOUNT_19_0_SET trk_sample_count.
Definition phyctrl_1 : Z :=
  SDR_CTRLGRP_PHYCTRL_PHYCTRL_1_SAMPLECOUNT_31_20_SET
    (trk_sample_count .>> SDR_CTRLGRP_PHYCTRL_PHYCTRL_0_SAMPLECOUNT_19_0_WIDTH)
  .| SDR_CTRLGRP_PHYCTRL_PHYCTRL_1_LONGIDLESAMPLECOUNT_19_0_SET trk_long_idle_sample_count.
Definition phyctrl_2 : Z :=
  SDR_CTRLGRP_PHYCTRL_PHYCTRL_2_LONGIDLESAMPLECOUNT_31_20_SET
    (trk_long_idle_sample_count .>> SDR_CTRLGRP_PHYCTRL_PHYCTRL_1_LONGIDLESAMPLECOUNT_19_0_WIDTH).

Definition initialize_hps_phy : M unit :=
  IOWR_32DIRECT BASE_MMR SDR_CTRLGRP_PHYCTRL_PHYCTRL_0_OFFSET phyctrl_0 ;;;
  IOWR_32DIRECT BASE_MMR SDR_CTRLGRP_PHYCTRL_PHYCTRL_1_OFFSET phyctrl_1 ;;;
  IOWR_32DIRECT BASE_MMR SDR_CTRLGRP_PHYCTRL_PHYCTRL_2_OFFSET phyctrl_2.

(** [x = (x << n) ^ v] on 32 bits. *)
Definition concat_field (x n v : Z) : Z := u32 (x .<< n) .^ v.

Definition initialize_tracking : M unit :=
  let dtaps_per_ptap := taps_per IO_DELAY_PER_OPA_TAP IO_DELAY_PER_DCHAIN_TAP in
  let concatenated_longidle := concat_field (0x0 .^ 10) 16 100 in
  let concatenated_delays := concat_field (concat_field (concat_field (0x0 .^ 243) 8 14) 8 10) 8 4 in
  let concatenated_rw_addr :=
    concat_field (concat_field (concat_field (0x0 .^ __RW_MGR_IDLE) 8 __RW_MGR_ACTIVATE_1) 8 __RW_MGR_SGLE_READ)
      8 __RW_MGR_PRECHARGE_ALL in
  let concatenated_refresh := concat_field (0x0 .^ __RW_MGR_REFRESH_ALL) 24 1000 in
  IOWR_32DIRECT REG_FILE_DTAPS_PER_PTAP 0 dtaps_per_ptap ;;;
  IOWR_32DIRECT REG_FILE_TRK_SAMPLE_COUNT 0 7500 ;;;
  IOWR_32DIRECT REG_FILE_TRK_LONGIDLE 0 concatenated_longidle ;;;
  IOWR_32DIRECT REG_FILE_DELAYS 0 concatenated_delays ;;;
  IOWR_32DIRECT REG_FILE_TRK_RW_MGR_ADDR 0 concatenated_rw_addr ;;;
  IOWR_32DIRECT REG_FILE_TRK_READ_DQS_WIDTH 0 RW_MGR_MEM_IF_READ_DQS_WIDTH ;;;
  IOWR_32DIRECT REG_FILE_TRK_RFSH 0 concatenated_refresh.

(** The body of sdram_calibration, on its own variables. *)
Definition sdram_calibration_body : M Z :=
  modify (fun g => g <| phy_debug_mode_flags := 0 .| PHY_DEBUG_ENABLE_CAL_RPT |>) ;;;
  initialize_reg_file ;;;
  initialize_hps_phy ;;;
  scc_mgr_initialize ;;;
  initialize_tracking ;;;
  modify (fun g => g
    <| skip_ranks := replicate (Z.to_nat RW_MGR_MEM_NUMBER_OF_RANKS) 0 |>
    <| skip_shadow_regs := replicate (Z.to_nat NUM_SHADOW_REGS) 0 |>
    <| skip_groups := 0 |>) ;;;
  IPRINT "Preparing to start memory calibration" ;;;
  hc_initialize_rom_data ;;;
  reg_file_set_stage CAL_STAGE_NIL ;;;
  reg_file_set_group 0 ;;;
  modify (fun g => g <| dyn_calib_steps := STATIC_CALIB_STEPS |>) ;;;
  modify (fun g => g <| skip_delay_mask := if dyn_calib_steps g .& CALIB_SKIP_DELAY_LOOPS =? 0 then 0xff else 0x0 |>) ;;;
  let* pass := run_mem_calibrate in
  ret (b2z pass).

End sequencer.

(** sdram_calibration as the preloader calls it.  [junk] is what its local
    variables hold before they are set. *)
Definition sdram_calibration {D} `{Device D} (junk : seqvars) : M D gdata Z :=
  zoom (fun _ => junk) (fun _ g => g) sdram_calibration_body.

(** The entry point of sdram.c that spl.c calls; a conversion to unsigned of a
    result that is 0 or 1. *)
Definition sdram_calibration_full {D} `{Device D} (junk : seqvars) : M D gdata Z := sdram_calibration junk.
