(* ===== verification/SeqBus.v ===== *)
(** Where the calibration sequencer accesses the bus, for any hardware: only the
    SDRAM controller's block, the status register and the controller's
    configuration only at the ends of a run. *)

From S2P Require Import Prelude Mmio Regs Globals SeqRegs SeqIo SeqScc SeqTests SeqVfifo SeqCenter Sequencer.

(** ** Addresses *)

Definition sdr_size : Z := 0x6000.

Lemma manager_select a : 0 <= a < 2 ^ 20 -> a .& MGR_SELECT_MASK = a / 0x8000 * 0x8000.
Proof.
  intros Ha. change MGR_SELECT_MASK with (0x1f .<< 15). rewrite <- (Z.shiftl_mul_pow2 _ 15), <- (Z.shiftr_div_pow2 _ 15) by lia.
  apply Z.bits_inj'. intros i Hi. rewrite Z.land_spec, !Z.shiftl_spec by lia.
  destruct (Z.lt_ge_cases i 15).
  - by rewrite !(Z.testbit_neg_r _ (i - 15)), andb_false_r by lia.
  - rewrite Z.shiftr_spec by lia. replace (i - 15 + 15) with i by lia.
    change 0x1f with (Z.ones 5). rewrite Z.testbit_ones_nonneg by lia.
    destruct (Z.ltb_spec (i - 15) 5); [by rewrite andb_true_r|]. rewrite andb_false_r. symmetry.
    destruct (Z.eq_dec a 0) as [->|]; [apply Z.bits_0|]. apply Z.bits_above_log2; [lia|].
    apply Z.log2_lt_pow2; [lia|]. apply Z.lt_le_trans with (2 ^ 20); [lia|]. apply Z.pow_le_mono_r; lia.
Qed.

Lemma lor_field n c y : 0 <= n -> 0 <= y < 2 ^ n -> (c * 2 ^ n) .| y = c * 2 ^ n + y.
Proof.
  intros Hn Hy. symmetry. apply Z.add_nocarry_lor. apply Z.bits_inj'. intros i Hi.
  rewrite Z.land_spec, Z.bits_0. destruct (Z.lt_ge_cases i n).
  - by rewrite Z.mul_pow2_bits_low by lia.
  - destruct (Z.eq_dec y 0) as [->|]; [by rewrite Z.bits_0, andb_false_r|].
    rewrite (Z.bits_above_log2 y), andb_false_r; [done|lia|]. apply Z.lt_le_trans with n; [|done].
    apply Z.log2_lt_pow2; lia.
Qed.

Lemma land_low a n : 0 <= n -> a .& (2 ^ n - 1) = a mod 2 ^ n.
Proof. intros. rewrite <- Z.land_ones by done. by rewrite Z.ones_equiv. Qed.

(** Evaluates the choice of the manager. *)
Ltac select_manager :=
  repeat match goal with
  | |- context [if ?c =? ?d then _ else _] => let b := eval vm_compute in (c =? d) in change (c =? d) with b; cbv iota
  end.

(** An access to the scan chain manager and to the read-write manager. *)
Lemma avl_scc x : 0 <= x < 0x1000 -> __AVL_TO_APB (0x58000 + x) = x.
Proof.
  intros Hx. unfold __AVL_TO_APB. rewrite manager_select by lia.
  replace ((0x58000 + x) / 0x8000) with 0xb by div_lia. select_manager.
  change 0xfff with (2 ^ 12 - 1). rewrite land_low by lia.
  change APB_BASE_SCC_MGR with (0 * 2 ^ 12). rewrite (lor_field 12) by (change (2 ^ 12) with 4096; div_lia). change (2 ^ 12) with 4096. div_lia.
Qed.

Lemma avl_rw x : 0 <= x < 0x2000 -> __AVL_TO_APB (0x90000 + x) = 0x2000 + x.
Proof.
  intros Hx. unfold __AVL_TO_APB. rewrite manager_select by lia.
  replace ((0x90000 + x) / 0x8000) with 0x12 by div_lia. select_manager.
  change 0x1fff with (2 ^ 13 - 1). rewrite land_low by lia.
  change APB_BASE_RW_MGR with (1 * 2 ^ 13). rewrite lor_field by (change (2 ^ 13) with 8192; div_lia). change (2 ^ 13) with 8192. div_lia.
Qed.

Lemma apb_scc o x : 0 <= o + x < 0x1000 -> apb (0x58000 + o) x = HPS_SDR_BASE + (o + x).
Proof. intros Hx. unfold apb. rewrite u32_word by (unfold word; lia). rewrite <- Z.add_assoc. by rewrite avl_scc. Qed.

Lemma apb_rw o x : 0 <= o + x < 0x2000 -> apb (0x90000 + o) x = HPS_SDR_BASE + 0x2000 + (o + x).
Proof. intros Hx. unfold apb. rewrite u32_word by (unfold word; lia). rewrite <- Z.add_assoc, avl_rw by done. lia. Qed.

(** ** Events *)

(** The controller's registers and those of its PHY. *)
Definition sdr (a : Z) : Prop := HPS_SDR_BASE <= a < HPS_SDR_BASE + sdr_size.
Definition in_sdr (e : event) : Prop := match e with Rd a _ | Wr a _ => sdr a | Msg _ => True end.

Definition status_addr : Z := apb PHY_MGR_CAL_STATUS 0.
Definition ctrlcfg_addr : Z := apb CTRL_CONFIG_REG 0.

(** Accesses in the block that leave the status and the configuration alone. *)
Definition quiet (e : event) : Prop :=
  match e with
  | Rd a _ => sdr a
  | Wr a _ => sdr a /\ a <> status_addr /\ a <> ctrlcfg_addr
  | Msg _ => False
  end.

Lemma quiet_in_sdr e : quiet e -> in_sdr e.
Proof. destruct e; cbn; tauto. Qed.

Section only_loops.
Context {D G : Type} `{Device D} (P : event -> Prop).

Lemma only_nloop_in {A} n i (body : Z -> M D G (option A)) :
  (forall j, i <= j < i + Z.of_nat n -> only P (body j)) -> only P (nloop n i body).
Proof.
  revert i. induction n as [|n IH]; intros i Hb; cbn [nloop]; [apply only_ret|].
  apply only_bind; [apply Hb; lia|]. intros [a|]; [apply only_ret|]. apply IH. intros. apply Hb. lia.
Qed.

Lemma only_upto {A} n (body : Z -> M D G (option A)) :
  (forall i, 0 <= i < n -> only P (body i)) -> only P (for_upto n body).
Proof. intros Hb s. rewrite for_upto_nloop. apply only_nloop_in. intros. apply Hb. lia. Qed.

Lemma only_each n (body : Z -> M D G unit) :
  (forall i, 0 <= i < n -> only P (body i)) -> only P (for_each n body).
Proof.
  intros Hb. apply only_bind; [|intros; apply only_ret]. apply only_upto. intros i Hi.
  apply only_bind; [by apply Hb|intros; apply only_ret].
Qed.

Lemma only_acc {X} n i (body : Z -> X -> M D G X) x :
  (forall j y, i <= j < i + Z.of_nat n -> only P (body j y)) -> only P (for_acc n i body x).
Proof.
  revert i x. induction n as [|n IH]; intros i x Hb; cbn [for_acc]; [apply only_ret|].
  apply only_bind; [apply Hb; lia|]. intros y. apply IH. intros. apply Hb. lia.
Qed.

Lemma only_st {X A} n i (body : Z -> X -> M D G (X + A)) x :
  (forall j y, i <= j < i + Z.of_nat n -> only P (body j y)) -> only P (for_st n i body x).
Proof.
  revert i x. induction n as [|n IH]; intros i x Hb; cbn [for_st]; [apply only_ret|].
  apply only_bind; [apply Hb; lia|]. intros [y|a]; [|apply only_ret]. apply IH. intros. apply Hb. lia.
Qed.

Lemma only_array_get l i : only P (array_get l i : M D G Z).
Proof. unfold array_get. hw_auto. Qed.

End only_loops.
#[export] Hint Resolve only_array_get : hw.

(** Follows the code of the sequencer. *)
Ltac seq_step :=
  match goal with
  | |- only _ (for_each _ _) => apply only_each
  | |- only _ (for_acc _ _ _ _) => apply only_acc
  | |- only _ (for_st _ _ _ _) => apply only_st
  | |- only _ (for_upto _ _) => apply only_upto
  | |- only _ (IOWR_32DIRECT _ _ _) => apply only_writel; event_ok
  | |- only _ (IORD_32DIRECT _ _) => apply only_readl; event_ok
  | |- only _ (let '_ := _ in _) => let E := fresh in case_eq E
  | |- _ => hw_step
  end; cbv beta iota zeta.
Ltac seq_only := cbv beta iota zeta; repeat seq_step.

(** A group or a pin. *)
Definition index (i : Z) : Prop := 0 <= i < 32.

(** Evaluates the bounds of loop indices. *)
Ltac eval_bounds :=
  repeat match goal with
  | H : ?lo <= ?i < ?n |- _ =>
      first [ tryif has_var n then fail else (let v := eval vm_compute in n in progress change (lo <= i < v) in H)
            | tryif has_var lo then fail else (let v := eval vm_compute in lo in progress change (v <= i < n) in H) ]
  end.
Ltac index_solve := unfold index in *; eval_bounds; lia.
Ltac scc_index := unfold index in *; rewrite Z.shiftl_mul_pow2 by lia; change (2 ^ 2) with 4; lia.
#[export] Hint Extern 1 (index _) => index_solve : hw.

Section quiet.
Context {D : Type} `{Device D}.
Abbreviation M := (M D seqvars).

(** *** Commands *)

Lemma quiet_delay n : only quiet (delay_for_n_mem_clocks n : M unit).
Proof. unfold delay_for_n_mem_clocks. seq_only. Qed.
Hint Resolve quiet_delay : hw.

Lemma quiet_rank r m : only quiet (set_rank_and_odt_mask r m : M unit).
Proof. unfold set_rank_and_odt_mask. seq_only. Qed.
Hint Resolve quiet_rank : hw.

Lemma quiet_skip_rank r : only quiet (skip_rank r : M bool).
Proof. unfold skip_rank. seq_only. Qed.
Lemma quiet_skip_shadow r : only quiet (skip_shadow_reg r : M bool).
Proof. unfold skip_shadow_reg. seq_only. Qed.
Hint Resolve quiet_skip_rank quiet_skip_shadow : hw.

Lemma quiet_mrs c : only quiet (mrs_command c : M unit).
Proof. unfold mrs_command, set_jump_as_return. seq_only. Qed.
Hint Resolve quiet_mrs : hw.

Lemma quiet_mem_initialize : only quiet (rw_mgr_mem_initialize : M unit).
Proof. unfold rw_mgr_mem_initialize, reset_command, rw_mgr_rdimm_initialize, mem_initialize_rank. seq_only. Qed.

Lemma quiet_handoff : only quiet (rw_mgr_mem_handoff : M unit).
Proof. unfold rw_mgr_mem_handoff, mem_handoff_rank. seq_only. Qed.

Lemma quiet_activate : only quiet (mem_precharge_and_activate : M unit).
Proof. unfold mem_precharge_and_activate. seq_only. Qed.
Hint Resolve quiet_mem_initialize quiet_handoff quiet_activate : hw.

Lemma quiet_failing g st sub : only quiet (set_failing_group_stage g st sub : M unit).
Proof. unfold set_failing_group_stage. seq_only. Qed.
Lemma quiet_set_group g : only quiet (reg_file_set_group g : M unit).
Proof. unfold reg_file_set_group. seq_only. Qed.
Lemma quiet_set_stage g : only quiet (reg_file_set_stage g : M unit).
Proof. unfold reg_file_set_stage. seq_only. Qed.
Lemma quiet_set_sub_stage g : only quiet (reg_file_set_sub_stage g : M unit).
Proof. unfold reg_file_set_sub_stage. seq_only. Qed.
Hint Resolve quiet_failing quiet_set_group quiet_set_stage quiet_set_sub_stage : hw.

(** *** Scan chains *)

Lemma quiet_scc o x v : 0 <= o + x < 0x1000 -> only quiet (IOWR_32DIRECT (0x58000 + o) x v : M unit).
Proof.
  intros Hx. apply only_writel. rewrite apb_scc by done. cbn. unfold sdr, sdr_size.
  change status_addr with (HPS_SDR_BASE + 0x104c). change ctrlcfg_addr with (HPS_SDR_BASE + 0x5000). lia.
Qed.

Lemma quiet_scc_read o x : 0 <= o + x < 0x1000 -> only quiet (IORD_32DIRECT (0x58000 + o) x : M Z).
Proof. intros Hx. apply only_readl. intros v. rewrite apb_scc by done. cbn. unfold sdr, sdr_size. lia. Qed.

Lemma quiet_rw o x v : 0 <= o + x < 0x2000 -> only quiet (IOWR_32DIRECT (0x90000 + o) x v : M unit).
Proof.
  intros Hx. apply only_writel. rewrite apb_rw by done. cbn. unfold sdr, sdr_size.
  change status_addr with (HPS_SDR_BASE + 0x104c). change ctrlcfg_addr with (HPS_SDR_BASE + 0x5000). lia.
Qed.


Lemma quiet_dqs_in g v : index g -> only quiet (WRITE_SCC_DQS_IN_DELAY g v : M unit).
Proof. intros. apply (quiet_scc 0x100). scc_index. Qed.
Lemma quiet_dqs_en_delay g v : index g -> only quiet (WRITE_SCC_DQS_EN_DELAY g v : M unit).
Proof. intros. apply (quiet_scc 0x300). scc_index. Qed.
Lemma quiet_dqs_en_phase g v : index g -> only quiet (WRITE_SCC_DQS_EN_PHASE g v : M unit).
Proof. intros. apply (quiet_scc 0x200). scc_index. Qed.
Lemma quiet_dqdqs g v : index g -> only quiet (WRITE_SCC_DQDQS_OUT_PHASE g v : M unit).
Proof. intros. apply (quiet_scc 0x400). scc_index. Qed.
Lemma quiet_oct g v : index g -> only quiet (WRITE_SCC_OCT_OUT1_DELAY g v : M unit).
Proof. intros. apply (quiet_scc 0x500). scc_index. Qed.
Lemma quiet_dq_out g v : index g -> only quiet (WRITE_SCC_DQ_OUT1_DELAY g v : M unit).
Proof. intros. apply (quiet_scc 0x700). scc_index. Qed.
Lemma quiet_dq_in g v : index g -> only quiet (WRITE_SCC_DQ_IN_DELAY g v : M unit).
Proof. intros. apply (quiet_scc 0x900). scc_index. Qed.
Lemma quiet_dm_out g v : index g -> only quiet (WRITE_SCC_DM_IO_OUT1_DELAY g v : M unit).
Proof. intros. apply (quiet_scc 0x700). change RW_MGR_MEM_DQ_PER_WRITE_DQS with 8. scc_index. Qed.
Lemma quiet_dm_in g v : index g -> only quiet (WRITE_SCC_DM_IO_IN_DELAY g v : M unit).
Proof. intros. apply (quiet_scc 0x900). change RW_MGR_MEM_DQ_PER_WRITE_DQS with 8. scc_index. Qed.
Lemma quiet_read_dqs_in g : index g -> only quiet (READ_SCC_DQS_IN_DELAY g : M Z).
Proof. intros. apply (quiet_scc_read 0x100). scc_index. Qed.
Lemma quiet_read_dq_out g : index g -> only quiet (READ_SCC_DQ_OUT1_DELAY g : M Z).
Proof. intros. apply (quiet_scc_read 0x700). scc_index. Qed.
Lemma quiet_read_dq_in g : index g -> only quiet (READ_SCC_DQ_IN_DELAY g : M Z).
Proof. intros. apply (quiet_scc_read 0x900). scc_index. Qed.
Hint Resolve quiet_dqs_in quiet_dqs_en_delay quiet_dqs_en_phase quiet_dqdqs quiet_oct quiet_dq_out quiet_dq_in
  quiet_dm_out quiet_dm_in quiet_read_dqs_in quiet_read_dq_out quiet_read_dq_in : hw.

Lemma read_groups_range g i : 0 <= g < 4 -> 0 <= i < (g + 1) * RW_MGR_MEM_IF_READ_DQS_WIDTH / RW_MGR_MEM_IF_WRITE_DQS_WIDTH -
    g * RW_MGR_MEM_IF_READ_DQS_WIDTH / RW_MGR_MEM_IF_WRITE_DQS_WIDTH ->
  i = 0 /\ g * RW_MGR_MEM_IF_READ_DQS_WIDTH / RW_MGR_MEM_IF_WRITE_DQS_WIDTH = g.
Proof.
  change RW_MGR_MEM_IF_READ_DQS_WIDTH with 4. change RW_MGR_MEM_IF_WRITE_DQS_WIDTH with 4. intros Hg Hi.
  rewrite !Z.div_mul in * by lia. lia.
Qed.

Lemma quiet_read_groups g body : 0 <= g < 4 -> only quiet (body g) -> only quiet (for_read_groups g body : M unit).
Proof.
  intros Hg Hb. unfold for_read_groups. apply only_each. intros i Hi.
  destruct (read_groups_range g i Hg Hi) as [-> ->]. by rewrite Z.add_0_r.
Qed.

Ltac scc_step :=
  match goal with
  | |- only _ (for_read_groups _ _) => apply quiet_read_groups; [eval_bounds; lia|]
  | |- only _ (for_shadow_regs _) => unfold for_shadow_regs
  | |- only _ (select_shadow_regs_for_update _ _ _) => apply only_ret
  | |- only _ upd => unfold upd
  | |- only _ (WRITE_SCC_DQ_OUT2_DELAY _ _) => apply only_ret
  | |- only _ (WRITE_SCC_DM_IO_OUT2_DELAY _ _) => apply only_ret
  | |- only _ (WRITE_SCC_DQS_IO_OUT2_DELAY _) => apply only_ret
  | |- only _ (WRITE_SCC_OCT_OUT2_DELAY _ _) => apply only_ret
  | |- only _ (WRITE_SCC_DQS_IO_IN_DELAY _) => unfold WRITE_SCC_DQS_IO_IN_DELAY
  | |- only _ (WRITE_SCC_DQS_IO_OUT1_DELAY _) => unfold WRITE_SCC_DQS_IO_OUT1_DELAY
  | |- only _ READ_SCC_DQS_IO_OUT1_DELAY => unfold READ_SCC_DQS_IO_OUT1_DELAY
  | |- _ => seq_step
  end.
Ltac scc_only := cbv beta iota zeta; repeat scc_step.

Lemma quiet_zero_all : only quiet (scc_mgr_zero_all : M unit).
Proof.
  unfold scc_mgr_zero_all, scc_mgr_set_dqs_bus_in_delay, scc_mgr_set_dqs_en_phase, scc_mgr_set_dqs_en_delay,
    scc_mgr_set_dqdqs_output_phase, scc_mgr_set_oct_out1_delay. scc_only.
Qed.

Lemma quiet_bypass g m : only quiet (scc_set_bypass_mode g m : M unit).
Proof. unfold scc_set_bypass_mode, scc_mgr_set_hhp_extras, WRITE_SCC_HHP_EXTRAS. scc_only. Qed.

Lemma quiet_phase_all g p : index g -> only quiet (scc_mgr_set_dqs_en_phase_all_ranks g p : M unit).
Proof. intros. unfold scc_mgr_set_dqs_en_phase_all_ranks, scc_mgr_set_dqs_en_phase. scc_only. Qed.
Lemma quiet_delay_all g p : index g -> only quiet (scc_mgr_set_dqs_en_delay_all_ranks g p : M unit).
Proof. intros. unfold scc_mgr_set_dqs_en_delay_all_ranks, scc_mgr_set_dqs_en_delay. scc_only. Qed.
Lemma quiet_out_phase_all g p : index g -> only quiet (scc_mgr_set_dqdqs_output_phase_all_ranks g p : M unit).
Proof. intros. unfold scc_mgr_set_dqdqs_output_phase_all_ranks, scc_mgr_set_dqdqs_output_phase. scc_only. Qed.

Lemma quiet_zero_group g t o : 0 <= g < 4 -> only quiet (scc_mgr_zero_group g t o : M unit).
Proof.
  intros. unfold scc_mgr_zero_group, scc_mgr_set_dq_out1_delay, scc_mgr_set_dq_out2_delay, scc_mgr_set_dq_in_delay,
    scc_mgr_set_dm_in_delay, scc_mgr_set_dm_out1_delay, scc_mgr_set_dm_out2_delay, scc_mgr_set_dqs_io_in_delay,
    scc_mgr_set_dqs_out1_delay, scc_mgr_set_oct_out1_delay, scc_mgr_load_dqs_for_write_group. scc_only.
Qed.
Hint Resolve quiet_zero_all quiet_bypass quiet_phase_all quiet_delay_all quiet_out_phase_all quiet_zero_group : hw.

Lemma quiet_dq_in_group g b d : 0 <= b <= 24 -> only quiet (scc_mgr_apply_group_dq_in_delay g b d : M unit).
Proof. intros. unfold scc_mgr_apply_group_dq_in_delay, scc_mgr_set_dq_in_delay, scc_mgr_load_dq. scc_only. Qed.
Lemma quiet_dq_out_group g b d : only quiet (scc_mgr_apply_group_dq_out1_delay g b d : M unit).
Proof. intros. unfold scc_mgr_apply_group_dq_out1_delay, scc_mgr_set_dq_out1_delay, scc_mgr_load_dq. scc_only. Qed.
Lemma quiet_dm_group g d : only quiet (scc_mgr_apply_group_dm_out1_delay g d : M unit).
Proof. intros. unfold scc_mgr_apply_group_dm_out1_delay, scc_mgr_set_dm_out1_delay, scc_mgr_load_dm. scc_only. Qed.
Lemma quiet_dqs_out_group g d : 0 <= g < 4 -> only quiet (scc_mgr_apply_group_dqs_io_and_oct_out1 g d : M unit).
Proof.
  intros. unfold scc_mgr_apply_group_dqs_io_and_oct_out1, scc_mgr_set_dqs_out1_delay, scc_mgr_load_dqs_io,
    scc_mgr_set_oct_out1_delay, scc_mgr_load_dqs_for_write_group. scc_only.
Qed.
Lemma quiet_all_out_add g b d : 0 <= g < 4 -> only quiet (scc_mgr_apply_group_all_out_delay_add_all_ranks g b d : M unit).
Proof.
  intros. unfold scc_mgr_apply_group_all_out_delay_add_all_ranks, scc_mgr_apply_group_all_out_delay_add,
    READ_SCC_DQ_OUT2_DELAY, READ_SCC_DM_IO_OUT2_DELAY, READ_SCC_DQS_IO_OUT2_DELAY, READ_SCC_OCT_OUT2_DELAY,
    scc_mgr_set_dq_out2_delay, scc_mgr_set_dm_out2_delay, scc_mgr_set_dqs_out1_delay, scc_mgr_set_dqs_out2_delay,
    scc_mgr_set_oct_out1_delay, scc_mgr_set_oct_out2_delay, scc_mgr_load_dq, scc_mgr_load_dm, scc_mgr_load_dqs_io,
    scc_mgr_load_dqs_for_write_group. scc_only.
Qed.
Hint Resolve quiet_dq_in_group quiet_dq_out_group quiet_dm_group quiet_dqs_out_group quiet_all_out_add : hw.

(** *** Tests *)

Lemma quiet_run g v : index g -> only quiet (IOWR_32DIRECT RW_MGR_RUN_SINGLE_GROUP (g .<< 2) v : M unit).
Proof. intros. apply (quiet_rw 0). scc_index. Qed.
Lemma quiet_run_vg g vg n v : index g -> n = 1 -> vg = 0 ->
  only quiet (IOWR_32DIRECT RW_MGR_RUN_SINGLE_GROUP ((g * n + vg) .<< 2) v : M unit).
Proof. intros ? -> ->. rewrite Z.mul_1_r, Z.add_0_r. by apply quiet_run. Qed.
Lemma quiet_run_all g vg n v : index g -> n = 1 -> vg = 0 ->
  only quiet (IOWR_32DIRECT RW_MGR_RUN_ALL_GROUPS ((g * n + vg) .<< 2) v : M unit).
Proof. intros ? -> ->. rewrite Z.mul_1_r, Z.add_0_r. apply (quiet_rw 0x400). scc_index. Qed.

Lemma quiet_virtual n w m issue : n = 1 -> only quiet (issue 0) -> only quiet (for_virtual_groups n w m issue : M Z).
Proof.
  intros -> Hi. unfold for_virtual_groups. apply only_acc. intros i t Hr. eval_bounds. replace i with 0 by lia.
  apply only_bind; [exact Hi|]. seq_only.
Qed.

Lemma quiet_ranks b a m test : (forall r, only quiet (test r)) -> only quiet (for_ranks b a m test : M Z).
Proof. intros Ht. unfold for_ranks. scc_only. Qed.

Ltac test_step :=
  match goal with
  | |- only _ (for_ranks _ _ _ _) => apply quiet_ranks; intros ?
  | |- only _ (for_virtual_groups _ _ _ _) => apply quiet_virtual; [reflexivity|]
  | |- only _ (IOWR_32DIRECT RW_MGR_RUN_SINGLE_GROUP (?g .<< 2) _) => apply quiet_run; index_solve
  | |- only _ (IOWR_32DIRECT RW_MGR_RUN_SINGLE_GROUP ((_ * _ + _) .<< 2) _) => apply quiet_run_vg; [index_solve|reflexivity..]
  | |- only _ (IOWR_32DIRECT RW_MGR_RUN_ALL_GROUPS _ _) => apply quiet_run_all; [index_solve|reflexivity..]
  | |- only _ (IOWR_32DIRECT (if ?b then _ else _) _ _) => destruct b
  | |- only _ reset_read_path => unfold reset_read_path
  | |- _ => scc_step
  end.
Ltac test_only := cbv beta iota zeta; repeat test_step.

Lemma quiet_patterns b g a : index g -> only quiet (rw_mgr_mem_calibrate_read_test_patterns b g a : M (bool * Z)).
Proof. intros. unfold rw_mgr_mem_calibrate_read_test_patterns. test_only. Qed.
Hint Resolve quiet_patterns : hw.
Lemma quiet_patterns_all g : index g -> only quiet (rw_mgr_mem_calibrate_read_test_patterns_all_ranks g : M bool).
Proof. intros. unfold rw_mgr_mem_calibrate_read_test_patterns_all_ranks. test_only. Qed.
Lemma quiet_load_patterns : only quiet (rw_mgr_mem_calibrate_read_load_patterns_all_ranks : M unit).
Proof. unfold rw_mgr_mem_calibrate_read_load_patterns_all_ranks, rw_mgr_mem_calibrate_read_load_patterns. test_only. Qed.
Hint Resolve quiet_patterns_all quiet_load_patterns : hw.

Lemma quiet_read_test b g c ag ar : index g -> only quiet (rw_mgr_mem_calibrate_read_test b g c ag ar : M (bool * Z)).
Proof. intros. unfold rw_mgr_mem_calibrate_read_test, read_test_rank. test_only. Qed.
Hint Resolve quiet_read_test : hw.
Lemma quiet_read_tests g n c ag : index g -> only quiet (rw_mgr_mem_calibrate_read_test_all_ranks g n c ag : M bool).
Proof. intros. unfold rw_mgr_mem_calibrate_read_test_all_ranks. test_only. Qed.

Lemma quiet_program n dm : only quiet (write_test_program n dm : M Z).
Proof. unfold write_test_program. test_only. Qed.
Hint Resolve quiet_program : hw.
Lemma quiet_write_test b g dm c ar : index g -> only quiet (rw_mgr_mem_calibrate_write_test b g dm c ar : M (bool * Z)).
Proof. intros. unfold rw_mgr_mem_calibrate_write_test, rw_mgr_mem_calibrate_write_test_issue. test_only. Qed.
Hint Resolve quiet_read_tests quiet_write_test : hw.

(** *** The search for the strobe's enable *)

Lemma quiet_incr g v : only quiet (rw_mgr_incr_vfifo g v : M Z).
Proof. unfold rw_mgr_incr_vfifo. test_only. Qed.
Hint Resolve quiet_incr : hw.
Lemma quiet_decr g v : only quiet (rw_mgr_decr_vfifo g v : M Z).
Proof. unfold rw_mgr_decr_vfifo. test_only. Qed.
Hint Resolve quiet_decr : hw.

Section vfifo.
Context (g : Z) (Hg : index g).

Lemma quiet_vread n : only quiet (SeqVfifo.read_test g n : M bool).
Proof. by apply quiet_read_tests. Qed.
Lemma quiet_set_phase p : only quiet (set_phase g p : M unit).
Proof. by apply quiet_phase_all. Qed.
Lemma quiet_set_delay p : only quiet (set_delay g p : M unit).
Proof. by apply quiet_delay_all. Qed.
Hint Resolve quiet_vread quiet_set_phase quiet_set_delay : hw.

Lemma quiet_find_dqs_en_phase : only quiet (rw_mgr_mem_calibrate_vfifo_find_dqs_en_phase g : M bool).
Proof.
  unfold rw_mgr_mem_calibrate_vfifo_find_dqs_en_phase, find_failing_read, find_begin, first_phase, phase_window, refine_begin,
    next_phase, find_end, last_phase, step_back, refine_end, center_window, measure_taps, find_read, push_vfifo.
  test_only.
Qed.

End vfifo.
Hint Resolve quiet_find_dqs_en_phase : hw.

(** *** Centring *)

Lemma quiet_sweep n mask sticky test step st ws :
  (forall d, only quiet (test d)) -> only quiet (sweep n mask sticky test step st ws : M (list window + list window)).
Proof. intros Ht. unfold sweep. test_only. Qed.

Lemma quiet_limit read max p i x : index p -> index i ->
  (forall k, index k -> only quiet (read k)) -> only quiet (limit_shift read max p i x : M Z).
Proof. intros ? ? Hr. unfold limit_shift. test_only. Qed.
Hint Resolve quiet_limit : hw.

Lemma quiet_move read write max b x y z i ws m : 0 <= i -> 0 <= b -> b + i + Z.of_nat (length ws) <= 32 ->
  (forall k, index k -> only quiet (read k)) -> (forall k v, index k -> only quiet (write k v)) ->
  only quiet (move_pins read write max b x y z i ws m : M (Z * Z)).
Proof.
  intros Hi Hb Hl Hr Hw. revert i m Hi Hl. induction ws as [|w ws IH]; intros i m Hi Hl; cbn [move_pins]; [apply only_ret|].
  cbn [length] in Hl. cbv zeta. apply only_bind; [apply quiet_limit; [index_solve..|done]|intros ?].
  apply only_bind; [apply Hr; index_solve|intros ?]. apply only_bind; [apply Hw; index_solve|intros _].
  apply IH; lia.
Qed.

(** The number of pins stays the same through a sweep. *)
Lemma each_bit_length f b ws : length (each_bit f b ws) = length ws.
Proof. revert b. induction ws as [|w ws IH]; intros b; cbn; [done|]. by rewrite IH. Qed.

(** What a program returns, if it does. *)
Definition returns {A} (R : A -> Prop) (m : M A) : Prop := forall s a, out (m s) = Val a -> R a.

Lemma returns_ret {A} (R : A -> Prop) a : R a -> returns R (ret a).
Proof. intros Ha s b [= <-]. done. Qed.

Lemma returns_bind {A B} (Q : A -> Prop) (R : B -> Prop) (m : M A) k :
  returns Q m -> (forall a, Q a -> returns R (k a)) -> returns R (bind m k).
Proof.
  intros Hm Hk s b. unfold bind. destruct (out (m s)) eqn:E; [|done]. cbn. apply Hk. by apply (Hm s).
Qed.

Lemma returns_any {A} (m : M A) : returns (fun _ => True) m.
Proof. done. Qed.

Lemma returns_stopped {A} (R : A -> Prop) w : returns R (stopped w : M A).
Proof. intros s a. done. Qed.

Lemma only_returns {A B} (R : A -> Prop) P (m : M A) (k : A -> M B) :
  only P m -> returns R m -> (forall a, R a -> only P (k a)) -> only P (bind m k).
Proof.
  intros Hm Hr Hk s. unfold bind. specialize (Hm s). destruct (out (m s)) eqn:E; cbn; [|done].
  apply Forall_app. split; [done|]. apply Hk. by apply (Hr s).
Qed.

Lemma returns_st {X A} (I : X -> Prop) (R : A -> Prop) n i (body : Z -> X -> M (X + A)) x :
  I x -> (forall j y, I y -> returns (fun r => match r with inl y => I y | inr a => R a end) (body j y)) ->
  returns (fun r => match r with inl y => I y | inr a => R a end) (for_st n i body x).
Proof.
  intros Hx Hb. revert i x Hx. induction n as [|n IH]; intros i x Hx; cbn [for_st]; [by apply returns_ret|].
  eapply returns_bind; [by apply Hb|]. intros [y|a] Hy; [by apply IH|by apply returns_ret].
Qed.

Lemma returns_sweep n mask sticky test step st ws :
  (forall d ws, length (st d ws) = length ws) ->
  returns (fun r => length (swept r) = length ws) (sweep n mask sticky test step st ws : M (list window + list window)).
Proof.
  intros Hst. unfold sweep. eapply returns_bind.
  - apply (returns_st (fun x => length (snd x) = length ws) (fun l => length l = length ws)); [done|].
    intros d [sticky' ws'] Hl. cbn [snd] in *. eapply returns_bind; [apply returns_any|]. intros [stop bits] _. cbv zeta.
    destruct (stop && _); apply returns_ret; cbn; [by rewrite Hst|by rewrite each_bit_length].
  - intros [[sticky' ws']|ws'] Hl; by apply returns_ret.
Qed.

(** A sweep and what is done with its windows. *)
Lemma quiet_swept {B} n mask sticky test step st ws (k : list window + list window -> M B) :
  (forall d, only quiet (test d)) -> (forall d ws, length (st d ws) = length ws) ->
  (forall r, length (swept r) = length ws -> only quiet (k r)) ->
  only quiet (let* r := sweep n mask sticky test step st ws in k r).
Proof. intros Ht Hst. apply only_returns; [by apply quiet_sweep|by apply returns_sweep]. Qed.

Lemma quiet_center_test b wg rg u : index wg -> index rg -> only quiet (vfifo_center_test b wg rg u : M (bool * Z)).
Proof. intros. unfold vfifo_center_test. test_only. Qed.
Hint Resolve quiet_center_test : hw.

Lemma quiet_vfifo_left b wg rg t u : index wg -> index rg -> 0 <= t <= 24 ->
  only quiet (vfifo_left b wg rg t u : M (list window)) /\
  returns (fun ws => length ws = 8%nat) (vfifo_left b wg rg t u : M (list window)).
Proof.
  intros. unfold vfifo_left. split.
  - apply only_bind; [apply only_get|intros ?]. apply only_bind; [apply quiet_sweep; intros; test_only|]. intros. test_only.
  - eapply returns_bind; [apply returns_any|]. intros g0 _. eapply returns_bind; [by apply returns_sweep|].
    intros r Hr. eapply returns_bind; [apply returns_any|]. intros _ _. apply returns_ret. by rewrite length_map, Hr.
Qed.

Lemma quiet_vfifo_right b wg rg sd u ws : index wg -> index rg ->
  only quiet (vfifo_right b wg rg sd u ws : M (list window)) /\
  returns (fun ws' => length ws' = length ws) (vfifo_right b wg rg sd u ws : M (list window)).
Proof.
  intros. unfold vfifo_right. split.
  - apply only_bind; [apply only_get|intros ?]. cbv zeta. apply only_bind; [|intros ?; test_only].
    apply quiet_sweep. intros. unfold scc_mgr_set_dqs_bus_in_delay, scc_mgr_load_dqs. test_only.
  - eapply returns_bind; [apply returns_any|]. intros g0 _. cbv zeta. eapply returns_bind; [by apply returns_sweep|].
    intros [r|r] Hr; [destruct (_ =? _); [apply returns_stopped|]|]; by apply returns_ret.
Qed.

Lemma quiet_vfifo_center b wg rg t u f : 0 <= wg < 4 -> index rg -> 0 <= t <= 24 ->
  only quiet (rw_mgr_mem_calibrate_vfifo_center b wg rg t u f : M bool).
Proof.
  intros. assert (index wg) by index_solve. unfold rw_mgr_mem_calibrate_vfifo_center. apply only_bind; [by apply quiet_read_dqs_in|intros ?].
  cbv zeta. eapply only_returns; [apply (quiet_vfifo_left b wg rg t u); done..|]. intros ws1 Hl1. cbv beta in *.
  eapply only_returns; [apply (quiet_vfifo_right b wg rg); done..|]. intros ws Hl. cbv beta in *.
  unfold vfifo_center_failed, vfifo_place, scc_mgr_set_dqs_bus_in_delay, scc_mgr_load_dqs. destruct (first_missing _ _ ws); [test_only|].
  cbv zeta. apply only_bind; [|intros []; test_only]. apply quiet_move; [lia..| |].
  - intros. by apply quiet_read_dq_in.
  - intros. unfold scc_mgr_set_dq_in_delay, scc_mgr_load_dq. test_only.
Qed.
Hint Resolve quiet_vfifo_center : hw.

Lemma quiet_writes_left b wg t : index wg ->
  only quiet (writes_left b wg t : M (list window)) /\
  returns (fun ws => length ws = 8%nat) (writes_left b wg t : M (list window)).
Proof.
  intros. unfold writes_left. split.
  - apply only_bind; [apply only_get|intros ?]. apply only_bind; [apply quiet_sweep; intros; test_only|]. intros. test_only.
  - eapply returns_bind; [apply returns_any|]. intros g0 _. eapply returns_bind; [by apply returns_sweep|].
    intros r Hr. eapply returns_bind; [apply returns_any|]. intros _ _. apply returns_ret. by rewrite length_map, Hr.
Qed.

Lemma quiet_writes_right b wg sd ws : 0 <= wg < 4 ->
  only quiet (writes_right b wg sd ws : M (list window)) /\
  returns (fun ws' => length ws' = length ws) (writes_right b wg sd ws : M (list window)).
Proof.
  intros. assert (index wg) by index_solve. unfold writes_right. split.
  - apply only_bind; [apply only_get|intros ?]. apply only_bind; [|intros; apply only_ret]. apply quiet_sweep. intros. test_only.
  - eapply returns_bind; [apply returns_any|]. intros g0 _. eapply returns_bind.
    + apply returns_sweep. intros d l. destruct (d =? 0); [by rewrite length_map|done].
    + intros r Hr. by apply returns_ret.
Qed.

Lemma quiet_dm_center b wg nd : 0 <= wg < 4 -> only quiet (dm_center b wg nd : M Z).
Proof. intros. assert (index wg) by index_solve. unfold dm_center, dm_left, dm_right. test_only. Qed.
Hint Resolve quiet_dm_center : hw.

Lemma quiet_writes_center b wg t : 0 <= wg < 4 -> only quiet (rw_mgr_mem_calibrate_writes_center b wg t : M bool).
Proof.
  intros. assert (index wg) by index_solve. unfold rw_mgr_mem_calibrate_writes_center. apply only_bind; [test_only|intros ?].
  cbv zeta. eapply only_returns; [apply (quiet_writes_left b wg t); done..|]. intros ws1 Hl1. cbv beta in *.
  eapply only_returns; [apply (quiet_writes_right b wg); done..|]. intros ws Hl. cbv beta in *.
  unfold writes_place. destruct (first_missing _ _ ws); [test_only|].
  cbv zeta. apply only_bind; [|intros []; test_only]. apply quiet_move; [lia..| |].
  - intros. by apply quiet_read_dq_out.
  - intros. unfold scc_mgr_set_dq_out1_delay, scc_mgr_load_dq. test_only.
Qed.
Hint Resolve quiet_writes_center : hw.

(** *** Stages *)

Lemma quiet_sweep_dq_in wg rg t : index rg -> 0 <= t <= 24 ->
  only quiet (rw_mgr_mem_calibrate_vfifo_find_dqs_en_phase_sweep_dq_in_delay wg rg t : M bool).
Proof.
  intros. unfold rw_mgr_mem_calibrate_vfifo_find_dqs_en_phase_sweep_dq_in_delay, scc_mgr_set_dq_in_delay, scc_mgr_load_dq. test_only.
Qed.
Hint Resolve quiet_sweep_dq_in : hw.

Lemma quiet_vfifo g t : 0 <= g < 4 -> 0 <= t <= 24 -> only quiet (rw_mgr_mem_calibrate_vfifo g t : M bool).
Proof.
  intros. assert (index g) by index_solve.
  unfold rw_mgr_mem_calibrate_vfifo, try_phase, try_dqs_in, set_dqs_in, scc_mgr_load_dqs. test_only.
Qed.

Lemma quiet_vfifo_end g t : 0 <= g < 4 -> 0 <= t <= 24 -> only quiet (rw_mgr_mem_calibrate_vfifo_end g t : M bool).
Proof. intros. assert (index g) by index_solve. unfold rw_mgr_mem_calibrate_vfifo_end. test_only. Qed.

Lemma quiet_lfifo : only quiet (rw_mgr_mem_calibrate_lfifo : M bool).
Proof. unfold rw_mgr_mem_calibrate_lfifo. test_only. Qed.

Lemma quiet_writes b g t : 0 <= g < 4 -> only quiet (rw_mgr_mem_calibrate_writes b g t : M bool).
Proof. intros. unfold rw_mgr_mem_calibrate_writes. test_only. Qed.

Lemma quiet_config : only quiet (mem_config : M unit).
Proof. unfold mem_config. test_only. Qed.

Lemma quiet_skip_calibrate : only quiet (mem_skip_calibrate : M unit).
Proof.
  unfold mem_skip_calibrate, scc_mgr_set_dqs_en_phase, scc_mgr_set_dqdqs_output_phase, scc_mgr_set_dqs_bus_in_delay, scc_mgr_load_dqs.
  test_only.
Qed.
Hint Resolve quiet_vfifo quiet_vfifo_end quiet_lfifo quiet_writes quiet_config quiet_skip_calibrate : hw.

Lemma quiet_read_stage g (m : Z -> Z -> M bool) : 0 <= g < 4 -> only quiet (m g 0) -> only quiet (read_groups_stage g m).
Proof.
  intros Hg Hm. unfold read_groups_stage. cbv zeta. apply only_st. intros i x Hi.
  destruct (read_groups_range g i Hg) as [-> ->]; [lia|]. rewrite Z.add_0_r, Z.mul_0_l. unfold stage. test_only.
Qed.

Lemma quiet_group g t : 0 <= g < 4 -> only quiet (calibrate_group g t : M (bool + unit)).
Proof.
  intros. unfold calibrate_group, unless_failed, writes_stage, stage. test_only.
  - apply quiet_read_stage; [done|]. apply quiet_vfifo; lia.
  - apply quiet_read_stage; [done|]. apply quiet_vfifo_end; lia.
Qed.
Hint Resolve quiet_group : hw.

Lemma quiet_mem_calibrate : only quiet (mem_calibrate : M bool).
Proof. unfold mem_calibrate, calibrate_round, calibrate_groups. test_only. Qed.

Lemma quiet_give_back (b : bool) : only quiet (when b (rw_mgr_mem_handoff ;;; IOWR_32DIRECT PHY_MGR_MUX_SEL 0 0x2) : M unit).
Proof. test_only. Qed.

(** *** Set-up *)

Lemma quiet_reg_file : only quiet (initialize_reg_file : M unit).
Proof. unfold initialize_reg_file. test_only. Qed.
Lemma quiet_hps_phy : only quiet (initialize_hps_phy : M unit).
Proof. unfold initialize_hps_phy. test_only. Qed.
Lemma quiet_tracking : only quiet (initialize_tracking : M unit).
Proof. unfold initialize_tracking. test_only. Qed.

Lemma quiet_scc_initialize : only quiet (scc_mgr_initialize : M unit).
Proof. unfold scc_mgr_initialize. apply only_each. intros i Hi. apply (quiet_scc 0xb00). scc_index. Qed.

Lemma quiet_rom_data : only quiet (hc_initialize_rom_data : M unit).
Proof.
  unfold hc_initialize_rom_data. apply only_bind; [|intros _]; apply only_each; intros i Hi;
    apply only_bind; [test_only| |test_only|]; intros v; eval_bounds.
  - apply (quiet_rw 0x1800). scc_index.
  - apply (quiet_rw 0x1c00). scc_index.
Qed.

End quiet.

(** ** The run *)

Definition messages (t : trace) : list string := omap (fun e => match e with Msg m => Some m | _ => None end) t.

Lemma messages_app t t' : messages (t ++ t') = messages t ++ messages t'.
Proof. apply omap_app. Qed.

Lemma quiet_silent t : Forall quiet t ->
  writes_at status_addr t = [] /\ writes_at ctrlcfg_addr t = [] /\ messages t = [].
Proof.
  intros Ht. split_and!; [apply writes_at_nil; eapply Forall_impl; [exact Ht|]..|].
  - intros [] Hq; cbn in *; tauto.
  - intros [] Hq; cbn in *; tauto.
  - induction Ht as [|e t He Ht IH]; [done|]. by destruct e.
Qed.

(** Runs a quiet program. *)
Ltac wp_quiet lem :=
  wp_step; eapply wp_only; [solve [apply lem | eauto 2 with hw]|];
  let o := fresh "o" in let s := fresh "s" in let t := fresh "t" in let Ht := fresh "Ht" in
  intros o s t Ht; apply quiet_silent in Ht; destruct Ht as (? & ? & ?); destruct o; [|done]; cbv beta iota.

Ltac silent :=
  rewrite ?writes_at_app, ?messages_app;
  repeat match goal with
  | H : writes_at _ _ = [] |- _ => rewrite H; clear H
  | H : messages _ = [] |- _ => rewrite H; clear H
  end.

Section run.
Context {D : Type} `{Device D}.
Abbreviation M := (M D seqvars).

(** What a run of the sequencer shows: the status, the configuration with the
    tracking off and then as it was, and the last message. *)
Definition run_shows (pass : bool) (t : trace) : Prop :=
  writes_at status_addr t = [PHY_MGR_CAL_RESET; 0; if pass then PHY_MGR_CAL_SUCCESS else PHY_MGR_CAL_FAIL] /\
  (exists c, word c /\ writes_at ctrlcfg_addr t = [c .& 0xFFBFFFFF; c]) /\
  messages t = [if pass then "SEQ.C: CALIBRATION PASSED"%string else "SEQ.C: CALIBRATION FAILED"%string].

Lemma shows_init (s : st D seqvars) : wp (initialize : M unit) s (fun o _ t => o = Val tt /\
  writes_at status_addr t = [0] /\ writes_at ctrlcfg_addr t = [] /\ messages t = []).
Proof. unfold initialize, IOWR_32DIRECT. wp_run; done. Qed.

Lemma shows_report (pass : bool) (s : st D seqvars) : wp (if pass then (report_pass : M unit) else report_fail) s (fun o _ t => o = Val tt /\
  writes_at status_addr t = [if pass then PHY_MGR_CAL_SUCCESS else PHY_MGR_CAL_FAIL] /\
  writes_at ctrlcfg_addr t = [] /\
  messages t = [if pass then "SEQ.C: CALIBRATION PASSED"%string else "SEQ.C: CALIBRATION FAILED"%string]).
Proof. destruct pass; unfold report_pass, report_fail, IPRINT, IOWR_32DIRECT; wp_run; done. Qed.

Lemma run_protocol (s : st D seqvars) :
  wp (run_mem_calibrate : M bool) s (fun o _ t => forall pass, o = Val pass -> run_shows pass t).
Proof.
  unfold run_mem_calibrate. wp_step. apply wp_writel. cbv beta iota. wp_step. apply wp_readl_any. intros c d Hc.
  cbv beta iota. wp_step. apply wp_writel. cbv beta iota.
  wp_call shows_init. intros o1 s1 t1 (-> & I1 & ? & ?). cbv beta iota.
  wp_quiet (quiet_mem_initialize (D := D)). wp_quiet (quiet_mem_calibrate (D := D)). wp_quiet (quiet_activate (D := D)).
  wp_step. apply wp_writel. cbv beta iota. do 2 wp_step. wp_quiet (quiet_give_back). wp_step. apply wp_writel. cbv beta iota.
  wp_call shows_report. intros o2 s5 t5 (-> & E1 & E2 & E3). cbv beta iota. wp_step. intros pass [= <-].
  unfold run_shows. silent. rewrite I1, E1, E3.
  fold status_addr ctrlcfg_addr. split_and!.
  - reflexivity.
  - exists c. split; [done|]. rewrite !u32_word by word_solve. reflexivity.
  - reflexivity.
Qed.

(** What a whole calibration shows. *)
Definition calibration_shows (pass : bool) (t : trace) : Prop :=
  writes_at status_addr t = [PHY_MGR_CAL_RESET; 0; if pass then PHY_MGR_CAL_SUCCESS else PHY_MGR_CAL_FAIL] /\
  (exists c, word c /\ writes_at ctrlcfg_addr t = [c .& 0xFFBFFFFF; c]) /\
  messages t = ["SEQ.C: Preparing to start memory calibration";
                if pass then "SEQ.C: CALIBRATION PASSED" else "SEQ.C: CALIBRATION FAILED"]%string.

Lemma body_protocol (s : st D seqvars) :
  wp (sdram_calibration_body : M Z) s (fun o _ t => forall v, o = Val v -> exists pass, v = b2z pass /\ calibration_shows pass t).
Proof.
  unfold sdram_calibration_body. do 2 wp_step.
  wp_quiet (quiet_reg_file (D := D)). wp_quiet (quiet_hps_phy (D := D)). wp_quiet (quiet_scc_initialize (D := D)).
  wp_quiet (quiet_tracking (D := D)). do 2 wp_step. unfold IPRINT at 1. do 2 wp_step.
  wp_quiet (quiet_rom_data (D := D)). wp_quiet (quiet_set_stage (D := D)). wp_quiet (quiet_set_group (D := D)).
  do 4 wp_step. wp_call run_protocol. intros o s' t' Hr. cbv beta iota. destruct o as [pass|]; [|done].
  wp_step. intros v [= <-]. exists pass. split; [done|]. destruct (Hr pass eq_refl) as (R1 & R2 & R3).
  unfold calibration_shows. silent. rewrite ?app_nil_r, R1, R3. cbn. split_and!; done.
Qed.

Lemma body_in_sdr : only in_sdr (sdram_calibration_body : M Z).
Proof.
  assert (Hq : forall A (m : M A), only quiet m -> only in_sdr m) by (intros A m; apply only_weaken, quiet_in_sdr).
  assert (Hi : only in_sdr (initialize : M unit)) by (unfold initialize; seq_only).
  assert (Hp : forall pass : bool, only in_sdr (if pass then (report_pass : M unit) else report_fail)).
  { intros []; unfold report_pass, report_fail, IPRINT; seq_only. }
  pose proof (Hq _ _ quiet_reg_file). pose proof (Hq _ _ quiet_hps_phy). pose proof (Hq _ _ quiet_scc_initialize).
  pose proof (Hq _ _ quiet_tracking). pose proof (Hq _ _ quiet_rom_data). pose proof (Hq _ _ (quiet_set_stage CAL_STAGE_NIL)).
  pose proof (Hq _ _ (quiet_set_group 0)). pose proof (Hq _ _ quiet_mem_initialize). pose proof (Hq _ _ quiet_mem_calibrate).
  pose proof (Hq _ _ quiet_activate). pose proof (fun b => Hq _ _ (quiet_give_back b)).
  unfold sdram_calibration_body, run_mem_calibrate, IPRINT.
  repeat match goal with
  | Hm : only _ ?m |- only _ ?m => exact Hm
  | |- only _ (if _ then report_pass else report_fail) => apply Hp
  | Hm : forall b, only _ (when b ?m) |- only _ (when _ ?m) => apply Hm
  | |- only _ (msg _) => apply only_msg; exact Logic.I
  | |- _ => seq_step
  end.
Qed.

End run.

(** The sequencer keeps its variables to itself. *)
Lemma calibration_events {D} `{Device D} (junk : seqvars) : only in_sdr (sdram_calibration junk : M D gdata Z).
Proof.
  intros s. change (wp (sdram_calibration junk) s (fun _ _ t => Forall in_sdr t)). unfold sdram_calibration.
  apply wp_zoom. cbn [dev glob]. apply wp_events, body_in_sdr.
Qed.

Lemma calibration_shown {D} `{Device D} (junk : seqvars) (s : st D gdata) :
  wp (sdram_calibration junk) s (fun o _ t => forall v, o = Val v -> exists pass, v = b2z pass /\ calibration_shows pass t).
Proof. unfold sdram_calibration. apply wp_zoom. cbn [dev glob]. apply body_protocol. Qed.

(** C9: The calibration's protocol, for any hardware.  A run changes none of
    the preloader's globals and accesses nothing outside the SDRAM controller's
    block.  If it returns, it returns 1 for a pass and 0 for a failure, and what
    it showed agrees: the status register goes from reset through 0 to success or
    failure, exactly that way, the controller's configuration is written twice,
    with the tracking of the strobes off and then as it was read, and the console
    has the two messages. *)
Theorem calibration_protocol {D} `{Device D} (junk : seqvars) (s : st D gdata) :
  let r := sdram_calibration junk s in
  glob (fin r) = glob s /\ Forall in_sdr (tr r) /\
  forall v, out r = Val v -> exists pass, v = b2z pass /\ calibration_shows pass (tr r).
Proof.
  wp_enter. unfold sdram_calibration. apply wp_zoom. cbn [dev glob].
  eapply wp_mono; [apply wp_and; [apply body_protocol|apply (wp_events in_sdr), body_in_sdr]|].
  by intros o s' t [Hp Ht].
Qed.
