(* ===== verification/SeqSafe.v ===== *)
(** The calibration sequencer on a device whose delay registers are plain
    registers: every run returns, whatever the memory answers, and no phase or
    delay it sets is out of range. *)

From S2P Require Import Prelude Mmio Regs Globals SeqRegs SeqIo SeqScc SeqTests SeqVfifo SeqCenter Sequencer SeqBus.

(** ** The registers *)

(** The largest value of the scan chain manager's register at an address. *)
Definition scc_max (a : Z) : Z :=
  match (a - HPS_SDR_BASE) / 0x100 with
  | 1 => IO_DQS_IN_DELAY_MAX
  | 2 => IO_DQS_EN_PHASE_MAX
  | 3 => IO_DQS_EN_DELAY_MAX
  | 4 => IO_DQDQS_OUT_PHASE_MAX
  | 5 | 7 => IO_IO_OUT1_DELAY_MAX
  | 9 => IO_IO_IN_DELAY_MAX
  | _ => 2 ^ 32 - 1
  end.

Definition in_range (e : event) : Prop := match e with Wr a v => v <= scc_max a | _ => True end.

Definition dqs_in_reg (g : Z) : Z := apb SCC_MGR_DQS_IN_DELAY (g .<< 2).
Definition io_out_reg (p : Z) : Z := apb SCC_MGR_IO_OUT1_DELAY (p .<< 2).
Definition io_in_reg (p : Z) : Z := apb SCC_MGR_IO_IN_DELAY (p .<< 2).

(** The registers that the sequencer reads back: the strobes' input delays, the
    output delays of the data pins and of the strobe, the data pins' input
    delays. *)
Definition strobe_regs : list Z := map dqs_in_reg (seqZ 0 4).
Definition pin_regs : list Z := map io_out_reg (seqZ 0 9) ++ map io_in_reg (seqZ 0 8).
Definition delay_regs : list Z := pin_regs ++ strobe_regs.

(** What is asked of the hardware. *)
Class DelayRegs (D : Type) `{Device D} := delay_reg : forall a, In a delay_regs -> Reg D a.

Lemma delay_regs_31 a : In a delay_regs -> scc_max a = 31.
Proof.
  assert (Hf : forallb (fun a => scc_max a =? 31) delay_regs = true) by (vm_compute; reflexivity).
  intros Ha. rewrite forallb_forall in Hf. specialize (Hf a Ha). lia.
Qed.

Lemma delay_regs_max a : In a delay_regs -> scc_max a <= 31.
Proof. intros Ha. by rewrite delay_regs_31. Qed.

(** ** Safe programs *)

Section safe.
Context {D : Type} `{Device D}.
Abbreviation M := (M D seqvars).

(** The registers of [L] hold delays. *)
Definition delays_ok (L : list Z) (s : st D seqvars) : Prop :=
  forall a (R : Reg D a), In a L -> reg a s <= 31.

(** Every run from variables in [I] and delays in [L] returns, in [R], keeps
    the variables in [I], leaves delays in [L'] and stays in range. *)
Definition moves (I : seqvars -> Prop) (L L' : list Z) {A} (R : A -> Prop) (m : M A) : Prop :=
  forall s, I (glob s) -> delays_ok L s ->
  wp m s (fun o s' t => exists a, o = Val a /\ R a /\ I (glob s') /\ delays_ok L' s' /\ Forall in_range t).

Definition safe (I : seqvars -> Prop) (L : list Z) {A} (R : A -> Prop) (m : M A) : Prop := moves I L L R m.

Context (I : seqvars -> Prop).

Lemma moves_bind L L' L'' {A B} (Q : A -> Prop) (R : B -> Prop) (m : M A) (k : A -> M B) :
  moves I L L' Q m -> (forall a, Q a -> moves I L' L'' R (k a)) -> moves I L L'' R (bind m k).
Proof.
  intros Hm Hk s Hi Hd. wp_step. eapply wp_mono; [by apply Hm|]. cbv beta.
  intros o s' t (a & -> & Ha & Hi' & Hd' & Ht). cbv beta iota. eapply wp_mono; [by apply Hk|]. cbv beta.
  intros o s'' t' (b & -> & Hb & Hi'' & Hd'' & Ht'). exists b. split_and!; [done..|]. apply Forall_app. by split.
Qed.

Lemma moves_mono L L' {A} (Q R : A -> Prop) (m : M A) : (forall a, Q a -> R a) -> moves I L L' Q m -> moves I L L' R m.
Proof.
  intros Hq Hm s Hi Hd. eapply wp_mono; [by apply Hm|]. intros o s' t (a & -> & Ha & ?). exists a. auto.
Qed.

Lemma moves_weaken L1 L2 L1' L2' {A} (R : A -> Prop) (m : M A) :
  (forall a, In a L1' -> In a L1) -> (forall a, In a L2' -> In a L2) -> moves I L1' L2 R m -> moves I L1 L2' R m.
Proof.
  intros H1 H2 Hm s Hi Hd. eapply wp_mono; [apply Hm; [done|]|].
  - intros a Ra Ha. by apply Hd, H1.
  - intros o s' t (a & -> & ? & ? & Hd' & ?). exists a. split_and!; [done..| |done]. intros b Rb Hb. by apply Hd', H2.
Qed.

Context (L : list Z).

Lemma safe_bind {A B} (Q : A -> Prop) (R : B -> Prop) (m : M A) (k : A -> M B) :
  safe I L Q m -> (forall a, Q a -> safe I L R (k a)) -> safe I L R (bind m k).
Proof. apply moves_bind. Qed.

Lemma safe_then {A B} (R : B -> Prop) (m : M A) (k : A -> M B) :
  safe I L (fun _ => True) m -> (forall a, safe I L R (k a)) -> safe I L R (bind m k).
Proof. intros Hm Hk. eapply safe_bind; [exact Hm|auto]. Qed.

(** Writing a delay register makes it hold a delay. *)
Lemma moves_writel v a : scc_max a <= 31 -> u32 v <= scc_max a -> moves I L (a :: L) (fun _ => True) (writel v a).
Proof.
  intros Hm Hv s Hi Hd. apply wp_writel. exists tt. split_and!; [done..| |by constructor].
  intros b R Hb. unfold reg. cbn [dev]. destruct (Z.eq_dec b a) as [->|Hne].
  - rewrite reg_write, u32_idem. lia.
  - rewrite reg_write_frame by congruence. apply Hd. destruct Hb; congruence.
Qed.

Lemma safe_any {A} (R : A -> Prop) (m : M A) : safe I L R m -> safe I L (fun _ => True) m.
Proof. by apply moves_mono. Qed.

Lemma safe_ret {A} (R : A -> Prop) a : R a -> safe I L R (ret a).
Proof. intros Ha s Hi Hd. wp_step. by exists a. Qed.

Lemma safe_get : safe I L I get.
Proof. intros s Hi Hd. wp_step. by eexists. Qed.

Lemma safe_modify f : (forall g, I g -> I (f g)) -> safe I L (fun _ => True) (modify f).
Proof. intros Hf s Hi Hd. wp_step. exists tt. split_and!; auto. Qed.

Lemma safe_msg m : safe I L (fun _ => True) (msg m).
Proof. intros s Hi Hd. wp_step. exists tt. split_and!; auto. by constructor. Qed.

Lemma safe_when b m : (b = true -> safe I L (fun _ => True) m) -> safe I L (fun _ => True) (when b m).
Proof. destruct b; unfold when; intros Hm; [by apply Hm|by apply safe_ret]. Qed.

Lemma safe_readl a : safe I L word (readl a).
Proof.
  intros s Hi Hd. destruct (dev_read a (dev s)) as [v d] eqn:E.
  eapply wp_readl; [exact E|]. exists (u32 v). split_and!; [done|apply word_u32|done| |by constructor].
  intros b R Hb. rewrite <- (Hd b R Hb), <- (reg_after_read a b s). by rewrite E.
Qed.

Lemma safe_readl_reg a : In a L -> Reg D a -> safe I L (fun v => 0 <= v <= 31) (readl a).
Proof.
  intros Ha R s Hi Hd. apply (wp_readl_known a). exists (reg a s).
  pose proof (Hd a R Ha). pose proof (word_reg a s) as [].
  split_and!; [done|lia|lia|done| |by constructor].
  intros b Rb Hb. rewrite reg_after_read. by apply Hd.
Qed.

Context (HL : forall a, In a L -> scc_max a <= 31).

Lemma safe_writel v a : u32 v <= scc_max a -> safe I L (fun _ => True) (writel v a).
Proof.
  intros Hv s Hi Hd. apply wp_writel. exists tt. split_and!; [done..| |by constructor].
  intros b R Hb. unfold reg. cbn [dev]. destruct (Z.eq_dec b a) as [->|Hne].
  - rewrite reg_write, u32_idem. specialize (HL a Hb). lia.
  - rewrite reg_write_frame by congruence. by apply Hd.
Qed.

Lemma safe_for {A} (R : A -> Prop) n (body : Z -> M (option A)) : 0 <= n ->
  (forall i, 0 <= i < n -> safe I L (fun r => match r with Some a => R a | None => True end) (body i)) ->
  safe I L (fun r => match r with Some a => R a | None => True end) (for_upto n body).
Proof.
  intros Hn Hb s Hi Hd.
  apply wp_for with (I := fun _ s t => I (glob s) /\ delays_ok L s /\ Forall in_range t); [done|by split_and!| |].
  - intros i s' t Hr (Hi' & Hd' & Ht). eapply wp_mono; [by apply Hb|]. cbv beta.
    intros o s'' t' (r & -> & Hr' & Hi'' & Hd'' & Ht'). destruct r as [a|].
    + exists (Some a). split_and!; [done..|]. apply Forall_app. by split.
    + split_and!; [done..|]. apply Forall_app. by split.
  - intros s' t (Hi' & Hd' & Ht). exists None. by split_and!.
Qed.

Lemma safe_each n (body : Z -> M unit) : 0 <= n ->
  (forall i, 0 <= i < n -> safe I L (fun _ => True) (body i)) -> safe I L (fun _ => True) (for_each n body).
Proof.
  intros Hn Hb. apply safe_then; [|intros; by apply safe_ret]. eapply safe_any. apply (safe_for (fun _ => True)); [done|].
  intros i Hi. apply safe_then; [by apply Hb|]. intros. by apply safe_ret.
Qed.

Lemma safe_acc {X} (J : X -> Prop) n i (body : Z -> X -> M X) x : J x ->
  (forall j y, i <= j < i + Z.of_nat n -> J y -> safe I L J (body j y)) -> safe I L J (for_acc n i body x).
Proof.
  revert i x. induction n as [|n IH]; intros i x Hx Hb; cbn [for_acc]; [by apply safe_ret|].
  eapply safe_bind; [apply Hb; [lia|done]|]. intros y Hy. apply IH; [done|]. intros. apply Hb; [lia|done].
Qed.

Lemma safe_st {X A} (J : Z -> X -> Prop) (R : A -> Prop) n i (body : Z -> X -> M (X + A)) x : J i x ->
  (forall j y, i <= j < i + Z.of_nat n -> J j y ->
     safe I L (fun r => match r with inl y => J (j + 1) y | inr a => R a end) (body j y)) ->
  safe I L (fun r => match r with inl y => J (i + Z.of_nat n) y | inr a => R a end) (for_st n i body x).
Proof.
  revert i x. induction n as [|n IH]; intros i x Hx Hb; cbn [for_st].
  - apply safe_ret. by rewrite Z.add_0_r.
  - eapply safe_bind; [apply Hb; [lia|done]|]. intros [y|a] Hy; [|by apply safe_ret].
    replace (i + Z.of_nat (S n)) with (i + 1 + Z.of_nat n) by lia. apply IH; [done|]. intros. apply Hb; [lia|done].
Qed.

Lemma safe_array_get l i : 0 <= i < Z.of_nat (length l) -> safe I L (fun _ => True) (array_get l i : M Z).
Proof.
  intros Hi. destruct (lookup_lt_is_Some_2 l (Z.to_nat i)) as [v Hv]; [lia|].
  intros s Hs Hd. eapply (wp_array_get _ _ (Z.to_nat i)); [lia|exact Hv|]. by exists v.
Qed.

(** *** Accesses *)

Lemma safe_free b o v : scc_max (apb b o) = 2 ^ 32 - 1 -> safe I L (fun _ => True) (IOWR_32DIRECT b o v : M unit).
Proof. intros Hm. apply safe_writel. rewrite Hm. pose proof (word_u32 v) as []. lia. Qed.

Lemma scc_max_scc k x : 0 <= x < 0x100 -> scc_max (HPS_SDR_BASE + (k * 0x100 + x)) = scc_max (HPS_SDR_BASE + k * 0x100).
Proof.
  intros Hx. unfold scc_max. replace ((HPS_SDR_BASE + (k * 256 + x) - HPS_SDR_BASE) / 256) with k by div_lia.
  by replace ((HPS_SDR_BASE + k * 256 - HPS_SDR_BASE) / 256) with k by div_lia.
Qed.

Lemma safe_scc k x v : 0 <= k < 16 -> 0 <= x < 0x100 -> 0 <= v <= scc_max (HPS_SDR_BASE + k * 0x100) -> v < 2 ^ 32 ->
  safe I L (fun _ => True) (IOWR_32DIRECT (0x58000 + k * 0x100) x v : M unit).
Proof. intros Hk Hx Hv Hw. apply safe_writel. rewrite apb_scc, scc_max_scc by lia. rewrite u32_word; [lia|unfold word; lia]. Qed.

Lemma safe_rw o x v : 0 <= o + x < 0x2000 -> safe I L (fun _ => True) (IOWR_32DIRECT (0x90000 + o) x v : M unit).
Proof.
  intros Hx. apply safe_free. rewrite apb_rw by done. unfold scc_max.
  destruct ((HPS_SDR_BASE + 0x2000 + (o + x) - HPS_SDR_BASE) / 0x100) as [|k|k] eqn:E; [done| |done].
  assert (32 <= Zpos k) by (rewrite <- E; div_lia). do 5 (destruct k as [k|k|]; try done); lia.
Qed.

Definition delay (d : Z) : Prop := 0 <= d <= 31.

Ltac safe_scc_at k := apply (safe_scc k); [lia|scc_index| |unfold delay in *; lia]; match goal with |- context [scc_max ?a] => let v := eval vm_compute in (scc_max a) in change (scc_max a) with v end; unfold delay in *; lia.

Lemma safe_dqs_in g v : index g -> delay v -> safe I L (fun _ => True) (WRITE_SCC_DQS_IN_DELAY g v : M unit).
Proof. intros. safe_scc_at 1. Qed.
Lemma safe_dqs_en_phase g v : index g -> 0 <= v <= 7 -> safe I L (fun _ => True) (WRITE_SCC_DQS_EN_PHASE g v : M unit).
Proof. intros. safe_scc_at 2. Qed.
Lemma safe_dqs_en_delay g v : index g -> delay v -> safe I L (fun _ => True) (WRITE_SCC_DQS_EN_DELAY g v : M unit).
Proof. intros. unfold WRITE_SCC_DQS_EN_DELAY. change (v + IO_DQS_EN_DELAY_OFFSET) with (v + 0). rewrite Z.add_0_r. safe_scc_at 3. Qed.
Lemma safe_dqdqs g v : index g -> v = 0 -> safe I L (fun _ => True) (WRITE_SCC_DQDQS_OUT_PHASE g v : M unit).
Proof. intros. safe_scc_at 4. Qed.
Lemma safe_oct g v : index g -> delay v -> safe I L (fun _ => True) (WRITE_SCC_OCT_OUT1_DELAY g v : M unit).
Proof. intros. safe_scc_at 5. Qed.
Lemma safe_dq_out g v : index g -> delay v -> safe I L (fun _ => True) (WRITE_SCC_DQ_OUT1_DELAY g v : M unit).
Proof. intros. safe_scc_at 7. Qed.
Lemma safe_dq_in g v : index g -> delay v -> safe I L (fun _ => True) (WRITE_SCC_DQ_IN_DELAY g v : M unit).
Proof. intros. safe_scc_at 9. Qed.
Lemma safe_dqs_out v : delay v -> safe I L (fun _ => True) (WRITE_SCC_DQS_IO_OUT1_DELAY v : M unit).
Proof. intros. apply (safe_dq_out 8); [by vm_compute|done]. Qed.
Lemma safe_dqs_io_in v : delay v -> safe I L (fun _ => True) (WRITE_SCC_DQS_IO_IN_DELAY v : M unit).
Proof. intros. apply (safe_dq_in 8); [by vm_compute|done]. Qed.
Lemma safe_dm_out p v : 0 <= p < 4 -> delay v -> safe I L (fun _ => True) (WRITE_SCC_DM_IO_OUT1_DELAY p v : M unit).
Proof. intros. apply (safe_dq_out (8 + 1 + p)); [index_solve|done]. Qed.
Lemma safe_dm_in p v : 0 <= p < 4 -> delay v -> safe I L (fun _ => True) (WRITE_SCC_DM_IO_IN_DELAY p v : M unit).
Proof. intros. apply (safe_dq_in (8 + 1 + p)); [index_solve|done]. Qed.

(** *** Loops over groups and ranks *)

Lemma safe_read_groups g body : 0 <= g < 4 -> safe I L (fun _ => True) (body g) ->
  safe I L (fun _ => True) (for_read_groups g body : M unit).
Proof.
  intros Hg Hb. unfold for_read_groups. apply safe_each.
  - apply Z.le_0_sub, Z.div_le_mono; [done|]. apply Z.mul_le_mono_nonneg_r; [by vm_compute|lia].
  - intros i Hi. destruct (read_groups_range g i Hg Hi) as [-> ->]. by rewrite Z.add_0_r.
Qed.

Lemma safe_virtual n w m issue : n = 1 -> safe I L (fun _ => True) (issue 0) ->
  safe I L (fun _ => True) (for_virtual_groups n w m issue : M Z).
Proof.
  intros -> Hi. unfold for_virtual_groups. apply safe_acc; [done|]. intros i t Hr _. eval_bounds. replace i with 0 by lia.
  apply safe_then; [exact Hi|intros _]. apply safe_then; [eapply safe_any, safe_readl|intros v]. by apply safe_ret.
Qed.

Lemma safe_run g v : index g -> safe I L (fun _ => True) (IOWR_32DIRECT RW_MGR_RUN_SINGLE_GROUP (g .<< 2) v : M unit).
Proof. intros. apply (safe_rw 0). scc_index. Qed.
Lemma safe_run_vg g vg n v : index g -> n = 1 -> vg = 0 ->
  safe I L (fun _ => True) (IOWR_32DIRECT RW_MGR_RUN_SINGLE_GROUP ((g * n + vg) .<< 2) v : M unit).
Proof. intros ? -> ->. rewrite Z.mul_1_r, Z.add_0_r. by apply safe_run. Qed.
Lemma safe_run_all g vg n v : index g -> n = 1 -> vg = 0 ->
  safe I L (fun _ => True) (IOWR_32DIRECT RW_MGR_RUN_ALL_GROUPS ((g * n + vg) .<< 2) v : M unit).
Proof. intros ? -> ->. rewrite Z.mul_1_r, Z.add_0_r. apply (safe_rw 0x400). scc_index. Qed.

End safe.

Create HintDb safe discriminated.
#[export] Hint Constants Opaque : safe.
#[export] Hint Variables Opaque : safe.
#[export] Hint Resolve safe_dqs_in safe_dqs_en_phase safe_dqs_en_delay safe_dqdqs safe_oct safe_dq_out safe_dq_in safe_dqs_out
  safe_dqs_io_in safe_dm_out safe_dm_in safe_ret safe_msg : safe.
#[export] Hint Extern 1 (index _) => index_solve : safe.
#[export] Hint Extern 1 (delay _) => unfold delay; index_solve : safe.
#[export] Hint Extern 1 (_ <= _) => index_solve : safe.
#[export] Hint Extern 1 (_ <= _ < _) => index_solve : safe.

(** Follows the code of the sequencer. *)
Ltac safe_step :=
  match goal with
  | |- safe _ _ _ (bind get _) => eapply safe_bind; [apply safe_get|intros ? ?]
  | |- safe _ _ _ (bind (ret ?a) _) => eapply (safe_bind _ _ (fun v => v = a)); [by apply safe_ret|intros ? ->]
  | |- safe _ _ _ (bind _ _) => apply safe_then; [|intros ?]
  | |- safe _ _ _ (ret _) => apply safe_ret; try done
  | |- safe _ _ _ (when _ _) => apply safe_when; intros ?
  | |- safe _ _ _ (msg _) => apply safe_msg
  | |- safe _ _ _ (for_each _ _) => apply safe_each; [first [done|lia]|intros ? ?]
  | |- safe _ _ _ (for_shadow_regs _) => unfold for_shadow_regs
  | |- safe _ _ _ (for_read_groups _ _) => apply safe_read_groups; [eval_bounds; lia|]
  | |- safe _ _ _ (for_virtual_groups _ _ _ _) => apply safe_virtual; [reflexivity|]
  | |- safe _ _ _ (select_shadow_regs_for_update _ _ _) => by apply safe_ret
  | |- safe _ _ _ (WRITE_SCC_DQ_OUT2_DELAY _ _) => by apply safe_ret
  | |- safe _ _ _ (WRITE_SCC_DM_IO_OUT2_DELAY _ _) => by apply safe_ret
  | |- safe _ _ _ (WRITE_SCC_DQS_IO_OUT2_DELAY _) => by apply safe_ret
  | |- safe _ _ _ (WRITE_SCC_OCT_OUT2_DELAY _ _) => by apply safe_ret
  | |- safe _ _ _ upd => unfold upd
  | |- safe _ _ _ reset_read_path => unfold reset_read_path
  | |- safe _ _ _ (IORD_32DIRECT _ _) => eapply safe_any, safe_readl
  | |- safe _ _ _ (IOWR_32DIRECT RW_MGR_RUN_SINGLE_GROUP (?g .<< 2) _) => apply safe_run; [done|index_solve]
  | |- safe _ _ _ (IOWR_32DIRECT RW_MGR_RUN_SINGLE_GROUP ((_ * _ + _) .<< 2) _) => apply safe_run_vg; [done|index_solve|reflexivity..]
  | |- safe _ _ _ (IOWR_32DIRECT RW_MGR_RUN_ALL_GROUPS _ _) => apply safe_run_all; [done|index_solve|reflexivity..]
  | |- safe _ _ _ (IOWR_32DIRECT (if ?b then _ else _) _ _) => destruct b
  | |- safe _ _ _ (IOWR_32DIRECT _ _ _) => apply safe_free; [done|vm_compute; reflexivity]
  | |- safe _ _ _ (if ?b then _ else _) => destruct b eqn:?
  | |- safe _ _ _ (match ?x with _ => _ end) => destruct x eqn:?
  | |- _ => solve [eauto 3 with safe]
  end; cbv beta iota zeta.
Ltac safe_auto := cbv beta iota zeta; repeat safe_step.
(** Splits a result that depends on a test. *)
Ltac split_result := repeat match goal with |- context [if ?b then _ else _] => destruct b end; cbv iota.

(** ** Commands, scan chains and tests *)

(** What holds of the variables while the groups are calibrated. *)
Definition seq_ok (g : seqvars) : Prop :=
  length (skip_ranks g) = 1%nat /\ length (skip_shadow_regs g) = 1%nat /\ dyn_calib_steps g = STATIC_CALIB_STEPS.

Section tests.
Context {D : Type} `{Device D}.
Abbreviation M := (M D seqvars).
Context (I : seqvars -> Prop) (HI : forall g, I g -> seq_ok g).
Context (L : list Z) (HL : forall a, In a L -> scc_max a <= 31).
Abbreviation ok m := (safe I L (fun _ => True) m).

Lemma safe_skip_rank r : r = 0 -> ok (skip_rank r : M bool).
Proof.
  intros ->. unfold skip_rank. eapply safe_bind; [apply safe_get|]. intros g Hg. apply HI in Hg as [Hg _].
  apply safe_then; [apply safe_array_get; lia|intros; by apply safe_ret].
Qed.
Lemma safe_skip_shadow r : r = 0 -> ok (skip_shadow_reg r : M bool).
Proof.
  intros ->. unfold skip_shadow_reg. eapply safe_bind; [apply safe_get|]. intros g Hg. apply HI in Hg as (_ & Hg & _).
  apply safe_then; [apply safe_array_get; lia|intros; by apply safe_ret].
Qed.
Hint Resolve safe_skip_rank safe_skip_shadow : safe.
Hint Extern 1 (_ = 0) => index_solve : safe.

Lemma safe_rank r m : ok (set_rank_and_odt_mask r m : M unit).
Proof. unfold set_rank_and_odt_mask. safe_auto. Qed.
Hint Resolve safe_rank : safe.

Lemma delay_counters_loop n a b c : delay_counters n = (a, b, c) -> 0 <= c.
Proof. unfold delay_counters. repeat case_match; intros [=]; subst; first [lia | by apply Z.mod_pos_bound]. Qed.

Lemma safe_delay_clocks n : ok (delay_for_n_mem_clocks n : M unit).
Proof.
  unfold delay_for_n_mem_clocks. cbv zeta. destruct (delay_counters _) as [[a b] c] eqn:E.
  apply delay_counters_loop in E. safe_auto.
Qed.
Hint Resolve safe_delay_clocks : safe.

Lemma safe_mrs c : ok (mrs_command c : M unit).
Proof. unfold mrs_command, set_jump_as_return. safe_auto. Qed.
Hint Resolve safe_mrs : safe.

Lemma safe_mem_initialize : ok (rw_mgr_mem_initialize : M unit).
Proof. unfold rw_mgr_mem_initialize, reset_command, rw_mgr_rdimm_initialize, mem_initialize_rank. safe_auto. Qed.
Lemma safe_handoff : ok (rw_mgr_mem_handoff : M unit).
Proof. unfold rw_mgr_mem_handoff, mem_handoff_rank. safe_auto. Qed.
Lemma safe_activate : ok (mem_precharge_and_activate : M unit).
Proof. unfold mem_precharge_and_activate. safe_auto. Qed.

Lemma safe_set_group g : ok (reg_file_set_group g : M unit).
Proof. unfold reg_file_set_group. safe_auto. Qed.
Lemma safe_set_stage g : ok (reg_file_set_stage g : M unit).
Proof. unfold reg_file_set_stage. safe_auto. Qed.
Lemma safe_set_sub_stage g : ok (reg_file_set_sub_stage g : M unit).
Proof. unfold reg_file_set_sub_stage. safe_auto. Qed.

(** *** Scan chains *)

Lemma safe_bypass g m : ok (scc_set_bypass_mode g m : M unit).
Proof. unfold scc_set_bypass_mode, scc_mgr_set_hhp_extras, WRITE_SCC_HHP_EXTRAS. safe_auto. Qed.

Lemma safe_phase_all g p : index g -> 0 <= p <= 7 -> ok (scc_mgr_set_dqs_en_phase_all_ranks g p : M unit).
Proof. intros. unfold scc_mgr_set_dqs_en_phase_all_ranks, scc_mgr_set_dqs_en_phase. safe_auto. Qed.
Lemma safe_delay_all g p : index g -> delay p -> ok (scc_mgr_set_dqs_en_delay_all_ranks g p : M unit).
Proof. intros. unfold scc_mgr_set_dqs_en_delay_all_ranks, scc_mgr_set_dqs_en_delay. safe_auto. Qed.
Lemma safe_out_phase_all g p : index g -> p = 0 -> ok (scc_mgr_set_dqdqs_output_phase_all_ranks g p : M unit).
Proof. intros. unfold scc_mgr_set_dqdqs_output_phase_all_ranks, scc_mgr_set_dqdqs_output_phase. safe_auto. Qed.

Lemma safe_load_dqs g : ok (scc_mgr_load_dqs g : M unit).
Proof. unfold scc_mgr_load_dqs. safe_auto. Qed.
Lemma safe_load_dqs_group g : 0 <= g < 4 -> ok (scc_mgr_load_dqs_for_write_group g : M unit).
Proof. intros. unfold scc_mgr_load_dqs_for_write_group. safe_auto. Qed.
Hint Resolve safe_load_dqs safe_load_dqs_group : safe.

Lemma safe_dq_in_group g b d : 0 <= b <= 24 -> delay d -> ok (scc_mgr_apply_group_dq_in_delay g b d : M unit).
Proof. intros. unfold scc_mgr_apply_group_dq_in_delay, scc_mgr_set_dq_in_delay, scc_mgr_load_dq. safe_auto. Qed.
Lemma safe_dq_out_group g b d : delay d -> ok (scc_mgr_apply_group_dq_out1_delay g b d : M unit).
Proof. intros. unfold scc_mgr_apply_group_dq_out1_delay, scc_mgr_set_dq_out1_delay, scc_mgr_load_dq. safe_auto. Qed.
Lemma safe_dm_group g d : delay d -> ok (scc_mgr_apply_group_dm_out1_delay g d : M unit).
Proof. intros. unfold scc_mgr_apply_group_dm_out1_delay, scc_mgr_set_dm_out1_delay, scc_mgr_load_dm. safe_auto. Qed.
Lemma safe_oct_group g d : 0 <= g < 4 -> delay d -> ok (scc_mgr_set_oct_out1_delay g d : M unit).
Proof. intros. unfold scc_mgr_set_oct_out1_delay. safe_auto. Qed.
Hint Resolve safe_oct_group : safe.
Lemma safe_dqs_out_group g d : 0 <= g < 4 -> delay d -> ok (scc_mgr_apply_group_dqs_io_and_oct_out1 g d : M unit).
Proof.
  intros. unfold scc_mgr_apply_group_dqs_io_and_oct_out1, scc_mgr_set_dqs_out1_delay, scc_mgr_load_dqs_io. safe_auto.
Qed.

(** The second output delay has no register: all of [d] goes to the first one. *)
Lemma safe_all_out_add g b d : 0 <= g < 4 -> delay d ->
  ok (scc_mgr_apply_group_all_out_delay_add_all_ranks g b d : M unit).
Proof.
  intros Hg Hd.
  assert (delay (u32 (0 + d) - IO_IO_OUT2_DELAY_MAX)) by (unfold delay in *; change IO_IO_OUT2_DELAY_MAX with 0; rewrite u32_word; [lia|unfold word; lia]).
  unfold scc_mgr_apply_group_all_out_delay_add_all_ranks, scc_mgr_apply_group_all_out_delay_add,
    READ_SCC_DQ_OUT2_DELAY, READ_SCC_DM_IO_OUT2_DELAY, READ_SCC_DQS_IO_OUT2_DELAY, READ_SCC_OCT_OUT2_DELAY,
    scc_mgr_set_dq_out2_delay, scc_mgr_set_dm_out2_delay, scc_mgr_set_dqs_out1_delay, scc_mgr_set_dqs_out2_delay,
    scc_mgr_set_oct_out2_delay, scc_mgr_load_dq, scc_mgr_load_dm, scc_mgr_load_dqs_io.
  safe_auto.
Qed.

Hint Resolve safe_mem_initialize safe_handoff safe_activate safe_set_group safe_set_stage safe_set_sub_stage safe_bypass
  safe_phase_all safe_delay_all safe_out_phase_all safe_dq_in_group safe_dq_out_group safe_dm_group safe_dqs_out_group
  safe_all_out_add : safe.

(** *** Tests *)

Lemma safe_ranks a m test : (forall r, ok (test r)) -> ok (for_ranks 0 a m test : M Z).
Proof.
  intros Ht. unfold for_ranks. apply safe_acc; [done|]. intros r x Hr _.
  assert (r = 0) as -> by (destruct a; revert Hr; unfold ranks_of; vm_compute Z.of_nat; lia).
  safe_auto; apply Ht.
Qed.

Ltac test_step :=
  match goal with
  | |- safe _ _ _ (for_ranks _ _ _ _) => apply safe_ranks; intros ?
  | |- _ => safe_step
  end.
Ltac test_auto := cbv beta iota zeta; repeat test_step.

Lemma safe_upto {A} n (body : Z -> M (option A)) : 0 <= n ->
  (forall i, 0 <= i < n -> ok (body i)) -> ok (for_upto n body).
Proof.
  intros Hn Hb. eapply safe_any. apply (safe_for I L (fun _ => True)); [done|]. intros i Hi.
  eapply moves_mono; [|by apply Hb]. by intros [].
Qed.

Lemma safe_patterns g a : index g -> ok (rw_mgr_mem_calibrate_read_test_patterns 0 g a : M (bool * Z)).
Proof. intros. unfold rw_mgr_mem_calibrate_read_test_patterns. test_auto. Qed.
Hint Resolve safe_patterns : safe.

Lemma safe_patterns_all g : index g -> ok (rw_mgr_mem_calibrate_read_test_patterns_all_ranks g : M bool).
Proof.
  intros. unfold rw_mgr_mem_calibrate_read_test_patterns_all_ranks. test_auto. apply safe_upto; [done|].
  intros. eval_bounds. test_auto.
Qed.

Lemma safe_load_patterns : ok (rw_mgr_mem_calibrate_read_load_patterns_all_ranks : M unit).
Proof.
  unfold rw_mgr_mem_calibrate_read_load_patterns_all_ranks, rw_mgr_mem_calibrate_read_load_patterns.
  apply safe_then; [apply (safe_acc I L (fun _ => True)); [done|]|intros; test_auto]. intros r _ Hr _.
  assert (r = 0) as -> by (revert Hr; vm_compute Z.of_nat; lia). test_auto.
Qed.

Lemma safe_read_test g c ag ar : index g -> ok (rw_mgr_mem_calibrate_read_test 0 g c ag ar : M (bool * Z)).
Proof. intros. unfold rw_mgr_mem_calibrate_read_test, read_test_rank. test_auto. Qed.
Hint Resolve safe_read_test : safe.

Lemma safe_read_tests g n c ag : index g -> ok (rw_mgr_mem_calibrate_read_test_all_ranks g n c ag : M bool).
Proof.
  intros. unfold rw_mgr_mem_calibrate_read_test_all_ranks. test_auto. apply safe_upto; [destruct (n <=? 0) eqn:?; lia|].
  intros. test_auto.
Qed.

Lemma safe_incr g v : ok (rw_mgr_incr_vfifo g v : M Z).
Proof. unfold rw_mgr_incr_vfifo. test_auto. Qed.
Hint Resolve safe_incr : safe.
Lemma safe_decr g v : ok (rw_mgr_decr_vfifo g v : M Z).
Proof. unfold rw_mgr_decr_vfifo. apply (safe_acc I L (fun _ => True)); [done|]. intros. test_auto. Qed.

Lemma safe_program n dm : ok (write_test_program n dm : M Z).
Proof. unfold write_test_program. test_auto. Qed.
Hint Resolve safe_program : safe.
Lemma safe_write_test g dm c ar : index g -> ok (rw_mgr_mem_calibrate_write_test 0 g dm c ar : M (bool * Z)).
Proof. intros. unfold rw_mgr_mem_calibrate_write_test, rw_mgr_mem_calibrate_write_test_issue. test_auto. Qed.

End tests.

(** ** The search for the strobe's enable *)

(** Where a stepping loop stops: at the first step at or past the limit. *)
Lemma step_to_spec fuel limit step n t : 0 < step -> 0 <= t -> limit + step <= 2 ^ 32 -> t < 2 ^ 32 ->
  exists k, step_to fuel limit step n t = (n + k, t + k * step) /\ 0 <= k <= Z.of_nat fuel /\
    (k < Z.of_nat fuel -> limit <= t + k * step) /\ (0 < k -> t + (k - 1) * step < limit).
Proof.
  revert n t. induction fuel as [|f IH]; intros n t Hs Ht Hl Hw; cbn [step_to].
  - exists 0. rewrite Z.mul_0_l, !Z.add_0_r. split_and!; [done|lia..].
  - destruct (Z.ltb_spec t limit).
    + rewrite u32_word by (unfold word; lia).
      destruct (IH (n + 1) (t + step)) as (k & -> & Hk & Hend & Hlast); [lia..|].
      exists (k + 1). split_and!; [f_equal; lia|lia|lia|lia|]. intros _.
      destruct (Z.eq_dec k 0) as [->|]; lia.
    + exists 0. rewrite Z.mul_0_l, !Z.add_0_r. split_and!; [done|lia..].
Qed.

Lemma reduce_mid_spec fuel period mid : 0 < period -> 0 < mid -> mid / period <= Z.of_nat fuel ->
  0 < reduce_mid fuel period mid <= period.
Proof.
  intros Hp. revert mid. induction fuel as [|f IH]; intros mid Hm Hf; cbn [reduce_mid].
  - pose proof (Z.div_mod mid period). pose proof (Z.mod_pos_bound mid period). nia.
  - rewrite Z.gtb_ltb. destruct (Z.ltb_spec period mid); [|lia]. apply IH; [lia|].
    replace (mid - period) with (mid + (-1) * period) by lia. rewrite Z.div_add by lia. lia.
Qed.

(** The middle that is set is a phase and a delay that exist. *)
Lemma center_taps_range b e : 0 < b -> b <= e -> b + e < 2 ^ 31 ->
  1 <= fst (center_taps b e) - 1 <= 7 /\ delay (snd (center_taps b e)).
Proof.
  intros Hb He Hs. unfold center_taps. rewrite u32_word by (unfold word; lia).
  change ((IO_DQS_EN_PHASE_MAX + 1) * IO_DELAY_PER_OPA_TAP) with 2496. cbv zeta.
  pose proof (Z.div_mod (b + e) 2). pose proof (Z.mod_pos_bound (b + e) 2).
  set (mid := (b + e) / 2) in *. destruct (reduce_mid_spec (Z.to_nat (mid / 2496)) 2496 mid) as [Hl Hu]; [lia|lia| |].
  { rewrite Z2Nat.id; [lia|]. apply Z.div_pos; lia. }
  set (r := reduce_mid _ _ _) in *. change IO_DELAY_PER_OPA_TAP with 312. change IO_DELAY_PER_DQS_EN_DCHAIN_TAP with 25.
  change (Z.to_nat (IO_DQS_EN_PHASE_MAX + 1)) with 8%nat. change (Z.to_nat (IO_DQS_EN_DELAY_MAX + 1)) with 32%nat.
  destruct (step_to_spec 8 r 312 0 0) as (p & -> & Hp & Hend & Hlast); [lia..|].
  assert (1 <= p) by (destruct (Z.eq_dec p 0) as [->|]; lia).
  rewrite u32_word by (unfold word; lia).
  destruct (step_to_spec 32 r 25 0 (0 + p * 312 - 312)) as (d & -> & Hd & Hend' & Hlast'); [lia..|].
  destruct (0 + p =? 1) eqn:E; cbn [fst snd]; unfold delay; lia.
Qed.

#[export] Hint Resolve safe_skip_rank safe_skip_shadow safe_rank safe_delay_clocks safe_mem_initialize safe_handoff safe_activate
  safe_set_group safe_set_stage safe_set_sub_stage safe_bypass safe_phase_all safe_delay_all safe_out_phase_all safe_load_dqs
  safe_load_dqs_group safe_dq_in_group safe_dq_out_group safe_dm_group safe_oct_group safe_dqs_out_group safe_all_out_add
  safe_patterns_all safe_load_patterns safe_read_tests safe_incr safe_decr safe_write_test safe_read_test : safe.
#[export] Hint Extern 1 (_ = 0) => index_solve : safe.

Section vfifo.
Context {D : Type} `{Device D}.
Abbreviation M := (M D seqvars).
Context (I : seqvars -> Prop) (HI : forall g, I g -> seq_ok g).
Context (L : list Z) (HL : forall a, In a L -> scc_max a <= 31).
Abbreviation ok m := (safe I L (fun _ => True) m).
Context (g : Z) (Hg : index g).

Lemma safe_vread n : ok (SeqVfifo.read_test g n : M bool).
Proof. by apply safe_read_tests. Qed.
Lemma safe_set_phase p : 0 <= p <= 7 -> ok (set_phase g p : M unit).
Proof. intros. by apply safe_phase_all. Qed.
Lemma safe_set_delay d : delay d -> ok (set_delay g d : M unit).
Proof. intros. by apply safe_delay_all. Qed.
Hint Resolve safe_vread safe_set_phase safe_set_delay : safe.

Lemma safe_failing_read : ok (find_failing_read g : M (option Z)).
Proof.
  unfold find_failing_read. apply safe_then; [|intros; by apply safe_ret]. eapply safe_any.
  apply (safe_st I L (fun _ _ => True) (fun _ => True)); [done|]. intros j [v c] _ _. safe_auto.
Qed.

(** The edge at which the window begins. *)
Definition begin_ok (o : option edge) : Prop :=
  match o with Some e => 1 <= e_p e <= 7 /\ 0 <= e_d e <= 12 /\ 0 <= e_i e <= 15 /\ 312 * e_p e <= e_work e <= 40000 | None => True end.

Lemma safe_first_phase w : 0 <= w <= 39000 ->
  safe I L (fun r => match r with inl w' => w' = w + 2496 | inr (p, w') => 1 <= p <= 7 /\ w' = w + 312 * p end)
    (first_phase g w : M (Z + Z * Z)).
Proof.
  intros Hw. unfold first_phase. eapply moves_mono; [|apply (safe_st I L (fun p w' => w' = w + 312 * p)
    (fun r => 1 <= fst r <= 7 /\ snd r = w + 312 * fst r))].
  - intros [w'|[p w']]; [intros ->; vm_compute Z.of_nat; lia|done].
  - lia.
  - intros p w' Hp ->. eval_bounds. change IO_DELAY_PER_OPA_TAP with 312.
    assert (u32 (w + 312 * p + 312) = w + 312 * (p + 1)) as -> by (rewrite u32_word; unfold word; lia).
    destruct (Z.eqb_spec p 0); [by apply safe_ret|]. safe_auto. split_result; cbn; lia.
Qed.

Lemma safe_find_begin v : safe I L begin_ok (find_begin g 12 v : M (option edge)).
Proof.
  unfold find_begin. eapply safe_bind.
  - apply (safe_st I L (fun d x => snd x = 25 * d) (fun e => begin_ok (Some e))); [done|].
    intros d [v1 w1] Hd Hw. cbn [snd] in Hw. eval_bounds. safe_step; [safe_auto|]. eapply safe_bind.
    + apply (safe_st I L (fun i x => snd x = 25 * d + 2496 * i) (fun e => begin_ok (Some e))); [cbn; lia|].
      intros i [v2 w2] Hi Hw2. cbn [snd] in Hw2. eval_bounds. eapply safe_bind; [apply safe_first_phase; lia|].
      intros [w3|[p w3]] Hr.
      * safe_auto. cbn. lia.
      * apply safe_ret. cbn. lia.
    + intros [[v3 w3]|e] Hr; apply safe_ret; [|exact Hr].
      change IO_DELAY_PER_DQS_EN_DCHAIN_TAP with 25. cbn. rewrite u32_word; unfold word; lia.
  - intros [?|e] He; by apply safe_ret.
Qed.

Lemma safe_next_phase v p : 0 <= p <= 7 -> safe I L (fun vp => 0 <= snd vp <= 7) (next_phase g v p : M (Z * Z)).
Proof.
  intros Hp. unfold next_phase. change IO_DQS_EN_PHASE_MAX with 7. destruct (Z.gtb_spec (p + 1) 7).
  - safe_auto.
  - apply safe_ret. cbn. lia.
Qed.

Lemma safe_back b v p : 0 <= p <= 7 -> (b = false -> 1 <= p) ->
  safe I L (fun pv => 0 <= fst pv <= 7)
    (if b then let* v' := rw_mgr_decr_vfifo g v in ret (IO_DQS_EN_PHASE_MAX, v') else ret (p - 1, v) : M (Z * Z)).
Proof.
  intros Hp Hb. destruct b.
  - safe_auto.
  - apply safe_ret. cbn. specialize (Hb eq_refl). lia.
Qed.

Lemma safe_refine_begin e : begin_ok (Some e) ->
  safe I L (fun b => 0 <= e_p b <= 7 /\ 312 <= e_work b <= e_work e) (refine_begin g e : M edge).
Proof.
  intros (Hp & Hd & Hi & Hw). unfold refine_begin. rewrite (proj2 (Z.eqb_neq (e_p e) 0)) by lia. safe_step. cbv zeta.
  change IO_DELAY_PER_OPA_TAP with 312.
  assert (exists p' t, (if e_p e - 1 =? 0 then (1, e_work e) else (e_p e - 1, u32 (e_work e - 312))) = (p', t) /\
            0 <= p' <= 7 /\ 312 <= t <= e_work e) as (p' & t & -> & Hp1 & Ht).
  { destruct (Z.eqb_spec (e_p e - 1) 0); eexists _, _; (split; [reflexivity|]); [lia|].
    rewrite u32_word; unfold word; lia. }
  safe_step; [safe_auto|]. eapply safe_bind.
  - apply (safe_st I L (fun _ t => 312 <= t) (fun t => 312 <= t <= e_work e)); [lia|].
    intros d t' Hd' Ht'. eval_bounds. destruct (Z.ltb_spec t' (e_work e)); cbn [negb]; [|apply safe_ret; lia].
    safe_auto. change IO_DELAY_PER_DQS_EN_DCHAIN_TAP with 25. rewrite u32_word by (unfold word; lia). split_result; lia.
  - intros [t'|t'] Ht'; apply safe_ret; cbn; lia.
Qed.

(** *** The end of the window *)

(** After [j] phases from [start] the end has moved by as many phase taps; the
    begin is where it was, or [start]. *)
Definition walked (start bgn0 j bgn e : Z) : Prop := e = start + 312 * j /\ (bgn = bgn0 \/ bgn = start).

Lemma safe_last_phase start bgn0 p j bgn e : 0 <= start <= 41000 -> 0 <= p <= 7 -> 0 <= j <= 150 -> walked start bgn0 j bgn e ->
  safe I L (fun r => match r with
    | inl (j', bgn', e') => j' = j + (8 - p) /\ walked start bgn0 j' bgn' e'
    | inr (p', bgn', e') => 1 <= p' <= 7 /\ exists j', 1 <= j' <= j + 8 /\ walked start bgn0 j' bgn' e'
    end) (last_phase g p j bgn e : M (Z * Z * Z + Z * Z * Z)).
Proof.
  intros Hs Hp Hj Hw. unfold last_phase. eapply moves_mono; [|apply (safe_st I L
    (fun q '(j', bgn', e') => j' = j + (q - p) /\ walked start bgn0 j' bgn' e')
    (fun '(p', bgn', e') => 1 <= p' <= 7 /\ exists j', 1 <= j' <= j + 8 /\ walked start bgn0 j' bgn' e'))].
  - intros [[[j' b'] e']|r]; [|done]. unfold upto. change (IO_DQS_EN_PHASE_MAX + 1 - p) with (8 - p).
    rewrite Z2Nat.id by lia. intros [-> Hw']. split; [lia|done].
  - split; [lia|done].
  - intros q [[j' b'] e'] Hq (-> & -> & Hb). unfold upto in Hq. change (IO_DQS_EN_PHASE_MAX + 1 - p) with (8 - p) in Hq.
    rewrite Z2Nat.id in Hq by lia. change IO_DELAY_PER_OPA_TAP with 312.
    rewrite !u32_word by (unfold word; lia).
    destruct (Z.eqb_spec q 0); [apply safe_ret; unfold walked; split; [lia|split; [lia|done]]|].
    safe_auto; unfold walked; cbn [negb andb] in *; unfold walked.
    all: try (split; [lia|]).
    all: try (exists (j + (q - p))).
    all: repeat split; try lia.
    all: try tauto.
Qed.


(** A window: its begin in time, and its last working phase or delay. *)
Definition window_ok (w : option (Z * edge)) : Prop :=
  match w with
  | Some (bgn, f) => 312 <= bgn <= 50000 /\ 1 <= e_p f <= 7 /\ 0 <= e_d f <= 12 /\ 312 <= e_work f <= 100000
  | None => True
  end.

Lemma safe_find_end v i p bgn0 start : 0 <= i <= 15 -> 0 <= p <= 7 -> 312 <= bgn0 <= 50000 -> 624 <= start <= 41000 ->
  safe I L (fun r => match r with
    | Some (f, bgn) => 312 <= bgn <= 50000 /\ 1 <= e_p f <= 7 /\ e_d f = 0 /\ start + 312 <= e_work f <= 100000
    | None => True
    end) (find_end g v i p bgn0 start : M (option (edge * Z))).
Proof.
  intros Hi Hp Hb Hs. unfold find_end. eapply safe_bind.
  - apply (safe_st I L (fun i' '(_, p, j, bgn, e) => 0 <= p <= 7 /\ 0 <= j <= 8 * (i' - i) /\ walked start bgn0 j bgn e)
      (fun '(f, bgn) => 312 <= bgn <= 50000 /\ 1 <= e_p f <= 7 /\ e_d f = 0 /\ start + 312 <= e_work f <= 100000)).
    + split; [done|]. split; [lia|]. split; [lia|by left].
    + intros i' [[[[v' p'] j] bgn] e] Hi' (Hp' & Hj & Hw). change (VFIFO_SIZE + 1 - i) with (17 - i) in Hi'.
      rewrite Z2Nat.id in Hi' by lia. eapply safe_bind; [apply (safe_last_phase start bgn0); first [done|lia]|].
      intros [[[j' bgn'] e']|[[p2 bgn'] e']] Hr.
      * destruct Hr as [-> Hw']. safe_auto. split; [lia|]. split; [lia|done].
      * destruct Hr as (Hp2 & j' & Hj' & -> & Hb'). apply safe_ret. cbn. lia.
  - intros [?|[f bgn]] Hr; apply safe_ret; [done|exact Hr].
Qed.

Lemma safe_step_back f : 1 <= e_p f <= 7 -> 936 <= e_work f <= 100000 ->
  safe I L (fun f' => 1 <= e_p f' <= 7 /\ e_d f' = 0 /\ 312 <= e_work f' <= 100000) (step_back g f : M edge).
Proof.
  intros Hp Hw. unfold step_back. change IO_DELAY_PER_OPA_TAP with 312.
  destruct (Z.eqb_spec (e_p f) 1) as [E|E].
  - change (0 =? 0) with true. cbv iota. rewrite (u32_word (e_work f - 312)) by (unfold word; lia).
    rewrite (u32_word (_ - 312)) by (unfold word; lia). eapply safe_bind.
    { apply (safe_bind _ _ (fun _ => True)); [safe_auto|]. intros v _. apply (safe_ret _ _ (fun pv => fst pv = 7)). done. }
    intros [p v] Hp'. cbn [fst] in Hp'. subst p. safe_auto. cbn. lia.
  - rewrite (proj2 (Z.eqb_neq (e_p f) 0)) by lia. rewrite (u32_word (_ - 312)) by (unfold word; lia).
    safe_auto. cbn. lia.
Qed.

Lemma safe_phase_window e : begin_ok (Some e) -> safe I L window_ok (phase_window g e : M (option (Z * edge))).
Proof.
  intros He. unfold phase_window. eapply safe_bind; [by apply safe_refine_begin|]. intros b [Hbp Hbw].
  destruct He as (Hp & Hd & Hi & Hw). eapply safe_bind; [by apply safe_next_phase|]. intros [v p] Hp'. cbn [fst snd] in *.
  safe_step; [safe_auto|]. eapply safe_bind; [by apply safe_next_phase|]. intros [v' p'] Hp2. cbn [fst snd] in *.
  change IO_DELAY_PER_OPA_TAP with 312. rewrite u32_word by (unfold word; lia).
  eapply safe_bind; [apply safe_find_end; lia|]. intros [[f bgn]|] Hr; [|by apply safe_ret].
  destruct Hr as (Hb & Hfp & Hfd & Hfw). eapply safe_bind; [apply safe_step_back; lia|]. intros f' (? & ? & ?).
  apply safe_ret. cbn. lia.
Qed.

Lemma safe_refine_end f : 0 <= e_d f <= 12 -> 312 <= e_work f <= 100000 ->
  safe I L (fun r => 0 <= fst r <= 32 /\ 0 <= snd r <= 101000) (refine_end g f : M (Z * Z)).
Proof.
  intros Hd Hw. unfold refine_end. change IO_DELAY_PER_DQS_EN_DCHAIN_TAP with 25. eapply safe_bind.
  - apply (safe_st I L (fun d w => 312 <= w <= 100000 + 25 * (d - e_d f))
      (fun r => 0 <= fst r <= 31 /\ 312 <= snd r <= 100800)); [lia|].
    intros d w Hd' Hw'. unfold upto in Hd'. change (IO_DQS_EN_DELAY_MAX + 1 - e_d f) with (32 - e_d f) in Hd'.
    rewrite Z2Nat.id in Hd' by lia. rewrite u32_word by (unfold word; lia). safe_auto. split_result; cbn; lia.
  - unfold upto. change (IO_DQS_EN_DELAY_MAX + 1 - e_d f) with (32 - e_d f). rewrite Z2Nat.id by lia.
    change (IO_DQS_EN_DELAY_MAX + 1) with 32.
    intros [w|[d w]] Hr; cbn [fst snd] in Hr; cbv beta iota zeta; apply safe_ret; cbn [fst snd];
      rewrite u32_word by (unfold word; lia); split_result; lia.
Qed.

Lemma safe_find_read b d : 0 <= d <= 32 -> safe I L (fun r => match r with Some d' => d <= d' <= 31 | None => True end)
  (find_read g b d : M (option Z)).
Proof.
  intros Hd. unfold find_read. eapply safe_bind.
  - apply (safe_st I L (fun _ _ => True) (fun d' => d <= d' <= 31)); [done|]. intros d' _ Hd' _.
    unfold upto in Hd'. change (IO_DQS_EN_DELAY_MAX + 1 - d) with (32 - d) in Hd'. rewrite Z2Nat.id in Hd' by lia.
    safe_auto. split_result; [lia|done].
  - intros [?|?] Hr; by apply safe_ret.
Qed.

Lemma safe_measure_taps v p d t : 1 <= p <= 7 -> 0 <= d <= 32 -> ok (measure_taps g v p d t : M (Z * Z)).
Proof.
  intros Hp Hd. unfold measure_taps. eapply safe_bind.
  { apply (safe_back ((p =? 0) || (p =? 1))); [lia|]. intros E. apply orb_false_elim in E as [E E']. lia. }
  intros [p' v'] Hp'. cbn [fst] in Hp'. safe_step; [safe_auto|]. eapply safe_bind; [by apply safe_find_read|].
  intros [d'|] Hd'; [|by apply safe_ret]. eapply safe_then; [|intros; by apply safe_ret].
  eapply safe_any, safe_find_read. lia.
Qed.

Lemma safe_push v : ok (push_vfifo g v : M bool).
Proof.
  unfold push_vfifo. apply safe_then; [|intros; by apply safe_ret]. eapply safe_any.
  apply (safe_st I L (fun _ _ => True) (fun _ => True)); [done|]. intros. safe_auto.
Qed.

Lemma safe_center_window v p d t b e : 1 <= p <= 7 -> 0 <= d <= 32 -> 0 < b -> b <= e -> b + e < 2 ^ 31 ->
  ok (center_window g v p d t b e : M bool).
Proof.
  intros. unfold center_window. apply safe_then; [by apply safe_measure_taps|intros vt]. safe_step; [safe_auto|].
  destruct (center_taps_range b e) as [? ?]; [done..|]. destruct (center_taps b e) as [p' d']. cbn [fst snd] in *.
  safe_step; [safe_auto|]. safe_step; [safe_auto|]. apply safe_push.
Qed.

Lemma safe_find_dqs_en_phase : ok (rw_mgr_mem_calibrate_vfifo_find_dqs_en_phase g : M bool).
Proof.
  unfold rw_mgr_mem_calibrate_vfifo_find_dqs_en_phase. do 3 (safe_step; [safe_auto|]).
  change (taps_per IO_DELAY_PER_OPA_TAP IO_DELAY_PER_DQS_EN_DCHAIN_TAP) with 12. cbv zeta.
  apply safe_then; [apply safe_failing_read|]. intros [v|]; [|by apply safe_ret].
  eapply safe_bind; [apply safe_find_begin|]. intros [e|] He; [|by apply safe_ret].
  apply (safe_bind _ _ window_ok).
  { destruct (e_d e =? 0); [by apply safe_phase_window|]. apply safe_ret. destruct He as (? & ? & ? & ?). cbn. lia. }
  intros [[b f]|] Hw; [|by apply safe_ret]. destruct Hw as (Hb & Hp & Hd & Hfw).
  eapply safe_bind; [by apply safe_refine_end|]. intros [d w] Hr. cbn [fst snd] in Hr.
  destruct (Z.geb_spec w b); [|by apply safe_ret]. apply safe_center_window; lia.
Qed.

End vfifo.
#[export] Hint Resolve safe_find_dqs_en_phase : safe.
