(* ===== verification/SeqRange.v ===== *)
(** The calibration sequencer on delay registers that are plain registers: the
    centring of the pins, the stages and the whole run stay in range and
    return. *)

From S2P Require Import Prelude Mmio Regs Globals SeqRegs SeqIo SeqScc SeqTests SeqVfifo SeqCenter Sequencer SeqBus SeqSafe.

Section center.
Context {D : Type} `{Device D}.
Abbreviation M := (M D seqvars).
Context (I : seqvars -> Prop) (HI : forall g, I g -> seq_ok g).
Context (L : list Z) (HL : forall a, In a L -> scc_max a <= 31).
Abbreviation ok m := (safe I L (fun _ => True) m).

Lemma safe_returns {A} (R : A -> Prop) (m : M A) : returns R m -> ok m -> safe I L R m.
Proof.
  intros Hr Hm s Hi Hd. specialize (Hm s Hi Hd). specialize (Hr s). unfold wp in *.
  destruct Hm as (a & E & ? & ?). exists a. split_and!; try tauto. by apply Hr.
Qed.

(** The shift of a pin keeps its delay in range. *)
Lemma limit_shift_fits (read : Z -> M Z) a (R : Reg D a) p x (s : st D seqvars) : read p = readl a -> delays_ok L s -> In a L ->
  wp (limit_shift read 31 p p x) s (fun o s' t => exists v, o = Val v /\ delay (reg a s + v) /\ -31 <= v <= 31 /\ glob s' = glob s /\
    (forall b (Rb : Reg D b), reg b s' = reg b s) /\ Forall in_range t).
Proof.
  intros Hr Hd Ha. pose proof (Hd a R Ha) as Hu. pose proof (word_reg a s) as Hw. unfold limit_shift. rewrite Hr.
  assert (Hs : s32 (reg a s) = reg a s) by (destruct Hw; apply s32_small; lia). destruct Hw as [Hl _]. unfold delay.
  wp_step. apply (wp_readl_all a). intros s1 K1 G1. cbv beta iota. rewrite Hs. destruct (Z.gtb_spec (x + reg a s) 31).
  - wp_step. apply (wp_readl_all a). intros s2 K2 G2. cbv beta iota. wp_step. rewrite K1, s32_small by lia.
    eexists. split_and!; [done|lia|lia|lia|lia|congruence|intros; by rewrite K2, K1|by repeat constructor].
  - wp_step. apply (wp_readl_all a). intros s2 K2 G2. cbv beta iota. rewrite K1, Hs. destruct (Z.ltb_spec (x + reg a s) 0).
    + wp_step. apply (wp_readl_all a). intros s3 K3 G3. cbv beta iota. wp_step. rewrite K2, K1, Hs.
      eexists. split_and!; [done|lia|lia|lia|lia|congruence|intros; by rewrite K3, K2, K1|by repeat constructor].
    + wp_step. eexists. split_and!; [done|lia|lia|lia|lia|congruence|intros; by rewrite K2, K1|by repeat constructor].
Qed.

Lemma safe_move_pins (read : Z -> M Z) (write : Z -> Z -> M unit) y z w i ws m :
  (forall p, 0 <= p < 8 -> exists a (R : Reg D a), read p = readl a /\ In a L) ->
  (forall p v, 0 <= p < 8 -> delay v -> ok (write p v)) ->
  0 <= i -> i + Z.of_nat (length ws) <= 8 -> ok (move_pins read write 31 0 y z w i ws m).
Proof.
  intros Hr Hw. revert i m. induction ws as [|x ws IH]; intros i m Hi Hl; cbn [move_pins]; [by apply safe_ret|].
  cbn [length] in Hl. cbv zeta. change (0 + i) with i. destruct (Hr i) as (a & R & Ea & Ha); [lia|].
  intros s Hs Hd. wp_step. eapply wp_mono; [by apply (limit_shift_fits read a R)|].
  intros o s' t (v & -> & Hv & Hv' & Hg & Hk & Ht). cbv beta iota. rewrite Ea. wp_step.
  apply (wp_readl_all a). intros s1 K1 G1. cbv beta iota. rewrite Hk. unfold delay in Hv.
  rewrite s32_small by lia. eapply wp_mono.
  - apply (safe_then I L (fun _ => True) (write i (reg a s + v)) (fun _ => move_pins read write 31 0 y z w (i + 1) ws _)).
    + apply Hw; [lia|done].
    + intros _. apply IH; lia.
    + by rewrite G1, Hg.
    + intros b Rb Hb. rewrite K1, Hk. by apply Hd.
  - cbv beta. intros o s2 t2 (r & -> & ? & ? & ? & Ht2). exists r. split_and!; [done..|].
    apply Forall_app. split; [done|]. cbn. by constructor.
Qed.

End center.

(** ** The read latency *)

Ltac seq_step :=
  match goal with
  | |- safe _ _ _ (modify _) => apply safe_modify; intros ? Hg; exact Hg
  | |- _ => safe_step
  end.
Ltac seq_auto := cbv beta iota zeta; repeat seq_step.
Ltac as_safe := match goal with |- moves ?I ?L _ ?R ?m => change (safe I L R m) end.

Section latency.
Context {D : Type} `{HD : Device D}.
Abbreviation M := (M D seqvars).
Let HI : forall g, seq_ok g -> seq_ok g := fun _ Hg => Hg.
Context (L : list Z) (HL : forall a, In a L -> scc_max a <= 31).
Abbreviation ok m := (safe seq_ok L (fun _ => True) m).

Lemma safe_failing g st sub : ok (set_failing_group_stage g st sub : M unit).
Proof. unfold set_failing_group_stage. seq_auto. Qed.
Hint Resolve safe_failing : safe.

(** The latency goes down by one in each round, so the loop ends. *)
Lemma safe_lfifo_loop (k : bool -> M bool) : (forall b, ok (k b)) ->
  ok (let* r := for_upto (2 ^ 32) (fun i =>
        let* g := get in
        IOWR_32DIRECT PHY_MGR_PHY_RLAT 0 (curr_read_lat g) ;;;
        let* pass := rw_mgr_mem_calibrate_read_test_all_ranks 0 NUM_READ_TESTS true true in
        if negb pass then ret (Some (negb (i =? 0))) else
        modify (fun g => g <| curr_read_lat := u32 (curr_read_lat g - 1) |>) ;;;
        let* g := get in
        ret (if curr_read_lat g >? 0 then None else Some true)) in
      IOWR_32DIRECT PHY_MGR_CMD_FIFO_RESET 0 0 ;;;
      match r with None => nofuel | Some b => k b end).
Proof.
  intros Hk. eapply (safe_bind _ _ (fun r => exists b, r = Some b)).
  - intros s Hs Hd. set (y := u32 (curr_read_lat (glob s) - 1)). pose proof (word_u32 (curr_read_lat (glob s) - 1)) as Hy. fold y in Hy.
    apply wp_for with (I := fun i s' t => seq_ok (glob s') /\ delays_ok L s' /\ Forall in_range t /\
      (i = 0 /\ glob s' = glob s \/ 0 < i /\ curr_read_lat (glob s') = y - (i - 1) /\ 0 < curr_read_lat (glob s'))).
    + lia.
    + split_and!; [done..|by constructor|by left].
    + intros i s1 t1 Hi (Hs1 & Hd1 & Ht1 & Hc). wp_step. apply wp_get. cbv beta iota.
      set (c := curr_read_lat (glob s1)) in *. set (J := fun g => seq_ok g /\ curr_read_lat g = c).
      wp_step. eapply wp_mono; [apply (safe_free J L HL); [by vm_compute|by split|done]|]. cbv beta.
      intros o s2 t2 (_ & -> & _ & Hs2 & Hd2 & Ht2). cbv beta iota.
      wp_step. eapply wp_mono; [apply (safe_read_tests J (fun g H => proj1 H) L HL); [by vm_compute|done|done]|]. cbv beta.
      intros o s3 t3 (pass & -> & _ & [Hs3 Hc3] & Hd3 & Ht3). cbv beta iota.
      assert (Ht' : Forall in_range (t1 ++ t2 ++ t3)) by (rewrite !Forall_app; by split_and!).
      destruct (negb pass).
      * wp_step. eexists. rewrite !app_nil_r. split_and!; eauto.
      * do 5 wp_step. cbn [glob].
        change (curr_read_lat ((glob s3) <| curr_read_lat := u32 (curr_read_lat (glob s3) - 1) |>)) with (u32 (curr_read_lat (glob s3) - 1)).
        rewrite Hc3, !app_nil_r.
        destruct (Z.gtb_spec (u32 (c - 1)) 0).
        -- split_and!; [done..|]. right. cbn. split; [lia|]. split; [|done].
           destruct Hc as [[-> E]|(Hi' & E & Hp)]; [unfold c; rewrite E; unfold y; lia|].
           destruct Hy. rewrite u32_word; unfold word; lia.
        -- eexists. split_and!; eauto.
    + intros s1 t1 (_ & _ & _ & [[Hn _]|(_ & E & Hp)]); [lia|]. destruct Hy. lia.
  - intros r [b ->]. safe_step; [seq_auto|]. apply Hk.
Qed.

Lemma safe_lfifo : ok (rw_mgr_mem_calibrate_lfifo : M bool).
Proof.
  unfold rw_mgr_mem_calibrate_lfifo. do 3 (safe_step; [seq_auto|]).
  apply (safe_lfifo_loop (fun b => if b then _ else _)). intros []; seq_auto.
Qed.

End latency.
#[export] Hint Resolve safe_failing safe_lfifo : safe.

(** ** Centring *)

Section groups.
Context {D : Type} `{HD : Device D} `{!DelayRegs D}.
Abbreviation M := (M D seqvars).
Let HI : forall g, seq_ok g -> seq_ok g := fun _ Hg => Hg.
Let HL : forall a, In a delay_regs -> scc_max a <= 31 := delay_regs_max.
Abbreviation ok m := (safe seq_ok delay_regs (fun _ => True) m).

(** Reads of the delay registers. *)
Lemma read_reg a : In a delay_regs -> exists R : Reg D a, True.
Proof. intros Ha. by exists (delay_reg a Ha). Qed.

Lemma dqs_in_reg_in g : 0 <= g < 4 -> In (dqs_in_reg g) delay_regs.
Proof.
  intros Hg. apply in_or_app. right. apply in_map. apply list_elem_of_In, elem_of_seqZ. lia.
Qed.
Lemma io_out_reg_in p : 0 <= p < 9 -> In (io_out_reg p) delay_regs.
Proof.
  intros Hp. apply in_or_app. left. apply in_or_app. left. apply in_map. apply list_elem_of_In, elem_of_seqZ. lia.
Qed.
Lemma io_in_reg_in p : 0 <= p < 8 -> In (io_in_reg p) delay_regs.
Proof.
  intros Hp. apply in_or_app. left. apply in_or_app. right. apply in_map. apply list_elem_of_In, elem_of_seqZ. lia.
Qed.

Lemma safe_read_reg a : In a delay_regs -> safe seq_ok delay_regs delay (readl a : M Z).
Proof. intros Ha. apply safe_readl_reg; [done|by apply delay_reg]. Qed.

Lemma safe_sweep n mask sticky test step stop ws :
  (forall d, 0 <= d < Z.of_nat n -> ok (test d)) -> ok (sweep n mask sticky test step stop ws : M (list window + list window)).
Proof.
  intros Ht. unfold sweep. apply safe_then; [|intros [[]|]; by apply safe_ret]. eapply safe_any.
  apply (safe_st _ _ (fun _ _ => True) (fun _ => True)); [done|]. intros d [st' ws'] Hd _.
  apply safe_then; [apply Ht; lia|]. intros [s' b]. cbv zeta. destruct (_ && _); by apply safe_ret.
Qed.

Lemma safe_center_test wg rg u : index wg -> index rg -> ok (vfifo_center_test 0 wg rg u : M (bool * Z)).
Proof. intros. unfold vfifo_center_test. seq_auto. Qed.
Hint Resolve safe_center_test : safe.

Lemma safe_vfifo_left wg rg u : index wg -> index rg ->
  safe seq_ok delay_regs (fun ws => length ws = 8%nat) (vfifo_left 0 wg rg 0 u : M (list window)).
Proof.
  intros. apply safe_returns; [by apply (quiet_vfifo_left 0 wg rg 0 u)|].
  unfold vfifo_left. eapply safe_bind; [apply safe_get|]. intros g0 _. apply safe_then; [|intros; seq_auto].
  apply safe_sweep. intros d Hd. eval_bounds. seq_auto.
Qed.

Lemma safe_vfifo_right wg rg sd u ws : index wg -> index rg -> delay sd ->
  safe seq_ok delay_regs (fun ws' => length ws' = length ws) (vfifo_right 0 wg rg sd u ws : M (list window)).
Proof.
  intros Hwg Hrg Hsd. apply safe_returns; [by apply (quiet_vfifo_right 0 wg rg)|]. unfold delay in Hsd.
  unfold vfifo_right. eapply safe_bind; [apply safe_get|]. intros g0 _. change IO_DQS_IN_DELAY_MAX with 31. cbv zeta.
  rewrite (u32_word (31 - sd)) by (unfold word; lia). rewrite (proj2 (Z.eqb_neq (31 - sd) (2 ^ 32 - 1))) by lia.
  apply safe_then; [|intros [?|?]; by apply safe_ret].
  apply safe_sweep. intros d Hd. rewrite Z2Nat.id in Hd by lia. rewrite u32_word by (unfold word; lia).
  unfold scc_mgr_set_dqs_bus_in_delay. seq_auto.
Qed.

Lemma safe_vfifo_place wg rg sd f ws : index wg -> index rg -> delay sd -> length ws = 8%nat ->
  ok (vfifo_place wg rg 0 sd f ws : M bool).
Proof.
  intros Hwg Hrg Hsd Hl. unfold vfifo_place. cbv zeta. unfold delay in Hsd.
  assert (Hn : forall m, delay (new_strobe sd m)).
  { intros m. unfold new_strobe, delay. change IO_DQS_IN_DELAY_MAX with 31. cbv zeta. repeat case_match; lia. }
  specialize (Hn (half_mid (min_mid ws))). unfold delay in Hn.
  replace (sd - (sd - new_strobe sd (half_mid (min_mid ws)))) with (new_strobe sd (half_mid (min_mid ws))) by lia.
  apply safe_then.
  - apply (safe_move_pins seq_ok); [| |lia|by rewrite Hl].
    + intros p Hp. exists (io_in_reg p), (delay_reg _ (io_in_reg_in p Hp)). split; [done|by apply io_in_reg_in].
    + intros p v Hp Hv. unfold delay in Hv. rewrite u32_word by (unfold word; lia).
      unfold scc_mgr_set_dq_in_delay, scc_mgr_load_dq. seq_auto.
  - intros [dq dqs]. rewrite u32_word by (unfold word; lia). unfold scc_mgr_set_dqs_bus_in_delay. seq_auto.
Qed.

Lemma safe_vfifo_center wg rg u f : 0 <= wg < 4 -> 0 <= rg < 4 -> ok (rw_mgr_mem_calibrate_vfifo_center 0 wg rg 0 u f : M bool).
Proof.
  intros Hwg Hrg. assert (index wg) by index_solve. assert (index rg) by index_solve.
  unfold rw_mgr_mem_calibrate_vfifo_center. eapply safe_bind; [by apply (safe_read_reg (dqs_in_reg rg)), dqs_in_reg_in|].
  intros sd Hsd. cbv zeta. rewrite s32_small by (unfold delay in Hsd; lia).
  eapply safe_bind; [by apply safe_vfifo_left|]. intros ws1 Hl1. eapply safe_bind; [by apply safe_vfifo_right|].
  intros ws Hl. destruct (first_missing _ _ _).
  - unfold vfifo_center_failed. unfold delay in Hsd. rewrite u32_word by (unfold word; lia).
    unfold scc_mgr_set_dqs_bus_in_delay. seq_auto.
  - apply safe_vfifo_place; [done..|congruence].
Qed.
Hint Resolve safe_vfifo_center : safe.

Lemma safe_writes_left wg t : index wg ->
  safe seq_ok delay_regs (fun ws => length ws = 8%nat) (writes_left 0 wg t : M (list window)).
Proof.
  intros. apply safe_returns; [by apply (quiet_writes_left 0 wg t)|].
  unfold writes_left. eapply safe_bind; [apply safe_get|]. intros g0 _. apply safe_then; [|intros; seq_auto].
  apply safe_sweep. intros d Hd. eval_bounds. seq_auto.
Qed.

Lemma safe_writes_right wg sd ws : 0 <= wg < 4 -> delay sd ->
  safe seq_ok delay_regs (fun ws' => length ws' = length ws) (writes_right 0 wg sd ws : M (list window)).
Proof.
  intros Hwg Hsd. apply safe_returns; [by apply (quiet_writes_right 0 wg)|]. unfold delay in Hsd.
  assert (index wg) by index_solve.
  unfold writes_right. eapply safe_bind; [apply safe_get|]. intros g0 _. change (IO_IO_OUT1_DELAY_MAX - sd + 1) with (31 - sd + 1).
  apply safe_then; [|intros; by apply safe_ret].
  apply safe_sweep. intros d Hd. rewrite Z2Nat.id in Hd by lia. rewrite u32_word by (unfold word; lia). seq_auto.
Qed.

(** *** The data mask *)

(** The positions are shifts that exist, or none has been found. *)
Definition dm_fits (w : dm_window) : Prop :=
  (bgn_curr w = out_top \/ -31 <= bgn_curr w <= 31) /\
  (bgn_best w = out_top /\ end_best w = out_top \/ -31 <= bgn_best w <= 31 /\ -31 <= end_best w <= 31).

Lemma dm_fits_none : dm_fits (dm_none out_top).
Proof. by repeat (left || split). Qed.

Lemma dm_fits_fail w : dm_fits w -> dm_fits (dm_fail out_top w).
Proof. intros [_ Hb]. split; [by left|done]. Qed.

Lemma dm_fits_pass pos w : -31 <= pos <= 31 -> dm_fits w -> dm_fits (dm_pass out_top pos w).
Proof.
  intros Hp [Hc Hb]. unfold dm_pass, dm_fits. change out_top with 32 in *. cbv zeta.
  destruct (Z.eqb_spec (bgn_curr w) 32); destruct (_ >? _); cbn; lia.
Qed.

Lemma dm_fits_mid w : dm_fits w -> delay (dm_mid w).
Proof.
  intros [_ Hb]. unfold dm_mid, delay. change out_top with 32 in *. cbv zeta.
  assert (Hq : -32 <= Z.quot (-1 * bgn_best w - end_best w) 2 <= 31).
  { split; [apply Z.quot_le_lower_bound|apply Z.quot_le_upper_bound]; lia. }
  destruct (Z.ltb_spec (Z.quot (-1 * bgn_best w - end_best w) 2) 0); lia.
Qed.

Lemma safe_dm_center wg nd : 0 <= wg < 4 -> delay nd -> ok (dm_center 0 wg nd : M Z).
Proof.
  intros Hwg Hnd. assert (index wg) by index_solve. unfold delay in Hnd. unfold dm_center. eapply (safe_bind _ _ dm_fits).
  - unfold dm_left. apply safe_acc; [apply dm_fits_none|]. intros k w Hk Hw. eval_bounds.
    change DELTA_D with 1. change IO_IO_OUT1_DELAY_MAX with 31. seq_auto.
    split_result; [apply dm_fits_pass; [lia|done]|by apply dm_fits_fail].
  - intros w1 Hw1. safe_step; [seq_auto|]. cbv zeta.
    assert (Hw : dm_fits (if negb (end_curr w1 =? 0) then dm_fail out_top w1 else w1)) by (split_result; [by apply dm_fits_fail|done]).
    set (w := if negb _ then _ else _) in *. clearbody w. eapply (safe_bind _ _ dm_fits).
    + unfold dm_right. change DELTA_D with 1. change IO_IO_OUT1_DELAY_MAX with 31. eapply safe_bind.
      * apply (safe_st _ _ (fun _ w' => dm_fits w') dm_fits); [done|]. intros k w' Hk Hw'.
        rewrite Z.div_1_r, Z2Nat.id in Hk by lia. rewrite u32_word by (unfold word; lia). seq_auto.
        -- apply dm_fits_pass; [lia|done].
        -- split_result; by apply dm_fits_fail.
      * intros [w'|w'] Hw'; by apply safe_ret.
    + intros w' Hw'. apply dm_fits_mid in Hw'. rewrite u32_word by (unfold word; lia). seq_auto.
Qed.

Lemma safe_writes_place wg sd ws : 0 <= wg < 4 -> delay sd -> length ws = 8%nat -> ok (writes_place 0 wg sd ws : M bool).
Proof.
  intros Hwg Hsd Hl. unfold writes_place. cbv zeta. apply safe_then.
  - apply (safe_move_pins seq_ok); [| |lia|by rewrite Hl].
    + intros p Hp. exists (io_out_reg p), (delay_reg _ (io_out_reg_in p ltac:(lia))). split; [done|apply io_out_reg_in; lia].
    + intros p v Hp Hv. unfold delay in Hv. rewrite u32_word by (unfold word; lia).
      unfold scc_mgr_set_dq_out1_delay, scc_mgr_load_dq. seq_auto.
  - intros [dq dqs]. unfold delay in Hsd. rewrite u32_word by (unfold word; lia). do 2 (safe_step; [seq_auto|]).
    apply safe_then; [by apply safe_dm_center|]. intros. seq_auto.
Qed.

Lemma safe_writes_center wg t : 0 <= wg < 4 -> ok (rw_mgr_mem_calibrate_writes_center 0 wg t : M bool).
Proof.
  intros Hwg. assert (index wg) by index_solve.
  unfold rw_mgr_mem_calibrate_writes_center. eapply safe_bind; [apply (safe_read_reg (io_out_reg 8)), io_out_reg_in; lia|].
  intros sd Hsd. cbv zeta. rewrite s32_small by (unfold delay in Hsd; lia).
  eapply safe_bind; [by apply safe_writes_left|]. intros ws1 Hl1. eapply safe_bind; [by apply safe_writes_right|].
  intros ws Hl. cbv beta in *. destruct (first_missing _ _ _); [seq_auto|]. apply safe_writes_place; [done..|congruence].
Qed.
Hint Resolve safe_writes_center : safe.

(** ** Stages *)

Lemma safe_sweep_dq_in wg rg : index rg ->
  ok (rw_mgr_mem_calibrate_vfifo_find_dqs_en_phase_sweep_dq_in_delay wg rg 0 : M bool).
Proof.
  intros. unfold rw_mgr_mem_calibrate_vfifo_find_dqs_en_phase_sweep_dq_in_delay, scc_mgr_set_dq_in_delay, scc_mgr_load_dq.
  change (IO_IO_IN_DELAY_MAX / (RW_MGR_MEM_DQ_PER_READ_DQS - 1)) with 4. seq_auto.
Qed.

Lemma safe_try_dqs_in g sd d : 0 <= g < 4 -> delay sd -> delay d -> ok (try_dqs_in g g 0 sd d : M (Z + unit)).
Proof.
  intros Hg Hsd Hd. assert (index g) by index_solve. unfold try_dqs_in, set_dqs_in. apply safe_then.
  - apply safe_acc; [done|]. intros sr _ Hsr _. eval_bounds. seq_auto.
  - intros _. apply safe_then; [by apply safe_sweep_dq_in|]. intros [|]; [|by apply safe_ret].
    apply safe_then; [|intros; by apply safe_ret]. apply safe_acc; [done|]. intros sr f Hsr _. eval_bounds.
    replace sr with 0 by lia. change (0 * NUM_RANKS_PER_SHADOW_REG) with 0. seq_auto.
Qed.

Lemma safe_try_phase g fs : 0 <= g < 4 -> ok (try_phase g g 0 0 fs : M (Z + unit)).
Proof.
  intros Hg. assert (index g) by index_solve. unfold try_phase. do 2 (safe_step; [seq_auto|]). safe_step. apply safe_then.
  { destruct (_ =? 0); seq_auto. }
  intros gu. destruct (negb gu); [by apply safe_ret|].
  eapply safe_bind; [by apply (safe_read_reg (dqs_in_reg g)), dqs_in_reg_in|]. intros sd Hsd.
  eapply safe_any. apply (safe_st _ _ (fun _ _ => True) (fun _ => True)); [done|]. intros d _ Hd _.
  eapply moves_mono; [|apply safe_try_dqs_in; [done..|]]; [by intros []|].
  unfold delay, upto in *. change (IO_DQS_IN_DELAY_MAX + 1) with 32 in Hd. lia.
Qed.

Lemma safe_zero_group g t o : 0 <= g < 4 -> ok (scc_mgr_zero_group g t o : M unit).
Proof.
  intros. unfold scc_mgr_zero_group, scc_mgr_set_dq_out1_delay, scc_mgr_set_dq_out2_delay, scc_mgr_set_dq_in_delay,
    scc_mgr_set_dm_in_delay, scc_mgr_set_dm_out1_delay, scc_mgr_set_dm_out2_delay, scc_mgr_set_dqs_io_in_delay,
    scc_mgr_set_dqs_out1_delay.
  assert (delay IO_DQS_OUT_RESERVE) by by vm_compute. seq_auto.
Qed.
Hint Resolve safe_zero_group : safe.

Lemma safe_vfifo g : 0 <= g < 4 -> ok (rw_mgr_mem_calibrate_vfifo g 0 : M bool).
Proof.
  intros Hg. unfold rw_mgr_mem_calibrate_vfifo. do 3 (safe_step; [seq_auto|]).
  change (taps_per IO_DELAY_PER_OPA_TAP IO_DELAY_PER_DQS_EN_DCHAIN_TAP) with 12. cbv zeta. apply safe_then.
  - eapply safe_any. apply (safe_st _ _ (fun _ _ => True) (fun _ => True)); [done|]. intros k fs Hk _. eval_bounds.
    safe_step; [seq_auto|]. apply safe_then; [|intros []; by apply safe_ret].
    eapply safe_any. apply (safe_st _ _ (fun _ _ => True) (fun _ => True)); [done|]. intros p fs' Hp _. eval_bounds.
    replace p with 0 by lia. eapply moves_mono; [|by apply safe_try_phase]. by intros [].
  - intros [?|d]; seq_auto.
Qed.

Lemma safe_vfifo_end g : 0 <= g < 4 -> ok (rw_mgr_mem_calibrate_vfifo_end g 0 : M bool).
Proof.
  intros Hg. unfold rw_mgr_mem_calibrate_vfifo_end. do 3 (safe_step; [seq_auto|]). apply safe_then.
  - apply safe_acc; [done|]. intros sr f Hsr _. eval_bounds. replace sr with 0 by lia.
    change (0 * NUM_RANKS_PER_SHADOW_REG) with 0. seq_auto.
  - intros []; seq_auto.
Qed.

Lemma safe_writes g t : 0 <= g < 4 -> ok (rw_mgr_mem_calibrate_writes 0 g t : M bool).
Proof. intros. unfold rw_mgr_mem_calibrate_writes. seq_auto. Qed.
Hint Resolve safe_writes : safe.

Lemma safe_stage (m : M bool) : ok m -> ok (stage m).
Proof. intros Hm. unfold stage. apply safe_then; [done|]. intros []; seq_auto. Qed.

Lemma safe_read_stage g (m : Z -> Z -> M bool) : 0 <= g < 4 -> ok (m g 0) -> ok (read_groups_stage g m).
Proof.
  intros Hg Hm. unfold read_groups_stage. cbv zeta. eapply safe_any.
  apply (safe_st _ _ (fun _ _ => True) (fun _ => True)); [done|]. intros i x Hi _.
  destruct (read_groups_range g i Hg) as [-> ->]; [lia|]. rewrite Z.add_0_r, Z.mul_0_l.
  destruct x; [by apply safe_ret|]. eapply moves_mono; [|by apply safe_stage]. by intros [].
Qed.

Lemma safe_writes_stage g t : 0 <= g < 4 -> ok (writes_stage g t : M (bool + unit)).
Proof.
  intros Hg. unfold writes_stage. eapply safe_any.
  apply (safe_st _ _ (fun _ _ => True) (fun _ => True)); [done|]. intros sr x Hsr _. eval_bounds.
  replace sr with 0 by lia. change (0 * NUM_RANKS_PER_SHADOW_REG) with 0.
  destruct (_ || _); [by apply safe_ret|]. safe_step; [seq_auto|]. match goal with |- context [if ?b then _ else _] => destruct b end; [by apply safe_ret|].
  safe_step; [seq_auto|]. apply safe_then; [apply safe_stage; seq_auto|]. intros [?|?]; by apply safe_ret.
Qed.

Hint Resolve safe_vfifo safe_vfifo_end safe_writes_stage : safe.

(** ** Zeroing: from here on the registers hold delays *)

(** A loop whose rounds each set the registers of [f i]. *)
Lemma moves_each (f : Z -> list Z) n (body : Z -> M unit) L : 0 <= n -> (forall a, In a L -> scc_max a <= 31) ->
  (forall i a, 0 <= i < n -> In a (f i) -> scc_max a <= 31) ->
  (forall i L', 0 <= i < n -> (forall a, In a L' -> scc_max a <= 31) -> moves seq_ok L' (f i ++ L') (fun _ => True) (body i)) ->
  moves seq_ok L (flat_map f (seqZ 0 n) ++ L) (fun _ => True) (for_each n body).
Proof.
  intros Hn HLm Hf Hb. unfold for_each. eapply (moves_bind _ _ _ _ (fun _ => True)); [|intros ? _; apply safe_ret; exact Logic.I].
  intros s Hs Hd.
  apply wp_for with (I := fun i s t => seq_ok (glob s) /\ delays_ok (flat_map f (seqZ 0 i) ++ L) s /\ Forall in_range t).
  - done.
  - by split_and!.
  - intros i s' t Hi (Hs' & Hd' & Ht). wp_step. eapply wp_mono; [apply Hb; [done| |done|exact Hd']|].
    + intros a Ha. apply in_app_or in Ha as [Ha|Ha]; [|by apply HLm]. apply in_flat_map in Ha as (j & Hj & Ha).
      apply list_elem_of_In, elem_of_seqZ in Hj. apply (Hf j); [lia|done].
    + cbv beta. intros o s2 t2 (? & -> & _ & Hs2 & Hd2 & Ht2). cbv beta iota. wp_step. rewrite app_nil_r.
      split_and!; [done| |by apply Forall_app]. intros a Ra Ha. apply Hd2.
      apply in_app_or in Ha as [Ha|Ha]; [|by do 2 (apply in_or_app; right)].
      apply in_flat_map in Ha as (j & Hj & Ha). apply list_elem_of_In, elem_of_seqZ in Hj. apply in_or_app.
      destruct (Z.eq_dec j i) as [->|Hne]; [by left|right]. apply in_or_app. left. apply in_flat_map.
      exists j. split; [|done]. apply list_elem_of_In, elem_of_seqZ. lia.
  - intros s' t (? & ? & ?). exists None. by split_and!.
Qed.

Lemma moves_delay a v L : In a delay_regs -> delay v -> moves seq_ok L (a :: L) (fun _ => True) (writel v a : M unit).
Proof.
  intros Ha Hv. unfold delay in Hv. apply moves_writel; rewrite delay_regs_31 by done; [done|].
  rewrite u32_word by (unfold word; lia). lia.
Qed.

(** After zeroing, the delays of the strobes and of a group's pins are known. *)
Lemma moves_zero_all : moves seq_ok [] strobe_regs (fun _ => True) (scc_mgr_zero_all : M unit).
Proof.
  unfold scc_mgr_zero_all, for_shadow_regs.
  apply (moves_weaken _ [] (flat_map (fun _ => strobe_regs) (seqZ 0 1) ++ []) []); [done|intros a Ha; cbn; by rewrite !app_nil_r|].
  assert (Hm : forall a, In a strobe_regs -> scc_max a <= 31) by (intros; apply HL, in_or_app; by right).
  apply (moves_each (fun _ => strobe_regs)); [done..| |].
  { intros i a _. apply Hm. }
  intros r L' _ HL'. apply (moves_bind _ _ L' _ (fun _ => True)); [by apply safe_ret|intros _ _].
  apply (moves_bind _ _ (strobe_regs ++ L') _ (fun _ => True)).
  - apply (moves_weaken _ L' (flat_map (fun i => [dqs_in_reg i]) (seqZ 0 RW_MGR_MEM_IF_READ_DQS_WIDTH) ++ L') L'); [done|done|].
    apply moves_each; [done..| |].
    + intros i a Hi [<-|[]]. apply HL, dqs_in_reg_in. eval_bounds. lia.
    + intros i L2 Hi HL2. eval_bounds.
      apply (moves_bind _ _ (dqs_in_reg i :: L2) _ (fun _ => True)); [apply (moves_delay (dqs_in_reg i)); [by apply dqs_in_reg_in|by vm_compute]|].
      intros _ _. assert (forall a, In a (dqs_in_reg i :: L2) -> scc_max a <= 31).
      { intros a [<-|Ha]; [by apply HL, dqs_in_reg_in|by apply HL2]. }
      as_safe. unfold scc_mgr_set_dqs_en_phase, scc_mgr_set_dqs_en_delay. seq_auto.
  - intros _ _. assert (forall a, In a (strobe_regs ++ L') -> scc_max a <= 31).
    { intros a Ha. apply in_app_or in Ha as [Ha|Ha]; [by apply Hm|by apply HL']. }
    assert (delay IO_DQS_OUT_RESERVE) by by vm_compute.
    as_safe. unfold scc_mgr_set_dqdqs_output_phase. seq_auto.
Qed.

(** The registers of one data pin. *)
Definition pin_of (i : Z) : list Z := [io_in_reg i; io_out_reg i].

Lemma moves_pin g i L : 0 <= i < 8 -> moves seq_ok L (pin_of i ++ L) (fun _ => True)
  (scc_mgr_set_dq_out1_delay g i 0 ;;; scc_mgr_set_dq_out2_delay g i IO_DQ_OUT_RESERVE ;;;
   when (negb false) (scc_mgr_set_dq_in_delay g i 0) : M unit).
Proof.
  intros Hi. eapply (moves_bind _ _ _ _ (fun _ => True)); [apply (moves_delay (io_out_reg i)); [apply io_out_reg_in; lia|done]|].
  intros _ _. eapply (moves_bind _ _ _ _ (fun _ => True)); [by apply safe_ret|intros _ _].
  apply (moves_delay (io_in_reg i)); [by apply io_in_reg_in|done].
Qed.

Lemma pin_regs_in a : In a pin_regs -> In a (io_out_reg 8 :: flat_map pin_of (seqZ 0 8)).
Proof.
  assert (Hf : forallb (fun a => existsb (Z.eqb a) (io_out_reg 8 :: flat_map pin_of (seqZ 0 8))) pin_regs = true) by (vm_compute; reflexivity).
  intros Ha. rewrite forallb_forall in Hf. specialize (Hf a Ha). apply existsb_exists in Hf as (b & Hb & E).
  apply Z.eqb_eq in E as ->. exact Hb.
Qed.

Lemma moves_zero_group g t : 0 <= g < 4 -> moves seq_ok strobe_regs delay_regs (fun _ => True) (scc_mgr_zero_group g t false : M unit).
Proof.
  intros Hg. unfold scc_mgr_zero_group, for_shadow_regs.
  apply (moves_weaken _ strobe_regs (flat_map (fun _ => pin_regs) (seqZ 0 1) ++ strobe_regs) strobe_regs); [done| |].
  { intros a. change (flat_map (fun _ => pin_regs) (seqZ 0 1)) with (pin_regs ++ []). by rewrite app_nil_r. }
  apply (moves_each (fun _ => pin_regs)); [done| | |].
  { intros a Ha. apply HL, in_or_app. by right. }
  { intros i a _ Ha. apply HL, in_or_app. by left. }
  intros r L' _ HL'. apply (moves_bind _ _ L' _ (fun _ => True)); [by apply safe_ret|intros _ _].
  set (P := flat_map pin_of (seqZ 0 8)).
  assert (HP : forall a, In a (P ++ L') -> scc_max a <= 31).
  { intros a Ha. apply in_app_or in Ha as [Ha|Ha]; [|by apply HL']. apply in_flat_map in Ha as (i & Hi & Ha).
    apply list_elem_of_In, elem_of_seqZ in Hi. destruct Ha as [<-|[<-|[]]]; [apply HL, io_in_reg_in; lia|apply HL, io_out_reg_in; lia]. }
  apply (moves_bind _ _ (P ++ L') _ (fun _ => True)).
  - apply moves_each; [done..| |].
    + intros i a Hi [<-|[<-|[]]]; [by apply HL, io_in_reg_in|apply HL, io_out_reg_in; eval_bounds; lia].
    + intros i L2 Hi HL2. by apply moves_pin.
  - intros _ _. apply (moves_weaken _ (P ++ L') ((io_out_reg 8 :: P) ++ L') (P ++ L')); [done| |].
    { intros a Ha. apply in_app_or in Ha as [Ha|Ha]; apply in_or_app; [left; by apply pin_regs_in|by right]. }
    assert (delay IO_DQS_OUT_RESERVE) by by vm_compute.
    apply (moves_bind _ _ (P ++ L') _ (fun _ => True)); [as_safe; seq_auto|intros _ _].
    apply (moves_bind _ _ (P ++ L') _ (fun _ => True)).
    { as_safe. unfold scc_mgr_set_dm_in_delay, scc_mgr_set_dm_out1_delay, scc_mgr_set_dm_out2_delay. seq_auto. }
    intros _ _. apply (moves_bind _ _ (P ++ L') _ (fun _ => True)); [as_safe; seq_auto|intros _ _].
    apply (moves_bind _ _ (P ++ L') _ (fun _ => True)); [as_safe; unfold scc_mgr_set_dqs_io_in_delay; seq_auto|intros _ _].
    apply (moves_bind _ _ (io_out_reg 8 :: P ++ L') _ (fun _ => True)); [by apply (moves_delay (io_out_reg 8)); [apply io_out_reg_in|]|].
    intros _ _. as_safe. assert (forall a, In a (io_out_reg 8 :: P ++ L') -> scc_max a <= 31).
    { intros a [<-|Ha]; [by apply HL, io_out_reg_in|by apply HP]. }
    change ((io_out_reg 8 :: P) ++ L') with (io_out_reg 8 :: P ++ L'). seq_auto.
Qed.

(** ** All groups *)

Lemma moves_group g t : 0 <= g < 4 -> moves seq_ok strobe_regs delay_regs (fun _ => True) (calibrate_group g t : M (bool + unit)).
Proof.
  intros Hg. unfold calibrate_group.
  apply (moves_bind _ _ strobe_regs _ (fun _ => True)); [apply safe_free; [intros a Ha; apply HL, in_or_app; by right|by vm_compute]|intros _ _].
  apply (moves_bind _ _ delay_regs _ (fun _ => True)); [by apply moves_zero_group|intros _ _]. as_safe.
  unfold unless_failed. safe_step; [|safe_step]; seq_auto; apply safe_read_stage; auto with safe.
Qed.

Lemma safe_groups : safe seq_ok strobe_regs (fun _ => True) (calibrate_groups : M (Z + unit)).
Proof.
  unfold calibrate_groups. eapply safe_bind; [apply safe_get|]. intros g0 _.
  apply safe_then; [|intros [[]|]; by apply safe_ret]. eapply safe_any.
  apply (safe_st _ _ (fun _ _ => True) (fun _ => True)); [done|]. intros g [rg fg] Hg _. eval_bounds. cbv zeta.
  destruct (_ =? 0); [by apply safe_ret|]. apply safe_then; [|intros [?|?]; by apply safe_ret].
  apply (moves_weaken _ strobe_regs delay_regs strobe_regs); [done| |by apply moves_group].
  intros a Ha. apply in_or_app. by right.
Qed.

Lemma safe_round : safe seq_ok [] (fun _ => True) (calibrate_round : M (option unit)).
Proof.
  unfold calibrate_round. apply (moves_bind _ _ strobe_regs _ (fun _ => True)); [apply moves_zero_all|intros _ _].
  apply (moves_weaken _ strobe_regs strobe_regs strobe_regs); [done|intros a []|]. as_safe.
  assert (forall a, In a strobe_regs -> scc_max a <= 31) by (intros; apply HL, in_or_app; by right).
  apply safe_then; [apply safe_groups|]. intros [f|]; [|by apply safe_ret]. seq_auto.
Qed.

Let HN : forall a, In a [] -> scc_max a <= 31 := fun a (Ha : In a []) => False_ind _ Ha.
Abbreviation ok0 m := (safe seq_ok [] (fun _ => True) m).

Lemma safe_config : ok0 (mem_config : M unit).
Proof. unfold mem_config. seq_auto. Qed.
Hint Resolve safe_config : safe.

Lemma safe_mem_calibrate : ok0 (mem_calibrate : M bool).
Proof.
  unfold mem_calibrate. do 3 (safe_step; [seq_auto|]). eapply safe_bind; [apply safe_get|]. intros g (_ & _ & ->).
  change (STATIC_CALIB_STEPS .& CALIB_SKIP_ALL =? CALIB_SKIP_ALL) with false. cbv iota.
  apply safe_then; [|intros []; seq_auto]. apply safe_upto; [done|]. intros. apply safe_round.
Qed.
Hint Resolve safe_mem_calibrate : safe.

Lemma safe_run_mem_calibrate : ok0 (run_mem_calibrate : M bool).
Proof. unfold run_mem_calibrate, initialize, report_pass, report_fail, IPRINT. seq_auto. Qed.

End groups.

(** ** The run *)

Section set_up.
Context {D : Type} `{Device D}.
Abbreviation M := (M D seqvars).
Context (I : seqvars -> Prop).
Abbreviation ok m := (safe I [] (fun _ => True) m).
Let HN : forall a, In a [] -> scc_max a <= 31 := fun a (Ha : In a []) => False_ind _ Ha.

Lemma safe_reg_file : ok (initialize_reg_file : M unit).
Proof. unfold initialize_reg_file. seq_auto. Qed.
Lemma safe_hps_phy : ok (initialize_hps_phy : M unit).
Proof. unfold initialize_hps_phy. seq_auto. Qed.
Lemma safe_tracking : ok (initialize_tracking : M unit).
Proof. unfold initialize_tracking. seq_auto. Qed.
Lemma safe_scc_initialize : ok (scc_mgr_initialize : M unit).
Proof.
  unfold scc_mgr_initialize. apply safe_each; [done|]. intros i Hi. apply (safe_scc I [] HN 11); [lia|scc_index|by vm_compute|done].
Qed.
Lemma safe_rom_data : ok (hc_initialize_rom_data : M unit).
Proof.
  unfold hc_initialize_rom_data. apply safe_then; [|intros _]; (apply safe_each; [done|]); intros i Hi;
    (apply safe_then; [by apply safe_array_get|]); intros v; eval_bounds.
  - apply (safe_rw I [] HN 0x1800). scc_index.
  - apply (safe_rw I [] HN 0x1c00). scc_index.
Qed.

End set_up.

Definition arrays_ok (g : seqvars) : Prop := length (skip_ranks g) = 1%nat /\ length (skip_shadow_regs g) = 1%nat.

Lemma seq_ok_intro g : arrays_ok g -> dyn_calib_steps g = STATIC_CALIB_STEPS -> seq_ok g.
Proof. intros [? ?] ?. by split_and!. Qed.

(** Runs a program that is safe under the condition on the variables. *)
Ltac wp_safe I lem :=
  wp_step; eapply wp_mono; [apply (lem : safe I [] (fun _ => True) _); first [done | exact Logic.I | intros ? ? [] | by apply seq_ok_intro]|]; cbv beta;
  let o := fresh "o" in let s := fresh "s" in let t := fresh "t" in let Ht := fresh "Ht" in
  let v := fresh "v" in intros o s t (v & -> & _ & ? & _ & Ht); cbv beta iota.

Section run.
Context {D : Type} `{HD : Device D} `{!DelayRegs D}.
Abbreviation M := (M D seqvars).

Lemma body_safe (s : st D seqvars) :
  wp (sdram_calibration_body : M Z) s (fun o _ t => (o = Val 0 \/ o = Val 1) /\ Forall in_range t).
Proof.
  unfold sdram_calibration_body. do 2 wp_step.
  wp_safe (fun _ : seqvars => True) (safe_reg_file (D := D) (fun _ => True)).
  wp_safe (fun _ : seqvars => True) (safe_hps_phy (D := D) (fun _ => True)).
  wp_safe (fun _ : seqvars => True) (safe_scc_initialize (D := D) (fun _ => True)).
  wp_safe (fun _ : seqvars => True) (safe_tracking (D := D) (fun _ => True)).
  do 2 wp_step. unfold IPRINT at 1. do 2 wp_step.
  wp_safe arrays_ok (safe_rom_data (D := D) arrays_ok).
  wp_safe arrays_ok (safe_set_stage (D := D) arrays_ok [] (fun a (Ha : In a []) => False_ind _ Ha) CAL_STAGE_NIL).
  wp_safe arrays_ok (safe_set_group (D := D) arrays_ok [] (fun a (Ha : In a []) => False_ind _ Ha) 0).
  do 4 wp_step.
  wp_safe seq_ok (safe_run_mem_calibrate (D := D)).
  wp_step. split; [match goal with b : bool |- _ => destruct b end; auto|]. rewrite !Forall_app. repeat split; try done. by repeat constructor.
Qed.

End run.

(** How a calibration ends: a result, and only values that exist. *)
Definition ends_in_range {D G} (r : res D G Z) : Prop := (out r = Val 0 \/ out r = Val 1) /\ Forall in_range (tr r).

(** C7: Whatever the memory answers, a calibration on hardware whose delay
    registers hold what is written returns 0 or 1, and no phase or delay that it
    sets is larger than the register's largest value. *)
Theorem calibration_in_range {D} `{DelayRegs D} (junk : seqvars) (s : st D gdata) :
  ends_in_range (sdram_calibration junk s).
Proof. unfold ends_in_range. wp_enter. unfold sdram_calibration. apply wp_zoom. cbn [dev glob]. apply body_safe. Qed.
