(* ===== verification/SeqSim.v ===== *)
(** A simulated PHY and memory for the calibration sequencer: delay registers,
    a FIFO of read valids per group, and a read-write manager whose tests fail
    for the pins that are outside their eyes.  It shows that the hypotheses of
    the theorems on a run can hold, and runs a calibration that passes. *)

From S2P Require Import Prelude Mmio Regs Globals SeqRegs SeqIo SeqBus SeqSafe Sequencer SeqRange.

(** The registers, the FIFOs, the read-write manager's last program and group. *)
Record phy := mk_phy { regs : gmap Z Z; fifo : gmap Z Z; program : Z; group : Z }.

Definition val (d : phy) (a : Z) : Z := default 0 (regs d !! a).

Definition rw_run : Z := apb RW_MGR_RUN_SINGLE_GROUP 0.
Definition rw_all : Z := apb RW_MGR_RUN_ALL_GROUPS 0.
Definition inc_fifo : Z := apb PHY_MGR_CMD_INC_VFIFO_HARD_PHY 0.

Definition between (l x r : Z) : bool := (l <=? x) && (x <=? r).

(** The strobe is enabled in time, and the read latency is long enough. *)
Definition enabled (d : phy) : bool :=
  let t := default 0 (fifo d !! group d) * 2496 + val d (apb SCC_MGR_DQS_EN_PHASE (group d * 4)) * 312
           + val d (apb SCC_MGR_DQS_EN_DELAY (group d * 4)) * 25 in
  between 13000 (t mod (16 * 2496)) 14900 && (12 <=? val d (apb PHY_MGR_PHY_RLAT 0)).

(** The eyes of the pins when reading and writing, and of the data mask. *)
Definition read_eye (d : phy) (i : Z) : bool :=
  between (- (6 + i mod 3)) (val d (io_in_reg i) - (val d (dqs_in_reg (group d)) - 4)) (9 - i mod 2).
Definition write_eye (d : phy) (i : Z) : bool :=
  between (- (5 + i mod 4)) (val d (io_out_reg i) - (val d (io_out_reg 8) - 4)) (9 - i mod 2).
Definition mask_eye (d : phy) : bool := between (-4) (val d (io_out_reg 9) - (val d (io_out_reg 8) - 4)) 9.

Definition bit_ok (d : phy) (i : Z) : bool :=
  (program d =? __RW_MGR_GUARANTEED_READ) ||
  enabled d && read_eye d i &&
  ((program d =? __RW_MGR_READ_B2B) ||
   write_eye d i && (negb (program d =? __RW_MGR_LFSR_WR_RD_DM_BANK_0) || mask_eye d)).

Definition wrong_bits (d : phy) : Z :=
  fold_right (fun i acc => acc * 2 + b2z (negb (bit_ok d i))) 0 (seqZ 0 8).

#[export] Instance phy_device : Device phy := {
  dev_read a d := if a =? rw_run then (wrong_bits d, d) else (val d a, d);
  dev_write a v d :=
    if (rw_run <=? a) && (a <? rw_run + 16) then
      if v =? __RW_MGR_CLEAR_DQS_ENABLE then d else mk_phy (regs d) (fifo d) v ((a - rw_run) / 4)
    else if a =? rw_all then mk_phy (regs d) (fifo d) v 0
    else if a =? inc_fifo then mk_phy (regs d) (<[v := (default 0 (fifo d !! v) + 1) mod 16]> (fifo d)) (program d) (group d)
    else mk_phy (<[a := v]> (regs d)) (fifo d) (program d) (group d)
}.

(** Every other address is a plain register. *)
Definition plain (a : Z) : bool := negb (between rw_run a (rw_run + 15) || (a =? rw_all) || (a =? inc_fifo)).

Lemma plain_ne a : plain a = true -> (a =? rw_run) = false /\ (rw_run <=? a) && (a <? rw_run + 16) = false /\
  (a =? rw_all) = false /\ (a =? inc_fifo) = false.
Proof.
  unfold plain, between. intros E. apply negb_true_iff, orb_false_iff in E as [E ->]. apply orb_false_iff in E as [E ->].
  rewrite andb_false_iff in E |- *. lia.
Qed.

#[export] Instance phy_reg a (Ha : plain a = true) : Reg phy a.
Proof.
  refine {| reg_val d := val d a |}; destruct (plain_ne a Ha) as (E1 & E2 & E3 & E4); cbn.
  - intros d. by rewrite E1.
  - intros v d. rewrite E2, E3, E4. unfold val. cbn. by rewrite lookup_insert_eq.
  - intros b d _. by destruct (b =? rw_run).
  - intros b v d Hb. repeat case_match; try done. unfold val. cbn. by rewrite lookup_insert_ne.
Defined.

Lemma delay_regs_plain : forallb plain delay_regs = true.
Proof. vm_compute. reflexivity. Qed.

#[export] Instance phy_delays : DelayRegs phy.
Proof. intros a Ha. apply phy_reg. by apply (proj1 (forallb_forall _ _) delay_regs_plain). Defined.

(** The variables of the sequencer hold anything at the start; the latencies of
    the memory are those of its configuration. *)
Definition junk : seqvars := mk_seqvars 1 2 3 4 5 [6] 7 [8] 9 10 11 12 13 14 15 16 17 18 19.
Definition phy0 : phy := mk_phy (<[apb MEM_T_WL_ADD 0 := 7]> (<[apb MEM_T_RL_ADD 0 := 7]> ∅)) ∅ 0 0.

Lemma calibration_in_range_witness : ends_in_range (sdram_calibration junk (mk_st phy0 gdata0)).
Proof. exact (calibration_in_range junk (mk_st phy0 gdata0)). Defined.

(** On this memory a calibration passes. *)
Lemma simulated_calibration_passes : out (sdram_calibration junk (mk_st phy0 gdata0)) = Val 1.
Proof. vm_compute. reflexivity. Qed.
