(* ===== verification/SeqBoard.v ===== *)
(** The preloader's board initialisation with the calibration sequencer in it:
    spl_board_init of Spl.v, which takes any calibration, on sdram_calibration of
    Sequencer.v. *)

From S2P Require Import Prelude Mmio Regs Globals ResetManager FreezeController ScanManager ClockManager SdramProt SdramMmr Interrupts Spl SeqRegs SeqIo SeqBus Sequencer SeqSim.

(** ** The sequencer in the preloader *)

(** The block of the SDRAM controller holds neither a scan FIFO nor a security
    group. *)
Lemma in_sdr_calm e : in_sdr e -> calm e.
Proof.
  destruct e as [a v|a v|m]; intros He; try (split; exact Logic.I). unfold in_sdr, sdr, sdr_size in He.
  assert (Hne : forall b, HPS_SDR_BASE + 0x6000 <= b \/ b < HPS_SDR_BASE -> a <> b) by lia.
  split; cbn [no_fifo closed].
  - split_and!; apply Hne; vm_compute; [left|left|left]; discriminate.
  - apply forallb_forall. intros b Hb. rewrite negb_true_iff, Z.eqb_neq. apply Hne.
    assert (Hf : Forall (fun b => HPS_SDR_BASE + 0x6000 <= b \/ b < HPS_SDR_BASE) secgrp).
    { repeat (apply Forall_cons; split; [vm_compute; first [left; discriminate | right; reflexivity]|]). by apply Forall_nil. }
    rewrite List.Forall_forall in Hf. by apply Hf.
Qed.

Section board.
Context {D : Type} `{Device D}.
Abbreviation M := (M D gdata).
Context (fuel : nat) (h : reset_handoff) (vars : seqvars) (junk : sdram_prot_rule).
Context (ecc_padding_end : Z) (ramboot_code : list Z) (corrected uncorrected : Z).

Lemma calm_calibration : only calm (sdram_calibration vars : M Z).
Proof. intros s. eapply Forall_impl; [apply calibration_events|apply in_sdr_calm]. Qed.

Lemma wf_calibration : preserves gdata_wf (sdram_calibration vars : M Z).
Proof. apply preserves_zoom. auto. Qed.

(** spl_board_init with the sequencer. *)
Definition board_init : M unit :=
  spl_board_init fuel h (sdram_calibration_full vars) junk ecc_padding_end ramboot_code corrected uncorrected.

(** C6: The interconnect opens only after a calibration that passed.  When the
    memory is not preserved, the whole board initialisation, with the
    calibration in it, either stops with none of the six security groups
    written, or its trace is: a controller configuration that returned 0 and was
    verified, then a whole calibration whose status register ended at success and
    whose console message says so, with none of the groups written before its
    end.  So a run that returns has a calibrated memory. *)
Theorem board_opens_after_calibration (s : st D gdata) :
  sdram_not_preserved h (glob s) = true ->
  let r := board_init s in
  (out r <> Val tt /\ Forall closed (tr r)) \/
  exists s1 t1 t2 tk t3, tr r = t1 ++ tr (sdram_mmr_init_full 0xffffffff junk s1) ++ t2 ++ tk ++ t3 /\
    out (sdram_mmr_init_full 0xffffffff junk s1) = Val 0 /\ calibration_shows true tk /\
    Forall closed (t1 ++ tr (sdram_mmr_init_full 0xffffffff junk s1) ++ t2 ++ tk).
Proof.
  intros Hp. cbv zeta.
  destruct (spl_opens_after_memory fuel h (sdram_calibration vars) junk ecc_padding_end ramboot_code corrected uncorrected
    s Hp calm_calibration) as [Hs|(s1 & s2 & c & ta & tb & tc & E & H1 & H2 & Hc & Hall)]; [by left|right].
  pose proof (calibration_shown vars s2) as Hk. unfold wp in Hk. destruct (Hk c H2) as (pass & -> & Hshow).
  destruct pass; [|done]. by exists s1, ta, tb, (tr (sdram_calibration vars s2)), tc.
Qed.

(** C10: I/O configuration data is shifted only while the banks are frozen, with
    the calibration in the run.  When the memory is not preserved, every write to
    the scan FIFOs during the board initialisation belongs to its I/O
    configuration stage; that stage is reached only with all four banks recorded
    as frozen, so no chain is refused, and with each bank's control register at
    its frozen word, which the scans leave as it is but for the reset of the DDR
    bank's DLL. *)
Theorem board_scan_frozen c `{!Reg D (io_reg c)} (s : st D gdata) :
  c <> FREEZE_CHANNEL_UNDEFINED -> length (frzctrl_channel_freeze (glob s)) = 4%nat ->
  sdram_not_preserved h (glob s) = true ->
  let r := board_init s in
  let keep := .~ SYSMGR_FRZCTRL_HIOCTRL_DLLRST_MASK in
  (forall s', reg (io_reg c) (fin (spl_scan_chains h s')) .& keep = reg (io_reg c) s' .& keep) /\
  (Forall no_fifo (tr r) \/
   exists s1 t1 t3, tr r = t1 ++ tr (spl_configure_io h s1) ++ t3 /\ Forall no_fifo t1 /\ Forall no_fifo t3 /\
     frzctrl_channel_freeze (glob s1) = [0; 0; 0; 0] /\
     reg (io_reg c) s1 = frozen_word c (reg (io_reg c) s)).
Proof. intros Hc Hl Hp. apply spl_scan_frozen; [done..|apply calm_calibration]. Qed.

(** The shared globals stay well formed: four bank flags that are frozen or
    thawed, a vector table of 212 entries, time stamps and error counters of 32
    bits.  Everything that runs in the preloader keeps this, also when it stops
    half way: the start-up code, the whole board initialisation with the
    calibration, and the three ECC interrupt handlers, alone and through the
    dispatcher. *)
Theorem board_globals_wf base :
  (forall r0, preserves gdata_wf (save_boot_params r0 : M unit)) /\
  (forall start n, preserves gdata_wf (s_init start n : M unit)) /\
  preserves gdata_wf board_init /\
  preserves gdata_wf (do_irq ecc_handlers base : M unit) /\
  (forall arg, preserves gdata_wf (irq_handler_ecc_sdram arg : M unit)).
Proof. apply preloader_globals_wf, wf_calibration. Qed.

End board.

(** ** Witnesses: a cold boot that calibrates

    The rest of the chip is that of Spl.v's boot, the controller and the memory
    are those of SeqSim.v. *)
Record soc (C : Type) := mk_soc { chip : C; memory : phy }.
Arguments mk_soc {C} chip memory.
Arguments chip {C} s.
Arguments memory {C} s.

Definition sdr_block (a : Z) : bool := (HPS_SDR_BASE <=? a) && (a <? HPS_SDR_BASE + sdr_size).

Section soc.
Context {C : Type} `{Device C}.

#[export] Instance soc_device : Device (soc C) := {
  dev_read a d :=
    if sdr_block a then let '(v, m) := dev_read a (memory d) in (v, mk_soc (chip d) m)
    else let '(v, c) := dev_read a (chip d) in (v, mk_soc c (memory d));
  dev_write a v d :=
    if sdr_block a then mk_soc (chip d) (dev_write a v (memory d))
    else mk_soc (dev_write a v (chip d)) (memory d)
}.

(** A register of the rest of the chip. *)
#[export] Instance soc_reg a `{!Reg C a} (Ha : sdr_block a = false) : Reg (soc C) a.
Proof.
  refine {| reg_val d := @reg_val _ _ a _ (chip d) |}; cbn -[dev_read dev_write].
  - intros d. cbn [dev_read soc_device]. rewrite Ha. destruct (@reg_read _ _ a _ (chip d)) as [E1 E2].
    destruct (dev_read a (chip d)) as [v c]. cbn in *. by simplify_eq.
  - intros v d. cbn [dev_write soc_device]. rewrite Ha. cbn. apply reg_write.
  - intros b d Hb. cbn [dev_read soc_device]. destruct (sdr_block b); [by destruct (dev_read b (memory d))|].
    pose proof (@reg_read_frame _ _ a _ b (chip d) Hb) as E. by destruct (dev_read b (chip d)).
  - intros b v d Hb. cbn [dev_write soc_device]. destruct (sdr_block b); cbn; [done|]. by apply reg_write_frame.
Defined.

End soc.

Definition soc0 : st (soc clk_sim) gdata := mk_st (mk_soc (dev spl_sim0) phy0) (glob spl_sim0).

Definition soc_run : res (soc clk_sim) gdata unit :=
  board_init 200 ResetManager.board junk (cleared_rule 0) CONFIG_SYS_INIT_RAM_ADDR [0xE3A00000; 0xE12FFF1E] 0 4 soc0.

(** It returns, and does write a scan FIFO. *)
Lemma soc_boots : out soc_run = Val tt /\
  existsb (fun e => match e with Wr a _ => a =? FIFO4_REG | _ => false end) (tr soc_run) = true.
Proof. vm_compute. split; reflexivity. Qed.

Lemma board_opens_after_calibration_witness :
  exists t tk t3, tr soc_run = t ++ tk ++ t3 /\ calibration_shows true tk /\ Forall closed (t ++ tk).
Proof.
  destruct (board_opens_after_calibration 200 ResetManager.board junk (cleared_rule 0) CONFIG_SYS_INIT_RAM_ADDR
    [0xE3A00000; 0xE12FFF1E] 0 4 soc0) as [[Ho _]|(s1 & t1 & t2 & tk & t3 & E & _ & Hs & Hc)]; [reflexivity|destruct (Ho (proj1 soc_boots))|].
  exists (t1 ++ tr (sdram_mmr_init_full 0xffffffff (cleared_rule 0) s1) ++ t2), tk, t3.
  split; [unfold soc_run; by rewrite E, <- !app_assoc|]. split; [exact Hs|]. by rewrite <- !app_assoc.
Defined.

(** The DDR bank. *)
Lemma board_scan_frozen_witness :
  exists (s1 : st (soc clk_sim) gdata) t1 t3, tr soc_run = t1 ++ tr (spl_configure_io ResetManager.board s1) ++ t3 /\
    Forall no_fifo t1 /\ Forall no_fifo t3 /\ frzctrl_channel_freeze (glob s1) = [0; 0; 0; 0].
Proof.
  destruct (board_scan_frozen 200 ResetManager.board junk (cleared_rule 0) CONFIG_SYS_INIT_RAM_ADDR
    [0xE3A00000; 0xE12FFF1E] 0 4 FREEZE_CHANNEL_3 (Reg0 := soc_reg HIOCTRL_REG eq_refl) soc0)
    as [_ [Hno|(s1 & t1 & t3 & E & H1 & H3 & Hf & _)]]; [discriminate|reflexivity|reflexivity| |by exists s1, t1, t3].
  exfalso. destruct soc_boots as [_ Hb]. apply existsb_exists in Hb as (e & Hin & He).
  apply (proj1 (List.Forall_forall _ _) Hno) in Hin. destruct e; try discriminate. apply Z.eqb_eq in He. subst. by destruct Hin as (_ & _ & []).
Defined.
