(* ===== verification/SeqLevel.v ===== *)
(** The rest of the calibration sequencer: functions of sequencer.c that are
    compiled for this board but that no path of sdram_calibration calls.  Write
    levelling is for devices without this one's hard PHY; the others are requests
    of a debug host and setters of the delays of a whole group. *)

From S2P Require Import Prelude Mmio Regs SeqRegs SeqIo SeqScc SeqTests Sequencer SeqBus SeqSafe.

Section level.
Context {D : Type} `{Device D}.
Abbreviation M := (M D seqvars).

(** ** Empty functions and macros of this device *)

Definition is_write_group_enabled_for_dm (write_group : Z) : Z := 1.
Definition select_curr_shadow_reg_using_rank (rank : Z) : M unit := ret tt.
Definition recover_mem_device_after_ck_dqs_violation : M unit := ret tt.
Definition rw_mgr_mem_calibrate_eye_diag_aid : M unit := ret tt.
Definition scc_mgr_spread_out2_delay_all_ranks (write_group test_bgn : Z) : M unit := ret tt.

Definition WRITE_SCC_DQS_BYPASS (group bypass : Z) : M unit := ret tt.
Definition WRITE_SCC_DQ_BYPASS (pin bypass : Z) : M unit := ret tt.
Definition WRITE_SCC_RFIFO_MODE (pin mode : Z) : M unit := ret tt.
Definition WRITE_SCC_DM_BYPASS (pin bypass : Z) : M unit := ret tt.
Definition WRITE_SCC_HHP_DQSE_MAP (value : Z) : M unit := IOWR_32DIRECT SCC_MGR_HHP_GLOBALS SCC_MGR_HHP_DQSE_MAP_OFFSET value.

Definition scc_mgr_set_dqs_bypass (write_group bypass : Z) : M unit := WRITE_SCC_DQS_BYPASS write_group bypass.
Definition scc_mgr_set_dq_bypass (write_group dq_in_group bypass : Z) : M unit := WRITE_SCC_DQ_BYPASS dq_in_group bypass.
Definition scc_mgr_set_rfifo_mode (write_group dq_in_group mode : Z) : M unit := WRITE_SCC_RFIFO_MODE dq_in_group mode.
Definition scc_mgr_set_dm_bypass (write_group dm bypass : Z) : M unit := WRITE_SCC_DM_BYPASS dm bypass.
Definition scc_mgr_set_hhp_dqse_map : M unit := WRITE_SCC_HHP_DQSE_MAP 0.

(** ** Delays of a group *)

Definition scc_mgr_apply_group_dq_out2_delay (write_group group_bgn delay2 : Z) : M unit :=
  for_each RW_MGR_MEM_DQ_PER_WRITE_DQS (fun i =>
    scc_mgr_set_dq_out2_delay write_group i delay2 ;;;
    scc_mgr_load_dq i).

Definition scc_mgr_apply_group_dqs_io_and_oct_out2 (write_group delay : Z) : M unit :=
  scc_mgr_set_dqs_out2_delay write_group delay ;;;
  scc_mgr_load_dqs_io ;;;
  scc_mgr_set_oct_out2_delay write_group delay ;;;
  scc_mgr_load_dqs_for_write_group write_group.

(** The two loops of the gradual setters: [while (d > delay) { --d; ... }] and
    [while (d < delay) { ++d; ... }]. *)
Definition gradually (d delay : Z) (set : Z -> M unit) : M unit :=
  let step d := set d ;;; upd ;;; when (truthy QDRII) rw_mgr_mem_dll_lock_wait in
  for_each (d - delay) (fun i => step (d - (i + 1))) ;;;
  let d := if d >? delay then delay else d in
  for_each (delay - d) (fun i => step (d + (i + 1))).

Definition scc_mgr_set_group_dqs_io_and_oct_out1_gradual (write_group delay : Z) : M unit :=
  let* d := READ_SCC_DQS_IO_OUT1_DELAY in
  gradually d delay (scc_mgr_apply_group_dqs_io_and_oct_out1 write_group).

Definition scc_mgr_set_group_dqs_io_and_oct_out2_gradual (write_group delay : Z) : M unit :=
  let* d := READ_SCC_DQS_IO_OUT2_DELAY in
  gradually d delay (scc_mgr_apply_group_dqs_io_and_oct_out2 write_group).

Definition scc_mgr_apply_group_all_out_delay (write_group group_bgn delay : Z) : M unit :=
  scc_mgr_apply_group_dq_out1_delay write_group group_bgn delay ;;;
  scc_mgr_apply_group_dm_out1_delay write_group delay ;;;
  scc_mgr_apply_group_dqs_io_and_oct_out1 write_group delay.

Definition scc_mgr_apply_group_all_out_delay_all_ranks (write_group group_bgn delay : Z) : M unit :=
  for_shadow_regs (fun r =>
    select_shadow_regs_for_update r write_group 1 ;;;
    scc_mgr_apply_group_all_out_delay write_group group_bgn delay ;;;
    upd).

Definition delay_for_n_ns (nanoseconds : Z) : M unit :=
  delay_for_n_mem_clocks (u32 (u32 (1000 * nanoseconds) / (1000000 / AFI_CLK_FREQ) * AFI_RATE_RATIO)).

Definition rw_mgr_incr_vfifo_all (grp v : Z) : M Z := rw_mgr_incr_vfifo grp v.

(** ** Tests *)

Definition rw_mgr_mem_calibrate_write_test_all_ranks (write_group : Z) (use_dm all_correct : bool) : M (bool * Z) :=
  rw_mgr_mem_calibrate_write_test 0 write_group use_dm all_correct true.

(** The result is that of the last group that is not skipped. *)
Definition rw_mgr_mem_calibrate_full_test (min_correct bit_chk : Z) (test_dm : bool) : M (bool * Z) :=
  let* g := get in
  let* r := for_acc (Z.to_nat RW_MGR_MEM_IF_READ_DQS_WIDTH) 0 (fun g '(run_groups, r) =>
    let* r := (if truthy (run_groups .& ((1 .<< RW_MGR_NUM_DQS_PER_WRITE_GROUP) - 1))
               then rw_mgr_mem_calibrate_write_test_all_ranks g test_dm true else ret r) in
    ret (run_groups .>> RW_MGR_NUM_DQS_PER_WRITE_GROUP, r)) (u32 (.~ (skip_groups g)), (false, bit_chk)) in
  ret (snd r).

(** ** Write levelling *)

Section group.
Context (g test_bgn : Z).

Definition level_test : M bool :=
  let* r := rw_mgr_mem_calibrate_write_test_all_ranks g false false in ret (fst r).

(** Whether the group passes with phase [p], and with delay [d]. *)
Definition test_phase (p : Z) : M bool := scc_mgr_set_dqdqs_output_phase_all_ranks g p ;;; level_test.
Definition test_out (d : Z) : M bool := scc_mgr_apply_group_all_out_delay_all_ranks g test_bgn d ;;; level_test.

Definition phase_max : Z := IO_DQDQS_OUT_PHASE_MAX + 0 * IO_DLL_CHAIN_LENGTH.

(** The first passing phase: [p] and [work_bgn]. *)
Definition level_phase (work_bgn : Z) : M (Z + Z * Z) :=
  for_st (Z.to_nat (phase_max + 1)) 0 (fun p work_bgn =>
    let* pass := test_phase p in
    ret (if pass then inr (p, work_bgn) else inl (u32 (work_bgn + IO_DELAY_PER_OPA_TAP)))) work_bgn.

(** The outer loop: [p], [d] and [work_bgn].  Its bound is read from the
    register file; for the largest one the loop has no end. *)
Definition level_begin (dtaps_per_ptap : Z) : M (option (Z * Z * Z)) :=
  let* r := for_upto (dtaps_per_ptap + 1) (fun d =>
    scc_mgr_apply_group_all_out_delay_all_ranks g test_bgn d ;;;
    let* r := level_phase (u32 (d * IO_DELAY_PER_DCHAIN_TAP)) in
    ret (match r with inl _ => None | inr (p, work_bgn) => Some (p, d, work_bgn) end)) in
  match r with
  | None => if dtaps_per_ptap =? 2 ^ 32 - 1 then nofuel else ret None
  | Some r => ret (Some r)
  end.

(** The delays before the first passing phase: the new [work_bgn]. *)
Definition level_before (p work_bgn : Z) : M Z :=
  scc_mgr_set_dqdqs_output_phase_all_ranks g (p - 1) ;;;
  let* r := for_st (Z.to_nat (IO_IO_OUT1_DELAY_MAX + 1)) 0 (fun d tmp_delay =>
    if tmp_delay <? work_bgn then
      let* pass := test_out d in
      ret (if pass then inr tmp_delay else inl (u32 (tmp_delay + IO_DELAY_PER_DCHAIN_TAP)))
    else ret (inr work_bgn)) (u32 (work_bgn - IO_DELAY_PER_OPA_TAP)) in
  scc_mgr_apply_group_all_out_delay_all_ranks g test_bgn 0 ;;;
  ret (match r with inr work_bgn => work_bgn | inl _ => work_bgn end).

(** The phases that pass after [p]: the last one and [work_end]. *)
Definition level_phases (p work_end : Z) : M (Z * Z) :=
  let* r := for_st (Z.to_nat (phase_max - p)) (p + 1) (fun p work_end =>
    let* pass := test_phase p in
    ret (if pass then inl (u32 (work_end + IO_DELAY_PER_OPA_TAP)) else inr (p, work_end))) work_end in
  let '(p, work_end) := match r with inl work_end => (Z.max (phase_max + 1) (p + 1), work_end) | inr r => r end in
  scc_mgr_set_dqdqs_output_phase_all_ranks g (p - 1) ;;;
  ret (p - 1, u32 (work_end - IO_DELAY_PER_OPA_TAP)).

(** The delays that pass from [d] on: [work_end]. *)
Definition level_end (d work_end : Z) : M Z :=
  let* r := for_st (Z.to_nat (IO_IO_OUT1_DELAY_MAX + 1 - d)) d (fun d work_end =>
    let* pass := test_out d in
    ret (if pass then inl (u32 (work_end + IO_DELAY_PER_DCHAIN_TAP)) else inr work_end)) work_end in
  scc_mgr_zero_group g test_bgn true ;;;
  ret (u32 ((match r with inl w => w | inr w => w end) - IO_DELAY_PER_DCHAIN_TAP)).

(** [for (n = 0; n <= max && t < work_mid; n++, t += step);] and one step back
    when [t] is past the middle. *)
Definition level_taps (max step work_mid t : Z) : Z * Z :=
  let '(n, t) := step_to (Z.to_nat (max + 1)) work_mid step 0 t in
  if t >? work_mid then (n - 1, u32 (t - step)) else (n, t).

(** The middle: the phase and the delay.  The loop that limits the phase has at
    most one round, since it starts at most one past the largest phase. *)
Definition level_middle (work_bgn work_end : Z) : Z * Z :=
  let work_mid := u32 (work_bgn + work_end) / 2 in
  let '(p, tmp_delay) := level_taps phase_max IO_DELAY_PER_OPA_TAP work_mid 0 in
  let '(p, tmp_delay) :=
    if p >? IO_DQDQS_OUT_PHASE_MAX then (p - 1, u32 (tmp_delay - IO_DELAY_PER_OPA_TAP)) else (p, tmp_delay) in
  let '(d, _) := level_taps IO_IO_OUT1_DELAY_MAX IO_DELAY_PER_DCHAIN_TAP work_mid tmp_delay in
  (p, d).

Definition rw_mgr_mem_calibrate_wlevel : M bool :=
  reg_file_set_stage CAL_STAGE_WLEVEL ;;;
  reg_file_set_sub_stage CAL_SUBSTAGE_WORKING_DELAY ;;;
  let* dtaps_per_ptap := IORD_32DIRECT REG_FILE_DTAPS_PER_PTAP 0 in
  reg_file_set_group g ;;;
  scc_mgr_spread_out2_delay_all_ranks g test_bgn ;;;
  let* r := level_begin dtaps_per_ptap in
  match r with
  | None => set_failing_group_stage g CAL_STAGE_WLEVEL CAL_SUBSTAGE_WORKING_DELAY ;;; ret false
  | Some (p, d, work_bgn) =>
      reg_file_set_sub_stage CAL_SUBSTAGE_LAST_WORKING_DELAY ;;;
      let* r := (if d =? 0 then
          let work_end := u32 (work_bgn + IO_DELAY_PER_OPA_TAP) in
          let* work_bgn := (if p >? 0 then level_before p work_bgn else ret work_bgn) in
          let* r := level_phases p work_end in
          let '(_, work_end) := r in
          ret (work_bgn, 0, work_end)
        else ret (work_bgn, d, work_bgn)) in
      let '(work_bgn, d, work_end) := r in
      let* work_end := level_end d work_end in
      if work_end >=? work_bgn then
        let '(p, d) := level_middle work_bgn work_end in
        scc_mgr_set_dqdqs_output_phase_all_ranks g p ;;;
        scc_mgr_apply_group_all_out_delay_add_all_ranks g test_bgn d ;;;
        ret true
      else set_failing_group_stage g CAL_STAGE_WLEVEL CAL_SUBSTAGE_LAST_WORKING_DELAY ;;; ret false
  end.

End group.

(** ** Requests of the host *)

Definition user_init_cal_req : M unit :=
  let* scc_afi_reg := IORD_32DIRECT SCC_MGR_AFI_CAL_INIT 0 in
  if (scc_afi_reg =? 1) || (scc_afi_reg =? 16) then
    initialize ;;;
    rw_mgr_mem_initialize ;;;
    rw_mgr_mem_handoff ;;;
    IOWR_32DIRECT PHY_MGR_MUX_SEL 0 0 ;;;
    IOWR_32DIRECT PHY_MGR_CAL_STATUS 0 PHY_MGR_CAL_SUCCESS
  else if (scc_afi_reg =? 2) || (scc_afi_reg =? 32) then
    run_mem_calibrate ;;; ret tt
  else ret tt.

End level.

(** ** What these functions do *)

Section facts.
Context {D : Type} `{Device D}.
Abbreviation M := (M D seqvars).

Lemma safe_each_any I L n (body : Z -> M unit) :
  (forall i, 0 <= i < n -> safe I L (fun _ => True) (body i)) -> safe I L (fun _ => True) (for_each n body).
Proof.
  intros Hb. destruct (Z.le_gt_cases 0 n); [by apply safe_each|]. unfold for_each. destruct n; [lia|lia|].
  apply safe_then; [by apply safe_ret|intros; by apply safe_ret].
Qed.

(** A gradual setter passes only through delays between the old and the new
    one. *)
Lemma safe_gradually I L d delay (set : Z -> M unit) : (forall a, In a L -> scc_max a <= 31) ->
  (forall x, Z.min d delay <= x <= Z.max d delay -> safe I L (fun _ => True) (set x)) ->
  safe I L (fun _ => True) (gradually d delay set).
Proof.
  intros HL Hset. unfold gradually, rw_mgr_mem_dll_lock_wait.
  apply safe_then; [|intros _]; apply safe_each_any; intros i Hi;
    (apply safe_then; [apply Hset; destruct (d >? delay) eqn:?; lia|intros _; safe_auto; done]).
Qed.

(** Moving the strobe's output delay step by step keeps it in range. *)
Lemma safe_out1_gradual I L g delay : (forall a, In a L -> scc_max a <= 31) ->
  In (io_out_reg 8) L -> Reg D (io_out_reg 8) -> 0 <= g < 4 -> 0 <= delay <= 31 ->
  safe I L (fun _ => True) (scc_mgr_set_group_dqs_io_and_oct_out1_gradual g delay : M unit).
Proof.
  intros HL Hin HR Hg Hd. unfold scc_mgr_set_group_dqs_io_and_oct_out1_gradual.
  eapply safe_bind; [by apply (safe_readl_reg I L (io_out_reg 8))|]. intros d Hd'. apply safe_gradually; [done|].
  cbv beta in Hd'. intros x Hx. apply safe_dqs_out_group; try done. unfold SeqSafe.delay. lia.
Qed.

(** What a request of the host shows: an initialization ends with the status
    at success, a calibration as any other; everything else is not answered. *)
Lemma user_request_shows (s : st D seqvars) :
  wp (user_init_cal_req : M unit) s (fun o _ t => o = Val tt ->
    (writes_at status_addr t = [] /\ writes_at ctrlcfg_addr t = [] /\ messages t = []) \/
    (writes_at status_addr t = [0; PHY_MGR_CAL_SUCCESS] /\ writes_at ctrlcfg_addr t = [] /\ messages t = []) \/
    exists pass, run_shows pass t).
Proof.
  unfold user_init_cal_req. wp_step. apply wp_readl_any. intros v d Hv. cbv beta iota.
  destruct ((v =? 1) || (v =? 16)); [|destruct ((v =? 2) || (v =? 32))].
  - wp_call shows_init. intros o1 s1 t1 (-> & I1 & ? & ?). cbv beta iota.
    wp_quiet (quiet_mem_initialize (D := D)). wp_quiet (quiet_handoff (D := D)).
    wp_step. apply wp_writel. cbv beta iota. apply wp_writel. intros _. right. left. silent. rewrite I1. fold status_addr. by split_and!.
  - wp_call run_protocol. intros o1 s1 t1 Hr. cbv beta iota. destruct o1 as [pass|]; [|done]. wp_step. intros _. right. right. exists pass.
    rewrite app_nil_r. destruct (Hr pass eq_refl) as (? & ? & ?). by split_and!.
  - wp_step. intros _. by left.
Qed.

(** The middle that write levelling computes can lie one past the largest
    delay: the loop over the delays also ends when they do not reach it. *)
Lemma level_middle_past : level_middle 4000 4000 = (0, IO_IO_OUT1_DELAY_MAX + 1).
Proof. vm_compute. reflexivity. Qed.

End facts.
