(* ===== verification/SeqEye.v ===== *)
(** The windows that the calibration sequencer finds for pins with an eye: the
    delays of the pin, less that of its strobe, with which the pin passes a
    test.  Everything here is about the sweeps and the arithmetic of SeqCenter.v;
    the tests come in through a rule for any program that reports the pins'
    eyes. *)

From S2P Require Import Prelude Mmio Regs SeqRegs SeqIo SeqCenter.

(** ** A word of results, the first pin in bit 0 *)

Definition bits (l : list bool) : Z := fold_right (fun b acc => 2 * acc + b2z b) 0 l.

Lemma bits_cons b l : bits (b :: l) = 2 * bits l + b2z b.
Proof. done. Qed.

Lemma bits_low b x : truthy ((2 * x + b2z b) .& 1) = b.
Proof. change 1 with (bit 0). rewrite land_pow2_testbit by done. change (b2z b) with (Z.b2z b). apply Z.testbit_0_r. Qed.

Lemma bits_shift b x : (2 * x + b2z b) .>> 1 = x.
Proof. rewrite Z.shiftr_div_pow2 by done. change (2 ^ 1) with 2. destruct b; cbn [b2z]; div_lia. Qed.

Lemma lor_cons b c x y : (2 * x + b2z b) .| (2 * y + b2z c) = 2 * (x .| y) + b2z (b || c).
Proof.
  apply Z.bits_inj'. intros n Hn. change b2z with Z.b2z. rewrite Z.lor_spec. destruct (Z.eq_dec n 0) as [->|].
  - by rewrite !Z.testbit_0_r.
  - replace n with (Z.succ (n - 1)) by lia. rewrite !Z.testbit_succ_r by lia. by rewrite Z.lor_spec.
Qed.

Lemma bits_nonneg l : 0 <= bits l < 2 ^ Z.of_nat (length l).
Proof.
  induction l as [|b l IH]; [done|]. rewrite bits_cons. cbn [length]. rewrite Nat2Z.inj_succ, Z.pow_succ_r by lia.
  destruct b; cbn [b2z]; lia.
Qed.

Lemma bits_inj {A} (f g : A -> bool) l : bits (map f l) = bits (map g l) -> Forall (fun x => f x = g x) l.
Proof.
  induction l as [|x l IH]; cbn [map]; [done|]. rewrite !bits_cons. intros E.
  assert (f x = g x /\ bits (map f l) = bits (map g l)) as [? ?] by (destruct (f x), (g x); cbn [b2z] in E; split; lia).
  constructor; auto.
Qed.

Lemma bits_false {A} (l : list A) : bits (map (fun _ => false) l) = 0.
Proof. induction l as [|x l IH]; [done|]. cbn [map]. by rewrite bits_cons, IH. Qed.

Lemma bits_lor {A} (f g : A -> bool) l : bits (map f l) .| bits (map g l) = bits (map (fun x => f x || g x) l).
Proof. induction l as [|x l IH]; [done|]. cbn [map]. by rewrite !bits_cons, lor_cons, IH. Qed.

Lemma bits_none {A} (f : A -> bool) l : bits (map f l) = 0 -> Forall (fun x => f x = false) l.
Proof.
  intros E. apply (bits_inj f (fun _ => false)). rewrite E. clear E. induction l as [|x l IH]; [done|].
  cbn [map]. by rewrite bits_cons, <- IH.
Qed.

Lemma each_bit_map {A} (f : bool -> window -> window) (p : A -> bool) (w : A -> window) l :
  each_bit f (bits (map p l)) (map w l) = map (fun x => f (p x) (w x)) l.
Proof. induction l as [|x l IH]; [done|]. cbn [map each_bit]. by rewrite bits_cons, bits_low, bits_shift, IH. Qed.

(** ** Sweeps

    A row is a pin, whether it has passed, and its window. *)
Record row (E : Type) := mk_row { pin : E; passed : bool; found : window }.
Arguments mk_row {E} pin passed found.
Arguments pin {E} r.
Arguments passed {E} r.
Arguments found {E} r.

Section sweep.
Context {D : Type} `{Device D} {E : Type}.
Context (pass : Z -> E -> bool) (step : Z -> bool -> window -> window) (at_stop : Z -> window -> window).
(** What holds of a row before the round of a delay, and of the state. *)
Context (inv : Z -> E -> bool -> window -> Prop) (n : Z) (P : st D seqvars -> Prop).

Abbreviation holds d := (Forall (fun r => inv d (pin r) (passed r) (found r))).

Context (inv_step : forall d e k w, 0 <= d < n -> inv d e k w -> inv (d + 1) e (k || pass d e) (step d (pass d e) w)).
(** A pin that passed before and fails now passes no more: the sweep may stop. *)
Context (inv_stop : forall d e w, 0 <= d < n -> inv d e true w -> pass d e = false -> inv n e true (at_stop d w)).

Lemma wp_sweep (rows : list (row E)) (test : Z -> M D seqvars (bool * Z)) stopped mask sticky ws s
    (Q : outcome (list window + list window) -> st D seqvars -> trace -> Prop) :
  0 <= n -> P s -> holds 0 rows ->
  mask = bits (map (fun _ => true) rows) -> sticky = bits (map passed rows) -> ws = map found rows ->
  (forall d ws, stopped d ws = map (at_stop d) ws) ->
  (forall d s', 0 <= d < n -> P s' -> wp (test d) s' (fun o s'' _ =>
     let b := bits (map (fun r => pass d (pin r)) rows) in o = Val (b =? 0, b) /\ P s'')) ->
  (forall s' t r rows', P s' -> map pin rows' = map pin rows -> holds n rows' -> swept r = map found rows' -> Q (Val r) s' t) ->
  wp (sweep (Z.to_nat n) mask sticky test step stopped ws) s Q.
Proof.
  intros Hn Hp Hrows Hmask -> -> Hstopped Htest HQ. unfold sweep. apply wp_bind.
  assert (Hgen : forall k d rows', d + Z.of_nat k = n -> 0 <= d -> map pin rows' = map pin rows -> holds d rows' ->
    forall s', P s' -> wp (for_st k d (fun d '(sticky_bit_chk, ws) =>
      let* r := test d in
      let '(stop, bit_chk) := r in
      if stop && (sticky_bit_chk .| bit_chk =? mask) then ret (inr (stopped d ws))
      else ret (inl (sticky_bit_chk .| bit_chk, each_bit (step d) bit_chk ws))) (bits (map passed rows'), map found rows')) s'
      (fun o s'' _ => exists r rows'', o = Val r /\ P s'' /\ map pin rows'' = map pin rows /\ holds n rows'' /\
         match r with inl (_, ws) => ws | inr ws => ws end = map found rows'')).
  { clear s Hp Hrows. induction k as [|k IH]; intros d rows' Hd Hd0 Hpins Hinv s Hp; cbn [for_st].
    - apply wp_ret. replace n with d by lia. eexists _, rows'. by split_and!.
    - apply wp_bind, wp_bind. eapply wp_mono; [apply Htest; [lia|done]|]. cbv beta. intros o s' t [-> Hp'].
      assert (Ep : map (fun r => pass d (pin r)) rows = map (fun r => pass d (pin r)) rows').
      { rewrite <- (map_map pin (pass d)), <- Hpins. apply map_map. }
      rewrite Ep. cbv zeta. rewrite bits_lor, each_bit_map.
      destruct (andb _ _) eqn:Estop.
      + apply andb_true_iff in Estop as [Ez Em]. rewrite Z.eqb_eq in Ez, Em. apply wp_ret, wp_ret.
        eexists _, (map (fun r => mk_row (pin r) true (at_stop d (found r))) rows').
        split_and!; [done|done|by rewrite map_map| |by rewrite Hstopped, !map_map].
        apply bits_none in Ez. rewrite Hmask in Em.
        assert (Et : map (fun _ : row E => true) rows = map (fun _ => true) rows').
        { rewrite <- (map_map pin (fun _ => true)), <- Hpins. apply map_map. }
        rewrite Et in Em. apply bits_inj in Em.
        apply Forall_map. rewrite Forall_forall in *. intros r Hr. cbn. apply inv_stop; [lia| |by apply Ez].
        specialize (Em r Hr). cbv beta in Em. rewrite (Ez r Hr), orb_false_r in Em. rewrite <- Em. by apply Hinv.
      + apply wp_ret.
        set (rows2 := map (fun r => mk_row (pin r) (passed r || pass d (pin r)) (step d (pass d (pin r)) (found r))) rows').
        replace (map (fun x => passed x || pass d (pin x)) rows') with (map passed rows2) by (unfold rows2; by rewrite map_map).
        replace (map (fun x => step d (pass d (pin x)) (found x)) rows') with (map found rows2) by (unfold rows2; by rewrite map_map).
        apply IH; [lia|lia|by unfold rows2; rewrite map_map| |done].
        apply Forall_map. eapply Forall_impl; [exact Hinv|]. intros r Hr. cbn. apply inv_step; [lia|done]. }
  eapply wp_mono; [apply (Hgen (Z.to_nat n) 0 rows); [lia|lia|done|done|done]|]. cbv beta.
  intros o s' t (r & rows' & -> & Hp' & Hpins & Hinv & Hws). apply wp_ret. eapply HQ; [exact Hp'|exact Hpins|exact Hinv|].
  destruct r as [[]|]; exact Hws.
Qed.

End sweep.

(** ** The window of an eye *)

Record eye := mk_eye { lo : Z; hi : Z }.

Definition passes (e : eye) (x : Z) : bool := (lo e <=? x) && (x <=? hi e).

Section windows.
(** The largest delay of a pin, the delay of the strobe at the start, and how
    far the strobe can go from there. *)
Context (max start last : Z) (Hlast : 0 <= last <= max).
Abbreviation top := (max + 1).

(** The pin passes with delay [d] of the pin, or when the strobe goes on by
    [d] with the pin at 0. *)
Definition left_pass (d : Z) (e : eye) : bool := passes e (d - start).
Definition right_pass (d : Z) (e : eye) : bool := passes e (0 - (start + d)).

(** The eye's ends as the sweeps count them. *)
Definition eye_left (e : eye) : Z := hi e + start.
Definition eye_right (e : eye) : Z := - lo e - start.

Definition left_found (d : Z) (e : eye) : bool := Z.max 0 (- eye_right e) <=? Z.min (d - 1) (eye_left e).

Definition left_inv (d : Z) (e : eye) (k : bool) (w : window) : Prop :=
  if left_found d e then k = true /\ w = mk_window (Z.min (d - 1) (eye_left e)) (if eye_right e <? 0 then eye_right e else top)
  else k = false /\ w = mk_window top (if d =? 0 then top else - d).

Ltac edges := f_equal; repeat match goal with |- context [if ?b then _ else _] => destruct b eqn:? end; lia.

Lemma left_inv_step d e k w : 0 <= d < top -> left_inv d e k w ->
  left_inv (d + 1) e (k || left_pass d e) (left_step top d (left_pass d e) w).
Proof.
  intros Hd Hw. unfold left_inv, left_found in *. destruct (left_pass d e) eqn:Ep; unfold left_pass, passes in Ep.
  - apply andb_true_iff in Ep as [E1 E2]. rewrite orb_true_r. unfold left_step, eye_left, eye_right in *.
    replace (_ <=? _) with true by lia. split; [done|].
    destruct (_ <=? _) eqn:E in Hw; destruct Hw as [_ ->]; cbn [right_edge]; edges.
  - rewrite orb_false_r. apply andb_false_iff in Ep. unfold left_step, eye_left, eye_right in *.
    destruct (_ <=? _) eqn:E in Hw; destruct Hw as [-> ->]; cbn [left_edge right_edge].
    + replace (_ <=? _) with true by lia. split; [done|]. replace (_ =? top) with false by lia. edges.
    + replace (_ <=? _) with false by lia. split; [done|]. rewrite Z.eqb_refl. by replace (d + 1 =? 0) with false by lia.
Qed.

Lemma left_inv_stop d e w : 0 <= d < top -> left_inv d e true w -> left_pass d e = false -> left_inv top e true w.
Proof.
  intros Hd Hw Ep. unfold left_inv, left_found in *. unfold left_pass, passes in Ep. apply andb_false_iff in Ep.
  unfold eye_left, eye_right in *. destruct (_ <=? _) eqn:E in Hw; destruct Hw as [? ->]; [|done].
  replace (_ <=? _) with true by lia. split; [done|]. edges.
Qed.

(** Between the sweeps. *)
Definition left_done (e : eye) (w : window) : Prop :=
  w = if left_found top e then mk_window (Z.min max (eye_left e)) (if eye_right e <? 0 then eye_right e else top)
      else mk_window top top.

Lemma left_inv_done e k w : left_inv top e k w -> left_done e (reset_right top w).
Proof.
  unfold left_inv, left_done. destruct (left_found top e); intros [_ ->]; unfold reset_right; cbn [left_edge right_edge].
  - replace (Z.min (top - 1) (eye_left e)) with (Z.min max (eye_left e)) by (f_equal; lia).
    by replace (Z.min max (eye_left e) =? top) with false by lia.
  - rewrite Z.eqb_refl. replace (top =? 0) with false by lia. by replace (- top =? top) with false by lia.
Qed.

Definition right_found (d : Z) (e : eye) : bool := Z.max 0 (- eye_left e) <=? Z.min (d - 1) (eye_right e).

Definition right_inv (d : Z) (e : eye) (k : bool) (w : window) : Prop :=
  (k = true -> left_found top e || right_found d e = true) /\
  w = if left_found top e then
        mk_window (Z.min max (eye_left e))
          (if eye_right e <? 0 then eye_right e else if d =? 0 then top else Z.min (d - 1) (eye_right e))
      else if right_found d e then mk_window (eye_left e) (Z.min (d - 1) (eye_right e))
      else mk_window (if d =? 0 then top else - d) top.

Lemma right_inv_start e k w : left_done e w -> (k = true -> has_left top w = true) -> right_inv 0 e k w.
Proof.
  unfold left_done, right_inv, has_left, right_found. intros -> Hk.
  destruct (left_found top e); [done|].
  replace (_ <=? _) with false by lia. split; [|done]. cbn [left_edge] in Hk. rewrite Z.eqb_refl in Hk. intros ->. by discriminate Hk.
Qed.

Lemma right_inv_step d e k w : 0 <= d < last + 1 -> right_inv d e k w ->
  right_inv (d + 1) e (k || right_pass d e) (right_step top d (right_pass d e) w).
Proof.
  intros Hd [Hk ->]. unfold right_inv, right_found, left_found in *.
  replace (d + 1 =? 0) with false by lia.
  destruct (right_pass d e) eqn:Ep; unfold right_pass, passes in Ep; unfold right_step, eye_left, eye_right in *.
  - apply andb_true_iff in Ep as [E1 E2].
    replace (Z.max 0 (- (hi e + start)) <=? Z.min (d + 1 - 1) (- lo e - start)) with true by lia.
    rewrite !orb_true_r. split; [done|]. repeat case_match; cbn [left_edge right_edge]; edges.
  - rewrite orb_false_r. apply andb_false_iff in Ep. split.
    { intros E. specialize (Hk E). apply orb_true_iff in Hk as [->|Hk]; [done|]. apply orb_true_iff. right. lia. }
    repeat case_match; cbn [left_edge right_edge] in *; edges.
Qed.

Lemma right_inv_stop d e w : 0 <= d < last + 1 -> right_inv d e true w -> right_pass d e = false ->
  right_inv (last + 1) e true w.
Proof.
  intros Hd [Hk ->] Ep. specialize (Hk eq_refl). apply orb_true_iff in Hk. unfold right_inv, right_found, left_found in *.
  replace (last + 1 =? 0) with false by lia.
  unfold right_pass, passes in Ep. apply andb_false_iff in Ep. unfold eye_left, eye_right in *.
  split; [intros _; apply orb_true_iff; lia|]. repeat case_match; edges.
Qed.

(** A strobe that fails at once changes no window that has both edges. *)
Lemma right_inv_behind e w : right_inv 0 e true w -> right_pass 0 e = false -> right_behind top w = w.
Proof.
  intros [Hk ->] Ep. specialize (Hk eq_refl). apply orb_true_iff in Hk. unfold right_behind, right_found, left_found in *.
  unfold right_pass, passes in Ep. apply andb_false_iff in Ep. unfold eye_left, eye_right in *.
  repeat case_match; cbn [left_edge right_edge] in *; done || lia.
Qed.

(** The eye is met by one of the sweeps. *)
Definition visible (e : eye) : bool := (lo e <=? hi e) && (- eye_right e <=? max) && (- eye_left e <=? last).

(** The window of a visible eye is the part of the eye that the sweeps reach. *)
Definition window_of (e : eye) : window := mk_window (Z.min max (eye_left e)) (Z.min last (eye_right e)).

Definition missing (w : window) : bool := (left_edge w =? top) || (right_edge w =? top).

Lemma right_inv_done e k w : right_inv (last + 1) e k w ->
  missing w = negb (visible e) /\ (visible e = true -> w = window_of e).
Proof.
  intros [_ ->]. unfold missing, visible, window_of, right_found, left_found, eye_left, eye_right in *.
  replace (last + 1 =? 0) with false by lia.
  split; [|intros Hv]; repeat case_match; cbn [left_edge right_edge] in *; first [lia | edges].
Qed.

End windows.

Lemma first_missing_none top i ws : first_missing top i ws = None -> Forall (fun w => (left_edge w =? top) || (right_edge w =? top) = false) ws.
Proof.
  revert i. induction ws as [|w ws IH]; intros i; cbn [first_missing]; [by constructor|].
  destruct (_ || _) eqn:E; [done|]. intros Hi. constructor; eauto.
Qed.

Lemma first_missing_some top i ws j : first_missing top i ws = Some j -> Exists (fun w => (left_edge w =? top) || (right_edge w =? top) = true) ws.
Proof.
  revert i. induction ws as [|w ws IH]; intros i; cbn [first_missing]; [done|].
  destruct (_ || _) eqn:E; [by left|]. intros Hi. right. eauto.
Qed.

(** ** Going to the middle *)

Lemma min_mid_spec w ws : Forall (fun x => min_mid (w :: ws) <= mid_of x) (w :: ws) /\ Exists (fun x => mid_of x = min_mid (w :: ws)) (w :: ws).
Proof.
  cbn [min_mid]. set (f := fun (m : Z) (x : window) => if mid_of x <? m then mid_of x else m).
  assert (Hgen : forall l m, (fold_left f l m <= m /\ Forall (fun x => fold_left f l m <= mid_of x) l) /\
    (fold_left f l m = m \/ Exists (fun x => mid_of x = fold_left f l m) l)).
  { induction l as [|x l IH]; intros m; cbn [fold_left]; [by repeat split; auto|].
    destruct (IH (f m x)) as [[H1 H2] H3].
    assert (f m x <= m /\ f m x <= mid_of x /\ (f m x = m \/ mid_of x = f m x)) as (? & ? & Hf)
      by (unfold f; destruct (mid_of x <? m) eqn:E; lia).
    split; [split; [lia|constructor; [lia|done]]|].
    destruct H3 as [H3|H3]; [|right; by right]. destruct Hf; [left; lia|right; left; lia]. }
  destruct (Hgen ws (mid_of w)) as [[H1 H2] H3]. split; [by constructor|]. destruct H3 as [H3|H3]; [by left|by right].
Qed.

Lemma min_mid_map {E} (f : E -> window) l : l <> [] -> exists e, In e l /\ min_mid (map f l) = mid_of (f e) /\
  forall e', In e' l -> min_mid (map f l) <= mid_of (f e').
Proof.
  destruct l as [|e0 l]; [done|]. intros _. cbn [map]. destruct (min_mid_spec (f e0) (map f l)) as [Hf He].
  change (f e0 :: map f l) with (map f (e0 :: l)) in *.
  rewrite List.Forall_forall in Hf. apply List.Exists_exists in He as (w & (e & <- & He)%in_map_iff & Em).
  exists e. split_and!; [done|done|]. intros e' He'. by apply Hf, in_map.
Qed.

Lemma half_mid_spec m : m <= 2 * half_mid m <= m + 1.
Proof. unfold half_mid. destruct (m >? 0) eqn:E; Z.to_euclidean_division_equations; lia. Qed.

Lemma quot2_spec m : 0 <= m -> m - 1 <= 2 * Z.quot m 2 <= m.
Proof. intros. Z.to_euclidean_division_equations. lia. Qed.

(** Half of the smallest difference, and half of what a pin has more, make half
    of the pin's own, up to a tap. *)
Lemma mid_centred l r smallest : smallest <= l - r ->
  let t := Z.quot (l - r - smallest) 2 + half_mid smallest in -1 <= (l - t) - (r + t) <= 1.
Proof.
  intros Hs. pose proof (half_mid_spec smallest). pose proof (quot2_spec (l - r - smallest)). cbv zeta. lia.
Qed.

(** With eyes within the reach of the sweeps the limits are not met. *)
Lemma shift_fits start l r l0 r0 : 0 <= start < 32 ->
  0 <= l + r -> l <= 31 -> r <= 31 - start -> 0 <= l0 + r0 -> l0 <= 31 -> r0 <= 31 - start ->
  0 <= (l - r) - (l0 - r0) <= 62 ->
  let om := half_mid (l0 - r0) in
  0 <= Z.quot (l - r - (l0 - r0)) 2 + (om - (start - new_strobe start om)) <= 31.
Proof.
  intros. pose proof (half_mid_spec (l0 - r0)). pose proof (quot2_spec (l - r - (l0 - r0))). cbv zeta.
  unfold new_strobe. change IO_DQS_IN_DELAY_MAX with 31. repeat case_match; lia.
Qed.

(** A pin's delay after it was moved from 0, limited to the delays there are. *)
Definition clamp (max x : Z) : Z := Z.max 0 (Z.min max x).

Definition pin_delay (max smallest orig_mid_min mid_min : Z) (w : window) : Z :=
  clamp max (shift_of smallest orig_mid_min mid_min w).

Definition margins_of (max smallest orig_mid_min mid_min : Z) (ws : list window) (m : Z * Z) : Z * Z :=
  fold_left (fun m w => margins_step (pin_delay max smallest orig_mid_min mid_min w) mid_min w m) ws m.

Lemma margins_of_ok max sm om mm ws a b :
  let m := margins_of max sm om mm ws (a, b) in
  0 <= fst m /\ 0 <= snd m <-> (0 <= a /\ 0 <= b) /\
    Forall (fun w => let d := pin_delay max sm om mm w in 0 <= left_edge w - d - mm /\ 0 <= right_edge w + d + mm) ws.
Proof.
  unfold margins_of. cbv zeta. revert a b. induction ws as [|w ws IH]; intros a b; cbn [fold_left].
  - split; [by intros []|by intros [[] _]].
  - rewrite Forall_cons. unfold margins_step at 2 4. rewrite IH. clear IH.
    set (d := pin_delay max sm om mm w). repeat case_match; intuition lia.
Qed.
