(* ===== verification/SeqRead.v ===== *)
(** Centring the reads of a group (rw_mgr_mem_calibrate_vfifo_center of
    sequencer.c) on a memory whose pins have eyes: what the sweeps find and where
    the pins and the strobe end up. *)

From S2P Require Import Prelude Mmio Regs Globals SeqRegs SeqIo SeqScc SeqTests SeqCenter SeqBus SeqSafe SeqEye SeqSim.

(** ** The memory *)

Section delays.
Context {D : Type} `{DelayRegs D}.

(** The value of a delay register. *)
Definition delay_val (a : Z) (d : D) : Z :=
  match in_dec Z.eq_dec a delay_regs with
  | left Ha => @reg_val D _ a (delay_reg a Ha) d
  | right _ => 0
  end.

Lemma delay_val_write a v d : In a delay_regs -> delay_val a (dev_write a v d) = v.
Proof. intros Ha. unfold delay_val. destruct (in_dec _ a _) as [Hi|]; [apply (@reg_write D _ a (delay_reg a Hi))|done]. Qed.

Lemma delay_val_other a b v d : b <> a -> delay_val a (dev_write b v d) = delay_val a d.
Proof. intros Hb. unfold delay_val. destruct (in_dec _ a _) as [Hi|]; [by apply (@reg_write_frame D _ a (delay_reg a Hi))|done]. Qed.

Lemma delay_val_read a d : In a delay_regs -> fst (dev_read a d) = delay_val a d.
Proof. intros Ha. unfold delay_val. destruct (in_dec _ a _) as [Hi|]; [|done]. by rewrite (proj1 (@reg_read D _ a (delay_reg a Hi) d)). Qed.

Lemma delay_val_after a b d : delay_val a (snd (dev_read b d)) = delay_val a d.
Proof.
  unfold delay_val. destruct (in_dec _ a _) as [Hi|]; [|done]. destruct (Z.eq_dec b a) as [->|].
  - apply (@reg_read D _ a (delay_reg a Hi) d).
  - by apply (@reg_read_frame D _ a (delay_reg a Hi)).
Qed.

(** Whether each pin of the group reads what was written: its delay less that
    of the group's strobe is in its eye. *)
Definition read_results (grp : Z) (eyes : list eye) (d : D) : list bool :=
  imap (fun i e => passes e (delay_val (io_in_reg (Z.of_nat i)) d - delay_val (dqs_in_reg grp) d)) eyes.

End delays.

(** The registers that decide when the strobe is enabled. *)
Definition enable_regs (grp : Z) : list Z :=
  [apb PHY_MGR_CMD_INC_VFIFO_HARD_PHY 0; apb SCC_MGR_DQS_EN_PHASE (grp .<< 2); apb SCC_MGR_DQS_EN_DELAY (grp .<< 2);
   apb PHY_MGR_PHY_RLAT 0].

(** What is asked of the hardware: while the strobe is enabled in time ([on]),
    which only its own registers change, the status after a read of the group
    has a bit for each pin outside its eye. *)
Class ReadEyes (D : Type) `{DelayRegs D} (grp : Z) (eyes : list eye) (on : D -> Prop) := {
  eight_eyes : length eyes = 8%nat;
  on_read : forall a d, on d -> on (snd (dev_read a d));
  on_write : forall a v d, ~ In a (enable_regs grp) -> on d -> on (dev_write a v d);
  read_answer : forall d, on d ->
    fst (dev_read (apb BASE_RW_MGR 0) (dev_write (apb RW_MGR_RUN_SINGLE_GROUP (grp .<< 2)) __RW_MGR_READ_B2B d)) =
    bits (map negb (read_results grp eyes d))
}.

(** The variables as the calibration of a group finds them. *)
Definition read_ready (g : seqvars) : Prop :=
  skip_ranks g = [0] /\ read_correct_mask g = 0xff /\ read_correct_mask_vg g = 0xff.

(** ** Programs on the delays of a group *)

Section triples.
Context {D : Type} `{Device D}.
Abbreviation M := (M D seqvars).

(** A run from [P] returns a value with [R]. *)
Definition triple {A} (P : st D seqvars -> Prop) (m : M A) (R : A -> st D seqvars -> Prop) : Prop :=
  forall s, P s -> wp m s (fun o s' _ => exists a, o = Val a /\ R a s').

Lemma wp_triple {A} (P : st D seqvars -> Prop) (m : M A) (R : A -> st D seqvars -> Prop) s (Q : outcome A -> st D seqvars -> trace -> Prop) :
  triple P m R -> P s -> (forall a s' t, R a s' -> Q (Val a) s' t) -> wp m s Q.
Proof. intros Hm Hs HQ. eapply wp_mono; [by apply Hm|]. cbv beta. intros o s' t (a & -> & Ha). by apply HQ. Qed.

Lemma triple_ret {A} (P : st D seqvars -> Prop) (R : A -> st D seqvars -> Prop) a : (forall s, P s -> R a s) -> triple P (ret a) R.
Proof. intros Hp s Hs. apply wp_ret. eauto. Qed.

Lemma triple_bind {A B} (P : st D seqvars -> Prop) (Q : A -> st D seqvars -> Prop) (R : B -> st D seqvars -> Prop) m k :
  triple P m Q -> (forall a, triple (Q a) (k a) R) -> triple P (bind m k) R.
Proof.
  intros Hm Hk s Hs. apply wp_bind. eapply wp_mono; [by apply Hm|]. intros o s' t (a & -> & Ha).
  eapply wp_mono; [by apply Hk|]. auto.
Qed.

Lemma triple_then {A B} (P Q : st D seqvars -> Prop) (R : B -> st D seqvars -> Prop) (m : M A) k :
  triple P m (fun _ => Q) -> (forall a, triple Q (k a) R) -> triple P (bind m k) R.
Proof. apply triple_bind. Qed.

Lemma triple_mono {A} (P P' : st D seqvars -> Prop) (R R' : A -> st D seqvars -> Prop) m :
  triple P m R -> (forall s, P' s -> P s) -> (forall a s, R a s -> R' a s) -> triple P' m R'.
Proof. intros Hm HP HR s Hs. eapply wp_mono; [apply Hm, HP, Hs|]. intros o s' t (a & -> & Ha). eauto. Qed.

(** A value that does not depend on the state. *)
Lemma triple_pure {A B} (P : st D seqvars -> Prop) (Q : st D seqvars -> Prop) (R : B -> st D seqvars -> Prop) (x : A) m k :
  triple P m (fun a s => a = x /\ Q s) -> triple Q (k x) R -> triple P (bind m k) R.
Proof. intros Hm Hk. eapply triple_bind; [exact Hm|]. intros a s [-> Hs]. by apply Hk. Qed.

Lemma triple_each (I : Z -> st D seqvars -> Prop) n body : 0 <= n ->
  (forall i, 0 <= i < n -> triple (I i) (body i) (fun _ => I (i + 1))) ->
  triple (I 0) (for_each n body) (fun _ => I n).
Proof.
  intros Hn Hb s Hs. unfold for_each. apply wp_bind.
  apply wp_for with (I := fun i s _ => I i s); [done|done| |].
  - intros i s' t Hi Hs'. apply wp_bind. eapply wp_mono; [by apply Hb|]. cbv beta. intros o s'' t' (a & -> & Ha). by apply wp_ret.
  - intros s' t Hs'. apply wp_ret. by exists tt.
Qed.

End triples.

(** An access beside the registers of the group. *)
Definition beside (grp a : Z) : bool :=
  forallb (fun b => negb (a =? b)) (dqs_in_reg grp :: map io_in_reg (seqZ 0 8) ++ enable_regs grp).

Section group.
Context {D : Type} `{HD : Device D} {HR : DelayRegs D} (grp : Z) (eyes : list eye) (on : D -> Prop) `{HE : !ReadEyes D grp eyes on}.
Abbreviation M := (M D seqvars).
Context (Hgrp : grp = 0 \/ grp = 1 \/ grp = 2 \/ grp = 3).
Context (g : seqvars) (Hready : read_ready g).

(** The strobe has delay [b], the pins the delays [f]. *)
Definition held (b : Z) (f : Z -> Z) (s : st D seqvars) : Prop :=
  glob s = g /\ on (dev s) /\ delay_val (dqs_in_reg grp) (dev s) = b /\
  forall p, 0 <= p < 8 -> delay_val (io_in_reg p) (dev s) = f p.

Lemma io_in_addr p : 0 <= p < 8 -> io_in_reg p = HPS_SDR_BASE + (0x900 + p * 4).
Proof. intros Hp. unfold io_in_reg. rewrite (apb_scc 0x900); rewrite Z.shiftl_mul_pow2 by lia; change (2 ^ 2) with 4; lia. Qed.

Lemma io_in_delay p : 0 <= p < 8 -> In (io_in_reg p) delay_regs.
Proof.
  intros Hp. unfold delay_regs, pin_regs. apply in_app_iff. left. apply in_app_iff. right. apply in_map.
  apply list_elem_of_In, elem_of_seqZ. lia.
Qed.

Lemma dqs_in_delay : In (dqs_in_reg grp) delay_regs.
Proof. unfold delay_regs, strobe_regs. apply in_app_iff. right. apply in_map, list_elem_of_In, elem_of_seqZ. lia. Qed.

Lemma beside_ne a : beside grp a = true ->
  a <> dqs_in_reg grp /\ ~ In a (enable_regs grp) /\ forall p, 0 <= p < 8 -> a <> io_in_reg p.
Proof.
  unfold beside. rewrite forallb_forall. intros Ha.
  assert (Hne : forall b, In b (dqs_in_reg grp :: map io_in_reg (seqZ 0 8) ++ enable_regs grp) -> a <> b) by (intros b Hb; specialize (Ha b Hb); lia).
  split_and!.
  - apply Hne. by left.
  - intros Hb. by apply (Hne a); [right; apply in_app_iff; right|].
  - intros p Hp. apply Hne. right. apply in_app_iff. left. apply in_map, list_elem_of_In, elem_of_seqZ. lia.
Qed.

Lemma held_write b f a v s : beside grp a = true -> held b f s -> held b f (mk_st (dev_write a v (dev s)) (glob s)).
Proof.
  intros (Hb & He & Hp)%beside_ne (? & ? & ? & Hf). unfold held. cbn [dev glob]. split_and!; [done|by apply on_write| |].
  - by rewrite delay_val_other.
  - intros p Hr. rewrite delay_val_other by auto. auto.
Qed.

Lemma held_read b f a s : held b f s -> held b f (mk_st (snd (dev_read a (dev s))) (glob s)).
Proof.
  intros (? & ? & ? & Hf). unfold held. cbn [dev glob]. rewrite delay_val_after. split_and!; [done|by apply (on_read (eyes := eyes) (grp := grp))|done|].
  intros p Hp. rewrite delay_val_after. auto.
Qed.

Lemma triple_beside b f base o v : beside grp (apb base o) = true ->
  triple (held b f) (IOWR_32DIRECT base o v : M unit) (fun _ => held b f).
Proof. intros Ha s Hs. apply wp_writel. exists tt. split; [done|]. by apply held_write. Qed.

Lemma in_enable_far p : 0 <= p < 8 -> ~ In (io_in_reg p) (enable_regs grp).
Proof.
  intros Hp Hi. assert (Hf : forallb (fun b => (b <? HPS_SDR_BASE + 0x900) || (HPS_SDR_BASE + 0x920 <=? b)) (enable_regs grp) = true)
    by (destruct Hgrp as [-> |[-> |[-> | ->]]]; vm_compute; reflexivity).
  rewrite forallb_forall in Hf. specialize (Hf _ Hi). rewrite io_in_addr in Hf by done. lia.
Qed.

Lemma dqs_enable_far : ~ In (dqs_in_reg grp) (enable_regs grp).
Proof.
  intros Hi. assert (Hf : forallb (fun b => negb (dqs_in_reg grp =? b)) (enable_regs grp) = true)
    by (destruct Hgrp as [-> |[-> |[-> | ->]]]; vm_compute; reflexivity).
  rewrite forallb_forall in Hf. specialize (Hf _ Hi). lia.
Qed.

Lemma dqs_in_far p : 0 <= p < 8 -> dqs_in_reg grp <> io_in_reg p.
Proof.
  intros Hp. rewrite io_in_addr by done. assert (dqs_in_reg grp < HPS_SDR_BASE + 0x900)
    by (destruct Hgrp as [-> |[-> |[-> | ->]]]; vm_compute; reflexivity). lia.
Qed.

Lemma triple_set_dq b f p v : 0 <= p < 8 ->
  triple (held b f) (WRITE_SCC_DQ_IN_DELAY p v : M unit) (fun _ => held b (fun q => if q =? p then u32 v else f q)).
Proof.
  intros Hp s (? & ? & ? & Hf). apply wp_writel. exists tt. split; [done|]. fold (io_in_reg p). unfold held. cbn [dev glob].
  split_and!; [done|apply on_write; [by apply in_enable_far|done]| |].
  - rewrite delay_val_other by (pose proof (dqs_in_far p Hp); congruence). done.
  - intros q Hq. destruct (Z.eqb_spec q p) as [->|Hne].
    + apply delay_val_write, io_in_delay, Hp.
    + rewrite delay_val_other; [auto|]. rewrite !io_in_addr by done. lia.
Qed.

Lemma triple_set_dqs b f v : triple (held b f) (WRITE_SCC_DQS_IN_DELAY grp v : M unit) (fun _ => held (u32 v) f).
Proof.
  intros s (? & ? & ? & Hf). apply wp_writel. exists tt. split; [done|]. fold (dqs_in_reg grp). unfold held. cbn [dev glob].
  split_and!; [done|apply on_write; [by apply dqs_enable_far|done]|apply delay_val_write, dqs_in_delay|].
  intros p Hp. rewrite delay_val_other by (by apply dqs_in_far). auto.
Qed.

Lemma triple_read_dq b f p : 0 <= p < 8 ->
  triple (held b f) (READ_SCC_DQ_IN_DELAY p : M Z) (fun v s => v = u32 (f p) /\ held b f s).
Proof.
  intros Hp s Hs. unfold READ_SCC_DQ_IN_DELAY, IORD_32DIRECT. fold (io_in_reg p). eapply wp_readl; [apply surjective_pairing|].
  eexists. split; [done|]. split; [|by apply held_read]. rewrite delay_val_read by (by apply io_in_delay).
  destruct Hs as (_ & _ & _ & Hf). by rewrite Hf.
Qed.

Lemma triple_read_dqs b f : triple (held b f) (READ_SCC_DQS_IN_DELAY grp : M Z) (fun v s => v = u32 b /\ held b f s).
Proof.
  intros s Hs. unfold READ_SCC_DQS_IN_DELAY, IORD_32DIRECT. fold (dqs_in_reg grp). eapply wp_readl; [apply surjective_pairing|].
  eexists. split; [done|]. split; [|by apply held_read]. rewrite delay_val_read by apply dqs_in_delay.
  by destruct Hs as (_ & _ & -> & _).
Qed.

(** *** The test *)

Ltac beside_solve := destruct Hgrp as [-> |[-> |[-> | ->]]]; vm_compute; reflexivity.

(** Steps over accesses beside the group. *)
Ltac beside_step :=
  match goal with
  | |- triple _ (bind (IOWR_32DIRECT _ _ _) _) _ => eapply triple_then; [apply triple_beside; beside_solve|intros _]
  | |- triple _ (IOWR_32DIRECT _ _ _) _ => apply triple_beside; beside_solve
  end; cbv beta iota zeta.

(** The results of a test with the strobe at [b] and the pins at [f]. *)
Definition results (b : Z) (f : Z -> Z) : list bool := imap (fun i e => passes e (f (Z.of_nat i) - b)) eyes.

Lemma results_length b f : length (results b f) = 8%nat.
Proof. unfold results. rewrite length_imap. apply eight_eyes. Qed.

Lemma read_results_held b f s : held b f s -> read_results grp eyes (dev s) = results b f.
Proof.
  intros (_ & _ & Hb & Hf). unfold read_results, results. rewrite Hb. apply imap_ext. intros i e Hi. rewrite Hf; [done|].
  apply lookup_lt_Some in Hi. rewrite (eight_eyes (eyes := eyes) (grp := grp) (on := on)) in Hi. lia.
Qed.

(** What [read_test_rank] makes of the status. *)
Lemma bits_of_wrong l : length l = 8%nat -> u32 (0 .<< 8) .| (0xff .& .~ (u32 (bits (map negb l)))) = bits l.
Proof. intros Hl. do 8 (destruct l as [|[] l]; [done| |]). all: destruct l; [vm_compute; reflexivity|done]. Qed.

Lemma bits_all l : length l = 8%nat -> 0xff .& bits l = bits l.
Proof. intros Hl. do 8 (destruct l as [|[] l]; [done| |]). all: destruct l; [vm_compute; reflexivity|done]. Qed.

Lemma triple_get b f : triple (held b f) (get : M seqvars) (fun a s => a = g /\ held b f s).
Proof. intros s Hs. apply wp_get. eexists. split; [done|]. split; [apply Hs|done]. Qed.

Lemma triple_rank b f r m : triple (held b f) (set_rank_and_odt_mask r m : M unit) (fun _ => held b f).
Proof. unfold set_rank_and_odt_mask. destruct (odt_masks r m). cbv zeta. beside_step. Qed.

Lemma triple_reset_path b f : triple (held b f) (reset_read_path : M unit) (fun _ => held b f).
Proof. unfold reset_read_path. repeat beside_step. Qed.

Lemma triple_skip_rank b f : triple (held b f) (skip_rank 0 : M bool) (fun a s => a = false /\ held b f s).
Proof.
  unfold skip_rank. eapply triple_pure; [apply triple_get|]. destruct Hready as (-> & _).
  intros s Hs. wp_step. apply (wp_array_get _ _ 0%nat 0); [done..|]. wp_step. by eexists.
Qed.

Lemma triple_ranks b f mask test x : triple (held b f) (test 0) (fun v s => v = x /\ held b f s) ->
  triple (held b f) (for_ranks 0 false mask test : M Z) (fun v s => v = mask .& x /\ held b f s).
Proof.
  intros Ht. unfold for_ranks. change (ranks_of 0 false) with 1%nat. cbn [for_acc].
  eapply triple_pure; [|apply triple_ret; by intros; split].
  eapply triple_pure; [apply triple_skip_rank|]. eapply triple_pure; [exact Ht|]. by apply triple_ret.
Qed.

(** After the command that reads the group. *)
Definition ran (b : Z) (f : Z -> Z) (s : st D seqvars) : Prop :=
  exists s0, held b f s0 /\
    s = mk_st (dev_write (apb RW_MGR_RUN_SINGLE_GROUP (grp .<< 2)) __RW_MGR_READ_B2B (dev s0)) (glob s0).

Lemma triple_status b f : triple (ran b f) (IORD_32DIRECT BASE_RW_MGR 0 : M Z)
  (fun v s => v = u32 (bits (map negb (results b f))) /\ held b f s).
Proof.
  intros s (s0 & Hs & ->). unfold IORD_32DIRECT. eapply wp_readl; [apply surjective_pairing|]. cbn [dev glob].
  eexists. split; [done|]. split.
  - rewrite (read_answer (eyes := eyes)) by apply Hs. by rewrite (read_results_held b f).
  - apply (held_read b f (apb BASE_RW_MGR 0) (mk_st _ (glob s0))). apply held_write; [beside_solve|done].
Qed.


Lemma triple_run b f width mask : let l := results b f in
  triple (held b f)
    (for_virtual_groups RW_MGR_MEM_VIRTUAL_GROUPS_PER_READ_DQS width mask (fun vg =>
       reset_read_path ;;;
       IOWR_32DIRECT RW_MGR_RUN_SINGLE_GROUP ((grp * RW_MGR_MEM_VIRTUAL_GROUPS_PER_READ_DQS + vg) .<< 2) __RW_MGR_READ_B2B) : M Z)
    (fun v s => v = u32 (0 .<< width) .| (mask .& .~ (u32 (bits (map negb l)))) /\ held b f s).
Proof.
  cbv zeta. unfold for_virtual_groups. change (Z.to_nat RW_MGR_MEM_VIRTUAL_GROUPS_PER_READ_DQS) with 1%nat. cbn [for_acc].
  eapply triple_pure; [|apply triple_ret; by intros; split]. cbv beta zeta.
  eapply triple_then with (Q := ran b f).
  - eapply triple_then; [apply triple_reset_path|intros _]. intros s Hs. apply wp_writel. exists tt. split; [done|]. exists s.
    split; [done|]. change (u32 __RW_MGR_READ_B2B) with __RW_MGR_READ_B2B.
    by replace (grp * RW_MGR_MEM_VIRTUAL_GROUPS_PER_READ_DQS + (RW_MGR_MEM_VIRTUAL_GROUPS_PER_READ_DQS - 1 - 0)) with grp
      by (change RW_MGR_MEM_VIRTUAL_GROUPS_PER_READ_DQS with 1; lia).
  - intros _. eapply triple_pure; [apply triple_status|]. by apply triple_ret.
Qed.

Lemma triple_read_rank b f : let l := results b f in
  triple (held b f) (read_test_rank grp false 0xff 0 : M Z) (fun v s => v = bits l /\ held b f s).
Proof.
  cbv zeta. unfold read_test_rank. eapply triple_then; [apply triple_rank|intros _]. do 8 beside_step.
  eapply triple_mono; [apply triple_run|done|]. intros v s [-> Hs]. split; [|done].
  apply bits_of_wrong, results_length.
Qed.

Lemma triple_read_test b f : let w := bits (results b f) in
  triple (held b f) (vfifo_center_test 0 grp grp true : M (bool * Z)) (fun r s => r = (w =? 0, w) /\ held b f s).
Proof.
  cbv zeta. unfold vfifo_center_test, rw_mgr_mem_calibrate_read_test.
  eapply triple_pure with (x := (negb (bits (results b f) =? 0), bits (results b f)));
    [|apply triple_ret; cbn [fst snd]; by rewrite negb_involutive].
  eapply triple_pure; [apply triple_get|]. destruct Hready as (_ & -> & ->).
  eapply triple_pure; [apply triple_ranks, triple_read_rank|]. rewrite bits_all by apply results_length.
  beside_step. eapply triple_then; [apply triple_rank|intros _]. by apply triple_ret.
Qed.

(** *** The sweeps *)

Lemma held_ext b f f' s : (forall p, 0 <= p < 8 -> f p = f' p) -> held b f s -> held b f' s.
Proof. intros Hf (? & ? & ? & Hs). split_and!; [done..|]. intros p Hp. by rewrite Hs, Hf. Qed.

Lemma triple_upd b f : triple (held b f) (upd : M unit) (fun _ => held b f).
Proof. unfold upd. beside_step. Qed.

Lemma triple_group_dq b f d : 0 <= d < 32 ->
  triple (held b f) (scc_mgr_apply_group_dq_in_delay grp 0 d : M unit) (fun _ => held b (fun _ => d)).
Proof.
  intros Hd. unfold scc_mgr_apply_group_dq_in_delay.
  eapply triple_mono; [apply (triple_each (fun i => held b (fun q => if q <? i then d else f q)))| |].
  - done.
  - intros i Hi. change RW_MGR_MEM_DQ_PER_READ_DQS with 8 in Hi. cbv zeta. eapply triple_then.
    + unfold scc_mgr_set_dq_in_delay. apply triple_set_dq. lia.
    + intros _. unfold scc_mgr_load_dq. eapply triple_mono; [beside_step|done|]. cbv beta. intros _ s. apply held_ext.
      intros q Hq. rewrite u32_word by (unfold word; lia). repeat case_match; lia.
  - intros s. apply held_ext. intros q Hq. by replace (q <? 0) with false by lia.
  - cbv beta. intros _ s. apply held_ext. intros q Hq. change RW_MGR_MEM_DQ_PER_READ_DQS with 8. by replace (q <? 8) with true by lia.
Qed.

Lemma triple_strobe b f d : 0 <= d < 32 ->
  triple (held b f) (scc_mgr_set_dqs_bus_in_delay grp d ;;; scc_mgr_load_dqs grp ;;; upd : M unit) (fun _ => held d f).
Proof.
  intros Hd. unfold scc_mgr_set_dqs_bus_in_delay, scc_mgr_load_dqs, upd. eapply triple_then; [apply triple_set_dqs|intros _].
  rewrite u32_word by (unfold word; lia). repeat beside_step.
Qed.

Lemma results_const b d : results b (fun _ => d) = map (fun e => passes e (d - b)) eyes.
Proof. apply (imap_const (fun e => passes e (d - b))). Qed.

(** The rows before the first sweep. *)
Definition rows0 : list (row eye) := map (fun e => mk_row e false (mk_window in_top in_top)) eyes.

Lemma pins_rows0 : map pin rows0 = eyes.
Proof. unfold rows0. rewrite map_map. apply map_id. Qed.

(** The windows [ws] belong to the eyes and satisfy [R]. *)
Definition rows_ok (R : eye -> window -> Prop) (ws : list window) : Prop :=
  exists rows, map pin rows = eyes /\ ws = map found rows /\ Forall (fun r : row eye => R (pin r) (found r)) rows.

Lemma bits_true {A} (l : list A) : length l = 8%nat -> bits (map (fun _ => true) l) = 0xff.
Proof. intros Hl. do 8 (destruct l as [|? l]; [done|]). by destruct l. Qed.

Lemma rows_length (rows : list (row eye)) : map pin rows = eyes -> length rows = 8%nat.
Proof. intros E. rewrite <- (eight_eyes (eyes := eyes) (grp := grp) (on := on)), <- E. by rewrite length_map. Qed.

Context (start : Z) (Hstart : 0 <= start < 32).

Lemma triple_left_test f d : 0 <= d < 32 -> let w := bits (map (left_pass start d) eyes) in
  triple (held start f)
    (scc_mgr_apply_group_dq_in_delay grp 0 d ;;; upd ;;; vfifo_center_test 0 grp grp true : M (bool * Z))
    (fun r s => r = (w =? 0, w) /\ held start (fun _ => d) s).
Proof.
  intros Hd. cbv zeta. eapply triple_then; [by apply triple_group_dq|intros _]. eapply triple_then; [apply triple_upd|intros _].
  change (map (left_pass start d) eyes) with (map (fun e => passes e (d - start)) eyes). rewrite <- results_const. apply triple_read_test.
Qed.

Lemma triple_left f :
  triple (held start f) (vfifo_left 0 grp grp 0 true : M (list window))
    (fun ws s => rows_ok (left_done IO_IO_IN_DELAY_MAX start) ws /\ held start (fun _ => 0) s).
Proof.
  unfold vfifo_left. eapply triple_pure; [apply triple_get|]. destruct Hready as (_ & -> & _).
  eapply triple_bind with (Q := fun r s => (exists rows, map pin rows = eyes /\ swept r = map found rows /\
      Forall (fun r : row eye => left_inv IO_IO_IN_DELAY_MAX start in_top (pin r) (passed r) (found r)) rows) /\
      exists f', held start f' s).
  - intros s Hs.
    apply (wp_sweep (left_pass start) (left_step in_top) (fun _ w => w) (left_inv IO_IO_IN_DELAY_MAX start) in_top
      (fun s => exists f', held start f' s)) with (rows := rows0).
    + intros. by apply (left_inv_step _ _ 0).
    + intros. by eapply (left_inv_stop _ _ 0).
    + done.
    + eauto.
    + unfold rows0. apply Forall_map, Forall_true. intros e. cbn. unfold left_inv, left_found. by replace (_ <=? _) with false by lia.
    + symmetry. apply bits_true, rows_length, pins_rows0.
    + unfold rows0. rewrite map_map. symmetry. apply bits_false.
    + unfold rows0, no_edges. rewrite map_map. change (Z.to_nat RW_MGR_MEM_DQ_PER_READ_DQS) with 8%nat.
      rewrite <- (eight_eyes (eyes := eyes) (grp := grp) (on := on)). symmetry. apply (const_fmap (fun _ : eye => mk_window in_top in_top)). done.
    + intros. by rewrite map_id.
    + intros d s' Hd (f' & Hs'). cbv zeta. rewrite <- (map_map pin (left_pass start d)), pins_rows0.
      eapply wp_mono; [by apply (triple_left_test f')|]. cbv beta. intros o s'' t (r & -> & -> & Hs''). eauto.
    + intros s' t r rows (f' & Hs') Hpins Hinv Hr. eexists. split; [done|]. rewrite pins_rows0 in Hpins. eauto 10.
  - intros r. cbv beta. intros s [(rows & Hpins & Hr & Hinv) (f' & Hs)]. wp_step. eapply wp_mono; [by apply (triple_group_dq start f' 0)|].
    cbv beta. intros o s' t (a & -> & Hs'). apply wp_ret. eexists. split; [done|]. split; [|done].
    exists (map (fun r => mk_row (pin r) (passed r) (reset_right in_top (found r))) rows). rewrite Hr, !map_map. split_and!; [done|done|].
    apply Forall_map. eapply Forall_impl; [exact Hinv|]. intros x Hx. cbn. by apply (left_inv_done _ _ 0) in Hx.
Qed.

Definition last_shift : Z := IO_DQS_IN_DELAY_MAX - start.

Lemma triple_right_test d : 0 <= d < last_shift + 1 -> forall b, let w := bits (map (right_pass start d) eyes) in
  triple (held b (fun _ => 0))
    (scc_mgr_set_dqs_bus_in_delay grp (u32 (d + start)) ;;; scc_mgr_load_dqs grp ;;; upd ;;; vfifo_center_test 0 grp grp true : M (bool * Z))
    (fun r s => r = (w =? 0, w) /\ held (start + d) (fun _ => 0) s).
Proof.
  unfold last_shift. change IO_DQS_IN_DELAY_MAX with 31. intros Hd b. cbv zeta.
  rewrite u32_word by (unfold word; lia). replace (d + start) with (start + d) by lia.
  unfold scc_mgr_set_dqs_bus_in_delay, scc_mgr_load_dqs, upd. eapply triple_then; [apply triple_set_dqs|intros _].
  rewrite u32_word by (unfold word; lia). do 2 beside_step.
  change (map (right_pass start d) eyes) with (map (fun e => passes e (0 - (start + d))) eyes). rewrite <- results_const. apply triple_read_test.
Qed.

Lemma sticky_bits p (ws : list window) : length ws = 8%nat -> sticky_of p ws = bits (map p ws).
Proof.
  intros Hl. do 8 (destruct ws as [|? ws]; [done|]). destruct ws; [|done]. unfold sticky_of. cbn [fold_right map].
  repeat match goal with |- context [p ?w] => destruct (p w) end; vm_compute; reflexivity.
Qed.

(** The windows of the eyes, once both sweeps are done. *)
Definition both_done (e : eye) (w : window) : Prop :=
  missing IO_IO_IN_DELAY_MAX w = negb (visible IO_IO_IN_DELAY_MAX start last_shift e) /\
  (visible IO_IO_IN_DELAY_MAX start last_shift e = true -> w = window_of IO_IO_IN_DELAY_MAX start last_shift e).

Lemma triple_right ws : rows_ok (left_done IO_IO_IN_DELAY_MAX start) ws ->
  triple (held start (fun _ => 0)) (vfifo_right 0 grp grp start true ws : M (list window))
    (fun ws s => rows_ok both_done ws /\ exists b, held b (fun _ => 0) s).
Proof.
  intros (rows & Hpins & -> & Hrows). unfold vfifo_right. eapply triple_pure; [apply triple_get|]. destruct Hready as (_ & -> & _).
  assert (Hlast : 0 <= last_shift <= IO_IO_IN_DELAY_MAX)
    by (unfold last_shift; change IO_DQS_IN_DELAY_MAX with 31; change IO_IO_IN_DELAY_MAX with 31; lia).
  assert (Elast : u32 (IO_DQS_IN_DELAY_MAX - start) = last_shift) by (apply u32_word; fold last_shift; change IO_IO_IN_DELAY_MAX with 31 in Hlast; unfold word; lia).
  rewrite Elast. clear Elast. cbv zeta.
  set (rows1 := map (fun r => mk_row (pin r) (has_both in_top (found r)) (found r)) rows).
  eapply triple_bind with (Q := fun r s => (exists rows, map pin rows = eyes /\ swept r = map found rows /\
      Forall (fun r : row eye => right_inv IO_IO_IN_DELAY_MAX start (last_shift + 1) (pin r) (passed r) (found r)) rows) /\
      exists b, held b (fun _ => 0) s).
  - intros s Hs.
    apply (wp_sweep (right_pass start) (right_step in_top) (fun _ w => w) (right_inv IO_IO_IN_DELAY_MAX start) (last_shift + 1)
      (fun s => exists b, held b (fun _ => 0) s)) with (rows := rows1).
    + intros. by apply (right_inv_step _ _ last_shift).
    + intros. by eapply (right_inv_stop _ _ last_shift).
    + lia.
    + eauto.
    + unfold rows1. apply Forall_map. eapply Forall_impl; [exact Hrows|]. intros r Hr. cbn.
      apply (right_inv_start IO_IO_IN_DELAY_MAX start); [done|]. unfold has_both, has_left. by intros [? _]%andb_true_iff.
    + symmetry. apply bits_true. unfold rows1. rewrite length_map. by apply rows_length.
    + unfold rows1. rewrite map_map. rewrite sticky_bits by (rewrite length_map; by apply rows_length). by rewrite map_map.
    + unfold rows1. by rewrite map_map.
    + intros. by rewrite map_id.
    + intros d s' Hd (b & Hs'). cbv zeta. rewrite <- (map_map pin (right_pass start d)).
      replace (map pin rows1) with eyes by (unfold rows1; by rewrite map_map).
      eapply wp_mono; [by apply (triple_right_test d Hd b)|]. cbv beta. intros o s'' t (r & -> & -> & Hs''). eauto.
    + intros s' t r rows' Hs' Hpins' Hinv Hr. eexists. split; [done|]. split; [|done]. exists rows'. split_and!; [|done|done].
      rewrite Hpins'. unfold rows1. by rewrite map_map.
  - intros r s [(rows' & Hpins' & Hr & Hinv) Hs].
    assert (Hok : rows_ok both_done (swept r)).
    { exists rows'. split_and!; [done|done|]. eapply Forall_impl; [exact Hinv|]. intros x Hx. cbn. by apply right_inv_done in Hx. }
    destruct r as [ws|ws]; cbn [swept] in Hok.
    + replace (last_shift =? 2 ^ 32 - 1) with false by (change IO_IO_IN_DELAY_MAX with 31 in Hlast; lia). apply wp_ret. eauto.
    + apply wp_ret. eauto.
Qed.

(** *** The placement *)

Section placement.
Context (sm om mm : Z).
Abbreviation delay_of := (pin_delay IO_IO_IN_DELAY_MAX sm om mm).

Lemma pin_delay_range w : 0 <= delay_of w < 32.
Proof. unfold pin_delay, clamp. change IO_IO_IN_DELAY_MAX with 31. lia. Qed.

Lemma triple_limit b f p sh : 0 <= p < 8 -> f p = 0 ->
  triple (held b f) (limit_shift READ_SCC_DQ_IN_DELAY IO_IO_IN_DELAY_MAX p p sh : M Z)
    (fun v s => v = clamp IO_IO_IN_DELAY_MAX sh /\ held b f s).
Proof.
  intros Hp Hf. unfold limit_shift, clamp. change IO_IO_IN_DELAY_MAX with 31.
  eapply triple_pure; [by apply triple_read_dq|]. rewrite Hf. change (s32 (u32 0)) with 0.
  destruct (sh + 0 >? 31) eqn:E1.
  - eapply triple_pure; [by apply triple_read_dq|]. rewrite Hf. change (s32 (31 - u32 0)) with 31. apply triple_ret. intros s Hs. split; [lia|done].
  - eapply triple_pure; [by apply triple_read_dq|]. rewrite Hf. change (s32 (u32 0)) with 0. destruct (sh + 0 <? 0) eqn:E2.
    + eapply triple_pure; [by apply triple_read_dq|]. rewrite Hf. change (- s32 (u32 0)) with 0. apply triple_ret. intros s Hs. split; [lia|done].
    + apply triple_ret. intros s Hs. split; [lia|done].
Qed.

(** The delays of the pins from [i] on, one per window. *)
Definition placed (i : Z) (ws : list window) (f : Z -> Z) (q : Z) : Z :=
  if q <? i then f q else match ws !! Z.to_nat (q - i) with Some w => delay_of w | None => f q end.

Lemma triple_move b ws : forall i f m, 0 <= i -> i + Z.of_nat (length ws) <= 8 -> (forall q, i <= q < 8 -> f q = 0) ->
  triple (held b f)
    (move_pins READ_SCC_DQ_IN_DELAY (fun p delay => scc_mgr_set_dq_in_delay grp p (u32 delay) ;;; scc_mgr_load_dq p)
      IO_IO_IN_DELAY_MAX 0 sm om mm i ws m : M (Z * Z))
    (fun m' s => m' = margins_of IO_IO_IN_DELAY_MAX sm om mm ws m /\ held b (placed i ws f) s).
Proof.
  induction ws as [|w ws IH]; intros i f m Hi Hl Hf; cbn [move_pins length] in *.
  - apply triple_ret. intros s Hs. split; [done|]. revert Hs. apply held_ext. intros q Hq. unfold placed. by destruct (q <? i).
  - cbv zeta. change (0 + i) with i. eapply triple_pure; [apply triple_limit; [lia|apply Hf; lia]|].
    fold (delay_of w). eapply triple_pure; [apply triple_read_dq; lia|]. rewrite Hf by lia. change (u32 0 + delay_of w) with (delay_of w).
    pose proof (pin_delay_range w). rewrite s32_small by lia.
    eapply triple_then with (Q := held b (fun q => if q =? i then delay_of w else f q)).
    { unfold scc_mgr_set_dq_in_delay, scc_mgr_load_dq. eapply triple_then; [apply triple_set_dq; lia|intros _].
      rewrite !u32_word by (unfold word; rewrite ?u32_word by (unfold word; lia); lia). beside_step. }
    intros _. eapply triple_mono; [apply IH; [lia|lia|]|done|].
    + intros q Hq. cbv beta. replace (q =? i) with false by lia. apply Hf. lia.
    + intros m' s [-> Hs]. split; [done|]. revert Hs. apply held_ext. intros q Hq. unfold placed.
      destruct (Z.lt_trichotomy q i) as [Hlt|[->|Hgt]].
      * replace (q <? i + 1) with true by lia. replace (q <? i) with true by lia. by replace (q =? i) with false by lia.
      * replace (i <? i + 1) with true by lia. replace (i <? i) with false by lia. by rewrite Z.eqb_refl, Z.sub_diag.
      * replace (q <? i + 1) with false by lia. replace (q <? i) with false by lia. replace (q =? i) with false by lia.
        replace (Z.to_nat (q - i)) with (S (Z.to_nat (q - (i + 1)))) by lia. done.
Qed.

End placement.

(** The delays at the end, when the variables may have changed. *)
Definition set_to (b : Z) (f : Z -> Z) (s : st D seqvars) : Prop :=
  delay_val (dqs_in_reg grp) (dev s) = b /\ forall p, 0 <= p < 8 -> delay_val (io_in_reg p) (dev s) = f p.

Lemma held_set_to b f s : held b f s -> set_to b f s.
Proof. by intros (_ & _ & ? & ?). Qed.

Lemma wp_upd_set_to b f s (Q : outcome unit -> st D seqvars -> trace -> Prop) :
  set_to b f s -> (forall s' t, set_to b f s' -> Q (Val tt) s' t) -> wp (upd : M unit) s Q.
Proof.
  intros [Hb Hf] HQ. unfold upd. apply wp_writel, HQ. split; cbn [dev].
  - rewrite delay_val_other; [done|]. apply beside_ne. beside_solve.
  - intros p Hp. rewrite delay_val_other; [auto|]. assert (Ha : beside grp (apb SCC_MGR_UPD 0) = true) by beside_solve.
    apply beside_ne in Ha as (_ & _ & Ha). auto.
Qed.

(** Where the code puts the strobe and the pins. *)
Definition strobe_goal (ws : list window) : Z := new_strobe start (half_mid (min_mid ws)).
Definition pin_goal (ws : list window) (w : window) : Z :=
  pin_delay IO_IO_IN_DELAY_MAX (min_mid ws) (half_mid (min_mid ws)) (start - strobe_goal ws) w.
Definition margins (ws : list window) : Z * Z :=
  margins_of IO_IO_IN_DELAY_MAX (min_mid ws) (half_mid (min_mid ws)) (start - strobe_goal ws) ws (in_top, in_top).

Lemma strobe_goal_range ws : 0 <= strobe_goal ws < 32.
Proof. unfold strobe_goal, new_strobe. change IO_DQS_IN_DELAY_MAX with 31. repeat case_match; lia. Qed.

Lemma wp_place fom ws b s : length ws = 8%nat -> held b (fun _ => 0) s ->
  wp (vfifo_place grp grp 0 start fom ws : M bool) s (fun o s' _ =>
    o = Val ((fst (margins ws) >=? 0) && (snd (margins ws) >=? 0)) /\
    set_to (strobe_goal ws) (fun q => match ws !! Z.to_nat q with Some w => pin_goal ws w | None => 0 end) s').
Proof.
  intros Hl Hs. unfold vfifo_place. cbv zeta. fold (strobe_goal ws). apply wp_bind.
  eapply wp_triple; [apply (triple_move (min_mid ws) (half_mid (min_mid ws)) (start - strobe_goal ws) b ws 0 (fun _ => 0) (in_top, in_top)); [done|lia|done]|exact Hs|].
  intros m s1 t1 [-> Hs1]. cbv beta iota. fold (margins ws). destruct (margins ws) as [dq dqs] eqn:Em. cbn [fst snd].
  replace (start - (start - strobe_goal ws)) with (strobe_goal ws) by lia. pose proof (strobe_goal_range ws).
  rewrite u32_word by (unfold word; lia). unfold scc_mgr_set_dqs_bus_in_delay, scc_mgr_load_dqs.
  apply wp_bind. eapply wp_triple; [apply triple_set_dqs|exact Hs1|]. intros u2 s2 t2 Hs2. cbv beta iota in Hs2 |- *.
  rewrite u32_word in Hs2 by (unfold word; lia).
  apply wp_bind. eapply wp_triple; [eapply triple_beside; beside_solve|exact Hs2|]. intros u3 s3 t3 Hs3%held_set_to. cbv beta iota.
  apply wp_bind. apply (wp_mono _ _ (fun o s' _ => o = Val tt /\ set_to (strobe_goal ws)
    (placed (min_mid ws) (half_mid (min_mid ws)) (start - strobe_goal ws) 0 ws (fun _ => 0)) s')).
  { apply wp_when; intros _; [apply wp_modify|]; by split. }
  intros o s4 t4 [-> Hs4]. cbv beta iota. apply wp_bind. eapply wp_upd_set_to; [exact Hs4|]. intros s5 t5 Hs5. cbv beta iota.
  apply wp_ret. split; [done|]. destruct Hs5 as [Hb Hf]. split; [done|]. intros p Hp. rewrite Hf by done. unfold placed.
  replace (p <? 0) with false by lia. by rewrite Z.sub_0_r.
Qed.

(** Both sweeps see where the eye ends. *)
Definition in_reach (e : eye) : Prop := lo e <= hi e /\ hi e + start <= 31 /\ -31 <= lo e.

(** The eyes' middles are no further apart than a pin can be moved. *)
Definition spread_fits : Prop := forall e e', In e eyes -> In e' eyes -> (lo e + hi e) - (lo e' + hi e') <= 62.

Abbreviation the_window := (window_of IO_IO_IN_DELAY_MAX start last_shift).

Lemma rows_window ws i e : rows_ok both_done ws -> Forall (fun e => visible IO_IO_IN_DELAY_MAX start last_shift e = true) eyes ->
  eyes !! i = Some e -> ws !! i = Some (the_window e).
Proof.
  intros (rows & Hpins & -> & Hrows) Hv Hi. rewrite <- Hpins in Hi. apply list_lookup_fmap_Some in Hi as (r & -> & Hr).
  change (map found rows) with (found <$> rows). rewrite list_lookup_fmap, Hr. cbn. f_equal.
  rewrite Forall_lookup in Hrows. destruct (Hrows i r Hr) as [_ Hw]. apply Hw.
  rewrite List.Forall_forall in Hv. apply Hv. rewrite <- Hpins. apply in_map. apply list_elem_of_In. by eapply list_elem_of_lookup_2.
Qed.

Lemma rows_windows ws : rows_ok both_done ws -> Forall (fun e => visible IO_IO_IN_DELAY_MAX start last_shift e = true) eyes ->
  ws = map the_window eyes.
Proof.
  intros (rows & Hpins & -> & Hrows) Hv. rewrite <- Hpins in Hv |- *. rewrite Forall_map in Hv. rewrite map_map. apply map_ext_in.
  intros r Hr. rewrite List.Forall_forall in Hrows, Hv. destruct (Hrows r Hr) as [_ Hw]. by apply Hw, Hv.
Qed.

Lemma rows_missing ws : rows_ok both_done ws ->
  Forall (fun w => missing IO_IO_IN_DELAY_MAX w = false) ws <-> Forall (fun e => visible IO_IO_IN_DELAY_MAX start last_shift e = true) eyes.
Proof.
  intros (rows & Hpins & -> & Hrows). rewrite <- Hpins, !Forall_map. rewrite Forall_forall in Hrows. rewrite !Forall_forall.
  split; intros Hf r Hr; specialize (Hf r Hr); destruct (Hrows r Hr) as [Hm _].
  - rewrite Hm in Hf. by apply negb_false_iff in Hf.
  - by rewrite Hm, Hf.
Qed.

(** Margins that are not negative put every pin into its eye. *)
Lemma margins_inside : let ws := map the_window eyes in
  0 <= fst (margins ws) /\ 0 <= snd (margins ws) ->
  Forall (fun e => passes e (pin_goal ws (the_window e) - strobe_goal ws) = true) eyes.
Proof.
  cbv zeta. set (ws := map the_window eyes). intros Hm. apply margins_of_ok in Hm as [_ Hm].
  apply Forall_map in Hm. eapply Forall_impl; [exact Hm|]. cbv beta. intros e [H1 H2]. unfold passes. apply andb_true_iff.
  fold (pin_goal ws (the_window e)) in H1, H2.
  assert (left_edge (the_window e) <= hi e + start /\ right_edge (the_window e) <= - lo e - start)
    by (unfold window_of, eye_left, eye_right; cbn [left_edge right_edge]; lia). lia.
Qed.

(** Eyes in reach are centred. *)
Lemma reach_centred : Forall in_reach eyes -> spread_fits -> let ws := map the_window eyes in
  (0 <= fst (margins ws) /\ 0 <= snd (margins ws)) /\
  Forall (fun e => let x := pin_goal ws (the_window e) - strobe_goal ws in -1 <= (hi e - x) - (x - lo e) <= 1) eyes.
Proof.
  intros Hreach Hspread. cbv zeta. set (ws := map the_window eyes).
  assert (Hw : forall e, In e eyes -> the_window e = mk_window (hi e + start) (- lo e - start) /\ in_reach e).
  { intros e He. rewrite List.Forall_forall in Hreach. pose proof (Hreach e He) as Hr. split; [|done]. destruct Hr as (? & ? & ?).
    unfold window_of, eye_left, eye_right, last_shift. change IO_IO_IN_DELAY_MAX with 31. change IO_DQS_IN_DELAY_MAX with 31. f_equal; lia. }
  assert (Hmin : exists e0, In e0 eyes /\ min_mid ws = mid_of (the_window e0) /\ forall e, In e eyes -> min_mid ws <= mid_of (the_window e)).
  { apply min_mid_map. intros E. pose proof (eight_eyes (eyes := eyes) (grp := grp) (on := on)) as Hl. by rewrite E in Hl. }
  destruct Hmin as (e0 & He0 & Emin & Hle). destruct (Hw e0 He0) as [Ew0 (? & ? & ?)]. rewrite Ew0 in Emin. unfold mid_of in Emin, Hle.
  cbn [left_edge right_edge] in Emin.
  assert (Hgoal : forall e, In e eyes ->
    pin_goal ws (the_window e) - strobe_goal ws =
      Z.quot (hi e + start - (- lo e - start) - min_mid ws) 2 + half_mid (min_mid ws) - start).
  { intros e He. destruct (Hw e He) as [Ew (? & ? & ?)]. specialize (Hle e He). specialize (Hspread e e0 He He0).
    rewrite Ew in Hle |- *. cbn [left_edge right_edge] in Hle.
    unfold pin_goal, pin_delay, clamp, shift_of, mid_of, strobe_goal. cbn [left_edge right_edge]. change IO_IO_IN_DELAY_MAX with 31.
    pose proof (shift_fits start (hi e + start) (- lo e - start) (hi e0 + start) (- lo e0 - start)) as Hfit. cbv zeta in Hfit.
    rewrite Emin in Hle |- *. lia. }
  assert (Hc : forall e, In e eyes -> let x := pin_goal ws (the_window e) - strobe_goal ws in -1 <= (hi e - x) - (x - lo e) <= 1).
  { intros e He. cbv zeta. rewrite Hgoal by done. destruct (Hw e He) as [Ew _]. specialize (Hle e He). rewrite Ew in Hle. cbn [left_edge right_edge] in Hle.
    pose proof (mid_centred (hi e + start) (- lo e - start) (min_mid ws) Hle). cbv zeta in *. lia. }
  split; [|apply List.Forall_forall; exact Hc].
  apply margins_of_ok. split; [done|]. apply Forall_map, List.Forall_forall. intros e He. cbv zeta. fold (pin_goal ws (the_window e)).
  destruct (Hw e He) as [Ew (? & ? & ?)]. specialize (Hc e He). cbv zeta in Hc. rewrite Ew in Hc |- *. cbn [left_edge right_edge]. lia.
Qed.

(** *** The whole routine *)

(** An eye that neither sweep meets. *)
Definition out_of_sight (e : eye) : Prop := hi e < lo e \/ 31 - start < lo e \/ hi e < -31.

Lemma visible_sight e : visible IO_IO_IN_DELAY_MAX start last_shift e = true <-> ~ out_of_sight e.
Proof.
  unfold visible, out_of_sight, eye_left, eye_right, last_shift. change IO_IO_IN_DELAY_MAX with 31. change IO_DQS_IN_DELAY_MAX with 31. lia.
Qed.

(** What is reached: the result and the delays afterwards. *)
Definition centred (pass : bool) (s : st D seqvars) : Prop :=
  (pass = true -> Forall (fun b => b = true) (read_results grp eyes (dev s))) /\
  (Exists out_of_sight eyes -> pass = false /\ delay_val (dqs_in_reg grp) (dev s) = start) /\
  (Forall in_reach eyes -> spread_fits -> pass = true /\
     forall i e, eyes !! i = Some e ->
       let x := delay_val (io_in_reg (Z.of_nat i)) (dev s) - delay_val (dqs_in_reg grp) (dev s) in
       -1 <= (hi e - x) - (x - lo e) <= 1).

Lemma in_reach_sight e : in_reach e -> ~ out_of_sight e.
Proof. unfold in_reach, out_of_sight. lia. Qed.

Lemma centred_failed s : Exists out_of_sight eyes -> set_to start (fun _ => 0) s -> centred false s.
Proof.
  intros Hex [Hb _]. unfold centred. split_and!; [done|done|]. intros Hreach. exfalso.
  rewrite List.Forall_forall in Hreach. apply List.Exists_exists in Hex as (e & He & Ho). by apply (in_reach_sight e (Hreach e He)).
Qed.

Lemma centred_placed s : Forall (fun e => visible IO_IO_IN_DELAY_MAX start last_shift e = true) eyes ->
  let ws := map the_window eyes in
  set_to (strobe_goal ws) (fun q => match ws !! Z.to_nat q with Some w => pin_goal ws w | None => 0 end) s ->
  centred ((fst (margins ws) >=? 0) && (snd (margins ws) >=? 0)) s.
Proof.
  intros Hv. cbv zeta. set (ws := map the_window eyes). intros [Hb Hf].
  assert (Hx : forall i e, eyes !! i = Some e -> delay_val (io_in_reg (Z.of_nat i)) (dev s) - delay_val (dqs_in_reg grp) (dev s) =
    pin_goal ws (the_window e) - strobe_goal ws).
  { intros i e Hi. rewrite Hb, Hf, Nat2Z.id.
    - unfold ws at 1. change (map the_window eyes) with (the_window <$> eyes). by rewrite list_lookup_fmap, Hi.
    - apply lookup_lt_Some in Hi. rewrite (eight_eyes (eyes := eyes) (grp := grp) (on := on)) in Hi. lia. }
  unfold centred. split_and!.
  - intros Hpass. pose proof (margins_inside ltac:(fold ws; lia)) as Hin. cbv zeta in Hin. fold ws in Hin.
    rewrite Forall_lookup in Hin. unfold read_results. apply Forall_lookup. intros i x Hi.
    rewrite list_lookup_imap in Hi. destruct (eyes !! i) as [e|] eqn:E; [|done]. cbn in Hi. injection Hi as <-.
    rewrite (Hx i e E). by apply (Hin i).
  - intros Hex. exfalso. rewrite List.Forall_forall in Hv. apply List.Exists_exists in Hex as (e & He & Ho).
    by apply (proj1 (visible_sight e) (Hv e He)).
  - intros Hreach Hspread. destruct (reach_centred Hreach Hspread) as [Hm Hc]. fold ws in Hm, Hc. split; [lia|].
    intros i e Hi. rewrite (Hx i e Hi). rewrite Forall_lookup in Hc. by apply (Hc i).
Qed.

Lemma missing_sight ws : rows_ok both_done ws ->
  Exists (fun w => (left_edge w =? in_top) || (right_edge w =? in_top) = true) ws -> Exists out_of_sight eyes.
Proof.
  intros (rows & Hpins & -> & Hrows) Hex. apply List.Exists_exists in Hex as (w & (r & <- & Hr)%in_map_iff & Hw).
  rewrite List.Forall_forall in Hrows. destruct (Hrows r Hr) as [Hm _]. apply List.Exists_exists. exists (pin r).
  split; [rewrite <- Hpins; by apply in_map|]. unfold missing in Hm. fold in_top in Hm. rewrite Hw in Hm.
  assert (~ ~ out_of_sight (pin r)) as Hn by (rewrite <- visible_sight; by destruct (visible _ _ _ _)).
  unfold out_of_sight in *. lia.
Qed.

Lemma wp_center_failed b i s : Exists out_of_sight eyes -> held b (fun _ => 0) s ->
  wp (vfifo_center_failed grp start i true : M bool) s (fun o s' _ => exists pass, o = Val pass /\ centred pass s').
Proof.
  intros Hex Hs. unfold vfifo_center_failed, scc_mgr_set_dqs_bus_in_delay, scc_mgr_load_dqs. rewrite u32_word by (unfold word; lia).
  apply wp_bind. eapply wp_triple; [apply triple_set_dqs|exact Hs|]. intros u1 s1 t1 Hs1. cbv beta iota in Hs1 |- *.
  rewrite u32_word in Hs1 by (unfold word; lia).
  apply wp_bind. eapply wp_triple; [eapply triple_beside; beside_solve|exact Hs1|]. intros u2 s2 t2 Hs2%held_set_to. cbv beta iota.
  apply wp_bind. eapply wp_upd_set_to; [exact Hs2|]. intros s3 t3 Hs3. cbv beta iota.
  unfold set_failing_group_stage. apply wp_bind, wp_bind, wp_get.
  apply wp_when; intros _; [apply wp_modify|]; apply wp_ret; eexists; (split; [done|]); by apply centred_failed.
Qed.

Lemma wp_center fom f s : held start f s ->
  wp (rw_mgr_mem_calibrate_vfifo_center 0 grp grp 0 true fom : M bool) s (fun o s' _ => exists pass, o = Val pass /\ centred pass s').
Proof.
  intros Hs. unfold rw_mgr_mem_calibrate_vfifo_center.
  apply wp_bind. eapply wp_triple; [apply triple_read_dqs|exact Hs|]. intros v s1 t1 [-> Hs1]. cbv beta iota.
  rewrite u32_word by (unfold word; lia). rewrite s32_small by lia. cbv zeta.
  apply wp_bind. eapply wp_triple; [apply triple_left|exact Hs1|]. intros ws s2 t2 [Hws Hs2]. cbv beta iota.
  apply wp_bind. eapply wp_triple; [by apply triple_right|exact Hs2|]. intros ws' s3 t3 [Hws' [b Hs3]]. cbv beta iota.
  destruct (first_missing in_top 0 ws') as [i|] eqn:E.
  - apply first_missing_some in E. apply wp_center_failed with (b := b); [|done].
    by apply missing_sight in E.
  - apply first_missing_none in E. apply (rows_missing ws' Hws') in E as Hv. rewrite (rows_windows ws' Hws' Hv).
    eapply wp_mono; [apply (wp_place fom _ b); [|exact Hs3]|].
    + rewrite length_map. apply (eight_eyes (eyes := eyes) (grp := grp) (on := on)).
    + cbv beta. intros o s4 t4 [-> Hs4]. eexists. split; [done|]. by apply centred_placed.
Qed.
End group.

(** C8: Centring the reads of a group works.  The memory's pins have eyes: pin and
    strobe agree when the pin's delay less that of the strobe is in an interval,
    any interval for each pin.  From any delays, and with any result of the search
    before, the routine returns, and: a success means that every pin reads
    correctly with the delays it leaves; an eye out of sight of both sweeps is a
    failure, with the strobe back where it was; and if the ends of all eyes are
    within reach of the sweeps and their middles no further apart than a pin can
    be moved, the routine succeeds and each pin's margins to the two ends of its
    eye are equal up to one tap. *)
Theorem vfifo_center_centres {D} `{HD : Device D} {HR : DelayRegs D} grp eyes on `{HE : !ReadEyes D grp eyes on}
    (update_fom : bool) (s : st D seqvars) :
  0 <= grp < 4 -> read_ready (glob s) -> on (dev s) ->
  let start := delay_val (dqs_in_reg grp) (dev s) in
  0 <= start <= 31 ->
  let r := rw_mgr_mem_calibrate_vfifo_center 0 grp grp 0 true update_fom s in
  exists pass, out r = Val pass /\ centred grp eyes start pass (fin r).
Proof.
  intros Hg Hready Hon. cbv zeta. intros Hs. wp_enter.
  assert (Hg4 : grp = 0 \/ grp = 1 \/ grp = 2 \/ grp = 3) by lia. assert (Hs32 : 0 <= delay_val (dqs_in_reg grp) (dev s) < 32) by lia.
  apply (wp_center grp eyes on Hg4 (glob s) Hready _ Hs32 update_fom (fun p => delay_val (io_in_reg p) (dev s))).
  by split_and!.
Qed.

(** ** A witness: the simulated memory *)

(** The eyes of its pins, the strobe's offset of 4 in them. *)
Definition phy_eyes : list eye := map (fun i => mk_eye (- (10 + i mod 3)) (5 - i mod 2)) (seqZ 0 8).

(** The strobe of group 0 is enabled in time. *)
Definition phy_on (d : phy) : Prop :=
  let t := default 0 (fifo d !! 0) * 2496 + val d (apb SCC_MGR_DQS_EN_PHASE (0 .<< 2)) * 312
           + val d (apb SCC_MGR_DQS_EN_DELAY (0 .<< 2)) * 25 in
  between 13000 (t mod (16 * 2496)) 14900 && (12 <=? val d (apb PHY_MGR_PHY_RLAT 0)) = true.

Lemma phy_delay_val a d : In a delay_regs -> delay_val a d = val d a.
Proof. intros Ha. unfold delay_val. by destruct (in_dec _ _ _). Qed.

Lemma phy_bit_ok (d : phy) i : program d = __RW_MGR_READ_B2B -> group d = 0 -> phy_on d -> 0 <= i < 8 ->
  bit_ok d i = passes (mk_eye (- (10 + i mod 3)) (5 - i mod 2)) (val d (io_in_reg i) - val d (dqs_in_reg 0)).
Proof.
  intros Hp Hgr Hon Hi. unfold bit_ok. rewrite Hp. change (__RW_MGR_READ_B2B =? __RW_MGR_GUARANTEED_READ) with false.
  rewrite Z.eqb_refl. cbn [orb]. rewrite andb_true_r.
  assert (enabled d = true) as -> by (unfold enabled; rewrite Hgr; exact Hon).
  unfold read_eye, passes, between. rewrite Hgr. cbn [lo hi andb]. f_equal; apply eq_iff_eq_true; rewrite !Z.leb_le; lia.
Qed.

Lemma phy_status (d : phy) l : program d = __RW_MGR_READ_B2B -> group d = 0 -> phy_on d -> Forall (fun i => 0 <= i < 8) l ->
  fold_right (fun i acc => acc * 2 + b2z (negb (bit_ok d i))) 0 l =
  bits (map (fun i => negb (passes (mk_eye (- (10 + i mod 3)) (5 - i mod 2)) (val d (io_in_reg i) - val d (dqs_in_reg 0)))) l).
Proof.
  intros Hp Hgr Hon. induction 1 as [|i l Hi Hl IH]; [done|]. cbn [fold_right map]. rewrite bits_cons, IH, phy_bit_ok by done. lia.
Qed.

#[export] Instance phy_reads : ReadEyes phy 0 phy_eyes phy_on.
Proof.
  split.
  - done.
  - intros a d Hd. cbn. by destruct (a =? rw_run).
  - intros a v d Ha Hd. unfold phy_on, val in *. cbn [dev_write phy_device].
    assert (Hne : forall b, In b (enable_regs 0) -> a <> b) by (intros b Hb ->; done).
    repeat case_match; cbn [regs fifo]; try done.
    + exfalso. apply (Hne inc_fifo); [by left|lia].
    + rewrite !lookup_insert_ne; [done|apply Hne; vm_compute; tauto..].
  - intros d Hd.
    change (dev_write (apb RW_MGR_RUN_SINGLE_GROUP (0 .<< 2)) __RW_MGR_READ_B2B d)
      with (mk_phy (regs d) (fifo d) __RW_MGR_READ_B2B 0). cbn [dev_read phy_device].
    change (apb BASE_RW_MGR 0 =? rw_run) with true. cbv iota. cbn [fst]. unfold wrong_bits.
    rewrite phy_status; [|done|done|exact Hd|apply Forall_forall; intros i Hi; apply elem_of_seqZ in Hi; lia].
    reflexivity.
Qed.

(** Strobe enabled after 5 increments and 2 phases, strobe delay 4. *)
Definition phy1 : phy :=
  mk_phy (<[apb SCC_MGR_DQS_EN_PHASE 0 := 2]> (<[apb PHY_MGR_PHY_RLAT 0 := 16]> (<[dqs_in_reg 0 := 4]> ∅))) (<[0 := 5]> ∅) 0 0.
Definition vars1 : seqvars := junk <| skip_ranks := [0] |> <| read_correct_mask := 0xff |> <| read_correct_mask_vg := 0xff |>.

Lemma vfifo_center_centres_witness :
  let r := rw_mgr_mem_calibrate_vfifo_center 0 0 0 0 true false (mk_st phy1 vars1) in
  out r = Val true /\ centred 0 phy_eyes 4 true (fin r).
Proof.
  destruct (vfifo_center_centres 0 phy_eyes phy_on false (mk_st phy1 vars1)) as (pass & Ho & Hc);
    [done|by split_and!|vm_compute; reflexivity|vm_compute; split; discriminate|].
  assert (pass = true) as ->; [|by split].
  apply Hc.
  - unfold phy_eyes. apply Forall_map. vm_compute seqZ. repeat (apply Forall_cons; split; [vm_compute; repeat split; discriminate|]). by apply Forall_nil.
  - intros e e' He He'. unfold phy_eyes in He, He'. apply in_map_iff in He as (i & <- & _), He' as (j & <- & _). cbn [lo hi]. 
    pose proof (Z.mod_pos_bound i 3). pose proof (Z.mod_pos_bound j 3). pose proof (Z.mod_pos_bound i 2). pose proof (Z.mod_pos_bound j 2). lia.
Defined.
