(* ===== verification/Pl330.v ===== *)
(** The driver of the PL330 DMA engine (drivers/dma/pl330.c) and the
    initialisation of the ECC bits of the memory that uses it
    (sdram_ecc_init of sdram.c).

    The driver assembles a program for the engine into a buffer.  Every routine
    stores its bytes at [buf + off] and adds their number to [off], so here it
    returns the bytes and the caller appends them: the code assembled so far is
    [&buf[0..off-1]], and a list longer than [buf_size] has been stored past the
    end of the buffer.  What the program does is the subject of DmaEngine.v. *)

From S2P Require Import Prelude Mmio Regs Globals Timer SdramMmr.

(** ** The instructions *)

(** The enumerations of pl330.c and pl330.h; a member stands for its number
    where it is stored. *)
Inductive dmamov_dst := SAR | CCR | DAR.
Definition dst_code (d : dmamov_dst) : Z := match d with SAR => 0 | CCR => 1 | DAR => 2 end.

Inductive pl330_cond := SINGLE | BURST | ALWAYS.

Definition MEM2MEM : Z := 0.
Definition MEM2PERIPH : Z := 1.
Definition PERIPH2MEM : Z := 2.

Record _arg_LPEND := mk_arg_LPEND { lp_cond : pl330_cond; lp_forever : Z; lp_loop : Z; lp_bjump : Z }.
Record _arg_GO := mk_arg_GO { go_chan : Z; go_addr : Z; go_ns : Z }.

(** The four bytes of a word, the least significant first. *)
Definition mov_bytes (val : Z) : list Z :=
  [val .& 0xFF; (val .>> 8) .& 0xFF; (val .>> 16) .& 0xFF; (val .>> 24) .& 0xFF].

(** [peri &= 0x1f; peri <<= 3] on a byte. *)
Definition peri_byte (peri : Z) : Z := u8 ((u8 peri .& 0x1f) .<< 3).

(** The bits that LD, ST and LPEND take from the condition. *)
Definition cond_bits (cond : pl330_cond) : Z :=
  match cond with
  | SINGLE => (0 .<< 1) .| (1 .<< 0)
  | BURST => (1 .<< 1) .| (1 .<< 0)
  | ALWAYS => 0
  end.

Definition _emit_END : list Z := [CMD_DMAEND].
Definition _emit_FLUSHP (peri : Z) : list Z := [CMD_DMAFLUSHP; peri_byte peri].
Definition _emit_LD (cond : pl330_cond) : list Z := [CMD_DMALD .| cond_bits cond].

(** The count is a byte: 256 arrives as 0 and is stored as 255. *)
Definition _emit_LP (loop cnt : Z) : list Z :=
  [CMD_DMALP .| (if truthy loop then 1 .<< 1 else 0); u8 (u8 cnt - 1)].

Definition _emit_LPEND (arg : _arg_LPEND) : list Z :=
  let op := CMD_DMALPEND in
  let op := if truthy (lp_loop arg) then op .| (1 .<< 2) else op in
  let op := if truthy (lp_forever arg) then op else op .| (1 .<< 4) in
  [op .| cond_bits (lp_cond arg); u8 (lp_bjump arg)].

Definition _emit_KILL : list Z := [CMD_DMAKILL].
Definition _emit_MOV (dst : dmamov_dst) (val : Z) : list Z := CMD_DMAMOV :: dst_code dst :: mov_bytes val.
Definition _emit_NOP : list Z := [CMD_DMANOP].
Definition _emit_RMB : list Z := [CMD_DMARMB].
Definition _emit_SEV (ev : Z) : list Z := [CMD_DMASEV; peri_byte ev].
Definition _emit_ST (cond : pl330_cond) : list Z := [CMD_DMAST .| cond_bits cond].

Definition _emit_STP (cond : pl330_cond) (peri : Z) : list Z :=
  [CMD_DMASTP .| (match cond with BURST => 1 .<< 1 | _ => 0 end); peri_byte peri].

Definition _emit_STZ : list Z := [CMD_DMASTZ].

Definition _emit_WFP (cond : pl330_cond) (peri : Z) : list Z :=
  [CMD_DMAWFP .| (match cond with SINGLE => 0 | BURST => 1 .<< 1 | ALWAYS => 1 .<< 0 end); peri_byte peri].

Definition _emit_WMB : list Z := [CMD_DMAWMB].

Definition _emit_GO (arg : _arg_GO) : list Z :=
  u8 (CMD_DMAGO .| (go_ns arg .<< 1)) :: (u8 (go_chan arg) .& 0x7) :: mov_bytes (go_addr arg).

(** ** The channel control register *)

(** The fields of struct pl330_reqcfg that are bit fields are reduced to their
    width when they are stored. *)
Record pl330_reqcfg := mk_reqcfg {
  dst_inc : Z; src_inc : Z;                      (* 1 bit *)
  nonsecure : Z; privileged : Z; insnaccess : Z;
  rq_brst_len : Z;                               (* 5 bits *)
  rq_brst_size : Z;                              (* 3 bits *)
  dcctl : Z; scctl : Z; swap : Z }.

Definition set_rq_brst (len size : Z) (r : pl330_reqcfg) : pl330_reqcfg :=
  mk_reqcfg (dst_inc r) (src_inc r) (nonsecure r) (privileged r) (insnaccess r)
    (len .& 0x1f) (size .& 0x7) (dcctl r) (scctl r) (swap r).

Definition or_if (c : Z) (bits ccr : Z) : Z := if truthy c then ccr .| bits else ccr.

Definition _prepare_ccr (rqc : pl330_reqcfg) : Z :=
  let ccr := 0 in
  let ccr := or_if (src_inc rqc) CC_SRCINC ccr in
  let ccr := or_if (dst_inc rqc) CC_DSTINC ccr in
  let ccr := or_if (privileged rqc) (CC_SRCPRI .| CC_DSTPRI) ccr in
  let ccr := or_if (nonsecure rqc) (CC_SRCNS .| CC_DSTNS) ccr in
  let ccr := or_if (insnaccess rqc) (CC_SRCIA .| CC_DSTIA) ccr in
  let ccr := ccr .| (((rq_brst_len rqc - 1) .& 0xf) .<< CC_SRCBRSTLEN_SHFT) in
  let ccr := ccr .| (((rq_brst_len rqc - 1) .& 0xf) .<< CC_DSTBRSTLEN_SHFT) in
  let ccr := ccr .| (rq_brst_size rqc .<< CC_SRCBRSTSIZE_SHFT) in
  let ccr := ccr .| (rq_brst_size rqc .<< CC_DSTBRSTSIZE_SHFT) in
  let ccr := ccr .| (scctl rqc .<< CC_SRCCCTRL_SHFT) in
  let ccr := ccr .| (dcctl rqc .<< CC_DSTCCTRL_SHFT) in
  u32 (ccr .| (swap rqc .<< CC_SWAP_SHFT)).

(** ** The transfer description *)

(** struct pl330_transfer_struct; [buf] is the address of the buffer. *)
Record pl330_transfer_struct := mk_transfer {
  channel_num : Z; src_addr : Z; dst_addr : Z; size_byte : Z;
  brst_size : Z; single_brst_size : Z; brst_len : Z;
  peripheral_id : Z; transfer_type : Z; enable_cache1 : Z;
  buf_size : Z; buf : Z }.

Definition set_brst (size single len : Z) (p : pl330_transfer_struct) : pl330_transfer_struct :=
  mk_transfer (channel_num p) (src_addr p) (dst_addr p) (size_byte p) size single len
    (peripheral_id p) (transfer_type p) (enable_cache1 p) (buf_size p) (buf p).

Definition off (code : list Z) : Z := Z.of_nat (length code).

(** [PL330_DMA_BASE == PL330_DMA_BASE_NON_SECURE] *)
Definition base_nonsecure : Z := b2z (PL330_DMA_BASE =? PL330_DMA_BASE_NON_SECURE).

(** ** The loops of a transfer

    Both routines that assemble a transfer have the same two phases around
    different instructions for one burst, [inner]. *)

(** DMALP .. DMALPEND on counter [loop] around [inner]. *)
Definition emit_loop (loop cnt : Z) (inner code : list Z) : list Z :=
  let code := code ++ _emit_LP loop cnt in
  let loopjmp := off code in
  let code := code ++ inner in
  code ++ _emit_LPEND (mk_arg_LPEND ALWAYS 0 loop (off code - loopjmp)).

(** [lcnt0] and [lcnt1] for the bytes left and the bytes of a burst. *)
Definition loop_counts (data_size_byte burst : Z) : Z * Z :=
  let lcnt0 := data_size_byte / burst in
  if 256 * 256 <=? lcnt0 then (256, 256)
  else if 256 <=? lcnt0 then (256, lcnt0 / 256)
  else (lcnt0, 0).

(** One turn of the BURST loop on the code and the bytes left; it leaves with
    the code of the error return or with what the next phase needs. *)
Definition emit_bursts (lcnt0 lcnt1 : Z) (inner code : list Z) : list Z :=
  if truthy lcnt1 then
    let code := code ++ _emit_LP 1 lcnt1 in
    let loopjmp1 := off code in
    let code := emit_loop 0 lcnt0 inner code in
    code ++ _emit_LPEND (mk_arg_LPEND ALWAYS 0 1 (off code - loopjmp1))
  else emit_loop 0 lcnt0 inner code.

Section driver.
Context {D G : Type} `{Device D}.
Abbreviation M := (M D G).

(** [off > pl330->buf_size] *)
Definition exceeds (size : Z) (code : list Z) : bool := size <? off code.

Definition burst_turn (burst bufsz : Z) (inner : list Z) (x : list Z * Z) : M (list Z * Z + (bool * list Z * Z)) :=
  let '(code, data_size_byte) := x in
  if burst <=? data_size_byte then
    let '(lcnt0, lcnt1) := loop_counts data_size_byte burst in
    let data_size_byte := u32 (data_size_byte - u32 (burst * lcnt0 * lcnt1)) in
    let code := emit_bursts lcnt0 lcnt1 inner code in
    if exceeds bufsz code
    then msg "ERROR PL330 : Exceed buffer size" ;;; ret (inr (true, code, data_size_byte))
    else ret (inl (code, data_size_byte))
  else ret (inr (false, code, data_size_byte)).

(** The SINGLE phase and DMAEND: the return value and the final code. *)
Definition single_phase (single bufsz : Z) (rq : pl330_reqcfg) (inner code : list Z) (data_size_byte : Z)
  : M (Z * list Z) :=
  let burst_size := 1 .<< single in
  let lcnt0 := data_size_byte / burst_size in
  let data_size_byte := u32 (data_size_byte - u32 (burst_size * lcnt0)) in
  when (truthy data_size_byte)
    (msg "ERROR PL330 : Detected the possibility of untransfereddata. Please ensure correct single burst size") ;;;
  if truthy lcnt0 then
    let code := code ++ _emit_MOV CCR (_prepare_ccr (set_rq_brst 1 single rq)) in
    let code := emit_loop 0 lcnt0 inner code in
    if exceeds bufsz code
    then msg "ERROR PL330 : Exceed buffer size" ;;; ret (1, code)
    else ret (0, code ++ _emit_END)
  else ret (0, code ++ _emit_END).

(** A turn of the BURST loop adds five bytes or more, so that the buffer is
    exceeded long before this many turns. *)
Definition transfer_fuel (bufsz : Z) : nat := S (Z.to_nat bufsz).

(** Both phases, for the bytes per burst, the description and the instructions
    of one burst and of one single transfer. *)
Definition emit_phases (burst : Z) (p : pl330_transfer_struct) (rq : pl330_reqcfg) (inner single_inner code : list Z)
  : M (Z * list Z) :=
  let* r := while_fuel (transfer_fuel (buf_size p)) (burst_turn burst (buf_size p) inner) (code, size_byte p) in
  let '(failed, code, data_size_byte) := r in
  if failed : bool then ret (1, code)
  else single_phase (single_brst_size p) (buf_size p) rq single_inner code data_size_byte.

(** DMALD to DMAWMB of one burst. *)
Definition burst_insns (p : pl330_transfer_struct) (cond : pl330_cond) : list Z :=
  (if transfer_type p =? MEM2MEM then [] else _emit_WFP cond (peripheral_id p)) ++
  _emit_LD ALWAYS ++ _emit_RMB ++
  (if transfer_type p =? MEM2MEM then _emit_ST ALWAYS else _emit_STP cond (peripheral_id p)) ++
  _emit_WMB.

Definition setup_reqcfg (p : pl330_transfer_struct) : pl330_reqcfg :=
  let '(dst, src) :=
    if transfer_type p =? MEM2PERIPH then (0, 1)
    else if transfer_type p =? PERIPH2MEM then (1, 0) else (1, 1) in
  let '(dc, sc) :=
    if enable_cache1 p =? 0 then (0x1, 0x1)
    else if transfer_type p =? MEM2PERIPH then (0x1, 0x7)
    else if transfer_type p =? PERIPH2MEM then (0x7, 0x1) else (0x7, 0x7) in
  set_rq_brst (brst_len p) (brst_size p) (mk_reqcfg dst src base_nonsecure 1 0 0 0 dc sc 0).

(** The result is the return value and the bytes stored from [buf] on.  The
    fields brst_size and brst_len of the description are overwritten with those
    of the single phase; no caller looks at them again. *)
Definition pl330_transfer_setup (p : pl330_transfer_struct) : M (Z * list Z) :=
  if PL330_DMA_MAX_BURST_SIZE <? brst_size p then
    msg "ERROR PL330: brst_size must 0-3" ;;; ret (1, [])
  else if PL330_DMA_MAX_BURST_SIZE <? single_brst_size p then
    msg "ERROR PL330 : single_brst_size must 0-3" ;;; ret (1, [])
  else if (brst_len p <? 1) || (16 <? brst_len p) then
    msg "ERROR PL330 : brst_len must 1-16" ;;; ret (1, [])
  else
  let burst_size := 1 .<< brst_size p in
  if truthy (src_addr p .& (burst_size - 1)) then
    msg "ERROR PL330 : source address unaligned" ;;; ret (1, [])
  else if truthy (dst_addr p .& (burst_size - 1)) then
    msg "ERROR PL330 : destination address unaligned" ;;; ret (1, [])
  else
  let code := _emit_MOV SAR (src_addr p) ++ _emit_MOV DAR (dst_addr p) in
  let code := code ++ (if transfer_type p =? MEM2MEM then [] else _emit_FLUSHP (peripheral_id p)) in
  let rq := setup_reqcfg p in
  let code := code ++ _emit_MOV CCR (_prepare_ccr rq) in
  emit_phases (u32 (burst_size * brst_len p)) p rq (burst_insns p BURST) (burst_insns p SINGLE) code.

Definition zeroes_reqcfg (p : pl330_transfer_struct) : pl330_reqcfg :=
  set_rq_brst (brst_len p) (brst_size p) (mk_reqcfg 1 0 base_nonsecure 1 0 0 0 0x1 0x1 0).

Definition pl330_transfer_zeroes (p : pl330_transfer_struct) : M (Z * list Z) :=
  let p := set_brst PL330_DMA_MAX_BURST_SIZE 1 16 p in
  let burst_size := 1 .<< brst_size p in
  let code := _emit_MOV DAR (dst_addr p) in
  let rq := zeroes_reqcfg p in
  let code := code ++ _emit_MOV CCR (_prepare_ccr rq) in
  emit_phases (u32 (burst_size * brst_len p)) p rq _emit_STZ _emit_STZ code.

(** ** Running the engine *)

(** [loops] is positive in every call. *)
Definition pl330_until_dmac_idle (loops : Z) : M Z :=
  let* r := for_upto loops (fun _ =>
    let* v := readl (PL330_DMA_BASE + DBGSTATUS) in
    ret (if truthy (v .& DBG_BUSY) then None else Some tt)) in
  ret (match r with Some _ => 0 | None => 1 end).

Definition insn_byte (insn : list Z) (i : nat) : Z := nth i insn 0.

Definition pl330_execute_DBGINSN (insn : list Z) (as_manager channel timeout_loops : Z) : M unit :=
  let val := (insn_byte insn 0 .<< 16) .| (insn_byte insn 1 .<< 24) in
  let val := if truthy as_manager then val else val .| (1 .<< 0) in
  let val := val .| (channel .<< 8) in
  writel val (PL330_DMA_BASE + DBGINST0) ;;;
  let val := insn_byte insn 2 in
  let val := val .| (insn_byte insn 3 .<< 8) in
  let val := val .| (insn_byte insn 4 .<< 16) in
  let val := val .| (insn_byte insn 5 .<< 24) in
  writel val (PL330_DMA_BASE + DBGINST1) ;;;
  let* t := pl330_until_dmac_idle timeout_loops in
  if truthy t then msg "DMAC halted!" else writel 0 (PL330_DMA_BASE + DBGCMD).

(** The [switch] on the status; some values only a channel can have. *)
Definition state_of (channel0_manager1 val : Z) : Z :=
  let channel_only s := if truthy channel0_manager1 then PL330_STATE_INVALID else s in
  if val =? DS_ST_STOP then PL330_STATE_STOPPED
  else if val =? DS_ST_EXEC then PL330_STATE_EXECUTING
  else if val =? DS_ST_CMISS then PL330_STATE_CACHEMISS
  else if val =? DS_ST_UPDTPC then PL330_STATE_UPDTPC
  else if val =? DS_ST_WFE then PL330_STATE_WFE
  else if val =? DS_ST_FAULT then PL330_STATE_FAULTING
  else if val =? DS_ST_ATBRR then channel_only PL330_STATE_ATBARRIER
  else if val =? DS_ST_QBUSY then channel_only PL330_STATE_QUEUEBUSY
  else if val =? DS_ST_WFP then channel_only PL330_STATE_WFP
  else if val =? DS_ST_KILL then channel_only PL330_STATE_KILLING
  else if val =? DS_ST_CMPLT then channel_only PL330_STATE_COMPLETING
  else if val =? DS_ST_FLTCMP then channel_only PL330_STATE_FAULT_COMPLETING
  else PL330_STATE_INVALID.

Definition pl330_getstate (channel0_manager1 channel : Z) : M Z :=
  let* val := readl (PL330_DMA_BASE + (if truthy channel0_manager1 then DS else CS channel)) in
  ret (state_of channel0_manager1 (val .& 0xf)).

(** UNTIL(u, t, s): without a bound. *)
Definition until_state (fuel : nat) (u t s : Z) : M unit :=
  while_fuel fuel (fun _ =>
    let* v := pl330_getstate u t in
    ret (if truthy (v .& s) then inr tt else inl tt)) tt.

Definition pl330_trigger (channel buffer_address timeout_loops : Z) : M Z :=
  let* v := pl330_getstate 0 channel in
  if negb (v =? PL330_STATE_STOPPED) then ret 1 else
  let insn := _emit_GO (mk_arg_GO channel (u32 buffer_address) base_nonsecure) in
  pl330_execute_DBGINSN insn 1 channel timeout_loops ;;;
  ret 0.

(** [||] reads the status again for each alternative. *)
Definition pl330_stop (fuel : nat) (channel0_manager1 channel timeout_loops : Z) : M unit :=
  let getstate := pl330_getstate channel0_manager1 channel in
  let* v := getstate in
  when (v =? PL330_STATE_FAULT_COMPLETING)
    (until_state fuel channel0_manager1 channel (PL330_STATE_FAULTING .| PL330_STATE_KILLING)) ;;;
  let* v := getstate in
  if v =? PL330_STATE_COMPLETING then ret tt else
  let* v := getstate in
  if v =? PL330_STATE_KILLING then ret tt else
  let* v := getstate in
  if v =? PL330_STATE_STOPPED then ret tt else
  pl330_execute_DBGINSN (_emit_KILL ++ [0; 0; 0; 0; 0]) channel0_manager1 channel timeout_loops.

(** The cases of the [switch] fall through to the next. *)
Definition pl330_start (fuel : nat) (channel0_manager1 channel buffer_address timeout_loops : Z) : M Z :=
  let until := until_state fuel channel0_manager1 channel in
  let stopped := pl330_trigger channel buffer_address timeout_loops in
  let killing := until PL330_STATE_STOPPED ;;; stopped in
  let faulting := pl330_stop fuel channel0_manager1 channel timeout_loops ;;; killing in
  let* v := pl330_getstate channel0_manager1 channel in
  if v =? PL330_STATE_FAULT_COMPLETING then
    until (PL330_STATE_FAULTING .| PL330_STATE_KILLING) ;;;
    let* v := pl330_getstate channel0_manager1 channel in
    when (v =? PL330_STATE_KILLING) (until PL330_STATE_STOPPED) ;;;
    faulting
  else if v =? PL330_STATE_FAULTING then faulting
  else if (v =? PL330_STATE_KILLING) || (v =? PL330_STATE_COMPLETING) then killing
  else if v =? PL330_STATE_STOPPED then stopped
  else ret 1.

Definition pl330_transfer_start (fuel : nat) (p : pl330_transfer_struct) : M Z :=
  let timeout_loops := 10000 in
  pl330_start fuel 0 (channel_num p) (buf p) timeout_loops.

Definition pl330_transfer_finish (fuel : nat) (p : pl330_transfer_struct) : M Z :=
  until_state fuel 0 (channel_num p) (PL330_STATE_STOPPED .| PL330_STATE_FAULTING) ;;;
  let* v := pl330_getstate 0 (channel_num p) in
  if v =? PL330_STATE_FAULTING then
    let* _ := readl (PL330_DMA_BASE + FTC (channel_num p)) in
    let* _ := readl (PL330_DMA_BASE + CPC (channel_num p)) in
    msg "FAULT Mode: Channel Faulting" ;;;
    ret 1
  else ret 0.

End driver.

(** ** sdram_ecc_init *)

(** [u8 pl330_buf[2500]] of sdram.c *)
Definition pl330_buf_len : Z := 2500.

Section ecc.
Context {D : Type} `{Device D}.
Abbreviation M := (M D gdata).

(** The description is a local variable: the fields that are not assigned have
    the values of [junk].  [pl330_buf] is the address of the array. *)
Definition ecc_transfer (pl330_buf size : Z) (junk : pl330_transfer_struct) : pl330_transfer_struct :=
  mk_transfer 0 (src_addr junk) CONFIG_SYS_SDRAM_BASE size (brst_size junk) (single_brst_size junk) (brst_len junk)
    (peripheral_id junk) (transfer_type junk) (enable_cache1 junk) pl330_buf_len pl330_buf.

(** The result is the code that was stored in [pl330_buf]. *)
Definition sdram_ecc_init (fuel : nat) (pl330_buf : Z) (junk : pl330_transfer_struct) : M (list Z) :=
  let* size := sdram_calculate_size in
  let pl330 := ecc_transfer pl330_buf size junk in
  msg "SDRAM: Initializing SDRAM ECC" ;;;
  reset_timer ;;;
  let* start := get_timer 0 in
  let* r := pl330_transfer_zeroes pl330 in
  let '(rc, code) := r in
  when (truthy rc) (msg "ERROR - DMA setup failed" ;;; hang) ;;;
  let* rc := pl330_transfer_start fuel pl330 in
  when (truthy rc) (msg "ERROR - DMA start failed" ;;; hang) ;;;
  let* rc := pl330_transfer_finish fuel pl330 in
  when (truthy rc) (msg "ERROR - DMA finish failed" ;;; hang) ;;;
  let* _ := get_timer start in
  msg "SDRAM: ECC initialized successfully" ;;;
  ret code.

End ecc.
