(* ===== verification/DmaEngine.v ===== *)
(** What the programs of the PL330 driver do.

    The first part is the specification: the meaning of the instructions that
    the driver assembles for transfers between memories, on one channel of the
    engine.  It is not code of the repository; it follows the documentation of
    the instruction set, which the comments of drivers/dma/pl330.c repeat, and
    the register layout given there.  Peripheral requests are not part of it: a
    program with one has no run.

    The second part shows that a transfer that the driver accepts runs to its
    DMAEND and moves, or clears, exactly the bytes it was asked for, and which
    transfers the driver accepts. *)

From S2P Require Import Prelude Mmio Regs Pl330.

(** ** The engine *)

Inductive dma_insn :=
| I_MOV (r : dmamov_dst) (v : Z)
| I_LP (loop1 : bool) (cnt : Z)        (* [cnt] as stored: one less than the iterations *)
| I_LPEND (loop1 : bool) (jump : Z)
| I_LD | I_ST | I_STZ | I_BARRIER | I_NOP | I_END.

Definition of_le (b0 b1 b2 b3 : Z) : Z := b0 .| (b1 .<< 8) .| (b2 .<< 16) .| (b3 .<< 24).

Definition reg_of (r : Z) : option dmamov_dst :=
  if r =? 0 then Some SAR else if r =? 1 then Some CCR else if r =? 2 then Some DAR else None.

(** The instruction at the head of the code and its length. *)
Definition decode (code : list Z) : option (dma_insn * Z) :=
  match code with
  | [] => None
  | op :: args =>
    if op =? CMD_DMAMOV then
      match args with
      | r :: b0 :: b1 :: b2 :: b3 :: _ =>
        match reg_of r with Some r => Some (I_MOV r (of_le b0 b1 b2 b3), SZ_DMAMOV) | None => None end
      | _ => None
      end
    else if (op =? CMD_DMALP) || (op =? CMD_DMALP .| 2) then
      match args with n :: _ => Some (I_LP (op =? CMD_DMALP .| 2) n, SZ_DMALP) | [] => None end
    else if (op =? CMD_DMALPEND .| 16) || (op =? CMD_DMALPEND .| 16 .| 4) then
      match args with j :: _ => Some (I_LPEND (op =? CMD_DMALPEND .| 16 .| 4) j, SZ_DMALPEND) | [] => None end
    else if op =? CMD_DMALD then Some (I_LD, SZ_DMALD)
    else if op =? CMD_DMAST then Some (I_ST, SZ_DMAST)
    else if op =? CMD_DMASTZ then Some (I_STZ, SZ_DMASTZ)
    else if (op =? CMD_DMARMB) || (op =? CMD_DMAWMB) then Some (I_BARRIER, SZ_DMARMB)
    else if op =? CMD_DMANOP then Some (I_NOP, SZ_DMANOP)
    else if op =? CMD_DMAEND then Some (I_END, SZ_DMAEND)
    else None
  end.

(** The registers of a channel, the bytes read and not yet written, and the
    memory as the engine sees it. *)
Record dma_data := mk_data { d_sar : Z; d_dar : Z; d_ccr : Z; d_fifo : list Z; d_mem : Z -> Z }.

(** A thread: the offset of its instruction in the code, the two loop
    counters, its data. *)
Record dma_thread := mk_thread { d_pc : Z; d_lc : Z * Z; d_data : dma_data }.

Definition get_lc (loop1 : bool) (c : Z * Z) : Z := if loop1 then snd c else fst c.
Definition set_lc (loop1 : bool) (v : Z) (c : Z * Z) : Z * Z := if loop1 then (fst c, v) else (v, snd c).

(** The fields of the channel control register. *)
Definition src_size (c : Z) : Z := 2 ^ ((c .>> CC_SRCBRSTSIZE_SHFT) .& 7).
Definition src_bytes (c : Z) : Z := src_size c * (((c .>> CC_SRCBRSTLEN_SHFT) .& 0xf) + 1).
Definition dst_size (c : Z) : Z := 2 ^ ((c .>> CC_DSTBRSTSIZE_SHFT) .& 7).
Definition dst_bytes (c : Z) : Z := dst_size c * (((c .>> CC_DSTBRSTLEN_SHFT) .& 0xf) + 1).
Definition src_incs (c : Z) : bool := truthy (c .& CC_SRCINC).
Definition dst_incs (c : Z) : bool := truthy (c .& CC_DSTINC).

(** [n] bytes at [a] have the values of [f], from 0. *)
Definition fill (a n : Z) (f m : Z -> Z) (x : Z) : Z :=
  if (a <=? x) && (x <? a + n) then f (x - a) else m x.

(** A burst is aligned and does not wrap around the address space. *)
Definition burst_ok (a size n : Z) : bool := (a mod size =? 0) && (a + n <=? 2 ^ 32).

Definition exec_data (i : dma_insn) (d : dma_data) : option dma_data :=
  let 'mk_data sar dar ccr fifo mem := d in
  match i with
  | I_MOV SAR v => Some (mk_data v dar ccr fifo mem)
  | I_MOV DAR v => Some (mk_data sar v ccr fifo mem)
  | I_MOV CCR v => Some (mk_data sar dar v fifo mem)
  | I_LD =>
    let n := src_bytes ccr in
    if burst_ok sar (src_size ccr) n
    then Some (mk_data (if src_incs ccr then u32 (sar + n) else sar) dar ccr
                 (fifo ++ map (fun k => mem (sar + k)) (seqZ 0 n)) mem)
    else None
  | I_ST =>
    let n := dst_bytes ccr in
    if burst_ok dar (dst_size ccr) n && (n <=? off fifo)
    then Some (mk_data sar (if dst_incs ccr then u32 (dar + n) else dar) ccr
                 (drop (Z.to_nat n) fifo) (fill dar n (fun k => nth (Z.to_nat k) fifo 0) mem))
    else None
  | I_STZ =>
    let n := dst_bytes ccr in
    if burst_ok dar (dst_size ccr) n
    then Some (mk_data sar (if dst_incs ccr then u32 (dar + n) else dar) ccr fifo (fill dar n (fun _ => 0) mem))
    else None
  | I_BARRIER | I_NOP => Some d
  | I_LP _ _ | I_LPEND _ _ | I_END => None
  end.

(** One instruction of length [sz]; none after DMAEND. *)
Definition exec_insn (i : dma_insn) (sz : Z) (t : dma_thread) : option dma_thread :=
  let 'mk_thread pc c d := t in
  match i with
  | I_LP l n => Some (mk_thread (pc + sz) (set_lc l n c) d)
  | I_LPEND l j =>
    if get_lc l c =? 0 then Some (mk_thread (pc + sz) c d)
    else Some (mk_thread (pc - j) (set_lc l (get_lc l c - 1) c) d)
  | I_END => None
  | _ => match exec_data i d with Some d => Some (mk_thread (pc + sz) c d) | None => None end
  end.

Definition fetch (code : list Z) (t : dma_thread) : option (dma_insn * Z) := decode (drop (Z.to_nat (d_pc t)) code).

Definition dma_step (code : list Z) (t : dma_thread) : option dma_thread :=
  match fetch code t with Some (i, sz) => exec_insn i sz t | None => None end.

Definition runs (code : list Z) : dma_thread -> dma_thread -> Prop :=
  rtc (fun t t' => dma_step code t = Some t').

(** The engine is done: it stands at a DMAEND. *)
Definition at_end (code : list Z) (t : dma_thread) : Prop := exists sz, fetch code t = Some (I_END, sz).

(** The engine can neither go on nor is it done. *)
Definition stuck (code : list Z) (t : dma_thread) : Prop := dma_step code t = None /\ ~ at_end code t.

(** ** Decoding what the driver emits *)

Lemma lor_shifted a b k : 0 <= k -> 0 <= a < 2 ^ k -> a .| (b .<< k) = a + b * 2 ^ k.
Proof.
  intros Hk Ha. rewrite Z.shiftl_mul_pow2 by done. rewrite Z.add_nocarry_lor; [done|].
  apply Z.bits_inj'. intros i Hi. rewrite Z.land_spec, Z.bits_0.
  destruct (Z.lt_ge_cases i k).
  - rewrite Z.mul_pow2_bits_low by lia. apply andb_false_r.
  - rewrite <- (Z.mod_small a (2 ^ k)), Z.mod_pow2_bits_high by lia. done.
Qed.

Lemma of_le_bytes v : word v -> of_le (v .& 0xFF) ((v .>> 8) .& 0xFF) ((v .>> 16) .& 0xFF) ((v .>> 24) .& 0xFF) = v.
Proof.
  intros [H0 H1]. unfold of_le. change 0xFF with (Z.ones 8).
  rewrite !Z.land_ones, !Z.shiftr_div_pow2 by lia.
  replace (v / 2 ^ 16) with (v / 2 ^ 8 / 2 ^ 8) by (by rewrite Z.div_div).
  replace (v / 2 ^ 24) with (v / 2 ^ 8 / 2 ^ 8 / 2 ^ 8) by (by rewrite !Z.div_div).
  pose proof (Z.div_mod v (2 ^ 8) ltac:(lia)). pose proof (Z.mod_pos_bound v (2 ^ 8) ltac:(lia)).
  set (q := v / 2 ^ 8) in *.
  pose proof (Z.div_mod q (2 ^ 8) ltac:(lia)). pose proof (Z.mod_pos_bound q (2 ^ 8) ltac:(lia)).
  set (r := q / 2 ^ 8) in *.
  pose proof (Z.div_mod r (2 ^ 8) ltac:(lia)). pose proof (Z.mod_pos_bound r (2 ^ 8) ltac:(lia)).
  set (t := r / 2 ^ 8) in *. rewrite (Z.mod_small t) by lia.
  rewrite (lor_shifted (v mod _)) by lia.
  rewrite (lor_shifted (_ + _) (r mod _)) by lia. rewrite lor_shifted by lia. lia.
Qed.

Ltac closed_list := cbn [app]; vm_compute; reflexivity.

Lemma decode_MOV r v rest : word v -> decode (_emit_MOV r v ++ rest) = Some (I_MOV r v, off (_emit_MOV r v)).
Proof.
  intros Hv. unfold _emit_MOV, mov_bytes. cbn [app]. unfold decode.
  change (CMD_DMAMOV =? CMD_DMAMOV) with true. cbv iota.
  replace (reg_of (dst_code r)) with (Some r) by (by destruct r). rewrite of_le_bytes by done. done.
Qed.

Lemma decode_LP (l : bool) cnt rest :
  1 <= cnt <= 256 -> decode (_emit_LP (b2z l) cnt ++ rest) = Some (I_LP l (cnt - 1), 2).
Proof.
  intros Hc. unfold _emit_LP. replace (u8 (u8 cnt - 1)) with (cnt - 1) by (unfold u8; div_lia).
  by destruct l.
Qed.

Lemma decode_LPEND (l : bool) j rest :
  0 <= j < 256 -> decode (_emit_LPEND (mk_arg_LPEND ALWAYS 0 (b2z l) j) ++ rest) = Some (I_LPEND l j, 2).
Proof.
  intros Hc. unfold _emit_LPEND. cbn [lp_bjump lp_loop lp_forever lp_cond].
  replace (u8 j) with j by (unfold u8; div_lia). by destruct l.
Qed.

(** ** Runs *)

Lemma off_app a b : off (a ++ b) = off a + off b.
Proof. unfold off. rewrite length_app. lia. Qed.

Lemma off_nonneg a : 0 <= off a.
Proof. unfold off. lia. Qed.

Lemma off_LP loop cnt : off (_emit_LP loop cnt) = 2.
Proof. done. Qed.

Lemma off_LPEND arg : off (_emit_LPEND arg) = 2.
Proof. done. Qed.

Lemma off_MOV r v : off (_emit_MOV r v) = 6.
Proof. done. Qed.

Lemma fetch_at pre code c d : fetch (pre ++ code) (mk_thread (off pre) c d) = decode code.
Proof. unfold fetch, off. cbn. rewrite Nat2Z.id. by rewrite drop_app_length. Qed.

Lemma fetch_start code c d : fetch code (mk_thread 0 c d) = decode code.
Proof. apply (fetch_at []). Qed.

Lemma runs_insn pre bytes post i c d t :
  (forall rest, decode (bytes ++ rest) = Some (i, off bytes)) ->
  exec_insn i (off bytes) (mk_thread (off pre) c d) = Some t ->
  runs (pre ++ bytes ++ post) (mk_thread (off pre) c d) t.
Proof. intros Hd He. apply rtc_once. unfold dma_step. by rewrite fetch_at, Hd. Qed.

Lemma runs_LP pre (l : bool) cnt post c d : 1 <= cnt <= 256 ->
  runs (pre ++ _emit_LP (b2z l) cnt ++ post) (mk_thread (off pre) c d)
    (mk_thread (off (pre ++ _emit_LP (b2z l) cnt)) (set_lc l (cnt - 1) c) d).
Proof.
  intros Hc. rewrite off_app, off_LP. eapply runs_insn; [intros; by apply decode_LP|done].
Qed.

Lemma stuck_insn pre bytes post i sz c d :
  (forall rest, decode (bytes ++ rest) = Some (i, sz)) -> i <> I_END ->
  exec_insn i sz (mk_thread (off pre) c d) = None ->
  stuck (pre ++ bytes ++ post) (mk_thread (off pre) c d).
Proof.
  intros Hd Hi He. split.
  - unfold dma_step. by rewrite fetch_at, Hd.
  - intros [sz' Hf]. rewrite fetch_at, Hd in Hf. by injection Hf as -> _.
Qed.

(** *** Pieces of code that move a number of bytes

    [inv n d]: [n] bytes of the transfer are done.  A piece of code moves [k]
    bytes when it runs from its first byte to the byte behind it, wherever it
    stands, and takes the transfer from [n] to [n + k]; [K] relates the loop
    counters before and after. *)
Section pieces.
Variable N : Z.
Variable inv : Z -> dma_data -> Prop.

Definition moves (K : Z * Z -> Z * Z -> Prop) (code : list Z) (k : Z) : Prop :=
  forall pre post c n d, 0 <= n -> n + k <= N -> inv n d ->
  exists c' d', runs (pre ++ code ++ post) (mk_thread (off pre) c d) (mk_thread (off pre + off code) c' d') /\
    inv (n + k) d' /\ K c c'.

Definition other_kept (l : bool) (c c' : Z * Z) : Prop := get_lc (negb l) c = get_lc (negb l) c'.

Lemma moves_relax (K K' : Z * Z -> Z * Z -> Prop) code k :
  (forall c c', K c c' -> K' c c') -> moves K code k -> moves K' code k.
Proof. intros HK Hm pre post c n d ? ? Hi. destruct (Hm pre post c n d) as (c' & d' & ? & ? & ?); eauto 6. Qed.

Lemma moves_app (K : Z * Z -> Z * Z -> Prop) a b j k :
  (forall c c' c'', K c c' -> K c' c'' -> K c c'') -> 0 <= j -> 0 <= k ->
  moves K a j -> moves K b k -> moves K (a ++ b) (j + k).
Proof.
  intros HK Hj Hk Ha Hb pre post c n d Hn HN Hi.
  destruct (Ha pre (b ++ post) c n d) as (c1 & d1 & R1 & I1 & K1); [lia|lia|done|].
  destruct (Hb (pre ++ a) post c1 (n + j) d1) as (c2 & d2 & R2 & I2 & K2); [lia|lia|done|].
  exists c2, d2. split_and!; [|by rewrite Z.add_assoc|by eapply HK].
  rewrite <- !app_assoc in *. rewrite !off_app in *. rewrite Z.add_assoc. by etrans.
Qed.

(** A loop on counter [l] around a piece with [K], which keeps that counter:
    the loop has [K'], which allows the counter to change. *)
Record loop_rel (l : bool) (K K' : Z * Z -> Z * Z -> Prop) : Prop := {
  lr_keep c c' : K c c' -> get_lc l c = get_lc l c';
  lr_in c c' : K c c' -> K' c c';
  lr_set v c : K' c (set_lc l v c);
  lr_trans c c' c'' : K' c c' -> K' c' c'' -> K' c c'' }.

Lemma loop_rel_inner : loop_rel false eq (other_kept false).
Proof. split; unfold other_kept; cbn; try done; intros; congruence. Qed.

Lemma loop_rel_outer : loop_rel true (other_kept false) (fun _ _ => True).
Proof. split; done. Qed.

(** The body of a loop, [j + 1] more times, up to behind the DMALPEND. *)
Lemma loop_turns (K K' : Z * Z -> Z * Z -> Prop) (l : bool) inner k pre head post j c n d :
  loop_rel l K K' ->
  0 <= off inner < 256 -> 0 <= k -> moves K inner k ->
  let code := pre ++ head ++ inner ++ _emit_LPEND (mk_arg_LPEND ALWAYS 0 (b2z l) (off inner)) ++ post in
  0 <= n -> n + k * (Z.of_nat j + 1) <= N -> inv n d -> get_lc l c = Z.of_nat j ->
  exists c' d', runs code (mk_thread (off pre + off head) c d) (mk_thread (off pre + off head + off inner + 2) c' d') /\
    inv (n + k * (Z.of_nat j + 1)) d' /\ K' c c'.
Proof.
  intros [Hl Ho Hset Htr] Hoff Hk Hm code. revert c n d.
  induction j as [|j IH]; intros c n d Hn HN Hi Hc;
    (destruct (Hm (pre ++ head) (_emit_LPEND (mk_arg_LPEND ALWAYS 0 (b2z l) (off inner)) ++ post) c n d)
      as (c1 & d1 & R1 & I1 & K1); [lia|lia|done|]);
    pose proof (Hl _ _ K1) as L1; pose proof (Ho _ _ K1) as O1;
    rewrite off_app, <- !app_assoc in R1; fold code in R1.
  - exists c1, d1. split_and!; [|by replace (n + k * (Z.of_nat 0 + 1)) with (n + k) by lia|done].
    etrans; [exact R1|].
    unfold code. rewrite !app_assoc, <- (app_assoc _ _ post), <- !off_app.
    eapply runs_insn; [intros; by apply decode_LPEND|].
    cbn [exec_insn]. rewrite <- L1, Hc. done.
  - destruct (IH (set_lc l (Z.of_nat j) c1) (n + k) d1) as (c2 & d2 & R2 & I2 & K2);
      [lia|lia|done|by destruct l|].
    exists c2, d2. split_and!.
    + etrans; [exact R1|]. etrans; [|exact R2].
      unfold code. rewrite !app_assoc, <- (app_assoc _ _ post), <- !off_app.
      eapply runs_insn; [intros; by apply decode_LPEND|].
      cbn [exec_insn]. rewrite <- L1, Hc. rewrite (proj2 (Z.eqb_neq _ _)) by lia.
      rewrite !off_app. do 3 f_equal; lia.
    + by replace (n + k * (Z.of_nat (S j) + 1)) with (n + k + k * (Z.of_nat j + 1)) by lia.
    + eapply Htr; [exact O1|]. eapply Htr; [apply Hset|exact K2].
Qed.

Definition loop_code (l : bool) (cnt : Z) (inner : list Z) : list Z :=
  _emit_LP (b2z l) cnt ++ inner ++ _emit_LPEND (mk_arg_LPEND ALWAYS 0 (b2z l) (off inner)).

(** A loop of [cnt] turns; 256 is possible. *)
Lemma moves_loop (K K' : Z * Z -> Z * Z -> Prop) (l : bool) inner k cnt :
  loop_rel l K K' -> off inner < 256 -> 0 <= k -> 1 <= cnt <= 256 ->
  moves K inner k -> moves K' (loop_code l cnt inner) (k * cnt).
Proof.
  intros Hr Hoff Hk Hc Hm pre post c n d Hn HN Hi. pose proof (off_nonneg inner).
  destruct (loop_turns K K' l inner k pre (_emit_LP (b2z l) cnt) post (Z.to_nat (cnt - 1)) (set_lc l (cnt - 1) c) n d)
    as (c' & d' & R & I' & O'); try done; try lia.
  { by rewrite Z2Nat.id by lia; replace (cnt - 1 + 1) with cnt by lia. }
  { rewrite Z2Nat.id by lia. by destruct l. }
  exists c', d'. rewrite Z2Nat.id in I' by lia. replace (cnt - 1 + 1) with cnt in I' by lia.
  split_and!; [|done|eapply lr_trans; [exact Hr|apply (lr_set _ _ _ Hr)|exact O']].
  unfold loop_code. rewrite <- !app_assoc. eapply rtc_l.
  - unfold dma_step. rewrite fetch_at, decode_LP by done. cbn [exec_insn]. done.
  - rewrite !off_app, off_LP, off_LPEND.
    replace (off pre + (2 + (off inner + 2))) with (off pre + 2 + off inner + 2) by lia. exact R.
Qed.

(** The code of one turn of the BURST loop of the driver. *)
Definition bursts_code (lcnt0 lcnt1 : Z) (inner : list Z) : list Z :=
  if truthy lcnt1 then loop_code true lcnt1 (loop_code false lcnt0 inner) else loop_code false lcnt0 inner.

Lemma moves_bursts inner k lcnt0 lcnt1 :
  off inner < 250 -> 0 <= k -> 1 <= lcnt0 <= 256 -> 0 <= lcnt1 <= 256 ->
  moves eq inner k -> moves (fun _ _ => True) (bursts_code lcnt0 lcnt1 inner) (k * lcnt0 * Z.max 1 lcnt1).
Proof.
  intros Hoff Hk H0 H1 Hm.
  assert (Hin : moves (other_kept false) (loop_code false lcnt0 inner) (k * lcnt0)).
  { eapply moves_loop; [exact loop_rel_inner|lia|lia|lia|done]. }
  unfold bursts_code, truthy. destruct (Z.eqb_spec lcnt1 0) as [->|]; cbn [negb].
  - rewrite Z.mul_1_r. eapply moves_relax; [|exact Hin]. done.
  - replace (Z.max 1 lcnt1) with lcnt1 by lia.
    eapply moves_loop; [exact loop_rel_outer| |nia|lia|exact Hin].
    unfold loop_code. rewrite !off_app, off_LP, off_LPEND. lia.
Qed.

End pieces.

(** A piece in which the engine stops, wherever it stands, before it writes. *)
Definition stops (inner : list Z) (d : dma_data) : Prop := forall pre post c, exists t,
  runs (pre ++ inner ++ post) (mk_thread (off pre) c d) t /\ stuck (pre ++ inner ++ post) t /\ d_mem (d_data t) = d_mem d.

Lemma loop_stops (l : bool) cnt inner d : 1 <= cnt <= 256 -> stops inner d -> stops (loop_code l cnt inner) d.
Proof.
  intros Hc Hst pre post c. unfold loop_code. rewrite <- !app_assoc.
  destruct (Hst (pre ++ _emit_LP (b2z l) cnt) (_emit_LPEND (mk_arg_LPEND ALWAYS 0 (b2z l) (off inner)) ++ post)
    (set_lc l (cnt - 1) c)) as (t & R & Hs & Hm).
  rewrite <- app_assoc in R, Hs. exists t. split_and!; [|done|done]. etrans; [by apply runs_LP|exact R].
Qed.

Lemma bursts_stops l0 l1 inner d : 1 <= l0 <= 256 -> 0 <= l1 <= 256 -> stops inner d -> stops (bursts_code l0 l1 inner) d.
Proof.
  intros H0 H1 Hst. unfold bursts_code, truthy. destruct (Z.eqb_spec l1 0); cbn [negb]; [by apply loop_stops|].
  apply loop_stops; [lia|]. by apply loop_stops.
Qed.

Lemma emit_loop_code (l : bool) cnt inner code : emit_loop (b2z l) cnt inner code = code ++ loop_code l cnt inner.
Proof.
  unfold emit_loop, loop_code. rewrite !off_app, <- !app_assoc.
  by rewrite Z.add_simpl_l.
Qed.

Lemma emit_bursts_code lcnt0 lcnt1 inner code :
  emit_bursts lcnt0 lcnt1 inner code = code ++ bursts_code lcnt0 lcnt1 inner.
Proof.
  unfold emit_bursts, bursts_code. destruct (truthy lcnt1); [|apply (emit_loop_code false)].
  rewrite (emit_loop_code false). generalize (loop_code false lcnt0 inner). intros piece.
  rewrite (off_app (_ ++ _)), Z.add_simpl_l, <- !app_assoc. done.
Qed.

Lemma off_loop l cnt inner : off (loop_code l cnt inner) = off inner + 4.
Proof.
  unfold loop_code. rewrite !off_app, off_LP, off_LPEND. lia.
Qed.

Lemma off_bursts lcnt0 lcnt1 inner :
  off (bursts_code lcnt0 lcnt1 inner) = off inner + (if truthy lcnt1 then 8 else 4).
Proof. unfold bursts_code. destruct (truthy lcnt1); rewrite !off_loop; lia. Qed.

(** ** The BURST loop *)

(** Turns that move bytes: one for 65536 bursts each, one for the rest that is
    a multiple of 256 bursts. *)
Definition turns (burst size : Z) : Z :=
  size / (65536 * burst) + b2z (256 * burst <=? size mod (65536 * burst)).

Lemma loop_counts_spec data burst : 0 < burst -> burst <= data ->
  exists l0 l1, loop_counts data burst = (l0, l1) /\ 1 <= l0 <= 256 /\ 0 <= l1 <= 256 /\
    ((data < 256 * burst /\ l1 = 0 /\ burst * l0 <= data) \/
     (256 * burst <= data /\ l1 <> 0 /\ burst * l0 * l1 <= data /\
      turns burst (data - burst * l0 * l1) = turns burst data - 1 /\
      (data - burst * l0 * l1) mod (256 * burst) = data mod (256 * burst))).
Proof.
  intros Hb Hd. unfold loop_counts.
  assert (Hq : 1 <= data / burst) by (apply Z.div_le_lower_bound; lia).
  pose proof (Z.mul_div_le data burst Hb) as Hle.
  pose proof (Z.mul_succ_div_gt data burst Hb) as Hgt.
  destruct (Z.leb_spec (256 * 256) (data / burst)).
  - exists 256, 256.
    split_and!; try done; try lia. right. split_and!; try done; try nia.
    all: replace (data - burst * 256 * 256) with (data + (-1) * (65536 * burst)) by lia.
    + unfold turns. rewrite Z.div_add, Z.mod_add by lia. lia.
    + replace (data + -1 * (65536 * burst)) with (data + (-256) * (256 * burst)) by lia. apply Z.mod_add. lia.
  - destruct (Z.leb_spec 256 (data / burst)).
    2:{ exists (data / burst), 0. split_and!; try done; try lia. left. split_and!; try done; nia. }
    set (q := data / burst) in *. exists 256, (q / 256).
    assert (1 <= q / 256) by (apply Z.div_le_lower_bound; lia).
    assert (q / 256 <= 255) by (apply Z.lt_succ_r, Z.div_lt_upper_bound; lia).
    pose proof (Z.mul_div_le q 256 ltac:(lia)).
    assert (Hm : burst * 256 * (q / 256) <= data) by nia.
    assert (Hup : data < 65536 * burst).
    { fold q in Hgt. nia. }
    assert (Hrest : data - burst * 256 * (q / 256) = data mod (256 * burst)).
    { unfold q. rewrite Z.div_div by lia. rewrite Z.mod_eq by lia.
      replace (burst * 256) with (256 * burst) by lia. lia. }
    split_and!; try done; try lia. right. split_and!; try done; [nia|lia| |].
    + unfold turns. rewrite (Z.mod_small data), (Z.div_small data) by lia. rewrite Hrest.
      pose proof (Z.mod_pos_bound data (256 * burst) ltac:(lia)).
      rewrite (Z.mod_small (data mod _)), (Z.div_small (data mod _)) by lia.
      rewrite (proj2 (Z.leb_gt _ _)) by lia. rewrite (proj2 (Z.leb_le _ _)) by nia. done.
    + rewrite Hrest. apply Z.mod_mod. lia.
Qed.

Lemma turns_nonneg burst size : 0 < burst -> 0 <= size -> 0 <= turns burst size.
Proof.
  intros. unfold turns. assert (0 <= size / (65536 * burst)) by (apply Z.div_pos; lia).
  destruct (_ <=? _); cbn; lia.
Qed.

Lemma turns_small burst size : 0 < burst -> 0 <= size < 256 * burst -> turns burst size = 0.
Proof.
  intros. unfold turns. rewrite Z.div_small, Z.mod_small by lia. rewrite (proj2 (Z.leb_gt _ _)) by lia. done.
Qed.

Section bursts.
Context {D G : Type} `{Device D}.
Abbreviation M := (M D G).
Variables burst bufsz size : Z.
Variable inner : list Z.
Hypothesis Hburst : 0 < burst <= 128.
Hypothesis Hinner : 0 < off inner < 200.
Hypothesis Hsize : 0 <= size < 2 ^ 32.

(** A property of the code so far and the bytes that it moves, kept by the code
    of a turn. *)
Variable prog : list Z -> Z -> Prop.
Hypothesis prog_turn : forall code n l0 l1, 1 <= l0 <= 256 -> 1 <= l1 <= 256 -> 0 <= n ->
  n + burst * l0 * l1 <= size -> prog code n -> prog (code ++ bursts_code l0 l1 inner) (n + burst * l0 * l1).

Variable code0 : list Z.
Hypothesis Hprog0 : prog code0 0.

(** The bytes that every turn which moves bytes adds to the code. *)
Definition turn_len : Z := off inner + 8.

(** The state of the loop: all is well so far, or the bytes left are between
    one burst and 256, which the loop never gets rid of. *)
Definition loop_ok (code : list Z) (data : Z) : Prop :=
  prog code (size - data) /\ data mod (256 * burst) = size mod (256 * burst) /\
  off code = off code0 + turn_len * (turns burst size - turns burst data) /\
  turns burst data <= turns burst size.

Definition loop_stuck (data : Z) : Prop := burst <= data < 256 * burst /\ burst <= size mod (256 * burst).

(** How the loop ends: the flag, the code and the bytes left. *)
Definition loop_done (r : bool * list Z * Z) : Prop :=
  let '(failed, code, data) := r in
  if failed
  then bufsz < off code <= Z.max bufsz (off code0) + turn_len /\
    (burst <= size mod (256 * burst) \/ 0 < turns burst size /\ bufsz < off code0 + turn_len * turns burst size)
  else prog code (size - data) /\ data = size mod (256 * burst) /\ data < burst /\
    off code = off code0 + turn_len * turns burst size /\
    (turns burst size = 0 \/ off code <= bufsz).

(** One turn from a good state: what the counts say about the next. *)
Lemma loop_step code data l0 l1 :
  0 <= data <= size -> loop_ok code data \/ loop_stuck data -> burst <= data -> loop_counts data burst = (l0, l1) ->
  0 <= burst * l0 * l1 <= data /\ 0 <= l0 <= 256 /\ 0 <= l1 <= 256 /\
  let code' := code ++ bursts_code l0 l1 inner in
  off code < off code' <= off code + turn_len /\
  ((l1 = 0 /\ loop_stuck data) \/
   (l1 <> 0 /\ loop_ok code' (data - burst * l0 * l1) /\ turns burst (data - burst * l0 * l1) < turns burst size)).
Proof.
  intros Hd Hok Hle Hl. destruct (loop_counts_spec data burst) as (l0' & l1' & E & H0 & H1 & Hc); [lia|lia|].
  rewrite Hl in E. injection E as <- <-.
  assert (Hp : 0 <= burst * l0 * l1) by (repeat apply Z.mul_nonneg_nonneg; lia).
  split; [destruct Hc as [(_ & -> & _)|(_ & _ & ? & _)]; lia|]. do 2 (split; [lia|]).
  cbv zeta. unfold turn_len. rewrite off_app, off_bursts. split; [destruct (truthy l1); lia|].
  destruct Hc as [(Hs & -> & _)|(Hs & Hnz & Hb & Ht & Hm)].
  - left. split; [done|]. destruct Hok as [(_ & Em & _)|?]; [|done].
    rewrite Z.mod_small in Em by lia. unfold loop_stuck. lia.
  - right. split; [done|]. destruct Hok as [(Hpr & Em & Ho & Htt)|[? _]]; [|lia].
    split; [|lia]. unfold loop_ok, turn_len in *. rewrite off_app, off_bursts, Ht, Hm, Ho.
    replace (size - (data - burst * l0 * l1)) with (size - data + burst * l0 * l1) by lia.
    split_and!; [apply prog_turn; [lia|lia|lia|lia|done]|done| |lia].
    unfold truthy. rewrite (proj2 (Z.eqb_neq l1 0)) by done. cbn [negb]. lia.
Qed.

Lemma loop_leaves code data : 0 <= data <= size -> loop_ok code data \/ loop_stuck data -> data < burst ->
  (turns burst data < turns burst size -> off code <= bufsz) -> loop_done (false, code, data).
Proof.
  intros Hd Hok Hlt Hturn. destruct Hok as [(Hpr & Em & Ho & Ht)|[? _]]; [|lia].
  rewrite Z.mod_small in Em by lia. rewrite (turns_small burst data) in * by lia.
  cbn [loop_done]. split_and!; [done|done|lia|lia|].
  pose proof (turns_nonneg burst size). destruct (Z.eq_dec (turns burst size) 0); [by left|right; apply Hturn; lia].
Qed.

Lemma burst_loop fuel code data (s : st D G) :
  (Z.to_nat (bufsz - off code) < fuel)%nat -> 0 <= data <= size ->
  loop_ok code data \/ loop_stuck data ->
  off code <= Z.max bufsz (off code0) -> (turns burst data < turns burst size -> off code <= bufsz) ->
  wp (while_fuel fuel (burst_turn burst bufsz inner) (code, data)) s
    (fun o s' t => exists r, o = Val r /\ s' = s /\ loop_done r /\ Forall (fun e => exists m, e = Msg m) t).
Proof.
  revert code data s. induction fuel as [|fuel IH]; intros code data s Hf Hd Hok Hoff Hturn; [lia|].
  cbn [while_fuel]. wp_step. unfold burst_turn.
  destruct (Z.leb_spec burst data) as [Hle|Hlt].
  2:{ wp_run. eexists. split_and!; [done|done|by apply loop_leaves|constructor]. }
  destruct (loop_counts data burst) as [l0 l1] eqn:El.
  destruct (loop_step code data l0 l1 Hd Hok Hle El) as (Hb & H0 & H1 & Hlen & Hnext).
  rewrite emit_bursts_code, (u32_word (_ * _)), u32_word by (unfold word; lia).
  unfold exceeds. destruct (Z.ltb_spec bufsz (off (code ++ bursts_code l0 l1 inner))) as [Hex|Hfit].
  - wp_run. eexists. split_and!; [done|done| |repeat constructor; by eexists].
    cbn [loop_done]. split; [lia|].
    destruct Hnext as [[_ [_ ?]]|(_ & (_ & _ & Ho & Ht) & Hts)]; [by left|right].
    pose proof (turns_nonneg burst (data - burst * l0 * l1) ltac:(lia) ltac:(lia)). split; [lia|].
    rewrite Z.mul_sub_distr_l in Ho. assert (0 <= turn_len * turns burst (data - burst * l0 * l1)); [|lia].
    apply Z.mul_nonneg_nonneg; [unfold turn_len; lia|done].
  - wp_step. cbn [app]. apply IH; [lia|lia| |lia|lia].
    destruct Hnext as [[-> Hs]|(_ & Hk & _)]; [right; by rewrite Z.mul_0_r, Z.sub_0_r|by left].
Qed.
End bursts.

(** ** Both phases *)

Definition only_msgs (t : trace) : Prop := Forall (fun e => exists m, e = Msg m) t.

(** The driver accepts a transfer when the bytes behind the last 256 bursts are
    less than one burst, and the code fits after the BURST loop, if it ran, and
    after the SINGLE phase, if there is one. *)
Definition accepts (burst base turn_len single single_len bufsz size : Z) : Prop :=
  let rest := size mod (256 * burst) in
  let bursts_end := base + turn_len * turns burst size in
  rest < burst /\ (turns burst size = 0 \/ bursts_end <= bufsz) /\
  (rest / 2 ^ single = 0 \/ bursts_end + single_len <= bufsz).

(** The code of the SINGLE phase and the DMAEND. *)
Definition single_code (single : Z) (rq : pl330_reqcfg) (inner : list Z) (rest : Z) : list Z :=
  (if truthy (rest / 2 ^ single)
   then _emit_MOV CCR (_prepare_ccr (set_rq_brst 1 single rq)) ++ loop_code false (rest / 2 ^ single) inner
   else []) ++ _emit_END.

Lemma wp_maybe_msg {D G A} `{Device D} b m (k : M D G A) (s : st D G) (Q : outcome A -> st D G -> trace -> Prop) :
  (forall t, only_msgs t -> wp k s (fun o s' t' => Q o s' (t ++ t'))) -> wp (when b (msg m) ;;; k) s Q.
Proof.
  intros HQ. apply wp_bind. unfold when. destruct b; wp_step; apply HQ; [|constructor]. repeat constructor. by eexists.
Qed.

Section phases.
Context {D G : Type} `{Device D}.
Variable burst : Z.
Variable p : pl330_transfer_struct.
Variable rq : pl330_reqcfg.
Variables inner single_inner code0 : list Z.
Hypothesis Hburst : 0 < burst <= 128.
Hypothesis Hinner : 0 < off inner < 200.
Hypothesis Hsize : 0 <= size_byte p < 2 ^ 32.
Hypothesis Hsingle : 0 <= single_brst_size p <= 3.
Variable prog : list Z -> Z -> Prop.
Hypothesis prog_turn : forall code n l0 l1, 1 <= l0 <= 256 -> 1 <= l1 <= 256 -> 0 <= n ->
  n + burst * l0 * l1 <= size_byte p -> prog code n -> prog (code ++ bursts_code l0 l1 inner) (n + burst * l0 * l1).
Hypothesis prog0 : prog code0 0.

Let rest := size_byte p mod (256 * burst).
Let ok := accepts burst (off code0) (off inner + 8) (single_brst_size p) (off single_inner + 10) (buf_size p) (size_byte p).

(** The result of the driver, what it stored and when it accepts. *)
Definition phases_result (rc : Z) (code : list Z) : Prop :=
  (rc = 1 /\ ~ ok /\
     buf_size p < off code <= Z.max (buf_size p) (off code0) + Z.max (off inner + 8) (off single_inner + 10)) \/
  (rc = 0 /\ ok /\ off code <= Z.max (buf_size p) (off code0) + 1 /\ rest < burst /\
     exists code1, prog code1 (size_byte p - rest) /\
       code = code1 ++ single_code (single_brst_size p) rq single_inner rest).

Lemma single_phase_spec code1 (s : st D G) :
  rest < burst -> prog code1 (size_byte p - rest) -> off code1 <= Z.max (buf_size p) (off code0) ->
  off code1 = off code0 + (off inner + 8) * turns burst (size_byte p) ->
  (turns burst (size_byte p) = 0 \/ off code1 <= buf_size p) ->
  wp (single_phase (single_brst_size p) (buf_size p) rq single_inner code1 rest) s
    (fun o s' t => exists rc code, o = Val (rc, code) /\ s' = s /\ only_msgs t /\ phases_result rc code).
Proof.
  intros Hr Hpr Hmax Hoff Hfit. unfold single_phase. rewrite Z.shiftl_1_l.
  apply wp_maybe_msg. intros t Ht.
  assert (Hends : off (code1 ++ _emit_END) = off code1 + 1) by apply off_app.
  destruct (truthy (rest / 2 ^ single_brst_size p)) eqn:Et.
  2:{ wp_step. exists 0, (code1 ++ _emit_END). rewrite app_nil_r. split_and!; [done|done|done|].
      right. split_and!; [done| |lia|done|].
      - split_and!; [done|lia|left]. by apply negb_false_iff, Z.eqb_eq in Et.
      - exists code1. split; [done|]. unfold single_code. by rewrite Et. }
  change 0 with (b2z false). rewrite emit_loop_code. cbn [b2z].
  set (mov := _emit_MOV CCR _). set (lp := loop_code _ _ _).
  assert (Hall : off ((code1 ++ mov) ++ lp) = off code1 + (off single_inner + 10)).
  { unfold lp. rewrite !off_app, off_loop. change (off mov) with 6. lia. }
  assert (Hnz : rest / 2 ^ single_brst_size p <> 0) by (by apply negb_true_iff, Z.eqb_neq in Et).
  unfold exceeds. destruct (Z.ltb_spec (buf_size p) (off ((code1 ++ mov) ++ lp))) as [Hex|Hin].
  - wp_step. wp_step. wp_step. do 2 eexists. split_and!; [done|done| |].
    { apply Forall_app. split; [done|]. repeat constructor. by eexists. }
    left. split_and!; [done| |lia|lia]. intros (_ & _ & [?|?]); [done|]. lia.
  - wp_step. do 2 eexists. rewrite app_nil_r. split_and!; [done|done|done|].
    right. rewrite (off_app _ _emit_END). change (off _emit_END) with 1. split_and!; [done| |lia|done|].
    + split_and!; [done|lia|right]. fold rest. lia.
    + exists code1. split; [done|]. unfold single_code. rewrite Et. fold mov lp. by rewrite <- !app_assoc.
Qed.

(** Both phases return, whatever the description, and do nothing but report. *)
Lemma emit_phases_spec (s : st D G) :
  wp (emit_phases burst p rq inner single_inner code0) s
    (fun o s' t => exists rc code, o = Val (rc, code) /\ s' = s /\ only_msgs t /\ phases_result rc code).
Proof.
  unfold emit_phases. apply wp_bind. eapply wp_mono.
  { apply (burst_loop burst (buf_size p) (size_byte p) inner Hburst Hinner Hsize prog prog_turn code0 ).
    - unfold transfer_fuel. pose proof (off_nonneg code0). lia.
    - lia.
    - left. unfold loop_ok. rewrite !Z.sub_diag, Z.mul_0_r. split_and!; [done|done|lia|lia].
    - lia.
    - lia. }
  cbv beta. intros o s' t (r & -> & -> & Hdone & Ht). destruct r as [[failed code] data].
  destruct failed; unfold loop_done, turn_len in Hdone.
  - wp_step. exists 1, code. rewrite app_nil_r. split_and!; [done|done|done|]. left.
    destruct Hdone as (Hlen & Hwhy). split_and!; [done| |lia|lia].
    intros (? & ? & _). fold rest in Hwhy. lia.
  - destruct Hdone as (Hpr & -> & Hlt & Hoff & Hfit). eapply wp_mono; [apply single_phase_spec; try done|].
    + destruct Hfit as [Hz|]; [rewrite Hz in Hoff|]; lia.
    + cbv beta. intros o s1 t1 (rc & code' & -> & -> & Ht1 & Hres). exists rc, code'.
      split_and!; [done|done|by apply Forall_app|done].
Qed.

End phases.

(** ** Running the assembled code *)

Section engine.
Variables burst size single : Z.
Variables inv1 inv2 : Z -> dma_data -> Prop.
Variable d0 : dma_data.
Variable rq : pl330_reqcfg.
Variables inner single_inner : list Z.
Hypothesis Hburst : 0 < burst.
Hypothesis Hsingle : 0 <= single <= 3.
Hypothesis Hinner : off inner < 200.
Hypothesis Hinner1 : off single_inner < 200.
Hypothesis moves_inner : moves size inv1 eq inner burst.
Hypothesis moves_single : moves size inv2 eq single_inner (2 ^ single).
Let ccr2 := _prepare_ccr (set_rq_brst 1 single rq).
(** The bytes behind the last 256 bursts; the single transfers, if there are
    any, take over there. *)
Let rest := size mod (256 * burst).
Definition handover : Prop := rest / 2 ^ single <> 0 ->
  forall d, inv1 (size - rest) d -> exists d', exec_data (I_MOV CCR ccr2) d = Some d' /\ inv2 (size - rest) d'.

(** The code runs from its start to its end and has moved [n] bytes. *)
Definition progress (code : list Z) (n : Z) : Prop :=
  forall post c, exists c' d', runs (code ++ post) (mk_thread 0 c d0) (mk_thread (off code) c' d') /\ inv1 n d'.

Lemma progress_turn code n l0 l1 : 1 <= l0 <= 256 -> 1 <= l1 <= 256 -> 0 <= n ->
  n + burst * l0 * l1 <= size -> progress code n -> progress (code ++ bursts_code l0 l1 inner) (n + burst * l0 * l1).
Proof.
  intros H0 H1 Hn Hle Hp post c. rewrite <- app_assoc.
  destruct (Hp (bursts_code l0 l1 inner ++ post) c) as (c1 & d1 & R1 & I1).
  destruct (moves_bursts size inv1 inner burst l0 l1 ltac:(lia) ltac:(lia) ltac:(lia) ltac:(lia) moves_inner code post c1 n d1)
    as (c2 & d2 & R2 & I2 & _); [done|by replace (Z.max 1 l1) with l1 by lia|done|].
  replace (Z.max 1 l1) with l1 in I2 by lia. exists c2, d2. split; [|done].
  rewrite off_app. by etrans.
Qed.

Lemma at_end_app code c d : at_end (code ++ _emit_END) (mk_thread (off code) c d).
Proof. exists SZ_DMAEND. rewrite <- (app_nil_r _emit_END). apply fetch_at. Qed.

(** The code of an accepted transfer runs to its DMAEND. *)
Lemma accepted_runs code1 c :
  handover -> 0 <= rest <= size -> rest < 128 -> progress code1 (size - rest) ->
  let code := code1 ++ single_code single rq single_inner rest in
  exists t, runs code (mk_thread 0 c d0) t /\ at_end code t /\
    (inv1 (size - rest mod 2 ^ single) (d_data t) \/ inv2 (size - rest mod 2 ^ single) (d_data t)).
Proof.
  intros mov_ccr Hrest Hlt Hp code. destruct (Hp (single_code single rq single_inner rest) c) as (c1 & d1 & R1 & I1).
  fold code in R1. assert (Hpow : 0 < 2 ^ single) by (apply Z.pow_pos_nonneg; lia).
  pose proof (Z.div_mod rest (2 ^ single) ltac:(lia)) as Hdm.
  pose proof (Z.div_pos rest (2 ^ single) ltac:(lia) Hpow) as Hq.
  unfold single_code, truthy in code. destruct (Z.eqb_spec (rest / 2 ^ single) 0) as [E|E]; cbn [negb] in code.
  - exists (mk_thread (off code1) c1 d1). split_and!; [done|apply at_end_app|left].
    replace (rest mod 2 ^ single) with rest by nia. done.
  - destruct (mov_ccr E _ I1) as (d2 & Ex & I2). fold ccr2 in code.
    set (lp := loop_code false (rest / 2 ^ single) single_inner) in *.
    assert (Hd : rest / 2 ^ single <= rest) by (apply Z.div_le_upper_bound; nia).
    destruct (moves_loop size inv2 eq (other_kept false) false single_inner (2 ^ single) (rest / 2 ^ single)
      loop_rel_inner ltac:(lia) ltac:(lia) ltac:(lia) moves_single (code1 ++ _emit_MOV CCR ccr2) _emit_END c1
      (size - rest) d2) as (c3 & d3 & R3 & I3 & _); [lia|nia|done|].
    fold lp in R3. rewrite <- !app_assoc in R3.
    exists (mk_thread (off (code1 ++ _emit_MOV CCR ccr2 ++ lp)) c3 d3). split_and!.
    + etrans; [exact R1|]. unfold code. rewrite <- !app_assoc. eapply rtc_l; [|].
      { unfold dma_step. rewrite fetch_at, decode_MOV by apply word_u32. unfold exec_insn. rewrite Ex. done. }
      rewrite !off_app, Z.add_assoc in *. exact R3.
    + unfold code. rewrite !app_assoc. apply at_end_app.
    + right. cbn [d_data]. by replace (size - rest mod 2 ^ single) with (size - rest + 2 ^ single * (rest / 2 ^ single)) by lia.
Qed.

(** The code stops at its first single transfer. *)
Lemma single_stuck code1 c :
  0 <= rest < 128 -> rest / 2 ^ single <> 0 -> progress code1 (size - rest) ->
  (forall d, inv1 (size - rest) d -> exists d', exec_data (I_MOV CCR ccr2) d = Some d' /\ d_mem d' = d_mem d /\
     stops single_inner d') ->
  let code := code1 ++ single_code single rq single_inner rest in
  exists t d, runs code (mk_thread 0 c d0) t /\ stuck code t /\ inv1 (size - rest) d /\ d_mem (d_data t) = d_mem d.
Proof.
  intros Hrest Hnz Hp Hstop code. destruct (Hp (single_code single rq single_inner rest) c) as (c1 & d1 & R1 & I1).
  fold code in R1. destruct (Hstop _ I1) as (d2 & Ex & Em & Hst).
  assert (Hpow : 0 < 2 ^ single) by (apply Z.pow_pos_nonneg; lia).
  assert (Hcnt : 1 <= rest / 2 ^ single <= 256).
  { pose proof (Z.div_pos rest (2 ^ single) ltac:(lia) Hpow). split; [lia|]. apply Z.div_le_upper_bound; nia. }
  assert (E : code = (code1 ++ _emit_MOV CCR ccr2) ++ loop_code false (rest / 2 ^ single) single_inner ++ _emit_END).
  { unfold code, single_code, truthy. fold ccr2. rewrite (proj2 (Z.eqb_neq _ _) Hnz). cbn [negb].
    by rewrite <- !app_assoc. }
  destruct (loop_stops false _ _ _ Hcnt Hst (code1 ++ _emit_MOV CCR ccr2) _emit_END c1) as (t & R & Hs & Hm).
  rewrite <- E in R, Hs. clearbody code. exists t, d1. split_and!; [|done|done|by rewrite Hm].
  etrans; [exact R1|]. eapply rtc_l; [|exact R].
  unfold dma_step. rewrite E, <- app_assoc, fetch_at, decode_MOV by apply word_u32.
  unfold exec_insn. by rewrite Ex, off_app.
Qed.

(** What the driver assembled when it returns 0. *)
Lemma phases_code {D G} `{Device D} p code0 (s : st D G) code :
  size_byte p = size -> single_brst_size p = single -> word size -> burst <= 128 ->
  0 < off inner -> progress code0 0 ->
  out (emit_phases burst p rq inner single_inner code0 s) = Val (0, code) ->
  0 <= rest <= size /\ rest < burst /\ exists code1, progress code1 (size - rest) /\
    code = code1 ++ single_code single rq single_inner rest.
Proof.
  intros Hsz Hsg Hw Hb Hi Hp0 Hout. unfold word in Hw.
  assert (Hph : wp (emit_phases burst p rq inner single_inner code0) s (fun o s' t => exists rc code, o = Val (rc, code) /\
    s' = s /\ only_msgs t /\ phases_result burst p rq inner single_inner code0 progress rc code)).
  { apply emit_phases_spec; try done; try lia. rewrite Hsz. exact progress_turn. }
  unfold wp in Hph. rewrite Hout in Hph.
  destruct Hph as (rc & code' & [= <- <-] & _ & _ & Hr).
  destruct Hr as [(? & _)|(_ & _ & _ & Hlt & code1 & Hp & ->)]; [done|].
  rewrite Hsz, Hsg in *. fold rest in Hlt, Hp |- *. split_and!; try done; eauto; unfold rest.
  - apply Z.mod_pos_bound; lia.
  - apply Z.mod_le; lia.
Qed.

(** From the return value of the driver to the run of the engine. *)
Lemma phases_run {D G} `{Device D} p code0 (s : st D G) code c :
  handover -> size_byte p = size -> single_brst_size p = single -> word size -> burst <= 128 ->
  0 < off inner -> progress code0 0 ->
  out (emit_phases burst p rq inner single_inner code0 s) = Val (0, code) ->
  exists t m, runs code (mk_thread 0 c d0) t /\ at_end code t /\
    m = size - size mod (256 * burst) mod 2 ^ single /\ (inv1 m (d_data t) \/ inv2 m (d_data t)).
Proof.
  intros Hmov Hsz Hsg Hw Hb Hi Hp0 Hout.
  destruct (phases_code p code0 s code Hsz Hsg Hw Hb Hi Hp0 Hout) as (Hr & Hlt & code1 & Hp & ->).
  destruct (accepted_runs code1 c) as (t & R & He & Ht); [done|done|lia|done|]. eauto 7.
Qed.

(** From the return value of the driver to a stop at the first single transfer. *)
Lemma phases_stuck {D G} `{Device D} p code0 (s : st D G) code c :
  size_byte p = size -> single_brst_size p = single -> word size -> burst <= 128 ->
  0 < off inner -> progress code0 0 -> rest / 2 ^ single <> 0 ->
  (forall d, inv1 (size - rest) d -> exists d', exec_data (I_MOV CCR ccr2) d = Some d' /\ d_mem d' = d_mem d /\
     stops single_inner d') ->
  out (emit_phases burst p rq inner single_inner code0 s) = Val (0, code) ->
  exists t d, runs code (mk_thread 0 c d0) t /\ stuck code t /\ inv1 (size - rest) d /\ d_mem (d_data t) = d_mem d.
Proof.
  intros Hsz Hsg Hw Hb Hi Hp0 Hnz Hstop Hout.
  destruct (phases_code p code0 s code Hsz Hsg Hw Hb Hi Hp0 Hout) as (Hr & Hlt & code1 & Hp & ->).
  apply single_stuck; done || lia.
Qed.

End engine.
