(* ===== verification/DmaTransfer.v ===== *)
(** The transfers of the PL330 driver, run by the engine: clearing a range
    (pl330_transfer_zeroes) and copying one (pl330_transfer_setup between
    memories), and sdram_ecc_init, which clears the whole memory. *)

From S2P Require Import Prelude Mmio Regs Globals Timer SdramMmr Pl330 DmaEngine.

(** ** Ranges of memory *)

Lemma fill_nil a f m x : fill a 0 f m x = m x.
Proof. unfold fill. rewrite Z.add_0_r. destruct (Z.leb_spec a x), (Z.ltb_spec x a); cbn; done || lia. Qed.

(** A range grows at its end. *)
Lemma fill_extend a n k f g m m' x :
  0 <= n -> 0 <= k -> (forall y, m' y = fill a n f m y) -> (forall i, 0 <= i < k -> g i = f (n + i)) ->
  fill (a + n) k g m' x = fill a (n + k) f m x.
Proof.
  intros Hn Hk Hm Hg. unfold fill at 1. rewrite Hm. unfold fill.
  destruct (Z.leb_spec (a + n) x), (Z.ltb_spec x (a + n + k)), (Z.leb_spec a x), (Z.ltb_spec x (a + n)),
    (Z.ltb_spec x (a + (n + k))); cbn; try lia; try done.
  rewrite Hg by lia. f_equal. lia.
Qed.

(** ** Clearing a range *)

Section zeroes.
Variables dst size : Z.
Variable mem : Z -> Z.
Hypothesis Hdst : 0 <= dst.
Hypothesis Hend : dst + size <= 2 ^ 32.

(** [n] bytes are cleared, the next address is a multiple of [al]. *)
Definition cleared_range (c al n : Z) (d : dma_data) : Prop :=
  d_ccr d = c /\ d_dar d = u32 (dst + n) /\ (dst + n) mod al = 0 /\
  forall x, d_mem d x = fill dst n (fun _ => 0) mem x.

(** A store moves its bytes if its beats divide [al]; nothing is asked when the
    range has no room for it. *)
Lemma moves_STZ c al k :
  dst_bytes c = k -> dst_incs c = true -> 0 < k -> 0 < al -> k mod al = 0 ->
  (k <= size -> 0 < dst_size c /\ al mod dst_size c = 0) ->
  moves size (cleared_range c al) eq _emit_STZ k.
Proof.
  intros Hk Hi Hpos Hal0 Hal Hs pre post l n d Hn HN (Hc & Hd & Ha & Hm). destruct d as [sar dar ccr fifo m].
  cbn [d_ccr d_dar d_mem] in *. subst ccr dar. destruct Hs as [Hs0 Hs]; [lia|].
  assert (Hw : u32 (dst + n) = dst + n) by (apply u32_word; unfold word; lia).
  assert (Hb : (dst + n) mod dst_size c = 0).
  { apply Z.mod_divide in Ha, Hs; [|lia..]. apply Z.mod_divide; [lia|]. by etrans. }
  exists l, (mk_data sar (u32 (dst + n + k)) c fifo (fill (dst + n) k (fun _ => 0) m)). split_and!; [|split_and!|done].
  - eapply runs_insn; [done|]. change (off _emit_STZ) with 1. cbn [exec_insn exec_data].
    rewrite Hk, Hi, Hw. unfold burst_ok. rewrite Hb, (proj2 (Z.leb_le _ _)) by lia. done.
  - done.
  - cbn. by rewrite Z.add_assoc.
  - rewrite Z.add_assoc, Z.add_mod, Ha, Hal by lia. apply Z.mod_0_l. lia.
  - intros x. cbn [d_mem]. by apply fill_extend; try lia.
Qed.

End zeroes.

(** The engine stops at a store whose address its beats do not divide. *)
Lemma stops_STZ d : d_dar d mod dst_size (d_ccr d) <> 0 -> stops _emit_STZ d.
Proof.
  intros Ha pre post c. destruct d as [sar dar ccr fifo m]. cbn [d_dar d_ccr] in Ha.
  exists (mk_thread (off pre) c (mk_data sar dar ccr fifo m)). split_and!; [done| |done].
  apply (stuck_insn pre _emit_STZ post I_STZ SZ_DMASTZ); [done|done|].
  cbn [exec_insn exec_data]. unfold burst_ok. by rewrite (proj2 (Z.eqb_neq _ _) Ha).
Qed.

(** What the driver programs for clearing: bursts of 16 * 8 bytes, singles of 2. *)
Lemma zeroes_burst p :
  exists c, _prepare_ccr (zeroes_reqcfg (set_brst PL330_DMA_MAX_BURST_SIZE 1 16 p)) = c /\
    dst_bytes c = 128 /\ dst_size c = 8 /\ dst_incs c = true /\ word c.
Proof. eexists. split; [reflexivity|]. split_and!; vm_compute; repeat split; discriminate. Qed.

Lemma zeroes_single p :
  exists c, _prepare_ccr (set_rq_brst 1 1 (zeroes_reqcfg (set_brst PL330_DMA_MAX_BURST_SIZE 1 16 p))) = c /\
    dst_bytes c = 2 /\ dst_size c = 2 /\ dst_incs c = true.
Proof. eexists. split; [reflexivity|]. split_and!; vm_compute; repeat split; discriminate. Qed.

(** The start of a program: registers and counters of the channel may hold
    anything. *)
Definition channel (sar dar ccr : Z) (c : Z * Z) (mem : Z -> Z) : dma_thread :=
  mk_thread 0 c (mk_data sar dar ccr [] mem).

Section zeroes_program.
Context {D G : Type} `{Device D}.
Abbreviation M := (M D G).
Variable p : pl330_transfer_struct.
Hypothesis Hsize : word (size_byte p).

(** [accepts] for the numbers of pl330_transfer_zeroes. *)
Definition zeroes_accepts : Prop := accepts 128 12 9 1 11 (buf_size p) (size_byte p).

(** The code before the BURST loop. *)
Definition zeroes_head : list Z :=
  _emit_MOV DAR (dst_addr p) ++
  _emit_MOV CCR (_prepare_ccr (zeroes_reqcfg (set_brst PL330_DMA_MAX_BURST_SIZE 1 16 p))).

Lemma zeroes_phases prog (s : st D G) :
  (forall code n l0 l1, 1 <= l0 <= 256 -> 1 <= l1 <= 256 -> 0 <= n -> n + 128 * l0 * l1 <= size_byte p ->
     prog code n -> prog (code ++ bursts_code l0 l1 _emit_STZ) (n + 128 * l0 * l1)) ->
  prog zeroes_head 0 ->
  wp (pl330_transfer_zeroes p) s (fun o s' t => exists rc code, o = Val (rc, code) /\ s' = s /\ only_msgs t /\
    phases_result 128 (set_brst PL330_DMA_MAX_BURST_SIZE 1 16 p)
      (zeroes_reqcfg (set_brst PL330_DMA_MAX_BURST_SIZE 1 16 p)) _emit_STZ _emit_STZ zeroes_head prog rc code).
Proof.
  intros Ht H0. unfold pl330_transfer_zeroes. change (u32 _) with 128.
  apply emit_phases_spec; try done; cbn; lia.
Qed.

(** The program of the driver up to the BURST loop. *)
Lemma zeroes_start al sar dar ccr c mem post :
  (dst_addr p) mod al = 0 -> word (dst_addr p) ->
  exists c2 d, runs (zeroes_head ++ post) (channel sar dar ccr c mem) (mk_thread (off zeroes_head) c2 d) /\
    cleared_range (dst_addr p) mem (_prepare_ccr (zeroes_reqcfg (set_brst PL330_DMA_MAX_BURST_SIZE 1 16 p))) al 0 d.
Proof.
  intros Ha Hw. destruct (zeroes_burst p) as (cc & E & _ & Hs & _ & Hcw). unfold zeroes_head, channel. rewrite E.
  exists c, (mk_data sar (dst_addr p) cc [] mem). split.
  - rewrite <- app_assoc. eapply rtc_l.
    { unfold dma_step. rewrite fetch_start, decode_MOV by done. reflexivity. }
    apply (runs_insn (_emit_MOV DAR (dst_addr p)) (_emit_MOV CCR cc) post (I_MOV CCR cc)); [intros; by apply decode_MOV|done].
  - unfold cleared_range. rewrite Z.add_0_r. cbn [d_ccr d_dar d_mem].
    split_and!; [done|by rewrite u32_word|done|]. intros x. by rewrite fill_nil.
Qed.

(** Code that is empty so far, or starts with the loops of a burst. *)
Definition zeroes_prog (code : list Z) (n : Z) : Prop :=
  (n = 0 /\ code = zeroes_head) \/
  exists l0 l1 rest, 1 <= l0 <= 256 /\ 1 <= l1 <= 256 /\ code = zeroes_head ++ bursts_code l0 l1 _emit_STZ ++ rest.

Lemma zeroes_starts (s : st D G) code :
  out (pl330_transfer_zeroes p s) = Val (0, code) -> 128 <= size_byte p ->
  exists l0 l1 rest, 1 <= l0 <= 256 /\ 1 <= l1 <= 256 /\ code = zeroes_head ++ bursts_code l0 l1 _emit_STZ ++ rest.
Proof.
  intros Hout Hbig. assert (Hph := zeroes_phases zeroes_prog s). unfold wp in Hph. rewrite Hout in Hph.
  destruct Hph as (rc & code' & [= <- <-] & _ & _ & Hr).
  { intros code' n l0 l1 H0 H1 Hn _ Hp. right. destruct Hp as [(_ & ->)|(k0 & k1 & rest & ? & ? & ->)].
    - exists l0, l1, []. by rewrite app_nil_r.
    - exists k0, k1, (rest ++ bursts_code l0 l1 _emit_STZ). by rewrite !app_assoc. }
  { by left. }
  destruct Hr as [(? & _)|(_ & _ & _ & Hlt & code1 & [(Hn & _)|(l0 & l1 & rest & H0 & H1 & ->)] & ->)]; [done| |].
  - cbn [set_brst size_byte] in Hn, Hlt. lia.
  - exists l0, l1, (rest ++ single_code (single_brst_size (set_brst PL330_DMA_MAX_BURST_SIZE 1 16 p))
      (zeroes_reqcfg (set_brst PL330_DMA_MAX_BURST_SIZE 1 16 p)) _emit_STZ
      (size_byte (set_brst PL330_DMA_MAX_BURST_SIZE 1 16 p) mod (256 * 128))).
    by rewrite !app_assoc.
Qed.

End zeroes_program.

Lemma zeroes_result {D G} `{Device D} p (s : st D G) :
  word (size_byte p) ->
  exists rc code, out (pl330_transfer_zeroes p s) = Val (rc, code) /\
    fin (pl330_transfer_zeroes p s) = s /\ only_msgs (tr (pl330_transfer_zeroes p s)) /\
    ((rc = 0 /\ zeroes_accepts p /\ off code <= Z.max (buf_size p) 12 + 1) \/
     (rc = 1 /\ ~ zeroes_accepts p /\ buf_size p < off code <= Z.max (buf_size p) 12 + 11)).
Proof.
  intros Hs. wp_enter. eapply wp_mono; [apply (zeroes_phases p Hs (fun _ _ => True)); done|].
  cbv beta. intros o s' t (rc & code & -> & -> & Ht & Hr). exists rc, code. do 3 (split; [done|]).
  destruct Hr as [(-> & Hn & Hl)|(-> & Hy & Hl & _)]; [right|left];
    unfold zeroes_head in Hl; rewrite off_app, !off_MOV in Hl; try change (off _emit_STZ) with 1 in Hl; cbn in Hl; split_and!; done || lia.
Qed.

(** C22: pl330_transfer_zeroes returns for every description, changes nothing but
    its buffer, and returns 0 exactly for the transfers it can assemble. *)
Theorem transfer_zeroes_returns {D G} `{Device D} p (s : st D G) :
  word (size_byte p) ->
  exists rc code, out (pl330_transfer_zeroes p s) = Val (rc, code) /\
    fin (pl330_transfer_zeroes p s) = s /\ only_msgs (tr (pl330_transfer_zeroes p s)) /\
    ((rc = 0 /\ zeroes_accepts p /\ off code <= Z.max (buf_size p) 12 + 1) \/
     (rc = 1 /\ ~ zeroes_accepts p /\ buf_size p < off code <= Z.max (buf_size p) 12 + 11)).
Proof. apply zeroes_result. Qed.

(** The alignment that the stores of an accepted transfer need: those of a burst
    are 8 bytes wide, those of a single transfer 2. *)
Definition zeroes_beat (p : pl330_transfer_struct) : Z :=
  if 128 <=? size_byte p then 8 else if 2 <=? size_byte p then 2 else 1.

Lemma zeroes_beat_cases p : zeroes_beat p = 8 /\ 128 <= size_byte p \/ zeroes_beat p = 2 /\ 2 <= size_byte p < 128 \/
  zeroes_beat p = 1 /\ size_byte p < 2.
Proof. unfold zeroes_beat. destruct (Z.leb_spec 128 (size_byte p)), (Z.leb_spec 2 (size_byte p)); lia. Qed.

Section zeroes_engine.
Context {D G : Type} `{Device D}.
Variable p : pl330_transfer_struct.
Variable s : st D G.
Variable code : list Z.
Variables sar dar ccr : Z.
Variable c : Z * Z.
Variable mem : Z -> Z.
Hypothesis Hs : word (size_byte p).
Hypothesis Hw : word (dst_addr p).
Hypothesis Hend : dst_addr p + size_byte p <= 2 ^ 32.
Hypothesis Hout : out (pl330_transfer_zeroes p s) = Val (0, code).

Lemma zeroes_run : dst_addr p mod zeroes_beat p = 0 ->
  exists t, runs code (channel sar dar ccr c mem) t /\ at_end code t /\
    forall x, d_mem (d_data t) x = fill (dst_addr p) (size_byte p - size_byte p mod 2) (fun _ => 0) mem x.
Proof.
  intros Ha. assert (H0 : 0 <= dst_addr p) by (unfold word in Hw; lia).
  set (rq := zeroes_reqcfg (set_brst PL330_DMA_MAX_BURST_SIZE 1 16 p)).
  set (inv al k := cleared_range (dst_addr p) mem k al). set (d0 := mk_data sar dar ccr [] mem).
  set (al := zeroes_beat p) in *. pose proof (zeroes_beat_cases p) as Hal. fold al in Hal.
  destruct (zeroes_burst p) as (c1 & E1 & B1 & S1 & I1 & _), (zeroes_single p) as (c2 & E2 & B2 & S2 & I2).
  fold rq in E1, E2.
  assert (Hm1 : moves (size_byte p) (inv al c1) eq _emit_STZ 128).
  { apply moves_STZ; rewrite ?S1; try done; destruct Hal as [[-> ?]|[[-> ?]|[-> ?]]]; done || lia. }
  assert (Hm2 : moves (size_byte p) (inv (Z.min 2 al) c2) eq _emit_STZ (2 ^ 1)).
  { apply moves_STZ; rewrite ?S2; try done; destruct Hal as [[-> ?]|[[-> ?]|[-> ?]]]; cbn; done || lia. }
  assert (Hmov : handover 128 (size_byte p) 1 (inv al c1) (inv (Z.min 2 al) c2) rq).
  { unfold handover. rewrite E2. intros _ [? ? ? ? ?] (? & ? & Hd & ?). eexists. split; [reflexivity|].
    split_and!; try done. apply Z.mod_divide in Hd; [|lia]. apply Z.mod_divide; [lia|]. etrans; [|exact Hd].
    destruct Hal as [[-> ?]|[[-> ?]|[-> ?]]]; [by exists 4|by exists 1|by exists 1]. }
  edestruct (phases_run 128 (size_byte p) 1 (inv al c1) (inv (Z.min 2 al) c2) d0 rq _emit_STZ _emit_STZ ltac:(done) ltac:(done)
    ltac:(done) ltac:(done) Hm1 Hm2 (set_brst PL330_DMA_MAX_BURST_SIZE 1 16 p) (zeroes_head p) s code c)
    as (t & m & R & He & Em & Ht); [done|done|done|done|done|done| |exact Hout|].
  { intros post l. destruct (zeroes_start p al sar dar ccr l mem post Ha Hw) as (l' & d & R & I). fold rq in I. rewrite E1 in I. eauto. }
  exists t. split_and!; [done|done|].
  replace (size_byte p mod 2) with (size_byte p mod (256 * 128) mod 2 ^ 1) by (change (2 ^ 1) with 2; div_lia).
  rewrite <- Em. by destruct Ht as [(_ & _ & _ & Hm)|(_ & _ & _ & Hm)].
Qed.

(** From an address that the first store cannot use, the engine stops there. *)
Lemma zeroes_stuck_burst : 128 <= size_byte p -> dst_addr p mod 8 <> 0 ->
  exists t, runs code (channel sar dar ccr c mem) t /\ stuck code t /\ forall x, d_mem (d_data t) x = mem x.
Proof.
  intros Hbig Ha. destruct (zeroes_starts p Hs s code Hout Hbig) as (l0 & l1 & rest & H0 & H1 & E).
  destruct (zeroes_burst p) as (c1 & E1 & _ & S1 & _).
  destruct (zeroes_start p 1 sar dar ccr c mem (bursts_code l0 l1 _emit_STZ ++ rest) (Z.mod_1_r _) Hw)
    as (l & d & R & Hc & Hd & _ & Hm). rewrite E1 in Hc. rewrite Z.add_0_r, u32_word in Hd by done.
  assert (Hst : stops _emit_STZ d) by (apply stops_STZ; by rewrite Hc, Hd, S1).
  destruct (bursts_stops l0 l1 _emit_STZ d H0 ltac:(lia) Hst (zeroes_head p) rest l) as (t & R' & Hs' & Hm').
  rewrite <- E in R, R', Hs'. exists t. split_and!; [by etrans|done|]. intros x. by rewrite Hm', Hm, fill_nil.
Qed.

Lemma zeroes_stuck_single : 2 <= size_byte p < 128 -> dst_addr p mod 2 <> 0 ->
  exists t, runs code (channel sar dar ccr c mem) t /\ stuck code t /\ forall x, d_mem (d_data t) x = mem x.
Proof.
  intros Hbig Ha. assert (H0 : 0 <= dst_addr p) by (unfold word in Hw; lia).
  set (rq := zeroes_reqcfg (set_brst PL330_DMA_MAX_BURST_SIZE 1 16 p)).
  destruct (zeroes_burst p) as (c1 & E1 & B1 & S1 & I1 & _), (zeroes_single p) as (c2 & E2 & B2 & S2 & I2).
  fold rq in E1, E2. set (inv := cleared_range (dst_addr p) mem c1 1). set (d0 := mk_data sar dar ccr [] mem).
  assert (Hm1 : moves (size_byte p) inv eq _emit_STZ 128) by (apply moves_STZ; rewrite ?S1; done || lia).
  assert (Erest : size_byte p mod (256 * 128) = size_byte p) by (apply Z.mod_small; lia).
  edestruct (phases_stuck 128 (size_byte p) 1 inv d0 rq _emit_STZ _emit_STZ ltac:(done) ltac:(done)
    ltac:(done) ltac:(done) Hm1 (set_brst PL330_DMA_MAX_BURST_SIZE 1 16 p) (zeroes_head p) s code c)
    as (t & d & R & Hst & (_ & _ & _ & Hm) & Hmm); [done|done|done|done|done| | | |exact Hout|].
  - intros post l. destruct (zeroes_start p 1 sar dar ccr l mem post (Z.mod_1_r _) Hw) as (l' & d & R & I).
    fold rq in I. rewrite E1 in I. eauto.
  - rewrite Erest. change (2 ^ 1) with 2. div_lia.
  - rewrite Erest, E2. intros [sar1 dar1 ccr1 fifo1 mem1] (_ & Hd & _). cbn [d_dar] in Hd. eexists. split; [reflexivity|]. split; [done|].
    apply stops_STZ. cbn [d_dar d_ccr]. rewrite S2, Hd, Z.sub_diag, Z.add_0_r, u32_word; done.
  - exists t. split_and!; [done|done|]. intros x. rewrite Erest, Z.sub_diag in Hm. by rewrite Hmm, Hm, fill_nil.
Qed.

End zeroes_engine.


(** ** Copying a range *)

Section copy.
Variables src dst size : Z.
Variable mem : Z -> Z.
Hypothesis Hsrc : 0 <= src.
Hypothesis Hdst : 0 <= dst.
Hypothesis Hsend : src + size <= 2 ^ 32.
Hypothesis Hdend : dst + size <= 2 ^ 32.
Hypothesis Hdisj : src + size <= dst \/ dst + size <= src.

Definition copied_range (c n : Z) (d : dma_data) : Prop :=
  d_ccr d = c /\ d_sar d = u32 (src + n) /\ d_dar d = u32 (dst + n) /\ d_fifo d = [] /\
  (src + n) mod src_size c = 0 /\ (dst + n) mod dst_size c = 0 /\
  forall x, d_mem d x = fill dst n (fun k => mem (src + k)) mem x.

(** The instructions of one burst between memories. *)
Definition copy_insns : list Z := _emit_LD ALWAYS ++ _emit_RMB ++ _emit_ST ALWAYS ++ _emit_WMB.

Lemma exec_barrier d : exec_data I_BARRIER d = Some d.
Proof. by destruct d. Qed.

Lemma runs_copy pre post c d d1 d2 :
  exec_data I_LD d = Some d1 -> exec_data I_ST d1 = Some d2 ->
  runs (pre ++ copy_insns ++ post) (mk_thread (off pre) c d) (mk_thread (off pre + off copy_insns) c d2).
Proof.
  intros H1 H2. unfold copy_insns. rewrite <- !app_assoc.
  etrans; [apply (runs_insn pre (_emit_LD ALWAYS)) with (i := I_LD); [done|cbn [exec_insn]; by rewrite H1]|].
  rewrite app_assoc, <- off_app.
  etrans; [apply (runs_insn _ _emit_RMB) with (i := I_BARRIER); [done|cbn [exec_insn]; by rewrite exec_barrier]|].
  rewrite app_assoc, <- off_app.
  etrans; [apply (runs_insn _ (_emit_ST ALWAYS)) with (i := I_ST); [done|cbn [exec_insn]; by rewrite H2]|].
  rewrite app_assoc, <- off_app.
  etrans; [apply (runs_insn _ _emit_WMB) with (i := I_BARRIER); [done|cbn [exec_insn]; by rewrite exec_barrier]|].
  rewrite !off_app. rewrite !Z.add_assoc. done.
Qed.

(** The engine stops at the load, or at the store behind it. *)
Lemma stops_LD d : exec_data I_LD d = None -> stops copy_insns d.
Proof.
  intros Hl pre post c. exists (mk_thread (off pre) c d). split_and!; [done| |done].
  unfold copy_insns. rewrite <- !app_assoc.
  apply (stuck_insn pre (_emit_LD ALWAYS) _ I_LD SZ_DMALD); [done|done|]. cbn [exec_insn]. by rewrite Hl.
Qed.

Lemma stops_ST d d1 : exec_data I_LD d = Some d1 -> exec_data I_ST d1 = None -> stops copy_insns d.
Proof.
  intros Hl Hs pre post c. unfold copy_insns. rewrite <- !app_assoc.
  exists (mk_thread (off ((pre ++ _emit_LD ALWAYS) ++ _emit_RMB)) c d1). split_and!.
  - etrans; [apply (runs_insn pre (_emit_LD ALWAYS)) with (i := I_LD); [done|cbn [exec_insn]; by rewrite Hl]|].
    rewrite (app_assoc pre), <- off_app.
    etrans; [apply (runs_insn _ _emit_RMB) with (i := I_BARRIER); [done|cbn [exec_insn]; by rewrite exec_barrier]|].
    by rewrite <- off_app.
  - rewrite (app_assoc pre), (app_assoc _ _emit_RMB).
    apply (stuck_insn _ (_emit_ST ALWAYS) _ I_ST SZ_DMAST); [done|done|]. cbn [exec_insn]. by rewrite Hs.
  - destruct d. cbn in Hl. destruct (burst_ok _ _ _); [|done]. by injection Hl as <-.
Qed.

Lemma nth_seqZ_map (f : Z -> Z) n k : 0 <= k < n -> nth (Z.to_nat k) (map f (seqZ 0 n)) 0 = f k.
Proof.
  intros Hk. apply nth_lookup_Some. change (map f) with (fmap f : list Z -> list Z).
  rewrite list_lookup_fmap, (lookup_seqZ_lt 0 n (Z.to_nat k)) by lia. cbn. f_equal. f_equal. lia.
Qed.

Lemma moves_copy c k :
  src_bytes c = k -> dst_bytes c = k -> src_incs c = true -> dst_incs c = true -> 0 < k ->
  0 < src_size c -> 0 < dst_size c -> k mod src_size c = 0 -> k mod dst_size c = 0 ->
  moves size (copied_range c) eq copy_insns k.
Proof.
  intros Hsb Hdb Hsi Hdi Hpos Hs0 Hd0 Hsa Hda pre post l n d Hn HN (Hc & Hs & Hd & Hf & Has & Had & Hm).
  destruct d as [sar dar ccr fifo m]. cbn [d_ccr d_sar d_dar d_fifo d_mem] in *. subst ccr sar dar fifo.
  assert (Hws : u32 (src + n) = src + n) by (apply u32_word; unfold word; lia).
  assert (Hwd : u32 (dst + n) = dst + n) by (apply u32_word; unfold word; lia).
  set (bytes := map (fun i => m (src + n + i)) (seqZ 0 k)).
  assert (Hlen : length bytes = Z.to_nat k) by (unfold bytes; rewrite length_map, length_seqZ; lia).
  exists l. eexists. split_and!; [eapply runs_copy| |done].
  - cbn [exec_data]. rewrite Hsb, Hsi, Hws. unfold burst_ok. rewrite Has, (proj2 (Z.leb_le _ _)) by lia. reflexivity.
  - cbn [exec_data app]. fold bytes. rewrite Hdb, Hdi, Hwd. unfold burst_ok, off. rewrite Had, Hlen, !(proj2 (Z.leb_le _ _)) by lia.
    reflexivity.
  - unfold copied_range. cbn [d_ccr d_sar d_dar d_fifo d_mem]. rewrite !Z.add_assoc. split_and!; try done.
    + by rewrite drop_ge by lia.
    + rewrite Z.add_mod, Has, Hsa by lia. apply Z.mod_0_l. lia.
    + rewrite Z.add_mod, Had, Hda by lia. apply Z.mod_0_l. lia.
    + intros x. apply fill_extend; [lia|lia|done|]. intros i Hi. unfold bytes. rewrite nth_seqZ_map by lia.
      rewrite Hm. unfold fill. rewrite Z.add_assoc.
      destruct (Z.leb_spec dst (src + n + i)), (Z.ltb_spec (src + n + i) (dst + n)); cbn; done || lia.
Qed.

End copy.

(** The control register for every legal burst between memories. *)
Definition burst_fields (len bs c : Z) : bool :=
  (src_bytes c =? len * 2 ^ bs) && (dst_bytes c =? len * 2 ^ bs) && (src_size c =? 2 ^ bs) && (dst_size c =? 2 ^ bs) &&
  src_incs c && dst_incs c.

Definition mem_reqcfg (cache : Z) : pl330_reqcfg := mk_reqcfg 1 1 base_nonsecure 1 0 0 0 cache cache 0.

Lemma mem_bursts_checked :
  forallb (fun cache => forallb (fun len => forallb (fun bs =>
    burst_fields len bs (_prepare_ccr (set_rq_brst len bs (mem_reqcfg cache)))) (seqZ 0 4)) (seqZ 1 16)) [1; 7] = true.
Proof. vm_compute. reflexivity. Qed.

Lemma mem_burst p len bs : transfer_type p = MEM2MEM -> 1 <= len <= 16 -> 0 <= bs <= 3 ->
  burst_fields len bs (_prepare_ccr (set_rq_brst len bs (setup_reqcfg p))) = true.
Proof.
  intros Ht Hl Hb. pose proof mem_bursts_checked as Hall.
  assert (E : exists cache, In cache [1; 7] /\ set_rq_brst len bs (setup_reqcfg p) = set_rq_brst len bs (mem_reqcfg cache)).
  { unfold setup_reqcfg. rewrite Ht. cbn. destruct (enable_cache1 p =? 0); [exists 1|exists 7]; cbn; auto. }
  destruct E as (cache & Hin & ->).
  rewrite forallb_forall in Hall. specialize (Hall _ Hin). cbv beta in Hall.
  rewrite forallb_forall in Hall. specialize (Hall len). rewrite <- list_elem_of_In, elem_of_seqZ in Hall.
  specialize (Hall ltac:(lia)). cbv beta in Hall.
  rewrite forallb_forall in Hall. specialize (Hall bs). rewrite <- list_elem_of_In, elem_of_seqZ in Hall.
  apply Hall. lia.
Qed.

Lemma burst_fields_spec len bs c : burst_fields len bs c = true ->
  src_bytes c = len * 2 ^ bs /\ dst_bytes c = len * 2 ^ bs /\ src_size c = 2 ^ bs /\ dst_size c = 2 ^ bs /\
  src_incs c = true /\ dst_incs c = true.
Proof. unfold burst_fields. rewrite !andb_true_iff, !Z.eqb_eq. tauto. Qed.

Lemma setup_burst p : transfer_type p = MEM2MEM -> 1 <= brst_len p <= 16 -> 0 <= brst_size p <= 3 ->
  burst_fields (brst_len p) (brst_size p) (_prepare_ccr (setup_reqcfg p)) = true.
Proof.
  intros Ht Hl Hb. rewrite <- (mem_burst p _ _ Ht Hl Hb). do 2 f_equal. unfold setup_reqcfg.
  by destruct (if transfer_type p =? MEM2PERIPH then _ else _), (if enable_cache1 p =? 0 then _ else _).
Qed.

Lemma fields_moves src dst size mem len bs c :
  0 <= src -> 0 <= dst -> src + size <= 2 ^ 32 -> dst + size <= 2 ^ 32 -> src + size <= dst \/ dst + size <= src ->
  burst_fields len bs c = true -> 1 <= len -> 0 <= bs ->
  moves size (copied_range src dst mem c) eq copy_insns (len * 2 ^ bs).
Proof.
  intros H0 H1 H2 H3 Hd Hf Hl Hb. destruct (burst_fields_spec _ _ _ Hf) as (Hsb & Hdb & Hs & Hds & Hi & Hdi).
  pose proof (Z.pow_pos_nonneg 2 bs ltac:(lia) Hb).
  apply moves_copy; try done; rewrite ?Hs, ?Hds; try done; try nia; apply Z.mod_mul; lia.
Qed.

Lemma mod_pow2_le a i j : 0 <= i <= j -> a mod 2 ^ j = 0 -> a mod 2 ^ i = 0.
Proof.
  intros Hij H. rewrite <- (Z.mod_mod_divide a (2 ^ j) (2 ^ i)); [by rewrite H|].
  exists (2 ^ (j - i)). rewrite <- Z.pow_add_r by lia. f_equal. lia.
Qed.

(** The whole bursts of a transfer end at a multiple of every single size. *)
Lemma bursts_end_mod size len bs sg : 0 <= sg <= 3 -> 0 <= bs -> exists k,
  size - size mod (256 * (len * 2 ^ bs)) = k * 2 ^ sg.
Proof.
  intros Hs Hb. destruct (Z.eq_dec len 0) as [->|Hl].
  { exists 0. rewrite !Z.mul_0_l, Z.mul_0_r, Z.mod_0_r. lia. }
  pose proof (Z.pow_pos_nonneg 2 bs ltac:(lia) Hb).
  exists (2 ^ (8 - sg) * (len * 2 ^ bs) * (size / (256 * (len * 2 ^ bs)))).
  rewrite Z.mod_eq by lia. replace 256 with (2 ^ (8 - sg) * 2 ^ sg); [lia|].
  rewrite <- Z.pow_add_r by lia. replace (8 - sg + sg) with 8 by lia. done.
Qed.

Lemma rest_mod size len bs sg : 0 <= sg <= 3 -> 0 <= bs ->
  size mod (256 * (len * 2 ^ bs)) mod 2 ^ sg = size mod 2 ^ sg.
Proof.
  intros Hs Hb. destruct (bursts_end_mod size len bs sg Hs Hb) as [k E].
  replace size with (size mod (256 * (len * 2 ^ bs)) + k * 2 ^ sg) at 2 by lia.
  rewrite Z.mod_add; [done|]. apply Z.pow_nonzero; lia.
Qed.

(** Where the single transfers take over: what the engine does at the first. *)
Section takeover.
Variables src dst size : Z.
Variable mem : Z -> Z.
Variables len bs sg c c' : Z.
Hypothesis Hsrc : 0 <= src.
Hypothesis Hdst : 0 <= dst.
Hypothesis Hsend : src + size <= 2 ^ 32.
Hypothesis Hdend : dst + size <= 2 ^ 32.
Hypothesis Hsg : 0 <= sg <= 3.
Hypothesis Hbs : 0 <= bs.
Hypothesis Hf : burst_fields 1 sg c' = true.
Let rest := size mod (256 * (len * 2 ^ bs)).
Hypothesis Hrest : 0 <= rest <= size.

Lemma takeover_addr a : (a + (size - rest)) mod 2 ^ sg = a mod 2 ^ sg.
Proof.
  unfold rest. destruct (bursts_end_mod size len bs sg Hsg Hbs) as [k ->]. apply Z.mod_add, Z.pow_nonzero; lia.
Qed.

Lemma takeover_aligned d : src mod 2 ^ sg = 0 -> dst mod 2 ^ sg = 0 -> copied_range src dst mem c (size - rest) d ->
  exists d', exec_data (I_MOV CCR c') d = Some d' /\ copied_range src dst mem c' (size - rest) d'.
Proof.
  intros Hs Hd (? & ? & ? & ? & _ & _ & ?). destruct d. destruct (burst_fields_spec _ _ _ Hf) as (_ & _ & Hs' & Hds' & _).
  eexists. split; [reflexivity|]. unfold copied_range. rewrite Hs', Hds', !takeover_addr. by split_and!.
Qed.

Lemma takeover_stops d : rest / 2 ^ sg <> 0 -> src mod 2 ^ sg <> 0 \/ dst mod 2 ^ sg <> 0 ->
  copied_range src dst mem c (size - rest) d ->
  exists d', exec_data (I_MOV CCR c') d = Some d' /\ d_mem d' = d_mem d /\ stops copy_insns d'.
Proof.
  intros Hnz Hbad (Hc & Hs & Hd & Hfi & _). destruct d as [sar dar ccr fifo m]. cbn [d_ccr d_sar d_dar d_fifo] in *. subst.
  destruct (burst_fields_spec _ _ _ Hf) as (Hsb & Hdb & Hss & Hds & Hsi & Hdi). rewrite Z.mul_1_l in Hsb, Hdb.
  assert (Hp : 0 < 2 ^ sg) by (apply Z.pow_pos_nonneg; lia).
  assert (Hroom : 2 ^ sg <= rest).
  { destruct (Z.lt_ge_cases rest (2 ^ sg)); [|done]. rewrite Z.div_small in Hnz by lia. done. }
  eexists. split; [reflexivity|]. split; [done|].
  assert (Hws : u32 (src + (size - rest)) = src + (size - rest)) by (apply u32_word; unfold word; lia).
  assert (Hwd : u32 (dst + (size - rest)) = dst + (size - rest)) by (apply u32_word; unfold word; lia).
  rewrite Hws, Hwd. destruct (Z.eq_dec (src mod 2 ^ sg) 0) as [E|E].
  - eapply stops_ST.
    + cbn [exec_data]. unfold burst_ok. rewrite Hss, Hsb, takeover_addr, E, (proj2 (Z.leb_le _ _)) by lia. reflexivity.
    + cbn [exec_data]. unfold burst_ok. rewrite Hds, takeover_addr, (proj2 (Z.eqb_neq _ _)) by lia. done.
  - apply stops_LD. cbn [exec_data]. unfold burst_ok. by rewrite Hss, takeover_addr, (proj2 (Z.eqb_neq _ _)).
Qed.
End takeover.

(** The code before the BURST loop, between memories. *)
Definition setup_head (p : pl330_transfer_struct) : list Z :=
  (_emit_MOV SAR (src_addr p) ++ _emit_MOV DAR (dst_addr p)) ++ [] ++ _emit_MOV CCR (_prepare_ccr (setup_reqcfg p)).

Lemma setup_start p sar dar ccr c mem post :
  word (src_addr p) -> word (dst_addr p) ->
  runs (setup_head p ++ post) (channel sar dar ccr c mem)
    (mk_thread (off (setup_head p)) c (mk_data (src_addr p) (dst_addr p) (_prepare_ccr (setup_reqcfg p)) [] mem)).
Proof.
  intros Hs Hd. unfold setup_head, channel. rewrite app_nil_l, <- !app_assoc. eapply rtc_l.
  { unfold dma_step. rewrite fetch_start, decode_MOV by done. reflexivity. }
  etrans; [apply (runs_insn (_emit_MOV SAR (src_addr p)) (_emit_MOV DAR (dst_addr p))) with (i := I_MOV DAR (dst_addr p));
    [intros; by apply decode_MOV|reflexivity]|].
  rewrite app_assoc, <- off_app.
  apply (runs_insn (_ ++ _) (_emit_MOV CCR _)) with (i := I_MOV CCR (_prepare_ccr (setup_reqcfg p)));
    [intros; apply decode_MOV, word_u32|]. cbn [exec_insn exec_data]. by rewrite !off_app.
Qed.

(** What the driver checked when it returns 0. *)
Lemma setup_checked {D G} `{Device D} p (s : st D G) code :
  transfer_type p = MEM2MEM -> 0 <= brst_size p -> out (pl330_transfer_setup p s) = Val (0, code) ->
  brst_size p <= 3 /\ single_brst_size p <= 3 /\ 1 <= brst_len p <= 16 /\
  src_addr p mod 2 ^ brst_size p = 0 /\ dst_addr p mod 2 ^ brst_size p = 0 /\
  out (emit_phases (brst_len p * 2 ^ brst_size p) p (setup_reqcfg p) copy_insns copy_insns (setup_head p) s) = Val (0, code).
Proof.
  intros Ht Hb. unfold pl330_transfer_setup, burst_insns. rewrite Ht. cbn [Z.eqb MEM2MEM].
  change PL330_DMA_MAX_BURST_SIZE with 3.
  destruct (Z.ltb_spec 3 (brst_size p)); [done|]. destruct (Z.ltb_spec 3 (single_brst_size p)); [done|].
  destruct (Z.ltb_spec (brst_len p) 1); [done|]. destruct (Z.ltb_spec 16 (brst_len p)); [done|]. cbn [orb].
  rewrite !Z.shiftl_1_l. replace (2 ^ brst_size p - 1) with (Z.ones (brst_size p)) by (rewrite Z.ones_equiv; lia).
  rewrite !Z.land_ones by lia. unfold truthy.
  destruct (Z.eqb_spec (src_addr p mod 2 ^ brst_size p) 0); [|done].
  destruct (Z.eqb_spec (dst_addr p mod 2 ^ brst_size p) 0); [|done]. cbn [negb].
  assert (2 ^ brst_size p <= 2 ^ 3) by (apply Z.pow_le_mono_r; lia).
  rewrite u32_word by (unfold word; nia). rewrite (Z.mul_comm (2 ^ _)). intros Hout. split_and!; done || lia.
Qed.

(** The bytes behind the last whole bursts, and whether both addresses suit the
    single transfers, if there are any: the driver only checks them against
    the size of a burst beat. *)
Definition setup_rest (p : pl330_transfer_struct) : Z := size_byte p mod (256 * (brst_len p * 2 ^ brst_size p)).

Definition singles_aligned (p : pl330_transfer_struct) : bool :=
  (setup_rest p / 2 ^ single_brst_size p =? 0) ||
  ((src_addr p mod 2 ^ single_brst_size p =? 0) && (dst_addr p mod 2 ^ single_brst_size p =? 0)).

Section copy_engine.
Context {D G : Type} `{Device D}.
Variable p : pl330_transfer_struct.
Variable s : st D G.
Variable code : list Z.
Variables sar dar ccr : Z.
Variable c : Z * Z.
Variable mem : Z -> Z.
Hypothesis Ht : transfer_type p = MEM2MEM.
Hypothesis Hsz : word (size_byte p).
Hypothesis Hsw : word (src_addr p).
Hypothesis Hdw : word (dst_addr p).
Hypothesis Hse : src_addr p + size_byte p <= 2 ^ 32.
Hypothesis Hde : dst_addr p + size_byte p <= 2 ^ 32.
Hypothesis Hdisj : src_addr p + size_byte p <= dst_addr p \/ dst_addr p + size_byte p <= src_addr p.
Hypothesis Hbs : 0 <= brst_size p.
Hypothesis Hsg : 0 <= single_brst_size p.
Hypothesis Hout : out (pl330_transfer_setup p s) = Val (0, code).

Let burst := brst_len p * 2 ^ brst_size p.
Let c1 := _prepare_ccr (setup_reqcfg p).
Let c2 := _prepare_ccr (set_rq_brst 1 (single_brst_size p) (setup_reqcfg p)).
Let inv := copied_range (src_addr p) (dst_addr p) mem.

Lemma setup_facts : single_brst_size p <= 3 /\ 0 < burst <= 128 /\ 0 <= setup_rest p <= size_byte p /\
  burst_fields (brst_len p) (brst_size p) c1 = true /\ burst_fields 1 (single_brst_size p) c2 = true /\
  moves (size_byte p) (inv c1) eq copy_insns burst /\ progress (inv c1) (mk_data sar dar ccr [] mem) (setup_head p) 0 /\
  out (emit_phases burst p (setup_reqcfg p) copy_insns copy_insns (setup_head p) s) = Val (0, code).
Proof.
  destruct (setup_checked p s code Ht Hbs Hout) as (Hb & Hs3 & Hl & Has & Had & Hout').
  pose proof (setup_burst p Ht Hl ltac:(lia)) as F1. fold c1 in F1.
  pose proof (mem_burst p 1 (single_brst_size p) Ht ltac:(lia) ltac:(lia)) as F2.
  assert (Hp : 0 < 2 ^ brst_size p <= 2 ^ 3) by (split; [apply Z.pow_pos_nonneg|apply Z.pow_le_mono_r]; lia).
  assert (Hb0 : 0 < burst <= 128) by (unfold burst; nia). unfold word in Hsz, Hsw, Hdw.
  split_and!; try done; try lia.
  - apply Z.mod_pos_bound. fold burst. lia.
  - apply Z.mod_le; fold burst; lia.
  - apply fields_moves; done || lia.
  - intros post l. eexists l, _. split; [by apply setup_start|]. unfold inv, copied_range. cbn [d_ccr d_sar d_dar d_fifo d_mem].
    destruct (burst_fields_spec _ _ _ F1) as (_ & _ & -> & -> & _). rewrite !Z.add_0_r, !u32_word by done.
    split_and!; try done. intros x. by rewrite fill_nil.
Qed.

Lemma setup_run : singles_aligned p = true ->
  exists t, runs code (channel sar dar ccr c mem) t /\ at_end code t /\
    forall x, d_mem (d_data t) x =
      fill (dst_addr p) (size_byte p - size_byte p mod 2 ^ single_brst_size p) (fun k => mem (src_addr p + k)) mem x.
Proof.
  intros Hal. destruct setup_facts as (Hs3 & Hb0 & Hr & F1 & F2 & M1 & P0 & Hout').
  unfold word in Hsw, Hdw.
  assert (M2 : moves (size_byte p) (inv c2) eq copy_insns (2 ^ single_brst_size p)).
  { rewrite <- (Z.mul_1_l (2 ^ _)). apply fields_moves; done || lia. }
  assert (Hmov : handover burst (size_byte p) (single_brst_size p) (inv c1) (inv c2) (setup_reqcfg p)).
  { intros Hnz d Hd. unfold singles_aligned, setup_rest in Hal. fold burst in Hal.
    rewrite (proj2 (Z.eqb_neq _ _) Hnz) in Hal. apply andb_true_iff in Hal as [Hs Hd']. apply Z.eqb_eq in Hs, Hd'.
    by eapply takeover_aligned. }
  destruct (phases_run burst (size_byte p) (single_brst_size p) (inv c1) (inv c2) (mk_data sar dar ccr [] mem) (setup_reqcfg p)
    copy_insns copy_insns ltac:(lia) ltac:(lia) ltac:(done) ltac:(done) M1 M2 p (setup_head p) s code c)
    as (t & m & R & He & Em & Hm); try done; [lia|].
  exists t. split_and!; [done|done|].
  unfold burst in Em. rewrite rest_mod in Em by lia. rewrite <- Em.
  by destruct Hm as [(_ & _ & _ & _ & _ & _ & Hm)|(_ & _ & _ & _ & _ & _ & Hm)].
Qed.

Lemma setup_stuck : singles_aligned p = false ->
  exists t, runs code (channel sar dar ccr c mem) t /\ stuck code t /\
    forall x, d_mem (d_data t) x =
      fill (dst_addr p) (size_byte p - setup_rest p) (fun k => mem (src_addr p + k)) mem x.
Proof.
  intros Hal. destruct setup_facts as (Hs3 & Hb0 & Hr & F1 & F2 & M1 & P0 & Hout').
  unfold word in Hsw, Hdw. unfold singles_aligned in Hal. apply orb_false_iff in Hal as [Hnz Hal].
  apply Z.eqb_neq in Hnz. apply andb_false_iff in Hal. rewrite !Z.eqb_neq in Hal.
  destruct (phases_stuck burst (size_byte p) (single_brst_size p) (inv c1) (mk_data sar dar ccr [] mem) (setup_reqcfg p)
    copy_insns copy_insns ltac:(lia) ltac:(lia) ltac:(done) ltac:(done) M1 p (setup_head p) s code c)
    as (t & d & R & Hst & (_ & _ & _ & _ & _ & _ & Hm) & Hmm); try done; [lia| |].
  - intros d Hd.
    apply (takeover_stops (src_addr p) (dst_addr p) (size_byte p) mem (brst_len p) (brst_size p) (single_brst_size p) c1 c2);
      done || lia.
  - exists t. split_and!; [done|done|]. intros x. by rewrite Hmm, Hm.
Qed.

End copy_engine.


(** ** Concrete transfers *)

Definition wit_transfer (src dst size : Z) : pl330_transfer_struct :=
  mk_transfer 0 src dst size 3 0 16 0 MEM2MEM 0 pl330_buf_len 0xffff8000.

Definition dma_st : st ram unit := mk_st ∅ tt.

Definition code_of {D G} (r : res D G (Z * list Z)) : list Z := match out r with Val (_, c) => c | Stop _ => [] end.

Lemma transfer_zeroes_returns_witness :
  exists rc code, out (pl330_transfer_zeroes (wit_transfer 0 0x1000 98381) dma_st) = Val (rc, code) /\ rc = 0.
Proof.
  destruct (transfer_zeroes_returns (wit_transfer 0 0x1000 98381) dma_st) as (rc & code & Ho & _ & _ & Hr).
  - vm_compute. split; [discriminate|done].
  - exists rc, code. split; [exact Ho|]. destruct Hr as [[? _]|[_ [Hn _]]]; [done|].
    exfalso. apply Hn. vm_compute. repeat split; right; discriminate.
Defined.


(** A range of 32 KiB from address 4: the driver returns 0, the engine stops at
    once. *)
Lemma zeroes_misaligned_accepted :
  let r := pl330_transfer_zeroes (wit_transfer 0 4 32768) dma_st in
  out r = Val (0, code_of r) /\
  exists t, runs (code_of r) (channel 7 7 7 (7, 7) (fun x => x)) t /\ stuck (code_of r) t /\ d_mem (d_data t) 4 = 4.
Proof.
  cbv zeta. set (r := pl330_transfer_zeroes _ _).
  assert (Hout : out r = Val (0, code_of r)) by (vm_compute; reflexivity). split; [exact Hout|].
  destruct (zeroes_stuck_burst (wit_transfer 0 4 32768) dma_st (code_of r) 7 7 7 (7, 7) (fun x => x))
    as (t & R & Hs & Hm); try done.
  exists t. split_and!; [done|done|by rewrite Hm].
Qed.


(** Bursts of bytes and single transfers of 8: the driver accepts odd addresses,
    the engine stops before it copies anything. *)
Definition misaligned_single : pl330_transfer_struct :=
  mk_transfer 0 0x200001 0x1001 8 0 3 16 0 MEM2MEM 0 pl330_buf_len 0xffff8000.

Lemma setup_misaligned_accepted :
  let r := pl330_transfer_setup misaligned_single dma_st in
  out r = Val (0, code_of r) /\
  exists t, runs (code_of r) (channel 7 7 7 (7, 7) (fun x => x)) t /\ stuck (code_of r) t /\
    d_mem (d_data t) 0x1001 = 0x1001.
Proof.
  cbv zeta. set (r := pl330_transfer_setup _ _).
  assert (Hout : out r = Val (0, code_of r)) by (vm_compute; reflexivity). split; [exact Hout|].
  destruct (setup_stuck misaligned_single dma_st (code_of r) 7 7 7 (7, 7) (fun x => x))
    as (t & R & Hs & Hm); try done; [by right|].
  exists t. split_and!; [done|done|]. rewrite Hm. reflexivity.
Qed.
