(* ===== verification/EccInit.v ===== *)
(** Running the engine (pl330_start, pl330_transfer_finish) and sdram_ecc_init:
    what a return of these functions says about the hardware. *)

From S2P Require Import Prelude Mmio Regs Globals Timer SdramMmr Pl330 DmaEngine DmaTransfer.

Section start.
Context {D G : Type} `{Device D}.
Abbreviation M := (M D G).

(** The debug instruction DMAGO for channel 0 and its address. *)
Definition go_insn (addr : Z) : list (event -> Prop) :=
  [(fun e => e = Wr (PL330_DMA_BASE + DBGINST0) 0x00a00000);
   (fun e => e = Wr (PL330_DMA_BASE + DBGINST1) addr)].

(** The manager was seen idle, and then the instruction was started. *)
Definition manager_idle (e : event) : Prop :=
  exists v, e = Rd (PL330_DMA_BASE + DBGSTATUS) v /\ truthy (v .& DBG_BUSY) = false.
Definition go_started : list (event -> Prop) := [manager_idle; fun e => e = Wr (PL330_DMA_BASE + DBGCMD) 0].
Definition manager_halted : list (event -> Prop) := [fun e => e = Msg "DMAC halted!"].

Definition dma_go (addr : Z) (t : trace) : Prop :=
  seen (go_insn addr ++ go_started) t \/ seen (go_insn addr ++ manager_halted) t.

Lemma dma_go_prefix addr t t' : dma_go addr t' -> dma_go addr (t ++ t').
Proof. intros [?|?]; [left|right]; by apply seen_prefix. Qed.

Lemma dma_go_suffix addr t t' : dma_go addr t -> dma_go addr (t ++ t').
Proof. intros [?|?]; [left|right]; by apply seen_suffix. Qed.

Lemma until_idle_seen loops (s : st D G) : 0 <= loops ->
  wp (pl330_until_dmac_idle loops) s (fun o _ t => exists r, o = Val r /\ (r = 0 -> seen [manager_idle] t)).
Proof.
  intros Hl. unfold pl330_until_dmac_idle. wp_step. eapply wp_mono.
  { apply (seen_for _ _ (fun _ => [manager_idle])); [done|]. intros i s'.
    wp_step. wp_step. wp_step. eexists. split; [done|]. destruct (truthy (v .& DBG_BUSY)) eqn:E; [done|].
    apply seen_hit; [|constructor]. eexists. by split. }
  cbv beta. intros o s' t (r & -> & Hr). wp_step. rewrite app_nil_r. eexists. split; [done|]. by destruct r.
Qed.

Lemma dbginsn_seen insn channel loops (s : st D G) : 0 <= loops ->
  let writes := [(fun e => e = Wr (PL330_DMA_BASE + DBGINST0)
                      (u32 ((insn_byte insn 0 .<< 16) .| (insn_byte insn 1 .<< 24) .| (channel .<< 8))));
                 (fun e => e = Wr (PL330_DMA_BASE + DBGINST1)
                      (u32 (of_le (insn_byte insn 2) (insn_byte insn 3) (insn_byte insn 4) (insn_byte insn 5))))] in
  wp (pl330_execute_DBGINSN insn 1 channel loops) s (fun o _ t => o = Val tt /\
    (seen (writes ++ go_started) t \/ seen (writes ++ manager_halted) t)).
Proof.
  intros Hl writes. unfold pl330_execute_DBGINSN. eval_truthy. do 4 wp_step.
  wp_call until_idle_seen; [done|]. intros o s1 t1 (r & -> & Hr). cbv beta iota.
  destruct (truthy r) eqn:Er; wp_step; (split; [done|]); [right|left].
  - do 2 (apply seen_hit; [reflexivity|]). apply seen_prefix, seen_hit; [reflexivity|constructor].
  - do 2 (apply seen_hit; [reflexivity|]). apply (seen_app [_] [_]); [|apply seen_hit; [reflexivity|constructor]].
    apply Hr. apply negb_false_iff, Z.eqb_eq in Er. done.
Qed.

Lemma trigger_seen buffer loops (s : st D G) : 0 <= loops -> word buffer ->
  wp (pl330_trigger 0 buffer loops) s (fun o _ t => exists r, o = Val r /\ (r = 0 -> dma_go buffer t)).
Proof.
  intros Hl Hb. unfold pl330_trigger, pl330_getstate. wp_step. wp_step. wp_step. wp_step.
  destruct (negb _); [wp_step; eexists; by split|].
  wp_call dbginsn_seen; [done|]. intros o s1 t1 [-> Hs]. cbv beta iota.
  wp_step. eexists. split; [done|]. intros _. rewrite app_nil_r. apply dma_go_prefix.
  unfold insn_byte, _emit_GO, mov_bytes in Hs. cbn [nth go_addr] in Hs.
  rewrite of_le_bytes, u32_idem, (u32_word buffer) in Hs by (done || apply word_u32). rewrite ?app_nil_r. exact Hs.
Qed.

(** Every return of 0 goes through the trigger. *)
Lemma start_seen fuel buffer loops (s : st D G) : 0 <= loops -> word buffer ->
  wp (pl330_start fuel 0 0 buffer loops) s (fun o _ t => o = Val 0 -> dma_go buffer t).
Proof.
  intros Hl Hb. unfold pl330_start. cbv zeta.
  set (until := until_state fuel 0 0). set (stopped := pl330_trigger 0 buffer loops).
  assert (Hstop : forall s, wp stopped s (fun o _ t => o = Val 0 -> dma_go buffer t)).
  { intros s0. eapply wp_mono; [by apply trigger_seen|]. intros o s' t (r & -> & Hr) [= ->]. auto. }
  assert (Hskip : forall A (m : M A) (k : A -> M Z),
    (forall a s, wp (k a) s (fun o _ t => o = Val 0 -> dma_go buffer t)) ->
    forall s, wp (bind m k) s (fun o _ t => o = Val 0 -> dma_go buffer t)).
  { intros A m k Hk s0. unfold wp, bind. destruct (out (m s0)) as [a|]; cbn; [|done].
    intros Hv. by apply dma_go_prefix, Hk. }
  assert (Hno : forall s, wp (ret 1 : M Z) s (fun o _ t => o = Val 0 -> dma_go buffer t)) by (intros; by apply wp_ret).
  repeat first [ apply Hstop | apply Hno | apply Hskip; intros
    | match goal with |- wp (if ?b then _ else _) _ _ => destruct b end ].
Qed.

(** Readings of the status register of channel 0, and the state in one. *)
Definition status_read (v : Z) : event := Rd (PL330_DMA_BASE + CS 0) v.
Definition channel_state (v : Z) : Z := state_of 0 (v .& 0xf).
Definition ended (v : Z) : Prop := In (channel_state v) [PL330_STATE_STOPPED; PL330_STATE_FAULTING].

Lemma final_state v : truthy (state_of 0 (v .& 0xf) .& (PL330_STATE_STOPPED .| PL330_STATE_FAULTING)) = true ->
  In (state_of 0 (v .& 0xf)) [PL330_STATE_STOPPED; PL330_STATE_FAULTING].
Proof.
  change 0xf with (Z.ones 4). rewrite Z.land_ones by lia.
  assert (Hr : In (v mod 2 ^ 4) (seqZ 0 16)).
  { apply list_elem_of_In, elem_of_seqZ. pose proof (Z.mod_pos_bound v (2 ^ 4)). lia. }
  revert Hr. generalize (v mod 2 ^ 4). 
  apply (proj1 (List.Forall_forall (fun z => truthy (state_of 0 z .& (PL330_STATE_STOPPED .| PL330_STATE_FAULTING)) = true ->
    In (state_of 0 z) [PL330_STATE_STOPPED; PL330_STATE_FAULTING]) (seqZ 0 16))).
  let l := eval vm_compute in (seqZ 0 16) in change (seqZ 0 16) with l.
  repeat (apply List.Forall_cons; [vm_compute; (discriminate || auto)|]). constructor.
Qed.

Lemma not_final_state v :
  truthy (channel_state v .& (PL330_STATE_STOPPED .| PL330_STATE_FAULTING)) = false -> ~ ended v.
Proof. intros Hf [E|[E|[]]]; rewrite <- E in Hf; vm_compute in Hf; discriminate. Qed.

(** The wait reads the status until the channel has ended. *)
Lemma until_readings fuel (s : st D G) :
  wp (until_state fuel 0 0 (PL330_STATE_STOPPED .| PL330_STATE_FAULTING)) s (fun o _ t =>
    o = Val tt -> exists vs v, t = map status_read (vs ++ [v]) /\ Forall (fun v => ~ ended v) vs /\ ended v).
Proof.
  unfold until_state. revert s. induction fuel as [|fuel IH]; intros s; [by wp_run|].
  cbn [while_fuel]. do 2 wp_step. unfold pl330_getstate. do 4 wp_step.
  destruct (truthy _) eqn:E.
  - wp_step. intros _. exists [], v. split_and!; [done|constructor|]. by apply final_state.
  - eapply wp_mono; [apply IH|]. cbv beta. intros o s' t Ho Hv. destruct (Ho Hv) as (vs & w & -> & Hvs & Hw).
    exists (v :: vs), w. split_and!; [done| |done]. constructor; [by apply not_final_state|done].
Qed.

(** A return of 0: the wait ended, and the state was read once more and was no
    fault. *)
Lemma finish_readings fuel p (s : st D G) : channel_num p = 0 ->
  wp (pl330_transfer_finish fuel p) s (fun o _ t => o = Val 0 -> exists vs v w,
    t = map status_read (vs ++ [v; w]) /\ Forall (fun v => ~ ended v) vs /\ ended v /\
    channel_state w <> PL330_STATE_FAULTING).
Proof.
  intros Hc. unfold pl330_transfer_finish. rewrite Hc. wp_call until_readings.
  intros o s' t Hu. destruct o as [[]|]; [|done]. destruct (Hu eq_refl) as (vs & v & -> & Hvs & Hv).
  unfold pl330_getstate. do 4 wp_step. rename v0 into w.
  destruct (Z.eqb_spec (state_of 0 (w .& 0xf)) PL330_STATE_FAULTING) as [|Hne]; cbv iota.
  { by wp_run. }
  wp_step. intros _. exists vs, v, w. split_and!; [|done..]. by rewrite !map_app, <- app_assoc.
Qed.
End start.

(** ** sdram_ecc_init *)

Section ecc.
Context {D : Type} `{Device D}.

Lemma calculate_size_word (s : st D gdata) :
  wp sdram_calculate_size s (fun o _ _ => forall size, o = Val size -> word size).
Proof.
  unfold sdram_calculate_size. do 6 wp_step. destruct (_ >? 31); [by wp_run|]. apply wp_ret. intros size [= <-]. apply word_u32.
Qed.

Lemma wp_any {A} (m : M D gdata A) s (Q : outcome A -> st D gdata -> trace -> Prop) :
  (forall o s' t, Q o s' t) -> wp m s Q.
Proof. intros HQ. apply HQ. Qed.

(** C23: A return of sdram_ecc_init: the memory size is the one of the registers,
    the engine was pointed at the code, which clears the whole memory and
    nothing else and fits its buffer, and then the status of the channel was
    read until it had ended and once more, without a fault in that last reading,
    before the success was reported.  Whether the code was started is another
    matter: the driver goes on when the manager stays busy. *)
Theorem ecc_init_clears fuel pl330_buf junk (s : st D gdata) code size :
  word pl330_buf ->
  out (sdram_calculate_size s) = Val size ->
  let r := sdram_ecc_init fuel pl330_buf junk s in
  out r = Val code ->
  off code <= pl330_buf_len + 1 /\
  (forall sar dar ccr c mem, exists t, runs code (channel sar dar ccr c mem) t /\ at_end code t /\
     forall x, d_mem (d_data t) x = fill 0 (size - size mod 2) (fun _ => 0) mem x) /\
  (exists t1 vs v w now, dma_go pl330_buf t1 /\
     tr r = t1 ++ map status_read (vs ++ [v; w]) ++
       [Rd timer_base_curr_val now; Msg "SDRAM: ECC initialized successfully"] /\
     Forall (fun v => ~ ended v) vs /\ ended v /\ channel_state w <> PL330_STATE_FAULTING).
Proof.
  intros Hb Hsize r. unfold r. clear r. wp_enter. unfold sdram_ecc_init.
  pose proof (calculate_size_word s) as Hw. unfold wp in Hw. specialize (Hw _ Hsize).
  wp_step. apply (wp_out _ _ _ _ Hsize). cbv beta iota.
  set (p := ecc_transfer pl330_buf size junk).
  do 3 wp_step. apply wp_any. intros [[]|] s1 t1; [|done]. wp_step. apply wp_any. intros [start|] s2 t2; [|done].
  destruct (zeroes_result p s2 Hw) as (rc & code' & Ho & _ & _ & Hrc).
  wp_step. apply (wp_out _ _ _ _ Ho). cbv beta iota.
  destruct Hrc as [(-> & _ & Hlen)|(-> & _)]; eval_truthy; unfold when at 1; wp_step; [|by wp_run].
  wp_step. wp_step. unfold pl330_transfer_start. cbv zeta.
  change (channel_num p) with 0. change (buf p) with pl330_buf.
  eapply wp_mono; [apply (start_seen (D := D) (G := gdata) fuel pl330_buf 10000); done|]. cbv beta.
  intros [rc|] s3 t3 Hgo; [|done]. wp_step. unfold when at 1.
  destruct (truthy rc) eqn:Erc; [by wp_run|]. apply negb_false_iff, Z.eqb_eq in Erc. subst rc. specialize (Hgo eq_refl).
  do 2 wp_step. eapply wp_mono; [by apply (finish_readings (D := D) (G := gdata) fuel p)|]. cbv beta.
  intros [rc|] s4 t4 Hfin; [|done]. wp_step. unfold when at 1.
  destruct (truthy rc) eqn:Erc; [by wp_run|]. apply negb_false_iff, Z.eqb_eq in Erc. subst rc.
  destruct (Hfin eq_refl) as (vs & v & w & -> & Hvs & Hv & Hne).
  do 2 wp_step. eapply wp_mono; [apply get_timer_step|]. intros o s5 t5 (now & _ & -> & -> & _).
  cbv iota. do 3 wp_step. intros [= ->].
  split_and!; [exact Hlen| |].
  - intros sar dar ccr c mem. apply (zeroes_run p s2 code); try done.
    change (0 + size <= 2 ^ 32). unfold word in Hw. lia.
  - eexists (tr (sdram_calculate_size s) ++ [Msg _] ++ t1 ++ t2 ++ tr (pl330_transfer_zeroes p s2) ++ t3), vs, v, w, now.
    split_and!; [do 5 apply dma_go_prefix; exact Hgo|by rewrite <- !app_assoc|done..].
Qed.
End ecc.

(** The buffer of 2500 bytes is large enough for the 1 GiB of the board. *)
Lemma board_ecc_accepted buf junk : zeroes_accepts (ecc_transfer buf 0x40000000 junk).
Proof. unfold zeroes_accepts, accepts. cbn -[turns]. vm_compute. repeat split; auto; right; discriminate. Qed.

(** ** Concrete runs *)

(** The memory of the board as the controller describes it after its set-up,
    with [busy] in the status register of the DMA manager. *)
Definition ecc_board (busy : Z) : st ram gdata :=
  mk_st (<[PL330_DMA_BASE + DBGSTATUS := busy]>
           (dev (fin (sdram_mmr_init_full 0xffffffff (SdramProt.accept_rule 0 0) (mk_st (∅ : ram) gdata0))))) gdata0.

Definition ecc_run (busy : Z) : res ram gdata (list Z) :=
  sdram_ecc_init 1 0xffff8000 (wit_transfer 0 0 0) (ecc_board busy).

Definition ecc_code (busy : Z) : list Z := match out (ecc_run busy) with Val c => c | Stop _ => [] end.

Lemma ecc_init_clears_witness :
  exists t, runs (ecc_code 0) (channel 7 7 7 (7, 7) (fun x => x)) t /\ at_end (ecc_code 0) t /\
    d_mem (d_data t) 0x3fffffff = 0 /\ d_mem (d_data t) 0x40000000 = 0x40000000.
Proof.
  destruct (ecc_init_clears 1 0xffff8000 (wit_transfer 0 0 0) (ecc_board 0) (ecc_code 0) 0x40000000) as (_ & Hrun & _).
  - vm_compute. split; [discriminate|done].
  - vm_compute. reflexivity.
  - vm_compute. reflexivity.
  - destruct (Hrun 7 7 7 (7, 7) (fun x => x)) as (t & R & He & Hm). exists t.
    split; [exact R|]. split; [exact He|]. rewrite !Hm. split; reflexivity.
Defined.

Definition has_msg (m : string) (t : trace) : bool :=
  existsb (fun e => match e with Msg m' => String.eqb m m' | _ => false end) t.

(** A manager that stays busy: nothing is started, no memory is cleared, and the
    preloader reports success. *)
Lemma ecc_init_reports_success_when_halted :
  is_val (out (ecc_run 1)) /\ writes_at (PL330_DMA_BASE + DBGCMD) (tr (ecc_run 1)) = [] /\
  has_msg "DMAC halted!" (tr (ecc_run 1)) = true /\
  has_msg "SDRAM: ECC initialized successfully" (tr (ecc_run 1)) = true.
Proof. split; [eexists; vm_compute; reflexivity|]. split_and!; vm_compute; reflexivity. Qed.
