(* ===== verification/Blinker.v ===== *)
(** The blinker peripheral (ip/blinker/blinker.vhd) and the constants that its
    Linux drivers share (blinker_module.h).

    The entity is a synchronous circuit: [clk] is one rising edge with the
    buttons, the switches and the Avalon bus at given values.  The pulse
    shaper's registers are part of the state although nothing reads them: the
    architecture connects [sync_buttons] straight to the buttons. *)

From S2P Require Import Prelude.

(** ** blinker_module.h *)

Definition SYSTEM_BUS_WIDTH : Z := 8.
Definition IO_CALC_ADDRESS_NATIVE (base regnum : Z) : Z := base + regnum * (SYSTEM_BUS_WIDTH / 8).
Definition BLINKER_BASE : Z := 0xff240000.

Definition BLINKER_SPEED_REG : Z := 0.
Definition BLINKER_CONFIG_REG : Z := 1.
Definition BLINKER_LEDS_REG : Z := 0.
Definition BLINKER_STATE_REG : Z := 1.

Definition IOADDR_BLINKER_SPEED (base : Z) : Z := IO_CALC_ADDRESS_NATIVE base BLINKER_SPEED_REG.
Definition IOADDR_BLINKER_CONFIG (base : Z) : Z := IO_CALC_ADDRESS_NATIVE base BLINKER_CONFIG_REG.
Definition IOADDR_BLINKER_LEDS (base : Z) : Z := IO_CALC_ADDRESS_NATIVE base BLINKER_LEDS_REG.
Definition IOADDR_BLINKER_STATE (base : Z) : Z := IO_CALC_ADDRESS_NATIVE base BLINKER_STATE_REG.

Definition BLINKER_CONFIG_MSK : Z := 0x07.
Definition BLINKER_START_MSK : Z := 0x01.
Definition BLINKER_STOP_MSK : Z := 0xfe.
Definition BLINKER_BLINK_MSK : Z := 0x02.
Definition BLINKER_SHIFT_MSK : Z := 0xfd.
Definition BLINKER_IENA_MSK : Z := 0x04.
Definition BLINKER_IDIS_MSK : Z := 0xfb.

(** The error number both drivers use. *)
Definition EINVAL : Z := 22.

(** ** The circuit *)

Record pins := mk_pins { switches : Z; buttons : Z }.

Definition button (i : Z) (p : pins) : bool := Z.testbit (buttons p) i.

(** What the bus does in a clock cycle; the address is one bit. *)
Inductive bus :=
| Idle
| Read (address : bool)
| Write (address : bool) (writedata : Z).

Definition written (r : bus) (a : bool) : option Z :=
  match r with Write b d => if eqb a b then Some d else None | _ => None end.

Record blinker := mk_blinker {
  cur_value : Z;
  last_value : Z;
  speed : Z;
  mode : bool;
  running : bool;
  count : Z;
  position : Z;
  ena_irq : bool;
  irq : bool
}.

Definition reset : blinker :=
  mk_blinker 0xF 0xF 8 true true 0 0 false false.

(** [16 - speed] on four bits. *)
Definition delay (b : blinker) : Z := (16 - speed b) mod 16.

Definition sweep (pos : Z) : Z :=
  match pos with
  | 0 => 0x01 | 1 => 0x02 | 2 => 0x04 | 3 => 0x08 | 4 => 0x10 | 5 => 0x20 | 6 => 0x40 | 7 => 0x80
  | 8 => 0x40 | 9 => 0x20 | 10 => 0x10 | 11 => 0x08 | 12 => 0x04 | 13 => 0x02
  | _ => 0
  end.

Definition leds (p : pins) (b : blinker) : Z :=
  if mode b then
    if Z.testbit (position b) 0 then 0xFF - switches p else switches p
  else sweep (position b).

(** [speed & '0' & ena_irq & mode & running] *)
Definition state_byte (b : blinker) : Z :=
  16 * speed b + 4 * b2z (ena_irq b) + 2 * b2z (mode b) + b2z (running b).

Definition readdata (r : bus) (p : pins) (b : blinker) : Z :=
  match r with
  | Read true => state_byte b
  | Read false => leds p b
  | _ => 0
  end.

Definition next_speed (p : pins) (r : bus) (b : blinker) : Z :=
  if button 0 p && negb (speed b =? 15) then (speed b + 1) mod 16
  else if button 1 p && negb (speed b =? 1) then (speed b - 1) mod 16
  else match written r false with Some d => d mod 16 | None => speed b end.

Definition next_mode (p : pins) (r : bus) (b : blinker) : bool :=
  if button 3 p then negb (mode b)
  else match written r true with Some d => Z.testbit d 0 | None => mode b end.

Definition next_running (p : pins) (r : bus) (b : blinker) : bool :=
  if button 2 p then negb (running b)
  else match written r true with Some d => Z.testbit d 1 | None => running b end.

Definition next_count (b : blinker) : Z :=
  if running b then if count b =? 0 then delay b * 2 ^ 20 else count b - 1 else count b.

Definition next_position (b : blinker) : Z :=
  if running b && (count b =? 0) then
    if position b =? 13 then 0 else (position b + 1) mod 16
  else position b.

Definition next_ena_irq (r : bus) (b : blinker) : bool :=
  match written r true with Some d => Z.testbit d 2 | None => ena_irq b end.

Definition any_button (p : pins) : bool := button 0 p || button 1 p || button 2 p || button 3 p.

Definition next_irq (p : pins) (r : bus) (b : blinker) : bool :=
  if any_button p && ena_irq b then true
  else match r with Read true => false | _ => irq b end.

Definition clk (p : pins) (r : bus) (b : blinker) : blinker :=
  mk_blinker (buttons p) (cur_value b) (next_speed p r b) (next_mode p r b) (next_running p r b)
    (next_count b) (next_position b) (next_ena_irq r b) (next_irq p r b).

(** ** The circuit's own correctness *)

Record wf (b : blinker) : Prop := {
  wf_speed : 0 <= speed b < 16;
  wf_count : 0 <= count b < 2 ^ 24;
  wf_position : 0 <= position b <= 13
}.

Lemma delay_range b : 0 <= delay b < 16.
Proof. unfold delay. apply Z.mod_pos_bound. lia. Qed.

Lemma clk_wf p r b : wf b -> wf (clk p r b).
Proof.
  intros [Hs Hc Hp]. pose proof (delay_range b). split; cbn.
  - unfold next_speed. destruct (_ && _); [apply Z.mod_pos_bound; lia|].
    destruct (_ && _); [apply Z.mod_pos_bound; lia|].
    destruct (written r false); [apply Z.mod_pos_bound|]; lia.
  - unfold next_count. destruct (running b), (Z.eqb_spec (count b) 0); lia.
  - unfold next_position. destruct (_ && _); [|done]. destruct (Z.eqb_spec (position b) 13); [lia|].
    rewrite Z.mod_small; lia.
Qed.

(** A run: the inputs of successive cycles. *)
Fixpoint clks (l : list (pins * bus)) (b : blinker) : blinker :=
  match l with
  | [] => b
  | (p, r) :: l => clks l (clk p r b)
  end.

Lemma clks_wf l b : wf b -> wf (clks l b).
Proof. revert b. induction l as [|[p r] l IH]; intros b Hb; cbn; [done|]. by apply IH, clk_wf. Qed.

Lemma wf_reset : wf reset.
Proof. split; cbn; lia. Qed.

Lemma clks_app l l' b : clks (l ++ l') b = clks l' (clks l b).
Proof. revert b. induction l as [|[p r] l IH]; intros b; cbn; [done|]. apply IH. Qed.

(** Where the light is, from 0 to 7. *)
Definition light (pos : Z) : Z := if pos <=? 7 then pos else 14 - pos.

Lemma sweep_light pos : 0 <= pos <= 13 -> sweep pos = 2 ^ light pos.
Proof.
  intros Hp. assert (Hin : In pos [0;1;2;3;4;5;6;7;8;9;10;11;12;13]) by (cbn; lia).
  cbn in Hin. by destruct Hin as [<-|[<-|[<-|[<-|[<-|[<-|[<-|[<-|[<-|[<-|[<-|[<-|[<-|[<-|[]]]]]]]]]]]]]]].
Qed.

Lemma next_light b : wf b -> light (next_position b) = light (position b) \/
  Z.abs (light (next_position b) - light (position b)) = 1.
Proof.
  intros [_ _ Hp]. unfold next_position. destruct (_ && _); [|by left]. right.
  destruct (Z.eqb_spec (position b) 13) as [->|]; [done|]. rewrite Z.mod_small by lia. unfold light.
  destruct (Z.leb_spec (position b + 1) 7), (Z.leb_spec (position b) 7); lia.
Qed.

(** In sweep mode the LEDs always show a single light, and it only ever
    moves to a neighbouring LED: after a reset and any sequence of button
    presses, bus accesses and idle cycles, the LED byte is a power of two
    below 256, and one more cycle that ends in sweep mode keeps it or moves it
    by one place. *)
Theorem sweep_single_light (l : list (pins * bus)) (p : pins) (r : bus) :
  let b := clks l reset in
  mode b = false -> mode (clk p r b) = false ->
  exists i j, 0 <= i < 8 /\ 0 <= j < 8 /\ leds p b = 2 ^ i /\ leds p (clk p r b) = 2 ^ j /\ Z.abs (j - i) <= 1.
Proof.
  intros b Hm Hm'. pose proof (clks_wf l reset wf_reset) as Hb. fold b in Hb.
  pose proof (clk_wf p r b Hb) as Hb'. pose proof (next_light b Hb) as Hl.
  pose proof (wf_position _ Hb). pose proof (wf_position _ Hb'). cbn in *.
  exists (light (position b)), (light (next_position b)).
  assert (Hr : forall q, 0 <= q <= 13 -> 0 <= light q < 8) by (intros q Hq; unfold light; destruct (Z.leb_spec q 7); lia).
  unfold leds. cbn. rewrite Hm, Hm', !sweep_light by done. pose proof (Hr (position b)). pose proof (Hr (next_position b)).
  repeat split; lia.
Qed.

(** ** The speed of the blinking *)

Definition quiet (p : pins) : Prop := buttons p = 0.

Lemma button_quiet i p : quiet p -> button i p = false.
Proof. unfold quiet, button. intros ->. apply Z.bits_0. Qed.

Lemma any_button_quiet p : quiet p -> any_button p = false.
Proof. intros Hq. unfold any_button. by rewrite !button_quiet. Qed.

(** [n] cycles in which nothing happens. *)
Definition idle (n : nat) (p : pins) (b : blinker) : blinker := clks (replicate n (p, Idle)) b.

Lemma idle_S n p b : idle (S n) p b = idle n p (clk p Idle b).
Proof. done. Qed.

Lemma idle_add m n p b : idle (m + n) p b = idle n p (idle m p b).
Proof. unfold idle. by rewrite replicate_add, clks_app. Qed.

Lemma clk_idle_speed p b : quiet p -> speed (clk p Idle b) = speed b /\ running (clk p Idle b) = running b.
Proof. intros Hq. cbn. unfold next_speed, next_running. by rewrite !button_quiet. Qed.

(** The counter runs down. *)
Lemma idle_count n p b : quiet p -> running b = true -> Z.of_nat n <= count b ->
  let b' := idle n p b in
  count b' = count b - Z.of_nat n /\ position b' = position b /\ speed b' = speed b /\ running b' = true.
Proof.
  intros Hq. revert b. induction n as [|n IH]; intros b Hr Hn; [cbn; split_and!; [lia|done..]|].
  rewrite idle_S. destruct (clk_idle_speed p b Hq) as [Es Er].
  assert (Ec : count (clk p Idle b) = count b - 1).
  { cbn. unfold next_count. rewrite Hr, (proj2 (Z.eqb_neq (count b) 0)) by lia. done. }
  assert (Ep : position (clk p Idle b) = position b).
  { cbn. unfold next_position. by rewrite Hr, (proj2 (Z.eqb_neq (count b) 0)) by lia. }
  destruct (IH (clk p Idle b)) as (H1 & H2 & H3 & H4); [congruence|lia|]. split_and!; [lia|congruence..].
Qed.

(** The number of cycles between two positions. *)
Definition period (b : blinker) : Z := delay b * 2 ^ 20 + 1.

(** The blinking rate.  A running blinker that is left alone, with its
    counter at zero, advances by exactly one position after [period] cycles,
    with the counter at zero again and the speed unchanged, and stays at the
    next position for all the cycles in between.  The period is
    (16 - speed) * 2^20 + 1 cycles for the speeds 1 to 15, so a higher speed
    blinks faster; speed 0, which the bus accepts, has the shortest period of
    all, one cycle. *)
Theorem blinker_period (p : pins) (b : blinker) :
  quiet p -> wf b -> running b = true -> count b = 0 ->
  let next := if position b =? 13 then 0 else position b + 1 in
  (forall n, (0 < n)%nat -> Z.of_nat n <= period b -> position (idle n p b) = next) /\
  (let b' := idle (Z.to_nat (period b)) p b in count b' = 0 /\ speed b' = speed b /\ running b' = true) /\
  period b = if speed b =? 0 then 1 else (16 - speed b) * 2 ^ 20 + 1.
Proof.
  intros Hq Hw Hr Hc next. pose proof (delay_range b) as Hd. destruct Hw as [Hs _ Hp].
  destruct (clk_idle_speed p b Hq) as [Es Er].
  assert (Ec : count (clk p Idle b) = delay b * 2 ^ 20) by (cbn; unfold next_count; by rewrite Hr, Hc).
  assert (Ep : position (clk p Idle b) = next).
  { cbn. unfold next_position, next. rewrite Hr, Hc. cbn. destruct (Z.eqb_spec (position b) 13); [done|].
    apply Z.mod_small. lia. }
  assert (Hrun : forall n, Z.of_nat n <= delay b * 2 ^ 20 -> let b' := idle (S n) p b in
    count b' = delay b * 2 ^ 20 - Z.of_nat n /\ position b' = next /\ speed b' = speed b /\ running b' = true).
  { intros n Hn. rewrite idle_S. destruct (idle_count n p (clk p Idle b)) as (H1 & H2 & H3 & H4);
      [done|congruence|lia|]. rewrite Ec in H1. split_and!; congruence. }
  unfold period. split; [|split].
  - intros [|n] Hn Hle; [lia|]. by destruct (Hrun n) as (_ & ? & _); [lia|].
  - replace (Z.to_nat (delay b * 2 ^ 20 + 1)) with (S (Z.to_nat (delay b * 2 ^ 20))) by lia.
    destruct (Hrun (Z.to_nat (delay b * 2 ^ 20))) as (H1 & _ & H3 & H4); [lia|]. split_and!; [lia|done..].
  - unfold delay. destruct (Z.eqb_spec (speed b) 0) as [->|]; [done|]. rewrite Z.mod_small; lia.
Qed.

(** ** The registers as the bus sees them *)

Lemma clk_write_config p d b : quiet p ->
  let b' := clk p (Write true d) b in
  mode b' = Z.testbit d 0 /\ running b' = Z.testbit d 1 /\ ena_irq b' = Z.testbit d 2 /\
  speed b' = speed b /\ irq b' = irq b.
Proof.
  intros Hq. cbn. unfold next_mode, next_running, next_ena_irq, next_speed, next_irq.
  rewrite !button_quiet, any_button_quiet by done. by cbn.
Qed.

Lemma clk_write_speed p d b : quiet p ->
  let b' := clk p (Write false d) b in
  speed b' = d mod 16 /\ mode b' = mode b /\ running b' = running b /\ ena_irq b' = ena_irq b /\ irq b' = irq b.
Proof.
  intros Hq. cbn. unfold next_mode, next_running, next_ena_irq, next_speed, next_irq.
  rewrite !button_quiet, any_button_quiet by done. by cbn.
Qed.

Lemma clk_read p a b : quiet p ->
  let b' := clk p (Read a) b in
  speed b' = speed b /\ mode b' = mode b /\ running b' = running b /\ ena_irq b' = ena_irq b /\
  irq b' = if a then false else irq b.
Proof.
  intros Hq. cbn. unfold next_mode, next_running, next_ena_irq, next_speed, next_irq.
  rewrite !button_quiet, any_button_quiet by done. by destruct a.
Qed.

(** The bits of the state register. *)
Lemma state_byte_bits b : wf b ->
  0 <= state_byte b < 256 /\ Z.testbit (state_byte b) 0 = running b /\ Z.testbit (state_byte b) 1 = mode b /\
  Z.testbit (state_byte b) 2 = ena_irq b /\ Z.testbit (state_byte b) 3 = false /\ state_byte b / 16 = speed b.
Proof.
  intros [Hs _ _]. unfold state_byte, b2z.
  assert (Hin : In (speed b) [0;1;2;3;4;5;6;7;8;9;10;11;12;13;14;15]) by (cbn; lia).
  generalize dependent (speed b). intros sp _ Hin. cbn in Hin.
  repeat match goal with H : _ \/ _ |- _ => destruct H as [<-|H] end; [..|done];
    destruct (ena_irq b), (mode b), (running b); cbn; repeat split; lia.
Qed.

(** ** Witnesses *)

Definition stopped_sweep : list (pins * bus) := [(mk_pins 0 0, Write true 4)].

Lemma sweep_single_light_witness :
  exists i j, 0 <= i < 8 /\ 0 <= j < 8 /\ leds (mk_pins 0 0) (clks stopped_sweep reset) = 2 ^ i /\
    leds (mk_pins 0 0) (clk (mk_pins 0 0) Idle (clks stopped_sweep reset)) = 2 ^ j /\ Z.abs (j - i) <= 1.
Proof. apply (sweep_single_light stopped_sweep (mk_pins 0 0) Idle); reflexivity. Defined.

(** At the fastest documented speed the light moves every 2^20 + 1 cycles. *)
Lemma blinker_period_witness :
  let b := mk_blinker 0 0 15 false true 0 3 false false in
  position (idle 1 (mk_pins 0 0) b) = 4 /\ period b = 2 ^ 20 + 1.
Proof.
  intros b. destruct (blinker_period (mk_pins 0 0) b) as (Hn & _ & Hp); [reflexivity|split; cbn; lia|reflexivity..|].
  split; [|exact Hp]. apply (Hn 1%nat); [lia|]. vm_compute. discriminate.
Defined.
