(* ===== verification/BlinkerMisc.v ===== *)
(** The misc driver of the blinker (driver/blinker_misc_module): the file
    operations and the interrupt handler, run concurrently.

    A handler is a [prog]: a tree of the kernel services it calls, in the order
    of the code, with one branch per answer.  [exec] runs one handler alone;
    [step] interleaves the handlers of any number of processes with the
    interrupt handler and with the peripheral, one service at a time; the
    handler may start at any point, as on another processor, and that a process
    masks interrupts while it holds the spin lock is part of the discipline of
    the locks rather than of the steps.  What the
    file leaves out (the bodies of probe, remove and the sysfs attributes are
    placeholders there) is not modelled. *)

From S2P Require Import Prelude Blinker.

(** ** Kernel services *)

Definition EFAULT : Z := 14.
Definition ERESTARTSYS : Z := 512.

(** The counters of struct blinker_dev. *)
Inductive counter := open_count | release_count | ioctl_count | read_count | write_count.

Inductive action :=
| DownInterruptible                (* down_interruptible(&dev->sem) *)
| Up                               (* up(&dev->sem) *)
| SpinLockIrqsave                  (* spin_lock_irqsave(&g_irq_lock, flags) *)
| SpinUnlockIrqrestore             (* spin_unlock_irqrestore(&g_irq_lock, flags) *)
| SpinLock                         (* spin_lock(&g_irq_lock) *)
| SpinUnlock                       (* spin_unlock(&g_irq_lock) *)
| IoRead8 (address : bool)         (* ioread8, memcpy_fromio of one byte *)
| IoWrite8 (v : Z) (address : bool) (* iowrite8, memcpy_toio of one byte *)
| WaitEventInterruptible           (* wait_event_interruptible(g_irq_wait_queue, interrupt_flag != 0);
                                      wake_up_interruptible makes it test the flag again *)
| SetInterruptFlag (v : Z)         (* interrupt_flag = v *)
| Incr (c : counter)               (* dev->c++ *)
| IncrIrqCount                     (* g_irq_count++ *)
| FromUser                         (* get_user of a 32-bit value, copy_from_user of a byte *)
| ToUser (v : Z).                  (* put_user, copy_to_user of a byte *)

(** The answers: [true] for a call that was interrupted or that faulted, the
    byte read, and the user's value unless its address faults. *)
Definition answer (a : action) : Type :=
  match a with
  | DownInterruptible | WaitEventInterruptible | ToUser _ => bool
  | IoRead8 _ => Z
  | FromUser => option Z
  | _ => unit
  end.

Inductive prog :=
| Ret (r : Z)
| Act (a : action) (k : answer a -> prog).

Declare Scope prog_scope.
Notation "'let!' x ':=' a 'in' k" := (Act a (fun x => k))
  (at level 10, x name, a at level 100, k at level 200) : prog_scope.
Notation "'do' a ';' k" := (Act a (fun _ => k))
  (at level 10, a at level 100, k at level 200) : prog_scope.
Local Open Scope prog_scope.

(** ** The file operations *)

Definition SPEED : bool := false.   (* IOADDR_BLINKER_SPEED *)
Definition CONFIG : bool := true.   (* IOADDR_BLINKER_CONFIG *)
Definition LEDS : bool := false.    (* IOADDR_BLINKER_LEDS *)
Definition STATE : bool := true.    (* IOADDR_BLINKER_STATE *)

Definition blinker_dev_open : prog :=
  let! i := DownInterruptible in
  if i then Ret (- ERESTARTSYS) else
  do Incr open_count;
  do Up;
  Ret 0.

Definition blinker_dev_release : prog :=
  let! i := DownInterruptible in
  if i then Ret (- ERESTARTSYS) else
  do Incr release_count;
  do Up;
  Ret 0.

Inductive ioc :=
| IOC_SET_SPEED | IOC_SET_RUNNING | IOC_CLEAR_RUNNING | IOC_ENA_INT | IOC_DIS_INT
| IOC_SET_MODE | IOC_GET_LEDS | IOC_GET_CONFIG | IOC_BAD.

(** Reads the state register and writes [f] of it to the configuration
    register, under the interrupt lock. *)
Definition update_config (f : Z -> Z) (k : prog) : prog :=
  do SpinLockIrqsave;
  let! current_config := IoRead8 STATE in
  do IoWrite8 (u8 (f current_config)) CONFIG;
  do SpinUnlockIrqrestore;
  k.

Definition blinker_dev_ioctl (cmd : ioc) : prog :=
  let! i := DownInterruptible in
  if i then Ret (- ERESTARTSYS) else
  do Incr ioctl_count;
  let finish := do Up; Ret 0 in
  match cmd with
  | IOC_SET_SPEED =>
      let! v := FromUser in
      match v with
      | None => do Up; Ret (- EFAULT)
      | Some v =>
          let speed := u8 v in
          if (speed <? 1) || (speed >? 15) then do Up; Ret (- EINVAL) else
          do SpinLockIrqsave;
          do IoWrite8 speed SPEED;
          do SpinUnlockIrqrestore;
          finish
      end
  | IOC_SET_RUNNING => update_config (fun c => c .& BLINKER_CONFIG_MSK .| BLINKER_START_MSK) finish
  | IOC_CLEAR_RUNNING => update_config (fun c => c .& BLINKER_CONFIG_MSK .& BLINKER_STOP_MSK) finish
  | IOC_ENA_INT => update_config (fun c => c .& BLINKER_CONFIG_MSK .| BLINKER_IENA_MSK) finish
  | IOC_DIS_INT => update_config (fun c => c .& BLINKER_CONFIG_MSK .& BLINKER_IDIS_MSK) finish
  | IOC_SET_MODE =>
      let! v := FromUser in
      match v with
      | None => do Up; Ret (- EFAULT)
      | Some v =>
          let mode := u8 v in
          if (mode <? 0) || (mode >? 1) then do Up; Ret (- EINVAL) else
          update_config (fun c => if mode =? 0 then c .& BLINKER_CONFIG_MSK .& BLINKER_SHIFT_MSK
                                  else c .& BLINKER_CONFIG_MSK .| BLINKER_BLINK_MSK) finish
      end
  | IOC_GET_LEDS =>
      let! leds := IoRead8 LEDS in
      let! e := ToUser leds in
      if e then do Up; Ret (- EFAULT) else finish
  | IOC_GET_CONFIG =>
      let! current_config := IoRead8 STATE in
      let! e := ToUser current_config in
      if e then do Up; Ret (- EFAULT) else finish
  | IOC_BAD => do Up; Ret (- EINVAL)
  end.

(** The caller gets [count] although one byte was copied. *)
Definition blinker_dev_read (count : Z) : prog :=
  let! i := DownInterruptible in
  if i then Ret (- ERESTARTSYS) else
  do Incr read_count;
  let! i := WaitEventInterruptible in
  if i then do Up; Ret (- ERESTARTSYS) else
  do SpinLockIrqsave;
  do SetInterruptFlag 0;
  do SpinUnlockIrqrestore;
  let! state := IoRead8 STATE in
  let! e := ToUser state in
  if e then do Up; Ret (- EFAULT) else
  do Up;
  Ret count.

Definition blinker_dev_write (count : Z) : prog :=
  let! i := DownInterruptible in
  if i then Ret (- ERESTARTSYS) else
  do Incr write_count;
  let! config := FromUser in
  match config with
  | None => do Up; Ret (- EFAULT)
  | Some config =>
      let config := u8 config in
      if (config <? 1) || (config >? 7) then do Up; Ret (- EINVAL) else
      do IoWrite8 config CONFIG;
      do Up;
      Ret count
  end.

Definition IRQ_HANDLED : Z := 1.

Definition blinker_driver_interrupt_handler : prog :=
  do SpinLock;
  let! data := IoRead8 STATE in
  do IncrIrqCount;
  let! data := IoRead8 LEDS in
  do SetInterruptFlag 1;
  do SpinUnlock;
  Ret IRQ_HANDLED.

(** What a process can call: struct file_operations blinker_dev_fops. *)
Inductive syscall : prog -> Prop :=
| sys_open : syscall blinker_dev_open
| sys_release : syscall blinker_dev_release
| sys_ioctl cmd : syscall (blinker_dev_ioctl cmd)
| sys_read count : syscall (blinker_dev_read count)
| sys_write count : syscall (blinker_dev_write count).

(** ** The shared state *)

Record shared := mk_shared {
  hw : blinker;
  sem : nat;
  irq_lock : bool;
  interrupt_flag : Z;
  g_irq_count : Z;
  counters : counter -> Z
}.

Definition set_hw (b : blinker) (s : shared) : shared :=
  mk_shared b (sem s) (irq_lock s) (interrupt_flag s) (g_irq_count s) (counters s).
Definition set_sem (n : nat) (s : shared) : shared :=
  mk_shared (hw s) n (irq_lock s) (interrupt_flag s) (g_irq_count s) (counters s).
Definition set_lock (l : bool) (s : shared) : shared :=
  mk_shared (hw s) (sem s) l (interrupt_flag s) (g_irq_count s) (counters s).
Definition set_flag (v : Z) (s : shared) : shared :=
  mk_shared (hw s) (sem s) (irq_lock s) v (g_irq_count s) (counters s).
Definition set_irq_count (v : Z) (s : shared) : shared :=
  mk_shared (hw s) (sem s) (irq_lock s) (interrupt_flag s) v (counters s).

#[export] Instance counter_eq_dec : EqDecision counter.
Proof. solve_decision. Defined.

Definition incr (c : counter) (s : shared) : shared :=
  mk_shared (hw s) (sem s) (irq_lock s) (interrupt_flag s) (g_irq_count s)
    (fun c' => if decide (c' = c) then u32 (counters s c + 1) else counters s c').

(** What the environment decides while a service runs: whether a signal
    arrives, what is at the user's address, and the pins. *)
Record env := mk_env { signal : bool; user : option Z; at_pins : pins }.

(** One service: [None] when it has to wait. *)
Definition perform (e : env) (a : action) (s : shared) : option (answer a * shared) :=
  match a with
  | DownInterruptible =>
      if signal e then Some (true, s) else
      match sem s with O => None | S n => Some (false, set_sem n s) end
  | Up => Some (tt, set_sem (S (sem s)) s)
  | SpinLockIrqsave | SpinLock => if irq_lock s then None else Some (tt, set_lock true s)
  | SpinUnlockIrqrestore | SpinUnlock => Some (tt, set_lock false s)
  | IoRead8 r => Some (readdata (Read r) (at_pins e) (hw s), set_hw (clk (at_pins e) (Read r) (hw s)) s)
  | IoWrite8 v r => Some (tt, set_hw (clk (at_pins e) (Write r v) (hw s)) s)
  | WaitEventInterruptible =>
      if negb (interrupt_flag s =? 0) then Some (false, s)
      else if signal e then Some (true, s) else None
  | SetInterruptFlag v => Some (tt, set_flag v s)
  | Incr c => Some (tt, incr c s)
  | IncrIrqCount => Some (tt, set_irq_count (u32 (g_irq_count s + 1)) s)
  | FromUser => Some (user e, s)
  | ToUser v => Some (match user e with None => true | Some _ => false end, s)
  end.

(** ** A handler alone *)

(** The result, the state and what was copied to the user, unless it waits. *)
Fixpoint exec (e : env) (p : prog) (s : shared) : option (Z * shared * list Z) :=
  match p with
  | Ret r => Some (r, s, [])
  | Act a k =>
      match perform e a s with
      | None => None
      | Some (x, s') =>
          match exec e (k x) s' with
          | None => None
          | Some (r, s'', o) =>
              Some (r, s'', match a, user e with ToUser v, Some _ => v :: o | _, _ => o end)
          end
      end
  end.

(** ** Interleavings *)

(** The processes that are inside the driver, and the interrupt handler. *)
Record sys := mk_sys { mem : shared; procs : list prog; handler : option prog }.

Inductive label :=
| Call                 (* a process enters the driver *)
| Proc (e : env)       (* a process goes on *)
| Interrupt            (* the interrupt line is seen *)
| Handler (e : env)    (* the interrupt handler goes on *)
| Clock (p : pins).    (* a clock cycle without bus access *)

Inductive step : label -> sys -> sys -> Prop :=
| step_call p m ps h : syscall p -> step Call (mk_sys m ps h) (mk_sys m (ps ++ [p]) h)
| step_proc e m ps h i a k x m' :
    ps !! i = Some (Act a k) -> perform e a m = Some (x, m') ->
    step (Proc e) (mk_sys m ps h) (mk_sys m' (<[i := k x]> ps) h)
| step_interrupt m ps :
    irq (hw m) = true -> step Interrupt (mk_sys m ps None) (mk_sys m ps (Some blinker_driver_interrupt_handler))
| step_handler e m ps a k x m' :
    perform e a m = Some (x, m') -> step (Handler e) (mk_sys m ps (Some (Act a k))) (mk_sys m' ps (Some (k x)))
| step_return m ps r : step Interrupt (mk_sys m ps (Some (Ret r))) (mk_sys m ps None)
| step_clock p m ps h : step (Clock p) (mk_sys m ps h) (mk_sys (set_hw (clk p Idle (hw m)) m) ps h).

(** Any number of steps whose labels satisfy [L]. *)
Inductive steps (L : label -> Prop) : sys -> sys -> Prop :=
| steps_refl s : steps L s s
| steps_trans l s1 s2 s3 : steps L s1 s2 -> L l -> step l s2 s3 -> steps L s1 s3.

(** After a successful probe: the semaphore is 1, the lock free, no interrupt. *)
Definition probed (b : blinker) (s : sys) : Prop :=
  mem s = mk_shared b 1 false 0 0 (fun _ => 0) /\ procs s = [] /\ handler s = None.

Definition reachable (b : blinker) (s : sys) : Prop :=
  exists s0, probed b s0 /\ steps (fun _ => True) s0 s.

(** ** The discipline of the locks

    [disciplined ok h l p]: a handler that holds the semaphore iff [h] and the
    interrupt lock iff [l] calls only what [ok] permits then, on every path,
    and returns with both released. *)

Definition holds_after (a : action) : answer a -> bool -> bool :=
  match a return answer a -> bool -> bool with
  | DownInterruptible => fun interrupted _ => negb interrupted
  | Up => fun _ _ => false
  | _ => fun _ h => h
  end.

Definition locks_after (a : action) (l : bool) : bool :=
  match a with
  | SpinLockIrqsave | SpinLock => true
  | SpinUnlockIrqrestore | SpinUnlock => false
  | _ => l
  end.

Fixpoint disciplined (ok : action -> bool -> bool -> bool) (h l : bool) (p : prog) : Prop :=
  match p with
  | Ret _ => h = false /\ l = false
  | Act a k => ok a h l = true /\ forall x, disciplined ok (holds_after a x h) (locks_after a l) (k x)
  end.

(** A process takes the lock of the interrupt handler only with interrupts
    disabled: with the plain lock an interrupt on its processor would spin for
    ever.  It does not sleep under the spin lock; it waits for interrupts and
    writes registers, counters and the flag only as the owner of the semaphore,
    and it only clears the flag. *)
Definition proc_ok (a : action) (h l : bool) : bool :=
  match a with
  | DownInterruptible => negb h && negb l
  | Up => h && negb l
  | SpinLockIrqsave => negb l
  | SpinUnlockIrqrestore => l
  | SpinLock | SpinUnlock => false
  | IoWrite8 _ _ | Incr _ => h
  | WaitEventInterruptible => h && negb l
  | FromUser | ToUser _ => negb l
  | SetInterruptFlag v => h && l && (v =? 0)
  | IncrIrqCount => false
  | IoRead8 _ => true
  end.

(** The interrupt handler does not sleep, copy or write registers at all. *)
Definition irq_ok (a : action) (h l : bool) : bool :=
  match a with
  | SpinLock => negb l
  | SpinUnlock => l
  | SetInterruptFlag _ | IncrIrqCount => l
  | IoRead8 _ => true
  | _ => false
  end.

Ltac disciplined_auto :=
  repeat match goal with
  | |- _ /\ _ => split
  | |- forall _, _ => intros ?
  | |- disciplined _ _ _ (match ?x with _ => _ end) => destruct x
  | |- _ => progress cbn
  | |- _ => reflexivity
  end.

Lemma syscall_disciplined p : syscall p -> disciplined proc_ok false false p.
Proof.
  intros [| |cmd|c|c]; unfold blinker_dev_open, blinker_dev_release, blinker_dev_ioctl, update_config,
    blinker_dev_read, blinker_dev_write; [..|destruct cmd| |]; disciplined_auto.
Qed.

Lemma handler_disciplined : disciplined irq_ok false false blinker_driver_interrupt_handler.
Proof. unfold blinker_driver_interrupt_handler. disciplined_auto. Qed.

(** ** Mutual exclusion *)

Definition nb (b : bool) : nat := if b then 1%nat else 0%nat.

Lemma sum_insert {A} (f : A -> nat) l i x y : l !! i = Some x ->
  (sum_list_with f (<[i := y]> l) + f x = sum_list_with f l + f y)%nat.
Proof.
  revert i. induction l as [|z l IH]; intros [|i] Hi; try done; cbn in *.
  - injection Hi as ->. lia.
  - specialize (IH i Hi). unfold insert in *. lia.
Qed.

Lemma sum_ge {A} (f : A -> nat) l i x : l !! i = Some x -> (f x <= sum_list_with f l)%nat.
Proof. intros Hi. apply sum_list_with_in. by eapply list_elem_of_lookup_2. Qed.

Lemma sum_two {A} (f : A -> nat) l i j x y : i <> j -> l !! i = Some x -> l !! j = Some y ->
  (f x + f y <= sum_list_with f l)%nat.
Proof.
  revert i j. induction l as [|z l IH]; intros [|i] [|j] Hn Hi Hj; try done; cbn in *.
  - injection Hi as ->. apply (sum_ge f) in Hj. lia.
  - injection Hj as ->. apply (sum_ge f) in Hi. lia.
  - assert (i <> j) by congruence. pose proof (IH i j). intuition lia.
Qed.

Lemma sum_pos {A} (f : A -> nat) l : (0 < sum_list_with f l)%nat -> exists i x, l !! i = Some x /\ (0 < f x)%nat.
Proof.
  induction l as [|z l IH]; cbn; [lia|]. intros Hs. destruct (f z) eqn:E.
  - destruct IH as (i & x & Hi & Hx); [lia|]. by exists (S i), x.
  - exists O, z. split; [done|lia].
Qed.

(** What each process and the handler hold, and that it is all there is. *)
Definition holds (r : bool * bool) : nat := nb (fst r).
Definition locks (r : bool * bool) : nat := nb (snd r).

Definition inv_with (rs : list (bool * bool)) (lh : bool) (s : sys) : Prop :=
  Forall2 (fun p r => disciplined proc_ok (fst r) (snd r) p) (procs s) rs /\
  match handler s with Some p => disciplined irq_ok false lh p | None => lh = false end /\
  (sem (mem s) + sum_list_with holds rs = 1)%nat /\
  (nb lh + sum_list_with locks rs = nb (irq_lock (mem s)))%nat.

Definition inv (s : sys) : Prop := exists rs lh, inv_with rs lh s.

Lemma perform_accounts e a m x m' h l ok :
  (ok = proc_ok \/ ok = irq_ok) -> ok a h l = true -> perform e a m = Some (x, m') ->
  (nb l <= nb (irq_lock m))%nat ->
  (sem m' + nb (holds_after a x h) = sem m + nb h)%nat /\
  (nb (irq_lock m') + nb l = nb (irq_lock m) + nb (locks_after a l))%nat.
Proof.
  intros Hk Ho Hp Hl. destruct m as [b n lk fl c cs]. destruct Hk as [-> | ->], a; cbn in *; try discriminate;
    destruct h, l, lk, n; cbn in *; try discriminate; try lia; repeat case_match; simplify_eq; cbn; lia.
Qed.

Lemma inv_step l s s' : step l s s' -> inv s -> inv s'.
Proof.
  intros Hs (rs & lh & Hf & Hh & Hsem & Hlk). destruct Hs; cbn in *.
  - exists (rs ++ [(false, false)]), lh. split_and!; cbn; rewrite ?sum_list_with_app; [|done|unfold holds in *; cbn; lia|unfold locks in *; cbn; lia].
    apply Forall2_app; [done|]. constructor; [by apply syscall_disciplined|constructor].
  - destruct (Forall2_lookup_l _ _ _ _ _ Hf ltac:(eassumption)) as ([h0 l0] & Hr & Hok & Hk). cbn in Hok, Hk.
    pose proof (sum_ge locks _ _ _ Hr) as Hge. unfold locks in Hge at 1. cbn in Hge.
    destruct (perform_accounts e a m x m' h0 l0 proc_ok) as [E1 E2]; [by left|done|done|lia|].
    exists (<[i := (holds_after a x h0, locks_after a l0)]> rs), lh. cbn.
    pose proof (sum_insert holds rs i (h0, l0) (holds_after a x h0, locks_after a l0) Hr) as S1.
    pose proof (sum_insert locks rs i (h0, l0) (holds_after a x h0, locks_after a l0) Hr) as S2.
    change (holds (h0, l0)) with (nb h0) in S1. change (locks (h0, l0)) with (nb l0) in S2.
    change (holds (holds_after a x h0, locks_after a l0)) with (nb (holds_after a x h0)) in S1.
    change (locks (holds_after a x h0, locks_after a l0)) with (nb (locks_after a l0)) in S2.
    split_and!; cbn; [|done|lia..]. apply Forall2_insert; [done|]. apply Hk.
  - subst lh. exists rs, false. split_and!; [done|apply handler_disciplined|done..].
  - destruct Hh as [Hok Hk]. destruct (perform_accounts e a m x m' false lh irq_ok) as [E1 E2]; [by right|done|done|lia|].
    exists rs, (locks_after a lh). split_and!; cbn; [done| | |lia].
    + specialize (Hk x). destruct a; try discriminate; exact Hk.
    + destruct a; try discriminate; cbn in *; lia.
  - exists rs, false. destruct Hh as [_ ->]. by split_and!.
  - exists rs, lh. by split_and!.
Qed.

Lemma inv_steps L s s' : steps L s s' -> inv s -> inv s'.
Proof. induction 1; eauto using inv_step. Qed.

Lemma probed_inv b s : probed b s -> inv s.
Proof.
  destruct s as [m ps h]. intros (Hm & Hp & Hh). cbn in *. subst. exists [], false. cbn. by split_and!.
Qed.

Lemma reachable_inv b s : reachable b s -> inv s.
Proof. intros (s0 & H0 & Hs). eapply inv_steps; [done|by eapply probed_inv]. Qed.

(** What a handler holds is determined by what it has left to do. *)
Lemma disciplined_unique ok h l h' l' p :
  (ok = proc_ok \/ ok = irq_ok) -> disciplined ok h l p -> disciplined ok h' l' p -> h = h' /\ l = l'.
Proof.
  intros Hk. revert h l h' l'. induction p as [r|a k IH]; intros h l h' l'; [cbn; by intros [-> ->] [-> ->]|].
  intros [Ho Hp] [Ho' Hp'].
  assert (x : answer a) by (destruct a; cbn; first [exact tt|exact true|exact 0|exact None]).
  destruct (IH x _ _ _ _ (Hp x) (Hp' x)) as [E1 E2].
  destruct Hk as [-> | ->], a; cbn in *; destruct h, h', l, l'; cbn in *; try discriminate; by split.
Qed.

Lemma inv_role rs lh s i p : inv_with rs lh s -> procs s !! i = Some p ->
  exists h l, rs !! i = Some (h, l) /\ disciplined proc_ok h l p.
Proof.
  intros (Hf & _) Hi. destruct (Forall2_lookup_l _ _ _ _ _ Hf Hi) as ([h l] & Hr & Hd). by exists h, l.
Qed.

Lemma inv_role_is rs lh s i p h l : inv_with rs lh s -> procs s !! i = Some p -> disciplined proc_ok h l p ->
  rs !! i = Some (h, l).
Proof.
  intros Hs Hi Hd. destruct (inv_role _ _ _ _ _ Hs Hi) as (h' & l' & Hr & Hd').
  destruct (disciplined_unique _ _ _ _ _ _ (or_introl eq_refl) Hd Hd') as [-> ->]. done.
Qed.

(** C24: The driver's locks do their work under every interleaving.  However
    many processes are inside the driver, whatever they call, wherever a signal
    or an interrupt arrives: each of them keeps to the discipline (the spin
    lock only with interrupts disabled, no sleeping under it; registers, counters and the flag only written by the
    owner of the semaphore), at most one owns the semaphore, at most one of them
    and the interrupt handler holds the spin lock, and once all have returned,
    by whatever path, both are free. *)
Theorem driver_exclusion (b : blinker) (s : sys) : reachable b s ->
  (forall i p, procs s !! i = Some p -> exists h l, disciplined proc_ok h l p) /\
  (forall i j p q l l', procs s !! i = Some p -> procs s !! j = Some q ->
     disciplined proc_ok true l p -> disciplined proc_ok true l' q -> i = j) /\
  (forall i j p q h h', procs s !! i = Some p -> procs s !! j = Some q ->
     disciplined proc_ok h true p -> disciplined proc_ok h' true q -> i = j) /\
  (forall i p h q, procs s !! i = Some p -> handler s = Some q ->
     disciplined proc_ok h true p -> ~ disciplined irq_ok false true q) /\
  (handler s = None -> (forall i p, procs s !! i = Some p -> exists r, p = Ret r) ->
     sem (mem s) = 1%nat /\ irq_lock (mem s) = false).
Proof.
  intros (rs & lh & Hs)%reachable_inv. pose proof Hs as (Hf & Hh & Hsem & Hlk).
  assert (Hone : (nb (irq_lock (mem s)) <= 1)%nat) by (destruct (irq_lock (mem s)); cbn; lia). split_and!.
  - intros i p Hi. destruct (inv_role _ _ _ _ _ Hs Hi) as (h & l & _ & Hd). by exists h, l.
  - intros i j p q l l' Hi Hj Hp Hq. destruct (decide (i = j)) as [|Hn]; [done|exfalso].
    pose proof (sum_two holds _ _ _ _ _ Hn (inv_role_is _ _ _ _ _ _ _ Hs Hi Hp) (inv_role_is _ _ _ _ _ _ _ Hs Hj Hq)) as H2.
    change (1 + 1 <= sum_list_with holds rs)%nat in H2. lia.
  - intros i j p q h h' Hi Hj Hp Hq. destruct (decide (i = j)) as [|Hn]; [done|exfalso].
    pose proof (sum_two locks _ _ _ _ _ Hn (inv_role_is _ _ _ _ _ _ _ Hs Hi Hp) (inv_role_is _ _ _ _ _ _ _ Hs Hj Hq)) as H2.
    change (1 + 1 <= sum_list_with locks rs)%nat in H2. lia.
  - intros i p h q Hi Hq Hp Hd. rewrite Hq in Hh.
    destruct (disciplined_unique _ _ _ _ _ _ (or_intror eq_refl) Hd Hh) as [_ <-].
    pose proof (sum_ge locks _ _ _ (inv_role_is _ _ _ _ _ _ _ Hs Hi Hp)) as H1.
    change (1 <= sum_list_with locks rs)%nat in H1. cbn in Hlk. lia.
  - intros Hn Hret. rewrite Hn in Hh. subst lh.
    assert (Hnil : forall i r, rs !! i = Some r -> r = (false, false)).
    { intros i [h l] Hr. destruct (Forall2_lookup_r _ _ _ _ _ Hf Hr) as (p & Hi & Hd).
      destruct (Hret i p Hi) as [r ->]. cbn in Hd. by destruct Hd as [-> ->]. }
    assert (Hz : forall f, f (false, false) = 0%nat -> sum_list_with f rs = 0%nat).
    { intros f Hf0. destruct (sum_list_with f rs) eqn:E; [done|].
      destruct (sum_pos f rs) as (i & r & Hr & Hpos); [lia|]. rewrite (Hnil _ _ Hr) in Hpos. lia. }
    rewrite (Hz holds), (Hz locks) in * by done. split; [lia|]. destruct (irq_lock (mem s)); [cbn in Hlk; lia|done].
Qed.

(** ** Progress *)

(** A step of the driver that needs no signal. *)
Definition internal (l : label) : Prop :=
  match l with Proc e | Handler e => signal e = false | Interrupt => True | _ => False end.
Definition can_move (s : sys) : Prop := exists l s', internal l /\ step l s s'.

Definition calm_env : env := mk_env false (Some 0) (mk_pins 0 0).

(** Where a service waits. *)
Lemma perform_waits a m : perform calm_env a m = None ->
  (a = DownInterruptible /\ sem m = O) \/ ((a = SpinLockIrqsave \/ a = SpinLock) /\ irq_lock m = true) \/
  (a = WaitEventInterruptible /\ interrupt_flag m = 0).
Proof.
  destruct a; cbn; repeat case_match; intros Hp; try discriminate; auto.
  right. right. split; [done|]. by apply Z.eqb_eq, negb_false_iff.
Qed.

Lemma proc_moves s i a k : procs s !! i = Some (Act a k) -> perform calm_env a (mem s) <> None -> can_move s.
Proof.
  intros Hi Hp. destruct (perform calm_env a (mem s)) as [[x m']|] eqn:E; [|done]. destruct s as [m ps h].
  exists (Proc calm_env). eexists. split; [done|]. by eapply step_proc.
Qed.

(** Whoever holds the spin lock can go on. *)
Lemma lock_moves s : inv s -> irq_lock (mem s) = true -> can_move s.
Proof.
  intros (rs & lh & Hs) Hl. pose proof Hs as (Hf & Hh & _ & Hlk). rewrite Hl in Hlk. destruct lh.
  - destruct s as [m ps [q|]]; cbn in *; [|done]. destruct q as [r|a k]; [by destruct Hh|]. destruct Hh as [Ho _].
    destruct (perform calm_env a m) as [[x m']|] eqn:E.
    + exists (Handler calm_env). eexists. split; [done|]. by apply step_handler.
    + by destruct (perform_waits _ _ E) as [[-> _]|[[[-> | ->] _]|[-> _]]].
  - destruct (sum_pos locks rs) as (i & [h l] & Hr & Hpos); [cbn in Hlk; lia|]. destruct l; [|cbn in Hpos; lia].
    destruct (Forall2_lookup_r _ _ _ _ _ Hf Hr) as (p & Hi & Hd). destruct p as [r|a k]; [by destruct Hd|].
    destruct Hd as [Ho _]. apply (proc_moves s i a k Hi). intros E. cbn in Ho.
    destruct (perform_waits _ _ E) as [[-> _]|[[[-> | ->] _]|[-> _]]]; cbn in Ho; by destruct h.
Qed.

(** C25: The driver does not deadlock, with one exception.  In every reachable
    state with a process inside the driver, a process or the interrupt handler
    can take a step without the help of a signal, unless a reader that owns the
    semaphore waits for an interrupt that has not come. *)
Theorem driver_progress (b : blinker) (s : sys) (i : nat) (a : action) (k : answer a -> prog) :
  reachable b s -> procs s !! i = Some (Act a k) ->
  can_move s \/
  exists j k', procs s !! j = Some (Act WaitEventInterruptible k') /\
    disciplined proc_ok true false (Act WaitEventInterruptible k') /\ interrupt_flag (mem s) = 0.
Proof.
  intros Hreach Hi. pose proof (reachable_inv _ _ Hreach) as Hinv. destruct Hinv as (rs & lh & Hs).
  assert (Hown : forall j h k0, rs !! j = Some (true, h) -> procs s !! j = Some (Act WaitEventInterruptible k0) ->
    interrupt_flag (mem s) = 0 -> exists j k', procs s !! j = Some (Act WaitEventInterruptible k') /\
    disciplined proc_ok true false (Act WaitEventInterruptible k') /\ interrupt_flag (mem s) = 0).
  { intros j h k0 Hr Hj Hz. exists j, k0. split_and!; [done| |done].
    destruct (inv_role _ _ _ _ _ Hs Hj) as (h' & l' & Hr' & Hd). rewrite Hr in Hr'. injection Hr' as <- <-.
    pose proof Hd as [Ho _]. cbn in Ho. by destruct h. }
  assert (Hsem : sem (mem s) = O -> can_move s \/ exists j k', procs s !! j = Some (Act WaitEventInterruptible k') /\
    disciplined proc_ok true false (Act WaitEventInterruptible k') /\ interrupt_flag (mem s) = 0).
  { intros Hz. pose proof Hs as (Hf & _ & Hse & _). destruct (sum_pos holds rs) as (j & [h l] & Hr & Hpos); [lia|].
    destruct h; [|cbn in Hpos; lia]. destruct (Forall2_lookup_r _ _ _ _ _ Hf Hr) as (p & Hj & Hd).
    destruct p as [r|a' k']; [by destruct Hd|]. destruct Hd as [Ho _]. cbn in Ho.
    destruct (perform calm_env a' (mem s)) eqn:E; [left; eapply proc_moves; [done|by rewrite E]|].
    destruct (perform_waits _ _ E) as [[-> _]|[[_ Hl]|[-> Hw]]]; [done| |right; by eapply Hown].
    left. apply lock_moves; [by exists rs, lh|done]. }
  destruct (perform calm_env a (mem s)) eqn:E; [left; eapply proc_moves; [done|by rewrite E]|].
  destruct (perform_waits _ _ E) as [[-> Hz]|[[_ Hl]|[-> Hw]]]; [by apply Hsem| |].
  - left. apply lock_moves; [by exists rs, lh|done].
  - destruct (inv_role _ _ _ _ _ Hs Hi) as ([] & l & Hr & Hd); [right; by eapply Hown|].
    by destruct Hd as [Ho _].
Qed.

(** ** A reader that waits with interrupts disabled *)

Definition no_signal (l : label) : Prop :=
  match l with Proc e | Handler e => signal e = false | _ => True end.

(** The reader [i] waits, the interrupt is disabled and none is under way. *)
Definition stuck_reader (i : nat) (k : bool -> prog) (s : sys) : Prop :=
  inv s /\ procs s !! i = Some (Act WaitEventInterruptible k) /\ interrupt_flag (mem s) = 0 /\
  ena_irq (hw (mem s)) = false /\ irq (hw (mem s)) = false /\ handler s = None.

(** A clock cycle that does not write the configuration raises no interrupt. *)
Lemma clk_disabled p r b : ena_irq b = false -> irq b = false -> written r true = None ->
  ena_irq (clk p r b) = false /\ irq (clk p r b) = false.
Proof.
  intros He Hi Hw. cbn. unfold next_ena_irq, next_irq. rewrite Hw, He, andb_false_r. split; [done|].
  by destruct r as [|[]|].
Qed.

(** While another process owns the semaphore, a process leaves the interrupt
    enable, the line and the flag as they are. *)
Lemma perform_not_owner e a m x m' l : proc_ok a false l = true -> perform e a m = Some (x, m') ->
  ena_irq (hw m) = false -> irq (hw m) = false ->
  ena_irq (hw m') = false /\ irq (hw m') = false /\ interrupt_flag m' = interrupt_flag m.
Proof.
  intros Ho Hp He Hi. destruct a; cbn in Ho; try discriminate; cbn in Hp; repeat case_match; simplify_eq; try done;
    match goal with |- context [clk _ (Read ?r) _] =>
      destruct (clk_disabled (at_pins e) (Read r) (hw m) He Hi eq_refl); by split_and! end.
Qed.

Lemma stuck_step i k l s s' : no_signal l -> step l s s' -> stuck_reader i k s -> stuck_reader i k s'.
Proof.
  intros Hl Hs (Hinv & Hi & Hz & He & Hq & Hh). split; [by eapply inv_step|].
  destruct Hinv as (rs & lh & Hw). destruct Hs; cbn in *; try congruence.
  - split_and!; try done. by apply lookup_app_l_Some.
  - destruct (decide (i = i0)) as [<-|Hn].
    + assert (a = WaitEventInterruptible) as -> by congruence.
      match goal with H : perform _ _ _ = _ |- _ => cbn in H; rewrite Hz, Hl in H; discriminate end.
    + assert (Hi0 : ps !! i0 = Some (Act a k0)) by done.
      destruct (inv_role _ _ _ _ _ Hw Hi) as (hi & li & Hri & Hdi & _). cbn in Hdi.
      destruct (inv_role _ _ _ _ _ Hw Hi0) as ([] & lj & Hrj & Hdj & _).
      * exfalso. pose proof Hw as (_ & _ & Hsem & _). destruct hi; [|done].
        pose proof (sum_two holds _ _ _ _ _ Hn Hri Hrj) as H2.
        change (1 + 1 <= sum_list_with holds rs)%nat in H2. lia.
      * destruct (perform_not_owner _ _ _ _ _ _ Hdj ltac:(eassumption) He Hq) as (? & ? & Hf).
        rewrite list_lookup_insert_ne by done. split_and!; congruence.
  - destruct (clk_disabled p Idle (hw m) He Hq eq_refl). by split_and!.
Qed.

(** C26: A reader can lock everybody out.  When a reader waits while the
    peripheral's interrupt is disabled (and none is pending), then without a
    signal it waits forever, whatever the other processes call and whatever
    buttons are pressed: the interrupt stays disabled, because the ioctl and the
    write that would enable it need the semaphore the reader holds, and no other
    process ever owns it. *)
Theorem reader_locks_out (b : blinker) (s s' : sys) (i : nat) (k : bool -> prog) :
  reachable b s -> procs s !! i = Some (Act WaitEventInterruptible k) ->
  interrupt_flag (mem s) = 0 -> ena_irq (hw (mem s)) = false -> irq (hw (mem s)) = false -> handler s = None ->
  steps no_signal s s' ->
  procs s' !! i = Some (Act WaitEventInterruptible k) /\ ena_irq (hw (mem s')) = false /\
  interrupt_flag (mem s') = 0 /\ sem (mem s') = O /\
  forall j p l, j <> i -> procs s' !! j = Some p -> ~ disciplined proc_ok true l p.
Proof.
  intros Hr Hi Hz He Hq Hh Hst. assert (Hstuck : stuck_reader i k s') by
    (induction Hst; [by repeat split; [eapply reachable_inv|..]|eapply stuck_step; eauto]).
  destruct Hstuck as ((rs & lh & Hw) & Hi' & Hz' & He' & _). split_and!; [done..| |].
  - destruct (inv_role _ _ _ _ _ Hw Hi') as (hi & li & Hri & Ho & _). destruct hi; [|done].
    pose proof Hw as (_ & _ & Hsem & _). pose proof (sum_ge holds _ _ _ Hri) as H1.
    change (1 <= sum_list_with holds rs)%nat in H1. lia.
  - intros j p l Hn Hj Hd. destruct (inv_role _ _ _ _ _ Hw Hi') as (hi & li & Hri & Ho & _). destruct hi; [|done].
    pose proof (inv_role_is _ _ _ _ _ _ _ Hw Hj Hd) as Hrj. pose proof Hw as (_ & _ & Hsem & _).
    pose proof (sum_two holds _ _ _ _ _ Hn Hrj Hri) as H2. change (1 + 1 <= sum_list_with holds rs)%nat in H2. lia.
Qed.

(** ** What the operations do

    A process alone, with the semaphore and the lock free, no signal and no
    button pressed meanwhile. *)
Definition idle_driver (e : env) (m : shared) : Prop :=
  sem m = 1%nat /\ irq_lock m = false /\ signal e = false /\ quiet (at_pins e) /\ wf (hw m).

Lemma steps_app L s1 s2 s3 : steps L s1 s2 -> steps L s2 s3 -> steps L s1 s3.
Proof. intros H1 H2. revert H1. induction H2; intros H1; [done|]. by eapply steps_trans; [apply IHsteps|..]. Qed.

(** A lone run is an interleaving in which only that process moves. *)
Lemma exec_steps e p m r m' o : exec e p m = Some (r, m', o) ->
  forall ps h i, ps !! i = Some p -> steps (fun l => l = Proc e) (mk_sys m ps h) (mk_sys m' (<[i := Ret r]> ps) h).
Proof.
  revert m o. induction p as [r0|a k IH]; cbn; intros m o He ps h i Hi.
  - injection He as <- <- <-. rewrite list_insert_id by done. apply steps_refl.
  - destruct (perform e a m) as [[x m1]|] eqn:E; [|done].
    destruct (exec e (k x) m1) as [[[r1 m2] o1]|] eqn:E1; [|done]. injection He as -> -> _.
    assert (Hlt : (i < length ps)%nat) by (by eapply lookup_lt_Some).
    pose proof (IH x m1 o1 E1 (<[i := k x]> ps) h i ltac:(by apply list_lookup_insert_eq)) as Hst.
    rewrite list_insert_insert_eq in Hst. assert (Hone : steps (fun l => l = Proc e) (mk_sys m ps h) (mk_sys m1 (<[i := k x]> ps) h)).
    { eapply steps_trans; [apply steps_refl|done|by eapply step_proc]. }
    by eapply steps_app.
Qed.

Lemma u8_bits f i : 0 <= i < 8 -> Z.testbit (u8 f) i = Z.testbit f i.
Proof. intros Hi. unfold u8. apply Z.mod_pow2_bits_low. lia. Qed.

(** A run goes on after a service that copies nothing to the user. *)
Definition silent (a : action) : bool := match a with ToUser _ => false | _ => true end.

Lemma exec_act e a k m x m1 : silent a = true -> perform e a m = Some (x, m1) ->
  exec e (Act a k) m = exec e (k x) m1.
Proof. intros Ha Hp. cbn. rewrite Hp. destruct (exec e (k x) m1) as [[[r m2] o]|]; [|done]. by destruct a. Qed.

Lemma exec_down e k m n : signal e = false -> sem m = S n ->
  exec e (Act DownInterruptible k) m = exec e (k false) (set_sem n m).
Proof. intros Hs Hm. apply exec_act; [done|]. cbn. by rewrite Hs, Hm. Qed.

(** Reading the state and writing [f] of it to the configuration. *)
Lemma update_config_spec e m f k : irq_lock m = false -> quiet (at_pins e) ->
  exists b, exec e (update_config f k) m = exec e k (set_hw b m) /\
    mode b = Z.testbit (f (state_byte (hw m))) 0 /\
    running b = Z.testbit (f (state_byte (hw m))) 1 /\
    ena_irq b = Z.testbit (f (state_byte (hw m))) 2 /\
    speed b = speed (hw m) /\ irq b = false.
Proof.
  intros Hl Hq. unfold update_config.
  set (b1 := clk (at_pins e) (Read STATE) (hw m)). set (b2 := clk (at_pins e) (Write true (u8 (f (state_byte (hw m))))) b1).
  destruct (clk_read (at_pins e) STATE (hw m) Hq) as (R1 & R2 & R3 & R4 & R5). fold b1 in R1, R2, R3, R4, R5.
  destruct (clk_write_config (at_pins e) (u8 (f (state_byte (hw m)))) b1 Hq) as (W1 & W2 & W3 & W4 & W5).
  fold b2 in W1, W2, W3, W4, W5. rewrite !u8_bits in * by lia.
  exists b2. split_and!; [|done..|congruence|by rewrite W5, R5].
  rewrite (exec_act e SpinLockIrqsave _ m tt (set_lock true m)); [|done|cbn; by rewrite Hl].
  erewrite exec_act; [|done|done]. erewrite exec_act; [|done|done]. erewrite exec_act; [|done|done].
  destruct m. cbn in Hl |- *. by rewrite Hl.
Qed.

(** The three configuration bits that a command asks the peripheral for. *)
Definition config_request (cmd : ioc) (v : Z) (mode running ena : bool) : option (bool * bool * bool) :=
  match cmd with
  | IOC_SET_RUNNING => Some (mode, true, ena)
  | IOC_CLEAR_RUNNING => Some (mode, false, ena)
  | IOC_ENA_INT => Some (mode, running, true)
  | IOC_DIS_INT => Some (mode, running, false)
  | IOC_SET_MODE => if u8 v =? 0 then Some (false, running, ena) else if u8 v =? 1 then Some (true, running, ena) else None
  | _ => None
  end.

(** C27: The configuration commands exchange "mode" and "running".  Each of the
    five ioctls that change the configuration returns 0 with the locks free, the
    speed and the counters of interrupts untouched and a pending interrupt of the
    peripheral acknowledged, and it leaves the peripheral with the bits the
    command asks for, but with the mode bit in the place of the running bit and
    the other way round: the state register reads back running in bit 0 and mode
    in bit 1, the configuration register takes them the other way.  So enabling
    interrupts alone exchanges mode and running. *)
Theorem ioctl_config_swaps (cmd : ioc) (e : env) (m : shared) (v : Z) (want : bool * bool * bool) :
  idle_driver e m -> user e = Some v ->
  config_request cmd v (mode (hw m)) (running (hw m)) (ena_irq (hw m)) = Some want ->
  exists m', exec e (blinker_dev_ioctl cmd) m = Some (0, m', []) /\
    (running (hw m'), mode (hw m'), ena_irq (hw m')) = want /\
    speed (hw m') = speed (hw m) /\ irq (hw m') = false /\ sem m' = 1%nat /\ irq_lock m' = false /\
    interrupt_flag m' = interrupt_flag m /\ g_irq_count m' = g_irq_count m.
Proof.
  intros (Hs & Hl & Hsig & Hq & Hw) Hu Hreq. destruct (state_byte_bits _ Hw) as (Hb & B0 & B1 & B2 & _).
  assert (Hgo : forall f m1, hw m1 = hw m -> sem m1 = O -> irq_lock m1 = false ->
    interrupt_flag m1 = interrupt_flag m -> g_irq_count m1 = g_irq_count m ->
    (Z.testbit (f (state_byte (hw m))) 1, Z.testbit (f (state_byte (hw m))) 0, Z.testbit (f (state_byte (hw m))) 2) = want ->
    exists m', exec e (update_config f (do Up; Ret 0)) m1 = Some (0, m', []) /\
      (running (hw m'), mode (hw m'), ena_irq (hw m')) = want /\
      speed (hw m') = speed (hw m) /\ irq (hw m') = false /\ sem m' = 1%nat /\ irq_lock m' = false /\
      interrupt_flag m' = interrupt_flag m /\ g_irq_count m' = g_irq_count m).
  { intros f m1 E1 E2 E3 E4 E5 Hf. destruct (update_config_spec e m1 f (do Up; Ret 0) E3 Hq) as (b & -> & Hm & Hr & He & Hsp & Hi).
    rewrite E1 in *. exists (set_sem 1 (set_hw b m1)). cbn. rewrite E2. split_and!; try done. congruence. }
  unfold blinker_dev_ioctl. rewrite (exec_down e _ m O Hsig Hs). cbv iota. erewrite exec_act; [|done|done].
  destruct cmd; cbn in Hreq; try discriminate; try (apply Hgo; try done; injection Hreq as <-;
    rewrite ?Z.lor_spec, ?Z.land_spec, ?B0, ?B1, ?B2; cbn; by rewrite ?andb_true_r, ?andb_false_r, ?orb_true_r, ?orb_false_r).
  erewrite exec_act; [|done|done]. rewrite Hu. cbv zeta.
  destruct (Z.eqb_spec (u8 v) 0) as [Hv|]; [|destruct (Z.eqb_spec (u8 v) 1) as [Hv|]; [|done]]; rewrite Hv; cbn [Z.ltb Z.gtb];
    (apply Hgo; try done; injection Hreq as <-; cbn [Z.eqb];
     rewrite ?Z.lor_spec, ?Z.land_spec, ?B0, ?B1, ?B2; cbn; by rewrite ?andb_true_r, ?andb_false_r, ?orb_true_r, ?orb_false_r).
Qed.

(** Setting the speed.  The user's word is taken modulo 256 and accepted
    exactly when that is between 1 and 15; then the speed is set and nothing
    else of the peripheral changes.  Any other value gives -EINVAL and a bad
    address -EFAULT, both with the peripheral untouched; the locks are released
    on every path. *)
Theorem ioctl_set_speed (e : env) (m : shared) : idle_driver e m ->
  exists r m', exec e (blinker_dev_ioctl IOC_SET_SPEED) m = Some (r, m', []) /\
    sem m' = 1%nat /\ irq_lock m' = false /\ counters m' ioctl_count = u32 (counters m ioctl_count + 1) /\
    match user e with
    | None => r = - EFAULT /\ hw m' = hw m
    | Some v =>
        if (1 <=? v mod 256) && (v mod 256 <=? 15) then
          r = 0 /\ speed (hw m') = v mod 256 /\ mode (hw m') = mode (hw m) /\ running (hw m') = running (hw m) /\
          ena_irq (hw m') = ena_irq (hw m) /\ irq (hw m') = irq (hw m)
        else r = - EINVAL /\ hw m' = hw m
    end.
Proof.
  intros (Hs & Hl & Hsig & Hq & Hw). unfold blinker_dev_ioctl. rewrite (exec_down e _ m O Hsig Hs). cbv iota.
  erewrite exec_act; [|done|done]. erewrite exec_act; [|done|done]. destruct (user e) as [v|].
  - assert (Hcond : (u8 v <? 1) || (u8 v >? 15) = negb ((1 <=? v mod 256) && (v mod 256 <=? 15))).
    { change (u8 v) with (v mod 256). rewrite Z.gtb_ltb. destruct (Z.ltb_spec (v mod 256) 1), (Z.ltb_spec 15 (v mod 256)),
        (Z.leb_spec 1 (v mod 256)), (Z.leb_spec (v mod 256) 15); try done; lia. }
    cbv zeta. rewrite Hcond. destruct (_ && _) eqn:Hr; cbn [negb].
    + apply andb_true_iff in Hr as [Hlo Hhi]. apply Z.leb_le in Hlo, Hhi.
      destruct (clk_write_speed (at_pins e) (u8 v) (hw m) Hq) as (S1 & S2 & S3 & S4 & S5).
      eexists 0, _. erewrite (exec_act _ SpinLockIrqsave _ _ tt); [|done|cbn; by rewrite Hl].
      erewrite exec_act; [|done|done]. erewrite exec_act; [|done|done]. erewrite exec_act; [|done|done].
      split; [done|]. split_and!; try done. etrans; [exact S1|]. change (u8 v) with (v mod 256). apply Z.mod_small. lia.
    + eexists (- EINVAL), _. erewrite exec_act; [|done|done]. split; [done|]. by split_and!.
  - eexists (- EFAULT), _. erewrite exec_act; [|done|done]. split; [done|]. by split_and!.
Qed.

Lemma state_byte_read p a b : quiet p -> state_byte (clk p (Read a) b) = state_byte b.
Proof. intros Hq. destruct (clk_read p a b Hq) as (E1 & E2 & E3 & E4 & _). unfold state_byte. by rewrite E1, E2, E3, E4. Qed.

Lemma irq_read p a b : quiet p -> irq (clk p (Read a) b) = if a then false else irq b.
Proof. intros Hq. by destruct (clk_read p a b Hq) as (_ & _ & _ & _ & ->). Qed.

(** An interrupt wakes a reader once.  Without an interrupt a read waits.
    The handler acknowledges the peripheral, counts modulo 2^32 and raises the
    flag; the next read then returns, copies exactly one byte, the state
    register, whatever the [count] it returns, and takes the flag down, so that
    the read after it waits again. *)
Theorem interrupt_wakes_reader (e : env) (m : shared) (v count : Z) :
  idle_driver e m -> user e = Some v -> interrupt_flag m = 0 ->
  exec e (blinker_dev_read count) m = None /\
  exists m1 m2, exec e blinker_driver_interrupt_handler m = Some (IRQ_HANDLED, m1, []) /\
    g_irq_count m1 = u32 (g_irq_count m + 1) /\ irq (hw m1) = false /\ irq_lock m1 = false /\
    exec e (blinker_dev_read count) m1 = Some (count, m2, [state_byte (hw m)]) /\
    exec e (blinker_dev_read count) m2 = None.
Proof.
  intros (Hs & Hl & Hsig & Hq & Hw) Hu Hz.
  assert (Hwait : forall m, sem m = 1%nat -> interrupt_flag m = 0 -> exec e (blinker_dev_read count) m = None).
  { clear - Hsig. intros m Hs Hz. unfold blinker_dev_read. rewrite (exec_down e _ m O Hsig Hs).
    cbn. by rewrite Hz, Hsig. }
  split; [by apply Hwait|]. eexists _, _. split; [|split; [|split; [|split; [|split]]]].
  - unfold blinker_driver_interrupt_handler. erewrite (exec_act _ SpinLock _ _ tt); [|done|cbn; by rewrite Hl].
    do 5 (erewrite exec_act; [|done|done]). done.
  - done.
  - cbn [hw set_hw set_lock set_flag set_irq_count]. by rewrite !irq_read.
  - done.
  - unfold blinker_dev_read. erewrite (exec_down e _ _ O); [|done|exact Hs]. cbv iota. erewrite exec_act; [|done|done].
    erewrite (exec_act _ WaitEventInterruptible _ _ false); [|done|done]. do 4 (erewrite exec_act; [|done|done]).
    cbn [exec perform]. rewrite Hu. cbn [readdata hw set_hw set_lock set_flag set_irq_count set_sem incr].
    change (Read LEDS) with (Read false). change (Read STATE) with (Read true). rewrite !state_byte_read by done. reflexivity.
  - apply Hwait; done.
Qed.

(** A call that runs to its end while everything else stands still. *)
Lemma exec_call L m ps h e p r m' o : syscall p ->
  exec e p m = Some (r, m', o) -> L Call -> L (Proc e) ->
  steps L (mk_sys m ps h) (mk_sys m' (ps ++ [Ret r]) h).
Proof.
  intros Hp He HC HP. assert (Hi : (ps ++ [p]) !! length ps = Some p) by (by rewrite lookup_app_r, Nat.sub_diag by done).
  pose proof (exec_steps e p m r m' o He (ps ++ [p]) h _ Hi) as Hst.
  rewrite insert_app_r_alt, Nat.sub_diag in Hst by done. cbn in Hst.
  eapply steps_app; [eapply steps_trans; [apply steps_refl|exact HC|by apply step_call]|].
  clear - Hst HP. induction Hst; [apply steps_refl|]. eapply steps_trans; [done| |done]. by subst.
Qed.

(** An ioctl can swallow an interrupt.  From a freshly probed driver with
    the peripheral's interrupt enabled and no interrupt so far, a button press
    and an IOC_GET_CONFIG that comes before the interrupt is taken lead to a
    state in which the call has succeeded, the interrupt line is down again and
    neither the flag nor the count shows that there was an interrupt. *)
Theorem ioctl_swallows_interrupt (b : blinker) (p : pins) :
  wf b -> ena_irq b = true -> any_button p = true ->
  exists s1 s2, reachable b s1 /\ irq (hw (mem s1)) = true /\ handler s1 = None /\
    steps (fun l => l = Call \/ exists e, l = Proc e /\ signal e = false) s1 s2 /\
    procs s2 = [Ret 0] /\ handler s2 = None /\ irq (hw (mem s2)) = false /\
    interrupt_flag (mem s2) = 0 /\ g_irq_count (mem s2) = 0.
Proof.
  intros Hw He Hp. set (m0 := mk_shared b 1 false 0 0 (fun _ => 0)). set (m1 := set_hw (clk p Idle b) m0).
  assert (Hreach : reachable b (mk_sys m1 [] None)).
  { exists (mk_sys m0 [] None). split; [done|]. eapply steps_trans; [apply steps_refl|done|apply (step_clock p m0)]. }
  destruct (exec calm_env (blinker_dev_ioctl IOC_GET_CONFIG) m1) as [[[r m2] o]|] eqn:E; [|discriminate].
  exists (mk_sys m1 [] None), (mk_sys m2 ([] ++ [Ret r]) None). split; [done|].
  split; [cbn; unfold next_irq; by rewrite Hp, He|]. split; [done|]. split.
  - eapply exec_call; [apply sys_ioctl|done|by left|right; by exists calm_env].
  - cbn in E. injection E as <- <- <-. split_and!; done.
Qed.

(** ** Witnesses *)

Definition shared0 : shared := mk_shared reset 1 false 0 0 (fun _ => 0).
Definition sys0 : sys := mk_sys shared0 [] None.

Lemma sys0_reachable : reachable reset sys0.
Proof. exists sys0. split; [done|apply steps_refl]. Defined.

Lemma idle_driver0 : idle_driver calm_env shared0.
Proof. split_and!; try reflexivity. apply wf_reset. Defined.

Lemma driver_exclusion_witness : sem (mem sys0) = 1%nat /\ irq_lock (mem sys0) = false.
Proof. apply (driver_exclusion reset sys0 sys0_reachable); [reflexivity|]. intros i p Hi. discriminate. Defined.

(** A reader that has taken the semaphore. *)
Definition reading : bool -> prog := fun i =>
  if i then do Up; Ret (- ERESTARTSYS) else
  do SpinLockIrqsave; do SetInterruptFlag 0; do SpinUnlockIrqrestore;
  let! state := IoRead8 STATE in
  let! e := ToUser state in
  if e then do Up; Ret (- EFAULT) else do Up; Ret 1.

Definition sys_reading : sys :=
  mk_sys (incr read_count (set_sem 0 shared0)) [Act WaitEventInterruptible reading] None.

Lemma sys_reading_reachable : reachable reset sys_reading.
Proof.
  exists sys0. split; [done|].
  eapply steps_trans; [eapply steps_trans; [eapply steps_trans; [apply steps_refl|exact Logic.I|]|exact Logic.I|]|exact Logic.I|].
  - apply step_call, (sys_read 1).
  - eapply (step_proc calm_env _ _ _ O DownInterruptible _ false); reflexivity.
  - exact (step_proc calm_env (set_sem 0 shared0) [do Incr read_count; Act WaitEventInterruptible reading] None O
      (Incr read_count) (fun _ => Act WaitEventInterruptible reading) tt _ eq_refl eq_refl).
Defined.

(** The exception of the progress theorem is reached. *)
Lemma driver_progress_witness : can_move sys_reading \/
  exists j k', procs sys_reading !! j = Some (Act WaitEventInterruptible k') /\
    disciplined proc_ok true false (Act WaitEventInterruptible k') /\ interrupt_flag (mem sys_reading) = 0.
Proof. exact (driver_progress reset sys_reading 0 WaitEventInterruptible reading sys_reading_reachable eq_refl). Defined.

Lemma reader_locks_out_witness :
  procs sys_reading !! O = Some (Act WaitEventInterruptible reading) /\ ena_irq (hw (mem sys_reading)) = false /\
  interrupt_flag (mem sys_reading) = 0 /\ sem (mem sys_reading) = O /\
  forall j p l, j <> O -> procs sys_reading !! j = Some p -> ~ disciplined proc_ok true l p.
Proof.
  apply (reader_locks_out reset sys_reading sys_reading O reading sys_reading_reachable); try reflexivity. apply steps_refl.
Defined.

(** Enabling interrupts on a blinker that sweeps: it stops and blinks. *)
Lemma ioctl_config_swaps_witness :
  let m := set_hw (mk_blinker 0 0 8 false true 0 0 false false) shared0 in
  exists m', exec calm_env (blinker_dev_ioctl IOC_ENA_INT) m = Some (0, m', []) /\
    (running (hw m'), mode (hw m'), ena_irq (hw m')) = (false, true, true).
Proof.
  intros m. destruct (ioctl_config_swaps IOC_ENA_INT calm_env m 0 (false, true, true)) as (m' & He & Hc & _);
    [split_and!; try reflexivity; split; cbn; lia|reflexivity|reflexivity|]. exists m'. split; [exact He|exact Hc].
Defined.

(** 271 is taken as 15. *)
Lemma ioctl_set_speed_witness :
  let e := mk_env false (Some 271) (mk_pins 0 0) in
  exists m', exec e (blinker_dev_ioctl IOC_SET_SPEED) shared0 = Some (0, m', []) /\ speed (hw m') = 15.
Proof.
  intros e. destruct (ioctl_set_speed e shared0) as (r & m' & He & _ & _ & _ & Hr); [exact idle_driver0|].
  change (r = 0 /\ speed (hw m') = 271 mod 256 /\ mode (hw m') = mode (hw shared0) /\
    running (hw m') = running (hw shared0) /\ ena_irq (hw m') = ena_irq (hw shared0) /\
    irq (hw m') = irq (hw shared0)) in Hr. destruct Hr as (-> & Hs & _). exists m'. split; [exact He|exact Hs].
Defined.

Lemma interrupt_wakes_reader_witness :
  exec calm_env (blinker_dev_read 4) shared0 = None /\
  exists m1 m2, exec calm_env blinker_driver_interrupt_handler shared0 = Some (IRQ_HANDLED, m1, []) /\
    exec calm_env (blinker_dev_read 4) m1 = Some (4, m2, [0x83]).
Proof.
  destruct (interrupt_wakes_reader calm_env shared0 0 4) as (H0 & m1 & m2 & H1 & _ & _ & _ & H2 & _);
    [exact idle_driver0|reflexivity|reflexivity|]. split; [exact H0|]. exists m1, m2. by split.
Defined.

Lemma ioctl_swallows_interrupt_witness :
  let b := mk_blinker 0 0 8 true true 0 0 true false in
  exists s1 s2, reachable b s1 /\ irq (hw (mem s1)) = true /\ handler s1 = None /\
    steps (fun l => l = Call \/ exists e, l = Proc e /\ signal e = false) s1 s2 /\
    procs s2 = [Ret 0] /\ handler s2 = None /\ irq (hw (mem s2)) = false /\
    interrupt_flag (mem s2) = 0 /\ g_irq_count (mem s2) = 0.
Proof. intros b. apply (ioctl_swallows_interrupt b (mk_pins 0 4)); [split; cbn; lia|reflexivity|reflexivity]. Defined.
