(* ===== verification/BlinkerPd.v ===== *)
(** The platform driver of the blinker (driver/blinker_pd_module).

    The kernel's services that can fail are arguments: what they answer.  What
    the driver holds of the kernel (attribute files, the memory region, the
    mapping, clock references) is state, so that the error paths of probe can be
    followed.  Register accesses go to the mapped address; through a null
    mapping they are undefined. *)

From stdpp Require Import pretty.
From S2P Require Import Prelude Mmio Blinker.

(** driver_attr_leds and the others. *)
Inductive attr := attr_config | attr_leds | attr_state | attr_speed.
#[export] Instance attr_eq_dec : EqDecision attr.
Proof. solve_decision. Defined.

(** The driver's globals and what it holds. *)
Record pd := mk_pd {
  blinker_map_mem : Z;
  g_blinker_driver_base_addr : Z;
  g_blinker_driver_size : Z;
  g_blinker_driver_clk_rate : Z;
  files : list attr;
  region : option (Z * Z);
  mapped : bool;
  clk_refs : nat
}.

Definition set_map (a : Z) (s : pd) : pd :=
  mk_pd a (g_blinker_driver_base_addr s) (g_blinker_driver_size s) (g_blinker_driver_clk_rate s) (files s)
    (region s) (mapped s) (clk_refs s).
Definition set_resource (a n : Z) (s : pd) : pd :=
  mk_pd (blinker_map_mem s) a n (g_blinker_driver_clk_rate s) (files s) (region s) (mapped s) (clk_refs s).
Definition set_clk_rate (r : Z) (s : pd) : pd :=
  mk_pd (blinker_map_mem s) (g_blinker_driver_base_addr s) (g_blinker_driver_size s) r (files s) (region s)
    (mapped s) (clk_refs s).
Definition set_files (l : list attr) (s : pd) : pd :=
  mk_pd (blinker_map_mem s) (g_blinker_driver_base_addr s) (g_blinker_driver_size s) (g_blinker_driver_clk_rate s) l
    (region s) (mapped s) (clk_refs s).
Definition set_region (r : option (Z * Z)) (s : pd) : pd :=
  mk_pd (blinker_map_mem s) (g_blinker_driver_base_addr s) (g_blinker_driver_size s) (g_blinker_driver_clk_rate s)
    (files s) r (mapped s) (clk_refs s).
Definition set_mapped (b : bool) (s : pd) : pd :=
  mk_pd (blinker_map_mem s) (g_blinker_driver_base_addr s) (g_blinker_driver_size s) (g_blinker_driver_clk_rate s)
    (files s) (region s) b (clk_refs s).
Definition add_clk_ref (s : pd) : pd :=
  mk_pd (blinker_map_mem s) (g_blinker_driver_base_addr s) (g_blinker_driver_size s) (g_blinker_driver_clk_rate s)
    (files s) (region s) (mapped s) (S (clk_refs s)).

(** What the kernel answers. *)
Record kernel := mk_kernel {
  platform_get_resource : option (Z * Z);   (* start and size, or NULL *)
  clk_get : option Z;                       (* the rate of the clock, or an error *)
  driver_create_file : Z;
  request_mem_region : bool;
  ioremap : Z;                              (* the mapped address, or NULL *)
  platform_driver_register : Z;
  kstrtou8 : string -> option Z             (* the value in base 10, or an error *)
}.

Section pd.
Context {D : Type} `{Device D} (kern : kernel).
Abbreviation M := (M D pd).

(** ioread8 and iowrite8 on the mapping. *)
Definition ioread8 (ioaddr : Z -> Z) : M Z :=
  let* s := get in
  if blinker_map_mem s =? 0 then undef else
  let* v := readl (ioaddr (blinker_map_mem s)) in ret (u8 v).
Definition iowrite8 (v : Z) (ioaddr : Z -> Z) : M unit :=
  let* s := get in
  if blinker_map_mem s =? 0 then undef else writel (u8 v) (ioaddr (blinker_map_mem s)).

(** What [scnprintf(buf, PAGE_SIZE, "%u\n", data)] leaves in the buffer; it
    returns the length. *)
Definition show_text (data : Z) : string := (pretty (Z.to_N data) +:+ String (Ascii.ascii_of_nat 10) EmptyString)%string.
Definition scnprintf (data : Z) : Z * string := (Z.of_nat (String.length (show_text data)), show_text data).

Definition leds_show : M (Z * string) :=
  let* data := ioread8 IOADDR_BLINKER_LEDS in
  msg "Leds position: %d, data" ;;;
  ret (scnprintf data).

Definition state_show : M (Z * string) :=
  let* data := ioread8 IOADDR_BLINKER_STATE in
  msg "State of LEDs: %d, data" ;;;
  ret (scnprintf data).

(** [buf] is a string or NULL. *)
Definition config_store (buf : option string) (count : Z) : M Z :=
  match buf with
  | None => msg "Error, string must not be NULL" ;;; ret (- EINVAL)
  | Some buf =>
      match kstrtou8 kern buf with
      | None => msg "Could not convert string to interger" ;;; ret (- EINVAL)
      | Some data =>
          if (data >? 3) && (data <? 1) then msg "Invalid configuration data" ;;; ret (- EINVAL) else
          iowrite8 data IOADDR_BLINKER_CONFIG ;;;
          msg "New configuration value" ;;;
          ret count
      end
  end.

Definition speed_store (buf : option string) (count : Z) : M Z :=
  match buf with
  | None => msg "Error, string musst not be NULL" ;;; ret (- EINVAL)
  | Some buf =>
      match kstrtou8 kern buf with
      | None => msg "Could not convert string to interger" ;;; ret (- EINVAL)
      | Some data =>
          if (data >? 3) && (data <? 1) then msg "Invalid configuration data" ;;; ret (- EINVAL) else
          iowrite8 data IOADDR_BLINKER_SPEED ;;;
          msg "New speed value" ;;;
          ret count
      end
  end.

(** ** probe and remove *)

Definition driver_remove_file (a : attr) : M unit :=
  modify (fun s => set_files (List.filter (fun b => negb (bool_decide (a = b))) (files s)) s).

(** The kernel complains when the region is not held. *)
Definition release_mem_region : M unit :=
  let* s := get in
  if decide (region s = Some (g_blinker_driver_base_addr s, g_blinker_driver_size s))
  then modify (set_region None)
  else msg "Trying to free nonexistent resource".

(** The exit labels, each falling through to the next. *)
Definition bad_exit_return (r : Z) : M Z := msg "blinker device connect FAILED" ;;; ret r.
Definition bad_exit_create_leds_file (r : Z) : M Z := driver_remove_file attr_speed ;;; bad_exit_return r.
Definition bad_exit_create_config_file (r : Z) : M Z := driver_remove_file attr_leds ;;; bad_exit_create_leds_file r.
Definition bad_exit_create_state_file (r : Z) : M Z := driver_remove_file attr_config ;;; bad_exit_create_config_file r.
Definition bad_exit_request_mem (r : Z) : M Z := driver_remove_file attr_state ;;; bad_exit_create_state_file r.
Definition bad_exit_ioremap (r : Z) : M Z := release_mem_region ;;; bad_exit_request_mem r.

Definition blinker_probe : M Z :=
  match platform_get_resource kern with
  | None => msg "IORESOURCE_MEM, 0 does not exist" ;;; bad_exit_return (- EINVAL)
  | Some (start, size) =>
      modify (set_resource start size) ;;;
      match clk_get kern with
      | None => msg "clk not available" ;;; bad_exit_return (- EINVAL)
      | Some clk_rate =>
          modify add_clk_ref ;;;
          modify (set_clk_rate clk_rate) ;;;
          let r := driver_create_file kern in
          if r <? 0 then msg "failed to create leds sysf entry." ;;; bad_exit_create_leds_file r else
          modify (fun s => set_files (files s ++ [attr_leds]) s) ;;;
          if negb (request_mem_region kern) then msg "request_mem_region failed." ;;; bad_exit_request_mem r else
          let* s := get in
          modify (set_region (Some (g_blinker_driver_base_addr s, g_blinker_driver_size s))) ;;;
          modify (set_map (ioremap kern)) ;;;
          if ioremap kern =? 0 then msg "ioremap failed." ;;; bad_exit_ioremap r else
          modify (set_mapped true) ;;;
          msg "blinker device successfully connected" ;;;
          ret 0
      end
  end.

Definition blinker_remove : M Z :=
  driver_remove_file attr_speed ;;;
  driver_remove_file attr_leds ;;;
  driver_remove_file attr_config ;;;
  driver_remove_file attr_state ;;;
  release_mem_region ;;;
  modify (set_mapped false) ;;;
  msg "blinker device successfully removed" ;;;
  ret 0.

Definition PAGE_SIZE : Z := 4096.
Definition BLINKER_SIZE : Z := PAGE_SIZE.

Definition blinker_init : M Z :=
  modify (set_resource BLINKER_BASE BLINKER_SIZE) ;;;
  let r := platform_driver_register kern in
  if negb (r =? 0) then
    msg "platform_driver_register returned" ;;;
    msg "blinker module instert FAILED" ;;;
    ret r
  else msg "blinker module successfully inserted" ;;; ret 0.

(** The kernel removes the driver from its device, if it is bound to one. *)
Definition blinker_exit (bound : bool) : M unit :=
  (if bound then blinker_remove ;;; ret tt else ret tt) ;;;
  msg "blinker driver successfully removed".

(** ** The error paths of probe *)

(** Nothing held. *)
Definition unbound (s : pd) : Prop := files s = [] /\ region s = None /\ mapped s = false.

(** All the services that probe needs answer. *)
Definition services_ok : bool :=
  match platform_get_resource kern, clk_get kern with
  | Some _, Some _ => (0 <=? driver_create_file kern) && request_mem_region kern && negb (ioremap kern =? 0)
  | _, _ => false
  end.

(** The region when it is released. *)
Lemma wp_release (s : st D pd) (Q : outcome unit -> st D pd -> trace -> Prop) :
  (region (glob s) = Some (g_blinker_driver_base_addr (glob s), g_blinker_driver_size (glob s)) ->
     Q (Val tt) (mk_st (dev s) (set_region None (glob s))) []) ->
  (region (glob s) = None -> Q (Val tt) s [Msg "Trying to free nonexistent resource"]) ->
  region (glob s) = None \/ region (glob s) = Some (g_blinker_driver_base_addr (glob s), g_blinker_driver_size (glob s)) ->
  wp release_mem_region s Q.
Proof.
  intros H1 H2 Hr. unfold release_mem_region. do 2 wp_step. destruct Hr as [Hr|Hr].
  - rewrite decide_False by (by rewrite Hr). wp_step. by apply H2.
  - rewrite decide_True by done. wp_step. by apply H1.
Qed.

Lemma files_cleared (l : list attr) :
  List.filter (fun b => negb (bool_decide (attr_state = b))) (List.filter (fun b => negb (bool_decide (attr_config = b)))
    (List.filter (fun b => negb (bool_decide (attr_leds = b))) (List.filter (fun b => negb (bool_decide (attr_speed = b))) l))) = [].
Proof. induction l as [|[] l IH]; cbn; done. Qed.

Definition region_held (s : pd) : Prop := region s = Some (g_blinker_driver_base_addr s, g_blinker_driver_size s).

Lemma remove_spec (s : st D pd) : region (glob s) = None \/ region_held (glob s) ->
  out (blinker_remove s) = Val 0 /\ unbound (glob (fin (blinker_remove s))) /\
  clk_refs (glob (fin (blinker_remove s))) = clk_refs (glob s) /\
  (region (glob s) = None -> tr (blinker_remove s) =
     [Msg "Trying to free nonexistent resource"; Msg "blinker device successfully removed"]) /\
  (region_held (glob s) -> tr (blinker_remove s) = [Msg "blinker device successfully removed"]).
Proof.
  intros Hr. wp_enter. unfold blinker_remove, driver_remove_file. do 8 wp_step. wp_step. cbn [glob dev].
  unfold region_held in *. apply wp_release; [| |done]; cbn; intros Hr'; wp_run; cbn; unfold unbound; cbn;
    rewrite files_cleared; split_and!; first [done | congruence].
Qed.

(** The end of every error path: the files go, the status stays. *)
Definition given_back (r : Z) (s : pd) (o : outcome Z) (s' : pd) : Prop :=
  o = Val r /\ unbound s' /\ clk_refs s' = clk_refs s.

Lemma bad_exit_request_mem_spec r (s : st D pd) : region (glob s) = None -> mapped (glob s) = false ->
  wp (bad_exit_request_mem r) s (fun o s' _ => given_back r (glob s) o (glob s')).
Proof.
  intros Hr Hm. unfold bad_exit_request_mem, bad_exit_create_state_file, bad_exit_create_config_file,
    bad_exit_create_leds_file, bad_exit_return, driver_remove_file. wp_run. split_and!; [done|split_and!|done]; cbn; try done.
  by induction (files (glob s)) as [|[] l IH].
Qed.

Lemma probe_spec (s : st D pd) : unbound (glob s) ->
  exists v, out (blinker_probe s) = Val v /\
    (services_ok = true -> let s' := glob (fin (blinker_probe s)) in
       v = 0 /\ files s' = [attr_leds] /\ mapped s' = true /\ blinker_map_mem s' <> 0 /\ region_held s' /\
       region s' = platform_get_resource kern /\ clk_refs s' = S (clk_refs (glob s))) /\
    (services_ok = false -> let s' := glob (fin (blinker_probe s)) in unbound s' /\
       clk_refs s' = match platform_get_resource kern, clk_get kern with
                     | Some _, Some _ => S (clk_refs (glob s)) | _, _ => clk_refs (glob s) end /\
       (v < 0 <-> platform_get_resource kern = None \/ clk_get kern = None \/ driver_create_file kern < 0)).
Proof.
  intros (Hf & Hr & Hm). wp_enter. unfold blinker_probe, services_ok.
  destruct (platform_get_resource kern) as [[start size]|]; [|unfold bad_exit_return; wp_run; exists (- EINVAL);
    split_and!; try done; intros _; split_and!; try done; split; [auto|done]].
  wp_step. wp_step. destruct (clk_get kern) as [rate|]; [|unfold bad_exit_return; wp_run; exists (- EINVAL);
    split_and!; try done; intros _; split_and!; try done; split; [auto|done]].
  do 4 wp_step. cbv zeta. set (r := driver_create_file kern).
  assert (Hno : 0 <= r -> (r < 0 <-> Some (start, size) = None \/ Some rate = None \/ r < 0)).
  { intros Hr0. split; [lia|]. intros [|[|]]; [done..|lia]. }
  destruct (Z.ltb_spec r 0) as [Hc|Hc].
  - unfold bad_exit_create_leds_file, driver_remove_file, bad_exit_return. wp_run. exists r. cbn.
    rewrite (proj2 (Z.leb_gt 0 r)) by lia. cbn. split_and!; try done. intros _. unfold unbound. cbn. rewrite Hf.
    split_and!; try done. split; [auto|lia].
  - rewrite (proj2 (Z.leb_le 0 r)) by lia. do 2 wp_step. destruct (request_mem_region kern); cbn [negb andb].
    + do 6 wp_step. destruct (Z.eqb_spec (ioremap kern) 0) as [E|E]; cbn [negb].
      * do 2 wp_step. unfold bad_exit_ioremap. wp_step. apply wp_release; cbn; [intros _|done|by right]. cbv iota.
        eapply wp_mono; [by apply bad_exit_request_mem_spec|]. intros o s' t (-> & Hu & Hcr). exists r.
        split_and!; try done. intros _. split_and!; try done; [apply Hu..|]. by apply Hno.
      * wp_run. exists 0. split_and!; try done. intros _. cbn. unfold region_held. cbn. rewrite Hf. by split_and!.
    + do 2 wp_step. eapply wp_mono; [by apply bad_exit_request_mem_spec|]. intros o s' t (-> & Hu & Hcr). exists r.
      split_and!; try done. intros _. split_and!; try done; [apply Hu..|]. by apply Hno.
Qed.

(** C38: The error paths of probe.  Probe always returns; when every service it
    needs succeeds it returns 0 with the "leds" attribute created (the only one
    of the four that ever is), the memory region reserved and mapped.  When any
    service fails, the files, the region and the mapping are given back, but the
    reference that clk_get took is not: once the clock was found, every path
    leaves it one reference up, and remove does not put it either.
    The status is negative when the resource, the clock or the attribute is
    missing, but when the region or the mapping is refused, probe reports the
    status of the last successful call, which is not an error: the kernel then
    takes the device as bound, and on removal the driver releases a region it
    does not hold. *)
Theorem probe_outcome (s : st D pd) : unbound (glob s) ->
  let r := blinker_probe s in
  let s' := glob (fin r) in
  let gone := fin (blinker_remove (fin r)) in
  exists v, out r = Val v /\
    (services_ok = true -> v = 0 /\ files s' = [attr_leds] /\ mapped s' = true /\ blinker_map_mem s' <> 0 /\
       region s' = platform_get_resource kern /\ clk_refs s' = S (clk_refs (glob s)) /\
       tr (blinker_remove (fin r)) = [Msg "blinker device successfully removed"]) /\
    (services_ok = false -> unbound s' /\
       (clk_refs s' = match platform_get_resource kern, clk_get kern with Some _, Some _ => S (clk_refs (glob s)) | _, _ => clk_refs (glob s) end) /\
       (v < 0 <-> platform_get_resource kern = None \/ clk_get kern = None \/ driver_create_file kern < 0) /\
       tr (blinker_remove (fin r)) = [Msg "Trying to free nonexistent resource"; Msg "blinker device successfully removed"]) /\
    unbound (glob gone) /\ clk_refs (glob gone) = clk_refs s'.
Proof.
  intros Hun. cbv zeta. destruct (probe_spec s Hun) as (v & Ho & Hok & Hbad). exists v. split; [done|]. split_and!.
  - intros E. destruct (Hok E) as (-> & Hf & Hm & Ha & Hh & Hr & Hc). split_and!; try done.
    by apply remove_spec; [right|].
  - intros E. destruct (Hbad E) as (Hu & Hc & Hv). split_and!; try done; try apply Hu.
    apply remove_spec; [left|]; apply Hu.
  - destruct services_ok; apply remove_spec; [right; by apply Hok|left; by apply Hbad].
  - destruct services_ok; apply remove_spec; [right; by apply Hok|left; by apply Hbad].
Qed.

(** ** The attributes *)

(** The stores do not check the range.  For every text that converts to a
    byte, 0 and values above 3 included, the byte is written to the
    configuration (speed) register and the caller is told that all its input was
    used; the guard meant to refuse values outside 1 to 3 never holds.  A
    missing or unreadable text gives -EINVAL and no access. *)
Theorem store_unchecked (buf : option string) (count : Z) (s : st D pd) :
  blinker_map_mem (glob s) <> 0 ->
  (forall t v, kstrtou8 kern t = Some v -> 0 <= v < 256) ->
  let a := blinker_map_mem (glob s) in
  match buf ≫= kstrtou8 kern with
  | Some v =>
      out (config_store buf count s) = Val count /\ out (speed_store buf count s) = Val count /\
      tr (config_store buf count s) = [Wr (a + 1) v; Msg "New configuration value"] /\
      tr (speed_store buf count s) = [Wr (a + 0) v; Msg "New speed value"]
  | None =>
      out (config_store buf count s) = Val (- EINVAL) /\ out (speed_store buf count s) = Val (- EINVAL) /\
      fin (config_store buf count s) = s /\ fin (speed_store buf count s) = s
  end.
Proof.
  intros Ha Hk a. unfold config_store, speed_store, iowrite8. destruct buf as [t|]; cbn; [|done].
  destruct (kstrtou8 kern t) as [v|] eqn:E; cbn; [|done]. apply Hk in E.
  assert (Hg : (v >? 3) && (v <? 1) = false) by (rewrite Z.gtb_ltb; destruct (Z.ltb_spec 3 v), (Z.ltb_spec v 1); lia).
  assert (Hu : u32 (u8 v) = v) by (unfold u32, u8; rewrite (Z.mod_small v) by lia; apply Z.mod_small; lia).
  rewrite Hg. unfold bind, get, writel, msg, ret. cbn. rewrite (proj2 (Z.eqb_neq _ _) Ha). cbn. rewrite Hu. done.
Qed.

End pd.

(** ** Witnesses *)

(** A decimal digit. *)
Definition digit (t : string) : option Z :=
  match t with
  | String c EmptyString =>
      let n := Z.of_nat (Ascii.nat_of_ascii c) - 48 in
      if (0 <=? n) && (n <=? 9) then Some n else None
  | _ => None
  end.

(** The region is refused. *)
Definition busy : kernel := mk_kernel (Some (BLINKER_BASE, 4096)) (Some 50000000) 0 false 0 0 digit.
Definition pd0 (a : Z) : st (gmap Z Z) pd := mk_st ∅ (mk_pd a 0 0 0 [] None false 0).

Lemma probe_outcome_witness :
  let r := blinker_probe busy (pd0 0) in
  exists v, out r = Val v /\ ~ v < 0 /\ unbound (glob (fin r)) /\
    tr (blinker_remove (fin r)) = [Msg "Trying to free nonexistent resource"; Msg "blinker device successfully removed"].
Proof.
  intros r. destruct (probe_outcome busy (pd0 0)) as (v & Ho & _ & Hbad & _); [by split_and!|].
  destruct (Hbad eq_refl) as (Hu & _ & Hv & Ht). exists v. split_and!; try assumption; try apply Hu.
  intros Hneg. apply Hv in Hneg as [E|[E|E]]; discriminate.
Defined.

(** 9 is stored although the guard wants 1 to 3. *)
Lemma store_unchecked_witness :
  out (config_store busy (Some "9"%string) 2 (pd0 0x1000)) = Val 2 /\
  tr (config_store busy (Some "9"%string) 2 (pd0 0x1000)) = [Wr 0x1001 9; Msg "New configuration value"].
Proof.
  destruct (store_unchecked busy (Some "9"%string) 2 (pd0 0x1000)) as (Ho & _ & Ht & _); [discriminate| |split; [exact Ho|exact Ht]].
  intros t v Hv. cbn in Hv. unfold digit in Hv. destruct t as [|c [|]]; try discriminate.
  destruct (_ && _) eqn:Hr; [|discriminate]. injection Hv as <-. apply andb_true_iff in Hr as [H0 H9].
  apply Z.leb_le in H0, H9. lia.
Defined.
