(* ===== verification/DevmemTools.v ===== *)
(** The command line tools that reach the peripherals through /dev/mem
    (driver/blinker_devmem_test, driver/test, driver/gpio_test).

    The three programs are the same skeleton around different options; a [tool]
    says what differs, its option string and its table of long options included.
    The command line is a list of options, as they are typed, and the words that
    are left over; what getopt_long makes of an option is computed from the
    tables.  What the system answers is a record.  A value [inl n] is an exit
    with status [n]. *)

From stdpp Require Import pretty.
From S2P Require Import Prelude Mmio Blinker.

(** The options of the three tools. *)
Inductive kind :=
| write_config | read_state | write_led | read_led | write_leds | read_switches | help.
#[export] Instance kind_eq_dec : EqDecision kind.
Proof. solve_decision. Defined.

(** The globals: which commands were requested, and the value. *)
Record cmdline := mk_cmdline { command : kind -> bool; param_value : Z }.

Definition request (k : kind) (g : cmdline) : cmdline :=
  mk_cmdline (fun k' => bool_decide (k = k') || command g k') (param_value g).
Definition set_param (v : Z) (g : cmdline) : cmdline := mk_cmdline (command g) v.

(** What the operating system and the C library answer. *)
Record os := mk_os {
  opendir : bool;               (* the sysfs entry exists *)
  closedir : bool;              (* it could be closed *)
  page_size : Z;                (* sysconf(_SC_PAGE_SIZE) *)
  open_dev_mem : Z;             (* a file descriptor, or negative *)
  mmap : option Z;              (* the address, or MAP_FAILED *)
  munmap : Z;
  atoi : string -> Z
}.

(** struct option; [flag] is NULL in every entry of the three programs. *)
Record long_option := mk_long { lo_name : string; lo_required : bool; lo_val : Z }.

Record tool := mk_tool {
  tool_base : Z;                        (* BLINKER_0_BASE, GPIO_TEST_0_BASE *)
  shortopts : list (Z * bool);          (* the option characters; true when followed by a colon *)
  long_options : list long_option;      (* the static table of parse_cmdline *)
  switch : Z -> option kind;            (* the case of an option character *)
  takes_value : kind -> bool;           (* the case assigns [param_value = atoi(optarg)] *)
  kinds : list kind                     (* the commands, in the order of main *)
}.

(** ** The command line

    An option as it is typed: -c or --name, and the word that goes with it.
    For a long option without argument the word is one behind an equals sign; a
    word behind a short option without argument is an extra word. *)
Inductive item :=
| Short (c : Z) (word : option string)
| Long (name : string) (word : option string).

Definition has_colon (t : tool) (c : Z) : option bool :=
  match List.find (fun o => fst o =? c) (shortopts t) with Some o => Some (snd o) | None => None end.

(** The entry of a long option.  None of the tables ends with the zero entry that
    getopt_long needs: a name that is not exactly that of an entry makes it read
    on behind the array. *)
Definition find_long (t : tool) (name : string) : option long_option :=
  List.find (fun e => String.eqb (lo_name e) name) (long_options t).

(** What getopt_long delivers for an option: the value it returns and optarg, 63
    being the question mark; None when it reads past the end of the table. *)
Definition getopt_long (t : tool) (i : item) : option (Z * option string) :=
  match i with
  | Short c word =>
      match has_colon t c with
      | None => Some (63, None)
      | Some false => Some (c, None)
      | Some true => match word with Some w => Some (c, Some w) | None => Some (63, None) end
      end
  | Long name word =>
      match find_long t name with
      | None => None
      | Some e => if Bool.eqb (lo_required e) (bool_decide (is_Some word)) then Some (lo_val e, word) else Some (63, None)
      end
  end.

(** The words that are left over. *)
Definition stray (t : tool) (i : item) : list string :=
  match i with
  | Short c (Some w) => match has_colon t c with Some true => [] | _ => [w] end
  | _ => []
  end.
Definition words (t : tool) (items : list item) (extra : list string) : list string :=
  List.concat (map (stray t) items) ++ extra.

Section tools.
Context {D : Type} `{Device D} (sys : os).
Abbreviation M := (M D cmdline).

(** A program that may exit. *)
Definition exit {A} (n : Z) : M (Z + A) := ret (inl n).
Definition and_then {A B} (m : M (Z + A)) (k : A -> M (Z + B)) : M (Z + B) :=
  let* r := m in match r with inl n => ret (inl n) | inr a => k a end.
Definition go : M (Z + unit) := ret (inr tt).

(** [error(1, 0, ...)] prints and exits with status 1. *)
Definition error {A} (m : string) : M (Z + A) := msg m ;;; exit 1.

Definition EXIT_SUCCESS : Z := 0.
Definition EXIT_FAILURE : Z := 1.
Definition ALT_LWFPGASLVS_OFST : Z := 0xff200000.


(** [printf("... %u\n", v)] *)
Definition print (label : string) (v : Z) : M unit := msg (label +:+ pretty (Z.to_N v))%string.

(** A byte register of the mapped page. *)
Definition write_reg (map off : Z) : M unit := let* g := get in writel (param_value g) (map + off).
Definition read_reg (map off : Z) : M Z := let* v := readl (map + off) in ret (u8 v).

Definition BLINKER_REG_CONFIG_OFFSET : Z := 1.
Definition BLINKER_REG_LEDS_OFFSET : Z := 0.
Definition BLINKER_REG_STATE_OFFSET : Z := 1.
Definition GPIO_TEST_REG_LEDS_OFFSET : Z := 0.
Definition GPIO_TEST_REG_SWITCHES_OFFSET : Z := 0.

Definition do_write_config (map : Z) : M unit := write_reg map BLINKER_REG_CONFIG_OFFSET.
Definition do_read_state (map : Z) : M unit :=
  let* dato := read_reg map BLINKER_REG_STATE_OFFSET in
  print "configuration = " (dato .& 0x0f) ;;; print "speed = " ((dato .& 0xf0) .>> 4).
Definition do_help (map : Z) : M unit := msg "help" ;;; msg "usage".
Definition do_write_led (map : Z) : M unit := write_reg map BLINKER_REG_LEDS_OFFSET.
Definition do_read_led (map : Z) : M unit :=
  let* dato := read_reg map BLINKER_REG_LEDS_OFFSET in print "leds = " (dato .& 0xff).
Definition do_write_leds (map : Z) : M unit := write_reg map GPIO_TEST_REG_LEDS_OFFSET.
Definition do_read_switches (map : Z) : M unit :=
  let* dato := read_reg map GPIO_TEST_REG_SWITCHES_OFFSET in print "switches = " (dato .& 0xff).

Definition do_kind (k : kind) : Z -> M unit :=
  match k with
  | write_config => do_write_config | read_state => do_read_state
  | write_led => do_write_led | read_led => do_read_led
  | write_leds => do_write_leds | read_switches => do_read_switches
  | help => do_help
  end.

Context (t : tool).

(** An address that is not page aligned is only reported. *)
Definition validate_soc_system : M (Z + unit) :=
  if negb (opendir sys) then msg "ERROR: blinker may not be present in the system hardware" ;;; exit EXIT_FAILURE else
  if negb (closedir sys) then msg "ERROR: blinker may not be present in the system hardware" ;;; exit EXIT_FAILURE else
  when (truthy ((ALT_LWFPGASLVS_OFST + tool_base t) .& (page_size sys - 1)))
    (msg "ERROR: blinker base is not page aligned" ;;; msg "Page size") ;;;
  go.

(** The case of one option: [optarg] is NULL for an option without argument. *)
Definition parse_option (c : Z) (optarg : option string) : M (Z + unit) :=
  match switch t c with
  | None => msg "usage" ;;; error "ERROR: wrong command line options."
  | Some k =>
      modify (request k) ;;;
      if takes_value t k then
        match optarg with
        | None => undef
        | Some a => modify (set_param (u8 (atoi sys a))) ;;; go
        end
      else go
  end.

Fixpoint parse_options (items : list item) : M (Z + unit) :=
  match items with
  | [] => go
  | i :: items =>
      match getopt_long t i with
      | None => undef
      | Some (c, optarg) => and_then (parse_option c optarg) (fun _ => parse_options items)
      end
  end.

Definition action_count (g : cmdline) : nat := length (List.filter (command g) (kinds t)).

Definition parse_cmdline (items : list item) (extra : list string) : M (Z + unit) :=
  and_then (parse_options items) (fun _ =>
  if negb (bool_decide (words t items extra = [])) then
    msg "extra characters on command line: " ;;; msg "usage" ;;; error "ERROR: wrong command line options"
  else
  let* g := get in
  if (action_count g =? 0)%nat then msg "usage" ;;; error "ERROR: no options parsed" else
  if (1 <? action_count g)%nat then msg "usage" ;;; error "ERROR: too many options parsed" else
  go).

(** [if (command_k != NULL) { do_k(map); }] for the commands in turn. *)
Fixpoint run_commands (ks : list kind) (map : Z) : M unit :=
  match ks with
  | [] => ret tt
  | k :: ks => let* g := get in when (command g k) (do_kind k map) ;;; run_commands ks map
  end.

Definition main (items : list item) (extra : list string) : M (Z + unit) :=
  and_then validate_soc_system (fun _ =>
  and_then (parse_cmdline items extra) (fun _ =>
  if open_dev_mem sys <? 0 then msg "devmem open" ;;; exit EXIT_FAILURE else
  match mmap sys with
  | None => msg "devmem mmap" ;;; exit EXIT_FAILURE
  | Some map =>
      run_commands (kinds t) map ;;;
      if munmap sys <? 0 then msg "devmem munmamp" ;;; exit EXIT_FAILURE else exit EXIT_SUCCESS
  end)).

End tools.

(** ** The three tools *)

(** driver/blinker_devmem_test: "c:sh" *)
Definition blinker_tool : tool :=
  mk_tool 0x40000 [(99, true); (115, false); (104, false)]
    [mk_long "write_config" true 99; mk_long "read_state" false 115; mk_long "help" false 104]
    (fun c => if c =? 99 then Some write_config else if c =? 115 then Some read_state
              else if c =? 104 then Some help else None)
    (fun k => bool_decide (k = write_config)) [write_config; read_state; help].

(** driver/test: "dlc:sh" *)
Definition led_tool : tool :=
  mk_tool 0x40000 [(100, false); (108, false); (99, true); (115, false); (104, false)]
    [mk_long "write_led" true 100; mk_long "read_led" false 108; mk_long "write_config" true 99;
     mk_long "read_state" false 115; mk_long "help" false 104]
    (fun c => if c =? 100 then Some write_led else if c =? 108 then Some read_led
              else if c =? 99 then Some write_config else if c =? 115 then Some read_state
              else if c =? 104 then Some help else None)
    (fun k => bool_decide (k = write_config) || bool_decide (k = write_led))
    [write_led; write_config; read_state; read_led; help].

(** driver/gpio_test: "l:sh" *)
Definition gpio_tool : tool :=
  mk_tool 0x40000 [(108, true); (115, false); (104, false)]
    [mk_long "write_led" true 108; mk_long "read_switches" false 115; mk_long "help" false 104]
    (fun c => if c =? 108 then Some write_leds else if c =? 115 then Some read_switches
              else if c =? 104 then Some help else None)
    (fun k => bool_decide (k = write_leds)) [write_leds; read_switches; help].

Definition tools : list tool := [blinker_tool; led_tool; gpio_tool].

(** ** One command, one access *)

Definition on_bus (e : event) : bool := match e with Msg _ => false | _ => true end.
Definition bus_events (t : trace) : trace := List.filter on_bus t.

Lemma bus_app t t' : bus_events (t ++ t') = bus_events t ++ bus_events t'.
Proof. apply List.filter_app. Qed.

(** *** What an option asks for

    A command has a letter and a name, and a write needs a value, whatever the
    tables say. *)
Definition letter (k : kind) : Z :=
  match k with
  | write_config => 99 | read_state | read_switches => 115
  | write_led => 100 | read_led | write_leds => 108 | help => 104
  end.
Definition kind_name (k : kind) : string :=
  match k with
  | write_config => "write_config" | read_state => "read_state" | write_led | write_leds => "write_led"
  | read_led => "read_led" | read_switches => "read_switches" | help => "help"
  end.
Definition wants_value (k : kind) : bool :=
  match k with write_config | write_led | write_leds => true | _ => false end.

(** An option asks for a command, with its value; or it is refused; or nothing
    is defined: a long name that no command of the tool has, and a write whose
    letter has no colon in the option string. *)
Inductive reading := Asks (k : kind) (v : option string) | Refused | Undefined.

Definition reading_of (t : tool) (i : item) : reading :=
  match i with
  | Long name word =>
      match List.find (fun k => String.eqb (kind_name k) name) (kinds t) with
      | None => Undefined
      | Some k => if Bool.eqb (wants_value k) (bool_decide (is_Some word)) then Asks k word else Refused
      end
  | Short c word =>
      match List.find (fun k => letter k =? c) (kinds t) with
      | None => Refused
      | Some k =>
          if wants_value k then
            if existsb (fun o => (fst o =? c) && snd o) (shortopts t)
            then match word with Some w => Asks k (Some w) | None => Refused end
            else Undefined
          else Asks k None
      end
  end.

Definition kind_of (t : tool) (i : item) : option kind := match reading_of t i with Asks k _ => Some k | _ => None end.

(** The options up to the first that is refused contain an undefined one. *)
Fixpoint line_undefined (t : tool) (items : list item) : bool :=
  match items with
  | [] => false
  | i :: items => match reading_of t i with Undefined => true | Refused => false | Asks _ _ => line_undefined t items end
  end.

(** What the tables and the cases of a tool make of an option. *)
Definition item_spec (t : tool) (i : item) : Prop :=
  match reading_of t i with
  | Asks k v => exists c, getopt_long t i = Some (c, v) /\ switch t c = Some k /\ k ∈ kinds t /\
                  takes_value t k = match v with Some _ => true | None => false end
  | Refused => exists c, getopt_long t i = Some (c, None) /\ switch t c = None
  | Undefined => getopt_long t i = None \/
      exists c k, getopt_long t i = Some (c, None) /\ switch t c = Some k /\ takes_value t k = true
  end.

Lemma tools_nodup t : In t tools -> NoDup (kinds t).
Proof. intros [<-|[<-|[<-|[]]]]; apply (bool_decide_unpack _); exact Logic.I. Qed.

Ltac find_cases :=
  repeat match goal with
         | |- context [Z.eqb ?n ?c] => is_var c; destruct (Z.eqb_spec n c) as [<-|]
         | |- context [String.eqb ?n ?c] => is_var c; destruct (String.eqb_spec n c) as [<-|]
         end.

Ltac item_done :=
  cbn; first
    [ eexists; split_and!; [reflexivity|reflexivity|apply list_elem_of_In; cbn; tauto|reflexivity]
    | eexists; split; reflexivity
    | left; reflexivity
    | right; do 2 eexists; split_and!; reflexivity ].

Lemma tools_items t i : In t tools -> item_spec t i.
Proof.
  intros [<-|[<-|[<-|[]]]]; destruct i as [c [w|]|name [w|]];
    unfold item_spec, reading_of, getopt_long, has_colon, find_long; cbn [shortopts long_options kinds blinker_tool led_tool
      gpio_tool List.find letter kind_name fst snd lo_name existsb]; find_cases; item_done.
Qed.

(** The value of the last option that carries one. *)
Fixpoint value (sys : os) (t : tool) (items : list item) (v : Z) : Z :=
  match items with
  | [] => v
  | i :: items => value sys t items (match reading_of t i with Asks _ (Some a) => u8 (atoi sys a) | _ => v end)
  end.

Section access.
Context {D : Type} `{Device D} (sys : os) (t : tool).
Hypothesis kinds_nodup : NoDup (kinds t).
Hypothesis items_ok : forall i, item_spec t i.
Abbreviation M := (M D cmdline).

(** All options ask for [k], and nothing else is on the command line. *)
Definition selects (items : list item) (extra : list string) (k : kind) : Prop :=
  items <> [] /\ words t items extra = [] /\ Forall (fun i => kind_of t i = Some k) items.

(** The bus accesses of a command. *)
Definition accesses (k : kind) (map v : Z) (b : trace) : Prop :=
  match k with
  | write_config => b = [Wr (map + 1) (u32 v)]
  | read_state => exists x, b = [Rd (map + 1) x]
  | write_led | write_leds => b = [Wr (map + 0) (u32 v)]
  | read_led | read_switches => exists x, b = [Rd (map + 0) x]
  | help => b = []
  end.

Definition asked (items : list item) (k : kind) : bool :=
  existsb (fun i => bool_decide (kind_of t i = Some k)) items.

Definition understood (items : list item) : Prop := Forall (fun i => is_Some (kind_of t i)) items.

(** What the options leave: undefined behaviour, an exit, or the requests. *)
Definition options_post (items : list item) (s : st D cmdline) (o : outcome (Z + unit)) (s' : st D cmdline) (b : trace) : Prop :=
  bus_events b = [] /\
  if line_undefined t items then o = Stop Undef else
  (o = Val (inl 1) /\ ~ understood items) \/
  (o = Val (inr tt) /\ understood items /\ (forall k, command (glob s') k = command (glob s) k || asked items k) /\
   param_value (glob s') = value sys t items (param_value (glob s))).

Lemma options_cons i items k v (s s1 : st D cmdline) o s' b :
  reading_of t i = Asks k v ->
  (forall k', command (glob s1) k' = bool_decide (k = k') || command (glob s) k') ->
  param_value (glob s1) = match v with Some a => u8 (atoi sys a) | None => param_value (glob s) end ->
  options_post items s1 o s' b -> options_post (i :: items) s o s' b.
Proof.
  intros Hr Hc Hp [Hb Ho]. split; [done|]. cbn [line_undefined value]. rewrite Hr.
  assert (Hk : kind_of t i = Some k) by (unfold kind_of; by rewrite Hr).
  destruct (line_undefined t items); [done|]. unfold understood in *. rewrite Forall_cons, Hk.
  destruct Ho as [[-> Hn]|(-> & Hu & Hcmd & Hv)]; [left|right].
  - split; [done|]. tauto.
  - split_and!; [done|by eexists|done| |].
    + intros k'. rewrite Hcmd, Hc. unfold asked. cbn. rewrite Hk.
      rewrite (bool_decide_ext (Some k = Some k') (k = k')) by (split; congruence).
      by destruct (bool_decide (k = k')), (command (glob s) k').
    + rewrite Hv, Hp. by destruct v.
Qed.

Lemma parse_options_spec items (s : st D cmdline) :
  wp (parse_options sys t items) s (options_post items s).
Proof.
  revert s. induction items as [|i items IH]; intros s; cbn [parse_options].
  - unfold go. wp_step. split; [done|]. right. split_and!; [done|by constructor| |done]. intros k. by rewrite orb_false_r.
  - pose proof (items_ok i) as Hi. unfold item_spec in Hi. destruct (reading_of t i) as [k v| |] eqn:Hr.
    + destruct Hi as (c & -> & Hk & _ & Hv). unfold and_then, parse_option, go. rewrite Hk, Hv. do 3 wp_step.
      destruct v as [a|]; [do 3 wp_step|wp_step]; cbn [app]; (eapply wp_mono; [apply IH|]);
        intros o s' b; apply (options_cons _ _ _ _ _ _ _ _ _ Hr); done.
    + destruct Hi as (c & -> & Hk). unfold and_then, parse_option, error, exit. rewrite Hk. do 6 wp_step.
      split; [done|]. cbn [line_undefined]. rewrite Hr. left. split; [done|]. unfold understood, kind_of.
      rewrite Forall_cons, Hr. by intros [[] _].
    + assert (Hu : forall b s', bus_events b = [] -> options_post (i :: items) s (Stop Undef) s' b).
      { intros b s' Hb. split; [done|]. cbn [line_undefined]. by rewrite Hr. }
      destruct Hi as [->|(c & k & -> & Hk & Hv)]; [wp_step; by apply Hu|].
      unfold and_then, parse_option. rewrite Hk, Hv. wp_run. by apply Hu.
Qed.

Lemma asked_in items k : asked items k = true <-> exists i, In i items /\ kind_of t i = Some k.
Proof.
  unfold asked. rewrite existsb_exists. split; intros (o & Hin & Ho); exists o; (split; [done|]);
    [by apply bool_decide_eq_true in Ho|by apply bool_decide_eq_true].
Qed.

Lemma kind_of_in i k : kind_of t i = Some k -> k ∈ kinds t.
Proof.
  pose proof (items_ok i) as Hi. unfold item_spec, kind_of in *. destruct (reading_of t i); [|done..].
  destruct Hi as (c & _ & _ & Hin & _). by intros [= <-].
Qed.

Lemma filter_single (f : kind -> bool) ks k : NoDup ks -> k ∈ ks -> (forall k', f k' = true <-> k' = k) -> List.filter f ks = [k].
Proof.
  intros Hn Hin Hf. induction Hn as [|k' ks Hk' Hn IH]; [by apply not_elem_of_nil in Hin|]. cbn.
  apply elem_of_cons in Hin as [<-|Hin].
  - rewrite (proj2 (Hf k) eq_refl). f_equal. apply filter_nil_Forall, List.Forall_forall. intros k' Hin.
    destruct (f k') eqn:E; [|done]. apply Hf in E. subst. apply list_elem_of_In in Hin. done.
  - destruct (f k') eqn:E; [|by apply IH]. apply Hf in E. by subst.
Qed.

(** The number of distinct commands on a valid command line. *)
Lemma count_commands opts : understood opts ->
  match List.filter (asked opts) (kinds t) with
  | [] => opts = []
  | [k] => opts <> [] /\ Forall (fun o => kind_of t o = Some k) opts
  | _ => forall k, ~ Forall (fun o => kind_of t o = Some k) opts
  end.
Proof.
  unfold understood. intros Hv. assert (Hall : forall o, In o opts -> exists k, kind_of t o = Some k /\ In k (List.filter (asked opts) (kinds t))).
  { intros o Hin. rewrite List.Forall_forall in Hv. destruct (Hv o Hin) as [k Hk]. exists k. split; [done|].
    apply filter_In. split; [apply list_elem_of_In; by eapply kind_of_in|]. apply asked_in. by exists o. }
  destruct (List.filter (asked opts) (kinds t)) as [|k [|k' l]] eqn:E.
  - destruct opts as [|o opts]; [done|]. by destruct (Hall o (or_introl eq_refl)) as (? & _ & []).
  - split.
    + intros ->. assert (Hin : In k (List.filter (asked []) (kinds t))) by (rewrite E; by left).
      apply filter_In in Hin as [_ Hin]. discriminate.
    + apply List.Forall_forall. intros o Hin. destruct (Hall o Hin) as (k' & Hk & [<-|[]]). done.
  - intros k0 Hf. assert (Hk : forall k, asked opts k = true <-> k = k0).
    { intros k1. rewrite asked_in. rewrite List.Forall_forall in Hf. split.
      - intros (o & Hin & Ho). rewrite (Hf o Hin) in Ho. congruence.
      - intros ->. destruct opts as [|o opts]; [|exists o; split; [by left|apply Hf; by left]].
        assert (Hin : In k (List.filter (asked []) (kinds t))) by (rewrite E; by left).
        apply filter_In in Hin as [_ Hin]. discriminate. }
    rewrite (filter_single _ _ k0 kinds_nodup) in E; [done| |done].
    assert (Hin : In k (List.filter (asked opts) (kinds t))) by (rewrite E; by left).
    apply filter_In in Hin as [Hin Ha]. apply Hk in Ha. subst. by apply list_elem_of_In.
Qed.

Lemma do_kind_spec k map (s : st D cmdline) :
  wp (do_kind k map) s (fun o s' b => o = Val tt /\ glob s' = glob s /\ accesses k map (param_value (glob s)) (bus_events b)).
Proof.
  destruct k; cbn [do_kind]; unfold do_write_config, do_read_state, do_help, do_write_led, do_read_led, do_write_leds,
    do_read_switches, write_reg, read_reg, print; wp_run; cbn; eauto.
Qed.

Lemma run_commands_spec ks map (s : st D cmdline) :
  wp (run_commands ks map) s (fun o _ b => o = Val tt /\
    match List.filter (command (glob s)) ks with
    | [] => bus_events b = []
    | [k] => accesses k map (param_value (glob s)) (bus_events b)
    | _ => True
    end).
Proof.
  revert s. induction ks as [|k ks IH]; intros s; cbn [run_commands List.filter]; [by wp_step|]. do 2 wp_step.
  destruct (command (glob s) k) eqn:Hk; cbn [when]; wp_step.
  - eapply wp_mono; [apply do_kind_spec|]. intros o s1 b1 (-> & E1 & Ha). cbv iota.
    eapply wp_mono; [apply IH|]. intros o s2 b2 (-> & Hb). split; [done|]. rewrite E1 in Hb.
    destruct (List.filter (command (glob s)) ks) as [|k' l]; [|done]. rewrite !bus_app, Hb, app_nil_r. exact Ha.
  - wp_step. eapply wp_mono; [apply IH|]. intros o s2 b2 (-> & Hb). done.
Qed.

Lemma parse_cmdline_spec items extra (s : st D cmdline) : (forall k, command (glob s) k = false) ->
  wp (parse_cmdline sys t items extra) s (fun o s' b => bus_events b = [] /\
    if line_undefined t items then o = Stop Undef else
    (o = Val (inl 1) /\ forall k, ~ selects items extra k) \/
    (o = Val (inr tt) /\ exists k, selects items extra k /\ List.filter (command (glob s')) (kinds t) = [k] /\
       param_value (glob s') = value sys t items (param_value (glob s)))).
Proof.
  intros H0. unfold parse_cmdline, and_then. wp_step. eapply wp_mono; [apply parse_options_spec|].
  intros o s1 b1 [Hb1 Ho]. destruct (line_undefined t items); [by rewrite Ho|].
  destruct Ho as [[-> Hn]|(-> & Hv & Hcmd & Hval)]; cbv iota.
  { wp_step. rewrite bus_app, Hb1. split; [done|]. left. split; [done|]. intros k (_ & _ & Hf). apply Hn.
    eapply List.Forall_impl; [|exact Hf]. intros i ->. by eexists. }
  assert (Hfilter : forall ks, List.filter (command (glob s1)) ks = List.filter (asked items) ks).
  { intros ks. apply List.filter_ext. intros k. by rewrite Hcmd, H0. }
  pose proof (count_commands items Hv) as Hcount. unfold error, exit, go.
  destruct (bool_decide (words t items extra = [])) eqn:He; cbn [negb].
  - apply bool_decide_eq_true in He. do 2 wp_step. unfold action_count. rewrite Hfilter.
    destruct (List.filter (asked items) (kinds t)) as [|k [|k' l]] eqn:E; cbn [length Nat.eqb Nat.ltb Nat.leb].
    + wp_run. rewrite bus_app, Hb1. split; [done|]. left. split; [done|]. intros k (Hne & _). done.
    + wp_step. rewrite bus_app, Hb1. split; [done|]. right. split; [done|]. exists k. destruct Hcount as [Hne Hall].
      split; [by split_and!|]. rewrite Hfilter. by split.
    + wp_run. rewrite bus_app, Hb1. split; [done|]. left. split; [done|]. intros k0 (_ & _ & Hf). by eapply Hcount.
  - apply bool_decide_eq_false in He. wp_run. rewrite bus_app, Hb1. split; [done|]. left. split; [done|].
    by intros k (_ & ? & _).
Qed.

(** The device file and the mapping are there. *)
Definition os_ready (map : Z) : Prop := 0 <= open_dev_mem sys /\ mmap sys = Some map.

Definition sysfs_entry : bool := opendir sys && closedir sys.

Lemma validate_spec (s : st D cmdline) :
  wp (validate_soc_system sys t : M (Z + unit)) s (fun o s' b => bus_events b = [] /\ s' = s /\
    o = Val (if sysfs_entry then inr tt else inl 1)).
Proof.
  unfold validate_soc_system, sysfs_entry, exit, go. destruct (opendir sys), (closedir sys); cbn [negb andb]; wp_run; done.
Qed.

Lemma main_spec (items : list item) (extra : list string) (s : st D cmdline) :
  (forall k, command (glob s) k = false) ->
  wp (main sys t items extra) s (fun o _ b =>
  if sysfs_entry && line_undefined t items then o = Stop Undef /\ bus_events b = []
  else
    (exists k map, sysfs_entry = true /\ selects items extra k /\ os_ready map /\
       accesses k map (value sys t items (param_value (glob s))) (bus_events b) /\
       o = Val (inl (if munmap sys <? 0 then 1 else 0))) \/
    ((forall k map, ~ (sysfs_entry = true /\ selects items extra k /\ os_ready map)) /\
       o = Val (inl 1) /\ bus_events b = [])).
Proof.
  intros H0. unfold main, and_then, exit. wp_step. eapply wp_mono; [apply validate_spec|].
  intros o s0 b0 (Hb0 & -> & ->). destruct sysfs_entry eqn:Es; cbn [andb]; cbv iota.
  2:{ wp_step. rewrite app_nil_r. right. split_and!; [by intros k map [? _]|done|done]. }
  wp_step. eapply wp_mono; [by apply parse_cmdline_spec|].
  intros o s1 b1 [Hb1 Ho]. destruct (line_undefined t items).
  { rewrite Ho, bus_app, Hb0, Hb1. done. }
  destruct Ho as [[-> Hn]|(-> & k & Hsel & Hf & Hval)]; cbv iota.
  { wp_step. rewrite !bus_app, Hb0, Hb1. right. split_and!; [|done..]. intros k map (_ & ? & _). by eapply Hn. }
  destruct (Z.ltb_spec (open_dev_mem sys) 0) as [Ho|Ho].
  { wp_run. rewrite !bus_app, Hb0, Hb1. right. split_and!; [|done..]. intros k' map (_ & _ & ? & _). lia. }
  destruct (mmap sys) as [map|] eqn:E3.
  - wp_step. eapply wp_mono; [apply run_commands_spec|]. intros o s2 b2 (-> & Ha). cbv iota. rewrite Hf, Hval in Ha. left.
    exists k, map. split_and!; try done; rewrite ?bus_app, ?Hb0, ?Hb1; [|by destruct (munmap sys <? 0)].
    by destruct (munmap sys <? 0); cbn; rewrite app_nil_r.
  - wp_run. rewrite !bus_app, Hb0, Hb1. right. split_and!; [|done..]. intros k' map (_ & _ & _ & ?). congruence.
Qed.

End access.


(** ** The undefined command lines

    What is undefined: for the two tools with matching tables only an unknown
    long name, for the tool with LEDs also -d. *)
Lemma undefined_items t i : In t tools -> reading_of t i = Undefined ->
  (exists name word, i = Long name word /\ ~ In name (map kind_name (kinds t))) \/
  (t = led_tool /\ exists word, i = Short 100 word).
Proof.
  intros [<-|[<-|[<-|[]]]]; destruct i as [c [w|]|name [w|]]; unfold reading_of;
    cbn [shortopts kinds blinker_tool led_tool gpio_tool List.find letter kind_name fst snd existsb]; find_cases; cbn;
    try discriminate; intros _; first
    [ left; eexists _, _; split; [reflexivity|cbn; intuition congruence]
    | right; split; [reflexivity|eexists; reflexivity] ].
Qed.

Example led_tool_crashes {D : Type} `{Device D} (sys : os) word (s : st D cmdline) :
  opendir sys = true -> closedir sys = true ->
  out (main sys led_tool [Short 100 word] [] s) = Stop Undef.
Proof.
  intros E1 E2. unfold main, validate_soc_system, and_then. rewrite E1, E2. cbn [negb]. by destruct (truthy _).
Qed.

(** ** Witnesses *)

Definition os0 : os := mk_os true true 4096 3 (Some 0x76f00000) 0 (fun _ => 5).
Definition cmdline0 : st (gmap Z Z) cmdline := mk_st ∅ (mk_cmdline (fun _ => false) 0).


(** "--help=me" is refused, "--hel" reads past the table, and "-d 5" of
    driver/test passes a null pointer to atoi. *)
Example refused_and_undefined :
  out (main os0 gpio_tool [Long "help" (Some "me"%string)] [] cmdline0) = Val (inl 1) /\
  out (main os0 gpio_tool [Long "hel" None] [] cmdline0) = Stop Undef /\
  out (main os0 led_tool [Short 100 (Some "5"%string)] [] cmdline0) = Stop Undef.
Proof. split_and!; reflexivity. Qed.
